(* ===== verification/_CoqProject ===== *)
-Q . S2P
Prelude.v
IO.v
GoStrings.v
Base64.v
Deploynet.v
Sha256.v
Http.v
Clients.v
GoFloat.v
Redis.v
Amount.v
Stellar.v
Instances.v
Otp.v
WalletNonce.v
RateLimit.v
Tables.v
WebStore.v
Service.v
Sessions.v
Signers.v
ExecuteAuth.v
WebAuthn.v
Rpid.v
ContextRules.v
Tokens.v
Submit.v
Drafts.v
Accounts.v
Proposals.v
DemoProposals.v
SubmitBatch.v
SubmitSigned.v
Build.v
BuildTx.v
SmartAccounts.v
AccountSigners.v
SetupRules.v
Routes.v
OnRamp.v
OnRampTheorems.v
Gasless.v
Relayer.v
ClientTheorems.v
Ceremonies.v
CeremonyRoutes.v
MultisigRoutes.v
CeremonyTheorems.v
DemoBuild.v
SignerTheorems.v
RouteTheorems.v
MobileStore.v
Mobile.v
MobileData.v
Funding.v
MobileRoutes.v
AuthRoutes.v
MobileDataTheorems.v
FeedTheorems.v
MobileSafety.v
ProposalSafety.v
MultisigTheorems.v
SignPayload.v
SignPayloadTheorems.v
WebRoutes.v
TxRoutes.v
RelayTheorems.v
Rpc.v
History.v
StartUp.v
Prices.v
StartTheorems.v
ReadTheorems.v
WebTheorems.v
Router.v
RouterTheorems.v
ProposalDigest.v
BuildTheorems.v
RuleTheorems.v
Execution.v
