(* ===== verification/Prelude.v ===== *)
(** * Latch API: verification development

    Latch is the backend of a smart wallet on Stellar. The server (package
    [cmd/server]) answers two groups of clients: the mobile wallet ([/api/v1],
    with bearer tokens) and the web app and browser extension ([/webapp], with a
    session cookie). Accounts are Soroban contracts whose context rules name
    their signers — passkeys, ed25519 keys, other accounts —, so most of the
    program builds, checks, completes and sends transactions whose authorization
    entries those signers sign. State lives in Postgres and Redis; the network is
    reached over Soroban RPC and Horizon; transactions leave through a bundler
    key or a gasless service; the relayer takes deposits; two providers sell
    on-ramp purchases; one quotes prices.

    ** How the code is modelled

    A handler or service method is a function in the monad [M S A = S -> res A * S]
    (below): the state is threaded explicitly and a Go [error] is a value of
    [error], so every early return is a branch. The state of a service is a
    [World] (IO): its store — a record of finite maps, one per table, or a Redis —
    and the number of effects performed so far. The environment ([Env]) answers the
    n-th effect: the clock, a new UUID, random bytes, and whether that round trip
    to the database fails; theorems quantify over all environments, hence over all
    failures at all places. A statement runs whole or not at all; [transact] rolls
    back. Calls to the network take the effect's number too, so that a network may
    change its mind between two calls. Where time matters (Clients) the world also
    has a clock that every request and wait moves on, and a list of the requests
    sent. Integers of a fixed width wrap where the code converts them.

    ** Files

    Foundations.
    - Prelude: errors, results, the monad, its inversion lemmas, the [keeps]
      combinators for relations between the states before and after, the tactics
      [run_step], and the [keeps] hint database.
    - IO: effects, statements, transactions; [run_inv] and [keeps].
    - GoStrings, Base64, Sha256, GoFloat, Http: what the code uses of
      Go's standard library. Tables: selection, order, update on a table's map.
      Redis: its commands with deadlines. Clients: requests under a deadline.
    - Stellar: Soroban values, authorization entries, host functions, digests, and
      [StellarSDK], the SDK as a class. Instances, DemoProposals, DemoBuild: one
      concrete choice for every class, for the witnesses.

    The web app ([internal/service/webapp], [internal/handler/webapp]).
    - WebStore: the tables and the generated statements. Service: helpers the
      services share, and the factory as a class with laws. Sessions.
    - Signers, Drafts, Accounts, Proposals, ExecuteAuth: multisig wallets, from
      the draft that collects signers to the proposal that is signed and executed.
      MultisigRoutes: their routes. Theorems: in the same files, and ProposalSafety,
      ProposalDigest (with rebuilding), Execution, MultisigTheorems.
    - ContextRules (with the asset catalogue and balances), Amount.
    - Submit, SubmitBatch, SubmitSigned, Build, BuildTx, SetupRules, Routes: the
      transaction service — building a transaction and what is to be signed of it,
      taking the signature back, sending, confirming —, rule changes, and the
      routes. Theorems: BuildTheorems, RuleTheorems (with swaps), RouteTheorems.
    - Rpid, Ceremonies, CeremonyRoutes: passkey registration and sign-in.
      CeremonyTheorems. AccountSigners and SignerTheorems: whose credential signs for
      which account, backups, the recovery index. SmartAccounts: deployment.
    - OnRamp, OnRampTheorems. SignPayload, SignPayloadTheorems. WebRoutes (accounts,
      deployment, recovery, notifications), WebTheorems.

    The mobile API ([internal/service], [internal/handler]).
    - Otp, WalletNonce, RateLimit, Tokens, WebAuthn: codes, challenges, limits, tokens
      and passkey assertions, with their theorems. Mobile: wallet sign-in, proofs of
      possession, sponsored deployment; MobileSafety. MobileStore, MobileData,
      MobileRoutes, Funding, AuthRoutes: tables, services and routes of the wallet's
      data; MobileDataTheorems, FeedTheorems.
    - Gasless, Relayer, ClientTheorems: the two clients that keep a budget. TxRoutes,
      RelayTheorems: the bundler's allowlist, and transactions built and relayed for
      the phone. Rpc: the JSON-RPC client, Horizon, and the instances of [Network] and
      [SubmitNetwork] they give the services above. History, Prices; ReadTheorems.

    The server. Deploynet: the network served. StartUp: configuration, the stamps of
    database and Redis, the start, the sweep; StartTheorems. Router: the table of
    routes under every configuration and the middleware; RouterTheorems.

    A definition has the name of the Go function, or of the part of it that its
    comment names; [X_handler] is the route [X]; a record has the fields of its
    struct behind a prefix.

    ** Interfaces

    A service is proved against what it is given: [Network] and [SubmitNetwork] (the
    chain, in Service and Submit), [Gasless], [SmartAccountFactory], [Jwt], [Http].
    Rpc discharges the first two ([rpc_network], [rpc_submit_network]), Gasless the
    third and SmartAccounts the fourth; the last two belong to code outside.

    ** What the theorems show

    - What is executed is what was proposed and approved: [executed_operation] (the
      transaction that leaves calls what the proposal describes, a refinement),
      [execute_authorised], [digest_coherence], [approval_authorised], [execute_once],
      and the invariants of proposals and drafts.
    - What is signed is what was built: [send_binds_digest], [plan_affordable],
      [swap_spec]; a rule change cannot remove the rule it needs
      ([removal_keeps_authorizing_rule]); a confirmation records what the chain settled
      ([confirm_add_authentic], [signers_invariant]).
    - Nobody acts without proof: [handlers_identified], [closed_doors],
      [passkey_sign_in], [challenge_single_use], [login_moves_session],
      [sign_in_authentic], [sponsored_needs_proof], [refresh_single_use],
      [otp_guess_bound], [listed_accounts], [web_feed_private], [relay_allowlist].
    - The server runs on what it checked: [start_checked], [one_network].
    - What is answered is what the outside said: [prices_reported], [relay_truthful],
      [history_page], [gasless_submission], [relayer_wakes], [session_funded].
    - Data survives: [payload_round_trip], [payload_single_use], [pages_complete],
      [cosign_queue_invariant], [purchases_invariant], [parse_format], and the parser of
      authenticator data against its layout ([authenticator_data_layout]).

    ** Bounds and fuel

    Loops of the code with a constant bound have that bound: context-rule scans visit
    at most 64 ids, a submission polls 30 times after a deployment and 20 times
    otherwise, the phone's relay 20 times, the start asks the RPC three times. The
    loops bounded by time alone — the gasless poll and the relayer's retries — take
    fuel computed from the budget and the interval, one more than the waits that fit,
    and [gasless_submission] and [relayer_wakes] show that the budget ends first. The
    shortest decimal of a float64 is searched up to 17 digits, which always suffice.
    Other recursions are structural; [ticks] in the sweep is how long one looks.

    Hypotheses that recur: a JSON encoder decodes what it encoded; identifiers fit the
    int32 or uint32 column they are narrowed to; random values are fresh
    ([fresh_rand]); a code's guesses fall in its lifetime; a simulation names fewer than
    2^31 entries. Each is a named premise of the theorems that
    use it, and the witnesses show that it can hold.

    ** Not modelled

    - Concurrency between requests: a handler runs alone between its effects. Where the
      code depends on it two things are modelled: two rotations of one token
      ([rotation_race] in Tokens) and servers that start and work on shared stores
      ([Others] in StartUp). Worker pools and pushes in the background run in
      sequence; a Go map is ranged over in the order its keys were added.
    - Code outside the repository, as classes: signing and parsing of tokens, ECDSA and
      ed25519, CBOR, JSON, the AEAD, PBKDF2 and HMAC's use of them, XDR and strkeys,
      UUID text, jsonb, literals of IP addresses, gin's look-up of a route, migrations.
    - A panic is an error that nothing handles; it is not told apart from other errors
      further up, except where a definition says so.
    - Binding a JSON body is the list of its required fields; limits on a body's size
      and routes are in Router. Errors of [http.NewRequest] on a malformed URL are left
      out; [HORIZON_URL] is a scheme and a host; numbers are read in decimal.
    - Audit records, metrics, logs, the text and delivery of e-mail and pushes,
      connection pools, the migration command, swagger documentation, and the
      declarations of interfaces: input and output without decisions of their own. *)

From stdpp Require Export base gmap strings list sorting pretty numbers.
From Stdlib Require Export ZArith Lia Ascii String.
From stdpp Require Export base list strings option.
(** stdpp's list lemmas take precedence over the homonyms of [List]. *)
Export stdpp.list_basics.list stdpp.list_monad.list stdpp.list_relations.list
  stdpp.list_misc.list stdpp.list_numbers.list stdpp.list_tactics.list.

#[export] Set Default Proof Using "Type".

Open Scope Z_scope.
#[global] Arguments String.append : simpl nomatch.

(** ** Go errors

    A sentinel is named by the Go variable that holds it; [fmt.Errorf] with
    [%w] is [Wrapf], without it [Errorf]. An error of a struct type is [ApiError]:
    the type, the HTTP status it carries, and what it unwraps to — or its message,
    when it has no [Unwrap]. [Wrap2] is [fmt.Errorf] with two [%w]. *)
Inductive error :=
  | Sentinel (var : string)
  | Wrapf (ctx : string) (e : error)
  | Errorf (msg : string)
  | ApiError (type : string) (status : Z) (inner : error)
  | Wrap2 (ctx : string) (e1 e2 : error).

#[export] Instance error_eq_dec : EqDecision error.
Proof. solve_decision. Defined.

(** [errors.Is]: the error itself or anything it wraps. *)
Fixpoint errors_is (e target : error) : bool :=
  bool_decide (e = target) ||
  match e with
  | Wrapf _ e' | ApiError _ _ e' => errors_is e' target
  | Wrap2 _ e1 e2 => errors_is e1 target || errors_is e2 target
  | _ => false
  end.

(** [(T, error)] results: exactly one of the two is meaningful. *)
Inductive res (A : Type) :=
  | Ok (a : A)
  | Err (e : error).
Arguments Ok {A} a.
Arguments Err {A} e.

Definition is_ok {A} (r : res A) : bool := match r with Ok _ => true | Err _ => false end.

Definition res_bind {A B} (r : res A) (k : A -> res B) : res B :=
  match r with Ok a => k a | Err e => Err e end.

(** [if err != nil { return fmt.Errorf("ctx: %w", err) }] *)
Definition res_wrap {A} (ctx : string) (r : res A) : res A :=
  match r with Ok a => Ok a | Err e => Err (Wrapf ctx e) end.

(** ** The handler monad: explicit state and a Go error *)
Definition M (S A : Type) : Type := S -> res A * S.

Definition ret {S A} (a : A) : M S A := fun s => (Ok a, s).
Definition throw {S A} (e : error) : M S A := fun s => (Err e, s).
Definition bind {S A B} (m : M S A) (k : A -> M S B) : M S B :=
  fun s => match m s with
           | (Ok a, s') => k a s'
           | (Err e, s') => (Err e, s')
           end.
Definition lift {S A} (r : res A) : M S A := fun s => (r, s).
Definition wrap {S A} (ctx : string) (m : M S A) : M S A :=
  fun s => match m s with
           | (Ok a, s') => (Ok a, s')
           | (Err e, s') => (Err (Wrapf ctx e), s')
           end.
(** The two results of a call, for code that inspects [err] itself. *)
Definition attempt {S A} (m : M S A) : M S (res A) :=
  fun s => let '(r, s') := m s in (Ok r, s').

Declare Scope go_scope.
Delimit Scope go_scope with go.
Notation "'let!' x := m 'in' k" := (bind m (fun x => k))
  (at level 10, x name, m at level 100, k at level 200, only parsing) : go_scope.
Notation "'let!' ' p := m 'in' k" := (bind m (fun x => match x with p => k end))
  (at level 10, p pattern, m at level 100, k at level 200, only parsing) : go_scope.
Notation "'let?' x := m 'in' k" := (res_bind m (fun x => k))
  (at level 10, x name, m at level 100, k at level 200, only parsing) : go_scope.
Notation "'let?' ' p := m 'in' k" := (res_bind m (fun x => match x with p => k end))
  (at level 10, p pattern, m at level 100, k at level 200, only parsing) : go_scope.
Notation "m1 ;;; m2" := (bind m1 (fun _ => m2))
  (at level 100, m2 at level 200, right associativity, only parsing) : go_scope.
Open Scope go_scope.

(** Go's [for] over a slice whose body may fail: the first error stops it. *)
Fixpoint mapM {S A B} (f : A -> M S B) (l : list A) : M S (list B) :=
  match l with
  | [] => ret []
  | x :: l' => let! y := f x in let! ys := mapM f l' in ret (y :: ys)
  end.

Fixpoint res_map {A B} (f : A -> res B) (l : list A) : res (list B) :=
  match l with
  | [] => Ok []
  | x :: l' => let? y := f x in let? ys := res_map f l' in Ok (y :: ys)
  end.

(** The same with the index, as in [for i, x := range l]. *)
Fixpoint res_imap_from {A B} (i : nat) (f : nat -> A -> res B) (l : list A) : res (list B) :=
  match l with
  | [] => Ok []
  | x :: l' => let? y := f i x in let? ys := res_imap_from (S i) f l' in Ok (y :: ys)
  end.

(** ** Lists related element by element *)
Lemma Forall2_elem_of_l {A B} (R : A -> B -> Prop) l es a :
  Forall2 R l es -> a ∈ l -> exists e, e ∈ es /\ R a e.
Proof.
  intros Hf. induction Hf as [|x y l es Hxy Hf IH]; [by intros ?%not_elem_of_nil|].
  intros [->|Ha]%elem_of_cons; [exists y; split; [left|done]|].
  destruct (IH Ha) as (e & He & Hr). exists e. split; [by right|done].
Qed.

Lemma Forall2_elem_of_r {A B} (R : A -> B -> Prop) l es e :
  Forall2 R l es -> e ∈ es -> exists a, a ∈ l /\ R a e.
Proof.
  intros Hf. induction Hf as [|x y l es Hxy Hf IH]; [by intros ?%not_elem_of_nil|].
  intros [->|He]%elem_of_cons; [exists x; split; [left|done]|].
  destruct (IH He) as (a & Ha & Hr). exists a. split; [by right|done].
Qed.

(** ** Running a handler: inversion and weakest preconditions *)
Section Monad.
Context {S : Type}.
Implicit Types s : S.

Lemma bind_ok {A B} (m : M S A) (k : A -> M S B) s b s' :
  bind m k s = (Ok b, s') <-> exists a s1, m s = (Ok a, s1) /\ k a s1 = (Ok b, s').
Proof.
  unfold bind. destruct (m s) as [[a|e] s1].
  - split; [eauto | intros (a' & s1' & [= <- <-] & H); exact H].
  - split; [discriminate | intros (? & ? & [=] & _)].
Qed.

Lemma bind_run {A B} (m : M S A) (k : A -> M S B) s a s1 :
  m s = (Ok a, s1) -> bind m k s = k a s1.
Proof. unfold bind. by intros ->. Qed.

Lemma bind_err {A B} (m : M S A) (k : A -> M S B) s e s' :
  bind m k s = (Err e, s') <->
  m s = (Err e, s') \/ exists a s1, m s = (Ok a, s1) /\ k a s1 = (Err e, s').
Proof.
  unfold bind. destruct (m s) as [[a|e0] s1].
  - split; [eauto | intros [[=]|(a' & s1' & [= <- <-] & H)]; exact H].
  - split; [intros [= -> ->]; by left | intros [[= -> ->]|(? & ? & [=] & _)]; done].
Qed.

Lemma ret_ok {A} (a b : A) s s' : ret a s = (Ok b, s') <-> a = b /\ s = s'.
Proof. unfold ret. split; [by intros [= -> ->] | by intros [-> ->]]. Qed.

Lemma throw_ok {A} e (b : A) s s' : throw e s = (Ok b, s') <-> False.
Proof. unfold throw. split; [discriminate | done]. Qed.

Lemma lift_ok {A} (r : res A) b s s' : lift r s = (Ok b, s') <-> r = Ok b /\ s = s'.
Proof. unfold lift. split; [by intros [= -> ->] | by intros [-> ->]]. Qed.

Lemma wrap_ok {A} c (m : M S A) b s s' : wrap c m s = (Ok b, s') <-> m s = (Ok b, s').
Proof. unfold wrap. destruct (m s) as [[a|e] s1]; split; congruence. Qed.

Lemma attempt_ok {A} (m : M S A) r s s' : attempt m s = (Ok r, s') <-> m s = (r, s').
Proof. unfold attempt. destruct (m s) as [r0 s0]. split; congruence. Qed.

Lemma answers {A} (m : M S A) s r : fst (m s) = r -> exists s', m s = (r, s').
Proof. intros <-. exists (snd (m s)). by destruct (m s). Qed.

(** A run that was seen to succeed. *)
Lemma succeeds {A} (m : M S A) s : is_ok (fst (m s)) = true -> exists a s', m s = (Ok a, s').
Proof. destruct (m s) as [[a|e] s']; [eauto|done]. Qed.
Lemma bind_succeeds {A B} (m : M S A) (k : A -> M S B) s :
  is_ok (fst (bind m k s)) = true -> exists a s1 b s2, m s = (Ok a, s1) /\ k a s1 = (Ok b, s2).
Proof.
  intros (b & s2 & Hr)%succeeds. apply bind_ok in Hr as (a & s1 & Hm & Hk). by exists a, s1, b, s2.
Qed.

Lemma attempt_no_err {A} (m : M S A) e s s' : attempt m s = (Err e, s') <-> False.
Proof. unfold attempt. destruct (m s) as [r0 s0]. split; [discriminate | done]. Qed.

Lemma res_bind_ok {A B} (r : res A) (k : A -> res B) b :
  res_bind r k = Ok b <-> exists a, r = Ok a /\ k a = Ok b.
Proof.
  destruct r as [a|e]; cbn.
  - split; [eauto | by intros (a' & [= <-] & H)].
  - split; [discriminate | by intros (? & [=] & _)].
Qed.

Lemma res_wrap_ok {A} c (r : res A) b : res_wrap c r = Ok b <-> r = Ok b.
Proof. destruct r; cbn; split; congruence. Qed.

(** [wp m Q s]: running [m] from [s], with or without an error, ends in [Q]. *)
Definition wp {A} (m : M S A) (Q : res A -> S -> Prop) s : Prop :=
  Q (fst (m s)) (snd (m s)).

Lemma wp_run {A} (m : M S A) (Q : res A -> S -> Prop) s r s' :
  wp m Q s -> m s = (r, s') -> Q r s'.
Proof. unfold wp. intros H E. by rewrite E in H. Qed.

Lemma wp_intro {A} (m : M S A) (Q : res A -> S -> Prop) s :
  (forall r s', m s = (r, s') -> Q r s') -> wp m Q s.
Proof. unfold wp. destruct (m s) as [r s']. eauto. Qed.

Lemma wp_mono {A} (m : M S A) (Q Q' : res A -> S -> Prop) s :
  wp m Q s -> (forall r s', Q r s' -> Q' r s') -> wp m Q' s.
Proof. unfold wp. eauto. Qed.

Lemma wp_ret {A} (a : A) (Q : res A -> S -> Prop) s : Q (Ok a) s -> wp (ret a) Q s.
Proof. done. Qed.

Lemma wp_throw {A} e (Q : res A -> S -> Prop) s : Q (Err e) s -> wp (throw e) Q s.
Proof. done. Qed.

Lemma wp_lift {A} (r : res A) (Q : res A -> S -> Prop) s : Q r s -> wp (lift r) Q s.
Proof. done. Qed.

Lemma wp_bind {A B} (m : M S A) (k : A -> M S B) (Q : res B -> S -> Prop) s :
  wp m (fun r s' => match r with Ok a => wp (k a) Q s' | Err e => Q (Err e) s' end) s ->
  wp (bind m k) Q s.
Proof. unfold wp, bind. by destruct (m s) as [[a|e] s']. Qed.

Lemma wp_wrap {A} c (m : M S A) (Q : res A -> S -> Prop) s :
  wp m (fun r s' => Q (res_wrap c r) s') s -> wp (wrap c m) Q s.
Proof. unfold wp, wrap, res_wrap. by destruct (m s) as [[a|e] s']. Qed.

Lemma wp_attempt {A} (m : M S A) (Q : res (res A) -> S -> Prop) s :
  wp m (fun r s' => Q (Ok r) s') s -> wp (attempt m) Q s.
Proof. unfold wp, attempt. by destruct (m s) as [r s']. Qed.

(** A relation between the states before and after, whatever the outcome. *)
Definition keeps (R : S -> S -> Prop) {A} (m : M S A) : Prop :=
  forall s, R s (snd (m s)).

Lemma keeps_run (R : S -> S -> Prop) {A} (m : M S A) s r s' :
  keeps R m -> m s = (r, s') -> R s s'.
Proof. intros H E. specialize (H s). by rewrite E in H. Qed.

Section Keeps.
Context (R : S -> S -> Prop) `{!Reflexive R} `{!Transitive R}.

Lemma keeps_ret {A} (a : A) : keeps R (ret a).
Proof using All. intros s. cbn. reflexivity. Qed.
Lemma keeps_throw {A} e : keeps R (throw (A := A) e).
Proof using All. intros s. cbn. reflexivity. Qed.
Lemma keeps_lift {A} (r : res A) : keeps R (lift r).
Proof using All. intros s. cbn. reflexivity. Qed.
Lemma keeps_bind {A B} (m : M S A) (k : A -> M S B) :
  keeps R m -> (forall a, keeps R (k a)) -> keeps R (bind m k).
Proof using All.
  intros Hm Hk s. unfold bind. specialize (Hm s).
  destruct (m s) as [[a|e] s1]; cbn in *; [etrans; [exact Hm | apply Hk] | exact Hm].
Qed.
Lemma keeps_wrap {A} c (m : M S A) : keeps R m -> keeps R (wrap c m).
Proof using All.
  intros Hm s. specialize (Hm s). unfold wrap. by destruct (m s) as [[a|e] s1].
Qed.
(** The continuation may use what the lifted value is. *)
Lemma keeps_bind_lift {A B} (r : res A) (k : A -> M S B) :
  (forall a, r = Ok a -> keeps R (k a)) -> keeps R (bind (lift r) k).
Proof using All.
  intros Hk s. unfold bind, lift. destruct r as [a|e]; [by apply Hk|cbn; reflexivity].
Qed.
Lemma keeps_attempt {A} (m : M S A) : keeps R m -> keeps R (attempt m).
Proof using All.
  intros Hm s. specialize (Hm s). unfold attempt. by destruct (m s) as [r s1].
Qed.
Lemma keeps_mapM {A B} (f : A -> M S B) l :
  (forall a, keeps R (f a)) -> keeps R (mapM f l).
Proof using All.
  intros Hf. induction l as [|x l IH]; cbn; [apply keeps_ret|].
  apply keeps_bind; [apply Hf|]. intros y.
  apply keeps_bind; [apply IH|]. intros ys. apply keeps_ret.
Qed.
End Keeps.
End Monad.

Create HintDb keeps discriminated.
#[export] Hint Resolve keeps_ret keeps_throw keeps_lift keeps_bind keeps_wrap
  keeps_attempt keeps_mapM : keeps.

(** Turn an equation [handler s = (Ok a, s')] into the equations of its steps. *)
Ltac run_step :=
  match goal with
  | H : bind _ _ _ = (Ok _, _) |- _ =>
      apply bind_ok in H; destruct H as (? & ? & ? & H)
  | H : ret _ _ = (Ok _, _) |- _ => apply ret_ok in H; destruct H as [? ?]; subst
  | H : throw _ _ = (Ok _, _) |- _ => by apply throw_ok in H
  | H : lift _ _ = (Ok _, _) |- _ => apply lift_ok in H; destruct H as [? ?]; subst
  | H : wrap _ _ _ = (Ok _, _) |- _ => apply (proj1 (wrap_ok _ _ _ _ _)) in H
  | H : attempt _ _ = (Ok _, _) |- _ => apply (proj1 (attempt_ok _ _ _ _)) in H
  | H : res_wrap _ _ = Ok _ |- _ => apply res_wrap_ok in H
  | H : res_bind _ _ = Ok _ |- _ => apply res_bind_ok in H; destruct H as (? & ? & H)
  | H : Ok _ = Ok _ |- _ => injection H as H; subst
  | H : Err _ = Ok _ |- _ => discriminate H
  | H : (Ok _, _) = (Ok _, _) |- _ => injection H as ? ?; subst
  | H : (Err _, _) = (Ok _, _) |- _ => discriminate H
  end.
