(* ===== verification/IO.v ===== *)
(** * Effects of the services: database calls, clock, randomness, identifiers

    A service call runs against a store (the tables of the component) and a
    counter of the effects performed so far. The environment answers the n-th
    effect: the wall clock in milliseconds ([time.Now().UnixMilli()]), a new
    UUID ([uuid.New()]), random bytes ([crypto/rand]), and whether the n-th
    database round trip fails. Theorems quantify over every environment, hence
    over every failure, clock and choice of identifiers. *)

From S2P Require Export Prelude.

(** UUIDs are 128-bit values; their text forms belong to github.com/google/uuid. *)
Definition uuid : Type := N.

Class UuidLib := {
  uuid_parse : string -> option uuid;
  uuid_string : uuid -> string;
  (** documented: [Parse] decodes the canonical form [String] returns *)
  uuid_parse_string : forall u, uuid_parse (uuid_string u) = Some u;
  }.

Class Env := {
  env_now : nat -> Z;
  env_uuid : nat -> uuid;
  env_rand : nat -> nat -> res string;
  env_fault : nat -> bool;
  }.

Definition ErrNoRows : error := Sentinel "sql.ErrNoRows".
Definition ErrDriver : error := Errorf "driver: query failed".
Definition ErrUnique : error := Errorf "pq: duplicate key value violates unique constraint".
Definition ErrForeignKey : error := Errorf "pq: insert violates foreign key constraint".

Lemma uuid_string_inj `{UuidLib} u v : uuid_string u = uuid_string v -> u = v.
Proof.
  intros E. assert (Some u = Some v) as [= ->]; [|done].
  by rewrite <- (uuid_parse_string u), <- (uuid_parse_string v), E.
Qed.

Record World (D : Type) := MkWorld { w_store : D; w_io : nat }.
Arguments MkWorld {D} w_store w_io.
Arguments w_store {D} w.
Arguments w_io {D} w.

Section IO.
Context `{Env} {D : Type}.
Abbreviation W := (World D).

Definition tick (w : W) : W := MkWorld (w_store w) (S (w_io w)).
Definition put_store (d : D) (w : W) : W := MkWorld d (w_io w).

Definition now_ms : M W Z := fun w => (Ok (env_now (w_io w)), tick w).
Definition new_uuid : M W uuid := fun w => (Ok (env_uuid (w_io w)), tick w).
Definition rand_bytes (n : nat) : M W string := fun w => (env_rand (w_io w) n, tick w).

(** One statement: it fails with the store unchanged, or runs. *)
Definition exec {A} (f : D -> res (A * D)) : M W A := fun w =>
  if env_fault (w_io w) then (Err ErrDriver, tick w)
  else match f (w_store w) with
       | Ok (a, d) => (Ok a, tick (put_store d w))
       | Err e => (Err e, tick w)
       end.

(** A statement that only reads. *)
Definition query {A} (f : D -> res A) : M W A :=
  exec (fun d => match f d with Ok a => Ok (a, d) | Err e => Err e end).

(** A call to another system: it answers or fails, and counts as an effect. *)
Definition call {A} (f : nat -> res A) : M W A := fun w => (f (w_io w), tick w).

(** [BeginTx]; [body] on the transaction; [Commit] — rolled back on any
    path that does not reach a successful commit. *)
Definition transact {A} (body : M W A) : M W A := fun w =>
  if env_fault (w_io w) then (Err (Wrapf "begin tx" ErrDriver), tick w)
  else match body (tick w) with
       | (Ok a, w') =>
           if env_fault (w_io w')
           then (Err (Wrapf "commit" ErrDriver), tick (put_store (w_store w) w'))
           else (Ok a, tick w')
       | (Err e, w') => (Err e, put_store (w_store w) w')
       end.

Lemma now_ok t w w' : now_ms w = (Ok t, w') <-> t = env_now (w_io w) /\ w' = tick w.
Proof. unfold now_ms. split; [by intros [= <- <-] | by intros [-> ->]]. Qed.

Lemma new_uuid_ok u w w' : new_uuid w = (Ok u, w') <-> u = env_uuid (w_io w) /\ w' = tick w.
Proof. unfold new_uuid. split; [by intros [= <- <-] | by intros [-> ->]]. Qed.

Lemma rand_ok n b w w' :
  rand_bytes n w = (Ok b, w') <-> env_rand (w_io w) n = Ok b /\ w' = tick w.
Proof. unfold rand_bytes. split; [by intros [= -> <-] | by intros [-> ->]]. Qed.

Lemma call_ok {A} (f : nat -> res A) a w w' :
  call f w = (Ok a, w') <-> f (w_io w) = Ok a /\ w' = tick w.
Proof. unfold call. split; [by intros [= -> <-] | by intros [-> ->]]. Qed.

Lemma exec_ok {A} (f : D -> res (A * D)) a w w' :
  exec f w = (Ok a, w') <->
  env_fault (w_io w) = false /\ exists d, f (w_store w) = Ok (a, d) /\ w' = tick (put_store d w).
Proof.
  unfold exec. destruct (env_fault (w_io w)).
  - split; [discriminate | by intros [[=] _]].
  - destruct (f (w_store w)) as [[b d]|e].
    + split; [intros [= -> <-]; eauto | by intros (_ & d' & [= -> ->] & ->)].
    + split; [discriminate | by intros (_ & d' & [=] & _)].
Qed.

Lemma query_ok {A} (f : D -> res A) a w w' :
  query f w = (Ok a, w') <->
  env_fault (w_io w) = false /\ f (w_store w) = Ok a /\ w' = tick w.
Proof.
  unfold query. rewrite exec_ok. destruct (f (w_store w)) as [b|e] eqn:E.
  - split; [intros (? & d & [= -> <-] & ->); by destruct w
           | intros (? & [= ->] & ->); split; [done|]; eexists; by destruct w].
  - split; [by intros (? & d & [=] & _) | by intros (? & [=] & _)].
Qed.

(** A read leaves the store alone, whatever it answers. *)
Lemma query_store {A} (f : D -> res A) r w w' :
  query f w = (r, w') -> w_store w' = w_store w.
Proof.
  unfold query, exec. destruct (env_fault _); [by intros [= _ <-]|].
  destruct (f (w_store w)); by intros [= _ <-].
Qed.

Lemma query_err {A} (f : D -> res A) e w w' :
  query f w = (Err e, w') -> e = ErrDriver \/ f (w_store w) = Err e.
Proof.
  unfold query, exec. destruct (env_fault _); [intros [= <- _]; by left|].
  destruct (f (w_store w)); intros [= E _]; right; by rewrite E.
Qed.

Lemma exec_err {A} (f : D -> res (A * D)) e w w' :
  exec f w = (Err e, w') -> w_store w' = w_store w /\ (e = ErrDriver \/ f (w_store w) = Err e).
Proof.
  unfold exec. destruct (env_fault _); [intros [= <- <-]; auto|].
  destruct (f (w_store w)) as [[a d]|e0]; intros [= E E']; subst; auto.
Qed.

Lemma transact_ok {A} (body : M W A) a w w' :
  transact body w = (Ok a, w') <->
  env_fault (w_io w) = false /\
  exists w1, body (tick w) = (Ok a, w1) /\ env_fault (w_io w1) = false /\ w' = tick w1.
Proof.
  unfold transact. destruct (env_fault (w_io w)); [split; [discriminate | by intros [[=] _]]|].
  destruct (body (tick w)) as [[b|e] w1].
  - destruct (env_fault (w_io w1)) eqn:F.
    + split; [discriminate | intros (_ & w2 & [= <- <-] & E & _); congruence].
    + split; [intros [= -> <-]; eauto 6 | by intros (_ & w2 & [= -> <-] & _ & ->)].
  - split; [discriminate | by intros (_ & w2 & [=] & _)].
Qed.

(** A transaction that does not commit leaves no trace in the store. *)
Lemma transact_err_store {A} (body : M W A) e w w' :
  transact body w = (Err e, w') -> w_store w' = w_store w.
Proof.
  unfold transact. destruct (env_fault (w_io w)); [by intros [= _ <-]|].
  destruct (body (tick w)) as [[b|e0] w1]; [destruct (env_fault _); by intros [= _ <-]|].
  by intros [= _ <-].
Qed.
End IO.

(** A relation on stores, read on worlds. *)
Definition on_store {D} (R : D -> D -> Prop) (w w' : World D) : Prop :=
  R (w_store w) (w_store w').

Section Keeps.
Context `{Env} {D : Type} (R : D -> D -> Prop) `{!Reflexive R} `{!Transitive R}.

#[export] Instance on_store_refl : Reflexive (on_store R).
Proof using All. intros w. unfold on_store. reflexivity. Qed.
#[export] Instance on_store_trans : Transitive (on_store R).
Proof using All. intros w1 w2 w3. unfold on_store. etrans; eauto. Qed.

Lemma keeps_now : keeps (on_store R) now_ms.
Proof using All. intros w. unfold on_store. cbn. reflexivity. Qed.
Lemma keeps_new_uuid : keeps (on_store R) new_uuid.
Proof using All. intros w. unfold on_store. cbn. reflexivity. Qed.
Lemma keeps_rand n : keeps (on_store R) (rand_bytes n).
Proof using All. intros w. unfold on_store. cbn. reflexivity. Qed.
Lemma keeps_call {A} (f : nat -> res A) : keeps (on_store R) (call f).
Proof using All. intros w. unfold on_store. cbn. reflexivity. Qed.
Lemma keeps_exec {A} (f : D -> res (A * D)) :
  (forall d a d', f d = Ok (a, d') -> R d d') -> keeps (on_store R) (exec f).
Proof using All.
  intros Hf w. unfold on_store, exec. destruct (env_fault _); cbn; [reflexivity|].
  destruct (f (w_store w)) as [[a d]|e] eqn:E; cbn; [by eapply Hf | reflexivity].
Qed.
Lemma keeps_query {A} (f : D -> res A) : keeps (on_store R) (query f).
Proof using All.
  apply keeps_exec. intros d a d'. destruct (f d); [intros [= _ <-]; reflexivity | discriminate].
Qed.
Lemma keeps_transact {A} (body : M (World D) A) :
  keeps (on_store R) body -> keeps (on_store R) (transact body).
Proof using All.
  intros Hb w. specialize (Hb (tick w)). unfold on_store, transact in *.
  destruct (env_fault (w_io w)); cbn in *; [reflexivity|].
  destruct (body (tick w)) as [[b|e] w1]; cbn in *; [|reflexivity].
  destruct (env_fault (w_io w1)); cbn; [reflexivity | exact Hb].
Qed.
End Keeps.

#[export] Hint Resolve on_store_refl on_store_trans keeps_now keeps_new_uuid
  keeps_rand keeps_call keeps_query keeps_transact : keeps.

(** ** Where a handler can leave the store

    [ends d m P]: started on the store [d], with any clock, identifiers and
    failures, [m] leaves a store that satisfies [P], whether it succeeds or not. *)
Section Ends.
Context `{Env} {D : Type}.
Implicit Types (P : D -> Prop) (d : D).

Definition ends {A} d (m : M (World D) A) P : Prop :=
  forall w, w_store w = d -> P (w_store (snd (m w))).

Lemma ends_run {A} d (m : M (World D) A) P w r w' :
  ends d m P -> w_store w = d -> m w = (r, w') -> P (w_store w').
Proof. intros He Hw E. specialize (He w Hw). by rewrite E in He. Qed.

Lemma ends_mono {A} d (m : M (World D) A) P Q : (forall d', P d' -> Q d') -> ends d m P -> ends d m Q.
Proof. intros HPQ He w Hw. by apply HPQ, He. Qed.

Lemma ends_keeps {A} d (R : D -> D -> Prop) (m : M (World D) A) P :
  keeps (on_store R) m -> (forall d', R d d' -> P d') -> ends d m P.
Proof. intros Hk HP w <-. apply HP, Hk. Qed.

Lemma ends_ret {A} d (a : A) P : P d -> ends d (ret a) P.
Proof. by intros HP w <-. Qed.
Lemma ends_throw {A} d e P : P d -> ends d (throw (A := A) e) P.
Proof. by intros HP w <-. Qed.
Lemma ends_lift {A} d (r : res A) P : P d -> ends d (lift r) P.
Proof. by intros HP w <-. Qed.
Lemma ends_wrap {A} d c (m : M (World D) A) P : ends d m P -> ends d (wrap c m) P.
Proof. intros He w Hw. specialize (He w Hw). unfold wrap. by destruct (m w) as [[a|e] w']. Qed.

(** A read-only step: what follows starts on the same store, and may use what
    the step answered. *)
Lemma ends_read {A B} d (m : M (World D) A) (k : A -> M (World D) B) P :
  keeps (on_store eq) m -> P d ->
  (forall a w w', w_store w = d -> m w = (Ok a, w') -> ends d (k a) P) -> ends d (bind m k) P.
Proof.
  intros Hk HP Hn w Hw. unfold bind. pose proof (Hk w) as E. unfold on_store in E.
  destruct (m w) as [[a|e] w'] eqn:Em; cbn in *.
  - eapply Hn; [exact Hw | exact Em | congruence].
  - by rewrite <- E, Hw.
Qed.

(** The general rule: what the first step answered decides where the rest starts. *)
Lemma ends_bind {A B} d (m : M (World D) A) (k : A -> M (World D) B) P :
  (forall w a w', w_store w = d -> m w = (Ok a, w') -> ends (w_store w') (k a) P) ->
  (forall w e w', w_store w = d -> m w = (Err e, w') -> P (w_store w')) ->
  ends d (bind m k) P.
Proof.
  intros Hk HP w Hw. unfold bind. destruct (m w) as [[a|e] w'] eqn:Em; cbn.
  - by eapply Hk.
  - by eapply HP.
Qed.

(** A statement that may write. *)
Lemma ends_exec {A B} d (f : D -> res (A * D)) c (k : A -> M (World D) B) P :
  P d -> (forall a d', f d = Ok (a, d') -> ends d' (k a) P) ->
  ends d (bind (wrap c (exec f)) k) P.
Proof.
  intros HP Hn w Hw. unfold bind, wrap, exec.
  destruct (env_fault (w_io w)); [cbn; by rewrite Hw|]. rewrite Hw.
  destruct (f d) as [[a d']|e] eqn:E; [|cbn; by rewrite Hw]. by apply (Hn a d').
Qed.

(** The last statement that writes. *)
Lemma ends_last {A B} d (f : D -> res (A * D)) c (k : A -> M (World D) B) P :
  P d -> (forall a d', f d = Ok (a, d') -> P d') -> (forall a, keeps (on_store eq) (k a)) ->
  ends d (bind (wrap c (exec f)) k) P.
Proof.
  intros HP Hf Hk. apply ends_exec; [exact HP|]. intros a d' E.
  eapply ends_keeps; [apply Hk|]. intros ? <-. by eapply Hf.
Qed.

(** A step known only by a relation it keeps. *)
Lemma ends_step {A B} d (R : D -> D -> Prop) (m : M (World D) A) (k : A -> M (World D) B) P :
  keeps (on_store R) m -> (forall d', R d d' -> P d') ->
  (forall a d', R d d' -> ends d' (k a) P) -> ends d (bind m k) P.
Proof.
  intros Hk HP Hn w Hw. unfold bind. pose proof (Hk w) as E. unfold on_store in E. rewrite Hw in E.
  destruct (m w) as [[a|e] w']; cbn in *; [by apply (Hn a (w_store w')) | by apply HP].
Qed.
End Ends.

(** Open every step of a successful handler run. *)
Ltac io_step :=
  match goal with
  | H : now_ms _ = (Ok _, _) |- _ => apply now_ok in H; destruct H as [? ?]; subst
  | H : new_uuid _ = (Ok _, _) |- _ => apply new_uuid_ok in H; destruct H as [? ?]; subst
  | H : rand_bytes _ _ = (Ok _, _) |- _ => apply rand_ok in H; destruct H as [? ?]; subst
  | H : call _ _ = (Ok _, _) |- _ => apply call_ok in H; destruct H as [? ?]; subst
  | H : query _ _ = (Ok _, _) |- _ => apply query_ok in H; destruct H as (? & ? & ?); subst
  | H : exec _ _ = (Ok _, _) |- _ => apply exec_ok in H; destruct H as (? & ? & ? & ?); subst
  | H : transact _ _ = (Ok _, _) |- _ => apply transact_ok in H; destruct H as (? & ? & ? & ? & ?); subst
  end.
Ltac run_inv := repeat (run_step || io_step).

(** Walk through a handler, proving that every step keeps a relation; the
    statements that write are found in the [keeps] database. *)
Ltac keeps_step :=
  match goal with
  | |- Reflexive _ => apply _
  | |- Transitive _ => apply _
  | |- forall _, _ => intros ?
  | |- keeps _ (bind _ _) => eapply keeps_bind
  | |- keeps _ (wrap _ _) => eapply keeps_wrap
  | |- keeps _ (attempt _) => eapply keeps_attempt
  | |- keeps _ (mapM _ _) => eapply keeps_mapM
  | |- keeps _ (ret _) => eapply keeps_ret
  | |- keeps _ (throw _) => eapply keeps_throw
  | |- keeps _ (lift _) => eapply keeps_lift
  | |- keeps _ now_ms => eapply keeps_now
  | |- keeps _ new_uuid => eapply keeps_new_uuid
  | |- keeps _ (rand_bytes _) => eapply keeps_rand
  | |- keeps _ (call _) => eapply keeps_call
  | |- keeps _ (query _) => eapply keeps_query
  | |- keeps _ (transact _) => eapply keeps_transact
  | |- keeps _ (if ?b then _ else _) => destruct b
  | |- keeps _ (match ?x with _ => _ end) => destruct x
  | |- keeps _ _ => solve [eauto with keeps typeclass_instances]
  end.
Ltac keeps := repeat keeps_step.
