(* ===== verification/GoStrings.v ===== *)
(** * The parts of Go's strings, encoding/hex and math/big the services use

    A Go string is a byte string. [strings.TrimSpace] is written out on the
    UTF-8 encodings of the Unicode white-space runes; [strings.ToLower] is
    written out on ASCII strings, as in the Go fast path, and takes the Unicode
    case table for the others from the class [Unicode]. *)

From S2P Require Export Prelude.
Open Scope string_scope.
Open Scope Z_scope.

Class Unicode := { unicode_lower : string -> string }.

(** ** Prefixes *)
Fixpoint str_drop (n : nat) (s : string) : string :=
  match n, s with
  | S n', String _ s' => str_drop n' s'
  | _, _ => s
  end.

Definition trim_prefix (p s : string) : string :=
  if String.prefix p s then str_drop (String.length p) s else s.

Lemma str_drop_app p s : str_drop (String.length p) (p +:+ s) = s.
Proof. by induction p. Qed.

Lemma prefix_app p s : String.prefix p (p +:+ s) = true.
Proof. induction p as [|c p IH]; cbn; [by destruct s|]. by destruct (Ascii.ascii_dec c c). Qed.

Lemma prefix_inv p s : String.prefix p s = true -> exists s', s = p +:+ s'.
Proof.
  revert s. induction p as [|c p IH]; intros s; cbn; [eauto|].
  destruct s as [|c' s]; [done|]. cbn. destruct (Ascii.ascii_dec c c') as [->|]; [|done].
  intros H. destruct (IH s H) as [s' ->]. eauto.
Qed.

Lemma prefix_char a c s : String.prefix (String a "") (String c s) = Ascii.eqb a c.
Proof.
  change (String.prefix (String a "") (String c s))
    with (if Ascii.ascii_dec a c then String.prefix "" s else false).
  destruct (Ascii.eqb_spec a c), (Ascii.ascii_dec a c); try congruence. by destruct s.
Qed.

(** ** [strings.ToLower] *)
Definition lower_ascii (c : Ascii.ascii) : Ascii.ascii :=
  let n := Ascii.N_of_ascii c in
  if ((65 <=? n) && (n <=? 90))%N then Ascii.ascii_of_N (n + 32) else c.

Fixpoint str_map (f : Ascii.ascii -> Ascii.ascii) (s : string) : string :=
  match s with "" => "" | String c s' => String (f c) (str_map f s') end.

Fixpoint str_forall (p : Ascii.ascii -> bool) (s : string) : bool :=
  match s with "" => true | String c s' => p c && str_forall p s' end.

Definition is_ascii (s : string) : bool :=
  str_forall (fun c => (Ascii.N_of_ascii c <? 128)%N) s.

Definition to_lower `{Unicode} (s : string) : string :=
  if is_ascii s then str_map lower_ascii s else unicode_lower s.

(** ** [strings.TrimSpace] *)
Definition bytes (l : list N) : string :=
  fold_right (fun n s => String (Ascii.ascii_of_N n) s) "" l.

Definition white_space : list string :=
  map bytes
    ([[9]; [10]; [11]; [12]; [13]; [32]; [194; 133]; [194; 160]; [225; 154; 128];
      [226; 128; 128]; [226; 128; 129]; [226; 128; 130]; [226; 128; 131];
      [226; 128; 132]; [226; 128; 133]; [226; 128; 134]; [226; 128; 135];
      [226; 128; 136]; [226; 128; 137]; [226; 128; 138]; [226; 128; 168];
      [226; 128; 169]; [226; 128; 175]; [226; 129; 159]; [227; 128; 128]])%N.

(** Remove leading occurrences of the patterns; the length is enough fuel, as
    every pattern has at least one byte. *)
Fixpoint trim_left_fuel (fuel : nat) (pats : list string) (s : string) : string :=
  match fuel with
  | O => s
  | S f =>
      match List.find (fun p => String.prefix p s) pats with
      | Some p => trim_left_fuel f pats (str_drop (String.length p) s)
      | None => s
      end
  end.
Definition trim_left (pats : list string) (s : string) : string :=
  trim_left_fuel (String.length s) pats s.

Fixpoint str_rev_app (s acc : string) : string :=
  match s with "" => acc | String c s' => str_rev_app s' (String c acc) end.
Definition str_rev (s : string) : string := str_rev_app s "".

Definition trim_right (pats : list string) (s : string) : string :=
  str_rev (trim_left (map str_rev pats) (str_rev s)).

Definition trim_space (s : string) : string := trim_right white_space (trim_left white_space s).

(** ** [strings.Cut], [strings.Repeat], [strings.TrimRight] *)
Fixpoint cut_at (c : Ascii.ascii) (s : string) : string * string * bool :=
  match s with
  | "" => ("", "", false)
  | String d s' =>
      if Ascii.eqb c d then ("", s', true)
      else let '(before, after, found) := cut_at c s' in (String d before, after, found)
  end.

Fixpoint str_repeat (s : string) (n : nat) : string :=
  match n with O => "" | S n' => s +:+ str_repeat s n' end.

(** [strings.TrimRight(s, cutset)] with a one-byte cutset. *)
Fixpoint trim_right_char (c : Ascii.ascii) (s : string) : string :=
  match s with
  | "" => ""
  | String d s' =>
      match trim_right_char c s' with
      | "" => if Ascii.eqb c d then "" else String d ""
      | t => String d t
      end
  end.

(** ** Decimal numbers: [big.Int.SetString(s, 10)] and [Int.String()] *)
Definition digit_val (c : Ascii.ascii) : option Z :=
  let n := Z.of_N (Ascii.N_of_ascii c) in
  if (48 <=? n) && (n <=? 57) then Some (n - 48) else None.

Fixpoint dec_val (acc : Z) (s : string) : option Z :=
  match s with
  | "" => Some acc
  | String c s' => match digit_val c with
                   | Some d => dec_val (acc * 10 + d) s'
                   | None => None
                   end
  end.

Definition dec_nat (s : string) : option Z :=
  match s with "" => None | _ => dec_val 0 s end.

Definition big_set_string (s : string) : option Z :=
  match s with
  | String c s' =>
      if Ascii.eqb c "-"%char then Z.opp <$> dec_nat s'
      else if Ascii.eqb c "+"%char then dec_nat s' else dec_nat s
  | "" => None
  end.

Definition big_string (z : Z) : string := pretty z.

(** ** encoding/hex *)
Definition hex_digit (n : N) : Ascii.ascii :=
  if (n <? 10)%N then Ascii.ascii_of_N (48 + n) else Ascii.ascii_of_N (87 + n).

Definition hex_val (c : Ascii.ascii) : option N :=
  let n := Ascii.N_of_ascii c in
  if ((48 <=? n) && (n <=? 57))%N then Some (n - 48)%N
  else if ((97 <=? n) && (n <=? 102))%N then Some (n - 87)%N
  else if ((65 <=? n) && (n <=? 70))%N then Some (n - 55)%N
  else None.

Fixpoint hex_encode (s : string) : string :=
  match s with
  | "" => ""
  | String c s' =>
      let n := Ascii.N_of_ascii c in
      String (hex_digit (n / 16)) (String (hex_digit (n mod 16)) (hex_encode s'))
  end.

Fixpoint hex_decode (s : string) : res string :=
  match s with
  | "" => Ok ""
  | String a s1 =>
      match s1 with
      | "" => Err (Errorf "encoding/hex: odd length hex string")
      | String b s2 =>
          match hex_val a, hex_val b with
          | Some x, Some y =>
              let? t := hex_decode s2 in Ok (String (Ascii.ascii_of_N (x * 16 + y)) t)
          | _, _ => Err (Errorf "encoding/hex: invalid byte")
          end
      end
  end.

(** ** Lemmas *)
Lemma str_app_nil_r s : s +:+ "" = s.
Proof. induction s as [|c s IH]; cbn; [done | by rewrite IH]. Qed.

Lemma str_app_assoc s t u : (s +:+ t) +:+ u = s +:+ (t +:+ u).
Proof. induction s as [|c s IH]; cbn; [done | by rewrite IH]. Qed.

Lemma str_length_app s t : String.length (s +:+ t) = (String.length s + String.length t)%nat.
Proof. induction s as [|c s IH]; cbn; [done | by rewrite IH]. Qed.

Lemma str_length_repeat c n : String.length (str_repeat (String c "") n) = n.
Proof. induction n as [|n IH]; cbn; [done | by rewrite IH]. Qed.

Lemma str_forall_app p s t : str_forall p (s +:+ t) = str_forall p s && str_forall p t.
Proof. induction s as [|c s IH]; cbn; [done | by rewrite IH, andb_assoc]. Qed.

Lemma str_forall_impl (p q : Ascii.ascii -> bool) s :
  (forall c, p c = true -> q c = true) -> str_forall p s = true -> str_forall q s = true.
Proof.
  intros Hpq. induction s as [|c s IH]; cbn; [done|].
  rewrite !andb_true_iff. intros [? ?]. auto.
Qed.

Lemma str_rev_app_spec s acc : str_rev_app s acc = str_rev s +:+ acc.
Proof.
  unfold str_rev. revert acc. induction s as [|c s IH]; intros acc; cbn; [done|].
  by rewrite (IH (String c acc)), (IH (String c "")), str_app_assoc.
Qed.

Lemma str_rev_cons c s : str_rev (String c s) = str_rev s +:+ String c "".
Proof. unfold str_rev at 1. cbn. apply str_rev_app_spec. Qed.

Lemma str_rev_append s t : str_rev (s +:+ t) = str_rev t +:+ str_rev s.
Proof.
  induction s as [|c s IH]; cbn [String.append]; [by rewrite str_app_nil_r|].
  by rewrite !str_rev_cons, IH, str_app_assoc.
Qed.

Lemma str_rev_involutive s : str_rev (str_rev s) = s.
Proof.
  induction s as [|c s IH]; [done|].
  by rewrite str_rev_cons, str_rev_append, IH.
Qed.

Lemma str_forall_rev p s : str_forall p (str_rev s) = str_forall p s.
Proof.
  induction s as [|c s IH]; [done|].
  rewrite str_rev_cons, str_forall_app, IH. cbn. by rewrite andb_true_r, andb_comm.
Qed.

(** No white-space rune starts or ends with a printable ASCII byte. *)
Definition graphic (c : Ascii.ascii) : bool :=
  let n := Ascii.N_of_ascii c in ((33 <=? n) && (n <=? 126))%N.

Definition starts_non_graphic (p : string) : bool :=
  match p with "" => false | String c _ => negb (graphic c) end.

Lemma trim_left_graphic pats s :
  forallb starts_non_graphic pats = true -> str_forall graphic s = true -> trim_left pats s = s.
Proof.
  intros Hp Hs. unfold trim_left. destruct s as [|c s]; [done|].
  cbn [String.length trim_left_fuel]. destruct (List.find _ pats) as [p|] eqn:E; [|done].
  apply List.find_some in E as [Hin Hpre].
  rewrite forallb_forall in Hp. specialize (Hp p Hin).
  destruct p as [|c' p]; [done|]. cbn in *.
  destruct (Ascii.ascii_dec c' c) as [->|]; [|done].
  by destruct (graphic c).
Qed.

Lemma trim_space_graphic s : str_forall graphic s = true -> trim_space s = s.
Proof.
  intros Hs. unfold trim_space. rewrite (trim_left_graphic white_space) by done.
  unfold trim_right. rewrite trim_left_graphic, str_rev_involutive; [done..|].
  by rewrite str_forall_rev.
Qed.

Lemma cut_at_notin c s t :
  str_forall (fun d => negb (Ascii.eqb c d)) s = true ->
  cut_at c (s +:+ String c t) = (s, t, true).
Proof.
  induction s as [|d s IH]; cbn.
  - by rewrite Ascii.eqb_refl.
  - rewrite andb_true_iff, negb_true_iff. intros [-> Hs]. by rewrite (IH Hs).
Qed.

Lemma cut_at_none c s :
  str_forall (fun d => negb (Ascii.eqb c d)) s = true -> cut_at c s = (s, "", false).
Proof.
  induction s as [|d s IH]; cbn; [done|].
  rewrite andb_true_iff, negb_true_iff. intros [-> Hs]. by rewrite (IH Hs).
Qed.

(** [TrimRight] removes a run of the character: repeating it restores the string. *)
Lemma trim_right_char_spec c s :
  exists n, s = trim_right_char c s +:+ str_repeat (String c "") n.
Proof.
  induction s as [|d s [n IH]]; [by exists O|]. cbn.
  destruct (trim_right_char c s) as [|e t] eqn:E; cbn in *.
  - destruct (Ascii.eqb_spec c d) as [->|].
    + exists (S n). cbn. by rewrite IH at 1.
    + exists n. cbn. by rewrite IH at 1.
  - exists n. by rewrite IH at 1.
Qed.

Lemma trim_right_char_forall p c s :
  str_forall p s = true -> str_forall p (trim_right_char c s) = true.
Proof.
  destruct (trim_right_char_spec c s) as [n E]. rewrite E at 1.
  rewrite str_forall_app, andb_true_iff. by intros [? _].
Qed.

Lemma dec_val_app acc s t : dec_val acc (s +:+ t) = dec_val acc s ≫= fun v => dec_val v t.
Proof.
  revert acc. induction s as [|c s IH]; intros acc; cbn; [done|].
  destruct (digit_val c); [apply IH | done].
Qed.

Lemma dec_val_acc acc s :
  dec_val acc s = (fun v => acc * 10 ^ Z.of_nat (String.length s) + v) <$> dec_val 0 s.
Proof.
  revert acc. induction s as [|c s IH]; intros acc.
  - cbn. f_equal. lia.
  - cbn [dec_val String.length]. destruct (digit_val c) as [d|]; [|done].
    rewrite (IH (acc * 10 + d)), (IH (0 * 10 + d)).
    destruct (dec_val 0 s) as [v|]; [|done]. cbn [fmap option_fmap option_map].
    f_equal. rewrite Nat2Z.inj_succ, Z.pow_succ_r by lia. lia.
Qed.

Lemma dec_val_zeros n acc : dec_val acc (str_repeat "0" n) = Some (acc * 10 ^ Z.of_nat n).
Proof.
  revert acc. induction n as [|n IH]; intros acc.
  - cbn. f_equal. lia.
  - cbn [str_repeat String.append dec_val]. change (digit_val "0") with (Some 0).
    cbn [String.append]. rewrite IH. f_equal. rewrite Nat2Z.inj_succ, Z.pow_succ_r by lia. lia.
Qed.

Lemma digit_val_bound c d : digit_val c = Some d -> 0 <= d < 10.
Proof.
  unfold digit_val. destruct (_ && _) eqn:E; [|done]. intros [= <-].
  apply andb_true_iff in E as [?%Z.leb_le ?%Z.leb_le]. lia.
Qed.

Lemma dec_val_nonneg acc s v : 0 <= acc -> dec_val acc s = Some v -> acc <= v.
Proof.
  revert acc. induction s as [|c s IH]; intros acc Hacc; cbn; [intros [= ->]; lia|].
  destruct (digit_val c) as [d|] eqn:E; [|done]. apply digit_val_bound in E.
  intros H. apply IH in H; lia.
Qed.

Lemma dec_val_bound s v : dec_val 0 s = Some v -> v < 10 ^ Z.of_nat (String.length s).
Proof.
  revert v. induction s as [|c s IH]; intros v.
  - cbn. intros [= <-]. lia.
  - cbn [dec_val String.length]. destruct (digit_val c) as [d|] eqn:E; [|done].
    apply digit_val_bound in E. rewrite dec_val_acc.
    destruct (dec_val 0 s) as [u|]; [|done]. intros [= <-]. specialize (IH u eq_refl).
    rewrite Nat2Z.inj_succ, Z.pow_succ_r by lia.
    set (p := 10 ^ Z.of_nat (String.length s)) in *. nia.
Qed.

Lemma digit_val_graphic c d : digit_val c = Some d -> graphic c = true.
Proof.
  unfold digit_val, graphic. destruct (_ && _) eqn:E; [|done]. intros _.
  apply andb_true_iff in E as [?%Z.leb_le ?%Z.leb_le].
  apply andb_true_iff. rewrite !N.leb_le. lia.
Qed.

Definition is_digit (c : Ascii.ascii) : bool := bool_decide (is_Some (digit_val c)).

Lemma dec_val_digits acc s v : dec_val acc s = Some v -> str_forall is_digit s = true.
Proof.
  revert acc. induction s as [|c s IH]; intros acc; cbn; [done|].
  unfold is_digit at 1. destruct (digit_val c) eqn:E; [|done].
  intros H. rewrite bool_decide_true by eauto. cbn. by eapply IH.
Qed.

Lemma digits_dec_val acc s : str_forall is_digit s = true -> exists v, dec_val acc s = Some v.
Proof.
  revert acc. induction s as [|c s IH]; intros acc; cbn; [eauto|].
  rewrite andb_true_iff. unfold is_digit at 1. rewrite bool_decide_eq_true.
  intros [[d ->] Hs]. by apply IH.
Qed.

Lemma is_digit_graphic c : is_digit c = true -> graphic c = true.
Proof. unfold is_digit. rewrite bool_decide_eq_true. intros [d Hd]. by eapply digit_val_graphic. Qed.

(** Printing and reading decimal numbers. *)
Lemma dec_val_pretty_go x s :
  dec_val 0 (pretty_N_go x s) = dec_val (Z.of_N x) s.
Proof.
  revert s. induction (N.lt_wf_0 x) as [x _ IH]; intros s.
  destruct (decide (x = 0%N)) as [->|Hx]; [done|].
  rewrite pretty_N_go_step by lia. rewrite IH by (apply N.div_lt; lia).
  cbn [dec_val]. set (r := (x mod 10)%N).
  assert (digit_val (pretty_N_char r) = Some (Z.of_N r)) as ->.
  { assert (r < 10)%N as Hr by (apply N.mod_lt; lia).
    assert (r = 0 \/ r = 1 \/ r = 2 \/ r = 3 \/ r = 4 \/ r = 5 \/ r = 6 \/ r = 7 \/ r = 8 \/ r = 9)%N
      as Hc by lia.
    repeat (destruct Hc as [Hc|Hc]; [by rewrite Hc|]); by rewrite Hc. }
  f_equal. unfold r. rewrite (N.div_mod' x 10) at 3. lia.
Qed.

Lemma dec_val_pretty n : dec_val 0 (pretty n) = Some (Z.of_N n).
Proof.
  unfold pretty, pretty_N. case_decide as Hn; [by subst|].
  by rewrite dec_val_pretty_go.
Qed.

Lemma pretty_N_nonempty (n : N) : pretty n <> "".
Proof.
  unfold pretty, pretty_N. case_decide as Hn; [done|]. intros E.
  pose proof (dec_val_pretty_go n "") as H. rewrite E in H. cbn in H.
  injection H as H. lia.
Qed.

Lemma big_string_digits z : 0 <= z -> str_forall is_digit (big_string z) = true.
Proof.
  intros Hz. apply (dec_val_digits 0 _ z).
  destruct z as [|p|p]; [done | | lia]. by apply (dec_val_pretty (Npos p)).
Qed.

Lemma dec_val_big_string z : 0 <= z -> dec_val 0 (big_string z) = Some z.
Proof.
  intros Hz. destruct z as [|p|p]; [done | | lia]. by apply (dec_val_pretty (Npos p)).
Qed.

(** A digit string with neither sign is read by value. *)
Lemma big_set_string_digits s :
  s <> "" -> str_forall is_digit s = true -> big_set_string s = dec_val 0 s.
Proof.
  destruct s as [|c s]; [done|]. intros _ H. unfold big_set_string.
  apply andb_true_iff in H as [Hc _].
  destruct (Ascii.eqb_spec c "-"%char) as [->|]; [done|].
  destruct (Ascii.eqb_spec c "+"%char) as [->|]; done.
Qed.

(** [hex.DecodeString (hex.EncodeToString s) = s]. *)
Lemma hex_val_digit n : (n < 16)%N -> hex_val (hex_digit n) = Some n.
Proof.
  intros Hn.
  assert (n ∈ [0;1;2;3;4;5;6;7;8;9;10;11;12;13;14;15]%N) as Hin.
  { rewrite !elem_of_cons. lia. }
  clear Hn. revert n Hin.
  apply (proj1 (list.Forall_forall (fun n => hex_val (hex_digit n) = Some n) _)).
  repeat constructor.
Qed.

Lemma str_app_inj_l (p s t : string) : p +:+ s = p +:+ t -> s = t.
Proof. induction p as [|c p IH]; cbn; [done|]. intros [= E]. by apply IH. Qed.

Lemma hex_decode_encode s : hex_decode (hex_encode s) = Ok s.
Proof.
  induction s as [|c s IH]; [done|]. cbn.
  set (n := Ascii.N_of_ascii c).
  assert (n < 256)%N as Hn by apply Ascii.N_ascii_bounded.
  rewrite !hex_val_digit by (apply N.mod_lt || apply N.Div0.div_lt_upper_bound; lia).
  rewrite IH. cbn. f_equal. f_equal.
  rewrite N.mul_comm, <- N.div_mod'. apply Ascii.ascii_N_embedding.
Qed.

Lemma hex_encode_inj s t : hex_encode s = hex_encode t -> s = t.
Proof.
  intros E. assert (Ok s = Ok t) as [= ->]; [|done].
  by rewrite <- (hex_decode_encode s), <- (hex_decode_encode t), E.
Qed.

(** ** [sort.Slice] by a string key

    Byte-wise string order, and the facts that make a sorted slice canonical.
    [sort.Slice] promises a sorted permutation and no order among equal keys;
    [sort_by] is one such function, and [sort_by_unique] shows that with
    distinct keys every such function gives the same slice. *)
Fixpoint str_leb (s t : string) : bool :=
  match s, t with
  | "", _ => true
  | String _ _, "" => false
  | String a s', String b t' =>
      let x := Ascii.N_of_ascii a in let y := Ascii.N_of_ascii b in
      (x <? y)%N || ((x =? y)%N && str_leb s' t')
  end.

Lemma str_leb_refl s : str_leb s s = true.
Proof. induction s as [|a s IH]; cbn; [done|]. by rewrite N.ltb_irrefl, N.eqb_refl, IH. Qed.

Lemma str_leb_trans s t u : str_leb s t = true -> str_leb t u = true -> str_leb s u = true.
Proof.
  revert t u. induction s as [|a s IH]; intros [|b t] [|c u]; cbn; try done.
  rewrite !orb_true_iff, !andb_true_iff, !N.ltb_lt, !N.eqb_eq.
  intros [?|[E ?]] [?|[E' ?]]; [left; lia..|]. right. split; [lia|by eapply IH].
Qed.

Lemma str_leb_antisym s t : str_leb s t = true -> str_leb t s = true -> s = t.
Proof.
  revert t. induction s as [|a s IH]; intros [|b t]; cbn; try done.
  rewrite !orb_true_iff, !andb_true_iff, !N.ltb_lt, !N.eqb_eq.
  intros [?|[E ?]] [?|[E' ?]]; try lia. f_equal; [|by apply IH].
  by rewrite <- (Ascii.ascii_N_embedding a), E, Ascii.ascii_N_embedding.
Qed.

Lemma str_leb_total s t : str_leb s t = true \/ str_leb t s = true.
Proof.
  revert t. induction s as [|a s IH]; intros [|b t]; cbn; auto.
  rewrite !orb_true_iff, !andb_true_iff, !N.ltb_lt, !N.eqb_eq.
  destruct (N.lt_trichotomy (Ascii.N_of_ascii a) (Ascii.N_of_ascii b)) as [?|[?|?]]; auto.
  destruct (IH t); auto.
Qed.

(** Strings that share a prefix compare by the rest. *)
Lemma str_leb_app p s t : str_leb (p +:+ s) (p +:+ t) = str_leb s t.
Proof.
  induction p as [|a p IH]; cbn; [done|]. by rewrite N.ltb_irrefl, N.eqb_refl, IH.
Qed.

Section SortBy.
Context {A : Type} (key : A -> string).

Definition by_key (a b : A) : Prop := str_leb (key a) (key b) = true.
#[export] Instance by_key_dec : RelDecision by_key.
Proof. intros a b. unfold by_key. apply bool_eq_dec. Defined.
#[export] Instance by_key_trans : Transitive by_key.
Proof. intros a b c. apply str_leb_trans. Qed.
#[export] Instance by_key_total : Total by_key.
Proof. intros a b. apply str_leb_total. Qed.

Definition sort_by (l : list A) : list A := merge_sort by_key l.

Lemma sort_by_perm l : sort_by l ≡ₚ l.
Proof. apply merge_sort_Permutation. Qed.

Lemma sort_by_sorted l : StronglySorted by_key (sort_by l).
Proof. apply StronglySorted_merge_sort; apply _. Qed.

Lemma length_sort_by l : length (sort_by l) = length l.
Proof. by rewrite sort_by_perm. Qed.

Lemma elem_of_sort_by x l : x ∈ sort_by l <-> x ∈ l.
Proof. by rewrite sort_by_perm. Qed.

(** Distinct keys: the sorted permutation is unique. *)
Lemma sorted_unique l1 l2 :
  (forall x y, x ∈ l1 -> y ∈ l1 -> key x = key y -> x = y) ->
  StronglySorted by_key l1 -> StronglySorted by_key l2 -> l1 ≡ₚ l2 -> l1 = l2.
Proof.
  intros Hinj S1. revert l2. induction S1 as [|x l1 S1 IH Hx]; intros l2 S2 Hp.
  - symmetry. by apply Permutation_nil.
  - destruct S2 as [|y l2 S2 Hy].
    { by apply Permutation.Permutation_sym, Permutation_nil in Hp. }
    assert (x = y) as <-.
    { assert (x ∈ y :: l2) as Hx2 by (rewrite <- Hp; left).
      assert (y ∈ x :: l1) as Hy1 by (rewrite Hp; left).
      apply Hinj; [left | done |].
      apply elem_of_cons in Hx2 as [->|Hx2]; [done|].
      apply elem_of_cons in Hy1 as [->|Hy1]; [done|].
      rewrite list.Forall_forall in Hx, Hy.
      apply str_leb_antisym; [by apply Hx | by apply Hy]. }
    f_equal. apply IH; [|done|].
    + intros a b Ha Hb. apply Hinj; by right.
    + by eapply Permutation_cons_inv.
Qed.

Lemma sort_by_unique l l' :
  (forall x y, x ∈ l -> y ∈ l -> key x = key y -> x = y) ->
  l ≡ₚ l' -> StronglySorted by_key l' -> sort_by l = l'.
Proof.
  intros Hinj Hp Hs. apply sorted_unique; [|apply sort_by_sorted|done|by rewrite sort_by_perm].
  intros x y. rewrite !elem_of_sort_by. apply Hinj.
Qed.

(** The result depends on the elements only, not on the order they came in. *)
Lemma sort_by_canonical l l' :
  (forall x y, x ∈ l -> y ∈ l -> key x = key y -> x = y) ->
  l ≡ₚ l' -> sort_by l = sort_by l'.
Proof.
  intros Hinj Hp. apply sort_by_unique; [done| |apply sort_by_sorted].
  by rewrite sort_by_perm.
Qed.
End SortBy.
