(* ===== verification/Base64.v ===== *)
(** * encoding/base64: [StdEncoding] and [RawURLEncoding]

    Encoding by groups of three bytes, and Go's non-strict decoder: line breaks
    are skipped, padding is required and ends the input. *)

From S2P Require Export GoStrings.

Module Base64.

Definition upper : string := "ABCDEFGHIJKLMNOPQRSTUVWXYZ".
Definition lower : string := "abcdefghijklmnopqrstuvwxyz".
Definition encodeStd : string := upper +:+ lower +:+ "0123456789+/".
Definition encodeURL : string := upper +:+ lower +:+ "0123456789-_".

Definition char_at (alphabet : string) (v : N) : Ascii.ascii :=
  match String.get (N.to_nat v) alphabet with Some c => c | None => "000"%char end.

Fixpoint index_from (i : N) (alphabet : string) (c : Ascii.ascii) : option N :=
  match alphabet with
  | "" => None
  | String d rest => if Ascii.eqb c d then Some i else index_from (i + 1)%N rest c
  end.
Definition value_of (alphabet : string) (c : Ascii.ascii) : option N := index_from 0 alphabet c.

Definition byte (n : N) : Ascii.ascii := Ascii.ascii_of_N n.
Definition code (c : Ascii.ascii) : N := Ascii.N_of_ascii c.

(** [padding]: [StdEncoding] fills the last group with [=], a raw one does not. *)
Fixpoint encode (alphabet : string) (padding : bool) (s : string) : string :=
  let ch v := char_at alphabet v in
  let pad n := if padding then str_repeat "=" n else "" in
  match s with
  | "" => ""
  | String a "" =>
      let x := code a in
      String (ch (x / 4)%N) (String (ch ((x mod 4) * 16)%N) (pad 2%nat))
  | String a (String b "") =>
      let x := code a in let y := code b in
      String (ch (x / 4)%N) (String (ch ((x mod 4) * 16 + y / 16)%N)
        (String (ch ((y mod 16) * 4)%N) (pad 1%nat)))
  | String a (String b (String c rest)) =>
      let x := code a in let y := code b in let z := code c in
      String (ch (x / 4)%N) (String (ch ((x mod 4) * 16 + y / 16)%N)
        (String (ch ((y mod 16) * 4 + z / 64)%N) (String (ch (z mod 64)%N)
          (encode alphabet padding rest))))
  end.

Definition ErrCorruptInput : error := Errorf "illegal base64 data at input byte".

Fixpoint strip_newlines (s : string) : string :=
  match s with
  | "" => ""
  | String c rest =>
      if Ascii.eqb c "010" || Ascii.eqb c "013" then strip_newlines rest
      else String c (strip_newlines rest)
  end.

(** Groups of four characters; [=] only in the last one. *)
Fixpoint decode_groups (alphabet : string) (s : string) : res string :=
  match s with
  | "" => Ok ""
  | String c0 (String c1 (String c2 (String c3 rest))) =>
      match value_of alphabet c0, value_of alphabet c1 with
      | Some v0, Some v1 =>
          let b0 := byte (v0 * 4 + v1 / 16)%N in
          match value_of alphabet c2 with
          | Some v2 =>
              let b1 := byte ((v1 mod 16) * 16 + v2 / 4)%N in
              match value_of alphabet c3 with
              | Some v3 =>
                  let? t := decode_groups alphabet rest in
                  Ok (String b0 (String b1 (String (byte ((v2 mod 4) * 64 + v3)%N) t)))
              | None =>
                  if Ascii.eqb c3 "=" && String.eqb rest "" then Ok (String b0 (String b1 ""))
                  else Err ErrCorruptInput
              end
          | None =>
              if Ascii.eqb c2 "=" && Ascii.eqb c3 "=" && String.eqb rest "" then Ok (String b0 "")
              else Err ErrCorruptInput
          end
      | _, _ => Err ErrCorruptInput
      end
  | _ => Err ErrCorruptInput
  end.

(** Without padding the last group has two or three characters. *)
Fixpoint decode_raw (alphabet : string) (s : string) : res string :=
  match s with
  | "" => Ok ""
  | String c0 (String c1 rest) =>
      match value_of alphabet c0, value_of alphabet c1 with
      | Some v0, Some v1 =>
          let b0 := byte (v0 * 4 + v1 / 16)%N in
          match rest with
          | "" => Ok (String b0 "")
          | String c2 rest =>
              match value_of alphabet c2 with
              | None => Err ErrCorruptInput
              | Some v2 =>
                  let b1 := byte ((v1 mod 16) * 16 + v2 / 4)%N in
                  match rest with
                  | "" => Ok (String b0 (String b1 ""))
                  | String c3 rest =>
                      match value_of alphabet c3 with
                      | None => Err ErrCorruptInput
                      | Some v3 =>
                          let? t := decode_raw alphabet rest in
                          Ok (String b0 (String b1 (String (byte ((v2 mod 4) * 64 + v3)%N) t)))
                      end
                  end
              end
          end
      | _, _ => Err ErrCorruptInput
      end
  | _ => Err ErrCorruptInput
  end.

Definition StdEncoding_EncodeToString (s : string) : string := encode encodeStd true s.
Definition StdEncoding_DecodeString (s : string) : res string := decode_groups encodeStd (strip_newlines s).
Definition RawURLEncoding_EncodeToString (s : string) : string := encode encodeURL false s.
Definition RawURLEncoding_DecodeString (s : string) : res string := decode_raw encodeURL (strip_newlines s).

(** ** Round trip *)
Lemma six_bits (P : N -> Prop) :
  Forall P [0;1;2;3;4;5;6;7;8;9;10;11;12;13;14;15;16;17;18;19;20;21;22;23;24;25;26;27;28;29;30;31;32;
    33;34;35;36;37;38;39;40;41;42;43;44;45;46;47;48;49;50;51;52;53;54;55;56;57;58;59;60;61;62;63]%N ->
  forall v, (v < 64)%N -> P v.
Proof.
  rewrite list.Forall_forall. intros Hall v Hv. apply Hall. rewrite !elem_of_cons. lia.
Qed.

Lemma value_of_char v : (v < 64)%N -> value_of encodeStd (char_at encodeStd v) = Some v.
Proof. revert v. apply six_bits. repeat constructor. Qed.

Definition plain (c : Ascii.ascii) : bool :=
  negb (Ascii.eqb c "010" || Ascii.eqb c "013").

Lemma plain_char v : (v < 64)%N -> plain (char_at encodeStd v) = true.
Proof. revert v. apply six_bits. repeat constructor. Qed.

Lemma strip_newlines_plain s : str_forall plain s = true -> strip_newlines s = s.
Proof.
  induction s as [|c s IH]; cbn; [done|]. rewrite andb_true_iff. unfold plain at 1.
  intros [->%negb_true_iff Hs]. by rewrite IH.
Qed.

Lemma string_ind3 (P : string -> Prop) :
  P "" -> (forall a, P (String a "")) -> (forall a b, P (String a (String b ""))) ->
  (forall a b c s, P s -> P (String a (String b (String c s)))) -> forall s, P s.
Proof.
  intros H0 H1 H2 H3 s. induction s as [s IH] using (induction_ltof1 _ String.length).
  destruct s as [|a [|b [|c s]]]; auto. apply H3, IH. unfold ltof. cbn. lia.
Qed.

Lemma code_bound c : (code c < 256)%N.
Proof. apply Ascii.N_ascii_bounded. Qed.
Lemma byte_code c n : n = code c -> byte n = c.
Proof. intros ->. apply Ascii.ascii_N_embedding. Qed.

(** Solve the six-bit arithmetic of one group. *)
Ltac sextets :=
  repeat match goal with c : Ascii.ascii |- _ =>
    lazymatch goal with H : (code c < 256)%N |- _ => fail | _ => pose proof (code_bound c) end end;
  zify; Z.to_euclidean_division_equations; lia.

Lemma encode_plain s : str_forall plain (encode encodeStd true s) = true.
Proof.
  induction s as [|a|a b|a b c s IH] using string_ind3; cbn [encode str_forall str_repeat].
  - done.
  - rewrite !plain_char by sextets. done.
  - rewrite !plain_char by sextets. done.
  - rewrite !plain_char by sextets. exact IH.
Qed.

Lemma decode_encode s : decode_groups encodeStd (encode encodeStd true s) = Ok s.
Proof.
  induction s as [|a|a b|a b c s IH] using string_ind3; cbn [encode decode_groups str_repeat].
  - done.
  - rewrite !value_of_char by sextets. cbn. rewrite (byte_code a) by sextets. done.
  - rewrite !value_of_char by sextets. cbn. rewrite (byte_code a), (byte_code b) by sextets. done.
  - rewrite !value_of_char by sextets. rewrite IH. cbn.
    rewrite (byte_code a), (byte_code b), (byte_code c) by sextets. done.
Qed.

(** [base64.StdEncoding.DecodeString] inverts [EncodeToString]. *)
Lemma std_decode_encode s : StdEncoding_DecodeString (StdEncoding_EncodeToString s) = Ok s.
Proof.
  unfold StdEncoding_DecodeString, StdEncoding_EncodeToString.
  rewrite strip_newlines_plain by apply encode_plain. apply decode_encode.
Qed.

Lemma value_of_url v : (v < 64)%N -> value_of encodeURL (char_at encodeURL v) = Some v.
Proof. revert v. apply six_bits. repeat constructor. Qed.
Lemma plain_url v : (v < 64)%N -> plain (char_at encodeURL v) = true.
Proof. revert v. apply six_bits. repeat constructor. Qed.

Lemma encode_raw_plain s : str_forall plain (encode encodeURL false s) = true.
Proof.
  induction s as [|a|a b|a b c s IH] using string_ind3; cbn [encode str_forall str_repeat];
    rewrite ?plain_url by sextets; done.
Qed.

Lemma decode_encode_raw s : decode_raw encodeURL (encode encodeURL false s) = Ok s.
Proof.
  induction s as [|a|a b|a b c s IH] using string_ind3; cbn [encode decode_raw str_repeat].
  - done.
  - rewrite !value_of_url by sextets. cbn. rewrite (byte_code a) by sextets. done.
  - rewrite !value_of_url by sextets. cbn. rewrite (byte_code a), (byte_code b) by sextets. done.
  - rewrite !value_of_url by sextets. rewrite IH. cbn.
    rewrite (byte_code a), (byte_code b), (byte_code c) by sextets. done.
Qed.

Lemma RawURL_round_trip s : RawURLEncoding_DecodeString (RawURLEncoding_EncodeToString s) = Ok s.
Proof.
  unfold RawURLEncoding_DecodeString, RawURLEncoding_EncodeToString.
  rewrite strip_newlines_plain by apply encode_raw_plain. apply decode_encode_raw.
Qed.
End Base64.
