(* ===== verification/Deploynet.v ===== *)
(** * The deployment's network (internal/deploynet)

    A deployment serves one Stellar network, set once at start-up; a request may
    name it or leave it out. *)

From S2P Require Export GoStrings.

Module Deploynet.

Definition Testnet : string := "testnet".
Definition Mainnet : string := "mainnet".
Definition ErrInvalid : error := Sentinel "deploynet.ErrInvalid".
Definition ErrMismatch : error := Sentinel "deploynet.ErrMismatch".
Definition ErrInvalidNetwork : error := Sentinel "ErrInvalidNetwork".

(** What [Set] stored, or "" before it ran; [Set] panics on anything else. *)
Class Deployment := { Get : string; Get_valid : Get = "" \/ Get = Testnet \/ Get = Mainnet }.

Section Deploynet.
Context `{Unicode} `{Deployment}.

Definition Passphrase (network : string) : string :=
  if String.eqb network Mainnet then "Public Global Stellar Network ; September 2015"
  else "Test SDF Network ; September 2015".

Definition Resolve (raw : string) : res string :=
  let named := to_lower (trim_space raw) in
  if negb (String.eqb named "" || String.eqb named Testnet || String.eqb named Mainnet) then Err ErrInvalid else
  let deployed := Get in
  if String.eqb deployed "" then Ok (if String.eqb named "" then Testnet else named) else
  if String.eqb named "" || String.eqb named deployed then Ok deployed else Err (Wrapf "network" ErrMismatch).

(** network.go of the webapp services *)
Definition ParseNetwork (raw : string) : res string :=
  match Resolve raw with
  | Ok network => Ok network
  | Err e => if errors_is e ErrInvalid then Err ErrInvalidNetwork else Err e
  end.

(** A set deployment resolves a request to itself or refuses it. *)
Lemma Resolve_deployed raw n : Get <> "" -> Resolve raw = Ok n -> n = Get.
Proof using Type.
  unfold Resolve. destruct (negb _); [done|]. destruct (String.eqb_spec Get ""); [done|].
  destruct (_ || _); [|done]. by intros _ [= <-].
Qed.
Lemma Resolve_unset raw n : Get = "" -> Resolve raw = Ok n -> n = Testnet \/ n = Mainnet.
Proof using Type.
  unfold Resolve. generalize (to_lower (trim_space raw)) as named. intros named ->. cbn.
  destruct (String.eqb_spec named ""); [intros [= <-]; by left|].
  destruct (String.eqb_spec named Testnet) as [->|]; [intros [= <-]; by left|].
  destruct (String.eqb_spec named Mainnet) as [->|]; [intros [= <-]; by right|done].
Qed.
Lemma Resolve_network raw n : Resolve raw = Ok n -> n = Testnet \/ n = Mainnet.
Proof using Type.
  destruct Get_valid as [E|E]; [by apply Resolve_unset|]. intros Hr.
  apply Resolve_deployed in Hr as ->; [done|]. by destruct E as [-> | ->].
Qed.
Lemma ParseNetwork_network raw n : ParseNetwork raw = Ok n -> n = Testnet \/ n = Mainnet.
Proof using Type.
  unfold ParseNetwork. destruct (Resolve raw) eqn:E; [intros [= <-]; by eapply Resolve_network|].
  by destruct (errors_is _ _).
Qed.
End Deploynet.
End Deploynet.
