(* ===== verification/Sha256.v ===== *)
(** * SHA-256 (Go's crypto/sha256), as the services use it on whole messages

    FIPS 180-4 on lists of bytes and 32-bit words, the words kept below [2^32]
    by [land]. *)

From S2P Require Export GoStrings.

Module Sha256.

Definition mask : Z := 2 ^ 32 - 1.
Definition add32 (a b : Z) : Z := Z.land (a + b) mask.
Definition rotr (n x : Z) : Z := Z.lor (Z.shiftr x n) (Z.land (Z.shiftl x (32 - n)) mask).

Definition Ch (x y z : Z) : Z := Z.lxor (Z.land x y) (Z.land (Z.lxor x mask) z).
Definition Maj (x y z : Z) : Z := Z.lxor (Z.land x y) (Z.lxor (Z.land x z) (Z.land y z)).
Definition Sigma0 (x : Z) : Z := Z.lxor (rotr 2 x) (Z.lxor (rotr 13 x) (rotr 22 x)).
Definition Sigma1 (x : Z) : Z := Z.lxor (rotr 6 x) (Z.lxor (rotr 11 x) (rotr 25 x)).
Definition sigma0 (x : Z) : Z := Z.lxor (rotr 7 x) (Z.lxor (rotr 18 x) (Z.shiftr x 3)).
Definition sigma1 (x : Z) : Z := Z.lxor (rotr 17 x) (Z.lxor (rotr 19 x) (Z.shiftr x 10)).

(** The constants are what FIPS 180-4 says they are: the first 32 bits of the
    fractional parts of the cube roots of the first 64 primes, and of the square
    roots of the first eight. *)
Definition prime_below (l : list Z) (n : Z) : bool := forallb (fun p => negb (n mod p =? 0)) l.
Fixpoint sieve (fuel : nat) (n : Z) (l : list Z) : list Z :=
  match fuel with
  | O => l
  | S f => sieve f (n + 1) (if prime_below l n then l ++ [n] else l)
  end.
Definition primes : list Z := sieve 310 2 [].

(** The largest [lo <= r < lo + 2 ^ n] with [r ^ 3 <= x]. *)
Fixpoint cbrt_from (n : nat) (lo x : Z) : Z :=
  match n with
  | O => lo
  | S n' => let mid := lo + 2 ^ Z.of_nat n' in cbrt_from n' (if mid ^ 3 <=? x then mid else lo) x
  end.
Definition K : list Z :=
  Eval vm_compute in map (fun p => Z.land (cbrt_from 35 0 (Z.shiftl p 96)) mask) primes.
Definition H0 : list Z :=
  Eval vm_compute in map (fun p => Z.land (Z.sqrt (Z.shiftl p 64)) mask) (firstn 8 primes).

(** The padding: a one bit, zeros, and the length in bits on 8 bytes. *)
Fixpoint be_bytes (n : nat) (x : Z) : list Z :=
  match n with O => [] | S n' => Z.land (Z.shiftr x (8 * Z.of_nat n')) 255 :: be_bytes n' x end.
Definition pad (msg : list Z) : list Z :=
  let l := length msg in
  let zeros := Z.to_nat ((55 - Z.of_nat l) mod 64) in
  msg ++ 128 :: repeat 0 zeros ++ be_bytes 8 (8 * Z.of_nat l).

Fixpoint words (l : list Z) : list Z :=
  match l with
  | a :: b :: c :: d :: r =>
      Z.lor (Z.shiftl a 24) (Z.lor (Z.shiftl b 16) (Z.lor (Z.shiftl c 8) d)) :: words r
  | _ => []
  end.

(** The schedule, latest word first. *)
Fixpoint expand (n : nat) (w : list Z) : list Z :=
  match n with
  | O => w
  | S n' =>
      let at_ i := nth i w 0 in
      expand n' (add32 (add32 (sigma1 (at_ 1%nat)) (at_ 6%nat)) (add32 (sigma0 (at_ 14%nat)) (at_ 15%nat)) :: w)
  end.

Definition round (s : list Z) (kw : Z * Z) : list Z :=
  match s with
  | [a; b; c; d; e; f; g; h] =>
      let t1 := add32 (add32 h (Sigma1 e)) (add32 (Ch e f g) (add32 kw.1 kw.2)) in
      let t2 := add32 (Sigma0 a) (Maj a b c) in
      [add32 t1 t2; a; b; c; add32 d t1; e; f; g]
  | _ => s
  end.

Definition block (s : list Z) (ws : list Z) : list Z :=
  zip_with add32 s (fold_left round (zip K (rev (expand 48 (rev ws)))) s).

Fixpoint blocks (n : nat) (s : list Z) (ws : list Z) : list Z :=
  match n with
  | O => s
  | S n' => blocks n' (block s (firstn 16 ws)) (skipn 16 ws)
  end.

Definition byte_of (c : ascii) : Z := Z.of_N (N_of_ascii c).
Definition of_bytes (l : list Z) : string :=
  string_of_list_ascii (map (fun z => ascii_of_N (Z.to_N z)) l).

(** [sha256.Sum256] *)
Definition Sum256 (msg : string) : string :=
  let ws := words (pad (map byte_of (list_ascii_of_string msg))) in
  of_bytes (concat (map (be_bytes 4) (blocks (Nat.div (length ws) 16) H0 ws))).

Example sum_empty :
  hex_encode (Sum256 "") = "e3b0c44298fc1c149afbf4c8996fb92427ae41e4649b934ca495991b7852b855".
Proof. vm_compute. reflexivity. Qed.
Example sum_abc :
  hex_encode (Sum256 "abc") = "ba7816bf8f01cfea414140de5dae2223b00361a396177a9cb410ff61f20015ad".
Proof. vm_compute. reflexivity. Qed.
Example sum_two_blocks :
  hex_encode (Sum256 "abcdbcdecdefdefgefghfghighijhijkijkljklmklmnlmnomnopnopq") =
  "248d6a61d20638b8e5c026930c3e6039a33ce45964ff2167f6ecedd419db06c1".
Proof. vm_compute. reflexivity. Qed.

Lemma of_bytes_length l : String.length (of_bytes l) = length l.
Proof. unfold of_bytes. induction l; cbn; congruence. Qed.
Lemma be_bytes_length n x : length (be_bytes n x) = n.
Proof. induction n; cbn; congruence. Qed.
Lemma round_length s kw : length s = 8%nat -> length (round s kw) = 8%nat.
Proof. by destruct s as [|? [|? [|? [|? [|? [|? [|? [|? [|]]]]]]]]]. Qed.
Lemma rounds_length l s : length s = 8%nat -> length (fold_left round l s) = 8%nat.
Proof. revert s. induction l as [|kw l IH]; intros s Hs; cbn; [done|]. by apply IH, round_length. Qed.
Lemma blocks_length n s ws : length s = 8%nat -> length (blocks n s ws) = 8%nat.
Proof.
  revert s ws. induction n as [|n IH]; intros s ws Hs; cbn; [done|]. apply IH. unfold block.
  rewrite length_zip_with, rounds_length; lia.
Qed.

(** A digest has 32 bytes, 64 hexadecimal digits. *)
Lemma Sum256_length msg : String.length (Sum256 msg) = 32%nat.
Proof.
  unfold Sum256. rewrite of_bytes_length. set (ws := words _).
  pose proof (blocks_length (Nat.div (length ws) 16) H0 ws eq_refl) as Hl. revert Hl.
  generalize (blocks (Nat.div (length ws) 16) H0 ws) as l. intros l Hl.
  assert (length (concat (map (be_bytes 4) l)) = 4 * length l)%nat as ->; [|lia].
  clear. induction l as [|x l IH]; cbn -[be_bytes]; [done|]. rewrite length_app, IH, be_bytes_length. lia.
Qed.
End Sha256.
