(* ===== verification/Http.v ===== *)
(** * HTTP requests, escaping and keyed hashes (net/http, net/url, crypto/hmac)

    The clients of other services build requests and read responses; what comes
    back is the class [Http]. The escaping of query strings and HMAC-SHA256 are
    computed. *)

From S2P Require Export IO GoStrings Sha256 Base64.

Record http_request := { rq_Method : string; rq_URL : string; rq_Header : list (string * string); rq_Body : option string }.
(** The status and headers arrive first; reading the body may fail later. *)
Record http_response := { rs_StatusCode : Z; rs_Body : res string }.
Class Http := { http_do : http_request -> nat -> res http_response }.

(** [_ = json.Unmarshal(raw, &v)]: what [v] holds afterwards, whatever the error. *)
Class JsonBest (A : Type) := { json_best : string -> A }.
(** [json.NewDecoder(r).Decode(&v)], on the body as it reads. *)
Class JsonDecode (A : Type) := { json_decode : res string -> res A }.
(** [time.RFC3339], an instant in milliseconds *)
Class TimeFormat := { rfc3339_format : Z -> string; rfc3339_parse : string -> res Z }.

(** net/http's names of the statuses *)
Definition StatusOK : Z := 200.
Definition StatusCreated : Z := 201.
Definition StatusAccepted : Z := 202.
Definition StatusBadRequest : Z := 400.
Definition StatusUnauthorized : Z := 401.
Definition StatusForbidden : Z := 403.
Definition StatusNotFound : Z := 404.
Definition StatusConflict : Z := 409.
Definition StatusUnprocessableEntity : Z := 422.
Definition StatusTooManyRequests : Z := 429.
Definition StatusInternalServerError : Z := 500.
Definition StatusBadGateway : Z := 502.
Definition StatusServiceUnavailable : Z := 503.
Definition StatusGatewayTimeout : Z := 504.

Module Url.
Definition is_alnum (c : ascii) : bool :=
  let n := nat_of_ascii c in
  (((65 <=? n) && (n <=? 90)) || ((97 <=? n) && (n <=? 122)) || ((48 <=? n) && (n <=? 57)))%nat.
(** The characters both modes leave alone. *)
Definition unreserved (c : ascii) : bool := is_alnum c || existsb (Ascii.eqb c) (list_ascii_of_string "-_.~").
(** Those a path segment may hold besides. *)
Definition segment_char (c : ascii) : bool := unreserved c || existsb (Ascii.eqb c) (list_ascii_of_string "$&+=:@").

(** [upperhex] *)
Definition upper_hex (n : N) : ascii :=
  if (n <? 10)%N then ascii_of_N (48 + n) else ascii_of_N (55 + n).
Definition percent (c : ascii) : string :=
  let n := N_of_ascii c in String "%" (String (upper_hex (n / 16)) (String (upper_hex (n mod 16)) "")).

(** [url.QueryEscape]: a space becomes a plus sign. *)
Fixpoint QueryEscape (s : string) : string :=
  match s with
  | "" => ""
  | String c s' =>
      (if Ascii.eqb c " " then "+" else if unreserved c then String c "" else percent c) +:+ QueryEscape s'
  end.
(** [url.PathEscape] *)
Fixpoint PathEscape (s : string) : string :=
  match s with
  | "" => ""
  | String c s' => (if segment_char c then String c "" else percent c) +:+ PathEscape s'
  end.

(** [url.QueryUnescape] *)
Fixpoint QueryUnescape (s : string) : res string :=
  match s with
  | "" => Ok ""
  | String "%" (String a (String b s')) =>
      match hex_val a, hex_val b with
      | Some x, Some y => let? t := QueryUnescape s' in Ok (String (ascii_of_N (16 * x + y)) t)
      | _, _ => Err (Errorf "invalid URL escape")
      end
  | String "%" _ => Err (Errorf "invalid URL escape")
  | String "+" s' => let? t := QueryUnescape s' in Ok (String " " t)
  | String c s' => let? t := QueryUnescape s' in Ok (String c t)
  end.
End Url.

Module Hmac.
Definition block_size : nat := 64.
(** The key fills one block: a longer one is hashed first. *)
Definition block_key (key : string) : list Z :=
  let k := if (block_size <? String.length key)%nat then Sha256.Sum256 key else key in
  let bytes := Sha256.byte_of <$> list_ascii_of_string k in
  (bytes ++ replicate (block_size - length bytes) 0)%list.
Definition xor_with (pad : Z) (key : list Z) : string := Sha256.of_bytes (Z.lxor pad <$> key).
(** [hmac.New(sha256.New, key)], [Write(msg)], [Sum(nil)] *)
Definition Sum (key msg : string) : string :=
  let k := block_key key in Sha256.Sum256 (xor_with 92 k +:+ Sha256.Sum256 (xor_with 54 k +:+ msg)).

Example sum_fox :
  hex_encode (Sum "key" "The quick brown fox jumps over the lazy dog") =
  "f7bc83f430538424b13298e6aa6fb143ef4d59a14946175997479dbc2d1a3cd8".
Proof. vm_compute. reflexivity. Qed.
End Hmac.
