(* ===== verification/Clients.v ===== *)
(** * Calls with a budget (context.WithTimeout, time.After, net/http)

    The clients of the gasless service and of the relayer retry and poll within
    a budget. Here the clock is part of the state: an effect takes as long as the
    environment says, a wait at least its length, and what was sent is recorded. *)

From S2P Require Export Http.

(** The clock in milliseconds, every request sent so far, and the client's own fields. *)
Record Timed (A : Type) := MkTimed { t_now : Z; t_sent : list http_request; t_own : A }.
Arguments MkTimed {A} t_now t_sent t_own.
Arguments t_now {A} t.
Arguments t_sent {A} t.
Arguments t_own {A} t.

(** How long the n-th effect takes, and the effect by which the caller of the
    route has gone, if it goes. *)
Class Elapses := { elapsed : nat -> N; gone_at : option nat }.

Definition ErrCanceled : error := Sentinel "context.Canceled".
Definition ErrDeadlineExceeded : error := Sentinel "context.DeadlineExceeded".

Section Clients.
Context `{Http} `{Elapses} {A : Type}.
Abbreviation W := (World (Timed A)).

Definition cancelled (n : nat) : bool := match gone_at with Some k => (k <=? n)%nat | None => false end.
Definition clock : M W Z := fun w => (Ok (t_now (w_store w)), w).
Definition own : M W A := fun w => (Ok (t_own (w_store w)), w).
Definition set_own (a : A) : M W unit := fun w =>
  (Ok tt, put_store (MkTimed (t_now (w_store w)) (t_sent (w_store w)) a) w).
(** The n-th effect is over at [t]. *)
Definition elapse (t : Z) (w : W) : W :=
  tick (put_store (MkTimed (t + Z.of_N (elapsed (w_io w))) (t_sent (w_store w)) (t_own (w_store w))) w).
Definition record_sent (req : http_request) (w : W) : W :=
  put_store (MkTimed (t_now (w_store w)) (t_sent (w_store w) ++ [req])%list (t_own (w_store w))) w.

(** [ctx.Err()] *)
Definition ctx_Err (deadline : Z) : M W (option error) := fun w =>
  (Ok (if cancelled (w_io w) then Some ErrCanceled
       else if deadline <=? t_now (w_store w) then Some ErrDeadlineExceeded else None), w).
(** [httpClient.Do(req)]: the response, unless the context ends first. *)
Definition http_Do (deadline : Z) (req : http_request) : M W http_response := fun w =>
  let w' := elapse (t_now (w_store w)) (record_sent req w) in
  (if cancelled (w_io w) then Err ErrCanceled
   else if deadline <=? t_now (w_store w') then Err ErrDeadlineExceeded
   else http_do req (w_io w), w').
(** [select { case <-ctx.Done(): … case <-time.After(d): }]: what comes first. *)
Definition wait (deadline d : Z) : M W (option error) := fun w =>
  if cancelled (w_io w) then (Ok (Some ErrCanceled), elapse (t_now (w_store w)) w)
  else if deadline <=? t_now (w_store w) + d
  then (Ok (Some ErrDeadlineExceeded), elapse (Z.max deadline (t_now (w_store w))) w)
  else (Ok None, elapse (t_now (w_store w) + d) w).

(** [fmt.Errorf] around the error of a step, with one [%w] or two. *)
Definition map_err {S B} (f : error -> error) (m : M S B) : M S B := fun s =>
  match m s with (Ok b, s') => (Ok b, s') | (Err e, s') => (Err (f e), s') end.

Lemma bind_attempt {S B C} (m : M S B) (k : res B -> M S C) s : bind (attempt m) k s = k (fst (m s)) (snd (m s)).
Proof. unfold bind, attempt. by destruct (m s). Qed.

(** ** What a step does to the clock and the log *)
Lemma http_Do_run deadline req (w : W) : exists r, http_Do deadline req w = (r, elapse (t_now (w_store w)) (record_sent req w)).
Proof. by eexists. Qed.
Lemma elapse_now t (w : W) : t <= t_now (w_store (elapse t w)).
Proof. cbn. lia. Qed.
Lemma map_err_ok {S B} f (m : M S B) b s s' : map_err f m s = (Ok b, s') <-> m s = (Ok b, s').
Proof. unfold map_err. destruct (m s) as [[?|?] ?]; split; congruence. Qed.
Lemma map_err_err {S B} f (m : M S B) e s s' : map_err f m s = (Err e, s') <-> exists e0, e = f e0 /\ m s = (Err e0, s').
Proof.
  unfold map_err. destruct (m s) as [[?|e0] s0]; split; try congruence; [intros (? & _ & [=])|by intros [= <- <-]; eauto|].
  by intros (e1 & -> & [= -> ->]).
Qed.
Lemma bind_clock {B} (k : Z -> M W B) (w : W) : bind clock k w = k (t_now (w_store w)) w.
Proof. done. Qed.
Lemma bind_own {B} (k : A -> M W B) (w : W) : bind own k w = k (t_own (w_store w)) w.
Proof. done. Qed.
Lemma wait_none deadline d (w w' : W) : wait deadline d w = (Ok None, w') ->
  t_now (w_store w) + d < deadline /\ t_now (w_store w) + d <= t_now (w_store w') /\
  t_sent (w_store w') = t_sent (w_store w) /\ t_own (w_store w') = t_own (w_store w).
Proof.
  unfold wait. destruct (cancelled _); [discriminate|]. destruct (Z.leb_spec deadline (t_now (w_store w) + d)); [discriminate|].
  intros [= <-]. cbn. repeat split; lia.
Qed.
Lemma wait_some deadline d e (w w' : W) : wait deadline d w = (Ok (Some e), w') ->
  (e = ErrCanceled \/ e = ErrDeadlineExceeded) /\ t_now (w_store w) <= t_now (w_store w') /\
  t_sent (w_store w') = t_sent (w_store w) /\ t_own (w_store w') = t_own (w_store w).
Proof.
  unfold wait. destruct (cancelled _).
  - intros [= <- <-]. cbn. repeat split; [by left|lia].
  - destruct (Z.leb_spec deadline (t_now (w_store w) + d)); [|discriminate]. intros [= <- <-]. cbn. repeat split; [by right|lia].
Qed.
Lemma wait_ok deadline d (w : W) : exists r w', wait deadline d w = (Ok r, w').
Proof. unfold wait. destruct (cancelled _); [eauto|]. destruct (_ <=? _); eauto. Qed.
End Clients.
