(* ===== verification/GoFloat.v ===== *)
(** * Go's float64: conversion, division, reading and printing (strconv)

    A float64 is a binary64 number of the Standard Library's specification of
    IEEE 754. [ParseFloat] rounds the decimal once, to nearest even; [FormatFloat]
    prints seven decimals, or the fewest digits that read back. *)

From Stdlib Require Import Floats.SpecFloat.
From S2P Require Export GoStrings.

Abbreviation float64 := spec_float.

Module GoFloat.
Definition prec : Z := 53.
Definition emax : Z := 1024.

(** [float64(n)] *)
Definition of_Z (n : Z) : float64 := binary_normalize prec emax n 0 false.
(** [x / y] *)
Definition div (x y : float64) : float64 := SFdiv prec emax x y.
(** The float64 nearest to [num/den] *)
Definition of_rational (negative : bool) (num den : positive) : float64 :=
  let '(m, e, l) := SFdiv_core_binary prec emax (Zpos num) 0 (Zpos den) 0 in binary_round_aux prec emax negative m e l.
(** The float64 nearest to [m * 10^e] *)
Definition of_decimal (negative : bool) (m e : Z) : float64 :=
  match m with
  | Zpos p => if 0 <=? e then of_rational negative (Z.to_pos (Zpos p * 10 ^ e)) 1
              else of_rational negative p (Z.to_pos (10 ^ (- e)))
  | _ => S754_zero negative
  end.

(** ** [strconv.FormatFloat(x, 'f', 7, 64)] *)
Definition round_half_even (n d : Z) : Z :=
  let q := n / d in
  match 2 * (n mod d) ?= d with Lt => q | Gt => q + 1 | Eq => if Z.even q then q else q + 1 end.
(** [m * 2^e * 10^k], rounded *)
Definition scaled (m e k : Z) : Z :=
  if 0 <=? e then m * 2 ^ e * 10 ^ k else round_half_even (m * 10 ^ k) (2 ^ (- e)).
Definition pad_left (width : nat) (s : string) : string := str_repeat "0" (width - String.length s) +:+ s.
(** The point before the last [k] digits *)
Definition with_point (k : nat) (n : Z) : string :=
  match k with
  | O => pretty n
  | _ => pretty (n / 10 ^ Z.of_nat k) +:+ "." +:+ pad_left k (pretty (n mod 10 ^ Z.of_nat k))
  end.
Definition sign (s : bool) : string := if s then "-" else "".
Definition FormatFloat7 (x : float64) : string :=
  match x with
  | S754_nan => "NaN"
  | S754_infinity s => (if s then "-" else "+") +:+ "Inf"
  | S754_zero s => sign s +:+ "0.0000000"
  | S754_finite s m e => sign s +:+ with_point 7 (scaled (Zpos m) e 7)
  end.

(** ** [strconv.FormatFloat(x, 'f', -1, 64)]: the fewest digits that read back *)
(** The largest [p] with [10^p <= num/den], looked for upwards from [p]. *)
Fixpoint log10_from (fuel : nat) (p num den : Z) : Z :=
  match fuel with
  | O => p
  | S fuel => if (if 0 <=? p + 1 then 10 ^ (p + 1) * den <=? num else den <=? num * 10 ^ (- (p + 1)))
              then log10_from fuel (p + 1) num den else p
  end.
(** [num/den] in units of [10^e], rounded down *)
Definition in_units (num den e : Z) : Z := if 0 <=? e then num / (10 ^ e * den) else num * 10 ^ (- e) / den.
(** [d * 10^e] is no farther from [num/den] than [(d + 1) * 10^e]. *)
Definition lower_closer (num den d e : Z) : bool :=
  if 0 <=? e then 2 * num <=? (2 * d + 1) * 10 ^ e * den else 2 * num * 10 ^ (- e) <=? (2 * d + 1) * den.
Fixpoint shortest_from (fuel : nat) (k : Z) (m : positive) (e num den p : Z) : Z * Z :=
  let u := p - k + 1 in
  let d := in_units num den u in
  let reads n := SFeqb (of_decimal false n u) (S754_finite false m e) in
  match fuel with
  | O => (d, u)
  | S fuel =>
      let low := lower_closer num den d u in
      if reads (if low then d else d + 1) then (if low then d else d + 1, u) else
      if reads (if low then d + 1 else d) then (if low then d + 1 else d, u) else
      shortest_from fuel (k + 1) m e num den p
  end.
Definition shortest (m : positive) (e : Z) : Z * Z :=
  let num := if 0 <=? e then Zpos m * 2 ^ e else Zpos m in
  let den := if 0 <=? e then 1 else 2 ^ (- e) in
  shortest_from 17 1 m e num den (log10_from 640 (-325) num den).
Definition decimal_text (d e : Z) : string :=
  if 0 <=? e then pretty (d * 10 ^ e) else with_point (Z.to_nat (- e)) d.
Definition FormatFloat (x : float64) : string :=
  match x with
  | S754_nan => "NaN"
  | S754_infinity s => (if s then "-" else "+") +:+ "Inf"
  | S754_zero s => sign s +:+ "0"
  | S754_finite s m e => let '(d, u) := shortest m e in sign s +:+ decimal_text d u
  end.

(** ** [strconv.ParseFloat(s, 64)] of decimal numbers
    Hexadecimal numbers, infinities and NaN are left out. *)
Definition leading_digits (s : string) : string * string :=
  (fix go (s : string) : string * string :=
     match s with
     | "" => ("", "")
     | String c s' => if is_digit c then let '(a, b) := go s' in (String c a, b) else ("", s)
     end) s.
Definition parse_sign (s : string) : bool * string :=
  match s with
  | String "-" s' => (true, s')
  | String "+" s' => (false, s')
  | _ => (false, s)
  end.
(** Digits past 10000 no longer count. *)
Fixpoint exp_digits (acc : Z) (s : string) : Z :=
  match s with
  | "" => acc
  | String c s' => exp_digits (if acc <? 10000 then acc * 10 + default 0 (digit_val c) else acc) s'
  end.
Definition parse_exp (s : string) : option Z :=
  match s with
  | "" => Some 0
  | String c s' =>
      if Ascii.eqb c "e" || Ascii.eqb c "E" then
        let '(negative, digits) := parse_sign s' in
        if String.eqb digits "" || negb (str_forall is_digit digits) then None
        else Some (if negative then - exp_digits 0 digits else exp_digits 0 digits)
      else None
  end.
Definition ErrSyntax : error := Errorf "strconv.ParseFloat: invalid syntax".
Definition ErrRange : error := Errorf "strconv.ParseFloat: value out of range".
Definition ParseFloat (s : string) : res float64 :=
  let '(negative, s) := parse_sign s in
  let '(whole, s) := leading_digits s in
  let '(frac, s) := match s with String "." s' => leading_digits s' | _ => ("", s) end in
  if String.eqb (whole +:+ frac) "" then Err ErrSyntax else
  match parse_exp s, dec_val 0 (whole +:+ frac) with
  | Some e, Some m =>
      match of_decimal negative m (e - Z.of_nat (String.length frac)) with
      | S754_infinity _ => Err ErrRange
      | x => Ok x
      end
  | _, _ => Err ErrSyntax
  end.
(** [x > 0] and neither infinite nor NaN *)
Definition positive_finite (x : float64) : bool := match x with S754_finite false _ _ => true | _ => false end.
End GoFloat.
