(* ===== verification/Redis.v ===== *)
(** * Redis: keys with values and deadlines

    The commands the services send, on a map from keys to text or counters. A
    command runs at the reading of the clock its effect takes; a key whose
    deadline has passed is absent. A command that fails has changed nothing. *)

From S2P Require Export IO GoStrings.

(** A value written by SET, or the counter INCR keeps. *)
Inductive RedisValue :=
  | RText (s : string)
  | RCount (n : Z).

Record RedisEntry := { re_value : RedisValue; re_deadline : option Z }.
Abbreviation RedisStore := (gmap string RedisEntry).

Definition redis_Nil : error := Sentinel "redis.Nil".
Definition ErrRedisType : error := Errorf "ERR value is not an integer or out of range".

Definition expired_at (now : Z) (e : RedisEntry) : bool :=
  match re_deadline e with Some t => t <=? now | None => false end.
(** The key's entry as a client sees it. *)
Definition live (now : Z) (key : string) (d : RedisStore) : option RedisEntry :=
  match d !! key with
  | Some e => if expired_at now e then None else Some e
  | None => None
  end.

Definition value_text (v : RedisValue) : string :=
  match v with RText s => s | RCount n => if n <? 0 then "-" +:+ pretty (Z.to_N (- n)) else pretty (Z.to_N n) end.
(** The 64-bit integer a value denotes, for INCR. *)
Definition value_count (v : RedisValue) : option Z :=
  match v with RCount n => Some n | RText s => dec_nat s end.

(** ** Commands, at time [now] *)
Definition SET (key value : string) (ttl now : Z) (d : RedisStore) : res (unit * RedisStore) :=
  Ok (tt, <[key := {| re_value := RText value; re_deadline := Some (now + ttl) |}]> d).
Definition GET (key : string) (now : Z) (d : RedisStore) : res (string * RedisStore) :=
  match live now key d with
  | Some e => Ok (value_text (re_value e), d)
  | None => Err redis_Nil
  end.
Definition DEL (keys : list string) (now : Z) (d : RedisStore) : res (unit * RedisStore) :=
  Ok (tt, foldr (fun k d => delete k d) d keys).
Definition GETDEL (key : string) (now : Z) (d : RedisStore) : res (string * RedisStore) :=
  match live now key d with
  | Some e => Ok (value_text (re_value e), delete key d)
  | None => Err redis_Nil
  end.
(** A new counter has no deadline; an existing one keeps its own. *)
Definition INCR (key : string) (now : Z) (d : RedisStore) : res (Z * RedisStore) :=
  match live now key d with
  | None => Ok (1, <[key := {| re_value := RCount 1; re_deadline := None |}]> d)
  | Some e =>
      match value_count (re_value e) with
      | None => Err ErrRedisType
      | Some n => if n + 1 <? 2 ^ 63
                  then Ok (n + 1, <[key := {| re_value := RCount (n + 1); re_deadline := re_deadline e |}]> d)
                  else Err ErrRedisType
      end
  end.
Definition EXPIRE (key : string) (ttl now : Z) (d : RedisStore) : res (unit * RedisStore) :=
  match live now key d with
  | None => Ok (tt, d)
  | Some e => Ok (tt, <[key := {| re_value := re_value e; re_deadline := Some (now + ttl) |}]> d)
  end.

Section Redis.
Context `{Env}.
Abbreviation W := (World RedisStore).

(** One command and its round trip. *)
Definition redis {A} (f : Z -> RedisStore -> res (A * RedisStore)) : M W A := fun w =>
  exec (f (env_now (w_io w))) w.

(** A pipeline of two commands: one round trip; both run, whatever the first
    answers, and the first error is reported. *)
Definition pipeline2 {A B} (f : Z -> RedisStore -> res (A * RedisStore))
    (g : Z -> RedisStore -> res (B * RedisStore)) : M W (A * B) := fun w =>
  if env_fault (w_io w) then (Err ErrDriver, tick w) else
  let now := env_now (w_io w) in
  match f now (w_store w) with
  | Ok (a, d) => match g now d with
                 | Ok (b, d') => (Ok (a, b), tick (put_store d' w))
                 | Err e => (Err e, tick (put_store d w))
                 end
  | Err e => match g now (w_store w) with
             | Ok (_, d') => (Err e, tick (put_store d' w))
             | Err _ => (Err e, tick w)
             end
  end.

Lemma redis_ok {A} (f : Z -> RedisStore -> res (A * RedisStore)) a w w' :
  redis f w = (Ok a, w') <->
  env_fault (w_io w) = false /\ exists d, f (env_now (w_io w)) (w_store w) = Ok (a, d) /\ w' = tick (put_store d w).
Proof. apply exec_ok. Qed.

Lemma redis_err {A} (f : Z -> RedisStore -> res (A * RedisStore)) e w w' :
  redis f w = (Err e, w') ->
  w_store w' = w_store w /\ (e = ErrDriver \/ f (env_now (w_io w)) (w_store w) = Err e).
Proof. apply exec_err. Qed.

(** Without faults a command answers. *)
Lemma redis_run {A} (f : Z -> RedisStore -> res (A * RedisStore)) w :
  env_fault (w_io w) = false ->
  redis f w = match f (env_now (w_io w)) (w_store w) with
              | Ok (a, d) => (Ok a, tick (put_store d w))
              | Err e => (Err e, tick w)
              end.
Proof. unfold redis, exec. by intros ->. Qed.

Lemma pipeline2_ok {A B} (f : Z -> RedisStore -> res (A * RedisStore)) (g : Z -> RedisStore -> res (B * RedisStore))
    a b w w' :
  pipeline2 f g w = (Ok (a, b), w') <->
  env_fault (w_io w) = false /\ exists d1 d2, f (env_now (w_io w)) (w_store w) = Ok (a, d1) /\
    g (env_now (w_io w)) d1 = Ok (b, d2) /\ w' = tick (put_store d2 w).
Proof.
  unfold pipeline2. destruct (env_fault (w_io w)); [split; [done|by intros [? _]]|].
  destruct (f _ _) as [[a' d1]|e].
  - destruct (g _ d1) as [[b' d2]|e] eqn:Eg.
    + split; [intros [= -> -> <-]; eauto 8|]. intros (_ & d1' & d2' & [= -> <-] & E & ->). congruence.
    + split; [done|]. intros (_ & d1' & d2' & [= -> <-] & E & _). congruence.
  - destruct (g _ _) as [[b' d2]|e']; (split; [done|]); by intros (_ & ? & ? & [=] & _).
Qed.
End Redis.

Lemma live_insert now k e d : live now k (<[k := e]> d) = if expired_at now e then None else Some e.
Proof. unfold live. by rewrite lookup_insert_eq. Qed.
Lemma live_insert_ne now k k' e d : k <> k' -> live now k (<[k' := e]> d) = live now k d.
Proof. unfold live. intros. by rewrite lookup_insert_ne. Qed.
Lemma live_delete now k d : live now k (delete k d) = None.
Proof. unfold live. by rewrite lookup_delete_eq. Qed.
Lemma live_delete_ne now k k' d : k <> k' -> live now k (delete k' d) = live now k d.
Proof. unfold live. intros. by rewrite lookup_delete_ne. Qed.
