(* ===== verification/Amount.v ===== *)
(** * Amounts: decimal text and i128 parts (internal/service/webapp/amount.go)

    An i128 is the pair [(hi, lo)] of an [int64] and a [uint64], as in
    [xdr.Int128Parts]; [big.Int] is [Z]. *)

From S2P Require Export GoStrings.

Module Amount.

Definition two64 : Z := 2 ^ 64.
Definition two63 : Z := 2 ^ 63.
Definition two127 : Z := 2 ^ 127.

(** Conversions of a [big.Int] to machine words: the low 64 bits. *)
Definition big_uint64 (z : Z) : Z := z mod two64.
Definition big_int64 (z : Z) : Z := let r := z mod two64 in if r <? two63 then r else r - two64.

(** [new(big.Int).Lsh(big.NewInt(hi), 64)] then [Or(raw, lo)]. *)
Definition i128_value (hi lo : Z) : Z := Z.lor (Z.shiftl hi 64) lo.

Definition is_int64 (z : Z) : Prop := - two63 <= z < two63.
Definition is_uint64 (z : Z) : Prop := 0 <= z < two64.

Definition parseAmountToI128 (amount : string) (decimals : Z) : res (Z * Z) :=
  let amount := trim_space amount in
  if String.eqb amount "" then Err (Errorf "empty amount") else
  if String.prefix "-" amount then Err (Errorf "negative amounts are not supported") else
  let '(whole, frac, hasFrac) := cut_at "."%char amount in
  let whole := if String.eqb whole "" then "0" else whole in
  let frac_len := Z.of_nat (String.length frac) in
  if decimals <? frac_len then Err (Errorf "amount has too many decimal places") else
  let frac :=
    if (hasFrac : bool) then frac +:+ str_repeat "0" (Z.to_nat (decimals - frac_len))
    else str_repeat "0" (Z.to_nat decimals) in
  match big_set_string (whole +:+ frac) with
  | None => Err (Errorf "invalid amount")
  | Some raw =>
      if (raw <? 0) || (two127 <=? Z.abs raw) then Err (Errorf "amount out of i128 range")
      else Ok (big_int64 (Z.shiftr raw 64), big_uint64 (Z.land raw (Z.ones 64)))
  end.

(** [new(big.Int).Exp(10, decimals, nil)] is 1 for [decimals <= 0]. *)
Definition scale_of (decimals : Z) : Z := if decimals <=? 0 then 1 else 10 ^ decimals.

Definition formatI128Amount (hi lo decimals : Z) : string :=
  let raw := i128_value hi lo in
  let scale := scale_of decimals in
  let wholePart := Z.quot raw scale in
  let fracPart := Z.rem raw scale in
  let fracStr := big_string fracPart in
  let pad := decimals - Z.of_nat (String.length fracStr) in
  let fracStr := if 0 <? pad then str_repeat "0" (Z.to_nat pad) +:+ fracStr else fracStr in
  let fracStr := trim_right_char "0"%char fracStr in
  if String.eqb fracStr "" then big_string wholePart
  else big_string wholePart +:+ "." +:+ fracStr.

(** balances_service.go *)
Definition formatI128Raw (hi lo : Z) : string := formatI128Amount hi lo 0.

(** multisig_proposal_service.go *)
Definition i128LessThan (hi1 lo1 hi2 lo2 : Z) : bool :=
  i128_value hi1 lo1 <? i128_value hi2 lo2.

(** ** Word arithmetic *)
Lemma i128_value_add hi lo : is_uint64 lo -> i128_value hi lo = hi * two64 + lo.
Proof.
  intros [Hlo1 Hlo2]. unfold i128_value, two64 in *.
  assert (Z.land (Z.shiftl hi 64) lo = 0) as Hz.
  { apply Z.bits_inj'. intros n Hn. rewrite Z.land_spec, Z.bits_0.
    destruct (Z.ltb_spec n 64).
    - by rewrite Z.shiftl_spec_low by lia.
    - destruct (decide (lo = 0)) as [->|]; [by rewrite Z.bits_0, andb_false_r|].
      rewrite (Z.bits_above_log2 lo n), andb_false_r; [done|lia|].
      apply Z.log2_lt_pow2; [lia|]. apply Z.lt_le_trans with (2 ^ 64); [lia|].
      apply Z.pow_le_mono_r; lia. }
  rewrite <- Z.lxor_lor by done. rewrite <- Z.add_nocarry_lxor by done.
  rewrite Z.shiftl_mul_pow2 by lia. done.
Qed.

Lemma i128_parts raw :
  0 <= raw < two127 ->
  let hi := big_int64 (Z.shiftr raw 64) in
  let lo := big_uint64 (Z.land raw (Z.ones 64)) in
  0 <= hi < two63 /\ is_uint64 lo /\ i128_value hi lo = raw.
Proof.
  intros Hr. cbv zeta. unfold big_int64, big_uint64, is_uint64.
  rewrite Z.shiftr_div_pow2, Z.land_ones by lia. change (2 ^ 64) with two64.
  rewrite Z.mod_mod by done.
  assert (0 <= raw / two64 < two63) as Hq.
  { split; [apply Z.div_pos; [lia|done]|].
    apply Z.div_lt_upper_bound; [done|]. unfold two127, two64, two63 in *. lia. }
  rewrite Z.mod_small by (unfold two64, two63 in *; lia).
  destruct (Z.ltb_spec (raw / two64) two63); [|lia].
  pose proof (Z.mod_pos_bound raw two64 eq_refl).
  repeat split; try lia.
  rewrite i128_value_add by (unfold is_uint64; lia). rewrite Z.mul_comm.
  symmetry. by apply Z.div_mod.
Qed.

Lemma i128_value_inj hi lo hi' lo' :
  is_uint64 lo -> is_uint64 lo' ->
  i128_value hi lo = i128_value hi' lo' -> hi = hi' /\ lo = lo'.
Proof.
  intros H H'. rewrite !i128_value_add by done. unfold is_uint64, two64 in *. lia.
Qed.

(** ** Parsing *)
Lemma parse_inv amount decimals hi lo :
  parseAmountToI128 amount decimals = Ok (hi, lo) ->
  0 <= hi < two63 /\ is_uint64 lo /\ 0 <= decimals /\
  exists raw, 0 <= raw < two127 /\ i128_value hi lo = raw.
Proof.
  unfold parseAmountToI128.
  destruct (String.eqb _ _); [done|]. destruct (String.prefix _ _); [done|].
  destruct (cut_at _ _) as [[whole frac] hasFrac].
  destruct (Z.ltb_spec decimals (Z.of_nat (String.length frac))); [done|].
  destruct (big_set_string _) as [raw|]; [|done].
  destruct (raw <? 0) eqn:E1; [done|]. destruct (two127 <=? Z.abs raw) eqn:E2; [done|].
  apply Z.ltb_ge in E1. apply Z.leb_gt in E2. cbn [orb]. intros [= <- <-].
  assert (0 <= raw < two127) as Hr by lia.
  pose proof (i128_parts raw Hr) as (? & ? & ?).
  split; [done|]. split; [done|]. split; [lia|]. by exists raw.
Qed.

(** The value a pair of digit strings stands for. *)
Lemma parse_digits whole frac decimals w f :
  whole <> "" -> dec_val 0 whole = Some w -> dec_val 0 frac = Some f ->
  Z.of_nat (String.length frac) <= decimals ->
  let raw := w * 10 ^ decimals + f * 10 ^ (decimals - Z.of_nat (String.length frac)) in
  raw < two127 ->
  let want := Ok (big_int64 (Z.shiftr raw 64), big_uint64 (Z.land raw (Z.ones 64))) in
  parseAmountToI128 (whole +:+ "." +:+ frac) decimals = want /\
  (frac = "" -> parseAmountToI128 whole decimals = want).
Proof.
  intros Hne Hw Hf Hlen raw Hraw want.
  pose proof (dec_val_digits _ _ _ Hw) as Dw. pose proof (dec_val_digits _ _ _ Hf) as Df.
  assert (Hg : forall s, str_forall is_digit s = true -> str_forall graphic s = true)
    by (intros s; apply str_forall_impl, is_digit_graphic).
  assert (str_forall (fun d => negb (Ascii.eqb "." d)) whole = true) as Hdot.
  { revert Dw. apply str_forall_impl. intros c Hc.
    destruct (Ascii.eqb_spec "." c) as [<-|]; [by vm_compute in Hc | done]. }
  assert (forall t, String.prefix "-" (whole +:+ t) = false) as Hminus.
  { intros t. destruct whole as [|c whole']; [done|].
    cbn [String.append]. rewrite prefix_char.
    destruct (Ascii.eqb_spec "-" c) as [<-|]; [|done].
    apply andb_true_iff in Dw as [Hc _]. by vm_compute in Hc. }
  assert (forall t, (whole +:+ t =? "")%string = false) as Hnil
    by (intros t; by destruct whole).
  assert ((whole =? "")%string = false) as Hnil' by (by destruct whole).
  assert (0 <= w) as Hw0 by (by eapply dec_val_nonneg in Hw).
  assert (0 <= f) as Hf0 by (by eapply dec_val_nonneg in Hf).
  assert (forall n, dec_val 0 (whole +:+ frac +:+ str_repeat "0" n) =
    Some ((w * 10 ^ Z.of_nat (String.length frac) + f) * 10 ^ Z.of_nat n)) as Hval.
  { intros n. rewrite dec_val_app, Hw. cbn. rewrite dec_val_app, dec_val_acc, Hf. cbn.
    apply dec_val_zeros. }
  assert (Hbig : forall n, big_set_string (whole +:+ frac +:+ str_repeat "0" n) =
    Some ((w * 10 ^ Z.of_nat (String.length frac) + f) * 10 ^ Z.of_nat n)).
  { intros n. rewrite big_set_string_digits; [done|by destruct whole|].
    by eapply dec_val_digits. }
  set (k := Z.to_nat (decimals - Z.of_nat (String.length frac))).
  assert ((w * 10 ^ Z.of_nat (String.length frac) + f) * 10 ^ Z.of_nat k = raw) as Hk.
  { unfold raw, k. rewrite Z2Nat.id by lia.
    replace decimals with (Z.of_nat (String.length frac) + (decimals - Z.of_nat (String.length frac))) at 2 by lia.
    rewrite Z.pow_add_r by lia. ring. }
  assert (0 <= raw) as Hraw0.
  { rewrite <- Hk. apply Z.mul_nonneg_nonneg; [|lia]. nia. }
  assert ((raw <? 0) || (two127 <=? Z.abs raw) = false) as Hrange.
  { apply orb_false_iff. rewrite Z.ltb_ge, Z.leb_gt. lia. }
  unfold parseAmountToI128. split.
  - rewrite trim_space_graphic by (rewrite !str_forall_app; cbn; by rewrite !Hg).
    rewrite Hnil, Hminus. change ("." +:+ frac) with (String "."%char frac).
    rewrite cut_at_notin, Hnil' by done.
    destruct (Z.ltb_spec decimals (Z.of_nat (String.length frac))); [lia|].
    fold k. rewrite Hbig, Hk, Hrange. done.
  - intros ->. rewrite trim_space_graphic by by apply Hg.
    pose proof (Hnil "") as Hnil0. pose proof (Hminus "") as Hminus0.
    rewrite str_app_nil_r in Hnil0, Hminus0.
    rewrite Hnil0, Hminus0, cut_at_none, Hnil' by done. cbn [String.length] in *.
    destruct (Z.ltb_spec decimals (Z.of_nat 0)); [lia|].
    specialize (Hbig (Z.to_nat decimals)). cbn [String.append] in Hbig. rewrite Hbig.
    replace k with (Z.to_nat decimals) in Hk by (unfold k; f_equal; lia).
    rewrite Hk, Hrange. done.
Qed.

(** ** Formatting *)
Lemma big_string_length z n :
  0 <= z < 10 ^ Z.of_nat (S n) -> (String.length (big_string z) <= S n)%nat.
Proof.
  intros Hz. destruct z as [|p|p]; [cbn; lia | | lia].
  change (big_string (Zpos p)) with (pretty_N_go (Npos p) "").
  assert (forall m x s, Z.of_N x < 10 ^ Z.of_nat m ->
    (String.length (pretty_N_go x s) <= m + String.length s)%nat) as Hgo.
  { induction m as [|m IH]; intros x s Hx.
    - cbn in Hx. assert (x = 0%N) as -> by lia. rewrite pretty_N_go_0. lia.
    - destruct (decide (x = 0%N)) as [->|]; [rewrite pretty_N_go_0; lia|].
      rewrite pretty_N_go_step by lia. etrans; [apply IH|cbn; lia].
      rewrite N2Z.inj_div. apply Z.div_lt_upper_bound; [lia|].
      rewrite Nat2Z.inj_succ, Z.pow_succ_r in Hx by lia. done. }
  etrans; [apply (Hgo (S n)); cbn [Z.of_N]; lia | cbn; lia].
Qed.

(** The fraction text of [formatI128Amount]: [n] digits, trailing zeros cut. *)
Lemma frac_text n f :
  0 <= f < 10 ^ Z.of_nat n ->
  let s := big_string f in
  let pad := Z.of_nat n - Z.of_nat (String.length s) in
  let t := trim_right_char "0"%char (if 0 <? pad then str_repeat "0" (Z.to_nat pad) +:+ s else s) in
  (String.length t <= n)%nat /\
  exists v, dec_val 0 t = Some v /\ f = v * 10 ^ (Z.of_nat n - Z.of_nat (String.length t)) /\
  (t = "" -> f = 0).
Proof.
  intros Hf. cbv zeta.
  set (s := big_string f).
  assert (dec_val 0 s = Some f) as Hs by (apply dec_val_big_string; lia).
  destruct n as [|n].
  { assert (f = 0) as -> by (cbn in Hf; lia). subst s. vm_compute. split; [lia|].
    exists 0. done. }
  assert (String.length s <= S n)%nat as Hlen by (apply big_string_length; done).
  set (pad := Z.of_nat (S n) - Z.of_nat (String.length s)).
  set (u := if 0 <? pad then _ else s).
  assert (dec_val 0 u = Some f /\ String.length u = S n) as [Hu Hul].
  { unfold u. destruct (Z.ltb_spec 0 pad); [|split; [done|lia]]. split.
    - rewrite dec_val_app, dec_val_zeros. cbn. done.
    - rewrite str_length_app, str_length_repeat. lia. }
  clearbody u. destruct (trim_right_char_spec "0" u) as [m Hm].
  set (t := trim_right_char "0" u) in *.
  assert (String.length u = String.length t + m)%nat as Hl
    by (rewrite Hm at 1; by rewrite str_length_app, str_length_repeat).
  split; [lia|].
  assert (str_forall is_digit t = true) as Ht
    by (apply trim_right_char_forall; by eapply dec_val_digits).
  destruct (digits_dec_val 0 t Ht) as [v Hv]. exists v.
  assert (f = v * 10 ^ Z.of_nat m) as Hfv.
  { rewrite Hm, dec_val_app, Hv in Hu. cbn in Hu. rewrite dec_val_zeros in Hu. by injection Hu. }
  split; [done|]. split.
  - rewrite Hfv at 1. do 2 f_equal. lia.
  - intros E. rewrite E in Hv. injection Hv as <-. lia.
Qed.

Lemma parse_formatted hi lo decimals :
  0 <= hi < two63 -> is_uint64 lo -> 0 <= decimals ->
  parseAmountToI128 (formatI128Amount hi lo decimals) decimals = Ok (hi, lo).
Proof.
  intros Hhi Hlo Hd. set (raw := i128_value hi lo).
  assert (raw = hi * two64 + lo) as Er by by apply i128_value_add.
  assert (0 <= raw < two127) as Hr
    by (rewrite Er; unfold is_uint64, two127, two63, two64 in *; lia).
  unfold formatI128Amount. fold raw.
  set (n := Z.to_nat decimals). assert (Z.of_nat n = decimals) as En by (unfold n; lia).
  assert (scale_of decimals = 10 ^ decimals) as ->.
  { unfold scale_of. destruct (Z.leb_spec decimals 0); [|done]. by replace decimals with 0 by lia. }
  assert (0 < 10 ^ decimals) as Hsc by (apply Z.pow_pos_nonneg; lia).
  set (w := Z.quot raw (10 ^ decimals)). set (f := Z.rem raw (10 ^ decimals)).
  assert (0 <= f < 10 ^ decimals) as Hf by (apply Z.rem_bound_pos; lia).
  assert (0 <= w) as Hw by (apply Z.quot_pos; lia).
  assert (raw = w * 10 ^ decimals + f) as Eraw.
  { unfold w, f. rewrite Z.mul_comm. apply Z.quot_rem. lia. }
  pose proof (frac_text n f) as Hfrac. rewrite En in Hfrac. cbv zeta in Hfrac.
  set (t := trim_right_char "0" _) in *.
  destruct (Hfrac Hf) as (Htl & v & Hv & Hfv & Hnil). clearbody t.
  assert (big_string w <> "") as Hne.
  { destruct w as [|p|p]; [done | apply pretty_N_nonempty | done]. }
  pose proof (dec_val_big_string w Hw) as Hwv.
  pose proof (parse_digits (big_string w) t decimals w v Hne Hwv Hv ltac:(lia)) as Hp.
  cbv zeta in Hp. rewrite <- Hfv, <- Eraw in Hp. specialize (Hp ltac:(lia)) as [Hp1 Hp2].
  destruct (i128_parts raw Hr) as (Hh & Hl & Ev).
  destruct (i128_value_inj _ _ hi lo Hl Hlo Ev) as [E1 E2]. rewrite E1, E2 in Hp1, Hp2.
  destruct (String.eqb_spec t "") as [->|]; [by apply Hp2 | exact Hp1].
Qed.

(** C39. Reading back a formatted amount gives the same 128-bit integer: for every
    non-negative i128 in two machine words and every number of decimals,
    [parseAmountToI128] inverts [formatI128Amount], trimmed zeros included. *)
Theorem parse_format hi lo decimals :
  0 <= hi < two63 -> is_uint64 lo -> 0 <= decimals ->
  parseAmountToI128 (formatI128Amount hi lo decimals) decimals = Ok (hi, lo).
Proof. apply parse_formatted. Qed.

Lemma parse_format_witness :
  (0 <= 1 < two63 /\ is_uint64 (two64 - 6) /\ 0 <= 7) /\
  parseAmountToI128 (formatI128Amount 1 (two64 - 6) 7) 7 = Ok (1, two64 - 6).
Proof.
  assert (0 <= 1 < two63) as H1 by (unfold two63; lia).
  assert (is_uint64 (two64 - 6)) as H2 by (unfold is_uint64, two64; lia).
  split; [split; [exact H1 | split; [exact H2 | lia]] | apply (parse_format 1 (two64 - 6) 7 H1 H2); lia].
Defined.
End Amount.
