(* ===== verification/Stellar.v ===== *)
(** * Soroban values, authorization entries and their digests
    (soroban_scval.go, soroban_read.go, soroban_auth_entries.go,
    soroban_auth_payload.go, bundler_delegated_auth.go of
    internal/service/webapp)

    The XDR shapes below are those the services build and inspect. What
    github.com/stellar/go-stellar-sdk computes on them — strkey codecs, XDR
    marshalling, transaction building, Ed25519 — is the class [StellarSDK]. *)

From S2P Require Export GoStrings Base64 IO.
#[local] Set Warnings "-register-all".

(** [xdr.ScAddress]; the payload of the two cases in use is 32 bytes. *)
Inductive ScAddress :=
  | AddrAccount (key : string)
  | AddrContract (id : string)
  | AddrOther (ty : Z).

(** [xdr.ScVal]. Vectors and maps are optional pointers in XDR. *)
Inductive ScVal :=
  | ScvVoid
  | ScvU32 (n : Z)
  | ScvI128 (hi lo : Z)
  | ScvU128 (hi lo : Z)
  | ScvString (s : string)
  | ScvSymbol (s : string)
  | ScvBytes (b : string)
  | ScvVec (v : option (list ScVal))
  | ScvMap (m : option (list (ScVal * ScVal)))
  | ScvAddress (a : ScAddress)
  | ScvOther (ty : Z).

(** [xdr.SorobanAuthorizedFunction] and [xdr.SorobanAuthorizedInvocation]. *)
Inductive AuthFunction :=
  | ContractFn (contract : ScAddress) (name : string) (args : list ScVal)
  | CreateContractFn (raw : string).
Inductive Invocation := MkInvocation (fn : AuthFunction) (subs : list Invocation).

Record AddressCredentials := {
  ac_Address : ScAddress;
  ac_Nonce : Z;
  ac_SignatureExpirationLedger : Z;
  ac_Signature : ScVal;
}.
Inductive Credentials :=
  | SourceAccountCredentials
  | SorobanAddress (c : AddressCredentials).

(** [xdr.SorobanAuthorizationEntry] *)
Record AuthEntry := { ae_Credentials : Credentials; ae_RootInvocation : Invocation }.

(** [xdr.HostFunction]: a contract call, or a kind the services never build. *)
Inductive HostFunction :=
  | InvokeContract (contract : ScAddress) (fn : string) (args : list ScVal)
  | OtherHostFunction (raw : string).

(** [txnbuild.InvokeHostFunction]; [SorobanData] is the operation's [Ext]. *)
Record InvokeOp := {
  op_Function : HostFunction; op_SourceAccount : string;
  op_Auth : list AuthEntry; op_SorobanData : option string;
}.
(** [txnbuild.TransactionParams]; the preconditions are [NewTimeout(seconds)]. *)
Record TxParams := {
  tp_SourceAccount : string; tp_Sequence : Z; tp_Operations : list InvokeOp;
  tp_BaseFee : Z; tp_Timeout : Z; tp_IncrementSequenceNum : bool;
}.

(** [xdr.TransactionEnvelope]: the operations of a v1 envelope, [None] for the
    other versions. *)
Inductive Operation :=
  | InvokeHostFunctionOp (fn : HostFunction)
  | OtherOperation (ty : Z).
Definition Envelope : Type := option (list Operation).

(** [xdr.TransactionMeta]: the Soroban part of its V4 and V3 arms, each absent
    or present, V4 with an optional return value. *)
Record TxMeta := {
  tm_V4 : option (option (option ScVal));
  tm_V3 : option (option ScVal);
}.

(** Soroban RPC's simulateTransaction answer. *)
Record SimResult := {
  sim_Error : string;
  sim_Results : list (string * list string);  (** (XDR, Auth) of each result *)
  sim_TransactionData : string;
  sim_MinResourceFee : string;
  sim_LatestLedger : Z;
}.

Class StellarSDK := {
  strkey_decode_account : string -> res string;
  strkey_decode_contract : string -> res string;
  strkey_encode_account : string -> res string;
  strkey_encode_contract : string -> res string;
  scval_marshal : ScVal -> res string;
  scval_marshal_b64 : ScVal -> res string;
  scval_unmarshal_b64 : string -> res ScVal;
  entry_marshal : AuthEntry -> res string;
  entry_unmarshal : string -> res AuthEntry;
  entry_marshal_b64 : AuthEntry -> res string;
  entry_unmarshal_b64 : string -> res AuthEntry;
  (** [HashIdPreimage] of a Soroban authorization: network id, nonce,
      expiration ledger, invocation *)
  auth_preimage_marshal : string -> Z -> Z -> Invocation -> res string;
  network_ID : string -> string;
  hash_Hash : string -> string;
  ed25519_verify : string -> string -> string -> bool;
  (** [xdr.ScAddress.String] *)
  scaddress_string : ScAddress -> res string;
  hostfn_marshal : HostFunction -> res string;
  envelope_unmarshal_b64 : string -> res Envelope;
  (** [txnbuild.NewTransaction] and [Base64]; the time bounds are computed from
      the clock, whence the effect number *)
  tx_build : nat -> TxParams -> res string;
  (** [Sign] with the passphrase and the bundler's key pair, and [Base64] *)
  tx_sign : string -> string -> res string;
  (** [keypair.Sign]: the bundler's signature of a hash *)
  bundler_sign : string -> res string;
  meta_unmarshal_b64 : string -> res TxMeta;
  (** the ledger key of a contract's instance, marshalled *)
  instance_key_b64 : string -> res string;
  (** [xdr.SafeUnmarshalBase64] into [SorobanTransactionData] *)
  soroban_data_decode : string -> res string;
}.

(** [txnbuild.MinBaseFee], in stroops. *)
Definition MinBaseFee : Z := 100.

(** The network: Soroban RPC and the submission service. *)
Class Network := {
  rpc_simulate : string -> nat -> res SimResult;
  rpc_latest_ledger : nat -> res Z;
  rpc_account_sequence : string -> nat -> res Z;
}.

Definition is_uint32 (z : Z) : Prop := 0 <= z < 2 ^ 32.
Definition uint32 (z : Z) : Z := z mod 2 ^ 32.
Definition int32 (z : Z) : Z :=
  let r := z mod 2 ^ 32 in if r <? 2 ^ 31 then r else r - 2 ^ 32.

Section Stellar.
Context `{StellarSDK}.

(** ** soroban_scval.go *)
Definition scSymbol (s : string) : ScVal := ScvSymbol s.
Definition scBytes (b : string) : ScVal := ScvBytes b.
Definition scVec (vals : list ScVal) : ScVal := ScvVec (Some vals).
Definition scMap (entries : list (ScVal * ScVal)) : ScVal := ScvMap (Some entries).
Definition scMapEntry (key : string) (val : ScVal) : ScVal * ScVal := (scSymbol key, val).
Definition scMapEntryVal (key val : ScVal) : ScVal * ScVal := (key, val).
Definition scVoid : ScVal := ScvVoid.
Definition scU32 (v : Z) : ScVal := ScvU32 v.
Definition scString (s : string) : ScVal := ScvString s.
Definition scI128 (hi lo : Z) : ScVal := ScvI128 hi lo.
Definition scU128 (hi lo : Z) : ScVal := ScvU128 hi lo.

Definition contractIDFromAddress (contractAddress : string) : res string :=
res_wrap "decode contract address" (strkey_decode_contract contractAddress).

Definition scAddressFromString (address : string) : res ScAddress :=
if String.prefix "G" address then
  let? aid := res_wrap "decode account address" (strkey_decode_account address) in
  Ok (AddrAccount aid)
else if String.prefix "C" address then
  let? contractID := contractIDFromAddress address in Ok (AddrContract contractID)
else Err (Errorf "unsupported address prefix").

Definition scAddress (address : string) : res ScVal :=
let? addr := scAddressFromString address in Ok (ScvAddress addr).

Definition scValToAddressString (val : ScVal) : res string :=
match val with
| ScvAddress (AddrAccount k) => strkey_encode_account k
| ScvAddress (AddrContract id) => strkey_encode_contract id
| ScvAddress (AddrOther _) => Err (Errorf "unsupported ScAddress type")
| _ => Err (Errorf "expected address ScVal")
end.

Definition scValToContractAddress (val : ScVal) : res string :=
match val with
| ScvAddress (AddrContract id) => strkey_encode_contract id
| _ => Err (Errorf "expected contract address ScVal")
end.

Definition invokeContractHostFunction (contractID fn : string) (args : list ScVal) : HostFunction :=
InvokeContract (AddrContract contractID) fn args.

(** ** soroban_read.go *)
Definition scMapGet (m : ScVal) (key : string) : option ScVal :=
match m with
| ScvMap (Some entries) =>
    snd <$> List.find (fun e => match fst e with
                                | ScvSymbol s => String.eqb s key
                                | _ => false
                                end) entries
| _ => None
end.

(** ** The rest of soroban_scval.go: reading back results and envelopes *)
Definition extractReturnAddress (resultMetaXdrB64 : string) : res string :=
let? meta := res_wrap "decode transaction meta" (meta_unmarshal_b64 resultMetaXdrB64) in
match tm_V4 meta, tm_V3 meta with
| Some (Some (Some v)), _ => scValToContractAddress v
| _, Some (Some v) => scValToContractAddress v
| _, _ => Err (Errorf "transaction meta missing soroban return value")
end.

(** The [switch] of the two readers below: a V4 meta without a return value does
    not fall back to V3. *)
Definition return_value (meta : TxMeta) : option ScVal :=
match tm_V4 meta, tm_V3 meta with
| Some (Some v), _ => v
| _, Some (Some v) => Some v
| _, _ => None
end.

Definition extractReturnU32 (resultMetaXdrB64 : string) : res Z :=
let? meta := res_wrap "decode transaction meta" (meta_unmarshal_b64 resultMetaXdrB64) in
match return_value meta with
| Some (ScvU32 n) => Ok n
| _ => Err (Errorf "transaction meta missing soroban u32 return value")
end.

Definition extractReturnContextRuleID (resultMetaXdrB64 : string) : res Z :=
let? meta := res_wrap "decode transaction meta" (meta_unmarshal_b64 resultMetaXdrB64) in
match return_value meta with
| None => Err (Errorf "transaction meta missing soroban return value")
| Some v => match scMapGet v "id" with
            | Some (ScvU32 n) => Ok n
            | _ => Err (Errorf "transaction meta return value missing context rule id")
            end
end.

Definition scValEqual (a b : ScVal) : bool :=
match scval_marshal a, scval_marshal b with
| Ok x, Ok y => String.eqb x y
| _, _ => false
end.

Record decodedInvocation := { di_ContractID : string; di_FunctionName : string; di_Args : list ScVal }.

Definition decodeSingleInvocation (envelopeXdrB64 : string) : res decodedInvocation :=
let? envelope := res_wrap "decode transaction envelope" (envelope_unmarshal_b64 envelopeXdrB64) in
match envelope with
| None => Err (Errorf "expected a v1 transaction envelope")
| Some [InvokeHostFunctionOp (InvokeContract (AddrContract id) fn args)] =>
    Ok {| di_ContractID := id; di_FunctionName := fn; di_Args := args |}
| Some [InvokeHostFunctionOp (InvokeContract _ _ _)] =>
    Err (Errorf "invocation target is not a contract address")
| Some [InvokeHostFunctionOp (OtherHostFunction _)] => Err (Errorf "expected a contract invocation")
| Some [OtherOperation _] => Err (Errorf "operation is not an invoke host function")
| Some _ => Err (Errorf "expected exactly one operation")
end.

(** ** soroban_auth_entries.go *)
Fixpoint normalizeAuthEntries_from (i : nat) (raw : list string) : res (list AuthEntry) :=
match raw with
| [] => Ok []
| b64 :: raw' =>
    let? e := res_wrap "decode auth entry" (entry_unmarshal_b64 b64) in
    let? es := normalizeAuthEntries_from (S i) raw' in
    Ok (e :: es)
end.
Definition normalizeAuthEntries (raw : list string) : res (list AuthEntry) :=
normalizeAuthEntries_from 0 raw.

Definition with_expiration (ledger : Z) (e : AuthEntry) : AuthEntry :=
match ae_Credentials e with
| SorobanAddress c =>
    {| ae_Credentials := SorobanAddress
         {| ac_Address := ac_Address c; ac_Nonce := ac_Nonce c;
            ac_SignatureExpirationLedger := ledger; ac_Signature := ac_Signature c |};
       ae_RootInvocation := ae_RootInvocation e |}
| SourceAccountCredentials => e
end.

(** Mutates the entries in place and returns the ledger: here, returns both. *)
Definition setAddressCredentialExpiration (entries : list AuthEntry) (latestLedger ledgerDelta : Z)
  : list AuthEntry * Z :=
let validUntil := uint32 (uint32 latestLedger + ledgerDelta) in
(map (with_expiration validUntil) entries, validUntil).

Definition addressStringFromCredentials (entry : AuthEntry) : option string :=
match ae_Credentials entry with
| SorobanAddress c =>
    match scValToAddressString (ScvAddress (ac_Address c)) with Ok a => Some a | Err _ => None end
| SourceAccountCredentials => None
end.

Inductive authEntryRole := RoleOther | RoleSmartAccountCustom | RoleDelegatedNative.
#[export] Instance authEntryRole_eq_dec : EqDecision authEntryRole.
Proof. solve_decision. Defined.

Definition classifyAuthEntryRole (entry : AuthEntry) (smartAccountAddress signerG : string)
  : authEntryRole :=
match addressStringFromCredentials entry with
| None => RoleOther
| Some addr =>
    if String.eqb addr smartAccountAddress then RoleSmartAccountCustom
    else if negb (String.eqb signerG "") && String.eqb addr signerG then RoleDelegatedNative
    else RoleOther
end.

Definition isUnsignedAddressAuthEntry (entry : AuthEntry) : bool :=
match ae_Credentials entry with
| SorobanAddress c =>
    match ac_Signature c with
    | ScvVoid => true
    | ScvVec None => true
    | ScvVec (Some v) => match v with [] => true | _ => false end
    | _ => false
    end
| SourceAccountCredentials => false
end.

Definition decodeAuthEntryXdr (b64 : string) : res AuthEntry :=
res_wrap "decode auth entry" (entry_unmarshal_b64 b64).

(** The test of one entry: same signer and same nonce. *)
Definition matches_entry (target e : AuthEntry) : bool :=
match ae_Credentials e, ae_Credentials target with
| SorobanAddress c, SorobanAddress t =>
    bool_decide (addressStringFromCredentials e = addressStringFromCredentials target)
    && (ac_Nonce c =? ac_Nonce t)
| _, _ => false
end.
Fixpoint find_matching_from (i : Z) (entries : list AuthEntry) (target : AuthEntry) (skipIdx : Z) : res Z :=
match entries with
| [] => Err (Errorf "delegated auth entry template not found among the given auth entries")
| e :: es =>
    if negb (i =? skipIdx) && matches_entry target e then Ok i
    else find_matching_from (i + 1) es target skipIdx
end.
Definition findMatchingAuthEntryIndex (entries : list AuthEntry) (target : AuthEntry) (skipIdx : Z) : res Z :=
find_matching_from 0 entries target skipIdx.

(** ** soroban_auth_payload.go *)
Definition ErrNotAddressCredentials : error := Sentinel "ErrNotAddressCredentials".

Definition sorobanAuthPreimageBytes (entry : AuthEntry) (networkPassphrase : string) : res string :=
match ae_Credentials entry with
| SourceAccountCredentials => Err ErrNotAddressCredentials
| SorobanAddress c =>
    res_wrap "marshal auth preimage"
      (auth_preimage_marshal (network_ID networkPassphrase) (ac_Nonce c)
         (ac_SignatureExpirationLedger c) (ae_RootInvocation entry))
end.

Definition hashSorobanAuthPayload (entry : AuthEntry) (networkPassphrase : string) : res string :=
match ae_Credentials entry with
| SourceAccountCredentials => Err ErrNotAddressCredentials
| SorobanAddress c =>
    let? raw := res_wrap "marshal auth preimage"
      (auth_preimage_marshal (network_ID networkPassphrase) (ac_Nonce c)
         (ac_SignatureExpirationLedger c) (ae_RootInvocation entry)) in
    Ok (hash_Hash raw)
end.

Definition computeAuthDigest (entry : AuthEntry) (networkPassphrase : string)
  (contextRuleIDs : list Z) : res string :=
let? signaturePayload := hashSorobanAuthPayload entry networkPassphrase in
let? ruleIDsXDR := res_wrap "marshal context rule ids"
                     (scval_marshal (scVec (map scU32 contextRuleIDs))) in
Ok (hash_Hash (signaturePayload +:+ ruleIDsXDR)).

Definition computeAuthDigestHex (entry : AuthEntry) (networkPassphrase : string)
  (contextRuleIDs : list Z) : res string :=
let? digest := computeAuthDigest entry networkPassphrase contextRuleIDs in
Ok (hex_encode digest).

(** The recursion goes through the list of sub-invocations. *)
Fixpoint countAuthContexts (inv : Invocation) : nat :=
match inv with
| MkInvocation _ subs =>
    S ((fix go (l : list Invocation) : nat :=
          match l with [] => O | sub :: l' => (countAuthContexts sub + go l')%nat end) subs)
end.

Definition contextRuleIDsForEntry (entry : AuthEntry) (ruleID : Z) : list Z :=
repeat ruleID (countAuthContexts (ae_RootInvocation entry)).

(** ** bundler_delegated_auth.go *)
Definition signBundlerDelegatedAuthEntry (entry : AuthEntry) (bundlerAddress networkPassphrase : string)
  : res AuthEntry :=
match ae_Credentials entry with
| SourceAccountCredentials => Err ErrNotAddressCredentials
| SorobanAddress c =>
    let? signerAddress := res_wrap "resolve signer address" (scValToAddressString (ScvAddress (ac_Address c))) in
    if negb (String.eqb signerAddress bundlerAddress)
    then Err (Errorf "delegated auth entry signer does not match bundler") else
    let? payload := hashSorobanAuthPayload entry networkPassphrase in
    let? signature := res_wrap "sign auth payload" (bundler_sign payload) in
    let? pubKeyBytes := res_wrap "decode bundler public key" (strkey_decode_account signerAddress) in
    let sigScVal := scMap [scMapEntry "public_key" (scBytes pubKeyBytes);
                           scMapEntry "signature" (scBytes signature)] in
    Ok {| ae_Credentials := SorobanAddress
            {| ac_Address := ac_Address c; ac_Nonce := ac_Nonce c;
               ac_SignatureExpirationLedger := ac_SignatureExpirationLedger c;
               ac_Signature := scVec [sigScVal] |};
          ae_RootInvocation := ae_RootInvocation entry |}
end.

Fixpoint nonce_of_bytes (acc : Z) (raw : string) : Z :=
match raw with
| "" => acc
| String b raw' => nonce_of_bytes (Z.lor (Z.shiftl acc 8) (Z.of_N (Ascii.N_of_ascii b))) raw'
end.
End Stellar.

Section Effects.
Context `{StellarSDK} `{Network} `{Env} {D : Type}.

Definition randomNonce48 : M (World D) Z :=
let! raw := wrap "generate nonce entropy" (rand_bytes 6) in
ret (nonce_of_bytes 0 raw).

Definition buildUnsignedDelegatedGCheckAuthEntry (smartAccountAddress signerG authDigestHash : string)
  (signatureExpirationLedger : Z) : M (World D) AuthEntry :=
let! smartAccountAddr := wrap "resolve smart account address" (lift (scAddressFromString smartAccountAddress)) in
let! signerAddr := wrap "resolve signer address" (lift (scAddressFromString signerG)) in
let! nonce := randomNonce48 in
ret {| ae_Credentials := SorobanAddress
         {| ac_Address := signerAddr; ac_Nonce := nonce;
            ac_SignatureExpirationLedger := signatureExpirationLedger;
            ac_Signature := scVec [] |};
       ae_RootInvocation :=
         MkInvocation (ContractFn smartAccountAddr "__check_auth" [scBytes authDigestHash]) [] |}.

(** [simulateReadCall]: [None] when the call itself failed on chain. *)
Definition simDummySourceAccount : string := "GA5WUJ54Z23KILLCUOUNAKTPBVZWKMQVO4O6EQ5GHLAERIMLLHNCSKYH".

Definition simulateReadCall (contractAddress fn : string) (args : list ScVal)
  : M (World D) (option ScVal) :=
let! contractID := lift (contractIDFromAddress contractAddress) in
let! txB64 := wrap "build read tx"
  (call (fun n => tx_build n
           {| tp_SourceAccount := simDummySourceAccount; tp_Sequence := 0;
              tp_Operations := [{| op_Function := invokeContractHostFunction contractID fn args;
                                   op_SourceAccount := simDummySourceAccount;
                                   op_Auth := []; op_SorobanData := None |}];
              tp_BaseFee := MinBaseFee; tp_Timeout := 300;
              tp_IncrementSequenceNum := false |})) in
let! sim := wrap "simulate" (call (rpc_simulate txB64)) in
match sim_Results sim with
| (xdr, _) :: _ =>
    if negb (String.eqb (sim_Error sim) "") || String.eqb xdr "" then ret None
    else let! val := wrap "decode result" (lift (scval_unmarshal_b64 xdr)) in ret (Some val)
| [] => ret None
end.
End Effects.

(** Resolution calls leave every store alone. *)
Section Keeps.
Context `{StellarSDK} `{Network} `{Env} {D : Type} (R : D -> D -> Prop)
  `{!Reflexive R} `{!Transitive R}.

Lemma keeps_randomNonce48 : keeps (on_store R) randomNonce48.
Proof using All. unfold randomNonce48. keeps. Qed.

Lemma keeps_buildUnsigned a g d l :
  keeps (on_store R) (buildUnsignedDelegatedGCheckAuthEntry a g d l).
Proof using All.
  unfold buildUnsignedDelegatedGCheckAuthEntry. pose proof keeps_randomNonce48. keeps.
Qed.

Lemma keeps_simulateReadCall c f args : keeps (on_store R) (simulateReadCall c f args).
Proof using All. unfold simulateReadCall. keeps. Qed.
End Keeps.
#[export] Hint Resolve keeps_randomNonce48 keeps_buildUnsigned keeps_simulateReadCall : keeps.
