(* ===== verification/Instances.v ===== *)
(** * Concrete instances of the parameters

    One concrete choice for each library and service the model is parametric
    in, so that the theorems can be applied and evaluated at concrete inputs:
    identifiers are printed in decimal, the clock advances one millisecond per
    effect, no database call fails, XDR values are written as netstrings. The
    theorems themselves hold for every instance. *)

From S2P Require Export Stellar.

Module Demo.

#[export] Instance demo_unicode : Unicode := {| unicode_lower := fun s => s |}.

Lemma dec_nat_pretty (u : N) : dec_nat (pretty u) = Some (Z.of_N u).
Proof.
  unfold dec_nat. pose proof (pretty_N_nonempty u). pose proof (dec_val_pretty u).
  by destruct (pretty u).
Qed.

Lemma demo_parse_string (u : N) : Z.to_N <$> dec_nat (pretty u) = Some u.
Proof. rewrite dec_nat_pretty. cbn. by rewrite N2Z.id. Qed.

#[export] Instance demo_uuid : UuidLib := {|
  uuid_parse s := Z.to_N <$> dec_nat s;
  uuid_string u := pretty u;
  uuid_parse_string := demo_parse_string;
|}.

(** The clock starts at [t0]; identifiers count from [u0]. *)
Definition demo_env (t0 : Z) (u0 : N) (fault : nat -> bool) : Env := {|
  env_now n := t0 + Z.of_nat n;
  env_uuid n := (u0 + N.of_nat n)%N;
  env_rand n k := Ok (str_repeat "r" k);
  env_fault := fault;
|}.
Definition no_fault (n : nat) : bool := false.

Definition b64 (s : string) : string := Base64.StdEncoding_EncodeToString s.

(** ** A netstring codec for the XDR shapes *)
Definition net (s : string) : string := pretty (N.of_nat (String.length s)) +:+ ":" +:+ s.
Definition join (ts : list string) : string := foldr (fun t acc => net t +:+ acc) "" ts.

Fixpoint split_net (fuel : nat) (s : string) : option (list string) :=
  match fuel, s with
  | _, "" => Some []
  | O, _ => None
  | S fuel', _ =>
      let '(len, rest, found) := cut_at ":" s in
      match dec_nat len with
      | Some n =>
          if found then
            cons (String.substring 0 (Z.to_nat n) rest) <$> split_net fuel' (str_drop (Z.to_nat n) rest)
          else None
      | None => None
      end
  end.
Definition split_all (s : string) : option (list string) := split_net (String.length s) s.

Definition addr_tok (a : ScAddress) : list string :=
  match a with
  | AddrAccount k => ["acc"; k]
  | AddrContract c => ["con"; c]
  | AddrOther ty => ["oth"; pretty ty]
  end.
Fixpoint val_tok (v : ScVal) : list string :=
  match v with
  | ScvVoid => ["void"]
  | ScvU32 n => ["u32"; pretty n]
  | ScvI128 hi lo => ["i128"; pretty hi; pretty lo]
  | ScvU128 hi lo => ["u128"; pretty hi; pretty lo]
  | ScvString s => ["str"; s]
  | ScvSymbol s => ["sym"; s]
  | ScvBytes b => ["bytes"; b]
  | ScvVec None => ["novec"]
  | ScvVec (Some l) => "vec" :: pretty (length l) :: concat (map val_tok l)
  | ScvMap None => ["nomap"]
  | ScvMap (Some l) =>
      "map" :: pretty (length l) :: concat (map (fun kv => val_tok (fst kv) ++ val_tok (snd kv)) l)
  | ScvAddress a => "addr" :: addr_tok a
  | ScvOther ty => ["other"; pretty ty]
  end.

Definition tok_addr (ts : list string) : option (ScAddress * list string) :=
  match ts with
  | "acc" :: k :: r => Some (AddrAccount k, r)
  | "con" :: k :: r => Some (AddrContract k, r)
  | _ => None
  end.
Fixpoint many {A} (p : list string -> option (A * list string)) (n : nat) (ts : list string)
    : option (list A * list string) :=
  match n with
  | O => Some ([], ts)
  | S n' => '(a, r) ← p ts; '(l, r') ← many p n' r; Some (a :: l, r')
  end.
Fixpoint tok_val (fuel : nat) (ts : list string) : option (ScVal * list string) :=
  match fuel with
  | O => None
  | S f =>
      match ts with
      | "void" :: r => Some (ScvVoid, r)
      | "u32" :: n :: r => n ← dec_nat n; Some (ScvU32 n, r)
      | "u128" :: a :: b :: r => a ← dec_nat a; b ← dec_nat b; Some (ScvU128 a b, r)
      | "i128" :: a :: b :: r => a ← dec_nat a; b ← dec_nat b; Some (ScvI128 a b, r)
      | "str" :: s :: r => Some (ScvString s, r)
      | "sym" :: s :: r => Some (ScvSymbol s, r)
      | "bytes" :: s :: r => Some (ScvBytes s, r)
      | "novec" :: r => Some (ScvVec None, r)
      | "vec" :: n :: r =>
          n ← dec_nat n; '(l, r') ← many (tok_val f) (Z.to_nat n) r; Some (ScvVec (Some l), r')
      | "nomap" :: r => Some (ScvMap None, r)
      | "map" :: n :: r =>
          n ← dec_nat n;
          '(l, r') ← many (fun ts => '(k, r1) ← tok_val f ts; '(v, r2) ← tok_val f r1; Some ((k, v), r2))
                          (Z.to_nat n) r;
          Some (ScvMap (Some l), r')
      | "addr" :: r => '(a, r') ← tok_addr r; Some (ScvAddress a, r')
      | _ => None
      end
  end.
Definition encode_val (v : ScVal) : string := join (val_tok v).
Definition decode_val (s : string) : res ScVal :=
  match split_all s ≫= fun ts => tok_val (S (length ts)) ts with
  | Some (v, []) => Ok v
  | _ => Err (Errorf "xdr:DecodeUnion")
  end.

Fixpoint inv_tok (i : Invocation) : list string :=
  match i with
  | MkInvocation (ContractFn c name args) subs =>
      "call" :: addr_tok c ++ name :: pretty (length args) :: concat (map val_tok args)
        ++ pretty (length subs) :: concat (map inv_tok subs)
  | MkInvocation (CreateContractFn raw) _ => ["create"; raw]
  end.
Fixpoint tok_inv (fuel : nat) (ts : list string) : option (Invocation * list string) :=
  match fuel with
  | O => None
  | S f =>
      match ts with
      | "call" :: r =>
          '(c, r1) ← tok_addr r;
          match r1 with
          | name :: n :: r2 =>
              n ← dec_nat n; '(l, r3) ← many (tok_val fuel) (Z.to_nat n) r2;
              match r3 with
              | m :: r4 => m ← dec_nat m; '(subs, r5) ← many (tok_inv f) (Z.to_nat m) r4;
                           Some (MkInvocation (ContractFn c name l) subs, r5)
              | [] => None
              end
          | _ => None
          end
      | "create" :: raw :: r => Some (MkInvocation (CreateContractFn raw) [], r)
      | _ => None
      end
  end.
Definition entry_tok (e : AuthEntry) : list string :=
  match ae_Credentials e with
  | SourceAccountCredentials => "src" :: inv_tok (ae_RootInvocation e)
  | SorobanAddress c =>
      "cred" :: addr_tok (ac_Address c) ++ pretty (ac_Nonce c) :: pretty (ac_SignatureExpirationLedger c)
        :: val_tok (ac_Signature c) ++ inv_tok (ae_RootInvocation e)
  end.
Definition tok_entry (fuel : nat) (ts : list string) : option (AuthEntry * list string) :=
  match ts with
  | "src" :: r =>
      '(i, r1) ← tok_inv fuel r;
      Some ({| ae_Credentials := SourceAccountCredentials; ae_RootInvocation := i |}, r1)
  | "cred" :: r =>
      '(a, r1) ← tok_addr r;
      match r1 with
      | nonce :: led :: r2 =>
          nonce ← dec_nat nonce; led ← dec_nat led;
          '(sg, r3) ← tok_val fuel r2; '(i, r4) ← tok_inv fuel r3;
          Some ({| ae_Credentials := SorobanAddress
                     {| ac_Address := a; ac_Nonce := nonce; ac_SignatureExpirationLedger := led;
                        ac_Signature := sg |};
                   ae_RootInvocation := i |}, r4)
      | _ => None
      end
  | _ => None
  end.
Definition encode_entry (e : AuthEntry) : string := join (entry_tok e).
Definition decode_entry (s : string) : res AuthEntry :=
  match split_all s ≫= fun ts => tok_entry (S (length ts)) ts with
  | Some (v, []) => Ok v
  | _ => Err (Errorf "xdr:DecodeUnion")
  end.

(** Keys are their own strkeys behind the version letter; the hash keeps its
    input; a signature is the first 64 bytes of the padded key and message. *)
Definition demo_sign (key msg : string) : string :=
  String.substring 0 64 (key +:+ msg +:+ str_repeat "." 64).

Definition decode_key (letter : string) (s : string) : res string :=
  if String.prefix letter s then Ok (trim_prefix letter s) else Err (Errorf "strkey: invalid version byte").

(** A transaction is the call, its source and sequence, and its entries; of the
    operations only the first is kept. *)
Definition hostfn_tok (fn : HostFunction) : list string :=
  match fn with
  | InvokeContract (AddrContract c) f args => [c; f; encode_val (scVec args)]
  | InvokeContract _ f args => ["?"; f; encode_val (scVec args)]
  | OtherHostFunction raw => ["other"; raw]
  end.
Definition demo_tx_build (n : nat) (tp : TxParams) : res string :=
  match tp_Operations tp with
  | op :: _ => match op_Function op with
               | InvokeContract (AddrContract c) f args =>
                   Ok (join (c :: f :: tp_SourceAccount tp :: pretty (tp_Sequence tp)
                             :: encode_val (scVec args) :: map encode_entry (op_Auth op)))
               | _ => Err (Errorf "txnbuild")
               end
  | [] => Err (Errorf "txnbuild")
  end.
Definition demo_envelope (s : string) : res Envelope :=
  match split_all s with
  | Some (c :: f :: _ :: _ :: args :: _) =>
      match decode_val args with
      | Ok (ScvVec (Some args)) => Ok (Some [InvokeHostFunctionOp (InvokeContract (AddrContract c) f args)])
      | _ => Err (Errorf "xdr: envelope")
      end
  | _ => Err (Errorf "xdr: envelope")
  end.
Definition demo_address_string (a : ScAddress) : res string :=
  match a with
  | AddrAccount k => Ok ("G" +:+ k)
  | AddrContract c => Ok ("C" +:+ c)
  | AddrOther _ => Err (Errorf "unsupported address")
  end.

(** A result's meta is its return value. *)
Definition demo_meta (s : string) : res TxMeta :=
  let? v := decode_val s in Ok {| tm_V4 := Some (Some (Some v)); tm_V3 := None |}.

#[export] Instance demo_sdk : StellarSDK := {|
  strkey_decode_account := decode_key "G";
  strkey_decode_contract := decode_key "C";
  strkey_encode_account k := Ok ("G" +:+ k);
  strkey_encode_contract k := Ok ("C" +:+ k);
  scval_marshal v := Ok (encode_val v);
  scval_marshal_b64 v := Ok (b64 (encode_val v));
  scval_unmarshal_b64 s := let? raw := Base64.StdEncoding_DecodeString s in decode_val raw;
  entry_marshal e := Ok (encode_entry e);
  entry_unmarshal := decode_entry;
  entry_marshal_b64 e := Ok (b64 (encode_entry e));
  entry_unmarshal_b64 s := let? raw := Base64.StdEncoding_DecodeString s in decode_entry raw;
  auth_preimage_marshal net_id nonce led inv :=
    Ok (join (net_id :: pretty nonce :: pretty led :: inv_tok inv));
  network_ID p := p;
  hash_Hash s := s;
  ed25519_verify key msg sg := String.eqb sg (demo_sign key msg);
  scaddress_string := demo_address_string;
  hostfn_marshal fn := Ok (join (hostfn_tok fn));
  envelope_unmarshal_b64 := demo_envelope;
  tx_build := demo_tx_build;
  tx_sign passphrase tx := Ok ("signed:" +:+ tx);
  bundler_sign h := Ok (demo_sign "X" h);
  meta_unmarshal_b64 := demo_meta;
  instance_key_b64 c := Ok c;
  soroban_data_decode s := Ok s;
|}.

(** A chain that answers reads, names the authorizations a call needs, and
    stands at one ledger. *)
Record Chain := {
  ch_read : string -> string -> list ScVal -> option ScVal;
  ch_auth : string -> string -> list ScVal -> list AuthEntry;
  ch_ledger : Z;
}.
Definition demo_simulate (c : Chain) (tx : string) : SimResult :=
  match split_all tx with
  | Some (contract :: fn :: _ :: _ :: args :: _) =>
      match decode_val args with
      | Ok (ScvVec (Some args)) =>
          match ch_read c contract fn args with
          | Some v => {| sim_Error := ""; sim_Results := [(b64 (encode_val v), map (fun e => b64 (encode_entry e)) (ch_auth c contract fn args))];
                         sim_TransactionData := "data"; sim_MinResourceFee := "100"; sim_LatestLedger := ch_ledger c |}
          | None => {| sim_Error := "HostError"; sim_Results := []; sim_TransactionData := ""; sim_MinResourceFee := "100";
                       sim_LatestLedger := ch_ledger c |}
          end
      | _ => {| sim_Error := "args"; sim_Results := []; sim_TransactionData := ""; sim_MinResourceFee := "100"; sim_LatestLedger := 0 |}
      end
  | _ => {| sim_Error := "tx"; sim_Results := []; sim_TransactionData := ""; sim_MinResourceFee := "100"; sim_LatestLedger := 0 |}
  end.
Definition demo_network (c : Chain) : Network := {|
  rpc_simulate tx n := Ok (demo_simulate c tx);
  rpc_latest_ledger n := Ok (ch_ledger c);
  rpc_account_sequence a n := Ok 1;
|}.

(** Netstrings are read back, so distinct token lists are written distinctly. *)
Lemma pretty_no_colon (n : N) : str_forall (fun c => negb (Ascii.eqb c ":")) (pretty n) = true.
Proof.
  pose proof (dec_val_pretty n) as Hd. apply dec_val_digits in Hd.
  eapply str_forall_impl; [|exact Hd]. intros c Hc.
  destruct (Ascii.eqb_spec c ":") as [->|]; [discriminate Hc | done].
Qed.

Lemma pretty_colon_inj (a b : N) s t :
  pretty a +:+ String ":" s = pretty b +:+ String ":" t -> a = b /\ s = t.
Proof.
  intros E. apply (f_equal (cut_at ":")) in E.
  rewrite !cut_at_notin in E by apply pretty_no_colon. injection E as E ->.
  by apply pretty_N_inj in E.
Qed.

Lemma str_app_length_inj s s' t t' :
  String.length s = String.length s' -> s +:+ t = s' +:+ t' -> s = s' /\ t = t'.
Proof.
  revert s'. induction s as [|c s IH]; intros [|c' s']; cbn; try done.
  intros [= Hl] [= -> E]. destruct (IH _ Hl E) as [-> ->]. done.
Qed.

Lemma join_inj ts ts' : join ts = join ts' -> ts = ts'.
Proof.
  revert ts'. induction ts as [|t ts IH]; intros [|t' ts']; [done| | |].
  - cbn. unfold net. intros E. symmetry in E. apply (f_equal String.length) in E.
    rewrite !str_length_app in E. cbn in E. lia.
  - cbn. unfold net. intros E. apply (f_equal String.length) in E.
    rewrite !str_length_app in E. cbn in E. lia.
  - cbn [join foldr]. unfold net. rewrite !str_app_assoc. intros E.
    change (":" +:+ t) with (String ":" t) in E. cbn in E.
    apply pretty_colon_inj in E as [El E].
    apply str_app_length_inj in E as [-> E]; [|lia]. f_equal. by apply IH.
Qed.

Lemma decode_key_inj letter s t r :
  decode_key letter s = Ok r -> decode_key letter t = Ok r -> s = t.
Proof.
  unfold decode_key, trim_prefix.
  destruct (String.prefix letter s) eqn:Es; [|done]. destruct (String.prefix letter t) eqn:Et; [|done].
  apply prefix_inv in Es as [s' ->], Et as [t' ->]. rewrite !str_drop_app. by intros [= ->] [= ->].
Qed.

Example demo_entry_round_trip :
  let e := {| ae_Credentials := SorobanAddress
                {| ac_Address := AddrAccount "A1"; ac_Nonce := 7; ac_SignatureExpirationLedger := 99;
                   ac_Signature := scVec [scMap [scMapEntry "k" (scBytes "b")]] |};
              ae_RootInvocation := MkInvocation (ContractFn (AddrContract "X") "f" [scU32 3]) [] |} in
  decode_entry (encode_entry e) = Ok e.
Proof. vm_compute. reflexivity. Qed.
End Demo.
