(* ===== verification/Otp.v ===== *)
(** * Email one-time passwords (internal/service/otp.go) *)

From S2P Require Export Redis.
From S2P Require Import Instances.

Module Otp.

(** 10 minutes *)
Definition otpTTL : Z := 10 * 60 * 1000.
Definition otpMaxAttempts : Z := 5.
Definition otpLength : nat := 6.

(** [fmt.Sprintf("%0*d", length, n)] for [0 <= n] *)
Definition zero_pad (length : nat) (n : Z) : string :=
  let s := pretty (Z.to_N n) in str_repeat "0" (length - String.length s) +:+ s.

Section Otp.
Context `{Unicode} `{Env}.
(** [rand.Int]: a uniform integer below the bound, or the failure to read one. *)
Context (rand_Int : nat -> Z -> res Z).
Abbreviation W := (World RedisStore).

Definition NormalizeEmail (email : string) : string := to_lower email.
Definition otpKey (email : string) : string := "otp:" +:+ NormalizeEmail email.
Definition otpAttemptsKey (email : string) : string := "otp:attempts:" +:+ NormalizeEmail email.

Definition generateNumericOTP (length : nat) : M W string :=
  let! n := call (fun i => rand_Int i (10 ^ Z.of_nat length)) in
  ret (zero_pad length n).

Definition Generate (email : string) : M W string :=
  let! code := wrap "generate OTP" (generateNumericOTP otpLength) in
  let! _ := wrap "store OTP" (pipeline2 (SET (otpKey email) code otpTTL) (DEL [otpAttemptsKey email])) in
  ret code.

Definition Verify (email code : string) : M W bool :=
  let key := otpKey email in
  let attemptsKey := otpAttemptsKey email in
  let! r := attempt (redis (GET key)) in
  match r with
  | Err e => if bool_decide (e = redis_Nil) then ret false else throw (Wrapf "get OTP" e)
  | Ok stored =>
      let! ' (attempts, _) := wrap "increment attempts"
        (pipeline2 (INCR attemptsKey) (EXPIRE attemptsKey otpTTL)) in
      if otpMaxAttempts <? attempts then
        let! _ := wrap "invalidate OTP" (redis (DEL [key; attemptsKey])) in ret false
      else if negb (String.eqb stored code) then ret false
      else let! _ := wrap "delete OTP after verify" (redis (DEL [key; attemptsKey])) in ret true
  end.

(** A client's guesses, one call after the other. *)
Fixpoint verify_run (email : string) (guesses : list string) (w : W) : list (res bool) * W :=
  match guesses with
  | [] => ([], w)
  | g :: gs => let '(r, w1) := Verify email g w in
               let '(rs, w2) := verify_run email gs w1 in (r :: rs, w2)
  end.

Lemma otp_keys_differ email : otpKey email <> otpAttemptsKey email.
Proof using Type.
  unfold otpKey, otpAttemptsKey. intros E. apply (f_equal String.length) in E.
  rewrite !str_length_app in E. cbn in E. lia.
Qed.

(** ** The state of a code: stored until [D], [n] guesses answered *)
Definition code_stored (email code : string) (D n : Z) (d : RedisStore) : Prop :=
  d !! otpKey email = Some {| re_value := RText code; re_deadline := Some D |} /\
  (n = 0 /\ d !! otpAttemptsKey email = None \/
   0 < n /\ exists D', D <= D' /\
     d !! otpAttemptsKey email = Some {| re_value := RCount n; re_deadline := Some D' |}).
Definition code_gone (email : string) (d : RedisStore) : Prop := d !! otpKey email = None.

(** The clock of the next [k] effects is in the code's lifetime. *)
Definition in_lifetime (D : Z) (i k : nat) : Prop :=
  forall n, (i <= n < i + k)%nat -> D - otpTTL <= env_now n < D.

Lemma not_expired now D v : now < D -> expired_at now {| re_value := v; re_deadline := Some D |} = false.
Proof using Type. unfold expired_at. cbn. intros. apply Z.leb_gt. lia. Qed.

Lemma live_stored now k v D (d : RedisStore) :
  d !! k = Some {| re_value := v; re_deadline := Some D |} -> now < D ->
  live now k d = Some {| re_value := v; re_deadline := Some D |}.
Proof using Type. intros E Hn. unfold live. by rewrite E, not_expired. Qed.

(** The attempt is counted, and the counter outlives the code. *)
Lemma count_attempt email code D n now (d : RedisStore) :
  code_stored email code D n d -> 0 <= n < 2 ^ 63 - 1 -> D - otpTTL <= now < D ->
  exists d1 d2, INCR (otpAttemptsKey email) now d = Ok (n + 1, d1) /\
    EXPIRE (otpAttemptsKey email) otpTTL now d1 = Ok (tt, d2) /\ code_stored email code D (n + 1) d2.
Proof using Type.
  intros [Hk Ha] Hn Ht. pose proof (otp_keys_differ email) as Hne.
  assert (exists d1 D0, INCR (otpAttemptsKey email) now d = Ok (n + 1, d1) /\ now < default (now + 1) D0 /\
    d1 = <[otpAttemptsKey email := {| re_value := RCount (n + 1); re_deadline := D0 |}]> d) as (d1 & D0 & Hi & HD0 & ->).
  { unfold INCR. destruct Ha as [[-> Ha]|(Hpos & D' & HD' & Ha)].
    - exists (<[otpAttemptsKey email := {| re_value := RCount 1; re_deadline := None |}]> d), None.
      unfold live. rewrite Ha. split_and!; [done|cbn; lia|done].
    - eexists _, (Some D'). rewrite (live_stored _ _ _ _ _ Ha) by lia. cbn.
      destruct (Z.ltb_spec (n + 1) (2 ^ 63)); [|lia]. split_and!; [done|lia|done]. }
  eexists _, _. split; [exact Hi|]. unfold EXPIRE. rewrite live_insert.
  assert (expired_at now {| re_value := RCount (n + 1); re_deadline := D0 |} = false) as ->.
  { destruct D0; [by apply not_expired|done]. }
  split; [done|]. split.
  - by rewrite !lookup_insert_ne by done.
  - right. split; [lia|]. exists (now + otpTTL). split; [lia|]. cbn. by rewrite lookup_insert_eq.
Qed.

(** What one guess leads to: an answer that is not given, with the attempt
    counted or not; a wrong guess; a code used up; the right one. *)
Definition outcome (email code g : string) (D n : Z) (r : res bool) (d : RedisStore) : Prop :=
  ((exists e, r = Err e) /\ exists k, env_fault k = true) /\ (code_stored email code D n d \/ code_stored email code D (n + 1) d) \/
  r = Ok false /\ n < otpMaxAttempts /\ g <> code /\ code_stored email code D (n + 1) d \/
  r = Ok false /\ otpMaxAttempts <= n /\ code_gone email d \/
  r = Ok true /\ n < otpMaxAttempts /\ g = code /\ code_gone email d.

Lemma delete_gone email now (d d' : RedisStore) :
  DEL [otpKey email; otpAttemptsKey email] now d = Ok (tt, d') -> code_gone email d'.
Proof using Type. intros [= <-]. unfold code_gone. cbn. by rewrite lookup_delete_eq. Qed.

Lemma del_step email c (b : bool) (w : W) :
  (exists e, bind (wrap c (redis (DEL [otpKey email; otpAttemptsKey email]))) (fun _ => ret b) w = (Err e, tick w) /\
     env_fault (w_io w) = true) \/
  exists d, bind (wrap c (redis (DEL [otpKey email; otpAttemptsKey email]))) (fun _ => ret b) w =
    (Ok b, tick (put_store d w)) /\ code_gone email d.
Proof using Type.
  unfold bind, wrap, redis, exec. destruct (env_fault (w_io w)); [left; by eexists|]. right.
  eexists. split; [reflexivity|]. by eapply (delete_gone email 0).
Qed.

Lemma verify_step email code D n g w r w' :
  code_stored email code D n (w_store w) -> 0 <= n < 2 ^ 63 - 1 -> in_lifetime D (w_io w) 3 ->
  Verify email g w = (r, w') ->
  outcome email code g D n r (w_store w') /\ (w_io w <= w_io w' <= w_io w + 3)%nat.
Proof using Type.
  intros Hc Hn Ht Hr. unfold Verify in Hr. unfold bind at 1, attempt, redis at 1, exec at 1 in Hr.
  destruct (env_fault (w_io w)) eqn:F0.
  { injection Hr as <- <-. split; [left; split; [split; by eexists|by left]|cbn; lia]. }
  unfold GET in Hr. pose proof (Ht (w_io w) ltac:(lia)) as Ht0.
  rewrite (live_stored _ _ _ _ _ (proj1 Hc)) in Hr by lia. cbn [re_value value_text] in Hr.
  replace (tick (put_store (w_store w) w)) with (tick w) in Hr by (by destruct w).
  unfold bind at 1, wrap at 1, pipeline2 in Hr. destruct (env_fault (w_io (tick w))) eqn:F1.
  { injection Hr as <- <-. split; [left; split; [split; by eexists|by left]|cbn; lia]. }
  pose proof (Ht (w_io (tick w)) ltac:(cbn; lia)) as Ht1.
  destruct (count_attempt email code D n (env_now (w_io (tick w))) (w_store w) Hc Hn Ht1) as (d1 & d2 & E1 & E2 & Hc').
  cbn [w_store tick] in Hr. rewrite E1, E2 in Hr. unfold otpMaxAttempts in *.
  set (w2 := tick (put_store d2 (tick w))) in *.
  assert (w_store w2 = d2 /\ w_io w2 = S (S (w_io w))) as [Sw Iw] by done.
  destruct (Z.ltb_spec 5 (n + 1)) as [Hmax|Hmax].
  - destruct (del_step email "invalidate OTP" false w2) as [(e & Hd & Hf)|(d & Hd & Hg)]; rewrite Hd in Hr; injection Hr as <- <-.
    + split; [left; split; [split; by eexists|right; exact Hc']|cbn; lia].
    + split; [right; right; left|cbn; lia]. unfold otpMaxAttempts. split_and!; [done|lia|done].
  - destruct (String.eqb_spec code g) as [->|Hne]; cbn [negb] in Hr.
    + destruct (del_step email "delete OTP after verify" true w2) as [(e & Hd & Hf)|(d & Hd & Hg)]; rewrite Hd in Hr; injection Hr as <- <-.
      * split; [left; split; [split; by eexists|right; exact Hc']|cbn; lia].
      * split; [right; right; right|cbn; lia]. unfold otpMaxAttempts. split_and!; [done|lia|done|done].
    + injection Hr as <- <-. split; [right; left|cbn; lia]. unfold otpMaxAttempts. split_and!; [done|lia|congruence|done].
Qed.

(** Once the code is gone no guess is accepted. *)
Lemma verify_gone email g w r w' :
  code_gone email (w_store w) -> Verify email g w = (r, w') -> r <> Ok true /\ w_store w' = w_store w.
Proof using Type.
  unfold code_gone. intros Hg Hr. unfold Verify in Hr. unfold bind at 1, attempt, redis at 1, exec at 1 in Hr.
  destruct (env_fault (w_io w)); [by injection Hr as <- <-|].
  unfold GET, live in Hr. rewrite Hg in Hr. by injection Hr as <- <-.
Qed.
Lemma run_gone email gs w rs w' :
  code_gone email (w_store w) -> verify_run email gs w = (rs, w') -> Ok true ∉ rs.
Proof using Type.
  revert w rs w'. induction gs as [|g gs IH]; intros w rs w' Hg; cbn; [intros [= <- _]; apply not_elem_of_nil|].
  destruct (Verify email g w) as [r w1] eqn:E. destruct (verify_run email gs w1) as [rs' w2] eqn:E2.
  intros [= <- <-]. destruct (verify_gone _ _ _ _ _ Hg E) as [Hr Hs]. rewrite <- Hs in Hg.
  intros [Heq|Hin]%elem_of_cons; [congruence|]. by eapply IH.
Qed.

Definition answered (r : res bool) : bool := is_ok r.

(** The run from [n] counted guesses. *)
Lemma run_bound email code D gs n w rs w' :
  code_stored email code D n (w_store w) -> 0 <= n -> n + Z.of_nat (length gs) < 2 ^ 63 - 1 ->
  in_lifetime D (w_io w) (3 * length gs) -> verify_run email gs w = (rs, w') ->
  forall i, rs !! i = Some (Ok true) ->
    gs !! i = Some code /\ n + Z.of_nat (length (List.filter answered (firstn i rs))) < otpMaxAttempts /\
    Ok true ∉ drop (S i) rs.
Proof using Type.
  revert n w rs w'. induction gs as [|g gs IH]; intros n w rs w' Hc Hn Hlen Ht; cbn; [by intros [= <- _] i|].
  destruct (Verify email g w) as [r w1] eqn:E. destruct (verify_run email gs w1) as [rs' w2] eqn:E2.
  intros [= <- <-] i Hi. cbn in Hlen.
  destruct (verify_step email code D n g w r w1 Hc ltac:(lia)) as [Ho Hio]; [intros k Hk; apply Ht; cbn; lia|done|].
  assert (in_lifetime D (w_io w1) (3 * length gs)) as Ht' by (intros k Hk; apply Ht; cbn; lia).
  unfold outcome, otpMaxAttempts in *.
  destruct Ho as [([[e ->] _] & Hs)|[(-> & Hlt & Hne & Hs)|[(-> & Hge & Hg)|(-> & Hlt & -> & Hg)]]].
  - destruct i as [|i]; [done|]. cbn in *.
    destruct Hs as [Hs|Hs]; edestruct IH as (H1 & H2 & H3); try exact Hs; try exact E2; try exact Hi; try lia; try done.
    split_and!; [done|lia|done].
  - destruct i as [|i]; [done|]. cbn in *.
    edestruct IH as (H1 & H2 & H3); try exact Hs; try exact E2; try exact Hi; try lia; try done.
    split_and!; [done|lia|done].
  - destruct i as [|i]; [done|]. cbn in Hi. exfalso. eapply (run_gone _ _ _ _ _ Hg E2). by eapply list_elem_of_lookup_2.
  - destruct i as [|i].
    + split_and!; [done|cbn; lia|]. exact (run_gone _ _ _ _ _ Hg E2).
    + cbn in Hi. exfalso. eapply (run_gone _ _ _ _ _ Hg E2). by eapply list_elem_of_lookup_2.
Qed.

(** Generating a code starts it afresh: no guess is counted yet. *)
Lemma Generate_ok email w code w1 :
  Generate email w = (Ok code, w1) -> code_stored email code (env_now (S (w_io w)) + otpTTL) 0 (w_store w1).
Proof using Type.
  unfold Generate, generateNumericOTP. intros Hr. run_inv.
  match goal with H : pipeline2 _ _ _ = (Ok ?p, _) |- _ => destruct p as [[] []]; apply pipeline2_ok in H as (_ & d1 & d2 & E1 & E2 & ->) end.
  injection E1 as <-. injection E2 as <-. cbn. split.
  - rewrite lookup_delete_ne by (apply not_eq_sym, otp_keys_differ). by rewrite lookup_insert_eq.
  - left. split; [done|]. by rewrite lookup_delete_eq.
Qed.

(** C40. Within a code's lifetime, however many guesses are made and whichever
    calls fail, a guess is accepted only if it is the code, only among the first
    five answered guesses, and at most once. *)
Theorem otp_guess_bound email gs w code w1 rs w2 :
  Generate email w = (Ok code, w1) -> verify_run email gs w1 = (rs, w2) ->
  Z.of_nat (length gs) < 2 ^ 63 - 1 ->
  in_lifetime (env_now (S (w_io w)) + otpTTL) (w_io w1) (3 * length gs) ->
  forall i, rs !! i = Some (Ok true) ->
    gs !! i = Some code /\ Z.of_nat (length (List.filter answered (firstn i rs))) < otpMaxAttempts /\
    Ok true ∉ drop (S i) rs.
Proof.
  intros Hg Hr Hlen Ht. apply Generate_ok in Hg. by apply (run_bound email code (env_now (S (w_io w)) + otpTTL) gs 0 w1 rs w2).
Qed.

(** Wrong guesses only use up attempts. *)
Lemma run_wrong email code D gs n w rs w' :
  (forall k, env_fault k = false) -> code ∉ gs ->
  code_stored email code D n (w_store w) -> 0 <= n -> n + Z.of_nat (length gs) <= otpMaxAttempts ->
  in_lifetime D (w_io w) (3 * length gs) -> verify_run email gs w = (rs, w') ->
  exists n', code_stored email code D n' (w_store w') /\ n <= n' <= n + Z.of_nat (length gs) /\
    (w_io w <= w_io w' <= w_io w + 3 * length gs)%nat.
Proof using Type.
  intros Hno. revert n w rs w'. induction gs as [|g gs IH]; intros n w rs w' Hin Hc Hn Hlen Ht; cbn.
  { intros [= _ <-]. exists n. split; [done|lia]. }
  destruct (Verify email g w) as [r w1] eqn:E. destruct (verify_run email gs w1) as [rs' w2] eqn:E2.
  intros [= <- <-]. apply not_elem_of_cons in Hin as [Hne Hin]. cbn [length] in Hlen. unfold otpMaxAttempts in *.
  destruct (verify_step email code D n g w r w1 Hc ltac:(lia)) as [Ho Hio]; [intros k Hk; apply Ht; cbn; lia|done|].
  assert (in_lifetime D (w_io w1) (3 * length gs)) as Ht' by (intros k Hk; apply Ht; cbn; lia).
  unfold outcome, otpMaxAttempts in Ho.
  destruct Ho as [([_ [k Hk]] & _)|[(_ & _ & _ & Hs)|[(_ & ? & _)|(_ & _ & -> & _)]]]; [congruence| |lia|done].
  destruct (IH (n + 1) w1 rs' w2 Hin Hs) as (n' & Hc' & Hn' & Hio'); try done; try lia.
  exists n'. split; [done|]. lia.
Qed.

(** The code is accepted: with no failing calls, its lifetime not over and
    fewer than five wrong guesses before it, verifying it succeeds and uses it
    up. *)
Theorem otp_accepts email w code w1 wrong rs w2 :
  (forall n, env_fault n = false) ->
  Generate email w = (Ok code, w1) -> verify_run email wrong w1 = (rs, w2) ->
  code ∉ wrong -> Z.of_nat (length wrong) < otpMaxAttempts ->
  in_lifetime (env_now (S (w_io w)) + otpTTL) (w_io w1) (3 * S (length wrong)) ->
  exists w3, Verify email code w2 = (Ok true, w3) /\ code_gone email (w_store w3).
Proof.
  intros Hno Hg Hr Hin Hlen Ht. apply Generate_ok in Hg. set (D := env_now (S (w_io w)) + otpTTL) in *.
  assert (exists n, code_stored email code D n (w_store w2) /\ 0 <= n <= Z.of_nat (length wrong) /\
    (w_io w1 <= w_io w2 <= w_io w1 + 3 * length wrong)%nat) as (n & Hc & Hn & Hio).
  { destruct (run_wrong email code D wrong 0 w1 rs w2) as (n & Hc & Hn & Hio); try done; try lia.
    - intros k Hk. apply Ht. lia.
    - exists n. split; [done|]. lia. }
  destruct (Verify email code w2) as [r w3] eqn:E.
  destruct (verify_step email code D n code w2 r w3 Hc ltac:(unfold otpMaxAttempts in *; lia)) as [Ho _];
    [intros k Hk; apply Ht; lia|done|].
  destruct Ho as [([_ [k Hk]] & _)|[(_ & _ & ? & _)|[(_ & ? & _)|(-> & _ & _ & Hgone)]]].
  - congruence.
  - done.
  - lia.
  - exists w3. done.
Qed.
End Otp.

Section Witnesses.
Import Demo.
Definition demo_e : Env := demo_env 1000 100%N no_fault.
Definition demo_rand (n : nat) (max : Z) : res Z := Ok 4242.
Definition w0 : World RedisStore := MkWorld ∅ 0.
Definition guesses : list string := ["1"; "2"; "3"; "004242"; "004242"].

Lemma demo_lifetime i k : (1 <= i)%nat -> (i + k <= 100)%nat ->
  in_lifetime (H0 := demo_e) (env_now (Env := demo_e) 1 + otpTTL) i k.
Proof. intros Hi Hk n Hn. unfold otpTTL. cbn -[Z.add Z.mul]. lia. Qed.

Definition w_gen : World RedisStore := snd (Generate (H0 := demo_e) demo_rand "a@b" w0).
Definition run_gen (gs : list string) : list (res bool) * World RedisStore := verify_run (H0 := demo_e) "a@b" gs w_gen.
Lemma demo_generated : Generate (H0 := demo_e) demo_rand "a@b" w0 = (Ok "004242", w_gen).
Proof. vm_compute. reflexivity. Qed.
Lemma demo_gen_io : w_io w_gen = 2%nat.
Proof. vm_compute. reflexivity. Qed.
Lemma run_gen_eq gs : verify_run (H0 := demo_e) "a@b" gs w_gen = ((run_gen gs).1, (run_gen gs).2).
Proof. unfold run_gen. by destruct (verify_run _ _ _). Qed.

Lemma otp_guess_bound_witness :
  (run_gen guesses).1 !! 3%nat = Some (Ok true) /\ guesses !! 3%nat = Some "004242".
Proof.
  assert ((run_gen guesses).1 !! 3%nat = Some (Ok true)) as Hi by (vm_compute; reflexivity).
  split; [exact Hi|].
  refine (proj1 (otp_guess_bound (H0 := demo_e) demo_rand "a@b" guesses w0 "004242" w_gen _ _
    demo_generated (run_gen_eq guesses) ltac:(reflexivity) (demo_lifetime _ 15 _ _) 3%nat Hi));
    rewrite demo_gen_io; lia.
Defined.

Lemma otp_accepts_witness :
  exists w3, Verify (H0 := demo_e) "a@b" "004242" (run_gen ["1"; "2"; "3"]).2 = (Ok true, w3) /\
    code_gone "a@b" (w_store w3).
Proof.
  apply (otp_accepts (H0 := demo_e) demo_rand "a@b" w0 "004242" w_gen ["1"; "2"; "3"] _ _
    (fun n => eq_refl) demo_generated (run_gen_eq _)).
  - intros Hin. repeat (apply elem_of_cons in Hin as [?|Hin]; [discriminate|]). by apply not_elem_of_nil in Hin.
  - reflexivity.
  - apply (demo_lifetime _ 12); rewrite demo_gen_io; lia.
Defined.
End Witnesses.
End Otp.
