(* ===== verification/WalletNonce.v ===== *)
(** * Single-use wallet challenges (internal/service/wallet_nonce.go) *)

From S2P Require Export Redis.
From S2P Require Import Instances.

Module WalletNonce.

Definition walletNonceTTL : Z := 60 * 1000.
Definition DeployNonceTTL : Z := 5 * 60 * 1000.
Definition walletNonceBytes : nat := 32.
Definition walletNoncePrefix : string := "walletnonce:".
Definition nonce_key (nonceHex : string) : string := walletNoncePrefix +:+ nonceHex.
#[global] Arguments nonce_key : simpl never.

Definition ErrNonceInvalid : error := Sentinel "ErrNonceInvalid".
Definition ErrNonceUnknown : error := Wrapf "unknown, expired, or already used" ErrNonceInvalid.
Definition ErrNonceMismatch : error := Wrapf "issued for a different wallet, key type, or network" ErrNonceInvalid.

Section WalletNonce.
Context `{Env}.
Abbreviation W := (World RedisStore).

(** [bind] *)
Definition bind_nonce (wallet keyType network : string) : string :=
  wallet +:+ "|" +:+ keyType +:+ "|" +:+ network.

Definition IssueWithTTL (wallet keyType network : string) (ttl : Z) : M W (string * Z) :=
  let! raw := wrap "generate nonce" (rand_bytes walletNonceBytes) in
  let nonceHex := hex_encode raw in
  let! _ := wrap "store nonce"
    (redis (SET (nonce_key nonceHex) (bind_nonce wallet keyType network) ttl)) in
  ret (nonceHex, ttl).

Definition Issue (wallet keyType network : string) : M W (string * Z) :=
  IssueWithTTL wallet keyType network walletNonceTTL.

Definition Consume (nonceHex wallet keyType network : string) : M W unit :=
  let! r := attempt (redis (GETDEL (nonce_key nonceHex))) in
  match r with
  | Err e => if errors_is e redis_Nil then throw ErrNonceUnknown else throw (Wrapf "consume nonce" e)
  | Ok stored => if negb (String.eqb stored (bind_nonce wallet keyType network)) then throw ErrNonceMismatch
                 else ret tt
  end.

Inductive nonce_op :=
  | OpIssue (wallet keyType network : string) (ttl : Z)
  | OpConsume (nonceHex wallet keyType network : string).

(** The nonces issued by a run, and the world it leaves. *)
Fixpoint run_ops (ops : list nonce_op) (w : W) : list string * W :=
  match ops with
  | [] => ([], w)
  | OpIssue a b c ttl :: ops =>
      let '(r, w1) := IssueWithTTL a b c ttl w in
      let '(ns, w2) := run_ops ops w1 in
      (match r with Ok (n, _) => n :: ns | Err _ => ns end, w2)
  | OpConsume n a b c :: ops => run_ops ops (snd (Consume n a b c w))
  end.

Lemma nonce_key_inj n n' : nonce_key n = nonce_key n' -> n = n'.
Proof using Type. unfold nonce_key, walletNoncePrefix. cbn. by intros [= ->]. Qed.

Definition absent (n : string) (d : RedisStore) : Prop := d !! (nonce_key n) = None.

(** A consumption, by what the store holds at its time. *)
Lemma Consume_run n a b c (w : W) :
  exists r, Consume n a b c w = (r, tick (put_store (match r with
      | Err e => if bool_decide (e = Wrapf "consume nonce" ErrDriver) then w_store w
                 else match live (env_now (w_io w)) (nonce_key n) (w_store w) with
                      | Some _ => delete (nonce_key n) (w_store w) | None => w_store w end
      | Ok _ => delete (nonce_key n) (w_store w) end) w)) /\
    match r with
    | Ok _ => exists e, live (env_now (w_io w)) (nonce_key n) (w_store w) = Some e /\
                value_text (re_value e) = bind_nonce a b c
    | Err e => e = ErrNonceMismatch \/ e = Wrapf "consume nonce" ErrDriver \/
               e = ErrNonceUnknown /\ live (env_now (w_io w)) (nonce_key n) (w_store w) = None
    end.
Proof using Type.
  unfold Consume, bind, attempt, redis, exec. destruct (env_fault (w_io w)).
  { exists (Err (Wrapf "consume nonce" ErrDriver)). split; [by destruct w|by right; left]. }
  unfold GETDEL. destruct (live _ _ _) as [e|] eqn:E.
  - destruct (String.eqb_spec (value_text (re_value e)) (bind_nonce a b c)) as [Hb|Hb]; cbn.
    + exists (Ok tt). split; [done|]. eauto.
    + exists (Err ErrNonceMismatch). split; [done|by left].
  - exists (Err ErrNonceUnknown). split; [cbn; by destruct w|]. right. right. done.
Qed.

Lemma Consume_keeps_absent m n a b c w : absent m (w_store w) -> absent m (w_store (snd (Consume n a b c w))).
Proof using Type.
  unfold absent. intros Ha. destruct (Consume_run n a b c w) as (r & -> & _). cbn.
  assert (delete (nonce_key n) (w_store w) !! (nonce_key m) = None) as Hd.
  { rewrite lookup_delete_None. by right. }
  destruct r as [|e]; [done|]. case_bool_decide; [done|]. by destruct (live _ _ _).
Qed.

Lemma Issue_keeps_absent m a b c ttl w r w' :
  IssueWithTTL a b c ttl w = (r, w') -> (forall t, r <> Ok (m, t)) -> absent m (w_store w) -> absent m (w_store w').
Proof using Type.
  unfold absent, IssueWithTTL, bind, wrap, rand_bytes, redis, exec, SET, ret. intros Hr Hne Ha.
  destruct (env_rand (w_io w) walletNonceBytes) as [raw|e]; [|by injection Hr as <- <-].
  destruct (env_fault (w_io (tick w))); injection Hr as <- <-; [done|]. cbn.
  rewrite lookup_insert_ne; [done|]. intros E. apply nonce_key_inj in E as <-. by apply (Hne ttl).
Qed.

Lemma run_absent m ops w ns w' :
  run_ops ops w = (ns, w') -> m ∉ ns -> absent m (w_store w) -> absent m (w_store w').
Proof using Type.
  revert w ns w'. induction ops as [|[a b c ttl|n a b c] ops IH]; intros w ns w'; cbn; [by intros [= _ <-]| |].
  - destruct (IssueWithTTL a b c ttl w) as [r w1] eqn:E. destruct (run_ops ops w1) as [ns1 w2] eqn:E2.
    intros [= <- <-] Hm Ha. eapply IH; [exact E2| |].
    + destruct r as [[n t]|]; [|done]. intros Hin. apply Hm. by right.
    + eapply Issue_keeps_absent; [exact E| |done]. intros t ->. apply Hm. left.
  - intros Hr Hm Ha. eapply IH; [exact Hr|done|]. by apply Consume_keeps_absent.
Qed.

(** A challenge is used at most once: after an attempt to use a live
    challenge that Redis answered — accepted or refused, even for the wrong
    wallet — no later attempt succeeds, whatever other challenges are issued and
    consumed in between, until the same nonce is drawn again. *)
Theorem nonce_single_use n a b c w r w1 ops ns w2 a' b' c' r' w3 :
  Consume n a b c w = (r, w1) -> r <> Err (Wrapf "consume nonce" ErrDriver) ->
  is_Some (live (env_now (w_io w)) (nonce_key n) (w_store w)) ->
  run_ops ops w1 = (ns, w2) -> n ∉ ns ->
  Consume n a' b' c' w2 = (r', w3) ->
  r' = Err ErrNonceUnknown \/ r' = Err (Wrapf "consume nonce" ErrDriver).
Proof.
  intros Hc Hne [e He] Hops Hn Hc'.
  assert (absent n (w_store w2)) as Ha.
  { eapply run_absent; [exact Hops|exact Hn|]. unfold absent.
    destruct (Consume_run n a b c w) as (r0 & E & _). rewrite Hc in E. injection E as <- ->. cbn [w_store tick put_store].
    destruct r as [|err]; [by rewrite lookup_delete_eq|]. case_bool_decide; [congruence|].
    rewrite He. by rewrite lookup_delete_eq. }
  destruct (Consume_run n a' b' c' w2) as (r0 & E & Hr0). rewrite Hc' in E. injection E as <- _.
  assert (live (env_now (w_io w2)) (nonce_key n) (w_store w2) = None) as Hl by (unfold live; by rewrite Ha).
  destruct r' as [u|err].
  - destruct Hr0 as (e' & He' & _). congruence.
  - destruct Hr0 as [->|[->|[-> _]]]; [|by right|by left].
    unfold Consume, bind, attempt, redis, exec, GETDEL in Hc'. rewrite Hl in Hc'.
    destruct (env_fault (w_io w2)); injection Hc' as E _; discriminate E.
Qed.

Definition no_bar (s : string) : Prop := str_forall (fun c => negb (Ascii.eqb "|" c)) s = true.

Lemma bind_nonce_inj a b c a' b' c' :
  no_bar a -> no_bar b -> no_bar a' -> no_bar b' -> bind_nonce a b c = bind_nonce a' b' c' ->
  a = a' /\ b = b' /\ c = c'.
Proof using Type.
  intros Ha Hb Ha' Hb' E. unfold bind_nonce in E.
  change ("|" +:+ ?s) with (String "|" s) in E.
  assert (a +:+ String "|" (b +:+ String "|" c) = a' +:+ String "|" (b' +:+ String "|" c')) as E' by exact E.
  apply (f_equal (cut_at "|")) in E'. rewrite !cut_at_notin in E' by done. injection E' as -> E'.
  apply (f_equal (cut_at "|")) in E'. rewrite !cut_at_notin in E' by done. by injection E' as -> ->.
Qed.

Lemma Consume_live n a b c (w : W) e :
  env_fault (w_io w) = false -> live (env_now (w_io w)) (nonce_key n) (w_store w) = Some e ->
  fst (Consume n a b c w) = if String.eqb (value_text (re_value e)) (bind_nonce a b c) then Ok tt
                            else Err ErrNonceMismatch.
Proof using Type.
  intros Hf Hl. unfold Consume, bind, attempt, redis, exec, GETDEL. rewrite Hf, Hl. by destruct (String.eqb _ _).
Qed.

Lemma live_insert_at now k v D (d : RedisStore) :
  now < D -> live now k (<[k := {| re_value := v; re_deadline := Some D |}]> d) =
    Some {| re_value := v; re_deadline := Some D |}.
Proof using Type.
  intros Hn. rewrite live_insert. unfold expired_at. cbn. by destruct (Z.leb_spec D now); [lia|].
Qed.

(** A challenge only serves what it was issued for: if the next use of a
    fresh challenge succeeds within its lifetime, wallet, key type and network are
    the ones it was issued to; and with those, Redis answering, it does succeed. *)
Theorem nonce_bound a b c ttl w n t w1 a' b' c' r w2 :
  no_bar a -> no_bar b -> no_bar a' -> no_bar b' ->
  IssueWithTTL a b c ttl w = (Ok (n, t), w1) ->
  env_fault (w_io w1) = false -> env_now (w_io w1) < env_now (S (w_io w)) + ttl ->
  Consume n a' b' c' w1 = (r, w2) ->
  (r = Ok tt <-> a' = a /\ b' = b /\ c' = c).
Proof.
  intros Ha Hb Ha' Hb' Hi Hf Ht Hc. unfold IssueWithTTL in Hi. run_inv.
  match goal with H : redis _ _ = _ |- _ => apply redis_ok in H as (_ & d & Hd & ->) end.
  match type of Hd with SET ?k ?v ?ttl ?now _ = _ =>
    assert (d = <[k := {| re_value := RText v; re_deadline := Some (now + ttl) |}]> (w_store (tick w))) as ->
      by (injection Hd as <-; done) end.
  pose proof (Consume_live (hex_encode x) a' b' c' _ _ Hf (live_insert_at _ _ _ _ _ Ht)) as Hl.
  match goal with H : (_, _) = (n, t) |- _ => injection H as <- <- end.
  assert (r = if String.eqb (bind_nonce a b c) (bind_nonce a' b' c') then Ok tt else Err ErrNonceMismatch) as ->
    by (etrans; [symmetry; exact (f_equal fst Hc)|exact Hl]).
  destruct (String.eqb_spec (bind_nonce a b c) (bind_nonce a' b' c')) as [E|E].
  - apply bind_nonce_inj in E as (-> & -> & ->); done.
  - split; [done|]. by intros (-> & -> & ->).
Qed.
End WalletNonce.

Section Witnesses.
Import Demo.
Definition demo_e : Env := demo_env 1000 100%N no_fault.
Definition w0 : World RedisStore := MkWorld ∅ 0.
Definition nonce : string := hex_encode (str_repeat "r" 32).
Definition w_issued : World RedisStore := snd (Issue (H := demo_e) "GA" "ed25519" "testnet" w0).
Definition w_used : World RedisStore := snd (Consume (H := demo_e) nonce "GB" "ed25519" "testnet" w_issued).

(** Presenting the challenge for another wallet uses it up. *)
Lemma nonce_single_use_witness :
  fst (Consume (H := demo_e) nonce "GA" "ed25519" "testnet" w_used) = Err ErrNonceUnknown \/
  fst (Consume (H := demo_e) nonce "GA" "ed25519" "testnet" w_used) = Err (Wrapf "consume nonce" ErrDriver).
Proof.
  apply (nonce_single_use (H := demo_e) nonce "GB" "ed25519" "testnet" w_issued (Err ErrNonceMismatch) w_used
    [] [] w_used "GA" "ed25519" "testnet" _ (snd (Consume (H := demo_e) nonce "GA" "ed25519" "testnet" w_used))).
  - vm_compute. reflexivity.
  - discriminate.
  - eexists. vm_compute. reflexivity.
  - reflexivity.
  - apply not_elem_of_nil.
  - by destruct (Consume nonce "GA" "ed25519" "testnet" w_used).
Defined.

Lemma demo_issued :
  IssueWithTTL (H := demo_e) "GA" "ed25519" "testnet" walletNonceTTL w0 = (Ok (nonce, walletNonceTTL), w_issued).
Proof. vm_cast_no_check (eq_refl (@Ok (string * Z) (nonce, walletNonceTTL), w_issued)). Qed.

Lemma nonce_bound_witness :
  fst (Consume (H := demo_e) nonce "GA" "ed25519" "testnet" w_issued) = Ok tt.
Proof.
  assert (env_now (Env := demo_e) (w_io w_issued) < env_now (Env := demo_e) 1 + walletNonceTTL) as Ht
    by (vm_compute; reflexivity).
  destruct (Consume (H := demo_e) nonce "GA" "ed25519" "testnet" w_issued) as [r w2] eqn:Hc.
  apply (nonce_bound (H := demo_e) "GA" "ed25519" "testnet" walletNonceTTL w0 nonce walletNonceTTL w_issued
    "GA" "ed25519" "testnet" r w2 eq_refl eq_refl eq_refl eq_refl demo_issued eq_refl Ht Hc).
  split; [reflexivity|split; reflexivity].
Defined.
End Witnesses.
End WalletNonce.
