(* ===== verification/RateLimit.v ===== *)
(** * The request limiter (internal/middleware/ratelimit.go)

    A fixed window per key: INCR counts the request, and the request that opens
    the window sets its deadline. *)

From S2P Require Export Redis.
From S2P Require Import Instances.

Module RateLimit.

Record RateLimiter := { limit : Z; window : Z }.

(** The bucket of a request: its subject, or the client's address. *)
Definition subjectRateLimitKey (sub clientIP : string) : string :=
  if negb (String.eqb sub "") then "rl:sub:" +:+ sub else "rl:ip:" +:+ clientIP.
Definition sessionActionRateLimitKey (action sub clientIP : string) : string :=
  if negb (String.eqb sub "") then "rl:sess-action:" +:+ action +:+ ":" +:+ sub
  else "rl:ip-action:" +:+ action +:+ ":" +:+ clientIP.
Definition subjectActionRateLimitKey (action sub clientIP : string) : string :=
  if negb (String.eqb sub "") then "rl:sub-action:" +:+ action +:+ ":" +:+ sub
  else "rl:ip-action:" +:+ action +:+ ":" +:+ clientIP.

Section RateLimit.
Context `{Env} (rl : RateLimiter).
Abbreviation W := (World RedisStore).

Definition check (key : string) : M W bool :=
  let! count := redis (INCR key) in
  if count =? 1 then let! _ := redis (EXPIRE key (window rl)) in ret (count <=? limit rl)
  else ret (count <=? limit rl).

(** [newRateLimiter]: whether the request goes on; an error lets it through. *)
Definition admits (key : string) (w : W) : bool * W :=
  let '(r, w') := check key w in
  (match r with Ok allowed => allowed | Err _ => true end, w').

Fixpoint requests (key : string) (k : nat) (w : W) : list bool * W :=
  match k with
  | O => ([], w)
  | S k' => let '(b, w1) := admits key w in
            let '(bs, w2) := requests key k' w1 in (b :: bs, w2)
  end.

(** Counted [n] times in a window that ends at [D]. *)
Definition open_window (key : string) (n D : Z) (d : RedisStore) : Prop :=
  d !! key = Some {| re_value := RCount n; re_deadline := Some D |}.

Lemma INCR_open key n D now (d : RedisStore) :
  open_window key n D d -> now < D -> 0 <= n < 2 ^ 63 - 1 ->
  exists d', INCR key now d = Ok (n + 1, d') /\ open_window key (n + 1) D d'.
Proof using Type.
  unfold open_window, INCR, live, expired_at. intros -> Hn Hb. cbn.
  destruct (Z.leb_spec D now); [lia|]. cbn. destruct (Z.ltb_spec (n + 1) (2 ^ 63)); [|lia].
  eexists. split; [done|]. by rewrite lookup_insert_eq.
Qed.

(** A request in an open window, which already counts at least one. *)
Lemma admits_open key n D w :
  open_window key n D (w_store w) -> 0 < n < 2 ^ 63 - 1 ->
  env_fault (w_io w) = false -> env_now (w_io w) < D ->
  exists w', admits key w = (n + 1 <=? limit rl, w') /\ open_window key (n + 1) D (w_store w') /\ w_io w' = S (w_io w).
Proof using Type.
  intros Ho Hn Hf Ht. destruct (INCR_open key n D _ _ Ho Ht ltac:(lia)) as (d' & Hi & Ho').
  unfold admits, check, bind, redis, exec. rewrite Hf, Hi. destruct (Z.eqb_spec (n + 1) 1); [lia|].
  eexists. split; [reflexivity|]. done.
Qed.

(** The request that opens the window. *)
Lemma admits_first key w :
  live (env_now (w_io w)) key (w_store w) = None -> env_fault (w_io w) = false -> env_fault (S (w_io w)) = false ->
  exists w', admits key w = (1 <=? limit rl, w') /\
    open_window key 1 (env_now (S (w_io w)) + window rl) (w_store w') /\ w_io w' = S (S (w_io w)).
Proof using Type.
  intros Hl Hf Hf'. unfold admits, check, bind, redis at 1, exec at 1. rewrite Hf. unfold INCR. rewrite Hl. cbn.
  unfold redis, exec. cbn. rewrite Hf'. unfold EXPIRE. rewrite live_insert. cbn.
  eexists. split; [reflexivity|]. unfold open_window. cbn. by rewrite lookup_insert_eq.
Qed.

Lemma requests_open key n D k w :
  open_window key n D (w_store w) -> 0 < n -> n + Z.of_nat k < 2 ^ 63 - 1 ->
  (forall i, (w_io w <= i < w_io w + k)%nat -> env_fault i = false /\ env_now i < D) ->
  forall i, (i < k)%nat -> fst (requests key k w) !! i = Some (n + Z.of_nat i + 1 <=? limit rl).
Proof using Type.
  revert n w. induction k as [|k IH]; intros n w Ho Hn Hb He i Hi; [lia|]. cbn.
  destruct (He (w_io w) ltac:(lia)) as [Hf Ht].
  destruct (admits_open key n D w Ho ltac:(lia) Hf Ht) as (w1 & -> & Ho1 & Hio).
  specialize (IH (n + 1) w1 Ho1 ltac:(lia) ltac:(lia)). destruct (requests key k w1) as [bs w2] eqn:Er. cbn in *.
  destruct i as [|i]; cbn; [do 2 f_equal; lia|].
  rewrite IH; [do 2 f_equal; lia| |lia]. intros j Hj. apply He. lia.
Qed.

(** In a window — from the request that opens it, with Redis answering,
    until its deadline — exactly the first [limit] requests of a key go
    through. *)
Theorem limiter_window key k w :
  live (env_now (w_io w)) key (w_store w) = None -> Z.of_nat (S k) < 2 ^ 63 - 1 ->
  (forall i, (w_io w <= i < w_io w + 2 + k)%nat ->
     env_fault i = false /\ env_now i < env_now (S (w_io w)) + window rl) ->
  forall i, (i < S k)%nat -> fst (requests key (S k) w) !! i = Some (Z.of_nat i <? limit rl).
Proof.
  intros Hl Hk He i Hi. cbn. destruct (He (w_io w) ltac:(lia)) as [Hf _], (He (S (w_io w)) ltac:(lia)) as [Hf' _].
  destruct (admits_first key w Hl Hf Hf') as (w1 & -> & Ho & Hio).
  pose proof (requests_open key 1 _ k w1 Ho ltac:(lia) ltac:(lia)) as Hr.
  destruct (requests key k w1) as [bs w2]. cbn in *. destruct i as [|i].
  - cbn [lookup list_lookup]. f_equal. apply eq_true_iff_eq. rewrite Z.leb_le, Z.ltb_lt. lia.
  - cbn. rewrite Hr; [|intros j Hj; apply He; lia|lia]. f_equal.
    apply eq_true_iff_eq. rewrite Z.leb_le, Z.ltb_lt. lia.
Qed.

(** Every counter of a key has a deadline within one window from now. *)
Definition window_bounded (key : string) (now : Z) (d : RedisStore) : Prop :=
  match d !! key with
  | Some e => exists n D, e = {| re_value := RCount n; re_deadline := Some D |} /\ 0 < n /\ D <= now + window rl
  | None => True
  end.

Lemma admits_bounded key w w1 b :
  (forall i, env_fault i = false) -> window_bounded key (env_now (w_io w)) (w_store w) ->
  (forall i j, (i <= j)%nat -> env_now i <= env_now j) ->
  admits key w = (b, w1) -> window_bounded key (env_now (w_io w1)) (w_store w1).
Proof using Type.
  intros Hno Hb Hmono Ha. destruct (live (env_now (w_io w)) key (w_store w)) as [e|] eqn:Hl.
  - unfold window_bounded in Hb. unfold live in Hl. destruct (w_store w !! key) as [e'|] eqn:Ek; [|done].
    destruct Hb as (n & D & -> & Hn & HD). unfold expired_at in Hl. cbn in Hl.
    destruct (Z.leb_spec D (env_now (w_io w))) as [|Ht]; [done|].
    destruct (Z.lt_ge_cases n (2 ^ 63 - 1)) as [Hmax|Hmax].
    + destruct (admits_open key n D w Ek ltac:(lia) (Hno _) Ht) as (w' & E & Ho & Hio).
      rewrite E in Ha. injection Ha as _ <-. unfold window_bounded. rewrite Ho.
      exists (n + 1), D. split_and!; [done|lia|]. pose proof (Hmono (w_io w) (w_io w') ltac:(lia)). lia.
    + unfold admits, check, bind, redis, exec in Ha. rewrite Hno in Ha. unfold INCR, live in Ha. rewrite Ek in Ha.
      unfold expired_at in Ha. cbn in Ha. destruct (Z.leb_spec D (env_now (w_io w))); [lia|]. cbn in Ha.
      destruct (Z.ltb_spec (n + 1) (2 ^ 63)); [lia|]. injection Ha as _ <-. unfold window_bounded. cbn. rewrite Ek.
      exists n, D. split_and!; [done|lia|]. pose proof (Hmono (w_io w) (S (w_io w)) ltac:(lia)). lia.
  - destruct (admits_first key w Hl (Hno _) (Hno _)) as (w' & E & Ho & Hio).
    rewrite E in Ha. injection Ha as _ <-. unfold window_bounded. rewrite Ho.
    eexists _, _. split_and!; [done|lia|]. pose proof (Hmono (S (w_io w)) (w_io w') ltac:(lia)). lia.
Qed.

(** As long as Redis answers, no key stays limited: whatever the traffic, one
    window after any request the next one is admitted again. *)
Theorem limiter_reopens key w w1 b :
  (forall i, env_fault i = false) -> 0 <= window rl -> 1 <= limit rl ->
  window_bounded key (env_now (w_io w)) (w_store w) ->
  (forall i j, (i <= j)%nat -> env_now i <= env_now j) ->
  admits key w = (b, w1) ->
  window_bounded key (env_now (w_io w1)) (w_store w1) /\
  forall w2, w_store w2 = w_store w1 -> env_now (w_io w1) + window rl <= env_now (w_io w2) ->
    exists w3, admits key w2 = (true, w3).
Proof.
  intros Hno Hw Hlim Hb Hmono Ha. pose proof (admits_bounded key w w1 b Hno Hb Hmono Ha) as Hb1. split; [done|].
  intros w2 Hs Ht. destruct (admits_first key w2) as (w3 & E & _); [|done|done|].
  - rewrite Hs. unfold live, window_bounded in *. destruct (w_store w1 !! key) as [e|]; [|done].
    destruct Hb1 as (n & D & -> & _ & HD). unfold expired_at. cbn. by destruct (Z.leb_spec D (env_now (w_io w2))); [|lia].
  - exists w3. rewrite E. by destruct (Z.leb_spec 1 (limit rl)); [|lia].
Qed.

(** A counter without a deadline, at its limit. *)
Definition stuck (key : string) (d : RedisStore) : Prop :=
  exists n, d !! key = Some {| re_value := RCount n; re_deadline := None |} /\ 1 <= n /\ limit rl <= n < 2 ^ 63 - 1.

(** What happens when Redis fails between counting a window's first request
    and setting its deadline: the counter stays without one, and a counter that
    reached the limit that way refuses every later request of the key that Redis
    answers, at any time. *)
Theorem limiter_stuck key w :
  (live (env_now (w_io w)) key (w_store w) = None -> env_fault (w_io w) = false -> env_fault (S (w_io w)) = true ->
   exists w1, admits key w = (true, w1) /\
     w_store w1 !! key = Some {| re_value := RCount 1; re_deadline := None |}) /\
  (stuck key (w_store w) -> env_fault (w_io w) = false ->
   exists w1, admits key w = (false, w1) /\
     forall n, w_store w !! key = Some {| re_value := RCount n; re_deadline := None |} ->
       w_store w1 !! key = Some {| re_value := RCount (n + 1); re_deadline := None |}).
Proof.
  split.
  - intros Hl Hf Hf'. unfold admits, check, bind, redis at 1, exec at 1. rewrite Hf. unfold INCR. rewrite Hl. cbn.
    unfold redis, exec. cbn. rewrite Hf'. eexists. split; [reflexivity|]. cbn. by rewrite lookup_insert_eq.
  - intros (n & Hk & Hn & Hlim) Hf. unfold admits, check, bind, redis, exec. rewrite Hf. unfold INCR, live. rewrite Hk.
    cbn. destruct (Z.ltb_spec (n + 1) (2 ^ 63)); [|lia]. destruct (Z.eqb_spec (n + 1) 1); [lia|]. unfold ret.
    destruct (Z.leb_spec (n + 1) (limit rl)); [lia|].
    eexists. split; [reflexivity|]. intros n' [= <-]. cbn. by rewrite lookup_insert_eq.
Qed.
End RateLimit.

Section Witnesses.
Import Demo.
Definition demo_rl : RateLimiter := {| limit := 2; window := 60 |}.
Definition demo_e : Env := demo_env 1000 100%N no_fault.
(** Every second call to Redis fails. *)
Definition flaky_e : Env := demo_env 1000 100%N Nat.odd.
Definition w0 : World RedisStore := MkWorld ∅ 0.

Lemma limiter_window_witness : fst (requests (H := demo_e) demo_rl "rl:ip:1" 4 w0) !! 2%nat = Some false.
Proof.
  apply (limiter_window (H := demo_e) demo_rl "rl:ip:1" 3 w0); [reflexivity|reflexivity| |lia].
  intros i Hi. split; [reflexivity|]. cbn -[Z.add] in *. lia.
Defined.

Lemma limiter_reopens_witness :
  exists w1, snd (admits (H := demo_e) demo_rl "rl:ip:1" w0) = w1 /\
    exists w3, admits (H := demo_e) demo_rl "rl:ip:1" (MkWorld (w_store w1) 100) = (true, w3).
Proof.
  eexists. split; [reflexivity|].
  destruct (admits (H := demo_e) demo_rl "rl:ip:1" w0) as [b w1] eqn:E.
  assert (w_io w1 = 2%nat) as Hio by (apply (f_equal (fun p => w_io (snd p))) in E; vm_compute in E; by symmetry).
  apply (limiter_reopens (H := demo_e) demo_rl "rl:ip:1" w0 w1 b).
  - intros i. reflexivity.
  - discriminate.
  - discriminate.
  - exact I.
  - intros i j Hij. cbn. lia.
  - exact E.
  - reflexivity.
  - cbn [w_io snd]. rewrite Hio. cbn -[Z.add Z.of_nat Z.le]. lia.
Defined.

Lemma limiter_stuck_witness :
  exists w1, admits (H := flaky_e) demo_rl "rl:ip:1" w0 = (true, w1) /\
    w_store w1 !! "rl:ip:1" = Some {| re_value := RCount 1; re_deadline := None |}.
Proof. apply (limiter_stuck (H := flaky_e) demo_rl "rl:ip:1" w0); reflexivity. Defined.
End Witnesses.
End RateLimit.
