(* ===== verification/Tables.v ===== *)
(** * Tables: rows by primary key, selection, ordering, update and deletion

    A table is a [gmap] from its UUID primary key. [SELECT ... WHERE] without
    an [ORDER BY] returns the rows in an order PostgreSQL does not promise, and
    the theorems never depend on the one chosen here. *)

From S2P Require Export IO.

Section Tables.
Context {R : Type}.
Implicit Types (t : gmap uuid R) (P : R -> bool).

Definition rows t : list R := snd <$> map_to_list t.
Definition select P t : list R := List.filter P (rows t).
(** sqlc's [:one]: the first row, or [sql.ErrNoRows]. *)
Definition select_one P t : res R :=
  match select P t with r :: _ => Ok r | [] => Err ErrNoRows end.
Definition get_by_id (id : uuid) t : res R :=
  match t !! id with Some r => Ok r | None => Err ErrNoRows end.
(** [UPDATE ... SET f WHERE P] *)
Definition update_where P (f : R -> R) t : gmap uuid R := (fun r => if P r then f r else r) <$> t.
Definition delete_where P t : gmap uuid R := filter (fun kv => P kv.2 = false) t.

Definition key_le (key : R -> Z) (a b : R) : Prop := key a <= key b.
Definition key_ge (key : R -> Z) (a b : R) : Prop := key b <= key a.
#[export] Instance key_le_dec key : RelDecision (key_le key).
Proof. intros a b. apply Z_le_dec. Defined.
#[export] Instance key_ge_dec key : RelDecision (key_ge key).
Proof. intros a b. apply Z_le_dec. Defined.
Definition order_by (key : R -> Z) (l : list R) : list R :=
  merge_sort (key_le key) l.
Definition order_by_desc (key : R -> Z) (l : list R) : list R :=
  merge_sort (key_ge key) l.

Lemma elem_of_rows r t : r ∈ rows t <-> exists k, t !! k = Some r.
Proof.
  unfold rows. rewrite list_elem_of_fmap. split.
  - intros ([k r'] & -> & H%elem_of_map_to_list). eauto.
  - intros [k H]. exists (k, r). split; [done|]. by apply elem_of_map_to_list.
Qed.

Lemma elem_of_select r P t : r ∈ select P t <-> P r = true /\ exists k, t !! k = Some r.
Proof.
  unfold select. rewrite <- elem_of_rows, !list_elem_of_In, filter_In. tauto.
Qed.

Lemma select_one_ok P t r :
  select_one P t = Ok r -> P r = true /\ exists k, t !! k = Some r.
Proof.
  unfold select_one. destruct (select P t) as [|r' l] eqn:E; [done|]. intros [= ->].
  apply elem_of_select. rewrite E. left.
Qed.

Lemma select_one_none P t k r :
  select_one P t = Err ErrNoRows -> t !! k = Some r -> P r = false.
Proof.
  unfold select_one. destruct (select P t) as [|r' l] eqn:E; [|done]. intros _ Hk.
  destruct (P r) eqn:EP; [|done].
  assert (r ∈ select P t) as Hin by (apply elem_of_select; eauto).
  rewrite E in Hin. by apply not_elem_of_nil in Hin.
Qed.

(** With at most one matching row, [:one] finds exactly that row. *)
Lemma select_one_unique P t k r :
  t !! k = Some r -> P r = true ->
  (forall k' r', t !! k' = Some r' -> P r' = true -> r' = r) ->
  select_one P t = Ok r.
Proof.
  intros Hk HP Hu. destruct (select_one P t) as [r'|e] eqn:E.
  - apply select_one_ok in E as [HP' [k' Hk']]. by rewrite (Hu _ _ Hk' HP').
  - unfold select_one in E. destruct (select P t) as [|r' l] eqn:E'; [|done].
    injection E as <-. assert (r ∈ select P t) as Hin by (apply elem_of_select; eauto).
    rewrite E' in Hin. by apply not_elem_of_nil in Hin.
Qed.

Lemma get_by_id_ok id t r : get_by_id id t = Ok r <-> t !! id = Some r.
Proof. unfold get_by_id. destruct (t !! id); split; congruence. Qed.

Lemma lookup_update_where P f t k :
  update_where P f t !! k = (fun r => if P r then f r else r) <$> t !! k.
Proof. apply lookup_fmap. Qed.

Lemma lookup_delete_where P t k r :
  delete_where P t !! k = Some r <-> t !! k = Some r /\ P r = false.
Proof. unfold delete_where. by rewrite map_lookup_filter_Some. Qed.

Lemma order_by_perm key l : order_by key l ≡ₚ l.
Proof. apply merge_sort_Permutation. Qed.

Lemma elem_of_order_by r key l : r ∈ order_by key l <-> r ∈ l.
Proof. by rewrite order_by_perm. Qed.

Lemma length_order_by key l : length (order_by key l) = length l.
Proof. by rewrite order_by_perm. Qed.

Lemma order_by_desc_perm key l : order_by_desc key l ≡ₚ l.
Proof. apply merge_sort_Permutation. Qed.

(** The first row of a descending order is a greatest one. *)
Lemma order_by_desc_head key l c l' :
  order_by_desc key l = c :: l' -> c ∈ l /\ forall x, x ∈ l -> key x <= key c.
Proof.
  intros E. pose proof (order_by_desc_perm key l) as Hp. rewrite E in Hp.
  split; [rewrite <- Hp; left|]. intros x Hx. rewrite <- Hp in Hx. apply elem_of_cons in Hx as [->|Hx]; [done|].
  assert (Sorted (key_ge key) (c :: l')) as Hs.
  { rewrite <- E. apply Sorted_merge_sort. intros a b. unfold key_ge. lia. }
  apply Sorted_StronglySorted in Hs; [|intros a b z; unfold key_ge; lia].
  apply StronglySorted_inv in Hs as [_ Hf]. rewrite Forall_forall in Hf. exact (Hf x Hx).
Qed.

(** Rows of a table are pairwise distinct as soon as they carry their key. *)
Lemma NoDup_rows_key (key : R -> uuid) t :
  (forall k r, t !! k = Some r -> key r = k) -> NoDup (key <$> rows t).
Proof.
  intros Hkey. unfold rows. rewrite <- list_fmap_compose.
  replace ((key ∘ snd) <$> map_to_list t) with ((fst <$> map_to_list t)).
  { apply NoDup_fst_map_to_list. }
  apply list_fmap_ext. intros i [k r] Hi. cbn. symmetry. apply Hkey.
  apply elem_of_map_to_list. by eapply list_elem_of_lookup_2.
Qed.
End Tables.

Lemma filter_fmap_sublist {A B} (f : A -> B) (p : A -> bool) (l : list A) :
  (f <$> List.filter p l) `sublist_of` (f <$> l).
Proof.
  induction l as [|x l IH]; cbn; [constructor|].
  destruct (p x); cbn; constructor; exact IH.
Qed.

Lemma NoDup_select_key {R} (key : R -> uuid) (P : R -> bool) (t : gmap uuid R) :
  (forall k r, t !! k = Some r -> key r = k) -> NoDup (key <$> select P t).
Proof.
  intros Hkey. eapply sublist_NoDup; [apply (NoDup_rows_key key t Hkey)|].
  apply filter_fmap_sublist.
Qed.

Lemma rows_insert {R} (t : gmap uuid R) k (r : R) :
  t !! k = None -> rows (<[k := r]> t) ≡ₚ r :: rows t.
Proof. intros Hk. unfold rows. by rewrite map_to_list_insert. Qed.

Lemma filter_perm {A} (p : A -> bool) (l l' : list A) : l ≡ₚ l' -> List.filter p l ≡ₚ List.filter p l'.
Proof.
  induction 1 as [|x l l' _ IH|x y l|l1 l2 l3 _ IH1 _ IH2]; cbn; [done| | |by etrans].
  - destruct (p x); by rewrite IH.
  - destruct (p x), (p y); try done. by constructor.
Qed.

Lemma select_insert {R} (P : R -> bool) (t : gmap uuid R) k (r : R) :
  t !! k = None -> select P (<[k := r]> t) ≡ₚ (if P r then [r] else []) ++ select P t.
Proof.
  intros Hk. unfold select. rewrite (filter_perm P _ _ (rows_insert t k r Hk)). cbn.
  by destruct (P r).
Qed.

Lemma select_none {R} (P : R -> bool) (t : gmap uuid R) :
  (forall k r, t !! k = Some r -> P r = false) -> select P t = [].
Proof.
  intros Hn. destruct (select P t) as [|r l] eqn:E; [done|]. exfalso.
  assert (r ∈ select P t) as [Hp [k Hk]]%elem_of_select by (rewrite E; left).
  by rewrite (Hn k r Hk) in Hp.
Qed.

(** ** Nullable columns (internal/service/webapp/multisig_util.go) *)
Definition nullStr (s : string) : option string := if String.eqb s "" then None else Some s.
Definition strOrEmpty (n : option string) : string := default "" n.
Definition nullInt64Ptr (n : option Z) : option Z := n.
Definition nullUUID `{UuidLib} (s : string) : option uuid :=
  if String.eqb s "" then None else uuid_parse s.
Definition uuidOrEmpty `{UuidLib} (n : option uuid) : string :=
  match n with Some u => uuid_string u | None => "" end.

Lemma strOrEmpty_nullStr s : strOrEmpty (nullStr s) = s.
Proof. unfold nullStr. by destruct (String.eqb_spec s ""). Qed.
