(* ===== verification/WebStore.v ===== *)
(** * The webapp schema: rows and the statements of internal/db/generated

    One field per table the multisig and session services use. A statement is a
    function on the store: the primary-key, unique-index and foreign-key checks
    PostgreSQL makes are written out, with [ON CONFLICT] and [ON DELETE CASCADE]
    as the migrations declare them. *)

From S2P Require Export Tables Stellar.

Record WebappSession := {
  ss_ID : uuid; ss_UserID : uuid; ss_CreatedAt : Z; ss_ExpiresAt : Z }.

(** [device_type] is written as NULL and never read. *)
Record WebauthnCredential := {
  wc_ID : uuid; wc_UserID : uuid; wc_CredentialID : string; wc_CredentialIDBytes : string;
  wc_CosePublicKey : string; wc_P256RawPublicKey : string; wc_SignCount : Z;
  wc_Transports : option string; wc_BackedUp : Z; wc_CreatedAt : Z }.

Record WebauthnChallenge := {
  ch_ID : uuid; ch_UserID : option uuid; ch_Purpose : string; ch_Challenge : string;
  ch_RpID : string; ch_Origin : string; ch_ExpiresAt : Z; ch_CreatedAt : Z }.

Record MultisigAccount := {
  ma_ID : uuid; ma_UserID : uuid; ma_SmartAccountAddress : string;
  ma_Threshold : Z; ma_AccountSaltHex : string; ma_CreatedAt : Z }.

Record MultisigMember := {
  mm_ID : uuid; mm_MultisigAccountID : uuid; mm_MemberType : string;
  mm_Label : option string; mm_KeyDataHex : option string;
  mm_CredentialID : option string; mm_GAddress : option string;
  mm_CreatedAt : Z; mm_UserID : option uuid }.

Record MultisigDraft := {
  md_ID : uuid; md_CreatorUserID : uuid; md_Threshold : Z; md_AccountSaltHex : string;
  md_InviteToken : string; md_Status : string; md_PredictedAddress : option string;
  md_SmartAccountAddress : option string; md_CreatedAt : Z; md_ExpiresAt : option Z }.

Record MultisigDraftMember := {
  dm_ID : uuid; dm_DraftID : uuid; dm_Label : string; dm_MemberType : string;
  dm_GAddress : option string; dm_KeyDataHex : option string;
  dm_CredentialID : option string; dm_PublicKeyHex : option string;
  dm_Source : string; dm_CreatedAt : Z; dm_UserID : option uuid }.

Record MultisigProposal := {
  mp_ID : uuid; mp_MultisigAccountID : uuid; mp_CreatedByUserID : uuid;
  mp_TargetContractID : string; mp_OperationKind : string; mp_OperationParamsJson : string;
  mp_TxXdr : string; mp_AuthEntriesXdrJson : string; mp_SmartAccountAuthEntryIndex : Z;
  mp_ContextRuleID : Z; mp_AuthDigestHex : string; mp_SignaturePayloadHex : string;
  mp_ValidUntilLedger : Z; mp_Status : string; mp_ExecutedTxHash : option string;
  mp_CreatedAt : Z }.

Record MultisigApprovalRow := {
  mv_ID : uuid; mv_ProposalID : uuid; mv_MemberID : uuid; mv_ApprovalType : string;
  mv_WebauthnSigDataXdrHex : option string; mv_DelegatedEntryTemplateXdr : option string;
  mv_DelegatedSignedAuthEntryBase64 : option string; mv_DelegatedSignerAddress : option string;
  mv_CreatedAt : Z }.

Record WebappSmartAccount := {
  sa_ID : uuid; sa_UserID : uuid; sa_CredentialID : string; sa_KeyDataHex : string; sa_SaltHex : string;
  sa_SmartAccountAddress : string; sa_Deployed : Z; sa_CreatedAt : Z }.

Record WebappAccountSigner := {
  as_ID : uuid; as_SmartAccountAddress : string; as_SignerType : string; as_CredentialID : option string;
  as_Label : option string; as_CreatedAt : Z; as_SignerID : option Z; as_ContextRuleID : option Z }.

(** Keyed by [credential_id], its unique column; the id and the two time stamps
    are never read. *)
Record PasskeyCredentialRow := {
  pc_CredentialID : string; pc_KeyDataHex : string; pc_SmartAccountAddress : string;
  pc_Label : string; pc_Seq : Z }.

(** gasless_service.go: one transaction handed to the gasless service. *)
Record GaslessSubmission := {
  gs_RequestID : string; gs_Wallet : string; gs_Mode : string; gs_Transaction : string }.

(** What leaves the services for the network: a submission to the gasless
    service, or a signed envelope sent to the RPC. *)
Inductive ChainWrite :=
  | GaslessSend (sub : GaslessSubmission)
  | RpcSend (envelope : string).

(** [chain] is not a table: it records, in order, the requests that left the
    service, so that theorems can say what was or was not sent. No statement
    reads it. *)
Record Store := MkStore {
  users : gmap uuid Z;
  sessions : gmap uuid WebappSession;
  proved : gmap (uuid * string) Z;
  credentials : gmap uuid WebauthnCredential;
  challenges : gmap uuid WebauthnChallenge;
  accounts : gmap uuid MultisigAccount;
  members : gmap uuid MultisigMember;
  drafts : gmap uuid MultisigDraft;
  draft_members : gmap uuid MultisigDraftMember;
  proposals : gmap uuid MultisigProposal;
  approvals : gmap uuid MultisigApprovalRow;
  smart_accounts : gmap uuid WebappSmartAccount;
  account_signers : gmap uuid WebappAccountSigner;
  passkey_index : gmap string PasskeyCredentialRow;
  chain : list ChainWrite;
}.

Definition empty_store : Store := MkStore ∅ ∅ ∅ ∅ ∅ ∅ ∅ ∅ ∅ ∅ ∅ ∅ ∅ ∅ [].

Definition set_users x d := MkStore x (sessions d) (proved d) (credentials d) (challenges d) (accounts d) (members d) (drafts d) (draft_members d) (proposals d) (approvals d) (smart_accounts d) (account_signers d) (passkey_index d) (chain d).
Definition set_sessions x d := MkStore (users d) x (proved d) (credentials d) (challenges d) (accounts d) (members d) (drafts d) (draft_members d) (proposals d) (approvals d) (smart_accounts d) (account_signers d) (passkey_index d) (chain d).
Definition set_proved x d := MkStore (users d) (sessions d) x (credentials d) (challenges d) (accounts d) (members d) (drafts d) (draft_members d) (proposals d) (approvals d) (smart_accounts d) (account_signers d) (passkey_index d) (chain d).
Definition set_credentials x d := MkStore (users d) (sessions d) (proved d) x (challenges d) (accounts d) (members d) (drafts d) (draft_members d) (proposals d) (approvals d) (smart_accounts d) (account_signers d) (passkey_index d) (chain d).
Definition set_challenges x d := MkStore (users d) (sessions d) (proved d) (credentials d) x (accounts d) (members d) (drafts d) (draft_members d) (proposals d) (approvals d) (smart_accounts d) (account_signers d) (passkey_index d) (chain d).
Definition set_accounts x d := MkStore (users d) (sessions d) (proved d) (credentials d) (challenges d) x (members d) (drafts d) (draft_members d) (proposals d) (approvals d) (smart_accounts d) (account_signers d) (passkey_index d) (chain d).
Definition set_members x d := MkStore (users d) (sessions d) (proved d) (credentials d) (challenges d) (accounts d) x (drafts d) (draft_members d) (proposals d) (approvals d) (smart_accounts d) (account_signers d) (passkey_index d) (chain d).
Definition set_drafts x d := MkStore (users d) (sessions d) (proved d) (credentials d) (challenges d) (accounts d) (members d) x (draft_members d) (proposals d) (approvals d) (smart_accounts d) (account_signers d) (passkey_index d) (chain d).
Definition set_draft_members x d := MkStore (users d) (sessions d) (proved d) (credentials d) (challenges d) (accounts d) (members d) (drafts d) x (proposals d) (approvals d) (smart_accounts d) (account_signers d) (passkey_index d) (chain d).
Definition set_proposals x d := MkStore (users d) (sessions d) (proved d) (credentials d) (challenges d) (accounts d) (members d) (drafts d) (draft_members d) x (approvals d) (smart_accounts d) (account_signers d) (passkey_index d) (chain d).
Definition set_approvals x d := MkStore (users d) (sessions d) (proved d) (credentials d) (challenges d) (accounts d) (members d) (drafts d) (draft_members d) (proposals d) x (smart_accounts d) (account_signers d) (passkey_index d) (chain d).
Definition set_smart_accounts x d := MkStore (users d) (sessions d) (proved d) (credentials d) (challenges d) (accounts d) (members d) (drafts d) (draft_members d) (proposals d) (approvals d) x (account_signers d) (passkey_index d) (chain d).
Definition set_account_signers x d := MkStore (users d) (sessions d) (proved d) (credentials d) (challenges d) (accounts d) (members d) (drafts d) (draft_members d) (proposals d) (approvals d) (smart_accounts d) x (passkey_index d) (chain d).
Definition set_passkey_index x d := MkStore (users d) (sessions d) (proved d) (credentials d) (challenges d) (accounts d) (members d) (drafts d) (draft_members d) (proposals d) (approvals d) (smart_accounts d) (account_signers d) x (chain d).
Definition set_chain x d := MkStore (users d) (sessions d) (proved d) (credentials d) (challenges d) (accounts d) (members d) (drafts d) (draft_members d) (proposals d) (approvals d) (smart_accounts d) (account_signers d) (passkey_index d) x.

Definition present {R} (t : gmap uuid R) (id : uuid) : bool :=
  match t !! id with Some _ => true | None => false end.
Definition present_opt {R} (t : gmap uuid R) (id : option uuid) : bool :=
  match id with Some u => present t u | None => true end.
Definition opt_eqb (a b : option string) : bool := bool_decide (a = b).

(** ** webapp_users.sql.go, webapp_sessions.sql.go, webapp_session_proved_credentials.sql.go *)
Definition InsertWebappUser (id : uuid) (createdAt : Z) (d : Store) : res (unit * Store) :=
  if present (users d) id then Err ErrUnique
  else Ok (tt, set_users (<[id := createdAt]> (users d)) d).

Definition GetWebappSession (id : uuid) (d : Store) : res WebappSession := get_by_id id (sessions d).

Definition InsertWebappSession (row : WebappSession) (d : Store) : res (unit * Store) :=
  if present (sessions d) (ss_ID row) then Err ErrUnique
  else if negb (present (users d) (ss_UserID row)) then Err ErrForeignKey
  else Ok (tt, set_sessions (<[ss_ID row := row]> (sessions d)) d).

Definition SlideWebappSessionExpiry (id : uuid) (expiresAt : Z) (d : Store) : res (unit * Store) :=
  Ok (tt, set_sessions
            (alter (fun s => {| ss_ID := ss_ID s; ss_UserID := ss_UserID s;
                                ss_CreatedAt := ss_CreatedAt s; ss_ExpiresAt := expiresAt |})
                   id (sessions d)) d).

Definition InsertSessionProvedCredential (sid : uuid) (cred : string) (provedAt : Z) (d : Store)
    : res (unit * Store) :=
  if negb (present (sessions d) sid) then Err ErrForeignKey
  else Ok (tt, set_proved (<[(sid, cred) := provedAt]> (proved d)) d).

Definition DeleteSessionProvedCredentialsExcept (sid : uuid) (cred : string) (d : Store)
    : res (unit * Store) :=
  Ok (tt, set_proved (filter (fun kv => ~ (kv.1.1 = sid /\ kv.1.2 <> cred)) (proved d)) d).

Definition ListSessionProvedCredentials (sid : uuid) (d : Store) : res (list string) :=
  Ok ((fun kv => kv.1.2) <$> List.filter (fun kv => bool_decide (kv.1.1 = sid)) (map_to_list (proved d))).

Definition SessionHasProvedCredential (sid : uuid) (cred : string) (d : Store) : res bool :=
  Ok (match proved d !! (sid, cred) with Some _ => true | None => false end).

Definition ListWebauthnCredentialsForUser (uid : uuid) (d : Store) : res (list WebauthnCredential) :=
  Ok (order_by_desc wc_CreatedAt (select (fun c => bool_decide (wc_UserID c = uid)) (credentials d))).

(** ** webapp_multisig_accounts.sql.go *)
Definition UpsertMultisigAccount (row : MultisigAccount) (d : Store) : res (uuid * Store) :=
  match select_one (fun a => String.eqb (ma_SmartAccountAddress a) (ma_SmartAccountAddress row)) (accounts d) with
  | Ok old =>
      Ok (ma_ID old,
          set_accounts (<[ma_ID old :=
            {| ma_ID := ma_ID old; ma_UserID := ma_UserID old;
               ma_SmartAccountAddress := ma_SmartAccountAddress old;
               ma_Threshold := ma_Threshold row; ma_AccountSaltHex := ma_AccountSaltHex row;
               ma_CreatedAt := ma_CreatedAt old |}]> (accounts d)) d)
  | Err _ =>
      if present (accounts d) (ma_ID row) then Err ErrUnique
      else if negb (present (users d) (ma_UserID row)) then Err ErrForeignKey
      else Ok (ma_ID row, set_accounts (<[ma_ID row := row]> (accounts d)) d)
  end.

Definition GetMultisigAccountByAddress (address : string) (d : Store) : res MultisigAccount :=
  select_one (fun a => String.eqb (ma_SmartAccountAddress a) address) (accounts d).

Definition GetMultisigAccountByID (id : uuid) (d : Store) : res MultisigAccount :=
  get_by_id id (accounts d).

Definition GetMultisigMemberByID (id : uuid) (d : Store) : res MultisigMember :=
  get_by_id id (members d).

Definition ListMultisigMembersForAccount (id : uuid) (d : Store) : res (list MultisigMember) :=
  Ok (order_by mm_CreatedAt (select (fun m => bool_decide (mm_MultisigAccountID m = id)) (members d))).

Definition proposal_count (id : uuid) (d : Store) : Z :=
  Z.of_nat (length (select (fun p => bool_decide (mp_MultisigAccountID p = id)) (proposals d))).

Definition ListMultisigAccountsWithProposalCountForUser (uid : uuid) (d : Store)
    : res (list (MultisigAccount * Z)) :=
  Ok ((fun a => (a, proposal_count (ma_ID a) d)) <$>
      order_by_desc ma_CreatedAt
        (select (fun a => existsb (fun m => bool_decide (mm_MultisigAccountID m = ma_ID a)
                                            && bool_decide (mm_UserID m = Some uid)) (rows (members d)))
                (accounts d))).

Definition set_member_user (u : option uuid) (m : MultisigMember) : MultisigMember :=
  {| mm_ID := mm_ID m; mm_MultisigAccountID := mm_MultisigAccountID m;
     mm_MemberType := mm_MemberType m; mm_Label := mm_Label m; mm_KeyDataHex := mm_KeyDataHex m;
     mm_CredentialID := mm_CredentialID m; mm_GAddress := mm_GAddress m;
     mm_CreatedAt := mm_CreatedAt m; mm_UserID := u |}.

Definition RelinkMultisigMembersByCredential (uid : uuid) (cred : string) (d : Store) : res (unit * Store) :=
  Ok (tt, set_members (update_where (fun m => opt_eqb (mm_CredentialID m) (Some cred)
                                              && negb (bool_decide (mm_UserID m = Some uid)))
                                    (set_member_user (Some uid)) (members d)) d).

(** Deleting a member row deletes its approvals (migration 000015). *)
Definition DeleteMultisigMembersForAccount (id : uuid) (d : Store) : res (unit * Store) :=
  let gone m := bool_decide (mm_MultisigAccountID m = id) in
  Ok (tt, set_approvals
            (delete_where (fun a => match members d !! mv_MemberID a with
                                    | Some m => gone m | None => false end) (approvals d))
            (set_members (delete_where gone (members d)) d)).

(** The unique indexes of migration 000019. *)
Definition same_credential (row m : MultisigMember) : bool :=
  bool_decide (mm_MultisigAccountID m = mm_MultisigAccountID row) &&
  match mm_CredentialID row with Some c => opt_eqb (mm_CredentialID m) (Some c) | None => false end.
Definition same_gaddress (row m : MultisigMember) : bool :=
  bool_decide (mm_MultisigAccountID m = mm_MultisigAccountID row) &&
  match mm_GAddress row with Some g => opt_eqb (mm_GAddress m) (Some g) | None => false end.
Definition exists_row {R} (P : R -> bool) (t : gmap uuid R) : bool := existsb P (rows t).

Definition member_fks (row : MultisigMember) (d : Store) : bool :=
  present (accounts d) (mm_MultisigAccountID row) && present_opt (users d) (mm_UserID row).

Definition InsertMultisigMember (row : MultisigMember) (d : Store) : res (unit * Store) :=
  if present (members d) (mm_ID row) then Err ErrUnique
  else if exists_row (same_credential row) (members d) then Err ErrUnique
  else if exists_row (same_gaddress row) (members d) then Err ErrUnique
  else if negb (member_fks row d) then Err ErrForeignKey
  else Ok (tt, set_members (<[mm_ID row := row]> (members d)) d).

Definition coalesce {A} (a b : option A) : option A := match a with Some _ => a | None => b end.

Definition UpsertMultisigMemberByCredential (row : MultisigMember) (d : Store) : res (uuid * Store) :=
  match select_one (same_credential row) (members d) with
  | Ok old =>
      if negb (present_opt (users d) (mm_UserID row)) then Err ErrForeignKey else
      Ok (mm_ID old, set_members (<[mm_ID old :=
        {| mm_ID := mm_ID old; mm_MultisigAccountID := mm_MultisigAccountID old;
           mm_MemberType := mm_MemberType row; mm_Label := mm_Label row;
           mm_KeyDataHex := mm_KeyDataHex row; mm_CredentialID := mm_CredentialID old;
           mm_GAddress := mm_GAddress old; mm_CreatedAt := mm_CreatedAt old;
           mm_UserID := coalesce (mm_UserID row) (mm_UserID old) |}]> (members d)) d)
  | Err _ =>
      if present (members d) (mm_ID row) then Err ErrUnique
      else if exists_row (same_gaddress row) (members d) then Err ErrUnique
      else if negb (member_fks row d) then Err ErrForeignKey
      else Ok (mm_ID row, set_members (<[mm_ID row := row]> (members d)) d)
  end.

Definition UpsertMultisigMemberByGAddress (row : MultisigMember) (d : Store) : res (uuid * Store) :=
  match select_one (same_gaddress row) (members d) with
  | Ok old =>
      if negb (present_opt (users d) (mm_UserID row)) then Err ErrForeignKey else
      Ok (mm_ID old, set_members (<[mm_ID old :=
        {| mm_ID := mm_ID old; mm_MultisigAccountID := mm_MultisigAccountID old;
           mm_MemberType := mm_MemberType row; mm_Label := mm_Label row;
           mm_KeyDataHex := mm_KeyDataHex old; mm_CredentialID := mm_CredentialID old;
           mm_GAddress := mm_GAddress old; mm_CreatedAt := mm_CreatedAt old;
           mm_UserID := coalesce (mm_UserID row) (mm_UserID old) |}]> (members d)) d)
  | Err _ =>
      if present (members d) (mm_ID row) then Err ErrUnique
      else if exists_row (same_credential row) (members d) then Err ErrUnique
      else if negb (member_fks row d) then Err ErrForeignKey
      else Ok (mm_ID row, set_members (<[mm_ID row := row]> (members d)) d)
  end.

(** ** webapp_multisig_drafts.sql.go *)
Definition InsertMultisigDraft (row : MultisigDraft) (d : Store) : res (uuid * Store) :=
  if present (drafts d) (md_ID row) then Err ErrUnique
  else if exists_row (fun r => String.eqb (md_InviteToken r) (md_InviteToken row)) (drafts d) then Err ErrUnique
  else if negb (present (users d) (md_CreatorUserID row)) then Err ErrForeignKey
  else Ok (md_ID row, set_drafts (<[md_ID row := row]> (drafts d)) d).

Definition GetMultisigDraftByIDForCreator (id creator : uuid) (d : Store) : res MultisigDraft :=
  match drafts d !! id with
  | Some r => if bool_decide (md_CreatorUserID r = creator) then Ok r else Err ErrNoRows
  | None => Err ErrNoRows
  end.

Definition GetActiveMultisigDraftForUser (creator : uuid) (d : Store) : res MultisigDraft :=
  match order_by_desc md_CreatedAt
          (select (fun r => bool_decide (md_CreatorUserID r = creator)
                            && String.eqb (md_Status r) "collecting") (drafts d)) with
  | r :: _ => Ok r
  | [] => Err ErrNoRows
  end.

Definition GetMultisigDraftByInviteToken (token : string) (d : Store) : res MultisigDraft :=
  select_one (fun r => String.eqb (md_InviteToken r) token) (drafts d).

Definition draft_with_threshold (t : Z) (r : MultisigDraft) : MultisigDraft :=
  {| md_ID := md_ID r; md_CreatorUserID := md_CreatorUserID r; md_Threshold := t;
     md_AccountSaltHex := md_AccountSaltHex r; md_InviteToken := md_InviteToken r;
     md_Status := md_Status r; md_PredictedAddress := md_PredictedAddress r;
     md_SmartAccountAddress := md_SmartAccountAddress r; md_CreatedAt := md_CreatedAt r;
     md_ExpiresAt := md_ExpiresAt r |}.
Definition draft_with_predicted (a : option string) (r : MultisigDraft) : MultisigDraft :=
  {| md_ID := md_ID r; md_CreatorUserID := md_CreatorUserID r; md_Threshold := md_Threshold r;
     md_AccountSaltHex := md_AccountSaltHex r; md_InviteToken := md_InviteToken r;
     md_Status := md_Status r; md_PredictedAddress := a;
     md_SmartAccountAddress := md_SmartAccountAddress r; md_CreatedAt := md_CreatedAt r;
     md_ExpiresAt := md_ExpiresAt r |}.
Definition draft_deployed (addr predicted : option string) (r : MultisigDraft) : MultisigDraft :=
  {| md_ID := md_ID r; md_CreatorUserID := md_CreatorUserID r; md_Threshold := md_Threshold r;
     md_AccountSaltHex := md_AccountSaltHex r; md_InviteToken := md_InviteToken r;
     md_Status := "deployed"; md_PredictedAddress := predicted;
     md_SmartAccountAddress := addr; md_CreatedAt := md_CreatedAt r;
     md_ExpiresAt := md_ExpiresAt r |}.

Definition UpdateMultisigDraftThreshold (id : uuid) (t : Z) (d : Store) : res (unit * Store) :=
  Ok (tt, set_drafts (alter (draft_with_threshold t) id (drafts d)) d).
Definition UpdateMultisigDraftPredictedAddress (id : uuid) (a : option string) (d : Store)
    : res (unit * Store) :=
  Ok (tt, set_drafts (alter (draft_with_predicted a) id (drafts d)) d).
Definition UpdateMultisigDraftDeployed (id : uuid) (addr predicted : option string) (d : Store)
    : res (unit * Store) :=
  Ok (tt, set_drafts (alter (draft_deployed addr predicted) id (drafts d)) d).

Definition InsertMultisigDraftMember (row : MultisigDraftMember) (d : Store) : res (uuid * Store) :=
  if present (draft_members d) (dm_ID row) then Err ErrUnique
  else if negb (present (drafts d) (dm_DraftID row)) then Err ErrForeignKey
  else if negb (present_opt (users d) (dm_UserID row)) then Err ErrForeignKey
  else Ok (dm_ID row, set_draft_members (<[dm_ID row := row]> (draft_members d)) d).

Definition DeleteMultisigDraftMember (id draftID : uuid) (d : Store) : res (unit * Store) :=
  Ok (tt, set_draft_members
            (delete_where (fun m => bool_decide (dm_ID m = id) && bool_decide (dm_DraftID m = draftID))
                          (draft_members d)) d).

Definition draft_member_rows (draftID : uuid) (d : Store) : list MultisigDraftMember :=
  order_by dm_CreatedAt (select (fun m => bool_decide (dm_DraftID m = draftID)) (draft_members d)).
Definition ListMultisigDraftMembersForDraft (draftID : uuid) (d : Store) : res (list MultisigDraftMember) :=
  Ok (draft_member_rows draftID d).

(** ** webapp_multisig_proposals.sql.go *)
Definition InsertMultisigProposal (row : MultisigProposal) (d : Store) : res (uuid * Store) :=
  if present (proposals d) (mp_ID row) then Err ErrUnique
  else if negb (present (accounts d) (mp_MultisigAccountID row)) then Err ErrForeignKey
  else if negb (present (users d) (mp_CreatedByUserID row)) then Err ErrForeignKey
  else Ok (mp_ID row, set_proposals (<[mp_ID row := row]> (proposals d)) d).

Definition GetMultisigProposalByID (id : uuid) (d : Store) : res MultisigProposal :=
  get_by_id id (proposals d).

Definition approval_count (id : uuid) (d : Store) : Z :=
  Z.of_nat (length (select (fun a => bool_decide (mv_ProposalID a = id)) (approvals d))).

Definition ListMultisigProposalsWithApprovalCountForAccount (acct : uuid) (d : Store)
    : res (list (MultisigProposal * Z)) :=
  Ok ((fun p => (p, approval_count (mp_ID p) d)) <$>
      order_by_desc mp_CreatedAt
        (select (fun p => bool_decide (mp_MultisigAccountID p = acct)) (proposals d))).

(** The columns [UpdateMultisigProposalRebuild] overwrites. *)
Record RebuildParams := {
  rb_TxXdr : string; rb_AuthEntriesXdrJson : string; rb_SmartAccountAuthEntryIndex : Z;
  rb_ContextRuleID : Z; rb_AuthDigestHex : string; rb_SignaturePayloadHex : string;
  rb_ValidUntilLedger : Z }.

Definition proposal_rebuilt (b : RebuildParams) (p : MultisigProposal) : MultisigProposal :=
  {| mp_ID := mp_ID p; mp_MultisigAccountID := mp_MultisigAccountID p;
     mp_CreatedByUserID := mp_CreatedByUserID p; mp_TargetContractID := mp_TargetContractID p;
     mp_OperationKind := mp_OperationKind p; mp_OperationParamsJson := mp_OperationParamsJson p;
     mp_TxXdr := rb_TxXdr b; mp_AuthEntriesXdrJson := rb_AuthEntriesXdrJson b;
     mp_SmartAccountAuthEntryIndex := rb_SmartAccountAuthEntryIndex b;
     mp_ContextRuleID := rb_ContextRuleID b; mp_AuthDigestHex := rb_AuthDigestHex b;
     mp_SignaturePayloadHex := rb_SignaturePayloadHex b;
     mp_ValidUntilLedger := rb_ValidUntilLedger b; mp_Status := mp_Status p;
     mp_ExecutedTxHash := mp_ExecutedTxHash p; mp_CreatedAt := mp_CreatedAt p |}.

Definition proposal_executed (hash : option string) (p : MultisigProposal) : MultisigProposal :=
  {| mp_ID := mp_ID p; mp_MultisigAccountID := mp_MultisigAccountID p;
     mp_CreatedByUserID := mp_CreatedByUserID p; mp_TargetContractID := mp_TargetContractID p;
     mp_OperationKind := mp_OperationKind p; mp_OperationParamsJson := mp_OperationParamsJson p;
     mp_TxXdr := mp_TxXdr p; mp_AuthEntriesXdrJson := mp_AuthEntriesXdrJson p;
     mp_SmartAccountAuthEntryIndex := mp_SmartAccountAuthEntryIndex p;
     mp_ContextRuleID := mp_ContextRuleID p; mp_AuthDigestHex := mp_AuthDigestHex p;
     mp_SignaturePayloadHex := mp_SignaturePayloadHex p;
     mp_ValidUntilLedger := mp_ValidUntilLedger p; mp_Status := "executed";
     mp_ExecutedTxHash := hash; mp_CreatedAt := mp_CreatedAt p |}.

Definition UpdateMultisigProposalRebuild (id : uuid) (b : RebuildParams) (d : Store) : res (unit * Store) :=
  Ok (tt, set_proposals (alter (proposal_rebuilt b) id (proposals d)) d).
Definition UpdateMultisigProposalExecuted (id : uuid) (hash : option string) (d : Store)
    : res (unit * Store) :=
  Ok (tt, set_proposals (alter (proposal_executed hash) id (proposals d)) d).

Definition for_proposal (id : uuid) (a : MultisigApprovalRow) : bool := bool_decide (mv_ProposalID a = id).
Definition for_proposal_member (id mid : uuid) (a : MultisigApprovalRow) : bool :=
  bool_decide (mv_ProposalID a = id) && bool_decide (mv_MemberID a = mid).

Definition DeleteMultisigApprovalsForProposal (id : uuid) (d : Store) : res (unit * Store) :=
  Ok (tt, set_approvals (delete_where (for_proposal id) (approvals d)) d).

Definition approval_fks (row : MultisigApprovalRow) (d : Store) : bool :=
  present (proposals d) (mv_ProposalID row) && present (members d) (mv_MemberID row).

(** [ON CONFLICT (proposal_id, member_id)]: [merge] combines old and new. *)
Definition upsert_approval (merge : MultisigApprovalRow -> MultisigApprovalRow)
    (row : MultisigApprovalRow) (d : Store) : res (uuid * Store) :=
  match select_one (for_proposal_member (mv_ProposalID row) (mv_MemberID row)) (approvals d) with
  | Ok old => Ok (mv_ID old, set_approvals (<[mv_ID old := merge old]> (approvals d)) d)
  | Err _ =>
      if present (approvals d) (mv_ID row) then Err ErrUnique
      else if negb (approval_fks row d) then Err ErrForeignKey
      else Ok (mv_ID row, set_approvals (<[mv_ID row := row]> (approvals d)) d)
  end.

Definition UpsertMultisigApprovalWebauthn (id pid mid : uuid) (sig : option string) (now : Z) (d : Store)
    : res (uuid * Store) :=
  upsert_approval
    (fun o => {| mv_ID := mv_ID o; mv_ProposalID := mv_ProposalID o; mv_MemberID := mv_MemberID o;
                 mv_ApprovalType := "webauthn"; mv_WebauthnSigDataXdrHex := sig;
                 mv_DelegatedEntryTemplateXdr := mv_DelegatedEntryTemplateXdr o;
                 mv_DelegatedSignedAuthEntryBase64 := mv_DelegatedSignedAuthEntryBase64 o;
                 mv_DelegatedSignerAddress := mv_DelegatedSignerAddress o;
                 mv_CreatedAt := mv_CreatedAt o |})
    {| mv_ID := id; mv_ProposalID := pid; mv_MemberID := mid; mv_ApprovalType := "webauthn";
       mv_WebauthnSigDataXdrHex := sig; mv_DelegatedEntryTemplateXdr := None;
       mv_DelegatedSignedAuthEntryBase64 := None; mv_DelegatedSignerAddress := None;
       mv_CreatedAt := now |} d.

Definition UpsertMultisigApprovalDelegatedBegin (id pid mid : uuid) (template signer : option string)
    (now : Z) (d : Store) : res (uuid * Store) :=
  upsert_approval
    (fun o => {| mv_ID := mv_ID o; mv_ProposalID := mv_ProposalID o; mv_MemberID := mv_MemberID o;
                 mv_ApprovalType := "delegated";
                 mv_WebauthnSigDataXdrHex := mv_WebauthnSigDataXdrHex o;
                 mv_DelegatedEntryTemplateXdr := template;
                 mv_DelegatedSignedAuthEntryBase64 := None;
                 mv_DelegatedSignerAddress := signer;
                 mv_CreatedAt := mv_CreatedAt o |})
    {| mv_ID := id; mv_ProposalID := pid; mv_MemberID := mid; mv_ApprovalType := "delegated";
       mv_WebauthnSigDataXdrHex := None; mv_DelegatedEntryTemplateXdr := template;
       mv_DelegatedSignedAuthEntryBase64 := None; mv_DelegatedSignerAddress := signer;
       mv_CreatedAt := now |} d.

Definition approval_finished (signed signer : option string) (o : MultisigApprovalRow) : MultisigApprovalRow :=
  {| mv_ID := mv_ID o; mv_ProposalID := mv_ProposalID o; mv_MemberID := mv_MemberID o;
     mv_ApprovalType := mv_ApprovalType o; mv_WebauthnSigDataXdrHex := mv_WebauthnSigDataXdrHex o;
     mv_DelegatedEntryTemplateXdr := mv_DelegatedEntryTemplateXdr o;
     mv_DelegatedSignedAuthEntryBase64 := signed; mv_DelegatedSignerAddress := signer;
     mv_CreatedAt := mv_CreatedAt o |}.

Definition UpdateMultisigApprovalDelegatedFinish (pid mid : uuid) (signed signer : option string)
    (d : Store) : res (unit * Store) :=
  Ok (tt, set_approvals (update_where (for_proposal_member pid mid) (approval_finished signed signer)
                                      (approvals d)) d).

Definition GetMultisigApprovalByProposalAndMember (pid mid : uuid) (d : Store) : res MultisigApprovalRow :=
  select_one (for_proposal_member pid mid) (approvals d).

(** The inner join with the member row drops approvals without one. *)
Definition join_member (d : Store) (a : MultisigApprovalRow) : option (MultisigApprovalRow * MultisigMember) :=
  (fun m => (a, m)) <$> members d !! mv_MemberID a.
Definition approvals_with_member (pid : uuid) (d : Store) : list (MultisigApprovalRow * MultisigMember) :=
  omap (join_member d) (order_by mv_CreatedAt (select (for_proposal pid) (approvals d))).
Definition ListMultisigApprovalsWithMemberForProposal (pid : uuid) (d : Store)
    : res (list (MultisigApprovalRow * MultisigMember)) :=
  Ok (approvals_with_member pid d).

(** ** webapp_smart_accounts.sql.go *)
Definition GetSmartAccountByAddress (address : string) (d : Store) : res WebappSmartAccount :=
  select_one (fun a => String.eqb (sa_SmartAccountAddress a) address) (smart_accounts d).
Definition GetSmartAccountByCredentialID (cred : string) (d : Store) : res WebappSmartAccount :=
  select_one (fun a => String.eqb (sa_CredentialID a) cred) (smart_accounts d).

Definition set_deployed (deployed : Z) (a : WebappSmartAccount) : WebappSmartAccount :=
  {| sa_ID := sa_ID a; sa_UserID := sa_UserID a; sa_CredentialID := sa_CredentialID a;
     sa_KeyDataHex := sa_KeyDataHex a; sa_SaltHex := sa_SaltHex a;
     sa_SmartAccountAddress := sa_SmartAccountAddress a; sa_Deployed := deployed; sa_CreatedAt := sa_CreatedAt a |}.
Definition credential_known (cred : string) (d : Store) : bool :=
  exists_row (fun c => String.eqb (wc_CredentialID c) cred) (credentials d).

Definition UpsertSmartAccount (row : WebappSmartAccount) (d : Store) : res (uuid * Store) :=
  match GetSmartAccountByCredentialID (sa_CredentialID row) d with
  | Ok old =>
      Ok (sa_ID old, set_smart_accounts (<[sa_ID old := set_deployed (sa_Deployed row) old]> (smart_accounts d)) d)
  | Err _ =>
      if present (smart_accounts d) (sa_ID row) then Err ErrUnique
      else if exists_row (fun a => String.eqb (sa_SmartAccountAddress a) (sa_SmartAccountAddress row)) (smart_accounts d)
      then Err ErrUnique
      else if negb (present (users d) (sa_UserID row) && credential_known (sa_CredentialID row) d) then Err ErrForeignKey
      else Ok (sa_ID row, set_smart_accounts (<[sa_ID row := row]> (smart_accounts d)) d)
  end.

(** ** webapp_account_signer_intent.sql.go *)
Definition signer_of (address cred : string) (s : WebappAccountSigner) : bool :=
  String.eqb (as_SmartAccountAddress s) address && opt_eqb (as_CredentialID s) (Some cred).

(** The unique index on (address, credential) covers rows with a credential only. *)
Definition UpsertPendingCredentialSigner (id : uuid) (address cred : string) (label : option string) (now : Z) (d : Store)
    : res (WebappAccountSigner * Store) :=
  match select_one (signer_of address cred) (account_signers d) with
  | Ok old =>
      let row := {| as_ID := as_ID old; as_SmartAccountAddress := as_SmartAccountAddress old;
                    as_SignerType := as_SignerType old; as_CredentialID := as_CredentialID old; as_Label := label;
                    as_CreatedAt := as_CreatedAt old; as_SignerID := as_SignerID old;
                    as_ContextRuleID := as_ContextRuleID old |} in
      Ok (row, set_account_signers (<[as_ID old := row]> (account_signers d)) d)
  | Err _ =>
      let row := {| as_ID := id; as_SmartAccountAddress := address; as_SignerType := "passkey";
                    as_CredentialID := Some cred; as_Label := label; as_CreatedAt := now;
                    as_SignerID := None; as_ContextRuleID := None |} in
      if present (account_signers d) id then Err ErrUnique
      else if negb (is_ok (GetSmartAccountByAddress address d) && credential_known cred d) then Err ErrForeignKey
      else Ok (row, set_account_signers (<[id := row]> (account_signers d)) d)
  end.

Definition ListAccountSignerCredentialIDsForAddress (address : string) (d : Store) : res (list (option string)) :=
  Ok (as_CredentialID <$> select (fun s => String.eqb (as_SmartAccountAddress s) address
                                           && negb (opt_eqb (as_CredentialID s) None)) (account_signers d)).

Definition with_context_rule (rid : option Z) (s : WebappAccountSigner) : WebappAccountSigner :=
  {| as_ID := as_ID s; as_SmartAccountAddress := as_SmartAccountAddress s; as_SignerType := as_SignerType s;
     as_CredentialID := as_CredentialID s; as_Label := as_Label s; as_CreatedAt := as_CreatedAt s;
     as_SignerID := as_SignerID s; as_ContextRuleID := rid |}.
Definition SetAccountSignerContextRuleID (address cred : string) (rid : option Z) (d : Store) : res (unit * Store) :=
  Ok (tt, set_account_signers (update_where (signer_of address cred) (with_context_rule rid) (account_signers d)) d).

Definition GetAccountSignerByCredential (address cred : string) (d : Store) : res WebappAccountSigner :=
  select_one (signer_of address cred) (account_signers d).
Definition DeleteAccountSignerByCredential (address cred : string) (d : Store) : res (unit * Store) :=
  Ok (tt, set_account_signers (delete_where (signer_of address cred) (account_signers d)) d).
Definition GetAccountSignerByCredentialID (cred : string) (d : Store) : res WebappAccountSigner :=
  match order_by_desc as_CreatedAt (select (fun s => opt_eqb (as_CredentialID s) (Some cred)) (account_signers d)) with
  | s :: _ => Ok s
  | [] => Err ErrNoRows
  end.

Definition GetAccountSignerIntent (address type : string) (d : Store) : res WebappAccountSigner :=
  select_one (fun s => String.eqb (as_SmartAccountAddress s) address && String.eqb (as_SignerType s) type
                       && opt_eqb (as_CredentialID s) None) (account_signers d).
Definition InsertAccountSignerIntent (id : uuid) (address type : string) (label : option string) (now : Z) (d : Store)
    : res (uuid * Store) :=
  if present (account_signers d) id then Err ErrUnique
  else if negb (is_ok (GetSmartAccountByAddress address d)) then Err ErrForeignKey
  else Ok (id, set_account_signers (<[id := {| as_ID := id; as_SmartAccountAddress := address; as_SignerType := type;
                 as_CredentialID := None; as_Label := label; as_CreatedAt := now;
                 as_SignerID := None; as_ContextRuleID := None |}]> (account_signers d)) d).
Definition UpdateAccountSignerIntentLabel (id : uuid) (label : option string) (d : Store) : res (unit * Store) :=
  Ok (tt, set_account_signers
            (alter (fun s => {| as_ID := as_ID s; as_SmartAccountAddress := as_SmartAccountAddress s;
                                as_SignerType := as_SignerType s; as_CredentialID := as_CredentialID s;
                                as_Label := label; as_CreatedAt := as_CreatedAt s; as_SignerID := as_SignerID s;
                                as_ContextRuleID := as_ContextRuleID s |}) id (account_signers d)) d).

(** ** webapp_webauthn.sql.go, passkey_credentials.sql.go *)
Definition GetWebauthnCredentialByCredentialID (cred : string) (d : Store) : res WebauthnCredential :=
  select_one (fun c => String.eqb (wc_CredentialID c) cred) (credentials d).

(** ON CONFLICT (credential_id): the keys, the counter and the transports are
    replaced; the row's id, its owner, its raw id and its date stay. *)
Definition replace_key (row old : WebauthnCredential) : WebauthnCredential :=
  {| wc_ID := wc_ID old; wc_UserID := wc_UserID old; wc_CredentialID := wc_CredentialID old;
     wc_CredentialIDBytes := wc_CredentialIDBytes old; wc_CosePublicKey := wc_CosePublicKey row;
     wc_P256RawPublicKey := wc_P256RawPublicKey row; wc_SignCount := wc_SignCount row;
     wc_Transports := wc_Transports row; wc_BackedUp := wc_BackedUp row; wc_CreatedAt := wc_CreatedAt old |}.
Definition UpsertWebauthnCredential (row : WebauthnCredential) (d : Store) : res (uuid * Store) :=
  match GetWebauthnCredentialByCredentialID (wc_CredentialID row) d with
  | Ok old => Ok (wc_ID old, set_credentials (<[wc_ID old := replace_key row old]> (credentials d)) d)
  | Err _ =>
      if present (credentials d) (wc_ID row) then Err ErrUnique
      else if negb (present (users d) (wc_UserID row)) then Err ErrForeignKey
      else Ok (wc_ID row, set_credentials (<[wc_ID row := row]> (credentials d)) d)
  end.
Definition with_sign_count (n : Z) (c : WebauthnCredential) : WebauthnCredential :=
  {| wc_ID := wc_ID c; wc_UserID := wc_UserID c; wc_CredentialID := wc_CredentialID c;
     wc_CredentialIDBytes := wc_CredentialIDBytes c; wc_CosePublicKey := wc_CosePublicKey c;
     wc_P256RawPublicKey := wc_P256RawPublicKey c; wc_SignCount := n; wc_Transports := wc_Transports c;
     wc_BackedUp := wc_BackedUp c; wc_CreatedAt := wc_CreatedAt c |}.
Definition UpdateWebauthnCredentialSignCount (cred : string) (n : Z) (d : Store) : res (unit * Store) :=
  Ok (tt, set_credentials (update_where (fun c => String.eqb (wc_CredentialID c) cred) (with_sign_count n) (credentials d)) d).

Definition InsertWebauthnChallenge (row : WebauthnChallenge) (d : Store) : res (unit * Store) :=
  if present (challenges d) (ch_ID row) then Err ErrUnique
  else if negb (present_opt (users d) (ch_UserID row)) then Err ErrForeignKey
  else Ok (tt, set_challenges (<[ch_ID row := row]> (challenges d)) d).
Definition issued_to (uid : uuid) (purpose : string) (c : WebauthnChallenge) : bool :=
  bool_decide (ch_UserID c = Some uid) && String.eqb (ch_Purpose c) purpose.
Definition GetLatestWebauthnChallenge (uid : uuid) (purpose : string) (d : Store) : res WebauthnChallenge :=
  match order_by_desc ch_CreatedAt (select (issued_to uid purpose) (challenges d)) with
  | c :: _ => Ok c
  | [] => Err ErrNoRows
  end.
Definition DeleteWebauthnChallenge (id : uuid) (d : Store) : res (unit * Store) :=
  Ok (tt, set_challenges (delete id (challenges d)) d).

Definition UpsertPasskeyCredential (row : PasskeyCredentialRow) (d : Store) : res (PasskeyCredentialRow * Store) :=
  Ok (row, set_passkey_index (<[pc_CredentialID row := row]> (passkey_index d)) d).
Definition GetPasskeyCredential (cred : string) (d : Store) : res PasskeyCredentialRow :=
  match passkey_index d !! cred with Some row => Ok row | None => Err ErrNoRows end.
Definition DeletePasskeyCredential (cred : string) (d : Store) : res (unit * Store) :=
  Ok (tt, set_passkey_index (delete cred (passkey_index d)) d).
