(* ===== verification/Service.v ===== *)
(** * What the webapp services share

    Identifier parsing, the translation of [sql.ErrNoRows], requests that leave
    the service, and the two interfaces the multisig services are written
    against: [smartAccountFactory] (multisig_factory.go) and
    [transactionSubmitter] (multisig_proposal_service.go). A client's theorems
    use the laws of the interface; an implementation proves them. *)

From S2P Require Export WebStore.
From S2P Require Import Instances.

Definition ErrUUID : error := Errorf "invalid UUID".

Definition parse_uuid `{UuidLib} (s : string) : res uuid :=
  match uuid_parse s with Some u => Ok u | None => Err ErrUUID end.

(** [if errors.Is(err, sql.ErrNoRows) { return e }; if err != nil { wrap }] *)
Definition or_no_rows {W A} (e : error) (ctx : string) (m : M W A) : M W A :=
  let! r := attempt m in
  match r with
  | Ok a => ret a
  | Err err => if errors_is err ErrNoRows then throw e else throw (Wrapf ctx err)
  end.

(** A request that leaves the service: it is on record whatever the answer. *)
Definition send `{Env} {A} (c : ChainWrite) (f : nat -> res A) : M (World Store) A := fun w =>
  (f (w_io w), tick (put_store (set_chain (chain (w_store w) ++ [c]) (w_store w)) w)).

(** Only the record of requests grew. *)
Definition only_chain (d d' : Store) : Prop := exists l, d' = set_chain (chain d ++ l) d.

Class SmartAccountFactory := {
  PredictAddress : ScVal -> M (World Store) string;
  Deploy : ScVal -> string -> M (World Store) (string * bool);
  (** prediction is read-only; deployment touches no table *)
  PredictAddress_store : forall p, keeps (on_store eq) (PredictAddress p);
  Deploy_store : forall p a, keeps (on_store only_chain) (Deploy p a);
  (** a deployment that reports success is at the predicted address *)
  Deploy_address : forall p a w b already w', Deploy p a w = (Ok (b, already), w') -> b = a;
}.

(** smartaccount_service.go *)
Definition deployFee : Z := 1500000.

(** transaction_service.go *)
Record SubmitResult := { sr_Hash : string; sr_Status : string; sr_ResultMetaXdr : string }.

Class TransactionSubmitter := {
  SubmitAuthEntries : string -> list AuthEntry -> M (World Store) SubmitResult;
  (** what counts as sending this transaction with these entries *)
  submission : string -> list AuthEntry -> ChainWrite -> Prop;
  SubmitAuthEntries_store : forall tx es, keeps (on_store only_chain) (SubmitAuthEntries tx es);
  (** at most one transaction leaves per call, the one asked for, and one has
      left when the call succeeds *)
  SubmitAuthEntries_chain : forall tx es w r w', SubmitAuthEntries tx es w = (r, w') ->
    w_store w' = w_store w \/
    exists c, submission tx es c /\ w_store w' = set_chain (chain (w_store w) ++ [c]) (w_store w);
  SubmitAuthEntries_sent : forall tx es w r w', SubmitAuthEntries tx es w = (Ok r, w') ->
    exists c, submission tx es c /\ w_store w' = set_chain (chain (w_store w) ++ [c]) (w_store w);
}.

(** The fields the services are configured with: the bundler's address, the
    network passphrase and the WebAuthn verifier contract. *)
Class ServiceConfig := {
  bundlerG : string;
  networkPassphrase : string;
  webauthnVerifierAddress : string;
}.

(** ** Requests that leave at most once

    [sends d m P]: from the store [d], [m] either fails and leaves the store
    alone, or adds one request satisfying [P] to the record and touches no
    table; when it succeeds, the request has left. *)
Definition sends `{Env} {A} (d : Store) (m : M (World Store) A) (P : ChainWrite -> Prop) : Prop :=
  forall w r w', w_store w = d -> m w = (r, w') ->
    (w_store w' = d /\ is_ok r = false) \/
    exists c, P c /\ w_store w' = set_chain (chain d ++ [c]) d.

#[export] Instance only_chain_refl : Reflexive only_chain.
Proof. intros []. exists []. cbn. by rewrite app_nil_r. Qed.
#[export] Instance only_chain_trans : Transitive only_chain.
Proof. intros d1 d2 d3 [l ->] [l' ->]. exists (l ++ l'). cbn. by rewrite app_assoc. Qed.

Section Service.
Context `{UuidLib} `{Env}.

Lemma parse_uuid_ok s u : parse_uuid s = Ok u <-> uuid_parse s = Some u.
Proof. unfold parse_uuid. destruct (uuid_parse s); split; congruence. Qed.

Lemma or_no_rows_ok {W A} e ctx (m : M W A) a s s' :
  or_no_rows e ctx m s = (Ok a, s') <-> m s = (Ok a, s').
Proof.
  unfold or_no_rows. split.
  - intros Hr. run_inv. destruct x as [b|err]; run_inv; [done|].
    destruct (errors_is _ _); run_inv.
  - intros Hm. unfold bind, attempt. by rewrite Hm.
Qed.

(** A missing row becomes the service's own error; a failure is passed on. *)
Lemma or_no_rows_query_err {D A} e ctx (f : D -> res A) err (w w' : World D) :
  (forall x, f (w_store w) = Err x -> x = ErrNoRows) ->
  or_no_rows e ctx (query f) w = (Err err, w') -> err = e \/ err = Wrapf ctx ErrDriver.
Proof.
  intros Hf. unfold or_no_rows, bind, attempt, query, exec.
  destruct (env_fault _); [intros [= <- _]; by right|].
  destruct (f (w_store w)) as [a|x] eqn:Ex; [done|].
  rewrite (Hf x eq_refl). intros [= <- _]. by left.
Qed.

Lemma keeps_or_no_rows {W A} (R : W -> W -> Prop) `{!Reflexive R} `{!Transitive R} e ctx (m : M W A) :
  keeps R m -> keeps R (or_no_rows e ctx m).
Proof using Type. intros Hm. unfold or_no_rows. keeps. Qed.

Lemma send_ok {A} c (f : nat -> res A) a w w' :
  send c f w = (Ok a, w') <->
  f (w_io w) = Ok a /\ w' = tick (put_store (set_chain (chain (w_store w) ++ [c]) (w_store w)) w).
Proof. unfold send. split; [by intros [= -> <-] | by intros [-> ->]]. Qed.

Lemma keeps_send {A} c (f : nat -> res A) : keeps (on_store only_chain) (send c f).
Proof using Type. intros w. exists [c]. done. Qed.

(** A step that changes no table keeps every relation that ignores [chain]. *)
Lemma keeps_only_chain {A} (R : Store -> Store -> Prop) (m : M (World Store) A) :
  (forall d l, R d (set_chain l d)) -> keeps (on_store only_chain) m -> keeps (on_store R) m.
Proof using Type. intros HR Hm w. destruct (Hm w) as [l E]. unfold on_store. rewrite E. apply HR. Qed.

Lemma keeps_store_eq {A} (R : Store -> Store -> Prop) `{!Reflexive R} (m : M (World Store) A) :
  keeps (on_store eq) m -> keeps (on_store R) m.
Proof using Type. intros Hm w. unfold on_store in *. rewrite <- (Hm w). reflexivity. Qed.
End Service.
#[export] Hint Resolve keeps_or_no_rows keeps_send : keeps.

Ltac svc_step :=
  match goal with
  | H : or_no_rows _ _ _ _ = (Ok _, _) |- _ => apply (proj1 (or_no_rows_ok _ _ _ _ _ _)) in H
  | H : parse_uuid _ = Ok _ |- _ => apply parse_uuid_ok in H
  | H : send _ _ _ = (Ok _, _) |- _ => apply send_ok in H; destruct H as [? ?]; subst
  end.
(** Open a successful handler run into the equations of its steps. *)
Ltac svc_inv := repeat (run_step || io_step || svc_step).

Section Sends.
Context `{Env}.
Implicit Types (d : Store) (P : ChainWrite -> Prop).

Lemma sends_mono {A} d (m : M (World Store) A) P Q : (forall c, P c -> Q c) -> sends d m P -> sends d m Q.
Proof using Type. intros HPQ Hs w r w' Hw E. destruct (Hs w r w' Hw E) as [?|(c & ? & ?)]; eauto. Qed.

Lemma sends_throw {A} d e P : sends d (throw (A := A) e) P.
Proof using Type. intros w r w' Hw [= <- <-]. by left. Qed.

(** A read first. *)
Lemma sends_read {A B} d (m : M (World Store) A) (k : A -> M (World Store) B) P :
  keeps (on_store eq) m -> (forall a w w', w_store w = d -> m w = (Ok a, w') -> sends d (k a) P) ->
  sends d (bind m k) P.
Proof using Type.
  intros Hk Hn w r w' Hw. unfold bind. pose proof (Hk w) as E. unfold on_store in E.
  destruct (m w) as [[a|e] w1] eqn:Em; cbn in E.
  - apply (Hn a w w1 Hw Em). congruence.
  - intros [= <- <-]. left. split; [congruence|done].
Qed.

(** The request itself; what follows only reads. *)
Lemma sends_send {A B} d c (f : nat -> res A) (k : A -> M (World Store) B) P :
  P c -> (forall a, keeps (on_store eq) (k a)) -> sends d (bind (send c f) k) P.
Proof using Type.
  intros Hc Hk w r w' <- E. right. exists c. split; [done|]. unfold bind, send in E.
  destruct (f (w_io w)) as [a|e]; [|by injection E as _ <-].
  by rewrite <- (keeps_run _ _ _ _ _ (Hk a) E).
Qed.
Lemma sends_wrap {A B} d ctx (m : M (World Store) A) (k : A -> M (World Store) B) P :
  sends d (bind m k) P -> sends d (bind (wrap ctx m) k) P.
Proof using Type.
  intros Hs w r w' Hw E. specialize (Hs w). unfold bind, wrap in *.
  destruct (m w) as [[a|e] w1]; [by apply Hs|]. injection E as <- <-.
  destruct (Hs (Err e) w1 Hw eq_refl) as [[? _]|?]; [by left|by right].
Qed.
End Sends.

(** A factory that names an account by its parameters, and a submitter that
    always lands. *)
Module DemoServices.
Import Demo.

Definition demo_predict (p : ScVal) : M (World Store) string := fun w => (Ok ("C" +:+ encode_val p), tick w).
Definition demo_deploy (p : ScVal) (a : string) : M (World Store) (string * bool) :=
  fun w => (Ok (a, false), tick (put_store (set_chain (chain (w_store w) ++
    [GaslessSend {| gs_RequestID := "create"; gs_Wallet := a; gs_Mode := "sponsored";
                    gs_Transaction := encode_val p |}]) (w_store w)) w)).
Lemma demo_predict_store p : keeps (on_store eq) (demo_predict p).
Proof. by intros w. Qed.
Lemma demo_deploy_store p a : keeps (on_store only_chain) (demo_deploy p a).
Proof. intros w. by eexists. Qed.
Lemma demo_deploy_address p a w b already w' : demo_deploy p a w = (Ok (b, already), w') -> b = a.
Proof. by intros [= <- _ _]. Qed.
#[export] Instance demo_factory : SmartAccountFactory := {|
  PredictAddress := demo_predict; Deploy := demo_deploy;
  PredictAddress_store := demo_predict_store; Deploy_store := demo_deploy_store;
  Deploy_address := demo_deploy_address;
|}.

Definition demo_sent (tx : string) (es : list AuthEntry) : ChainWrite := RpcSend (join (tx :: map encode_entry es)).
Definition demo_submit (tx : string) (es : list AuthEntry) : M (World Store) SubmitResult :=
  fun w => (Ok {| sr_Hash := "hash"; sr_Status := "SUCCESS"; sr_ResultMetaXdr := "" |},
            tick (put_store (set_chain (chain (w_store w) ++ [demo_sent tx es]) (w_store w)) w)).
Lemma demo_submit_store tx es : keeps (on_store only_chain) (demo_submit tx es).
Proof. intros w. by eexists. Qed.
Lemma demo_submit_chain tx es w r w' : demo_submit tx es w = (r, w') ->
  w_store w' = w_store w \/
  exists c, c = demo_sent tx es /\ w_store w' = set_chain (chain (w_store w) ++ [c]) (w_store w).
Proof. intros [= _ <-]. right. by eexists. Qed.
Lemma demo_submit_sent tx es w r w' : demo_submit tx es w = (Ok r, w') ->
  exists c, c = demo_sent tx es /\ w_store w' = set_chain (chain (w_store w) ++ [c]) (w_store w).
Proof. intros [= _ <-]. by eexists. Qed.
#[export] Instance demo_submitter : TransactionSubmitter := {|
  SubmitAuthEntries := demo_submit; submission tx es c := c = demo_sent tx es;
  SubmitAuthEntries_store := demo_submit_store;
  SubmitAuthEntries_chain := demo_submit_chain; SubmitAuthEntries_sent := demo_submit_sent;
|}.
End DemoServices.
