(* ===== verification/Sessions.v ===== *)
(** * Web sessions and the passkeys they have proved (session_service.go)

    Times are Unix milliseconds, as they are stored; a [time.Time] the service
    returns is modelled by its milliseconds. *)

From S2P Require Export Service.
From S2P Require Import Instances.

Module Sessions.

(** 30 days *)
Definition SessionTTL : Z := 30 * 24 * 60 * 60 * 1000.

Record Session := { s_ID : string; s_UserID : string; s_ExpiresAt : Z }.

Section Sessions.
Context `{UuidLib} `{Env}.
Abbreviation W := (World Store).

(** [None] when there is no live session to slide. *)
Definition refresh (sid : uuid) : M W (option Session) :=
  let! r := attempt (query (GetWebappSession sid)) in
  match r with
  | Err _ => ret None
  | Ok row =>
      let! now := now_ms in
      if ss_ExpiresAt row <=? now then ret None else
      let! later := now_ms in
      let newExpiry := later + SessionTTL in
      let! _ := wrap "slide webapp session expiry" (exec (SlideWebappSessionExpiry sid newExpiry)) in
      ret (Some {| s_ID := uuid_string sid; s_UserID := uuid_string (ss_UserID row); s_ExpiresAt := newExpiry |})
  end.

Definition create : M W Session := transact
  (let! now := now_ms in
   let! userID := new_uuid in
   let! _ := wrap "insert webapp user" (exec (InsertWebappUser userID now)) in
   let! sessionID := new_uuid in
   let expiresAt := now + SessionTTL in
   let! _ := wrap "insert webapp session" (exec (InsertWebappSession
     {| ss_ID := sessionID; ss_UserID := userID; ss_CreatedAt := now; ss_ExpiresAt := expiresAt |})) in
   ret {| s_ID := uuid_string sessionID; s_UserID := uuid_string userID; s_ExpiresAt := expiresAt |}).

Definition GetOrCreate (cookieSID : string) : M W Session :=
  match (if String.eqb cookieSID "" then None else uuid_parse cookieSID) with
  | None => create
  | Some sid =>
      let! s := refresh sid in
      match s with
      | Some sess => ret sess
      | None => create
      end
  end.

Definition IssueForUser (userID : string) : M W Session :=
  let! uid := wrap "parse user id" (lift (parse_uuid userID)) in
  let! now := now_ms in
  let! sessionID := new_uuid in
  let expiresAt := now + SessionTTL in
  let! _ := wrap "insert webapp session for user" (exec (InsertWebappSession
    {| ss_ID := sessionID; ss_UserID := uid; ss_CreatedAt := now; ss_ExpiresAt := expiresAt |})) in
  ret {| s_ID := uuid_string sessionID; s_UserID := uuid_string uid; s_ExpiresAt := expiresAt |}.

Definition ReplaceProvedCredential (sessionID credentialID : string) : M W unit :=
  let! sid := wrap "parse session id" (lift (parse_uuid sessionID)) in
  transact
    (let! _ := wrap "clear prior proved credentials"
       (exec (DeleteSessionProvedCredentialsExcept sid credentialID)) in
     let! now := now_ms in
     wrap "insert proved credential" (exec (InsertSessionProvedCredential sid credentialID now))).

Definition AddProvedCredential (sessionID credentialID : string) : M W unit :=
  let! sid := wrap "parse session id" (lift (parse_uuid sessionID)) in
  let! now := now_ms in
  wrap "insert proved credential" (exec (InsertSessionProvedCredential sid credentialID now)).

Definition ProvedCredentials (sessionID : string) : M W (list string) :=
  let! sid := wrap "parse session id" (lift (parse_uuid sessionID)) in
  wrap "list proved credentials" (query (ListSessionProvedCredentials sid)).

Definition HasProvedCredential (sessionID credentialID : string) : M W bool :=
  if String.eqb sessionID "" || String.eqb credentialID "" then ret false else
  match uuid_parse sessionID with
  | None => ret false
  | Some sid => wrap "check proved credential" (query (SessionHasProvedCredential sid credentialID))
  end.
End Sessions.

(** ** What a request's session is *)
Section Theorems.
Context `{UuidLib} `{Env}.
Abbreviation W := (World Store).

Definition with_expiry (t : Z) (s : WebappSession) : WebappSession :=
  {| ss_ID := ss_ID s; ss_UserID := ss_UserID s; ss_CreatedAt := ss_CreatedAt s; ss_ExpiresAt := t |}.

(** The cookie names a session that is live at a clock reading [now]: it is
    slid to a full lifetime after a later reading. *)
Definition resumed (cookie : string) (d : Store) (s : Session) (d' : Store) : Prop :=
  exists n m sid row, uuid_parse cookie = Some sid /\ sessions d !! sid = Some row /\
    env_now n < ss_ExpiresAt row /\ (n < m)%nat /\
    s = {| s_ID := uuid_string sid; s_UserID := uuid_string (ss_UserID row);
           s_ExpiresAt := env_now m + SessionTTL |} /\
    d' = set_sessions (<[sid := with_expiry (env_now m + SessionTTL) row]> (sessions d)) d.

(** A new user with one new session. *)
Definition started (d : Store) (s : Session) (d' : Store) : Prop :=
  exists n uid sid, users d !! uid = None /\ sessions d !! sid = None /\
    let row := {| ss_ID := sid; ss_UserID := uid; ss_CreatedAt := env_now n;
                  ss_ExpiresAt := env_now n + SessionTTL |} in
    s = {| s_ID := uuid_string sid; s_UserID := uuid_string uid; s_ExpiresAt := env_now n + SessionTTL |} /\
    d' = set_sessions (<[sid := row]> (sessions d)) (set_users (<[uid := env_now n]> (users d)) d).

Lemma present_false {R} (t : gmap uuid R) id : present t id = false <-> t !! id = None.
Proof using Type. unfold present. destruct (t !! id); split; congruence. Qed.

Lemma create_ok (w w' : W) s : create w = (Ok s, w') -> started (w_store w) s (w_store w').
Proof using Type.
  unfold create. intros Hr. svc_inv.
  repeat match goal with
    | H : InsertWebappUser _ _ _ = Ok _ |- _ => unfold InsertWebappUser in H
    | H : InsertWebappSession _ _ = Ok _ |- _ => unfold InsertWebappSession in H; cbn in H
    | H : (if present ?t ?i then _ else _) = Ok _ |- _ => destruct (present t i) eqn:?; [done|]
    | H : (if negb (present ?t ?i) then _ else _) = Ok _ |- _ => destruct (present t i) eqn:?; [cbn in H|done]
    | H : Ok _ = Ok _ |- _ => injection H as H; subst
    end.
  cbn in *. repeat match goal with H : present _ _ = false |- _ => apply present_false in H end.
  by exists (S (w_io w)); eexists _, _; split_and!.
Qed.

Lemma refresh_ok sid (w w' : W) o :
  refresh sid w = (Ok o, w') ->
  match o with
  | None => w_store w' = w_store w
  | Some s => exists n m row, sessions (w_store w) !! sid = Some row /\ env_now n < ss_ExpiresAt row /\ (n < m)%nat /\
      s = {| s_ID := uuid_string sid; s_UserID := uuid_string (ss_UserID row); s_ExpiresAt := env_now m + SessionTTL |} /\
      w_store w' = set_sessions (<[sid := with_expiry (env_now m + SessionTTL) row]> (sessions (w_store w))) (w_store w)
  end.
Proof using Type.
  unfold refresh. intros Hr. apply bind_ok in Hr as (r & w1 & Hq & Hr). apply (proj1 (attempt_ok _ _ _ _)) in Hq.
  pose proof (query_store _ _ _ _ Hq) as S1. destruct r as [row|e]; [|by run_inv].
  apply query_ok in Hq as (_ & Hg & ->). apply get_by_id_ok in Hg.
  apply bind_ok in Hr as (now & w2 & Hn & Hr). apply now_ok in Hn as [-> ->].
  destruct (Z.leb_spec (ss_ExpiresAt row) (env_now (w_io (tick w)))) as [|Hlive]; [by run_inv|].
  svc_inv. match goal with H : SlideWebappSessionExpiry _ _ _ = Ok _ |- _ => injection H as <- end.
  exists (w_io (tick w)), (w_io (tick (tick w))), row. split; [exact Hg|]. split; [exact Hlive|]. split; [cbn; lia|]. split; [done|]. subst x. cbn. f_equal.
  apply map_eq. intros k. destruct (decide (k = sid)) as [->|].
  - by rewrite lookup_alter, decide_True, lookup_insert_eq, Hg.
  - by rewrite lookup_alter_ne, lookup_insert_ne.
Qed.

(** Every request that gets a session either resumes the one its cookie
    names, which had not expired, with the same user and a full 30 days ahead, or
    starts a new session of a new user; an expired or unknown session is never
    revived, and no other row changes. *)
Theorem get_or_create_spec cookie (w w' : W) s :
  GetOrCreate cookie w = (Ok s, w') ->
  cookie <> "" /\ resumed cookie (w_store w) s (w_store w') \/ started (w_store w) s (w_store w').
Proof.
  unfold GetOrCreate. destruct (String.eqb_spec cookie "") as [->|Hc]; [intros Hr; right; by apply create_ok|].
  destruct (uuid_parse cookie) as [sid|] eqn:Ep; [|intros Hr; right; by apply create_ok].
  intros Hr. apply bind_ok in Hr as (o & w1 & Hf & Hr). apply refresh_ok in Hf. destruct o as [sess|].
  - run_inv. left. split; [done|]. destruct Hf as (n & m & row & Hs & ? & ? & ? & ?).
    exists n, m, sid, row. split_and!; done.
  - right. rewrite <- Hf. by apply create_ok.
Qed.

(** ** Proved passkeys as a set per session *)
Definition proved_set (sid : uuid) (d : Store) : gset string :=
  set_map snd (filter (fun k => k.1 = sid) (dom (proved d))).

Lemma elem_of_proved_set sid d c : c ∈ proved_set sid d <-> is_Some (proved d !! (sid, c)).
Proof using Type.
  unfold proved_set. rewrite elem_of_map. setoid_rewrite elem_of_filter. setoid_rewrite elem_of_dom. split.
  - by intros ([s c'] & -> & <- & Hs).
  - intros Hs. by exists (sid, c).
Qed.

Lemma proved_insert sid c t d sid' :
  proved_set sid' (set_proved (<[(sid, c) := t]> (proved d)) d) =
  if decide (sid' = sid) then {[c]} ∪ proved_set sid d else proved_set sid' d.
Proof using Type.
  apply set_eq. intros x. rewrite elem_of_proved_set. cbn. rewrite lookup_insert_is_Some.
  destruct (decide (sid' = sid)) as [->|Hne].
  - rewrite elem_of_union, elem_of_singleton, elem_of_proved_set.
    destruct (decide (x = c)) as [->|]; [naive_solver|]. split; [intros [[=]|[_ ?]]; auto; congruence|].
    intros [?|Hs]; [done|]. right. split; [congruence|done].
  - rewrite elem_of_proved_set. split; [intros [[=]|[_ ?]]; [congruence|done]|]. intros Hs. right. split; [congruence|done].
Qed.

Lemma proved_delete sid c d sid' d' :
  DeleteSessionProvedCredentialsExcept sid c d = Ok (tt, d') ->
  proved_set sid' d' = if decide (sid' = sid) then {[c]} ∩ proved_set sid d else proved_set sid' d.
Proof using Type.
  intros [= <-]. apply set_eq. intros x. rewrite elem_of_proved_set. cbn. unfold is_Some.
  setoid_rewrite map_lookup_filter_Some. cbn. destruct (decide (sid' = sid)) as [->|Hne].
  - rewrite elem_of_intersection, elem_of_singleton, elem_of_proved_set. unfold is_Some.
    split; [intros (t & Ht & Hn)|intros [-> [t Ht]]; exists t; split; [done|naive_solver]].
    split; [|eauto]. destruct (decide (x = c)); [done|]. exfalso. naive_solver.
  - rewrite elem_of_proved_set. unfold is_Some. naive_solver.
Qed.

Lemma insert_proved_ok sid c t d d' :
  InsertSessionProvedCredential sid c t d = Ok (tt, d') -> d' = set_proved (<[(sid, c) := t]> (proved d)) d.
Proof using Type.
  unfold InsertSessionProvedCredential. destruct (present (sessions d) sid); [|done]. by intros [= <-].
Qed.

Lemma ReplaceProvedCredential_ok sessionID c sid (w w' : W) :
  uuid_parse sessionID = Some sid -> ReplaceProvedCredential sessionID c w = (Ok tt, w') ->
  sessions (w_store w') = sessions (w_store w) /\
  forall s, proved_set s (w_store w') = if decide (s = sid) then {[c]} else proved_set s (w_store w).
Proof using Type.
  intros Hsid. unfold ReplaceProvedCredential. rewrite (proj2 (parse_uuid_ok _ _) Hsid).
  change (bind (wrap "parse session id" (lift (Ok sid))) ?k w) with (k sid w).
  intros (_ & w1 & Hr & _ & ->)%transact_ok. svc_inv.
  match goal with H : InsertSessionProvedCredential _ _ _ _ = Ok _ |- _ => apply insert_proved_ok in H as -> end.
  match goal with H : DeleteSessionProvedCredentialsExcept _ _ _ = Ok (?u, _) |- _ => destruct u; rename H into Hd end.
  split; [by injection Hd as <-|].
  intros s. cbn. rewrite proved_insert, !(proved_delete _ _ _ _ _ Hd). cbn.
  destruct (decide (sid = sid)) as [_|]; [|done]. destruct (decide (s = sid)); [set_solver|done].
Qed.
Lemma AddProvedCredential_ok sessionID c sid (w w' : W) :
  uuid_parse sessionID = Some sid -> AddProvedCredential sessionID c w = (Ok tt, w') ->
  exists t, w_store w' = set_proved (<[(sid, c) := t]> (proved (w_store w))) (w_store w).
Proof using Type.
  intros Hsid. unfold AddProvedCredential. rewrite (proj2 (parse_uuid_ok _ _) Hsid).
  change (bind (wrap "parse session id" (lift (Ok sid))) ?k w) with (k sid w). cbv beta. intros Hr. svc_inv.
  match goal with H : InsertSessionProvedCredential _ _ _ _ = Ok _ |- _ => apply insert_proved_ok in H as -> end.
  by eexists.
Qed.

(** The proved passkeys of a session behave as a set: signing in with a
    passkey leaves exactly that one, registering or attaching one adds it, other
    sessions are untouched, and a failed call changes nothing — a failure half
    way through a sign-in included. *)
Theorem proved_credentials_set sessionID c sid (w : W) :
  uuid_parse sessionID = Some sid ->
  (forall r w', ReplaceProvedCredential sessionID c w = (r, w') ->
     match r with
     | Ok _ => forall s, proved_set s (w_store w') = if decide (s = sid) then {[c]} else proved_set s (w_store w)
     | Err _ => w_store w' = w_store w
     end) /\
  (forall r w', AddProvedCredential sessionID c w = (r, w') ->
     match r with
     | Ok _ => forall s, proved_set s (w_store w') =
                 if decide (s = sid) then {[c]} ∪ proved_set sid (w_store w) else proved_set s (w_store w)
     | Err _ => w_store w' = w_store w
     end) /\
  (forall r w', HasProvedCredential sessionID c w = (Ok r, w') -> sessionID <> "" -> c <> "" ->
     r = bool_decide (c ∈ proved_set sid (w_store w))).
Proof.
  intros Hsid. assert (parse_uuid sessionID = Ok sid) as Hp by (by apply parse_uuid_ok). split_and!.
  - intros r w' Hr. destruct r as [[]|e]; [by eapply ReplaceProvedCredential_ok|].
    unfold ReplaceProvedCredential in Hr. rewrite Hp in Hr.
    change (bind (wrap "parse session id" (lift (Ok sid))) ?k w) with (k sid w) in Hr. cbv beta in Hr.
    by apply transact_err_store in Hr.
  - intros r w' Hr. destruct r as [[]|e].
    + apply (AddProvedCredential_ok _ _ _ _ _ Hsid) in Hr as [t ->]. intros s. apply proved_insert.
    + unfold AddProvedCredential in Hr. rewrite Hp in Hr.
      change (bind (wrap "parse session id" (lift (Ok sid))) ?k w) with (k sid w) in Hr.
      apply bind_err in Hr as [[=]|(now & w1 & Hn & Hr)]. apply now_ok in Hn as [-> ->].
      unfold wrap in Hr. destruct (exec _ _) as [[u|e'] w2] eqn:Ex; [done|]. injection Hr as _ <-.
      by apply exec_err in Ex as [-> _].
  - intros r w' Hr Hs Hc. unfold HasProvedCredential in Hr.
    destruct (String.eqb_spec sessionID ""); [done|]. destruct (String.eqb_spec c ""); [done|]. cbn in Hr.
    rewrite Hsid in Hr. svc_inv. unfold SessionHasProvedCredential in *.
    match goal with H : Ok _ = Ok _ |- _ => injection H as <- | _ => idtac end.
    symmetry. destruct (proved (w_store w) !! (sid, c)) eqn:E.
    + apply bool_decide_eq_true, elem_of_proved_set. by rewrite E.
    + apply bool_decide_eq_false. rewrite elem_of_proved_set, E. apply is_Some_None.
Qed.
End Theorems.

Section Witnesses.
Import Demo.

Definition demo_e : Env := demo_env 1000 100%N no_fault.
Definition w_empty : World Store := MkWorld empty_store 0.
(** The first visit; the cookie is the session id it was given. *)
Definition w_visited : World Store := snd (GetOrCreate (H0 := demo_e) "" w_empty).
Definition cookie : string := match fst (GetOrCreate (H0 := demo_e) "" w_empty) with Ok s => s_ID s | Err _ => "" end.

Lemma get_or_create_spec_witness :
  exists s w', GetOrCreate (H0 := demo_e) cookie w_visited = (Ok s, w') /\ s_ID s = cookie /\
    (cookie <> "" /\ resumed (H0 := demo_e) cookie (w_store w_visited) s (w_store w') \/
     started (H0 := demo_e) (w_store w_visited) s (w_store w')).
Proof.
  assert (exists s w', GetOrCreate (H0 := demo_e) cookie w_visited = (Ok s, w') /\ s_ID s = cookie)
    as (s & w' & Hr & Hid) by (eexists _, _; split; vm_compute; reflexivity).
  exists s, w'. split; [exact Hr|]. split; [exact Hid|].
  exact (get_or_create_spec (H0 := demo_e) cookie w_visited w' s Hr).
Defined.

Lemma proved_credentials_set_witness :
  exists sid w1 w2, uuid_parse cookie = Some sid /\
    AddProvedCredential (H0 := demo_e) cookie "A" w_visited = (Ok tt, w1) /\
    ReplaceProvedCredential (H0 := demo_e) cookie "B" w1 = (Ok tt, w2) /\ proved_set sid (w_store w2) = {["B"]}.
Proof.
  assert (exists sid w1, uuid_parse cookie = Some sid /\
    AddProvedCredential (H0 := demo_e) cookie "A" w_visited = (Ok tt, w1) /\
    exists w2, ReplaceProvedCredential (H0 := demo_e) cookie "B" w1 = (Ok tt, w2)) as (sid & w1 & Hs & H1 & w2 & H2)
    by (eexists _, _; split; [vm_compute; reflexivity|]; split; [vm_compute; reflexivity|];
        eexists; vm_compute; reflexivity).
  exists sid, w1, w2. split; [exact Hs|]. split; [exact H1|]. split; [exact H2|].
  destruct (proved_credentials_set (H0 := demo_e) cookie "B" sid w1 Hs) as (Hrep & _).
  specialize (Hrep _ _ H2 sid). cbn in Hrep. rewrite decide_True in Hrep by reflexivity. exact Hrep.
Defined.
End Witnesses.
End Sessions.
