(* ===== verification/Signers.v ===== *)
(** * Multisig signers: validation, duplicates and canonical order
    (multisig_signers.go, multisig_factory.go and the signer part of
    multisig_accounts_service.go) *)

From S2P Require Export Stellar Tables.
From S2P Require Import Instances.

Module Signers.

Definition MultisigSignerKindDelegated : string := "delegated".
Definition MultisigSignerKindWebauthn : string := "webauthn".
Definition MultisigSignerKindEd25519 : string := "ed25519".
Definition minWebauthnKeyDataHexLen : nat := 132.
Definition ed25519PublicKeyHexLen : nat := 64.
Definition minAccountSigners : nat := 2.

Record DraftMultisigMember := {
  m_ID : string; m_Label : string; m_Kind : string; m_GAddress : string;
  m_KeyDataHex : string; m_CredentialID : string; m_PublicKeyHex : string; m_UserID : string }.

Record MultisigSignerInit := {
  si_Type : string; si_KeyDataHex : string; si_GAddress : string; si_Label : string }.

Definition ErrMultisigAccountSignerValidation : error := Sentinel "ErrMultisigAccountSignerValidation".
Definition ErrMultisigAccountDuplicateSigner : error := Sentinel "ErrMultisigAccountDuplicateSigner".

Section Signers.
Context `{StellarSDK} `{Unicode}.

Definition normalizeHex (h : string) : string := to_lower (trim_prefix "0x" h).

Definition isValidGAddress (g : string) : bool := is_ok (strkey_decode_account g).

Definition isValidWebauthnKeyDataHex (h : string) : bool :=
  let normalized := normalizeHex h in
  if (String.length normalized <? minWebauthnKeyDataHexLen)%nat then false
  else if negb (String.prefix "04" normalized) then false
  else is_ok (hex_decode normalized).

Definition isValidEd25519PublicKeyHex (h : string) : bool :=
  let normalized := normalizeHex h in
  if negb (String.length normalized =? ed25519PublicKeyHexLen)%nat then false
  else is_ok (hex_decode normalized).

Definition validateDraftMember (m : DraftMultisigMember) : string :=
  if String.eqb (trim_space (m_Label m)) "" then "label is required" else
  if String.eqb (m_Kind m) MultisigSignerKindDelegated then
    if String.eqb (m_GAddress m) "" then "gAddress is required for a delegated signer"
    else if negb (isValidGAddress (m_GAddress m)) then "gAddress is not a valid Stellar account address"
    else ""
  else if String.eqb (m_Kind m) MultisigSignerKindWebauthn then
    if String.eqb (m_KeyDataHex m) "" then "keyDataHex is required for a webauthn signer"
    else if negb (isValidWebauthnKeyDataHex (m_KeyDataHex m))
    then "keyDataHex must be a hex-encoded uncompressed P-256 key plus credential id"
    else ""
  else if String.eqb (m_Kind m) MultisigSignerKindEd25519 then
    if String.eqb (m_PublicKeyHex m) "" then "publicKeyHex is required for an ed25519 signer"
    else if negb (isValidEd25519PublicKeyHex (m_PublicKeyHex m))
    then "publicKeyHex must be a 32-byte hex-encoded Ed25519 public key"
    else ""
  else "unsupported member type " +:+ m_Kind m.

Fixpoint duplicateMemberError (candidate : DraftMultisigMember) (existing : list DraftMultisigMember)
    : string :=
  match existing with
  | [] => ""
  | m :: rest =>
      if negb (String.eqb (m_Kind m) (m_Kind candidate)) then duplicateMemberError candidate rest
      else if String.eqb (m_Kind candidate) MultisigSignerKindDelegated then
        if negb (String.eqb (m_GAddress candidate) "") && String.eqb (m_GAddress m) (m_GAddress candidate)
        then "a delegated signer with this address has already been added"
        else duplicateMemberError candidate rest
      else if String.eqb (m_Kind candidate) MultisigSignerKindWebauthn then
        if negb (String.eqb (m_KeyDataHex candidate) "")
           && String.eqb (normalizeHex (m_KeyDataHex m)) (normalizeHex (m_KeyDataHex candidate))
        then "a webauthn signer with this key has already been added"
        else duplicateMemberError candidate rest
      else if String.eqb (m_Kind candidate) MultisigSignerKindEd25519 then
        if negb (String.eqb (m_PublicKeyHex candidate) "")
           && String.eqb (normalizeHex (m_PublicKeyHex m)) (normalizeHex (m_PublicKeyHex candidate))
        then "an ed25519 signer with this key has already been added"
        else duplicateMemberError candidate rest
      else duplicateMemberError candidate rest
  end.

(** [hex.EncodeToString(sum[:])[:8]] *)
Definition memberFingerprint (m : DraftMultisigMember) : string :=
  let short material := String.substring 0 8 (hex_encode (hash_Hash material)) in
  if String.eqb (m_Kind m) MultisigSignerKindDelegated then short ("delegated:" +:+ m_GAddress m)
  else if String.eqb (m_Kind m) MultisigSignerKindWebauthn then short ("webauthn:" +:+ normalizeHex (m_KeyDataHex m))
  else if String.eqb (m_Kind m) MultisigSignerKindEd25519 then short ("ed25519:" +:+ normalizeHex (m_PublicKeyHex m))
  else "".

(** The keyed entries of [draftMembersToFactorySigners], before the sort. *)
Definition factory_entry (m : DraftMultisigMember) : option (string * MultisigSignerInit) :=
  if String.eqb (m_Kind m) MultisigSignerKindDelegated then
    Some ("0:delegated:" +:+ m_GAddress m,
          {| si_Type := "delegated"; si_KeyDataHex := ""; si_GAddress := m_GAddress m; si_Label := m_Label m |})
  else if String.eqb (m_Kind m) MultisigSignerKindWebauthn then
    Some ("1:webauthn:" +:+ normalizeHex (m_KeyDataHex m),
          {| si_Type := "webauthn"; si_KeyDataHex := normalizeHex (m_KeyDataHex m); si_GAddress := "";
             si_Label := m_Label m |})
  else None.

Definition draftMembersToFactorySigners (ms : list DraftMultisigMember) : list MultisigSignerInit :=
  snd <$> sort_by fst (omap factory_entry ms).

(** ** One-shot signer lists (multisig_accounts_service.go) *)
Definition validateSignerInit (s : MultisigSignerInit) : string :=
  if String.eqb (si_Type s) "delegated" then
    if String.eqb (si_GAddress s) "" then "gAddress is required for a delegated signer"
    else if negb (isValidGAddress (si_GAddress s)) then "gAddress is not a valid Stellar account address"
    else ""
  else if String.eqb (si_Type s) "webauthn" then
    if String.eqb (si_KeyDataHex s) "" then "keyDataHex is required for a webauthn signer"
    else if negb (isValidWebauthnKeyDataHex (si_KeyDataHex s))
    then "keyDataHex must be a hex-encoded uncompressed P-256 key plus credential id"
    else ""
  else "unsupported signer type " +:+ si_Type s.

Fixpoint duplicateSignerInitError (candidate : MultisigSignerInit) (existing : list MultisigSignerInit)
    : string :=
  match existing with
  | [] => ""
  | s :: rest =>
      if negb (String.eqb (si_Type s) (si_Type candidate)) then duplicateSignerInitError candidate rest
      else if String.eqb (si_Type candidate) "delegated" then
        if negb (String.eqb (si_GAddress candidate) "") && String.eqb (si_GAddress s) (si_GAddress candidate)
        then "a delegated signer with this address has already been added"
        else duplicateSignerInitError candidate rest
      else if String.eqb (si_Type candidate) "webauthn" then
        if negb (String.eqb (si_KeyDataHex candidate) "")
           && String.eqb (normalizeHex (si_KeyDataHex s)) (normalizeHex (si_KeyDataHex candidate))
        then "a webauthn signer with this key has already been added"
        else duplicateSignerInitError candidate rest
      else duplicateSignerInitError candidate rest
  end.

(** The loop of [validateSignerInits]: [seen] is [signers[:i]]. *)
Fixpoint check_signers (seen todo : list MultisigSignerInit) : res unit :=
  match todo with
  | [] => Ok tt
  | s :: rest =>
      let msg := validateSignerInit s in
      if negb (String.eqb msg "") then Err (Wrapf msg ErrMultisigAccountSignerValidation) else
      let dup := duplicateSignerInitError s seen in
      if negb (String.eqb dup "") then Err (Wrapf dup ErrMultisigAccountDuplicateSigner)
      else check_signers (seen ++ [s]) rest
  end.

Definition validateSignerInits (threshold : Z) (signers : list MultisigSignerInit) : res unit :=
  if threshold <? 1 then
    Err (Wrapf "threshold must be at least 1" ErrMultisigAccountSignerValidation)
  else if (length signers <? minAccountSigners)%nat then
    Err (Wrapf "at least 2 signers are required" ErrMultisigAccountSignerValidation)
  else if Z.of_nat (length signers) <? threshold then
    Err (Wrapf "threshold cannot exceed the number of signers" ErrMultisigAccountSignerValidation)
  else check_signers [] signers.

Definition signerInitSortKey (s : MultisigSignerInit) : string :=
  if String.eqb (si_Type s) "delegated" then "0:delegated:" +:+ si_GAddress s
  else "1:webauthn:" +:+ normalizeHex (si_KeyDataHex s).

Definition canonicalizeSignerInits (signers : list MultisigSignerInit) : list MultisigSignerInit :=
  sort_by signerInitSortKey signers.

(** ** multisig_factory.go *)
Definition external_signer (kind keyData : string) : ScVal :=
  scVec [scSymbol "External";
         scMap [scMapEntry "key_data" (scBytes keyData);
                scMapEntry "signer_kind" (scVec [scSymbol kind])]].

Definition signer_val (s : MultisigSignerInit) : res ScVal :=
  if String.eqb (si_Type s) "delegated" then
    let? addrVal := res_wrap "resolve delegated signer address" (scAddress (si_GAddress s)) in
    Ok (scVec [scSymbol "Delegated"; addrVal])
  else if String.eqb (si_Type s) "webauthn" then
    let? keyData := res_wrap "decode signer keyDataHex" (hex_decode (si_KeyDataHex s)) in
    Ok (external_signer "WebAuthn" keyData)
  else if String.eqb (si_Type s) "ed25519" then
    let? keyData := res_wrap "decode signer keyDataHex" (hex_decode (si_KeyDataHex s)) in
    Ok (external_signer "Ed25519" keyData)
  else Err (Errorf "unsupported signer type").

Definition buildMultisigAccountInitParams (threshold : Z) (salt : string)
    (signers : list MultisigSignerInit) : res ScVal :=
  let? signerVals := res_map signer_val signers in
  Ok (scMap [scMapEntry "account_salt" (scBytes salt);
             scMapEntry "signers" (scVec signerVals);
             scMapEntry "threshold" (scU32 threshold)]).

Definition hexDecodeSalt (saltHex : string) : res string := res_wrap "decode account salt" (hex_decode saltHex).

(** ** What a valid member and distinct members are *)
Definition deployable_kind (k : string) : bool :=
  String.eqb k MultisigSignerKindDelegated || String.eqb k MultisigSignerKindWebauthn.

(** The key material of a member: its kind and the text that identifies it. *)
Definition member_identity (m : DraftMultisigMember) : string * string :=
  (m_Kind m,
   if String.eqb (m_Kind m) MultisigSignerKindDelegated then m_GAddress m
   else if String.eqb (m_Kind m) MultisigSignerKindWebauthn then normalizeHex (m_KeyDataHex m)
   else normalizeHex (m_PublicKeyHex m)).

Inductive valid_member (m : DraftMultisigMember) : Prop :=
  | valid_delegated :
      m_Kind m = "delegated" -> trim_space (m_Label m) <> "" -> m_GAddress m <> "" ->
      isValidGAddress (m_GAddress m) = true -> valid_member m
  | valid_webauthn :
      m_Kind m = "webauthn" -> trim_space (m_Label m) <> "" -> m_KeyDataHex m <> "" ->
      isValidWebauthnKeyDataHex (m_KeyDataHex m) = true -> valid_member m
  | valid_ed25519 :
      m_Kind m = "ed25519" -> trim_space (m_Label m) <> "" -> m_PublicKeyHex m <> "" ->
      isValidEd25519PublicKeyHex (m_PublicKeyHex m) = true -> valid_member m.

Lemma validateDraftMember_valid m : validateDraftMember m = "" <-> valid_member m.
Proof.
  unfold validateDraftMember. split.
  - destruct (String.eqb_spec (trim_space (m_Label m)) ""); [done|].
    destruct (String.eqb_spec (m_Kind m) MultisigSignerKindDelegated) as [E|].
    { destruct (String.eqb_spec (m_GAddress m) ""); [done|].
      destruct (isValidGAddress _) eqn:?; [|done]. by intros _; apply valid_delegated. }
    destruct (String.eqb_spec (m_Kind m) MultisigSignerKindWebauthn) as [E|].
    { destruct (String.eqb_spec (m_KeyDataHex m) ""); [done|].
      destruct (isValidWebauthnKeyDataHex _) eqn:?; [|done]. by intros _; apply valid_webauthn. }
    destruct (String.eqb_spec (m_Kind m) MultisigSignerKindEd25519) as [E|]; [|done].
    destruct (String.eqb_spec (m_PublicKeyHex m) ""); [done|].
    destruct (isValidEd25519PublicKeyHex _) eqn:?; [|done]. by intros _; apply valid_ed25519.
  - intros [K Hl Hk Hv|K Hl Hk Hv|K Hl Hk Hv]; rewrite K;
      destruct (String.eqb_spec (trim_space (m_Label m)) ""); try done; cbn.
    + destruct (String.eqb_spec (m_GAddress m) ""); [done|]. by rewrite Hv.
    + destruct (String.eqb_spec (m_KeyDataHex m) ""); [done|]. by rewrite Hv.
    + destruct (String.eqb_spec (m_PublicKeyHex m) ""); [done|]. by rewrite Hv.
Qed.

Lemma valid_member_kind m :
  valid_member m -> m_Kind m = "delegated" \/ m_Kind m = "webauthn" \/ m_Kind m = "ed25519".
Proof. intros [? _ _ _|? _ _ _|? _ _ _]; auto. Qed.

(** For a valid candidate the duplicate check compares identities. *)
Lemma duplicateMemberError_fresh c existing :
  valid_member c ->
  duplicateMemberError c existing = "" <->
  (forall m, m ∈ existing -> member_identity m <> member_identity c).
Proof.
  intros Hc. induction existing as [|m rest IH]; cbn [duplicateMemberError].
  - split; [|done]. intros _ m Hm. by apply not_elem_of_nil in Hm.
  - assert ((forall m', m' ∈ m :: rest -> member_identity m' <> member_identity c) <->
            member_identity m <> member_identity c /\
            (forall m', m' ∈ rest -> member_identity m' <> member_identity c)) as Hcons.
    { setoid_rewrite elem_of_cons. split; [intros Hm; split; auto|].
      intros [? ?] m' [->|?]; auto. }
    rewrite Hcons, <- IH. clear Hcons IH.
    destruct (String.eqb_spec (m_Kind m) (m_Kind c)) as [Ek|Ek]; cbn [negb];
      [|assert (member_identity m <> member_identity c) by (by intros [= ? _]); tauto].
    assert (forall x y : string, m_Kind m = m_Kind c ->
      member_identity m = (m_Kind m, x) -> member_identity c = (m_Kind c, y) ->
      (member_identity m <> member_identity c <-> x <> y)) as Hid.
    { intros x y E -> ->. rewrite E. split; [intros Hn ->; by apply Hn | congruence]. }
    destruct Hc as [K _ Hne _|K _ Hne _|K _ Hne _]; rewrite K in *; cbn;
      unfold member_identity in *; rewrite Ek, K in *; cbn in *.
    + destruct (String.eqb_spec (m_GAddress c) ""); [done|].
      destruct (String.eqb_spec (m_GAddress m) (m_GAddress c)) as [E|E]; cbn;
        rewrite (Hid _ _ eq_refl eq_refl eq_refl); [split; [done|tauto] | tauto].
    + destruct (String.eqb_spec (m_KeyDataHex c) ""); [done|].
      destruct (String.eqb_spec (normalizeHex (m_KeyDataHex m)) (normalizeHex (m_KeyDataHex c))) as [E|E];
        cbn; rewrite (Hid _ _ eq_refl eq_refl eq_refl); [split; [done|tauto] | tauto].
    + destruct (String.eqb_spec (m_PublicKeyHex c) ""); [done|].
      destruct (String.eqb_spec (normalizeHex (m_PublicKeyHex m)) (normalizeHex (m_PublicKeyHex c))) as [E|E];
        cbn; rewrite (Hid _ _ eq_refl eq_refl eq_refl); [split; [done|tauto] | tauto].
Qed.

(** ** Hexadecimal keys *)
Definition is_hex (c : Ascii.ascii) : bool := match hex_val c with Some _ => true | None => false end.

Lemma hex_decode_hex s t : hex_decode s = Ok t -> str_forall is_hex s = true.
Proof.
  revert t. induction s as [s IH] using (induction_ltof1 _ String.length). intros t.
  destruct s as [|a [|b s]]; cbn; [done..|].
  unfold is_hex. destruct (hex_val a), (hex_val b); [|done..].
  destruct (hex_decode s) as [u|] eqn:E; [|done]. intros _. cbn.
  eapply IH; [unfold ltof; cbn; lia | exact E].
Qed.

Lemma is_hex_ascii c : is_hex c = true -> (Ascii.N_of_ascii c <? 128)%N = true.
Proof.
  unfold is_hex, hex_val. intros Hc. apply N.ltb_lt. revert Hc.
  repeat case_match; try done; intros _;
    repeat match goal with H : _ && _ = true |- _ =>
             apply andb_true_iff in H as [?%N.leb_le ?%N.leb_le] end; lia.
Qed.

Lemma lower_ascii_idemp c : lower_ascii (lower_ascii c) = lower_ascii c.
Proof.
  unfold lower_ascii at 2 3. destruct (_ && _) eqn:E.
  - apply andb_true_iff in E as [E1%N.leb_le E2%N.leb_le].
    unfold lower_ascii. rewrite Ascii.N_ascii_embedding by lia.
    destruct (_ && _) eqn:E'; [|done].
    apply andb_true_iff in E' as [?%N.leb_le ?%N.leb_le]. lia.
  - unfold lower_ascii. by rewrite E.
Qed.

Lemma lower_ascii_small c :
  (Ascii.N_of_ascii c <? 128)%N = true -> (Ascii.N_of_ascii (lower_ascii c) <? 128)%N = true.
Proof.
  rewrite !N.ltb_lt. unfold lower_ascii. destruct (_ && _) eqn:E; [|done].
  apply andb_true_iff in E as [?%N.leb_le ?%N.leb_le].
  rewrite Ascii.N_ascii_embedding; lia.
Qed.

Lemma to_lower_ascii_idemp s :
  is_ascii s = true -> to_lower (to_lower s) = to_lower s.
Proof.
  intros Hs. unfold to_lower. rewrite Hs.
  assert (is_ascii (str_map lower_ascii s) = true) as ->.
  { revert Hs. unfold is_ascii. induction s as [|c s IH]; cbn; [done|].
    rewrite !andb_true_iff. intros [? ?]. split; [by apply lower_ascii_small|by apply IH]. }
  clear Hs. induction s as [|c s IH]; cbn; [done|]. by rewrite lower_ascii_idemp, IH.
Qed.

Lemma to_lower_of_ascii s : is_ascii (to_lower s) = true -> is_ascii s = true ->
  to_lower s = str_map lower_ascii s.
Proof. intros _ Hs. unfold to_lower. by rewrite Hs. Qed.

(** A valid WebAuthn key, once normalized, is its own normal form. *)
Lemma normalizeHex_webauthn_idemp h :
  isValidWebauthnKeyDataHex h = true ->
  to_lower (normalizeHex h) = normalizeHex h ->
  normalizeHex (normalizeHex h) = normalizeHex h.
Proof.
  unfold isValidWebauthnKeyDataHex. destruct (_ <? _)%nat; [done|].
  destruct (String.prefix "04" (normalizeHex h)) eqn:E; [|done]. intros _ Hl.
  unfold normalizeHex at 1. apply prefix_inv in E as [s Es].
  replace (trim_prefix "0x" (normalizeHex h)) with (normalizeHex h); [done|].
  rewrite Es. unfold trim_prefix. by destruct s.
Qed.

Lemma normalizeHex_ascii_idemp h :
  is_ascii h = true -> to_lower (normalizeHex h) = normalizeHex h.
Proof.
  intros Hh. unfold normalizeHex. apply to_lower_ascii_idemp.
  unfold trim_prefix. destruct (String.prefix "0x" h) eqn:E; [|done].
  apply prefix_inv in E as [s ->]. rewrite str_drop_app.
  unfold is_ascii in Hh. rewrite str_forall_app in Hh. by apply andb_true_iff in Hh as [_ ?].
Qed.

(** ** Canonical order *)
Lemma NoDup_key_inj {A} (key : A -> string) (l : list A) x y :
  NoDup (key <$> l) -> x ∈ l -> y ∈ l -> key x = key y -> x = y.
Proof.
  intros Hn (i & Hi)%list_elem_of_lookup (j & Hj)%list_elem_of_lookup E.
  assert (i = j) as ->; [|congruence].
  apply (NoDup_lookup _ i j (key x) Hn); rewrite list_lookup_fmap; [by rewrite Hi|].
  by rewrite Hj, E.
Qed.

Lemma factory_entry_identity m k si :
  factory_entry m = Some (k, si) ->
  (m_Kind m = "delegated" /\ k = "0:delegated:" +:+ m_GAddress m \/
   m_Kind m = "webauthn" /\ k = "1:webauthn:" +:+ normalizeHex (m_KeyDataHex m)).
Proof.
  unfold factory_entry.
  destruct (String.eqb_spec (m_Kind m) MultisigSignerKindDelegated); [intros [= <- _]; auto|].
  destruct (String.eqb_spec (m_Kind m) MultisigSignerKindWebauthn); [intros [= <- _]; auto|done].
Qed.

Lemma factory_keys_NoDup ms :
  NoDup (member_identity <$> ms) -> NoDup (fst <$> omap factory_entry ms).
Proof.
  induction ms as [|m ms IH]; cbn; [by constructor|].
  intros [Hm Hms]%NoDup_cons. destruct (factory_entry m) as [[k si]|] eqn:E; [|by apply IH].
  cbn. apply NoDup_cons. split; [|by apply IH].
  intros ([k' si'] & Ek & Hin)%list_elem_of_fmap. cbn in Ek. subst k'.
  apply list_elem_of_omap in Hin as (m' & Hm' & E').
  apply Hm, list_elem_of_fmap. exists m'. split; [|done].
  apply factory_entry_identity in E, E'.
  destruct E as [[K ->]|[K ->]], E' as [[K' E']|[K' E']]; try discriminate E';
    apply str_app_inj_l in E'; unfold member_identity; rewrite K, K'; cbn; by rewrite E'.
Qed.

(** The entries a member list and any reordering of it produce are sorted into
    one and the same signer vector. *)
Lemma factory_signers_perm ms ms' :
  NoDup (member_identity <$> ms) -> ms ≡ₚ ms' ->
  draftMembersToFactorySigners ms = draftMembersToFactorySigners ms'.
Proof.
  intros Hn Hp. unfold draftMembersToFactorySigners. f_equal.
  apply sort_by_canonical; [|by rewrite Hp].
  intros x y. apply NoDup_key_inj. by apply factory_keys_NoDup.
Qed.

Lemma StronglySorted_fmap {A B} (f : A -> B) (R : A -> A -> Prop) (R' : B -> B -> Prop) l :
  (forall x y, x ∈ l -> y ∈ l -> R x y -> R' (f x) (f y)) ->
  StronglySorted R l -> StronglySorted R' (f <$> l).
Proof.
  intros Hf Hs. induction Hs as [|x l Hs IH Hx]; cbn; [constructor|].
  constructor.
  - apply IH. intros a b Ha Hb. apply Hf; by right.
  - apply list.Forall_forall. intros b (a & -> & Ha)%list_elem_of_fmap.
    apply Hf; [by left|by right|]. rewrite list.Forall_forall in Hx. by apply Hx.
Qed.

(** A stored key in normal form: what [addMemberToDraft] leaves is valid, and
    hexadecimal text is ASCII. *)
Definition key_normal (m : DraftMultisigMember) : Prop :=
  m_Kind m = "webauthn" -> normalizeHex (normalizeHex (m_KeyDataHex m)) = normalizeHex (m_KeyDataHex m).

Lemma valid_key_normal m : valid_member m -> is_ascii (m_KeyDataHex m) = true -> key_normal m.
Proof.
  intros Hv Ha K. apply normalizeHex_webauthn_idemp; [|by apply normalizeHex_ascii_idemp].
  destruct Hv as [K' _ _ _|_ _ _ Hk|K' _ _ _]; [congruence|done|congruence].
Qed.

Lemma factory_entry_sort_key m k si :
  factory_entry m = Some (k, si) -> key_normal m -> signerInitSortKey si = k.
Proof.
  unfold factory_entry, key_normal.
  destruct (String.eqb_spec (m_Kind m) MultisigSignerKindDelegated); [by intros [= <- <-]|].
  destruct (String.eqb_spec (m_Kind m) MultisigSignerKindWebauthn) as [K|]; [|done].
  intros [= <- <-] Hk. unfold signerInitSortKey. cbn. by rewrite (Hk K).
Qed.

(** The draft flow and the one-shot flow order the same signers the same way. *)
Lemma flows_agree_lemma ms :
  NoDup (member_identity <$> ms) -> (forall m, m ∈ ms -> key_normal m) ->
  draftMembersToFactorySigners ms = canonicalizeSignerInits (snd <$> omap factory_entry ms).
Proof.
  intros Hn Hk. unfold draftMembersToFactorySigners, canonicalizeSignerInits.
  assert (forall x, x ∈ omap factory_entry ms -> signerInitSortKey (snd x) = fst x) as Hkey.
  { intros [k si] (m & Hm & E)%list_elem_of_omap. cbn.
    eapply factory_entry_sort_key; [exact E | by apply Hk]. }
  symmetry. apply sort_by_unique.
  - intros x y (x' & -> & Hx)%list_elem_of_fmap (y' & -> & Hy)%list_elem_of_fmap E.
    f_equal. rewrite !Hkey in E by done.
    by eapply NoDup_key_inj; [apply factory_keys_NoDup| | |].
  - by rewrite sort_by_perm.
  - eapply StronglySorted_fmap; [|apply sort_by_sorted].
    intros x y Hx Hy. unfold by_key. rewrite elem_of_sort_by in Hx, Hy.
    by rewrite !Hkey.
Qed.

(** ** One-shot validation *)
Definition init_identity (s : MultisigSignerInit) : string * string :=
  (si_Type s, if String.eqb (si_Type s) "delegated" then si_GAddress s else normalizeHex (si_KeyDataHex s)).

Inductive valid_init (s : MultisigSignerInit) : Prop :=
  | init_delegated :
      si_Type s = "delegated" -> si_GAddress s <> "" -> isValidGAddress (si_GAddress s) = true -> valid_init s
  | init_webauthn :
      si_Type s = "webauthn" -> si_KeyDataHex s <> "" ->
      isValidWebauthnKeyDataHex (si_KeyDataHex s) = true -> valid_init s.

Lemma validateSignerInit_valid s : validateSignerInit s = "" <-> valid_init s.
Proof.
  unfold validateSignerInit. split.
  - destruct (String.eqb_spec (si_Type s) "delegated") as [E|].
    { destruct (String.eqb_spec (si_GAddress s) ""); [done|].
      destruct (isValidGAddress _) eqn:?; [|done]. by intros _; apply init_delegated. }
    destruct (String.eqb_spec (si_Type s) "webauthn") as [E|]; [|done].
    destruct (String.eqb_spec (si_KeyDataHex s) ""); [done|].
    destruct (isValidWebauthnKeyDataHex _) eqn:?; [|done]. by intros _; apply init_webauthn.
  - intros [K Hk Hv|K Hk Hv]; rewrite K; cbn.
    + destruct (String.eqb_spec (si_GAddress s) ""); [done|]. by rewrite Hv.
    + destruct (String.eqb_spec (si_KeyDataHex s) ""); [done|]. by rewrite Hv.
Qed.

Lemma duplicateSignerInitError_fresh c existing :
  valid_init c ->
  duplicateSignerInitError c existing = "" <-> init_identity c ∉ (init_identity <$> existing).
Proof.
  intros Hc. induction existing as [|s rest IH]; cbn [duplicateSignerInitError fmap list_fmap].
  - split; [intros _; apply not_elem_of_nil | done].
  - rewrite not_elem_of_cons, <- IH. clear IH.
    unfold init_identity.
    destruct (String.eqb_spec (si_Type s) (si_Type c)) as [Ek|Ek]; cbn [negb];
      [|split; [intros ?; split; [congruence|done] | tauto]].
    rewrite Ek. destruct Hc as [K Hne _|K Hne _]; rewrite K; cbn.
    + destruct (String.eqb_spec (si_GAddress c) ""); [done|].
      destruct (String.eqb_spec (si_GAddress s) (si_GAddress c)) as [->|]; cbn;
        [split; [done | intros [? _]; done] | split; [intros ?; split; [congruence|done] | tauto]].
    + destruct (String.eqb_spec (si_KeyDataHex c) ""); [done|].
      destruct (String.eqb_spec (normalizeHex (si_KeyDataHex s)) (normalizeHex (si_KeyDataHex c))) as [->|];
        cbn; [split; [done | intros [? _]; done] | split; [intros ?; split; [congruence|done] | tauto]].
Qed.

Lemma check_signers_ok seen todo :
  NoDup (init_identity <$> seen) ->
  check_signers seen todo = Ok tt <->
  Forall valid_init todo /\ NoDup (init_identity <$> (seen ++ todo)).
Proof.
  revert seen. induction todo as [|s todo IH]; intros seen Hs; cbn [check_signers].
  - rewrite app_nil_r. split; [by split|done].
  - destruct (String.eqb_spec (validateSignerInit s) "") as [Ev|Ev]; cbn [negb].
    2:{ split; [done|]. intros [[Hv _]%Forall_cons _]. by apply validateSignerInit_valid in Hv. }
    apply validateSignerInit_valid in Ev.
    pose proof (duplicateSignerInitError_fresh s seen Ev) as Hd.
    destruct (String.eqb_spec (duplicateSignerInitError s seen) "") as [Ed|Ed]; cbn [negb].
    + apply Hd in Ed. rewrite IH, <- app_assoc, Forall_cons; [cbn; tauto|].
      rewrite fmap_app. apply NoDup_app. split; [done|]. split; [|apply NoDup_singleton].
      intros x Hx ->%list_elem_of_singleton. done.
    + split; [done|]. intros [_ Hn]. exfalso. apply Ed, Hd.
      rewrite fmap_app in Hn. apply NoDup_app in Hn as (_ & Hn & _).
      intros Hin. apply (Hn _ Hin). cbn. left.
Qed.
(** [validateSignerInits] accepts a one-shot signer list exactly when it
    describes an account that can exist: a threshold of at least one and at most
    the number of signers, at least two signers, every signer well formed, and no
    two with the same key. *)
Theorem validateSignerInits_spec threshold signers :
  validateSignerInits threshold signers = Ok tt <->
  1 <= threshold <= Z.of_nat (length signers) /\ (minAccountSigners <= length signers)%nat /\
  Forall valid_init signers /\ NoDup (init_identity <$> signers).
Proof.
  unfold validateSignerInits.
  destruct (Z.ltb_spec threshold 1); [split; [done | intros [? _]; lia]|].
  destruct (Nat.ltb_spec (length signers) minAccountSigners); [split; [done | intros (_ & ? & _); lia]|].
  destruct (Z.ltb_spec (Z.of_nat (length signers)) threshold); [split; [done | intros [? _]; lia]|].
  rewrite check_signers_ok by constructor. cbn. split; [intros [? ?]; repeat split; (done || lia) | tauto].
Qed.

(** A draft's signer vector depends only on who its members are: listed in
    any order, members with distinct keys give the same vector, so the predicted
    address is stable; and the one-shot flow, handed the same signers in any
    order, arranges them identically. *)
Theorem signer_order_canonical ms ms' inits :
  NoDup (member_identity <$> ms) -> (forall m, m ∈ ms -> key_normal m) -> ms ≡ₚ ms' ->
  inits ≡ₚ (snd <$> omap factory_entry ms) ->
  draftMembersToFactorySigners ms' = draftMembersToFactorySigners ms /\
  canonicalizeSignerInits inits = draftMembersToFactorySigners ms.
Proof.
  intros Hn Hk Hp Hi. split; [symmetry; by apply factory_signers_perm|].
  rewrite flows_agree_lemma by done. unfold canonicalizeSignerInits. symmetry.
  apply sort_by_canonical; [|by rewrite Hi].
  intros x y Hx Hy E. apply list_elem_of_fmap in Hx as ([k1 s1] & -> & Hx), Hy as ([k2 s2] & -> & Hy).
  cbn in *. assert ((k1, s1) = (k2, s2)) as [= _ ->]; [|done].
  apply (NoDup_key_inj fst (omap factory_entry ms)); [by apply factory_keys_NoDup|done|done|]. cbn.
  apply list_elem_of_omap in Hx as (m1 & Hm1 & E1), Hy as (m2 & Hm2 & E2).
  by rewrite <- (factory_entry_sort_key _ _ _ E1 (Hk _ Hm1)), <- (factory_entry_sort_key _ _ _ E2 (Hk _ Hm2)).
Qed.
End Signers.

Section Witnesses.
Import Demo.

Definition demo_key (tail : string) : string := "04" +:+ str_repeat "a" 128 +:+ tail.
Definition demo_member (kind g key : string) : DraftMultisigMember :=
  {| m_ID := ""; m_Label := "l"; m_Kind := kind; m_GAddress := g; m_KeyDataHex := key;
     m_CredentialID := ""; m_PublicKeyHex := ""; m_UserID := "" |}.

Lemma signer_order_canonical_witness :
  let a := demo_member "delegated" "GA" "" in
  let b := demo_member "webauthn" "" ("0x" +:+ demo_key "BB") in
  draftMembersToFactorySigners [b; a] = draftMembersToFactorySigners [a; b] /\
  canonicalizeSignerInits (rev (snd <$> omap factory_entry [a; b])) = draftMembersToFactorySigners [a; b].
Proof.
  intros a b. apply (signer_order_canonical [a; b] [b; a]).
  - cbn. apply NoDup_cons. split; [|apply NoDup_singleton]. by rewrite list_elem_of_singleton.
  - intros m Hm K. apply elem_of_cons in Hm as [->|Hm%list_elem_of_singleton]; [done|].
    subst m. vm_compute. reflexivity.
  - constructor.
  - symmetry. apply Permutation_rev.
Defined.
End Witnesses.
End Signers.
