(* ===== verification/ExecuteAuth.v ===== *)
(** * Executing a multisig proposal's authorization
    (multisig_auth_payload.go, multisig_execute_auth.go,
    delegated_check_auth_entry.go, internal/service/walletsig.go)

    The signer map of the smart account's AuthPayload, the choice of approvals
    that meet a threshold, delegated templates and their signatures, and the
    final authorization entries of an execution. *)

From S2P Require Export Signers.
From S2P Require Import Instances.

(** ** internal/service/walletsig.go *)
Module WalletSig.
Definition KeyTypeEd25519 : string := "ed25519".
Definition KeyTypePasskey : string := "passkey".
Definition ErrBadSignature : error := Sentinel "ErrBadSignature".
Definition ErrBadWalletAddress : error := Sentinel "ErrBadWalletAddress".
Definition PublicKeySize : nat := 32.

Section WalletSig.
Context `{StellarSDK}.

Definition VerifyEd25519 (walletGAddress message signature : string) : res unit :=
  match strkey_decode_account walletGAddress with
  | Err _ => Err (Wrapf "decode" ErrBadWalletAddress)
  | Ok pub =>
      if negb (String.length pub =? PublicKeySize)%nat then Err ErrBadWalletAddress
      else if negb (ed25519_verify pub message signature) then Err ErrBadSignature
      else Ok tt
  end.

Definition ValidWalletShape (wallet keyType : string) : bool :=
  if String.eqb keyType KeyTypeEd25519 then is_ok (strkey_decode_account wallet)
  else if String.eqb keyType KeyTypePasskey then is_ok (strkey_decode_contract wallet)
  else false.

Definition KeyTypeForWallet (wallet : string) : string :=
  if is_ok (strkey_decode_account wallet) then KeyTypeEd25519
  else if is_ok (strkey_decode_contract wallet) then KeyTypePasskey
  else "".

Lemma VerifyEd25519_ok w m s :
  VerifyEd25519 w m s = Ok tt <->
  exists pub, strkey_decode_account w = Ok pub /\ String.length pub = PublicKeySize
              /\ ed25519_verify pub m s = true.
Proof.
  unfold VerifyEd25519. destruct (strkey_decode_account w) as [pub|e].
  - destruct (Nat.eqb_spec (String.length pub) PublicKeySize); cbn.
    + destruct (ed25519_verify pub m s) eqn:E; cbn; [by split; [eauto|]|].
      split; [done|]. intros (p & [= <-] & _ & ?). congruence.
    + split; [done|]. by intros (p & [= <-] & ? & _).
  - split; [done|]. by intros (p & [=] & _).
Qed.
End WalletSig.
End WalletSig.

Module ExecuteAuth.
Import Signers.

(** ** multisig_auth_payload.go *)
Record WebauthnApprovalInput := {
  wi_VerifierAddress : string; wi_KeyDataHex : string; wi_SigDataXdrHex : string }.
Record DelegatedApprovalInput := { di_GAddress : string }.

(** A signer-map entry with its marshalled key. *)
Definition keyedEntry : Type := string * (ScVal * ScVal).

(** ** multisig_execute_auth.go *)
Definition ErrMultisigSmartAccountEntryIndex : error := Sentinel "ErrMultisigSmartAccountEntryIndex".

Record MultisigApproval := {
  a_MemberID : string; a_MemberType : string; a_MemberKeyDataHex : string;
  a_MemberGAddress : string; a_WebauthnSigDataXdrHex : string;
  a_DelegatedEntryTemplateXdr : string; a_DelegatedSignedAuthEntryBase64 : string;
  a_DelegatedSignerAddress : string }.

(** Go's [s[:n]] when [len(s) > n]; a negative [n] panics ([None]). *)
Definition take_at_most {A} (n : Z) (l : list A) : option (list A) :=
  if n <? Z.of_nat (length l) then
    if n <? 0 then None else Some (firstn (Z.to_nat n) l)
  else Some l.

Definition pickApprovalsForThreshold (threshold : Z) (webauthnApprovals delegatedApprovals : list MultisigApproval)
    : option (list MultisigApproval * list MultisigApproval) :=
  match take_at_most threshold webauthnApprovals with
  | None => None
  | Some pickedWebauthn =>
      let remaining := threshold - Z.of_nat (length pickedWebauthn) in
      if 0 <? remaining then
        match take_at_most remaining delegatedApprovals with
        | None => None
        | Some pickedDelegated => Some (pickedWebauthn, pickedDelegated)
        end
      else Some (pickedWebauthn, [])
  end.

(** ** delegated_check_auth_entry.go *)
Definition delegatedRawSignatureLen : nat := 64.
Definition delegatedFullEntryMinLen : nat := 128.
Definition ErrDelegatedTemplateMismatch : error := Sentinel "ErrDelegatedTemplateMismatch".
Definition ErrDelegatedSignatureLength : error := Sentinel "ErrDelegatedSignatureLength".
Definition ErrDelegatedSignatureInvalid : error := Sentinel "ErrDelegatedSignatureInvalid".

Definition delegatedCheckAuthArgHex (entry : AuthEntry) : option string :=
  match ae_RootInvocation entry with
  | MkInvocation (ContractFn _ name args) _ =>
      if negb (String.eqb name "__check_auth") then None
      else match args with
           | [ScvBytes b] => Some (hex_encode b)
           | _ => None
           end
  | MkInvocation (CreateContractFn _) _ => None
  end.

Record DelegatedCheckAuthTemplate := {
  dt_AuthDigestHex : string; dt_PreimageXdrBase64 : string; dt_EntryTemplateXdrBase64 : string }.

(** The credentials' signature replaced. *)
Definition with_signature (sig : ScVal) (e : AuthEntry) (c : AddressCredentials) : AuthEntry :=
  {| ae_Credentials := SorobanAddress
       {| ac_Address := ac_Address c; ac_Nonce := ac_Nonce c;
          ac_SignatureExpirationLedger := ac_SignatureExpirationLedger c; ac_Signature := sig |};
     ae_RootInvocation := ae_RootInvocation e |}.

Section ExecuteAuth.
Context `{StellarSDK} `{Unicode}.

Definition webauthn_dedupKey (w : WebauthnApprovalInput) : string :=
  "External:" +:+ wi_VerifierAddress w +:+ ":" +:+ normalizeHex (wi_KeyDataHex w).
Definition delegated_dedupKey (d : DelegatedApprovalInput) : string := "Delegated:" +:+ di_GAddress d.

Definition webauthn_entry (w : WebauthnApprovalInput) : res keyedEntry :=
  let? verifierVal := res_wrap "resolve webauthn approval verifier address" (scAddress (wi_VerifierAddress w)) in
  let? keyData := res_wrap "decode webauthn approval keyDataHex" (hex_decode (normalizeHex (wi_KeyDataHex w))) in
  let? sigData := res_wrap "decode webauthn approval sigDataXdrHex" (hex_decode (normalizeHex (wi_SigDataXdrHex w))) in
  let signerKey := scVec [scSymbol "External"; verifierVal; scBytes keyData] in
  let? keyBin := res_wrap "marshal webauthn approval signer key" (scval_marshal signerKey) in
  Ok (keyBin, scMapEntryVal signerKey (scBytes sigData)).

Definition delegated_entry (d : DelegatedApprovalInput) : res keyedEntry :=
  let? addrVal := res_wrap "resolve delegated approval address" (scAddress (di_GAddress d)) in
  let signerKey := scVec [scSymbol "Delegated"; addrVal] in
  let? keyBin := res_wrap "marshal delegated approval signer key" (scval_marshal signerKey) in
  Ok (keyBin, scMapEntryVal signerKey (scBytes "")).

(** The two loops of [buildMultisigAuthPayload] share the [seen] map: an input
    whose key was seen is skipped, another adds its entry. *)
Fixpoint collect {A} (dedupKey : A -> string) (entry : A -> res keyedEntry)
    (seen : gset string) (l : list A) : res (gset string * list keyedEntry) :=
  match l with
  | [] => Ok (seen, [])
  | a :: l' =>
      if bool_decide (dedupKey a ∈ seen) then collect dedupKey entry seen l'
      else
        let? e := entry a in
        let? ' (seen', es) := collect dedupKey entry ({[dedupKey a]} ∪ seen) l' in
        Ok (seen', e :: es)
  end.

Definition buildMultisigAuthPayload (contextRuleIDs : list Z)
    (webauthn : list WebauthnApprovalInput) (delegated : list DelegatedApprovalInput) : res ScVal :=
  let? ' (seen, es1) := collect webauthn_dedupKey webauthn_entry ∅ webauthn in
  let? ' (_, es2) := collect delegated_dedupKey delegated_entry seen delegated in
  let entries := sort_by fst (es1 ++ es2) in
  let signerEntries := snd <$> entries in
  let ruleIDVals := scU32 <$> contextRuleIDs in
  Ok (scMap [scMapEntry "context_rule_ids" (scVec ruleIDVals);
             scMapEntry "signers" (scMap signerEntries)]).

(** [buildDelegatedCheckAuthTemplate] *)
Definition buildDelegatedCheckAuthTemplate `{Env} {D} (networkPassphrase smartAccountAddress signerG : string)
    (smartAccountAuthEntry : AuthEntry) (contextRuleIDs : list Z) (validUntilLedger : Z)
    : M (World D) DelegatedCheckAuthTemplate :=
  let! authDigest := wrap "compute auth digest"
    (lift (computeAuthDigest smartAccountAuthEntry networkPassphrase contextRuleIDs)) in
  let! entry := wrap "build unsigned delegated entry"
    (buildUnsignedDelegatedGCheckAuthEntry smartAccountAddress signerG authDigest validUntilLedger) in
  let! preimageBytes := wrap "build signing preimage" (lift (sorobanAuthPreimageBytes entry networkPassphrase)) in
  let! entryXDR := wrap "encode entry template" (lift (entry_marshal entry)) in
  ret {| dt_AuthDigestHex := hex_encode authDigest;
         dt_PreimageXdrBase64 := Base64.StdEncoding_EncodeToString preimageBytes;
         dt_EntryTemplateXdrBase64 := Base64.StdEncoding_EncodeToString entryXDR |}.

Definition verifyDelegatedSignature (entryTemplateXdrBase64 signedAuthEntryBase64 signerAddress networkPassphrase : string)
    : res unit :=
  let? signed := res_wrap "decode signed auth entry" (Base64.StdEncoding_DecodeString signedAuthEntryBase64) in
  if (delegatedFullEntryMinLen <? String.length signed)%nat then Ok tt
  else if negb (String.length signed =? delegatedRawSignatureLen)%nat
  then Err (Wrapf "got bytes" ErrDelegatedSignatureLength) else
  let? entry := res_wrap "decode entry template" (entry_unmarshal_b64 entryTemplateXdrBase64) in
  let? preimageBytes := res_wrap "build signing preimage" (sorobanAuthPreimageBytes entry networkPassphrase) in
  let payloadHash := hash_Hash preimageBytes in
  match WalletSig.VerifyEd25519 signerAddress payloadHash signed with
  | Err _ => Err ErrDelegatedSignatureInvalid
  | Ok _ => Ok tt
  end.

Definition applyDelegatedSignature (entryTemplateXdrBase64 signedAuthEntryBase64 signerAddress : string)
    : res AuthEntry :=
  let? signed := res_wrap "decode signed auth entry" (Base64.StdEncoding_DecodeString signedAuthEntryBase64) in
  if (delegatedFullEntryMinLen <? String.length signed)%nat then
    res_wrap "decode full signed entry" (entry_unmarshal signed)
  else if negb (String.length signed =? delegatedRawSignatureLen)%nat
  then Err (Wrapf "got bytes" ErrDelegatedSignatureLength) else
  let? entry := res_wrap "decode entry template" (entry_unmarshal_b64 entryTemplateXdrBase64) in
  match ae_Credentials entry with
  | SourceAccountCredentials => Err ErrNotAddressCredentials
  | SorobanAddress c =>
      let? pubKeyBytes := res_wrap "decode signer public key" (strkey_decode_account signerAddress) in
      let sigScVal := scMap [scMapEntry "public_key" (scBytes pubKeyBytes);
                             scMapEntry "signature" (scBytes signed)] in
      Ok (with_signature (scVec [sigScVal]) entry c)
  end.

Definition signedDelegatedEntryFromApproval (a : MultisigApproval) : res AuthEntry :=
  if String.eqb (a_DelegatedEntryTemplateXdr a) "" || String.eqb (a_DelegatedSignedAuthEntryBase64 a) ""
     || String.eqb (a_DelegatedSignerAddress a) ""
  then Err (Errorf "delegated approval is missing signature material")
  else applyDelegatedSignature (a_DelegatedEntryTemplateXdr a) (a_DelegatedSignedAuthEntryBase64 a)
         (a_DelegatedSignerAddress a).

(** The stored template must still ask for the live digest. *)
Definition check_template (liveDigest : string) (a : MultisigApproval) : res unit :=
  let? tmplEntry := res_wrap "decode delegated approval template" (entry_unmarshal_b64 (a_DelegatedEntryTemplateXdr a)) in
  match delegatedCheckAuthArgHex tmplEntry with
  | Some argHex => if String.eqb argHex liveDigest then Ok tt else Err ErrDelegatedTemplateMismatch
  | None => Err ErrDelegatedTemplateMismatch
  end.

(** The entries kept beside the smart account's own, and those dropped because
    a signed one replaces them. *)
Fixpoint keep_entries (i idx : nat) (entries : list AuthEntry) : list AuthEntry :=
  match entries with
  | [] => []
  | e :: es =>
      if (i =? idx)%nat || isUnsignedAddressAuthEntry e then keep_entries (S i) idx es
      else e :: keep_entries (S i) idx es
  end.

Definition webauthn_input (verifier : string) (a : MultisigApproval) : WebauthnApprovalInput :=
  {| wi_VerifierAddress := verifier; wi_KeyDataHex := a_MemberKeyDataHex a;
     wi_SigDataXdrHex := a_WebauthnSigDataXdrHex a |}.
Definition delegated_input (a : MultisigApproval) : DelegatedApprovalInput :=
  {| di_GAddress := a_MemberGAddress a |}.

Definition buildMultisigExecuteAuthEntries (entries : list AuthEntry) (smartAccountAuthEntryIndex : Z)
    (contextRuleID : Z) (networkPassphrase webauthnVerifierAddress : string)
    (webauthnApprovals delegatedApprovals : list MultisigApproval) : res (list AuthEntry) :=
  if (smartAccountAuthEntryIndex <? 0) || (Z.of_nat (length entries) <=? smartAccountAuthEntryIndex)
  then Err ErrMultisigSmartAccountEntryIndex else
  match entries !! Z.to_nat smartAccountAuthEntryIndex with
  | None => Err ErrMultisigSmartAccountEntryIndex
  | Some smartAccountEntry =>
      let contextRuleIDs := contextRuleIDsForEntry smartAccountEntry contextRuleID in
      let? liveDigest := res_wrap "compute live auth digest"
        (computeAuthDigestHex smartAccountEntry networkPassphrase contextRuleIDs) in
      let? _ := res_map (check_template liveDigest) delegatedApprovals in
      let? authPayload := res_wrap "build multisig auth payload"
        (buildMultisigAuthPayload contextRuleIDs
           (webauthn_input webauthnVerifierAddress <$> webauthnApprovals)
           (delegated_input <$> delegatedApprovals)) in
      match ae_Credentials smartAccountEntry with
      | SourceAccountCredentials => Err ErrNotAddressCredentials
      | SorobanAddress c =>
          let? signed := res_map signedDelegatedEntryFromApproval delegatedApprovals in
          Ok (with_signature authPayload smartAccountEntry c
              :: keep_entries 0 (Z.to_nat smartAccountAuthEntryIndex) entries ++ signed)
      end
  end.
End ExecuteAuth.
(** ** Choosing approvals *)
Lemma take_at_most_ok {A} n (l : list A) :
  0 <= n ->
  take_at_most n l = Some (firstn (Z.to_nat n) l).
Proof.
  intros Hn. unfold take_at_most. destruct (Z.ltb_spec n (Z.of_nat (length l))).
  - destruct (Z.ltb_spec n 0); [lia|done].
  - f_equal. symmetry. apply take_ge. lia.
Qed.

(** With a non-negative threshold, the approvals picked for execution are
    exactly [min threshold (usable approvals)] many; they are a prefix of the
    WebAuthn approvals and a prefix of the delegated ones, and a delegated
    approval is used only once every WebAuthn approval is. *)
Theorem pick_threshold_exact threshold webauthn delegated :
  0 <= threshold ->
  exists pw pd,
    pickApprovalsForThreshold threshold webauthn delegated = Some (pw, pd) /\
    Z.of_nat (length pw + length pd) = Z.min threshold (Z.of_nat (length webauthn + length delegated)) /\
    pw `prefix_of` webauthn /\ pd `prefix_of` delegated /\ (pd <> [] -> pw = webauthn).
Proof.
  intros Ht. unfold pickApprovalsForThreshold. rewrite take_at_most_ok by done.
  set (pw := firstn _ webauthn).
  assert (length pw = Nat.min (Z.to_nat threshold) (length webauthn)) as Hl by apply length_take.
  assert (pw `prefix_of` webauthn) as Hpw by apply prefix_take.
  destruct (Z.ltb_spec 0 (threshold - Z.of_nat (length pw))) as [Hr|Hr].
  - rewrite take_at_most_ok by lia. eexists _, _. split; [done|].
    rewrite length_take. split; [lia|]. split; [done|]. split; [apply prefix_take|].
    intros _. apply take_ge. lia.
  - exists pw, []. cbn. split; [done|]. split; [lia|]. split; [done|].
    split; [apply prefix_nil | done].
Qed.

Definition demo_approval (mid : string) : MultisigApproval :=
  {| a_MemberID := mid; a_MemberType := "webauthn"; a_MemberKeyDataHex := "04ab"; a_MemberGAddress := "";
     a_WebauthnSigDataXdrHex := "cd"; a_DelegatedEntryTemplateXdr := "";
     a_DelegatedSignedAuthEntryBase64 := ""; a_DelegatedSignerAddress := "" |}.

Lemma pick_threshold_exact_witness :
  0 <= 2 /\
  exists pw pd,
    pickApprovalsForThreshold 2 [demo_approval "1"] [demo_approval "2"; demo_approval "3"] = Some (pw, pd) /\
    Z.of_nat (length pw + length pd) = Z.min 2 3 /\
    pw `prefix_of` [demo_approval "1"] /\ pd `prefix_of` [demo_approval "2"; demo_approval "3"] /\
    (pd <> [] -> pw = [demo_approval "1"]).
Proof.
  split; [lia|].
  apply (pick_threshold_exact 2 [demo_approval "1"] [demo_approval "2"; demo_approval "3"]). lia.
Defined.
(** ** Lower-case hexadecimal *)
Lemma hex_digit_val c n : hex_val c = Some n -> lower_ascii c = c -> hex_digit n = c /\ (n < 16)%N.
Proof.
  unfold hex_val, lower_ascii, hex_digit. intros Hv Hl.
  rewrite <- (Ascii.ascii_N_embedding c). revert Hv Hl.
  assert (Ascii.N_of_ascii c < 256)%N as Hb by apply Ascii.N_ascii_bounded.
  set (x := Ascii.N_of_ascii c) in *. intros Hv Hl.
  destruct ((48 <=? x) && (x <=? 57))%N eqn:E1.
  { apply andb_true_iff in E1 as [?%N.leb_le ?%N.leb_le]. injection Hv as <-.
    destruct (N.ltb_spec (x - 48) 10); [|lia]. split; [f_equal|]; lia. }
  destruct ((97 <=? x) && (x <=? 102))%N eqn:E2.
  { apply andb_true_iff in E2 as [?%N.leb_le ?%N.leb_le]. injection Hv as <-.
    destruct (N.ltb_spec (x - 87) 10); [lia|]. split; [f_equal|]; lia. }
  destruct ((65 <=? x) && (x <=? 70))%N eqn:E3; [|done].
  apply andb_true_iff in E3 as [?%N.leb_le ?%N.leb_le]. exfalso.
  destruct ((65 <=? x) && (x <=? 90))%N eqn:E4.
  - apply (f_equal Ascii.N_of_ascii) in Hl. fold x in Hl.
    rewrite Ascii.N_ascii_embedding in Hl; lia.
  - apply andb_false_iff in E4 as [?%N.leb_gt|?%N.leb_gt]; lia.
Qed.

Lemma hex_encode_decode s b :
  hex_decode s = Ok b -> str_map lower_ascii s = s -> hex_encode b = s.
Proof.
  revert b. induction s as [s IH] using (induction_ltof1 _ String.length). intros r.
  destruct s as [|a [|c s]]; cbn; [by intros [= <-]|done|].
  destruct (hex_val a) as [x|] eqn:Ex, (hex_val c) as [y|] eqn:Ey; [|done..].
  destruct (hex_decode s) as [t|] eqn:E; [|done]. intros [= <-] [= Ea Ec Es].
  apply hex_digit_val in Ex as [Ex ?]; [|done]. apply hex_digit_val in Ey as [Ey ?]; [|done].
  cbn. rewrite Ascii.N_ascii_embedding by lia.
  replace ((x * 16 + y) / 16)%N with x by (apply N.div_unique with y; lia).
  replace ((x * 16 + y) mod 16)%N with y by (apply N.mod_unique with x; lia).
  rewrite Ex, Ey. do 2 f_equal. apply IH; [unfold ltof; cbn; lia | done | done].
Qed.

(** Two ASCII keys with the same decoding have the same normal form. *)
Lemma normalizeHex_decode_inj `{Unicode} h h' b :
  is_ascii h = true -> is_ascii h' = true ->
  hex_decode (normalizeHex h) = Ok b -> hex_decode (normalizeHex h') = Ok b ->
  normalizeHex h = normalizeHex h'.
Proof.
  assert (forall h, is_ascii h = true -> hex_decode (normalizeHex h) = Ok b ->
          hex_encode b = normalizeHex h) as Hone; [|intros; etrans; [symmetry|]; auto].
  clear h h'. intros h Ha Hd. apply hex_encode_decode; [done|].
  pose proof (normalizeHex_ascii_idemp h Ha) as Hi. unfold to_lower at 1 in Hi.
  replace (is_ascii (normalizeHex h)) with true in Hi; [done|].
  symmetry. apply hex_decode_hex in Hd. unfold is_ascii.
  eapply str_forall_impl; [|exact Hd]. apply is_hex_ascii.
Qed.

(** ** The signer map *)
Section Payload.
Context `{StellarSDK} `{Unicode}.

(** What the loop leaves: one entry per key not seen before. *)
Lemma collect_spec {A} (dedupKey : A -> string) (entry : A -> res keyedEntry) seen l seen' es :
  collect dedupKey entry seen l = Ok (seen', es) ->
  seen' = seen ∪ list_to_set (dedupKey <$> l) /\
  exists l', Forall2 (fun a e => entry a = Ok e) l' es /\ l' ⊆ l /\
    NoDup (dedupKey <$> l') /\ (forall a, a ∈ l' -> dedupKey a ∉ seen) /\
    (forall a, a ∈ l -> dedupKey a ∈ seen \/ dedupKey a ∈ dedupKey <$> l').
Proof.
  revert seen seen' es. induction l as [|a l IH]; intros seen seen' es; cbn [collect].
  { intros [= <- <-]. split; [set_solver|]. exists []. split; [constructor|].
    split; [done|]. split; [constructor|]. set_solver. }
  case_bool_decide as Hseen.
  - intros (-> & l' & Hf & Hsub & Hn & Hs & Hc)%IH. split; [set_solver|].
    exists l'. split; [done|]. split; [set_solver|]. split; [done|]. set_solver.
  - intros Hr. run_inv. destruct x0 as [s1 es1]. run_inv.
    match goal with H : collect _ _ _ _ = _ |- _ => apply IH in H as (-> & l' & Hf & Hsub & Hn & Hs & Hc) end.
    split; [set_solver|]. exists (a :: l'). split; [by constructor|]. split; [set_solver|].
    cbn. rewrite NoDup_cons. repeat split; try done; set_solver.
Qed.

Definition is_signer_key (v : ScVal) : Prop :=
  (exists a k, v = scVec [scSymbol "External"; ScvAddress a; scBytes k]) \/
  (exists a, v = scVec [scSymbol "Delegated"; ScvAddress a]).

(** XDR encodes distinct signer keys distinctly, and a strkey is determined by
    the key it decodes to. *)
Record codec_injective : Prop := {
  marshal_inj : forall v w r, is_signer_key v -> is_signer_key w ->
    scval_marshal v = Ok r -> scval_marshal w = Ok r -> v = w;
  account_inj : forall s t r, strkey_decode_account s = Ok r -> strkey_decode_account t = Ok r -> s = t;
  contract_inj : forall s t r, strkey_decode_contract s = Ok r -> strkey_decode_contract t = Ok r -> s = t;
}.

Lemma scAddress_inv s v : scAddress s = Ok v -> exists a, scAddressFromString s = Ok a /\ v = ScvAddress a.
Proof. unfold scAddress. intros ?. run_inv. eauto. Qed.

Lemma scAddressFromString_inj s t a :
  codec_injective -> scAddressFromString s = Ok a -> scAddressFromString t = Ok a -> s = t.
Proof.
  intros Hc. unfold scAddressFromString, contractIDFromAddress.
  destruct (String.prefix "G" s), (String.prefix "G" t),
    (String.prefix "C" s), (String.prefix "C" t); intros Hs Ht; run_inv; try discriminate;
    eauto using account_inj, contract_inj.
Qed.
Definition webauthn_key (w : WebauthnApprovalInput) (k : ScVal) : Prop :=
  exists a b, scAddressFromString (wi_VerifierAddress w) = Ok a /\
    hex_decode (normalizeHex (wi_KeyDataHex w)) = Ok b /\
    k = scVec [scSymbol "External"; ScvAddress a; scBytes b].
Definition delegated_key (d : DelegatedApprovalInput) (k : ScVal) : Prop :=
  exists a, scAddressFromString (di_GAddress d) = Ok a /\
    k = scVec [scSymbol "Delegated"; ScvAddress a].

(** An entry carries its signer key and the key's marshalled bytes. *)
Definition keyed_for (P : ScVal -> Prop) (e : keyedEntry) : Prop :=
  exists k s, P k /\ scval_marshal k = Ok (fst e) /\ snd e = (k, scBytes s).

Lemma webauthn_entry_inv w e : webauthn_entry w = Ok e -> keyed_for (webauthn_key w) e.
Proof.
  unfold webauthn_entry. intros ?. run_inv.
  match goal with H : scAddress _ = _ |- _ => apply scAddress_inv in H as (a & ? & ->) end.
  eexists _, _. split; [by eexists _, _|]. by split.
Qed.

Lemma delegated_entry_inv d e : delegated_entry d = Ok e -> keyed_for (delegated_key d) e.
Proof.
  unfold delegated_entry. intros ?. run_inv.
  match goal with H : scAddress _ = _ |- _ => apply scAddress_inv in H as (a & ? & ->) end.
  eexists _, _. split; [by eexists|]. by split.
Qed.

Lemma webauthn_key_shape w k : webauthn_key w k -> is_signer_key k.
Proof. intros (a & b & _ & _ & ->). left. by eexists _, _. Qed.
Lemma delegated_key_shape d k : delegated_key d k -> is_signer_key k.
Proof. intros (a & _ & ->). right. by eexists. Qed.

(** The last colon of a dedup key is the separator. *)
Lemma last_colon_inj v n v' n' :
  str_forall is_hex n = true -> str_forall is_hex n' = true ->
  v +:+ ":" +:+ n = v' +:+ ":" +:+ n' -> v = v' /\ n = n'.
Proof.
  intros Hn Hn'. assert (forall w m, str_forall is_hex (w +:+ String ":" m) = false) as Hcolon.
  { intros w m. rewrite str_forall_app. cbn. by rewrite andb_false_r. }
  revert v'. induction v as [|c v IH]; intros [|c' v'].
  - intros [= ->]. done.
  - intros [= _ E]. rewrite E, Hcolon in Hn. done.
  - intros [= _ E]. rewrite <- E, Hcolon in Hn'. done.
  - intros [= -> E]. apply IH in E as [-> ->]. done.
Qed.

(** The inputs of both kinds together. *)
Definition input : Type := WebauthnApprovalInput + DelegatedApprovalInput.
Definition input_key (i : input) : string :=
  match i with inl w => webauthn_dedupKey w | inr d => delegated_dedupKey d end.
Definition input_signer (i : input) (k : ScVal) : Prop :=
  match i with inl w => webauthn_key w k | inr d => delegated_key d k end.
Definition input_ascii (i : input) : Prop :=
  match i with inl w => is_ascii (wi_KeyDataHex w) = true | inr _ => True end.

Lemma input_signer_shape i k : input_signer i k -> is_signer_key k.
Proof. destruct i; [apply webauthn_key_shape | apply delegated_key_shape]. Qed.

Lemma input_signer_same_key i j k :
  input_key i = input_key j -> input_signer i k -> (exists k', input_signer j k') -> input_signer j k.
Proof.
  destruct i as [w|d], j as [w'|d']; cbn; [|by intros [=]|by intros [=]|].
  - unfold webauthn_dedupKey. intros [= E] (a & b & Ha & Hb & ->) (k' & a' & b' & Ha' & Hb' & ->).
    apply last_colon_inj in E as [E1 E2]; [|by eapply hex_decode_hex..].
    exists a, b. by rewrite <- E1, <- E2.
  - unfold delegated_dedupKey, delegated_key. intros [= ->] ? _. done.
Qed.

Lemma input_key_inj (Hc : codec_injective) i j k :
  input_ascii i -> input_ascii j -> input_signer i k -> input_signer j k -> input_key i = input_key j.
Proof.
  destruct i as [w|d], j as [w'|d']; cbn; intros Hi Hj.
  - intros (a & b & Ha & Hb & ->) (a' & b' & Ha' & Hb' & [= <- <-]).
    unfold webauthn_dedupKey. f_equal.
    by rewrite (scAddressFromString_inj _ _ _ Hc Ha Ha'), (normalizeHex_decode_inj _ _ _ Hi Hj Hb Hb').
  - intros (a & b & _ & _ & ->) (a' & _ & [=]).
  - intros (a & _ & ->) (a' & b & _ & _ & [=]).
  - intros (a & Ha & ->) (a' & Ha' & [= <-]). unfold delegated_dedupKey.
    by rewrite (scAddressFromString_inj _ _ _ Hc Ha Ha').
Qed.

(** The entries of both loops, before the sort. *)
Lemma payload_entries rules ws ds v :
  buildMultisigAuthPayload rules ws ds = Ok v ->
  exists inputs es,
    v = scMap [scMapEntry "context_rule_ids" (scVec (scU32 <$> rules));
               scMapEntry "signers" (scMap (snd <$> sort_by fst es))] /\
    Forall2 (fun i e => keyed_for (input_signer i) e) inputs es /\
    inputs ⊆ (inl <$> ws) ++ (inr <$> ds) /\ NoDup (input_key <$> inputs) /\
    (forall i, i ∈ (inl <$> ws) ++ (inr <$> ds) -> input_key i ∈ input_key <$> inputs).
Proof.
  unfold buildMultisigAuthPayload. intros Hr. run_inv. destruct x as [seen es1]. run_inv.
  destruct x as [seen' es2]. run_inv.
  repeat match goal with H : collect _ _ _ _ = _ |- _ => apply collect_spec in H end.
  destruct H1 as (-> & l1 & F1 & S1 & N1 & _ & C1), H2 as (-> & l2 & F2 & S2 & N2 & D2 & C2).
  exists ((inl <$> l1) ++ (inr <$> l2)), (es1 ++ es2). split; [done|].
  rewrite fmap_app, <- !list_fmap_compose. split; [|split; [|split]].
  - apply Forall2_app; apply Forall2_fmap_l; eapply Forall2_impl; eauto;
      [apply webauthn_entry_inv | apply delegated_entry_inv].
  - set_solver.
  - apply NoDup_app. split; [exact N1|]. split; [|exact N2].
    intros k (w & -> & _)%list_elem_of_fmap (d & E & _)%list_elem_of_fmap. done.
  - intros i [Hi|Hi]%elem_of_app; apply list_elem_of_fmap in Hi as (x & -> & Hx).
    + apply elem_of_app. left. destruct (C1 _ Hx) as [?|?]; [set_solver|done].
    + apply elem_of_app. right. destruct (C2 _ Hx) as [Hin|?]; [|done].
      apply elem_of_union in Hin as [?|Hin]; [set_solver|].
      apply elem_of_list_to_set, list_elem_of_fmap in Hin as (w & E & _). done.
Qed.
(** Strictly ascending marshalled keys, what Soroban requires of an ScMap. *)
Definition marshalled_lt (x y : ScVal * ScVal) : Prop :=
  exists a b, scval_marshal (fst x) = Ok a /\ scval_marshal (fst y) = Ok b /\
    str_leb a b = true /\ a <> b.

Lemma keyed_NoDup (Hc : codec_injective) inputs es :
  Forall input_ascii inputs -> NoDup (input_key <$> inputs) ->
  Forall2 (fun i e => keyed_for (input_signer i) e) inputs es -> NoDup (fst <$> es).
Proof.
  intros Ha Hn Hf. induction Hf as [|i e inputs es Hie Hf IH]; [constructor|]. cbn in *.
  apply Forall_cons in Ha as [Hi Ha]. apply NoDup_cons in Hn as [Hni Hn].
  apply NoDup_cons. split; [|by apply IH].
  intros (e' & Ee & He')%list_elem_of_fmap.
  apply (Forall2_elem_of_r _ _ _ _ Hf) in He' as (j & Hj & k' & s' & Hk' & Hm' & _).
  destruct Hie as (k & s & Hk & Hm & _). rewrite <- Ee in Hm'.
  assert (k' = k) as -> by eauto using marshal_inj, input_signer_shape.
  apply Hni, list_elem_of_fmap. exists j. split; [|done].
  eapply input_key_inj; eauto. rewrite list.Forall_forall in Ha. by apply Ha.
Qed.

Lemma sorted_strict es :
  NoDup (fst <$> es) -> Forall (fun e => scval_marshal (fst (snd e)) = Ok (fst e)) es ->
  StronglySorted (by_key fst) es -> StronglySorted marshalled_lt (snd <$> es).
Proof.
  intros Hn Hk Hs. induction Hs as [|e es Hs IH He]; cbn; [constructor|].
  apply Forall_cons in Hk as [Hke Hk]. apply NoDup_cons in Hn as [Hne Hn].
  constructor; [by apply IH|]. apply list.Forall_forall.
  intros x (e' & -> & He')%list_elem_of_fmap. rewrite list.Forall_forall in Hk, He.
  exists (fst e), (fst e'). split; [done|]. split; [by apply Hk|]. split; [by apply He|].
  intros E. apply Hne. rewrite E. by apply list_elem_of_fmap_2.
Qed.

(** The AuthPayload's signer map is what Soroban accepts and loses no
    approver: its keys are strictly ascending by their XDR encoding, they are
    exactly the signer keys of the approvals given (duplicates collapse), and
    there are as many as distinct approver identities. *)
Theorem auth_payload_signers (Hc : codec_injective) rules ws ds v :
  Forall (fun w => is_ascii (wi_KeyDataHex w) = true) ws ->
  buildMultisigAuthPayload rules ws ds = Ok v ->
  exists signers,
    v = scMap [scMapEntry "context_rule_ids" (scVec (scU32 <$> rules));
               scMapEntry "signers" (scMap signers)] /\
    StronglySorted marshalled_lt signers /\
    (forall k, k ∈ fst <$> signers <->
       (exists w, w ∈ ws /\ webauthn_key w k) \/ (exists d, d ∈ ds /\ delegated_key d k)) /\
    length signers =
      size (list_to_set ((webauthn_dedupKey <$> ws) ++ (delegated_dedupKey <$> ds)) : gset string).
Proof.
  intros Ha (inputs & es & -> & Hf & Hsub & Hn & Hcov)%payload_entries.
  assert (Forall input_ascii inputs) as Hascii.
  { apply list.Forall_forall. intros i [Hi|Hi]%Hsub%elem_of_app;
      apply list_elem_of_fmap in Hi as (x & -> & Hx); cbn; [|done].
    rewrite list.Forall_forall in Ha. by apply Ha. }
  pose proof (keyed_NoDup Hc _ _ Hascii Hn Hf) as Hnd.
  eexists. split; [done|]. split; [|split].
  - apply sorted_strict; [by rewrite sort_by_perm| |apply sort_by_sorted].
    rewrite sort_by_perm. apply list.Forall_forall. intros e He.
    apply (Forall2_elem_of_r _ _ _ _ Hf) in He as (i & _ & k & s & _ & Hm & ->). done.
  - intros k. rewrite sort_by_perm, <- list_fmap_compose, list_elem_of_fmap. split.
    + intros (e & -> & He). apply (Forall2_elem_of_r _ _ _ _ Hf) in He as (i & Hi & k' & s & Hk & _ & E).
      cbn. rewrite E. cbn. apply Hsub, elem_of_app in Hi as [Hi|Hi];
        apply list_elem_of_fmap in Hi as (x & -> & Hx); eauto.
    + assert (forall i, i ∈ (inl <$> ws) ++ (inr <$> ds) -> input_signer i k ->
        exists e, k = (fst ∘ snd) e /\ e ∈ es) as Hall.
      { intros i Hi Hk. apply Hcov, list_elem_of_fmap in Hi as (j & Ej & Hj).
        apply (Forall2_elem_of_l _ _ _ _ Hf) in Hj as (e & He & k' & s & Hk' & Hm & E).
        exists e. split; [|done]. cbn. rewrite E. cbn.
        pose proof (input_signer_same_key i j k Ej Hk (ex_intro _ k' Hk')) as Hjk.
        destruct j as [w|d]; cbn in *.
        - destruct Hjk as (a & b & Ea & Eb & ->), Hk' as (a' & b' & Ea' & Eb' & ->). congruence.
        - destruct Hjk as (a & Ea & ->), Hk' as (a' & Ea' & ->). congruence. }
      intros [(w & Hw & Hk)|(d & Hd & Hk)]; [apply (Hall (inl w)) | apply (Hall (inr d))]; try done; set_solver.
  - transitivity (length (input_key <$> inputs)).
    { rewrite !length_fmap, length_sort_by. symmetry. by eapply Forall2_length. }
    rewrite <- (size_list_to_set (C := gset string) (input_key <$> inputs)) by done.
    f_equal. apply leibniz_equiv. intros k. rewrite !elem_of_list_to_set.
    replace ((webauthn_dedupKey <$> ws) ++ (delegated_dedupKey <$> ds))
      with (input_key <$> ((inl <$> ws) ++ (inr <$> ds)) : list string)
      by (by rewrite fmap_app, <- !list_fmap_compose).
    rewrite !list_elem_of_fmap. split.
    + intros (i & -> & Hi). eauto.
    + intros (i & -> & Hi). apply list_elem_of_fmap, Hcov, Hi.
Qed.
End Payload.
Section Entries.
Context `{StellarSDK} `{Unicode}.

(** The entries kept: all but the smart account's own and the unsigned ones. *)
Lemma keep_entries_spec i idx entries :
  (i <= idx)%nat ->
  keep_entries i idx entries =
    List.filter (fun e => negb (isUnsignedAddressAuthEntry e)) (delete (idx - i)%nat entries).
Proof.
  assert (forall i idx l, (idx < i)%nat ->
    keep_entries i idx l = List.filter (fun e => negb (isUnsignedAddressAuthEntry e)) l) as Hpast.
  { clear. intros i idx l. revert i. induction l as [|e l IH]; intros i Hi; cbn; [done|].
    destruct (Nat.eqb_spec i idx); [lia|]. cbn.
    destruct (isUnsignedAddressAuthEntry e); cbn; by rewrite IH by lia. }
  revert i. induction entries as [|e entries IH]; intros i Hi; [done|].
  cbn [keep_entries]. destruct (Nat.eqb_spec i idx) as [->|Hne]; cbn [orb].
  - rewrite Nat.sub_diag. cbn. apply Hpast. lia.
  - replace (idx - i)%nat with (S (idx - S i)) by lia. cbn.
    rewrite IH by lia. by destruct (isUnsignedAddressAuthEntry e).
Qed.

Lemma res_map_ok {A B} (f : A -> res B) l l' :
  res_map f l = Ok l' <-> Forall2 (fun a b => f a = Ok b) l l'.
Proof.
  revert l'. induction l as [|a l IH]; intros l'; cbn.
  - split; [intros [= <-]; constructor | intros Hf; by inversion Hf].
  - split.
    + intros ?. run_inv. constructor; [done|]. by apply IH.
    + intros Hf. inversion Hf as [|? b ? l0 Hb Hl]; subst. rewrite Hb. cbn.
      apply IH in Hl. by rewrite Hl.
Qed.

(** The template's check_auth argument is the digest. *)
Definition template_asks (digest : string) (a : MultisigApproval) : Prop :=
  exists e, entry_unmarshal_b64 (a_DelegatedEntryTemplateXdr a) = Ok e /\
    delegatedCheckAuthArgHex e = Some digest.

Lemma check_template_ok d a u : check_template d a = Ok u -> template_asks d a.
Proof.
  unfold check_template. intros Hc. run_inv.
  destruct (delegatedCheckAuthArgHex _) eqn:E; [|done].
  destruct (String.eqb_spec s d) as [->|]; [|done]. eexists. eauto.
Qed.

(** What an execution submits: the smart account's entry with the combined
    payload as its signature, then every other simulated entry that is signed,
    then one signed entry per delegated approval; every delegated approval used
    was signed for the digest of the entry as it is now, and of the smart
    account's and the kept entries none is unsigned. *)
Theorem execute_entries_shape entries idx rule np verifier ws ds out :
  buildMultisigExecuteAuthEntries entries idx rule np verifier ws ds = Ok out ->
  exists e c payload signed digest,
    0 <= idx /\ entries !! Z.to_nat idx = Some e /\ ae_Credentials e = SorobanAddress c /\
    buildMultisigAuthPayload (contextRuleIDsForEntry e rule)
      (webauthn_input verifier <$> ws) (delegated_input <$> ds) = Ok payload /\
    Forall2 (fun a s => signedDelegatedEntryFromApproval a = Ok s) ds signed /\
    computeAuthDigestHex e np (contextRuleIDsForEntry e rule) = Ok digest /\
    Forall (template_asks digest) ds /\
    let kept := List.filter (fun e => negb (isUnsignedAddressAuthEntry e)) (delete (Z.to_nat idx) entries) in
    out = with_signature payload e c :: kept ++ signed /\
    Forall (fun e => isUnsignedAddressAuthEntry e = false) (with_signature payload e c :: kept).
Proof.
  unfold buildMultisigExecuteAuthEntries.
  destruct (Z.ltb_spec idx 0); [done|]. destruct (_ <=? idx); [done|]. cbn [orb].
  destruct (entries !! Z.to_nat idx) as [e|] eqn:Ee; [|done]. intros Hr. run_inv.
  destruct (ae_Credentials e) as [|c] eqn:Ec; [done|]. run_inv.
  repeat match goal with H : res_map _ _ = Ok _ |- _ => apply res_map_ok in H end.
  match goal with H : buildMultisigAuthPayload _ _ _ = Ok ?v |- _ => rename H into Hp; rename v into payload end.
  exists e, c. eexists payload, _, _. do 6 (split; [done|]). split; [|split].
  - match goal with H : Forall2 (fun a _ => check_template _ a = _) _ _ |- _ => rename H into Ht end.
    clear -Ht. induction Ht; constructor; [by eapply check_template_ok | done].
  - by rewrite keep_entries_spec, Nat.sub_0_r by lia.
  - constructor.
    + apply payload_entries in Hp as (? & ? & -> & _). done.
    + apply list.Forall_forall. intros k [_ Hk]%list_elem_of_In%filter_In. by apply negb_true_iff.
Qed.
End Entries.
Section DelegatedSignatures.
Context `{StellarSDK}.

(** A raw Ed25519 signature that passes [verifyDelegatedSignature] when a
    member approves can be applied when the proposal is executed: the result is
    the template with that signature and the signer's own public key, the key
    which verified it over the template's signing hash. *)
Theorem verified_signature_applies template signed64 signer np sig :
  Base64.StdEncoding_DecodeString signed64 = Ok sig -> String.length sig = delegatedRawSignatureLen ->
  verifyDelegatedSignature template signed64 signer np = Ok tt ->
  exists e c pub preimage,
    entry_unmarshal_b64 template = Ok e /\ ae_Credentials e = SorobanAddress c /\
    strkey_decode_account signer = Ok pub /\
    sorobanAuthPreimageBytes e np = Ok preimage /\ ed25519_verify pub (hash_Hash preimage) sig = true /\
    applyDelegatedSignature template signed64 signer =
      Ok (with_signature (scVec [scMap [scMapEntry "public_key" (scBytes pub);
                                        scMapEntry "signature" (scBytes sig)]]) e c).
Proof.
  intros Hs Hl. unfold verifyDelegatedSignature, applyDelegatedSignature. rewrite Hs. cbn.
  rewrite Hl. cbn. intros Hv. run_inv.
  destruct (WalletSig.VerifyEd25519 _ _ _) as [[]|] eqn:Ev; [|done].
  apply WalletSig.VerifyEd25519_ok in Ev as (pub & Hp & _ & Hok).
  match goal with H : entry_unmarshal_b64 _ = Ok ?e |- _ => rename H into He; rename e into entry end.
  match goal with H : sorobanAuthPreimageBytes _ _ = Ok _ |- _ => rename H into Hpre end.
  destruct (ae_Credentials entry) as [|c] eqn:Ec.
  { unfold sorobanAuthPreimageBytes in Hpre. by rewrite Ec in Hpre. }
  exists entry, c, pub. eexists. do 5 (split; [done|]). rewrite He. cbn. rewrite Ec. cbn. by rewrite Hp.
Qed.
End DelegatedSignatures.

Section Witnesses.
Import Demo.

Lemma demo_codec_injective : codec_injective.
Proof.
  split; cbn; [|apply decode_key_inj|apply decode_key_inj].
  intros v w r Hv Hw [= <-] [= E]. unfold encode_val in E. apply join_inj in E.
  assert (forall a b : ScAddress, addr_tok a = addr_tok b -> a = b) as Haddr.
  { intros [k|k|z] [k'|k'|z']; cbn; intros [= E']; subst; try done.
    by apply pretty_Z_inj in E' as ->. }
  assert (forall a b x y, addr_tok a ++ x = addr_tok b ++ y -> addr_tok a = addr_tok b /\ x = y) as Happ.
  { intros a b x y Hxy. apply app_inj_1 in Hxy; [done|]. by destruct a, b. }
  destruct Hv as [(a & k & ->)|(a & ->)], Hw as [(a' & k' & ->)|(a' & ->)]; cbn in E;
    try discriminate E; injection E as E; apply Happ in E as [E1 E2]; apply Haddr in E1 as ->;
    try injection E2 as ->; done.
Qed.

Lemma auth_payload_signers_witness :
  let ws := [{| wi_VerifierAddress := "CV"; wi_KeyDataHex := "0x04AB"; wi_SigDataXdrHex := "01" |};
             {| wi_VerifierAddress := "CV"; wi_KeyDataHex := "04ab"; wi_SigDataXdrHex := "02" |}] in
  let ds := [{| di_GAddress := "GA" |}] in
  exists v signers,
    buildMultisigAuthPayload [0] ws ds = Ok v /\
    StronglySorted marshalled_lt signers /\ length signers = 2%nat.
Proof.
  intros ws ds. eexists.
  destruct (auth_payload_signers demo_codec_injective [0] ws ds _
    ltac:(repeat constructor) ltac:(vm_compute; reflexivity)) as (sg & _ & Hs & _ & Hl).
  exists sg. split; [vm_compute; reflexivity|]. split; [exact Hs|]. rewrite Hl. vm_compute. reflexivity.
Defined.

Definition demo_smart_entry : AuthEntry :=
  {| ae_Credentials := SorobanAddress
       {| ac_Address := AddrContract "S"; ac_Nonce := 7; ac_SignatureExpirationLedger := 900;
          ac_Signature := ScvVoid |};
     ae_RootInvocation := MkInvocation (ContractFn (AddrContract "T") "transfer" []) [] |}.

(** The delegated entry whose argument is the digest of [demo_smart_entry]. *)
Definition demo_template (signer : string) : AuthEntry :=
  {| ae_Credentials := SorobanAddress
       {| ac_Address := AddrAccount signer; ac_Nonce := 8; ac_SignatureExpirationLedger := 900;
          ac_Signature := scVec [] |};
     ae_RootInvocation := MkInvocation
       (ContractFn (AddrContract "S") "__check_auth"
          [scBytes (match computeAuthDigest demo_smart_entry "net" [0] with Ok d => d | Err _ => "" end)]) [] |}.

Definition raw_sig : string := str_repeat "s" 64.

Definition demo_delegated (mid signer : string) : MultisigApproval :=
  {| a_MemberID := mid; a_MemberType := "delegated"; a_MemberKeyDataHex := "";
     a_MemberGAddress := "G" +:+ signer; a_WebauthnSigDataXdrHex := "";
     a_DelegatedEntryTemplateXdr := b64 (encode_entry (demo_template signer));
     a_DelegatedSignedAuthEntryBase64 := b64 raw_sig; a_DelegatedSignerAddress := "G" +:+ signer |}.

Lemma execute_entries_shape_witness :
  exists digest,
    computeAuthDigestHex demo_smart_entry "net" [0] = Ok digest /\
    Forall (template_asks digest) [demo_delegated "2" "A"].
Proof.
  assert (exists out, buildMultisigExecuteAuthEntries [demo_smart_entry] 0 0 "net" "CV"
    [demo_approval "1"] [demo_delegated "2" "A"] = Ok out) as [out Hout]
    by (eexists; vm_compute; reflexivity).
  destruct (execute_entries_shape [demo_smart_entry] 0 0 "net" "CV" [demo_approval "1"]
    [demo_delegated "2" "A"] out Hout)
    as (e & c & payload & signed & digest & _ & He & _ & _ & _ & Hd & Ht & _).
  injection He as <-. exists digest. split; [exact Hd | exact Ht].
Defined.

Definition key32 : string := str_repeat "A" 32.

Lemma verified_signature_applies_witness :
  let tmpl := b64 (encode_entry (demo_template key32)) in
  let sig := demo_sign key32 (match sorobanAuthPreimageBytes (demo_template key32) "net" with
                              | Ok p => p | Err _ => "" end) in
  exists e c, applyDelegatedSignature tmpl (b64 sig) ("G" +:+ key32) =
    Ok (with_signature (scVec [scMap [scMapEntry "public_key" (scBytes key32);
                                      scMapEntry "signature" (scBytes sig)]]) e c).
Proof.
  intros tmpl sig.
  assert (String.length sig = delegatedRawSignatureLen) as Hl by (vm_compute; reflexivity).
  assert (verifyDelegatedSignature tmpl (b64 sig) ("G" +:+ key32) "net" = Ok tt) as Hv
    by (vm_compute; reflexivity).
  pose proof (Base64.std_decode_encode sig) as Hb.
  assert (strkey_decode_account ("G" +:+ key32) = Ok key32) as Hk by (vm_compute; reflexivity).
  clearbody tmpl sig.
  destruct (verified_signature_applies tmpl (b64 sig) ("G" +:+ key32) "net" sig Hb Hl Hv)
    as (e & c & pub & pre & _ & _ & Hp & _ & _ & Happ).
  exists e, c. rewrite Hk in Hp. injection Hp as <-. exact Happ.
Defined.
End Witnesses.
End ExecuteAuth.
