(* ===== verification/WebAuthn.v ===== *)
(** * Passkey assertions (internal/service/webauthn_signin.go)

    The public keys an account's context rules register, and the check of a
    WebAuthn assertion against them: type, challenge, origin, and the ECDSA
    signature of the digest. SHA-256 and base64url are computed; the JSON reader
    of the client data, the curve check and ECDSA are parameters. *)

From S2P Require Export Stellar Sha256 ExecuteAuth.
From S2P Require Import Instances.

Record clientData := { cd_Type : string; cd_Challenge : string; cd_Origin : string }.

Class WebAuthnLib := {
  client_data_unmarshal : string -> res clientData;
  (** [ecdh.P256().NewPublicKey] accepts a 65-byte uncompressed point *)
  p256_on_curve : string -> bool;
  (** [ecdsa.VerifyASN1]: key, digest, DER signature *)
  ecdsa_verify : string -> string -> string -> bool;
}.

Module WebAuthn.
Import WalletSig.

Definition maxContextRuleScan : Z := 64.
Definition ErrNoWebAuthnSigner : error := Sentinel "ErrNoWebAuthnSigner".
Definition uncompressed : ascii := Ascii.ascii_of_nat 4.

(** ** Keys on chain *)
Definition key_of_signer (signer : ScVal) : option string :=
  match signer with
  | ScvVec (Some [ScvSymbol kind; _; ScvBytes kd]) =>
      if String.eqb kind "External" && (65 <=? String.length kd)%nat
         && match kd with String c _ => Ascii.eqb c uncompressed | "" => false end
      then Some (String.substring 0 65 kd) else None
  | _ => None
  end.
Definition keys_of_entry (entry : ScVal * ScVal) : list string :=
  match entry with
  | (ScvSymbol name, ScvVec (Some signers)) =>
      if String.eqb name "signers" then omap key_of_signer signers else []
  | _ => []
  end.
Definition webAuthnKeysFromRule (rule : ScVal) : list string :=
  match rule with ScvMap (Some entries) => concat (map keys_of_entry entries) | _ => [] end.

(** The keys not seen before, in order. *)
Definition add_keys (keys new : list string) : list string :=
  fold_left (fun acc k => if existsb (String.eqb k) acc then acc else acc ++ [k]) new keys.

Section Reader.
Context `{StellarSDK} `{Network} `{Env} {D : Type}.
Abbreviation W := (World D).

(** It builds the same transaction as soroban_read.go, and reads the answer the same way. *)
Definition simulateRead (contract fn : string) (args : list ScVal) : M W (option ScVal) :=
  simulateReadCall contract fn args.

(** The scan from [id] on, [n] ids left; it stops when [count] rules were found. *)
Fixpoint scan_keys (wallet : string) (count : Z) (n : nat) (id found : Z) (keys : list string) : M W (list string) :=
  match n with
  | O => ret keys
  | S n' =>
      if negb (found <? count) then ret keys else
      let! rule := simulateRead wallet "get_context_rule" [scU32 id] in
      match rule with
      | None => scan_keys wallet count n' (id + 1) found keys
      | Some ruleVal => scan_keys wallet count n' (id + 1) (found + 1) (add_keys keys (webAuthnKeysFromRule ruleVal))
      end
  end.
Definition scan_limit (count : Z) : Z := if maxContextRuleScan <? count + 8 then maxContextRuleScan else count + 8.

Definition WebAuthnSignerKeys (wallet : string) : M W (list string) :=
  let! countVal := simulateRead wallet "get_context_rules_count" [] in
  match countVal with
  | Some (ScvU32 count) =>
      if count <=? 0 then throw ErrNoWebAuthnSigner else
      let! keys := scan_keys wallet count (Z.to_nat (scan_limit count)) 0 0 [] in
      match keys with [] => throw ErrNoWebAuthnSigner | _ => ret keys end
  | _ => throw ErrNoWebAuthnSigner
  end.
End Reader.

(** ** The assertion *)
Fixpoint contains_char (c : ascii) (s : string) : bool :=
  match s with "" => false | String a s' => Ascii.eqb a c || contains_char c s' end.
Definition httpsForm (origin : string) : string :=
  if String.eqb origin "" || contains_char ":" origin then origin else "https://" +:+ origin.
Definition originAllowed (origin : string) (allowed : list string) : bool :=
  negb (String.eqb origin "")
  && existsb (fun a => String.eqb origin a || String.eqb (httpsForm origin) (httpsForm a)) allowed.

Section Assertion.
Context `{WebAuthnLib}.

Definition parseP256PubKey (raw : string) : option string :=
  if negb (String.length raw =? 65)%nat
     || negb match raw with String c _ => Ascii.eqb c uncompressed | "" => false end
     || negb (p256_on_curve raw) then None else Some raw.

Definition verifies (digest derSignature raw : string) : bool :=
  match parseP256PubKey raw with Some pub => ecdsa_verify pub digest derSignature | None => false end.
Definition assertion_digest (authenticatorData clientDataJSON : string) : string :=
  Sha256.Sum256 (authenticatorData +:+ Sha256.Sum256 clientDataJSON).

Definition VerifyWebAuthnAssertion (candidatePubKeys : list string)
    (nonce authenticatorData clientDataJSON derSignature : string) (allowedOrigins : list string) : res unit :=
  match candidatePubKeys with
  | [] => Err ErrNoWebAuthnSigner
  | _ =>
      if (String.length authenticatorData <? 37)%nat then Err (Wrapf "authenticator data too short" ErrBadSignature) else
      match client_data_unmarshal clientDataJSON with
      | Err _ => Err (Wrapf "malformed clientDataJSON" ErrBadSignature)
      | Ok cd =>
          if negb (String.eqb (cd_Type cd) "webauthn.get") then Err (Wrapf "clientData type" ErrBadSignature) else
          if negb (String.eqb (cd_Challenge cd) (Base64.RawURLEncoding_EncodeToString nonce))
          then Err (Wrapf "challenge does not match the issued nonce" ErrBadSignature) else
          if negb (originAllowed (cd_Origin cd) allowedOrigins) then Err (Wrapf "origin" ErrBadSignature) else
          if existsb (verifies (assertion_digest authenticatorData clientDataJSON) derSignature) candidatePubKeys
          then Ok tt else Err (Wrapf "no on-chain signer key verified the assertion" ErrBadSignature)
      end
  end.

(** What an accepted assertion is: the key [raw] signed these bytes, which are a
    ceremony for this nonce at an allowed origin. *)
Definition asserted (raw nonce authenticatorData clientDataJSON derSignature : string) (allowedOrigins : list string)
    : Prop :=
  String.length raw = 65%nat /\ p256_on_curve raw = true /\
  ecdsa_verify raw (assertion_digest authenticatorData clientDataJSON) derSignature = true /\
  (37 <= String.length authenticatorData)%nat /\
  exists cd, client_data_unmarshal clientDataJSON = Ok cd /\ cd_Type cd = "webauthn.get" /\
    cd_Challenge cd = Base64.RawURLEncoding_EncodeToString nonce /\ originAllowed (cd_Origin cd) allowedOrigins = true.

Lemma verifies_ok digest sig raw : verifies digest sig raw = true ->
  String.length raw = 65%nat /\ p256_on_curve raw = true /\ ecdsa_verify raw digest sig = true.
Proof using Type.
  unfold verifies, parseP256PubKey. destruct (Nat.eqb_spec (String.length raw) 65); [|done].
  destruct (negb match raw with "" => false | String c _ => Ascii.eqb c uncompressed end); [done|]. cbn [negb orb].
  destruct (p256_on_curve raw); [|done]. cbn. done.
Qed.

Lemma assertion_ok keys nonce ad cdj sig origins : VerifyWebAuthnAssertion keys nonce ad cdj sig origins = Ok tt ->
  exists raw, raw ∈ keys /\ asserted raw nonce ad cdj sig origins.
Proof using Type.
  unfold VerifyWebAuthnAssertion. destruct keys as [|k0 keys0]; [done|]. generalize (k0 :: keys0) as keys. intros keys.
  destruct (Nat.ltb_spec (String.length ad) 37); [done|].
  destruct (client_data_unmarshal cdj) as [cd|] eqn:Ecd; [|done].
  destruct (String.eqb_spec (cd_Type cd) "webauthn.get"); [|done].
  destruct (String.eqb_spec (cd_Challenge cd) (Base64.RawURLEncoding_EncodeToString nonce)); [|done].
  destruct (originAllowed (cd_Origin cd) origins) eqn:Eo; [|done]. cbn [negb].
  destruct (existsb _ keys) eqn:Ex; [|done]. intros _. apply existsb_exists in Ex as (raw & Hin & Hv).
  exists raw. split; [by apply list_elem_of_In|]. apply verifies_ok in Hv as (? & ? & ?).
  do 3 (split; [done|]). split; [lia|]. by exists cd.
Qed.

(** One failed check, one refusal; all but the missing keys are bad signatures. *)
Lemma assertion_err keys nonce ad cdj sig origins e : VerifyWebAuthnAssertion keys nonce ad cdj sig origins = Err e ->
  errors_is e ErrBadSignature = true \/ (keys = [] /\ e = ErrNoWebAuthnSigner).
Proof using Type.
  unfold VerifyWebAuthnAssertion. destruct keys; [intros [= <-]; by right|].
  repeat match goal with |- (match ?x with _ => _ end) = _ -> _ => destruct x end; intros [= <-]; by left.
Qed.
End Assertion.

(** ** Origins *)
Lemma contains_char_app c s t : contains_char c (s +:+ t) = contains_char c s || contains_char c t.
Proof. induction s as [|a s IH]; cbn; [done|]. by rewrite IH, orb_assoc. Qed.

(** A host without scheme or port. *)
Definition bare (host : string) : Prop := host <> "" /\ contains_char ":" host = false.

(** Two spellings of one origin. *)
Definition same_origin (a b : string) : Prop :=
  a = b \/ (bare a /\ b = "https://" +:+ a) \/ (bare b /\ a = "https://" +:+ b).

Lemma httpsForm_bare h : bare h -> httpsForm h = "https://" +:+ h.
Proof. intros [Hne Hc]. unfold httpsForm. destruct (String.eqb_spec h ""); [done|]. by rewrite Hc. Qed.
Lemma httpsForm_other h : ~ bare h -> httpsForm h = h.
Proof.
  intros Hb. unfold httpsForm. destruct (String.eqb_spec h "") as [->|]; [done|].
  destruct (contains_char ":" h) eqn:Ec; [done|]. by destruct Hb.
Qed.
#[export] Instance bare_dec h : Decision (bare h).
Proof. unfold bare. apply _. Defined.

Lemma not_bare_https h : ~ bare ("https://" +:+ h).
Proof. intros [_ Hc]. by rewrite contains_char_app in Hc. Qed.

Lemma same_origin_iff a b : String.eqb a b || String.eqb (httpsForm a) (httpsForm b) = true <-> same_origin a b.
Proof.
  rewrite orb_true_iff, !String.eqb_eq. unfold same_origin.
  destruct (decide (bare a)) as [Ha|Ha], (decide (bare b)) as [Hb|Hb];
    rewrite ?(httpsForm_bare a), ?(httpsForm_bare b), ?(httpsForm_other a), ?(httpsForm_other b) by done.
  - split; [intros [->|E%str_app_inj_l]; by left|]. intros [->|[[_ ->]|[_ ->]]]; [by left|..]; by apply not_bare_https in Ha || apply not_bare_https in Hb.
  - split; [intros [->|<-]; auto|]. intros [->|[[_ ->]|[? _]]]; auto; done.
  - split; [intros [->| ->]; auto|]. intros [->|[[? _]|[_ ->]]]; auto; done.
  - split; [intros [->| ->]; by left|]. intros [->|[[? _]|[? _]]]; auto; done.
Qed.

(** An origin is accepted exactly when it is not empty and some listed origin
    is the same text, or one of the two is a bare host and the other its https
    form: no other scheme, port, sub-domain or spelling passes. *)
Theorem origin_allowed_spec origin allowed :
  originAllowed origin allowed = true <-> origin <> "" /\ exists a, a ∈ allowed /\ same_origin origin a.
Proof.
  unfold originAllowed. rewrite andb_true_iff, negb_true_iff, existsb_exists, String.eqb_neq.
  split; intros [Hne (a & Hin & Ha)]; (split; [done|]; exists a; split; [by apply list_elem_of_In|by apply same_origin_iff]).
Qed.

(** ** What the reader returns *)
Lemma substring_prefix n s : (n <= String.length s)%nat -> String.length (String.substring 0 n s) = n.
Proof. revert s. induction n as [|n IH]; intros [|c s]; cbn; try done; [lia|]. intros Hl. f_equal. apply IH. lia. Qed.

Lemma key_of_signer_length s k : key_of_signer s = Some k -> String.length k = 65%nat.
Proof.
  unfold key_of_signer.
  repeat match goal with |- (match ?x with _ => _ end) = _ -> _ => destruct x eqn:?; try done end.
  intros [= <-]. match goal with H : _ && _ = true |- _ => apply andb_prop in H as [[_ Hl%Nat.leb_le]%andb_prop _] end.
  by apply substring_prefix.
Qed.
Lemma rule_key_length rule k : k ∈ webAuthnKeysFromRule rule -> String.length k = 65%nat.
Proof.
  unfold webAuthnKeysFromRule. destruct rule as [ | | | | | | | |[es|]| | ]; try (intros Hk; by apply not_elem_of_nil in Hk).
  rewrite list_elem_of_In, in_concat. intros (l & [e [<- _]]%in_map_iff & Hk%list_elem_of_In).
  unfold keys_of_entry in Hk. destruct e as [name v]. destruct name; try (by apply not_elem_of_nil in Hk).
  destruct v as [ | | | | | | |[l|]| | | ]; try (by apply not_elem_of_nil in Hk).
  destruct (String.eqb _ _); [|by apply not_elem_of_nil in Hk].
  apply list_elem_of_omap in Hk as (sg & _ & Hs). by eapply key_of_signer_length.
Qed.

Lemma add_keys_spec keys new : NoDup keys ->
  NoDup (add_keys keys new) /\ forall k, k ∈ add_keys keys new <-> k ∈ keys \/ k ∈ new.
Proof.
  unfold add_keys. revert keys. induction new as [|x new IH]; intros keys Hk; cbn [fold_left]; [split; [done|set_solver]|].
  destruct (existsb (String.eqb x) keys) eqn:Ex.
  - destruct (IH keys Hk) as [Hn Hi]. split; [done|]. intros k. rewrite Hi.
    apply existsb_exists in Ex as (y & Hin%list_elem_of_In & <-%String.eqb_eq). set_solver.
  - assert (x ∉ keys) as Hx.
    { intros Hin. apply not_true_iff_false in Ex. apply Ex, existsb_exists. exists x. rewrite String.eqb_refl.
      by rewrite <- list_elem_of_In. }
    destruct (IH (keys ++ [x])) as [Hn Hi]; [apply NoDup_app; set_solver by apply NoDup_singleton|]. split; [done|].
    intros k. rewrite Hi. set_solver.
Qed.

Section ReaderTheorems.
Context `{StellarSDK} `{Network} `{Env} {D : Type}.
Abbreviation W := (World D).

(** The account's rule [id], as the network answered a read of it. *)
Definition rule_read (wallet : string) (id : Z) (rule : ScVal) : Prop :=
  exists (w w' : W), simulateRead wallet "get_context_rule" [scU32 id] w = (Ok (Some rule), w').
Definition registered (wallet k : string) : Prop :=
  exists id rule, 0 <= id < maxContextRuleScan /\ rule_read wallet id rule /\ k ∈ webAuthnKeysFromRule rule.

Lemma scan_keys_ok wallet count n id found keys (w w' : W) out :
  scan_keys wallet count n id found keys w = (Ok out, w') -> 0 <= id -> id + Z.of_nat n <= maxContextRuleScan ->
  NoDup keys -> (forall k, k ∈ keys -> registered wallet k) ->
  NoDup out /\ forall k, k ∈ out -> registered wallet k.
Proof using Type.
  revert id found keys w. induction n as [|n IH]; intros id found keys w Hr Hid Hb Hn Hk; cbn [scan_keys] in Hr.
  { by run_inv. }
  destruct (negb _); [by run_inv|]. apply bind_ok in Hr as (rule & w1 & Hs & Hr).
  destruct rule as [rule|]; (eapply IH; [exact Hr|lia|lia|..]); [|..|done|done].
  - by apply add_keys_spec.
  - intros k [Hin|Hin]%add_keys_spec; [by apply Hk| |done]. exists id, rule. split; [lia|]. split; [|done]. by exists w, w1.
Qed.

(** What a wallet's key list is. *)
Definition signer_keys (wallet : string) (keys : list string) : Prop :=
  keys <> [] /\ NoDup keys /\ forall k, k ∈ keys -> String.length k = 65%nat /\ registered wallet k.
Lemma signer_keys_run wallet (w w' : W) keys : WebAuthnSignerKeys wallet w = (Ok keys, w') -> signer_keys wallet keys.
Proof using Type.
  unfold WebAuthnSignerKeys. intros Hr. apply bind_ok in Hr as (count & w1 & _ & Hr).
  destruct count as [[]|]; try (by apply throw_ok in Hr). destruct (Z.leb_spec n 0); [by apply throw_ok in Hr|].
  apply bind_ok in Hr as (ks & w2 & Hs & Hr).
  assert (ks = keys /\ keys <> []) as [-> Hne] by (destruct ks; [by apply throw_ok in Hr|]; apply ret_ok in Hr as [<- _]; done).
  apply scan_keys_ok in Hs as [Hnd Hk]; [| lia | | constructor | set_solver].
  - split; [done|]. split; [done|]. intros k Hin. split; [|by apply Hk].
    destruct (Hk k Hin) as (id & rule & _ & _ & Hrule). by eapply rule_key_length.
  - unfold scan_limit, maxContextRuleScan. destruct (Z.ltb_spec 64 (n + 8)); lia.
Qed.

(** The keys a wallet may sign in with are its own account's: every key
    returned is a 65-byte point that the network reported as an External signer of
    some context rule of that account, each key once, and there is at least one;
    at most 64 rule ids are read. *)
Theorem signer_keys_spec wallet (w w' : W) keys :
  WebAuthnSignerKeys wallet w = (Ok keys, w') -> signer_keys wallet keys.
Proof using Type. apply signer_keys_run. Qed.
End ReaderTheorems.

Section Witnesses.
Import Demo.
Definition demo_point : string := String uncompressed (str_repeat "p" 64).
(** An account with one rule, which a passkey and a plain address sign. *)
Definition passkey_rule : ScVal :=
  scMap [scMapEntry "signers" (scVec [
    scVec [scSymbol "External"; ScvAddress (AddrContract "V"); scBytes (demo_point +:+ "credential")];
    scVec [scSymbol "Delegated"; ScvAddress (AddrAccount "A")]])].
Definition passkey_read (contract fn : string) (args : list ScVal) : option ScVal :=
  if String.eqb fn "get_context_rules_count" then Some (scU32 1)
  else if String.eqb fn "get_context_rule" then Some passkey_rule
  else if String.eqb fn "get_account_address" then Some (ScvAddress (AddrContract "S"))
  else None.
Definition passkey_network : Network := demo_network {| ch_read := passkey_read; ch_auth _ _ _ := []; ch_ledger := 100 |}.

Lemma signer_keys_spec_witness :
  exists w', WebAuthnSignerKeys (H0 := passkey_network) "CS" (MkWorld tt 0)
      = (Ok [demo_point], w') /\
    registered (H0 := passkey_network) (D := unit) "CS" demo_point.
Proof.
  destruct (answers (WebAuthnSignerKeys (H0 := passkey_network) "CS")
    (MkWorld tt 0) (Ok [demo_point])) as (w' & Hr); [vm_compute; reflexivity|].
  exists w'. split; [exact Hr|].
  destruct (signer_keys_spec (H0 := passkey_network) "CS" (MkWorld tt 0) w' [demo_point] Hr) as (_ & _ & Hk).
  apply (Hk demo_point). apply list_elem_of_singleton. reflexivity.
Defined.
End Witnesses.
End WebAuthn.
