(* ===== verification/Rpid.v ===== *)
(** * Which site a passkey ceremony belongs to (service/webapp/webauthn_rpid.go)

    The relying-party id and the origin of a ceremony, when it begins and when it
    ends, for the web and for Chrome extensions. *)

From S2P Require Export GoStrings.

Record WebAuthnConfig := {
  cfg_RPID : string; cfg_Origin : string; cfg_AllowedExtensionIDs : list string; cfg_IsDevelopment : bool;
  cfg_DevTrustRequestHost : bool; cfg_AllowedDevOrigins : list string }.
Record CeremonyBeginInput := {
  cb_ChromeExtensionIDFromBody : string; cb_ExtensionIDHeader : string; cb_OriginHeader : string;
  cb_RefererHeader : string; cb_RequestHost : string }.
Record CeremonyFinishInput := {
  cf_ChromeExtensionIDFromBody : string; cf_ExtensionIDHeader : string; cf_ClientDataOrigin : string }.
Record StoredChallengeContext := { sc_RPID : string; sc_Origin : string }.

Module Rpid.

Definition ErrExtensionIDConflict : error := Sentinel "ErrExtensionIDConflict".
Definition ErrExtensionIDNotAllowed : error := Sentinel "ErrExtensionIDNotAllowed".
Definition ErrClientDataOriginMismatch : error := Sentinel "ErrClientDataOriginMismatch".

(** ^[a-p]{32}$ *)
Definition a_to_p (c : ascii) : bool := let n := nat_of_ascii c in ((97 <=? n) && (n <=? 112))%nat.
Definition isValidChromeExtensionID (s : string) : bool := (String.length s =? 32)%nat && str_forall a_to_p s.

(** ** [url.Parse] of an extension URL

    What net/url checks of a URL whose host turns out to be a plain extension id:
    no control byte before the fragment, the escapes of the user, the path and the
    fragment, and the characters of the user part. *)
Definition control (c : ascii) : bool := let n := nat_of_ascii c in ((n <? 32) || (n =? 127))%nat.
Fixpoint escapes_ok (s : string) : bool :=
  match s with
  | "" => true
  | String "%" (String a (String b s')) =>
      match hex_val a, hex_val b with Some _, Some _ => escapes_ok s' | _, _ => false end
  | String "%" _ => false
  | String _ s' => escapes_ok s'
  end.
Definition user_char (c : ascii) : bool :=
  let n := nat_of_ascii c in
  (((65 <=? n) && (n <=? 90)) || ((97 <=? n) && (n <=? 122)) || ((48 <=? n) && (n <=? 57)))%nat
  || existsb (Ascii.eqb c) (list_ascii_of_string "-._:~!$&'()*+,;=%@").

(** Before and after the last [c]; all of it is after when there is none. *)
Fixpoint cut_last (c : ascii) (s : string) : option string * string :=
  match s with
  | "" => (None, "")
  | String a s' =>
      match cut_last c s' with
      | (Some pre, post) => (Some (String a pre), post)
      | (None, _) => if Ascii.eqb a c then (Some "", s') else (None, s)
      end
  end.
Definition extension_scheme : string := "chrome-extension://".

(** The host of a [chrome-extension:] URL, when the rest of it parses. *)
Definition extension_host (rawURL : string) : option string :=
  let '(u, fragment, _) := cut_at "#" rawURL in
  let '(front, rest) := (String.substring 0 19 u, str_drop 19 u) in
  if negb (String.eqb (str_map lower_ascii front) extension_scheme) then None else
  let '(hier, _, _) := cut_at "?" rest in
  let '(authority, path, _) := cut_at "/" hier in
  let '(userinfo, host) := cut_last "@" authority in
  if str_forall (fun c => negb (control c)) u && escapes_ok path && escapes_ok fragment
     && match userinfo with Some x => str_forall user_char x && escapes_ok x | None => true end
  then Some host else None.

Definition parseChromeExtensionIDFromURL (rawURL : string) : option string :=
  match extension_host rawURL with
  | Some host => if isValidChromeExtensionID host then Some host else None
  | None => None
  end.

Definition chromeExtensionRPIDCandidates (bareID : string) : list string := [bareID; extension_scheme +:+ bareID].

(** ** The id a ceremony runs in *)
Fixpoint resolve_from (found : string) (candidates : list string) : res (option string) :=
  match candidates with
  | [] => Ok (if String.eqb found "" then None else Some found)
  | c :: candidates' =>
      if String.eqb c "" || negb (isValidChromeExtensionID c) then resolve_from found candidates'
      else if String.eqb found "" then resolve_from c candidates'
      else if String.eqb found c then resolve_from found candidates'
      else Err ErrExtensionIDConflict
  end.
Definition resolveExtensionID (candidatesInPriorityOrder : list string) : res (option string) :=
  resolve_from "" candidatesInPriorityOrder.

(** ** Begin *)
Definition str_contains (needle s : string) : bool :=
  match String.index 0 needle s with Some _ => true | None => false end.
Definition stripPort (hostport : string) : string := let '(host, _, _) := cut_at ":" hostport in host.
Definition isLocalOrigin (origin : string) : bool := str_contains "localhost" origin || str_contains "127.0.0.1" origin.
Definition isLocalHost (host : string) : bool :=
  let h := stripPort host in String.eqb h "localhost" || String.eqb h "127.0.0.1".
Definition containsHost (allowed : list string) (host : string) : bool :=
  existsb (fun a => String.eqb (stripPort a) (stripPort host) || String.eqb a host) allowed.

Definition resolveWebRPIDAndOrigin (cfg : WebAuthnConfig) (requestHost : string) : string * string :=
  if negb (String.eqb requestHost "") && cfg_IsDevelopment cfg && isLocalOrigin (cfg_Origin cfg)
     && negb (isLocalHost requestHost)
     && (cfg_DevTrustRequestHost cfg || containsHost (cfg_AllowedDevOrigins cfg) requestHost)
  then (stripPort requestHost, "http://" +:+ requestHost)
  else (cfg_RPID cfg, cfg_Origin cfg).

Definition ResolveCeremonyContext (inp : CeremonyBeginInput) (cfg : WebAuthnConfig) : res (string * string) :=
  let refererExtID := default "" (parseChromeExtensionIDFromURL (cb_RefererHeader inp)) in
  let originExtID := default "" (parseChromeExtensionIDFromURL (cb_OriginHeader inp)) in
  let? found := resolveExtensionID
    [cb_ChromeExtensionIDFromBody inp; cb_ExtensionIDHeader inp; originExtID; refererExtID] in
  match found with
  | Some extID => Ok (cfg_RPID cfg, extension_scheme +:+ extID)
  | None => Ok (resolveWebRPIDAndOrigin cfg (cb_RequestHost inp))
  end.

(** ** Finish *)
Definition containsString (haystack : list string) (needle : string) : bool := existsb (String.eqb needle) haystack.

Definition add_candidate (out : list string) (c : string) : list string :=
  if String.eqb c "" || containsString out c then out else out ++ [c].
Definition dedupe (candidates : list string) : list string :=
  fold_left (fun out c => match parseChromeExtensionIDFromURL c with
                          | Some id => fold_left add_candidate (chromeExtensionRPIDCandidates id) out
                          | None => add_candidate out c
                          end) candidates [].

Definition ResolveFinishVerification (inp : CeremonyFinishInput) (challenge : StoredChallengeContext)
    (cfg : WebAuthnConfig) : res (string * list string) :=
  let clientData := parseChromeExtensionIDFromURL (cf_ClientDataOrigin inp) in
  let? found := resolveExtensionID
    [cf_ChromeExtensionIDFromBody inp; cf_ExtensionIDHeader inp; default "" clientData] in
  match found with
  | Some extID =>
      if negb (containsString (cfg_AllowedExtensionIDs cfg) extID) then Err ErrExtensionIDNotAllowed
      else Ok (extension_scheme +:+ extID, dedupe [cfg_RPID cfg])
  | None =>
      match clientData with
      | Some clientDataExtID =>
          if negb (containsString (cfg_AllowedExtensionIDs cfg) clientDataExtID) then Err ErrExtensionIDNotAllowed
          else Ok (extension_scheme +:+ clientDataExtID, dedupe [cfg_RPID cfg])
      | None =>
          if negb (String.eqb (cf_ClientDataOrigin inp) (sc_Origin challenge)) then Err ErrClientDataOriginMismatch
          else Ok (sc_Origin challenge, dedupe [sc_RPID challenge; sc_Origin challenge])
      end
  end.

Example extension_parsed :
  parseChromeExtensionIDFromURL "Chrome-Extension://abcdefghijklmnopabcdefghijklmnop/popup.html?x#%41"
    = Some "abcdefghijklmnopabcdefghijklmnop" /\
  parseChromeExtensionIDFromURL "chrome-extension://abcdefghijklmnopabcdefghijklmnop:80" = None /\
  parseChromeExtensionIDFromURL "https://abcdefghijklmnopabcdefghijklmnop" = None /\
  parseChromeExtensionIDFromURL "chrome-extension://evil@abcdefghijklmnopabcdefghijklmnop/%zz" = None.
Proof. vm_compute. done. Qed.
End Rpid.
