(* ===== verification/ContextRules.v ===== *)
(** * On-chain reads: context rules, the asset catalog and balances
    (contextrules_service.go, setup_rules_service.go's signer match,
    stellar_assets.go, balances_service.go, and the context-rule part of
    soroban_auth_payload.go) *)

From S2P Require Export Amount ExecuteAuth.
From S2P Require Import Instances.

(** encoding/json at one Go type. *)
Class Json (A : Type) := {
  json_marshal : A -> res string;
  json_unmarshal : string -> res A;
}.

(** ** stellar_assets.go *)
Module Assets.

Record CatalogAsset := {
  ca_AssetID : string; ca_Symbol : string; ca_Name : string;
  ca_ContractID : string; ca_Decimals : Z }.
#[export] Instance CatalogAsset_eq_dec : EqDecision CatalogAsset.
Proof. solve_decision. Defined.

Record AssetCatalogConfig := { acc_AllowlistJSON : string; acc_NativeSAC : string; acc_USDCSAC : string }.

Definition ErrAssetNotFound : error := Sentinel "ErrAssetNotFound".
Definition ErrAssetIdentifierRequired : error := Sentinel "ErrAssetIdentifierRequired".

Section Assets.
Context `{StellarSDK} `{Json (list CatalogAsset)}.

Definition filterValidSACCatalog (catalog : list CatalogAsset) : list CatalogAsset :=
  List.filter (fun a => is_ok (strkey_decode_contract (ca_ContractID a))) catalog.

Definition GetAssetCatalog (cfg : AssetCatalogConfig) : res (list CatalogAsset) :=
  if negb (String.eqb (acc_AllowlistJSON cfg) "") then
    let? catalog := res_wrap "parse asset allowlist json" (json_unmarshal (acc_AllowlistJSON cfg)) in
    Ok (filterValidSACCatalog catalog)
  else if String.eqb (acc_NativeSAC cfg) "" then Ok []
  else
    let catalog := [{| ca_AssetID := "native"; ca_Symbol := "XLM"; ca_Name := "Stellar Lumens";
                       ca_ContractID := acc_NativeSAC cfg; ca_Decimals := 7 |}] in
    let catalog :=
      if negb (String.eqb (acc_USDCSAC cfg) "") then
        catalog ++ [{| ca_AssetID := "USDC"; ca_Symbol := "USDC"; ca_Name := "USD Coin";
                       ca_ContractID := acc_USDCSAC cfg; ca_Decimals := 7 |}]
      else catalog in
    Ok (filterValidSACCatalog catalog).

Definition ResolveAsset (catalog : list CatalogAsset) (assetID contractID : string) : res CatalogAsset :=
  if negb (String.eqb contractID "") then
    match List.find (fun a => String.eqb (ca_ContractID a) contractID) catalog with
    | Some a => Ok a
    | None => Err ErrAssetNotFound
    end
  else if String.eqb assetID "" then Err ErrAssetIdentifierRequired
  else match List.find (fun a => String.eqb (ca_AssetID a) assetID) catalog with
       | Some a => Ok a
       | None => Err ErrAssetNotFound
       end.

(** Only allowlisted contracts are ever resolved, with a valid address. *)
Lemma ResolveAsset_ok catalog assetID contractID a :
  ResolveAsset catalog assetID contractID = Ok a ->
  a ∈ catalog /\ (contractID <> "" -> ca_ContractID a = contractID).
Proof.
  unfold ResolveAsset. destruct (String.eqb_spec contractID "") as [->|Hc]; cbn.
  - destruct (String.eqb assetID ""); [done|].
    destruct (List.find _ _) as [b|] eqn:E; [|done]. intros [= <-].
    apply find_some in E as [Hin _]. split; [by apply list_elem_of_In|done].
  - destruct (List.find _ _) as [b|] eqn:E; [|done]. intros [= <-].
    apply find_some in E as [Hin E]. apply String.eqb_eq in E.
    split; [by apply list_elem_of_In|done].
Qed.

Lemma GetAssetCatalog_valid cfg catalog a :
  GetAssetCatalog cfg = Ok catalog -> a ∈ catalog ->
  is_ok (strkey_decode_contract (ca_ContractID a)) = true.
Proof.
  unfold GetAssetCatalog. intros Hg Ha.
  assert ((exists l, catalog = filterValidSACCatalog l) \/ catalog = []) as [[l ->]| ->].
  { destruct (negb _); [run_inv; eauto|]. destruct (String.eqb _ ""); run_inv; eauto. }
  - by apply list_elem_of_In, filter_In in Ha as [_ ?].
  - by apply not_elem_of_nil in Ha.
Qed.
End Assets.
End Assets.

(** ** balances_service.go *)
Module Balances.
Import Assets Amount.

Record AssetBalance := {
  ab_AssetID : string; ab_Symbol : string; ab_Name : string; ab_ContractID : string;
  ab_Decimals : Z; ab_Balance : string; ab_BalanceRaw : string }.

Section Balances.
Context `{StellarSDK} `{Network} `{Env} {D : Type}.

Definition FetchSACBalance (tokenContractID holderAddress : string) : M (World D) (Z * Z) :=
  let! holderVal := wrap "resolve holder address" (lift (scAddress holderAddress)) in
  let! val := wrap "simulate balance call" (simulateReadCall tokenContractID "balance" [holderVal]) in
  match val with
  | None => ret (0, 0)
  | Some (ScvI128 hi lo) => ret (hi, lo)
  | Some _ => throw (Errorf "expected i128 balance result")
  end.

Fixpoint FetchBalancesForCatalog (holderAddress : string) (catalog : list CatalogAsset) (includeZero : bool)
    : M (World D) (list AssetBalance) :=
  match catalog with
  | [] => ret []
  | asset :: rest =>
      let! ' (hi, lo) := wrap "fetch balance" (FetchSACBalance (ca_ContractID asset) holderAddress) in
      let! balances := FetchBalancesForCatalog holderAddress rest includeZero in
      if negb includeZero && (hi =? 0) && (lo =? 0) then ret balances
      else ret ({| ab_AssetID := ca_AssetID asset; ab_Symbol := ca_Symbol asset; ab_Name := ca_Name asset;
                   ab_ContractID := ca_ContractID asset; ab_Decimals := ca_Decimals asset;
                   ab_Balance := formatI128Amount hi lo (ca_Decimals asset);
                   ab_BalanceRaw := formatI128Raw hi lo |} :: balances)
  end.

Lemma keeps_FetchSACBalance (R : D -> D -> Prop) `{!Reflexive R} `{!Transitive R} t h :
  keeps (on_store R) (FetchSACBalance t h).
Proof using All. unfold FetchSACBalance. keeps. Qed.
End Balances.
#[export] Hint Resolve keeps_FetchSACBalance : keeps.
End Balances.

(** ** contextrules_service.go *)
Module ContextRules.
Import ExecuteAuth.

Definition maxContextRuleScan : Z := 64.

Inductive ContextRuleDiscovery :=
  | ContextRuleDiscoveryMatched
  | ContextRuleDiscoveryDefault
  | ContextRuleDiscoveryFallback.
#[export] Instance ContextRuleDiscovery_eq_dec : EqDecision ContextRuleDiscovery.
Proof. solve_decision. Defined.

Record ContextRuleSigner := {
  sg_Kind : string; sg_VerifierAddress : string; sg_GAddress : string; sg_KeyDataHex : string }.

Record ContextRuleSummary := {
  cr_ID : Z; cr_Name : string; cr_IsDefault : bool;
  cr_CallContractAddress : string; cr_Signers : list ContextRuleSigner }.

Definition ErrNoContextRule : error := Errorf "no context rule found for this smart account".
Definition ErrSignerRuleNotFound : error := Sentinel "ErrSignerRuleNotFound".
Definition ErrContextRuleIDRequired : error := Sentinel "ErrContextRuleIDRequired".

Definition other_signer : ContextRuleSigner :=
  {| sg_Kind := "Other"; sg_VerifierAddress := ""; sg_GAddress := ""; sg_KeyDataHex := "" |}.

(** [strings.EqualFold] against hexadecimal text, whose letters fold only to
    their other ASCII case. *)
Definition equal_fold (s t : string) : bool :=
  String.eqb (str_map lower_ascii s) (str_map lower_ascii t).

Definition ruleContextTypeIsDefault (contextType : ScVal) : bool :=
  match contextType with
  | ScvSymbol s => String.eqb s "Default"
  | ScvVec (Some (ScvSymbol s :: _)) => String.eqb s "Default"
  | _ => false
  end.

Definition ruleHasExternalSigner (rule : ContextRuleSummary) : bool :=
  existsb (fun sg => String.eqb (sg_Kind sg) "External") (cr_Signers rule).

(** setup_rules_service.go *)
Definition ruleHasExactExternalSigner (rule : ContextRuleSummary) (verifierAddress keyDataHex : string) : bool :=
  existsb (fun sg => String.eqb (sg_Kind sg) "External"
                     && String.eqb (sg_VerifierAddress sg) verifierAddress
                     && equal_fold (sg_KeyDataHex sg) keyDataHex) (cr_Signers rule).

(** The loop of [delegatedGFromContextRule]: [None] on an External signer. *)
Fixpoint delegated_scan (count : Z) (g : string) (sgs : list ContextRuleSigner) : option (Z * string) :=
  match sgs with
  | [] => Some (count, g)
  | sg :: rest =>
      if String.eqb (sg_Kind sg) "External" then None
      else if String.eqb (sg_Kind sg) "Delegated" then delegated_scan (count + 1) (sg_GAddress sg) rest
      else delegated_scan count g rest
  end.
Definition delegatedGFromContextRule (rule : ContextRuleSummary) : string :=
  match delegated_scan 0 "" (cr_Signers rule) with
  | None => ""
  | Some (count, g) => if count =? 1 then g else ""
  end.

(** ** soroban_auth_payload.go: rule ids already embedded in a signature *)
Fixpoint u32_ids (vec : list ScVal) : option (list Z) :=
  match vec with
  | [] => Some []
  | ScvU32 n :: rest => cons n <$> u32_ids rest
  | _ :: _ => None
  end.
Definition contextRuleIDsFromSmartAccountAuthEntry (entry : AuthEntry) : list Z :=
  match ae_Credentials entry with
  | SorobanAddress c =>
      match scMapGet (ac_Signature c) "context_rule_ids" with
      | Some (ScvVec (Some vec)) => default [] (u32_ids vec)
      | _ => []
      end
  | SourceAccountCredentials => []
  end.

Definition resolveContextRuleIDs (entry : AuthEntry) (bodyContextRuleID : option Z) : res (list Z) :=
  match contextRuleIDsFromSmartAccountAuthEntry entry with
  | id :: ids => Ok (id :: ids)
  | [] => match bodyContextRuleID with
          | Some id => Ok (contextRuleIDsForEntry entry id)
          | None => Err ErrContextRuleIDRequired
          end
  end.

Section Parse.
Context `{StellarSDK}.

Definition address_or_empty (v : ScVal) : string :=
  match scValToAddressString v with Ok a => a | Err _ => "" end.

Definition ruleContextTypeCallContractAddress (contextType : ScVal) : option string :=
  match contextType with
  | ScvVec (Some (ScvSymbol s :: target :: _)) =>
      if negb (String.eqb s "CallContract") then None
      else match scValToAddressString target with Ok addr => Some addr | Err _ => None end
  | _ => None
  end.

Definition parseContextRuleSigner (v : ScVal) : ContextRuleSigner :=
  match v with
  | ScvVec (Some (ScvSymbol tag :: args)) =>
      if String.eqb tag "External" then
        match args with
        | verifier :: key :: _ =>
            {| sg_Kind := "External"; sg_VerifierAddress := address_or_empty verifier; sg_GAddress := "";
               sg_KeyDataHex := match key with ScvBytes b => hex_encode b | _ => "" end |}
        | _ => other_signer
        end
      else if String.eqb tag "Delegated" then
        match args with
        | g :: _ =>
            {| sg_Kind := "Delegated"; sg_VerifierAddress := ""; sg_GAddress := address_or_empty g;
               sg_KeyDataHex := "" |}
        | [] => other_signer
        end
      else other_signer
  | _ => other_signer
  end.

Definition parseContextRuleSummary (id : Z) (rule : ScVal) : ContextRuleSummary :=
  {| cr_ID := id;
     cr_Name := match scMapGet rule "name" with Some (ScvString s) => s | _ => "" end;
     cr_IsDefault := match scMapGet rule "context_type" with
                     | Some t => ruleContextTypeIsDefault t | None => false end;
     cr_CallContractAddress :=
       match scMapGet rule "context_type" with
       | Some t => default "" (ruleContextTypeCallContractAddress t) | None => "" end;
     cr_Signers := match scMapGet rule "signers" with
                   | Some (ScvVec (Some sgs)) => map parseContextRuleSigner sgs | _ => [] end |}.
End Parse.

Section Scan.
Context `{StellarSDK} `{Network} `{Env} {D : Type}.

Definition rulesCount (smartAccountAddress : string) : M (World D) Z :=
  let! val := simulateReadCall smartAccountAddress "get_context_rules_count" [] in
  match val with
  | Some (ScvU32 n) => ret n
  | _ => ret 0
  end.

Definition getRule (smartAccountAddress : string) (id : Z) : M (World D) (option ContextRuleSummary) :=
  let! val := simulateReadCall smartAccountAddress "get_context_rule" [scU32 id] in
  match val with
  | Some v => ret (Some (parseContextRuleSummary id v))
  | None => ret None
  end.
Definition RuleAtID := getRule.

(** The scan from [id] on, [n] rules left; [dflt] is the first Default rule. *)
Fixpoint discover_from (smartAccountAddress targetContractID : string) (n : nat) (id : Z) (dflt : option Z)
    : M (World D) (Z * ContextRuleDiscovery) :=
  match n with
  | O => match dflt with
         | Some d => ret (d, ContextRuleDiscoveryDefault)
         | None => ret (0, ContextRuleDiscoveryFallback)
         end
  | S n' =>
      let! r := getRule smartAccountAddress id in
      match r with
      | None => discover_from smartAccountAddress targetContractID n' (id + 1) dflt
      | Some rule =>
          let dflt := match dflt with
                      | Some d => Some d
                      | None => if cr_IsDefault rule then Some id else None
                      end in
          if String.eqb (cr_CallContractAddress rule) targetContractID
          then ret (id, ContextRuleDiscoveryMatched)
          else discover_from smartAccountAddress targetContractID n' (id + 1) dflt
      end
  end.

Definition DiscoverContextRule (smartAccountAddress targetContractID : string)
    : M (World D) (Z * ContextRuleDiscovery) :=
  let! count := rulesCount smartAccountAddress in
  let limit := Z.min count maxContextRuleScan in
  discover_from smartAccountAddress targetContractID (Z.to_nat limit) 0 None.

Lemma keeps_DiscoverContextRule (R : D -> D -> Prop) `{!Reflexive R} `{!Transitive R} s t :
  keeps (on_store R) (DiscoverContextRule s t).
Proof using All.
  unfold DiscoverContextRule, rulesCount. keeps. generalize (None : option Z), 0.
  generalize (Z.to_nat (Z.min a maxContextRuleScan)). intros n. induction n as [|n IH]; intros dflt id; cbn.
  - keeps.
  - unfold getRule. keeps; apply IH.
Qed.

Fixpoint discover_default_from (smartAccountAddress : string) (n : nat) (id : Z)
    : M (World D) (Z * ContextRuleDiscovery) :=
  match n with
  | O => ret (0, ContextRuleDiscoveryFallback)
  | S n' =>
      let! r := getRule smartAccountAddress id in
      match r with
      | Some rule =>
          if cr_IsDefault rule then ret (id, ContextRuleDiscoveryDefault)
          else discover_default_from smartAccountAddress n' (id + 1)
      | None => discover_default_from smartAccountAddress n' (id + 1)
      end
  end.

Definition DiscoverDefaultContextRule (smartAccountAddress : string)
    : M (World D) (Z * ContextRuleDiscovery) :=
  let! count := rulesCount smartAccountAddress in
  let limit := Z.min count maxContextRuleScan in
  discover_default_from smartAccountAddress (Z.to_nat limit) 0.

Fixpoint find_signer_from (smartAccountAddress verifierAddress keyDataHex targetContractID : string)
    (n : nat) (i : Z) (dflt : option Z) : M (World D) (option (Z * ContextRuleDiscovery)) :=
  match n with
  | O => match dflt with
         | Some d => ret (Some (d, ContextRuleDiscoveryDefault))
         | None => ret None
         end
  | S n' =>
      let next := find_signer_from smartAccountAddress verifierAddress keyDataHex targetContractID n' (i + 1) in
      let! r := getRule smartAccountAddress i in
      match r with
      | None => next dflt
      | Some rule =>
          if negb (ruleHasExactExternalSigner rule verifierAddress keyDataHex) then next dflt
          else if negb (String.eqb targetContractID "")
                  && String.eqb (cr_CallContractAddress rule) targetContractID
          then ret (Some (i, ContextRuleDiscoveryMatched))
          else next (match dflt with
                     | Some d => Some d
                     | None => if cr_IsDefault rule then Some i else None
                     end)
      end
  end.

Definition FindRuleForSigner (smartAccountAddress verifierAddress keyDataHex targetContractID : string)
    : M (World D) (option (Z * ContextRuleDiscovery)) :=
  let! count := rulesCount smartAccountAddress in
  let limit := Z.min count maxContextRuleScan in
  find_signer_from smartAccountAddress verifierAddress keyDataHex targetContractID (Z.to_nat limit) 0 None.

Fixpoint list_from (smartAccountAddress : string) (n : nat) (id : Z) : M (World D) (list ContextRuleSummary) :=
  match n with
  | O => ret []
  | S n' =>
      let! r := getRule smartAccountAddress id in
      let! rest := list_from smartAccountAddress n' (id + 1) in
      match r with
      | Some rule => ret (rule :: rest)
      | None => ret rest
      end
  end.

Definition ListContextRules (smartAccountAddress : string) : M (World D) (list ContextRuleSummary) :=
  let! count := rulesCount smartAccountAddress in
  let limit := Z.min count maxContextRuleScan in
  list_from smartAccountAddress (Z.to_nat limit) 0.
End Scan.
#[export] Hint Resolve keeps_DiscoverContextRule : keeps.
(** ** What the scans return, on a chain that stands still *)
Section Stable.
Context `{StellarSDK} `{Network} `{Env} {D : Type}.
Context (addr : string) (count : Z) (rule_at : Z -> option ContextRuleSummary).

(** The account's rules while the scan runs: every read answers the same. *)
Definition chain_rules : Prop :=
  (forall w : World D, exists w', rulesCount addr w = (Ok count, w') /\ w_store w' = w_store w) /\
  (forall id (w : World D), exists w', getRule addr id w = (Ok (rule_at id), w') /\ w_store w' = w_store w).

Definition rule_test (P : ContextRuleSummary -> bool) (id : Z) : bool :=
  match rule_at id with Some r => P r | None => false end.

(** The ids probed, and the first one that passes a test. *)
Definition scanned : list Z := seqZ 0 (Z.min count maxContextRuleScan).
Definition first_rule (P : ContextRuleSummary -> bool) : option Z := List.find (rule_test P) scanned.

Definition calls (target : string) (r : ContextRuleSummary) : bool :=
  String.eqb (cr_CallContractAddress r) target.

(** Reference: the least rule for the contract, else the least Default one,
    else rule 0. *)
Definition best_rule (target : string) : Z * ContextRuleDiscovery :=
  match first_rule (calls target) with
  | Some id => (id, ContextRuleDiscoveryMatched)
  | None => match first_rule cr_IsDefault with
            | Some id => (id, ContextRuleDiscoveryDefault)
            | None => (0, ContextRuleDiscoveryFallback)
            end
  end.

(** Reference: the same among the rules that list the key, and no fallback. *)
Definition best_rule_for_signer (verifier key target : string) : option (Z * ContextRuleDiscovery) :=
  let lists r := ruleHasExactExternalSigner r verifier key in
  match first_rule (fun r => lists r && (negb (String.eqb target "") && calls target r)) with
  | Some id => Some (id, ContextRuleDiscoveryMatched)
  | None => match first_rule (fun r => lists r && cr_IsDefault r) with
            | Some id => Some (id, ContextRuleDiscoveryDefault)
            | None => None
            end
  end.

Lemma seqZ_S id n : seqZ id (Z.of_nat (S n)) = id :: seqZ (id + 1) (Z.of_nat n).
Proof. rewrite seqZ_cons by lia. f_equal; f_equal; lia. Qed.

Lemma discover_from_spec (Hc : chain_rules) target n id dflt (w : World D) :
  exists w', w_store w' = w_store w /\
    discover_from addr target n id dflt w =
    (Ok (match List.find (rule_test (calls target)) (seqZ id (Z.of_nat n)) with
         | Some i => (i, ContextRuleDiscoveryMatched)
         | None =>
             match dflt, List.find (rule_test cr_IsDefault) (seqZ id (Z.of_nat n)) with
             | Some d, _ | None, Some d => (d, ContextRuleDiscoveryDefault)
             | None, None => (0, ContextRuleDiscoveryFallback)
             end
         end), w').
Proof.
  revert id dflt w. induction n as [|n IH]; intros id dflt w.
  { exists w. split; [done|]. cbn. by destruct dflt. }
  rewrite seqZ_S. cbn [discover_from List.find].
  destruct (proj2 Hc id w) as (w1 & E & Es). erewrite bind_run by exact E.
  unfold rule_test at 1 3. destruct (rule_at id) as [r|].
  - unfold calls at 1. destruct (String.eqb _ target).
    { exists w1. by split. }
    destruct (IH (id + 1) (match dflt with Some d => Some d
                           | None => if cr_IsDefault r then Some id else None end) w1) as (w' & Es' & ->).
    exists w'. split; [congruence|]. destruct dflt, (cr_IsDefault r); done.
  - destruct (IH (id + 1) dflt w1) as (w' & Es' & ->). exists w'. split; [congruence|done].
Qed.

Lemma scanned_seq : scanned = seqZ 0 (Z.of_nat (Z.to_nat (Z.min count maxContextRuleScan))).
Proof.
  unfold scanned. destruct (Z.le_gt_cases 0 (Z.min count maxContextRuleScan)).
  - by rewrite Z2Nat.id.
  - rewrite Z2Nat.nonpos by lia. by rewrite !seqZ_nil by lia.
Qed.

(** On a chain that stands still, [DiscoverContextRule] always answers, with
    the least-numbered rule for the target contract among the first 64 of the
    account, else the least Default rule, else rule 0 as fallback, and it writes
    nothing. *)
Theorem discover_context_rule_spec (Hc : chain_rules) target (w : World D) :
  exists w', DiscoverContextRule addr target w = (Ok (best_rule target), w') /\ w_store w' = w_store w.
Proof.
  unfold DiscoverContextRule. destruct (proj1 Hc w) as (w1 & E & Es). erewrite bind_run by exact E.
  destruct (discover_from_spec Hc target (Z.to_nat (Z.min count maxContextRuleScan)) 0 None w1)
    as (w' & Es' & E').
  exists w'. split; [|congruence]. etrans; [exact E'|].
  unfold best_rule, first_rule. by rewrite <- scanned_seq.
Qed.

Lemma find_signer_from_spec (Hc : chain_rules) verifier key target n id dflt (w : World D) :
  let lists r := ruleHasExactExternalSigner r verifier key in
  exists w', w_store w' = w_store w /\
    find_signer_from addr verifier key target n id dflt w =
    (Ok (match List.find (rule_test (fun r => lists r && (negb (String.eqb target "") && calls target r)))
                 (seqZ id (Z.of_nat n)) with
         | Some i => Some (i, ContextRuleDiscoveryMatched)
         | None =>
             match dflt, List.find (rule_test (fun r => lists r && cr_IsDefault r)) (seqZ id (Z.of_nat n)) with
             | Some d, _ | None, Some d => Some (d, ContextRuleDiscoveryDefault)
             | None, None => None
             end
         end), w').
Proof.
  intros lists. revert id dflt w. induction n as [|n IH]; intros id dflt w.
  { exists w. split; [done|]. cbn. by destruct dflt. }
  rewrite seqZ_S. cbn [find_signer_from List.find].
  destruct (proj2 Hc id w) as (w1 & E & Es). erewrite bind_run by exact E.
  unfold rule_test at 1 3. destruct (rule_at id) as [r|].
  - change (ruleHasExactExternalSigner r verifier key) with (lists r).
    destruct (lists r); cbn [negb andb].
    + unfold calls at 1. destruct (negb _ && _).
      { exists w1. by split. }
      destruct (IH (id + 1) (match dflt with Some d => Some d
                             | None => if cr_IsDefault r then Some id else None end) w1) as (w' & Es' & ->).
      exists w'. split; [congruence|]. destruct dflt, (cr_IsDefault r); done.
    + destruct (IH (id + 1) dflt w1) as (w' & Es' & ->). exists w'. split; [congruence|done].
  - destruct (IH (id + 1) dflt w1) as (w' & Es' & ->). exists w'. split; [congruence|done].
Qed.

(** [FindRuleForSigner] never answers with a rule the passkey cannot sign
    under: on a chain that stands still its answer is the least rule for the
    target contract, else the least Default rule, among the rules that list
    exactly this key under this verifier; and nothing when none does. *)
Theorem find_rule_for_signer_authorised (Hc : chain_rules) verifier key target (w : World D) :
  exists w', w_store w' = w_store w /\
    FindRuleForSigner addr verifier key target w = (Ok (best_rule_for_signer verifier key target), w') /\
    forall id how, best_rule_for_signer verifier key target = Some (id, how) ->
      exists r, rule_at id = Some r /\ ruleHasExactExternalSigner r verifier key = true /\
        0 <= id < Z.min count maxContextRuleScan.
Proof.
  unfold FindRuleForSigner. destruct (proj1 Hc w) as (w1 & E & Es). erewrite bind_run by exact E.
  destruct (find_signer_from_spec Hc verifier key target (Z.to_nat (Z.min count maxContextRuleScan)) 0 None w1)
    as (w' & Es' & E').
  exists w'. split; [congruence|]. split.
  { etrans; [exact E'|]. unfold best_rule_for_signer, first_rule. by rewrite <- scanned_seq. }
  intros id how. unfold best_rule_for_signer, first_rule. cbv zeta.
  assert (forall P i, List.find (rule_test (fun r => ruleHasExactExternalSigner r verifier key && P r)) scanned = Some i ->
    exists r, rule_at i = Some r /\ ruleHasExactExternalSigner r verifier key = true /\
      0 <= i < Z.min count maxContextRuleScan) as Hfind.
  { intros P i [Hin Ht]%find_some. unfold rule_test in Ht.
    destruct (rule_at i) as [r|]; [|done]. apply andb_true_iff in Ht as [Ht _].
    exists r. split; [done|]. split; [done|].
    apply list_elem_of_In, elem_of_seqZ in Hin. lia. }
  destruct (List.find _ scanned) as [i|] eqn:E1; [intros [= <- _]; exact (Hfind _ _ E1)|].
  clear E1. destruct (List.find _ scanned) as [i|] eqn:E2; [intros [= <- _]; exact (Hfind _ _ E2)|done].
Qed.
End Stable.
Section Embedded.
Context `{StellarSDK} `{Unicode}.

Lemma u32_ids_map ids : u32_ids (scU32 <$> ids) = Some ids.
Proof. induction ids as [|i ids IH]; cbn; [done|]. by rewrite IH. Qed.

(** The rule ids an AuthPayload was built with are the ones read back from
    the entry that carries it, so a submission binds the signature to the rules
    it was made for whatever rule id the request names. *)
Theorem embedded_rule_ids rules ws ds v e c body :
  rules <> [] -> buildMultisigAuthPayload rules ws ds = Ok v ->
  resolveContextRuleIDs (with_signature v e c) body = Ok rules.
Proof.
  intros Hne (inputs & es & -> & _)%payload_entries. unfold resolveContextRuleIDs.
  cbn -[u32_ids]. change (map scU32 rules) with (scU32 <$> rules). rewrite u32_ids_map. by destruct rules.
Qed.
End Embedded.

Section Witnesses.
Import Demo.

Definition demo_signer_val : ScVal :=
  scVec [scSymbol "External"; ScvAddress (AddrContract "V"); scBytes "k"].
Definition demo_rule (ty : ScVal) (sgs : list ScVal) : ScVal :=
  scMap [scMapEntry "context_type" ty; scMapEntry "signers" (scVec sgs)].
Definition demo_rules (id : Z) : option ScVal :=
  match id with
  | 0 => Some (demo_rule (scVec [scSymbol "Default"]) [demo_signer_val])
  | 2 => Some (demo_rule (scVec [scSymbol "CallContract"; ScvAddress (AddrContract "T")]) [])
  | _ => None
  end.
Definition demo_read (contract fn : string) (args : list ScVal) : option ScVal :=
  if String.eqb fn "get_context_rules_count" then Some (scU32 3)
  else match args with [ScvU32 id] => demo_rules id | _ => None end.
Definition demo_chain : Chain := {| ch_read := demo_read; ch_auth _ _ _ := []; ch_ledger := 100 |}.

Definition demo_rule_at (id : Z) : option ContextRuleSummary := parseContextRuleSummary id <$> demo_rules id.

(** A two-rule account with a gap at id 1: the scan of a call to [T] finds rule
    2, of another call the Default rule 0. *)
Definition demo_w : World unit := MkWorld tt 0.
Lemma find_rule_first_world (E := demo_env 0 0%N no_fault) (N := demo_network demo_chain) :
  fst (DiscoverContextRule (D := unit) "Cacc" "CT" demo_w) = Ok (2, ContextRuleDiscoveryMatched) /\
  fst (DiscoverContextRule (D := unit) "Cacc" "CX" demo_w) = Ok (0, ContextRuleDiscoveryDefault).
Proof. split; vm_compute; reflexivity. Qed.

(** A chain whose every rule is the same Default rule, whatever its id. *)
Definition uniform_rule : ScVal := demo_rule (scVec [scSymbol "Default"]) [demo_signer_val].
Definition uniform_network : Network := {|
  rpc_simulate tx n := Ok
    {| sim_Error := "";
       sim_Results := [(b64 (encode_val (if String.prefix (join ["acc"; "get_context_rules_count"]) tx
                                    then scU32 3 else uniform_rule)), [])];
       sim_TransactionData := ""; sim_MinResourceFee := ""; sim_LatestLedger := 100 |};
  rpc_latest_ledger n := Ok 100;
  rpc_account_sequence a n := Ok 1;
|}.
Definition uniform_rule_at (id : Z) : option ContextRuleSummary :=
  Some (parseContextRuleSummary id uniform_rule).

Lemma uniform_chain (E := demo_env 0 0%N no_fault) (N := uniform_network) :
  chain_rules (D := unit) "Cacc" 3 uniform_rule_at.
Proof. split; intros *; eexists; (split; [vm_compute; reflexivity | reflexivity]). Qed.

Lemma discover_context_rule_spec_witness (E := demo_env 0 0%N no_fault) (N := uniform_network) :
  exists w', DiscoverContextRule (D := unit) "Cacc" "CT" demo_w = (Ok (0, ContextRuleDiscoveryDefault), w').
Proof.
  destruct (discover_context_rule_spec "Cacc" 3 uniform_rule_at uniform_chain "CT" demo_w) as (w' & H & _).
  exists w'. exact H.
Defined.

Lemma find_rule_for_signer_authorised_witness (E := demo_env 0 0%N no_fault) (N := uniform_network) :
  exists w', FindRuleForSigner (D := unit) "Cacc" "CV" "6B" "CT" demo_w =
    (Ok (Some (0, ContextRuleDiscoveryDefault)), w').
Proof.
  destruct (find_rule_for_signer_authorised "Cacc" 3 uniform_rule_at uniform_chain "CV" "6B" "CT" demo_w)
    as (w' & _ & H & _).
  exists w'. exact H.
Defined.

Lemma embedded_rule_ids_witness :
  exists v, buildMultisigAuthPayload [7; 7] [] [{| di_GAddress := "GA" |}] = Ok v /\
    forall e c, resolveContextRuleIDs (with_signature v e c) (Some 0) = Ok [7; 7].
Proof.
  eexists. split; [vm_compute; reflexivity|]. intros e c.
  apply (embedded_rule_ids [7; 7] [] [{| di_GAddress := "GA" |}]); [discriminate | vm_compute; reflexivity].
Defined.
End Witnesses.
End ContextRules.
