(* ===== verification/Tokens.v ===== *)
(** * Access and refresh tokens (internal/service/auth_service.go,
    internal/middleware/auth.go and validateRecoveryToken of handler/recovery.go)

    The users and refresh_tokens tables, a refresh token's row under its SHA-256
    digest; signing and parsing of JSON web tokens belong to golang-jwt and are
    the class [Jwt]. Times are milliseconds; a claim's time is in seconds. *)

From S2P Require Export Tables Service Sha256 ExecuteAuth.
From S2P Require Import Instances.

Record MobileUser := { mu_Email : string; mu_EmailVerified : bool }.
Record RefreshToken := {
  rt_ID : uuid; rt_UserID : option uuid; rt_WalletAddress : option string;
  rt_ExpiresAt : Z; rt_Revoked : bool }.
Record TokenStore := MkTokens { tk_users : gmap uuid MobileUser; tk_refresh : gmap string RefreshToken }.

(** The claims the services write or read; an absent one is [None]. *)
Record Claims := { cl_sub : option string; cl_scope : option string; cl_kty : option string; cl_exp : Z; cl_iat : Z }.
Class Jwt := {
  jwt_sign : Claims -> string -> res string;
  (** [ParseWithClaims] with an HMAC key, at a time in milliseconds *)
  jwt_parse : string -> string -> Z -> res Claims;
  (** documented: a signed token is read back with its key until it expires *)
  jwt_signed : forall c secret t, jwt_sign c secret = Ok t -> forall now,
    jwt_parse t secret now = if now <? 1000 * cl_exp c then Ok c else Err (Sentinel "jwt.ErrTokenExpired");
}.
Class AuthConfig := { jwtSecret : string; accessTTL : Z; refreshTTL : Z }.

Module Tokens.
Import WalletSig.

Definition ScopeWallet : string := "wallet".
Definition ErrInvalidRefreshToken : error := Sentinel "ErrInvalidRefreshToken".
Definition HashToken (raw : string) : string := hex_encode (Sha256.Sum256 raw).
#[global] Arguments HashToken : simpl never.

(** ** refresh_tokens.sql.go and users.sql.go *)
Definition set_refresh (t : gmap string RefreshToken) (d : TokenStore) : TokenStore := MkTokens (tk_users d) t.
Definition set_mobile_users (t : gmap uuid MobileUser) (d : TokenStore) : TokenStore := MkTokens t (tk_refresh d).

Definition GetRefreshToken (hash : string) (d : TokenStore) : res RefreshToken :=
  match tk_refresh d !! hash with Some r => Ok r | None => Err ErrNoRows end.
Definition token_id_taken (id : uuid) (d : TokenStore) : bool :=
  existsb (fun kv => bool_decide (rt_ID (snd kv) = id)) (map_to_list (tk_refresh d)).
(** Both inserts: the primary key, the unique digest, the owner's foreign key and
    the width of [wallet_address]. *)
Definition insert_token (hash : string) (row : RefreshToken) (d : TokenStore) : res (unit * TokenStore) :=
  if token_id_taken (rt_ID row) d || is_ok (GetRefreshToken hash d) then Err ErrUnique else
  match rt_UserID row, rt_WalletAddress row with
  | Some u, _ => if bool_decide (tk_users d !! u = None) then Err ErrForeignKey
                 else Ok (tt, set_refresh (<[hash := row]> (tk_refresh d)) d)
  | None, Some w => if (56 <? String.length w)%nat then Err (Errorf "pq: value too long for type character varying(56)")
                    else Ok (tt, set_refresh (<[hash := row]> (tk_refresh d)) d)
  | None, None => Err (Errorf "pq: new row violates check constraint refresh_tokens_owner_chk")
  end.
Definition InsertRefreshToken (id : uuid) (userID : uuid) (hash : string) (expiresAt : Z) : TokenStore -> res (unit * TokenStore) :=
  insert_token hash {| rt_ID := id; rt_UserID := Some userID; rt_WalletAddress := None;
                       rt_ExpiresAt := expiresAt; rt_Revoked := false |}.
Definition InsertWalletRefreshToken (id : uuid) (wallet hash : string) (expiresAt : Z) : TokenStore -> res (unit * TokenStore) :=
  insert_token hash {| rt_ID := id; rt_UserID := None; rt_WalletAddress := Some wallet;
                       rt_ExpiresAt := expiresAt; rt_Revoked := false |}.
Definition revoked (r : RefreshToken) : RefreshToken :=
  {| rt_ID := rt_ID r; rt_UserID := rt_UserID r; rt_WalletAddress := rt_WalletAddress r;
     rt_ExpiresAt := rt_ExpiresAt r; rt_Revoked := true |}.
Definition RevokeRefreshTokenRow (hash : string) (d : TokenStore) : res (unit * TokenStore) :=
  Ok (tt, set_refresh (alter revoked hash (tk_refresh d)) d).

Definition user_by_email (p : MobileUser -> bool) (email : string) (d : TokenStore) : option uuid :=
  fst <$> head (List.filter (fun kv => String.eqb (mu_Email (snd kv)) email && p (snd kv)) (map_to_list (tk_users d))).
Definition find_user (p : MobileUser -> bool) (email : string) (d : TokenStore) : res uuid :=
  match user_by_email p email d with Some u => Ok u | None => Err ErrNoRows end.
(** The id of a new row is the database's choice. *)
Definition UpsertUserRow (id : uuid) (email : string) (d : TokenStore) : res (uuid * TokenStore) :=
  match user_by_email (fun _ => true) email d with
  | Some u => Ok (u, d)
  | None => if bool_decide (is_Some (tk_users d !! id)) then Err ErrUnique
            else Ok (id, set_mobile_users (<[id := {| mu_Email := email; mu_EmailVerified := false |}]> (tk_users d)) d)
  end.
Definition VerifyUserEmailRow (email : string) (d : TokenStore) : res (uuid * TokenStore) :=
  match user_by_email (fun _ => true) email d with
  | Some u => Ok (u, set_mobile_users (<[u := {| mu_Email := email; mu_EmailVerified := true |}]> (tk_users d)) d)
  | None => Err ErrNoRows
  end.

(** ** auth_service.go *)
Section Tokens.
Context `{StellarSDK} `{UuidLib} `{Jwt} `{AuthConfig} `{Env}.
Abbreviation W := (World TokenStore).

Definition UpsertUser (email : string) : M W string :=
  let! id := new_uuid in
  let! u := wrap "upsert user" (exec (UpsertUserRow id email)) in ret (uuid_string u).
Definition VerifyEmail (email : string) : M W string :=
  let! u := wrap "verify user email" (exec (VerifyUserEmailRow email)) in ret (uuid_string u).
(** Any failure reads as a missing user. *)
Definition user_or_empty (p : MobileUser -> bool) (email : string) : M W string :=
  let! r := attempt (query (find_user p email)) in
  match r with Ok u => ret (uuid_string u) | Err _ => ret "" end.
Definition GetVerifiedUserByEmail (email : string) : M W string := user_or_empty mu_EmailVerified email.
Definition GetUserByEmail (email : string) : M W string := user_or_empty (fun _ => true) email.

Definition seconds (ms : Z) : Z := ms / 1000.
(** [exp] and [iat] are two readings of the clock. *)
Definition signed_claims (sub : string) (scope kty : option string) (ttl : Z) : M W string :=
  let! now := now_ms in
  let! now' := now_ms in
  lift (jwt_sign {| cl_sub := Some sub; cl_scope := scope; cl_kty := kty;
                    cl_exp := seconds (now + ttl); cl_iat := seconds now' |} jwtSecret).
Definition issueAccessToken (userID : string) : M W string := signed_claims userID None None accessTTL.
Definition issueWalletAccessToken (wallet keyType : string) : M W string :=
  signed_claims wallet (Some ScopeWallet) (Some keyType) accessTTL.
Definition IssueRecoveryToken (userID : string) (ttl : Z) : M W string :=
  wrap "sign recovery token" (signed_claims userID (Some "recovery") None ttl).

Definition issueRefreshToken (userID : string) : M W string :=
  let! raw := wrap "generate random bytes" (rand_bytes 32) in
  let rawToken := hex_encode raw in
  let! uid := wrap "parse user id" (lift (parse_uuid userID)) in
  let! id := new_uuid in
  let! now := now_ms in
  let! _ := wrap "store refresh token" (exec (InsertRefreshToken id uid (HashToken rawToken) (now + refreshTTL))) in
  ret rawToken.
Definition issueWalletRefreshToken (wallet : string) : M W string :=
  let! raw := wrap "generate random bytes" (rand_bytes 32) in
  let rawToken := hex_encode raw in
  let! id := new_uuid in
  let! now := now_ms in
  let! _ := wrap "store wallet refresh token"
    (exec (InsertWalletRefreshToken id wallet (HashToken rawToken) (now + refreshTTL))) in
  ret rawToken.

Definition IssueTokenPair (userID : string) : M W (string * string) :=
  let! accessToken := wrap "issue access token" (issueAccessToken userID) in
  let! refreshToken := wrap "issue refresh token" (issueRefreshToken userID) in
  ret (accessToken, refreshToken).
Definition IssueWalletTokenPair (wallet keyType : string) : M W (string * string) :=
  let! accessToken := wrap "issue wallet access token" (issueWalletAccessToken wallet keyType) in
  let! refreshToken := wrap "issue wallet refresh token" (issueWalletRefreshToken wallet) in
  ret (accessToken, refreshToken).

(** Rotation: the transaction's read, and what it writes once the row passed. *)
Definition rotate_read (tokenHash : string) : M W RefreshToken :=
  let! r := attempt (query (GetRefreshToken tokenHash)) in
  match r with
  | Err _ => throw ErrInvalidRefreshToken
  | Ok row =>
      if rt_Revoked row then throw ErrInvalidRefreshToken else
      let! now := now_ms in
      if rt_ExpiresAt row <? now then throw ErrInvalidRefreshToken else ret row
  end.
Definition rotate_write (tokenHash : string) (row : RefreshToken) : M W ((uuid + string) * string) :=
  let! _ := wrap "revoke old refresh token" (exec (RevokeRefreshTokenRow tokenHash)) in
  let! raw := wrap "generate random bytes" (rand_bytes 32) in
  let newRawToken := hex_encode raw in
  let newHash := HashToken newRawToken in
  match rt_WalletAddress row with
  | Some wallet =>
      let! id := new_uuid in
      let! now := now_ms in
      let! _ := wrap "insert new wallet refresh token"
        (exec (InsertWalletRefreshToken id wallet newHash (now + refreshTTL))) in
      ret (inr wallet, newRawToken)
  | None =>
      match rt_UserID row with
      | None => throw ErrInvalidRefreshToken
      | Some uid =>
          let! id := new_uuid in
          let! now := now_ms in
          let! _ := wrap "insert new refresh token"
            (exec (InsertRefreshToken id uid newHash (now + refreshTTL))) in
          ret (inl uid, newRawToken)
      end
  end.
Definition rotated_access (owner : uuid + string) (newRawToken : string) : M W (string * string * string) :=
  match owner with
  | inr wallet =>
      let! accessToken := wrap "issue wallet access token" (issueWalletAccessToken wallet (KeyTypeForWallet wallet)) in
      ret (wallet, accessToken, newRawToken)
  | inl uid =>
      let! accessToken := wrap "issue access token" (issueAccessToken (uuid_string uid)) in
      ret (uuid_string uid, accessToken, newRawToken)
  end.
Definition RotateRefreshToken (rawToken : string) : M W (string * string * string) :=
  let tokenHash := HashToken rawToken in
  let! ' (owner, newRawToken) := transact (bind (rotate_read tokenHash) (rotate_write tokenHash)) in
  rotated_access owner newRawToken.
Definition RevokeRefreshToken (rawToken : string) : M W unit := exec (RevokeRefreshTokenRow (HashToken rawToken)).

(** ** middleware/auth.go: the subject and the scope of a request *)
Definition ErrUnauthorized : error := Sentinel "401 UNAUTHORIZED".
Definition bearer (authHeader : string) : option string :=
  if String.prefix "Bearer " authHeader then Some (trim_prefix "Bearer " authHeader) else None.
Definition RequireAuth (authHeader : string) (now : Z) : res (string * string) :=
  match bearer authHeader with
  | None => Err ErrUnauthorized
  | Some tokenStr =>
      match jwt_parse tokenStr jwtSecret now with
      | Err _ => Err ErrUnauthorized
      | Ok claims =>
          match cl_sub claims with
          | Some userID => if String.eqb userID "" then Err ErrUnauthorized
                           else Ok (userID, default "" (cl_scope claims))
          | None => Err ErrUnauthorized
          end
      end
  end.
(** handler/recovery.go *)
Definition validateRecoveryToken (authHeader : string) (now : Z) : res string :=
  match bearer authHeader with
  | None => Err (Sentinel "jwt.ErrTokenMalformed")
  | Some tokenStr =>
      match jwt_parse tokenStr jwtSecret now with
      | Err _ => Err (Sentinel "jwt.ErrTokenInvalidClaims")
      | Ok claims =>
          if negb (String.eqb (default "" (cl_scope claims)) "recovery")
             || String.eqb (default "" (cl_sub claims)) "" then Err (Sentinel "jwt.ErrTokenInvalidClaims")
          else Ok (default "" (cl_sub claims))
      end
  end.
End Tokens.

(** ** Rotation *)
Section Theorems.
Context `{StellarSDK} `{UuidLib} `{Jwt} `{AuthConfig} `{Env}.
Abbreviation W := (World TokenStore).

(** The row that takes over: the same owner, a new digest and deadline. *)
Definition successor (id : uuid) (expiresAt : Z) (row : RefreshToken) : RefreshToken :=
  {| rt_ID := id; rt_UserID := if rt_WalletAddress row then None else rt_UserID row;
     rt_WalletAddress := rt_WalletAddress row; rt_ExpiresAt := expiresAt; rt_Revoked := false |}.
(** The live token [raw] gave way to [raw']. *)
Definition rotated (raw raw' : string) (row : RefreshToken) (d d' : TokenStore) : Prop :=
  tk_refresh d !! HashToken raw = Some row /\ rt_Revoked row = false /\ tk_refresh d !! HashToken raw' = None /\
  HashToken raw' <> HashToken raw /\ (exists n, env_now n <= rt_ExpiresAt row) /\
  exists id n, d' = set_refresh (<[HashToken raw' := successor id (env_now n + refreshTTL) row]>
                                  (<[HashToken raw := revoked row]> (tk_refresh d))) d.
Definition owner_text (row : RefreshToken) : string :=
  match rt_WalletAddress row with Some wallet => wallet | None => default "" (uuid_string <$> rt_UserID row) end.

Lemma insert_token_ok hash row d d' u : insert_token hash row d = Ok (u, d') ->
  tk_refresh d !! hash = None /\ d' = set_refresh (<[hash := row]> (tk_refresh d)) d.
Proof using Type.
  unfold insert_token, GetRefreshToken. destruct (tk_refresh d !! hash) eqn:Eh; cbn [is_ok]; [by rewrite orb_true_r|].
  rewrite orb_false_r. destruct (token_id_taken _ _); [done|].
  destruct (rt_UserID row); [|destruct (rt_WalletAddress row); [|done]].
  - case_bool_decide; [done|]. by intros [= _ <-].
  - destruct (56 <? String.length s)%nat; [done|]. by intros [= _ <-].
Qed.

Lemma rotate_read_ok hash row (w w' : W) : rotate_read hash w = (Ok row, w') ->
  w_store w' = w_store w /\ tk_refresh (w_store w) !! hash = Some row /\ rt_Revoked row = false /\
  exists n, env_now n <= rt_ExpiresAt row.
Proof using Type.
  unfold rotate_read. intros Hr. apply bind_ok in Hr as (r & w1 & Hq & Hr).
  apply (proj1 (attempt_ok _ _ _ _)) in Hq. pose proof (query_store _ _ _ _ Hq) as Es.
  destruct r as [row'|e]; [|by apply throw_ok in Hr]. apply query_ok in Hq as (_ & Hq & _).
  destruct (rt_Revoked row') eqn:Erv; [by apply throw_ok in Hr|].
  apply bind_ok in Hr as (now & w2 & Hn & Hr). apply now_ok in Hn as [-> ->].
  destruct (Z.ltb_spec (rt_ExpiresAt row') (env_now (w_io w1))); [by apply throw_ok in Hr|].
  apply ret_ok in Hr as [<- <-]. unfold GetRefreshToken in Hq. destruct (tk_refresh (w_store w) !! hash); [|done].
  injection Hq as ->. split_and!; [done..|by eexists].
Qed.

Lemma rotate_write_ok hash row (w w' : W) owner raw' : rotate_write hash row w = (Ok (owner, raw'), w') ->
  exists id n, tk_refresh (w_store w) !! HashToken raw' = None /\
    w_store w' = set_refresh (<[HashToken raw' := successor id (env_now n + refreshTTL) row]>
                   (alter revoked hash (tk_refresh (w_store w)))) (w_store w) /\
    owner = match rt_WalletAddress row with Some wallet => inr wallet | None => inl (default 0%N (rt_UserID row)) end /\
    (rt_WalletAddress row = None -> is_Some (rt_UserID row)).
Proof using Type.
  unfold rotate_write. intros Hr. run_inv.
  match goal with H : RevokeRefreshTokenRow _ _ = Ok _ |- _ => injection H as <- <- end.
  assert (forall h t, alter revoked hash t !! h = None -> t !! h = None) as Ha
    by (intros h t; rewrite lookup_alter_None; done).
  unfold successor. destruct (rt_WalletAddress row) as [wallet|]; [|destruct (rt_UserID row) as [uid|]; [|by apply throw_ok in Hr]];
    run_inv; simplify_eq.
  - match goal with H : InsertWalletRefreshToken _ _ _ _ _ = Ok _ |- _ => apply insert_token_ok in H as [Hf ->] end.
    eexists _, _. split; [by apply Ha in Hf|]. by split_and!.
  - match goal with H : InsertRefreshToken _ _ _ _ _ = Ok _ |- _ => apply insert_token_ok in H as [Hf ->] end.
    eexists _, _. split; [by apply Ha in Hf|]. by split_and!.
Qed.

Lemma signed_claims_store sub sc kt ttl r (w w' : W) : signed_claims sub sc kt ttl w = (r, w') -> w_store w' = w_store w.
Proof using Type. unfold signed_claims, bind, now_ms, lift, tick. by intros [= _ <-]. Qed.
Lemma rotated_access_store owner raw r (w w' : W) : rotated_access owner raw w = (r, w') -> w_store w' = w_store w.
Proof using Type.
  assert (forall A c sub sc kt ttl (k : string -> M W A) (w1 : W) r w2, (forall s, keeps (on_store eq) (k s)) ->
    bind (wrap c (signed_claims sub sc kt ttl)) k w1 = (r, w2) -> w_store w2 = w_store w1) as Hb.
  { intros A c sub sc kt ttl k w1 r0 w2 Hk Hr. unfold bind, wrap in Hr.
    destruct (signed_claims sub sc kt ttl w1) as [[s|e] w3] eqn:E; apply signed_claims_store in E.
    - pose proof (keeps_run _ _ _ _ _ (Hk s) Hr) as E'. unfold on_store in E'. congruence.
    - by injection Hr as _ <-. }
  destruct owner; unfold rotated_access; apply Hb; intros; keeps.
Qed.
End Theorems.

Section Properties.
Context `{StellarSDK} `{UuidLib} `{Jwt} `{AuthConfig} `{Env}.
Abbreviation W := (World TokenStore).

Lemma rotate_tx_ok raw (w w' : W) owner raw' :
  bind (rotate_read (HashToken raw)) (rotate_write (HashToken raw)) w = (Ok (owner, raw'), w') ->
  exists row, rotated raw raw' row (w_store w) (w_store w') /\
    owner = match rt_WalletAddress row with Some wallet => inr wallet | None => inl (default 0%N (rt_UserID row)) end /\
    (rt_WalletAddress row = None -> is_Some (rt_UserID row)).
Proof using Type.
  intros Hr. apply bind_ok in Hr as (row & w1 & (E1 & Hrow & Hrv & Hexp)%rotate_read_ok & Hr).
  apply rotate_write_ok in Hr as (id & n & Hfresh & Hw & Hown & Hsome). rewrite E1 in Hfresh, Hw.
  exists row. split; [|done]. split; [done|]. split; [done|]. split; [done|].
  split; [intros E; by rewrite E, Hrow in Hfresh|]. split; [done|]. exists id, n. rewrite Hw. f_equal. f_equal.
  apply map_eq. intros h. destruct (decide (h = HashToken raw)) as [->|].
  - by rewrite lookup_alter_eq, lookup_insert_eq, Hrow.
  - by rewrite lookup_alter_ne, lookup_insert_ne.
Qed.

(** What a rotation's answer says of the tables before and after it. *)
Definition exchanged (raw : string) (r : res (string * string * string)) (d d' : TokenStore) : Prop :=
  match r with
  | Ok (subject, _, raw') => exists row, rotated raw raw' row d d' /\ subject = owner_text row
  | Err _ => d' = d \/ exists row raw', rotated raw raw' row d d'
  end.
Lemma rotate_run raw (w w' : W) r : RotateRefreshToken raw w = (r, w') -> exchanged raw r (w_store w) (w_store w').
Proof using Type.
  unfold RotateRefreshToken, bind at 1. destruct (transact _ w) as [[[owner raw']|e] w1] eqn:Et; intros Hr.
  2: { injection Hr as <- <-. left. by eapply transact_err_store. }
  apply transact_ok in Et as (_ & w2 & Hb & _ & ->). apply rotate_tx_ok in Hb as (row & Hrot & Hown & Hsome).
  cbn in Hrot. pose proof (rotated_access_store _ _ _ _ _ Hr) as Es. cbn in Es. rewrite Es.
  destruct r as [[[subject a] raw'']|e]; [|right; by eauto].
  exists row. unfold rotated_access in Hr. unfold owner_text. rewrite Hown in Hr.
  destruct (rt_WalletAddress row) as [wallet|]; run_inv; simplify_eq; [done|].
  destruct Hsome as [uid Hu]; [done|]. by rewrite Hu.
Qed.

(** ** Every row keeps its owner, and stays revoked *)
Definition row_kept (r r' : RefreshToken) : Prop :=
  rt_UserID r' = rt_UserID r /\ rt_WalletAddress r' = rt_WalletAddress r /\ rt_ExpiresAt r' = rt_ExpiresAt r /\
  (rt_Revoked r = true -> rt_Revoked r' = true).
Definition tokens_kept (d d' : TokenStore) : Prop :=
  forall h r, tk_refresh d !! h = Some r -> exists r', tk_refresh d' !! h = Some r' /\ row_kept r r'.
#[export] Instance tokens_kept_refl : Reflexive tokens_kept.
Proof using Type. intros d h r E. exists r. done. Qed.
#[export] Instance tokens_kept_trans : Transitive tokens_kept.
Proof using Type.
  intros d1 d2 d3 H12 H23 h r E. destruct (H12 h r E) as (r2 & E2 & ? & ? & ? & ?).
  destruct (H23 h r2 E2) as (r3 & E3 & ? & ? & ? & ?). exists r3. split; [done|]. split_and!; try congruence. auto.
Qed.

Lemma insert_token_kept hash row d u d' : insert_token hash row d = Ok (u, d') -> tokens_kept d d'.
Proof using Type.
  intros [Hf ->]%insert_token_ok h r E. exists r. cbn. rewrite lookup_insert_ne by congruence. done.
Qed.
Lemma keeps_insert_user id uid hash t : keeps (on_store tokens_kept) (exec (InsertRefreshToken id uid hash t)).
Proof using Type. apply keeps_exec; try apply _. intros d u d'. apply insert_token_kept. Qed.
Lemma keeps_insert_wallet id wallet hash t : keeps (on_store tokens_kept) (exec (InsertWalletRefreshToken id wallet hash t)).
Proof using Type. apply keeps_exec; try apply _. intros d u d'. apply insert_token_kept. Qed.
Lemma keeps_revoke hash : keeps (on_store tokens_kept) (exec (RevokeRefreshTokenRow hash)).
Proof using Type.
  apply keeps_exec; try apply _. intros d u d' [= _ <-] h r E. cbn. destruct (decide (h = hash)) as [->|].
  - rewrite lookup_alter_eq, E. by exists (revoked r).
  - rewrite lookup_alter_ne by done. by exists r.
Qed.
Lemma keeps_same_tokens {A} (f : TokenStore -> res (A * TokenStore)) :
  (forall d a d', f d = Ok (a, d') -> tk_refresh d' = tk_refresh d) -> keeps (on_store tokens_kept) (exec f).
Proof using Type. intros Hf. apply keeps_exec; try apply _. intros d a d' E h r. rewrite (Hf _ _ _ E). intros Er. by exists r. Qed.
Lemma keeps_upsert_user id email : keeps (on_store tokens_kept) (exec (UpsertUserRow id email)).
Proof using Type.
  apply keeps_same_tokens. intros d a d'. unfold UpsertUserRow.
  destruct (user_by_email _ _ _); [by intros [= _ <-]|]. case_bool_decide; [done|]. by intros [= _ <-].
Qed.
Lemma keeps_verify_email email : keeps (on_store tokens_kept) (exec (VerifyUserEmailRow email)).
Proof using Type.
  apply keeps_same_tokens. intros d a d'. unfold VerifyUserEmailRow. destruct (user_by_email _ _ _); [by intros [= _ <-]|done].
Qed.
Hint Resolve keeps_insert_user keeps_insert_wallet keeps_revoke keeps_upsert_user keeps_verify_email : keeps.

(** Every operation of the service. *)
Inductive token_op :=
  | OpUpsertUser (email : string)
  | OpVerifyEmail (email : string)
  | OpIssue (userID : string)
  | OpIssueWallet (wallet keyType : string)
  | OpRotate (raw : string)
  | OpRevoke (raw : string).
Definition run_token_op (op : token_op) : W -> W := fun w =>
  match op with
  | OpUpsertUser e => snd (UpsertUser e w)
  | OpVerifyEmail e => snd (VerifyEmail e w)
  | OpIssue u => snd (IssueTokenPair u w)
  | OpIssueWallet x k => snd (IssueWalletTokenPair x k w)
  | OpRotate raw => snd (RotateRefreshToken raw w)
  | OpRevoke raw => snd (RevokeRefreshToken raw w)
  end.
Inductive token_step : TokenStore -> TokenStore -> Prop :=
  | token_step_run op w : token_step (w_store w) (w_store (run_token_op op w)).

Lemma token_op_kept op w : on_store tokens_kept w (run_token_op op w).
Proof using Type.
  assert (forall sub sc kt ttl, keeps (on_store tokens_kept) (signed_claims (sub : string) sc kt ttl)) as Hsign.
  { intros sub sc kt ttl w0. unfold on_store. destruct (signed_claims sub sc kt ttl w0) as [r w1] eqn:E.
    apply signed_claims_store in E. cbn. by rewrite E. }
  assert (forall owner raw, keeps (on_store tokens_kept) (rotated_access owner raw)) as Hacc.
  { intros [uid|wallet] raw; unfold rotated_access, issueAccessToken, issueWalletAccessToken; keeps. }
  revert w. destruct op; cbn [run_token_op];
    match goal with |- forall w, on_store ?R w (snd (?m w)) => change (keeps (on_store R) m) end.
  - unfold UpsertUser. keeps.
  - unfold VerifyEmail. keeps.
  - unfold IssueTokenPair, issueAccessToken, issueRefreshToken. keeps.
  - unfold IssueWalletTokenPair, issueWalletAccessToken, issueWalletRefreshToken. keeps.
  - unfold RotateRefreshToken, rotate_read, rotate_write. keeps.
  - unfold RevokeRefreshToken. keeps.
Qed.

Lemma revoked_refused raw row (w : W) :
  tk_refresh (w_store w) !! HashToken raw = Some row -> rt_Revoked row = true ->
  is_ok (fst (RotateRefreshToken raw w)) = false.
Proof using Type.
  intros Hrow Hrv. destruct (RotateRefreshToken raw w) as [[[[s a] raw']|e] w'] eqn:E; [|done].
  apply rotate_run in E as (row' & (Hrow' & Hrv' & _) & _). congruence.
Qed.
End Properties.

Section Sessions.
Context `{StellarSDK} `{UuidLib} `{Jwt} `{AuthConfig} `{Env}.
Abbreviation W := (World TokenStore).

(** A rotation exchanges one token for one. On success the presented token had
    a live row — not revoked, not past its deadline — which is now revoked, and one
    new row was added, under a digest no row had, with the same owner and a full
    lifetime; nothing else changed, and the subject answered is that owner. A
    refused rotation leaves every table alone, unless only the signing of the new
    access token failed, after the exchange was committed. *)
Theorem rotation_exchanges_one raw (w w' : W) r :
  RotateRefreshToken raw w = (r, w') -> exchanged raw r (w_store w) (w_store w').
Proof using Type. apply rotate_run. Qed.

(** C17. A refresh token is exchanged at most once, and logout is final: after a
    successful rotation, or after a revocation that reached the database, whatever
    users sign in, rotate or log out afterwards, presenting the same token is
    refused. *)
Theorem refresh_single_use raw (w w1 w2 : W) :
  is_Some (tk_refresh (w_store w) !! HashToken raw) ->
  (exists out, RotateRefreshToken raw w = (Ok out, w1)) \/ RevokeRefreshToken raw w = (Ok tt, w1) ->
  rtc token_step (w_store w1) (w_store w2) ->
  is_ok (fst (RotateRefreshToken raw w2)) = false.
Proof using Type.
  intros [row0 Hrow0] Hdone Hs.
  assert (exists row, tk_refresh (w_store w1) !! HashToken raw = Some row /\ rt_Revoked row = true) as (row & Hrow & Hrv).
  { destruct Hdone as [([[s a] raw'] & Hr)|Hr].
    - apply rotate_run in Hr as (row & (Hrow & _ & _ & Hne & _ & id & n & ->) & _).
      exists (revoked row). cbn. rewrite lookup_insert_ne by done. by rewrite lookup_insert_eq.
    - unfold RevokeRefreshToken in Hr. run_inv.
      match goal with H : RevokeRefreshTokenRow _ _ = Ok _ |- _ => injection H as <- end.
      exists (revoked row0). cbn. by rewrite lookup_alter_eq, Hrow0. }
  assert (tokens_kept (w_store w1) (w_store w2)) as Hk.
  { clear -Hs. induction Hs as [|d1 d2 d3 [op w] _ IH]; [done|]. etrans; [|exact IH]. apply token_op_kept. }
  destruct (Hk _ _ Hrow) as (row' & Hrow' & _ & _ & _ & Himp). by eapply revoked_refused; [exact Hrow'|apply Himp].
Qed.

(** Two rotations of one token at once: at READ COMMITTED both transactions may
    read the row before either writes it, and then both succeed. The token was
    exchanged twice, and both successors are live. *)
Theorem rotation_race raw row1 row2 o1 o2 raw1 raw2 (w wa wb wc wd : W) :
  rotate_read (HashToken raw) w = (Ok row1, wa) ->
  rotate_read (HashToken raw) wa = (Ok row2, wb) ->
  rotate_write (HashToken raw) row1 wb = (Ok (o1, raw1), wc) ->
  rotate_write (HashToken raw) row2 wc = (Ok (o2, raw2), wd) ->
  HashToken raw1 <> HashToken raw2 /\ o1 = o2 /\
  exists s1 s2, tk_refresh (w_store wd) !! HashToken raw1 = Some s1 /\ tk_refresh (w_store wd) !! HashToken raw2 = Some s2 /\
    rt_Revoked s1 = false /\ rt_Revoked s2 = false.
Proof using Type.
  intros (E1 & L1 & _)%rotate_read_ok (E2 & L2 & _)%rotate_read_ok Hw1 Hw2. rewrite E1 in L2.
  assert (row1 = row2) as <- by congruence.
  apply rotate_write_ok in Hw1 as (id1 & n1 & F1 & S1 & -> & _), Hw2 as (id2 & n2 & F2 & S2 & -> & _).
  rewrite E2, E1 in F1, S1. rewrite S1 in F2, S2. cbn in F2, S2.
  assert (HashToken raw1 <> HashToken raw2) as Hne by (intros E; by rewrite E, lookup_insert_eq in F2).
  assert (HashToken raw1 <> HashToken raw) as Hne' by (intros E; by rewrite E, L1 in F1).
  split; [done|]. split; [done|]. rewrite S2. cbn.
  exists (successor id1 (env_now n1 + refreshTTL) row1), (successor id2 (env_now n2 + refreshTTL) row1).
  rewrite lookup_insert_ne, lookup_alter_ne, !lookup_insert_eq by done. done.
Qed.

(** ** What a token is good for *)
Definition until {A} (f : Z -> res A) (deadline : Z) (a : A) : Prop :=
  forall now, if now <? 1000 * seconds deadline then f now = Ok a else is_ok (f now) = false.
Definition never {A} (f : Z -> res A) : Prop := forall now, is_ok (f now) = false.
Definition header (token : string) : string := "Bearer " +:+ token.

Lemma bearer_header t : bearer (header t) = Some t.
Proof using Type. unfold bearer, header, trim_prefix. by rewrite GoStrings.prefix_app, str_drop_app. Qed.
Lemma signed_claims_ok sub sc kt ttl t (w w' : W) : signed_claims sub sc kt ttl w = (Ok t, w') ->
  exists iat, jwt_sign {| cl_sub := Some sub; cl_scope := sc; cl_kty := kt;
    cl_exp := seconds (env_now (w_io w) + ttl); cl_iat := iat |} jwtSecret = Ok t.
Proof using Type. unfold signed_claims. intros Hr. run_inv. by eexists. Qed.

(** What each token opens. A user's access token is that user's session, and a
    wallet's that wallet's, until the expiry second of its issue, and neither is
    ever a recovery token. A recovery token reads the backup of its user until it
    expires — and is until then also accepted as a session of that user, by every
    route that only asks for authentication. *)
Theorem token_scopes sub kty ttl t (w w' : W) :
  sub <> "" ->
  (issueAccessToken sub w = (Ok t, w') ->
     until (RequireAuth (header t)) (env_now (w_io w) + accessTTL) (sub, "") /\ never (validateRecoveryToken (header t))) /\
  (issueWalletAccessToken sub kty w = (Ok t, w') ->
     until (RequireAuth (header t)) (env_now (w_io w) + accessTTL) (sub, ScopeWallet) /\
     never (validateRecoveryToken (header t))) /\
  (IssueRecoveryToken sub ttl w = (Ok t, w') ->
     until (validateRecoveryToken (header t)) (env_now (w_io w) + ttl) sub /\
     until (RequireAuth (header t)) (env_now (w_io w) + ttl) (sub, "recovery")).
Proof using Type.
  intros Hne%String.eqb_neq.
  assert (forall sc kt ttl', signed_claims sub sc kt ttl' w = (Ok t, w') ->
    until (RequireAuth (header t)) (env_now (w_io w) + ttl') (sub, default "" sc) /\
    forall now, validateRecoveryToken (header t) now =
      if now <? 1000 * seconds (env_now (w_io w) + ttl')
      then (if String.eqb (default "" sc) "recovery" then Ok sub else Err (Sentinel "jwt.ErrTokenInvalidClaims"))
      else Err (Sentinel "jwt.ErrTokenInvalidClaims")) as Hc.
  { intros sc kt ttl' (iat & Hj)%signed_claims_ok. unfold until, RequireAuth, validateRecoveryToken.
    rewrite !bearer_header. split; intros now; rewrite (jwt_signed _ _ _ Hj); cbn [cl_exp];
      destruct (now <? _) eqn:En; cbn [cl_sub cl_scope default]; try done; unfold from_option, id; rewrite Hne; [done|].
    rewrite orb_false_r. by destruct (String.eqb _ "recovery"). }
  split; [|split]; unfold issueAccessToken, issueWalletAccessToken, IssueRecoveryToken; rewrite ?wrap_ok; intros [Ha Hv]%Hc;
    (split; [try exact Ha|]).
  - intros now. rewrite Hv. by destruct (now <? _).
  - intros now. rewrite Hv. by destruct (now <? _).
  - intros now. rewrite Hv. by destruct (now <? _).
  - exact Ha.
Qed.
End Sessions.

Section Witnesses.
Import Demo.

#[export] Instance claims_eq_dec : EqDecision Claims.
Proof. solve_decision. Defined.
Definition opt_tok (o : option string) : list string := match o with Some s => ["some"; s] | None => ["none"; ""] end.
Definition tok_opt (tag s : string) : option string := if String.eqb tag "some" then Some s else None.
Definition jwt_text (c : Claims) (secret : string) : string :=
  join (opt_tok (cl_sub c) ++ opt_tok (cl_scope c) ++ opt_tok (cl_kty c) ++
        [big_string (cl_exp c); big_string (cl_iat c); secret]).
Definition jwt_read (t : string) : option (Claims * string) :=
  match split_all t with
  | Some [a; b; c; d; e; f; x; y; secret] =>
      x ← dec_nat x; y ← dec_nat y;
      Some ({| cl_sub := tok_opt a b; cl_scope := tok_opt c d; cl_kty := tok_opt e f; cl_exp := x; cl_iat := y |}, secret)
  | _ => None
  end.
(** Signing checks that reading gives the claims back. *)
Definition demo_jwt_sign (c : Claims) (secret : string) : res string :=
  if bool_decide (jwt_read (jwt_text c secret) = Some (c, secret)) then Ok (jwt_text c secret) else Err (Errorf "jwt").
Definition demo_jwt_parse (t secret : string) (now : Z) : res Claims :=
  match jwt_read t with
  | Some (c, secret') =>
      if String.eqb secret' secret then
        if now <? 1000 * cl_exp c then Ok c else Err (Sentinel "jwt.ErrTokenExpired")
      else Err (Sentinel "jwt.ErrTokenSignatureInvalid")
  | None => Err (Sentinel "jwt.ErrTokenMalformed")
  end.
Lemma demo_jwt_signed c secret t : demo_jwt_sign c secret = Ok t -> forall now,
  demo_jwt_parse t secret now = if now <? 1000 * cl_exp c then Ok c else Err (Sentinel "jwt.ErrTokenExpired").
Proof.
  unfold demo_jwt_sign, demo_jwt_parse. case_bool_decide as Hr; [|done]. intros [= <-] now. rewrite Hr.
  by rewrite String.eqb_refl.
Qed.
#[export] Instance demo_jwt : Jwt := {| jwt_signed := demo_jwt_signed |}.
#[export] Instance demo_auth : AuthConfig := {| jwtSecret := "k"; accessTTL := 900000; refreshTTL := 2592000000 |}.

(** Random bytes that differ from effect to effect. *)
#[export] Instance fresh_env : Env :=
  {| env_now n := 1000 + Z.of_nat n; env_uuid n := (100 + N.of_nat n)%N;
     env_rand n k := Ok (pretty (N.of_nat n)); env_fault n := false |}.
Definition live_row : RefreshToken :=
  {| rt_ID := 9%N; rt_UserID := Some 1%N; rt_WalletAddress := None; rt_ExpiresAt := 5000; rt_Revoked := false |}.
Definition signed_in : World TokenStore :=
  MkWorld (MkTokens {[1%N := {| mu_Email := "a@b"; mu_EmailVerified := true |}]} {[HashToken "r" := live_row]}) 0.

Definition raw_of (r : res (string * string * string)) : string := match r with Ok (_, _, raw) => raw | Err _ => "" end.

Lemma rotation_exchanges_one_witness :
  exists subject a raw' w', RotateRefreshToken (H := demo_sdk) "r" signed_in = (Ok (subject, a, raw'), w') /\
    exists row, rotated "r" raw' row (w_store signed_in) (w_store w') /\ subject = owner_text row.
Proof.
  destruct (RotateRefreshToken (H := demo_sdk) "r" signed_in) as [r w'] eqn:E.
  pose proof (f_equal (fun p => is_ok (fst p)) E) as Hok. vm_compute in Hok.
  destruct r as [[[subject a] raw']|e]; [|done]. exists subject, a, raw', w'. split; [reflexivity|].
  exact (rotation_exchanges_one (H := demo_sdk) "r" signed_in w' _ E).
Defined.

Lemma refresh_single_use_witness :
  exists w1, RevokeRefreshToken "r" signed_in = (Ok tt, w1) /\
    is_ok (fst (RotateRefreshToken (H := demo_sdk) "r" (run_token_op (H := demo_sdk) (OpIssue "1") w1))) = false.
Proof.
  destruct (answers (RevokeRefreshToken "r") signed_in (Ok tt)) as (w1 & Hr); [vm_compute; reflexivity|].
  exists w1. split; [exact Hr|].
  apply (refresh_single_use (H := demo_sdk) "r" signed_in w1).
  - exists live_row. vm_compute. reflexivity.
  - right. exact Hr.
  - eapply rtc_l; [apply token_step_run|]. apply rtc_refl.
Defined.

Lemma rotation_race_witness :
  exists raw1 raw2 wd s1 s2, raw1 <> raw2 /\ tk_refresh (w_store wd) !! HashToken raw1 = Some s1 /\
    tk_refresh (w_store wd) !! HashToken raw2 = Some s2 /\ rt_Revoked s1 = false /\ rt_Revoked s2 = false.
Proof.
  destruct (answers (rotate_read (HashToken "r")) signed_in (Ok live_row)) as (wa & Ha); [vm_compute; reflexivity|].
  assert (wa = snd (rotate_read (HashToken "r") signed_in)) as Ea by (by rewrite Ha).
  destruct (answers (rotate_read (HashToken "r")) wa (Ok live_row)) as (wb & Hb); [rewrite Ea; vm_compute; reflexivity|].
  assert (wb = snd (rotate_read (HashToken "r") wa)) as Eb by (by rewrite Hb).
  destruct (answers (rotate_write (HashToken "r") live_row) wb (Ok (inl 1%N, hex_encode "5"))) as (wc & Hc);
    [rewrite Eb, Ea; vm_compute; reflexivity|].
  assert (wc = snd (rotate_write (HashToken "r") live_row wb)) as Ec by (by rewrite Hc).
  destruct (answers (rotate_write (HashToken "r") live_row) wc (Ok (inl 1%N, hex_encode "10"))) as (wd & Hd);
    [rewrite Ec, Eb, Ea; vm_compute; reflexivity|].
  destruct (rotation_race "r" live_row live_row _ _ _ _ signed_in wa wb wc wd Ha Hb Hc Hd)
    as (_ & _ & s1 & s2 & H1 & H2 & R1 & R2).
  exists (hex_encode "5"), (hex_encode "10"), wd, s1, s2.
  split; [vm_compute; discriminate|exact (conj H1 (conj H2 (conj R1 R2)))].
Defined.

(** A recovery token used as a session. *)
Lemma token_scopes_witness :
  exists t w', IssueRecoveryToken "1" 600000 signed_in = (Ok t, w') /\ RequireAuth (header t) 500000 = Ok ("1", "recovery").
Proof.
  destruct (IssueRecoveryToken "1" 600000 signed_in) as [r w'] eqn:E.
  pose proof (f_equal (fun p => is_ok (fst p)) E) as Hok. vm_compute in Hok. destruct r as [t|e]; [|done].
  exists t, w'. split; [reflexivity|].
  destruct (token_scopes "1" "" 600000 t signed_in w') as (_ & _ & Hrec); [discriminate|].
  destruct (Hrec E) as [_ Hu]. exact (Hu 500000).
Defined.
End Witnesses.
End Tokens.
