(* ===== verification/Submit.v ===== *)
(** * Submitting signed transactions (gasless.go, gasless_forward.go,
    transaction_service.go, transaction_batch.go of internal/service/webapp)

    A transaction the client built and signed leaves the service on one of three
    ways: as a sponsored submission or a user-paid [forward()] through the
    gasless service, or re-sourced on the bundler's account, signed by it and
    sent to the RPC. The last section makes [TransactionService] an instance of
    the interface the proposal service is proved against. *)

From S2P Require Export Service ContextRules ExecuteAuth.
From S2P Require Import Sha256 Instances.

Module Submit.
Import Amount Balances ContextRules Signers ExecuteAuth.

(** ** Constants of the two files and of internal/service *)
Definition buildTimeoutSeconds : Z := 30.
Definition submitPollAttempts : nat := 20.
Definition RPCStatusSuccess : string := "SUCCESS".
Definition RPCStatusPending : string := "PENDING".
Definition RPCStatusFailed : string := "FAILED".
Definition RPCStatusNotFound : string := "NOT_FOUND".
Definition RPCStatusError : string := "ERROR".
Definition GaslessModeSponsored : string := "sponsored".
Definition GaslessModeForward : string := "forward".
Definition forwardFn : string := "forward".
Definition forwardArgCount : nat := 9.
Definition forwardUserArg : nat := 7.
Definition maxBatchOperations : nat := 4.
Definition ErrGaslessNotConfigured : error := Sentinel "ErrGaslessNotConfigured".
Definition ErrGaslessRefused : error := Sentinel "ErrGaslessRefused".
Definition ErrGaslessPending : error := Sentinel "ErrGaslessPending".
Definition ErrGaslessUnavailable : error := Sentinel "ErrGaslessUnavailable".
Definition ErrInsufficientFeeBalance : error := Sentinel "ErrInsufficientFeeBalance".
Definition ErrFeeQuoteStale : error := Sentinel "ErrFeeQuoteStale".
Definition ErrFeeRuleNotFound : error := Sentinel "ErrFeeRuleNotFound".
Definition ErrGaslessTooManyFailures : error := Sentinel "ErrGaslessTooManyFailures".
Definition ErrGaslessLimited : error := Sentinel "ErrGaslessLimited".
Definition ErrBatchMixedContracts : error := Sentinel "ErrBatchMixedContracts".

(** Go's run-time panic when a union holds another arm; it ends the request. *)
Definition panic_union_arm : error := Errorf "panic: arm is not set".

Record SendTxResult := { st_Status : string; st_Hash : string; st_ErrorResultXdr : string }.
Record GetTxResult := { gt_Status : string; gt_ResultMetaXdr : string; gt_EnvelopeXdr : string }.
Record GaslessRecord := {
  gr_RequestID : string; gr_Status : string; gr_TxHash : string; gr_ErrorCode : string; gr_ErrorMessage : string }.
Record GaslessFeeToken := { ft_Contract : string; ft_Symbol : string; ft_Native : bool }.
Record GaslessFeeConfig := {
  fc_FeeForwarder : string; fc_Relayer : string; fc_FeeTokens : list GaslessFeeToken }.

(** The rest of Soroban RPC, and whether the request's context is done by the
    n-th effect. *)
Class SubmitNetwork := {
  rpc_send : string -> nat -> res SendTxResult;
  rpc_get_transaction : string -> nat -> res GetTxResult;
  (** how many of the ledger keys have an entry *)
  rpc_ledger_entries : list string -> nat -> res nat;
  ctx_err : nat -> option error;
}.

(** [gaslessClient]; [Submit] returns a record next to its error. *)
Class Gasless := {
  gasless_set : bool;   (** the field is not nil *)
  gasless_submit : GaslessSubmission -> nat -> GaslessRecord * option error;
  gasless_fee_tokens : nat -> res GaslessFeeConfig;
}.

Definition i128ToBigInt (hi lo : Z) : Z := Z.lor (Z.shiftl hi 64) lo.

Section Submit.
Context `{StellarSDK} `{Network} `{SubmitNetwork} `{Gasless} `{Env} `{ServiceConfig}.
Abbreviation W := (World Store).

(** ** gasless.go *)
Definition sponsoredWalletFunctions : list string := ["add_context_rule"; "add_signer"; "remove_context_rule"].

Definition sponsoredWallet (fn : HostFunction) : option string :=
  match fn with
  | InvokeContract contract name _ =>
      if bool_decide (name ∈ sponsoredWalletFunctions) then
        match scaddress_string contract with Ok wallet => Some wallet | Err _ => None end
      else None
  | OtherHostFunction _ => None
  end.

Definition gaslessRequestID (fn : HostFunction) (entries : list AuthEntry) : res string :=
  let? b := res_wrap "marshal host function" (hostfn_marshal fn) in
  let? bs := res_wrap "marshal auth entry" (res_map entry_marshal entries) in
  Ok ("latch_" +:+ String.substring 0 40 (hex_encode (Sha256.Sum256 (b +:+ String.concat "" bs)))).

(** The placeholder envelope: unfunded source, sequence 0. *)
Definition gasless_params (fn : HostFunction) (entries : list AuthEntry) : TxParams :=
  {| tp_SourceAccount := simDummySourceAccount; tp_Sequence := 0;
     tp_Operations := [{| op_Function := fn; op_SourceAccount := simDummySourceAccount;
                          op_Auth := entries; op_SorobanData := None |}];
     tp_BaseFee := MinBaseFee; tp_Timeout := buildTimeoutSeconds; tp_IncrementSequenceNum := true |}.

Definition submitGasless (mode wallet : string) (fn : HostFunction) (entries : list AuthEntry) : M W SubmitResult :=
  if negb gasless_set then throw ErrGaslessNotConfigured else
  let! reqID := lift (gaslessRequestID fn entries) in
  let! envelope := wrap "build gasless envelope" (call (fun n => tx_build n (gasless_params fn entries))) in
  let sub := {| gs_RequestID := reqID; gs_Wallet := wallet; gs_Mode := mode; gs_Transaction := envelope |} in
  let! ' (rec, err) := send (GaslessSend sub) (fun n => Ok (gasless_submit sub n)) in
  match err with
  | Some e =>
      if errors_is e ErrGaslessPending && negb (String.eqb (gr_TxHash rec) "")
      then ret {| sr_Hash := gr_TxHash rec; sr_Status := RPCStatusPending; sr_ResultMetaXdr := "" |}
      else throw (Wrapf "gasless submit" e)
  | None => ret {| sr_Hash := gr_TxHash rec; sr_Status := RPCStatusSuccess; sr_ResultMetaXdr := "" |}
  end.

Definition submitSponsored (wallet : string) (fn : HostFunction) (entries : list AuthEntry) : M W SubmitResult :=
  submitGasless GaslessModeSponsored wallet fn entries.

(** ** gasless_forward.go: submission *)
Definition isForwardShaped (fn : HostFunction) : bool :=
  match fn with
  | InvokeContract _ name args => String.eqb name forwardFn && (length args =? forwardArgCount)%nat
  | OtherHostFunction _ => false
  end.

Definition forwardCallWallet (fn : HostFunction) (feeForwarder : string) : option string :=
  match fn with
  | InvokeContract contract name args =>
      if String.eqb name forwardFn && (length args =? forwardArgCount)%nat then
        match scaddress_string contract, args !! forwardUserArg with
        | Ok c, Some user =>
            if String.eqb c feeForwarder
            then match scValToAddressString user with Ok u => Some u | Err _ => None end
            else None
        | _, _ => None
        end
      else None
  | OtherHostFunction _ => None
  end.

Definition userPaidWallet (fn : HostFunction) : M W (option string) :=
  if negb (isForwardShaped fn) then ret None else
  if negb gasless_set then throw ErrGaslessNotConfigured else
  let! cfg := wrap "fee token config" (call gasless_fee_tokens) in
  ret (forwardCallWallet fn (fc_FeeForwarder cfg)).

(** build_swap_transaction.go *)
Definition balanceOf (tokenContractID holderAddress : string) : M W (Z * Z) :=
  let! holderVal := wrap "resolve holder address" (lift (scAddress holderAddress)) in
  let! r := wrap "simulate balance call" (simulateReadCall tokenContractID "balance" [holderVal]) in
  match r with
  | None => ret (0, 0)
  | Some (ScvI128 hi lo) => ret (hi, lo)
  | Some _ => throw (Errorf "expected i128 balance result")
  end.

Definition forwardSpend (args : list ScVal) : option (string * Z) :=
  match args !! 4%nat, args !! 5%nat, args !! 6%nat with
  | Some target, Some (ScvSymbol fn), Some (ScvVec (Some targetArgs)) =>
      match scValToAddressString target with
      | Err _ => None
      | Ok target =>
          if String.eqb fn "transfer" then
            match targetArgs with
            | [_; _; ScvI128 hi lo] => Some (target, i128ToBigInt hi lo)
            | _ => None
            end
          else if String.eqb fn "swap_chained" then
            match targetArgs with
            | [_; _; token; ScvU128 hi lo; _] =>
                match scValToAddressString token with
                | Ok tokenIn => Some (tokenIn, Z.lor (Z.shiftl hi 64) lo)
                | Err _ => None
                end
            | _ => None
            end
          else None
      end
  | _, _, _ => None
  end.

Definition forwardBalanceShort (wallet : string) (fn : HostFunction) : M W bool :=
  match fn with
  | InvokeContract _ _ ((tokenVal :: _ :: maxFee :: _) as args) =>
      let! token := lift (scValToAddressString tokenVal) in
      match maxFee with
      | ScvI128 mhi mlo =>
          let need := i128ToBigInt mhi mlo in
          let need := match forwardSpend args with
                      | Some (spendToken, amount) => if String.eqb spendToken token then need + amount else need
                      | None => need
                      end in
          let! ' (hi, lo) := balanceOf token wallet in
          ret (i128ToBigInt hi lo <? need)
      | _ => throw panic_union_arm
      end
  | _ => throw panic_union_arm
  end.

(** A refusal is told apart by the wallet's balance. A failed balance read
    counts as not short; a panic is not caught. *)
Definition submitForward (wallet : string) (fn : HostFunction) (entries : list AuthEntry) : M W SubmitResult :=
  let! r := attempt (submitGasless GaslessModeForward wallet fn entries) in
  match r with
  | Ok result => ret result
  | Err err =>
      if negb (errors_is err ErrGaslessRefused) then throw err else
      let! short := attempt (forwardBalanceShort wallet fn) in
      match short with
      | Ok true => throw (Wrapf "submit forward" ErrInsufficientFeeBalance)
      | Ok false => throw (Wrapf "submit forward" ErrFeeQuoteStale)
      | Err berr => if bool_decide (berr = panic_union_arm) then throw berr
                    else throw (Wrapf "submit forward" ErrFeeQuoteStale)
      end
  end.

(** ** transaction_service.go: the shared submit pipeline *)
Definition single_invoke (txXdrB64 : string) : res HostFunction :=
  let? origEnvelope := res_wrap "decode tx envelope" (envelope_unmarshal_b64 txXdrB64) in
  match origEnvelope with
  | Some [InvokeHostFunctionOp hostFunction] => Ok hostFunction
  | Some [OtherOperation _] => Err (Errorf "expected an invoke host function operation")
  | _ => Err (Errorf "expected a single-operation transaction envelope")
  end.

(** Documented: decoding an envelope gives the operations it was built with. *)
Definition tx_round_trip : Prop :=
  forall n tp b, tx_build n tp = Ok b ->
    envelope_unmarshal_b64 b = Ok (Some ((fun op => InvokeHostFunctionOp (op_Function op)) <$> tp_Operations tp)).

(** [buildTx] of the two submit functions. *)
Definition bundler_params (seq : Z) (hostFunctions : list HostFunction) (entries : list AuthEntry)
    (sorobanData : option string) : TxParams :=
  {| tp_SourceAccount := bundlerG; tp_Sequence := seq;
     tp_Operations := (fun fn => {| op_Function := fn; op_SourceAccount := bundlerG;
                                    op_Auth := entries; op_SorobanData := sorobanData |}) <$> hostFunctions;
     tp_BaseFee := deployFee; tp_Timeout := buildTimeoutSeconds; tp_IncrementSequenceNum := true |}.

(** [select] on the context and the interval. *)
Definition poll_wait : M W unit :=
  call (fun n => match ctx_err n with Some e => Err e | None => Ok tt end).

Fixpoint poll_from (attempts : nat) (txHash : string) : M W (string * string) :=
  match attempts with
  | O => ret (RPCStatusPending, "")
  | S attempts' =>
      let! _ := poll_wait in
      let! txResult := wrap "poll transaction" (call (rpc_get_transaction txHash)) in
      if String.eqb (gt_Status txResult) RPCStatusSuccess then ret (RPCStatusSuccess, gt_ResultMetaXdr txResult)
      else if String.eqb (gt_Status txResult) RPCStatusFailed then throw (Errorf "transaction failed")
      else poll_from attempts' txHash
  end.
Definition pollSubmitResultWithMeta (txHash : string) : M W (string * string) := poll_from submitPollAttempts txHash.
Definition pollSubmitResult (txHash : string) : M W string :=
  let! ' (status, _) := pollSubmitResultWithMeta txHash in ret status.

(** From the enforcing-mode simulation on; [sponsored] is the wallet of a call
    Latch pays for, [seq] the bundler's sequence otherwise, [sending] and
    [refused] how the two functions word the errors of the send. *)
Definition simulate_and_send (sending refused : string) (seq : Z) (sponsored : option (string * HostFunction)) (hostFunctions : list HostFunction)
    (entries : list AuthEntry) (finish : string -> M W SubmitResult) : M W SubmitResult :=
  let buildTx sorobanData := call (fun n => tx_build n (bundler_params seq hostFunctions entries sorobanData)) in
  let! simTxB64 := wrap "build enforcing-mode simulate tx" (buildTx None) in
  let! sim := wrap "enforcing-mode simulation" (call (rpc_simulate simTxB64)) in
  if negb (String.eqb (sim_Error sim) "") then throw (Errorf "auth validation failed") else
  match sponsored with
  | Some (wallet, fn) => submitSponsored wallet fn entries
  | None =>
      let! sorobanData := wrap "decode soroban transaction data" (lift (soroban_data_decode (sim_TransactionData sim))) in
      let! finalTx := wrap "build final tx" (buildTx (Some sorobanData)) in
      let! envelopeB64 := wrap "sign tx" (lift (tx_sign networkPassphrase finalTx)) in
      let! sendResult := wrap sending (send (RpcSend envelopeB64) (rpc_send envelopeB64)) in
      if String.eqb (st_Status sendResult) RPCStatusError then throw (Errorf refused)
      else finish (st_Hash sendResult)
  end.

(** The bundler's sequence is only read for a transaction the bundler signs. *)
Definition bundler_sequence (sponsored : option (string * HostFunction)) : M W Z :=
  match sponsored with
  | Some _ => ret 0
  | None => wrap "refresh bundler sequence" (call (rpc_account_sequence bundlerG))
  end.

Definition submitWithBundler (txXdrB64 : string) (entries : list AuthEntry) : M W SubmitResult :=
  let! hostFunction := lift (single_invoke txXdrB64) in
  let! paid := userPaidWallet hostFunction in
  match paid with
  | Some wallet => submitForward wallet hostFunction entries
  | None =>
      let sponsored := (fun wallet => (wallet, hostFunction)) <$> sponsoredWallet hostFunction in
      let! seq := bundler_sequence sponsored in
      simulate_and_send "send transaction" "transaction submission failed" seq sponsored [hostFunction] entries (fun hash =>
        let! status := pollSubmitResult hash in
        ret {| sr_Hash := hash; sr_Status := status; sr_ResultMetaXdr := "" |})
  end.

(** ** transaction_batch.go *)
Definition hostFunctionContractID (fn : HostFunction) : res string :=
  match fn with
  | OtherHostFunction _ => Err (Errorf "expected a contract invocation")
  | InvokeContract (AddrContract id) _ _ => scValToContractAddress (ScvAddress (AddrContract id))
  | InvokeContract _ _ _ => Err (Errorf "invocation target is not a contract address")
  end.

(** The loop over the operations; [target] is the contract of the first one. *)
Fixpoint batch_from (target : option string) (ops : list Operation) : res (list HostFunction) :=
  match ops with
  | [] => Ok []
  | OtherOperation _ :: _ => Err (Errorf "operation is not an invoke host function")
  | InvokeHostFunctionOp fn :: ops' =>
      let? contractID := res_wrap "operation" (hostFunctionContractID fn) in
      if match target with Some t => negb (String.eqb contractID t) | None => false end
      then Err (Wrapf "batch" ErrBatchMixedContracts)
      else let? fns := batch_from (Some (default contractID target)) ops' in Ok (fn :: fns)
  end.

Definition batch_functions (txXdrB64 : string) : res (list HostFunction) :=
  let? origEnvelope := res_wrap "decode tx envelope" (envelope_unmarshal_b64 txXdrB64) in
  match origEnvelope with
  | None => Err (Errorf "expected a v1 transaction envelope")
  | Some ops =>
      if (length ops =? 0)%nat || (maxBatchOperations <? length ops)%nat
      then Err (Errorf "expected between 1 and 4 operations")
      else batch_from None ops
  end.

Definition SubmitBatchAuthEntries (txXdrB64 : string) (entries : list AuthEntry) : M W SubmitResult :=
  let! hostFunctions := lift (batch_functions txXdrB64) in
  let! paid := match hostFunctions with
               | [fn] => userPaidWallet fn
               | _ => ret None
               end in
  match paid, hostFunctions with
  | Some payer, fn :: _ => submitForward payer fn entries
  | _, _ =>
      let sponsored := match hostFunctions with
                       | [fn] => (fun wallet => (wallet, fn)) <$> sponsoredWallet fn
                       | _ => None
                       end in
      let! seq := bundler_sequence sponsored in
      simulate_and_send "send tx" "submission failed" seq sponsored hostFunctions entries (fun hash =>
        let! ' (status, meta) := pollSubmitResultWithMeta hash in
        ret {| sr_Hash := hash; sr_Status := status; sr_ResultMetaXdr := meta |})
  end.
End Submit.

(** ** Everything but the request itself only reads *)
Section Keeps.
Context `{StellarSDK} `{Network} `{SubmitNetwork} `{Gasless} `{Env} `{ServiceConfig}.
Abbreviation W := (World Store).

Lemma keeps_userPaidWallet fn : keeps (on_store eq) (userPaidWallet fn).
Proof using All. unfold userPaidWallet. keeps. Qed.
Lemma keeps_balanceOf t h : keeps (on_store eq) (balanceOf t h).
Proof using All. unfold balanceOf. keeps. Qed.
Hint Resolve keeps_balanceOf : keeps.
Lemma keeps_forwardBalanceShort wallet fn : keeps (on_store eq) (forwardBalanceShort wallet fn).
Proof using All. unfold forwardBalanceShort. keeps. Qed.
Lemma keeps_poll n h : keeps (on_store eq) (poll_from n h).
Proof using All. induction n as [|n IH]; cbn [poll_from]; unfold poll_wait; keeps. Qed.
Hint Resolve keeps_poll : keeps.
Lemma keeps_pollSubmitResult h : keeps (on_store eq) (pollSubmitResult h).
Proof using All. unfold pollSubmitResult, pollSubmitResultWithMeta. keeps. Qed.
Lemma keeps_pollSubmitResultWithMeta h : keeps (on_store eq) (pollSubmitResultWithMeta h).
Proof using All. apply keeps_poll. Qed.
Lemma keeps_bundler_sequence s : keeps (on_store eq) (bundler_sequence s).
Proof using All. unfold bundler_sequence. keeps. Qed.
End Keeps.
#[export] Hint Resolve keeps_userPaidWallet keeps_balanceOf keeps_forwardBalanceShort keeps_poll
  keeps_pollSubmitResult keeps_pollSubmitResultWithMeta keeps_bundler_sequence : keeps.

(** ** What leaves the service *)
Section Sends.
Context `{StellarSDK} `{Network} `{SubmitNetwork} `{Gasless} `{Env} `{ServiceConfig}.
Abbreviation W := (World Store).

(** The call was simulated with these entries and the simulation accepted it. *)
Definition enforced (seq : Z) (fns : list HostFunction) (es : list AuthEntry) : Prop :=
  exists n n' tx sim, tx_build n (bundler_params seq fns es None) = Ok tx /\
    rpc_simulate tx n' = Ok sim /\ sim_Error sim = "".

(** A submission to the gasless service of one call, with these entries. *)
Definition gasless_sends (mode wallet : string) (fn : HostFunction) (es : list AuthEntry) (c : ChainWrite) : Prop :=
  exists n id tx, gaslessRequestID fn es = Ok id /\ tx_build n (gasless_params fn es) = Ok tx /\
    c = GaslessSend {| gs_RequestID := id; gs_Wallet := wallet; gs_Mode := mode; gs_Transaction := tx |}.

(** A transaction of the bundler's, signed by it: these calls, each with these
    entries, at the sequence the simulation accepted. *)
Definition bundler_sends (fns : list HostFunction) (es : list AuthEntry) (c : ChainWrite) : Prop :=
  exists seq n data tx envelope, enforced seq fns es /\
    tx_build n (bundler_params seq fns es (Some data)) = Ok tx /\
    tx_sign networkPassphrase tx = Ok envelope /\ c = RpcSend envelope.

(** The three ways, told apart by the call. *)
Inductive carries (fn : HostFunction) (es : list AuthEntry) (c : ChainWrite) : Prop :=
  | by_bundler : sponsoredWallet fn = None -> bundler_sends [fn] es c -> carries fn es c
  | by_sponsor wallet : sponsoredWallet fn = Some wallet -> enforced 0 [fn] es ->
      gasless_sends GaslessModeSponsored wallet fn es c -> carries fn es c
  | by_forward wallet n cfg : gasless_fee_tokens n = Ok cfg ->
      forwardCallWallet fn (fc_FeeForwarder cfg) = Some wallet ->
      gasless_sends GaslessModeForward wallet fn es c -> carries fn es c.

Definition bundler_submission (tx : string) (es : list AuthEntry) (c : ChainWrite) : Prop :=
  exists fn, single_invoke tx = Ok fn /\ carries fn es c.

Lemma sends_submitGasless d mode wallet fn es :
  sends d (submitGasless mode wallet fn es) (gasless_sends mode wallet fn es).
Proof using All.
  unfold submitGasless. destruct gasless_set; [|apply sends_throw].
  apply sends_read; [keeps|]. intros id ? ? _ [Hid _]%lift_ok.
  apply sends_read; [keeps|]. intros tx ? ? _ Htx. run_inv.
  apply sends_send; [|intros; keeps]. eexists _, _, _. eauto.
Qed.

Lemma sends_submitForward d wallet fn es :
  sends d (submitForward wallet fn es) (gasless_sends GaslessModeForward wallet fn es).
Proof using All.
  intros w r w' Hw E. unfold submitForward, bind, attempt in E.
  pose proof (sends_submitGasless d GaslessModeForward wallet fn es w) as Hg.
  destruct (submitGasless _ _ _ _ w) as [[res|err] w1]; specialize (Hg _ _ Hw eq_refl).
  - injection E as <- <-. exact Hg.
  - assert (w_store w' = w_store w1 /\ is_ok r = false) as [-> Hr].
    { destruct (negb _); [by injection E as <- <-|].
      pose proof (keeps_forwardBalanceShort wallet fn w1) as Hk. unfold on_store in Hk.
      destruct (forwardBalanceShort wallet fn w1) as [[[]|berr] w2]; cbn in Hk;
        [|injection E as <- <-; by split..|]; [by injection E as <- <-|].
      case_bool_decide; by injection E as <- <-. }
    destruct Hg as [[? _]|?]; [by left|by right].
Qed.

Lemma sends_simulate_and_send d sending refused seq sponsored fns es finish (P : ChainWrite -> Prop) :
  (forall h, keeps (on_store eq) (finish h)) ->
  (forall wallet fn c, sponsored = Some (wallet, fn) -> enforced seq fns es ->
     gasless_sends GaslessModeSponsored wallet fn es c -> P c) ->
  (forall c, sponsored = None -> bundler_sends fns es c -> P c) ->
  sends d (simulate_and_send sending refused seq sponsored fns es finish) P.
Proof using All.
  intros Hf Hg Hb. unfold simulate_and_send.
  apply sends_read; [keeps|]. intros stx ? ? _ Hstx.
  apply sends_read; [keeps|]. intros sim ? ? _ Hsim. run_inv.
  destruct (String.eqb_spec (sim_Error sim) "") as [He|]; [|apply sends_throw]. cbn [negb].
  assert (enforced seq fns es) as Henf by (eexists _, _, _, _; eauto).
  destruct sponsored as [[wallet fn]|].
  - eapply sends_mono; [|apply sends_submitGasless]. intros c. by apply Hg.
  - apply sends_read; [keeps|]. intros data ? ? _ _.
    apply sends_read; [keeps|]. intros tx ? ? _ Htx.
    apply sends_read; [keeps|]. intros envelope ? ? _ Henv. run_inv.
    apply sends_wrap, sends_send; [|intros; keeps]. apply Hb; [done|]. eexists _, _, _, _, _. eauto.
Qed.

Lemma sends_submitWithBundler d tx es : sends d (submitWithBundler tx es) (bundler_submission tx es).
Proof using All.
  unfold submitWithBundler. apply sends_read; [keeps|]. intros fn ? ? _ [Hfn _]%lift_ok.
  apply sends_read; [keeps|]. intros paid w1 w2' _ Hp. destruct paid as [wallet|].
  - eapply sends_mono; [|apply sends_submitForward]. intros c Hc. exists fn. split; [done|].
    unfold userPaidWallet in Hp. repeat destruct (negb _); run_inv; try done.
    by eapply by_forward.
  - apply sends_read; [keeps|]. intros seq ? ? _ Hs.
    apply sends_simulate_and_send; [intros; keeps| |].
    + intros wallet fn' c E Henf Hc. exists fn. split; [done|].
      destruct (sponsoredWallet fn) as [wl|] eqn:Ew; [|done]. injection E as <- <-.
      cbn in Hs. apply ret_ok in Hs as [<- _]. by eapply by_sponsor.
    + intros c E Hc. exists fn. split; [done|]. apply by_bundler; [|done]. by destruct (sponsoredWallet fn).
Qed.
End Sends.

(** ** The bundler pipeline implements the submitter's interface

    [TransactionService.SubmitAuthEntries]. *)
Section Instance_.
Context `{StellarSDK} `{Network} `{SubmitNetwork} `{Gasless} `{Env} `{ServiceConfig}.

Lemma sends_only_chain {A} (m : M (World Store) A) (P : Store -> ChainWrite -> Prop) :
  (forall d, sends d m (P d)) -> keeps (on_store only_chain) m.
Proof using All.
  intros Hs w. destruct (m w) as [r w'] eqn:E. unfold on_store. cbn.
  destruct (Hs _ w r w' eq_refl E) as [[-> _]|(c & _ & ->)]; [reflexivity|by exists [c]].
Qed.

Lemma bundler_store tx es : keeps (on_store only_chain) (submitWithBundler tx es).
Proof using All. apply (sends_only_chain _ (fun _ => bundler_submission tx es)). intros d. apply sends_submitWithBundler. Qed.
Lemma bundler_chain tx es w r w' : submitWithBundler tx es w = (r, w') ->
  w_store w' = w_store w \/
  exists c, bundler_submission tx es c /\ w_store w' = set_chain (chain (w_store w) ++ [c]) (w_store w).
Proof using All. intros E. destruct (sends_submitWithBundler _ tx es w r w' eq_refl E) as [[? _]|?]; auto. Qed.
Lemma bundler_sent tx es w r w' : submitWithBundler tx es w = (Ok r, w') ->
  exists c, bundler_submission tx es c /\ w_store w' = set_chain (chain (w_store w) ++ [c]) (w_store w).
Proof using All. intros E. by destruct (sends_submitWithBundler _ tx es w _ w' eq_refl E) as [[_ ?]|?]. Qed.

Definition SubmitAuthEntries (txXdrB64 : string) (entries : list AuthEntry) : M (World Store) SubmitResult :=
  submitWithBundler txXdrB64 entries.

#[export] Instance bundler_submitter : TransactionSubmitter := {|
  Service.SubmitAuthEntries := SubmitAuthEntries; submission := bundler_submission;
  SubmitAuthEntries_store := bundler_store; SubmitAuthEntries_chain := bundler_chain;
  SubmitAuthEntries_sent := bundler_sent;
|}.
End Instance_.
End Submit.

Module DemoSubmit.
Import Submit.

(** An RPC that accepts and confirms what it is sent, and a gasless service. *)
#[export] Instance demo_rpc : SubmitNetwork := {|
  rpc_send envelope n := Ok {| st_Status := "PENDING"; st_Hash := "h"; st_ErrorResultXdr := "" |};
  rpc_get_transaction h n := Ok {| gt_Status := "SUCCESS"; gt_ResultMetaXdr := ""; gt_EnvelopeXdr := "" |};
  rpc_ledger_entries keys n := Ok O;
  ctx_err n := None;
|}.
#[export] Instance demo_gasless : Gasless := {|
  gasless_set := true;
  gasless_submit sub n := ({| gr_RequestID := gs_RequestID sub; gr_Status := "success"; gr_TxHash := "g"; gr_ErrorCode := ""; gr_ErrorMessage := "" |}, None);
  gasless_fee_tokens n := Ok {| fc_FeeForwarder := "CF"; fc_Relayer := "GX"; fc_FeeTokens := [] |};
|}.
End DemoSubmit.
