(* ===== verification/Drafts.v ===== *)
(** * Multisig drafts: collecting signers, predicting and deploying an account
    (multisig_draft_service.go, the random helpers of multisig_factory.go) *)

From S2P Require Export Service Signers.
From S2P Require Import Instances.

Module Drafts.
Import Signers.

(** [7 * 24 * time.Hour] in milliseconds *)
Definition draftInviteTTL : Z := 7 * 24 * 3600 * 1000.
Definition defaultDraftThreshold : Z := 2.

Definition ErrMultisigDraftNotFound : error := Sentinel "ErrMultisigDraftNotFound".
Definition ErrMultisigDraftNotCollecting : error := Sentinel "ErrMultisigDraftNotCollecting".
Definition ErrMultisigMemberValidation : error := Sentinel "ErrMultisigMemberValidation".
Definition ErrMultisigMemberDuplicate : error := Sentinel "ErrMultisigMemberDuplicate".
Definition ErrMultisigInsufficientSigners : error := Sentinel "ErrMultisigInsufficientSigners".
Definition ErrMultisigThresholdInvalid : error := Sentinel "ErrMultisigThresholdInvalid".
Definition ErrMultisigInviteUnavailable : error := Sentinel "ErrMultisigInviteUnavailable".
Definition ErrMultisigDraftMemberNotFound : error := Sentinel "ErrMultisigDraftMemberNotFound".
Definition ErrMultisigNoActiveDraft : error := Sentinel "ErrMultisigNoActiveDraft".

Record SerializedDraftMember := {
  sdm_ID : string; sdm_Label : string; sdm_MemberType : string; sdm_GAddress : string;
  sdm_KeyDataHex : string; sdm_CredentialID : string; sdm_PublicKeyHex : string;
  sdm_Source : string; sdm_Valid : bool; sdm_ValidationError : string; sdm_Fingerprint : string }.

Record SerializedDraft := {
  sd_ID : string; sd_Threshold : Z; sd_AccountSaltHex : string; sd_InviteToken : string;
  sd_Status : string; sd_PredictedAddress : string; sd_SmartAccountAddress : string;
  sd_CreatedAt : Z; sd_ExpiresAt : option Z; sd_Members : list SerializedDraftMember;
  sd_ValidMemberCount : nat; sd_CanDeploy : bool }.

Record PublicDraftMember := {
  pdm_ID : string; pdm_Label : string; pdm_MemberType : string; pdm_Source : string;
  pdm_Fingerprint : string; pdm_Valid : bool }.

Record PublicDraftView := {
  pdv_ID : string; pdv_Threshold : Z; pdv_Status : string; pdv_MemberCount : nat;
  pdv_ValidMemberCount : nat; pdv_Members : list PublicDraftMember }.

Section Drafts.
Context `{StellarSDK} `{Unicode} `{UuidLib} `{Env} `{!SmartAccountFactory}.
Abbreviation W := (World Store).

Definition randomSaltHex : M W string :=
  let! raw := wrap "generate account salt" (rand_bytes 32) in
  ret (hex_encode raw).

Definition randomInviteToken : M W string :=
  let! raw := wrap "generate invite token" (rand_bytes 24) in
  ret (Base64.RawURLEncoding_EncodeToString raw).

(** ** Conversions *)
Definition domainMemberFromRow (row : MultisigDraftMember) : DraftMultisigMember :=
  {| m_ID := uuid_string (dm_ID row); m_Label := dm_Label row; m_Kind := dm_MemberType row;
     m_GAddress := strOrEmpty (dm_GAddress row); m_KeyDataHex := strOrEmpty (dm_KeyDataHex row);
     m_CredentialID := strOrEmpty (dm_CredentialID row);
     m_PublicKeyHex := strOrEmpty (dm_PublicKeyHex row); m_UserID := uuidOrEmpty (dm_UserID row) |}.

Definition serializeDraftMember (row : MultisigDraftMember) (source : string) : SerializedDraftMember :=
  let m := domainMemberFromRow row in
  let validationErr := validateDraftMember m in
  {| sdm_ID := m_ID m; sdm_Label := m_Label m; sdm_MemberType := m_Kind m;
     sdm_GAddress := m_GAddress m; sdm_KeyDataHex := m_KeyDataHex m;
     sdm_CredentialID := m_CredentialID m; sdm_PublicKeyHex := m_PublicKeyHex m;
     sdm_Source := source; sdm_Valid := String.eqb validationErr "";
     sdm_ValidationError := validationErr; sdm_Fingerprint := memberFingerprint m |}.

Definition validDeployableFactorySigners (rows : list MultisigDraftMember) : list MultisigSignerInit :=
  let valid := List.filter (fun m => String.eqb (validateDraftMember m) "") (map domainMemberFromRow rows) in
  draftMembersToFactorySigners valid.

Definition count_if {A} (p : A -> bool) (l : list A) : nat := length (List.filter p l).

Definition serialize (draft : MultisigDraft) (memberRows : list MultisigDraftMember) : SerializedDraft :=
  let members := map (fun row => serializeDraftMember row (dm_Source row)) memberRows in
  let validCount := count_if sdm_Valid members in
  let factorySigners := validDeployableFactorySigners memberRows in
  let canDeploy := String.eqb (md_Status draft) "collecting" &&
    (2 <=? validCount)%nat && (1 <=? md_Threshold draft) &&
    (md_Threshold draft <=? Z.of_nat validCount) && (2 <=? length factorySigners)%nat in
  {| sd_ID := uuid_string (md_ID draft); sd_Threshold := md_Threshold draft;
     sd_AccountSaltHex := md_AccountSaltHex draft; sd_InviteToken := md_InviteToken draft;
     sd_Status := md_Status draft; sd_PredictedAddress := strOrEmpty (md_PredictedAddress draft);
     sd_SmartAccountAddress := strOrEmpty (md_SmartAccountAddress draft);
     sd_CreatedAt := md_CreatedAt draft; sd_ExpiresAt := nullInt64Ptr (md_ExpiresAt draft);
     sd_Members := members; sd_ValidMemberCount := validCount; sd_CanDeploy := canDeploy |}.

Definition serializePublic (draft : MultisigDraft) (memberRows : list MultisigDraftMember) : PublicDraftView :=
  let member row :=
    let m := domainMemberFromRow row in
    {| pdm_ID := m_ID m; pdm_Label := m_Label m; pdm_MemberType := m_Kind m;
       pdm_Source := dm_Source row; pdm_Fingerprint := memberFingerprint m;
       pdm_Valid := String.eqb (validateDraftMember m) "" |} in
  let members := map member memberRows in
  {| pdv_ID := uuid_string (md_ID draft); pdv_Threshold := md_Threshold draft;
     pdv_Status := md_Status draft; pdv_MemberCount := length memberRows;
     pdv_ValidMemberCount := count_if pdm_Valid members; pdv_Members := members |}.

Definition list_draft_members (id : uuid) : M W (list MultisigDraftMember) :=
  wrap "list draft members" (query (ListMultisigDraftMembersForDraft id)).

Definition loadAndSerialize (draft : MultisigDraft) : M W SerializedDraft :=
  let! memberRows := list_draft_members (md_ID draft) in
  ret (serialize draft memberRows).

(** ** Draft CRUD *)
Definition CreateDraft (userID : string) : M W SerializedDraft :=
  let! uid := wrap "parse user id" (lift (parse_uuid userID)) in
  let! saltHex := randomSaltHex in
  let! inviteToken := randomInviteToken in
  let! now := now_ms in
  let! id := new_uuid in
  let! draftID := wrap "insert multisig draft" (exec (InsertMultisigDraft
    {| md_ID := id; md_CreatorUserID := uid; md_Threshold := defaultDraftThreshold;
       md_AccountSaltHex := saltHex; md_InviteToken := inviteToken; md_Status := "collecting";
       md_PredictedAddress := None; md_SmartAccountAddress := None; md_CreatedAt := now;
       md_ExpiresAt := Some (now + draftInviteTTL) |})) in
  let! draft := wrap "load created draft" (query (GetMultisigDraftByIDForCreator draftID uid)) in
  loadAndSerialize draft.

Definition GetActiveDraft (userID : string) : M W SerializedDraft :=
  let! uid := wrap "parse user id" (lift (parse_uuid userID)) in
  let! draft := or_no_rows ErrMultisigNoActiveDraft "get active draft"
                  (query (GetActiveMultisigDraftForUser uid)) in
  loadAndSerialize draft.

Definition getDraftForCreator (draftID userID : string) : M W MultisigDraft :=
  match uuid_parse draftID with
  | None => throw ErrMultisigDraftNotFound
  | Some did =>
      let! uid := wrap "parse user id" (lift (parse_uuid userID)) in
      or_no_rows ErrMultisigDraftNotFound "get draft" (query (GetMultisigDraftByIDForCreator did uid))
  end.

Definition GetDraftForCreator (draftID userID : string) : M W SerializedDraft :=
  let! draft := getDraftForCreator draftID userID in
  loadAndSerialize draft.

Definition UpdateThreshold (draftID userID : string) (threshold : Z) : M W SerializedDraft :=
  let! draft := getDraftForCreator draftID userID in
  if negb (String.eqb (md_Status draft) "collecting") then throw ErrMultisigDraftNotCollecting else
  let! memberRows := list_draft_members (md_ID draft) in
  if (threshold <? 1) || (Z.of_nat (length memberRows) <? threshold)
  then throw ErrMultisigThresholdInvalid else
  let! _ := wrap "update threshold"
              (exec (UpdateMultisigDraftThreshold (md_ID draft) (int32 threshold))) in
  ret (serialize (draft_with_threshold (int32 threshold) draft) memberRows).

Definition with_user (u : string) (m : DraftMultisigMember) : DraftMultisigMember :=
  {| m_ID := m_ID m; m_Label := m_Label m; m_Kind := m_Kind m; m_GAddress := m_GAddress m;
     m_KeyDataHex := m_KeyDataHex m; m_CredentialID := m_CredentialID m;
     m_PublicKeyHex := m_PublicKeyHex m; m_UserID := u |}.

Definition draft_member_row (id draftID : uuid) (member : DraftMultisigMember) (source : string) (now : Z)
    : MultisigDraftMember :=
  {| dm_ID := id; dm_DraftID := draftID; dm_Label := m_Label member; dm_MemberType := m_Kind member;
     dm_GAddress := nullStr (m_GAddress member); dm_KeyDataHex := nullStr (m_KeyDataHex member);
     dm_CredentialID := nullStr (m_CredentialID member); dm_PublicKeyHex := nullStr (m_PublicKeyHex member);
     dm_Source := source; dm_CreatedAt := now; dm_UserID := nullUUID (m_UserID member) |}.

Definition addMemberToDraft (draft : MultisigDraft) (member : DraftMultisigMember) (source : string)
    : M W unit :=
  let validationErr := validateDraftMember member in
  if negb (String.eqb validationErr "") then throw (Wrapf validationErr ErrMultisigMemberValidation) else
  let! existingRows := list_draft_members (md_ID draft) in
  let existing := map domainMemberFromRow existingRows in
  let dupErr := duplicateMemberError member existing in
  if negb (String.eqb dupErr "") then throw (Wrapf dupErr ErrMultisigMemberDuplicate) else
  let! id := new_uuid in
  let! now := now_ms in
  let! _ := wrap "insert draft member"
    (exec (InsertMultisigDraftMember (draft_member_row id (md_ID draft) member source now))) in
  ret tt.

Definition AddMember (draftID userID : string) (member : DraftMultisigMember) : M W SerializedDraft :=
  let! draft := getDraftForCreator draftID userID in
  if negb (String.eqb (md_Status draft) "collecting") then throw ErrMultisigDraftNotCollecting else
  let! _ := addMemberToDraft draft (with_user userID member) "creator" in
  loadAndSerialize draft.

Definition DeleteMember (draftID memberID userID : string) : M W SerializedDraft :=
  let! draft := getDraftForCreator draftID userID in
  if negb (String.eqb (md_Status draft) "collecting") then throw ErrMultisigDraftNotCollecting else
  match uuid_parse memberID with
  | None => throw ErrMultisigDraftMemberNotFound
  | Some mid =>
      let! _ := wrap "delete draft member" (exec (DeleteMultisigDraftMember mid (md_ID draft))) in
      loadAndSerialize draft
  end.

(** ** Predict and deploy *)
Definition buildParams (draft : MultisigDraft) (signers : list MultisigSignerInit) : res (ScVal * string) :=
  let? salt := hexDecodeSalt (md_AccountSaltHex draft) in
  let? params := res_wrap "build account init params"
    (buildMultisigAccountInitParams (uint32 (md_Threshold draft)) salt signers) in
  let? paramsB64 := res_wrap "encode account init params" (scval_marshal_b64 params) in
  Ok (params, paramsB64).

Definition PredictDraftAddress (draftID userID : string) : M W (string * string * SerializedDraft) :=
  let! draft := getDraftForCreator draftID userID in
  let! memberRows := list_draft_members (md_ID draft) in
  let signers := validDeployableFactorySigners memberRows in
  if (length signers <? 2)%nat then throw ErrMultisigInsufficientSigners else
  let! ' (params, paramsB64) := lift (buildParams draft signers) in
  let! predicted := wrap "predict multisig smart account address" (PredictAddress params) in
  let! _ := wrap "persist predicted address"
    (exec (UpdateMultisigDraftPredictedAddress (md_ID draft) (nullStr predicted))) in
  ret (predicted, paramsB64, serialize (draft_with_predicted (nullStr predicted) draft) memberRows).

(** The account member a draft member becomes. *)
Definition member_of_draft (id accountID : uuid) (now : Z) (m : DraftMultisigMember) : MultisigMember :=
  {| mm_ID := id; mm_MultisigAccountID := accountID; mm_MemberType := m_Kind m;
     mm_Label := nullStr (m_Label m); mm_KeyDataHex := nullStr (m_KeyDataHex m);
     mm_CredentialID := nullStr (m_CredentialID m); mm_GAddress := nullStr (m_GAddress m);
     mm_CreatedAt := now; mm_UserID := nullUUID (m_UserID m) |}.

Fixpoint insert_members (accountID : uuid) (now : Z) (rows : list MultisigDraftMember) : M W unit :=
  match rows with
  | [] => ret tt
  | row :: rest =>
      let m := domainMemberFromRow row in
      if negb (String.eqb (validateDraftMember m) "") then insert_members accountID now rest
      else if negb (String.eqb (m_Kind m) MultisigSignerKindWebauthn)
              && negb (String.eqb (m_Kind m) MultisigSignerKindDelegated)
      then insert_members accountID now rest
      else
        let! id := new_uuid in
        let! _ := wrap "insert multisig member" (exec (InsertMultisigMember (member_of_draft id accountID now m))) in
        insert_members accountID now rest
  end.

Definition persistDeployedAccount (userID : uuid) (smartAccountAddress : string) (threshold : Z)
    (accountSaltHex : string) (draftMemberRows : list MultisigDraftMember) : M W unit :=
  transact
    (let! id := new_uuid in
     let! created := now_ms in
     let! accountID := wrap "upsert multisig account" (exec (UpsertMultisigAccount
       {| ma_ID := id; ma_UserID := userID; ma_SmartAccountAddress := smartAccountAddress;
          ma_Threshold := int32 threshold; ma_AccountSaltHex := accountSaltHex;
          ma_CreatedAt := created |})) in
     let! _ := wrap "clear existing multisig members" (exec (DeleteMultisigMembersForAccount accountID)) in
     let! now := now_ms in
     insert_members accountID now draftMemberRows).

Definition DeployDraft (draftID userID : string) : M W (string * bool * SerializedDraft) :=
  let! draft := getDraftForCreator draftID userID in
  if String.eqb (md_Status draft) "deployed" then
    let! memberRows := list_draft_members (md_ID draft) in
    ret (strOrEmpty (md_SmartAccountAddress draft), true, serialize draft memberRows)
  else
  let! memberRows := list_draft_members (md_ID draft) in
  let signers := validDeployableFactorySigners memberRows in
  if (length signers <? 2)%nat then throw ErrMultisigInsufficientSigners else
  let! ' (params, _) := lift (buildParams draft signers) in
  let! predicted :=
    (let stored := strOrEmpty (md_PredictedAddress draft) in
     if String.eqb stored "" then wrap "predict multisig smart account address" (PredictAddress params)
     else ret stored) in
  let! ' (deployedAddress, alreadyDeployed) :=
    wrap "deploy multisig smart account" (Deploy params predicted) in
  let! _ := persistDeployedAccount (md_CreatorUserID draft) deployedAddress (md_Threshold draft)
              (md_AccountSaltHex draft) memberRows in
  let! _ := wrap "mark draft deployed"
    (exec (UpdateMultisigDraftDeployed (md_ID draft) (nullStr deployedAddress) (nullStr predicted))) in
  ret (deployedAddress, alreadyDeployed,
       serialize (draft_deployed (nullStr deployedAddress) (nullStr predicted) draft) memberRows).

(** ** The invite-token (join) flow *)
Definition getDraftByInviteToken (token : string) : M W MultisigDraft :=
  let! draft := or_no_rows ErrMultisigInviteUnavailable "get draft by invite token"
                  (query (GetMultisigDraftByInviteToken token)) in
  if negb (String.eqb (md_Status draft) "collecting") then throw ErrMultisigInviteUnavailable else
  match nullInt64Ptr (md_ExpiresAt draft) with
  | None => ret draft
  | Some exp =>
      let! now := now_ms in
      if exp <=? now then throw ErrMultisigInviteUnavailable else ret draft
  end.

Definition GetPublicDraftByToken (token : string) : M W PublicDraftView :=
  let! draft := getDraftByInviteToken token in
  let! memberRows := list_draft_members (md_ID draft) in
  ret (serializePublic draft memberRows).

Definition AddMemberViaInvite (token userID : string) (member : DraftMultisigMember) : M W PublicDraftView :=
  let! draft := getDraftByInviteToken token in
  let! _ := addMemberToDraft draft (with_user userID member) "invite" in
  let! memberRows := list_draft_members (md_ID draft) in
  ret (serializePublic draft memberRows).
(** ** Reads *)
Lemma keeps_list_draft_members id : keeps (on_store eq) (list_draft_members id).
Proof. unfold list_draft_members. keeps. Qed.
Lemma keeps_loadAndSerialize draft : keeps (on_store eq) (loadAndSerialize draft).
Proof. unfold loadAndSerialize, list_draft_members. keeps. Qed.
Lemma keeps_getDraftForCreator did uid : keeps (on_store eq) (getDraftForCreator did uid).
Proof. unfold getDraftForCreator. keeps. Qed.
Lemma keeps_getDraftByInviteToken token : keeps (on_store eq) (getDraftByInviteToken token).
Proof. unfold getDraftByInviteToken. keeps. Qed.
Lemma keeps_randomSaltHex : keeps (on_store eq) randomSaltHex.
Proof. unfold randomSaltHex. keeps. Qed.
Lemma keeps_randomInviteToken : keeps (on_store eq) randomInviteToken.
Proof. unfold randomInviteToken. keeps. Qed.
#[local] Hint Resolve keeps_list_draft_members keeps_loadAndSerialize keeps_getDraftForCreator
  keeps_getDraftByInviteToken keeps_randomSaltHex keeps_randomInviteToken : keeps.

Lemma getDraftForCreator_ok did uid w r w' :
  getDraftForCreator did uid w = (Ok r, w') ->
  exists d u, uuid_parse did = Some d /\ uuid_parse uid = Some u /\
    drafts (w_store w) !! d = Some r /\ md_CreatorUserID r = u.
Proof.
  unfold getDraftForCreator. destruct (uuid_parse did) as [d|]; [|discriminate].
  intros Hr. svc_inv. unfold GetMultisigDraftByIDForCreator in *.
  destruct (drafts (w_store _) !! d) as [r'|] eqn:E; [|discriminate].
  case_bool_decide; [|discriminate]. svc_inv. by eexists _, _.
Qed.

(** An invite opens a draft only while it collects members and has not expired. *)
Lemma getDraftByInviteToken_ok token w r w' :
  getDraftByInviteToken token w = (Ok r, w') ->
  (exists k, drafts (w_store w) !! k = Some r) /\ md_InviteToken r = token /\
  md_Status r = "collecting" /\ (forall exp, md_ExpiresAt r = Some exp -> env_now (S (w_io w)) < exp).
Proof.
  unfold getDraftByInviteToken. intros Hr. svc_inv.
  unfold GetMultisigDraftByInviteToken in *.
  match goal with H : select_one _ _ = Ok _ |- _ => apply select_one_ok in H as [Ht%String.eqb_eq Hk] end.
  destruct (String.eqb_spec (md_Status x) "collecting"); cbn in Hr; [|by svc_inv].
  destruct (md_ExpiresAt x) as [exp|] eqn:E; cbn in Hr; svc_inv.
  - destruct (Z.leb_spec exp (env_now (S (w_io w)))); [by svc_inv|]. svc_inv.
    split; [done|]. split; [done|]. split; [done|]. intros exp' E'.
    rewrite E in E'. by injection E' as <-.
  - split; [done|]. split; [done|]. split; [done|]. congruence.
Qed.

(** ** The invariant of the draft tables *)
Definition member_of (row : MultisigDraftMember) : DraftMultisigMember := domainMemberFromRow row.

(** Rows sit under their own ids; every stored member is valid; two members of
    one draft never share a key. *)
Record drafts_wf (d : Store) : Prop := {
  wf_draft_key : forall k r, drafts d !! k = Some r -> md_ID r = k;
  wf_member_key : forall k r, draft_members d !! k = Some r -> dm_ID r = k;
  wf_member_valid : forall k r, draft_members d !! k = Some r -> valid_member (member_of r);
  wf_member_distinct : forall k1 k2 r1 r2, k1 <> k2 ->
    draft_members d !! k1 = Some r1 -> draft_members d !! k2 = Some r2 ->
    dm_DraftID r1 = dm_DraftID r2 ->
    member_identity (member_of r1) <> member_identity (member_of r2);
}.

Lemma drafts_wf_tables d d' :
  drafts d' = drafts d -> draft_members d' = draft_members d -> drafts_wf d -> drafts_wf d'.
Proof. intros E1 E2 [? ? ? ?]. split; rewrite ?E1, ?E2; assumption. Qed.

Lemma drafts_wf_alter d id f :
  (forall r, md_ID (f r) = md_ID r) -> drafts_wf d -> drafts_wf (set_drafts (alter f id (drafts d)) d).
Proof.
  intros Hf [Hk ? ? ?]. split; cbn; [|assumption..].
  intros k r. rewrite lookup_alter_Some. intros [(-> & r' & E & ->)|[_ E]]; [|by apply Hk].
  rewrite Hf. by apply Hk.
Qed.

Lemma elem_of_draft_member_rows r did d :
  r ∈ draft_member_rows did d <-> dm_DraftID r = did /\ exists k, draft_members d !! k = Some r.
Proof.
  unfold draft_member_rows. rewrite elem_of_order_by, elem_of_select, bool_decide_eq_true. done.
Qed.

(** The inserted row reads back as the member that was checked. *)
Lemma member_of_row id did m source now :
  validateDraftMember (member_of (draft_member_row id did m source now)) = validateDraftMember m /\
  member_identity (member_of (draft_member_row id did m source now)) = member_identity m.
Proof.
  unfold member_of, domainMemberFromRow, draft_member_row, validateDraftMember, member_identity. cbn.
  by rewrite !strOrEmpty_nullStr.
Qed.

Lemma drafts_wf_add d id did m source now u d' :
  drafts_wf d -> validateDraftMember m = "" ->
  duplicateMemberError m (map domainMemberFromRow (draft_member_rows did d)) = "" ->
  InsertMultisigDraftMember (draft_member_row id did m source now) d = Ok (u, d') ->
  drafts_wf d'.
Proof.
  intros [Hdk Hmk Hv Hd] Hval Hdup. unfold InsertMultisigDraftMember.
  destruct (present _ _) eqn:Ep; [done|]. destruct (negb (present (drafts d) _)); [done|].
  destruct (negb _); [done|]. intros [= _ <-].
  destruct (member_of_row id did m source now) as [Ev Ei].
  assert (valid_member m) as Hvm by by apply validateDraftMember_valid.
  assert (forall k r, draft_members d !! k = Some r -> dm_DraftID r = did ->
          member_identity (member_of r) <> member_identity m) as Hfresh.
  { intros k r Hk Hdid. eapply (proj1 (duplicateMemberError_fresh m _ Hvm)); [exact Hdup|].
    apply list_elem_of_fmap_2, elem_of_draft_member_rows. eauto. }
  split; cbn.
  - exact Hdk.
  - intros k r. rewrite lookup_insert_Some. intros [[<- <-]|[_ E]]; [done|by apply Hmk].
  - intros k r. rewrite lookup_insert_Some. intros [[<- <-]|[_ E]]; [|by eapply Hv].
    by apply validateDraftMember_valid; rewrite Ev.
  - intros k1 k2 r1 r2 Hne. rewrite !lookup_insert_Some.
    intros [[<- <-]|[Hn1 E1]] [[<- <-]|[Hn2 E2]] Hdid; [done|..].
    + rewrite Ei. intros E. by apply (Hfresh k2 r2 E2 (eq_sym Hdid)).
    + rewrite Ei. by apply (Hfresh k1 r1 E1 Hdid).
    + by apply (Hd k1 k2).
Qed.
(** ** How the draft tables may evolve *)

(** What no operation changes of a draft, and what a deployed one freezes. *)
Record draft_keeps (r r' : MultisigDraft) : Prop := {
  dk_id : md_ID r' = md_ID r;
  dk_creator : md_CreatorUserID r' = md_CreatorUserID r;
  dk_salt : md_AccountSaltHex r' = md_AccountSaltHex r;
  dk_token : md_InviteToken r' = md_InviteToken r;
  dk_expires : md_ExpiresAt r' = md_ExpiresAt r;
  dk_status : md_Status r' = md_Status r \/ md_Status r' = "deployed";
  dk_deployed : md_Status r = "deployed" ->
    md_SmartAccountAddress r' = md_SmartAccountAddress r /\ md_Threshold r' = md_Threshold r;
}.

Record draft_evolves (d d' : Store) : Prop := {
  ev_wf : drafts_wf d';
  ev_draft : forall id r, drafts d !! id = Some r ->
    exists r', drafts d' !! id = Some r' /\ draft_keeps r r';
  ev_members : forall id r, drafts d !! id = Some r -> md_Status r = "deployed" ->
    forall k m, dm_DraftID m = id -> draft_members d !! k = Some m <-> draft_members d' !! k = Some m;
}.

#[export] Instance draft_keeps_refl : Reflexive draft_keeps.
Proof using Type. intros r. split; auto. Qed.

Lemma draft_keeps_deployed r r' : draft_keeps r r' -> md_Status r = "deployed" -> md_Status r' = "deployed".
Proof. intros Hk E. destruct (dk_status _ _ Hk); congruence. Qed.

Lemma draft_keeps_trans r1 r2 r3 : draft_keeps r1 r2 -> draft_keeps r2 r3 -> draft_keeps r1 r3.
Proof.
  intros H12 H23. pose proof (draft_keeps_deployed _ _ H12) as Hd.
  destruct H12 as [? ? ? ? ? S12 D12], H23 as [? ? ? ? ? S23 D23]. split; try congruence.
  - destruct S12 as [E|E], S23 as [E'|E']; rewrite ?E', ?E; auto.
  - intros E. destruct (D12 E), (D23 (Hd E)). split; congruence.
Qed.

Lemma draft_evolves_refl d : drafts_wf d -> draft_evolves d d.
Proof. intros Hwf. split; [done| |done]. intros id r E. exists r. by split. Qed.

Lemma draft_evolves_trans d1 d2 d3 : draft_evolves d1 d2 -> draft_evolves d2 d3 -> draft_evolves d1 d3.
Proof.
  intros H12 H23. split; [apply H23| |].
  - intros id r E. destruct (ev_draft _ _ H12 _ _ E) as (r2 & E2 & K2).
    destruct (ev_draft _ _ H23 _ _ E2) as (r3 & E3 & K3). eauto using draft_keeps_trans.
  - intros id r E Hdep k m Hm. destruct (ev_draft _ _ H12 _ _ E) as (r2 & E2 & K2).
    rewrite (ev_members _ _ H12 _ _ E Hdep k m Hm).
    by apply (ev_members _ _ H23 _ _ E2 (draft_keeps_deployed _ _ K2 Hdep)).
Qed.

(** Statements on the other tables. *)
Definition same_drafts (d d' : Store) : Prop :=
  drafts d' = drafts d /\ draft_members d' = draft_members d.
#[export] Instance same_drafts_refl : Reflexive same_drafts.
Proof using Type. by split. Qed.
#[export] Instance same_drafts_trans : Transitive same_drafts.
Proof using Type. intros ? ? ? [? ?] [? ?]. split; congruence. Qed.

Lemma same_drafts_evolves d0 d d' : draft_evolves d0 d -> same_drafts d d' -> draft_evolves d0 d'.
Proof.
  intros [Hwf Hd Hm] [E1 E2]. split; rewrite ?E1, ?E2; try done.
  by apply (drafts_wf_tables d).
Qed.

Lemma only_chain_same d d' : only_chain d d' -> same_drafts d d'.
Proof. intros [l ->]. done. Qed.

(** One draft row rewritten, allowed by the row it is now. *)
Lemma evolves_alter d0 d id r f :
  draft_evolves d0 d -> drafts d !! id = Some r -> draft_keeps r (f r) ->
  (forall x, md_ID (f x) = md_ID x) ->
  draft_evolves d0 (set_drafts (alter f id (drafts d)) d).
Proof.
  intros Hev E Hk Hid. eapply draft_evolves_trans; [exact Hev|]. split; [|cbn|done].
  - apply drafts_wf_alter; [done|apply Hev].
  - intros id' r' E'. destruct (decide (id' = id)) as [->|Hne].
    + rewrite lookup_alter_eq, E'. assert (r' = r) as -> by congruence. by eexists.
    + rewrite lookup_alter_ne by done. by exists r'.
Qed.

(** Members come and go only in a draft that is not deployed. *)
Lemma evolves_members d did r d' :
  drafts_wf d -> drafts_wf d' -> drafts d !! did = Some r -> md_Status r <> "deployed" ->
  drafts d' = drafts d ->
  (forall k m, dm_DraftID m <> did -> draft_members d !! k = Some m <-> draft_members d' !! k = Some m) ->
  draft_evolves d d'.
Proof.
  intros Hwf Hwf' E Hst Ed Hm. split; [done| |].
  - intros id r' E'. rewrite Ed. by exists r'.
  - intros id r' E' Hdep k m Hdid. apply Hm. rewrite Hdid. intros ->. congruence.
Qed.
(** ** Every operation keeps the tables evolving *)
Lemma keeps_same_Upsert row : keeps (on_store same_drafts) (exec (UpsertMultisigAccount row)).
Proof.
  apply keeps_exec; [apply _..|]. intros d a d'. unfold UpsertMultisigAccount.
  repeat case_match; intros [= _ <-]; done.
Qed.
Lemma keeps_same_Delete id : keeps (on_store same_drafts) (exec (DeleteMultisigMembersForAccount id)).
Proof. apply keeps_exec; [apply _..|]. by intros d a d' [= _ <-]. Qed.
Lemma keeps_same_Insert row : keeps (on_store same_drafts) (exec (InsertMultisigMember row)).
Proof.
  apply keeps_exec; [apply _..|]. intros d a d'. unfold InsertMultisigMember.
  repeat case_match; intros [= _ <-]; done.
Qed.
#[local] Hint Resolve keeps_same_Upsert keeps_same_Delete keeps_same_Insert : keeps.

Lemma keeps_same_insert_members acct now rows :
  keeps (on_store same_drafts) (insert_members acct now rows).
Proof. induction rows as [|row rows IH]; cbn [insert_members]; keeps. Qed.
#[local] Hint Resolve keeps_same_insert_members : keeps.

Lemma keeps_same_persist u a t salt rows :
  keeps (on_store same_drafts) (persistDeployedAccount u a t salt rows).
Proof. unfold persistDeployedAccount. keeps. Qed.

Lemma keeps_same_Deploy p a : keeps (on_store same_drafts) (Deploy p a).
Proof. intros w. apply only_chain_same, Deploy_store. Qed.

(** Reads of a handler, and the reads of the factory. *)
Lemma keeps_predict p : keeps (on_store eq) (PredictAddress p).
Proof. apply PredictAddress_store. Qed.
#[local] Hint Resolve keeps_predict : keeps.

Section Ops.
Context (d : Store) (Hwf : drafts_wf d).
Let ok (d' : Store) : Prop := draft_evolves d d'.

Lemma ok_refl : ok d.
Proof using All. by apply draft_evolves_refl. Qed.
#[local] Hint Resolve ok_refl : core.

Lemma ends_reads {A} (m : M W A) : keeps (on_store eq) m -> ends d m ok.
Proof using All. intros Hk. eapply ends_keeps; [exact Hk|]. by intros ? <-. Qed.

(** A handler that starts by loading the caller's draft. *)
Lemma ends_creator {A} did uid (k : MultisigDraft -> M W A) :
  (forall id r, drafts d !! id = Some r -> md_ID r = id -> ends d (k r) ok) ->
  ends d (bind (getDraftForCreator did uid) k) ok.
Proof using All.
  intros Hk. apply ends_read; [apply keeps_getDraftForCreator|done|].
  intros r w w' <- (id & u & _ & _ & E & _)%getDraftForCreator_ok.
  apply (Hk id r E). by apply (wf_draft_key _ Hwf).
Qed.

Lemma ends_list {A} id (k : list MultisigDraftMember -> M W A) :
  ends d (k (draft_member_rows id d)) ok -> ends d (bind (list_draft_members id) k) ok.
Proof using All.
  intros Hk. apply ends_read; [apply keeps_list_draft_members|done|].
  intros rows w w' <- Hl. unfold list_draft_members in Hl. svc_inv.
  unfold ListMultisigDraftMembersForDraft in *. by run_inv.
Qed.

Lemma ends_CreateDraft userID : ends d (CreateDraft userID) ok.
Proof using All.
  unfold CreateDraft. repeat (apply ends_read; [solve [keeps]|done|intros]).
  apply ends_last; [done| |intros; keeps].
  intros id d' Hi. unfold InsertMultisigDraft in Hi. cbn in Hi.
  destruct (present (drafts d) _) eqn:Ep; [done|]. destruct (exists_row _ _); [done|].
  destruct (negb _); [done|]. injection Hi as <- <-.
  unfold present in Ep. destruct (drafts d !! _) eqn:En; [done|].
  split; cbn; [|intros id r E|done].
  - destruct Hwf. split; cbn; try assumption.
    intros k r. rewrite lookup_insert_Some. intros [[<- <-]|[_ E]]; [done|auto].
  - exists r. split; [|reflexivity]. rewrite lookup_insert_ne; [done|]. congruence.
Qed.

Lemma ends_UpdateThreshold did uid t : ends d (UpdateThreshold did uid t) ok.
Proof using All.
  unfold UpdateThreshold. apply ends_creator. intros id r E Hid.
  destruct (String.eqb_spec (md_Status r) "collecting") as [Hst|]; cbn; [|by apply ends_throw].
  apply ends_list. destruct (_ || _); [by apply ends_throw|].
  apply ends_last; [done| |intros; keeps]. intros a d' [= _ <-]. rewrite Hid.
  apply (evolves_alter d d id r); [apply ok_refl|done| |done].
  split; cbn; auto. rewrite Hst. discriminate.
Qed.

Lemma ends_addMember (r : MultisigDraft) m source :
  drafts d !! md_ID r = Some r -> md_Status r = "collecting" ->
  ends d (addMemberToDraft r m source) ok.
Proof using All.
  intros E Hst. unfold addMemberToDraft.
  destruct (String.eqb_spec (validateDraftMember m) "") as [Hv|]; cbn; [|by apply ends_throw].
  apply ends_list.
  destruct (String.eqb_spec (duplicateMemberError m (map domainMemberFromRow
    (draft_member_rows (md_ID r) d))) "") as [Hdup|]; cbn; [|by apply ends_throw].
  do 2 (apply ends_read; [solve [keeps]|done|intros]).
  apply ends_last; [done| |intros; keeps]. intros u d' Hi.
  pose proof (drafts_wf_add _ _ _ _ _ _ _ _ Hwf Hv Hdup Hi) as Hwf'.
  unfold InsertMultisigDraftMember in Hi. cbn in Hi. destruct (present (draft_members d) _) eqn:Ep; [done|].
  destruct (negb (present (drafts d) _)); [done|]. destruct (negb _); [done|]. injection Hi as _ <-.
  eapply (evolves_members d (md_ID r)); [exact Hwf|exact Hwf'|exact E|congruence|done|].
  intros k x Hx. cbn. rewrite lookup_insert_Some. unfold present in Ep. split.
  - intros Ek. right. split; [|done]. intros <-. by rewrite Ek in Ep.
  - intros [[_ <-]|[_ Ek]]; [by destruct Hx|done].
Qed.

Lemma ends_then_read {A B} (m : M W A) (k : A -> M W B) :
  ends d m ok -> (forall a, keeps (on_store eq) (k a)) -> ends d (bind m k) ok.
Proof using All.
  intros Hm Hk w Hw. specialize (Hm w Hw). unfold bind. destruct (m w) as [[a|e] w']; cbn in *; [|done].
  specialize (Hk a w'). unfold on_store in Hk. by rewrite <- Hk.
Qed.

Lemma ends_AddMember did uid m : ends d (AddMember did uid m) ok.
Proof using All.
  unfold AddMember. apply ends_creator. intros id r E Hid.
  destruct (String.eqb_spec (md_Status r) "collecting") as [Hst|]; cbn; [|by apply ends_throw].
  apply ends_then_read; [|intros; keeps]. apply ends_addMember; [by rewrite Hid|done].
Qed.

Lemma ends_AddMemberViaInvite token uid m : ends d (AddMemberViaInvite token uid m) ok.
Proof using All.
  unfold AddMemberViaInvite. apply ends_read; [keeps|done|].
  intros r w w' Hw ([k E] & _ & Hst & _)%getDraftByInviteToken_ok. rewrite Hw in E.
  apply ends_then_read; [|intros; keeps]. apply ends_addMember; [|done].
  by rewrite (wf_draft_key _ Hwf _ _ E).
Qed.

Lemma ends_DeleteMember did mid uid : ends d (DeleteMember did mid uid) ok.
Proof using All.
  unfold DeleteMember. apply ends_creator. intros id r E Hid.
  destruct (String.eqb_spec (md_Status r) "collecting") as [Hst|]; cbn; [|by apply ends_throw].
  destruct (uuid_parse mid) as [x|]; [|by apply ends_throw].
  apply ends_last; [done| |intros; keeps]. intros u d' [= _ <-].
  assert (forall k m, draft_members (set_draft_members (delete_where (fun m => bool_decide (dm_ID m = x)
      && bool_decide (dm_DraftID m = md_ID r)) (draft_members d)) d) !! k = Some m ->
    draft_members d !! k = Some m) as Hsub.
  { intros k m. cbn. rewrite lookup_delete_where. tauto. }
  eapply (evolves_members d id); [exact Hwf| |exact E|congruence|done|].
  - destruct Hwf. split; cbn; [assumption|..]; intros *; intros;
      repeat match goal with H : delete_where _ _ !! _ = Some _ |- _ =>
        apply lookup_delete_where in H as [H _] end; eauto.
  - intros k m Hm. cbn. rewrite lookup_delete_where, Hid.
    rewrite (bool_decide_eq_false_2 (dm_DraftID m = id)) by done. rewrite andb_false_r. tauto.
Qed.

Lemma ends_PredictDraftAddress did uid : ends d (PredictDraftAddress did uid) ok.
Proof using All.
  unfold PredictDraftAddress. apply ends_creator. intros id r E Hid.
  apply ends_list. destruct (_ <? 2)%nat; [by apply ends_throw|].
  apply ends_read; [keeps|done|]. intros [params b64] w w' _ _.
  apply ends_read; [keeps|done|]. intros predicted w2 w2' _ _.
  apply ends_last; [done| |intros; keeps]. intros a d' [= _ <-]. rewrite Hid.
  apply (evolves_alter d d id r); [apply ok_refl|done| |done]. split; cbn; auto.
Qed.

Lemma ends_DeployDraft did uid : ends d (DeployDraft did uid) ok.
Proof using All.
  unfold DeployDraft. apply ends_creator. intros id r E Hid.
  destruct (String.eqb_spec (md_Status r) "deployed") as [|Hst]; [apply ends_reads; keeps|].
  apply ends_list. destruct (_ <? 2)%nat; [by apply ends_throw|].
  apply ends_read; [keeps|done|]. intros [params b64] w w' _ _.
  apply ends_read; [keeps|done|]. intros predicted w2 w2' _ _.
  apply (ends_step _ same_drafts); [apply keeps_wrap; [apply _..|apply keeps_same_Deploy]|
    intros d1 S1; exact (same_drafts_evolves d d d1 ok_refl S1) |].
  intros [addr already] d1 S1. pose proof (same_drafts_evolves d d d1 ok_refl S1) as Ev1.
  apply (ends_step _ same_drafts); [apply keeps_same_persist |
    intros d2 S2; exact (same_drafts_evolves d d1 d2 Ev1 S2) |].
  intros [] d2 S2. pose proof (same_drafts_evolves d d1 d2 Ev1 S2) as Ev2.
  apply ends_last; [done| |intros; keeps]. intros a d' [= _ <-]. rewrite Hid.
  apply (evolves_alter d d2 id r); [done| | |done].
  - destruct S1 as [S1 _], S2 as [S2 _]. by rewrite S2, S1.
  - split; cbn; auto. by intros ?.
Qed.
End Ops.
(** ** The draft state machine *)
Inductive draft_op :=
  | OpCreate (userID : string)
  | OpThreshold (draftID userID : string) (threshold : Z)
  | OpAdd (draftID userID : string) (m : DraftMultisigMember)
  | OpJoin (token userID : string) (m : DraftMultisigMember)
  | OpDelete (draftID memberID userID : string)
  | OpPredict (draftID userID : string)
  | OpDeploy (draftID userID : string)
  | OpGet (draftID userID : string)
  | OpActive (userID : string)
  | OpPublic (token : string).

(** One request, whatever its outcome: the world it leaves. *)
Definition after {A} (m : M W A) (w : W) : W := snd (m w).
Definition run_op (op : draft_op) (w : W) : W :=
  match op with
  | OpCreate u => after (CreateDraft u) w
  | OpThreshold d u t => after (UpdateThreshold d u t) w
  | OpAdd d u m => after (AddMember d u m) w
  | OpJoin t u m => after (AddMemberViaInvite t u m) w
  | OpDelete d m u => after (DeleteMember d m u) w
  | OpPredict d u => after (PredictDraftAddress d u) w
  | OpDeploy d u => after (DeployDraft d u) w
  | OpGet d u => after (GetDraftForCreator d u) w
  | OpActive u => after (GetActiveDraft u) w
  | OpPublic t => after (GetPublicDraftByToken t) w
  end.
Inductive draft_step : Store -> Store -> Prop :=
  | draft_step_op op w : draft_step (w_store w) (w_store (run_op op w)).
Definition run_ops (ops : list draft_op) (w : W) : W := foldl (fun w op => run_op op w) w ops.

Lemma run_ops_steps ops w : rtc draft_step (w_store w) (w_store (run_ops ops w)).
Proof.
  revert w. induction ops as [|op ops IH]; intros w; cbn; [done|].
  eapply rtc_l; [apply (draft_step_op op)|apply IH].
Qed.

Lemma draft_step_evolves d d' : drafts_wf d -> draft_step d d' -> draft_evolves d d'.
Proof.
  intros Hwf Hs. revert Hwf. destruct Hs as [op w]. intros Hwf. destruct op; cbn.
  - by apply (ends_CreateDraft _ Hwf).
  - by apply (ends_UpdateThreshold _ Hwf).
  - by apply (ends_AddMember _ Hwf).
  - by apply (ends_AddMemberViaInvite _ Hwf).
  - by apply (ends_DeleteMember _ Hwf).
  - by apply (ends_PredictDraftAddress _ Hwf).
  - by apply (ends_DeployDraft _ Hwf).
  - apply (ends_reads _ Hwf); [|done]. unfold GetDraftForCreator. keeps.
  - apply (ends_reads _ Hwf); [|done]. unfold GetActiveDraft. keeps.
  - apply (ends_reads _ Hwf); [|done]. unfold GetPublicDraftByToken. keeps.
Qed.

Lemma draft_steps_evolve d d' : drafts_wf d -> rtc draft_step d d' -> draft_evolves d d'.
Proof.
  intros Hwf Hs. revert Hwf. induction Hs as [d|d d1 d' Hstep _ IH]; intros Hwf.
  - by apply draft_evolves_refl.
  - pose proof (draft_step_evolves _ _ Hwf Hstep) as Hev.
    eapply draft_evolves_trans; [exact Hev|]. apply IH, Hev.
Qed.

Lemma wf_rows_distinct d did :
  drafts_wf d -> NoDup (member_identity <$> (member_of <$> draft_member_rows did d)).
Proof.
  intros Hwf. rewrite <- list_fmap_compose.
  assert (NoDup (dm_ID <$> draft_member_rows did d)) as Hn.
  { unfold draft_member_rows. rewrite order_by_perm. apply NoDup_select_key, Hwf. }
  assert (forall r, r ∈ draft_member_rows did d -> draft_members d !! dm_ID r = Some r /\ dm_DraftID r = did) as Hin.
  { intros r [Hd [k Hk]]%elem_of_draft_member_rows. by rewrite (wf_member_key _ Hwf _ _ Hk). }
  revert Hn Hin. generalize (draft_member_rows did d). intros l.
  induction l as [|r l IH]; cbn; [constructor|]. intros [Hr Hn]%NoDup_cons Hin.
  apply NoDup_cons. split; [|apply IH; [done|]; intros; apply Hin; by right].
  intros (r' & E & Hr')%list_elem_of_fmap.
  destruct (Hin r ltac:(left)) as [L1 D1], (Hin r' ltac:(by right)) as [L2 D2].
  apply (wf_member_distinct _ Hwf (dm_ID r) (dm_ID r') r r'); try done; [|congruence].
  intros Eid. apply Hr. rewrite Eid. by apply list_elem_of_fmap_2.
Qed.

(** C25. Whatever sequence of requests the draft service serves — creations,
    joins through an invite, deletions, deployments, failures of any of them —
    every member stored for a draft is valid and no two members of a draft share
    a key. *)
Theorem draft_members_invariant d d' did :
  drafts_wf d -> rtc draft_step d d' ->
  Forall valid_member (member_of <$> draft_member_rows did d') /\
  NoDup (member_identity <$> (member_of <$> draft_member_rows did d')).
Proof.
  intros Hwf Hs. pose proof (ev_wf _ _ (draft_steps_evolve _ _ Hwf Hs)) as Hwf'.
  split; [|by apply wf_rows_distinct].
  apply list.Forall_forall. intros m (r & -> & Hr)%list_elem_of_fmap.
  apply elem_of_draft_member_rows in Hr as [_ [k Hk]]. by eapply wf_member_valid.
Qed.

(** A deployed draft is final: no later request changes its status,
    deployed address, threshold, salt or member list. *)
Theorem deployed_draft_frozen d d' id r :
  drafts_wf d -> rtc draft_step d d' ->
  drafts d !! id = Some r -> md_Status r = "deployed" ->
  exists r', drafts d' !! id = Some r' /\ md_Status r' = "deployed" /\
    md_SmartAccountAddress r' = md_SmartAccountAddress r /\ md_Threshold r' = md_Threshold r /\
    md_AccountSaltHex r' = md_AccountSaltHex r /\
    (forall m, m ∈ draft_member_rows id d' <-> m ∈ draft_member_rows id d).
Proof.
  intros Hwf Hs E Hst. pose proof (draft_steps_evolve _ _ Hwf Hs) as Hev.
  destruct (ev_draft _ _ Hev _ _ E) as (r' & E' & K). exists r'. split; [done|].
  destruct (dk_deployed _ _ K Hst). split; [by eapply draft_keeps_deployed|].
  do 2 (split; [done|]). split; [apply K|]. intros m. rewrite !elem_of_draft_member_rows.
  pose proof (ev_members _ _ Hev _ _ E Hst) as Hm.
  split; intros [Hd [k Hk]]; (split; [done|]); exists k; by apply (Hm k m Hd).
Qed.
(** ** What a deployment persists *)
Definition deployable (row : MultisigDraftMember) : bool :=
  let m := domainMemberFromRow row in
  String.eqb (validateDraftMember m) "" && deployable_kind (m_Kind m).

(** A member's signer material, without ids and times. *)
Definition material (m : MultisigMember) :=
  (mm_MemberType m, mm_Label m, mm_KeyDataHex m, mm_CredentialID m, mm_GAddress m, mm_UserID m).
Definition draft_material (row : MultisigDraftMember) :=
  let m := domainMemberFromRow row in
  (m_Kind m, nullStr (m_Label m), nullStr (m_KeyDataHex m), nullStr (m_CredentialID m),
   nullStr (m_GAddress m), nullUUID (m_UserID m)).

Definition members_of (acct : uuid) (d : Store) : list MultisigMember :=
  select (fun m => bool_decide (mm_MultisigAccountID m = acct)) (members d).

(** Everything but the member table. *)
Definition same_but_members (d d' : Store) : Prop := exists ms, d' = set_members ms d.

Lemma insert_member_ok row d u d' :
  InsertMultisigMember row d = Ok (u, d') ->
  members d !! mm_ID row = None /\ d' = set_members (<[mm_ID row := row]> (members d)) d.
Proof.
  unfold InsertMultisigMember, present. destruct (members d !! mm_ID row); [done|].
  repeat case_match; intros [= _ <-]; done.
Qed.

Lemma members_of_insert row d :
  members d !! mm_ID row = None ->
  members_of (mm_MultisigAccountID row) (set_members (<[mm_ID row := row]> (members d)) d) ≡ₚ
  row :: members_of (mm_MultisigAccountID row) d.
Proof.
  intros Hn. unfold members_of. cbn. rewrite (select_insert _ _ _ _ Hn).
  by rewrite bool_decide_eq_true_2.
Qed.

Lemma insert_members_ok acct now rows w w' :
  insert_members acct now rows w = (Ok tt, w') ->
  same_but_members (w_store w) (w_store w') /\
  material <$> members_of acct (w_store w') ≡ₚ
    (draft_material <$> List.filter deployable rows) ++ (material <$> members_of acct (w_store w)) /\
  (forall k m, mm_MultisigAccountID m <> acct ->
     members (w_store w') !! k = Some m <-> members (w_store w) !! k = Some m).
Proof.
  revert w. induction rows as [|row rows IH]; intros w; cbn [insert_members].
  { intros Hr. svc_inv. split; [|done]. exists (members (w_store w')). by destruct (w_store w'). }
  cbn [List.filter].
  change (deployable row) with (String.eqb (validateDraftMember (domainMemberFromRow row)) ""
    && deployable_kind (m_Kind (domainMemberFromRow row))). unfold deployable_kind.
  destruct (String.eqb _ ""); cbn [negb andb]; [|apply IH].
  destruct (String.eqb (m_Kind _) MultisigSignerKindDelegated) eqn:Kd,
    (String.eqb (m_Kind _) MultisigSignerKindWebauthn) eqn:Kw; cbn [negb andb orb]; [..|apply IH];
    intros Hr; svc_inv;
    match goal with H : InsertMultisigMember _ _ = _ |- _ => apply insert_member_ok in H as [Hn ->] end;
    apply IH in Hr as ([ms E] & Hp & Ho); (split; [exists ms; exact E|]); split.
  all: match goal with
       | |- _ ≡ₚ _ => etrans; [exact Hp|]; pose proof (members_of_insert _ _ Hn) as Hm; cbn in Hm |- *;
           rewrite Hm; cbn; symmetry; apply Permutation_middle
       | |- forall _, _ => intros k m Hm; rewrite (Ho k m Hm); cbn; rewrite lookup_insert_Some; split;
           [intros [[_ <-]|[_ ?]]; [by destruct Hm|done]
           | intros Hk; right; split; [|done]; intros <-; cbn in Hn; congruence]
       end.
Qed.

Lemma upsert_account_ok row d id d' :
  UpsertMultisigAccount row d = Ok (id, d') ->
  (exists accts, d' = set_accounts accts d) /\
  exists a, accounts d' !! id = Some a /\ ma_SmartAccountAddress a = ma_SmartAccountAddress row /\
    ma_Threshold a = ma_Threshold row /\ ma_AccountSaltHex a = ma_AccountSaltHex row.
Proof.
  unfold UpsertMultisigAccount. destruct (select_one _ _) as [old|e] eqn:E.
  - apply select_one_ok in E as [E%String.eqb_eq _]. intros [= <- <-]. split; [by eexists|].
    cbn. rewrite lookup_insert_eq. by eexists.
  - destruct (present _ _); [done|]. destruct (negb _); [done|]. intros [= <- <-].
    split; [by eexists|]. cbn. rewrite lookup_insert_eq. by eexists.
Qed.

(** The account an address names, with exactly these signers. *)
Definition account_has (d : Store) (addr : string) (threshold : Z) (salt : string)
    (rows : list MultisigDraftMember) : Prop :=
  exists id a, accounts d !! id = Some a /\ ma_SmartAccountAddress a = addr /\
    ma_Threshold a = int32 threshold /\ ma_AccountSaltHex a = salt /\
    material <$> members_of id d ≡ₚ draft_material <$> List.filter deployable rows.

Lemma persist_ok u addr t salt rows w w' :
  persistDeployedAccount u addr t salt rows w = (Ok tt, w') ->
  account_has (w_store w') addr t salt rows /\ same_drafts (w_store w) (w_store w') /\
  chain (w_store w') = chain (w_store w).
Proof.
  unfold persistDeployedAccount. intros Hr. svc_inv.
  match goal with H : UpsertMultisigAccount _ _ = Ok (?i, _) |- _ =>
    apply upsert_account_ok in H as ([accts Ed] & a & Ha & Haddr & Ht & Hs); rename i into acct end.
  match goal with H : insert_members _ _ _ _ = Ok _ |- _ => rename H into Hi
                | H : insert_members _ _ _ _ = (Ok _, _) |- _ => rename H into Hi end.
  match goal with H : DeleteMultisigMembersForAccount _ _ = _ |- _ => injection H; intros; subst end.
  apply insert_members_ok in Hi as ([ms E] & Hp & _). cbn in E, Hp |- *. rewrite E in Hp |- *.
  cbn in *. split; [|done]. exists acct, a. do 4 (split; [done|]). etrans; [exact Hp|].
  unfold members_of. cbn. rewrite (select_none _ (delete_where _ _)); [by rewrite app_nil_r|].
  intros k m [_ Hm]%lookup_delete_where. exact Hm.
Qed.

(** A successful deployment of a draft that was not deployed yet leaves the
    draft deployed at the returned address and one account there, with the
    draft's threshold and salt and exactly its valid deployable members as
    signers; deploying a deployed draft again changes nothing, sends nothing to
    the network and returns the same address. *)
Theorem deploy_draft_spec did uid w addr already view w' :
  drafts_wf (w_store w) -> DeployDraft did uid w = (Ok (addr, already, view), w') ->
  exists id r, uuid_parse did = Some id /\ drafts (w_store w) !! id = Some r /\
    uuid_parse uid = Some (md_CreatorUserID r) /\
    (md_Status r = "deployed" ->
       w_store w' = w_store w /\ already = true /\ addr = strOrEmpty (md_SmartAccountAddress r)) /\
    (md_Status r <> "deployed" ->
       account_has (w_store w') addr (md_Threshold r) (md_AccountSaltHex r)
         (draft_member_rows id (w_store w)) /\
       exists r', drafts (w_store w') !! id = Some r' /\ md_Status r' = "deployed" /\
         strOrEmpty (md_SmartAccountAddress r') = addr /\ strOrEmpty (md_PredictedAddress r') = addr).
Proof.
  intros Hwf. unfold DeployDraft. intros Hr. apply bind_ok in Hr as (r & w1 & Hg & Hr).
  pose proof (keeps_run _ _ _ _ _ (keeps_getDraftForCreator did uid) Hg) as S1. unfold on_store in S1.
  apply getDraftForCreator_ok in Hg as (id & u & Hdid & Huid & E & <-).
  pose proof (wf_draft_key _ Hwf _ _ E) as Hid. subst id.
  exists (md_ID r), r. do 3 (split; [done|]).
  destruct (String.eqb_spec (md_Status r) "deployed") as [Hst|Hst].
  { split; [|done]. intros _. apply bind_ok in Hr as (rows & w2 & Hl & Hr).
    pose proof (keeps_run _ _ _ _ _ (keeps_list_draft_members _) Hl) as S2. unfold on_store in S2.
    svc_inv. simplify_eq. split; [congruence|done]. }
  split; [done|]. intros _. apply bind_ok in Hr as (rows & w2 & Hl & Hr).
  pose proof (keeps_run _ _ _ _ _ (keeps_list_draft_members _) Hl) as S2. unfold on_store in S2.
  assert (rows = draft_member_rows (md_ID r) (w_store w)) as ->.
  { unfold list_draft_members in Hl. svc_inv. unfold ListMultisigDraftMembersForDraft in *. run_inv. congruence. }
  destruct (_ <? 2)%nat; [by svc_inv|]. apply bind_ok in Hr as ([params b64] & w3 & Hb & Hr). svc_inv.
  match goal with H : (if _ then _ else _) _ = (Ok ?p, ?w3) |- _ => rename H into Hpred; rename p into predicted end.
  match type of Hpred with _ = (_, ?w4) => assert (w_store w4 = w_store w) as S4 end.
  { destruct (String.eqb _ "") in Hpred; svc_inv; [|congruence].
    match goal with H : PredictAddress _ _ = _ |- _ =>
      pose proof (keeps_run _ _ _ _ _ (PredictAddress_store _) H) as S3 end.
    unfold on_store in S3. congruence. }
  match goal with H : Deploy _ _ _ = (Ok ?x, _) |- _ => destruct x as [deployed al] end. svc_inv.
  simplify_eq.
  match goal with H : Deploy _ _ _ = _ |- _ =>
    pose proof (Deploy_address _ _ _ _ _ _ H) as ->;
    pose proof (keeps_run _ _ _ _ _ (Deploy_store _ _) H) as [l S5] end.
  match goal with H : persistDeployedAccount _ _ _ _ _ _ = (Ok ?u, _) |- _ => destruct u; apply persist_ok in H as (Hacc & [Sd _] & _) end.
  match goal with H : UpdateMultisigDraftDeployed _ _ _ _ = _ |- _ => injection H; intros; subst end.
  cbn. split; [exact Hacc|].
  rewrite Sd, S5, S4. cbn. rewrite lookup_alter_eq, E. eexists. split; [done|]. cbn.
  by rewrite strOrEmpty_nullStr.
Qed.
Lemma addMemberToDraft_ok (r : MultisigDraft) m source w w' :
  addMemberToDraft r m source w = (Ok tt, w') ->
  valid_member m /\
  (forall x, x ∈ draft_member_rows (md_ID r) (w_store w) ->
     member_identity (member_of x) <> member_identity m) /\
  exists id now, draft_members (w_store w) !! id = None /\
    w_store w' = set_draft_members (<[id := draft_member_row id (md_ID r) m source now]>
                                      (draft_members (w_store w))) (w_store w).
Proof.
  unfold addMemberToDraft. intros Hr.
  destruct (String.eqb_spec (validateDraftMember m) "") as [Hv|]; cbn in Hr; [|by svc_inv].
  apply validateDraftMember_valid in Hv. split; [done|].
  apply bind_ok in Hr as (rows & w1 & Hl & Hr).
  pose proof (keeps_run _ _ _ _ _ (keeps_list_draft_members _) Hl) as S1. unfold on_store in S1.
  assert (rows = draft_member_rows (md_ID r) (w_store w)) as ->.
  { unfold list_draft_members in Hl. svc_inv. unfold ListMultisigDraftMembersForDraft in *. by run_inv. }
  destruct (String.eqb_spec (duplicateMemberError m (map domainMemberFromRow
    (draft_member_rows (md_ID r) (w_store w)))) "") as [Hdup|]; cbn in Hr; [|by svc_inv].
  split.
  { intros x Hx. eapply (proj1 (duplicateMemberError_fresh m _ Hv)); [exact Hdup|].
    by apply list_elem_of_fmap_2. }
  svc_inv. unfold InsertMultisigDraftMember in *. cbn in *. rewrite <- S1 in *.
  match goal with H : (if present ?t ?i then _ else _) = _ |- _ =>
    rename H into Hi; unfold present at 1 in Hi; destruct (t !! i) eqn:En; [done|] end.
  destruct (negb _); [done|]. destruct (negb _); [done|]. injection Hi as _ <-.
  eexists _, _. split; [exact En|]. done.
Qed.

(** Someone joining through an invite is added only to the draft the token
    names, only while that draft collects members and its invite has not
    expired, only with a valid key no member of the draft has; and then exactly
    one row is added, marked [invite] and linked to the joining user. *)
Theorem join_spec token uid m w view w' :
  drafts_wf (w_store w) -> AddMemberViaInvite token uid m w = (Ok view, w') ->
  exists r id now, drafts (w_store w) !! md_ID r = Some r /\ md_InviteToken r = token /\
    md_Status r = "collecting" /\
    (forall exp, md_ExpiresAt r = Some exp -> env_now (S (w_io w)) < exp) /\
    valid_member (with_user uid m) /\
    (forall x, x ∈ draft_member_rows (md_ID r) (w_store w) ->
       member_identity (member_of x) <> member_identity m) /\
    draft_members (w_store w) !! id = None /\
    w_store w' = set_draft_members (<[id := draft_member_row id (md_ID r) (with_user uid m) "invite" now]>
                                      (draft_members (w_store w))) (w_store w).
Proof.
  intros Hwf. unfold AddMemberViaInvite. intros Hr. apply bind_ok in Hr as (r & w1 & Hg & Hr).
  pose proof (keeps_run _ _ _ _ _ (keeps_getDraftByInviteToken token) Hg) as S1. unfold on_store in S1.
  apply getDraftByInviteToken_ok in Hg as ([k E] & Ht & Hst & Hexp).
  apply bind_ok in Hr as ([] & w2 & Ha & Hr).
  apply addMemberToDraft_ok in Ha as (Hv & Hd & id & now & Hid & S2). rewrite <- S1 in *.
  apply bind_ok in Hr as (rows & w3 & Hl & Hr).
  pose proof (keeps_run _ _ _ _ _ (keeps_list_draft_members _) Hl) as S3. unfold on_store in S3.
  svc_inv. exists r, id, now. rewrite (wf_draft_key _ Hwf _ _ E).
  rewrite (wf_draft_key _ Hwf _ _ E) in Hd, S2.
  do 6 (split; [done|]). split; [done|]. congruence.
Qed.
End Drafts.
Section Witnesses.
Import Demo DemoServices.

(** User 1 drafts an account, adds a delegated and a passkey member, sets the
    threshold and deploys; user 2 tries to join twice with the same key. *)
Definition demo_users : Store := set_users {[1%N := 0; 2%N := 0]} empty_store.
Definition demo_w0 : World Store := MkWorld demo_users 0.
Definition ops_collect : list draft_op :=
  [OpCreate "1"; OpAdd "103" "1" (demo_member "delegated" "GA" "");
   OpAdd "103" "1" (demo_member "webauthn" "" (demo_key "bb"));
   OpAdd "103" "1" (demo_member "delegated" "GA" "")].
Definition demo_e : Env := demo_env 1000 100%N no_fault.
Definition w_collect : World Store := run_ops (H2 := demo_e) ops_collect demo_w0.
Definition w_deployed : World Store :=
  run_ops (H2 := demo_e) [OpThreshold "103" "1" 2; OpDeploy "103" "1"] w_collect.

Lemma demo_users_wf : drafts_wf (w_store demo_w0).
Proof. split; cbn; intros *; by rewrite lookup_empty. Qed.

(** The duplicate was refused: two members are stored. *)
Lemma draft_members_invariant_witness :
  length (draft_member_rows 103%N (w_store w_collect)) = 2%nat /\
  NoDup (member_identity <$> (member_of <$> draft_member_rows 103%N (w_store w_collect))).
Proof.
  split; [vm_compute; reflexivity|].
  apply (draft_members_invariant (H2 := demo_e) (w_store demo_w0) (w_store w_collect) 103%N);
    [apply demo_users_wf | apply (run_ops_steps (H2 := demo_e))].
Defined.

Lemma demo_collect_wf : drafts_wf (w_store w_collect).
Proof.
  apply (draft_steps_evolve (H2 := demo_e) (w_store demo_w0));
    [apply demo_users_wf | apply (run_ops_steps (H2 := demo_e))].
Qed.
Lemma demo_deployed_wf : drafts_wf (w_store w_deployed).
Proof.
  apply (draft_steps_evolve (H2 := demo_e) (w_store w_collect));
    [apply demo_collect_wf | apply (run_ops_steps (H2 := demo_e))].
Qed.

Lemma deployed_draft_frozen_witness :
  exists r', drafts (w_store (run_ops (H2 := demo_e)
      [OpThreshold "103" "1" 1; OpPredict "103" "1"; OpDeploy "103" "1"] w_deployed)) !! 103%N = Some r' /\
    md_Status r' = "deployed" /\ md_Threshold r' = 2.
Proof.
  assert (exists r, drafts (w_store w_deployed) !! 103%N = Some r /\ md_Status r = "deployed"
    /\ md_Threshold r = 2) as (r & E & Hst & Ht) by (eexists; vm_compute; eauto).
  destruct (deployed_draft_frozen (H2 := demo_e) (w_store w_deployed) _ 103%N r demo_deployed_wf
    (run_ops_steps (H2 := demo_e) [OpThreshold "103" "1" 1; OpPredict "103" "1"; OpDeploy "103" "1"]
       w_deployed) E Hst) as (r' & E' & Hst' & _ & Ht' & _).
  exists r'. split; [exact E'|]. split; [exact Hst'|]. rewrite Ht'. exact Ht.
Defined.

Lemma deploy_draft_spec_witness :
  exists addr already view w', DeployDraft (H2 := demo_e) "103" "1" w_collect = (Ok (addr, already, view), w') /\
    account_has (w_store w') addr 2 (hex_encode (str_repeat "r" 32)) (draft_member_rows 103%N (w_store w_collect)).
Proof.
  assert (exists x w', DeployDraft (H2 := demo_e) "103" "1" w_collect = (Ok x, w')) as ([[addr al] view] & w' & Hr)
    by (eexists _, _; vm_compute; reflexivity).
  exists addr, al, view, w'. split; [exact Hr|].
  destruct (deploy_draft_spec (H2 := demo_e) _ _ _ _ _ _ _ demo_collect_wf Hr)
    as (id & r & Hid & E & _ & _ & Hnew).
  vm_compute in Hid. injection Hid as <-.
  assert (exists r0, drafts (w_store w_collect) !! 103%N = Some r0 /\ md_Status r0 = "collecting" /\
    md_Threshold r0 = 2 /\ md_AccountSaltHex r0 = hex_encode (str_repeat "r" 32))
    as (r0 & E0 & Hst & Ht & Hs) by (eexists; vm_compute; eauto).
  assert (Some r = Some r0) as [= ->] by (etrans; [symmetry; exact E | exact E0]).
  rewrite Ht, Hs in Hnew. apply Hnew. rewrite Hst. discriminate.
Defined.

Definition token103 : string := Base64.RawURLEncoding_EncodeToString (str_repeat "r" 24).
Lemma join_spec_witness :
  exists view w' id r, AddMemberViaInvite (H2 := demo_e) token103 "2" (demo_member "delegated" "GC" "") w_collect
      = (Ok view, w') /\
    draft_members (w_store w') !! id = Some r /\ dm_Source r = "invite" /\ dm_UserID r = Some 2%N.
Proof.
  assert (exists x w', AddMemberViaInvite (H2 := demo_e) token103 "2" (demo_member "delegated" "GC" "") w_collect
    = (Ok x, w')) as (view & w' & Hr) by (eexists _, _; vm_compute; reflexivity).
  destruct (join_spec (H2 := demo_e) _ _ _ _ _ _ demo_collect_wf Hr)
    as (r & id & now & _ & _ & _ & _ & _ & _ & _ & E).
  exists view, w', id. eexists. split; [exact Hr|]. rewrite E. cbn. rewrite lookup_insert_eq.
  split; [reflexivity|]. split; reflexivity.
Defined.

(** Three members, threshold 3, one of them an ed25519 key that cannot be
    deployed: the draft passes every check of the deployment, and the account is
    recorded with threshold 3 and two signers, who can never reach it. *)
Definition ops_short : list draft_op :=
  ops_collect ++ [
    OpAdd "103" "1" {| m_ID := ""; m_Label := "l"; m_Kind := "ed25519"; m_GAddress := ""; m_KeyDataHex := "";
                       m_CredentialID := ""; m_PublicKeyHex := str_repeat "a" 64; m_UserID := "" |};
    OpThreshold "103" "1" 3; OpDeploy "103" "1"].
Lemma deploy_below_threshold :
  exists id a, accounts (w_store (run_ops (H2 := demo_e) ops_short demo_w0)) !! id = Some a /\
    ma_Threshold a = 3 /\ length (members_of id (w_store (run_ops (H2 := demo_e) ops_short demo_w0))) = 2%nat.
Proof. eexists 135%N, _. split; [vm_compute; reflexivity|]. split; vm_compute; reflexivity. Qed.
End Witnesses.
End Drafts.
