(* ===== verification/Accounts.v ===== *)
(** * Multisig accounts: one-shot parameters, deployment and registration
    (multisig_accounts_service.go) *)

From S2P Require Export ExecuteAuth Drafts.
From S2P Require Import Instances.

Module Accounts.
Import Signers Drafts.

Record MultisigAccountMember := {
  am_ID : string; am_MemberType : string; am_Label : string; am_KeyDataHex : string;
  am_CredentialID : string; am_GAddress : string; am_HasKeyData : bool }.

Record MultisigAccountSummary := {
  as_ID : string; as_SmartAccountAddress : string; as_Threshold : Z; as_AccountSaltHex : string;
  as_CreatedAt : Z; as_ProposalCount : Z; as_Members : list MultisigAccountMember;
  as_MemberID : string }.

Record RegisterMemberInput := {
  rm_Type : string; rm_KeyDataHex : string; rm_CredentialID : string; rm_GAddress : string;
  rm_Label : string }.

Section Accounts.
Context `{StellarSDK} `{Unicode} `{UuidLib} `{Env} `{!SmartAccountFactory}.
Abbreviation W := (World Store).

Definition account_member (m : MultisigMember) : MultisigAccountMember :=
  {| am_ID := uuid_string (mm_ID m); am_MemberType := mm_MemberType m;
     am_Label := strOrEmpty (mm_Label m); am_KeyDataHex := strOrEmpty (mm_KeyDataHex m);
     am_CredentialID := strOrEmpty (mm_CredentialID m); am_GAddress := strOrEmpty (mm_GAddress m);
     am_HasKeyData := match mm_KeyDataHex m with Some k => negb (String.eqb k "") | None => false end |}.

(** The last member row linked to the caller. *)
Definition caller_member_id (uid : uuid) (ms : list MultisigMember) : string :=
  fold_left (fun acc m => if bool_decide (mm_UserID m = Some uid) then uuid_string (mm_ID m) else acc) ms "".

Fixpoint account_summaries (uid : uuid) (rows : list (MultisigAccount * Z)) : M W (list MultisigAccountSummary) :=
  match rows with
  | [] => ret []
  | (r, count) :: rest =>
      let! memberRows := wrap "list members for account" (query (ListMultisigMembersForAccount (ma_ID r))) in
      let! summaries := account_summaries uid rest in
      ret ({| as_ID := uuid_string (ma_ID r); as_SmartAccountAddress := ma_SmartAccountAddress r;
              as_Threshold := ma_Threshold r; as_AccountSaltHex := ma_AccountSaltHex r;
              as_CreatedAt := ma_CreatedAt r; as_ProposalCount := count;
              as_Members := map account_member memberRows;
              as_MemberID := caller_member_id uid memberRows |} :: summaries)
  end.

Definition ListAccounts (userID : string) : M W (list MultisigAccountSummary) :=
  let! uid := wrap "parse user id" (lift (parse_uuid userID)) in
  let! rows := wrap "list multisig accounts" (query (ListMultisigAccountsWithProposalCountForUser uid)) in
  account_summaries uid rows.

(** ** Stateless draft and deploy *)
Definition DraftParams (threshold : Z) (signers : list MultisigSignerInit) (accountSaltHex : string)
    : M W (string * string * string * list MultisigSignerInit) :=
  let! _ := lift (validateSignerInits threshold signers) in
  let resolvedSigners := canonicalizeSignerInits signers in
  let! resolvedSaltHex := (if String.eqb accountSaltHex "" then randomSaltHex else ret accountSaltHex) in
  let! salt := lift (hexDecodeSalt resolvedSaltHex) in
  let! params := wrap "build account init params"
    (lift (buildMultisigAccountInitParams (uint32 threshold) salt resolvedSigners)) in
  let! paramsXdrBase64 := wrap "encode account init params" (lift (scval_marshal_b64 params)) in
  let! smartAccountAddress := wrap "predict multisig smart account address" (PredictAddress params) in
  ret (smartAccountAddress, resolvedSaltHex, paramsXdrBase64, resolvedSigners).

Definition DeployParams (threshold : Z) (signers : list MultisigSignerInit) (accountSaltHex : string)
    : M W (string * string * bool * string * list MultisigSignerInit) :=
  let! _ := lift (validateSignerInits threshold signers) in
  if String.eqb accountSaltHex "" then
    throw (Wrapf "accountSaltHex is required" ErrMultisigAccountSignerValidation) else
  let resolvedSigners := canonicalizeSignerInits signers in
  let! salt := lift (hexDecodeSalt accountSaltHex) in
  let! params := wrap "build account init params"
    (lift (buildMultisigAccountInitParams (uint32 threshold) salt resolvedSigners)) in
  let! paramsXdrBase64 := wrap "encode account init params" (lift (scval_marshal_b64 params)) in
  let! predictedAddress := wrap "predict multisig smart account address" (PredictAddress params) in
  let! ' (smartAccountAddress, alreadyDeployed) :=
    wrap "deploy multisig smart account" (Deploy params predictedAddress) in
  ret (smartAccountAddress, predictedAddress, alreadyDeployed, paramsXdrBase64, resolvedSigners).

(** ** Registration *)
Definition invalid_signers (msg : string) : error := Wrapf msg ErrMultisigAccountSignerValidation.

Definition links_caller (own : list string) (m : RegisterMemberInput) : bool :=
  String.eqb (rm_Type m) "webauthn" && negb (String.eqb (rm_CredentialID m) "")
  && bool_decide (rm_CredentialID m ∈ own).

Definition register_row (id acct : uuid) (now : Z) (user : option uuid) (m : RegisterMemberInput) : MultisigMember :=
  {| mm_ID := id; mm_MultisigAccountID := acct; mm_MemberType := rm_Type m;
     mm_Label := nullStr (rm_Label m); mm_KeyDataHex := nullStr (rm_KeyDataHex m);
     mm_CredentialID := nullStr (rm_CredentialID m); mm_GAddress := nullStr (rm_GAddress m);
     mm_CreatedAt := now; mm_UserID := user |}.

Fixpoint register_members (uid acct : uuid) (now : Z) (own : list string) (ms : list RegisterMemberInput)
    (callerMemberID : string) : M W (list MultisigAccountMember * string) :=
  match ms with
  | [] => ret ([], callerMemberID)
  | m :: rest =>
      let linkCaller := links_caller own m in
      let memberUserID := if linkCaller then Some uid else None in
      let! id := new_uuid in
      let params := register_row id acct now memberUserID m in
      let! memberID := wrap "upsert multisig member"
        (exec (if String.eqb (rm_Type m) "delegated" then UpsertMultisigMemberByGAddress params
               else UpsertMultisigMemberByCredential params)) in
      let caller := if linkCaller then uuid_string memberID else callerMemberID in
      let! ' (result, caller) := register_members uid acct now own rest caller in
      ret ({| am_ID := uuid_string memberID; am_MemberType := rm_Type m; am_Label := rm_Label m;
              am_KeyDataHex := rm_KeyDataHex m; am_CredentialID := rm_CredentialID m;
              am_GAddress := rm_GAddress m; am_HasKeyData := negb (String.eqb (rm_KeyDataHex m) "") |}
           :: result, caller)
  end.

Definition RegisterAccount (userID smartAccountAddress : string) (threshold : Z) (accountSaltHex : string)
    (members : list RegisterMemberInput) : M W MultisigAccountSummary :=
  if threshold <? 1 then throw (invalid_signers "threshold must be at least 1") else
  if String.eqb smartAccountAddress "" then throw (invalid_signers "smartAccountAddress is required") else
  if String.eqb accountSaltHex "" then throw (invalid_signers "accountSaltHex is required") else
  if (length members <? minAccountSigners)%nat
  then throw (invalid_signers "at least 2 members are required") else
  if Z.of_nat (length members) <? threshold
  then throw (invalid_signers "threshold cannot exceed the number of members") else
  let! uid := wrap "parse user id" (lift (parse_uuid userID)) in
  let! ownCredentials := wrap "list caller webauthn credentials" (query (ListWebauthnCredentialsForUser uid)) in
  let ownCredentialIDs := map wc_CredentialID ownCredentials in
  let! ' (accountID, now, result, callerMemberID) := transact
    (let! id := new_uuid in
     let! created := now_ms in
     let! accountID := wrap "upsert multisig account" (exec (UpsertMultisigAccount
       {| ma_ID := id; ma_UserID := uid; ma_SmartAccountAddress := smartAccountAddress;
          ma_Threshold := int32 threshold; ma_AccountSaltHex := accountSaltHex;
          ma_CreatedAt := created |})) in
     let! now := now_ms in
     let! ' (result, callerMemberID) := register_members uid accountID now ownCredentialIDs members "" in
     ret (accountID, now, result, callerMemberID)) in
  ret {| as_ID := uuid_string accountID; as_SmartAccountAddress := smartAccountAddress;
         as_Threshold := threshold; as_AccountSaltHex := accountSaltHex; as_CreatedAt := now;
         as_ProposalCount := 0; as_Members := result; as_MemberID := callerMemberID |}.

(** ** Who a registration may link *)
Definition members_keyed (d : Store) : Prop := forall k m, members d !! k = Some m -> mm_ID m = k.

(** [c] is one of the user's own registered passkeys. *)
Definition owns_credential (d : Store) (uid : uuid) (c : string) : Prop :=
  exists k cr, credentials d !! k = Some cr /\ wc_UserID cr = uid /\ wc_CredentialID cr = c.

(** A member row before and after: its identity stays, and its session link is
    kept, or set to the caller for a credential the caller owns. *)
Definition member_kept (own : string -> Prop) (uid : uuid) (m m' : MultisigMember) : Prop :=
  mm_MultisigAccountID m' = mm_MultisigAccountID m /\ mm_CredentialID m' = mm_CredentialID m /\
  mm_GAddress m' = mm_GAddress m /\
  (mm_UserID m' = mm_UserID m \/
   mm_UserID m' = Some uid /\ exists c, mm_CredentialID m' = Some c /\ own c).

Record registers (own : string -> Prop) (uid : uuid) (d d' : Store) : Prop := {
  rg_keyed : members_keyed d -> members_keyed d';
  rg_kept : members_keyed d -> forall k m, members d !! k = Some m ->
    exists m', members d' !! k = Some m' /\ member_kept own uid m m';
  rg_new : members_keyed d -> forall k m', members d !! k = None -> members d' !! k = Some m' ->
    mm_UserID m' = None \/ mm_UserID m' = Some uid /\ exists c, mm_CredentialID m' = Some c /\ own c;
}.

#[export] Instance registers_refl own uid : Reflexive (registers own uid).
Proof using Type.
  intros d. split; [done| |congruence]. intros _ k m Hk. exists m. split; [done|].
  repeat split; auto.
Qed.

#[export] Instance registers_trans own uid : Transitive (registers own uid).
Proof using Type.
  intros d1 d2 d3 [K12 P12 N12] [K23 P23 N23]. split; [auto|..].
  - intros Hk k m Hm. destruct (P12 Hk k m Hm) as (m2 & E2 & A2 & C2 & G2 & U2).
    destruct (P23 (K12 Hk) k m2 E2) as (m3 & E3 & A3 & C3 & G3 & U3).
    exists m3. split; [done|]. split; [congruence|]. split; [congruence|]. split; [congruence|].
    destruct U3 as [U3|U3]; [|by right]. rewrite U3. destruct U2 as [U2|(U2 & c & Hc & Ho)]; [by left|].
    right. split; [done|]. exists c. split; [congruence|done].
  - intros Hk k m' Hn Hm'. destruct (members d2 !! k) as [m2|] eqn:E2; [|by eapply N23; eauto].
    destruct (P23 (K12 Hk) k m2 E2) as (m3 & E3 & A3 & C3 & G3 & U3).
    assert (m3 = m') as -> by congruence. specialize (N12 Hk k m2 Hn E2).
    destruct U3 as [U3|U3]; [|by right]. rewrite U3, C3. exact N12.
Qed.
Definition link_allowed (own : string -> Prop) (uid : uuid) (row : MultisigMember) : Prop :=
  mm_UserID row = None \/ mm_UserID row = Some uid /\ exists c, mm_CredentialID row = Some c /\ own c.

Lemma registers_insert own uid d row :
  members d !! mm_ID row = None -> link_allowed own uid row ->
  registers own uid d (set_members (<[mm_ID row := row]> (members d)) d).
Proof.
  intros Hn Hl. split; cbn.
  - intros Hk k m. cbn. rewrite lookup_insert_Some. intros [[<- <-]|[_ E]]; [done|by apply Hk].
  - intros Hk k m E. exists m. split; [|repeat split; auto].
    rewrite lookup_insert_ne; [done|]. congruence.
  - intros Hk k m' E. rewrite lookup_insert_Some. intros [[_ <-]|[_ ?]]; [done|congruence].
Qed.

Lemma registers_update own uid d old new :
  (exists k, members d !! k = Some old) -> mm_ID new = mm_ID old -> member_kept own uid old new ->
  registers own uid d (set_members (<[mm_ID old := new]> (members d)) d).
Proof.
  intros [k0 E0] Hid Hkept. split; cbn.
  - intros Hk k m. cbn. rewrite lookup_insert_Some. intros [[<- <-]|[_ E]]; [done|by apply Hk].
  - intros Hk k m E. pose proof (Hk _ _ E0) as E1. destruct (decide (k = mm_ID old)) as [->|Hne].
    + exists new. rewrite lookup_insert_eq. split; [done|]. rewrite <- E1 in E0. congruence.
    + exists m. rewrite lookup_insert_ne by done. split; [done|]. repeat split; auto.
  - intros Hk k m' E. rewrite lookup_insert_Some. intros [[<- _]|[_ ?]]; [|congruence].
    rewrite (Hk _ _ E0) in E. congruence.
Qed.

Lemma registers_upsert_credential own uid row d id d' :
  link_allowed own uid row -> UpsertMultisigMemberByCredential row d = Ok (id, d') ->
  registers own uid d d'.
Proof.
  intros Hl. unfold UpsertMultisigMemberByCredential. destruct (select_one _ _) as [old|e] eqn:E.
  - apply select_one_ok in E as [Hs Hk]. destruct (negb _); [done|]. intros [= <- <-].
    unfold same_credential in Hs. apply andb_true_iff in Hs as [_ Hs].
    destruct (mm_CredentialID row) as [c|] eqn:Ec; [|done]. apply bool_decide_eq_true in Hs.
    apply registers_update; [done|done|]. repeat split; cbn.
    destruct Hl as [Hl|(Hl & c' & Hc' & Ho)]; rewrite Hl; cbn; [by left|].
    right. split; [done|]. exists c'. split; congruence.
  - unfold present. destruct (members d !! mm_ID row) eqn:En; [done|].
    destruct (exists_row _ _); [done|]. destruct (negb _); [done|]. intros [= _ <-].
    by apply registers_insert.
Qed.

Lemma registers_upsert_gaddress own uid row d id d' :
  mm_UserID row = None -> UpsertMultisigMemberByGAddress row d = Ok (id, d') -> registers own uid d d'.
Proof.
  intros Hl. unfold UpsertMultisigMemberByGAddress. destruct (select_one _ _) as [old|e] eqn:E.
  - apply select_one_ok in E as [_ Hk]. destruct (negb _); [done|]. intros [= <- <-].
    apply registers_update; [done|done|]. repeat split; cbn. left. by rewrite Hl.
  - unfold present. destruct (members d !! mm_ID row) eqn:En; [done|].
    destruct (exists_row _ _); [done|]. destruct (negb _); [done|]. intros [= _ <-].
    apply registers_insert; [done|]. by left.
Qed.

Lemma keeps_register_members (own : string -> Prop) uid acct now ids ms caller :
  (forall c, c ∈ ids -> own c) ->
  keeps (on_store (registers own uid)) (register_members uid acct now ids ms caller).
Proof.
  intros Hown. revert caller. induction ms as [|m ms IH]; intros caller; cbn [register_members]; [keeps|].
  apply keeps_bind; [apply _..|keeps|]. intros id.
  apply keeps_bind; [apply _..| |keeps].
  apply keeps_wrap; [apply _..|]. apply keeps_exec; [apply _..|]. intros d a d'.
  assert (link_allowed own uid (register_row id acct now (if links_caller ids m then Some uid else None) m)) as Hl.
  { unfold links_caller. destruct (String.eqb_spec (rm_Type m) "webauthn"); cbn; [|by left].
    destruct (String.eqb_spec (rm_CredentialID m) ""); cbn; [by left|]. case_bool_decide; [|by left].
    right. split; [done|]. exists (rm_CredentialID m). split; [|by apply Hown].
    unfold register_row, nullStr. cbn. by destruct (String.eqb_spec (rm_CredentialID m) ""). }
  destruct (String.eqb_spec (rm_Type m) "delegated") as [Ety|].
  - apply registers_upsert_gaddress. cbn. unfold links_caller. by rewrite Ety.
  - by apply registers_upsert_credential.
Qed.

Lemma keeps_registers_Upsert own uid row : keeps (on_store (registers own uid)) (exec (UpsertMultisigAccount row)).
Proof.
  apply keeps_exec; [apply _..|]. intros d a d' [[accts ->] _]%upsert_account_ok.
  split; cbn; [done| |congruence]. intros _ k m E. exists m. split; [done|]. repeat split; auto.
Qed.
#[local] Hint Resolve keeps_registers_Upsert : keeps.

(** Registering an account never removes a member and never links one to the
    caller without proof: whatever the outcome, every member row survives with
    its identity, and a row linked to the calling session afterwards, that was
    not before, carries a passkey credential the caller had registered. *)
Theorem register_links_only_own userID addr t salt ms w r w' uid :
  members_keyed (w_store w) -> uuid_parse userID = Some uid ->
  RegisterAccount userID addr t salt ms w = (r, w') ->
  (forall k m, members (w_store w) !! k = Some m -> exists m', members (w_store w') !! k = Some m' /\
     member_kept (owns_credential (w_store w) uid) uid m m') /\
  (forall k m', members (w_store w) !! k = None -> members (w_store w') !! k = Some m' ->
     link_allowed (owns_credential (w_store w) uid) uid m').
Proof.
  intros Hk Hu Hr. set (d := w_store w) in *.
  assert (ends d (RegisterAccount userID addr t salt ms) (registers (owns_credential d uid) uid d)) as He.
  2:{ pose proof (ends_run _ _ _ _ _ _ He eq_refl Hr) as [_ Hkept Hnew].
      split; [exact (Hkept Hk) | exact (Hnew Hk)]. }
  assert (registers (owns_credential d uid) uid d d) as Hrefl by reflexivity.
  unfold RegisterAccount. do 5 (case_match; [by apply ends_throw|]).
  apply ends_read; [keeps|done|]. intros uid' w1 w1' _ Hp. svc_inv. assert (uid' = uid) as -> by congruence.
  apply ends_read; [keeps|done|]. intros creds w2 w2' Hw2 Hc. svc_inv.
  apply (ends_step _ (registers (owns_credential d uid) uid)); [|done|].
  - pose proof (keeps_register_members (owns_credential d uid) uid) as Hreg.
    apply keeps_transact; [apply _..|]. keeps. apply Hreg.
    intros c (cr & -> & Hcr)%list_elem_of_fmap. unfold ListWebauthnCredentialsForUser in *.
    run_inv. unfold order_by_desc in Hcr. rewrite merge_sort_Permutation in Hcr.
    apply elem_of_select in Hcr as [Hu'%bool_decide_eq_true [k Hcr]]. rewrite Hw2 in Hcr. by eexists _, _.
  - intros [[[acct now] result] caller] d' Hd'. by apply ends_ret.
Qed.
End Accounts.
Section Witnesses.
Import Demo DemoServices.

(** Account 5 of user 1 (threshold 2, members 6 and 7); user 2 has no part in it
    and has registered a passkey with credential [c2]. *)
Definition acct5 : MultisigAccount :=
  {| ma_ID := 5%N; ma_UserID := 1%N; ma_SmartAccountAddress := "CACC"; ma_Threshold := 2;
     ma_AccountSaltHex := "ab"; ma_CreatedAt := 1 |}.
Definition acct_member (id : uuid) (ty : string) (key cred g : option string) (u : option uuid) : MultisigMember :=
  {| mm_ID := id; mm_MultisigAccountID := 5%N; mm_MemberType := ty; mm_Label := Some "l";
     mm_KeyDataHex := key; mm_CredentialID := cred; mm_GAddress := g; mm_CreatedAt := 1; mm_UserID := u |}.
Definition demo_members : gmap uuid MultisigMember :=
  {[ 6%N := acct_member 6%N "webauthn" (Some "04aa") (Some "c1") None (Some 1%N);
     7%N := acct_member 7%N "delegated" None None (Some ("G" +:+ ExecuteAuth.key32)) None ]}.
Definition cred2 : WebauthnCredential :=
  {| wc_ID := 9%N; wc_UserID := 2%N; wc_CredentialID := "c2"; wc_CredentialIDBytes := "c";
     wc_CosePublicKey := ""; wc_P256RawPublicKey := "k"; wc_SignCount := 0; wc_Transports := None; wc_BackedUp := 0; wc_CreatedAt := 1 |}.
Definition acct_store : Store :=
  set_users {[1%N := 0; 2%N := 0]} (set_credentials {[9%N := cred2]}
    (set_accounts {[5%N := acct5]} (set_members demo_members empty_store))).
Definition acct_w : World Store := MkWorld acct_store 0.
Definition reg (ty key cred g : string) : RegisterMemberInput :=
  {| rm_Type := ty; rm_KeyDataHex := key; rm_CredentialID := cred; rm_GAddress := g; rm_Label := "x" |}.
Definition acct_env : Env := demo_env 1000 100%N no_fault.

Lemma demo_members_keyed : members_keyed (w_store acct_w).
Proof.
  intros k m. cbn. unfold demo_members. rewrite lookup_insert_Some, lookup_singleton_Some.
  intros [[<- <-]|[_ [<- <-]]]; done.
Qed.

Lemma register_links_only_own_witness :
  let w' := snd (RegisterAccount (H2 := acct_env) "2" "CACC" 1 "cd"
                   [reg "webauthn" "04aa" "c1" ""; reg "webauthn" "04bb" "c2" ""] acct_w) in
  exists m', members (w_store w') !! 6%N = Some m' /\ mm_UserID m' = Some 1%N.
Proof.
  intros w'. assert (uuid_parse "2" = Some 2%N) as Hp by (vm_compute; reflexivity).
  destruct (register_links_only_own (H2 := acct_env) "2" "CACC" 1 "cd"
    [reg "webauthn" "04aa" "c1" ""; reg "webauthn" "04bb" "c2" ""] acct_w
    (fst (RegisterAccount (H2 := acct_env) "2" "CACC" 1 "cd"
       [reg "webauthn" "04aa" "c1" ""; reg "webauthn" "04bb" "c2" ""] acct_w)) w' 2%N
    demo_members_keyed Hp (surjective_pairing _)) as [Hkept _].
  destruct (Hkept 6%N _ ltac:(reflexivity)) as (m' & E & _ & Hc & _ & [U|(_ & c & Hc' & k & cr & Hk & _ & Ecr)]).
  - exists m'. split; [exact E|]. rewrite U. reflexivity.
  - exfalso. cbn in Hk. apply lookup_singleton_Some in Hk as [_ <-]. cbn in *. congruence.
Defined.

(** Any session may overwrite a registered account's threshold, and join it with
    a passkey of its own: user 2, who is not a signer, registers account 5 again
    with threshold 1 and its own credential. *)
Lemma register_takes_over :
  let d' := w_store (snd (RegisterAccount (H2 := acct_env) "2" "CACC" 1 "cd"
              [reg "webauthn" "04bb" "c2" ""; reg "webauthn" "04aa" "c1" ""] acct_w)) in
  option_map ma_Threshold (accounts d' !! 5%N) = Some 1 /\
  (exists m, m ∈ members_of 5%N d' /\ mm_UserID m = Some 2%N) /\
  ~ (exists m, m ∈ members_of 5%N (w_store acct_w) /\ mm_UserID m = Some 2%N).
Proof.
  split; [vm_compute; reflexivity|]. split.
  - eexists. split; [apply list_elem_of_In; vm_compute; left; reflexivity | reflexivity].
  - intros (m & Hm & Hu). apply elem_of_select in Hm as [_ [k Hk]]. cbn in Hk. unfold demo_members in Hk.
    rewrite lookup_insert_Some, lookup_singleton_Some in Hk.
    destruct Hk as [[_ <-]|[_ [_ <-]]]; discriminate Hu.
Qed.

(** The validation accepts a 0x-prefixed key that the parameter encoding then
    cannot decode: a valid signer list for which no draft can be made. *)
Lemma draft_params_prefixed_key :
  let ss := [{| si_Type := "webauthn"; si_KeyDataHex := "0x" +:+ demo_key "bb"; si_GAddress := ""; si_Label := "" |};
             {| si_Type := "delegated"; si_KeyDataHex := ""; si_GAddress := "GA"; si_Label := "" |}] in
  validateSignerInits 2 ss = Ok tt /\
  is_ok (fst (DraftParams (H2 := acct_env) 2 ss "ab" acct_w)) = false.
Proof. split; vm_compute; reflexivity. Qed.
End Witnesses.
End Accounts.
