(* ===== verification/Proposals.v ===== *)
(** * Multisig proposals: create, refresh, approve, execute
    (multisig_proposal_service.go) *)

From S2P Require Export Accounts ContextRules.
From S2P Require Import Instances.

Module Proposals.
Import Signers ExecuteAuth Assets Balances ContextRules Amount.

Definition multisigAuthLedgerTTL : Z := 10000.
Definition multisigExpirySafetyLedgers : Z := 25.

Definition multisigBuildTimeoutSeconds : Z := 30.
Definition ErrMultisigAccountNotFound : error := Sentinel "ErrMultisigAccountNotFound".
Definition ErrMultisigProposalNotFound : error := Sentinel "ErrMultisigProposalNotFound".
Definition ErrMultisigProposalNotPending : error := Sentinel "ErrMultisigProposalNotPending".
Definition ErrMultisigProposalRefreshed : error := Sentinel "ErrMultisigProposalRefreshed".
Definition ErrMultisigThresholdNotMet : error := Sentinel "ErrMultisigThresholdNotMet".
Definition ErrMultisigApprovalMemberNotFound : error := Sentinel "ErrMultisigApprovalMemberNotFound".
Definition ErrMultisigApprovalWrongMemberType : error := Sentinel "ErrMultisigApprovalWrongMemberType".
Definition ErrMultisigOperationUnsupported : error := Sentinel "ErrMultisigOperationUnsupported".
Definition ErrMultisigInsufficientBalance : error := Sentinel "ErrMultisigInsufficientBalance".
Definition ErrMultisigMissingField : error := Sentinel "ErrMultisigMissingField".
Definition ErrMultisigApprovalNotStarted : error := Sentinel "ErrMultisigApprovalNotStarted".
Definition ErrMultisigNoContextRule : error := Sentinel "ErrMultisigNoContextRule".

Record sacTransferOperationParams := {
  sp_TokenContractID : string; sp_Recipient : string; sp_AmountI128 : string;
  sp_AssetID : string; sp_Symbol : string; sp_Amount : string }.

Record CreateProposalInput := {
  ci_SmartAccountAddress : string; ci_OperationKind : string; ci_TargetContractID : string;
  ci_AssetID : string; ci_ContractID : string; ci_Recipient : string; ci_Amount : string;
  ci_RequireMatchedContextRule : bool }.

Record ProposalSummary := {
  ps_ID : string; ps_AuthDigestHex : string; ps_ValidUntilLedger : Z; ps_ContextRuleID : Z;
  ps_SignaturePayloadHex : string }.

Record ProposalListItem (J : Type) := {
  pli_ID : string; pli_Status : string; pli_OperationKind : string; pli_OperationParams : option J;
  pli_AuthDigestHex : string; pli_ValidUntilLedger : Z; pli_CreatedAt : Z;
  pli_ExecutedTxHash : string; pli_ApprovalCount : Z }.

Record MultisigAccountRef := { ar_SmartAccountAddress : string; ar_Threshold : Z }.

Record ProposalFull (J : Type) := {
  pf_ID : string; pf_TargetContractID : string; pf_OperationKind : string;
  pf_OperationParams : option J; pf_TxXdr : string; pf_AuthEntriesXdr : list string;
  pf_SmartAccountAuthEntryIndex : Z; pf_ContextRuleID : Z; pf_AuthDigestHex : string;
  pf_SignaturePayloadHex : string; pf_ValidUntilLedger : Z; pf_Status : string;
  pf_ExecutedTxHash : string; pf_CreatedAt : Z }.

Record MultisigMemberSummary := {
  ms_ID : string; ms_MemberType : string; ms_Label : string; ms_KeyDataHex : string; ms_GAddress : string }.

Record MultisigApprovalSummary := {
  aps_ID : string; aps_ApprovalType : string; aps_MemberID : string;
  aps_WebauthnSigDataXdrHex : string; aps_DelegatedSignerAddress : string; aps_CreatedAt : Z }.

Record ProposalDetail (J : Type) := {
  pd_Account : MultisigAccountRef; pd_Proposal : ProposalFull J;
  pd_Members : list MultisigMemberSummary; pd_Approvals : list MultisigApprovalSummary }.

Record RefreshResult := { rr_Refreshed : bool; rr_ValidUntilLedger : Z; rr_AuthDigestHex : string }.

Record DelegatedBeginResult := {
  db_Template : DelegatedCheckAuthTemplate; db_SignerAddress : string; db_ValidUntilLedger : Z }.

Record proposalOperation := {
  op_HostFunction : HostFunction; op_TargetContractID : string; op_ParamsJSON : string }.

Record builtProposalArtifacts := {
  ba_TxXdrB64 : string; ba_AuthEntriesB64 : list string; ba_SmartAccountAuthEntryIndex : Z;
  ba_ContextRuleID : Z; ba_AuthDigestHex : string; ba_SignaturePayloadHex : string;
  ba_ValidUntilLedger : Z }.

Section Proposals.
Context `{StellarSDK} `{Network} `{Unicode} `{UuidLib} `{Env} `{!TransactionSubmitter} `{ServiceConfig}
  `{Json sacTransferOperationParams} `{Json (list string)} {J : Type} `{Json J}.
Abbreviation W := (World Store).

(** ** Ownership lookups *)
Definition accountAccessGranted (account : MultisigAccount) (userID : string) : M W bool :=
  if String.eqb (uuid_string (ma_UserID account)) userID then ret true else
  let! members := wrap "list multisig members" (query (ListMultisigMembersForAccount (ma_ID account))) in
  ret (existsb (fun m => match mm_UserID m with
                         | Some u => String.eqb (uuid_string u) userID
                         | None => false
                         end) members).

Definition getOwnedAccountByAddress (address userID : string) : M W MultisigAccount :=
  let! account := or_no_rows ErrMultisigAccountNotFound "get multisig account"
                    (query (GetMultisigAccountByAddress address)) in
  let! granted := accountAccessGranted account userID in
  if negb granted then throw ErrMultisigAccountNotFound else ret account.

Definition getOwnedAccountByID (accountID : uuid) (userID : string) : M W MultisigAccount :=
  let! account := or_no_rows ErrMultisigAccountNotFound "get multisig account"
                    (query (GetMultisigAccountByID accountID)) in
  let! granted := accountAccessGranted account userID in
  if negb granted then throw ErrMultisigAccountNotFound else ret account.

Definition getOwnedProposal (proposalID userID : string) : M W (MultisigProposal * MultisigAccount) :=
  match uuid_parse proposalID with
  | None => throw ErrMultisigProposalNotFound
  | Some pid =>
      let! proposal := or_no_rows ErrMultisigProposalNotFound "get multisig proposal"
                         (query (GetMultisigProposalByID pid)) in
      let! account := attempt (getOwnedAccountByID (mp_MultisigAccountID proposal) userID) in
      match account with
      | Err _ => throw ErrMultisigProposalNotFound
      | Ok account => ret (proposal, account)
      end
  end.

Definition getOwnedMember (account : MultisigAccount) (callerUserID memberID expectedType : string)
    : M W MultisigMember :=
  match uuid_parse memberID with
  | None => throw ErrMultisigApprovalMemberNotFound
  | Some mid =>
      let! member := or_no_rows ErrMultisigApprovalMemberNotFound "get multisig member"
                       (query (GetMultisigMemberByID mid)) in
      if negb (bool_decide (mm_MultisigAccountID member = ma_ID account))
      then throw ErrMultisigApprovalMemberNotFound else
      if negb (String.eqb (mm_MemberType member) expectedType)
      then throw ErrMultisigApprovalWrongMemberType else
      if negb (String.eqb (uuid_string (ma_UserID account)) callerUserID) then
        match mm_UserID member with
        | Some u => if negb (String.eqb (uuid_string u) callerUserID)
                    then throw ErrMultisigApprovalMemberNotFound else ret member
        | None => throw ErrMultisigApprovalMemberNotFound
        end
      else ret member
  end.

(** ** Operation building *)
Definition buildCounterIncrementOperation (smartAccountAddress targetContractID : string)
    : res proposalOperation :=
  if String.eqb targetContractID "" then Err (Wrapf "targetContractId" ErrMultisigMissingField) else
  let? contractID := res_wrap "resolve target contract" (contractIDFromAddress targetContractID) in
  let? addrVal := res_wrap "resolve smart account address" (scAddress smartAccountAddress) in
  Ok {| op_HostFunction := invokeContractHostFunction contractID "increment" [addrVal];
        op_TargetContractID := targetContractID; op_ParamsJSON := "{}" |}.

Definition buildSacTransferOperation (smartAccountAddress : string) (inp : CreateProposalInput)
    (catalog : list CatalogAsset) : M W proposalOperation :=
  if String.eqb (ci_Recipient inp) "" then throw (Wrapf "recipient" ErrMultisigMissingField) else
  let! asset := wrap "resolve asset" (lift (ResolveAsset catalog (ci_AssetID inp) (ci_ContractID inp))) in
  let! ' (hi, lo) := wrap "parse amount" (lift (parseAmountToI128 (ci_Amount inp) (ca_Decimals asset))) in
  let! ' (balHi, balLo) := wrap "fetch balance" (FetchSACBalance (ca_ContractID asset) smartAccountAddress) in
  if i128LessThan balHi balLo hi lo then
    throw (Wrapf ("have " +:+ formatI128Raw balHi balLo +:+ ", need " +:+ formatI128Raw hi lo)
             ErrMultisigInsufficientBalance) else
  let! fromVal := wrap "resolve smart account address" (lift (scAddress smartAccountAddress)) in
  let! toVal := wrap "resolve recipient address" (lift (scAddress (ci_Recipient inp))) in
  let! contractID := wrap "resolve asset contract" (lift (contractIDFromAddress (ca_ContractID asset))) in
  let! paramsJSON := wrap "marshal operation params" (lift (json_marshal
    {| sp_TokenContractID := ca_ContractID asset; sp_Recipient := ci_Recipient inp;
       sp_AmountI128 := formatI128Raw hi lo; sp_AssetID := ca_AssetID asset;
       sp_Symbol := ca_Symbol asset; sp_Amount := ci_Amount inp |})) in
  ret {| op_HostFunction := invokeContractHostFunction contractID "transfer" [fromVal; toVal; scI128 hi lo];
         op_TargetContractID := ca_ContractID asset; op_ParamsJSON := paramsJSON |}.

Definition reconstructOperation (smartAccountAddress operationKind targetContractID operationParamsJSON : string)
    : res proposalOperation :=
  if String.eqb operationKind "counter_increment" then
    buildCounterIncrementOperation smartAccountAddress targetContractID
  else if String.eqb operationKind "sac_transfer" then
    let? params := res_wrap "decode stored operation params" (json_unmarshal operationParamsJSON) in
    let? ' (hi, lo) := res_wrap "parse stored amount" (parseAmountToI128 (sp_AmountI128 params) 0) in
    let? fromVal := res_wrap "resolve smart account address" (scAddress smartAccountAddress) in
    let? toVal := res_wrap "resolve recipient address" (scAddress (sp_Recipient params)) in
    let? contractID := res_wrap "resolve token contract" (contractIDFromAddress (sp_TokenContractID params)) in
    Ok {| op_HostFunction := invokeContractHostFunction contractID "transfer" [fromVal; toVal; scI128 hi lo];
          op_TargetContractID := sp_TokenContractID params; op_ParamsJSON := operationParamsJSON |}
  else Err ErrMultisigOperationUnsupported.

(** ** Simulate and extract *)
Fixpoint smart_entry_index (i : Z) (entries : list AuthEntry) (smartAccountAddress : string) : Z :=
  match entries with
  | [] => -1
  | e :: rest =>
      if bool_decide (classifyAuthEntryRole e smartAccountAddress "" = RoleSmartAccountCustom) then i
      else smart_entry_index (i + 1) rest smartAccountAddress
  end.

Definition simulateAndExtract (smartAccountAddress : string) (op : proposalOperation)
    : M W (builtProposalArtifacts * ContextRuleDiscovery) :=
  let! ' (contextRuleID, discovery) := wrap "discover context rule"
    (DiscoverContextRule smartAccountAddress (op_TargetContractID op)) in
  let! seq := wrap "fetch bundler sequence" (call (rpc_account_sequence bundlerG)) in
  let buildTx auth sorobanData := call (fun n => tx_build n
    {| tp_SourceAccount := bundlerG; tp_Sequence := seq;
       tp_Operations := [{| op_Function := op_HostFunction op; op_SourceAccount := bundlerG;
                            op_Auth := auth; op_SorobanData := sorobanData |}];
       tp_BaseFee := deployFee; tp_Timeout := multisigBuildTimeoutSeconds; tp_IncrementSequenceNum := true |}) in
  let! simTxB64 := wrap "build simulate tx" (buildTx [] None) in
  let! sim := wrap "simulate operation" (call (rpc_simulate simTxB64)) in
  if negb (String.eqb (sim_Error sim) "") then throw (Errorf "operation simulation failed") else
  match sim_Results sim with
  | [] => throw (Errorf "simulation returned no results")
  | (_, auth) :: _ =>
      let! entries := wrap "normalize auth entries" (lift (normalizeAuthEntries auth)) in
      let '(entries, validUntilLedger) :=
        setAddressCredentialExpiration entries (sim_LatestLedger sim) multisigAuthLedgerTTL in
      let smartAccountAuthEntryIndex := smart_entry_index 0 entries smartAccountAddress in
      match (if smartAccountAuthEntryIndex <? 0 then None
             else entries !! Z.to_nat smartAccountAuthEntryIndex) with
      | None => throw (Errorf "no smart account auth entry found in simulation result")
      | Some smartAccountEntry =>
          let contextRuleIDs := contextRuleIDsForEntry smartAccountEntry contextRuleID in
          let! signaturePayload := wrap "compute signature payload"
            (lift (hashSorobanAuthPayload smartAccountEntry networkPassphrase)) in
          let! authDigest := wrap "compute auth digest"
            (lift (computeAuthDigest smartAccountEntry networkPassphrase contextRuleIDs)) in
          let! sorobanData := wrap "decode soroban transaction data"
            (lift (soroban_data_decode (sim_TransactionData sim))) in
          let! finalTxB64 := wrap "build final tx" (buildTx entries (Some sorobanData)) in
          let! entriesB64 := wrap "encode auth entry" (lift (res_map entry_marshal_b64 entries)) in
          ret ({| ba_TxXdrB64 := finalTxB64; ba_AuthEntriesB64 := entriesB64;
                  ba_SmartAccountAuthEntryIndex := smartAccountAuthEntryIndex;
                  ba_ContextRuleID := contextRuleID; ba_AuthDigestHex := hex_encode authDigest;
                  ba_SignaturePayloadHex := hex_encode signaturePayload;
                  ba_ValidUntilLedger := validUntilLedger |}, discovery)
      end
  end.

Definition decodeAuthEntriesJSON (raw : string) : res (list string) :=
  res_wrap "decode stored auth entries" (json_unmarshal raw).

(** ** Create, list, get *)
Definition buildOperation (inp : CreateProposalInput) (catalog : list CatalogAsset) : M W proposalOperation :=
  if String.eqb (ci_OperationKind inp) "counter_increment" then
    lift (buildCounterIncrementOperation (ci_SmartAccountAddress inp) (ci_TargetContractID inp))
  else if String.eqb (ci_OperationKind inp) "sac_transfer" then
    buildSacTransferOperation (ci_SmartAccountAddress inp) inp catalog
  else throw ErrMultisigOperationUnsupported.

Definition CreateProposal (userID : string) (inp : CreateProposalInput) (catalog : list CatalogAsset)
    : M W ProposalSummary :=
  let! account := getOwnedAccountByAddress (ci_SmartAccountAddress inp) userID in
  let! op := buildOperation inp catalog in
  let! ' (artifacts, discovery) := simulateAndExtract (ci_SmartAccountAddress inp) op in
  if ci_RequireMatchedContextRule inp && negb (bool_decide (discovery = ContextRuleDiscoveryMatched))
  then throw ErrMultisigNoContextRule else
  let! authEntriesJSON := wrap "marshal auth entries" (lift (json_marshal (ba_AuthEntriesB64 artifacts))) in
  let! uid := wrap "parse user id" (lift (parse_uuid userID)) in
  let! id := new_uuid in
  let! now := now_ms in
  let! proposalID := wrap "insert multisig proposal" (exec (InsertMultisigProposal
    {| mp_ID := id; mp_MultisigAccountID := ma_ID account; mp_CreatedByUserID := uid;
       mp_TargetContractID := op_TargetContractID op; mp_OperationKind := ci_OperationKind inp;
       mp_OperationParamsJson := op_ParamsJSON op; mp_TxXdr := ba_TxXdrB64 artifacts;
       mp_AuthEntriesXdrJson := authEntriesJSON;
       mp_SmartAccountAuthEntryIndex := int32 (ba_SmartAccountAuthEntryIndex artifacts);
       mp_ContextRuleID := int32 (ba_ContextRuleID artifacts);
       mp_AuthDigestHex := ba_AuthDigestHex artifacts;
       mp_SignaturePayloadHex := ba_SignaturePayloadHex artifacts;
       mp_ValidUntilLedger := int32 (ba_ValidUntilLedger artifacts); mp_Status := "pending";
       mp_ExecutedTxHash := None; mp_CreatedAt := now |})) in
  ret {| ps_ID := uuid_string proposalID; ps_AuthDigestHex := ba_AuthDigestHex artifacts;
         ps_ValidUntilLedger := ba_ValidUntilLedger artifacts;
         ps_ContextRuleID := ba_ContextRuleID artifacts;
         ps_SignaturePayloadHex := ba_SignaturePayloadHex artifacts |}.

(** [_ = json.Unmarshal(raw, &params)]: an invalid document leaves a nil map. *)
Definition operation_params (raw : string) : option J :=
  match json_unmarshal raw with Ok j => Some j | Err _ => None end.

Definition proposal_item (r : MultisigProposal * Z) : ProposalListItem J :=
  {| pli_ID := uuid_string (mp_ID r.1); pli_Status := mp_Status r.1;
     pli_OperationKind := mp_OperationKind r.1;
     pli_OperationParams := operation_params (mp_OperationParamsJson r.1);
     pli_AuthDigestHex := mp_AuthDigestHex r.1;
     pli_ValidUntilLedger := uint32 (mp_ValidUntilLedger r.1); pli_CreatedAt := mp_CreatedAt r.1;
     pli_ExecutedTxHash := strOrEmpty (mp_ExecutedTxHash r.1); pli_ApprovalCount := r.2 |}.

Definition ListProposals (userID smartAccountAddress : string) : M W (Z * list (ProposalListItem J)) :=
  let! account := getOwnedAccountByAddress smartAccountAddress userID in
  let! rows := wrap "list proposals"
    (query (ListMultisigProposalsWithApprovalCountForAccount (ma_ID account))) in
  ret (ma_Threshold account, proposal_item <$> rows).

Definition member_summary (m : MultisigMember) : MultisigMemberSummary :=
  {| ms_ID := uuid_string (mm_ID m); ms_MemberType := mm_MemberType m; ms_Label := strOrEmpty (mm_Label m);
     ms_KeyDataHex := strOrEmpty (mm_KeyDataHex m); ms_GAddress := strOrEmpty (mm_GAddress m) |}.

Definition approval_summary (r : MultisigApprovalRow * MultisigMember) : MultisigApprovalSummary :=
  {| aps_ID := uuid_string (mv_ID r.1); aps_ApprovalType := mv_ApprovalType r.1;
     aps_MemberID := uuid_string (mv_MemberID r.1);
     aps_WebauthnSigDataXdrHex := strOrEmpty (mv_WebauthnSigDataXdrHex r.1);
     aps_DelegatedSignerAddress := strOrEmpty (mv_DelegatedSignerAddress r.1);
     aps_CreatedAt := mv_CreatedAt r.1 |}.

Definition GetProposal (userID proposalID : string) : M W (ProposalDetail J) :=
  let! ' (proposal, account) := getOwnedProposal proposalID userID in
  let! authEntries := lift (decodeAuthEntriesJSON (mp_AuthEntriesXdrJson proposal)) in
  let! memberRows := wrap "list members" (query (ListMultisigMembersForAccount (ma_ID account))) in
  let! approvalRows := wrap "list approvals"
    (query (ListMultisigApprovalsWithMemberForProposal (mp_ID proposal))) in
  ret {| pd_Account := {| ar_SmartAccountAddress := ma_SmartAccountAddress account;
                          ar_Threshold := ma_Threshold account |};
         pd_Proposal :=
           {| pf_ID := uuid_string (mp_ID proposal); pf_TargetContractID := mp_TargetContractID proposal;
              pf_OperationKind := mp_OperationKind proposal;
              pf_OperationParams := operation_params (mp_OperationParamsJson proposal);
              pf_TxXdr := mp_TxXdr proposal; pf_AuthEntriesXdr := authEntries;
              pf_SmartAccountAuthEntryIndex := mp_SmartAccountAuthEntryIndex proposal;
              pf_ContextRuleID := uint32 (mp_ContextRuleID proposal);
              pf_AuthDigestHex := mp_AuthDigestHex proposal;
              pf_SignaturePayloadHex := mp_SignaturePayloadHex proposal;
              pf_ValidUntilLedger := uint32 (mp_ValidUntilLedger proposal);
              pf_Status := mp_Status proposal; pf_ExecutedTxHash := strOrEmpty (mp_ExecutedTxHash proposal);
              pf_CreatedAt := mp_CreatedAt proposal |};
         pd_Members := member_summary <$> memberRows; pd_Approvals := approval_summary <$> approvalRows |}.

(** ** Refresh *)
Definition isAuthExpired (validUntilLedger : Z) : M W bool :=
  let! latest := wrap "get latest ledger" (call rpc_latest_ledger) in
  if validUntilLedger <? multisigExpirySafetyLedgers then ret true
  else ret (uint32 (validUntilLedger - multisigExpirySafetyLedgers) <=? uint32 latest).

Definition rebuild_params (artifacts : builtProposalArtifacts) (authEntriesJSON : string) : RebuildParams :=
  {| rb_TxXdr := ba_TxXdrB64 artifacts; rb_AuthEntriesXdrJson := authEntriesJSON;
     rb_SmartAccountAuthEntryIndex := int32 (ba_SmartAccountAuthEntryIndex artifacts);
     rb_ContextRuleID := int32 (ba_ContextRuleID artifacts);
     rb_AuthDigestHex := ba_AuthDigestHex artifacts;
     rb_SignaturePayloadHex := ba_SignaturePayloadHex artifacts;
     rb_ValidUntilLedger := int32 (ba_ValidUntilLedger artifacts) |}.

Definition rebuildProposal (proposal : MultisigProposal) (account : MultisigAccount) : M W RefreshResult :=
  let! op := lift (reconstructOperation (ma_SmartAccountAddress account) (mp_OperationKind proposal)
                     (mp_TargetContractID proposal) (mp_OperationParamsJson proposal)) in
  let! ' (artifacts, _) := simulateAndExtract (ma_SmartAccountAddress account) op in
  let! authEntriesJSON := wrap "marshal auth entries" (lift (json_marshal (ba_AuthEntriesB64 artifacts))) in
  let! _ := wrap "clear stale approvals" (exec (DeleteMultisigApprovalsForProposal (mp_ID proposal))) in
  let! _ := wrap "persist rebuilt proposal"
    (exec (UpdateMultisigProposalRebuild (mp_ID proposal) (rebuild_params artifacts authEntriesJSON))) in
  ret {| rr_Refreshed := true; rr_ValidUntilLedger := ba_ValidUntilLedger artifacts;
         rr_AuthDigestHex := ba_AuthDigestHex artifacts |}.

Definition RefreshProposal (userID proposalID : string) : M W RefreshResult :=
  let! ' (proposal, account) := getOwnedProposal proposalID userID in
  if negb (String.eqb (mp_Status proposal) "pending") then throw ErrMultisigProposalNotPending
  else rebuildProposal proposal account.

Definition ensureFresh (proposal : MultisigProposal) (account : MultisigAccount) : M W MultisigProposal :=
  let! expired := isAuthExpired (uint32 (mp_ValidUntilLedger proposal)) in
  if negb expired then ret proposal else
  let! _ := rebuildProposal proposal account in
  throw ErrMultisigProposalRefreshed.

(** ** Approve *)
Definition ApproveWebauthn (userID proposalID memberID sigDataXdrHex : string) : M W string :=
  let! ' (proposal, account) := getOwnedProposal proposalID userID in
  if negb (String.eqb (mp_Status proposal) "pending") then throw ErrMultisigProposalNotPending else
  let! member := getOwnedMember account userID memberID "webauthn" in
  let! id := new_uuid in
  let! now := now_ms in
  let! approvalID := wrap "upsert webauthn approval" (exec (UpsertMultisigApprovalWebauthn
    id (mp_ID proposal) (mm_ID member) (nullStr (normalizeHex sigDataXdrHex)) now)) in
  ret (uuid_string approvalID).

Definition ApproveDelegatedBegin (userID proposalID memberID : string) : M W DelegatedBeginResult :=
  let! ' (proposal, account) := getOwnedProposal proposalID userID in
  if negb (String.eqb (mp_Status proposal) "pending") then throw ErrMultisigProposalNotPending else
  let! proposal := ensureFresh proposal account in
  let! member := getOwnedMember account userID memberID "delegated" in
  let gAddress := strOrEmpty (mm_GAddress member) in
  if String.eqb gAddress "" then throw ErrMultisigApprovalWrongMemberType else
  let! entriesB64 := lift (decodeAuthEntriesJSON (mp_AuthEntriesXdrJson proposal)) in
  let! entries := wrap "normalize auth entries" (lift (normalizeAuthEntries entriesB64)) in
  let idx := mp_SmartAccountAuthEntryIndex proposal in
  match (if (idx <? 0) || (Z.of_nat (length entries) <=? idx) then None else entries !! Z.to_nat idx) with
  | None => throw ErrMultisigSmartAccountEntryIndex
  | Some entry =>
      let contextRuleIDs := contextRuleIDsForEntry entry (uint32 (mp_ContextRuleID proposal)) in
      let! tmpl := wrap "build delegated check auth template"
        (buildDelegatedCheckAuthTemplate networkPassphrase (ma_SmartAccountAddress account) gAddress
           entry contextRuleIDs (uint32 (mp_ValidUntilLedger proposal))) in
      let! id := new_uuid in
      let! now := now_ms in
      let! _ := wrap "upsert delegated approval" (exec (UpsertMultisigApprovalDelegatedBegin
        id (mp_ID proposal) (mm_ID member) (nullStr (dt_EntryTemplateXdrBase64 tmpl)) (nullStr gAddress) now)) in
      ret {| db_Template := tmpl; db_SignerAddress := gAddress;
             db_ValidUntilLedger := uint32 (mp_ValidUntilLedger proposal) |}
  end.

Definition ApproveDelegatedFinish (userID proposalID memberID signedAuthEntryBase64 signerAddress : string)
    : M W string :=
  let! ' (proposal, account) := getOwnedProposal proposalID userID in
  if negb (String.eqb (mp_Status proposal) "pending") then throw ErrMultisigProposalNotPending else
  let! member := getOwnedMember account userID memberID "delegated" in
  let! existing := or_no_rows ErrMultisigApprovalNotStarted "get existing approval"
    (query (GetMultisigApprovalByProposalAndMember (mp_ID proposal) (mm_ID member))) in
  let templateXdr := strOrEmpty (mv_DelegatedEntryTemplateXdr existing) in
  if String.eqb templateXdr "" then throw ErrMultisigApprovalNotStarted else
  let! _ := lift (verifyDelegatedSignature templateXdr signedAuthEntryBase64 signerAddress networkPassphrase) in
  let! _ := wrap "update delegated approval" (exec (UpdateMultisigApprovalDelegatedFinish
    (mp_ID proposal) (mm_ID member) (nullStr signedAuthEntryBase64) (nullStr signerAddress))) in
  ret (uuid_string (mv_ID existing)).

(** ** Execute *)
Definition approval_of_row (row : MultisigApprovalRow * MultisigMember) : MultisigApproval :=
  {| a_MemberID := uuid_string (mv_MemberID row.1); a_MemberType := mm_MemberType row.2;
     a_MemberKeyDataHex := strOrEmpty (mm_KeyDataHex row.2);
     a_MemberGAddress := strOrEmpty (mm_GAddress row.2);
     a_WebauthnSigDataXdrHex := strOrEmpty (mv_WebauthnSigDataXdrHex row.1);
     a_DelegatedEntryTemplateXdr := strOrEmpty (mv_DelegatedEntryTemplateXdr row.1);
     a_DelegatedSignedAuthEntryBase64 := strOrEmpty (mv_DelegatedSignedAuthEntryBase64 row.1);
     a_DelegatedSignerAddress := strOrEmpty (mv_DelegatedSignerAddress row.1) |}.

Definition nonempty (s : string) : bool := negb (String.eqb s "").

Definition usable_webauthn (row : MultisigApprovalRow * MultisigMember) : bool :=
  let a := approval_of_row row in
  String.eqb (mv_ApprovalType row.1) "webauthn"
  && nonempty (a_WebauthnSigDataXdrHex a) && nonempty (a_MemberKeyDataHex a).
Definition usable_delegated (row : MultisigApprovalRow * MultisigMember) : bool :=
  let a := approval_of_row row in
  String.eqb (mv_ApprovalType row.1) "delegated"
  && nonempty (a_DelegatedEntryTemplateXdr a) && nonempty (a_DelegatedSignedAuthEntryBase64 a)
  && nonempty (a_DelegatedSignerAddress a) && nonempty (a_MemberGAddress a).

(** The loop with its [switch]: a row goes to the first list it qualifies for. *)
Fixpoint classify (rows : list (MultisigApprovalRow * MultisigMember))
    : list MultisigApproval * list MultisigApproval :=
  match rows with
  | [] => ([], [])
  | row :: rest =>
      let '(ws, ds) := classify rest in
      if usable_webauthn row then (approval_of_row row :: ws, ds)
      else if usable_delegated row then (ws, approval_of_row row :: ds)
      else (ws, ds)
  end.

(** Go's run-time panic on a negative slice bound, which ends the request. *)
Definition panic_slice_bounds : error := Errorf "panic: slice bounds out of range".

Definition ExecuteProposal (userID proposalID : string) : M W SubmitResult :=
  let! ' (proposal, account) := getOwnedProposal proposalID userID in
  if negb (String.eqb (mp_Status proposal) "pending") then throw ErrMultisigProposalNotPending else
  let! proposal := ensureFresh proposal account in
  let! approvalRows := wrap "list approvals"
    (query (ListMultisigApprovalsWithMemberForProposal (mp_ID proposal))) in
  let '(usableWebauthn, usableDelegated) := classify approvalRows in
  let threshold := ma_Threshold account in
  if Z.of_nat (length usableWebauthn + length usableDelegated) <? threshold
  then throw (Wrapf "have, need" ErrMultisigThresholdNotMet) else
  match pickApprovalsForThreshold threshold usableWebauthn usableDelegated with
  | None => throw panic_slice_bounds
  | Some (pickedWebauthn, pickedDelegated) =>
      let! entriesB64 := lift (decodeAuthEntriesJSON (mp_AuthEntriesXdrJson proposal)) in
      let! entries := wrap "normalize auth entries" (lift (normalizeAuthEntries entriesB64)) in
      let! finalEntries := lift (buildMultisigExecuteAuthEntries entries
        (mp_SmartAccountAuthEntryIndex proposal) (uint32 (mp_ContextRuleID proposal))
        networkPassphrase webauthnVerifierAddress pickedWebauthn pickedDelegated) in
      let! result := SubmitAuthEntries (mp_TxXdr proposal) finalEntries in
      let! _ := wrap "persist execution result"
        (exec (UpdateMultisigProposalExecuted (mp_ID proposal) (nullStr (sr_Hash result)))) in
      ret result
  end.

End Proposals.
End Proposals.
