(* ===== verification/DemoProposals.v ===== *)
(** * A concrete chain and store for the proposal service

    One smart account [CS] of user 1 with threshold 2: user 1's passkey and user
    2's Stellar key. XDR entries are netstrings; encoding refuses what decoding
    would not give back, so that both round trips hold. *)

From S2P Require Export Proposals.
From S2P Require Import Instances.

Module DemoProposals.
Import Signers ExecuteAuth Assets Balances ContextRules Proposals Demo DemoServices.

#[export] Instance ScAddress_eq_dec : EqDecision ScAddress.
Proof. solve_decision. Defined.

(** Structural equality, sound on what the codecs write. *)
Ltac split_eqb := repeat match goal with
  | H : (_ && _) = true |- _ => apply andb_prop in H as [? ?]
  | H : String.eqb _ _ = true |- _ => apply String.eqb_eq in H; subst
  | H : Z.eqb _ _ = true |- _ => apply Z.eqb_eq in H; subst
  | H : bool_decide _ = true |- _ => apply bool_decide_eq_true in H; subst
  end.

Section ListEqb.
Context {A : Type} (eqb : A -> A -> bool).
Fixpoint list_eqb (l l' : list A) : bool :=
  match l, l' with
  | [], [] => true
  | v :: l, v' :: l' => eqb v v' && list_eqb l l'
  | _, _ => false
  end.
End ListEqb.
Fixpoint val_eqb (v v' : ScVal) : bool :=
  match v, v' with
  | ScvVoid, ScvVoid => true
  | ScvU32 n, ScvU32 n' => n =? n'
  | ScvI128 hi lo, ScvI128 hi' lo' => (hi =? hi') && (lo =? lo')
  | ScvU128 hi lo, ScvU128 hi' lo' => (hi =? hi') && (lo =? lo')
  | ScvString s, ScvString s' => String.eqb s s'
  | ScvSymbol s, ScvSymbol s' => String.eqb s s'
  | ScvBytes b, ScvBytes b' => String.eqb b b'
  | ScvVec (Some l), ScvVec (Some l') => list_eqb val_eqb l l'
  | ScvMap (Some l), ScvMap (Some l') =>
      list_eqb (fun kv kv' => val_eqb (fst kv) (fst kv') && val_eqb (snd kv) (snd kv')) l l'
  | ScvAddress a, ScvAddress a' => bool_decide (a = a')
  | _, _ => false
  end.
Definition args_eqb : list ScVal -> list ScVal -> bool := list_eqb val_eqb.
Fixpoint inv_eqb (i i' : Invocation) : bool :=
  match i, i' with
  | MkInvocation (ContractFn c n l) subs, MkInvocation (ContractFn c' n' l') subs' =>
      bool_decide (c = c') && String.eqb n n' && args_eqb l l' && list_eqb inv_eqb subs subs'
  | _, _ => false
  end.
Definition entry_eqb (e e' : AuthEntry) : bool :=
  match ae_Credentials e, ae_Credentials e' with
  | SorobanAddress c, SorobanAddress c' =>
      bool_decide (ac_Address c = ac_Address c') && (ac_Nonce c =? ac_Nonce c')
      && (ac_SignatureExpirationLedger c =? ac_SignatureExpirationLedger c')
      && val_eqb (ac_Signature c) (ac_Signature c')
      && inv_eqb (ae_RootInvocation e) (ae_RootInvocation e')
  | _, _ => false
  end.

Lemma val_eqb_sound v v' : val_eqb v v' = true -> v = v'.
Proof.
  revert v v'. fix IH 1. intros v v'. destruct v as [| | | | | | |[l|]|[l|]| |], v' as [| | | | | | |[l'|]|[l'|]| |]; cbn; try done;
    try (intros; split_eqb; done).
  - intros Hl. do 2 f_equal. revert l' Hl. induction l as [|x l IHl]; intros [|x' l']; cbn; try done.
    intros ?. split_eqb. f_equal; [by apply IH|by apply IHl].
  - intros Hl. do 2 f_equal. revert l' Hl. induction l as [|[k x] l IHl]; intros [|[k' x'] l']; cbn; try done.
    intros ?. split_eqb. f_equal; [f_equal; by apply IH|by apply IHl].
Qed.
Lemma args_eqb_sound l l' : args_eqb l l' = true -> l = l'.
Proof.
  revert l'. induction l as [|v l IH]; intros [|v' l']; cbn; try done.
  intros ?. split_eqb. f_equal; [by apply val_eqb_sound|by apply IH].
Qed.
Lemma inv_eqb_sound i i' : inv_eqb i i' = true -> i = i'.
Proof.
  revert i i'. fix IH 1. intros [[c n l|] subs] [[c' n' l'|] subs']; cbn; try done. intros ?. split_eqb.
  f_equal; [f_equal; by apply args_eqb_sound|].
  match goal with H : list_eqb inv_eqb _ _ = true |- _ => revert subs' H end.
  induction subs as [|x subs IHs]; intros [|x' subs']; cbn; try done.
  intros ?. split_eqb. f_equal; [by apply IH|by apply IHs].
Qed.
Lemma entry_eqb_sound e e' : entry_eqb e e' = true -> e = e'.
Proof.
  destruct e as [[|[a n l sg]] i], e' as [[|[a' n' l' sg']] i']; unfold entry_eqb; cbn; try done.
  intros ?. split_eqb. f_equal; [|by apply inv_eqb_sound]. do 2 f_equal. by apply val_eqb_sound.
Qed.

Definition fn_eqb (f f' : HostFunction) : bool :=
  match f, f' with
  | InvokeContract c n l, InvokeContract c' n' l' =>
      bool_decide (c = c') && String.eqb n n' && args_eqb l l'
  | _, _ => false
  end.
Lemma fn_eqb_sound f f' : fn_eqb f f' = true -> f = f'.
Proof.
  destruct f, f'; cbn; try done. intros ?. split_eqb. f_equal. by apply args_eqb_sound.
Qed.

(** Building checks that decoding gives the operation back. *)
Definition safe_tx_build (n : nat) (tp : TxParams) : res string :=
  let? b := demo_tx_build n tp in
  match demo_envelope b, tp_Operations tp with
  | Ok (Some [InvokeHostFunctionOp f]), [op] =>
      if fn_eqb f (op_Function op) then Ok b else Err (Errorf "txnbuild: unsupported")
  | _, _ => Err (Errorf "txnbuild: unsupported")
  end.
Lemma safe_tx_build_ok n tp b : safe_tx_build n tp = Ok b ->
  demo_envelope b = Ok (Some ((fun op => InvokeHostFunctionOp (op_Function op)) <$> tp_Operations tp)).
Proof.
  unfold safe_tx_build. destruct (demo_tx_build n tp) as [b0|]; [|done]. cbn.
  destruct (demo_envelope b0) as [[[|[f|] [|]]|]|] eqn:E; try done.
  destruct (tp_Operations tp) as [|op [|]]; try done. destruct (fn_eqb f _) eqn:Ef; [|done].
  intros [= <-]. apply fn_eqb_sound in Ef as ->. exact E.
Qed.

(** Encoding checks that decoding gives the entry back. *)
Definition safe_encode (e : AuthEntry) : res string :=
  match decode_entry (encode_entry e) with
  | Ok e' => if entry_eqb e' e then Ok (encode_entry e) else Err (Errorf "xdr: unsupported")
  | Err err => Err err
  end.
Definition decode_b64 (s : string) : res AuthEntry :=
  let? raw := Base64.StdEncoding_DecodeString s in decode_entry raw.

#[export] Instance safe_sdk : StellarSDK := {|
  strkey_decode_account := decode_key "G";
  strkey_decode_contract := decode_key "C";
  strkey_encode_account k := Ok ("G" +:+ k);
  strkey_encode_contract k := Ok ("C" +:+ k);
  scval_marshal := scval_marshal (StellarSDK := demo_sdk);
  scval_marshal_b64 := scval_marshal_b64 (StellarSDK := demo_sdk);
  scval_unmarshal_b64 := scval_unmarshal_b64 (StellarSDK := demo_sdk);
  entry_marshal := safe_encode;
  entry_unmarshal := decode_entry;
  entry_marshal_b64 e := let? raw := safe_encode e in Ok (b64 raw);
  entry_unmarshal_b64 := decode_b64;
  auth_preimage_marshal := auth_preimage_marshal (StellarSDK := demo_sdk);
  network_ID p := p;
  hash_Hash s := s;
  ed25519_verify key msg sg := String.eqb sg (demo_sign key msg);
  scaddress_string := demo_address_string;
  hostfn_marshal fn := Ok (join (hostfn_tok fn));
  envelope_unmarshal_b64 := demo_envelope;
  tx_build := safe_tx_build;
  tx_sign passphrase tx := Ok ("signed:" +:+ tx);
  bundler_sign h := Ok (demo_sign "X" h);
  meta_unmarshal_b64 := demo_meta;
  instance_key_b64 c := Ok c;
  soroban_data_decode s := Ok s;
|}.

Lemma safe_encode_ok e s : safe_encode e = Ok s -> decode_entry s = Ok e.
Proof.
  unfold safe_encode. destruct (decode_entry (encode_entry e)) as [e'|] eqn:E; [|done].
  destruct (entry_eqb e' e) eqn:Ef; [|done]. intros [= <-]. apply entry_eqb_sound in Ef as ->. done.
Qed.

(** JSON documents as netstrings, checked in the same way. *)
#[export] Instance json_strings : Json (list string) := {|
  json_marshal l := if bool_decide (split_all (join l) = Some l) then Ok (join l) else Err (Errorf "json");
  json_unmarshal s := match split_all s with Some l => Ok l | None => Err (Errorf "json: syntax") end;
|}.
#[export] Instance json_params : Json sacTransferOperationParams := {|
  json_marshal p := json_marshal [sp_TokenContractID p; sp_Recipient p; sp_AmountI128 p;
                                  sp_AssetID p; sp_Symbol p; sp_Amount p];
  json_unmarshal s :=
    match split_all s with
    | Some [t; r; a; i; y; m] => Ok {| sp_TokenContractID := t; sp_Recipient := r; sp_AmountI128 := a;
                                       sp_AssetID := i; sp_Symbol := y; sp_Amount := m |}
    | _ => Err (Errorf "json: syntax")
    end;
|}.
#[export] Instance json_text : Json string := {| json_marshal s := Ok s; json_unmarshal s := Ok s |}.

#[export] Instance demo_config : ServiceConfig := {|
  bundlerG := "GX"; networkPassphrase := "net"; webauthnVerifierAddress := "CV" |}.

(** ** The chain: a counter [CT] and the account [CS] with one Default rule *)
Definition account_entry : AuthEntry :=
  {| ae_Credentials := SorobanAddress
       {| ac_Address := AddrContract "S"; ac_Nonce := 7; ac_SignatureExpirationLedger := 0; ac_Signature := ScvVoid |};
     ae_RootInvocation := MkInvocation (ContractFn (AddrContract "T") "increment" []) [] |}.
Definition counter_read (contract fn : string) (args : list ScVal) : option ScVal :=
  if String.eqb fn "get_context_rules_count" then Some (scU32 1)
  else if String.eqb fn "get_context_rule" then
    Some (scMap [scMapEntry "context_type" (scVec [scSymbol "Default"]); scMapEntry "signers" (scVec [])])
  else if String.eqb fn "balance" then Some (scI128 0 1000000000)
  else Some ScvVoid.
Definition counter_chain (ledger : Z) : Chain := {|
  ch_read := counter_read; ch_auth _ fn _ := if String.eqb fn "increment" then [account_entry] else [];
  ch_ledger := ledger |}.

(** ** The store: account 10 of user 1, members 20 (user 1) and 21 (user 2) *)
Definition demo_account : MultisigAccount :=
  {| ma_ID := 10%N; ma_UserID := 1%N; ma_SmartAccountAddress := "CS"; ma_Threshold := 2;
     ma_AccountSaltHex := "00"; ma_CreatedAt := 0 |}.
Definition passkey_member : MultisigMember :=
  {| mm_ID := 20%N; mm_MultisigAccountID := 10%N; mm_MemberType := "webauthn"; mm_Label := None;
     mm_KeyDataHex := Some "04aa"; mm_CredentialID := Some "cred"; mm_GAddress := None; mm_CreatedAt := 0;
     mm_UserID := Some 1%N |}.
Definition delegated_member : MultisigMember :=
  {| mm_ID := 21%N; mm_MultisigAccountID := 10%N; mm_MemberType := "delegated"; mm_Label := None;
     mm_KeyDataHex := None; mm_CredentialID := None; mm_GAddress := Some ("G" +:+ key32); mm_CreatedAt := 0;
     mm_UserID := Some 2%N |}.
Definition account_store : Store :=
  set_users {[1%N := 0; 2%N := 0; 3%N := 0]}
    (set_accounts {[10%N := demo_account]}
       (set_members {[20%N := passkey_member; 21%N := delegated_member]} empty_store)).
Definition world0 : World Store := MkWorld account_store 0.
Definition demo_e : Env := demo_env 1000 100%N no_fault.
Definition demo_n : Network := demo_network (counter_chain 100).

Definition increment_input : CreateProposalInput :=
  {| ci_SmartAccountAddress := "CS"; ci_OperationKind := "counter_increment"; ci_TargetContractID := "CT";
     ci_AssetID := ""; ci_ContractID := ""; ci_Recipient := ""; ci_Amount := "";
     ci_RequireMatchedContextRule := false |}.

(** A transfer of 1.5 units of a 7-decimal asset. *)
Definition demo_asset : CatalogAsset :=
  {| ca_AssetID := "XLM"; ca_Symbol := "XLM"; ca_Name := "Lumens"; ca_ContractID := "CL"; ca_Decimals := 7 |}.
Definition transfer_input : CreateProposalInput :=
  {| ci_SmartAccountAddress := "CS"; ci_OperationKind := "sac_transfer"; ci_TargetContractID := "";
     ci_AssetID := "XLM"; ci_ContractID := ""; ci_Recipient := "GR"; ci_Amount := "1.5";
     ci_RequireMatchedContextRule := false |}.
End DemoProposals.
