(* ===== verification/SubmitBatch.v ===== *)
(** * Batches and confirmation (transaction_batch.go)

    What [SubmitBatchAuthEntries] can send, its agreement with the
    single-operation path on a batch of one, and the bounded confirmation poll
    both paths end with. *)

From S2P Require Export Submit.
From S2P Require Import Instances DemoProposals.

Module SubmitBatch.
Import Amount Balances ContextRules Signers ExecuteAuth Submit.

Section SubmitBatch.
Context `{StellarSDK} `{Network} `{SubmitNetwork} `{Gasless} `{Env} `{ServiceConfig}.
Abbreviation W := (World Store).

(** The calls [fns] all target the contract [id]. *)
Definition one_contract (id : string) (fns : list HostFunction) : Prop :=
  Forall (fun fn => hostFunctionContractID fn = Ok id) fns.

(** What counts as sending the batch [tx] with the entries [es]. *)
Definition batch_submission (tx : string) (es : list AuthEntry) (c : ChainWrite) : Prop :=
  exists fns id, batch_functions tx = Ok fns /\ (1 <= length fns <= maxBatchOperations)%nat /\ one_contract id fns /\
    match fns with
    | [fn] => carries fn es c
    | _ => bundler_sends fns es c
    end.

Lemma batch_from_ok t ops fns : batch_from (Some t) ops = Ok fns -> length fns = length ops /\ one_contract t fns.
Proof using Type.
  revert fns. induction ops as [|[fn|] ops IH]; intros fns; cbn [batch_from]; [intros [= <-]; by split; [|constructor]| |done].
  intros Hr. run_inv. destruct (String.eqb_spec x t) as [->|]; [|done]. cbn in Hr. run_inv.
  match goal with H : batch_from _ _ = Ok _ |- _ => apply IH in H as [Hl Hc] end.
  split; [cbn; lia|]. by constructor.
Qed.

Lemma batch_functions_ok tx fns : batch_functions tx = Ok fns ->
  (1 <= length fns <= maxBatchOperations)%nat /\ exists id, one_contract id fns.
Proof using Type.
  unfold batch_functions. intros Hr. run_inv. destruct x as [ops|]; [|done].
  destruct (Nat.eqb_spec (length ops) 0); [done|]. destruct (Nat.ltb_spec maxBatchOperations (length ops)); [done|].
  cbn [orb] in Hr. destruct ops as [|[fn|] ops]; [done| |done]. cbn in Hr. run_inv.
  match goal with H : batch_from _ _ = Ok _ |- _ => apply batch_from_ok in H as [Hl Hc] end.
  cbn in *. split; [lia|]. eexists. constructor; [|exact Hc]. done.
Qed.

Lemma sends_SubmitBatch d tx es : sends d (SubmitBatchAuthEntries tx es) (batch_submission tx es).
Proof using All.
  unfold SubmitBatchAuthEntries. apply sends_read; [keeps|]. intros fns ? ? _ [Hfns _]%lift_ok.
  destruct (batch_functions_ok _ _ Hfns) as [Hlen [id Hone]].
  apply sends_read; [destruct fns as [|? []]; keeps|]. intros paid w1 w2 _ Hp.
  destruct paid as [wallet|].
  - destruct fns as [|fn []]; [run_inv; done| |run_inv; done].
    eapply sends_mono; [|apply sends_submitForward]. intros c Hc. exists [fn], id. split_and!; [done|lia|lia|done|].
    unfold userPaidWallet in Hp. repeat destruct (negb _); run_inv; try done. by eapply by_forward.
  - apply sends_read; [keeps|]. intros seq ? ? _ Hs. apply sends_simulate_and_send; [intros; keeps| |].
    + intros wallet fn' c E Henf Hc. exists fns, id. split_and!; [done|lia|lia|done|].
      destruct fns as [|fn []]; [done| |done]. destruct (sponsoredWallet fn) as [wl|] eqn:Ew; [|done].
      injection E as <- <-. cbn in Hs. apply ret_ok in Hs as [<- _]. by eapply by_sponsor.
    + intros c E Hc. exists fns, id. split_and!; [done|lia|lia|done|].
      destruct fns as [|fn [|]]; [done| |done]. apply by_bundler; [|done]. by destruct (sponsoredWallet fn).
Qed.

(** A batch sends at most one request: one to four calls of a single
    contract, all with the posted entries and accepted together in simulation, in
    one transaction of the bundler's when there are several. A transaction with
    another operation, more of them, or a second contract sends nothing. *)
Theorem batch_one_contract tx es (w w' : W) r :
  SubmitBatchAuthEntries tx es w = (r, w') ->
  (w_store w' = w_store w /\ is_ok r = false) \/
  exists c, batch_submission tx es c /\ w_store w' = set_chain (chain (w_store w) ++ [c]) (w_store w).
Proof. by apply sends_SubmitBatch. Qed.

(** ** A batch of one *)

(** Two programs that leave the same world and the same answer, up to [R] and
    the wording of an error. *)
Definition agree {A} (R : A -> A -> Prop) (m m' : M W A) : Prop :=
  forall w, snd (m w) = snd (m' w) /\
    match fst (m w), fst (m' w) with
    | Ok a, Ok a' => R a a'
    | Err _, Err _ => True
    | _, _ => False
    end.

Lemma agree_refl {A} (R : A -> A -> Prop) `{!Reflexive R} m : agree R m m.
Proof using Type. intros w. split; [done|]. by destruct (fst (m w)). Qed.
Lemma agree_bind {A B} (R : B -> B -> Prop) (m m' : M W A) k k' :
  agree eq m m' -> (forall a, agree R (k a) (k' a)) -> agree R (bind m k) (bind m' k').
Proof using Type.
  intros Hm Hk w. specialize (Hm w) as [Hw Hr]. unfold bind.
  destruct (m w) as [[a|e] w1], (m' w) as [[a'|e'] w1']; cbn in *; subst; try done. apply Hk.
Qed.
Lemma agree_lift {A A' B} (R : B -> B -> Prop) (a : A) (a' : A') (k : A -> M W B) k' :
  agree R (k a) (k' a') -> agree R (bind (lift (Ok a)) k) (bind (lift (Ok a')) k').
Proof using Type. exact (fun Hk => Hk). Qed.
Lemma agree_wrap {A} c c' (m : M W A) : agree eq (wrap c m) (wrap c' m).
Proof using Type. intros w. unfold wrap. by destruct (m w) as [[a|e] w1]. Qed.
Lemma agree_throw {A} (R : A -> A -> Prop) e e' : agree R (throw e) (throw e').
Proof using Type. by intros w. Qed.

Definition same_submission (a b : SubmitResult) : Prop := sr_Hash a = sr_Hash b /\ sr_Status a = sr_Status b.
#[local] Instance same_submission_refl : Reflexive same_submission.
Proof. by split. Qed.

Lemma agree_simulate_and_send s1 s2 f1 f2 seq sponsored fns es k k' :
  (forall h, agree same_submission (k h) (k' h)) ->
  agree same_submission (simulate_and_send s1 f1 seq sponsored fns es k)
                        (simulate_and_send s2 f2 seq sponsored fns es k').
Proof using Type.
  intros Hk. unfold simulate_and_send. apply agree_bind; [apply agree_wrap|]. intros stx.
  apply agree_bind; [apply agree_wrap|]. intros sim. destruct (negb _); [apply agree_throw|].
  destruct sponsored as [[wallet fn]|]; [apply agree_refl, _|].
  do 4 (apply agree_bind; [apply agree_wrap|]; intros ?). destruct (String.eqb _ _); [apply agree_throw|apply Hk].
Qed.

Lemma batch_functions_single tx fn : batch_functions tx = Ok [fn] -> single_invoke tx = Ok fn.
Proof using Type.
  unfold batch_functions, single_invoke. intros Hr. run_inv.
  match goal with H : envelope_unmarshal_b64 _ = _ |- _ => rewrite H; cbn end.
  destruct x as [ops|]; [|done]. destruct (_ || _); [done|].
  destruct ops as [|[f|] ops]; [done| |done]. cbn in Hr. run_inv. simplify_eq.
  match goal with H : batch_from _ _ = Ok [] |- _ => apply batch_from_ok in H as [Hl _] end.
  by destruct ops.
Qed.

(** A batch of one call is the single-operation path: the same requests, in
    the same order, the same world after, and the same hash and status — the
    batch adds the result's meta — or both fail. *)
Theorem batch_of_one tx es fn :
  batch_functions tx = Ok [fn] ->
  agree same_submission (SubmitBatchAuthEntries tx es) (submitWithBundler tx es).
Proof.
  intros Hf. unfold SubmitBatchAuthEntries, submitWithBundler.
  rewrite Hf, (batch_functions_single _ _ Hf). apply agree_lift. cbv beta iota.
  apply agree_bind; [apply agree_refl, _|]. intros [wallet|]; [apply agree_refl, _|].
  apply agree_bind; [apply agree_refl, _|]. intros seq. apply agree_simulate_and_send. intros h.
  intros w. unfold pollSubmitResult, bind. by destruct (pollSubmitResultWithMeta h w) as [[[]|] ?].
Qed.

(** ** The confirmation poll *)

(** The [n]-th read says neither success nor failure. *)
Definition undecided (txHash : string) (n : nat) : Prop :=
  exists t, rpc_get_transaction txHash n = Ok t /\
    gt_Status t <> RPCStatusSuccess /\ gt_Status t <> RPCStatusFailed.

(** What ends the poll: a confirmed transaction, or an error (a failed
    transaction, a failed read, the request's context). *)
Definition poll_ends (txHash : string) (n : nat) (r : res (string * string)) : Prop :=
  (exists t, rpc_get_transaction txHash (S n) = Ok t /\ gt_Status t = RPCStatusSuccess /\
     ctx_err n = None /\ r = Ok (RPCStatusSuccess, gt_ResultMetaXdr t)) \/
  (is_ok r = false /\ ~ (ctx_err n = None /\ undecided txHash (S n))).

Lemma poll_from_spec txHash attempts w r w' :
  poll_from attempts txHash w = (r, w') ->
  exists k, (k <= attempts)%nat /\ w_store w' = w_store w /\ (w_io w' <= w_io w + 2 * attempts)%nat /\
    (forall j, (j < k)%nat -> undecided txHash (w_io w + 2 * j + 1)) /\
    ((k = attempts /\ r = Ok (RPCStatusPending, "")) \/
     ((k < attempts)%nat /\ poll_ends txHash (w_io w + 2 * k) r)).
Proof using Type.
  revert w. induction attempts as [|n IH]; intros w; cbn [poll_from].
  { intros [= <- <-]. exists O. split_and!; try lia; [done|]. by left. }
  unfold bind at 1, poll_wait, call. destruct (ctx_err (w_io w)) as [e|] eqn:Ec.
  { intros [= <- <-]. exists O. cbn. split_and!; try lia; [done|]. right. split; [lia|]. right.
    rewrite Nat.add_0_r. split; [done|]. by intros [? _]; congruence. }
  unfold bind, wrap. cbn. destruct (rpc_get_transaction txHash (S (w_io w))) as [t|e] eqn:Et.
  2: { intros [= <- <-]. exists O. cbn. split_and!; try lia; [done|]. right. split; [lia|]. right.
       rewrite Nat.add_0_r. split; [done|]. intros [_ (t & ? & _)]; congruence. }
  destruct (String.eqb_spec (gt_Status t) RPCStatusSuccess) as [Eok|Nok].
  { intros [= <- <-]. exists O. cbn. split_and!; try lia; [done|]. right. split; [lia|]. left.
    rewrite Nat.add_0_r. by exists t. }
  destruct (String.eqb_spec (gt_Status t) RPCStatusFailed) as [Ef|Nf].
  { intros [= <- <-]. exists O. cbn. split_and!; try lia; [done|]. right. split; [lia|]. right.
    rewrite Nat.add_0_r. split; [done|]. intros [_ (? & ? & _ & ?)]; congruence. }
  intros (k & Hk & Hst & Hio & Hj & Hend)%IH. exists (S k). cbn [w_io w_store tick] in *.
  split_and!; [lia|done|lia| |].
  - intros [|j] Hlt; [rewrite Nat.add_0_r, Nat.add_1_r; by exists t|]. replace (_ + _ + 1)%nat with (S (S (w_io w)) + 2 * j + 1)%nat by lia. apply Hj. lia.
  - destruct Hend as [[-> ->]|[Hlt He]]; [by left|right]. split; [lia|].
    replace (w_io w + _)%nat with (S (S (w_io w)) + 2 * k)%nat by lia. exact He.
Qed.

(** The confirmation poll always ends: within twenty waits and twenty reads,
    without touching the store. It answers PENDING exactly when all twenty reads
    are undecided, and otherwise whatever the first wait or read that is not
    undecided says — SUCCESS with that read's meta, or an error. *)
Theorem poll_terminates txHash (w : W) :
  exists r w' k, pollSubmitResultWithMeta txHash w = (r, w') /\
    w_store w' = w_store w /\ (w_io w' <= w_io w + 40)%nat /\ (k <= 20)%nat /\
    (forall j, (j < k)%nat -> undecided txHash (w_io w + 2 * j + 1)) /\
    ((k = 20%nat /\ r = Ok (RPCStatusPending, "")) \/
     ((k < 20)%nat /\ poll_ends txHash (w_io w + 2 * k) r)).
Proof.
  destruct (pollSubmitResultWithMeta txHash w) as [r w'] eqn:E.
  destruct (poll_from_spec _ _ _ _ _ E) as (k & ? & ? & ? & ? & ?). by exists r, w', k.
Qed.
End SubmitBatch.

Section Witnesses.
Import Demo DemoProposals DemoSubmit.

(** A counter call of the account [CS], as the client posts it. *)
Definition increment_call : HostFunction := InvokeContract (AddrContract "T") "increment" [].
Definition increment_tx : string :=
  match tx_build 0 (bundler_params 1 [increment_call] [] None) with Ok b => b | Err _ => "" end.
Definition sent_by {A} (m : M (World Store) A) : option (A * nat) :=
  match m world0 with (Ok a, w') => Some (a, length (chain (w_store w'))) | (Err _, _) => None end.
Lemma sent_by_runs {A} (m : M (World Store) A) a n : sent_by m = Some (a, n) ->
  exists w', m world0 = (Ok a, w').
Proof. unfold sent_by. destruct (m world0) as [[b|] w']; [|done]. intros [= -> _]. eauto. Qed.

Definition confirmed : SubmitResult := {| sr_Hash := "h"; sr_Status := "SUCCESS"; sr_ResultMetaXdr := "" |}.

Definition batch_run : M (World Store) SubmitResult :=
  SubmitBatchAuthEntries (H0 := demo_n) (H3 := demo_e) increment_tx [].

Lemma batch_one_contract_witness :
  exists w', batch_run world0 = (Ok confirmed, w') /\
    exists c, batch_submission (H0 := demo_n) increment_tx [] c /\ chain (w_store w') = [c].
Proof.
  assert (sent_by batch_run = Some (confirmed, 1%nat)) as Hsent by (vm_compute; reflexivity).
  destruct (sent_by_runs _ _ _ Hsent) as (w' & Hr). exists w'. split; [exact Hr|].
  destruct (batch_one_contract (H0 := demo_n) (H3 := demo_e) increment_tx [] world0 w' _ Hr)
    as [[_ [=]]|(c & Hc & ->)]. by exists c.
Defined.

Lemma batch_of_one_witness :
  snd (batch_run world0) = snd (submitWithBundler (H0 := demo_n) (H3 := demo_e) increment_tx [] world0).
Proof.
  assert (batch_functions increment_tx = Ok [increment_call]) as Hf by (vm_compute; reflexivity).
  exact (proj1 (batch_of_one (H0 := demo_n) (H3 := demo_e) increment_tx [] increment_call Hf world0)).
Defined.
End Witnesses.
End SubmitBatch.
