(* ===== verification/SubmitSigned.v ===== *)
(** * Attaching one signer's signature (transaction_service.go: submit-webauthn
    and submit-delegated)

    The client returns the entries it was given with its signature; the service
    puts the signer's payload on the smart account's entry, signs what it
    synthesized for its own key, and submits. *)

From S2P Require Export Submit.
From S2P Require Import Instances DemoProposals SubmitBatch.

Module SubmitSigned.
Import Amount Balances ContextRules Signers ExecuteAuth Submit.

Record SubmitWebAuthnInput := {
  sw_TxXdr : string; sw_AuthEntryXdr : string; sw_SigDataXdr : string; sw_KeyDataHex : string;
  sw_ContextRuleID : option Z; sw_AuthEntriesXdr : list string;
  sw_SmartAccountAuthEntryIndex : Z; sw_DelegatedGAuthEntrySynthesized : bool }.
Record SubmitDelegatedInput := {
  sd_TxXdr : string; sd_SmartAccountAuthEntryXdr : string; sd_GAddressEntryTemplateXdr : string;
  sd_SignedAuthEntryBase64 : string; sd_SignerAddress : string; sd_ContextRuleID : option Z;
  sd_AuthEntriesXdr : list string; sd_SmartAccountAuthEntryIndex : Z;
  sd_DelegatedGAuthEntrySynthesized : bool }.

Section SubmitSigned.
Context `{StellarSDK} `{Network} `{SubmitNetwork} `{Gasless} `{Env} `{ServiceConfig}.
Abbreviation W := (World Store).

(** The AuthPayload of one signer. *)
Definition one_signer_payload (signerKey sig : ScVal) (contextRuleIDs : list Z) : ScVal :=
  scMap [scMapEntry "context_rule_ids" (scVec (scU32 <$> contextRuleIDs));
         scMapEntry "signers" (scMap [scMapEntryVal signerKey sig])].

Definition buildWebAuthnAuthPayload (verifierAddress keyData sigDataXdr : string) (contextRuleIDs : list Z) : res ScVal :=
  let? verifierVal := res_wrap "resolve verifier address" (scAddress verifierAddress) in
  Ok (one_signer_payload (scVec [scSymbol "External"; verifierVal; scBytes keyData]) (scBytes sigDataXdr) contextRuleIDs).

Definition buildDelegatedAuthPayload (gAddress : string) (contextRuleIDs : list Z) : res ScVal :=
  let? signerAddrVal := res_wrap "resolve delegated signer address" (scAddress gAddress) in
  Ok (one_signer_payload (scVec [scSymbol "Delegated"; signerAddrVal]) (scBytes "") contextRuleIDs).

Definition buildEd25519AuthPayload (verifierAddress publicKey rawSignature : string) (contextRuleIDs : list Z) : res ScVal :=
  let? verifierVal := res_wrap "resolve verifier address" (scAddress verifierAddress) in
  Ok (one_signer_payload (scVec [scSymbol "External"; verifierVal; scBytes publicKey]) (scBytes rawSignature) contextRuleIDs).

Definition entry_at (entries : list AuthEntry) (idx : Z) : res AuthEntry :=
  match (if (idx <? 0) || (Z.of_nat (length entries) <=? idx) then None else entries !! Z.to_nat idx) with
  | Some e => Ok e
  | None => Err (Errorf "smart account auth entry index out of range")
  end.

(** The credentials are copied, so only this entry changes. *)
Definition attach_payload (idx : Z) (payload : ScVal) (entries : list AuthEntry) : res (list AuthEntry) :=
  let? e := entry_at entries idx in
  match ae_Credentials e with
  | SourceAccountCredentials => Err ErrNotAddressCredentials
  | SorobanAddress c => Ok (<[Z.to_nat idx := with_signature payload e c]> entries)
  end.

(** The loop that signs the synthesized entries, but for the indices [skip]. *)
Fixpoint sign_unsigned (i : Z) (skip : list Z) (entries : list AuthEntry) : res (list AuthEntry) :=
  match entries with
  | [] => Ok []
  | e :: es =>
      let? e' := if bool_decide (i ∈ skip) || negb (isUnsignedAddressAuthEntry e) then Ok e
                 else res_wrap "sign bundler delegated entry"
                        (signBundlerDelegatedAuthEntry e bundlerG networkPassphrase) in
      let? es' := sign_unsigned (i + 1) skip es in
      Ok (e' :: es')
  end.

Definition webauthn_entries (inp : SubmitWebAuthnInput) : res (list AuthEntry) :=
  let entriesB64 := match sw_AuthEntriesXdr inp with [] => [sw_AuthEntryXdr inp] | l => l end in
  let? entries := res_wrap "normalize auth entries" (normalizeAuthEntries entriesB64) in
  let idx := sw_SmartAccountAuthEntryIndex inp in
  let? entry := entry_at entries idx in
  let? sigDataXdr := res_wrap "decode sigDataXdr" (hex_decode (sw_SigDataXdr inp)) in
  let? keyData := res_wrap "decode keyDataHex" (hex_decode (sw_KeyDataHex inp)) in
  let? contextRuleIDs := resolveContextRuleIDs entry (sw_ContextRuleID inp) in
  let? authPayload := res_wrap "build webauthn auth payload"
    (buildWebAuthnAuthPayload webauthnVerifierAddress keyData sigDataXdr contextRuleIDs) in
  let? entries := attach_payload idx authPayload entries in
  if sw_DelegatedGAuthEntrySynthesized inp then sign_unsigned 0 [idx] entries else Ok entries.

Definition SubmitWebAuthn (inp : SubmitWebAuthnInput) : M W SubmitResult :=
  let! entries := lift (webauthn_entries inp) in submitWithBundler (sw_TxXdr inp) entries.

Definition delegated_entries (inp : SubmitDelegatedInput) : res (list AuthEntry) :=
  let entriesB64 := match sd_AuthEntriesXdr inp with
                    | [] => [sd_SmartAccountAuthEntryXdr inp; sd_GAddressEntryTemplateXdr inp] | l => l end in
  let? entries := res_wrap "normalize auth entries" (normalizeAuthEntries entriesB64) in
  let idx := sd_SmartAccountAuthEntryIndex inp in
  let? _ := entry_at entries idx in
  let? templateEntry := res_wrap "decode delegated entry template" (decodeAuthEntryXdr (sd_GAddressEntryTemplateXdr inp)) in
  let? delegatedIdx := findMatchingAuthEntryIndex entries templateEntry idx in
  let? signedDelegated := res_wrap "apply delegated signature"
    (applyDelegatedSignature (sd_GAddressEntryTemplateXdr inp) (sd_SignedAuthEntryBase64 inp) (sd_SignerAddress inp)) in
  let entries := <[Z.to_nat delegatedIdx := signedDelegated]> entries in
  let? entry := entry_at entries idx in
  let? contextRuleIDs := resolveContextRuleIDs entry (sd_ContextRuleID inp) in
  let? authPayload := res_wrap "build delegated auth payload"
    (buildDelegatedAuthPayload (sd_SignerAddress inp) contextRuleIDs) in
  let? entries := attach_payload idx authPayload entries in
  if sd_DelegatedGAuthEntrySynthesized inp then sign_unsigned 0 [idx; delegatedIdx] entries else Ok entries.

Definition SubmitDelegated (inp : SubmitDelegatedInput) : M W SubmitResult :=
  let! entries := lift (delegated_entries inp) in submitWithBundler (sd_TxXdr inp) entries.

(** ** What the submitted entries are *)

(** [e'] is [e], an unsigned entry for the bundler's own address, with the
    bundler's signature of its payload. *)
Definition bundler_signed (e e' : AuthEntry) : Prop :=
  exists c payload signature pub, ae_Credentials e = SorobanAddress c /\ isUnsignedAddressAuthEntry e = true /\
    scValToAddressString (ScvAddress (ac_Address c)) = Ok bundlerG /\
    hashSorobanAuthPayload e networkPassphrase = Ok payload /\ bundler_sign payload = Ok signature /\
    strkey_decode_account bundlerG = Ok pub /\
    e' = with_signature (scVec [scMap [scMapEntry "public_key" (scBytes pub);
                                       scMapEntry "signature" (scBytes signature)]]) e c.

Lemma sign_bundler_ok e e' :
  isUnsignedAddressAuthEntry e = true ->
  signBundlerDelegatedAuthEntry e bundlerG networkPassphrase = Ok e' -> bundler_signed e e'.
Proof using Type.
  unfold signBundlerDelegatedAuthEntry. intros Hu. destruct (ae_Credentials e) as [|c] eqn:Ec; [done|]. intros Hr.
  apply res_bind_ok in Hr as (addr & Ha & Hr). apply res_wrap_ok in Ha.
  destruct (String.eqb_spec addr bundlerG) as [->|]; [|done]. cbn [negb] in Hr. run_inv.
  eexists c, _, _, _. split_and!; eauto.
Qed.

Lemma sign_unsigned_ok i skip entries out :
  sign_unsigned i skip entries = Ok out ->
  Forall2 (fun e e' => e' = e \/ bundler_signed e e') entries out /\
  forall k e, Z.of_nat k + i ∈ skip -> entries !! k = Some e -> out !! k = Some e.
Proof using Type.
  revert i out. induction entries as [|e es IH]; intros i out; cbn [sign_unsigned].
  { intros [= <-]. split; [constructor|]. intros [|k] e Hk; cbn; congruence. }
  intros Hr. apply res_bind_ok in Hr as (e' & He & Hr). apply res_bind_ok in Hr as (es' & Hes & [= <-]).
  apply IH in Hes as [Hf Hs]. split.
  - constructor; [|done]. destruct (_ || _) eqn:Ec; [left; congruence|right].
    apply orb_false_iff in Ec as [_ Hu%negb_false_iff]. apply res_wrap_ok in He. by apply sign_bundler_ok.
  - intros [|k] x Hk; cbn.
    + intros [= <-]. rewrite bool_decide_true in He by exact Hk. cbn in He. congruence.
    + intros Ex. apply (Hs k); [|done]. replace (Z.of_nat k + (i + 1)) with (Z.of_nat (S k) + i) by lia. done.
Qed.

Lemma entry_at_ok entries idx e : entry_at entries idx = Ok e -> 0 <= idx /\ entries !! Z.to_nat idx = Some e.
Proof using Type.
  unfold entry_at. destruct (Z.ltb_spec idx 0); [done|]. cbn [orb]. destruct (_ <=? idx); [done|].
  destruct (entries !! _) eqn:E; [|done]. intros [= ->]. done.
Qed.

(** The entries submitted for [entries], once [payload] is on the one at [idx]:
    that one carries it, every other is as it was or signed by the bundler for
    its own address, and none of the second kind unless [synthesized]. *)
Definition attached (synthesized : bool) (idx : Z) (payload : ScVal) (entries out : list AuthEntry) : Prop :=
  exists e c, entries !! Z.to_nat idx = Some e /\ ae_Credentials e = SorobanAddress c /\
    out !! Z.to_nat idx = Some (with_signature payload e c) /\ length out = length entries /\
    forall k x', k <> Z.to_nat idx -> out !! k = Some x' ->
      exists x, entries !! k = Some x /\ (x' = x \/ synthesized = true /\ bundler_signed x x').

Lemma attach_ok (synthesized : bool) idx skip payload entries mid out :
  attach_payload idx payload entries = Ok mid -> idx ∈ skip ->
  (if synthesized then sign_unsigned 0 skip mid else Ok mid) = Ok out ->
  attached synthesized idx payload entries out /\
  forall k e, Z.of_nat k ∈ skip -> k <> Z.to_nat idx -> entries !! k = Some e -> out !! k = Some e.
Proof using Type.
  unfold attach_payload. intros Ha Hin Hr. apply res_bind_ok in Ha as (e & He & Ha).
  apply entry_at_ok in He as [Hidx He]. destruct (ae_Credentials e) as [|c] eqn:Ec; [done|]. injection Ha as <-.
  assert (<[Z.to_nat idx := with_signature payload e c]> entries !! Z.to_nat idx = Some (with_signature payload e c)) as Hmid
    by (apply list_lookup_insert_eq; by eapply lookup_lt_Some).
  destruct synthesized.
  - apply sign_unsigned_ok in Hr as [Hf Hs]. split.
    + exists e, c. split_and!; [done|done| | |].
      * apply Hs; [|done]. by rewrite Z.add_0_r, Z2Nat.id.
      * rewrite <- (Forall2_length _ _ _ Hf). apply length_insert.
      * intros k x' Hk Hx'. destruct (Forall2_lookup_r _ _ _ _ _ Hf Hx') as (x & Hx & Hor).
        rewrite list_lookup_insert_ne in Hx by done. exists x. split; [done|]. destruct Hor; [by left|by right].
    + intros k x Hk Hne Hx. apply Hs; [by rewrite Z.add_0_r|]. by rewrite list_lookup_insert_ne.
  - injection Hr as <-. split.
    + exists e, c. split_and!; [done..|apply length_insert|]. intros k x' Hk Hx'.
      rewrite list_lookup_insert_ne in Hx' by done. exists x'. split; [done|by left].
    + intros k x Hk Hne Hx. by rewrite list_lookup_insert_ne.
Qed.

Lemma find_matching_ok i entries target skipIdx j :
  find_matching_from i entries target skipIdx = Ok j ->
  i <= j /\ j <> skipIdx /\ exists e, entries !! Z.to_nat (j - i) = Some e /\ matches_entry target e = true.
Proof using Type.
  revert i. induction entries as [|e es IH]; intros i; cbn [find_matching_from]; [done|].
  destruct (Z.eqb_spec i skipIdx); cbn [negb andb]; [|destruct (matches_entry target e) eqn:Em].
  2: { intros [= <-]. split; [lia|]. split; [done|]. exists e. by rewrite Z.sub_diag. }
  all: intros (Hij & Hne & x & Hx & Hm)%IH; split; [lia|]; split; [done|]; exists x; split; [|done];
    replace (Z.to_nat (j - i)) with (S (Z.to_nat (j - (i + 1)))) by lia; done.
Qed.
End SubmitSigned.

Section Theorems.
Context `{StellarSDK} `{Network} `{SubmitNetwork} `{Gasless} `{Env} `{ServiceConfig}.
Abbreviation W := (World Store).

(** What a signer's submission leaves: nothing, or one request with the entries
    [es] that satisfy [P], whatever the answer. *)
Definition submits_once {A} (tx : string) (w : W) (r : res A) (w' : W) (P : list AuthEntry -> Prop) : Prop :=
  (w_store w' = w_store w /\ is_ok r = false) \/
  exists es c, P es /\ bundler_submission tx es c /\ w_store w' = set_chain (chain (w_store w) ++ [c]) (w_store w).

Lemma submit_lifted (f : res (list AuthEntry)) tx (w w' : W) r (P : list AuthEntry -> Prop) :
  (forall es, f = Ok es -> P es) ->
  (let! es := lift f in submitWithBundler tx es) w = (r, w') -> submits_once tx w r w' P.
Proof using Type.
  intros HP Hr. unfold bind, lift in Hr. destruct f as [es|e]; [|injection Hr as <- <-; by left].
  destruct (sends_submitWithBundler _ tx es w r w' eq_refl Hr) as [?|(c & Hc & E)]; [by left|right].
  exists es, c. auto.
Qed.

(** The entries of a passkey submission: the given ones, the passkey's payload on
    the smart account's. *)
Definition passkey_attached (inp : SubmitWebAuthnInput) (es : list AuthEntry) : Prop :=
    exists given entry keyData sig ids verifier,
      normalizeAuthEntries (match sw_AuthEntriesXdr inp with [] => [sw_AuthEntryXdr inp] | l => l end) = Ok given /\
      given !! Z.to_nat (sw_SmartAccountAuthEntryIndex inp) = Some entry /\
      hex_decode (sw_KeyDataHex inp) = Ok keyData /\ hex_decode (sw_SigDataXdr inp) = Ok sig /\
      resolveContextRuleIDs entry (sw_ContextRuleID inp) = Ok ids /\ scAddress webauthnVerifierAddress = Ok verifier /\
      attached (sw_DelegatedGAuthEntrySynthesized inp) (sw_SmartAccountAuthEntryIndex inp)
        (one_signer_payload (scVec [scSymbol "External"; verifier; scBytes keyData]) (scBytes sig) ids) given es.
Lemma webauthn_entries_ok inp es : webauthn_entries inp = Ok es -> passkey_attached inp es.
Proof using Type.
  intros Hes. unfold webauthn_entries in Hes. run_inv.
  match goal with H : entry_at _ _ = Ok _ |- _ => apply entry_at_ok in H as [_ He] end.
  match goal with H : buildWebAuthnAuthPayload _ _ _ _ = Ok _ |- _ => unfold buildWebAuthnAuthPayload in H; run_inv end.
  match goal with H : attach_payload _ _ _ = Ok _ |- _ => apply (attach_ok _ _ [sw_SmartAccountAuthEntryIndex inp] _ _ _ _ H) in Hes; [|set_solver] end.
  eexists _, _, _, _, _, _. split_and!; eauto. exact (proj1 Hes).
Qed.

(** [SubmitWebAuthn] sends at most one request, and only the entries it was
    given: the smart account's one carries a passkey payload — the WebAuthn
    verifier, the posted key and assertion, and the context-rule ids requested or
    embedded in that entry — and every other entry is unchanged, or, when the
    service synthesized it, signed by the bundler for the bundler's own address. *)
Theorem webauthn_submission inp (w w' : W) r :
  SubmitWebAuthn inp w = (r, w') ->
  submits_once (sw_TxXdr inp) w r w' (fun es =>
    exists given entry keyData sig ids verifier,
      normalizeAuthEntries (match sw_AuthEntriesXdr inp with [] => [sw_AuthEntryXdr inp] | l => l end) = Ok given /\
      given !! Z.to_nat (sw_SmartAccountAuthEntryIndex inp) = Some entry /\
      hex_decode (sw_KeyDataHex inp) = Ok keyData /\ hex_decode (sw_SigDataXdr inp) = Ok sig /\
      resolveContextRuleIDs entry (sw_ContextRuleID inp) = Ok ids /\ scAddress webauthnVerifierAddress = Ok verifier /\
      attached (sw_DelegatedGAuthEntrySynthesized inp) (sw_SmartAccountAuthEntryIndex inp)
        (one_signer_payload (scVec [scSymbol "External"; verifier; scBytes keyData]) (scBytes sig) ids) given es).
Proof. apply submit_lifted, webauthn_entries_ok. Qed.

(** [SubmitDelegated] sends at most one request. The entry it replaces is one
    of those given, other than the smart account's, for the signer and nonce of the
    posted template, and is replaced by that template with the posted signature;
    the smart account's entry carries the delegated signer's payload with the
    context-rule ids requested or embedded; nothing else changes but entries the
    service synthesized for its own address and signed itself. *)
Theorem delegated_submission inp (w w' : W) r :
  SubmitDelegated inp w = (r, w') ->
  submits_once (sd_TxXdr inp) w r w' (fun es =>
    exists given template j replaced signed entry ids signer,
      normalizeAuthEntries (match sd_AuthEntriesXdr inp with
        [] => [sd_SmartAccountAuthEntryXdr inp; sd_GAddressEntryTemplateXdr inp] | l => l end) = Ok given /\
      decodeAuthEntryXdr (sd_GAddressEntryTemplateXdr inp) = Ok template /\
      j <> sd_SmartAccountAuthEntryIndex inp /\
      given !! Z.to_nat j = Some replaced /\ matches_entry template replaced = true /\
      applyDelegatedSignature (sd_GAddressEntryTemplateXdr inp) (sd_SignedAuthEntryBase64 inp) (sd_SignerAddress inp) = Ok signed /\
      given !! Z.to_nat (sd_SmartAccountAuthEntryIndex inp) = Some entry /\
      resolveContextRuleIDs entry (sd_ContextRuleID inp) = Ok ids /\ scAddress (sd_SignerAddress inp) = Ok signer /\
      attached (sd_DelegatedGAuthEntrySynthesized inp) (sd_SmartAccountAuthEntryIndex inp)
        (one_signer_payload (scVec [scSymbol "Delegated"; signer]) (scBytes "") ids)
        (<[Z.to_nat j := signed]> given) es /\
      es !! Z.to_nat j = Some signed).
Proof.
  apply submit_lifted. intros es Hes. unfold delegated_entries in Hes. run_inv.
  repeat match goal with H : entry_at _ _ = Ok _ |- _ => apply entry_at_ok in H as [? ?] end.
  match goal with H : findMatchingAuthEntryIndex _ _ _ = Ok _ |- _ =>
    apply find_matching_ok in H as (Hj & Hne & replaced & Hx & Hm); rewrite Z.sub_0_r in Hx end.
  match goal with H : buildDelegatedAuthPayload _ _ = Ok _ |- _ => unfold buildDelegatedAuthPayload in H; run_inv end.
  match goal with H : attach_payload _ _ (<[Z.to_nat ?j := _]> _) = Ok _ |- _ =>
    apply (attach_ok _ _ [sd_SmartAccountAuthEntryIndex inp; j] _ _ _ _ H) in Hes; [|set_solver];
    destruct Hes as [Hat Hkeep]; rename j into jj end.
  assert (Z.to_nat jj <> Z.to_nat (sd_SmartAccountAuthEntryIndex inp)) as Hnj by lia.
  match goal with H : (<[_ := _]> _) !! _ = Some _ |- _ => rewrite list_lookup_insert_ne in H by done end.
  eexists _, _, jj, replaced, _, _, _, _. split_and!; eauto.
  apply Hkeep; [|done|].
  - rewrite Z2Nat.id by done. set_solver.
  - apply list_lookup_insert_eq. by eapply lookup_lt_Some.
Qed.
End Theorems.

Section Witnesses.
Import Demo DemoProposals DemoSubmit SubmitBatch.

Definition unsigned_by (key : string) : AuthEntry :=
  {| ae_Credentials := SorobanAddress
       {| ac_Address := AddrAccount key; ac_Nonce := 9; ac_SignatureExpirationLedger := 50; ac_Signature := ScvVoid |};
     ae_RootInvocation := MkInvocation (ContractFn (AddrContract "T") "increment" []) [] |}.
Definition entry_b64 (e : AuthEntry) : string :=
  match entry_marshal_b64 e with Ok b => b | Err _ => "" end.
Definition webauthn_input : SubmitWebAuthnInput :=
  {| sw_TxXdr := increment_tx; sw_AuthEntryXdr := ""; sw_SigDataXdr := "aabb"; sw_KeyDataHex := "04aa";
     sw_ContextRuleID := Some 1; sw_AuthEntriesXdr := [entry_b64 account_entry; entry_b64 (unsigned_by "X")];
     sw_SmartAccountAuthEntryIndex := 0; sw_DelegatedGAuthEntrySynthesized := true |}.
Definition delegated_input : SubmitDelegatedInput :=
  {| sd_TxXdr := increment_tx; sd_SmartAccountAuthEntryXdr := entry_b64 account_entry;
     sd_GAddressEntryTemplateXdr := entry_b64 (unsigned_by key32);
     sd_SignedAuthEntryBase64 := b64 (str_repeat "s" 64); sd_SignerAddress := "G" +:+ key32;
     sd_ContextRuleID := Some 1; sd_AuthEntriesXdr := []; sd_SmartAccountAuthEntryIndex := 0;
     sd_DelegatedGAuthEntrySynthesized := false |}.

Definition webauthn_run : M (World Store) SubmitResult := SubmitWebAuthn (H0 := demo_n) (H3 := demo_e) webauthn_input.
Definition delegated_run : M (World Store) SubmitResult := SubmitDelegated (H0 := demo_n) (H3 := demo_e) delegated_input.
Lemma webauthn_submission_witness :
  exists w', webauthn_run world0 = (Ok confirmed, w') /\
    exists es c, length es = 2%nat /\ bundler_submission (H0 := demo_n) increment_tx es c /\
      chain (w_store w') = [c].
Proof.
  assert (sent_by webauthn_run = Some (confirmed, 1%nat)) as Hsent by (vm_compute; reflexivity).
  destruct (sent_by_runs _ _ _ Hsent) as (w' & Hr). exists w'. split; [exact Hr|].
  destruct (webauthn_submission (H0 := demo_n) (H3 := demo_e) webauthn_input world0 w' _ Hr)
    as [[_ [=]]|(es & c & (given & e & kd & sg & ids & v & Hg & _ & _ & _ & _ & _ & Hat) & Hc & ->)].
  exists es, c. split; [|split; [exact Hc|reflexivity]].
  destruct Hat as (? & ? & _ & _ & _ & Hlen & _). rewrite Hlen. vm_compute in Hg. by injection Hg as <-.
Defined.

Lemma delegated_submission_witness :
  exists w', delegated_run world0 = (Ok confirmed, w') /\
    exists es c, length es = 2%nat /\ bundler_submission (H0 := demo_n) increment_tx es c /\
      chain (w_store w') = [c].
Proof.
  assert (sent_by delegated_run = Some (confirmed, 1%nat)) as Hsent by (vm_compute; reflexivity).
  destruct (sent_by_runs _ _ _ Hsent) as (w' & Hr). exists w'. split; [exact Hr|].
  destruct (delegated_submission (H0 := demo_n) (H3 := demo_e) delegated_input world0 w' _ Hr)
    as [[_ [=]]|(es & c & (given & t & j & x & s & e & ids & v & Hg & _ & _ & _ & _ & _ & _ & _ & _ & Hat & _) & Hc & ->)].
  exists es, c. split; [|split; [exact Hc|reflexivity]].
  destruct Hat as (? & ? & _ & _ & _ & Hlen & _). rewrite Hlen, length_insert. vm_compute in Hg. by injection Hg as <-.
Defined.
End Witnesses.
End SubmitSigned.
