(* ===== verification/Build.v ===== *)
(** * Building transactions to sign (transaction_service.go,
    build_auth_transaction.go, gasless_forward.go, build_swap_transaction.go and
    build_counter_transaction.go of internal/service/webapp)

    A call of the user's is simulated, its authorization entries are classified,
    the smart account's digest is computed, and everything the client needs to
    sign is returned. Sends and swaps are wrapped in the fee forwarder's
    [forward()], so that the wallet pays for them. *)

From S2P Require Export SubmitSigned.
From S2P Require Import Instances.

Record GaslessQuote := { gq_FeeToken : string; gq_Symbol : string; gq_MaxFeeAmount : Z }.
(** The rest of [gaslessClient]; a fee is an int64. *)
Class GaslessQuotes := { gasless_quote : string -> Z -> nat -> res GaslessQuote }.
(** The rest of [TransactionService]'s fields, and the bundler's legacy signer. *)
Class BuilderConfig := {
  ed25519VerifierAddress : string; counterContractAddress : string; legacySignerG : option string }.
(** [MarshalBase64] of a decoded single-operation envelope with the operation's
    [Auth] and the transaction's Soroban data replaced. *)
Class EnvelopeCodec := { envelope_set_auth : string -> list AuthEntry -> string -> res string }.
(** The document the build routes return about the simulation. *)
Record SimulationSummary := { ss_transactionData : string; ss_minResourceFee : string; ss_latestLedger : Z }.

Module Build.
Import Assets Amount Balances ContextRules Signers ExecuteAuth Submit SubmitSigned.

Definition forwardResourceFactor : Z := 2.
Definition forwardExpiryLedgers : Z := 120.
Definition ErrSwapSignerMismatch : error := Sentinel "ErrSwapSignerMismatch".
Definition ErrSwapValidation : error := Sentinel "ErrSwapValidation".
Definition ErrInvalidSwapChainXdr : error := Sentinel "ErrInvalidSwapChainXdr".
Definition ErrPrepareSignNoContextRule : error := Sentinel "ErrPrepareSignNoContextRule".
Definition ErrPrepareSignSignerMismatch : error := Sentinel "ErrPrepareSignSignerMismatch".
Definition ErrPrepareSignValidation : error := Sentinel "ErrPrepareSignValidation".
Definition aquariusRouterTestnet : string := "CBCFTQSPDBAIZ6R6PJQKSQWKNKWH2QIV3I4J72SHWBIK3ADRRAM5A6GD".

Record NetworkFee := { nf_Token : string; nf_Symbol : string; nf_MaxAmountRaw : string; nf_MaxAmount : string }.
Record forwardWrap := {
  fw_hostFunction : HostFunction; fw_fee : NetworkFee; fw_executor : string; fw_feeForwarder : string }.
(** [xdr.InvokeContractArgs] *)
Record InvokeContractArgs := { ica_ContractAddress : ScAddress; ica_FunctionName : string; ica_Args : list ScVal }.

Record BuildAuthTransactionResult := {
  bt_TxXdr : string; bt_AuthEntryXdr : string; bt_AuthEntriesXdr : list string;
  bt_SmartAccountAuthEntryIndex : nat; bt_DelegatedNativeAuthEntryIndices : list nat;
  bt_DelegatedNativeSignBlobPayloadsBase64 : list string; bt_DelegatedGAuthEntrySynthesized : bool;
  bt_ContextRuleID : Z; bt_ContextRuleIDs : list Z; bt_ContextRuleDiscovery : option ContextRuleDiscovery;
  bt_AuthDigestHex : string; bt_SignaturePayloadHex : string; bt_ValidUntilLedger : Z;
  bt_SimulationResultXdr : string; bt_SubmitMethod : string;
  bt_SmartAccountAuthEntryXdr : string; bt_GAddressPreimageXdr : string; bt_GAddressEntryTemplateXdr : string;
  bt_DelegatedAuthG : string }.

(** [strconv.ParseInt(s, 10, 64)] *)
Definition ParseInt64 (s : string) : res Z :=
  match big_set_string s with
  | Some v => if (- two63 <=? v) && (v <? two63) then Ok v else Err (Errorf "strconv.ParseInt: value out of range")
  | None => Err (Errorf "strconv.ParseInt: invalid syntax")
  end.

(** ** gasless_forward.go: planning *)

(** [Rat.FloatString(7)] of units / 10^7, trailing zeros and point dropped. *)
Definition formatSevenDecimals (units : Z) : string :=
  let n := Z.abs units in
  let frac := big_string (n mod 10 ^ 7) in
  let s := (if units <? 0 then "-" else "") +:+ big_string (n / 10 ^ 7) +:+ "." +:+
             str_repeat "0" (7 - String.length frac) +:+ frac in
  trim_right_char "." (trim_right_char "0" s).

(** Every native token after the first place is swapped into the first place. *)
Definition native_first (tokens : list GaslessFeeToken) : list GaslessFeeToken :=
  fold_left (fun ts i => match ts !! i, ts !! 0%nat with
                         | Some t, Some t0 => if ft_Native t && negb (i =? 0)%nat
                                              then <[0%nat := t]> (<[i := t0]> ts) else ts
                         | _, _ => ts
                         end) (seq 0 (length tokens)) tokens.

Section Forward.
Context `{StellarSDK} `{Network} `{SubmitNetwork} `{Gasless} `{GaslessQuotes} `{Env} `{ServiceConfig} `{BuilderConfig}.
Abbreviation W := (World Store).

(** The resource fee of [target] alone, and the latest ledger. *)
Definition simulateResourceFee (target : InvokeContractArgs) : M W (Z * Z) :=
  let fn := InvokeContract (ica_ContractAddress target) (ica_FunctionName target) (ica_Args target) in
  let! txB64 := wrap "build fee simulation" (call (fun n => tx_build n (gasless_params fn []))) in
  let! sim := wrap "simulate for network fee" (call (rpc_simulate txB64)) in
  if negb (String.eqb (sim_Error sim) "") then throw (Errorf "simulation failed") else
  let! fee := wrap "parse resource fee" (lift (ParseInt64 (sim_MinResourceFee sim))) in
  ret (fee, sim_LatestLedger sim).

(** The first token whose quote the wallet can pay on top of what the call spends
    of it, and the last quote that failed. *)
Fixpoint choose_token (wallet : string) (resourceFee : Z) (spendToken : string) (spendAmount : Z)
    (tokens : list GaslessFeeToken) (quoteErr : option error) : M W (option GaslessQuote * option error) :=
  match tokens with
  | [] => ret (None, quoteErr)
  | t :: tokens' =>
      let! quoted := attempt (call (gasless_quote (ft_Contract t) (big_int64 (forwardResourceFactor * resourceFee)))) in
      match quoted with
      | Err err => choose_token wallet resourceFee spendToken spendAmount tokens' (Some err)
      | Ok q =>
          let! ' (hi, lo) := wrap "fee token balance" (balanceOf (ft_Contract t) wallet) in
          let need := if String.eqb spendToken (ft_Contract t) then gq_MaxFeeAmount q + spendAmount
                      else gq_MaxFeeAmount q in
          if need <=? i128ToBigInt hi lo then ret (Some q, quoteErr)
          else choose_token wallet resourceFee spendToken spendAmount tokens' quoteErr
      end
  end.

(** [forward(token, 1, maxFee, expiration, target…, user, relayer)]. *)
Definition forwardHostFunction (feeForwarder feeToken : string) (maxFee expiration : Z) (target : InvokeContractArgs)
    (user relayer : string) : res HostFunction :=
  let? fwdID := res_wrap "resolve fee forwarder" (contractIDFromAddress feeForwarder) in
  let? tokenVal := res_wrap "resolve fee token" (scAddress feeToken) in
  let? userVal := res_wrap "resolve user" (scAddress user) in
  let? relayerVal := res_wrap "resolve relayer" (scAddress relayer) in
  Ok (invokeContractHostFunction fwdID forwardFn
        [tokenVal; scI128 0 1; scI128 0 (big_uint64 maxFee); scU32 expiration;
         ScvAddress (ica_ContractAddress target); scSymbol (ica_FunctionName target); scVec (ica_Args target);
         userVal; relayerVal]).

Definition planForward (wallet : string) (target : InvokeContractArgs) (spendToken : string) (spendAmount : Z)
    : M W forwardWrap :=
  if negb gasless_set then throw ErrGaslessNotConfigured else
  let! cfg := wrap "fee token config" (call gasless_fee_tokens) in
  let! ' (resourceFee, latest) := simulateResourceFee target in
  let! ' (chosen, quoteErr) :=
    choose_token wallet resourceFee spendToken spendAmount (native_first (fc_FeeTokens cfg)) None in
  match chosen with
  | None =>
      match quoteErr with
      | Some e => if errors_is e ErrGaslessUnavailable then throw (Wrapf "quote network fee" e)
                  else throw ErrInsufficientFeeBalance
      | None => throw ErrInsufficientFeeBalance
      end
  | Some q =>
      let! hf := lift (forwardHostFunction (fc_FeeForwarder cfg) (gq_FeeToken q) (gq_MaxFeeAmount q)
                         (uint32 (uint32 latest + forwardExpiryLedgers)) target wallet (fc_Relayer cfg)) in
      ret {| fw_hostFunction := hf; fw_executor := fc_Relayer cfg; fw_feeForwarder := fc_FeeForwarder cfg;
             fw_fee := {| nf_Token := gq_FeeToken q; nf_Symbol := gq_Symbol q;
                          nf_MaxAmountRaw := big_string (gq_MaxFeeAmount q);
                          nf_MaxAmount := formatSevenDecimals (gq_MaxFeeAmount q) |} |}
  end.

Definition dropAuthFor (entries : list AuthEntry) (address : string) : list AuthEntry :=
  List.filter (fun e => match addressStringFromCredentials e with
                        | Some addr => negb (String.eqb addr address)
                        | None => true
                        end) entries.

(** setup_rules_service.go *)
Definition ruleAuthorizesSigner (rule : ContextRuleSummary) (signerType verifierAddress gAddress : string) : bool :=
  if String.eqb signerType "delegated"
  then existsb (fun sg => String.eqb (sg_Kind sg) "Delegated" && String.eqb (sg_GAddress sg) gAddress) (cr_Signers rule)
  else existsb (fun sg => String.eqb (sg_Kind sg) "External"
                          && (String.eqb verifierAddress "" || String.eqb (sg_VerifierAddress sg) verifierAddress))
         (cr_Signers rule).

(** The rule a signer signs calls on [contract] against, when it may. *)
Definition resolveSignerRule (wallet signerType signerG keyDataHex contract : string) : M W (option Z) :=
  if String.eqb signerType "passkey" && negb (String.eqb keyDataHex "") then
    let! found := FindRuleForSigner wallet webauthnVerifierAddress keyDataHex contract in ret (fst <$> found)
  else
    let! ' (id, discovery) := DiscoverContextRule wallet contract in
    if bool_decide (discovery = ContextRuleDiscoveryFallback) then ret None else
    let! found := RuleAtID wallet id in
    match found with
    | None => ret None
    | Some rule =>
        let allowed :=
          if String.eqb signerType "delegated" then negb (String.eqb signerG "") && ruleAuthorizesSigner rule signerType "" signerG
          else if String.eqb signerType "ed25519" then ruleAuthorizesSigner rule signerType ed25519VerifierAddress ""
          else ruleAuthorizesSigner rule signerType webauthnVerifierAddress "" in
        ret (if allowed then Some id else None)
    end.

(** One rule id per context, in pre-order. [ruleFor] reads and writes a state of
    its own, the variables its closure captures. *)
Section Walk.
Context {C : Type} (ruleFor : string -> C -> M W (Z * C)).
Fixpoint rule_ids_walk (inv : Invocation) (st : C) : M W (list Z * C) :=
  match inv with
  | MkInvocation fn subs =>
      let! contract := match fn with
                       | ContractFn address _ _ => wrap "decode context contract" (lift (scaddress_string address))
                       | CreateContractFn _ => ret ""
                       end in
      let! ' (id, st) := ruleFor contract st in
      let! ' (ids, st) :=
        (fix walks (subs : list Invocation) (st : C) : M W (list Z * C) :=
           match subs with
           | [] => ret ([], st)
           | sub :: subs' =>
               let! ' (a, st) := rule_ids_walk sub st in
               let! ' (b, st) := walks subs' st in
               ret (a ++ b, st)
           end) subs st in
      ret (id :: ids, st)
  end.
Definition contextRuleIDsPerContext (entry : AuthEntry) (st : C) : M W (list Z) :=
  let! ' (ids, _) := rule_ids_walk (ae_RootInvocation entry) st in ret ids.
End Walk.

Definition embedContextRuleIDs (entry : AuthEntry) (ids : list Z) : AuthEntry :=
  match ae_Credentials entry with
  | SourceAccountCredentials => entry
  | SorobanAddress c =>
      with_signature (scMap [scMapEntry "context_rule_ids" (scVec (scU32 <$> ids)); scMapEntry "signers" (scMap [])]) entry c
  end.
End Forward.

(** ** build_auth_transaction.go *)
Record authTransactionCoreInput := {
  ai_smartAccountAddress : string; ai_contextRuleID : Z; ai_signerType : string; ai_signerG : string;
  ai_feePayerG : string; ai_bundlerDelegatedAuthMode : bool; ai_delegatedAuthG : string;
  ai_dropAuthAddress : string }.

Definition resolveRouterContractID (routerContractID : string) : string :=
  if String.eqb routerContractID "" then aquariusRouterTestnet else routerContractID.

(** The loop that indexes the entries: the first of the smart account, and those
    of the delegated signer. *)
Fixpoint classify_entries `{StellarSDK} (i : nat) (smartAccountAddress signerG : string) (entries : list AuthEntry)
    : option nat * list nat :=
  match entries with
  | [] => (None, [])
  | e :: entries' =>
      let '(smart, native) := classify_entries (S i) smartAccountAddress signerG entries' in
      match classifyAuthEntryRole e smartAccountAddress signerG with
      | RoleSmartAccountCustom => (Some i, native)
      | RoleDelegatedNative => (smart, i :: native)
      | RoleOther => (smart, native)
      end
  end.

(** The variables [synthesizeDelegatedGEntry] writes. *)
Record assembly := { sy_entries : list AuthEntry; sy_native : list nat; sy_synthesized : bool }.

Section Core.
Context `{StellarSDK} `{Network} `{Env} `{ServiceConfig} `{BuilderConfig} `{Json SimulationSummary}.
Abbreviation W := (World Store).

(** [ResolveSignerKeypairForG] finds a key pair. *)
Definition ResolveSignerKeypairForG (gAddress : string) : bool :=
  String.eqb bundlerG gAddress || match legacySignerG with Some g => String.eqb g gAddress | None => false end.

Definition add_entry (smartAccountAddress gAddr authDigest : string) (validUntilLedger : Z) (st : assembly) : M W assembly :=
  let! newEntry := wrap "synthesize delegated auth entry"
    (buildUnsignedDelegatedGCheckAuthEntry smartAccountAddress gAddr authDigest validUntilLedger) in
  ret {| sy_entries := sy_entries st ++ [newEntry]; sy_native := sy_native st ++ [length (sy_entries st)];
         sy_synthesized := true |}.
Definition synthesizeDelegatedGEntry (smartAccountAddress gAddr authDigest : string) (validUntilLedger : Z) (st : assembly)
    : M W assembly :=
  if existsb (fun e => match addressStringFromCredentials e with Some addr => String.eqb addr gAddr | None => false end)
       (sy_entries st)
  then ret st else add_entry smartAccountAddress gAddr authDigest validUntilLedger st.

Definition sign_blob (entries : list AuthEntry) (idx : nat) : res string :=
  match entries !! idx with
  | Some e => let? payload := hashSorobanAuthPayload e networkPassphrase in
              Ok (Base64.StdEncoding_EncodeToString payload)
  | None => Err (Errorf "panic: index out of range")
  end.
Definition encode_entries (entries : list AuthEntry) : res (list string) :=
  res_wrap "encode auth entry" (res_map entry_marshal_b64 entries).
Definition encoded_at (entriesB64 : list string) (idx : nat) : string := default "" (entriesB64 !! idx).

Definition rewriteSmartAccountEntrySignature (entries : list AuthEntry) (idx : nat) (gAddress : string)
    (contextRuleIDs : list Z) : res (list AuthEntry) :=
  let? authPayload := res_wrap "build delegated auth payload" (buildDelegatedAuthPayload gAddress contextRuleIDs) in
  attach_payload (Z.of_nat idx) authPayload entries.

(** The preimage and the template the G-address signs. *)
Definition buildDelegatedSigningTemplates (smartAccountAddress signerG authDigest : string) (validUntilLedger : Z)
    : M W (string * string) :=
  let! entry := wrap "build unsigned delegated entry"
    (buildUnsignedDelegatedGCheckAuthEntry smartAccountAddress signerG authDigest validUntilLedger) in
  let! preimageBytes := wrap "build signing preimage" (lift (sorobanAuthPreimageBytes entry networkPassphrase)) in
  let! entryXDR := wrap "encode entry template" (lift (entry_marshal entry)) in
  ret (Base64.StdEncoding_EncodeToString preimageBytes, Base64.StdEncoding_EncodeToString entryXDR).

(** A simulation's first result, its entries decoded; [failed] words its error. *)
Definition simulated_entries (failed : string) (sim : SimResult) : res (list AuthEntry) :=
  if negb (String.eqb (sim_Error sim) "") then Err (Errorf failed) else
  match sim_Results sim with
  | [] => Err (Errorf "simulation returned no results")
  | (_, auth) :: _ => res_wrap "normalize auth entries" (normalizeAuthEntries auth)
  end.
Definition summary (sim : SimResult) : SimulationSummary :=
  {| ss_transactionData := sim_TransactionData sim; ss_minResourceFee := sim_MinResourceFee sim;
     ss_latestLedger := sim_LatestLedger sim |}.
(** The delegated signer's address, "" for the other kinds. *)
Definition delegated_signer (signerType signerG : string) : string :=
  if String.eqb signerType "delegated" then signerG else "".

(** [switch] at the end of the core: who signs what, and how it is submitted. *)
Definition finish_core (inp : authTransactionCoreInput) (signerGStr authDigest : string) (idx : nat)
    (contextRuleIDs : list Z) (validUntilLedger : Z) (st : assembly) (result : BuildAuthTransactionResult)
    : M W BuildAuthTransactionResult :=
  let with_method method :=
    {| bt_TxXdr := bt_TxXdr result; bt_AuthEntryXdr := bt_AuthEntryXdr result; bt_AuthEntriesXdr := bt_AuthEntriesXdr result;
       bt_SmartAccountAuthEntryIndex := idx; bt_DelegatedNativeAuthEntryIndices := bt_DelegatedNativeAuthEntryIndices result;
       bt_DelegatedNativeSignBlobPayloadsBase64 := bt_DelegatedNativeSignBlobPayloadsBase64 result;
       bt_DelegatedGAuthEntrySynthesized := bt_DelegatedGAuthEntrySynthesized result;
       bt_ContextRuleID := bt_ContextRuleID result; bt_ContextRuleIDs := bt_ContextRuleIDs result;
       bt_ContextRuleDiscovery := bt_ContextRuleDiscovery result; bt_AuthDigestHex := bt_AuthDigestHex result;
       bt_SignaturePayloadHex := bt_SignaturePayloadHex result; bt_ValidUntilLedger := bt_ValidUntilLedger result;
       bt_SimulationResultXdr := bt_SimulationResultXdr result; bt_SubmitMethod := method;
       bt_SmartAccountAuthEntryXdr := ""; bt_GAddressPreimageXdr := ""; bt_GAddressEntryTemplateXdr := "";
       bt_DelegatedAuthG := "" |} in
  let rewritten st entriesB64 method preimage template authG :=
    {| bt_TxXdr := bt_TxXdr result; bt_AuthEntryXdr := encoded_at entriesB64 idx; bt_AuthEntriesXdr := entriesB64;
       bt_SmartAccountAuthEntryIndex := idx; bt_DelegatedNativeAuthEntryIndices := sy_native st;
       bt_DelegatedNativeSignBlobPayloadsBase64 := bt_DelegatedNativeSignBlobPayloadsBase64 result;
       bt_DelegatedGAuthEntrySynthesized := sy_synthesized st;
       bt_ContextRuleID := bt_ContextRuleID result; bt_ContextRuleIDs := bt_ContextRuleIDs result;
       bt_ContextRuleDiscovery := bt_ContextRuleDiscovery result; bt_AuthDigestHex := bt_AuthDigestHex result;
       bt_SignaturePayloadHex := bt_SignaturePayloadHex result; bt_ValidUntilLedger := bt_ValidUntilLedger result;
       bt_SimulationResultXdr := bt_SimulationResultXdr result; bt_SubmitMethod := method;
       bt_SmartAccountAuthEntryXdr := encoded_at entriesB64 idx; bt_GAddressPreimageXdr := preimage;
       bt_GAddressEntryTemplateXdr := template; bt_DelegatedAuthG := authG |} in
  if ai_bundlerDelegatedAuthMode inp then
    let authG := if String.eqb (ai_delegatedAuthG inp) "" then ai_feePayerG inp else ai_delegatedAuthG inp in
    if String.eqb authG "" then throw (Errorf "delegatedAuthG or feePayerG is required for bundler delegated auth mode") else
    let! entries := lift (rewriteSmartAccountEntrySignature (sy_entries st) idx authG contextRuleIDs) in
    let! st := synthesizeDelegatedGEntry (ai_smartAccountAddress inp) authG authDigest validUntilLedger
      {| sy_entries := entries; sy_native := sy_native st; sy_synthesized := sy_synthesized st |} in
    let! entriesB64 := lift (encode_entries (sy_entries st)) in
    if ResolveSignerKeypairForG authG then ret (rewritten st entriesB64 "bundler-delegated" "" "" authG) else
    let! ' (preimageXdr, templateXdr) :=
      buildDelegatedSigningTemplates (ai_smartAccountAddress inp) authG authDigest validUntilLedger in
    ret (rewritten st entriesB64 "delegated" preimageXdr templateXdr authG)
  else if String.eqb (ai_signerType inp) "delegated" && negb (String.eqb signerGStr "") then
    let! entries := lift (rewriteSmartAccountEntrySignature (sy_entries st) idx signerGStr contextRuleIDs) in
    let! entriesB64 := lift (encode_entries entries) in
    let! ' (preimageXdr, templateXdr) :=
      buildDelegatedSigningTemplates (ai_smartAccountAddress inp) signerGStr authDigest validUntilLedger in
    ret (rewritten st entriesB64 "delegated" preimageXdr templateXdr "")
  else if String.eqb (ai_signerType inp) "ed25519" then ret (with_method "bundler-delegated")
  else ret (with_method "webauthn").

Definition buildAuthTransactionCore (inp : authTransactionCoreInput)
    (buildTx : list AuthEntry -> option string -> M W string) : M W BuildAuthTransactionResult :=
  let! simTxB64 := wrap "build simulate tx" (buildTx [] None) in
  let! sim := wrap "simulate transaction" (call (rpc_simulate simTxB64)) in
  let! entries := lift (simulated_entries "simulation failed" sim) in
  let entries := if String.eqb (ai_dropAuthAddress inp) "" then entries else dropAuthFor entries (ai_dropAuthAddress inp) in
  if (length entries =? 0)%nat then throw (Errorf "no auth entries in simulation result") else
  let '(entries, validUntilLedger) := setAddressCredentialExpiration entries (sim_LatestLedger sim) 60 in
  let signerGStr := delegated_signer (ai_signerType inp) (ai_signerG inp) in
  let '(smart, native) := classify_entries 0 (ai_smartAccountAddress inp) signerGStr entries in
  match smart with
  | None => throw (Errorf "transaction does not require authorization from the account")
  | Some idx =>
      let! smartAccountEntry := lift (entry_at entries (Z.of_nat idx)) in
      let contextRuleIDs := contextRuleIDsForEntry smartAccountEntry (ai_contextRuleID inp) in
      let! signaturePayload := wrap "compute signature payload"
        (lift (hashSorobanAuthPayload smartAccountEntry networkPassphrase)) in
      let! authDigest := wrap "compute auth digest"
        (lift (computeAuthDigest smartAccountEntry networkPassphrase contextRuleIDs)) in
      let st := {| sy_entries := entries; sy_native := native; sy_synthesized := false |} in
      let synthesize g st := synthesizeDelegatedGEntry (ai_smartAccountAddress inp) g authDigest validUntilLedger st in
      let! st := if negb (String.eqb signerGStr "") && (length native =? 0)%nat then synthesize signerGStr st else ret st in
      let! st := if String.eqb (ai_signerType inp) "delegated" && negb (String.eqb (ai_feePayerG inp) "")
                    && negb (String.eqb (ai_feePayerG inp) signerGStr)
                 then synthesize (ai_feePayerG inp) st else ret st in
      let! signBlobPayloads := wrap "compute delegated sign payload"
        (lift (res_map (sign_blob (sy_entries st)) (sy_native st))) in
      let! sorobanData := wrap "decode soroban transaction data" (lift (soroban_data_decode (sim_TransactionData sim))) in
      let! finalTxB64 := wrap "build final tx" (buildTx (sy_entries st) (Some sorobanData)) in
      let! entriesB64 := lift (encode_entries (sy_entries st)) in
      let! simResultJSON := wrap "marshal simulation result" (lift (json_marshal (summary sim))) in
      finish_core inp signerGStr authDigest idx contextRuleIDs validUntilLedger st
        {| bt_TxXdr := finalTxB64; bt_AuthEntryXdr := encoded_at entriesB64 idx; bt_AuthEntriesXdr := entriesB64;
           bt_SmartAccountAuthEntryIndex := idx; bt_DelegatedNativeAuthEntryIndices := sy_native st;
           bt_DelegatedNativeSignBlobPayloadsBase64 := signBlobPayloads;
           bt_DelegatedGAuthEntrySynthesized := sy_synthesized st;
           bt_ContextRuleID := ai_contextRuleID inp; bt_ContextRuleIDs := contextRuleIDs;
           bt_ContextRuleDiscovery := None; bt_AuthDigestHex := hex_encode authDigest;
           bt_SignaturePayloadHex := hex_encode signaturePayload; bt_ValidUntilLedger := validUntilLedger;
           bt_SimulationResultXdr := simResultJSON; bt_SubmitMethod := "";
           bt_SmartAccountAuthEntryXdr := ""; bt_GAddressPreimageXdr := ""; bt_GAddressEntryTemplateXdr := "";
           bt_DelegatedAuthG := "" |}
  end.
End Core.
End Build.
