(* ===== verification/BuildTx.v ===== *)
(** * The build routes: sends, client-built calls, swaps and the demo counter
    (transaction_service.go, build_swap_transaction.go and
    build_counter_transaction.go of internal/service/webapp)

    [BuildSend] and [PrepareSign] repeat the assembly of [buildAuthTransactionCore]
    inline, without the variants for a bundler-held signer; the parts the two
    repeat verbatim are written once ([sign_digest], [finish_build]). *)

From S2P Require Export Build.

Record BuildSendInput := {
  bi_SmartAccountAddress : string; bi_SignerType : string; bi_SignerG : string; bi_AssetID : string;
  bi_ContractID : string; bi_Recipient : string; bi_Amount : string; bi_KeyDataHex : string }.
Record PrepareSignInput := {
  pi_SmartAccountAddress : string; pi_UnsignedTxXdr : string; pi_SignerType : string; pi_SignerG : string;
  pi_KeyDataHex : string }.
Record BuildSwapInput := {
  bw_SmartAccountAddress : string; bw_SignerType : string; bw_SignerG : string; bw_RouterContractID : string;
  bw_KeyDataHex : string; bw_SwapChainXdr : string; bw_TokenInContractID : string;
  bw_AmountInRaw : string; bw_AmountOutMinRaw : string }.
(** [delegatedAuthG] is set exactly when [useDelegatedAuth] is. *)
Record swapAuthResolution := { sa_useDelegatedAuth : bool; sa_delegatedAuthG : string; sa_needsPasskeySetup : bool }.
Record BuildDelegatedCounterResult := {
  bd_TxXdr : string; bd_SmartAccountAuthEntryXdr : string; bd_GAddressPreimageXdr : string;
  bd_GAddressEntryTemplateXdr : string; bd_AuthDigestHex : string; bd_ValidUntilLedger : Z; bd_ContextRuleID : Z }.

Module BuildTx.
Import Assets Amount Balances ContextRules Signers ExecuteAuth Submit SubmitSigned Build.

Record BuildSendResult := {
  bs_Build : BuildAuthTransactionResult; bs_Asset : CatalogAsset; bs_Recipient : string; bs_Amount : string;
  bs_AmountRaw : string; bs_NetworkFee : NetworkFee }.
Record BuildSwapResult := {
  bx_Build : BuildAuthTransactionResult; bx_RouterContractID : string; bx_TokenInContractID : string;
  bx_AmountInRaw : string; bx_AmountOutMinRaw : string; bx_NetworkFee : NetworkFee }.

(** ** build_swap_transaction.go: amounts and the rule's signers *)

(** [^\d+$], then [SetString] in base 10 and [BitLen() > 128]. *)
Definition parseU128Raw (raw fieldName : string) : res Z :=
  if String.eqb raw "" || negb (str_forall is_digit raw)
  then Err (Wrapf (fieldName +:+ " must be a non-negative integer string") ErrSwapValidation) else
  match big_set_string raw with
  | Some v => if v <? 2 ^ 128 then Ok v else Err (Wrapf (fieldName +:+ " is out of u128 range") ErrSwapValidation)
  | None => Err (Wrapf (fieldName +:+ " is out of u128 range") ErrSwapValidation)
  end.
Definition bigIntToU128 (v : Z) : Z * Z := (big_uint64 (Z.shiftr v 64), big_uint64 (Z.land v (Z.ones 64))).

Definition is_delegated (sg : ContextRuleSigner) : bool := String.eqb (sg_Kind sg) "Delegated".
Definition is_delegated_g (gAddress : string) (sg : ContextRuleSigner) : bool :=
  is_delegated sg && String.eqb (sg_GAddress sg) gAddress.
Definition ruleIsDelegatedOnly (rule : ContextRuleSummary) : bool :=
  match cr_Signers rule with [] => false | sgs => forallb is_delegated sgs end.
Definition ruleHasOnlyDelegatedGSigner (rule : ContextRuleSummary) (gAddress : string) : bool :=
  match cr_Signers rule with [] => false | sgs => forallb (is_delegated_g gAddress) sgs end.
Definition ruleHasDelegatedSignerG (rule : ContextRuleSummary) (gAddress : string) : bool :=
  existsb (is_delegated_g gAddress) (cr_Signers rule).
Definition ruleHasAnyDelegatedSigner (rule : ContextRuleSummary) : bool := existsb is_delegated (cr_Signers rule).

(** [rule] with [ruleOK] is an option. *)
Definition resolveSwapAuthMode (rule : option ContextRuleSummary) (signerType signerG : string) : swapAuthResolution :=
  let none := {| sa_useDelegatedAuth := false; sa_delegatedAuthG := ""; sa_needsPasskeySetup := false |} in
  match rule with
  | None => none
  | Some rule =>
      if negb (ruleIsDelegatedOnly rule) then none else
      let ruleG := delegatedGFromContextRule rule in
      if String.eqb ruleG "" then none
      else if String.eqb signerType "delegated" && String.eqb signerG ruleG
      then {| sa_useDelegatedAuth := true; sa_delegatedAuthG := ruleG; sa_needsPasskeySetup := false |}
      else if String.eqb signerType "passkey" || String.eqb signerType "ed25519"
      then {| sa_useDelegatedAuth := false; sa_delegatedAuthG := ""; sa_needsPasskeySetup := true |}
      else none
  end.

Definition assertSwapRuleReadyForSign (rule : option ContextRuleSummary) : res unit :=
  match rule with
  | Some rule => if ruleIsDelegatedOnly rule then Err (Wrapf "default context rule" ErrSwapSignerMismatch) else Ok tt
  | None => Ok tt
  end.

Definition validateContextRuleForSignerType (rule : option ContextRuleSummary) (signerType signerG bundlerPublicKey : string)
    : res unit :=
  if negb (String.eqb signerG "") && String.eqb signerG bundlerPublicKey
  then Err (Wrapf "signerG must be the user's delegated G-address, not the bundler fee-payer" ErrSwapValidation) else
  match rule with
  | None => Ok tt
  | Some rule =>
      if String.eqb signerType "passkey" || String.eqb signerType "ed25519" then
        if ruleHasOnlyDelegatedGSigner rule bundlerPublicKey && negb (ruleHasExternalSigner rule)
        then Err (Wrapf "swap rule was configured for Delegated G (bundler)" ErrSwapSignerMismatch)
        else if negb (ruleHasExternalSigner rule)
        then Err (Wrapf "swap context rule has no External passkey signer yet" ErrSwapSignerMismatch)
        else Ok tt
      else if String.eqb signerType "delegated" then
        if String.eqb signerG "" then Err (Wrapf "signerG is required for delegated" ErrSwapValidation)
        else if negb (ruleHasExternalSigner rule)
        then Err (Wrapf "swap context rule has no External passkey signer yet" ErrSwapSignerMismatch)
        else if ruleHasExternalSigner rule && negb (ruleHasDelegatedSignerG rule signerG)
        then Err (Wrapf "swap rule was configured for passkey" ErrSwapSignerMismatch)
        else if negb (ruleHasExternalSigner rule) && negb (ruleHasDelegatedSignerG rule signerG)
                && ruleHasAnyDelegatedSigner rule
        then Err (Wrapf "swap rule Delegated signer does not match signerG" ErrSwapSignerMismatch)
        else Ok tt
      else Ok tt
  end.

(** transaction_service.go *)
Definition validatePrepareSignSignerAuthorization (rule : ContextRuleSummary) (signerType signerG bundlerPublicKey : string)
    : res unit :=
  if negb (String.eqb signerG "") && String.eqb signerG bundlerPublicKey
  then Err (Wrapf "signerG must be the user's G-address, not the bundler fee-payer" ErrPrepareSignValidation)
  else if String.eqb signerType "passkey" || String.eqb signerType "ed25519" then
    if ruleHasExternalSigner rule then Ok tt
    else Err (Wrapf "default context rule has no External passkey signer configured" ErrPrepareSignSignerMismatch)
  else if String.eqb signerType "delegated" then
    if ruleHasDelegatedSignerG rule signerG then Ok tt
    else Err (Wrapf "default context rule does not authorize signerG" ErrPrepareSignSignerMismatch)
  else Ok tt.

Section BuildTx.
Context `{StellarSDK} `{Network} `{SubmitNetwork} `{Gasless} `{GaslessQuotes} `{Env} `{ServiceConfig} `{BuilderConfig}.
Context `{EnvelopeCodec} `{Json SimulationSummary}.
Abbreviation W := (World Store).

(** [buildTx] of the builders: one call, sourced and paid by the bundler. *)
Definition bundler_tx (seq : Z) (fn : HostFunction) (auth : list AuthEntry) (sorobanData : option string) : M W string :=
  call (fun n => tx_build n (bundler_params seq [fn] auth sorobanData)).

(** The rule a call on [contract] is signed against: of a passkey that names its
    key, a rule that lists the key. *)
Definition send_rule (smartAccountAddress signerType keyDataHex contract : string) : M W (Z * ContextRuleDiscovery) :=
  if String.eqb signerType "passkey" && negb (String.eqb keyDataHex "") then
    let! found := wrap "find rule for signer" (FindRuleForSigner smartAccountAddress webauthnVerifierAddress keyDataHex contract) in
    match found with
    | Some r => ret r
    | None => throw ErrSignerRuleNotFound
    end
  else wrap "discover context rule" (DiscoverContextRule smartAccountAddress contract).

(** [ruleFor] of [BuildSend]; [rules] are the rules resolved so far. *)
Definition send_ruleFor (inp : BuildSendInput) (contextRuleID : Z) (plan : forwardWrap) (contract : string)
    (rules : gmap string Z) : M W (Z * gmap string Z) :=
  match rules !! contract with
  | Some id => ret (id, rules)
  | None =>
      if negb (String.eqb contract (fw_feeForwarder plan)) && negb (String.eqb contract (nf_Token (fw_fee plan)))
      then ret (contextRuleID, rules) else
      let! found := wrap "resolve fee rule" (resolveSignerRule (bi_SmartAccountAddress inp) (bi_SignerType inp)
                                               (bi_SignerG inp) (bi_KeyDataHex inp) contract) in
      match found with
      | None => throw ErrFeeRuleNotFound
      | Some id => ret (id, <[contract := id]> rules)
      end
  end.

(** The two hashes of the smart account's entry, and the delegated signer's entry
    when the simulation returned none. *)
Definition sign_digest (smartAccountAddress signerGStr : string) (smartAccountEntry : AuthEntry) (contextRuleIDs : list Z)
    (validUntilLedger : Z) (entries : list AuthEntry) (native : list nat) : M W (string * string * assembly) :=
  let! signaturePayload := wrap "compute signature payload"
    (lift (hashSorobanAuthPayload smartAccountEntry networkPassphrase)) in
  let! authDigest := wrap "compute auth digest"
    (lift (computeAuthDigest smartAccountEntry networkPassphrase contextRuleIDs)) in
  let st := {| sy_entries := entries; sy_native := native; sy_synthesized := false |} in
  let! st := if negb (String.eqb signerGStr "") && (length native =? 0)%nat
             then add_entry smartAccountAddress signerGStr authDigest validUntilLedger st else ret st in
  ret (signaturePayload, authDigest, st).

(** The final transaction and everything the client needs to sign it. *)
Definition finish_build (finalTx : list AuthEntry -> string -> M W string) (sim : SimResult) (idx : nat)
    (contextRuleID : Z) (discovery : ContextRuleDiscovery) (contextRuleIDs : list Z) (validUntilLedger : Z)
    (submitMethod signaturePayload authDigest : string) (st : assembly) : M W BuildAuthTransactionResult :=
  let! signBlobPayloads := wrap "compute delegated sign payload" (lift (res_map (sign_blob (sy_entries st)) (sy_native st))) in
  let! sorobanData := wrap "decode soroban transaction data" (lift (soroban_data_decode (sim_TransactionData sim))) in
  let! finalTxB64 := finalTx (sy_entries st) sorobanData in
  let! entriesB64 := lift (encode_entries (sy_entries st)) in
  let! simResultJSON := wrap "marshal simulation result" (lift (json_marshal (summary sim))) in
  ret {| bt_TxXdr := finalTxB64; bt_AuthEntryXdr := encoded_at entriesB64 idx; bt_AuthEntriesXdr := entriesB64;
         bt_SmartAccountAuthEntryIndex := idx; bt_DelegatedNativeAuthEntryIndices := sy_native st;
         bt_DelegatedNativeSignBlobPayloadsBase64 := signBlobPayloads;
         bt_DelegatedGAuthEntrySynthesized := sy_synthesized st;
         bt_ContextRuleID := contextRuleID; bt_ContextRuleIDs := contextRuleIDs;
         bt_ContextRuleDiscovery := Some discovery; bt_AuthDigestHex := hex_encode authDigest;
         bt_SignaturePayloadHex := hex_encode signaturePayload; bt_ValidUntilLedger := validUntilLedger;
         bt_SimulationResultXdr := simResultJSON; bt_SubmitMethod := submitMethod;
         bt_SmartAccountAuthEntryXdr := ""; bt_GAddressPreimageXdr := ""; bt_GAddressEntryTemplateXdr := "";
         bt_DelegatedAuthG := "" |}.

(** The transfer a send makes. *)
Definition transfer_call (asset : CatalogAsset) (hi lo : Z) (from to : string) : res InvokeContractArgs :=
  let? fromVal := res_wrap "resolve smart account address" (scAddress from) in
  let? toVal := res_wrap "resolve recipient address" (scAddress to) in
  let? contractID := res_wrap "resolve asset contract" (contractIDFromAddress (ca_ContractID asset)) in
  Ok {| ica_ContractAddress := AddrContract contractID; ica_FunctionName := "transfer";
        ica_Args := [fromVal; toVal; scI128 hi lo] |}.

Definition BuildSend (inp : BuildSendInput) (catalog : list CatalogAsset) : M W BuildSendResult :=
  let! asset := wrap "resolve asset" (lift (ResolveAsset catalog (bi_AssetID inp) (bi_ContractID inp))) in
  let! ' (hi, lo) := wrap "parse amount" (lift (parseAmountToI128 (bi_Amount inp) (ca_Decimals asset))) in
  let! ' (contextRuleID, discovery) :=
    send_rule (bi_SmartAccountAddress inp) (bi_SignerType inp) (bi_KeyDataHex inp) (ca_ContractID asset) in
  let! transfer := lift (transfer_call asset hi lo (bi_SmartAccountAddress inp) (bi_Recipient inp)) in
  let! plan := planForward (bi_SmartAccountAddress inp) transfer (ca_ContractID asset) (i128ToBigInt hi lo) in
  let! seq := wrap "fetch bundler sequence" (call (rpc_account_sequence bundlerG)) in
  let buildTx := bundler_tx seq (fw_hostFunction plan) in
  let! simTxB64 := wrap "build simulate tx" (buildTx [] None) in
  let! sim := wrap "simulate transfer" (call (rpc_simulate simTxB64)) in
  let! entries := lift (simulated_entries "transfer simulation failed" sim) in
  let '(entries, validUntilLedger) :=
    setAddressCredentialExpiration (dropAuthFor entries (fw_executor plan)) (sim_LatestLedger sim) 60 in
  let signerGStr := delegated_signer (bi_SignerType inp) (bi_SignerG inp) in
  let '(smart, native) := classify_entries 0 (bi_SmartAccountAddress inp) signerGStr entries in
  match smart with
  | None => throw (Errorf "no smart account auth entry found in simulation result")
  | Some idx =>
      let! smartAccountEntry := lift (entry_at entries (Z.of_nat idx)) in
      let! contextRuleIDs := contextRuleIDsPerContext (send_ruleFor inp contextRuleID plan) smartAccountEntry
                               {[ca_ContractID asset := contextRuleID]} in
      let smartAccountEntry := embedContextRuleIDs smartAccountEntry contextRuleIDs in
      let entries := <[idx := smartAccountEntry]> entries in
      let! ' (signaturePayload, authDigest, st) :=
        sign_digest (bi_SmartAccountAddress inp) signerGStr smartAccountEntry contextRuleIDs validUntilLedger entries native in
      let submitMethod := if String.eqb (bi_SignerType inp) "delegated" then "delegated" else "webauthn" in
      let! built := finish_build (fun auth data => wrap "build final tx" (buildTx auth (Some data))) sim idx
                      contextRuleID discovery contextRuleIDs validUntilLedger submitMethod signaturePayload authDigest st in
      ret {| bs_Build := built; bs_Asset := asset; bs_Recipient := bi_Recipient inp; bs_Amount := bi_Amount inp;
             bs_AmountRaw := formatI128Raw hi lo; bs_NetworkFee := fw_fee plan |}
  end.

(** ** prepare-sign *)

(** The rule of a client-built call: of a named key, a rule that lists it;
    otherwise the account's Default rule. *)
Definition prepare_rule (smartAccountAddress signerType keyDataHex : string)
    : M W (Z * ContextRuleDiscovery * ContextRuleSummary) :=
  let! ' (id, discovery) :=
    if String.eqb signerType "passkey" && negb (String.eqb keyDataHex "") then
      let! found := wrap "find rule for signer"
        (FindRuleForSigner smartAccountAddress webauthnVerifierAddress keyDataHex "") in
      match found with
      | Some r => ret r
      | None => throw ErrSignerRuleNotFound
      end
    else
      let! ' (id, d) := wrap "discover context rule" (DiscoverDefaultContextRule smartAccountAddress) in
      if bool_decide (d = ContextRuleDiscoveryFallback)
      then throw (Wrapf "no Default context rule found for this smart account" ErrPrepareSignNoContextRule)
      else ret (id, d) in
  let! found := wrap "fetch context rule" (RuleAtID smartAccountAddress id) in
  match found with
  | Some rule => ret (id, discovery, rule)
  | None => throw (Wrapf "context rule no longer exists" ErrPrepareSignNoContextRule)
  end.

(** The client's envelope with the entries and the Soroban data put in; the
    operation's kind is only looked at here. *)
Definition prepared_tx (unsignedTxXdr : string) (op : Operation) (auth : list AuthEntry) (sorobanData : string) : M W string :=
  match op with
  | OtherOperation _ => throw (Wrapf "expected an invoke host function operation" ErrPrepareSignValidation)
  | InvokeHostFunctionOp _ => wrap "encode final tx" (lift (envelope_set_auth unsignedTxXdr auth sorobanData))
  end.

Definition PrepareSign (inp : PrepareSignInput) : M W BuildAuthTransactionResult :=
  match envelope_unmarshal_b64 (pi_UnsignedTxXdr inp) with
  | Err _ => throw (Wrapf "decode unsignedTxXdr" ErrPrepareSignValidation)
  | Ok (Some [op]) =>
      let! ' (contextRuleID, discovery, rule) :=
        prepare_rule (pi_SmartAccountAddress inp) (pi_SignerType inp) (pi_KeyDataHex inp) in
      let! _ := lift (validatePrepareSignSignerAuthorization rule (pi_SignerType inp) (pi_SignerG inp) bundlerG) in
      let! sim := wrap "simulate transaction" (call (rpc_simulate (pi_UnsignedTxXdr inp))) in
      let! entries := lift (simulated_entries "simulation failed" sim) in
      let '(entries, validUntilLedger) := setAddressCredentialExpiration entries (sim_LatestLedger sim) 60 in
      let signerGStr := delegated_signer (pi_SignerType inp) (pi_SignerG inp) in
      let '(smart, native) := classify_entries 0 (pi_SmartAccountAddress inp) signerGStr entries in
      match smart with
      | None => throw (Errorf "no smart account auth entry found in simulation result")
      | Some idx =>
          let! smartAccountEntry := lift (entry_at entries (Z.of_nat idx)) in
          let contextRuleIDs := contextRuleIDsForEntry smartAccountEntry contextRuleID in
          let! ' (signaturePayload, authDigest, st) :=
            sign_digest (pi_SmartAccountAddress inp) signerGStr smartAccountEntry contextRuleIDs validUntilLedger entries native in
          let submitMethod := if String.eqb (pi_SignerType inp) "delegated" then "delegated"
                              else if String.eqb (pi_SignerType inp) "ed25519" then "bundler-delegated" else "webauthn" in
          finish_build (prepared_tx (pi_UnsignedTxXdr inp) op) sim idx contextRuleID discovery contextRuleIDs
            validUntilLedger submitMethod signaturePayload authDigest st
      end
  | Ok _ => throw (Wrapf "expected a single-operation transaction envelope" ErrPrepareSignValidation)
  end.

(** ** build-swap *)
Definition swap_call (inp : BuildSwapInput) (routerID : string) (amountIn amountOutMin : Z) : res InvokeContractArgs :=
  let? routerContractID := res_wrap "resolve router contract" (contractIDFromAddress routerID) in
  let? swapChainVal := match scval_unmarshal_b64 (bw_SwapChainXdr inp) with
                       | Ok v => Ok v
                       | Err _ => Err (Wrapf "decode" ErrInvalidSwapChainXdr)
                       end in
  let? smartAccountVal := res_wrap "resolve smart account address" (scAddress (bw_SmartAccountAddress inp)) in
  let? tokenInVal := res_wrap "resolve token-in address" (scAddress (bw_TokenInContractID inp)) in
  let '(amountInHi, amountInLo) := bigIntToU128 amountIn in
  let '(amountOutMinHi, amountOutMinLo) := bigIntToU128 amountOutMin in
  Ok {| ica_ContractAddress := AddrContract routerContractID; ica_FunctionName := "swap_chained";
        ica_Args := [smartAccountVal; swapChainVal; tokenInVal; scU128 amountInHi amountInLo;
                     scU128 amountOutMinHi amountOutMinLo] |}.

(** The one rule every call of a swap is signed against. *)
Definition swap_rule (smartAccountAddress signerType keyDataHex : string) : M W Z :=
  if String.eqb signerType "passkey" && negb (String.eqb keyDataHex "") then
    let! found := wrap "find rule for signer"
      (FindRuleForSigner smartAccountAddress webauthnVerifierAddress keyDataHex "") in
    match found with
    | Some (id, _) => ret id
    | None => throw ErrSignerRuleNotFound
    end
  else let! ' (id, _) := wrap "discover default context rule" (DiscoverDefaultContextRule smartAccountAddress) in ret id.

Definition BuildSwap (inp : BuildSwapInput) : M W BuildSwapResult :=
  if String.eqb (bw_SignerType inp) "delegated" && String.eqb (bw_SignerG inp) bundlerG
  then throw (Wrapf "signerG must be your delegated G-address, not the bundler fee-payer" ErrSwapValidation) else
  let! amountIn := lift (parseU128Raw (bw_AmountInRaw inp) "amountInRaw") in
  let! amountOutMin := lift (parseU128Raw (bw_AmountOutMinRaw inp) "amountOutMinRaw") in
  let routerID := resolveRouterContractID (bw_RouterContractID inp) in
  let! contextRuleID := swap_rule (bw_SmartAccountAddress inp) (bw_SignerType inp) (bw_KeyDataHex inp) in
  let! swapRule := wrap "fetch default context rule" (RuleAtID (bw_SmartAccountAddress inp) contextRuleID) in
  let swapAuth := resolveSwapAuthMode swapRule (bw_SignerType inp) (bw_SignerG inp) in
  let! _ := if sa_needsPasskeySetup swapAuth then lift (assertSwapRuleReadyForSign swapRule) else ret tt in
  let! _ := if sa_useDelegatedAuth swapAuth then ret tt
            else lift (validateContextRuleForSignerType swapRule (bw_SignerType inp) (bw_SignerG inp) bundlerG) in
  let! ' (balHi, balLo) := wrap "fetch token balance" (balanceOf (bw_TokenInContractID inp) (bw_SmartAccountAddress inp)) in
  if i128ToBigInt balHi balLo <? amountIn then throw (Wrapf "insufficient balance" ErrSwapValidation) else
  let! swapFn := lift (swap_call inp routerID amountIn amountOutMin) in
  if negb (match swapRule with Some rule => cr_IsDefault rule | None => false end) then throw ErrFeeRuleNotFound else
  let! plan := planForward (bw_SmartAccountAddress inp) swapFn (bw_TokenInContractID inp) amountIn in
  let! seq := wrap "fetch bundler sequence" (call (rpc_account_sequence bundlerG)) in
  let! coreResult := buildAuthTransactionCore
    {| ai_smartAccountAddress := bw_SmartAccountAddress inp; ai_contextRuleID := contextRuleID;
       ai_signerType := bw_SignerType inp;
       ai_signerG := if sa_useDelegatedAuth swapAuth then sa_delegatedAuthG swapAuth else bw_SignerG inp;
       ai_feePayerG := bundlerG; ai_bundlerDelegatedAuthMode := sa_useDelegatedAuth swapAuth;
       ai_delegatedAuthG := sa_delegatedAuthG swapAuth; ai_dropAuthAddress := fw_executor plan |}
    (bundler_tx seq (fw_hostFunction plan)) in
  ret {| bx_Build := coreResult; bx_RouterContractID := routerID; bx_TokenInContractID := bw_TokenInContractID inp;
         bx_AmountInRaw := big_string amountIn; bx_AmountOutMinRaw := big_string amountOutMin;
         bx_NetworkFee := fw_fee plan |}.

(** ** build_counter_transaction.go *)

(** What both counter routes start with: the rule, the call and the sequence. *)
Definition counter_call (smartAccountAddress : string) : M W (Z * ContextRuleDiscovery * HostFunction * Z) :=
  if String.eqb counterContractAddress "" then throw (Errorf "counter contract address is not configured") else
  let! ' (contextRuleID, discovery) := wrap "discover context rule"
    (DiscoverContextRule smartAccountAddress counterContractAddress) in
  let! counterContractID := wrap "resolve counter contract" (lift (contractIDFromAddress counterContractAddress)) in
  let! smartAccountVal := wrap "resolve smart account address" (lift (scAddress smartAccountAddress)) in
  let! seq := wrap "fetch bundler sequence" (call (rpc_account_sequence bundlerG)) in
  ret (contextRuleID, discovery, invokeContractHostFunction counterContractID "increment" [smartAccountVal], seq).

Definition counter_result (r : BuildAuthTransactionResult) (discovery : ContextRuleDiscovery) : BuildAuthTransactionResult :=
  {| bt_TxXdr := bt_TxXdr r; bt_AuthEntryXdr := bt_AuthEntryXdr r; bt_AuthEntriesXdr := bt_AuthEntriesXdr r;
     bt_SmartAccountAuthEntryIndex := bt_SmartAccountAuthEntryIndex r;
     bt_DelegatedNativeAuthEntryIndices := bt_DelegatedNativeAuthEntryIndices r;
     bt_DelegatedNativeSignBlobPayloadsBase64 := bt_DelegatedNativeSignBlobPayloadsBase64 r;
     bt_DelegatedGAuthEntrySynthesized := bt_DelegatedGAuthEntrySynthesized r;
     bt_ContextRuleID := bt_ContextRuleID r; bt_ContextRuleIDs := bt_ContextRuleIDs r;
     bt_ContextRuleDiscovery := Some discovery; bt_AuthDigestHex := bt_AuthDigestHex r;
     bt_SignaturePayloadHex := bt_SignaturePayloadHex r; bt_ValidUntilLedger := bt_ValidUntilLedger r;
     bt_SimulationResultXdr := bt_SimulationResultXdr r; bt_SubmitMethod := ""; bt_SmartAccountAuthEntryXdr := "";
     bt_GAddressPreimageXdr := ""; bt_GAddressEntryTemplateXdr := ""; bt_DelegatedAuthG := bt_DelegatedAuthG r |}.

Definition BuildCounter (smartAccountAddress signerG : string) : M W BuildAuthTransactionResult :=
  let! ' (contextRuleID, discovery, incrementFn, seq) := counter_call smartAccountAddress in
  let! coreResult := buildAuthTransactionCore
    {| ai_smartAccountAddress := smartAccountAddress; ai_contextRuleID := contextRuleID;
       ai_signerType := if String.eqb signerG "" then "" else "delegated"; ai_signerG := signerG;
       ai_feePayerG := ""; ai_bundlerDelegatedAuthMode := false; ai_delegatedAuthG := ""; ai_dropAuthAddress := "" |}
    (bundler_tx seq incrementFn) in
  ret (counter_result coreResult discovery).

(** Only the first entry of the simulation is used. The rewritten entry is that of
    a slice made for the call: [rawEntry] itself keeps its signature. *)
Definition BuildDelegatedCounter (smartAccountAddress gAddress : string) : M W BuildDelegatedCounterResult :=
  let! ' (contextRuleID, _, incrementFn, seq) := counter_call smartAccountAddress in
  let! simTxB64 := wrap "build simulate tx" (bundler_tx seq incrementFn [] None) in
  let! sim := wrap "simulate transaction" (call (rpc_simulate simTxB64)) in
  let! entries := lift (simulated_entries "simulation failed" sim) in
  match setAddressCredentialExpiration (take 1 entries) (sim_LatestLedger sim) 60 with
  | (rawEntry :: _, validUntilLedger) =>
      let! sorobanData := wrap "decode soroban transaction data" (lift (soroban_data_decode (sim_TransactionData sim))) in
      let! finalTxB64 := wrap "build final tx" (bundler_tx seq incrementFn [rawEntry] (Some sorobanData)) in
      let! authDigest := wrap "compute auth digest"
        (lift (computeAuthDigest rawEntry networkPassphrase [contextRuleID])) in
      let! _ := lift (rewriteSmartAccountEntrySignature [rawEntry] 0 gAddress [contextRuleID]) in
      let! smartAccountAuthEntryB64 := wrap "encode smart account auth entry" (lift (entry_marshal_b64 rawEntry)) in
      let! ' (preimageXdr, templateXdr) :=
        buildDelegatedSigningTemplates smartAccountAddress gAddress authDigest validUntilLedger in
      ret {| bd_TxXdr := finalTxB64; bd_SmartAccountAuthEntryXdr := smartAccountAuthEntryB64;
             bd_GAddressPreimageXdr := preimageXdr; bd_GAddressEntryTemplateXdr := templateXdr;
             bd_AuthDigestHex := hex_encode authDigest; bd_ValidUntilLedger := validUntilLedger;
             bd_ContextRuleID := contextRuleID |}
  | ([], _) => throw (Errorf "no auth entries in simulation result")
  end.

(** [BundlerAddress] *)
Definition BundlerAddress : string := bundlerG.
End BuildTx.
End BuildTx.
