(* ===== verification/SmartAccounts.v ===== *)
(** * The smart-account factory (smartaccount_service.go, smartaccount_ed25519.go,
    delegated_service.go)

    A smart account's address is a function of its factory and its initial
    parameters: the service reads it by simulation, and creates the account with
    a sponsored [create_account]. The service is an instance of the factory
    interface the draft service is proved against. *)

From S2P Require Export Submit.
From S2P Require Import Sha256 Instances DemoProposals SubmitBatch.

Module SmartAccounts.
Import Signers Submit.

Definition webauthnSaltVersion : string := "webauthn-v1".
Definition ed25519SaltVersion : string := "factory-v2".
Definition delegatedSaltVersion : string := "freighter-delegated-v1".
Definition predictTimeoutSeconds : Z := 30.
Definition deployPollAttempts : nat := 30.

(** [keypair.Random().Address()] of the Stellar SDK, by the n-th effect. *)
Class KeypairLib := { keypair_random : nat -> res string }.
Class FactoryConfig := { factoryAddress : string }.
(** Horizon has the account (200 on /accounts/...); friendbot's status. *)
Class Friendbot := { horizon_account_ok : string -> nat -> bool; friendbot_status : string -> nat -> res Z }.

(** ** Key material and initial parameters *)
Definition BuildKeyDataHex (rawPubKey credentialIDBytes : string) : string :=
  hex_encode rawPubKey +:+ hex_encode credentialIDBytes.
Definition DeriveWebauthnSalt (keyDataHex : string) : string := Sha256.Sum256 (keyDataHex +:+ webauthnSaltVersion).
Definition DeriveEd25519Salt (publicKeyHex : string) : string := Sha256.Sum256 (publicKeyHex +:+ ed25519SaltVersion).

Definition single_signer_params (kind keyData salt : string) : ScVal :=
  scMap [scMapEntry "account_salt" (scBytes salt);
         scMapEntry "signers" (scVec [scVec [scSymbol "External";
           scMap [scMapEntry "key_data" (scBytes keyData); scMapEntry "signer_kind" (scVec [scSymbol kind])]]]);
         scMapEntry "threshold" scVoid].
Definition buildWebauthnAccountInitParams (keyDataHex salt : string) : res ScVal :=
  let? keyData := res_wrap "decode keyDataHex" (hex_decode keyDataHex) in
  Ok (single_signer_params "WebAuthn" keyData salt).
Definition buildEd25519AccountInitParams (publicKeyHex salt : string) : res ScVal :=
  let? keyData := res_wrap "decode publicKeyHex" (hex_decode publicKeyHex) in
  Ok (single_signer_params "Ed25519" keyData salt).

(** [base64.RawURLEncoding]; a failure panics. *)
Definition panic_decode_credential_id : error := Errorf "panic: decode credential id".
Definition mustDecodeCredentialID (credentialIDB64 : string) : res string :=
  match Base64.RawURLEncoding_DecodeString credentialIDB64 with
  | Ok b => Ok b
  | Err _ => Err panic_decode_credential_id
  end.

Record RegisteredCredential := { rc_CredentialID : string; rc_RawPublicKey : string; rc_COSEPublicKey : string }.

Section SmartAccounts.
Context `{StellarSDK} `{Network} `{SubmitNetwork} `{Gasless} `{UuidLib} `{Env} `{ServiceConfig} `{KeypairLib} `{FactoryConfig} `{Friendbot}.
Abbreviation W := (World Store).

Definition predict_params (dummy contractID : string) (params : ScVal) : TxParams :=
  {| tp_SourceAccount := dummy; tp_Sequence := 0;
     tp_Operations := [{| op_Function := invokeContractHostFunction contractID "get_account_address" [params];
                          op_SourceAccount := dummy; op_Auth := []; op_SorobanData := None |}];
     tp_BaseFee := MinBaseFee; tp_Timeout := predictTimeoutSeconds; tp_IncrementSequenceNum := false |}.

Definition PredictAddress (params : ScVal) : M W string :=
  let! dummy := wrap "generate dummy keypair" (call keypair_random) in
  let! factoryContractID := wrap "decode factory address" (lift (contractIDFromAddress factoryAddress)) in
  let! txB64 := wrap "build predict tx" (call (fun n => tx_build n (predict_params dummy factoryContractID params))) in
  let! sim := wrap "simulate get_account_address" (call (rpc_simulate txB64)) in
  if negb (String.eqb (sim_Error sim) "") then throw (Errorf "get_account_address simulation failed") else
  match sim_Results sim with
  | [] => throw (Errorf "get_account_address returned no result")
  | (xdr, _) :: _ =>
      if String.eqb xdr "" then throw (Errorf "get_account_address returned no result") else
      let! retval := wrap "decode get_account_address result" (lift (scval_unmarshal_b64 xdr)) in
      lift (scValToContractAddress retval)
  end.

Definition IsDeployed (contractAddress : string) : M W bool :=
  let! contractID := wrap "decode contract address" (lift (contractIDFromAddress contractAddress)) in
  let! keyXDR := wrap "marshal ledger key" (lift (instance_key_b64 contractID)) in
  let! entries := wrap "get ledger entries" (call (rpc_ledger_entries [keyXDR])) in
  ret (0 <? entries)%nat.

Definition pending_deploy : error := Wrapf "create_account not yet visible" ErrGaslessPending.

Fixpoint poll_deploy_from (attempts : nat) (txHash : string) : M W string :=
  match attempts with
  | O => throw pending_deploy
  | S attempts' =>
      let! r := attempt (call (rpc_get_transaction txHash)) in
      match r with
      | Err e =>
          let! cancelled := call (fun n => Ok (ctx_err n)) in
          match cancelled with
          | Some _ => throw pending_deploy
          | None => throw (Wrapf "poll create_account tx" e)
          end
      | Ok txResult =>
          if String.eqb (gt_Status txResult) RPCStatusSuccess then
            if String.eqb (gt_ResultMetaXdr txResult) "" then ret ""
            else lift (extractReturnAddress (gt_ResultMetaXdr txResult))
          else if String.eqb (gt_Status txResult) RPCStatusNotFound then
            let! cancelled := call (fun n => Ok (ctx_err n)) in
            match cancelled with
            | Some _ => throw pending_deploy
            | None => poll_deploy_from attempts' txHash
            end
          else throw (Errorf "create_account has another status on latch-api's RPC")
      end
  end.
Definition pollDeployResult (txHash : string) : M W string := poll_deploy_from deployPollAttempts txHash.

(** After the gasless service's answer. *)
Definition confirm_deploy (predictedAddress : string) (result : SubmitResult) : M W (string * bool) :=
  if negb (String.eqb (sr_Status result) RPCStatusSuccess) then throw (Wrapf "create_account" ErrGaslessPending) else
  let! actual := pollDeployResult (sr_Hash result) in
  let actual := if String.eqb actual "" then predictedAddress else actual in
  if negb (String.eqb actual predictedAddress) then throw (Errorf "deterministic address mismatch")
  else ret (actual, false).

Definition Deploy (params : ScVal) (predictedAddress : string) : M W (string * bool) :=
  let! deployed := wrap "check deployment" (IsDeployed predictedAddress) in
  if (deployed : bool) then ret (predictedAddress, true) else
  let! factoryContractID := wrap "decode factory address" (lift (contractIDFromAddress factoryAddress)) in
  let createFn := invokeContractHostFunction factoryContractID "create_account" [params] in
  let! result := wrap "create_account" (submitSponsored predictedAddress createFn []) in
  confirm_deploy predictedAddress result.

(** ** The routes *)
Definition query_account (params : res ScVal) : M W (string * bool) :=
  let! params := wrap "build account init params" (lift params) in
  let! address := wrap "predict smart account address" (PredictAddress params) in
  let! deployed := wrap "check deployment" (IsDeployed address) in
  ret (address, deployed).
Definition Query (keyDataHex : string) : M W (string * bool) :=
  query_account (buildWebauthnAccountInitParams keyDataHex (DeriveWebauthnSalt keyDataHex)).
Definition QueryEd25519 (publicKeyHex : string) : M W (string * bool) :=
  query_account (buildEd25519AccountInitParams publicKeyHex (DeriveEd25519Salt publicKeyHex)).

Definition deploy_account (params : res ScVal) : M W (string * bool) :=
  let! params := lift params in
  let! predicted := wrap "predict smart account address" (PredictAddress params) in
  Deploy params predicted.
Definition DeployByKeyData (keyDataHex : string) : M W (string * bool) :=
  deploy_account (res_wrap "build account init params"
                    (buildWebauthnAccountInitParams keyDataHex (DeriveWebauthnSalt keyDataHex))).
Definition DeployByPublicKey (publicKeyHex : string) : M W (string * bool) :=
  deploy_account (res_wrap "build account init params"
                    (buildEd25519AccountInitParams publicKeyHex (DeriveEd25519Salt publicKeyHex))).
Definition DeployMultisig (signers : list MultisigSignerInit) (threshold : Z) (salt : string) : M W (string * bool) :=
  if (length signers <? 2)%nat then throw (Errorf "multisig deploy requires at least 2 signers") else
  if (threshold <? 1) || (Z.of_nat (length signers) <? threshold) then throw (Errorf "threshold out of range") else
  deploy_account (res_wrap "build multisig account init params" (buildMultisigAccountInitParams threshold salt signers)).

(** ** delegated_service.go; the signer value is setup_rules_service.go's *)
Definition buildDelegatedSignerScVal (gAddress : string) : res ScVal :=
  let? addrVal := res_wrap "resolve delegated signer address" (scAddress gAddress) in
  Ok (scVec [scSymbol "Delegated"; addrVal]).
Definition DeriveDelegatedSalt (gAddress : string) : string := Sha256.Sum256 (gAddress +:+ delegatedSaltVersion).
Definition buildDelegatedAccountInitParams (gAddress salt : string) : res ScVal :=
  let? delegatedSigner := res_wrap "resolve delegated signer address" (buildDelegatedSignerScVal gAddress) in
  Ok (scMap [scMapEntry "account_salt" (scBytes salt); scMapEntry "signers" (scVec [delegatedSigner]);
             scMapEntry "threshold" scVoid]).
Definition QueryDelegated (gAddress : string) : M W (string * bool) :=
  let! params := lift (buildDelegatedAccountInitParams gAddress (DeriveDelegatedSalt gAddress)) in
  let! address := wrap "predict smart account address" (PredictAddress params) in
  let! deployed := wrap "check deployment" (IsDeployed address) in
  ret (address, deployed).
(** The account exists, or friendbot answers with a 2xx status. *)
Definition fundTestnetAccountIfNeeded (gAddress : string) : M W unit :=
  let! exists_already := call (fun n => Ok (horizon_account_ok gAddress n)) in
  if (exists_already : bool) then ret tt else
  let! status := wrap "call friendbot" (call (friendbot_status gAddress)) in
  if (status <? 200) || (300 <=? status) then throw (Errorf "friendbot funding failed") else ret tt.
Definition DeployDelegated (gAddress : string) : M W (string * bool) :=
  let! _ := wrap "fund account" (fundTestnetAccountIfNeeded gAddress) in
  deploy_account (buildDelegatedAccountInitParams gAddress (DeriveDelegatedSalt gAddress)).

Definition DeployForCredential (userID : string) (cred : RegisteredCredential)
    : M W (string * string * string * bool * bool) :=
  let! credentialIDBytes := lift (mustDecodeCredentialID (rc_CredentialID cred)) in
  let keyDataHex := BuildKeyDataHex (rc_RawPublicKey cred) credentialIDBytes in
  let salt := DeriveWebauthnSalt keyDataHex in
  let saltHex := hex_encode salt in
  let! params := wrap "build account init params" (lift (buildWebauthnAccountInitParams keyDataHex salt)) in
  let! predicted := wrap "predict smart account address" (PredictAddress params) in
  let! ' (address, alreadyDeployed) := wrap "deploy smart account" (Deploy params predicted) in
  let! uid := wrap "parse user id" (lift (parse_uuid userID)) in
  let! id := new_uuid in
  let! now := now_ms in
  let! _ := wrap "store smart account" (exec (UpsertSmartAccount
    {| sa_ID := id; sa_UserID := uid; sa_CredentialID := rc_CredentialID cred; sa_KeyDataHex := keyDataHex;
       sa_SaltHex := saltHex; sa_SmartAccountAddress := address; sa_Deployed := 1; sa_CreatedAt := now |})) in
  ret (keyDataHex, saltHex, address, true, alreadyDeployed).

Definition GetByCredentialID (credentialID : string) : M W (string * string * bool) :=
  let! row := wrap "get smart account for credential" (query (GetSmartAccountByCredentialID credentialID)) in
  ret (sa_SmartAccountAddress row, sa_KeyDataHex row, negb (sa_Deployed row =? 0)).
End SmartAccounts.

(** ** What a deployment leaves *)
Section Laws.
Context `{StellarSDK} `{Network} `{SubmitNetwork} `{Gasless} `{Env} `{ServiceConfig} `{FactoryConfig}.
Abbreviation W := (World Store).

Lemma keeps_IsDeployed a : keeps (on_store eq) (IsDeployed a).
Proof using All. unfold IsDeployed. keeps. Qed.
Lemma keeps_poll_deploy n h : keeps (on_store eq) (poll_deploy_from n h).
Proof using All. induction n as [|n IH]; cbn [poll_deploy_from]; keeps. Qed.
Hint Resolve keeps_IsDeployed keeps_poll_deploy : keeps.
Lemma keeps_confirm_deploy a r : keeps (on_store eq) (confirm_deploy a r).
Proof using All. unfold confirm_deploy, pollDeployResult. keeps. Qed.

(** The ledger has the contract's instance. *)
Definition instance_at (address : string) : Prop :=
  exists contractID key n entries, contractIDFromAddress address = Ok contractID /\
    instance_key_b64 contractID = Ok key /\ rpc_ledger_entries [key] n = Ok entries /\ (0 < entries)%nat.

(** The service's own RPC has seen the creation land, at this address if it says
    where. *)
Definition landed_at (address : string) : Prop :=
  exists hash n t, rpc_get_transaction hash n = Ok t /\ gt_Status t = RPCStatusSuccess /\
    (gt_ResultMetaXdr t = "" \/
     exists actual, extractReturnAddress (gt_ResultMetaXdr t) = Ok actual /\ (actual = "" \/ actual = address)).

(** The one request a deployment may send: the factory's [create_account] with
    these parameters, sponsored for this wallet. Its request id is a function of
    the parameters alone. *)
Definition creation (params : ScVal) (address : string) (c : ChainWrite) : Prop :=
  exists factory, contractIDFromAddress factoryAddress = Ok factory /\
    gasless_sends GaslessModeSponsored address
      (invokeContractHostFunction factory "create_account" [params]) [] c.

Lemma IsDeployed_ok a (w w' : W) b : IsDeployed a w = (Ok b, w') -> b = true -> instance_at a.
Proof using Type.
  unfold IsDeployed. intros Hr Hb. run_inv. apply Nat.ltb_lt in Hb. eexists _, _, _, _. eauto.
Qed.

Lemma poll_deploy_ok attempts h (w w' : W) b : poll_deploy_from attempts h w = (Ok b, w') ->
  exists n t, rpc_get_transaction h n = Ok t /\ gt_Status t = RPCStatusSuccess /\
    (gt_ResultMetaXdr t = "" /\ b = "" \/ extractReturnAddress (gt_ResultMetaXdr t) = Ok b).
Proof using Type.
  revert w. induction attempts as [|k IH]; intros w; cbn [poll_deploy_from]; [done|]. intros Hr.
  apply bind_ok in Hr as (r & w1 & Ha & Hr). unfold attempt in Ha.
  destruct r as [t|e].
  - assert (rpc_get_transaction h (w_io w) = Ok t) as Ht by (unfold call in Ha; by injection Ha as ?).
    destruct (String.eqb_spec (gt_Status t) RPCStatusSuccess) as [Es|].
    { exists (w_io w), t. split; [done|]. split; [done|].
      destruct (String.eqb_spec (gt_ResultMetaXdr t) ""); run_inv; [by left|by right]. }
    destruct (String.eqb _ RPCStatusNotFound); [|by run_inv].
    apply bind_ok in Hr as (c & w2 & Hc & Hr). destruct c; [by run_inv|]. by apply IH in Hr.
  - apply bind_ok in Hr as (c & w2 & Hc & Hr). by destruct c; run_inv.
Qed.

Lemma confirm_deploy_ok a r (w w' : W) b already :
  confirm_deploy a r w = (Ok (b, already), w') -> b = a /\ already = false /\ landed_at a.
Proof using Type.
  unfold confirm_deploy. destruct (negb _); [done|]. intros Hr.
  apply bind_ok in Hr as (actual & w1 & Ha & Hr). apply poll_deploy_ok in Ha as (n & t & Ht & Es & Hx).
  destruct (String.eqb_spec (if String.eqb actual "" then a else actual) a) as [E|]; [|by run_inv].
  cbn [negb] in Hr. rewrite E in Hr. run_inv. simplify_eq. split; [done|]. split; [done|]. exists (sr_Hash r), n, t. split; [done|]. split; [done|].
  destruct Hx as [[? _]|Hx]; [by left|right]. exists actual. split; [done|].
  destruct (String.eqb_spec actual "") as [->|]; [by left|by right].
Qed.

(** What a deployment's answer says of the store before and after it. *)
Definition deploy_outcome (params : ScVal) (a : string) (r : res (string * bool)) (d d' : Store) : Prop :=
  (d' = d /\ (is_ok r = false \/ r = Ok (a, true) /\ instance_at a)) \/
  (exists c, creation params a c /\ d' = set_chain (chain d ++ [c]) d /\
     forall b already, r = Ok (b, already) -> b = a /\ already = false /\ landed_at a).
Lemma Deploy_run params a (w w' : W) r : Deploy params a w = (r, w') -> deploy_outcome params a r (w_store w) (w_store w').
Proof using All.
  unfold Deploy, deploy_outcome. intros Hr. pose proof (keeps_IsDeployed a w) as Hk. unfold on_store in Hk.
  unfold bind at 1, wrap at 1 in Hr. destruct (IsDeployed a w) as [[deployed|e] w1] eqn:Ed; cbn in Hk.
  2: { injection Hr as <- <-. left. split; [done|by left]. }
  destruct deployed.
  { injection Hr as <- <-. left. split; [done|]. right. split; [done|]. by eapply IsDeployed_ok. }
  unfold bind at 1, wrap at 1, lift in Hr. destruct (contractIDFromAddress factoryAddress) as [factory|e] eqn:Ef.
  2: { injection Hr as <- <-. left. split; [done|by left]. }
  pose proof (sends_submitGasless (w_store w) GaslessModeSponsored a
    (invokeContractHostFunction factory "create_account" [params]) [] w1) as Hs.
  unfold bind, wrap, submitSponsored in Hr.
  destruct (submitGasless _ _ _ _ w1) as [[res|e] w2]; specialize (Hs _ _ (eq_sym Hk) eq_refl).
  - destruct Hs as [[_ [=]]|(c & Hc & Hw)]. right. exists c. split; [by exists factory|].
    pose proof (keeps_run _ _ _ _ _ (keeps_confirm_deploy a res) Hr) as Hk'. split; [by rewrite <- Hk'|].
    intros b already ->. by eapply confirm_deploy_ok.
  - injection Hr as <- <-. destruct Hs as [[Hw _]|(c & Hc & Hw)]; [left; split; [done|by left]|].
    right. exists c. split; [by exists factory|]. by split.
Qed.

(** A deployment sends nothing or one thing. It sends nothing when the
    account's contract is already there, which it reports, or when it fails
    before; otherwise it sends the factory's [create_account] with exactly the
    given parameters, sponsored for the predicted address, under a request id
    that depends on the parameters alone, so that a retry is the same request.
    It succeeds only with the predicted address, and only when the service's own
    RPC has seen the transaction succeed and return that address or none. *)
Theorem deploy_spec params a (w w' : W) r :
  Deploy params a w = (r, w') -> deploy_outcome params a r (w_store w) (w_store w').
Proof using All. apply Deploy_run. Qed.

Lemma Deploy_keeps params a : keeps (on_store only_chain) (Deploy params a).
Proof using All.
  intros w. unfold Deploy. revert w. change (keeps (on_store only_chain) (Deploy params a)). unfold Deploy, submitSponsored.
  assert (forall m fn es, keeps (on_store only_chain) (submitGasless m a fn es)) as Hg.
  { intros m fn es. apply (sends_only_chain _ (fun _ => gasless_sends m a fn es)). intros d. apply sends_submitGasless. }
  assert (forall r, keeps (on_store only_chain) (confirm_deploy a r)) as Hc
    by (intros r; apply keeps_store_eq; [apply _|apply keeps_confirm_deploy]).
  assert (keeps (on_store only_chain) (IsDeployed a)) as Hi
    by (apply keeps_store_eq; [apply _|apply keeps_IsDeployed]).
  keeps.
Qed.

Lemma Deploy_predicted params a (w : W) b already w' : Deploy params a w = (Ok (b, already), w') -> b = a.
Proof using Type.
  unfold Deploy. intros Hr. apply bind_ok in Hr as (deployed & w1 & Hd & Hr).
  destruct deployed; [run_inv; by simplify_eq|]. apply bind_ok in Hr as (f & w2 & _ & Hr). apply bind_ok in Hr as (res & w3 & _ & Hr).
  by apply confirm_deploy_ok in Hr as [-> _].
Qed.

Lemma keeps_PredictAddress `{KeypairLib} params : keeps (on_store eq) (PredictAddress params).
Proof using All. unfold PredictAddress. keeps. Qed.

(** The service implements the interface of the draft flow. *)
#[export] Instance smart_account_factory `{KeypairLib} : SmartAccountFactory := {|
  Service.PredictAddress := PredictAddress; Service.Deploy := Deploy;
  PredictAddress_store := keeps_PredictAddress; Deploy_store := Deploy_keeps; Deploy_address := Deploy_predicted;
|}.
End Laws.

(** A route that derives the parameters, predicts and deploys. *)
Section Route.
Context `{StellarSDK} `{Network} `{SubmitNetwork} `{Gasless} `{Env} `{ServiceConfig} `{KeypairLib} `{FactoryConfig}.
Lemma deploy_account_run (params : res ScVal) (w w' : World Store) r : deploy_account params w = (r, w') ->
  w_store w' = w_store w \/
  exists p a c, params = Ok p /\ creation p a c /\ w_store w' = set_chain (chain (w_store w) ++ [c]) (w_store w).
Proof using All.
  unfold deploy_account. intros Hr. destruct params as [p|e]; [|injection Hr as _ <-; by left].
  unfold bind, lift, wrap in Hr. pose proof (keeps_PredictAddress p w) as Hk. unfold on_store in Hk.
  destruct (PredictAddress p w) as [[a|e] w1]; cbn in Hk; [|injection Hr as _ <-; by left].
  apply Deploy_run in Hr as [[E _]|(c & Hc & E & _)]; rewrite E, <- Hk; [by left|right].
  by exists p, a, c.
Qed.
End Route.

Section Witnesses.
Import Demo DemoProposals DemoSubmit SubmitBatch.
#[local] Instance demo_keypair : KeypairLib := {| keypair_random n := Ok "GD" |}.
#[local] Instance demo_factory_config : FactoryConfig := {| factoryAddress := "CF" |}.

Definition demo_params : ScVal := single_signer_params "WebAuthn" "k" "s".
Definition deploy_run : M (World Store) (string * bool) := Deploy (H := demo_sdk) (H4 := demo_e) demo_params "CA".

Lemma deploy_spec_witness :
  exists w', deploy_run world0 = (Ok ("CA", false), w') /\
    exists c, creation (H := demo_sdk) demo_params "CA" c /\ chain (w_store w') = [c].
Proof.
  assert (sent_by deploy_run = Some (("CA", false), 1%nat)) as Hsent by (vm_compute; reflexivity).
  destruct (sent_by_runs _ _ _ Hsent) as (w' & Hr). exists w'. split; [exact Hr|].
  destruct (deploy_spec (H := demo_sdk) (H0 := demo_n) (H3 := demo_e) demo_params "CA" world0 w' _ Hr)
    as [[_ [[=]|[[=] _]]]|(c & Hc & -> & _)]. by exists c.
Defined.
End Witnesses.
End SmartAccounts.
