(* ===== verification/AccountSigners.v ===== *)
(** * Signers of a single-owner account (account_signer_service.go,
    account_signer_confirm.go, backup_passkey_service.go, accounts_service.go,
    passkey_credential_service.go and the handlers that use them)

    A backup passkey is attached as a pending row, put on the account by a
    transaction the client submits, and confirmed by reading that transaction
    back from the chain. The recovery index maps a credential to the account it
    signs for. A request that fails ends in [fail], with the status and code of
    the answer; audit records and notifications, which never change the answer,
    are left out. *)

From S2P Require Export Submit Sessions SmartAccounts Deploynet.
From S2P Require Import Instances.

Module AccountSigners.
Import Sessions Submit SmartAccounts Deploynet.

Definition ErrAccountSignerUnknownAccount : error := Sentinel "ErrAccountSignerUnknownAccount".
Definition ErrAccountSignerNotFound : error := Sentinel "ErrAccountSignerNotFound".
Definition ErrChainCallNotSuccessful : error := Sentinel "ErrChainCallNotSuccessful".
Definition ErrChainCallMismatch : error := Sentinel "ErrChainCallMismatch".
Definition ErrValidation : error := Sentinel "ErrValidation".
Definition ErrBackupPasskeySmartAccountNotFound : error := Sentinel "ErrBackupPasskeySmartAccountNotFound".
Definition backupPasskeyIntentSignerType : string := "backup_passkey_intent".
Definition defaultBackupPasskeyLabel : string := "backup-passkey".
Definition backupSignerRuleName : string := "backup".
Definition webauthnPubKeyHexLen : nat := 130.

(** setup_rules_service.go *)
Definition buildDefaultContextType : ScVal := scVec [scSymbol "Default"].
Definition buildExternalSignerScVal `{StellarSDK} (verifierAddress keyData : string) : res ScVal :=
  let? verifierVal := res_wrap "resolve verifier address" (scAddress verifierAddress) in
  Ok (scVec [scSymbol "External"; verifierVal; scBytes keyData]).

(** blind_ids.go: [^C[A-Z2-7]{55}$] *)
Definition base32_char (c : ascii) : bool :=
  let n := nat_of_ascii c in ((65 <=? n) && (n <=? 90) || (50 <=? n) && (n <=? 55))%nat.
Definition IsContractAddress (s : string) : bool :=
  match s with
  | String c rest => Ascii.eqb c "C" && (String.length rest =? 55)%nat && str_forall base32_char rest
  | "" => false
  end.

Section AccountSigners.
Context `{StellarSDK} `{SubmitNetwork} `{UuidLib} `{Unicode} `{Deployment} `{Env} `{ServiceConfig}.
Abbreviation W := (World Store).

(** ** account_signer_service.go *)
Definition nullString (s : string) : option string := if String.eqb s "" then None else Some s.

Definition AttachCredential (smartAccountAddress credentialID label : string) : M W unit :=
  let! _ := or_no_rows ErrAccountSignerUnknownAccount "get smart account"
              (query (GetSmartAccountByAddress smartAccountAddress)) in
  let! id := new_uuid in
  let! now := now_ms in
  let! _ := wrap "attach signer credential"
    (exec (UpsertPendingCredentialSigner id smartAccountAddress credentialID (nullString label) now)) in
  ret tt.

Definition signerCredentialIDs (smartAccountAddress : string) : M W (list string) :=
  let! account := or_no_rows ErrAccountSignerUnknownAccount "get smart account"
                    (query (GetSmartAccountByAddress smartAccountAddress)) in
  let! rows := wrap "list account signers" (query (ListAccountSignerCredentialIDsForAddress smartAccountAddress)) in
  ret (sa_CredentialID account :: omap (fun r => r) rows).

Definition IsSignerOfAccount (credentialID smartAccountAddress : string) : M W bool :=
  let! ids := signerCredentialIDs smartAccountAddress in ret (existsb (String.eqb credentialID) ids).
Definition HasOtherSignerCredential (smartAccountAddress excludingCredentialID : string) : M W bool :=
  let! ids := signerCredentialIDs smartAccountAddress in
  ret (existsb (fun id => negb (String.eqb id excludingCredentialID)) ids).

(** The id goes through the column's signed 32 bits. *)
Definition MarkSignerContextRule (smartAccountAddress credentialID : string) (contextRuleID : Z) : M W unit :=
  wrap "mark signer context rule"
    (exec (SetAccountSignerContextRuleID smartAccountAddress credentialID (Some (int32 contextRuleID)))).
Definition GetSignerContextRuleID (smartAccountAddress credentialID : string) : M W (option Z) :=
  let! row := or_no_rows ErrAccountSignerNotFound "get account signer"
                (query (GetAccountSignerByCredential smartAccountAddress credentialID)) in
  ret (uint32 <$> as_ContextRuleID row).
Definition RemoveCredential (smartAccountAddress credentialID : string) : M W unit :=
  wrap "delete account signer" (exec (DeleteAccountSignerByCredential smartAccountAddress credentialID)).
Definition ResolveByCredentialID (credentialID : string) : M W string :=
  let! row := or_no_rows ErrAccountSignerNotFound "get account signer by credential"
                (query (GetAccountSignerByCredentialID credentialID)) in
  ret (as_SmartAccountAddress row).

(** ** account_signer_confirm.go *)
Definition fetchSettledInvocation (txHash : string) : M W (decodedInvocation * string) :=
  let! txResult := wrap "fetch transaction" (call (rpc_get_transaction txHash)) in
  if negb (String.eqb (gt_Status txResult) RPCStatusSuccess) then throw ErrChainCallNotSuccessful else
  let! invocation := wrap "decode invoked function" (lift (decodeSingleInvocation (gt_EnvelopeXdr txResult))) in
  ret (invocation, gt_ResultMetaXdr txResult).

Fixpoint same_args (args expected : list ScVal) : bool :=
  match args, expected with
  | [], [] => true
  | a :: args, e :: expected => scValEqual a e && same_args args expected
  | _, _ => false
  end.
Definition verifyInvocation (invocation : decodedInvocation) (smartAccountAddress functionName : string)
    (expectedArgs : list ScVal) : res unit :=
  let? wantContractID := res_wrap "resolve smart account contract" (contractIDFromAddress smartAccountAddress) in
  if negb (String.eqb (di_ContractID invocation) wantContractID) then Err ErrChainCallMismatch else
  if negb (String.eqb (di_FunctionName invocation) functionName) then Err ErrChainCallMismatch else
  if negb (same_args (di_Args invocation) expectedArgs) then Err ErrChainCallMismatch else Ok tt.

Definition expected_signer (keyDataHex : string) : res ScVal :=
  if String.eqb webauthnVerifierAddress "" then Err (Errorf "webauthn verifier address not configured") else
  let? keyBytes := res_wrap "decode keyDataHex" (hex_decode keyDataHex) in
  buildExternalSignerScVal webauthnVerifierAddress keyBytes.

Definition ConfirmAddSigner (smartAccountAddress : string) (contextRuleID : Z) (keyDataHex txHash : string) : M W Z :=
  let! expectedSigner := lift (expected_signer keyDataHex) in
  let! ' (invocation, meta) := fetchSettledInvocation txHash in
  let! _ := lift (verifyInvocation invocation smartAccountAddress "add_signer" [scU32 contextRuleID; expectedSigner]) in
  wrap "extract signer_id" (lift (extractReturnU32 meta)).
Definition ConfirmRemoveSigner (smartAccountAddress : string) (contextRuleID signerID : Z) (txHash : string) : M W unit :=
  let! ' (invocation, _) := fetchSettledInvocation txHash in
  lift (verifyInvocation invocation smartAccountAddress "remove_signer" [scU32 contextRuleID; scU32 signerID]).

Definition add_rule_args (signer : ScVal) : list ScVal :=
  [buildDefaultContextType; scString backupSignerRuleName; scVoid; scVec [signer]; scMap []].
Definition ConfirmAddSignerRule (smartAccountAddress keyDataHex txHash : string) : M W Z :=
  let! expectedSigner := lift (expected_signer keyDataHex) in
  let! ' (invocation, meta) := fetchSettledInvocation txHash in
  let! _ := lift (verifyInvocation invocation smartAccountAddress "add_context_rule" (add_rule_args expectedSigner)) in
  wrap "extract context rule id" (lift (extractReturnContextRuleID meta)).
Definition ConfirmRemoveSignerRule (smartAccountAddress : string) (contextRuleID : Z) (txHash : string) : M W unit :=
  let! ' (invocation, _) := fetchSettledInvocation txHash in
  lift (verifyInvocation invocation smartAccountAddress "remove_context_rule" [scU32 contextRuleID]).

(** ** passkey_credential_service.go *)
Definition credentialIDFromKeyData (keyDataHex : string) : res string :=
  if (String.length keyDataHex <=? webauthnPubKeyHexLen)%nat then Err (Wrapf "key_data_hex" ErrValidation)
  else Ok (str_drop webauthnPubKeyHexLen keyDataHex).
Definition Register (keyDataHex smartAccountAddress label : string) (seq : Z) : M W unit :=
  let! credentialID := lift (credentialIDFromKeyData keyDataHex) in
  match hex_decode keyDataHex with
  | Err _ => throw (Wrapf "key_data_hex must be hex" ErrValidation)
  | Ok _ =>
      if negb (IsContractAddress smartAccountAddress) then throw (Wrapf "smart_account_address" ErrValidation) else
      let! _ := wrap "upsert passkey credential" (exec (UpsertPasskeyCredential
        {| pc_CredentialID := credentialID; pc_KeyDataHex := keyDataHex;
           pc_SmartAccountAddress := smartAccountAddress; pc_Label := label; pc_Seq := seq |})) in
      ret tt
  end.
Definition Deregister (keyDataHex : string) : M W unit :=
  let! credentialID := lift (credentialIDFromKeyData keyDataHex) in
  wrap "delete passkey credential" (exec (DeletePasskeyCredential credentialID)).

(** webauthn_service.go *)
Definition GetCredentialKeyDataHex (credentialID : string) : M W string :=
  let! cred := wrap "get webauthn credential" (query (GetWebauthnCredentialByCredentialID credentialID)) in
  if String.eqb (wc_P256RawPublicKey cred) "" then throw (Errorf "credential has no stored P-256 public key")
  else ret (BuildKeyDataHex (wc_P256RawPublicKey cred) (wc_CredentialIDBytes cred)).

(** ** backup_passkey_service.go *)
Definition RecordIntent (userID smartAccountAddress label : string) : M W unit :=
  let! uid := wrap "parse user id" (lift (parse_uuid userID)) in
  let! account := or_no_rows ErrBackupPasskeySmartAccountNotFound "get smart account"
                    (query (GetSmartAccountByAddress smartAccountAddress)) in
  if negb (bool_decide (sa_UserID account = uid)) then throw ErrBackupPasskeySmartAccountNotFound else
  let labelParam := Some (if String.eqb label "" then defaultBackupPasskeyLabel else label) in
  let! existing := attempt (query (GetAccountSignerIntent smartAccountAddress backupPasskeyIntentSignerType)) in
  match existing with
  | Ok row => wrap "update backup passkey intent label" (exec (UpdateAccountSignerIntentLabel (as_ID row) labelParam))
  | Err e =>
      if errors_is e ErrNoRows then
        let! id := new_uuid in
        let! now := now_ms in
        let! _ := wrap "insert backup passkey intent"
          (exec (InsertAccountSignerIntent id smartAccountAddress backupPasskeyIntentSignerType labelParam now)) in
        ret tt
      else throw (Wrapf "get backup passkey intent" e)
  end.

(** ** accounts_service.go *)
Record Account := { ac_SmartAccountAddress : string; ac_CredentialID : string; ac_Deployed : bool; ac_CreatedAt : Z }.
Definition account_of (row : WebappSmartAccount) : Account :=
  {| ac_SmartAccountAddress := sa_SmartAccountAddress row; ac_CredentialID := sa_CredentialID row;
     ac_Deployed := negb (sa_Deployed row =? 0); ac_CreatedAt := sa_CreatedAt row |}.

(** [q] with a missing row as [None]. *)
Definition optional {A} (ctx : string) (q : M W A) : M W (option A) :=
  let! r := attempt q in
  match r with
  | Ok a => ret (Some a)
  | Err e => if errors_is e ErrNoRows then ret None else throw (Wrapf ctx e)
  end.
Definition account_for_credential (seen : list string) (credID : string) : M W (option WebappSmartAccount) :=
  let! own := optional "get smart account by credential" (query (GetSmartAccountByCredentialID credID)) in
  match own with
  | Some row => ret (Some row)
  | None =>
      let! signerRow := optional "get account signer by credential" (query (GetAccountSignerByCredentialID credID)) in
      match signerRow with
      | None => ret None
      | Some s =>
          if existsb (String.eqb (as_SmartAccountAddress s)) seen then ret None
          else optional "get smart account by address" (query (GetSmartAccountByAddress (as_SmartAccountAddress s)))
      end
  end.
Fixpoint list_accounts (seen credentialIDs : list string) : M W (list Account) :=
  match credentialIDs with
  | [] => ret []
  | credID :: rest =>
      let! found := account_for_credential seen credID in
      match found with
      | None => list_accounts seen rest
      | Some row =>
          if existsb (String.eqb (sa_SmartAccountAddress row)) seen then list_accounts seen rest
          else let! out := list_accounts (sa_SmartAccountAddress row :: seen) rest in ret (account_of row :: out)
      end
  end.
Definition ListAccountsForProvedCredentials (credentialIDs : list string) : M W (list Account) :=
  list_accounts [] credentialIDs.
End AccountSigners.

(** ** Handlers: handler/webapp/account_signer.go and handler/backup_signer.go *)
Section Handlers.
Context `{StellarSDK} `{SubmitNetwork} `{UuidLib} `{Unicode} `{Deployment} `{Env} `{ServiceConfig}.
Abbreviation W := (World Store).

(** An answer other than success, by its status and code. *)
Definition fail {S A} (status code : string) : M S A := throw (Sentinel (status +:+ " " +:+ code)).
Definition or_fail {S A} (status code : string) (m : M S A) : M S A :=
  let! r := attempt m in
  match r with Ok a => ret a | Err _ => fail status code end.

(** The credential was proved by this session and signs for this account. *)
Definition requireProvedSigner (sessionID callerCredentialID smartAccountAddress : string) : M W unit :=
  if String.eqb callerCredentialID "" then fail "401" "signer_not_proved" else
  let! proved := or_fail "500" "internal_error" (HasProvedCredential sessionID callerCredentialID) in
  if negb proved then fail "403" "signer_not_proved" else
  let! isSigner := attempt (IsSignerOfAccount callerCredentialID smartAccountAddress) in
  match isSigner with
  | Err e => if errors_is e ErrAccountSignerUnknownAccount then fail "404" "unknown_account"
             else fail "500" "internal_error"
  | Ok b => if (b : bool) then ret tt else fail "403" "not_a_signer"
  end.

(** The codes of the two APIs: webappx/errors.go and httpx/errors.go. *)
Record ErrorCodes := { c_Internal : string; c_Validation : string; c_NetworkMismatch : string; c_Network : string }.
Definition webappx : ErrorCodes := {| c_Internal := "internal_error"; c_Validation := "validation_error";
  c_NetworkMismatch := "network_mismatch"; c_Network := "invalid_network" |}.
Definition httpx : ErrorCodes := {| c_Internal := "INTERNAL_ERROR"; c_Validation := "VALIDATION_ERROR";
  c_NetworkMismatch := "NETWORK_MISMATCH"; c_Network := "VALIDATION_ERROR" |}.

Definition failChainConfirm {S A} (api : ErrorCodes) (e : error) : M S A :=
  if errors_is e ErrChainCallNotSuccessful || errors_is e ErrChainCallMismatch then fail "400" (c_Validation api)
  else fail "500" (c_Internal api).
Definition chain_confirmed {S A} (api : ErrorCodes) (m : M S A) : M S A :=
  let! r := attempt m in
  match r with Ok a => ret a | Err e => failChainConfirm api e end.

Definition named_network {S} (api : ErrorCodes) (raw : string) : M S string :=
  match ParseNetwork raw with
  | Ok n => ret n
  | Err e => if errors_is e ErrMismatch then fail "400" (c_NetworkMismatch api) else fail "400" (c_Network api)
  end.

Record confirmAddSignerRequest := {
  ca_Network : string; ca_SmartAccountAddress : string; ca_KeyDataHex : string; ca_CredentialID : string;
  ca_Label : string; ca_Seq : Z; ca_TxHash : string; ca_CallerCredentialID : string }.
Record confirmRemoveSignerRequest := {
  cr_Network : string; cr_SmartAccountAddress : string; cr_CredentialID : string; cr_TxHash : string;
  cr_CallerCredentialID : string }.

Definition ConfirmAddSigner_handler (sessionID : string) (req : confirmAddSignerRequest) : M W Z :=
  let! _ := named_network webappx (ca_Network req) in
  let! _ := requireProvedSigner sessionID (ca_CallerCredentialID req) (ca_SmartAccountAddress req) in
  let! contextRuleID := chain_confirmed webappx
    (ConfirmAddSignerRule (ca_SmartAccountAddress req) (ca_KeyDataHex req) (ca_TxHash req)) in
  let! _ := or_fail "500" "signer_added_index_failed"
    (MarkSignerContextRule (ca_SmartAccountAddress req) (ca_CredentialID req) contextRuleID) in
  let! _ := or_fail "500" "signer_added_index_failed"
    (Register (ca_KeyDataHex req) (ca_SmartAccountAddress req) (ca_Label req) (ca_Seq req)) in
  ret contextRuleID.

(** [None]: there was no row left to remove. Leaving the recovery index is best
    effort. *)
Definition ConfirmRemoveSigner_handler (sessionID : string) (req : confirmRemoveSignerRequest) : M W (option Z) :=
  let! _ := named_network webappx (cr_Network req) in
  let! _ := requireProvedSigner sessionID (cr_CallerCredentialID req) (cr_SmartAccountAddress req) in
  let! found := attempt (GetSignerContextRuleID (cr_SmartAccountAddress req) (cr_CredentialID req)) in
  match found with
  | Err e => if errors_is e ErrAccountSignerNotFound then ret None else fail "500" "internal_error"
  | Ok None => fail "409" "signer_id_unknown"
  | Ok (Some contextRuleID) =>
      let! _ := chain_confirmed webappx (ConfirmRemoveSignerRule (cr_SmartAccountAddress req) contextRuleID (cr_TxHash req)) in
      let! _ := attempt (let! keyDataHex := GetCredentialKeyDataHex (cr_CredentialID req) in Deregister keyDataHex) in
      let! _ := or_fail "500" "internal_error" (RemoveCredential (cr_SmartAccountAddress req) (cr_CredentialID req)) in
      ret (Some contextRuleID)
  end.

(** The mobile API's routes, which need a signed-in user and nothing else. *)
Record confirmAddBackupSignerRequest := {
  ba_Network : string; ba_SmartAccountAddress : string; ba_ContextRuleID : Z; ba_KeyDataHex : string;
  ba_TxHash : string; ba_Label : string; ba_Seq : Z }.
Record confirmRemoveBackupSignerRequest := {
  br_Network : string; br_SmartAccountAddress : string; br_ContextRuleID : Z; br_SignerID : Z;
  br_KeyDataHex : string; br_TxHash : string }.

Definition ConfirmAddBackupSigner (req : confirmAddBackupSignerRequest) : M W Z :=
  let! _ := named_network httpx (ba_Network req) in
  let! signerID := chain_confirmed httpx
    (ConfirmAddSigner (ba_SmartAccountAddress req) (ba_ContextRuleID req) (ba_KeyDataHex req) (ba_TxHash req)) in
  let! _ := or_fail "500" "SIGNER_INDEX_FAILED"
    (Register (ba_KeyDataHex req) (ba_SmartAccountAddress req) (ba_Label req) (ba_Seq req)) in
  ret signerID.
Definition ConfirmRemoveBackupSigner (req : confirmRemoveBackupSignerRequest) : M W unit :=
  let! _ := named_network httpx (br_Network req) in
  let! _ := chain_confirmed httpx
    (ConfirmRemoveSigner (br_SmartAccountAddress req) (br_ContextRuleID req) (br_SignerID req) (br_TxHash req)) in
  let! _ := attempt (Deregister (br_KeyDataHex req)) in
  ret tt.
End Handlers.
End AccountSigners.
