(* ===== verification/SetupRules.v ===== *)
(** * Changing a smart account's rules (setup_rules_service.go of
    internal/service/webapp, and the build routes of handler/webapp/account_signer.go)

    Every transaction built here calls the smart account itself: it adds a
    [CallContract] rule for an asset, adds a signer to the Default rule, gives a
    backup passkey a Default rule of its own, or removes such a rule. *)

From S2P Require Export BuildTx AccountSigners.

Record SetupSendRulesInput := {
  sr_SmartAccountAddress : string; sr_SignerType : string; sr_AssetID : string; sr_AssetIDs : list string;
  sr_PublicKeyHex : string; sr_KeyDataHex : string; sr_GAddress : string }.
Record SetupSwapRulesInput := {
  ss_SmartAccountAddress : string; ss_SignerType : string; ss_RouterContractID : string;
  ss_PublicKeyHex : string; ss_KeyDataHex : string; ss_GAddress : string }.
Record addSignerRequest := {
  ar_Network : string; ar_SmartAccountAddress : string; ar_KeyDataHex : string; ar_CallerCredentialID : string }.
Record removeSignerRequest := {
  rr_Network : string; rr_SmartAccountAddress : string; rr_CredentialID : string; rr_CallerCredentialID : string }.

Module SetupRules.
Import Deploynet Assets Amount Balances ContextRules Signers ExecuteAuth Submit SubmitSigned Build BuildTx AccountSigners.

(** The results have two forms each: already configured, with the rule's id, or
    a transaction to sign. *)
Inductive SetupSendRulesResult :=
  | SendAlreadyConfigured
  | SendSetup (built : BuildAuthTransactionResult) (ConfiguredAsset : CatalogAsset) (RemainingSetupCount : nat).
Inductive SetupResult :=
  | AlreadyConfigured (ContextRuleID : Z)
  | SetupBuilt (built : BuildAuthTransactionResult) (ContextRuleID : Z).

Definition contextRuleNameMaxLen : nat := 20.
Definition ErrNoDefaultRule : error := Sentinel "ErrNoDefaultRule".
Definition ErrLastSigner : error := Sentinel "ErrLastSigner".
Definition ErrBackupSignerAlreadyConfigured : error := Sentinel "ErrBackupSignerAlreadyConfigured".

Definition buildContextRuleName (assetID prefix : string) : res string :=
  let name := prefix +:+ "-" +:+ assetID in
  if (contextRuleNameMaxLen <? String.length name)%nat then Err (Errorf "context rule name exceeds 20 chars") else Ok name.

Section Values.
Context `{StellarSDK}.

Definition buildCallContractContextType (contractID : string) : res ScVal :=
  let? addrVal := res_wrap "resolve contract address" (scAddress contractID) in
  Ok (scVec [scSymbol "CallContract"; addrVal]).

Definition buildDelegatedSignerScVal (gAddress : string) : res ScVal :=
  let? addrVal := res_wrap "resolve delegated signer address" (scAddress gAddress) in
  Ok (scVec [scSymbol "Delegated"; addrVal]).

Definition buildSignersVecForSetup (signerType verifierAddress publicKeyHex keyDataHex gAddress : string) : res ScVal :=
  if String.eqb signerType "ed25519" then
    if String.eqb verifierAddress "" || String.eqb publicKeyHex ""
    then Err (Errorf "verifierAddress and publicKeyHex required for ed25519 setup") else
    if negb (String.length publicKeyHex =? 64)%nat then Err (Errorf "publicKeyHex must be 64 hex chars") else
    let? keyBytes := res_wrap "decode publicKeyHex" (hex_decode publicKeyHex) in
    let? signer := buildExternalSignerScVal verifierAddress keyBytes in
    Ok (scVec [signer])
  else if String.eqb signerType "passkey" then
    if String.eqb verifierAddress "" || String.eqb keyDataHex ""
    then Err (Errorf "verifierAddress and keyDataHex required for passkey setup") else
    let? keyBytes := res_wrap "decode keyDataHex" (hex_decode keyDataHex) in
    let? signer := buildExternalSignerScVal verifierAddress keyBytes in
    Ok (scVec [signer])
  else if String.eqb signerType "delegated" then
    if String.eqb gAddress "" then Err (Errorf "gAddress required for delegated setup") else
    let? signer := buildDelegatedSignerScVal gAddress in
    Ok (scVec [signer])
  else Err (Errorf "unknown signerType").
End Values.

(** One asset, some of the catalog's, or all of them. *)
Definition resolveAssetsToConfigure (catalog : list CatalogAsset) (assetID : string) (assetIDs : list string)
    : res (list CatalogAsset) :=
  if negb (String.eqb assetID "") then
    let? asset := res_wrap "resolve asset" (ResolveAsset catalog assetID "") in Ok [asset]
  else match assetIDs with
       | [] => Ok catalog
       | _ => res_map (fun id => res_wrap "resolve asset" (ResolveAsset catalog id "")) assetIDs
       end.

(** The Default rule's G-address, when only G-addresses sign for it. *)
Definition adminBundlerDelegatedAuth (rule : option ContextRuleSummary) : bool * string :=
  match rule with
  | None => (false, "")
  | Some rule =>
      let ruleG := delegatedGFromContextRule rule in
      if negb (String.eqb ruleG "") && negb (ruleHasExternalSigner rule) then (true, ruleG) else (false, "")
  end.

Section SetupRules.
Context `{StellarSDK} `{Network} `{SubmitNetwork} `{Gasless} `{GaslessQuotes} `{Env} `{ServiceConfig} `{BuilderConfig}.
Context `{Json SimulationSummary} `{UuidLib} `{Unicode} `{Deployment}.
Abbreviation W := (World Store).

(** build_auth_transaction.go *)
Definition resolveAdminBundlerDelegatedAuth (smartAccountAddress : string) (contextRuleID : Z) : M W (bool * string) :=
  let! rule := wrap "fetch admin context rule" (RuleAtID smartAccountAddress contextRuleID) in
  ret (adminBundlerDelegatedAuth rule).

Definition buildSetupAuthTransaction (fn : HostFunction) (inp : authTransactionCoreInput) : M W BuildAuthTransactionResult :=
  let! seq := wrap "fetch bundler sequence" (call (rpc_account_sequence bundlerG)) in
  buildAuthTransactionCore inp (bundler_tx seq fn).

(** What every caller of [buildSetupAuthTransaction] passes. *)
Definition setup_input (smartAccountAddress : string) (contextRuleID : Z) (signerType signerG : string)
    (admin : bool * string) : authTransactionCoreInput :=
  {| ai_smartAccountAddress := smartAccountAddress; ai_contextRuleID := contextRuleID; ai_signerType := signerType;
     ai_signerG := signerG; ai_feePayerG := bundlerG; ai_bundlerDelegatedAuthMode := fst admin;
     ai_delegatedAuthG := snd admin; ai_dropAuthAddress := "" |}.

(** A call of the smart account on itself. *)
Definition account_call (smartAccountAddress fn : string) (args : list ScVal) : res HostFunction :=
  let? id := res_wrap "resolve smart account contract" (contractIDFromAddress smartAccountAddress) in
  Ok (invokeContractHostFunction id fn args).

Definition setup_verifier (signerType : string) : string :=
  if String.eqb signerType "passkey" then webauthnVerifierAddress else ed25519VerifierAddress.

(** ** setup-send-rules *)

(** The assets no rule yet lets this signer send. *)
Fixpoint missing_assets (inp : SetupSendRulesInput) (verifierAddress : string) (assets : list CatalogAsset)
    : M W (list CatalogAsset) :=
  match assets with
  | [] => ret []
  | asset :: assets' =>
      let! missing :=
        if String.eqb (sr_SignerType inp) "passkey" && negb (String.eqb (sr_KeyDataHex inp) "") then
          let! found := wrap "find rule for signer"
            (FindRuleForSigner (sr_SmartAccountAddress inp) verifierAddress (sr_KeyDataHex inp) (ca_ContractID asset)) in
          match found with
          | Some _ => ret false
          | None => throw ErrSignerRuleNotFound
          end
        else
          let! ' (id, discovery) := wrap "discover context rule"
            (DiscoverContextRule (sr_SmartAccountAddress inp) (ca_ContractID asset)) in
          if negb (bool_decide (discovery = ContextRuleDiscoveryMatched)) then ret true else
          let! rule := wrap "fetch context rule" (RuleAtID (sr_SmartAccountAddress inp) id) in
          ret match rule with
              | Some rule => negb (ruleAuthorizesSigner rule (sr_SignerType inp) verifierAddress (sr_GAddress inp))
              | None => true
              end in
      let! rest := missing_assets inp verifierAddress assets' in
      ret (if (missing : bool) then asset :: rest else rest)
  end.

Definition SetupSendRules (inp : SetupSendRulesInput) (catalog : list CatalogAsset) : M W SetupSendRulesResult :=
  let! assets := lift (resolveAssetsToConfigure catalog (sr_AssetID inp) (sr_AssetIDs inp)) in
  let verifierAddress := setup_verifier (sr_SignerType inp) in
  if String.eqb verifierAddress "" && negb (String.eqb (sr_SignerType inp) "delegated")
  then throw (Errorf "verifier address not configured for this signer type") else
  let! missing := missing_assets inp verifierAddress assets in
  match missing with
  | [] => ret SendAlreadyConfigured
  | assetToConfigure :: remaining =>
      let! signersVec := lift (buildSignersVecForSetup (sr_SignerType inp) verifierAddress (sr_PublicKeyHex inp)
                                 (sr_KeyDataHex inp) (sr_GAddress inp)) in
      let! ruleName := lift (buildContextRuleName (ca_AssetID assetToConfigure) "send") in
      let! contextType := lift (buildCallContractContextType (ca_ContractID assetToConfigure)) in
      let! addRuleFn := lift (account_call (sr_SmartAccountAddress inp) "add_context_rule"
                                [contextType; scString ruleName; scVoid; signersVec; scMap []]) in
      let! ' (contextRuleID, _) := wrap "discover default context rule"
        (DiscoverDefaultContextRule (sr_SmartAccountAddress inp)) in
      let! admin := resolveAdminBundlerDelegatedAuth (sr_SmartAccountAddress inp) contextRuleID in
      let! coreResult := buildSetupAuthTransaction addRuleFn
        (setup_input (sr_SmartAccountAddress inp) contextRuleID (sr_SignerType inp) (sr_GAddress inp) admin) in
      ret (SendSetup coreResult assetToConfigure (length remaining))
  end.

(** ** setup-swap-rules *)
Definition setup_signer (signerType verifierAddress publicKeyHex keyDataHex gAddress : string) : res ScVal :=
  if String.eqb signerType "passkey" || String.eqb signerType "ed25519" then
    let? keyBytes := res_wrap "decode key data"
      (hex_decode (if String.eqb signerType "ed25519" then publicKeyHex else keyDataHex)) in
    buildExternalSignerScVal verifierAddress keyBytes
  else if String.eqb signerType "delegated" then buildDelegatedSignerScVal gAddress
  else Err (Errorf "unsupported signer configuration").

(** What the request itself must hold, in the order it is checked. *)
Definition validate_swap_setup (signerType : string) (inp : SetupSwapRulesInput) : res unit :=
  if String.eqb signerType "delegated" && String.eqb (ss_GAddress inp) ""
  then Err (Errorf "gAddress is required for delegated setup")
  else if String.eqb signerType "delegated" && String.eqb (ss_GAddress inp) bundlerG
  then Err (Errorf "gAddress must be your delegated G-address, not the bundler fee-payer")
  else if String.eqb signerType "ed25519" && String.eqb (ss_PublicKeyHex inp) ""
  then Err (Errorf "publicKeyHex is required for ed25519 setup")
  else if String.eqb signerType "passkey" && String.eqb (ss_KeyDataHex inp) ""
  then Err (Errorf "keyDataHex is required for passkey setup")
  else if String.eqb (setup_verifier signerType) "" && negb (String.eqb signerType "delegated")
  then Err (Errorf "verifier address not configured for this signer type")
  else Ok tt.

Definition SetupSwapRules (inp : SetupSwapRulesInput) : M W SetupResult :=
  let signerType := if String.eqb (ss_SignerType inp) "" then "passkey" else ss_SignerType inp in
  let verifierAddress := setup_verifier signerType in
  let! _ := lift (validate_swap_setup signerType inp) in
  let! ' (contextRuleID, _) := wrap "discover default context rule"
    (DiscoverDefaultContextRule (ss_SmartAccountAddress inp)) in
  let! defaultRule := wrap "fetch default context rule" (RuleAtID (ss_SmartAccountAddress inp) contextRuleID) in
  let! configured :=
    if String.eqb signerType "passkey" && negb (String.eqb (ss_KeyDataHex inp) "") then
      let! found := wrap "find rule for signer"
        (FindRuleForSigner (ss_SmartAccountAddress inp) verifierAddress (ss_KeyDataHex inp) "") in
      match found with
      | Some (ruleID, _) => ret (Some ruleID)
      | None => if match defaultRule with Some rule => ruleHasExternalSigner rule | None => false end
                then throw ErrSignerRuleNotFound else ret None
      end
    else ret None in
  match configured with
  | Some ruleID => ret (AlreadyConfigured ruleID)
  | None =>
      if match defaultRule with
         | Some rule => ruleAuthorizesSigner rule signerType verifierAddress (ss_GAddress inp)
         | None => false
         end then ret (AlreadyConfigured contextRuleID) else
      let! signerScVal := lift (setup_signer signerType verifierAddress (ss_PublicKeyHex inp) (ss_KeyDataHex inp)
                                  (ss_GAddress inp)) in
      let! addSignerFn := lift (account_call (ss_SmartAccountAddress inp) "add_signer" [scU32 contextRuleID; signerScVal]) in
      let! coreResult := buildSetupAuthTransaction addSignerFn
        (setup_input (ss_SmartAccountAddress inp) contextRuleID signerType (ss_GAddress inp)
           (adminBundlerDelegatedAuth defaultRule)) in
      ret (SetupBuilt coreResult contextRuleID)
  end.

(** ** add-signer and remove-signer *)

(** The loop over the account's rules: the rule the key already signs for, or how
    many rules have signers. *)
Fixpoint signer_rules (keyDataHex : string) (rules : list ContextRuleSummary) (count : nat) : Z + nat :=
  match rules with
  | [] => inr count
  | rule :: rules' =>
      if (length (cr_Signers rule) =? 0)%nat then signer_rules keyDataHex rules' count
      else if ruleHasExactExternalSigner rule webauthnVerifierAddress keyDataHex then inl (cr_ID rule)
      else signer_rules keyDataHex rules' (S count)
  end.

Definition AddSigner (smartAccountAddress keyDataHex : string) : M W SetupResult :=
  if String.eqb keyDataHex "" then throw (Errorf "keyDataHex is required") else
  if String.eqb webauthnVerifierAddress "" then throw (Errorf "webauthn verifier address not configured") else
  let! rules := wrap "list context rules" (ListContextRules smartAccountAddress) in
  match signer_rules keyDataHex rules 0 with
  | inl ruleID => ret (AlreadyConfigured ruleID)
  | inr signerRuleCount =>
      if (2 <=? signerRuleCount)%nat then throw ErrBackupSignerAlreadyConfigured else
      match List.find cr_IsDefault rules with
      | None => throw ErrNoDefaultRule
      | Some defaultRule =>
          let! keyBytes := wrap "decode keyDataHex" (lift (hex_decode keyDataHex)) in
          let! signerScVal := lift (buildExternalSignerScVal webauthnVerifierAddress keyBytes) in
          let! addRuleFn := lift (account_call smartAccountAddress "add_context_rule" (add_rule_args signerScVal)) in
          let! coreResult := buildSetupAuthTransaction addRuleFn
            (setup_input smartAccountAddress (cr_ID defaultRule) "passkey" "" (adminBundlerDelegatedAuth (Some defaultRule))) in
          ret (SetupBuilt coreResult (cr_ID defaultRule))
      end
  end.

Definition RemoveSigner (smartAccountAddress : string) (contextRuleID : Z) : M W (BuildAuthTransactionResult * Z) :=
  let! ' (authRuleID, discovery) := wrap "discover default context rule" (DiscoverDefaultContextRule smartAccountAddress) in
  if negb (bool_decide (discovery = ContextRuleDiscoveryDefault)) then throw ErrNoDefaultRule else
  if contextRuleID =? authRuleID then throw ErrLastSigner else
  let! authRule := wrap "fetch default context rule" (RuleAtID smartAccountAddress authRuleID) in
  let! removeRuleFn := lift (account_call smartAccountAddress "remove_context_rule" [scU32 contextRuleID]) in
  let! coreResult := buildSetupAuthTransaction removeRuleFn
    (setup_input smartAccountAddress authRuleID "passkey" "" (adminBundlerDelegatedAuth authRule)) in
  ret (coreResult, authRuleID).

(** ** handler/webapp/account_signer.go: the build routes *)
Definition failAccountSignerBuild {S A} (e : error) : M S A :=
  if errors_is e ErrNoDefaultRule then fail "422" "no_default_rule"
  else if errors_is e ErrLastSigner then fail "409" "last_signer"
  else if errors_is e ErrBackupSignerAlreadyConfigured then fail "409" "already_signer"
  else fail "500" "internal_error".
Definition built_or_fail {S A} (m : M S A) : M S A :=
  let! r := attempt m in
  match r with Ok a => ret a | Err e => failAccountSignerBuild e end.

Definition AddSigner_handler (sessionID : string) (req : addSignerRequest) : M W SetupResult :=
  let! _ := named_network webappx (ar_Network req) in
  let! _ := requireProvedSigner sessionID (ar_CallerCredentialID req) (ar_SmartAccountAddress req) in
  built_or_fail (AddSigner (ar_SmartAccountAddress req) (ar_KeyDataHex req)).

Definition RemoveSigner_handler (sessionID : string) (req : removeSignerRequest)
    : M W (BuildAuthTransactionResult * Z * Z) :=
  let! _ := named_network webappx (rr_Network req) in
  let! _ := requireProvedSigner sessionID (rr_CallerCredentialID req) (rr_SmartAccountAddress req) in
  let! hasOther := or_fail "500" "internal_error"
    (HasOtherSignerCredential (rr_SmartAccountAddress req) (rr_CredentialID req)) in
  if negb hasOther then fail "409" "signer_locked_out" else
  let! found := or_fail "500" "internal_error" (GetSignerContextRuleID (rr_SmartAccountAddress req) (rr_CredentialID req)) in
  match found with
  | None => fail "409" "signer_id_unknown"
  | Some contextRuleID =>
      let! ' (built, authRuleID) := built_or_fail (RemoveSigner (rr_SmartAccountAddress req) contextRuleID) in
      ret (built, authRuleID, contextRuleID)
  end.
End SetupRules.
End SetupRules.
