(* ===== verification/Routes.v ===== *)
(** * The transaction routes (handler/webapp/transaction.go and gasless_errors.go)

    What each route checks before it calls the service, what it answers, and the
    status and code of every failure. An answer is the JSON object the handler
    writes; a failure is [fail] with the status and the code. [ShouldBindJSON] is
    modelled by the fields it requires and by the two [UnmarshalJSON] methods of
    this package; the log lines are left out. *)

From S2P Require Export SetupRules.
From S2P Require Import Instances.

Inductive json :=
  | JNull
  | JBool (b : bool)
  | JNum (n : Z)
  | JStr (s : string)
  | JArr (l : list json)
  | JObj (fields : list (string * json)).
(** [json.Marshal] of a map *)
Class JsonText := { json_text : json -> res string }.

Record buildSendRequest := {
  qs_Network : string; qs_SmartAccountAddress : string; qs_SignerType : string; qs_AssetID : string;
  qs_ContractID : string; qs_Recipient : string; qs_Amount : string; qs_SignerG : string; qs_KeyDataHex : string }.
Record submitWebAuthnRequest := {
  qw_Network : string; qw_TxXdr : string; qw_AuthEntryXdr : string; qw_SigDataXdr : string; qw_KeyDataHex : string;
  qw_ContextRuleID : option Z; qw_AuthEntriesXdr : list string; qw_SmartAccountAuthEntryIndex : Z;
  qw_DelegatedGAuthEntrySynthesized : bool }.
Record submitDelegatedRequest := {
  qd_Network : string; qd_TxXdr : string; qd_SmartAccountAuthEntryXdr : string; qd_GAddressEntryTemplateXdr : string;
  qd_SignedAuthEntryBase64 : string; qd_SignerAddress : string; qd_ContextRuleID : option Z;
  qd_AuthEntriesXdr : list string; qd_SmartAccountAuthEntryIndex : Z; qd_DelegatedGAuthEntrySynthesized : bool }.
(** The handler never reads [feePayerG]. *)
Record prepareSignRequest := {
  qp_Network : string; qp_SmartAccountAddress : string; qp_UnsignedTxXdr : string; qp_SignerType : string;
  qp_SignerG : string; qp_KeyDataHex : string }.
Record setupSendRulesRequest := {
  qr_Network : string; qr_SmartAccountAddress : string; qr_SignerType : string; qr_AssetID : string;
  qr_AssetIDs : list string; qr_PublicKeyHex : string; qr_KeyDataHex : string; qr_GAddress : string }.
Record setupSwapRulesRequest := {
  qu_Network : string; qu_SmartAccountAddress : string; qu_SignerType : string; qu_ProviderID : string;
  qu_RouterContractID : string; qu_PublicKeyHex : string; qu_KeyDataHex : string; qu_GAddress : string }.
Record buildSwapRequest := {
  qx_Network : string; qx_SmartAccountAddress : string; qx_SignerType : string; qx_SignerG : string;
  qx_RouterContractID : string; qx_KeyDataHex : string; qx_SwapChainXdr : string; qx_TokenInContractID : string;
  qx_AmountInRaw : string; qx_AmountOutMinRaw : string; qx_ProviderID : string }.

(** The configured asset catalog. *)
Class HandlerConfig := { assetCatalogConfig : Assets.AssetCatalogConfig }.

Module Routes.
Import Deploynet Assets Amount ContextRules Submit SubmitSigned Build BuildTx AccountSigners SetupRules.

(** ** Fields a client may send in two forms *)
Section Flexible.
Context `{Json string}.
Definition quote : ascii := Ascii.ascii_of_nat 34.
Definition starts_quoted (data : string) : bool := match data with String c _ => Ascii.eqb c quote | "" => false end.

(** A string, or the text of a number. *)
Definition flexibleAmount_unmarshal (data : string) : res string :=
  if starts_quoted data then json_unmarshal data else Ok data.

(** [strconv.ParseUint(s, 10, 32)] *)
Definition ParseUint32 (s : string) : res Z :=
  match dec_nat s with
  | Some v => if v <? 2 ^ 32 then Ok v else Err (Errorf "strconv.ParseUint: value out of range")
  | None => Err (Errorf "strconv.ParseUint: invalid syntax")
  end.
Definition flexibleUint32_unmarshal (data : string) : res Z :=
  let? s := if starts_quoted data then json_unmarshal data else Ok data in ParseUint32 s.
End Flexible.

(** ** Failures *)
Definition bad_body {S A} : M S A := fail "400" "internal_error".

(** The fields tagged [binding:"required"] are there. *)
Definition bound {S} (required : list string) : M S unit :=
  if existsb (String.eqb "") required then bad_body else ret tt.

(** gasless_errors.go: the answer to a failure of the gasless service. *)
Definition failGasless (e : error) : option (string * string) :=
  if errors_is e ErrInsufficientFeeBalance then Some ("400", "insufficient_fee_balance") else
  if errors_is e ErrFeeQuoteStale then Some ("409", "fee_quote_stale") else
  if errors_is e ErrFeeRuleNotFound then Some ("400", "fee_rule_not_found") else
  if errors_is e ErrGaslessTooManyFailures then Some ("429", "too_many_failed_transactions") else
  if errors_is e ErrGaslessLimited then Some ("429", "sponsorship_limit_reached") else
  if errors_is e ErrGaslessNotConfigured || errors_is e ErrGaslessUnavailable || errors_is e ErrGaslessPending
  then Some ("503", "service_unavailable") else None.

(** A list of sentinels with their answers, and the answer to anything else. *)
Definition error_table := list (error * (string * string)).
Fixpoint answer_of (table : error_table) (otherwise : string * string) (e : error) : string * string :=
  match table with
  | [] => otherwise
  | (target, answer) :: table' => if errors_is e target then answer else answer_of table' otherwise e
  end.

Definition submit_errors (e : error) : string * string :=
  match failGasless e with
  | Some a => a
  | None => answer_of [(ErrContextRuleIDRequired, ("400", "validation_error"))] ("400", "internal_error") e
  end.
Definition buildSend_errors (e : error) : string * string :=
  match failGasless e with
  | Some a => a
  | None => answer_of [(ErrAssetNotFound, ("400", "asset_not_found"));
                       (ErrSignerRuleNotFound, ("409", "signer_rule_not_found"))] ("400", "internal_error") e
  end.
(** The two answers with a suggested action carry it after the code. *)
Definition buildSwapErrorResponse (e : error) : string * string :=
  match failGasless e with
  | Some a => a
  | None => answer_of [(ErrSignerRuleNotFound, ("409", "signer_rule_not_found"));
                       (ErrSwapSignerMismatch, ("409", "SIGNER_MISMATCH reconfigure_swap_rule"));
                       (ErrInvalidSwapChainXdr, ("400", "validation_error"));
                       (ErrSwapValidation, ("400", "validation_error"))] ("500", "internal_error") e
  end.
Definition prepareSignErrorResponse (e : error) : string * string :=
  answer_of [(ErrSignerRuleNotFound, ("409", "signer_rule_not_found"));
             (ErrPrepareSignNoContextRule, ("409", "NO_CONTEXT_RULE"));
             (ErrPrepareSignSignerMismatch, ("409", "SIGNER_MISMATCH reconfigure_default_rule"));
             (ErrPrepareSignValidation, ("400", "validation_error"))] ("500", "internal_error") e.
Definition setupSend_errors (e : error) : string * string :=
  answer_of [(ErrAssetNotFound, ("400", "asset_not_found"));
             (ErrSignerRuleNotFound, ("409", "signer_rule_not_found"))] ("400", "internal_error") e.
Definition setupSwap_errors (e : error) : string * string :=
  answer_of [(ErrSignerRuleNotFound, ("409", "signer_rule_not_found"))] ("400", "internal_error") e.
Definition counter_errors (e : error) : string * string := ("500", "internal_error").

(** The service's result, or the answer to its failure. *)
Definition answered {S A} (errors : error -> string * string) (m : M S A) : M S A :=
  let! r := attempt m in
  match r with Ok a => ret a | Err e => fail (fst (errors e)) (snd (errors e)) end.

(** ** Answers *)
Definition discovery_string (d : option ContextRuleDiscovery) : string :=
  match d with
  | Some ContextRuleDiscoveryMatched => "matched"
  | Some ContextRuleDiscoveryDefault => "default"
  | Some ContextRuleDiscoveryFallback => "fallback"
  | None => ""
  end.
(** A nil slice is [null]. *)
Definition indices_json (l : list nat) : json :=
  match l with [] => JNull | _ => JArr (JNum ∘ Z.of_nat <$> l) end.

Definition entry_fields (r : BuildAuthTransactionResult) : list (string * json) :=
  [("txXdr", JStr (bt_TxXdr r)); ("authEntryXdr", JStr (bt_AuthEntryXdr r));
   ("authEntriesXdr", JArr (JStr <$> bt_AuthEntriesXdr r));
   ("smartAccountAuthEntryIndex", JNum (Z.of_nat (bt_SmartAccountAuthEntryIndex r)));
   ("delegatedNativeAuthEntryIndices", indices_json (bt_DelegatedNativeAuthEntryIndices r));
   ("delegatedNativeSignBlobPayloadsBase64", JArr (JStr <$> bt_DelegatedNativeSignBlobPayloadsBase64 r));
   ("delegatedGAuthEntrySynthesized", JBool (bt_DelegatedGAuthEntrySynthesized r));
   ("contextRuleId", JNum (bt_ContextRuleID r))].
Definition ids_field (r : BuildAuthTransactionResult) : list (string * json) :=
  [("contextRuleIds", JArr (JNum <$> bt_ContextRuleIDs r))].
Definition discovery_field (r : BuildAuthTransactionResult) : list (string * json) :=
  [("contextRuleDiscovery", JStr (discovery_string (bt_ContextRuleDiscovery r)))].
Definition digest_fields (r : BuildAuthTransactionResult) : list (string * json) :=
  [("authDigestHex", JStr (bt_AuthDigestHex r)); ("signaturePayloadHex", JStr (bt_SignaturePayloadHex r));
   ("validUntilLedger", JNum (bt_ValidUntilLedger r)); ("simulationResultXdr", JStr (bt_SimulationResultXdr r))].
Definition method_field (r : BuildAuthTransactionResult) : list (string * json) :=
  [("submitMethod", JStr (bt_SubmitMethod r))].
Definition template_fields (r : BuildAuthTransactionResult) : list (string * json) :=
  [("smartAccountAuthEntryXdr", JStr (bt_SmartAccountAuthEntryXdr r));
   ("gAddressPreimageXdr", JStr (bt_GAddressPreimageXdr r));
   ("gAddressEntryTemplateXdr", JStr (bt_GAddressEntryTemplateXdr r))].
Definition fee_json (f : NetworkFee) : json :=
  JObj [("token", JStr (nf_Token f)); ("symbol", JStr (nf_Symbol f)); ("maxAmountRaw", JStr (nf_MaxAmountRaw f));
        ("maxAmount", JStr (nf_MaxAmount f))].
Definition submitted_json (r : SubmitResult) : json := JObj [("hash", JStr (sr_Hash r)); ("status", JStr (sr_Status r))].

Definition send_json (r : BuildSendResult) : json :=
  let b := bs_Build r in
  JObj (entry_fields b ++ ids_field b ++ discovery_field b ++ digest_fields b ++ method_field b ++
    [("asset", JObj [("assetId", JStr (ca_AssetID (bs_Asset r))); ("symbol", JStr (ca_Symbol (bs_Asset r)));
                     ("contractId", JStr (ca_ContractID (bs_Asset r))); ("decimals", JNum (ca_Decimals (bs_Asset r)))]);
     ("recipient", JStr (bs_Recipient r)); ("amount", JStr (bs_Amount r)); ("amountRaw", JStr (bs_AmountRaw r));
     ("networkFee", fee_json (bs_NetworkFee r))]).
Definition prepared_json (network smartAccountAddress : string) (b : BuildAuthTransactionResult) : json :=
  JObj ([("network", JStr network); ("smartAccountAddress", JStr smartAccountAddress)] ++
        entry_fields b ++ ids_field b ++ discovery_field b ++ digest_fields b ++ method_field b).
Definition setup_send_json (r : SetupSendRulesResult) : json :=
  match r with
  | SendAlreadyConfigured => JObj [("alreadyConfigured", JBool true);
      ("message", JStr "Context rules already exist for all requested assets.")]
  | SendSetup b asset remaining =>
      JObj (entry_fields b ++ ids_field b ++ digest_fields b ++ method_field b ++ template_fields b ++
        [("configuredAsset", JObj [("assetId", JStr (ca_AssetID asset)); ("contractId", JStr (ca_ContractID asset))]);
         ("remainingSetupCount", JNum (Z.of_nat remaining));
         ("instructions", JStr "Sign and submit this setup transaction (one context rule). Repeat if remainingSetupCount > 0.")])
  end.
Definition provider (providerID : string) : string := if String.eqb providerID "" then "aquarius" else providerID.
Definition setup_swap_json (routerID providerID : string) (r : SetupResult) : json :=
  match r with
  | AlreadyConfigured ruleID => JObj [("alreadyConfigured", JBool true);
      ("message", JStr "Default context rule already has your signer for swaps.");
      ("routerContractId", JStr routerID); ("contextRuleId", JNum ruleID)]
  | SetupBuilt b _ =>
      JObj (entry_fields b ++ ids_field b ++ digest_fields b ++ method_field b ++ template_fields b ++
        [("delegatedAuthG", JStr (bt_DelegatedAuthG b)); ("routerContractId", JStr routerID);
         ("providerId", JStr providerID); ("remainingSetupCount", JNum 0)])
  end.
Definition counter_json (b : BuildAuthTransactionResult) : json :=
  JObj (entry_fields b ++ discovery_field b ++ digest_fields b).
Definition delegated_counter_json (r : BuildDelegatedCounterResult) : json :=
  JObj [("txXdr", JStr (bd_TxXdr r)); ("smartAccountAuthEntryXdr", JStr (bd_SmartAccountAuthEntryXdr r));
        ("gAddressPreimageXdr", JStr (bd_GAddressPreimageXdr r));
        ("gAddressEntryTemplateXdr", JStr (bd_GAddressEntryTemplateXdr r)); ("authDigestHex", JStr (bd_AuthDigestHex r));
        ("validUntilLedger", JNum (bd_ValidUntilLedger r)); ("contextRuleId", JNum (bd_ContextRuleID r))].
Definition swap_json (providerID : string) (r : BuildSwapResult) : json :=
  let b := bx_Build r in
  JObj (entry_fields b ++ ids_field b ++ digest_fields b ++ method_field b ++ template_fields b ++
    [("delegatedAuthG", JStr (bt_DelegatedAuthG b)); ("routerContractId", JStr (bx_RouterContractID r));
     ("tokenInContractId", JStr (bx_TokenInContractID r)); ("amountInRaw", JStr (bx_AmountInRaw r));
     ("amountOutMinRaw", JStr (bx_AmountOutMinRaw r)); ("networkFee", fee_json (bx_NetworkFee r));
     ("providerId", JStr providerID)]).

(** ** The handlers *)
Section Handlers.
Context `{StellarSDK} `{Network} `{SubmitNetwork} `{Gasless} `{GaslessQuotes} `{Env} `{ServiceConfig} `{BuilderConfig}.
Context `{EnvelopeCodec} `{Json SimulationSummary} `{Json (list CatalogAsset)} `{UuidLib} `{Unicode} `{Deployment} `{HandlerConfig}.
Abbreviation W := (World Store).

Definition one_of_three (signerType : string) : bool :=
  String.eqb signerType "passkey" || String.eqb signerType "ed25519" || String.eqb signerType "delegated".
(** A delegated signer must be named. *)
Definition named_signer {S} (signerType signerG : string) : M S unit :=
  if String.eqb signerType "delegated" && String.eqb signerG "" then bad_body else ret tt.
Definition catalog : M W (list CatalogAsset) :=
  match GetAssetCatalog assetCatalogConfig with Ok c => ret c | Err _ => fail "500" "internal_error" end.

Definition BuildSend_handler (req : buildSendRequest) : M W json :=
  let! _ := bound [qs_SmartAccountAddress req; qs_SignerType req; qs_Recipient req; qs_Amount req] in
  let! _ := named_signer (qs_SignerType req) (qs_SignerG req) in
  let! _ := named_network webappx (qs_Network req) in
  let! assets := catalog in
  let! result := answered buildSend_errors (BuildSend
    {| bi_SmartAccountAddress := qs_SmartAccountAddress req; bi_SignerType := qs_SignerType req;
       bi_SignerG := qs_SignerG req; bi_AssetID := qs_AssetID req; bi_ContractID := qs_ContractID req;
       bi_Recipient := qs_Recipient req; bi_Amount := qs_Amount req; bi_KeyDataHex := qs_KeyDataHex req |} assets) in
  ret (send_json result).

Definition SubmitWebAuthn_handler (req : submitWebAuthnRequest) : M W json :=
  let! _ := bound [qw_TxXdr req; qw_SigDataXdr req; qw_KeyDataHex req] in
  if (length (qw_AuthEntriesXdr req) =? 0)%nat && String.eqb (qw_AuthEntryXdr req) "" then bad_body else
  let! _ := named_network webappx (qw_Network req) in
  let! result := answered submit_errors (SubmitWebAuthn
    {| sw_TxXdr := qw_TxXdr req; sw_AuthEntryXdr := qw_AuthEntryXdr req; sw_SigDataXdr := qw_SigDataXdr req;
       sw_KeyDataHex := qw_KeyDataHex req; sw_ContextRuleID := qw_ContextRuleID req;
       sw_AuthEntriesXdr := qw_AuthEntriesXdr req; sw_SmartAccountAuthEntryIndex := qw_SmartAccountAuthEntryIndex req;
       sw_DelegatedGAuthEntrySynthesized := qw_DelegatedGAuthEntrySynthesized req |}) in
  ret (submitted_json result).

Definition SubmitDelegated_handler (req : submitDelegatedRequest) : M W json :=
  let! _ := bound [qd_TxXdr req; qd_GAddressEntryTemplateXdr req; qd_SignedAuthEntryBase64 req; qd_SignerAddress req] in
  if (length (qd_AuthEntriesXdr req) =? 0)%nat && String.eqb (qd_SmartAccountAuthEntryXdr req) "" then bad_body else
  let! _ := named_network webappx (qd_Network req) in
  let! result := answered submit_errors (SubmitDelegated
    {| sd_TxXdr := qd_TxXdr req; sd_SmartAccountAuthEntryXdr := qd_SmartAccountAuthEntryXdr req;
       sd_GAddressEntryTemplateXdr := qd_GAddressEntryTemplateXdr req;
       sd_SignedAuthEntryBase64 := qd_SignedAuthEntryBase64 req; sd_SignerAddress := qd_SignerAddress req;
       sd_ContextRuleID := qd_ContextRuleID req; sd_AuthEntriesXdr := qd_AuthEntriesXdr req;
       sd_SmartAccountAuthEntryIndex := qd_SmartAccountAuthEntryIndex req;
       sd_DelegatedGAuthEntrySynthesized := qd_DelegatedGAuthEntrySynthesized req |}) in
  ret (submitted_json result).

Definition PrepareSign_handler (req : prepareSignRequest) : M W json :=
  let! _ := bound [qp_SmartAccountAddress req; qp_UnsignedTxXdr req] in
  let! _ := named_signer (qp_SignerType req) (qp_SignerG req) in
  let! network := named_network webappx (qp_Network req) in
  let! result := answered prepareSignErrorResponse (PrepareSign
    {| pi_SmartAccountAddress := qp_SmartAccountAddress req; pi_UnsignedTxXdr := qp_UnsignedTxXdr req;
       pi_SignerType := qp_SignerType req; pi_SignerG := qp_SignerG req; pi_KeyDataHex := qp_KeyDataHex req |}) in
  ret (prepared_json network (qp_SmartAccountAddress req) result).

Definition SetupSendRules_handler (req : setupSendRulesRequest) : M W json :=
  let! _ := bound [qr_SmartAccountAddress req; qr_SignerType req] in
  if negb (one_of_three (qr_SignerType req)) then bad_body else
  let! _ := named_network webappx (qr_Network req) in
  let! assets := catalog in
  let! result := answered setupSend_errors (SetupSendRules
    {| sr_SmartAccountAddress := qr_SmartAccountAddress req; sr_SignerType := qr_SignerType req;
       sr_AssetID := qr_AssetID req; sr_AssetIDs := qr_AssetIDs req; sr_PublicKeyHex := qr_PublicKeyHex req;
       sr_KeyDataHex := qr_KeyDataHex req; sr_GAddress := qr_GAddress req |} assets) in
  ret (setup_send_json result).

Definition SetupSwapRules_handler (req : setupSwapRulesRequest) : M W json :=
  let! _ := bound [qu_SmartAccountAddress req] in
  let! _ := named_network webappx (qu_Network req) in
  let! result := answered setupSwap_errors (SetupSwapRules
    {| ss_SmartAccountAddress := qu_SmartAccountAddress req; ss_SignerType := qu_SignerType req;
       ss_RouterContractID := qu_RouterContractID req; ss_PublicKeyHex := qu_PublicKeyHex req;
       ss_KeyDataHex := qu_KeyDataHex req; ss_GAddress := qu_GAddress req |}) in
  ret (setup_swap_json (resolveRouterContractID (qu_RouterContractID req)) (provider (qu_ProviderID req)) result).

Definition BuildCounter_handler (smartAccountAddress signerG : string) : M W json :=
  let! _ := bound [smartAccountAddress] in
  let! result := answered counter_errors (BuildCounter smartAccountAddress signerG) in
  ret (counter_json result).
Definition BuildDelegatedCounter_handler (smartAccountAddress gAddress : string) : M W json :=
  let! _ := bound [smartAccountAddress; gAddress] in
  let! result := answered counter_errors (BuildDelegatedCounter smartAccountAddress gAddress) in
  ret (delegated_counter_json result).

Definition BuildSwap_handler (req : buildSwapRequest) : M W json :=
  let! _ := bound [qx_SmartAccountAddress req; qx_SignerType req; qx_SwapChainXdr req; qx_TokenInContractID req;
                   qx_AmountInRaw req; qx_AmountOutMinRaw req] in
  if negb (one_of_three (qx_SignerType req)) then bad_body else
  let! _ := named_signer (qx_SignerType req) (qx_SignerG req) in
  let! _ := named_network webappx (qx_Network req) in
  let! result := answered buildSwapErrorResponse (BuildSwap
    {| bw_SmartAccountAddress := qx_SmartAccountAddress req; bw_SignerType := qx_SignerType req;
       bw_SignerG := qx_SignerG req; bw_RouterContractID := qx_RouterContractID req; bw_KeyDataHex := qx_KeyDataHex req;
       bw_SwapChainXdr := qx_SwapChainXdr req; bw_TokenInContractID := qx_TokenInContractID req;
       bw_AmountInRaw := qx_AmountInRaw req; bw_AmountOutMinRaw := qx_AmountOutMinRaw req |}) in
  ret (swap_json (provider (qx_ProviderID req)) result).
End Handlers.
End Routes.
