(* ===== verification/OnRamp.v ===== *)
(** * The on-ramp (service/webapp/onramp_*.go and handler/webapp/onramp.go)

    A purchase: the relayer mints the memo and the pool address a deposit must
    carry, a provider opens its session for them, and only then the intent is
    recorded. The clients of MoonPay, Transak and Horizon build requests and
    classify answers over the class [Http]; JSON is a parameter. *)

From S2P Require Export Http Routes.
From S2P Require Import Instances.

(** [strings.ToUpper] outside ASCII, and time.RFC3339. *)
Class UnicodeUpper := { unicode_upper : string -> string }.

Record moonPayErrorBody := { mb_Message : string; mb_Errors : list string }.
Record sessionTokenBody := { sb_SessionToken : string }.
Record transactionBody := { xb_Status : string }.
Record transakTokenBody := { kb_AccessToken : string; kb_ExpiresAt : Z }.
Record transakErrorBody := { ke_ErrorMessage : string; ke_Message : string }.
Record transakWidgetBody := { kw_WidgetURL : string }.
Record horizonBalance := { hb_Balance : string; hb_AssetType : string }.
Record horizonAccount := { ha_Balances : list horizonBalance }.
Record horizonTransaction := {
  ht_ID : string; ht_Successful : bool; ht_CreatedAt : string; ht_Memo : string; ht_MemoType : string }.
Record horizonTransactionsPage := { hp_Records : list horizonTransaction }.

(** ** Data *)
Record Intent := { in_IntentID : string; in_MemoID : string; in_PoolAddress : string; in_ExpiresAt : Z }.
Record CreateIntentInput := { ci_CAddress : string; ci_ExpectedAmt : string; ci_ExternalID : string; ci_ExpiresIn : Z }.
(** [relayerIntentCreator] *)
Class RelayerIntents := { relayer_create_intent : CreateIntentInput -> nat -> res Intent }.

Record OnRampRow := {
  ow_ID : uuid; ow_MemoID : string; ow_DestinationCAddress : string; ow_ExternalCustomerID : string;
  ow_MoonpayTransactionID : option string; ow_Status : string; ow_FiatAmount : string; ow_FiatCode : string;
  ow_CreatedAt : Z; ow_UpdatedAt : Z; ow_RelayerIntentID : option string; ow_PoolAddress : option string;
  ow_ExpiresAt : option Z }.
Record OnRampIntent := {
  oi_ID : string; oi_MemoID : string; oi_DestinationCAddress : string; oi_ExternalCustomerID : string;
  oi_MoonpayTransactionID : string; oi_Status : string; oi_FiatAmount : string; oi_FiatCode : string;
  oi_CreatedAt : Z; oi_UpdatedAt : Z }.
Record OnRampSession := {
  os_IntentID : string; os_MemoID : string; os_DestinationCAddress : string; os_PoolAddress : string;
  os_FiatAmount : string; os_FiatCode : string; os_IntegrationMode : string; os_SessionToken : string;
  os_WidgetURL : string; os_PlatformFallback : bool; os_Provider : string; os_CryptoCurrency : string }.
Record TransakIntentInput := {
  ti_ExternalCustomerID : string; ti_DeviceIP : string; ti_DestinationCAddress : string; ti_CryptoCurrency : string;
  ti_FiatAmount : string; ti_FiatCode : string }.
Record transakSessionInput := {
  ts_PoolAddress : string; ts_MemoID : string; ts_IntentID : string; ts_SmartAccount : string;
  ts_CryptoCurrency : string; ts_UserIP : string }.
Record moonPayWidgetBuyURLParams := {
  mp_PoolAddress : string; mp_MemoID : string; mp_FiatAmount : string; mp_FiatCode : string;
  mp_ExternalCustomerID : string; mp_ExternalTransactionID : string }.
Record PoolPaymentRecord := {
  pp_TransactionID : string; pp_CreatedAt : string; pp_Memo : option string; pp_MemoType : string; pp_Successful : bool }.
Record PoolAccountSnapshot := {
  pl_PoolAddress : string; pl_Network : string; pl_XLMBalance : string; pl_RecentTransactions : list PoolPaymentRecord }.

(** The service's fields; the TTL in milliseconds. The base URL has lost its
    trailing slashes when the client is made. *)
Class OnRampConfig := {
  intentTTL : Z; poolNetwork : string; integrationMode : string; widgetBuyURLOverride : string; secretKey : string;
  publishableKey : string; configuredPool : string; horizonURL : string; defaultFiatAmount : string;
  defaultFiatCode : string; moonPayBase : string; transakKey : string; transakSecret : string; transakEnv : string;
  referrerDomain : string; transakBase : string }.

(** The table, and the partner token the Transak client holds with its expiry. *)
Record OnRampStore := MkOnRamp { on_ramp_intents : gmap uuid OnRampRow; transak_token : string * Z }.

Module OnRamp.
Import Url Routes AccountSigners.

Definition OnRampStatusCreated : string := "created".
Definition OnRampStatusPending : string := "pending".
Definition OnRampStatusCompleted : string := "completed".
Definition OnRampStatusFailed : string := "failed".
Definition onRampIntegrationModeWidget : string := "widget".
Definition onRampIntegrationModePlatform : string := "platform".
Definition onRampIntegrationModeAuto : string := "auto".
Definition OnRampProviderMoonPay : string := "moonpay".
Definition OnRampProviderTransak : string := "transak".

Definition ErrOnRampIntentNotFound : error := Sentinel "ErrOnRampIntentNotFound".
Definition ErrOnRampInvalidCAddress : error := Sentinel "ErrOnRampInvalidCAddress".
Definition ErrOnRampInvalidFiatAmount : error := Sentinel "ErrOnRampInvalidFiatAmount".
Definition ErrOnRampInvalidStatus : error := Sentinel "ErrOnRampInvalidStatus".
Definition ErrOnRampNoUpdateFields : error := Sentinel "ErrOnRampNoUpdateFields".
Definition ErrMoonPaySecretKeyMissing : error := Sentinel "ErrMoonPaySecretKeyMissing".
Definition ErrMoonPaySecretKeyIsPublishable : error := Sentinel "ErrMoonPaySecretKeyIsPublishable".
Definition ErrMoonPaySecretKeyFormat : error := Sentinel "ErrMoonPaySecretKeyFormat".
Definition ErrMoonPayPublishableKeyMissing : error := Sentinel "ErrMoonPayPublishableKeyMissing".
Definition ErrMoonPayPublishableKeyFormat : error := Sentinel "ErrMoonPayPublishableKeyFormat".
Definition ErrTransakNotConfigured : error := Sentinel "ErrTransakNotConfigured".
Definition ErrTransakCryptoInvalid : error := Sentinel "ErrTransakCryptoInvalid".
Definition ErrTransakRequiresMainnet : error := Sentinel "ErrTransakRequiresMainnet".
Definition ErrRelayerUnavailable : error := Sentinel "ErrRelayerUnavailable".
Definition ErrRelayerNotConfigured : error := Sentinel "ErrRelayerNotConfigured".

(** The two providers' error types carry a status and a message. *)
Definition MoonPayAPIError (status : Z) (message : string) : error := ApiError "MoonPayAPIError" status (Errorf message).
Definition TransakAPIError (status : Z) (message : string) : error := ApiError "TransakAPIError" status (Errorf message).

(** ** Text *)
Definition upper_ascii (c : ascii) : ascii :=
  let n := N_of_ascii c in if ((97 <=? n) && (n <=? 122))%N then ascii_of_N (n - 32) else c.
Definition to_upper `{UnicodeUpper} (s : string) : string := if is_ascii s then str_map upper_ascii s else unicode_upper s.
(** [strings.EqualFold] against a lower-case word without k or s: no character
    outside ASCII folds to one of its letters. *)
Definition equal_fold (s word : string) : bool := String.eqb (str_map lower_ascii s) word.

(** ^\d+(\.\d+)?$ *)
Definition some_digits (s : string) : bool := negb (String.eqb s "") && str_forall is_digit s.
Definition fiat_pattern (s : string) : bool :=
  let '(whole, rest, dot) := cut_at "." s in some_digits whole && (negb dot || some_digits rest).
(** [strconv.ParseFloat] of a decimal is its nearest float64: zero up to half the
    least positive one, and a range error from the midpoint above the greatest. *)
Definition positive_float (s : string) : bool :=
  let '(whole, rest, _) := cut_at "." s in
  match dec_val 0 (whole +:+ rest) with
  | Some n =>
      let scale := 10 ^ Z.of_nat (String.length rest) in
      (scale <? n * 2 ^ 1075) && (n <? (2 ^ 1024 - 2 ^ 970) * scale)
  | None => false
  end.

(** ** onramp_moonpay_client.go: keys and the signed URL *)
Definition has_prefix (p s : string) : bool := String.prefix p s.
Definition validateMoonPaySecretKey (key : string) : res unit :=
  if String.eqb key "" then Err ErrMoonPaySecretKeyMissing else
  if has_prefix "pk_" key then Err ErrMoonPaySecretKeyIsPublishable else
  if negb (has_prefix "sk_test_" key) && negb (has_prefix "sk_live_" key) then Err ErrMoonPaySecretKeyFormat else Ok tt.
Definition validateMoonPayPublishableKey (key : string) : res unit :=
  if String.eqb key "" then Err ErrMoonPayPublishableKeyMissing else
  if negb (has_prefix "pk_test_" key) && negb (has_prefix "pk_live_" key) then Err ErrMoonPayPublishableKeyFormat else Ok tt.
Definition moonPayWidgetBuyBaseURL (key : string) : string :=
  if has_prefix "sk_test_" key then "https://buy-sandbox.moonpay.com" else "https://buy.moonpay.com".

Fixpoint encodeOrderedQueryParams (params : list (string * string)) : string :=
  match params with
  | [] => ""
  | [(k, v)] => QueryEscape k +:+ "=" +:+ QueryEscape v
  | (k, v) :: params' => QueryEscape k +:+ "=" +:+ QueryEscape v +:+ "&" +:+ encodeOrderedQueryParams params'
  end.
Definition widget_params `{Unicode} (key : string) (p : moonPayWidgetBuyURLParams) : list (string * string) :=
  [("apiKey", key); ("currencyCode", "xlm"); ("walletAddress", mp_PoolAddress p); ("walletAddressTag", mp_MemoID p);
   ("baseCurrencyCode", to_lower (mp_FiatCode p)); ("baseCurrencyAmount", mp_FiatAmount p);
   ("externalCustomerId", mp_ExternalCustomerID p); ("externalTransactionId", mp_ExternalTransactionID p);
   ("showWalletAddressForm", "true")].
Definition buildSignedMoonPayWidgetBuyURL `{Unicode} (baseURL secret key : string) (p : moonPayWidgetBuyURLParams) : string :=
  let params := widget_params key p in
  let signature := Base64.StdEncoding_EncodeToString (Hmac.Sum secret ("?" +:+ encodeOrderedQueryParams params)) in
  baseURL +:+ "?" +:+ encodeOrderedQueryParams (params ++ [("signature", signature)])%list.

(** ** The table *)
Definition set_intents (t : gmap uuid OnRampRow) (d : OnRampStore) : OnRampStore := MkOnRamp t (transak_token d).
Definition GetOnRampIntentByID (id : uuid) (d : OnRampStore) : res OnRampRow :=
  match on_ramp_intents d !! id with Some row => Ok row | None => Err ErrNoRows end.
(** [id] is the primary key, [memo_id] is unique. *)
Definition InsertOnRampIntent (row : OnRampRow) (d : OnRampStore) : res (uuid * OnRampStore) :=
  if present (on_ramp_intents d) (ow_ID row) then Err ErrUnique else
  if exists_row (fun r => String.eqb (ow_MemoID r) (ow_MemoID row)) (on_ramp_intents d) then Err ErrUnique else
  Ok (ow_ID row, set_intents (<[ow_ID row := row]> (on_ramp_intents d)) d).
(** COALESCE keeps a column whose argument is NULL. *)
Definition updated_row (status moonpayTransactionID : option string) (now : Z) (row : OnRampRow) : OnRampRow :=
  {| ow_ID := ow_ID row; ow_MemoID := ow_MemoID row; ow_DestinationCAddress := ow_DestinationCAddress row;
     ow_ExternalCustomerID := ow_ExternalCustomerID row;
     ow_MoonpayTransactionID := match moonpayTransactionID with Some t => Some t | None => ow_MoonpayTransactionID row end;
     ow_Status := default (ow_Status row) status; ow_FiatAmount := ow_FiatAmount row; ow_FiatCode := ow_FiatCode row;
     ow_CreatedAt := ow_CreatedAt row; ow_UpdatedAt := now; ow_RelayerIntentID := ow_RelayerIntentID row;
     ow_PoolAddress := ow_PoolAddress row; ow_ExpiresAt := ow_ExpiresAt row |}.
Definition UpdateOnRampIntent (id : uuid) (status moonpayTransactionID : option string) (now : Z) (d : OnRampStore)
    : res (OnRampRow * OnRampStore) :=
  match on_ramp_intents d !! id with
  | Some row => let row' := updated_row status moonpayTransactionID now row in
                Ok (row', set_intents (<[id := row']> (on_ramp_intents d)) d)
  | None => Err ErrNoRows
  end.

(** ** The clients *)
Section Clients.
Context `{Http} `{JsonText} `{JsonBest moonPayErrorBody} `{JsonBest transakErrorBody} `{Env} `{OnRampConfig}.
Context `{Json sessionTokenBody} `{Json transactionBody} `{Json transakTokenBody} `{Json transakWidgetBody}.
Context `{Json horizonAccount} `{Json horizonTransactionsPage}.
Abbreviation W := (World OnRampStore).

Definition http (req : http_request) : M W http_response := call (http_do req).
Definition is_2xx (status : Z) : bool := (200 <=? status) && (status <? 300).
Fixpoint joined (sep : string) (l : list string) : string :=
  match l with [] => "" | [s] => s | s :: l' => s +:+ sep +:+ joined sep l' end.

(** The message of a refusal: its own, or those of its fields. *)
Definition moonpay_message (status : Z) (body : moonPayErrorBody) : string :=
  if negb (String.eqb (mb_Message body) "") then mb_Message body else
  let msg := joined "; " (filter (fun m => m <> "") (mb_Errors body)) in
  if String.eqb msg "" then "MoonPay request failed (" +:+ pretty status +:+ ")" else msg.
Definition moonpay_do {A} `{Json A} (method path : string) (body : option json) : M W A :=
  let! reqBody := match body with
                  | Some b => let! t := wrap "marshal moonpay request body" (lift (json_text b)) in ret (Some t)
                  | None => ret None
                  end in
  let! resp := wrap "moonpay request" (http {| rq_Method := method; rq_URL := moonPayBase +:+ path;
    rq_Header := [("Content-Type", "application/json"); ("X-Api-Key", secretKey)]; rq_Body := reqBody |}) in
  let! raw := wrap "read moonpay response" (lift (rs_Body resp)) in
  if negb (is_2xx (rs_StatusCode resp))
  then throw (MoonPayAPIError (rs_StatusCode resp) (moonpay_message (rs_StatusCode resp) (json_best raw)))
  else wrap "decode moonpay response" (lift (json_unmarshal raw)).
Definition CreateSession (externalCustomerID deviceIP : string) : M W string :=
  let! resp := moonpay_do "POST" "/platform/v1/sessions"
    (Some (JObj [("externalCustomerId", JStr externalCustomerID); ("deviceIp", JStr deviceIP)])) in
  if String.eqb (sb_SessionToken resp) "" then throw (MoonPayAPIError StatusBadGateway "MoonPay did not return a sessionToken")
  else ret (sb_SessionToken resp).
Definition GetTransaction (transactionID : string) : M W string :=
  let! resp := moonpay_do "GET" ("/platform/v1/transactions/" +:+ PathEscape transactionID) None in
  ret (xb_Status resp).

(** *** onramp_transak_client.go *)
Definition configured : bool := negb (String.eqb transakKey "") && negb (String.eqb transakSecret "").
Definition production : bool := equal_fold transakEnv "production".
Definition refreshURL : string :=
  if negb (String.eqb transakBase "") then transakBase +:+ "/partners/api/v2/refresh-token" else
  if production then "https://api.transak.com/partners/api/v2/refresh-token"
  else "https://api-stg.transak.com/partners/api/v2/refresh-token".
Definition sessionURL : string :=
  if negb (String.eqb transakBase "") then transakBase +:+ "/api/v2/auth/session" else
  if production then "https://api-gateway.transak.com/api/v2/auth/session"
  else "https://api-gateway-stg.transak.com/api/v2/auth/session".
(** In milliseconds, from seconds or milliseconds. *)
Definition transakExpiry (expiresAt : Z) : Z := if 10 ^ 11 <? expiresAt then expiresAt else 1000 * expiresAt.

Definition transak_message (status : Z) (body : transakErrorBody) : string :=
  let msg := if String.eqb (ke_ErrorMessage body) "" then ke_Message body else ke_ErrorMessage body in
  let msg := if String.eqb msg "" then "Transak request failed (" +:+ pretty status +:+ ")" else msg in
  if (200 <? String.length msg)%nat then String.substring 0 200 msg else msg.
Definition transak_do {A} `{Json A} (req : http_request) : M W A :=
  let! resp := wrap "transak request" (http req) in
  let! raw := wrap "read transak response" (lift (rs_Body resp)) in
  if negb (is_2xx (rs_StatusCode resp))
  then throw (TransakAPIError (rs_StatusCode resp) (transak_message (rs_StatusCode resp) (json_best raw)))
  else wrap "decode transak response" (lift (json_unmarshal raw)).

Definition read_token : M W (string * Z) := fun w => (Ok (transak_token (w_store w)), w).
Definition keep_token (token : string) (expiry : Z) : M W unit := fun w =>
  (Ok tt, put_store (MkOnRamp (on_ramp_intents (w_store w)) (token, expiry)) w).
(** The lock is held throughout, so a refresh is one step. *)
Definition accessToken : M W string :=
  let! ' (token, expiry) := read_token in
  let! now := now_ms in
  if negb (String.eqb token "") && (now <? expiry - 60000) then ret token else
  let! body := wrap "marshal transak refresh body" (lift (json_text (JObj [("apiKey", JStr transakKey)]))) in
  let! parsed := transak_do {| rq_Method := "POST"; rq_URL := refreshURL;
    rq_Header := [("Content-Type", "application/json"); ("Accept", "application/json"); ("api-secret", transakSecret)];
    rq_Body := Some body |} in
  if String.eqb (kb_AccessToken parsed) "" then throw (TransakAPIError StatusBadGateway "Transak did not return an accessToken") else
  let! _ := keep_token (kb_AccessToken parsed) (transakExpiry (kb_ExpiresAt parsed)) in
  ret (kb_AccessToken parsed).

Definition transakNetwork (cryptoCurrency : string) : string := if String.eqb cryptoCurrency "USDC" then "stellar" else "mainnet".
Definition widget_payload (inp : transakSessionInput) : json :=
  JObj [("widgetParams", JObj [
    ("apiKey", JStr transakKey); ("referrerDomain", JStr referrerDomain); ("productsAvailed", JStr "BUY");
    ("cryptoCurrencyCode", JStr (ts_CryptoCurrency inp)); ("network", JStr (transakNetwork (ts_CryptoCurrency inp)));
    ("disableWalletAddressForm", JBool true); ("partnerOrderId", JStr (ts_IntentID inp));
    ("partnerCustomerId", JStr (ts_SmartAccount inp));
    ("walletAddressesData", JObj [("coins", JObj [(ts_CryptoCurrency inp,
       JObj [("address", JStr (ts_PoolAddress inp)); ("addressAdditionalData", JStr (ts_MemoID inp))])])])])].
Definition CreateWidgetURL (inp : transakSessionInput) : M W string :=
  if negb configured then throw ErrTransakNotConfigured else
  let! token := accessToken in
  let! payload := wrap "marshal transak session body" (lift (json_text (widget_payload inp))) in
  let! parsed := transak_do {| rq_Method := "POST"; rq_URL := sessionURL;
    rq_Header := [("Content-Type", "application/json"); ("Accept", "application/json"); ("access-token", token);
                  ("x-api-key", transakKey); ("x-user-ip", ts_UserIP inp)];
    rq_Body := Some payload |} in
  if String.eqb (kw_WidgetURL parsed) "" then throw (TransakAPIError StatusBadGateway "Transak did not return a widgetUrl")
  else ret (kw_WidgetURL parsed).

(** *** onramp_pool_balance.go *)
(** A 404 is [None]: an account nobody funded. *)
Definition horizonGet {A} `{Json A} (endpoint : string) : M W (option A) :=
  let! resp := wrap "horizon request" (http {| rq_Method := "GET"; rq_URL := endpoint; rq_Header := []; rq_Body := None |}) in
  if rs_StatusCode resp =? StatusNotFound then ret None else
  if negb (rs_StatusCode resp =? StatusOK) then throw (Errorf "horizon returned") else
  let! out := wrap "decode horizon response" (lift (let? raw := rs_Body resp in json_unmarshal raw)) in ret (Some out).
Definition tx_memo (tx : horizonTransaction) : option string :=
  if String.eqb (ht_MemoType tx) "none" then None else Some (ht_Memo tx).
Definition memo_matches (memoFilter : string) (tx : horizonTransaction) : bool :=
  String.eqb memoFilter "" || bool_decide (tx_memo tx = Some memoFilter).
Definition payment_record (tx : horizonTransaction) : PoolPaymentRecord :=
  {| pp_TransactionID := ht_ID tx; pp_CreatedAt := ht_CreatedAt tx; pp_Memo := tx_memo tx; pp_MemoType := ht_MemoType tx;
     pp_Successful := ht_Successful tx |}.
Definition native_balance (a : horizonAccount) : string :=
  match filter (fun b => hb_AssetType b = "native") (ha_Balances a) with b :: _ => hb_Balance b | [] => "0" end.
Definition FetchSnapshot (horizon network poolAddress memoFilter : string) : M W PoolAccountSnapshot :=
  let snapshot balance txs := {| pl_PoolAddress := poolAddress; pl_Network := network; pl_XLMBalance := balance;
                                 pl_RecentTransactions := txs |} in
  let! account := wrap "fetch pool account" (horizonGet (horizon +:+ "/accounts/" +:+ PathEscape poolAddress)) in
  match account with
  | None => ret (snapshot "0" [])
  | Some account =>
      let! page := wrap "fetch pool transactions"
        (horizonGet (horizon +:+ "/accounts/" +:+ PathEscape poolAddress +:+ "/transactions?order=desc&limit=20")) in
      match page with
      | None => ret (snapshot (native_balance account) [])
      | Some page => ret (snapshot (native_balance account)
                       (payment_record <$> filter (fun tx => memo_matches memoFilter tx) (hp_Records page)))
      end
  end.
End Clients.

(** ** onramp_service.go *)
Section Service.
Context `{Http} `{JsonText} `{JsonBest moonPayErrorBody} `{JsonBest transakErrorBody} `{Env} `{OnRampConfig}.
Context `{Json sessionTokenBody} `{Json transactionBody} `{Json transakTokenBody} `{Json transakWidgetBody}.
Context `{Json horizonAccount} `{Json horizonTransactionsPage}.
Context `{StellarSDK} `{UuidLib} `{Unicode} `{UnicodeUpper} `{RelayerIntents} `{TimeFormat}.
Abbreviation W := (World OnRampStore).

(** [errors.As]: the status of the first error of that type. *)
Fixpoint errors_as (type : string) (e : error) : option Z :=
  match e with
  | ApiError t status inner => if String.eqb t type then Some status else errors_as type inner
  | Wrapf _ e' => errors_as type e'
  | Wrap2 _ e1 e2 => match errors_as type e1 with Some status => Some status | None => errors_as type e2 end
  | _ => None
  end.

Definition or_default (s d : string) : string := let s := trim_space s in if String.eqb s "" then d else s.
Definition normalizeFiat (fiatAmount fiatCode : string) : res (string * string) :=
  let fiatAmount := or_default fiatAmount defaultFiatAmount in
  let fiatCode := to_upper (or_default fiatCode defaultFiatCode) in
  if negb (fiat_pattern fiatAmount) then Err ErrOnRampInvalidFiatAmount else
  if negb (positive_float fiatAmount) then Err ErrOnRampInvalidFiatAmount else Ok (fiatAmount, fiatCode).
Definition contract_destination (destinationCAddress : string) : res string :=
  match strkey_decode_contract destinationCAddress with
  | Ok _ => Ok destinationCAddress
  | Err _ => Err ErrOnRampInvalidCAddress
  end.

Definition mintRelayerIntent (destinationCAddress externalID : string) : M W Intent :=
  wrap "mint relayer funding intent" (call (relayer_create_intent
    {| ci_CAddress := destinationCAddress; ci_ExpectedAmt := ""; ci_ExternalID := externalID;
       ci_ExpiresIn := Z.quot intentTTL 1000 |})).

(** The zero [time.Time] *)
Definition zero_time : Z := -62135596800000.
Definition non_empty (s : string) : option string := if String.eqb s "" then None else Some s.
Definition insertIntent (intentID : uuid) (funding : Intent) (destinationCAddress externalCustomerID fiatAmount fiatCode : string)
    : M W unit :=
  let! now := now_ms in
  let! _ := wrap "insert on-ramp intent" (exec (InsertOnRampIntent
    {| ow_ID := intentID; ow_MemoID := in_MemoID funding; ow_DestinationCAddress := destinationCAddress;
       ow_ExternalCustomerID := externalCustomerID; ow_MoonpayTransactionID := None; ow_Status := OnRampStatusCreated;
       ow_FiatAmount := fiatAmount; ow_FiatCode := fiatCode; ow_CreatedAt := now; ow_UpdatedAt := now;
       ow_RelayerIntentID := non_empty (in_IntentID funding); ow_PoolAddress := non_empty (in_PoolAddress funding);
       ow_ExpiresAt := if in_ExpiresAt funding =? zero_time then None else Some (in_ExpiresAt funding) |})) in
  ret tt.

Definition widget_base : string :=
  if String.eqb widgetBuyURLOverride "" then moonPayWidgetBuyBaseURL secretKey
  else trim_right_char "/" widgetBuyURLOverride.
Definition buildWidgetSession (intentID : string) (funding : Intent)
    (destinationCAddress externalCustomerID fiatAmount fiatCode : string) (platformFallback : bool) : res OnRampSession :=
  let? _ := validateMoonPaySecretKey secretKey in
  let? _ := validateMoonPayPublishableKey publishableKey in
  Ok {| os_IntentID := intentID; os_MemoID := in_MemoID funding; os_DestinationCAddress := destinationCAddress;
        os_PoolAddress := in_PoolAddress funding; os_FiatAmount := fiatAmount; os_FiatCode := fiatCode;
        os_IntegrationMode := onRampIntegrationModeWidget; os_SessionToken := "";
        os_WidgetURL := buildSignedMoonPayWidgetBuyURL widget_base secretKey publishableKey
          {| mp_PoolAddress := in_PoolAddress funding; mp_MemoID := in_MemoID funding; mp_FiatAmount := fiatAmount;
             mp_FiatCode := fiatCode; mp_ExternalCustomerID := externalCustomerID; mp_ExternalTransactionID := intentID |};
        os_PlatformFallback := platformFallback; os_Provider := ""; os_CryptoCurrency := "" |}.

Definition moonPaySession (intentID : string) (funding : Intent)
    (destinationCAddress externalCustomerID deviceIP fiatAmount fiatCode : string) : M W OnRampSession :=
  if String.eqb integrationMode onRampIntegrationModeWidget
  then lift (buildWidgetSession intentID funding destinationCAddress externalCustomerID fiatAmount fiatCode false) else
  let! r := attempt (CreateSession externalCustomerID deviceIP) in
  match r with
  | Ok sessionToken =>
      ret {| os_IntentID := intentID; os_MemoID := in_MemoID funding; os_DestinationCAddress := destinationCAddress;
             os_PoolAddress := in_PoolAddress funding; os_FiatAmount := fiatAmount; os_FiatCode := fiatCode;
             os_IntegrationMode := onRampIntegrationModePlatform; os_SessionToken := sessionToken; os_WidgetURL := "";
             os_PlatformFallback := false; os_Provider := ""; os_CryptoCurrency := "" |}
  | Err e =>
      if String.eqb integrationMode onRampIntegrationModeAuto && bool_decide (errors_as "MoonPayAPIError" e = Some StatusNotFound)
      then lift (buildWidgetSession intentID funding destinationCAddress externalCustomerID fiatAmount fiatCode true)
      else throw (Wrapf "create moonpay session" e)
  end.

Definition CreateIntent (externalCustomerID deviceIP destinationCAddress fiatAmount fiatCode : string) : M W OnRampSession :=
  let! destinationCAddress := lift (contract_destination (trim_space destinationCAddress)) in
  let! ' (fiatAmount, fiatCode) := lift (normalizeFiat fiatAmount fiatCode) in
  let! intentID := new_uuid in
  let! funding := mintRelayerIntent destinationCAddress (uuid_string intentID) in
  let! sess := moonPaySession (uuid_string intentID) funding destinationCAddress externalCustomerID deviceIP fiatAmount fiatCode in
  let! _ := insertIntent intentID funding destinationCAddress externalCustomerID fiatAmount fiatCode in
  ret sess.

Definition CreateTransakIntent (inp : TransakIntentInput) : M W OnRampSession :=
  if negb (equal_fold poolNetwork "mainnet") then throw ErrTransakRequiresMainnet else
  if negb configured then throw ErrTransakNotConfigured else
  let! destinationCAddress := lift (contract_destination (trim_space (ti_DestinationCAddress inp))) in
  let cryptoCurrency := to_upper (trim_space (ti_CryptoCurrency inp)) in
  if negb (String.eqb cryptoCurrency "XLM") && negb (String.eqb cryptoCurrency "USDC") then throw ErrTransakCryptoInvalid else
  let! ' (fiatAmount, fiatCode) := lift (normalizeFiat (ti_FiatAmount inp) (ti_FiatCode inp)) in
  let! intentID := new_uuid in
  let! funding := mintRelayerIntent destinationCAddress (uuid_string intentID) in
  let! widgetURL := wrap "create transak session" (CreateWidgetURL
    {| ts_PoolAddress := in_PoolAddress funding; ts_MemoID := in_MemoID funding; ts_IntentID := uuid_string intentID;
       ts_SmartAccount := destinationCAddress; ts_CryptoCurrency := cryptoCurrency; ts_UserIP := ti_DeviceIP inp |}) in
  let! _ := insertIntent intentID funding destinationCAddress (ti_ExternalCustomerID inp) fiatAmount fiatCode in
  ret {| os_IntentID := uuid_string intentID; os_MemoID := in_MemoID funding; os_DestinationCAddress := destinationCAddress;
         os_PoolAddress := in_PoolAddress funding; os_FiatAmount := fiatAmount; os_FiatCode := fiatCode;
         os_IntegrationMode := onRampIntegrationModeWidget; os_SessionToken := ""; os_WidgetURL := widgetURL;
         os_PlatformFallback := false; os_Provider := OnRampProviderTransak; os_CryptoCurrency := cryptoCurrency |}.

Definition onRampIntentFromRow (row : OnRampRow) : OnRampIntent :=
  {| oi_ID := uuid_string (ow_ID row); oi_MemoID := ow_MemoID row; oi_DestinationCAddress := ow_DestinationCAddress row;
     oi_ExternalCustomerID := ow_ExternalCustomerID row; oi_MoonpayTransactionID := default "" (ow_MoonpayTransactionID row);
     oi_Status := ow_Status row; oi_FiatAmount := ow_FiatAmount row; oi_FiatCode := ow_FiatCode row;
     oi_CreatedAt := ow_CreatedAt row; oi_UpdatedAt := ow_UpdatedAt row |}.

(** [GetIntent] of the service: the row, and the provider's status when it answers. *)
Definition OnRamp_GetIntent (id : string) : M W (OnRampIntent * string) :=
  match uuid_parse id with
  | None => throw ErrOnRampIntentNotFound
  | Some uid =>
      let! row := or_no_rows ErrOnRampIntentNotFound "get on-ramp intent" (query (GetOnRampIntentByID uid)) in
      let intent := onRampIntentFromRow row in
      if String.eqb (oi_MoonpayTransactionID intent) "" then ret (intent, "") else
      let! r := attempt (GetTransaction (oi_MoonpayTransactionID intent)) in
      ret (intent, match r with Ok status => status | Err _ => "" end)
  end.

Definition isValidOnRampStatus (status : string) : bool :=
  String.eqb status OnRampStatusCreated || String.eqb status OnRampStatusPending
  || String.eqb status OnRampStatusCompleted || String.eqb status OnRampStatusFailed.

Definition UpdateIntent (id : string) (status moonpayTransactionID : option string) : M W OnRampIntent :=
  match status, moonpayTransactionID with
  | None, None => throw ErrOnRampNoUpdateFields
  | _, _ =>
      if match status with Some s => negb (isValidOnRampStatus s) | None => false end then throw ErrOnRampInvalidStatus else
      match uuid_parse id with
      | None => throw ErrOnRampIntentNotFound
      | Some uid =>
          let! now := now_ms in
          let! updated := or_no_rows ErrOnRampIntentNotFound "update on-ramp intent"
                            (exec (UpdateOnRampIntent uid status moonpayTransactionID now)) in
          ret (onRampIntentFromRow updated)
      end
  end.

Definition PoolSnapshot (memoFilter : string) : M W PoolAccountSnapshot :=
  FetchSnapshot horizonURL (if equal_fold poolNetwork "mainnet" then "mainnet" else "testnet") configuredPool memoFilter.

(** ** handler/webapp/onramp.go *)
Definition providerStatus (upstream : Z) : Z :=
  if (upstream =? StatusBadRequest) || (upstream =? StatusNotFound) || (upstream =? StatusConflict)
     || (upstream =? StatusUnprocessableEntity) then upstream else StatusBadGateway.
Definition onRampErrorResponse (e : error) : string * string :=
  if errors_is e ErrOnRampIntentNotFound then ("404", "internal_error") else
  if errors_is e ErrOnRampInvalidCAddress || errors_is e ErrOnRampInvalidFiatAmount || errors_is e ErrOnRampInvalidStatus
     || errors_is e ErrOnRampNoUpdateFields || errors_is e ErrTransakCryptoInvalid then ("400", "internal_error") else
  if errors_is e ErrTransakRequiresMainnet || errors_is e ErrTransakNotConfigured then ("503", "internal_error") else
  if errors_is e ErrRelayerUnavailable || errors_is e ErrRelayerNotConfigured then ("503", "internal_error") else
  if errors_is e ErrMoonPaySecretKeyMissing || errors_is e ErrMoonPaySecretKeyIsPublishable
     || errors_is e ErrMoonPaySecretKeyFormat || errors_is e ErrMoonPayPublishableKeyMissing
     || errors_is e ErrMoonPayPublishableKeyFormat then ("500", "internal_error") else
  match errors_as "MoonPayAPIError" e with
  | Some status => (pretty (providerStatus status), "internal_error")
  | None => match errors_as "TransakAPIError" e with
            | Some _ => ("502", "internal_error")
            | None => ("500", "internal_error")
            end
  end.

Record createOnRampSessionRequest := {
  qo_DestinationCAddress : string; qo_FiatAmount : string; qo_FiatCode : string; qo_Provider : string;
  qo_CryptoCurrency : string }.
Definition chosen_provider (raw : string) : string :=
  let p := to_lower (trim_space raw) in if String.eqb p "" then OnRampProviderMoonPay else p.
(** A field that is left out when empty. *)
Definition optional_field (name value : string) : list (string * json) :=
  if String.eqb value "" then [] else [(name, JStr value)].
Definition session_json (s : OnRampSession) : json := JObj
  ([("intentId", JStr (os_IntentID s)); ("memoId", JStr (os_MemoID s)); ("destinationCAddress", JStr (os_DestinationCAddress s));
    ("poolAddress", JStr (os_PoolAddress s)); ("fiatAmount", JStr (os_FiatAmount s)); ("fiatCode", JStr (os_FiatCode s));
    ("integrationMode", JStr (os_IntegrationMode s))] ++
   optional_field "sessionToken" (os_SessionToken s) ++ optional_field "widgetUrl" (os_WidgetURL s) ++
   (if os_PlatformFallback s then [("platformFallback", JBool true)] else []) ++
   optional_field "provider" (os_Provider s) ++ optional_field "cryptoCurrency" (os_CryptoCurrency s))%list.
Definition Session_handler (userID clientIP : string) (req : createOnRampSessionRequest) : M W json :=
  let! _ := bound [qo_DestinationCAddress req] in
  let provider := chosen_provider (qo_Provider req) in
  if negb (String.eqb provider OnRampProviderMoonPay) && negb (String.eqb provider OnRampProviderTransak) then bad_body else
  if String.eqb provider OnRampProviderTransak && String.eqb (trim_space (qo_CryptoCurrency req)) "" then bad_body else
  let! sess := answered onRampErrorResponse
    (if String.eqb provider OnRampProviderTransak
     then CreateTransakIntent {| ti_ExternalCustomerID := userID; ti_DeviceIP := clientIP;
            ti_DestinationCAddress := qo_DestinationCAddress req; ti_CryptoCurrency := qo_CryptoCurrency req;
            ti_FiatAmount := qo_FiatAmount req; ti_FiatCode := qo_FiatCode req |}
     else CreateIntent userID clientIP (qo_DestinationCAddress req) (qo_FiatAmount req) (qo_FiatCode req)) in
  ret (session_json sess).

Definition nullable (s : string) : json := if String.eqb s "" then JNull else JStr s.
Definition serializeOnRampIntent (intent : OnRampIntent) (moonpayStatus : string) : json := JObj
  [("id", JStr (oi_ID intent)); ("memoId", JStr (oi_MemoID intent)); ("destinationCAddress", JStr (oi_DestinationCAddress intent));
   ("status", JStr (oi_Status intent)); ("moonpayTransactionId", nullable (oi_MoonpayTransactionID intent));
   ("fiatAmount", JStr (oi_FiatAmount intent)); ("fiatCode", JStr (oi_FiatCode intent));
   ("moonpayTransactionStatus", nullable moonpayStatus); ("createdAt", JStr (rfc3339_format (oi_CreatedAt intent)));
   ("updatedAt", JStr (rfc3339_format (oi_UpdatedAt intent)))].
Definition GetIntent_handler (id : string) : M W json :=
  let! ' (intent, moonpayStatus) := answered onRampErrorResponse (OnRamp_GetIntent id) in
  ret (serializeOnRampIntent intent moonpayStatus).
(** The audit record and the notification change no answer and are left out. *)
Definition UpdateIntent_handler (id : string) (status moonpayTransactionID : option string) : M W json :=
  if match moonpayTransactionID with Some t => String.eqb (trim_space t) "" | None => false end then bad_body else
  let! _ := answered onRampErrorResponse (UpdateIntent id status moonpayTransactionID) in
  GetIntent_handler id.
Definition payment_json (tx : PoolPaymentRecord) : json := JObj
  [("transactionId", JStr (pp_TransactionID tx)); ("createdAt", JStr (pp_CreatedAt tx));
   ("memo", match pp_Memo tx with Some m => JStr m | None => JNull end); ("memoType", JStr (pp_MemoType tx));
   ("successful", JBool (pp_Successful tx))].
Definition Pool_handler (memo : string) : M W json :=
  let! snapshot := or_fail "500" "internal_error" (PoolSnapshot (trim_space memo)) in
  ret (JObj [("poolAddress", JStr (pl_PoolAddress snapshot)); ("network", JStr (pl_Network snapshot));
             ("xlmBalance", JStr (pl_XLMBalance snapshot));
             ("recentTransactions", JArr (payment_json <$> pl_RecentTransactions snapshot))]).
End Service.
End OnRamp.
