(* ===== verification/OnRampTheorems.v ===== *)
(** * What the on-ramp guarantees (theorems about OnRamp.v)

    No session without a registered memo; a purchase never changes but in its
    status and transaction; two updates of different fields both survive; the URL
    of the widget is read back as what was signed. *)

From S2P Require Export OnRamp.
From S2P Require Import Instances.

#[local] Unset Default Proof Using.

Module OnRampTheorems.
Import Url OnRamp Routes AccountSigners.

(** ** Query strings *)
Lemma query_round_trip s : QueryUnescape (QueryEscape s) = Ok s.
Proof.
  induction s as [|c s IH]; [done|]. cbn [QueryEscape]. revert IH. generalize (QueryEscape s). intros e IH.
  destruct c as [[] [] [] [] [] [] [] []]; cbn;
    try match goal with |- context [if unreserved ?c then ?a else ?b] =>
      let x := eval vm_compute in (if unreserved c then a else b) in change (if unreserved c then a else b) with x end;
    cbn; by rewrite IH.
Qed.
(** What ends a key or a value. *)
Definition query_safe (c : ascii) : bool := negb (Ascii.eqb "&" c) && negb (Ascii.eqb "=" c).
Lemma query_escape_safe s : str_forall query_safe (QueryEscape s) = true.
Proof.
  induction s as [|c s IH]; [done|]. cbn [QueryEscape]. rewrite str_forall_app, IH, andb_true_r.
  by destruct c as [[] [] [] [] [] [] [] []].
Qed.

Lemma escaped_without (c : ascii) s : (c = "&"%char \/ c = "="%char) -> str_forall (fun d => negb (Ascii.eqb c d)) (QueryEscape s) = true.
Proof.
  intros Hc. eapply str_forall_impl; [|apply query_escape_safe]. intros d [H1' H2']%andb_prop. by destruct Hc as [->| ->].
Qed.

(** A query string read in order, as [url.ParseQuery] reads it. *)
Fixpoint parse_query (fuel : nat) (q : string) : res (list (string * string)) :=
  match fuel with
  | O => Err (Errorf "fuel")
  | S fuel' =>
      let '(piece, rest, more) := cut_at "&" q in
      let '(k, v, _) := cut_at "=" piece in
      let? k := QueryUnescape k in
      let? v := QueryUnescape v in
      if more then let? l := parse_query fuel' rest in Ok ((k, v) :: l) else Ok [(k, v)]
  end.

Lemma cut_pair k v : cut_at "=" (QueryEscape k +:+ "=" +:+ QueryEscape v) = (QueryEscape k, QueryEscape v, true).
Proof. change ("=" +:+ QueryEscape v) with (String "=" (QueryEscape v)). apply cut_at_notin, escaped_without. by right. Qed.
Lemma pair_without k v : str_forall (fun d => negb (Ascii.eqb "&" d)) (QueryEscape k +:+ "=" +:+ QueryEscape v) = true.
Proof. rewrite !str_forall_app, !escaped_without by (by left). done. Qed.
Lemma parse_encode params : params <> [] -> forall fuel, (length params <= fuel)%nat ->
  parse_query fuel (encodeOrderedQueryParams params) = Ok params.
Proof.
  induction params as [|[k v] params IH]; [done|]. intros _ [|fuel] Hf; [cbn in Hf; lia|]. cbn [parse_query].
  destruct params as [|p params].
  - cbn [encodeOrderedQueryParams]. rewrite cut_at_none by apply pair_without. rewrite cut_pair. cbn.
    by rewrite !query_round_trip.
  - change (encodeOrderedQueryParams ((k, v) :: p :: params)) with
      (QueryEscape k +:+ "=" +:+ QueryEscape v +:+ String "&" (encodeOrderedQueryParams (p :: params))).
    rewrite <- !str_app_assoc, (str_app_assoc (QueryEscape k) "=" (QueryEscape v)).
    rewrite cut_at_notin by apply pair_without. rewrite cut_pair. cbn [res_bind]. rewrite !query_round_trip. cbn [res_bind].
    rewrite IH; [done|done|cbn in *; lia].
Qed.
Lemma encode_snoc params k v : params <> [] ->
  encodeOrderedQueryParams (params ++ [(k, v)])%list = encodeOrderedQueryParams params +:+ "&" +:+ QueryEscape k +:+ "=" +:+ QueryEscape v.
Proof.
  induction params as [|[k' v'] params IH]; [done|]. intros _. destruct params as [|p params]; [cbn; by rewrite !str_app_assoc|].
  change (((k', v') :: p :: params) ++ [(k, v)])%list with ((k', v') :: (p :: params) ++ [(k, v)])%list.
  change (encodeOrderedQueryParams ((k', v') :: p :: params)) with
      (QueryEscape k' +:+ "=" +:+ QueryEscape v' +:+ "&" +:+ encodeOrderedQueryParams (p :: params)).
  rewrite !str_app_assoc, <- IH by done. rewrite <- !app_comm_cons. cbn [encodeOrderedQueryParams]. done.
Qed.

(** The widget's URL is read back as what was signed: after the base and the
    question mark stand the nine parameters, in order, each with exactly its value
    whatever characters it holds, and last a signature; the signature is the
    HMAC-SHA256, under the secret key, of the question mark and the query as it
    stands before the signature. *)
Theorem widget_url_signed `{Unicode} base secret key p :
  exists query, let signature := Base64.StdEncoding_EncodeToString (Hmac.Sum secret ("?" +:+ query)) in
    let signed := query +:+ "&signature=" +:+ QueryEscape signature in
    buildSignedMoonPayWidgetBuyURL base secret key p = base +:+ "?" +:+ signed /\
    parse_query 9 query = Ok (widget_params key p) /\
    parse_query 10 signed = Ok (widget_params key p ++ [("signature", signature)])%list.
Proof.
  exists (encodeOrderedQueryParams (widget_params key p)). cbn zeta.
  set (signature := Base64.StdEncoding_EncodeToString _).
  assert (encodeOrderedQueryParams (widget_params key p) +:+ "&signature=" +:+ QueryEscape signature =
    encodeOrderedQueryParams (widget_params key p ++ [("signature", signature)])%list) as -> by (by rewrite encode_snoc).
  split; [done|]. split; apply parse_encode; [done|cbn; lia|done|cbn; lia].
Qed.

(** ** Purchases *)
Section Purchases.
Context `{Http} `{JsonText} `{JsonBest moonPayErrorBody} `{JsonBest transakErrorBody} `{Env} `{OnRampConfig}.
Context `{Json sessionTokenBody} `{Json transactionBody} `{Json transakTokenBody} `{Json transakWidgetBody}.
Context `{Json horizonAccount} `{Json horizonTransactionsPage}.
Context `{StellarSDK} `{UuidLib} `{Unicode} `{UnicodeUpper} `{RelayerIntents} `{TimeFormat}.
Abbreviation W := (World OnRampStore).

(** A request for a session, by either provider. *)
Inductive create_request :=
  | CrMoonPay (externalCustomerID deviceIP destinationCAddress fiatAmount fiatCode : string)
  | CrTransak (inp : TransakIntentInput).
Definition create (rq : create_request) : M W OnRampSession :=
  match rq with
  | CrMoonPay cust ip dest amount code => CreateIntent cust ip dest amount code
  | CrTransak inp => CreateTransakIntent inp
  end.
Definition destination (rq : create_request) : string :=
  trim_space match rq with CrMoonPay _ _ dest _ _ => dest | CrTransak inp => ti_DestinationCAddress inp end.
Definition customer (rq : create_request) : string :=
  match rq with CrMoonPay cust _ _ _ _ => cust | CrTransak inp => ti_ExternalCustomerID inp end.
Definition asked_amount (rq : create_request) : string * string :=
  match rq with CrMoonPay _ _ _ amount code => (amount, code) | CrTransak inp => (ti_FiatAmount inp, ti_FiatCode inp) end.

(** The row of a purchase the relayer funds. *)
Definition purchase_row (id : uuid) (funding : Intent) (dest cust amount code : string) (t : Z) : OnRampRow :=
  {| ow_ID := id; ow_MemoID := in_MemoID funding; ow_DestinationCAddress := dest; ow_ExternalCustomerID := cust;
     ow_MoonpayTransactionID := None; ow_Status := OnRampStatusCreated; ow_FiatAmount := amount; ow_FiatCode := code;
     ow_CreatedAt := t; ow_UpdatedAt := t; ow_RelayerIntentID := non_empty (in_IntentID funding);
     ow_PoolAddress := non_empty (in_PoolAddress funding);
     ow_ExpiresAt := if in_ExpiresAt funding =? zero_time then None else Some (in_ExpiresAt funding) |}.

(** The tables are left alone. *)
Definition same_intents (d d' : OnRampStore) : Prop := on_ramp_intents d' = on_ramp_intents d.
#[local] Instance same_intents_refl : Reflexive same_intents.
Proof. by intros d. Qed.
#[local] Instance same_intents_trans : Transitive same_intents.
Proof. intros d1 d2 d3 ? ?. unfold same_intents. congruence. Qed.

Lemma keeps_read_token : keeps (on_store same_intents) read_token.
Proof. by intros w. Qed.
Lemma keeps_keep_token t e : keeps (on_store same_intents) (keep_token t e).
Proof. by intros w. Qed.
Hint Resolve keeps_read_token keeps_keep_token : keeps.
Lemma keeps_moonpay {A} `{Json A} m p b : keeps (on_store same_intents) (moonpay_do (A := A) m p b).
Proof. unfold moonpay_do, http. keeps. Qed.
Lemma keeps_transak {A} `{Json A} req : keeps (on_store same_intents) (transak_do (A := A) req).
Proof. unfold transak_do, http. keeps. Qed.
Lemma keeps_horizon {A} `{Json A} e : keeps (on_store same_intents) (horizonGet (A := A) e).
Proof. unfold horizonGet, http. keeps. Qed.
Hint Resolve keeps_moonpay keeps_transak keeps_horizon : keeps.
Lemma keeps_GetTransaction t : keeps (on_store same_intents) (GetTransaction t).
Proof. unfold GetTransaction. keeps. Qed.
Lemma keeps_accessToken : keeps (on_store same_intents) accessToken.
Proof. unfold accessToken. keeps. Qed.
Hint Resolve keeps_GetTransaction keeps_accessToken : keeps.
Lemma keeps_widget inp : keeps (on_store same_intents) (CreateWidgetURL inp).
Proof. unfold CreateWidgetURL. keeps. Qed.
Lemma keeps_moonPaySession i f d c ip a fc : keeps (on_store same_intents) (moonPaySession i f d c ip a fc).
Proof. unfold moonPaySession, CreateSession. keeps. Qed.
Lemma keeps_mint d e : keeps (on_store same_intents) (mintRelayerIntent d e).
Proof. unfold mintRelayerIntent. keeps. Qed.
Hint Resolve keeps_widget keeps_moonPaySession keeps_mint : keeps.

Lemma mint_ok dest ext funding (w w' : W) : mintRelayerIntent dest ext w = (Ok funding, w') ->
  relayer_create_intent {| ci_CAddress := dest; ci_ExpectedAmt := ""; ci_ExternalID := ext; ci_ExpiresIn := Z.quot intentTTL 1000 |}
    (w_io w) = Ok funding /\ w_store w' = w_store w.
Proof. unfold mintRelayerIntent. intros Hr. apply (proj1 (wrap_ok _ _ _ _ _)) in Hr. apply call_ok in Hr as [? ->]. done. Qed.

Lemma insert_ok id funding dest cust amount code r (w w' : W) :
  insertIntent id funding dest cust amount code w = (r, w') ->
  match r with
  | Ok _ => exists t, on_ramp_intents (w_store w) !! id = None /\
      (forall k row, on_ramp_intents (w_store w) !! k = Some row -> ow_MemoID row <> in_MemoID funding) /\
      on_ramp_intents (w_store w') = <[id := purchase_row id funding dest cust amount code t]> (on_ramp_intents (w_store w))
  | Err _ => on_ramp_intents (w_store w') = on_ramp_intents (w_store w)
  end.
Proof.
  unfold insertIntent, bind, wrap, now_ms, exec. cbn [tick w_io w_store]. destruct (env_fault _); [by intros [= <- <-]|].
  unfold InsertOnRampIntent, present. cbn [ow_ID ow_MemoID].
  destruct (on_ramp_intents (w_store w) !! id) eqn:E; [by intros [= <- <-]|].
  destruct (exists_row _ _) eqn:Ex; [by intros [= <- <-]|]. intros [= <- <-]. eexists. split; [done|]. split; [|reflexivity].
  intros k row Hk Hm. enough (exists_row (fun r => String.eqb (ow_MemoID r) (in_MemoID funding)) (on_ramp_intents (w_store w)) = true)
    as Hx by congruence.
  apply existsb_exists. exists row. split; [apply list_elem_of_In, elem_of_rows; eauto|by apply String.eqb_eq].
Qed.

(** What a session that was opened has behind it. *)
Definition funded (rq : create_request) (sess : OnRampSession) (d d' : OnRampStore) : Prop :=
  exists id n funding amount code t,
    relayer_create_intent {| ci_CAddress := destination rq; ci_ExpectedAmt := ""; ci_ExternalID := uuid_string id;
      ci_ExpiresIn := Z.quot intentTTL 1000 |} n = Ok funding /\
    is_ok (strkey_decode_contract (destination rq)) = true /\
    normalizeFiat (fst (asked_amount rq)) (snd (asked_amount rq)) = Ok (amount, code) /\
    os_IntentID sess = uuid_string id /\ os_MemoID sess = in_MemoID funding /\ os_PoolAddress sess = in_PoolAddress funding /\
    os_DestinationCAddress sess = destination rq /\
    on_ramp_intents d !! id = None /\
    (forall k row, on_ramp_intents d !! k = Some row -> ow_MemoID row <> in_MemoID funding) /\
    on_ramp_intents d' = <[id := purchase_row id funding (destination rq) (customer rq) amount code t]> (on_ramp_intents d).

Lemma contract_destination_ok x y : contract_destination x = Ok y -> y = x /\ is_ok (strkey_decode_contract x) = true.
Proof. unfold contract_destination. destruct (strkey_decode_contract x); [by intros [= <-]|done]. Qed.

Lemma moonPaySession_ok i f d c ip a fc sess (w w' : W) : moonPaySession i f d c ip a fc w = (Ok sess, w') ->
  os_IntentID sess = i /\ os_MemoID sess = in_MemoID f /\ os_PoolAddress sess = in_PoolAddress f /\ os_DestinationCAddress sess = d.
Proof.
  assert (forall b, buildWidgetSession i f d c a fc b = Ok sess -> os_IntentID sess = i /\ os_MemoID sess = in_MemoID f /\
    os_PoolAddress sess = in_PoolAddress f /\ os_DestinationCAddress sess = d) as Hb.
  { intros b. unfold buildWidgetSession. intros (u & _ & Hr)%res_bind_ok. apply res_bind_ok in Hr as (v & _ & [= <-]). done. }
  unfold moonPaySession. destruct (String.eqb _ _); [by intros [Hr _]%lift_ok; eapply Hb|].
  intros (r & w1 & _ & Hr)%bind_ok. destruct r as [t|e]; [by apply ret_ok in Hr as [<- _]|].
  destruct (_ && _); [apply lift_ok in Hr as [Hr _]; by eapply Hb|by apply throw_ok in Hr].
Qed.

(** The table after any step that ended before the insertion. *)
Lemma unfunded {A} (m : M W A) (w : W) r w' : keeps (on_store same_intents) m -> m w = (r, w') ->
  on_ramp_intents (w_store w') = on_ramp_intents (w_store w).
Proof. intros Hk Hr. exact (keeps_run _ _ _ _ _ Hk Hr). Qed.

Lemma session_created rq (w w' : W) sess : create rq w = (Ok sess, w') -> funded rq sess (w_store w) (w_store w').
Proof.
  destruct rq as [cust ip dest amount code|inp]; cbn [create].
  - unfold CreateIntent. intros (dst & w1 & Hd & Hr)%bind_ok. apply lift_ok in Hd as [[-> Hok]%contract_destination_ok <-].
    apply bind_ok in Hr as ([am co] & w2 & Hn & Hr). apply lift_ok in Hn as [Hn <-].
    apply bind_ok in Hr as (id & w3 & (-> & ->)%new_uuid_ok & Hr). apply bind_ok in Hr as (f & w4 & [Hf E4]%mint_ok & Hr).
    apply bind_ok in Hr as (s & w5 & Hs & Hr). pose proof (unfunded _ _ _ _ (keeps_moonPaySession _ _ _ _ _ _ _) Hs) as E5.
    apply moonPaySession_ok in Hs as (? & ? & ? & ?). apply bind_ok in Hr as ([] & w6 & Hi & Hr). apply ret_ok in Hr as [<- <-].
    apply insert_ok in Hi as (t & ? & ? & ?). rewrite E5, E4 in *. by eexists _, _, f, am, co, t.
  - unfold CreateTransakIntent. destruct (negb _); [by intros []%throw_ok|]. destruct (negb _); [by intros []%throw_ok|].
    intros (dst & w1 & Hd & Hr)%bind_ok. apply lift_ok in Hd as [[-> Hok]%contract_destination_ok <-].
    destruct (_ && _); [by apply throw_ok in Hr|]. apply bind_ok in Hr as ([am co] & w2 & Hn & Hr). apply lift_ok in Hn as [Hn <-].
    apply bind_ok in Hr as (id & w3 & (-> & ->)%new_uuid_ok & Hr). apply bind_ok in Hr as (f & w4 & [Hf E4]%mint_ok & Hr).
    apply bind_ok in Hr as (u & w5 & Hu & Hr). apply (proj1 (wrap_ok _ _ _ _ _)) in Hu.
    pose proof (unfunded _ _ _ _ (keeps_widget _) Hu) as E5.
    apply bind_ok in Hr as ([] & w6 & Hi & Hr). apply ret_ok in Hr as [<- <-].
    apply insert_ok in Hi as (t & ? & ? & ?). rewrite E5, E4 in *. by eexists _, _, f, am, co, t.
Qed.

(** Failing leaves the table alone. *)
Definition fails_same {A} (m : M W A) : Prop :=
  forall w e w', m w = (Err e, w') -> on_ramp_intents (w_store w') = on_ramp_intents (w_store w).
Lemma fails_same_bind {A B} (m : M W A) (k : A -> M W B) :
  keeps (on_store same_intents) m -> (forall a, fails_same (k a)) -> fails_same (bind m k).
Proof.
  intros Hm Hk w e w' [Hr|(a & w1 & Hr & Hr')]%bind_err; [exact (keeps_run _ _ _ _ _ Hm Hr)|].
  rewrite (Hk _ _ _ _ Hr'). exact (keeps_run _ _ _ _ _ Hm Hr).
Qed.
Lemma fails_same_throw {A} e : fails_same (throw (A := A) e).
Proof. by intros w e' w' [= _ <-]. Qed.
Lemma fails_same_insert {A} i f d c a fc (x : A) : fails_same (bind (insertIntent i f d c a fc) (fun _ => ret x)).
Proof. intros w e w' [Hr|(u & w1 & _ & Hr)]%bind_err; [by apply insert_ok in Hr|done]. Qed.
Hint Resolve keeps_lift keeps_new_uuid : keeps.
Lemma session_refused rq : fails_same (create rq).
Proof.
  destruct rq; cbn [create]; unfold CreateIntent, CreateTransakIntent.
  all: repeat match goal with
    | |- fails_same (if _ then _ else _) => case_match
    | |- fails_same (throw _) => apply fails_same_throw
    | |- fails_same (bind (insertIntent _ _ _ _ _ _) _) => apply fails_same_insert
    | |- fails_same (bind _ _) => apply fails_same_bind; [keeps|intros ?]
    | |- fails_same (match ?x with pair _ _ => _ end) => destruct x
    end.
Qed.

(** C29. No session without a registered deposit. When a session is opened, by either
    provider, the relayer had answered a request for this very destination, a valid
    contract address, under the id of this purchase; the memo and the pool address
    in the answer are the relayer's; and the one row that was added records them with
    the customer and the amount, under an id and a memo no other purchase has. When
    it fails, no row was added. *)
Theorem session_funded rq (w w' : W) r :
  create rq w = (r, w') ->
  match r with
  | Ok sess => funded rq sess (w_store w) (w_store w')
  | Err _ => on_ramp_intents (w_store w') = on_ramp_intents (w_store w)
  end.
Proof. intros Hr. destruct r as [sess|e]; [by apply session_created|by eapply session_refused]. Qed.

(** ** Updates *)
Lemma UpdateIntent_ok id status tx r (w w' : W) : UpdateIntent id status tx w = (Ok r, w') ->
  exists uid row t, uuid_parse id = Some uid /\ on_ramp_intents (w_store w) !! uid = Some row /\
    match status with Some s => isValidOnRampStatus s = true | None => True end /\ (status <> None \/ tx <> None) /\
    r = onRampIntentFromRow (updated_row status tx t row) /\
    w_store w' = set_intents (<[uid := updated_row status tx t row]> (on_ramp_intents (w_store w))) (w_store w).
Proof.
  unfold UpdateIntent. intros Hr.
  assert (status <> None \/ tx <> None) as Hs by (destruct status, tx; [by left|by left|by right|done]).
  assert ((if match status with Some s => negb (isValidOnRampStatus s) | None => false end then throw ErrOnRampInvalidStatus else
    match uuid_parse id with
    | None => throw ErrOnRampIntentNotFound
    | Some uid => let! now := now_ms in
        let! updated := or_no_rows ErrOnRampIntentNotFound "update on-ramp intent" (exec (UpdateOnRampIntent uid status tx now)) in
        ret (onRampIntentFromRow updated)
    end) w = (Ok r, w')) as Hx by (destruct status, tx; done). clear Hr.
  destruct (match status with Some s => _ | None => _ end) eqn:Ev; [done|]. destruct (uuid_parse id) as [uid|]; [|done].
  apply bind_ok in Hx as (now & w1 & (-> & ->)%now_ok & Hr). apply bind_ok in Hr as (row' & w2 & Hu & Hr). apply ret_ok in Hr as [<- <-].
  unfold or_no_rows in Hu. apply bind_ok in Hu as (q & w3 & Hq & Hu). apply (proj1 (attempt_ok _ _ _ _)) in Hq.
  destruct q as [x|e]; [|by destruct (errors_is e ErrNoRows)]. apply ret_ok in Hu as [-> ->]. apply exec_ok in Hq as (_ & d & Hq & ->).
  unfold UpdateOnRampIntent in Hq. cbn [tick w_store] in Hq. destruct (on_ramp_intents (w_store w) !! uid) as [row|] eqn:E; [|done].
  injection Hq as <- <-. exists uid, row. eexists. split_and!; try done. destruct status as [s|]; [|done]. by apply negb_false_iff in Ev.
Qed.
Lemma UpdateIntent_err id status tx : fails_same (UpdateIntent id status tx).
Proof.
  intros w e w' Hr. assert (forall uid, fails_same (let! now := now_ms in
    let! updated := or_no_rows ErrOnRampIntentNotFound "update on-ramp intent" (exec (UpdateOnRampIntent uid status tx now)) in
    ret (onRampIntentFromRow updated))) as Hf.
  { intros uid. apply fails_same_bind; [keeps|]. intros now w0 e0 w0' [Hx|(a & w1 & _ & Hx)]%bind_err; [|done].
    unfold or_no_rows in Hx. apply bind_err in Hx as [Hx|(q & w1 & Hq & Hx)]; [by apply attempt_no_err in Hx|].
    apply (proj1 (attempt_ok _ _ _ _)) in Hq. destruct q as [a|e1]; [done|].
    apply exec_err in Hq as [Hq _]. rewrite <- Hq. destruct (errors_is e1 ErrNoRows); by injection Hx as _ <-. }
  unfold UpdateIntent in Hr. destruct status as [s|], tx as [t|]; try (by injection Hr as _ <-).
  all: try (destruct (negb _); [by injection Hr as _ <-|]); destruct (uuid_parse id); [by eapply Hf|by injection Hr as _ <-].
Qed.

(** A row but for the time of its last update. *)
Definition untimed (row : OnRampRow) : OnRampRow := updated_row None None 0 row.

(** Two updates of one purchase that set different fields — the client's status
    and the provider's transaction — both survive, in whichever order they arrive:
    the row ends with both values, and everything else as it was. *)
Theorem updates_commute id status tx (w w1 w2 v1 v2 : W) r1 r2 q1 q2 uid row :
  uuid_parse id = Some uid -> on_ramp_intents (w_store w) !! uid = Some row ->
  UpdateIntent id (Some status) None w = (Ok r1, w1) -> UpdateIntent id None (Some tx) w1 = (Ok r2, w2) ->
  UpdateIntent id None (Some tx) w = (Ok q1, v1) -> UpdateIntent id (Some status) None v1 = (Ok q2, v2) ->
  exists a b, on_ramp_intents (w_store w2) = <[uid := a]> (on_ramp_intents (w_store w)) /\
    on_ramp_intents (w_store v2) = <[uid := b]> (on_ramp_intents (w_store w)) /\ untimed a = untimed b /\
    ow_Status a = status /\ ow_MoonpayTransactionID a = Some tx /\ untimed a = untimed (updated_row (Some status) (Some tx) 0 row).
Proof.
  intros Hid Hrow Ha Hb Hc Hd.
  apply UpdateIntent_ok in Ha as (u1 & x1 & t1 & E1 & L1 & _ & _ & _ & S1). apply UpdateIntent_ok in Hb as (u2 & x2 & t2 & E2 & L2 & _ & _ & _ & S2).
  apply UpdateIntent_ok in Hc as (u3 & x3 & t3 & E3 & L3 & _ & _ & _ & S3). apply UpdateIntent_ok in Hd as (u4 & x4 & t4 & E4 & L4 & _ & _ & _ & S4).
  rewrite Hid in E1, E2, E3, E4. injection E1 as <-. injection E2 as <-. injection E3 as <-. injection E4 as <-.
  rewrite Hrow in L1, L3. injection L1 as <-. injection L3 as <-. rewrite S1 in L2, S2. rewrite S3 in L4, S4. cbn in L2, L4.
  rewrite lookup_insert_eq in L2, L4. injection L2 as <-. injection L4 as <-. rewrite S2, S4. cbn. rewrite !insert_insert_eq.
  by eexists _, _.
Qed.

(** ** Any sequence of requests *)
Inductive onramp_step : W -> W -> Prop :=
  | step_create rq w : onramp_step w (snd (create rq w))
  | step_update id status tx w : onramp_step w (snd (UpdateIntent id status tx w))
  | step_get id w : onramp_step w (snd (OnRamp_GetIntent id w))
  | step_pool memo w : onramp_step w (snd (PoolSnapshot memo w)).

(** A row that records a deposit the relayer registered for it. *)
Definition registered_row (k : uuid) (row : OnRampRow) : Prop :=
  ow_ID row = k /\ isValidOnRampStatus (ow_Status row) = true /\
  exists n funding, relayer_create_intent {| ci_CAddress := ow_DestinationCAddress row; ci_ExpectedAmt := "";
      ci_ExternalID := uuid_string k; ci_ExpiresIn := Z.quot intentTTL 1000 |} n = Ok funding /\
    ow_MemoID row = in_MemoID funding /\ ow_PoolAddress row = non_empty (in_PoolAddress funding) /\
    ow_RelayerIntentID row = non_empty (in_IntentID funding).
Definition purchases_wf (d : OnRampStore) : Prop :=
  (forall k row, on_ramp_intents d !! k = Some row -> registered_row k row) /\
  (forall k row k' row', on_ramp_intents d !! k = Some row -> on_ramp_intents d !! k' = Some row' ->
     ow_MemoID row = ow_MemoID row' -> k = k').
(** Rows stay, and only their status, transaction and time of update change. *)
Definition purchases_kept (d d' : OnRampStore) : Prop :=
  forall k row, on_ramp_intents d !! k = Some row -> exists row', on_ramp_intents d' !! k = Some row' /\
    exists status tx t, row' = updated_row status tx t row.
#[local] Instance purchases_kept_refl : Reflexive purchases_kept.
Proof. intros d k [] Hk. eexists. split; [exact Hk|]. by eexists None, None, _. Qed.
#[local] Instance purchases_kept_trans : Transitive purchases_kept.
Proof.
  intros d1 d2 d3 Ha Hb k row Hk. destruct (Ha k row Hk) as (row2 & Hk2 & s & x & t & ->).
  destruct (Hb k _ Hk2) as (row3 & Hk3 & s' & x' & t' & ->). eexists. split; [exact Hk3|].
  exists (match s' with Some _ => s' | None => s end), (match x' with Some _ => x' | None => x end), t'.
  destruct s', x'; reflexivity.
Qed.
Definition well_kept (d d' : OnRampStore) : Prop := (purchases_wf d -> purchases_wf d') /\ purchases_kept d d'.

Lemma well_kept_same d d' : on_ramp_intents d' = on_ramp_intents d -> well_kept d d'.
Proof. intros E. unfold well_kept, purchases_wf, purchases_kept. rewrite E. split; [done|]. apply (purchases_kept_refl d). Qed.

Lemma well_kept_create rq (w w' : W) r : create rq w = (r, w') -> well_kept (w_store w) (w_store w').
Proof.
  intros Hr. destruct r as [sess|e]; [|by eapply well_kept_same, session_refused].
  apply session_created in Hr as (id & n & f & amount & code & t & Hf & _ & _ & _ & _ & _ & _ & Hid & Hmemo & E). split.
  - intros [Hreg Hun]. unfold purchases_wf. rewrite E. split.
    + intros k row. rewrite lookup_insert_Some. intros [[<- <-]|[_ Hk]]; [|by apply Hreg]. split; [done|]. split; [done|]. by exists n, f.
    + intros k row k' row'. rewrite !lookup_insert_Some.
      intros [[<- <-]|[_ Hk]] [[<- <-]|[_ Hk']] Em; [done| | |by eapply Hun]; exfalso.
      * by apply (Hmemo _ _ Hk').
      * by apply (Hmemo _ _ Hk).
  - intros k row Hk. rewrite E. destruct (decide (k = id)) as [->|Hne]; [congruence|].
    exists row. rewrite lookup_insert_ne by done. split; [done|]. destruct row. by eexists None, None, _.
Qed.
Lemma well_kept_update id status tx (w w' : W) r : UpdateIntent id status tx w = (r, w') -> well_kept (w_store w) (w_store w').
Proof.
  intros Hr. destruct r as [x|e]; [|by eapply well_kept_same, UpdateIntent_err].
  apply UpdateIntent_ok in Hr as (uid & row & t & _ & Hrow & Hv & _ & _ & ->). split.
  - intros [Hreg Hun]. split; cbn.
    + intros k row'. rewrite lookup_insert_Some. intros [[<- <-]|[_ Hk]]; [|by apply Hreg].
      destruct (Hreg _ _ Hrow) as (? & ? & Hf). split_and!; [done| |exact Hf]. by destruct status.
    + intros k r1 k' r2. rewrite !lookup_insert_Some. intros [[<- <-]|[Hne Hk]] [[<- <-]|[Hne' Hk']] Em; [done| | |by eapply Hun].
      * by eapply (Hun _ _ _ _ Hrow Hk').
      * by eapply (Hun _ _ _ _ Hk Hrow).
  - intros k row' Hk. cbn. destruct (decide (k = uid)) as [->|Hne].
    + rewrite lookup_insert_eq. rewrite Hrow in Hk. injection Hk as <-. eexists. split; [done|]. by eexists _, _, _.
    + rewrite lookup_insert_ne by done. exists row'. split; [done|]. destruct row'. by eexists None, None, _.
Qed.
Lemma well_kept_step w w' : onramp_step w w' -> well_kept (w_store w) (w_store w').
Proof.
  intros [rq v|id status tx v|id v|memo v].
  - destruct (create rq v) eqn:E. by eapply well_kept_create.
  - destruct (UpdateIntent id status tx v) eqn:E. by eapply well_kept_update.
  - apply well_kept_same. change (on_store same_intents v (snd (OnRamp_GetIntent id v))). revert v.
    change (keeps (on_store same_intents) (OnRamp_GetIntent id)). unfold OnRamp_GetIntent, or_no_rows. keeps.
  - apply well_kept_same. change (on_store same_intents v (snd (PoolSnapshot memo v))). revert v.
    change (keeps (on_store same_intents) (PoolSnapshot memo)). unfold PoolSnapshot, FetchSnapshot. keeps.
Qed.

(** C30. Whatever sessions are opened, updated and read, in any order and with any
    failures, every purchase on record has one of the four statuses and the memo and
    pool address the relayer minted for its own id and destination, no two share a
    memo, and none ever disappears or changes in anything but its status, its
    transaction and the time of its update. *)
Theorem purchases_invariant (w w' : W) :
  on_ramp_intents (w_store w) = ∅ -> forall v, rtc onramp_step w v -> rtc onramp_step v w' ->
  purchases_wf (w_store v) /\ purchases_wf (w_store w') /\ purchases_kept (w_store v) (w_store w').
Proof.
  assert (forall a b, rtc onramp_step a b -> well_kept (w_store a) (w_store b)) as Hsteps.
  { induction 1 as [a|a b c Hs _ IH]; [by apply well_kept_same|]. apply well_kept_step in Hs as [? ?]. destruct IH as [? ?].
    split; [auto|by etrans]. }
  intros He v Hv Hw. assert (purchases_wf (w_store w)) as H0' by (split; intros k row; by rewrite He).
  apply Hsteps in Hv as [Hv _]. apply Hsteps in Hw as [Hw Hk]. split; [auto|]. split; [auto|done].
Qed.
End Purchases.

(** ** A purchase through the widget *)
Section Witnesses.
Import Demo.
#[local] Existing Instance demo_sdk.
#[local] Instance no_http : Http := {| http_do req n := Err (Errorf "unreachable") |}.
#[local] Instance no_text : JsonText := {| json_text j := Ok "" |}.
#[local] Instance no_body A : Json A := {| json_marshal x := Err (Errorf "json"); json_unmarshal s := Err (Errorf "json") |}.
#[local] Instance moonpay_best : JsonBest moonPayErrorBody := {| json_best s := {| mb_Message := s; mb_Errors := [] |} |}.
#[local] Instance transak_best : JsonBest transakErrorBody := {| json_best s := {| ke_ErrorMessage := s; ke_Message := s |} |}.
#[local] Instance ascii_upper : UnicodeUpper := {| unicode_upper s := s |}.
#[local] Instance plain_time : TimeFormat := {| rfc3339_format t := pretty t; rfc3339_parse s := Ok 0 |}.
#[local] Instance demo_clock : Env := demo_env 1000 100%N no_fault.
#[local] Instance demo_relayer : RelayerIntents := {| relayer_create_intent inp n :=
  Ok {| in_IntentID := ci_ExternalID inp; in_MemoID := pretty (N.of_nat n); in_PoolAddress := "GPOOL"; in_ExpiresAt := 0 |} |}.
#[local] Instance widget_config : OnRampConfig := {|
  intentTTL := 3600000; poolNetwork := "testnet"; integrationMode := "widget"; widgetBuyURLOverride := "";
  secretKey := "sk_test_s"; publishableKey := "pk_test_p"; configuredPool := "GPOOL"; horizonURL := "h";
  defaultFiatAmount := "25"; defaultFiatCode := "usd"; moonPayBase := ""; transakKey := ""; transakSecret := "";
  transakEnv := ""; referrerDomain := ""; transakBase := "" |}.

Definition no_purchases : World OnRampStore := MkWorld (MkOnRamp ∅ ("", 0)) 0.
Definition demo_purchase : create_request := CrMoonPay "user" "ip" " CWALLET " "19.99" "".
Definition purchased : World OnRampStore := snd (create demo_purchase no_purchases).

Lemma session_funded_witness :
  exists sess w', create demo_purchase no_purchases = (Ok sess, w') /\ os_PoolAddress sess = "GPOOL" /\
    funded demo_purchase sess (w_store no_purchases) (w_store w').
Proof.
  destruct (create demo_purchase no_purchases) as [r w'] eqn:E.
  pose proof (f_equal (fun x => match fst x with Ok s => os_PoolAddress s | Err _ => "" end) E) as Hv. vm_compute in Hv.
  destruct r as [sess|e]; [|discriminate Hv]. exists sess, w'. split; [reflexivity|]. split; [exact (eq_sym Hv)|].
  exact (session_funded demo_purchase no_purchases w' (Ok sess) E).
Defined.

Lemma updates_commute_witness :
  exists row w2 v2 a b, on_ramp_intents (w_store purchased) !! 100%N = Some row /\
    on_ramp_intents (w_store w2) !! 100%N = Some a /\ on_ramp_intents (w_store v2) !! 100%N = Some b /\
    untimed a = untimed b /\ ow_Status a = "completed" /\ ow_MoonpayTransactionID a = Some "tx".
Proof.
  destruct (on_ramp_intents (w_store purchased) !! 100%N) as [row|] eqn:Hrow; [|vm_compute in Hrow; discriminate Hrow].
  destruct (succeeds (UpdateIntent "100" (Some "completed") None) purchased) as (r1 & w1 & E1); [vm_compute; reflexivity|].
  destruct (succeeds (UpdateIntent "100" None (Some "tx")) purchased) as (q1 & v1 & E3); [vm_compute; reflexivity|].
  assert (is_ok (fst (UpdateIntent "100" None (Some "tx") w1)) = true) as (r2 & w2 & E2)%succeeds.
  { replace w1 with (snd (UpdateIntent "100" (Some "completed") None purchased)) by (by rewrite E1). vm_compute. reflexivity. }
  assert (is_ok (fst (UpdateIntent "100" (Some "completed") None v1)) = true) as (q2 & v2 & E4)%succeeds.
  { replace v1 with (snd (UpdateIntent "100" None (Some "tx") purchased)) by (by rewrite E3). vm_compute. reflexivity. }
  destruct (updates_commute "100" "completed" "tx" purchased w1 w2 v1 v2 r1 r2 q1 q2 100%N row) as (a & b & Ea & Eb & H1' & H2' & H3' & _);
    [vm_compute; reflexivity|exact Hrow|exact E1|exact E2|exact E3|exact E4|].
  exists row, w2, v2, a, b. rewrite Ea, Eb, !lookup_insert_eq.
  exact (conj eq_refl (conj eq_refl (conj eq_refl (conj H1' (conj H2' H3'))))).
Defined.

Lemma purchases_invariant_witness :
  purchases_wf (w_store purchased) /\ purchases_kept (w_store purchased) (w_store (snd (UpdateIntent "100" (Some "failed") None purchased))).
Proof.
  destruct (purchases_invariant no_purchases (snd (UpdateIntent "100" (Some "failed") None purchased)) eq_refl purchased)
    as (Ha & _ & Hb); [apply rtc_once; exact (step_create demo_purchase no_purchases)
                      |apply rtc_once; exact (step_update "100" (Some "failed") None purchased)|].
  exact (conj Ha Hb).
Defined.
End Witnesses.
End OnRampTheorems.
