(* ===== verification/Gasless.v ===== *)
(** * The client of the gasless service (gasless_service.go)

    A submission is posted once and then polled within the call budget; refusals
    are classified into the sentinels the routes map to statuses. The client is
    an instance of the interfaces the submission and builder services hold. *)

From S2P Require Export Clients Routes.

Record gaslessErrorBody := { ge_Code : string; ge_Message : string }.
(** Where the service is and how long a call may take, in milliseconds. *)
Class GaslessConfig := { gaslessURL : string; gaslessKey : string; gaslessBudget : Z }.

Module Gasless.
Import Url Submit.

Definition GaslessStatusPending : string := "pending".
Definition GaslessStatusUnconfirmed : string := "unconfirmed".
Definition GaslessStatusSuccess : string := "success".
Definition GaslessStatusFailed : string := "failed".
Definition GaslessStatusRejected : string := "rejected".
Definition ErrGaslessFailed : error := Sentinel "ErrGaslessFailed".
Definition feeTokensTTL : Z := 600000.
(** [NewGaslessService] *)
Definition pollInterval : Z := 1000.

(** [GaslessError]; only its status and what it unwraps to are inspected. *)
Definition GaslessError (status : Z) (kind : error) : error := ApiError "GaslessError" status kind.
Definition gasless_kind (status : Z) (body : gaslessErrorBody) : error :=
  if String.eqb (ge_Code body) "forward_failure_limit" then ErrGaslessTooManyFailures else
  if String.eqb (ge_Code body) "forward_in_flight_limit" then ErrGaslessUnavailable else
  if status =? StatusTooManyRequests then ErrGaslessLimited else
  if (status =? StatusUnauthorized) || (StatusInternalServerError <=? status) then ErrGaslessUnavailable
  else ErrGaslessRefused.
Definition isGaslessFinal (status : string) : bool :=
  String.eqb status GaslessStatusSuccess || String.eqb status GaslessStatusFailed || String.eqb status GaslessStatusRejected.

(** The configuration of forward mode and when it goes stale. *)
Abbreviation FeeCache := (GaslessFeeConfig * Z)%type.
Definition no_fee_cache : FeeCache := ({| fc_FeeForwarder := ""; fc_Relayer := ""; fc_FeeTokens := [] |}, -62135596800000).

Section Client.
Context `{Http} `{Elapses} `{GaslessConfig} `{JsonText}.
Context `{Json GaslessSubmission} `{Json GaslessRecord} `{Json GaslessFeeConfig} `{Json GaslessQuote}.
Context `{JsonBest gaslessErrorBody}.
Abbreviation W := (World (Timed FeeCache)).

Definition Configured : bool := negb (String.eqb gaslessURL "").

(** [io.LimitReader(resp.Body, 1<<20)] *)
Definition limit_read (body : string) : string :=
  if Z.of_nat (String.length body) <=? 2 ^ 20 then body else String.substring 0 (Z.to_nat (2 ^ 20)) body.
Definition gasless_request (method path : string) (body : option string) : http_request :=
  {| rq_Method := method; rq_URL := gaslessURL +:+ path;
     rq_Header := ((if body then [("Content-Type", "application/json")] else []) ++
                   (if String.eqb gaslessKey "" then [] else [("Authorization", "Bearer " +:+ gaslessKey)]))%list;
     rq_Body := body |}.
Definition gasless_do (deadline : Z) (method path : string) (body : option string) : M W string :=
  let! resp := map_err (Wrap2 (method +:+ " " +:+ path) ErrGaslessUnavailable)
                 (http_Do deadline (gasless_request method path body)) in
  let! raw := map_err (Wrap2 "read response" ErrGaslessUnavailable) (lift (rs_Body resp)) in
  let raw := limit_read raw in
  if (rs_StatusCode resp =? StatusOK) || (rs_StatusCode resp =? StatusAccepted) then ret raw
  else throw (GaslessError (rs_StatusCode resp) (gasless_kind (rs_StatusCode resp) (json_best raw))).
Definition gasless_call (deadline : Z) (method path : string) (body : option string) : M W GaslessRecord :=
  let! raw := gasless_do deadline method path body in
  wrap "decode gasless record" (lift (json_unmarshal raw)).

(** Both results of [Submit]: a record is returned next to most errors. *)
Definition Answer : Type := GaslessRecord * option error.
Definition no_record : GaslessRecord :=
  {| gr_RequestID := ""; gr_Status := ""; gr_TxHash := ""; gr_ErrorCode := ""; gr_ErrorMessage := "" |}.
Definition still_pending (rec : GaslessRecord) : Answer := (rec, Some (Wrapf "request" ErrGaslessPending)).
Definition final_answer (rec : GaslessRecord) : Answer :=
  if String.eqb (gr_Status rec) GaslessStatusSuccess then (rec, None) else
  if String.eqb (gr_Status rec) GaslessStatusFailed then (rec, Some (Wrapf "tx" ErrGaslessFailed)) else
  (rec, Some (GaslessError StatusOK ErrGaslessUnavailable)).

(** The loop over the status; nothing when the fuel is spent. *)
Fixpoint await_final (fuel : nat) (deadline : Z) (requestID : string) (rec : GaslessRecord) : M W (option Answer) :=
  if isGaslessFinal (gr_Status rec) then ret (Some (final_answer rec)) else
  match fuel with
  | O => ret None
  | S fuel =>
      let! done := wait deadline pollInterval in
      match done with
      | Some _ => ret (Some (still_pending rec))
      | None =>
          let! next := attempt (gasless_call deadline "GET" ("/gasless/requests/" +:+ PathEscape requestID) None) in
          match next with
          | Err err =>
              let! ctx := ctx_Err deadline in
              ret (Some (match ctx with Some _ => still_pending rec | None => (rec, Some err) end))
          | Ok next => await_final fuel deadline requestID next
          end
      end
  end.
Definition poll_fuel : nat := S (Z.to_nat (gaslessBudget / pollInterval)).
Definition gasless_Submit (sub : GaslessSubmission) : M W (option Answer) :=
  if negb Configured then ret (Some (no_record, Some ErrGaslessNotConfigured)) else
  let! now := clock in
  let deadline := now + gaslessBudget in
  match json_marshal sub with
  | Err err => ret (Some (no_record, Some (Wrapf "marshal gasless submission" err)))
  | Ok body =>
      let! rec := attempt (gasless_call deadline "POST" "/gasless/submit" (Some body)) in
      match rec with
      | Err err => ret (Some (no_record, Some err))
      | Ok rec => await_final poll_fuel deadline (gs_RequestID sub) rec
      end
  end.

(** [http.Client]'s own timeout is the budget too. The lock is held throughout. *)
Definition FeeTokens : M W GaslessFeeConfig :=
  if negb Configured then throw ErrGaslessNotConfigured else
  let! ' (feeTokens, feeTokensExpires) := own in
  let! now := clock in
  if now <? feeTokensExpires then ret feeTokens else
  let! raw := gasless_do (now + gaslessBudget) "GET" "/gasless/fee-tokens" None in
  let! cfg := wrap "decode gasless fee tokens" (lift (json_unmarshal raw)) in
  if String.eqb (fc_FeeForwarder cfg) "" || String.eqb (fc_Relayer cfg) "" || (length (fc_FeeTokens cfg) =? 0)%nat
  then throw (Wrapf "forward mode is not configured" ErrGaslessUnavailable) else
  let! now := clock in
  let! _ := set_own (cfg, now + feeTokensTTL) in
  ret cfg.

Definition Quote (feeToken : string) (resourceFeeStroops : Z) : M W GaslessQuote :=
  if negb Configured then throw ErrGaslessNotConfigured else
  let! now := clock in
  let! body := wrap "marshal gasless quote" (lift (json_text
    (JObj [("fee_token", JStr feeToken); ("resource_fee_stroops", JNum resourceFeeStroops)]))) in
  let! raw := gasless_do (now + gaslessBudget) "POST" "/gasless/quote" (Some body) in
  wrap "decode gasless quote" (lift (json_unmarshal raw)).
End Client.

(** ** The interfaces of the other services
    Each call starts at the wall clock; the configuration is read anew. *)
Section Instances.
Context `{Http} `{Elapses} `{GaslessConfig} `{JsonText} `{Env}.
Context `{Json GaslessSubmission} `{Json GaslessRecord} `{Json GaslessFeeConfig} `{Json GaslessQuote}.
Context `{JsonBest gaslessErrorBody}.

Definition client_at (n : nat) : World (Timed FeeCache) := MkWorld (MkTimed (env_now n) [] no_fee_cache) n.
Definition submit_answer (sub : GaslessSubmission) (n : nat) : Answer :=
  match fst (gasless_Submit sub (client_at n)) with
  | Ok (Some a) => a
  | Ok None => (no_record, Some (Errorf "fuel"))
  | Err e => (no_record, Some e)
  end.
Definition gasless_client : Gasless := {|
  gasless_set := true; gasless_submit := submit_answer; gasless_fee_tokens n := fst (FeeTokens (client_at n)) |}.
Definition gasless_quoter : GaslessQuotes := {| gasless_quote t fee n := fst (Quote t fee (client_at n)) |}.
End Instances.
End Gasless.
