(* ===== verification/Relayer.v ===== *)
(** * The client of latch-relayer (relayer_service.go)

    Requests are repeated while the relayer wakes up, within the call budget;
    intents are minted and their deposits read. *)

From S2P Require Export Clients OnRamp.

Record Forward := {
  fo_TxHash : string; fo_Amount : string; fo_Asset : string; fo_Status : string; fo_ForwardTx : option string;
  fo_CreatedAt : Z }.
Record DepositStatus := {
  dt_IntentID : string; dt_MemoID : string; dt_CAddress : string; dt_PoolAddress : string; dt_Status : string;
  dt_ExpiresAt : Z; dt_Forwards : list Forward }.
Record createIntentResponse := { cr_IntentID : string; cr_MemoID : string; cr_PoolAddress : string; cr_ExpiresAt : string }.
Record forwardPayload := {
  fp_TxHash : string; fp_Amount : string; fp_Asset : string; fp_Status : string; fp_ForwardTx : option string;
  fp_CreatedAt : string }.
Record depositStatusResponse := {
  dr_IntentID : string; dr_MemoID : string; dr_CAddress : string; dr_PoolAddress : string; dr_Status : string;
  dr_ExpiresAt : string; dr_Forwards : list forwardPayload }.
(** Where the relayer is and how long a call may take, in milliseconds. *)
Class RelayerConfig := { relayerURL : string; relayerKey : string; relayerBudget : Z }.

Module Relayer.
Import OnRamp AccountSigners.

Definition ErrIntentNotFound : error := Sentinel "ErrIntentNotFound".
(** [NewRelayerService] *)
Definition retryInterval : Z := 2000.
Definition isRelayerAuthFailure (status : Z) : bool := (status =? StatusUnauthorized) || (status =? StatusForbidden).
Definition isRelayerBooting (status : Z) : bool :=
  (status =? StatusBadGateway) || (status =? StatusServiceUnavailable) || (status =? StatusGatewayTimeout).
(** The end of the call's own context counts as an outage. *)
Definition relayerReadErr (what : string) (err : error) : error :=
  if errors_is err ErrCanceled || errors_is err ErrDeadlineExceeded then Wrap2 what ErrRelayerUnavailable err else Wrapf what err.
(** [strconv.ParseUint(s, 10, 64)] *)
Definition ParseUint64 (s : string) : res Z :=
  match dec_nat s with
  | Some v => if v <? 2 ^ 64 then Ok v else Err (Errorf "strconv.ParseUint: value out of range")
  | None => Err (Errorf "strconv.ParseUint: invalid syntax")
  end.

Section Client.
Context `{Http} `{Elapses} `{RelayerConfig} `{TimeFormat}.
Context `{Json CreateIntentInput} `{JsonDecode createIntentResponse} `{JsonDecode depositStatusResponse}.
Context {A : Type}.
Abbreviation W := (World (Timed A)).

Definition authorize : list (string * string) :=
  if String.eqb relayerKey "" then [] else [("Authorization", "Bearer " +:+ relayerKey)].
(** Nothing when the fuel is spent. *)
Fixpoint send_until (fuel : nat) (deadline : Z) (req : http_request) : M W (option http_response) :=
  match fuel with
  | O => ret None
  | S fuel =>
      let! r := attempt (http_Do deadline req) in
      let last := lift (let? resp := r in Ok (Some resp)) in
      if match r with Ok resp => negb (isRelayerBooting (rs_StatusCode resp)) | Err _ => false end then last else
      let! now := clock in
      if deadline - now <=? retryInterval then last else
      let! done := wait deadline retryInterval in
      match done with
      | Some err => throw err
      | None => send_until fuel deadline req
      end
  end.
Definition send_fuel : nat := S (Z.to_nat (relayerBudget / retryInterval)).
Definition relayer_send (req : http_request) : M W (option http_response) :=
  let! now := clock in send_until send_fuel (now + relayerBudget) req.
(** The response of a call that has not run out of fuel. *)
Definition relayer_response (what : string) (req : http_request) : M W http_response :=
  let! r := map_err (Wrap2 what ErrRelayerUnavailable) (relayer_send req) in
  match r with Some resp => ret resp | None => throw (Errorf "fuel") end.

Definition intent_request (body : string) : http_request :=
  {| rq_Method := "POST"; rq_URL := relayerURL +:+ "/intents";
     rq_Header := ([("Content-Type", "application/json")] ++ authorize)%list; rq_Body := Some body |}.
Definition relayer_CreateIntent (inp : CreateIntentInput) : M W Intent :=
  if String.eqb relayerURL "" then throw ErrRelayerNotConfigured else
  let! body := wrap "marshal create intent request" (lift (json_marshal inp)) in
  let! resp := relayer_response "call relayer create intent" (intent_request body) in
  let status := rs_StatusCode resp in
  if isRelayerAuthFailure status then throw (Wrapf "relayer rejected api key on create intent" ErrRelayerUnavailable) else
  if StatusInternalServerError <=? status then throw (Wrapf "relayer create intent" ErrRelayerUnavailable) else
  if negb (status =? StatusOK) && negb (status =? StatusCreated) then throw (Errorf "relayer create intent: unexpected status") else
  let! out := map_err (relayerReadErr "decode create intent response") (lift (json_decode (rs_Body resp))) in
  let! expiresAt := wrap "parse expires_at" (lift (rfc3339_parse (cr_ExpiresAt out))) in
  ret {| in_IntentID := cr_IntentID out; in_MemoID := cr_MemoID out; in_PoolAddress := cr_PoolAddress out;
         in_ExpiresAt := expiresAt |}.

Definition status_request (memoID : string) : http_request :=
  {| rq_Method := "GET"; rq_URL := relayerURL +:+ "/deposit/status/" +:+ memoID; rq_Header := authorize; rq_Body := None |}.
Definition forward_of (f : forwardPayload) : res Forward :=
  let? createdAt := res_wrap "parse forward created_at" (rfc3339_parse (fp_CreatedAt f)) in
  Ok {| fo_TxHash := fp_TxHash f; fo_Amount := fp_Amount f; fo_Asset := fp_Asset f; fo_Status := fp_Status f;
        fo_ForwardTx := fp_ForwardTx f; fo_CreatedAt := createdAt |}.
Definition relayer_DepositStatus (memoID : string) : M W DepositStatus :=
  if negb (is_ok (ParseUint64 memoID)) then throw (Wrapf "invalid memo id" ErrValidation) else
  if String.eqb relayerURL "" then throw ErrRelayerNotConfigured else
  let! resp := relayer_response "call relayer deposit status" (status_request memoID) in
  let status := rs_StatusCode resp in
  if isRelayerAuthFailure status then throw (Wrapf "relayer rejected api key on deposit status" ErrRelayerUnavailable) else
  if status =? StatusNotFound then throw ErrIntentNotFound else
  if StatusInternalServerError <=? status then throw (Wrapf "relayer deposit status" ErrRelayerUnavailable) else
  if negb (status =? StatusOK) then throw (Errorf "relayer deposit status: unexpected status") else
  let! out := map_err (relayerReadErr "decode deposit status response") (lift (json_decode (rs_Body resp))) in
  let! expiresAt := wrap "parse expires_at" (lift (rfc3339_parse (dr_ExpiresAt out))) in
  let! forwards := lift (res_map forward_of (dr_Forwards out)) in
  ret {| dt_IntentID := dr_IntentID out; dt_MemoID := dr_MemoID out; dt_CAddress := dr_CAddress out;
         dt_PoolAddress := dr_PoolAddress out; dt_Status := dr_Status out; dt_ExpiresAt := expiresAt;
         dt_Forwards := forwards |}.
End Client.
End Relayer.
