(* ===== verification/ClientTheorems.v ===== *)
(** * The clients keep within their budget

    Of the relayer's client: it stops, it repeats one request a bounded number
    of times, and it outlasts a relayer that wakes up within the budget. Of the
    gasless service's: a submission is posted once, and what the caller is told
    is what the last answer said. *)

From S2P Require Import Gasless Relayer Instances DemoProposals.

Module ClientTheorems.

(** ** The relayer *)
Section RelayerClient.
Import Relayer.
Context `{Http} `{Elapses} `{RelayerConfig} {A : Type}.
Abbreviation W := (World (Timed A)).
Implicit Types w : W.

(** The environment's answer to [req], at some effect. *)
Definition answers_with (req : http_request) (resp : http_response) : Prop := exists n, http_do req n = Ok resp.

Lemma send_until_spec req deadline fuel w :
  (0 < fuel)%nat -> deadline - t_now (w_store w) < retryInterval * Z.of_nat fuel ->
  exists r w' k, send_until fuel deadline req w = (r, w') /\ r <> Ok None /\
    t_sent (w_store w') = (t_sent (w_store w) ++ replicate (S k) req)%list /\
    (k = 0%nat \/ retryInterval * Z.of_nat k < deadline - t_now (w_store w)) /\
    (forall resp, r = Ok (Some resp) -> answers_with req resp).
Proof.
  revert w. induction fuel as [|fuel IH]; [lia|]. intros w _ Hf. cbn [send_until].
  rewrite bind_attempt.
  set (r := fst (http_Do deadline req w)). set (w1 := snd (http_Do deadline req w)). change (http_Do deadline req w) with (r, w1).
  assert (t_sent (w_store w1) = t_sent (w_store w) ++ [req])%list as Hsent by done.
  assert (t_now (w_store w) <= t_now (w_store w1)) as Hnow by (cbn; lia).
  assert (forall resp, r = Ok resp -> answers_with req resp) as Hr.
  { intros resp. unfold r, http_Do. cbn. destruct (cancelled _); [done|]. destruct (_ <=? _); [done|]. intros ?. by eexists. }
  clearbody r w1.
  assert (exists r' w' k, lift (let? resp := r in Ok (Some resp)) w1 = (r', w') /\ r' <> Ok None /\
    t_sent (w_store w') = (t_sent (w_store w) ++ replicate (S k) req)%list /\
    (k = 0%nat \/ retryInterval * Z.of_nat k < deadline - t_now (w_store w)) /\
    (forall resp, r' = Ok (Some resp) -> answers_with req resp)) as Hlast.
  { eexists _, w1, 0%nat. split; [done|]. split; [by destruct r|]. split; [done|]. split; [by left|].
    destruct r as [resp0|]; cbn; [intros resp [= <-]; by apply Hr|done]. }
  destruct (match r with Ok resp => _ | Err _ => false end); [exact Hlast|]. rewrite bind_clock.
  destruct (Z.leb_spec (deadline - t_now (w_store w1)) retryInterval) as [|Hleft]; [exact Hlast|].
  destruct (wait_ok deadline retryInterval w1) as ([err|] & w2 & Hw); rewrite (bind_run _ _ _ _ _ Hw).
  - apply wait_some in Hw as (_ & _ & Hs & _). eexists _, w2, 0%nat. split; [done|]. split; [done|].
    split; [by rewrite Hs, Hsent|]. split; [by left|done].
  - apply wait_none in Hw as (Hd & Ht & Hs & _). unfold retryInterval in *.
    destruct (IH w2) as (r' & w' & k & Hrun & Hn & Hsent' & Hk & Hr'); [lia|lia|].
    exists r', w', (S k). split; [done|]. split; [done|]. split; [|split; [right|done]].
    + rewrite Hsent', Hs, Hsent, <- app_assoc. done.
    + destruct Hk as [->|Hk]; lia.
Qed.

(** [send] always comes back, whatever the relayer and the clock do: it sends
    the same request at least once and again only while the pauses fit into the
    budget, it never runs out of fuel, and a response it returns is one the
    relayer gave to that request. *)
Theorem relayer_send_bounded req w :
  exists r w' k, relayer_send req w = (r, w') /\ r <> Ok None /\
    t_sent (w_store w') = (t_sent (w_store w) ++ replicate (S k) req)%list /\
    (k = 0%nat \/ retryInterval * Z.of_nat k < relayerBudget) /\
    (forall resp, r = Ok (Some resp) -> answers_with req resp).
Proof.
  unfold relayer_send. rewrite bind_clock.
  destruct (send_until_spec req (t_now (w_store w) + relayerBudget) send_fuel w) as (r & w' & k & Hr & Hn & Hs & Hk & Ha).
  - unfold send_fuel. lia.
  - unfold send_fuel, retryInterval. destruct (Z.le_gt_cases 0 relayerBudget); [|lia].
    pose proof (Z.div_mod relayerBudget 2000 ltac:(lia)). pose proof (Z.mod_pos_bound relayerBudget 2000 ltac:(lia)).
    assert (0 <= relayerBudget / 2000) by (apply Z.div_pos; lia). lia.
  - exists r, w', k. repeat split; try done. destruct Hk as [->|Hk]; [by left|right]. lia.
Qed.

(** Ready from the n-th effect on. *)
Definition awake (req : http_request) (n : nat) : Prop :=
  forall i, (n <= i)%nat -> exists resp, http_do req i = Ok resp /\ isRelayerBooting (rs_StatusCode resp) = false.

Lemma send_until_wakes req deadline (L : N) m fuel w :
  gone_at = None -> (forall i, (elapsed i <= L)%N) -> awake req (w_io w + 2 * m) ->
  (m < fuel)%nat -> t_now (w_store w) + Z.of_nat m * (retryInterval + 2 * Z.of_N L) + Z.of_N L < deadline ->
  exists resp w', send_until fuel deadline req w = (Ok (Some resp), w') /\ isRelayerBooting (rs_StatusCode resp) = false.
Proof.
  intros Hgone HL. revert fuel w. induction m as [|m IH]; intros fuel w Ha Hf Ht; (destruct fuel as [|fuel]; [lia|]); cbn [send_until].
  - rewrite bind_attempt. destruct (Ha (w_io w)) as (resp & Hr & Hb); [lia|].
    unfold http_Do, cancelled. rewrite Hgone. cbn [fst snd].
    specialize (HL (w_io w)). destruct (Z.leb_spec deadline (t_now (w_store (elapse (t_now (w_store w)) (record_sent req w))))) as [Hd|_].
    { cbn in Hd. lia. }
    rewrite Hr, Hb. cbn. eauto.
  - rewrite bind_attempt.
    set (r := fst (http_Do deadline req w)). set (w1 := snd (http_Do deadline req w)). change (http_Do deadline req w) with (r, w1).
    assert (t_now (w_store w1) <= t_now (w_store w) + Z.of_N L) as Ht1 by (specialize (HL (w_io w)); cbn; lia).
    assert (w_io w1 = S (w_io w)) as Hio by done. clearbody r w1.
    destruct (match r with Ok resp => _ | Err _ => false end) eqn:Eb.
    { destruct r as [resp|]; [|done]. apply negb_true_iff in Eb. cbn. eauto. }
    rewrite bind_clock. unfold retryInterval in *.
    assert (Z.of_nat (S m) * (2000 + 2 * Z.of_N L) = Z.of_nat m * (2000 + 2 * Z.of_N L) + 2000 + 2 * Z.of_N L) as E by lia.
    assert (0 <= Z.of_nat m * (2000 + 2 * Z.of_N L)) by (apply Z.mul_nonneg_nonneg; lia).
    destruct (Z.leb_spec (deadline - t_now (w_store w1)) 2000); [lia|].
    assert (wait deadline 2000 w1 = (Ok None, elapse (t_now (w_store w1) + 2000) w1)) as Hw.
    { unfold wait, cancelled. rewrite Hgone. destruct (Z.leb_spec deadline (t_now (w_store w1) + 2000)); [lia|done]. }
    rewrite (bind_run _ _ _ _ _ Hw). apply IH; [|lia|].
    + intros i Hi. apply Ha. cbn in Hi. lia.
    + cbn. specialize (HL (w_io w1)). lia.
Qed.

(** C34. A relayer that sleeps at the start of a call does not fail it: when the
    caller stays, no effect takes longer than [L], and from the [2 m]-th effect on
    the relayer answers, a budget of [m] rounds and one more answer is enough for
    [send] to return what an awake relayer said. *)
Theorem relayer_wakes req (L : N) m w :
  gone_at = None -> (forall i, (elapsed i <= L)%N) -> awake req (w_io w + 2 * m) ->
  Z.of_nat m * (retryInterval + 2 * Z.of_N L) + Z.of_N L < relayerBudget ->
  exists resp w', relayer_send req w = (Ok (Some resp), w') /\ isRelayerBooting (rs_StatusCode resp) = false.
Proof.
  intros Hgone HL Ha Hb. unfold relayer_send. rewrite bind_clock. apply (send_until_wakes _ _ L m); [done|done|done| |lia].
  unfold send_fuel, retryInterval in *. assert (Z.of_nat m <= relayerBudget / 2000); [|lia].
  apply Z.div_le_lower_bound; [lia|]. assert (0 <= Z.of_nat m * (2 * Z.of_N L)) by (apply Z.mul_nonneg_nonneg; lia). lia.
Qed.
End RelayerClient.

(** ** The gasless service *)
Section GaslessClient.
Import Gasless Url Submit.
Context `{Http} `{Elapses} `{GaslessConfig}.
Context `{Json GaslessSubmission} `{Json GaslessRecord} `{JsonBest gaslessErrorBody}.
Abbreviation W := (World (Timed FeeCache)).
Implicit Types w : W.

(** The service accepted [req] and reported [rec]. *)
Definition reported (req : http_request) (rec : GaslessRecord) : Prop :=
  exists n resp raw, http_do req n = Ok resp /\ rs_Body resp = Ok raw /\
    (rs_StatusCode resp = StatusOK \/ rs_StatusCode resp = StatusAccepted) /\ json_unmarshal (limit_read raw) = Ok rec.

Lemma gasless_call_spec deadline method path body w :
  exists r w', gasless_call deadline method path body w = (r, w') /\
    t_sent (w_store w') = (t_sent (w_store w) ++ [gasless_request method path body])%list /\
    t_now (w_store w) <= t_now (w_store w') /\
    forall rec, r = Ok rec -> reported (gasless_request method path body) rec.
Proof.
  set (req := gasless_request method path body).
  exists (fst (gasless_call deadline method path body w)), (snd (gasless_call deadline method path body w)).
  split; [by destruct (gasless_call _ _ _ _ w)|].
  assert (forall r w', gasless_call deadline method path body w = (r, w') ->
    w' = elapse (t_now (w_store w)) (record_sent req w) /\ forall rec, r = Ok rec -> reported req rec) as Hspec.
  { unfold gasless_call, gasless_do, bind, wrap, map_err. fold req. intros r w'.
    destruct (http_Do_run deadline req w) as [h Eh]. rewrite Eh.
    destruct h as [resp|]; [|by intros [= <- <-]]. unfold lift. destruct (rs_Body resp) as [raw|] eqn:Eb; [|by intros [= <- <-]].
    destruct ((rs_StatusCode resp =? StatusOK) || (rs_StatusCode resp =? StatusAccepted)) eqn:Es; [|by intros [= <- <-]].
    cbn. destruct (json_unmarshal (limit_read raw)) as [rec|] eqn:Ej; [|by intros [= <- <-]]. intros [= <- <-]. split; [done|].
    intros _ [= <-]. exists (w_io w), resp, raw. split; [|split; [done|split; [|done]]].
    - revert Eh. unfold http_Do. cbn. destruct (cancelled _); [done|]. destruct (_ <=? _); congruence.
    - apply orb_true_iff in Es as [Es|Es]; apply Z.eqb_eq in Es; auto. }
  destruct (Hspec _ _ (surjective_pairing _)) as [-> Hrec]. split; [done|]. split; [cbn; lia|done].
Qed.

Definition poll_request (requestID : string) : http_request :=
  gasless_request "GET" ("/gasless/requests/" +:+ PathEscape requestID) None.

(** What the caller is told, by what the service last reported: its final
    status, or a record that is not final with an error. *)
Definition told (rec : GaslessRecord) (a : Answer) : Prop :=
  fst a = rec /\ if isGaslessFinal (gr_Status rec) then a = final_answer rec else snd a <> None.

Lemma await_final_spec fuel deadline requestID rec w :
  (0 < fuel)%nat -> deadline - t_now (w_store w) < pollInterval * Z.of_nat fuel ->
  exists a w' k, await_final fuel deadline requestID rec w = (Ok (Some a), w') /\
    t_sent (w_store w') = (t_sent (w_store w) ++ replicate k (poll_request requestID))%list /\
    (k = 0%nat \/ pollInterval * Z.of_nat k < deadline - t_now (w_store w)) /\
    exists last, told last a /\ (last = rec \/ reported (poll_request requestID) last).
Proof.
  revert rec w. induction fuel as [|fuel IH]; [lia|]. intros rec w _ Hf. cbn [await_final].
  destruct (isGaslessFinal (gr_Status rec)) eqn:Ef.
  { exists (final_answer rec), w, 0%nat. split; [done|]. split; [by rewrite app_nil_r|]. split; [by left|]. exists rec.
    split; [|by left]. split; [unfold final_answer; by repeat destruct (String.eqb _ _)|by rewrite Ef]. }
  assert (told rec (still_pending rec)) as Hpending by (split; [done|by rewrite Ef]).
  destruct (wait_ok deadline pollInterval w) as ([err|] & w1 & Hw); rewrite (bind_run _ _ _ _ _ Hw).
  { apply wait_some in Hw as (_ & _ & Hs & _). exists (still_pending rec), w1, 0%nat. split; [done|].
    split; [by rewrite Hs, app_nil_r|]. split; [by left|]. exists rec. by split; [|left]. }
  apply wait_none in Hw as (Hd & Ht & Hs & _). rewrite bind_attempt.
  destruct (gasless_call_spec deadline "GET" ("/gasless/requests/" +:+ PathEscape requestID) None w1) as (r & w2 & -> & Hs2 & Ht2 & Hr).
  unfold pollInterval in *. cbn [fst snd]. destruct r as [next|err].
  - destruct (IH next w2) as (a & w' & k & Hrun & Hs' & Hk & last & Hlast & Hnext); [lia|lia|].
    exists a, w', (S k). split; [done|]. split; [|split; [right; destruct Hk as [->|Hk]; lia|]].
    + rewrite Hs', Hs2, Hs, <- app_assoc. done.
    + exists last. split; [done|]. right. destruct Hnext as [->|?]; [by apply Hr|done].
  - eexists _, w2, 1%nat. split; [reflexivity|]. split; [by rewrite Hs2, Hs|]. split; [right; lia|].
    exists rec. split; [|by left]. split; [|rewrite Ef]; by destruct (cancelled _); [|destruct (_ <=? _)].
Qed.

Definition submit_request (body : string) : http_request := gasless_request "POST" "/gasless/submit" (Some body).

(** What [Submit] sends and what it hands back. *)
Lemma submit_outcome sub w :
  exists rec err w', gasless_Submit sub w = (Ok (Some (rec, err)), w') /\
    ((t_sent (w_store w') = t_sent (w_store w) /\ rec = no_record /\ err <> None) \/
     exists body k, json_marshal sub = Ok body /\
       t_sent (w_store w') =
         (t_sent (w_store w) ++ submit_request body :: replicate k (poll_request (gs_RequestID sub)))%list /\
       (k = 0%nat \/ pollInterval * Z.of_nat k < gaslessBudget) /\
       ((k = 0%nat /\ rec = no_record /\ err <> None) \/
        ((reported (submit_request body) rec \/ reported (poll_request (gs_RequestID sub)) rec) /\
         (err = None <-> gr_Status rec = GaslessStatusSuccess)))).
Proof.
  unfold gasless_Submit. destruct Configured; cbn [negb]; [|eexists _, _, w; split; [reflexivity|by left]].
  rewrite bind_clock. destruct (json_marshal sub) as [body|e]; [|eexists _, _, w; split; [reflexivity|by left]].
  rewrite bind_attempt.
  destruct (gasless_call_spec (t_now (w_store w) + gaslessBudget) "POST" "/gasless/submit" (Some body) w) as (r & w1 & -> & Hs & Ht & Hr).
  cbn [fst snd]. destruct r as [rec|e].
  2: { eexists _, _, w1. split; [reflexivity|]. right. exists body, 0%nat. split; [done|]. split; [done|]. split; by left. }
  destruct (await_final_spec poll_fuel (t_now (w_store w) + gaslessBudget) (gs_RequestID sub) rec w1)
    as ([rec' err] & w' & k & Hrun & Hs' & Hk & last & [Hfst Hlast] & Hrep).
  - unfold poll_fuel. lia.
  - unfold poll_fuel, pollInterval. destruct (Z.le_gt_cases 0 gaslessBudget); [|lia].
    pose proof (Z.div_mod gaslessBudget 1000 ltac:(lia)). pose proof (Z.mod_pos_bound gaslessBudget 1000 ltac:(lia)).
    assert (0 <= gaslessBudget / 1000) by (apply Z.div_pos; lia). lia.
  - cbn in Hfst. subst last. exists rec', err, w'. split; [done|]. right. exists body, k. split; [done|]. split; [|split].
    + rewrite Hs', Hs, <- app_assoc. done.
    + destruct Hk as [->|Hk]; [by left|right]. lia.
    + right. split; [destruct Hrep as [->|?]; [left; by apply Hr|by right]|]. cbn in Hlast. unfold isGaslessFinal in Hlast.
      destruct (String.eqb (gr_Status rec') GaslessStatusSuccess) eqn:E1; cbn in Hlast.
      * unfold final_answer in Hlast. rewrite E1 in Hlast. injection Hlast as ->. by apply String.eqb_eq in E1.
      * apply String.eqb_neq in E1. unfold final_answer in Hlast. apply String.eqb_neq in E1 as E2. rewrite E2 in Hlast.
        split; [|done]. intros ->. by repeat destruct (String.eqb _ _).
Qed.

(** C33. A submission always comes back with an answer. It is posted at most once,
    after that only its status is read, and only while the pauses fit into the
    budget. Unless the post itself failed the record handed back is one the
    service reported, and the error is nil exactly when that record says success. *)
Theorem gasless_submission sub w :
  exists rec err w', gasless_Submit sub w = (Ok (Some (rec, err)), w') /\
    ((t_sent (w_store w') = t_sent (w_store w) /\ rec = no_record /\ err <> None) \/
     exists body k, json_marshal sub = Ok body /\
       t_sent (w_store w') =
         (t_sent (w_store w) ++ submit_request body :: replicate k (poll_request (gs_RequestID sub)))%list /\
       (k = 0%nat \/ pollInterval * Z.of_nat k < gaslessBudget) /\
       ((k = 0%nat /\ rec = no_record /\ err <> None) \/
        ((reported (submit_request body) rec \/ reported (poll_request (gs_RequestID sub)) rec) /\
         (err = None <-> gr_Status rec = GaslessStatusSuccess)))).
Proof. exact (submit_outcome sub w). Qed.

(** *** The configuration of forward mode *)
Context `{JsonText} `{Json GaslessFeeConfig} `{Json GaslessQuote}.

Definition complete (cfg : GaslessFeeConfig) : Prop :=
  fc_FeeForwarder cfg <> "" /\ fc_Relayer cfg <> "" /\ fc_FeeTokens cfg <> [].

(** What [FeeTokens] hands out names a forwarder, an executor and at least one
    token — given that what the client keeps does — and is kept: until it goes
    stale, ten minutes after it was read, the client answers with it again and
    sends nothing. *)
Theorem fee_tokens_cached cfg w w' :
  (t_now (w_store w) < snd (t_own (w_store w)) -> complete (fst (t_own (w_store w)))) ->
  FeeTokens w = (Ok cfg, w') ->
  complete cfg /\ fst (t_own (w_store w')) = cfg /\
  (t_now (w_store w) < snd (t_own (w_store w)) \/ snd (t_own (w_store w')) = t_now (w_store w') + feeTokensTTL) /\
  forall v, t_own (w_store v) = t_own (w_store w') -> t_now (w_store v) < snd (t_own (w_store w')) -> FeeTokens v = (Ok cfg, v).
Proof.
  intros Hkept Hr. unfold FeeTokens in Hr. destruct Configured eqn:Ec; cbn [negb] in Hr; [|done].
  assert (forall v, t_own (w_store v) = t_own (w_store w') -> t_now (w_store v) < snd (t_own (w_store w')) ->
    fst (t_own (w_store w')) = cfg -> FeeTokens v = (Ok cfg, v)) as Hagain.
  { intros v Hv Hnow <-. unfold FeeTokens. rewrite Ec. cbn [negb]. rewrite bind_own, Hv.
    destruct (t_own (w_store w')) as [c x]. cbn in *. destruct (Z.ltb_spec (t_now (w_store v)) x); [done|lia]. }
  rewrite bind_own in Hr. destruct (t_own (w_store w)) as [kept expires] eqn:Hown. rewrite bind_clock in Hr. cbn [fst snd] in *.
  destruct (Z.ltb_spec (t_now (w_store w)) expires) as [Hfresh|_].
  { injection Hr as <- <-. split; [by apply Hkept|]. rewrite Hown in *. split; [done|]. split; [by left|]. intros v Hv Hn. by apply Hagain. }
  apply bind_ok in Hr as (raw & w1 & _ & Hr). apply bind_ok in Hr as (c & w2 & _ & Hr).
  destruct (String.eqb (fc_FeeForwarder c) "") eqn:E1; [done|]. destruct (String.eqb (fc_Relayer c) "") eqn:E2; [done|].
  destruct (fc_FeeTokens c) as [|t l] eqn:E3; [done|]. cbn [orb length Nat.eqb] in Hr. rewrite bind_clock in Hr.
  injection Hr as <- <-. cbn in *. apply String.eqb_neq in E1, E2.
  split; [by split; [|split; [|rewrite E3]]|]. split; [done|]. split; [by right|]. intros v Hv Hn. by apply Hagain.
Qed.
End GaslessClient.
(** ** A submission through the client *)
Section Submitted.
Import Gasless Url Submit.
Context `{Http} `{Elapses} `{GaslessConfig} `{JsonText} `{Env}.
Context `{Json GaslessSubmission} `{Json GaslessRecord} `{Json GaslessFeeConfig} `{Json GaslessQuote}.
Context `{JsonBest gaslessErrorBody} `{StellarSDK}.
#[local] Existing Instance gasless_client.

(** Over this client a sponsored or user-paid submission returns a hash only
    when the gasless service reported it: SUCCESS when the reported status is
    success, PENDING when it is not and the hash is not empty. *)
Theorem submitted_hash_reported mode wallet fn entries r (w w' : World Store) :
  submitGasless mode wallet fn entries w = (Ok r, w') ->
  exists req rec, reported req rec /\ gr_TxHash rec = sr_Hash r /\
    ((sr_Status r = RPCStatusSuccess /\ gr_Status rec = GaslessStatusSuccess) \/
     (sr_Status r = RPCStatusPending /\ gr_Status rec <> GaslessStatusSuccess /\ sr_Hash r <> "")).
Proof.
  unfold submitGasless. cbn [gasless_set gasless_client negb]. intros Hr.
  apply bind_ok in Hr as (reqID & w1 & _ & Hr). apply bind_ok in Hr as (envelope & w2 & _ & Hr).
  set (sub := Build_GaslessSubmission _ _ _ _) in Hr. apply bind_ok in Hr as ([rec err] & w3 & Hsend & Hr).
  injection Hsend as Ha _. cbn [gasless_submit gasless_client] in Ha. unfold submit_answer in Ha.
  destruct (submit_outcome sub (client_at (w_io w2))) as (rec' & err' & w4 & E & Hout). rewrite E in Ha. cbn in Ha.
  injection Ha as -> ->.
  assert (forall req, reported req rec -> (err = None <-> gr_Status rec = GaslessStatusSuccess) ->
    exists req rec, reported req rec /\ gr_TxHash rec = sr_Hash r /\
    ((sr_Status r = RPCStatusSuccess /\ gr_Status rec = GaslessStatusSuccess) \/
     (sr_Status r = RPCStatusPending /\ gr_Status rec <> GaslessStatusSuccess /\ sr_Hash r <> ""))) as Hrep.
  { intros req Hreq Hs. exists req, rec. split; [done|]. destruct err as [e|].
    - destruct (errors_is e ErrGaslessPending && negb (String.eqb (gr_TxHash rec) "")) eqn:Ep; [|done].
      injection Hr as <- _. cbn. split; [done|]. right. apply andb_prop in Ep as [_ Ep]. apply negb_true_iff, String.eqb_neq in Ep.
      split; [done|]. split; [|done]. intros Hx. by apply Hs in Hx.
    - injection Hr as <- _. cbn. split; [done|]. left. split; [done|]. by apply Hs. }
  assert (rec = no_record -> err <> None -> False) as Hnone.
  { intros -> He. destruct err as [e|]; [|done]. cbn in Hr. by rewrite andb_false_r in Hr. }
  destruct Hout as [(_ & Hn & He)|(body & k & _ & _ & _ & [(_ & Hn & He)|([Hp|Hp] & Hs)])];
    [by destruct (Hnone Hn He)|by destruct (Hnone Hn He)|by eapply Hrep|by eapply Hrep].
Qed.
End Submitted.

(** ** A relayer that wakes up, and a submission that settles at the second poll *)
Section Witnesses.
Import Demo Gasless Relayer Submit.
#[local] Existing Instance demo_sdk.
#[local] Instance steady : Elapses := {| elapsed n := 100%N; gone_at := None |}.
#[local] Instance demo_clock : Env := demo_env 1000 100%N no_fault.
#[local] Instance demo_server : Http := {|
  http_do req n :=
    if (n <? 6)%nat then Ok {| rs_StatusCode := if String.eqb (rq_Method req) "POST" then 202 else 503; rs_Body := Ok "pending" |}
    else Ok {| rs_StatusCode := 200; rs_Body := Ok "success" |} |}.
#[local] Instance demo_relayer : RelayerConfig := {| relayerURL := "http://relayer"; relayerKey := ""; relayerBudget := 60000 |}.

Lemma relayer_wakes_witness : exists resp w',
  relayer_send (status_request "7") (MkWorld (MkTimed 0 [] tt) 0) = (Ok (Some resp), w') /\
  isRelayerBooting (rs_StatusCode resp) = false.
Proof.
  apply (relayer_wakes _ 100 3); [done|intros i; cbn; lia| |vm_compute; reflexivity].
  intros i Hi. cbn in Hi. unfold http_do, demo_server. replace (i <? 6)%nat with false by (symmetry; apply Nat.ltb_ge; lia). eexists. by split.
Defined.

#[local] Instance demo_gasless : GaslessConfig := {| gaslessURL := "http://gasless"; gaslessKey := "k"; gaslessBudget := 60000 |}.
#[local] Instance late_server : Http := {|
  http_do req n := Ok {| rs_StatusCode := 200; rs_Body := Ok (if (n <? 5)%nat then "pending" else "success") |} |}.
#[local] Instance no_text : JsonText := {| json_text j := Ok "" |}.
#[local] Instance json_submission : Json GaslessSubmission := {| json_marshal x := Ok (gs_RequestID x); json_unmarshal s := Err (Errorf "json") |}.
#[local] Instance json_record : Json GaslessRecord := {|
  json_marshal x := Err (Errorf "json");
  json_unmarshal s := Ok {| gr_RequestID := ""; gr_Status := s; gr_TxHash := "aa"; gr_ErrorCode := ""; gr_ErrorMessage := "" |} |}.
#[local] Instance json_fees : Json GaslessFeeConfig := {|
  json_marshal x := Err (Errorf "json");
  json_unmarshal s := Ok {| fc_FeeForwarder := "CF"; fc_Relayer := "GY";
                            fc_FeeTokens := [{| ft_Contract := "CL"; ft_Symbol := "XLM"; ft_Native := true |}] |} |}.
#[local] Instance json_quote : Json GaslessQuote := {| json_marshal x := Err (Errorf "json"); json_unmarshal s := Err (Errorf "json") |}.
#[local] Instance error_body : JsonBest gaslessErrorBody := {| json_best s := {| ge_Code := ""; ge_Message := s |} |}.

Definition fresh_client : World (Timed FeeCache) := MkWorld (MkTimed 0 [] no_fee_cache) 0.
Lemma fee_tokens_cached_witness : exists cfg w',
  FeeTokens fresh_client = (Ok cfg, w') /\ complete cfg /\
  FeeTokens (MkWorld (MkTimed 600000 [] (t_own (w_store w'))) 9) = (Ok cfg, MkWorld (MkTimed 600000 [] (t_own (w_store w'))) 9).
Proof.
  destruct (succeeds FeeTokens fresh_client) as (cfg & w' & Hr); [by vm_compute|].
  exists cfg, w'. split; [done|].
  destruct (fee_tokens_cached cfg fresh_client w') as (Hc & Hkept & Hfresh & Hagain); [vm_compute; discriminate|done|].
  split; [done|]. apply Hagain; [done|]. cbn. destruct Hfresh as [Hf|E]; [vm_compute in Hf; discriminate|rewrite E].
  assert (w' = snd (FeeTokens fresh_client)) as -> by (by rewrite Hr). vm_compute. reflexivity.
Defined.

#[local] Existing Instance gasless_client.
Lemma submitted_hash_reported_witness : exists r w',
  submitGasless GaslessModeSponsored "CWALLET" (InvokeContract (AddrContract "CWALLET") "add_signer" []) [] (MkWorld empty_store 0) = (Ok r, w') /\
  exists req rec, reported req rec /\ gr_TxHash rec = sr_Hash r /\
    ((sr_Status r = RPCStatusSuccess /\ gr_Status rec = GaslessStatusSuccess) \/
     (sr_Status r = RPCStatusPending /\ gr_Status rec <> GaslessStatusSuccess /\ sr_Hash r <> "")).
Proof.
  destruct (succeeds (submitGasless GaslessModeSponsored "CWALLET" (InvokeContract (AddrContract "CWALLET") "add_signer" []) []) (MkWorld empty_store 0))
    as (r & w' & Hr); [by vm_compute|].
  exists r, w'. split; [done|]. by apply (submitted_hash_reported GaslessModeSponsored "CWALLET" (InvokeContract (AddrContract "CWALLET") "add_signer" []) [] r (MkWorld empty_store 0) w').
Defined.
End Witnesses.

End ClientTheorems.
