(* ===== verification/Ceremonies.v ===== *)
(** * Passkey ceremonies (service/webapp/webauthn_service.go)

    Registration and authentication: a challenge is stored for the session's user,
    the response is checked against it, and the credential row is written or its
    owner found. The authenticator data is parsed byte by byte; CBOR, JSON, the
    curve check and ECDSA are parameters. *)

From S2P Require Export Rpid AccountSigners WebAuthn.
From S2P Require Import Instances.

(** The CBOR structures: the attestation object and an EC2 COSE key. *)
Record attestationObjectCBOR := { at_Fmt : string; at_AuthData : string }.
Record coseKey := { ck_Kty : Z; ck_Alg : Z; ck_Crv : Z; ck_X : string; ck_Y : string }.
(** github.com/fxamacker/cbor: [Unmarshal] into the two structures,
    [UnmarshalFirst] into a [RawMessage], and [Marshal]. *)
Class Cbor := {
  cbor_attestation : string -> res attestationObjectCBOR;
  cbor_cose_key : string -> res coseKey;
  cbor_first : string -> res string;
  cbor_marshal_cose : coseKey -> res string;
}.

Record authenticatorData := {
  ad_RPIDHash : string; ad_Flags : Z; ad_SignCount : Z; ad_CredentialID : string; ad_CredentialPublicKeyRaw : string }.

Record RegistrationOptions := {
  ro_Challenge : string; ro_RPID : string; ro_UserID : string; ro_ExcludeCredentials : list string; ro_Timeout : Z }.
Record AuthenticationOptions := {
  ao_Challenge : string; ao_RPID : string; ao_AllowedCredentials : list string; ao_Timeout : Z }.
(** The service never reads the registration's [CredentialID]. *)
Record FinishRegistrationInput := {
  fr_UserID : string; fr_ClientDataJSON : string; fr_AttestationObject : string; fr_Transports : list string;
  fr_ChromeExtensionIDFromBody : string; fr_ExtensionIDHeader : string; fr_Config : WebAuthnConfig }.
Record FinishAuthenticationInput := {
  fa_UserID : string; fa_CredentialID : string; fa_ClientDataJSON : string; fa_AuthenticatorData : string;
  fa_Signature : string; fa_ChromeExtensionIDFromBody : string; fa_ExtensionIDHeader : string;
  fa_Config : WebAuthnConfig }.
Record AuthenticatedCredential := { au_CredentialID : string; au_UserID : string }.

Module Ceremonies.
Import Rpid WebAuthn AccountSigners SmartAccounts.

(** 5 minutes, in milliseconds *)
Definition ChallengeTTL : Z := 5 * 60 * 1000.
Definition PurposeRegistration : string := "registration".
Definition PurposeAuthentication : string := "authentication".
Definition ErrChallengeNotFound : error := Sentinel "ErrChallengeNotFound".
Definition ErrChallengeExpired : error := Sentinel "ErrChallengeExpired".
Definition ErrVerificationFailed : error := Sentinel "ErrVerificationFailed".
Definition ErrCredentialNotFound : error := Sentinel "webapp.ErrCredentialNotFound".
Definition ErrUnsupportedAttFmt : error := Sentinel "ErrUnsupportedAttFmt".
Definition flagUserPresent : Z := 1.
Definition flagAttestedData : Z := 64.
Definition p256UncompressedHexLen : nat := 130.

(** ** Authenticator data *)
Definition byte_val (c : ascii) : Z := Z.of_N (N_of_ascii c).
(** [binary.BigEndian] *)
Fixpoint be_uint (acc : Z) (s : string) : Z :=
  match s with "" => acc | String c s' => be_uint (acc * 256 + byte_val c) s' end.
Definition has_flag (flags flag : Z) : bool := negb (Z.land flags flag =? 0).

Section Parsing.
Context `{Cbor}.

Definition parseAuthenticatorData (data : string) : res authenticatorData :=
  if (String.length data <? 37)%nat then Err (Errorf "authenticator data too short") else
  let hash := String.substring 0 32 data in
  let flags := be_uint 0 (String.substring 32 1 data) in
  let count := be_uint 0 (String.substring 33 4 data) in
  if negb (has_flag flags flagAttestedData)
  then Ok {| ad_RPIDHash := hash; ad_Flags := flags; ad_SignCount := count; ad_CredentialID := "";
             ad_CredentialPublicKeyRaw := "" |} else
  let rest := str_drop 37 data in
  if (String.length rest <? 18)%nat then Err (Errorf "attested credential data truncated") else
  let rest := str_drop 16 rest in
  let credIDLen := Z.to_nat (be_uint 0 (String.substring 0 2 rest)) in
  let rest := str_drop 2 rest in
  if (String.length rest <? credIDLen)%nat then Err (Errorf "credential id truncated") else
  let? pubKeyRaw := res_wrap "decode credential public key" (cbor_first (str_drop credIDLen rest)) in
  Ok {| ad_RPIDHash := hash; ad_Flags := flags; ad_SignCount := count;
        ad_CredentialID := String.substring 0 credIDLen rest; ad_CredentialPublicKeyRaw := pubKeyRaw |}.

(** 0x04, then the coordinates. *)
Definition coseEC2ToRawP256Uncompressed (cosePublicKey : string) : res string :=
  let? key := res_wrap "decode COSE key" (cbor_cose_key cosePublicKey) in
  if negb (String.length (ck_X key) =? 32)%nat || negb (String.length (ck_Y key) =? 32)%nat
  then Err (Errorf "unsupported COSE key format: expected 32-byte x/y coordinates")
  else Ok (String uncompressed (ck_X key +:+ ck_Y key)).
Definition uncompressed_point (raw : string) : bool :=
  (String.length raw =? 65)%nat && match raw with String c _ => Ascii.eqb c uncompressed | "" => false end.
Definition rawP256ToCoseEC2 (rawPubKey : string) : res string :=
  if negb (uncompressed_point rawPubKey) then Err (Errorf "expected 65-byte uncompressed P-256 point")
  else cbor_marshal_cose {| ck_Kty := 2; ck_Alg := -7; ck_Crv := 1; ck_X := String.substring 1 32 rawPubKey;
                            ck_Y := String.substring 33 32 rawPubKey |}.
End Parsing.

(** ** The checks of a response *)
Definition verifyClientData (cd : clientData) (wantType wantChallenge wantOrigin : string) : res unit :=
  if negb (String.eqb (cd_Type cd) wantType) then Err (Wrapf "unexpected clientData.type" ErrVerificationFailed) else
  if negb (String.eqb (cd_Challenge cd) wantChallenge) then Err (Wrapf "challenge mismatch" ErrVerificationFailed) else
  if negb (String.eqb (cd_Origin cd) wantOrigin) then Err (Wrapf "origin mismatch" ErrVerificationFailed) else Ok tt.

Definition rpIDHashMatchesAny (rpIDHash : string) (candidates : list string) : bool :=
  existsb (fun c => String.eqb (Sha256.Sum256 c) rpIDHash) candidates.

Section Signature.
Context `{WebAuthnLib}.
Definition verifyP256Signature (rawPubKey digest derSignature : string) : bool :=
  if negb (uncompressed_point rawPubKey) then false else
  if negb (p256_on_curve rawPubKey) then false else ecdsa_verify rawPubKey digest derSignature.
Definition signedDataDigest (authenticatorData clientDataJSON : string) : string :=
  Sha256.Sum256 (authenticatorData +:+ Sha256.Sum256 clientDataJSON).
End Signature.

(** [fmt.Errorf("%w: ...: %v", ErrVerificationFailed, err)]: the cause is text only. *)
Definition or_unverified {S A} (ctx : string) (r : res A) : M S A :=
  match r with Ok a => ret a | Err _ => throw (Wrapf ctx ErrVerificationFailed) end.
Definition require {S} (ctx : string) (b : bool) : M S unit :=
  if b then ret tt else throw (Wrapf ctx ErrVerificationFailed).

Section Service.
Context `{Cbor} `{WebAuthnLib} `{UuidLib} `{Env} `{Json (list string)}.
Abbreviation W := (World Store).

(** ** Challenges *)
Definition issueChallenge (userID purpose rpID origin : string) : M W string :=
  let! raw := wrap "generate challenge" (rand_bytes 32) in
  let challengeB64 := Base64.RawURLEncoding_EncodeToString raw in
  let! uid := wrap "parse user id" (lift (parse_uuid userID)) in
  let! now := now_ms in
  let! id := new_uuid in
  let! _ := wrap "store challenge" (exec (InsertWebauthnChallenge
    {| ch_ID := id; ch_UserID := Some uid; ch_Purpose := purpose; ch_Challenge := challengeB64; ch_RpID := rpID;
       ch_Origin := origin; ch_ExpiresAt := now + ChallengeTTL; ch_CreatedAt := now |})) in
  ret challengeB64.

(** The latest challenge of the user for the purpose; it is not consumed. *)
Definition getActiveChallenge (userID purpose : string) : M W WebauthnChallenge :=
  let! uid := wrap "parse user id" (lift (parse_uuid userID)) in
  let! r := attempt (query (GetLatestWebauthnChallenge uid purpose)) in
  match r with
  | Err _ => throw ErrChallengeNotFound
  | Ok row =>
      let! now := now_ms in
      if ch_ExpiresAt row <=? now then throw ErrChallengeExpired else ret row
  end.
Definition consumeChallenge (id : uuid) : M W unit :=
  wrap "delete consumed challenge" (exec (DeleteWebauthnChallenge id)).

(** What both finishing calls start with: the active challenge, and the relying
    parties the authenticator may have hashed. *)
Definition open_response (userID purpose wantType clientDataJSON extensionFromBody extensionHeader : string)
    (cfg : WebAuthnConfig) : M W (WebauthnChallenge * list string) :=
  let! challenge := getActiveChallenge userID purpose in
  let! cd := or_unverified "decode clientDataJSON" (client_data_unmarshal clientDataJSON) in
  let! ' (expectedOrigin, expectedRPIDs) := or_unverified "resolve" (ResolveFinishVerification
    {| cf_ChromeExtensionIDFromBody := extensionFromBody; cf_ExtensionIDHeader := extensionHeader;
       cf_ClientDataOrigin := cd_Origin cd |}
    {| sc_RPID := ch_RpID challenge; sc_Origin := ch_Origin challenge |} cfg) in
  let! _ := lift (verifyClientData cd wantType (ch_Challenge challenge) expectedOrigin) in
  ret (challenge, expectedRPIDs).

(** ** Registration *)
Definition BeginRegistration (userID rpID origin : string) : M W RegistrationOptions :=
  let! challengeB64 := issueChallenge userID PurposeRegistration rpID origin in
  let! uid := wrap "parse user id" (lift (parse_uuid userID)) in
  let! rows := wrap "list credentials" (query (ListWebauthnCredentialsForUser uid)) in
  let! handle := new_uuid in
  ret {| ro_Challenge := challengeB64; ro_RPID := rpID;
         ro_UserID := Base64.RawURLEncoding_EncodeToString (Sha256.of_bytes (Sha256.be_bytes 16 (Z.of_N handle)));
         ro_ExcludeCredentials := wc_CredentialID <$> rows; ro_Timeout := 60000 |}.

Definition FinishRegistration (inp : FinishRegistrationInput) : M W RegisteredCredential :=
  let! ' (challenge, expectedRPIDs) := open_response (fr_UserID inp) PurposeRegistration "webauthn.create"
    (fr_ClientDataJSON inp) (fr_ChromeExtensionIDFromBody inp) (fr_ExtensionIDHeader inp) (fr_Config inp) in
  let! att := or_unverified "decode attestationObject" (cbor_attestation (fr_AttestationObject inp)) in
  if negb (String.eqb (at_Fmt att) "none") then throw (Wrapf "fmt" ErrUnsupportedAttFmt) else
  let! authData := or_unverified "parse authenticatorData" (parseAuthenticatorData (at_AuthData att)) in
  let! _ := require "no attested credential data" (has_flag (ad_Flags authData) flagAttestedData) in
  let! _ := require "user not present" (has_flag (ad_Flags authData) flagUserPresent) in
  let! _ := require "rpID hash mismatch" (rpIDHashMatchesAny (ad_RPIDHash authData) expectedRPIDs) in
  let! rawPubKey := or_unverified "cose" (coseEC2ToRawP256Uncompressed (ad_CredentialPublicKeyRaw authData)) in
  let! _ := consumeChallenge (ch_ID challenge) in
  let! uid := wrap "parse user id" (lift (parse_uuid (fr_UserID inp))) in
  let credentialIDB64 := Base64.RawURLEncoding_EncodeToString (ad_CredentialID authData) in
  let! transportsJSON := wrap "marshal transports" (lift (json_marshal (fr_Transports inp))) in
  let! id := new_uuid in
  let! now := now_ms in
  let! _ := wrap "store webauthn credential" (exec (UpsertWebauthnCredential
    {| wc_ID := id; wc_UserID := uid; wc_CredentialID := credentialIDB64;
       wc_CredentialIDBytes := ad_CredentialID authData; wc_CosePublicKey := ad_CredentialPublicKeyRaw authData;
       wc_P256RawPublicKey := rawPubKey; wc_SignCount := ad_SignCount authData;
       wc_Transports := match fr_Transports inp with [] => None | _ => Some transportsJSON end;
       wc_BackedUp := 0; wc_CreatedAt := now |})) in
  ret {| rc_CredentialID := credentialIDB64; rc_RawPublicKey := rawPubKey;
         rc_COSEPublicKey := ad_CredentialPublicKeyRaw authData |}.

(** ** Authentication *)
Definition BeginAuthentication (userID rpID origin : string) : M W AuthenticationOptions :=
  let! challengeB64 := issueChallenge userID PurposeAuthentication rpID origin in
  let! uid := wrap "parse user id" (lift (parse_uuid userID)) in
  let! rows := wrap "list credentials" (query (ListWebauthnCredentialsForUser uid)) in
  ret {| ao_Challenge := challengeB64; ao_RPID := rpID; ao_AllowedCredentials := wc_CredentialID <$> rows;
         ao_Timeout := 60000 |}.

(** The rows of an adopted passkey: a user of its own, the credential, the account. *)
Definition adopt_rows (credentialID credentialIDB64 cosePublicKey pubKey : string) (signCount : Z)
    (row : PasskeyCredentialRow) : M W string := transact
  (let! now := now_ms in
   let! ownerID := new_uuid in
   let! _ := wrap "create user for adopted passkey" (exec (InsertWebappUser ownerID now)) in
   let! cid := new_uuid in
   let! _ := wrap "store adopted webauthn credential" (exec (UpsertWebauthnCredential
     {| wc_ID := cid; wc_UserID := ownerID; wc_CredentialID := credentialIDB64; wc_CredentialIDBytes := credentialID;
        wc_CosePublicKey := cosePublicKey; wc_P256RawPublicKey := pubKey; wc_SignCount := signCount;
        wc_Transports := None; wc_BackedUp := 1; wc_CreatedAt := now |})) in
   let! sid := new_uuid in
   let! _ := wrap "store adopted smart account" (exec (UpsertSmartAccount
     {| sa_ID := sid; sa_UserID := ownerID; sa_CredentialID := credentialIDB64; sa_KeyDataHex := pc_KeyDataHex row;
        sa_SaltHex := hex_encode (DeriveWebauthnSalt (pc_KeyDataHex row));
        sa_SmartAccountAddress := pc_SmartAccountAddress row; sa_Deployed := 1; sa_CreatedAt := now |})) in
   let! _ := wrap "relink multisig members" (exec (RelinkMultisigMembersByCredential ownerID credentialIDB64)) in
   ret (uuid_string ownerID)).

(** The public key recorded at the head of a row's key data. *)
Definition indexed_key (row : PasskeyCredentialRow) : res string :=
  if (String.length (pc_KeyDataHex row) <=? p256UncompressedHexLen)%nat
  then Err (Errorf "indexed key data too short")
  else hex_decode (String.substring 0 p256UncompressedHexLen (pc_KeyDataHex row)).

Definition adoptExternalPasskey (inp : FinishAuthenticationInput) (challenge : WebauthnChallenge)
    (authData : authenticatorData) (credentialIDB64 : string) : M W AuthenticatedCredential :=
  let! r := attempt (query (GetPasskeyCredential (hex_encode (fa_CredentialID inp)))) in
  match r with
  | Err e => if errors_is e ErrNoRows then throw (Wrapf "no row for credential id" ErrCredentialNotFound)
             else throw (Wrapf "get passkey credential index" e)
  | Ok row =>
      let! pubKey := or_unverified "indexed key data" (indexed_key row) in
      let! _ := require "signature verification failed"
        (verifyP256Signature pubKey (signedDataDigest (fa_AuthenticatorData inp) (fa_ClientDataJSON inp)) (fa_Signature inp)) in
      let! _ := consumeChallenge (ch_ID challenge) in
      let! cosePublicKey := wrap "encode cose key" (lift (rawP256ToCoseEC2 pubKey)) in
      let! owner := adopt_rows (fa_CredentialID inp) credentialIDB64 cosePublicKey pubKey (ad_SignCount authData) row in
      ret {| au_CredentialID := credentialIDB64; au_UserID := owner |}
  end.

(** The counter went up, or is not used by either side. *)
Definition sign_count_ok (presented stored : Z) : bool :=
  if negb (presented =? 0) || negb (stored =? 0) then stored <? presented else true.

Definition FinishAuthentication (inp : FinishAuthenticationInput) : M W AuthenticatedCredential :=
  let! ' (challenge, expectedRPIDs) := open_response (fa_UserID inp) PurposeAuthentication "webauthn.get"
    (fa_ClientDataJSON inp) (fa_ChromeExtensionIDFromBody inp) (fa_ExtensionIDHeader inp) (fa_Config inp) in
  let! authData := or_unverified "parse authenticatorData" (parseAuthenticatorData (fa_AuthenticatorData inp)) in
  let! _ := require "user not present" (has_flag (ad_Flags authData) flagUserPresent) in
  let! _ := require "rpID hash mismatch" (rpIDHashMatchesAny (ad_RPIDHash authData) expectedRPIDs) in
  let credentialIDB64 := Base64.RawURLEncoding_EncodeToString (fa_CredentialID inp) in
  let! r := attempt (query (GetWebauthnCredentialByCredentialID credentialIDB64)) in
  match r with
  | Err e => if errors_is e ErrNoRows then adoptExternalPasskey inp challenge authData credentialIDB64
             else throw (Wrapf "get webauthn credential" e)
  | Ok cred =>
      let! _ := require "signature verification failed"
        (verifyP256Signature (wc_P256RawPublicKey cred)
           (signedDataDigest (fa_AuthenticatorData inp) (fa_ClientDataJSON inp)) (fa_Signature inp)) in
      let! _ := require "sign count did not increase (possible cloned authenticator)"
        (sign_count_ok (ad_SignCount authData) (wc_SignCount cred)) in
      let! _ := consumeChallenge (ch_ID challenge) in
      let! _ := wrap "update sign count"
        (exec (UpdateWebauthnCredentialSignCount credentialIDB64 (ad_SignCount authData))) in
      let! _ := wrap "relink multisig members"
        (exec (RelinkMultisigMembersByCredential (wc_UserID cred) credentialIDB64)) in
      ret {| au_CredentialID := credentialIDB64; au_UserID := uuid_string (wc_UserID cred) |}
  end.

(** ** The session user's credentials, with their dates *)
Definition ListCredentials (userID : string) : M W (list (string * Z)) :=
  let! uid := wrap "parse user id" (lift (parse_uuid userID)) in
  let! rows := wrap "list credentials" (query (ListWebauthnCredentialsForUser uid)) in
  ret ((fun r => (wc_CredentialID r, wc_CreatedAt r)) <$> rows).
End Service.
End Ceremonies.
