(* ===== verification/CeremonyRoutes.v ===== *)
(** * The passkey routes (handler/webapp/webauthn.go)

    Registration deploys the passkey's account, attaching a backup passkey does
    not; signing in moves the session to the credential's owner and replaces what
    the session has proved. Audit records and notifications are left out: neither
    changes an answer. *)

From S2P Require Export Ceremonies Routes.
From S2P Require Import Instances.

(** The headers a ceremony looks at; the first extension header is the current name. *)
Record ceremonyHeaders := {
  hd_LatchChromeExtensionId : string; hd_ChromeExtensionId : string; hd_Origin : string; hd_Referer : string;
  hd_Host : string }.
Record beginCeremonyRequest := { qb_DisplayName : string; qb_ChromeExtensionID : string }.
Record publicKeyCredentialJSON := {
  pk_RawID : string; pk_ClientDataJSON : string; pk_AttestationObject : string; pk_AuthenticatorData : string;
  pk_Sig : string; pk_Transports : list string }.
Record finishRegistrationRequest := {
  qf_Response : publicKeyCredentialJSON; qf_ChromeExtensionID : string; qf_DisplayName : string; qf_Seq : Z;
  qf_CallerCredentialID : string }.
Record finishAuthenticationRequest := { qa_Response : publicKeyCredentialJSON; qa_ChromeExtensionID : string }.

Class WebAuthnHandlerConfig := { webAuthnConfig : WebAuthnConfig }.

Module CeremonyRoutes.
Import Rpid Ceremonies Routes AccountSigners Sessions SmartAccounts Submit.

Definition finishRegistrationLabelMaxLen : nat := 256.
Definition keyDataHashHex (keyDataHex : string) : string := hex_encode (Sha256.Sum256 keyDataHex).
Definition extensionIDHeader (h : ceremonyHeaders) : string :=
  if String.eqb (hd_LatchChromeExtensionId h) "" then hd_ChromeExtensionId h else hd_LatchChromeExtensionId h.
Definition credentialDescriptorsJSON (ids : list string) : list json :=
  (fun id => JObj [("id", JStr id); ("type", JStr "public-key")]) <$> ids.
(** The field is left out when there is nothing to list. *)
Definition descriptors_field (name : string) (ids : list string) : list (string * json) :=
  match ids with [] => [] | _ => [(name, JArr (credentialDescriptorsJSON ids))] end.
(** [label[:256]] *)
Definition bounded_label (displayName : string) : string :=
  let label := trim_space displayName in
  if (finishRegistrationLabelMaxLen <? String.length label)%nat
  then String.substring 0 finishRegistrationLabelMaxLen label else label.
Definition determinism_field (keyDataHex : string) : string * json :=
  ("determinismCheck", JObj [("keyDataHash", JStr (keyDataHashHex keyDataHex))]).

Section Handlers.
Context `{StellarSDK} `{Network} `{SubmitNetwork} `{Gasless} `{UuidLib} `{Unicode} `{Deployment} `{Env} `{ServiceConfig}.
Context `{KeypairLib} `{FactoryConfig} `{Cbor} `{WebAuthnLib} `{Json (list string)} `{WebAuthnHandlerConfig}.
Abbreviation W := (World Store).

Definition begin_input (h : ceremonyHeaders) (extensionFromBody : string) : CeremonyBeginInput :=
  {| cb_ChromeExtensionIDFromBody := extensionFromBody; cb_ExtensionIDHeader := extensionIDHeader h;
     cb_OriginHeader := hd_Origin h; cb_RefererHeader := hd_Referer h; cb_RequestHost := hd_Host h |}.
Definition ceremony_context (h : ceremonyHeaders) (extensionFromBody : string) : M W (string * string) :=
  match ResolveCeremonyContext (begin_input h extensionFromBody) webAuthnConfig with
  | Ok c => ret c
  | Err _ => bad_body
  end.

(** A label of the client's, or one of its own. *)
Definition webauthnUserLabels (displayName : string) : M W (string * string) :=
  let d := trim_space displayName in
  if String.eqb d "" then
    let! id := new_uuid in
    let d := "Latch passkey " +:+ String.substring 0 8 (uuid_string id) in ret (d, d)
  else ret (d, d).

Definition RegistrationBegin (userID : string) (h : ceremonyHeaders) (req : beginCeremonyRequest) : M W json :=
  let! ' (rpID, origin) := ceremony_context h (qb_ChromeExtensionID req) in
  let! opts := or_fail "500" "internal_error" (BeginRegistration userID rpID origin) in
  let! ' (name, display) := webauthnUserLabels (qb_DisplayName req) in
  ret (JObj [("options", JObj (
    [("challenge", JStr (ro_Challenge opts)); ("rp", JObj [("id", JStr (ro_RPID opts)); ("name", JStr "Latch")]);
     ("user", JObj [("id", JStr (ro_UserID opts)); ("name", JStr name); ("displayName", JStr display)]);
     ("pubKeyCredParams", JArr [JObj [("alg", JNum (-7)); ("type", JStr "public-key")]]);
     ("authenticatorSelection", JObj [("residentKey", JStr "preferred"); ("userVerification", JStr "preferred")]);
     ("timeout", JNum (ro_Timeout opts)); ("attestation", JStr "none")]
    ++ descriptors_field "excludeCredentials" (ro_ExcludeCredentials opts)))]).

Definition decoded (s : string) : M W string :=
  match Base64.RawURLEncoding_DecodeString s with Ok b => ret b | Err _ => bad_body end.

(** The binary fields of a registration response, and the verified credential. *)
Definition registered (userID : string) (h : ceremonyHeaders) (req : finishRegistrationRequest)
    : M W (string * RegisteredCredential) :=
  let! rawID := decoded (pk_RawID (qf_Response req)) in
  let! clientDataJSON := decoded (pk_ClientDataJSON (qf_Response req)) in
  let! attestationObject := decoded (pk_AttestationObject (qf_Response req)) in
  let! cred := or_fail "400" "internal_error" (FinishRegistration
    {| fr_UserID := userID; fr_ClientDataJSON := clientDataJSON; fr_AttestationObject := attestationObject;
       fr_Transports := pk_Transports (qf_Response req); fr_ChromeExtensionIDFromBody := qf_ChromeExtensionID req;
       fr_ExtensionIDHeader := extensionIDHeader h; fr_Config := webAuthnConfig |}) in
  ret (rawID, cred).

Definition deploy_errors (e : error) : string * string :=
  match failGasless e with Some a => a | None => ("500", "internal_error") end.

Definition RegistrationFinish (userID sessionID : string) (h : ceremonyHeaders) (req : finishRegistrationRequest)
    : M W json :=
  let! ' (_, cred) := registered userID h req in
  let! ' (keyDataHex, saltHex, smartAccountAddress, deployed, alreadyDeployed) :=
    answered deploy_errors (DeployForCredential userID cred) in
  let! _ := attempt (Register keyDataHex smartAccountAddress (bounded_label (qf_DisplayName req)) (qf_Seq req)) in
  let! _ := attempt (AddProvedCredential sessionID (rc_CredentialID cred)) in
  ret (JObj [("credentialId", JStr (rc_CredentialID cred)); ("keyDataHex", JStr keyDataHex); ("saltHex", JStr saltHex);
             ("smartAccountAddress", JStr smartAccountAddress); ("deployed", JBool deployed);
             ("alreadyDeployed", JBool alreadyDeployed); determinism_field keyDataHex]).

(** The key data of the answer ends in the posted [rawId], not in the verified
    credential's id. *)
Definition AttachSignerFinish (userID sessionID smartAccountAddress : string) (h : ceremonyHeaders)
    (req : finishRegistrationRequest) : M W json :=
  let! _ := requireProvedSigner sessionID (qf_CallerCredentialID req) smartAccountAddress in
  let! ' (rawID, cred) := registered userID h req in
  let keyDataHex := BuildKeyDataHex (rc_RawPublicKey cred) rawID in
  let! r := attempt (AttachCredential smartAccountAddress (rc_CredentialID cred) (bounded_label (qf_DisplayName req))) in
  match r with
  | Err e => if errors_is e ErrAccountSignerUnknownAccount then fail "404" "unknown_account"
             else fail "500" "internal_error"
  | Ok _ =>
      let! _ := attempt (AddProvedCredential sessionID (rc_CredentialID cred)) in
      ret (JObj [("credentialId", JStr (rc_CredentialID cred)); ("keyDataHex", JStr keyDataHex);
                 ("smartAccountAddress", JStr smartAccountAddress); ("attached", JBool true); ("deployed", JBool false);
                 ("signerOnChain", JBool false); determinism_field keyDataHex])
  end.

Definition AuthenticationBegin (userID : string) (h : ceremonyHeaders) (extensionFromBody : string) : M W json :=
  let! ' (rpID, origin) := ceremony_context h extensionFromBody in
  let! opts := or_fail "500" "internal_error" (BeginAuthentication userID rpID origin) in
  ret (JObj [("options", JObj (
    [("challenge", JStr (ao_Challenge opts)); ("rpId", JStr (ao_RPID opts)); ("userVerification", JStr "preferred");
     ("timeout", JNum (ao_Timeout opts))] ++ descriptors_field "allowCredentials" (ao_AllowedCredentials opts)))]).

Definition authenticated (userID : string) (h : ceremonyHeaders) (req : finishAuthenticationRequest)
    : M W AuthenticatedCredential :=
  let! rawID := decoded (pk_RawID (qa_Response req)) in
  let! clientDataJSON := decoded (pk_ClientDataJSON (qa_Response req)) in
  let! authenticatorData := decoded (pk_AuthenticatorData (qa_Response req)) in
  let! signature := decoded (pk_Sig (qa_Response req)) in
  or_fail "400" "internal_error" (FinishAuthentication
    {| fa_UserID := userID; fa_CredentialID := rawID; fa_ClientDataJSON := clientDataJSON;
       fa_AuthenticatorData := authenticatorData; fa_Signature := signature;
       fa_ChromeExtensionIDFromBody := qa_ChromeExtensionID req; fa_ExtensionIDHeader := extensionIDHeader h;
       fa_Config := webAuthnConfig |}).

(** The session that has proved the credential: the request's own, or a new one of
    the credential's owner. *)
Definition session_of_owner (userID sessionID owner : string) : M W string :=
  if String.eqb owner userID then ret sessionID else
  let! sess := or_fail "500" "internal_error" (IssueForUser owner) in ret (s_ID sess).

(** The account a credential signs for: its own, or the one it backs up. *)
Definition account_signed_for (credentialID : string) : M W (string * string * bool) :=
  let! r := attempt (GetByCredentialID credentialID) in
  match r with
  | Ok found => ret found
  | Err _ =>
      let! address := or_fail "500" "internal_error" (ResolveByCredentialID credentialID) in
      let! keyDataHex := or_fail "500" "internal_error" (GetCredentialKeyDataHex credentialID) in
      ret (address, keyDataHex, true)
  end.

(** The answer, and the session the cookie names afterwards. *)
Definition AuthenticationFinish (userID sessionID : string) (h : ceremonyHeaders) (req : finishAuthenticationRequest)
    : M W (string * json) :=
  let! cred := authenticated userID h req in
  let! sid := session_of_owner userID sessionID (au_UserID cred) in
  let! _ := or_fail "500" "internal_error" (ReplaceProvedCredential sid (au_CredentialID cred)) in
  let! ' (smartAccountAddress, keyDataHex, deployed) := account_signed_for (au_CredentialID cred) in
  let! accounts := or_fail "500" "internal_error" (ListAccountsForProvedCredentials [au_CredentialID cred]) in
  ret (sid, JObj [("smartAccountAddress", JStr smartAccountAddress); ("keyDataHex", JStr keyDataHex);
                  ("deployed", JBool deployed); ("activeCredentialId", JStr (au_CredentialID cred));
                  ("accounts", JArr ((fun a => JObj [("smartAccountAddress", JStr (ac_SmartAccountAddress a));
                                                     ("credentialId", JStr (ac_CredentialID a));
                                                     ("deployed", JBool (ac_Deployed a))]) <$> accounts))]).

Definition Credentials (userID : string) : M W json :=
  let! creds := or_fail "500" "internal_error" (ListCredentials userID) in
  ret (JObj [("credentials", JArr ((fun c => JObj [("credentialId", JStr (fst c)); ("createdAt", JNum (snd c))]) <$> creds))]).
End Handlers.
End CeremonyRoutes.
