(* ===== verification/MultisigRoutes.v ===== *)
(** * The multisig routes (handler/webapp/multisig_*.go)

    Deployed accounts, drafts, the invite flow, the passkey ceremonies that enrol
    a member, and proposals. Every route runs behind EnsureSession, which supplies
    the session's user. *)

From S2P Require Export CeremonyRoutes Proposals.
From S2P Require Import Instances.

(** What a request says of the address it was sent to. *)
Record requestOrigin := { rh_Host : string; rh_ForwardedProto : string; rh_TLS : bool }.
Record multisigSignerInitRequest := { qi_Type : string; qi_KeyDataHex : string; qi_GAddress : string; qi_Label : string }.
(** A list that was not sent is [None]. *)
Record draftAccountRequest := {
  qk_Threshold : Z; qk_Signers : option (list multisigSignerInitRequest); qk_AccountSaltHex : string }.
Record registerMemberRequest := {
  qm_Type : string; qm_KeyDataHex : string; qm_CredentialID : string; qm_GAddress : string; qm_Label : string }.
Record registerAccountRequest := {
  qg_SmartAccountAddress : string; qg_Threshold : Z; qg_AccountSaltHex : string;
  qg_Members : option (list registerMemberRequest) }.
Record draftMemberRequest := {
  ql_Label : string; ql_MemberType : string; ql_GAddress : string; ql_KeyDataHex : string; ql_CredentialID : string;
  ql_PublicKeyHex : string }.

Module MultisigRoutes.
Import Deploynet Signers ExecuteAuth Assets Submit Drafts Accounts Proposals AccountSigners Routes Rpid Ceremonies CeremonyRoutes SmartAccounts.

(** ** multisig_errors.go *)
Definition isMultisigNoActiveDraft (e : error) : bool := errors_is e ErrMultisigNoActiveDraft.
Definition multisig_table : error_table :=
  [(ErrMultisigProposalRefreshed, ("409", "PROPOSAL_REFRESHED")); (ErrMultisigNoContextRule, ("409", "NO_CONTEXT_RULE"))] ++
  ((fun e => (e, ("404", "internal_error"))) <$>
    [ErrMultisigDraftNotFound; ErrMultisigAccountNotFound; ErrMultisigProposalNotFound; ErrMultisigDraftMemberNotFound;
     ErrMultisigApprovalMemberNotFound; ErrMultisigNoActiveDraft; ErrMultisigInviteUnavailable; ErrMultisigApprovalNotStarted]) ++
  ((fun e => (e, ("400", "internal_error"))) <$>
    [ErrMultisigMemberValidation; ErrMultisigThresholdInvalid; ErrMultisigInsufficientSigners; ErrMultisigMissingField;
     ErrMultisigOperationUnsupported; ErrMultisigInsufficientBalance; ErrMultisigAccountSignerValidation;
     ErrMultisigApprovalWrongMemberType; ErrDelegatedSignatureInvalid; ErrDelegatedSignatureLength]) ++
  ((fun e => (e, ("409", "internal_error"))) <$>
    [ErrMultisigMemberDuplicate; ErrMultisigAccountDuplicateSigner; ErrMultisigDraftNotCollecting; ErrMultisigProposalNotPending;
     ErrMultisigThresholdNotMet; ErrDelegatedTemplateMismatch]).
Definition multisigErrorResponse (e : error) : string * string :=
  match failGasless e with Some a => a | None => answer_of multisig_table ("500", "internal_error") e end.

(** ** What is written *)
Definition nilIfEmpty (s : string) : json := if String.eqb s "" then JNull else JStr s.
Definition multisigAccountMemberJSON (m : MultisigAccountMember) : json :=
  JObj [("id", JStr (am_ID m)); ("memberType", JStr (am_MemberType m)); ("label", nilIfEmpty (am_Label m));
        ("credentialId", nilIfEmpty (am_CredentialID m)); ("gAddress", nilIfEmpty (am_GAddress m));
        ("hasKeyData", JBool (am_HasKeyData m))].
Definition account_summary_json (a : MultisigAccountSummary) : json :=
  JObj [("id", JStr (as_ID a)); ("smartAccountAddress", JStr (as_SmartAccountAddress a)); ("threshold", JNum (as_Threshold a));
        ("accountSaltHex", JStr (as_AccountSaltHex a)); ("createdAt", JNum (as_CreatedAt a));
        ("proposalCount", JNum (as_ProposalCount a)); ("members", JArr (multisigAccountMemberJSON <$> as_Members a));
        ("memberId", nilIfEmpty (as_MemberID a))].
Definition registered_member_json (m : MultisigAccountMember) : json :=
  JObj [("id", JStr (am_ID m)); ("memberType", JStr (am_MemberType m)); ("label", nilIfEmpty (am_Label m));
        ("keyDataHex", nilIfEmpty (am_KeyDataHex m)); ("gAddress", nilIfEmpty (am_GAddress m))].
Definition registered_account_json (a : MultisigAccountSummary) : json :=
  JObj [("id", JStr (as_ID a)); ("smartAccountAddress", JStr (as_SmartAccountAddress a)); ("threshold", JNum (as_Threshold a));
        ("accountSaltHex", JStr (as_AccountSaltHex a)); ("members", JArr (registered_member_json <$> as_Members a))].
Definition toSignerInits (reqs : list multisigSignerInitRequest) : list MultisigSignerInit :=
  (fun r => {| si_Type := qi_Type r; si_KeyDataHex := qi_KeyDataHex r; si_GAddress := qi_GAddress r; si_Label := qi_Label r |}) <$> reqs.
Definition signerInitsJSON (signers : list MultisigSignerInit) : json :=
  JArr ((fun s => JObj [("type", JStr (si_Type s)); ("keyDataHex", nilIfEmpty (si_KeyDataHex s));
                        ("gAddress", nilIfEmpty (si_GAddress s)); ("label", nilIfEmpty (si_Label s))]) <$> signers).
(** The two names clients use for the kinds of signer. *)
Definition client_kind (memberType : string) : string :=
  if String.eqb memberType "seed" then MultisigSignerKindDelegated
  else if String.eqb memberType "passkey" then MultisigSignerKindWebauthn else memberType.
Definition to_register_input (m : registerMemberRequest) : RegisterMemberInput :=
  {| rm_Type := client_kind (qm_Type m); rm_KeyDataHex := qm_KeyDataHex m; rm_CredentialID := qm_CredentialID m;
     rm_GAddress := qm_GAddress m; rm_Label := qm_Label m |}.
Definition toDomain (r : draftMemberRequest) : DraftMultisigMember :=
  {| m_ID := ""; m_Label := ql_Label r; m_Kind := client_kind (ql_MemberType r); m_GAddress := ql_GAddress r;
     m_KeyDataHex := ql_KeyDataHex r; m_CredentialID := ql_CredentialID r; m_PublicKeyHex := ql_PublicKeyHex r; m_UserID := "" |}.
Definition joinPath (token : string) : string := "/multisig/join/" +:+ token.
Definition draftInviteURL (o : requestOrigin) (token : string) : string :=
  (if String.eqb (rh_ForwardedProto o) "https" || rh_TLS o then "https" else "http") +:+ "://" +:+ rh_Host o +:+ joinPath token.
Definition serializedDraftMemberJSON (m : SerializedDraftMember) : json :=
  JObj [("id", JStr (sdm_ID m)); ("label", JStr (sdm_Label m)); ("memberType", JStr (sdm_MemberType m));
        ("gAddress", nilIfEmpty (sdm_GAddress m)); ("keyDataHex", nilIfEmpty (sdm_KeyDataHex m));
        ("credentialId", nilIfEmpty (sdm_CredentialID m)); ("publicKeyHex", nilIfEmpty (sdm_PublicKeyHex m));
        ("source", JStr (sdm_Source m)); ("valid", JBool (sdm_Valid m)); ("validationError", nilIfEmpty (sdm_ValidationError m));
        ("fingerprint", nilIfEmpty (sdm_Fingerprint m))].
Definition serializedDraftJSON (d : SerializedDraft) : json :=
  JObj [("id", JStr (sd_ID d)); ("threshold", JNum (sd_Threshold d)); ("accountSaltHex", JStr (sd_AccountSaltHex d));
        ("inviteToken", JStr (sd_InviteToken d)); ("status", JStr (sd_Status d));
        ("predictedAddress", nilIfEmpty (sd_PredictedAddress d)); ("smartAccountAddress", nilIfEmpty (sd_SmartAccountAddress d));
        ("createdAt", JNum (sd_CreatedAt d)); ("expiresAt", match sd_ExpiresAt d with Some t => JNum t | None => JNull end);
        ("members", JArr (serializedDraftMemberJSON <$> sd_Members d));
        ("validMemberCount", JNum (Z.of_nat (sd_ValidMemberCount d))); ("canDeploy", JBool (sd_CanDeploy d))].
Definition publicDraftMemberJSON (m : PublicDraftMember) : json :=
  JObj [("id", JStr (pdm_ID m)); ("label", JStr (pdm_Label m)); ("memberType", JStr (pdm_MemberType m));
        ("source", JStr (pdm_Source m)); ("fingerprint", nilIfEmpty (pdm_Fingerprint m)); ("valid", JBool (pdm_Valid m))].
Definition publicDraftViewJSON (v : PublicDraftView) : json :=
  JObj [("id", JStr (pdv_ID v)); ("threshold", JNum (pdv_Threshold v)); ("status", JStr (pdv_Status v));
        ("memberCount", JNum (Z.of_nat (pdv_MemberCount v))); ("validMemberCount", JNum (Z.of_nat (pdv_ValidMemberCount v)));
        ("members", JArr (publicDraftMemberJSON <$> pdv_Members v))].
Definition proposal_summary_json (s : ProposalSummary) : json :=
  JObj [("id", JStr (ps_ID s)); ("authDigestHex", JStr (ps_AuthDigestHex s)); ("validUntilLedger", JNum (ps_ValidUntilLedger s));
        ("contextRuleId", JNum (ps_ContextRuleID s)); ("signaturePayloadHex", JStr (ps_SignaturePayloadHex s))].
Definition proposalListItemJSON (p : ProposalListItem json) : json :=
  JObj [("id", JStr (pli_ID _ p)); ("status", JStr (pli_Status _ p)); ("operationKind", JStr (pli_OperationKind _ p));
        ("operationParams", default JNull (pli_OperationParams _ p)); ("authDigestHex", JStr (pli_AuthDigestHex _ p));
        ("validUntilLedger", JNum (pli_ValidUntilLedger _ p)); ("createdAt", JNum (pli_CreatedAt _ p));
        ("executedTxHash", nilIfEmpty (pli_ExecutedTxHash _ p)); ("approvalCount", JNum (pli_ApprovalCount _ p))].
Definition member_summary_json (m : MultisigMemberSummary) : json :=
  JObj [("id", JStr (ms_ID m)); ("memberType", JStr (ms_MemberType m)); ("label", nilIfEmpty (ms_Label m));
        ("keyDataHex", nilIfEmpty (ms_KeyDataHex m)); ("gAddress", nilIfEmpty (ms_GAddress m))].
Definition approval_summary_json (a : MultisigApprovalSummary) : json :=
  JObj [("id", JStr (aps_ID a)); ("approvalType", JStr (aps_ApprovalType a)); ("memberId", JStr (aps_MemberID a));
        ("webauthnSigDataXdrHex", nilIfEmpty (aps_WebauthnSigDataXdrHex a));
        ("delegatedSignerAddress", nilIfEmpty (aps_DelegatedSignerAddress a)); ("createdAt", JNum (aps_CreatedAt a))].
Definition proposal_full_json (p : ProposalFull json) : json :=
  JObj [("id", JStr (pf_ID _ p)); ("targetContractId", JStr (pf_TargetContractID _ p)); ("operationKind", JStr (pf_OperationKind _ p));
        ("operationParams", default JNull (pf_OperationParams _ p)); ("txXdr", JStr (pf_TxXdr _ p));
        ("authEntriesXdr", JArr (JStr <$> pf_AuthEntriesXdr _ p));
        ("smartAccountAuthEntryIndex", JNum (pf_SmartAccountAuthEntryIndex _ p)); ("contextRuleId", JNum (pf_ContextRuleID _ p));
        ("authDigestHex", JStr (pf_AuthDigestHex _ p)); ("signaturePayloadHex", JStr (pf_SignaturePayloadHex _ p));
        ("validUntilLedger", JNum (pf_ValidUntilLedger _ p)); ("status", JStr (pf_Status _ p));
        ("executedTxHash", nilIfEmpty (pf_ExecutedTxHash _ p)); ("createdAt", JNum (pf_CreatedAt _ p))].
Definition proposal_detail_json (d : ProposalDetail json) : json :=
  JObj [("multisigAccount", JObj [("smartAccountAddress", JStr (ar_SmartAccountAddress (pd_Account _ d)));
                                  ("threshold", JNum (ar_Threshold (pd_Account _ d)))]);
        ("proposal", proposal_full_json (pd_Proposal _ d)); ("members", JArr (member_summary_json <$> pd_Members _ d));
        ("approvals", JArr (approval_summary_json <$> pd_Approvals _ d))].

Section Handlers.
Context `{StellarSDK} `{Network} `{SubmitNetwork} `{Gasless} `{UuidLib} `{Unicode} `{Deployment} `{Env} `{ServiceConfig}.
Context `{KeypairLib} `{FactoryConfig} `{Cbor} `{WebAuthnLib} `{Json (list string)} `{WebAuthnHandlerConfig}.
Context `{HandlerConfig} `{Json (list CatalogAsset)} `{Json sacTransferOperationParams} `{Json json}.
Context `{!SmartAccountFactory} `{!TransactionSubmitter}.
Abbreviation W := (World Store).

Definition multisig {A} (m : M W A) : M W A := answered multisigErrorResponse m.
(** A required list was sent, perhaps empty. *)
Definition sent {A} (l : option (list A)) : M W (list A) := match l with Some l => ret l | None => bad_body end.
(** A required number is not zero. *)
Definition nonzero (n : Z) : M W unit := if n =? 0 then bad_body else ret tt.

(** ** multisig_accounts.go *)
Definition AccountsList_handler (userID : string) : M W json :=
  let! accounts := multisig (ListAccounts userID) in
  ret (JObj [("accounts", JArr (account_summary_json <$> accounts))]).
Definition AccountsDraft_handler (req : draftAccountRequest) : M W json :=
  let! _ := nonzero (qk_Threshold req) in
  let! signers := sent (qk_Signers req) in
  let! ' (address, saltHex, paramsB64, signers) :=
    multisig (DraftParams (qk_Threshold req) (toSignerInits signers) (qk_AccountSaltHex req)) in
  ret (JObj [("smartAccountAddress", JStr address); ("accountSaltHex", JStr saltHex); ("threshold", JNum (qk_Threshold req));
             ("signers", signerInitsJSON signers); ("paramsXdrBase64", JStr paramsB64)]).
Definition AccountsDeploy_handler (req : draftAccountRequest) : M W json :=
  let! _ := nonzero (qk_Threshold req) in
  let! signers := sent (qk_Signers req) in
  let! _ := bound [qk_AccountSaltHex req] in
  let! ' (address, predictedAddress, alreadyDeployed, paramsB64, signers) :=
    multisig (DeployParams (qk_Threshold req) (toSignerInits signers) (qk_AccountSaltHex req)) in
  ret (JObj [("smartAccountAddress", JStr address); ("predictedAddress", JStr predictedAddress);
             ("alreadyDeployed", JBool alreadyDeployed); ("accountSaltHex", JStr (qk_AccountSaltHex req));
             ("threshold", JNum (qk_Threshold req)); ("signers", signerInitsJSON signers); ("paramsXdrBase64", JStr paramsB64)]).
Definition AccountsRegister_handler (userID : string) (req : registerAccountRequest) : M W json :=
  let! _ := bound [qg_SmartAccountAddress req; qg_AccountSaltHex req] in
  let! _ := nonzero (qg_Threshold req) in
  let! members := sent (qg_Members req) in
  let! account := multisig (RegisterAccount userID (qg_SmartAccountAddress req) (qg_Threshold req) (qg_AccountSaltHex req)
                              (to_register_input <$> members)) in
  ret (JObj [("multisigAccount", registered_account_json account)]).

(** ** multisig_drafts.go *)
Definition with_invite (o : requestOrigin) (draft : SerializedDraft) : json :=
  JObj [("draft", serializedDraftJSON draft); ("inviteUrl", JStr (draftInviteURL o (sd_InviteToken draft)))].
Definition DraftCreate_handler (userID : string) (o : requestOrigin) : M W json :=
  let! draft := multisig (CreateDraft userID) in ret (with_invite o draft).
(** No active draft is an answer, not an error. *)
Definition DraftGetActive_handler (userID active : string) (o : requestOrigin) : M W json :=
  if negb (String.eqb active "1") then bad_body else
  let! r := attempt (GetActiveDraft userID) in
  match r with
  | Ok draft => ret (with_invite o draft)
  | Err e => if isMultisigNoActiveDraft e then ret (JObj [("draft", JNull)]) else multisig (throw e)
  end.
Definition DraftGet_handler (userID draftID : string) (o : requestOrigin) : M W json :=
  let! draft := multisig (GetDraftForCreator draftID userID) in ret (with_invite o draft).
Definition DraftUpdateThreshold_handler (userID draftID : string) (threshold : Z) (o : requestOrigin) : M W json :=
  let! _ := nonzero threshold in
  let! draft := multisig (UpdateThreshold draftID userID threshold) in ret (with_invite o draft).
Definition DraftPredict_handler (userID draftID : string) : M W json :=
  let! ' (address, paramsB64, draft) := multisig (PredictDraftAddress draftID userID) in
  ret (JObj [("smartAccountAddress", JStr address); ("paramsXdrBase64", JStr paramsB64); ("draft", serializedDraftJSON draft)]).
Definition DraftDeploy_handler (userID draftID : string) : M W json :=
  let! ' (address, alreadyDeployed, draft) := multisig (DeployDraft draftID userID) in
  ret (JObj [("smartAccountAddress", JStr address); ("alreadyDeployed", JBool alreadyDeployed); ("draft", serializedDraftJSON draft)]).
Definition DraftAddMember_handler (userID draftID : string) (req : draftMemberRequest) : M W json :=
  let! _ := bound [ql_Label req; ql_MemberType req] in
  let! draft := multisig (AddMember draftID userID (toDomain req)) in ret (JObj [("draft", serializedDraftJSON draft)]).
Definition DraftDeleteMember_handler (userID draftID memberID : string) : M W json :=
  let! draft := multisig (DeleteMember draftID memberID userID) in ret (JObj [("draft", serializedDraftJSON draft)]).

(** ** The ceremonies that enrol a member (multisig_draft_webauthn.go, multisig_join.go)
    They are those of webauthn.go behind a guard, and end without a deployment. *)
Definition decodeCredentialID (credentialID : string) : res string := Base64.RawURLEncoding_DecodeString credentialID.
Definition enrolled (userID : string) (h : ceremonyHeaders) (req : finishRegistrationRequest) : M W json :=
  let! ' (_, cred) := registered userID h req in
  let! credentialIDBytes := or_fail "500" "internal_error" (lift (decodeCredentialID (rc_CredentialID cred))) in
  ret (JObj [("credentialId", JStr (rc_CredentialID cred));
             ("keyDataHex", JStr (BuildKeyDataHex (rc_RawPublicKey cred) credentialIDBytes))]).
Definition recognised (userID : string) (h : ceremonyHeaders) (req : finishAuthenticationRequest) : M W json :=
  let! cred := authenticated userID h req in ret (JObj [("credentialId", JStr (au_CredentialID cred))]).
Definition with_draft_id (draftID : string) (answer : json) : json :=
  match answer with JObj fields => JObj (fields ++ [("draftId", JStr draftID)])%list | _ => answer end.

Definition requireOwnedDraft (userID draftID : string) : M W unit :=
  let! draft := multisig (GetDraftForCreator draftID userID) in
  if negb (String.eqb (sd_Status draft) "collecting") then multisig (throw ErrMultisigDraftNotCollecting) else ret tt.
Definition DraftRegistrationBegin (userID draftID : string) (h : ceremonyHeaders) (req : beginCeremonyRequest) : M W json :=
  let! _ := requireOwnedDraft userID draftID in
  let! answer := RegistrationBegin userID h req in ret (with_draft_id draftID answer).
Definition DraftRegistrationFinish (userID draftID : string) (h : ceremonyHeaders) (req : finishRegistrationRequest) : M W json :=
  let! _ := requireOwnedDraft userID draftID in enrolled userID h req.
Definition DraftAuthenticationBegin (userID draftID : string) (h : ceremonyHeaders) (extensionFromBody : string) : M W json :=
  let! _ := requireOwnedDraft userID draftID in
  let! answer := AuthenticationBegin userID h extensionFromBody in ret (with_draft_id draftID answer).
Definition DraftAuthenticationFinish (userID draftID : string) (h : ceremonyHeaders) (req : finishAuthenticationRequest) : M W json :=
  let! _ := requireOwnedDraft userID draftID in recognised userID h req.

(** ** multisig_join.go *)
Definition JoinGetByToken (token : string) (o : requestOrigin) : M W json :=
  let! view := multisig (GetPublicDraftByToken token) in
  ret (JObj [("draft", publicDraftViewJSON view); ("joinPath", JStr (joinPath token)); ("inviteUrl", JStr (draftInviteURL o token))]).
Definition no_member : PublicDraftMember :=
  {| pdm_ID := ""; pdm_Label := ""; pdm_MemberType := ""; pdm_Source := ""; pdm_Fingerprint := ""; pdm_Valid := false |}.
Definition JoinAddMember (userID token : string) (req : draftMemberRequest) : M W json :=
  let! _ := bound [ql_Label req; ql_MemberType req] in
  let! view := multisig (AddMemberViaInvite token userID (toDomain req)) in
  ret (JObj [("member", publicDraftMemberJSON (default no_member (last (pdv_Members view)))); ("draft", publicDraftViewJSON view)]).
Definition requireValidInvite (token : string) : M W unit :=
  let! _ := multisig (GetPublicDraftByToken token) in ret tt.
Definition JoinRegistrationBegin (userID token : string) (h : ceremonyHeaders) (req : beginCeremonyRequest) : M W json :=
  let! _ := requireValidInvite token in RegistrationBegin userID h req.
Definition JoinRegistrationFinish (userID token : string) (h : ceremonyHeaders) (req : finishRegistrationRequest) : M W json :=
  let! _ := requireValidInvite token in enrolled userID h req.
Definition JoinAuthenticationBegin (userID token : string) (h : ceremonyHeaders) (extensionFromBody : string) : M W json :=
  let! _ := requireValidInvite token in AuthenticationBegin userID h extensionFromBody.
Definition JoinAuthenticationFinish (userID token : string) (h : ceremonyHeaders) (req : finishAuthenticationRequest) : M W json :=
  let! _ := requireValidInvite token in recognised userID h req.

(** ** multisig_proposals.go; the amount is the text [flexibleAmount] keeps *)
Definition ProposalCreate_handler (userID : string) (req : CreateProposalInput) : M W json :=
  let! _ := bound [ci_SmartAccountAddress req; ci_OperationKind req] in
  let! assets := catalog in
  let! result := multisig (CreateProposal userID req assets) in
  ret (JObj [("proposal", proposal_summary_json result)]).
Definition ProposalList_handler (userID account : string) : M W json :=
  if String.eqb account "" then bad_body else
  let! ' (threshold, proposals) := multisig (ListProposals (J := json) userID account) in
  ret (JObj [("threshold", JNum threshold); ("proposals", JArr (proposalListItemJSON <$> proposals))]).
Definition ProposalGet_handler (userID proposalID : string) : M W json :=
  let! detail := multisig (GetProposal (J := json) userID proposalID) in ret (proposal_detail_json detail).
Definition ProposalRefresh_handler (userID proposalID : string) : M W json :=
  let! r := multisig (RefreshProposal userID proposalID) in
  ret (JObj [("refreshed", JBool (rr_Refreshed r)); ("validUntilLedger", JNum (rr_ValidUntilLedger r));
             ("authDigestHex", JStr (rr_AuthDigestHex r));
             ("message", JStr "Approvals were cleared. All signers must approve again.")]).
Definition ProposalExecute_handler (userID proposalID : string) : M W json :=
  let! result := multisig (ExecuteProposal userID proposalID) in ret (submitted_json result).
Definition ApproveWebauthn_handler (userID proposalID memberID sigDataXdrHex : string) : M W json :=
  let! _ := bound [memberID; sigDataXdrHex] in
  let! approvalID := multisig (ApproveWebauthn userID proposalID memberID sigDataXdrHex) in
  ret (JObj [("approvalId", JStr approvalID)]).
Definition ApproveDelegatedBegin_handler (userID proposalID memberID : string) : M W json :=
  let! _ := bound [memberID] in
  let! r := multisig (ApproveDelegatedBegin userID proposalID memberID) in
  ret (JObj [("signerAddress", JStr (db_SignerAddress r)); ("gAddressPreimageXdr", JStr (dt_PreimageXdrBase64 (db_Template r)));
             ("gAddressEntryTemplateXdr", JStr (dt_EntryTemplateXdrBase64 (db_Template r)));
             ("authDigestHex", JStr (dt_AuthDigestHex (db_Template r))); ("validUntilLedger", JNum (db_ValidUntilLedger r))]).
Definition ApproveDelegatedFinish_handler (userID proposalID memberID signedAuthEntryBase64 signerAddress : string) : M W json :=
  let! _ := bound [memberID; signedAuthEntryBase64; signerAddress] in
  let! approvalID := multisig (ApproveDelegatedFinish userID proposalID memberID signedAuthEntryBase64 signerAddress) in
  ret (JObj [("approvalId", JStr approvalID)]).
End Handlers.
End MultisigRoutes.
