(* ===== verification/CeremonyTheorems.v ===== *)
(** * What a passkey ceremony proves (theorems about Ceremonies.v and CeremonyRoutes.v)

    A challenge is good for one response, at the site it was issued for; signing in
    ends in the identity of the key that signed; what registering writes. *)

From S2P Require Export CeremonyRoutes.
From S2P Require Import Instances.

#[local] Unset Default Proof Using.

Module CeremonyTheorems.
Import Rpid Ceremonies CeremonyRoutes WebAuthn AccountSigners SmartAccounts Sessions.

(** ** The site of a response *)
Lemma resolve_from_valid found cs id :
  resolve_from found cs = Ok (Some id) -> (found = "" \/ isValidChromeExtensionID found = true) ->
  isValidChromeExtensionID id = true.
Proof.
  revert found. induction cs as [|c cs IH]; intros found; cbn.
  { destruct (String.eqb_spec found ""); [done|]. intros [= <-] [?|?]; done. }
  destruct (String.eqb_spec c "") as [->|Hc]; cbn; [apply IH|].
  destruct (isValidChromeExtensionID c) eqn:Ev; cbn; [|apply IH].
  destruct (String.eqb_spec found ""); [intros Hr _; eapply IH; [done|by right]|].
  destruct (String.eqb found c); [apply IH|done].
Qed.

(** The origin a response must name: the challenge's, or that of an extension on
    the allow-list. *)
Definition site_of (challengeOrigin : string) (cfg : WebAuthnConfig) (origin : string) : Prop :=
  origin = challengeOrigin \/
  exists id, origin = extension_scheme +:+ id /\ isValidChromeExtensionID id = true /\ id ∈ cfg_AllowedExtensionIDs cfg.

Lemma containsString_ok l s : containsString l s = true -> s ∈ l.
Proof.
  unfold containsString. intros Hx. apply existsb_exists in Hx as (x & Hin & Hs).
  apply String.eqb_eq in Hs. subst. by apply list_elem_of_In.
Qed.

Lemma parse_extension_valid u id : parseChromeExtensionIDFromURL u = Some id -> isValidChromeExtensionID id = true.
Proof. unfold parseChromeExtensionIDFromURL. destruct (extension_host u); [|done]. destruct (isValidChromeExtensionID _) eqn:E; congruence. Qed.

Lemma finish_site inp ch cfg o rpids :
  ResolveFinishVerification inp ch cfg = Ok (o, rpids) ->
  site_of (sc_Origin ch) cfg o /\ (rpids = dedupe [cfg_RPID cfg] \/ rpids = dedupe [sc_RPID ch; sc_Origin ch]).
Proof.
  unfold ResolveFinishVerification. intros (found & Hf & Hr)%res_bind_ok. destruct found as [id|].
  - destruct (containsString _ id) eqn:Ec; [|done]. injection Hr as <- <-. split; [|by left]. right. exists id. split; [done|].
    split; [eapply resolve_from_valid; [exact Hf|by left]|by apply containsString_ok].
  - destruct (parseChromeExtensionIDFromURL _) as [id|] eqn:Ep.
    + destruct (containsString _ id) eqn:Ec; [|done]. injection Hr as <- <-. split; [|by left]. right. exists id. split; [done|].
      split; [by eapply parse_extension_valid|by apply containsString_ok].
    + destruct (String.eqb _ _); [|done]. injection Hr as <- <-. split; [by left|by right].
Qed.

(** ** Bytes *)
Lemma substring_0_app a b : String.substring 0 (String.length a) (a +:+ b) = a.
Proof. induction a as [|c a IH]; cbn; [by destruct b|by rewrite IH]. Qed.
Lemma substring_drop m n s : String.substring m n s = String.substring 0 n (str_drop m s).
Proof.
  revert s. induction m as [|m IH]; intros [|c s]; cbn; try done. by destruct n.
Qed.
Lemma str_drop_plus m n s : str_drop (m + n) s = str_drop n (str_drop m s).
Proof. revert s. induction m as [|m IH]; intros [|c s]; cbn; try done. by destruct n. Qed.

Lemma be_uint_app acc a b : be_uint acc (a +:+ b) = be_uint (be_uint acc a) b.
Proof. revert acc. induction a as [|c a IH]; intros acc; cbn; [done|apply IH]. Qed.
Lemma byte_val_bound c : 0 <= byte_val c < 256.
Proof. unfold byte_val. pose proof (N_ascii_bounded c). lia. Qed.
Lemma be_uint_bound s : 0 <= be_uint 0 s < 256 ^ Z.of_nat (String.length s).
Proof.
  enough (forall acc, 0 <= acc -> acc * 256 ^ Z.of_nat (String.length s) <= be_uint acc s < (acc + 1) * 256 ^ Z.of_nat (String.length s)) as Hx
    by (specialize (Hx 0 ltac:(lia)); lia).
  induction s as [|c s IH]; intros acc Ha; cbn [be_uint String.length]; [rewrite Z.pow_0_r; lia|].
  pose proof (byte_val_bound c). specialize (IH (acc * 256 + byte_val c) ltac:(lia)).
  rewrite Nat2Z.inj_succ, Z.pow_succ_r by lia. nia.
Qed.
Lemma split_at n s : (n <= String.length s)%nat ->
  s = String.substring 0 n s +:+ str_drop n s /\ String.length (String.substring 0 n s) = n.
Proof.
  revert s. induction n as [|n IH]; intros [|c s]; cbn; [done|done|lia|]. intros Hl.
  destruct (IH s) as [E El]; [lia|]. rewrite El. by rewrite <- E.
Qed.
Lemma length_drop n s : String.length (str_drop n s) = (String.length s - n)%nat.
Proof. revert s. induction n as [|n IH]; intros [|c s]; cbn; [done|done|done|apply IH]. Qed.
Lemma substring_app n a b : String.length a = n -> String.substring 0 n (a +:+ b) = a.
Proof. intros <-. apply substring_0_app. Qed.
Lemma drop_app n a b : String.length a = n -> str_drop n (a +:+ b) = b.
Proof. intros <-. apply str_drop_app. Qed.
Lemma length_1 s : String.length s = 1%nat -> exists c, s = String c "".
Proof. destruct s as [|c [|]]; try done. eauto. Qed.

(** ** Authenticator data *)
Section Layout.
Context `{Cbor}.

(** The layout WebAuthn gives the bytes. *)
Definition attested (rest id key : string) : Prop :=
  exists aaguid len tail, rest = aaguid +:+ len +:+ id +:+ tail /\ String.length aaguid = 16%nat /\
    String.length len = 2%nat /\ be_uint 0 len = Z.of_nat (String.length id) /\ cbor_first tail = Ok key.
Definition layout (data : string) (ad : authenticatorData) : Prop :=
  exists f count rest, data = ad_RPIDHash ad +:+ String f (count +:+ rest) /\
    String.length (ad_RPIDHash ad) = 32%nat /\ String.length count = 4%nat /\
    ad_Flags ad = byte_val f /\ ad_SignCount ad = be_uint 0 count /\
    if has_flag (byte_val f) flagAttestedData then attested rest (ad_CredentialID ad) (ad_CredentialPublicKeyRaw ad)
    else ad_CredentialID ad = "" /\ ad_CredentialPublicKeyRaw ad = "".

Lemma head_split data : (37 <= String.length data)%nat ->
  exists hash f count rest, data = hash +:+ String f (count +:+ rest) /\ String.length hash = 32%nat /\
    String.length count = 4%nat /\ hash = String.substring 0 32 data /\ String.substring 32 1 data = String f "" /\
    String.substring 33 4 data = count /\ str_drop 37 data = rest.
Proof.
  intros Hl. destruct (split_at 32 data) as [E1 L1]; [lia|].
  destruct (split_at 1 (str_drop 32 data)) as [E2 L2]; [rewrite length_drop; lia|].
  rewrite <- substring_drop in E2, L2. destruct (length_1 _ L2) as [f Ef].
  rewrite <- str_drop_plus in E2. change (32 + 1)%nat with 33%nat in E2.
  destruct (split_at 4 (str_drop 33 data)) as [E3 L3]; [rewrite length_drop; lia|].
  rewrite <- substring_drop in E3, L3. rewrite <- str_drop_plus in E3. change (33 + 4)%nat with 37%nat in E3.
  exists (String.substring 0 32 data), f, (String.substring 33 4 data), (str_drop 37 data).
  split_and!; try done. rewrite <- E3. change (String f ?x) with (String f "" +:+ x). rewrite <- Ef, <- E2. done.
Qed.
Lemma head_parts hash f count rest : String.length hash = 32%nat -> String.length count = 4%nat ->
  let data := hash +:+ String f (count +:+ rest) in
  (37 <= String.length data)%nat /\ String.substring 0 32 data = hash /\ String.substring 32 1 data = String f "" /\
  String.substring 33 4 data = count /\ str_drop 37 data = rest.
Proof.
  intros L1 L2 data. unfold data. change (String f (count +:+ rest)) with (String f "" +:+ (count +:+ rest)).
  split_and!.
  - rewrite !str_length_app. cbn. lia.
  - by apply substring_app.
  - rewrite substring_drop, drop_app by done. by apply substring_app.
  - rewrite substring_drop. change 33%nat with (32 + 1)%nat. rewrite str_drop_plus, drop_app, drop_app by done. by apply substring_app.
  - change 37%nat with (32 + (1 + 4))%nat. by rewrite !str_drop_plus, !drop_app.
Qed.

(** C26. The parser of authenticator data accepts exactly the layout WebAuthn
    defines — 32 bytes of hash, the flags, a 32-bit counter and, when the flag says
    so, a model id, a credential id of the length given before it, and one CBOR item
    — and returns exactly its parts, for any bytes. *)
Theorem authenticator_data_layout data ad : parseAuthenticatorData data = Ok ad <-> layout data ad.
Proof.
  unfold parseAuthenticatorData, layout. split.
  - destruct (Nat.ltb_spec (String.length data) 37) as [|Hl]; [done|].
    destruct (head_split data Hl) as (hash & f & count & rest & E & L1 & L2 & <- & -> & -> & ->).
    change (be_uint 0 (String f "")) with (byte_val f). destruct (has_flag (byte_val f) flagAttestedData) eqn:Ef; cbn [negb].
    2: { intros [= <-]. exists f, count, rest. by rewrite Ef. }
    destruct (Nat.ltb_spec (String.length rest) 18) as [|Hr]; [done|].
    destruct (split_at 16 rest) as [E1 La]; [lia|]. destruct (split_at 2 (str_drop 16 rest)) as [E2 Lb]; [rewrite length_drop; lia|].
    remember (String.substring 0 2 (str_drop 16 rest)) as len eqn:Elen. pose proof (be_uint_bound len) as Hb.
    remember (str_drop 2 (str_drop 16 rest)) as tail eqn:Etail.
    destruct (Nat.ltb_spec (String.length tail) (Z.to_nat (be_uint 0 len))) as [|Ht]; [done|].
    destruct (split_at (Z.to_nat (be_uint 0 len)) tail) as [E3 Lc]; [done|].
    intros (key & Hk & [= <-])%res_bind_ok. apply res_wrap_ok in Hk. cbn.
    exists f, count, rest. rewrite Ef. split_and!; try done.
    exists (String.substring 0 16 rest), len, (str_drop (Z.to_nat (be_uint 0 len)) tail). split_and!; try done.
    + by rewrite <- E3, <- E2.
    + rewrite Lc. lia.
  - intros (f & count & rest & -> & L1 & L2 & Hf & Hc & Ha).
    destruct (head_parts _ f _ rest L1 L2) as (Hl & -> & -> & -> & ->).
    destruct (Nat.ltb_spec (String.length (ad_RPIDHash ad +:+ String f (count +:+ rest))) 37); [lia|].
    change (be_uint 0 (String f "")) with (byte_val f). rewrite <- Hf, <- Hc in *.
    destruct (has_flag (ad_Flags ad) flagAttestedData); cbn [negb].
    2: { destruct ad; cbn in *. by destruct Ha as [-> ->]. }
    destruct Ha as (aaguid & len & tail & -> & La & Lb & Hlen & Hk).
    destruct (Nat.ltb_spec (String.length (aaguid +:+ len +:+ ad_CredentialID ad +:+ tail)) 18) as [Hx|];
      [rewrite !str_length_app in Hx; lia|].
    rewrite !(drop_app 16), substring_app, Hlen, Nat2Z.id, drop_app by done.
    destruct (Nat.ltb_spec (String.length (ad_CredentialID ad +:+ tail)) (String.length (ad_CredentialID ad))) as [Hx|];
      [rewrite str_length_app in Hx; lia|].
    rewrite drop_app, Hk, substring_app by done. cbn. by destruct ad.
Qed.
End Layout.

(** ** What a successful ceremony went through *)
Section Runs.
Context `{Cbor} `{WebAuthnLib} `{UuidLib} `{Env} `{Json (list string)}.
Abbreviation W := (World Store).

Lemma or_unverified_ok {S A} ctx (r : res A) a (s s' : S) : or_unverified ctx r s = (Ok a, s') -> r = Ok a /\ s' = s.
Proof. unfold or_unverified. destruct r; [by intros [= -> ->]|done]. Qed.
Lemma require_ok {S} ctx b (s s' : S) : require ctx b s = (Ok tt, s') -> b = true /\ s' = s.
Proof. unfold require. destruct b; [by intros [= ->]|done]. Qed.

(** The row [c] is a challenge of the user that is live at some clock reading, and
    none of the user's for that purpose is younger. *)
Definition live_challenge (userID purpose : string) (d : Store) (c : WebauthnChallenge) : Prop :=
  exists uid k n, uuid_parse userID = Some uid /\ challenges d !! k = Some c /\ ch_UserID c = Some uid /\
    ch_Purpose c = purpose /\ env_now n < ch_ExpiresAt c /\
    forall k' c', challenges d !! k' = Some c' -> ch_UserID c' = Some uid -> ch_Purpose c' = purpose ->
      ch_CreatedAt c' <= ch_CreatedAt c.
(** The client data answers the challenge, for the purpose, at an accepted site. *)
Definition answers_challenge (cdj type : string) (cfg : WebAuthnConfig) (c : WebauthnChallenge) : Prop :=
  exists cd, client_data_unmarshal cdj = Ok cd /\ cd_Type cd = type /\ cd_Challenge cd = ch_Challenge c /\
    site_of (ch_Origin c) cfg (cd_Origin cd).

Lemma getActiveChallenge_ok userID purpose (w w' : W) c :
  getActiveChallenge userID purpose w = (Ok c, w') -> w_store w' = w_store w /\ live_challenge userID purpose (w_store w) c.
Proof.
  unfold getActiveChallenge. intros Hr. apply bind_ok in Hr as (uid & w1 & Hu & Hr).
  apply (proj1 (wrap_ok _ _ _ _ _)) in Hu. apply lift_ok in Hu as [Hu ->]. apply parse_uuid_ok in Hu.
  apply bind_ok in Hr as (r & w2 & Hq & Hr). apply (proj1 (attempt_ok _ _ _ _)) in Hq. destruct r as [row|]; [|done].
  apply query_ok in Hq as (_ & Hq & ->). apply bind_ok in Hr as (now & w3 & Hn & Hr). apply now_ok in Hn as [-> ->].
  destruct (Z.leb_spec (ch_ExpiresAt row) (env_now (w_io (tick w1)))); [done|]. apply ret_ok in Hr as [<- <-]. split; [done|].
  unfold GetLatestWebauthnChallenge in Hq. destruct (order_by_desc _ _) as [|c l] eqn:Eo; [done|]. injection Hq as ->.
  apply order_by_desc_head in Eo as [Hin Hmax]. apply elem_of_select in Hin as [Hi [k Hk]].
  unfold issued_to in Hi. apply andb_true_iff in Hi as [Hi1%bool_decide_eq_true Hi2%String.eqb_eq].
  exists uid, k, (w_io (tick w1)). split_and!; try done. intros k' c' Hk' Hu' Hp'. apply Hmax, elem_of_select. split; [|eauto].
  unfold issued_to. rewrite Hp', String.eqb_refl, andb_true_r. by apply bool_decide_eq_true.
Qed.

Lemma verifyClientData_ok cd type text origin :
  verifyClientData cd type text origin = Ok tt -> cd_Type cd = type /\ cd_Challenge cd = text /\ cd_Origin cd = origin.
Proof.
  unfold verifyClientData. destruct (String.eqb_spec (cd_Type cd) type), (String.eqb_spec (cd_Challenge cd) text),
    (String.eqb_spec (cd_Origin cd) origin); done.
Qed.

Lemma open_response_ok userID purpose type cdj b h cfg (w w' : W) c rpids :
  open_response userID purpose type cdj b h cfg w = (Ok (c, rpids), w') ->
  w_store w' = w_store w /\ live_challenge userID purpose (w_store w) c /\ answers_challenge cdj type cfg c /\
  (rpids = dedupe [cfg_RPID cfg] \/ rpids = dedupe [ch_RpID c; ch_Origin c]).
Proof.
  unfold open_response. intros Hr. apply bind_ok in Hr as (c0 & w1 & Hc & Hr). apply getActiveChallenge_ok in Hc as [E Hc].
  apply bind_ok in Hr as (cd & w2 & Hcd & Hr). apply or_unverified_ok in Hcd as [Hcd ->].
  apply bind_ok in Hr as ([o ids] & w3 & Ho & Hr). apply or_unverified_ok in Ho as [Ho ->]. apply finish_site in Ho as [Ho Hids].
  apply bind_ok in Hr as ([] & w4 & Hv & Hr). apply lift_ok in Hv as [(Ht & Hx & Eo)%verifyClientData_ok ->].
  apply ret_ok in Hr as [[= <- <-] <-]. split_and!; try done. { exists cd. split_and!; try done. by rewrite Eo. }
Qed.

Lemma exec_run {A} (f : Store -> res (A * Store)) a (w w' : W) : exec f w = (Ok a, w') -> f (w_store w) = Ok (a, w_store w').
Proof. intros (_ & d & E & ->)%exec_ok. by rewrite E. Qed.

(** The assertion's flags, site hash and signature under [key]. *)
Definition signed_by (inp : FinishAuthenticationInput) (key : string) : Prop :=
  verifyP256Signature key (signedDataDigest (fa_AuthenticatorData inp) (fa_ClientDataJSON inp)) (fa_Signature inp) = true.
Definition credential_text (inp : FinishAuthenticationInput) : string :=
  Base64.RawURLEncoding_EncodeToString (fa_CredentialID inp).

(** The credential's own row vouches for the key and names the owner; its counter
    moves forward, and nothing else of the row changes. *)
Definition known_sign_in (inp : FinishAuthenticationInput) (count : Z) (owner : string) (d d' : Store) : Prop :=
  exists cred, GetWebauthnCredentialByCredentialID (credential_text inp) d = Ok cred /\
    signed_by inp (wc_P256RawPublicKey cred) /\ owner = uuid_string (wc_UserID cred) /\
    (wc_SignCount cred < count \/ wc_SignCount cred = 0 /\ count = 0) /\
    users d' = users d /\ smart_accounts d' = smart_accounts d /\
    credentials d' = update_where (fun c => String.eqb (wc_CredentialID c) (credential_text inp)) (with_sign_count count)
                       (credentials d).
(** Nobody here has the credential, the recovery index vouches for the key, and the
    owner is a user made for it. *)
Definition adopted_sign_in (inp : FinishAuthenticationInput) (owner : string) (d d' : Store) : Prop :=
  exists row key uid, GetWebauthnCredentialByCredentialID (credential_text inp) d = Err ErrNoRows /\
    passkey_index d !! hex_encode (fa_CredentialID inp) = Some row /\
    hex_decode (String.substring 0 p256UncompressedHexLen (pc_KeyDataHex row)) = Ok key /\ signed_by inp key /\
    owner = uuid_string uid /\ users d !! uid = None /\
    exists k c, credentials d' = <[k := c]> (credentials d) /\ wc_CredentialID c = credential_text inp /\
      wc_UserID c = uid /\ wc_P256RawPublicKey c = key.
(** The authenticator saw the user, and hashed a relying party of this ceremony. *)
Definition user_seen (data : string) (cfg : WebAuthnConfig) (c : WebauthnChallenge) (ad : authenticatorData) : Prop :=
  parseAuthenticatorData data = Ok ad /\ has_flag (ad_Flags ad) flagUserPresent = true /\
  exists rp, (rp ∈ dedupe [cfg_RPID cfg] \/ rp ∈ dedupe [ch_RpID c; ch_Origin c]) /\ ad_RPIDHash ad = Sha256.Sum256 rp.

Lemma user_seen_ok data cfg c ad rpids :
  parseAuthenticatorData data = Ok ad -> has_flag (ad_Flags ad) flagUserPresent = true ->
  rpIDHashMatchesAny (ad_RPIDHash ad) rpids = true -> (rpids = dedupe [cfg_RPID cfg] \/ rpids = dedupe [ch_RpID c; ch_Origin c]) ->
  user_seen data cfg c ad.
Proof.
  intros Hp Hf Hm Hids. split; [done|]. split; [done|]. apply existsb_exists in Hm as (rp & Hin & Hs).
  apply String.eqb_eq in Hs. exists rp. split; [|done]. apply list_elem_of_In in Hin.
  destruct Hids as [->| ->]; [by left|by right].
Qed.

Lemma consume_ok id (w w' : W) : consumeChallenge id w = (Ok tt, w') -> w_store w' = set_challenges (delete id (challenges (w_store w))) (w_store w).
Proof. unfold consumeChallenge. intros Hr. apply (proj1 (wrap_ok _ _ _ _ _)) in Hr. apply exec_run in Hr. by injection Hr as ->. Qed.

Lemma upsert_ok row (d d' : Store) id : UpsertWebauthnCredential row d = Ok (id, d') ->
  challenges d' = challenges d /\
  match GetWebauthnCredentialByCredentialID (wc_CredentialID row) d with
  | Ok old => credentials d' = <[wc_ID old := replace_key row old]> (credentials d)
  | Err _ => credentials d !! wc_ID row = None /\ credentials d' = <[wc_ID row := row]> (credentials d)
  end.
Proof.
  unfold UpsertWebauthnCredential, present. destruct (GetWebauthnCredentialByCredentialID _ d); [by intros [= _ <-]|].
  destruct (credentials d !! wc_ID row) eqn:E; [done|]. destruct (negb _); [done|]. by intros [= _ <-].
Qed.

Lemma relink_fields uid cred (d d' : Store) x : RelinkMultisigMembersByCredential uid cred d = Ok (x, d') ->
  users d' = users d /\ smart_accounts d' = smart_accounts d /\ credentials d' = credentials d /\ challenges d' = challenges d.
Proof. unfold RelinkMultisigMembersByCredential. by intros [= _ <-]. Qed.
Lemma upsert_account_fields row (d d' : Store) x : UpsertSmartAccount row d = Ok (x, d') ->
  users d' = users d /\ credentials d' = credentials d /\ challenges d' = challenges d.
Proof.
  unfold UpsertSmartAccount. destruct (GetSmartAccountByCredentialID _ _); [by intros [= _ <-]|].
  destruct (present _ _); [done|]. destruct (exists_row _ _); [done|]. destruct (negb _); [done|]. by intros [= _ <-].
Qed.

Lemma adopt_ok id text cose key count row (w w' : W) owner :
  GetWebauthnCredentialByCredentialID text (w_store w) = Err ErrNoRows ->
  adopt_rows id text cose key count row w = (Ok owner, w') ->
  challenges (w_store w') = challenges (w_store w) /\
  exists uid k c, owner = uuid_string uid /\ users (w_store w) !! uid = None /\
    credentials (w_store w') = <[k := c]> (credentials (w_store w)) /\ wc_CredentialID c = text /\ wc_UserID c = uid /\
    wc_P256RawPublicKey c = key.
Proof.
  unfold adopt_rows. intros Hn (_ & w1 & Hr & _ & ->)%transact_ok. cbn [tick w_store].
  apply bind_ok in Hr as (now & w2 & (-> & ->)%now_ok & Hr). apply bind_ok in Hr as (uid & w3 & (-> & ->)%new_uuid_ok & Hr).
  apply bind_ok in Hr as ([] & w4 & Hu & Hr). apply (proj1 (wrap_ok _ _ _ _ _)) in Hu. apply exec_run in Hu.
  apply bind_ok in Hr as (k & w5 & (-> & ->)%new_uuid_ok & Hr).
  apply bind_ok in Hr as (k' & w6 & Hc & Hr). apply (proj1 (wrap_ok _ _ _ _ _)) in Hc. apply exec_run in Hc.
  apply bind_ok in Hr as (s & w7 & (-> & ->)%new_uuid_ok & Hr).
  apply bind_ok in Hr as (s' & w8 & Ha & Hr). apply (proj1 (wrap_ok _ _ _ _ _)) in Ha. apply exec_run, upsert_account_fields in Ha as (_ & Ac & Ah).
  apply bind_ok in Hr as ([] & w9 & Hm & Hr). apply (proj1 (wrap_ok _ _ _ _ _)) in Hm. apply exec_run, relink_fields in Hm as (_ & _ & Mc & Mh).
  apply ret_ok in Hr as [<- <-]. cbn [tick w_store] in *.
  unfold InsertWebappUser in Hu. unfold present in Hu. destruct (users (w_store w) !! _) eqn:Eu; [done|]. injection Hu as Hu.
  apply upsert_ok in Hc as [Hch Hc]. cbn [wc_CredentialID] in Hc. rewrite <- Hu in Hc, Hch.
  change (GetWebauthnCredentialByCredentialID text (set_users ?x ?d)) with (GetWebauthnCredentialByCredentialID text d) in Hc.
  rewrite Hn in Hc. destruct Hc as [_ Hc]. rewrite Mh, Ah, Mc, Ac, Hch, Hc. split; [done|]. eexists _, _, _. split_and!; try done.
Qed.

(** What a sign-in that succeeded was. *)
Definition signed_in (inp : FinishAuthenticationInput) (r : AuthenticatedCredential) (d d' : Store) : Prop :=
  au_CredentialID r = credential_text inp /\
  exists c ad, live_challenge (fa_UserID inp) PurposeAuthentication d c /\
    answers_challenge (fa_ClientDataJSON inp) "webauthn.get" (fa_Config inp) c /\
    user_seen (fa_AuthenticatorData inp) (fa_Config inp) c ad /\
    challenges d' = delete (ch_ID c) (challenges d) /\
    (known_sign_in inp (ad_SignCount ad) (au_UserID r) d d' \/ adopted_sign_in inp (au_UserID r) d d').

Lemma adoptExternalPasskey_ok inp c ad (w w' : W) r :
  GetWebauthnCredentialByCredentialID (credential_text inp) (w_store w) = Err ErrNoRows ->
  adoptExternalPasskey inp c ad (credential_text inp) w = (Ok r, w') ->
  au_CredentialID r = credential_text inp /\ challenges (w_store w') = delete (ch_ID c) (challenges (w_store w)) /\
  adopted_sign_in inp (au_UserID r) (w_store w) (w_store w').
Proof.
  intros Hn. unfold adoptExternalPasskey. intros (q & w1 & Hq & Hr)%bind_ok. apply (proj1 (attempt_ok _ _ _ _)) in Hq.
  destruct q as [row|e]; [|by destruct (errors_is e ErrNoRows)]. apply query_ok in Hq as (_ & Hq & ->).
  apply bind_ok in Hr as (key & w2 & Hk & Hr). apply or_unverified_ok in Hk as [Hk ->].
  apply bind_ok in Hr as ([] & w3 & Hs & Hr). apply require_ok in Hs as [Hs ->].
  apply bind_ok in Hr as ([] & w4 & Hc%consume_ok & Hr). cbn [tick w_store] in *.
  apply bind_ok in Hr as (cose & w5 & Hco & Hr). apply (proj1 (wrap_ok _ _ _ _ _)) in Hco. apply lift_ok in Hco as [_ ->].
  apply bind_ok in Hr as (owner & w6 & Ho & Hr). apply adopt_ok in Ho as (Ech & uid & k & cred & Eo & Hu & Hcs & Ht & Hown & Hp);
    [|rewrite Hc; exact Hn]. apply ret_ok in Hr as [<- <-]. rewrite Hc in *. cbn in *.
  split_and!; [done|done|]. unfold indexed_key in Hk. destruct (_ <=? _)%nat; [done|].
  exists row, key, uid. split_and!; try done; [|by exists k, cred].
  unfold GetPasskeyCredential in Hq. destruct (passkey_index (w_store w) !! _); congruence.
Qed.

Lemma FinishAuthentication_ok inp (w w' : W) r :
  FinishAuthentication inp w = (Ok r, w') -> signed_in inp r (w_store w) (w_store w').
Proof.
  unfold FinishAuthentication. intros ([c rpids] & w1 & Ho & Hr)%bind_ok. apply open_response_ok in Ho as (E & Hl & Ha & Hids).
  apply bind_ok in Hr as (ad & w2 & Hp & Hr). apply or_unverified_ok in Hp as [Hp ->].
  apply bind_ok in Hr as ([] & w3 & Hf & Hr). apply require_ok in Hf as [Hf ->].
  apply bind_ok in Hr as ([] & w4 & Hm & Hr). apply require_ok in Hm as [Hm ->].
  pose proof (user_seen_ok _ _ _ _ _ Hp Hf Hm Hids) as Hseen.
  apply bind_ok in Hr as (q & w5 & Hq & Hr). apply (proj1 (attempt_ok _ _ _ _)) in Hq. destruct q as [cred|e].
  - apply query_ok in Hq as (_ & Hq & ->). apply bind_ok in Hr as ([] & w6 & Hs & Hr). apply require_ok in Hs as [Hs ->].
    apply bind_ok in Hr as ([] & w7 & Hn & Hr). apply require_ok in Hn as [Hn ->].
    apply bind_ok in Hr as ([] & w8 & Hc%consume_ok & Hr). cbn [tick w_store] in *.
    apply bind_ok in Hr as ([] & w9 & Hu & Hr). apply (proj1 (wrap_ok _ _ _ _ _)) in Hu. apply exec_run in Hu. injection Hu as Hu.
    apply bind_ok in Hr as ([] & w10 & Hx & Hr). apply (proj1 (wrap_ok _ _ _ _ _)) in Hx. apply exec_run, relink_fields in Hx as (Xu & Xs & Xc & Xh).
    apply ret_ok in Hr as [<- <-]. rewrite <- Hu, Hc, E in *. cbn in *. split; [done|]. exists c, ad. split_and!; try done.
    left. exists cred. split_and!; try done. unfold sign_count_ok in Hn.
    destruct (Z.eqb_spec (ad_SignCount ad) 0), (Z.eqb_spec (wc_SignCount cred) 0); cbn in Hn; [by right| | |]; left; by apply Z.ltb_lt.
  - pose proof (query_store _ _ _ _ Hq) as E5. destruct (errors_is e ErrNoRows) eqn:Ee; [|done].
    apply query_err in Hq as [->|Hq]; [done|]. rewrite <- E5 in Hq. unfold GetWebauthnCredentialByCredentialID, select_one in Hq.
    apply adoptExternalPasskey_ok in Hr as (Ht & Hch & Had); [|unfold GetWebauthnCredentialByCredentialID, select_one, credential_text;
      by destruct (select _ _); [|done]].
    rewrite E5, E in *. split; [done|]. exists c, ad. split_and!; try done. by right.
Qed.

(** C13. A sign-in succeeds only for whoever holds the key. The session's user had
    asked for a challenge, the latest and still live; the response answers that
    challenge, for authentication, at the site it was issued for or in an extension
    on the allow-list; the authenticator saw the user and hashed one of the ceremony's
    relying parties; and the signature over these very bytes verifies under the key
    stored for the credential, whose counter moved forward — or, when no row has the
    credential, under the key of the recovery index, for a user made for it. The
    answer's user is the credential's owner, never the session's because it is the
    session's, and the challenge is gone. *)
Theorem passkey_sign_in inp (w w' : W) r :
  FinishAuthentication inp w = (Ok r, w') -> signed_in inp r (w_store w) (w_store w').
Proof. apply FinishAuthentication_ok. Qed.

(** What a registration that succeeded wrote. *)
Definition registers_as (inp : FinishRegistrationInput) (r : RegisteredCredential) (d d' : Store) : Prop :=
  exists c att ad, live_challenge (fr_UserID inp) PurposeRegistration d c /\
    answers_challenge (fr_ClientDataJSON inp) "webauthn.create" (fr_Config inp) c /\
    cbor_attestation (fr_AttestationObject inp) = Ok att /\ at_Fmt att = "none" /\
    user_seen (at_AuthData att) (fr_Config inp) c ad /\ has_flag (ad_Flags ad) flagAttestedData = true /\
    rc_CredentialID r = Base64.RawURLEncoding_EncodeToString (ad_CredentialID ad) /\
    coseEC2ToRawP256Uncompressed (ad_CredentialPublicKeyRaw ad) = Ok (rc_RawPublicKey r) /\
    challenges d' = delete (ch_ID c) (challenges d) /\
    exists new, wc_CredentialID new = rc_CredentialID r /\ uuid_parse (fr_UserID inp) = Some (wc_UserID new) /\
      wc_P256RawPublicKey new = rc_RawPublicKey r /\ wc_SignCount new = ad_SignCount ad /\
      match GetWebauthnCredentialByCredentialID (rc_CredentialID r) d with
      | Ok old => credentials d' = <[wc_ID old := replace_key new old]> (credentials d)
      | Err _ => credentials d !! wc_ID new = None /\ credentials d' = <[wc_ID new := new]> (credentials d)
      end.

Lemma FinishRegistration_ok inp (w w' : W) r :
  FinishRegistration inp w = (Ok r, w') -> registers_as inp r (w_store w) (w_store w').
Proof.
  unfold FinishRegistration. intros ([c rpids] & w1 & Ho & Hr)%bind_ok. apply open_response_ok in Ho as (E & Hl & Ha & Hids).
  apply bind_ok in Hr as (att & w2 & Hatt & Hr). apply or_unverified_ok in Hatt as [Hatt ->].
  destruct (String.eqb_spec (at_Fmt att) "none") as [Hfmt|]; [|done]. cbn [negb] in Hr.
  apply bind_ok in Hr as (ad & w3 & Hp & Hr). apply or_unverified_ok in Hp as [Hp ->].
  apply bind_ok in Hr as ([] & w4 & Hat & Hr). apply require_ok in Hat as [Hat ->].
  apply bind_ok in Hr as ([] & w5 & Hf & Hr). apply require_ok in Hf as [Hf ->].
  apply bind_ok in Hr as ([] & w6 & Hm & Hr). apply require_ok in Hm as [Hm ->].
  apply bind_ok in Hr as (raw & w7 & Hraw & Hr). apply or_unverified_ok in Hraw as [Hraw ->].
  apply bind_ok in Hr as ([] & w8 & Hc%consume_ok & Hr).
  apply bind_ok in Hr as (uid & w9 & Hu & Hr). apply (proj1 (wrap_ok _ _ _ _ _)) in Hu. apply lift_ok in Hu as [Hu%parse_uuid_ok ->].
  apply bind_ok in Hr as (tr & w10 & Ht & Hr). apply (proj1 (wrap_ok _ _ _ _ _)) in Ht. apply lift_ok in Ht as [_ ->].
  apply bind_ok in Hr as (id & w11 & (-> & ->)%new_uuid_ok & Hr). apply bind_ok in Hr as (now & w12 & (-> & ->)%now_ok & Hr).
  apply bind_ok in Hr as (x & w13 & Hw & Hr). apply (proj1 (wrap_ok _ _ _ _ _)) in Hw. apply exec_run in Hw.
  apply ret_ok in Hr as [<- <-]. cbn [tick w_store] in Hw. rewrite Hc, E in Hw.
  apply upsert_ok in Hw as [Hch Hcred]. exists c, att, ad. split_and!; try done; [by eapply user_seen_ok|].
  eexists. split_and!; [| | | |exact Hcred]; done.
Qed.

(** Registering binds a key to a credential id without any signature: the
    response answers the user's own live challenge at an accepted site, and the
    authenticator data names the id and the key. A credential id nobody has becomes
    a row of the session's user; one that somebody has keeps its row and its owner,
    and takes the new key and counter. *)
Theorem registration_spec inp (w w' : W) r :
  FinishRegistration inp w = (Ok r, w') -> registers_as inp r (w_store w) (w_store w').
Proof. apply FinishRegistration_ok. Qed.

End Runs.

(** ** A challenge is good once *)
Section SingleUse.
Context `{Cbor} `{WebAuthnLib} `{UuidLib} `{Env} `{Json (list string)}.
Abbreviation W := (World Store).

(** No challenge is added; effects are only counted up. *)
Definition shrinks (w w' : W) : Prop :=
  (w_io w <= w_io w')%nat /\ challenges (w_store w') ⊆ challenges (w_store w).
#[local] Instance shrinks_refl : Reflexive shrinks.
Proof. intros w. split; [done|reflexivity]. Qed.
#[local] Instance shrinks_trans : Transitive shrinks.
Proof. intros w1 w2 w3 [? ?] [? ?]. split; [lia|]. by etrans. Qed.

Lemma shrinks_exec {A} (f : Store -> res (A * Store)) :
  (forall d a d', f d = Ok (a, d') -> challenges d' ⊆ challenges d) -> keeps shrinks (exec f).
Proof.
  intros Hf w. unfold exec, shrinks. destruct (env_fault _); [cbn; split; [lia|done]|].
  destruct (f (w_store w)) as [[a d]|e] eqn:E; cbn; (split; [lia|]); [by eapply Hf|done].
Qed.
Lemma shrinks_query {A} (f : Store -> res A) : keeps shrinks (query f).
Proof. apply shrinks_exec. intros d a d'. destruct (f d); [by intros [= _ <-]|done]. Qed.
Lemma shrinks_now : keeps shrinks now_ms.
Proof. intros w. split; cbn; [lia|done]. Qed.
Lemma shrinks_uuid : keeps shrinks new_uuid.
Proof. intros w. split; cbn; [lia|done]. Qed.
Lemma shrinks_transact {A} (m : M W A) : keeps shrinks m -> keeps shrinks (transact m).
Proof.
  intros Hm w. unfold transact. destruct (env_fault _); [split; cbn; [lia|done]|].
  destruct (Hm (tick w)) as [Hi Hc]. destruct (m (tick w)) as [[a|e] w1]; cbn in *; [destruct (env_fault _)|]; cbn; (split; cbn; first [lia|exact Hc|reflexivity]).
Qed.
Lemma shrinks_unverified {A} ctx (r : res A) : keeps shrinks (or_unverified ctx r).
Proof. unfold or_unverified. destruct r; keeps. Qed.
Lemma shrinks_require ctx b : keeps shrinks (require ctx b).
Proof. unfold require. destruct b; keeps. Qed.
Hint Resolve shrinks_refl shrinks_trans shrinks_query shrinks_now shrinks_uuid shrinks_transact shrinks_unverified shrinks_require : keeps.
Ltac shrink := repeat (first
  [ eapply shrinks_query | eapply shrinks_now | eapply shrinks_uuid | eapply shrinks_unverified | eapply shrinks_require
  | eapply shrinks_transact | keeps_step ]).

Lemma shrinks_consume id : keeps shrinks (consumeChallenge id).
Proof. unfold consumeChallenge. shrink. apply shrinks_exec. intros d a d' [= _ <-]. apply delete_subseteq. Qed.
Lemma shrinks_open u p t cdj b h cfg : keeps shrinks (open_response u p t cdj b h cfg).
Proof. unfold open_response, getActiveChallenge. shrink. Qed.
Lemma shrinks_upsert row : keeps shrinks (exec (UpsertWebauthnCredential row)).
Proof. apply shrinks_exec. intros d a d' [-> _]%upsert_ok. done. Qed.
Lemma shrinks_relink uid cred : keeps shrinks (exec (RelinkMultisigMembersByCredential uid cred)).
Proof. apply shrinks_exec. intros d a d' (_ & _ & _ & ->)%relink_fields. done. Qed.
Lemma shrinks_account row : keeps shrinks (exec (UpsertSmartAccount row)).
Proof. apply shrinks_exec. intros d a d' (_ & _ & ->)%upsert_account_fields. done. Qed.
Lemma shrinks_user id t : keeps shrinks (exec (InsertWebappUser id t)).
Proof. apply shrinks_exec. intros d a d'. unfold InsertWebappUser. destruct (present _ _); [done|]. by intros [= _ <-]. Qed.
Lemma shrinks_count cred n : keeps shrinks (exec (UpdateWebauthnCredentialSignCount cred n)).
Proof. apply shrinks_exec. by intros d a d' [= _ <-]. Qed.
Hint Resolve shrinks_consume shrinks_open shrinks_upsert shrinks_relink shrinks_account shrinks_user shrinks_count : keeps.

Lemma shrinks_FinishRegistration inp : keeps shrinks (FinishRegistration inp).
Proof. unfold FinishRegistration. shrink. Qed.
Lemma shrinks_FinishAuthentication inp : keeps shrinks (FinishAuthentication inp).
Proof. unfold FinishAuthentication, adoptExternalPasskey, adopt_rows. shrink. Qed.

(** Where a challenge's text comes from: random bytes drawn before [n]. *)
Definition drawn (n : nat) (text : string) : Prop :=
  exists i raw, (i < n)%nat /\ env_rand i 32 = Ok raw /\ text = Base64.RawURLEncoding_EncodeToString raw.
(** A ceremony may add one challenge, of bytes it draws itself. *)
Definition issues (w w' : W) : Prop := shrinks w w' \/
  exists i raw c, (w_io w <= i < w_io w')%nat /\ env_rand i 32 = Ok raw /\
    ch_Challenge c = Base64.RawURLEncoding_EncodeToString raw /\ challenges (w_store w) !! ch_ID c = None /\
    challenges (w_store w') = <[ch_ID c := c]> (challenges (w_store w)).

Lemma issueChallenge_issues u p rp o (w w' : W) r : issueChallenge u p rp o w = (r, w') -> issues w w'.
Proof.
  unfold issueChallenge. intros Hr. unfold bind at 1, wrap at 1, rand_bytes in Hr.
  destruct (env_rand (w_io w) 32) as [raw|e] eqn:Er; [|injection Hr as <- <-; left; split; cbn; [lia|done]].
  unfold bind at 1, wrap at 1, lift in Hr. destruct (parse_uuid u) as [uid|e]; [|injection Hr as <- <-; left; split; cbn; [lia|done]].
  unfold bind, wrap, now_ms, new_uuid, exec in Hr. cbn [tick w_io w_store] in Hr.
  destruct (env_fault _); [injection Hr as <- <-; left; split; cbn; [lia|done]|].
  unfold InsertWebauthnChallenge, present in Hr. cbn [ch_ID] in Hr.
  destruct (challenges (w_store w) !! _) eqn:Ei; [injection Hr as <- <-; left; split; cbn; [lia|done]|].
  destruct (negb _); injection Hr as <- <-; [left; split; cbn; [lia|done]|].
  right. exists (w_io w), raw, {| ch_ID := env_uuid (S (S (w_io w))); ch_UserID := Some uid; ch_Purpose := p;
    ch_Challenge := Base64.RawURLEncoding_EncodeToString raw; ch_RpID := rp; ch_Origin := o;
    ch_ExpiresAt := env_now (S (w_io w)) + ChallengeTTL; ch_CreatedAt := env_now (S (w_io w)) |}.
  cbn. split_and!; [lia|lia|done|done|exact Ei|reflexivity].
Qed.
Lemma issues_shrinks w1 w2 w3 : issues w1 w2 -> (w_io w2 <= w_io w3)%nat -> w_store w3 = w_store w2 -> issues w1 w3.
Proof.
  intros Hi Hle E. destruct Hi as [[? ?]|(i & raw & c & ? & ?)]; [left; split; [lia|by rewrite E]|].
  right. exists i, raw, c. rewrite E. split; [lia|done].
Qed.
Lemma reads_after {A B} (m : M W A) (k : A -> M W B) (w : W) :
  issues w (snd (m w)) -> (forall a, keeps shrinks (k a)) -> (forall a, keeps (on_store eq) (k a)) -> issues w (snd (bind m k w)).
Proof.
  intros Hm Hk Hs. unfold bind. destruct (m w) as [[a|e] w1]; cbn in *; [|done].
  eapply issues_shrinks; [done|apply Hk|symmetry; apply (Hs a w1)].
Qed.
Lemma begin_registration_issues u rp o (w : W) : issues w (snd (BeginRegistration u rp o w)).
Proof.
  unfold BeginRegistration. apply reads_after; [|intros a; shrink|intros a; keeps].
  destruct (issueChallenge _ _ _ _ w) eqn:E. by eapply issueChallenge_issues.
Qed.
Lemma begin_authentication_issues u rp o (w : W) : issues w (snd (BeginAuthentication u rp o w)).
Proof.
  unfold BeginAuthentication. apply reads_after; [|intros a; shrink|intros a; keeps].
  destruct (issueChallenge _ _ _ _ w) eqn:E. by eapply issueChallenge_issues.
Qed.

(** The ceremonies' requests, in any order, and anything else that leaves the
    challenges alone. *)
Inductive ceremony_step : W -> W -> Prop :=
  | step_begin_registration u rp o w : ceremony_step w (snd (BeginRegistration u rp o w))
  | step_begin_authentication u rp o w : ceremony_step w (snd (BeginAuthentication u rp o w))
  | step_finish_registration inp w : ceremony_step w (snd (FinishRegistration inp w))
  | step_finish_authentication inp w : ceremony_step w (snd (FinishAuthentication inp w))
  | step_other w w' : (w_io w <= w_io w')%nat -> challenges (w_store w') = challenges (w_store w) -> ceremony_step w w'.

Lemma step_issues w w' : ceremony_step w w' -> issues w w'.
Proof.
  intros [u rp o w1|u rp o w1|inp w1|inp w1|w1 w2 Hi E]; [apply begin_registration_issues|apply begin_authentication_issues|left..].
  - apply shrinks_FinishRegistration.
  - apply shrinks_FinishAuthentication.
  - split; [done|by rewrite E].
Qed.

(** Challenges are filed under their ids, come from earlier draws, and differ. *)
Definition challenges_wf (w : W) : Prop :=
  (forall k c, challenges (w_store w) !! k = Some c -> ch_ID c = k /\ drawn (w_io w) (ch_Challenge c)) /\
  forall k c k' c', challenges (w_store w) !! k = Some c -> challenges (w_store w) !! k' = Some c' ->
    ch_Challenge c = ch_Challenge c' -> k = k'.
(** A text that was drawn and that no stored challenge has. *)
Definition spent (text : string) (w : W) : Prop :=
  drawn (w_io w) text /\ forall k c, challenges (w_store w) !! k = Some c -> ch_Challenge c <> text.

Lemma drawn_le n m text : drawn n text -> (n <= m)%nat -> drawn m text.
Proof. intros (i & raw & ? & ?) ?. exists i, raw. split; [lia|done]. Qed.

Lemma raw_url_inj a b : Base64.RawURLEncoding_EncodeToString a = Base64.RawURLEncoding_EncodeToString b -> a = b.
Proof. intros E. apply (f_equal Base64.RawURLEncoding_DecodeString) in E. rewrite !Base64.RawURL_round_trip in E. by injection E. Qed.

Section Fresh.
(** [crypto/rand] never gives the same 32 bytes twice. *)
Hypothesis fresh_rand : forall i j raw, env_rand i 32 = Ok raw -> env_rand j 32 = Ok raw -> i = j.

Lemma not_drawn_yet n i raw : drawn n (Base64.RawURLEncoding_EncodeToString raw) -> (n <= i)%nat -> env_rand i 32 <> Ok raw.
Proof.
  intros (j & raw' & Hj & Hr & E%raw_url_inj) Hle Hi. subst raw'. pose proof (fresh_rand _ _ _ Hi Hr). lia.
Qed.

Lemma issues_wf w w' : challenges_wf w -> issues w w' -> challenges_wf w'.
Proof.
  intros [Hk Hu] [[Hi Hs]|(i & raw & c & Hi & Hr & Ht & Hn & E)].
  - split; [|intros k c k' c' Hx Hy; apply Hu; eapply lookup_weaken; eassumption].
    intros k c Hc. destruct (Hk k c) as [? ?]; [by eapply lookup_weaken|]. split; [done|by eapply drawn_le].
  - assert (forall k c', challenges (w_store w) !! k = Some c' -> ch_Challenge c' <> ch_Challenge c) as Hnew.
    { intros k c' Hc' Ec. destruct (Hk k c' Hc') as [_ Hd]. rewrite Ec, Ht in Hd. eapply not_drawn_yet in Hd; [done|lia]. }
    split.
    + intros k c'. rewrite E, lookup_insert_Some. intros [[<- <-]|[_ Hc']].
      * split; [done|]. exists i, raw. split; [lia|done].
      * destruct (Hk k c' Hc'). split; [done|]. eapply drawn_le; [done|lia].
    + intros k c1 k' c2. rewrite E, !lookup_insert_Some. intros [[<- <-]|[_ Hx]] [[<- <-]|[_ Hy]] Et; [done| | |by eapply Hu].
      * by destruct (Hnew _ _ Hy).
      * by destruct (Hnew _ _ Hx).
Qed.

Lemma issues_spent text w w' : spent text w -> issues w w' -> spent text w'.
Proof.
  intros [Hd Hs] [[Hi Hsub]|(i & raw & c & Hi & Hr & Ht & Hn & E)].
  - split; [by eapply drawn_le|]. intros k c Hc. eapply Hs. by eapply lookup_weaken.
  - split; [eapply drawn_le; [done|lia]|]. intros k c'. rewrite E, lookup_insert_Some. intros [[<- <-]|[_ Hc']]; [|by eapply Hs].
    rewrite Ht. intros <-. eapply not_drawn_yet in Hd; [done|lia].
Qed.

Lemma steps_wf w w' : rtc ceremony_step w w' -> challenges_wf w -> challenges_wf w'.
Proof. induction 1 as [|w1 w2 w3 Hs _ IH]; [done|]. intros Hw. apply IH. by eapply issues_wf, step_issues. Qed.
Lemma steps_spent text w w' : rtc ceremony_step w w' -> spent text w -> spent text w'.
Proof. induction 1 as [|w1 w2 w3 Hs _ IH]; [done|]. intros Hw. apply IH. by eapply issues_spent, step_issues. Qed.

(** A finishing request that succeeded on a response to the challenge [text]. *)
Definition completes (text : string) (w w' : W) : Prop :=
  (exists inp r cd, FinishRegistration inp w = (Ok r, w') /\ client_data_unmarshal (fr_ClientDataJSON inp) = Ok cd /\
     cd_Challenge cd = text) \/
  (exists inp r cd, FinishAuthentication inp w = (Ok r, w') /\ client_data_unmarshal (fa_ClientDataJSON inp) = Ok cd /\
     cd_Challenge cd = text).

Lemma completes_ok text w w' : completes text w w' ->
  (w_io w <= w_io w')%nat /\ exists k c, challenges (w_store w) !! k = Some c /\ ch_Challenge c = text /\
    challenges (w_store w') = delete (ch_ID c) (challenges (w_store w)).
Proof.
  intros [(inp & r & cd & Hr & Hcd & Ht)|(inp & r & cd & Hr & Hcd & Ht)].
  - split; [apply (keeps_run _ _ _ _ _ (shrinks_FinishRegistration inp) Hr)|].
    apply FinishRegistration_ok in Hr as (c & _ & _ & (_ & k & _ & _ & Hc & _) & (cd' & Hcd' & _ & Ht' & _) & _ & _ & _ & _ & _ & _ & Hd & _).
    exists k, c. rewrite Hcd in Hcd'. injection Hcd' as <-. split_and!; [done|congruence|done].
  - split; [apply (keeps_run _ _ _ _ _ (shrinks_FinishAuthentication inp) Hr)|].
    apply FinishAuthentication_ok in Hr as (_ & c & _ & (_ & k & _ & _ & Hc & _) & (cd' & Hcd' & _ & Ht' & _) & _ & Hd & _).
    exists k, c. rewrite Hcd in Hcd'. injection Hcd' as <-. split_and!; [done|congruence|done].
Qed.

Lemma completes_spends text w w' : challenges_wf w -> completes text w w' -> spent text w'.
Proof.
  intros [Hk Hu] (Hi & k & c & Hc & Ht & E)%completes_ok. destruct (Hk k c Hc) as [Hid Hd].
  split; [rewrite <- Ht; by eapply drawn_le|]. intros k' c' Hc' Ht'. rewrite E, Hid in Hc'.
  apply lookup_delete_Some in Hc' as [Hne Hc']. apply Hne. eapply Hu; [done..|]. congruence.
Qed.

(** C15. A challenge completes at most one ceremony, of either kind: from the moment
    a response to it was accepted, no registration and no authentication whose client
    data carries that challenge ever succeeds again, whatever ceremonies any users
    begin and finish in between, and whichever of their steps fail. *)
Theorem challenge_single_use text w0 w1 w2 w3 w4 :
  challenges (w_store w0) = ∅ -> rtc ceremony_step w0 w1 -> completes text w1 w2 ->
  rtc ceremony_step w2 w3 -> ~ completes text w3 w4.
Proof.
  intros H0' H1' Hc H2' (_ & k & c & Hk & Ht & _)%completes_ok.
  assert (challenges_wf w1) as Hwf by (eapply steps_wf; [exact H1'|]; split; intros k0 c0; by rewrite H0').
  eapply steps_spent in H2' as [_ Hs]; [|by eapply completes_spends]. by eapply Hs.
Qed.
End Fresh.
End SingleUse.

(** ** A passkey taken over

    The victim is user 1 with the passkey "cred-V". User 2 registers that id with a
    key of its own, then signs in with it. *)
Section Witnesses.
Import Demo.
#[local] Instance demo_cbor : Cbor := {|
  cbor_attestation s := match split_all s with
                        | Some [f; a] => Ok {| at_Fmt := f; at_AuthData := a |}
                        | _ => Err (Errorf "cbor") end;
  cbor_cose_key s := Ok {| ck_Kty := 2; ck_Alg := -7; ck_Crv := 1; ck_X := String.substring 0 32 s; ck_Y := str_drop 32 s |};
  cbor_first s := Ok s;
  cbor_marshal_cose k := Ok (ck_X k +:+ ck_Y k) |}.
#[local] Instance demo_webauthn : WebAuthnLib := {|
  client_data_unmarshal s := match split_all s with
                             | Some [t; c; o] => Ok {| cd_Type := t; cd_Challenge := c; cd_Origin := o |}
                             | _ => Err (Errorf "json") end;
  p256_on_curve p := true;
  ecdsa_verify key digest sg := String.eqb sg (demo_sign key digest) |}.
#[local] Instance demo_json : Json (list string) := {|
  json_marshal l := Ok (join l);
  json_unmarshal s := match split_all s with Some l => Ok l | None => Err (Errorf "json") end |}.
#[local] Instance ceremony_env : Env :=
  {| env_now n := 1000 + Z.of_nat n; env_uuid n := (100 + N.of_nat n)%N;
     env_rand n k := Ok (pretty (N.of_nat n)); env_fault n := false |}.
Lemma demo_rand_fresh : forall i j raw, env_rand i 32 = Ok raw -> env_rand j 32 = Ok raw -> i = j.
Proof. intros i j raw. cbn. intros [= <-] [= E]. apply (inj pretty) in E. lia. Qed.

Definition demo_site : WebAuthnConfig :=
  {| cfg_RPID := "latch.app"; cfg_Origin := "https://latch.app"; cfg_AllowedExtensionIDs := [];
     cfg_IsDevelopment := false; cfg_DevTrustRequestHost := false; cfg_AllowedDevOrigins := [] |}.
Definition point (c : string) : string := str_repeat c 64.
Definition victim_row : WebauthnCredential :=
  {| wc_ID := 7%N; wc_UserID := 1%N; wc_CredentialID := Base64.RawURLEncoding_EncodeToString "cred-V";
     wc_CredentialIDBytes := "cred-V"; wc_CosePublicKey := point "v"; wc_P256RawPublicKey := String uncompressed (point "v");
     wc_SignCount := 5; wc_Transports := None; wc_BackedUp := 0; wc_CreatedAt := 0 |}.
Definition w_before : World Store :=
  MkWorld (set_credentials {[7%N := victim_row]} (set_users (<[1%N := 0]> {[2%N := 0]}) empty_store)) 0.

Definition head (flags : ascii) (count : ascii) : string :=
  Sha256.Sum256 "latch.app" +:+ String flags (str_repeat (String zero "") 3 +:+ String count "").
Definition posted (challenge : string) : FinishRegistrationInput :=
  {| fr_UserID := "2"; fr_ClientDataJSON := join ["webauthn.create"; challenge; "https://latch.app"];
     fr_AttestationObject := join ["none"; head "A" one +:+ str_repeat "m" 16 +:+
        String zero (String (ascii_of_nat 6) ("cred-V" +:+ point "a"))];
     fr_Transports := []; fr_ChromeExtensionIDFromBody := ""; fr_ExtensionIDHeader := ""; fr_Config := demo_site |}.
Definition challenge_of {A} (f : A -> string) (r : res A) : string := match r with Ok a => f a | Err _ => "" end.
Definition begun := BeginRegistration "2" "latch.app" "https://latch.app" w_before.
Definition posted_now : FinishRegistrationInput := posted (challenge_of ro_Challenge (fst begun)).

Lemma registration_spec_witness :
  exists r w', FinishRegistration posted_now (snd begun) = (Ok r, w') /\
    registers_as posted_now r (w_store (snd begun)) (w_store w') /\ GetWebauthnCredentialByCredentialID (rc_CredentialID r) (w_store w') =
      Ok {| wc_ID := 7%N; wc_UserID := 1%N; wc_CredentialID := wc_CredentialID victim_row; wc_CredentialIDBytes := "cred-V";
            wc_CosePublicKey := point "a"; wc_P256RawPublicKey := String uncompressed (point "a"); wc_SignCount := 1;
            wc_Transports := None; wc_BackedUp := 0; wc_CreatedAt := 0 |}.
Proof.
  destruct (FinishRegistration posted_now (snd begun)) as [r w'] eqn:E.
  pose proof (f_equal (fun x => (is_ok (fst x), challenge_of rc_CredentialID (fst x), GetWebauthnCredentialByCredentialID
    (wc_CredentialID victim_row) (w_store (snd x)))) E) as Hv. vm_compute in Hv.
  destruct r as [r|e]; [|discriminate Hv]. exists r, w'. split; [reflexivity|].
  split; [exact (registration_spec posted_now (snd begun) w' r E)|].
  injection Hv as Hid Hrow. assert (rc_CredentialID r = wc_CredentialID victim_row) as -> by exact (eq_sym Hid).
  vm_compute. by rewrite <- Hrow.
Defined.
(** The attacker's sign-in, after the registration above. *)
Definition begun_sign_in := BeginAuthentication "2" "latch.app" "https://latch.app" (snd (FinishRegistration posted_now (snd begun))).
Definition asserted : FinishAuthenticationInput :=
  let cdj := join ["webauthn.get"; challenge_of ao_Challenge (fst begun_sign_in); "https://latch.app"] in
  {| fa_UserID := "2"; fa_CredentialID := "cred-V"; fa_ClientDataJSON := cdj;
     fa_AuthenticatorData := head (ascii_of_nat 1) (ascii_of_nat 2);
     fa_Signature := demo_sign (String uncompressed (point "a")) (signedDataDigest (head (ascii_of_nat 1) (ascii_of_nat 2)) cdj);
     fa_ChromeExtensionIDFromBody := ""; fa_ExtensionIDHeader := ""; fa_Config := demo_site |}.

Definition as_victim : AuthenticatedCredential := {| au_CredentialID := wc_CredentialID victim_row; au_UserID := "1" |}.

Lemma passkey_sign_in_witness :
  exists w', FinishAuthentication asserted (snd begun_sign_in) = (Ok as_victim, w') /\
    signed_in asserted as_victim (w_store (snd begun_sign_in)) (w_store w').
Proof.
  destruct (answers (FinishAuthentication asserted) (snd begun_sign_in) (Ok as_victim)) as (w' & Hr); [vm_compute; reflexivity|].
  exists w'. split; [exact Hr|]. exact (passkey_sign_in asserted (snd begun_sign_in) w' _ Hr).
Defined.

Lemma challenge_single_use_witness :
  exists w2, completes (challenge_of ro_Challenge (fst begun)) (snd begun) w2 /\
    forall w4, ~ completes (challenge_of ro_Challenge (fst begun)) w2 w4.
Proof.
  destruct (succeeds (FinishRegistration posted_now) (snd begun)) as (r & w2 & Hr); [vm_compute; reflexivity|].
  assert (completes (challenge_of ro_Challenge (fst begun)) (snd begun) w2) as Hc.
  { left. exists posted_now, r, {| cd_Type := "webauthn.create"; cd_Challenge := challenge_of ro_Challenge (fst begun);
      cd_Origin := "https://latch.app" |}. split; [exact Hr|]. split; vm_compute; reflexivity. }
  exists w2. split; [exact Hc|]. intros w4.
  apply (challenge_single_use demo_rand_fresh _ w_before (snd begun) w2 w2 w4); [reflexivity| |exact Hc|apply rtc_refl].
  apply rtc_once. exact (step_begin_registration _ _ _ w_before).
Defined.
End Witnesses.
End CeremonyTheorems.
