(* ===== verification/DemoBuild.v ===== *)
(** * A wallet to build transactions for

    The account [CS] with a [CallContract] rule for the asset [CL] and a Default
    rule, both for one passkey, and a gasless service that takes fees in that asset;
    the witnesses of the building theorems run here. *)

From S2P Require Export SetupRules.
From S2P Require Import Instances DemoProposals.

Module DemoBuild.
Import Amount Balances ContextRules Signers Submit SubmitSigned Build BuildTx Demo DemoServices DemoProposals DemoSubmit.

Definition demo_passkey : ScVal :=
  scVec [scSymbol "External"; ScvAddress (AddrContract "V");
         scBytes (match hex_decode "04aa" with Ok b => b | Err _ => "" end)].
Definition wallet_rule (id : Z) : option ScVal :=
  let rule ty := Some (scMap [scMapEntry "context_type" ty; scMapEntry "signers" (scVec [demo_passkey])]) in
  if id =? 0 then rule (scVec [scSymbol "CallContract"; ScvAddress (AddrContract "L")])
  else if id =? 1 then rule (scVec [scSymbol "Default"]) else None.
Definition wallet_read (contract fn : string) (args : list ScVal) : option ScVal :=
  if String.eqb fn "get_context_rules_count" then Some (scU32 2)
  else if String.eqb fn "get_context_rule" then match args with [ScvU32 id] => wallet_rule id | _ => None end
  else if String.eqb fn "balance" then Some (scI128 0 1000000000)
  else Some ScvVoid.

(** The account authorizes [forward()], the approval it makes, and the transfer. *)
Definition wallet_entry (fn : string) : AuthEntry :=
  let call c f := MkInvocation (ContractFn (AddrContract c) f []) in
  {| ae_Credentials := SorobanAddress
       {| ac_Address := AddrContract "S"; ac_Nonce := 7; ac_SignatureExpirationLedger := 0; ac_Signature := ScvVoid |};
     ae_RootInvocation := if String.eqb fn "forward" then call "F" "forward" [call "L" "approve" []; call "L" "transfer" []]
                          else call "S" fn [] |}.
Definition executor_entry : AuthEntry :=
  {| ae_Credentials := SorobanAddress
       {| ac_Address := AddrAccount "Y"; ac_Nonce := 8; ac_SignatureExpirationLedger := 0; ac_Signature := ScvVoid |};
     ae_RootInvocation := MkInvocation (ContractFn (AddrContract "F") "forward" []) [] |}.
Definition wallet_chain : Chain := {|
  ch_read := wallet_read; ch_ledger := 100;
  ch_auth c fn args := if String.eqb fn "forward" then [executor_entry; wallet_entry fn]
                       else if String.eqb c "S" then [wallet_entry fn] else [] |}.
Definition wallet_n : Network := demo_network wallet_chain.
(** The same account with its Default rule alone. *)
Definition solo_n : Network := demo_network {|
  ch_read c fn args := if String.eqb fn "get_context_rules_count" then Some (scU32 1)
                       else if String.eqb fn "get_context_rule" then wallet_rule 1 else wallet_read c fn args;
  ch_ledger := 100; ch_auth := ch_auth wallet_chain |}.

(** Stablecoin first, native second; the fee is 1234500 units of either. *)
#[export] Instance wallet_gasless : Gasless := {|
  gasless_set := true;
  gasless_submit sub n := ({| gr_RequestID := gs_RequestID sub; gr_Status := "success"; gr_TxHash := "g"; gr_ErrorCode := ""; gr_ErrorMessage := "" |}, None);
  gasless_fee_tokens n := Ok
    {| fc_FeeForwarder := "CF"; fc_Relayer := "GY";
       fc_FeeTokens := [{| ft_Contract := "CU"; ft_Symbol := "USDC"; ft_Native := false |};
                        {| ft_Contract := "CL"; ft_Symbol := "XLM"; ft_Native := true |}] |};
|}.
#[export] Instance wallet_quotes : GaslessQuotes := {|
  gasless_quote t fee n := Ok {| gq_FeeToken := t; gq_Symbol := "XLM"; gq_MaxFeeAmount := 1234500 |} |}.
#[export] Instance wallet_builder : BuilderConfig := {|
  ed25519VerifierAddress := "CE"; counterContractAddress := "CT"; legacySignerG := None |}.
#[export] Instance wallet_envelopes : EnvelopeCodec := {| envelope_set_auth tx es data := Ok tx |}.
#[export] Instance json_summary : Json SimulationSummary := {|
  json_marshal s := json_marshal [ss_transactionData s; ss_minResourceFee s; big_string (ss_latestLedger s)];
  json_unmarshal s := match split_all s with
                      | Some [d; f; l] => match big_set_string l with
                                          | Some n => Ok {| ss_transactionData := d; ss_minResourceFee := f; ss_latestLedger := n |}
                                          | None => Err (Errorf "json") end
                      | _ => Err (Errorf "json") end |}.

Definition send_input : BuildSendInput :=
  {| bi_SmartAccountAddress := "CS"; bi_SignerType := "passkey"; bi_SignerG := ""; bi_AssetID := "XLM";
     bi_ContractID := ""; bi_Recipient := "GR"; bi_Amount := "1.5"; bi_KeyDataHex := "04AA" |}.
Definition send_run : M (World Store) BuildSendResult :=
  BuildSend (H0 := wallet_n) (H4 := demo_e) send_input [demo_asset].
Definition sent : option (string * list Z * nat * string) :=
  match fst (send_run world0) with
  | Ok r => Some (nf_MaxAmount (bs_NetworkFee r), bt_ContextRuleIDs (bs_Build r), bt_SmartAccountAuthEntryIndex (bs_Build r),
                  bs_AmountRaw r)
  | Err e => None
  end.
End DemoBuild.
