(* ===== verification/SignerTheorems.v ===== *)
(** * What the signer tables and the confirmations guarantee

    The invariant of the account, signer and recovery-index tables over every
    operation that writes them; what a confirmed addition has proved; that a
    rule id survives its 32-bit column; and what the mobile routes do not check. *)

From S2P Require Export AccountSigners.
From S2P Require Import Instances DemoProposals.

Module SignerTheorems.
Import Sessions Submit SmartAccounts Deploynet AccountSigners.

(** ** Keys and unique columns of a table *)
Definition keyed {R} (id : R -> uuid) (t : gmap uuid R) : Prop := forall k r, t !! k = Some r -> id r = k.
Definition unique_on {R} (same : R -> R -> Prop) (t : gmap uuid R) : Prop :=
  forall k r k' r', t !! k = Some r -> t !! k' = Some r' -> same r r' -> k = k'.

Section Unique.
Context {R : Type} (id : R -> uuid) (same : R -> R -> Prop).
Implicit Types (t : gmap uuid R).

Lemma keyed_insert t r : keyed id t -> keyed id (<[id r := r]> t).
Proof. intros Hk k r'. rewrite lookup_insert_Some. intros [[<- <-]|[_ E]]; [done|by apply Hk]. Qed.
Lemma keyed_select_one t P r : keyed id t -> select_one P t = Ok r -> t !! id r = Some r /\ P r = true.
Proof. intros Hk [HP [k E]]%select_one_ok. by rewrite (Hk _ _ E). Qed.

(** A new row that is the same as no other. *)
Lemma unique_insert t k r : (forall x y, same x y -> same y x) -> unique_on same t ->
  (forall k' r', k' <> k -> t !! k' = Some r' -> ~ same r r') -> unique_on same (<[k := r]> t).
Proof.
  intros Hsym Hu Hn k1 r1 k2 r2. rewrite !lookup_insert_Some.
  intros [[<- <-]|[N1 E1]] [[<- <-]|[N2 E2]] Hs; [done| | |by eapply Hu].
  - by destruct (Hn k2 r2).
  - destruct (Hn k1 r1); auto.
Qed.
(** A row that keeps what [same] compares. *)
Lemma unique_update t k r r' : unique_on same t -> t !! k = Some r ->
  (forall x, same r' x -> same r x) -> (forall x, same x r' -> same x r) -> unique_on same (<[k := r']> t).
Proof.
  intros Hu E HL HR k1 r1 k2 r2. rewrite !lookup_insert_Some.
  intros [[<- <-]|[N1 E1]] [[<- <-]|[N2 E2]] Hs; [done|eapply Hu; eauto..].
Qed.
End Unique.

(** ** The invariant *)
Definition same_account_credential (a b : WebappSmartAccount) : Prop := sa_CredentialID a = sa_CredentialID b.
Definition same_account_address (a b : WebappSmartAccount) : Prop :=
  sa_SmartAccountAddress a = sa_SmartAccountAddress b.
Definition same_signer (a b : WebappAccountSigner) : Prop :=
  as_SmartAccountAddress a = as_SmartAccountAddress b /\ as_CredentialID a = as_CredentialID b /\ as_CredentialID a <> None.

Definition is_int32 (z : Z) : Prop := - 2 ^ 31 <= z < 2 ^ 31.

(** A signer row belongs to an account; its rule id fits the column. *)
Definition signer_ok (d : Store) (s : WebappAccountSigner) : Prop :=
  (exists k a, smart_accounts d !! k = Some a /\ sa_SmartAccountAddress a = as_SmartAccountAddress s) /\
  forall rid, as_ContextRuleID s = Some rid -> is_int32 rid.

(** A row of the recovery index is what [Register] accepts: hexadecimal key data
    that ends in the credential the row is under, and a contract address. *)
Definition index_row_ok (cred : string) (r : PasskeyCredentialRow) : Prop :=
  pc_CredentialID r = cred /\ credentialIDFromKeyData (pc_KeyDataHex r) = Ok cred /\
  is_ok (hex_decode (pc_KeyDataHex r)) = true /\ IsContractAddress (pc_SmartAccountAddress r) = true.

Record signers_wf (d : Store) : Prop := {
  sw_account_key : keyed sa_ID (smart_accounts d);
  sw_account_credential : unique_on same_account_credential (smart_accounts d);
  sw_account_address : unique_on same_account_address (smart_accounts d);
  sw_signer_key : keyed as_ID (account_signers d);
  sw_signer_unique : unique_on same_signer (account_signers d);
  sw_signer : forall k s, account_signers d !! k = Some s -> signer_ok d s;
  sw_index : forall cred r, passkey_index d !! cred = Some r -> index_row_ok cred r;
}.

Definition signers_keep (d d' : Store) : Prop := signers_wf d -> signers_wf d'.
#[export] Instance signers_keep_refl : Reflexive signers_keep.
Proof. intros d Hd. exact Hd. Qed.
#[export] Instance signers_keep_trans : Transitive signers_keep.
Proof. intros d1 d2 d3 H12 H23 Hwf. by apply H23, H12. Qed.

(** Writes to other tables. *)
Lemma signers_keep_same d d' :
  smart_accounts d' = smart_accounts d -> account_signers d' = account_signers d ->
  passkey_index d' = passkey_index d -> signers_keep d d'.
Proof.
  intros E1 E2 E3 [HK HC HA SK SU SG IX].
  split; rewrite ?E1, ?E2, ?E3; try done. intros k s Es. unfold signer_ok. rewrite E1. by apply (SG k).
Qed.

(** Changing the signers only. *)
Lemma signers_keep_signers d t :
  (signers_wf d -> keyed as_ID t /\ unique_on same_signer t /\ forall k s, t !! k = Some s -> signer_ok d s) ->
  signers_keep d (set_account_signers t d).
Proof. intros Ht Hwf. destruct (Ht Hwf) as (? & ? & ?). destruct Hwf. by split. Qed.

Lemma signer_of_iff address cred s :
  signer_of address cred s = true <-> as_SmartAccountAddress s = address /\ as_CredentialID s = Some cred.
Proof. unfold signer_of, opt_eqb. rewrite andb_true_iff, String.eqb_eq, bool_decide_eq_true. done. Qed.

Lemma account_found address d : is_ok (GetSmartAccountByAddress address d) = true ->
  exists k a, smart_accounts d !! k = Some a /\ sa_SmartAccountAddress a = address.
Proof.
  unfold GetSmartAccountByAddress. destruct (select_one _ _) as [a|] eqn:E; [|done]. intros _.
  apply select_one_ok in E as [Ha%String.eqb_eq [k Hk]]. eauto.
Qed.

Lemma keep_attach id address cred label now d r d' :
  UpsertPendingCredentialSigner id address cred label now d = Ok (r, d') -> signers_keep d d'.
Proof.
  unfold UpsertPendingCredentialSigner. destruct (select_one _ _) as [old|e] eqn:Eold.
  - intros [= _ <-]. apply signers_keep_signers. intros [_ _ _ SK SU SG _].
    destruct (keyed_select_one _ _ _ _ SK Eold) as [Ho _]. split_and!.
    + apply (keyed_insert as_ID _ {| as_ID := as_ID old |} SK).
    + by eapply unique_update.
    + intros k s. rewrite lookup_insert_Some. intros [[<- <-]|[_ Es]]; [apply (SG _ _ Ho)|by apply (SG k)].
  - destruct (present _ _) eqn:Ep; [done|]. destruct (negb _) eqn:Ef; [done|].
    apply negb_false_iff, andb_prop in Ef as [Ha _]. intros [= _ <-].
    assert (e = ErrNoRows) as -> by (unfold select_one in Eold; destruct (select _ _); congruence).
    apply signers_keep_signers. intros [_ _ _ SK SU SG _]. split_and!.
    + apply (keyed_insert as_ID _ {| as_ID := id |} SK).
    + apply unique_insert; [unfold same_signer; intuition congruence|done|].
      intros k' r' _ Ek [Hs [Hc _]]. cbn in Hs, Hc. pose proof (select_one_none _ _ _ _ Eold Ek) as Hf.
      enough (signer_of address cred r' = true) by congruence. by apply signer_of_iff.
    + intros k s. rewrite lookup_insert_Some. intros [[<- <-]|[_ Es]]; [|by apply (SG k)].
      split; [by apply account_found|done].
Qed.

Lemma keep_mark address cred rid d d' :
  SetAccountSignerContextRuleID address cred rid d = Ok (tt, d') ->
  (forall z, rid = Some z -> is_int32 z) -> signers_keep d d'.
Proof.
  intros [= <-] Hr. apply signers_keep_signers. intros [_ _ _ SK SU SG _].
  assert (forall k s, update_where (signer_of address cred) (with_context_rule rid) (account_signers d) !! k = Some s ->
    exists s0, account_signers d !! k = Some s0 /\ (s = s0 \/ s = with_context_rule rid s0)) as Hx.
  { intros k s. rewrite lookup_update_where. destruct (account_signers d !! k) as [s0|]; [|done].
    intros [= <-]. exists s0. split; [done|]. destruct (signer_of _ _ _); auto. }
  split_and!.
  - intros k s Es. apply Hx in Es as (s0 & E0 & [->| ->]); exact (SK k s0 E0).
  - intros k s k' s' Es Es'. apply Hx in Es as (s0 & E0 & Hor), Es' as (s0' & E0' & Hor').
    intros Hs. eapply SU; [exact E0|exact E0'|]. by destruct Hor as [->| ->], Hor' as [->| ->].
  - intros k s Es. apply Hx in Es as (s0 & E0 & [->| ->]); [by apply (SG k)|]. split; [apply (SG _ _ E0)|exact Hr].
Qed.

Lemma keep_remove address cred d d' :
  DeleteAccountSignerByCredential address cred d = Ok (tt, d') -> signers_keep d d'.
Proof.
  intros [= <-]. apply signers_keep_signers. intros [_ _ _ SK SU SG _]. split_and!.
  - intros k s [Es _]%lookup_delete_where. by apply (SK k).
  - intros k s k' s' [Es _]%lookup_delete_where [Es' _]%lookup_delete_where. by eapply SU.
  - intros k s [Es _]%lookup_delete_where. by apply (SG k).
Qed.

Lemma keep_intent id address type label now d r d' :
  InsertAccountSignerIntent id address type label now d = Ok (r, d') -> signers_keep d d'.
Proof.
  unfold InsertAccountSignerIntent. destruct (present _ _); [done|]. destruct (negb _) eqn:Ef; [done|].
  apply negb_false_iff in Ef. intros [= _ <-]. apply signers_keep_signers. intros [_ _ _ SK SU SG _]. split_and!.
  - apply (keyed_insert as_ID _ {| as_ID := id |} SK).
  - apply unique_insert; [unfold same_signer; intuition congruence|done|]. by intros k' r' _ _ (_ & _ & Hn).
  - intros k s. rewrite lookup_insert_Some. intros [[<- <-]|[_ Es]]; [|by apply (SG k)].
    split; [by apply account_found|done].
Qed.

Lemma keep_label id label d d' : UpdateAccountSignerIntentLabel id label d = Ok (tt, d') -> signers_keep d d'.
Proof.
  intros [= <-]. apply signers_keep_signers. intros [_ _ _ SK SU SG _].
  assert (forall k s, alter (fun s => {| as_ID := as_ID s; as_SmartAccountAddress := as_SmartAccountAddress s;
      as_SignerType := as_SignerType s; as_CredentialID := as_CredentialID s; as_Label := label;
      as_CreatedAt := as_CreatedAt s; as_SignerID := as_SignerID s; as_ContextRuleID := as_ContextRuleID s |})
      id (account_signers d) !! k = Some s -> exists s0, account_signers d !! k = Some s0 /\ as_ID s = as_ID s0 /\
      as_SmartAccountAddress s = as_SmartAccountAddress s0 /\ as_CredentialID s = as_CredentialID s0 /\
      as_ContextRuleID s = as_ContextRuleID s0) as Hx.
  { intros k s. rewrite lookup_alter_Some. intros [(<- & s0 & E0 & ->)|[_ E0]]; eauto 8. }
  split_and!.
  - intros k s (s0 & E0 & -> & _)%Hx. exact (SK k s0 E0).
  - intros k s k' s' (s0 & E0 & _ & Ha & Hc & _)%Hx (s0' & E0' & _ & Ha' & Hc' & _)%Hx Hs.
    eapply SU; [exact E0|exact E0'|]. unfold same_signer in *. by rewrite <- Ha, <- Hc, <- Ha', <- Hc'.
  - intros k s (s0 & E0 & _ & Ha & _ & Hr)%Hx. unfold signer_ok. rewrite Ha, Hr. by apply (SG k).
Qed.

Lemma keep_account row d r d' : UpsertSmartAccount row d = Ok (r, d') -> signers_keep d d'.
Proof.
  unfold UpsertSmartAccount. destruct (GetSmartAccountByCredentialID _ d) as [old|e] eqn:Eold.
  - intros [= _ <-] [HK HC HA SK SU SG IX]. destruct (keyed_select_one _ _ _ _ HK Eold) as [Ho _].
    split; try done; cbn.
    + apply (keyed_insert sa_ID _ (set_deployed (sa_Deployed row) old) HK).
    + by eapply unique_update.
    + by eapply unique_update.
    + intros k s Es. destruct (SG _ _ Es) as [(ka & a & Ea & Hadr) Hr]. split; [|done]. cbn.
      destruct (decide (ka = sa_ID old)) as [->|].
      * rewrite Ho in Ea. injection Ea as <-. eexists _, _. rewrite lookup_insert_eq. split; [done|exact Hadr].
      * exists ka, a. by rewrite lookup_insert_ne.
  - destruct (present _ _) eqn:Ep; [done|]. destruct (exists_row _ _) eqn:Ex; [done|]. destruct (negb _); [done|].
    intros [= _ <-] [HK HC HA SK SU SG IX].
    assert (e = ErrNoRows) as -> by (unfold GetSmartAccountByCredentialID, select_one in Eold; destruct (select _ _); congruence).
    split; try done; cbn.
    + apply (keyed_insert sa_ID _ row HK).
    + apply unique_insert; [unfold same_account_credential; congruence|done|]. intros k' r' _ Ek Hs.
      pose proof (select_one_none _ _ _ _ Eold Ek) as Hf. cbn in Hf. by rewrite Hs, String.eqb_refl in Hf.
    + apply unique_insert; [unfold same_account_address; congruence|done|]. intros k' r' _ Ek Hs.
      unfold exists_row in Ex. rewrite <- not_true_iff_false, existsb_exists in Ex. destruct Ex. exists r'.
      split; [apply list_elem_of_In, elem_of_rows; eauto|]. apply String.eqb_eq. by rewrite Hs.
    + intros k s Es. destruct (SG _ _ Es) as [(ka & a & Ea & Hadr) Hr]. split; [|done]. exists ka, a. cbn.
      rewrite lookup_insert_ne; [done|]. intros <-. unfold present in Ep. by rewrite Ea in Ep.
Qed.

Lemma keep_index row d r d' : UpsertPasskeyCredential row d = Ok (r, d') ->
  index_row_ok (pc_CredentialID row) row -> signers_keep d d'.
Proof.
  intros [= _ <-] Hr [HK HC HA SK SU SG IX]. split; try done. intros cred x. cbn.
  rewrite lookup_insert_Some. intros [[<- <-]|[_ Ex]]; [done|by apply IX].
Qed.
Lemma keep_deindex cred d d' : DeletePasskeyCredential cred d = Ok (tt, d') -> signers_keep d d'.
Proof.
  intros [= <-] [HK HC HA SK SU SG IX]. split; try done. intros c x. cbn.
  rewrite lookup_delete_Some. intros [_ Ex]. by apply IX.
Qed.

Section Statements.
Context `{Env}.

Lemma int32_range z : is_int32 (int32 z).
Proof using Type.
  unfold int32, is_int32. pose proof (Z.mod_pos_bound z (2 ^ 32) eq_refl). destruct (Z.ltb_spec (z mod 2 ^ 32) (2 ^ 31)); lia.
Qed.

Ltac keeps_stmt := apply keeps_exec; try apply _; intros d r d' Hd.
Lemma keeps_account row : keeps (on_store signers_keep) (exec (UpsertSmartAccount row)).
Proof using Type. keeps_stmt. by eapply keep_account. Qed.
Lemma keeps_pending id a c l t : keeps (on_store signers_keep) (exec (UpsertPendingCredentialSigner id a c l t)).
Proof using Type. keeps_stmt. by eapply keep_attach. Qed.
Lemma keeps_rule a c rid : keeps (on_store signers_keep) (exec (SetAccountSignerContextRuleID a c (Some (int32 rid)))).
Proof using Type. keeps_stmt. destruct r. eapply keep_mark; [exact Hd|]. intros z [= <-]. apply int32_range. Qed.
Lemma keeps_delete a c : keeps (on_store signers_keep) (exec (DeleteAccountSignerByCredential a c)).
Proof using Type. keeps_stmt. destruct r. by eapply keep_remove. Qed.
Lemma keeps_intent id a ty l t : keeps (on_store signers_keep) (exec (InsertAccountSignerIntent id a ty l t)).
Proof using Type. keeps_stmt. by eapply keep_intent. Qed.
Lemma keeps_label id l : keeps (on_store signers_keep) (exec (UpdateAccountSignerIntentLabel id l)).
Proof using Type. keeps_stmt. destruct r. by eapply keep_label. Qed.
Lemma keeps_deindex c : keeps (on_store signers_keep) (exec (DeletePasskeyCredential c)).
Proof using Type. keeps_stmt. destruct r. by eapply keep_deindex. Qed.
Lemma keeps_index row : index_row_ok (pc_CredentialID row) row ->
  keeps (on_store signers_keep) (exec (UpsertPasskeyCredential row)).
Proof using Type. intros Hr. keeps_stmt. by eapply keep_index. Qed.

Lemma keeps_Register k a l s : keeps (on_store signers_keep) (Register k a l s).
Proof using Type.
  unfold Register. eapply keeps_bind_lift; try apply _. intros cred Hc.
  destruct (hex_decode k) as [raw|e] eqn:Eh; [|keeps]. destruct (IsContractAddress a) eqn:Ea; cbn [negb]; [|keeps].
  assert (index_row_ok cred {| pc_CredentialID := cred; pc_KeyDataHex := k; pc_SmartAccountAddress := a;
      pc_Label := l; pc_Seq := s |}) as Hi by (split_and!; cbn; rewrite ?Eh; done).
  pose proof (keeps_index _ Hi). keeps.
Qed.
End Statements.
#[export] Hint Resolve keeps_account keeps_pending keeps_rule keeps_delete keeps_intent keeps_label keeps_deindex
  keeps_Register : keeps.

Section Steps.
Context `{StellarSDK} `{Network} `{SubmitNetwork} `{Gasless} `{UuidLib} `{Unicode} `{Deployment} `{Env} `{ServiceConfig}
  `{KeypairLib} `{FactoryConfig}.
Abbreviation W := (World Store).

(** Every operation that writes one of the three tables, with the reads and
    checks around it. Adopting a passkey at sign-in stores an account row inside a
    larger transaction (webauthn_service.go); its row is left open here. *)
Inductive signer_op :=
  | OpDeploy (userID : string) (cred : RegisteredCredential)
  | OpAdopt (row : WebappSmartAccount)
  | OpAttach (address cred label : string)
  | OpMark (address cred : string) (rid : Z)
  | OpRemove (address cred : string)
  | OpIntent (userID address label : string)
  | OpRegister (keyDataHex address label : string) (seq : Z)
  | OpDeregister (keyDataHex : string)
  | OpConfirmAdd (sessionID : string) (req : confirmAddSignerRequest)
  | OpConfirmRemove (sessionID : string) (req : confirmRemoveSignerRequest)
  | OpBackupAdd (req : confirmAddBackupSignerRequest)
  | OpBackupRemove (req : confirmRemoveBackupSignerRequest).

Definition discard {A} (m : M W A) (w : W) : W := snd (m w).
Definition run_signer_op (op : signer_op) : W -> W :=
  match op with
  | OpDeploy u c => discard (DeployForCredential u c)
  | OpAdopt row => discard (exec (UpsertSmartAccount row))
  | OpAttach a c l => discard (AttachCredential a c l)
  | OpMark a c rid => discard (MarkSignerContextRule a c rid)
  | OpRemove a c => discard (RemoveCredential a c)
  | OpIntent u a l => discard (RecordIntent u a l)
  | OpRegister k a l s => discard (Register k a l s)
  | OpDeregister k => discard (Deregister k)
  | OpConfirmAdd s r => discard (ConfirmAddSigner_handler s r)
  | OpConfirmRemove s r => discard (ConfirmRemoveSigner_handler s r)
  | OpBackupAdd r => discard (ConfirmAddBackupSigner r)
  | OpBackupRemove r => discard (ConfirmRemoveBackupSigner r)
  end.
(** One operation, with any clock, identifiers and failures, on any world. *)
Inductive signer_step : Store -> Store -> Prop :=
  | signer_step_run op w : signer_step (w_store w) (w_store (run_signer_op op w)).

Lemma keeps_signers_deploy p a : keeps (on_store signers_keep) (Deploy p a).
Proof using All.
  apply keeps_only_chain; [|apply Deploy_keeps]. intros d l. by apply signers_keep_same.
Qed.
Lemma keeps_signers_predict p : keeps (on_store signers_keep) (PredictAddress p).
Proof using All. apply keeps_store_eq; [apply _|apply keeps_PredictAddress]. Qed.
Hint Resolve keeps_signers_deploy keeps_signers_predict : keeps.

Ltac as_keeps := match goal with |- forall w, on_store ?R w (snd (?m w)) => change (keeps (on_store R) m) end.
Lemma signer_step_keeps d d' : signer_step d d' -> signers_keep d d'.
Proof using All.
  intros [op w]. change (on_store signers_keep w (run_signer_op op w)).
  destruct op; cbn [run_signer_op]; unfold discard; revert w.
  - as_keeps. unfold DeployForCredential. keeps.
  - as_keeps. keeps.
  - as_keeps. unfold AttachCredential. keeps.
  - as_keeps. unfold MarkSignerContextRule. keeps.
  - as_keeps. unfold RemoveCredential. keeps.
  - as_keeps. unfold RecordIntent. keeps.
  - as_keeps. keeps.
  - as_keeps. unfold Deregister. keeps.
  - as_keeps. unfold ConfirmAddSigner_handler, named_network, requireProvedSigner, fail, or_fail, chain_confirmed,
      failChainConfirm, HasProvedCredential, IsSignerOfAccount, signerCredentialIDs, ConfirmAddSignerRule,
      fetchSettledInvocation, MarkSignerContextRule. keeps.
  - as_keeps. unfold ConfirmRemoveSigner_handler, named_network, requireProvedSigner, fail, or_fail, chain_confirmed,
      failChainConfirm, HasProvedCredential, IsSignerOfAccount, signerCredentialIDs, GetSignerContextRuleID,
      ConfirmRemoveSignerRule, fetchSettledInvocation, GetCredentialKeyDataHex, Deregister, RemoveCredential. keeps.
  - as_keeps. unfold ConfirmAddBackupSigner, named_network, fail, or_fail, chain_confirmed, failChainConfirm, ConfirmAddSigner,
      fetchSettledInvocation. keeps.
  - as_keeps. unfold ConfirmRemoveBackupSigner, named_network, fail, or_fail, chain_confirmed, failChainConfirm,
      ConfirmRemoveSigner, fetchSettledInvocation, Deregister. keeps.
Qed.

(** C28. From a well-formed store, any sequence of deployments, attachments,
    confirmations, removals and index writes — mobile and extension, successful or
    not — leaves a well-formed one: one account per credential and per address, one
    signer row per account and credential, every signer of a known account with a
    rule id that fits its column, and every row of the recovery index under the
    credential its own hexadecimal key data ends in, for a contract address. *)
Theorem signers_invariant d d' : signers_wf d -> rtc signer_step d d' -> signers_wf d'.
Proof using All.
  intros Hwf Hs. revert Hwf. induction Hs as [|d d1 d' Hstep _ IH]; [done|].
  intros Hwf. by apply IH, (signer_step_keeps _ _ Hstep).
Qed.
End Steps.

(** ** What the confirmations have checked *)
Section Confirmations.
Context `{StellarSDK} `{SubmitNetwork} `{UuidLib} `{Unicode} `{Deployment} `{Env} `{ServiceConfig}.
Abbreviation W := (World Store).

Definition same_encoding (a e : ScVal) : Prop := exists x, scval_marshal a = Ok x /\ scval_marshal e = Ok x.

(** The network's answer for this hash: it succeeded, its one invocation is this
    function of this contract with these arguments, and it returned [meta]. *)
Definition settled_call (txHash address fn : string) (args : list ScVal) (meta : string) : Prop :=
  exists n t inv, rpc_get_transaction txHash n = Ok t /\ gt_Status t = RPCStatusSuccess /\
    gt_ResultMetaXdr t = meta /\ decodeSingleInvocation (gt_EnvelopeXdr t) = Ok inv /\
    contractIDFromAddress address = Ok (di_ContractID inv) /\ di_FunctionName inv = fn /\
    Forall2 same_encoding (di_Args inv) args.

Lemma same_args_ok args expected : same_args args expected = true -> Forall2 same_encoding args expected.
Proof using Type.
  revert expected. induction args as [|a args IH]; intros [|e expected]; cbn; try done.
  intros [Ha Hr]%andb_prop. constructor; [|by apply IH]. unfold scValEqual in Ha.
  destruct (scval_marshal a) as [x|] eqn:Ea; [|done]. destruct (scval_marshal e) as [y|] eqn:Ee; [|done].
  apply String.eqb_eq in Ha as ->. by exists y.
Qed.

Lemma verifyInvocation_ok inv address fn args : verifyInvocation inv address fn args = Ok tt ->
  contractIDFromAddress address = Ok (di_ContractID inv) /\ di_FunctionName inv = fn /\
  Forall2 same_encoding (di_Args inv) args.
Proof using Type.
  unfold verifyInvocation, res_bind, res_wrap. destruct (contractIDFromAddress address) as [c|]; [|done].
  destruct (String.eqb_spec (di_ContractID inv) c) as [->|]; [|done].
  destruct (String.eqb_spec (di_FunctionName inv) fn) as [->|]; [|done].
  destruct (same_args _ _) eqn:Es; [|done]. intros _. split; [done|]. split; [done|]. by apply same_args_ok.
Qed.

Lemma verified_call txHash address fn args inv meta w w1 :
  fetchSettledInvocation txHash w = (Ok (inv, meta), w1) -> verifyInvocation inv address fn args = Ok tt ->
  settled_call txHash address fn args meta.
Proof using Type.
  unfold fetchSettledInvocation. intros Hf Hv. apply verifyInvocation_ok in Hv as (Hc & Hn & Ha).
  apply bind_ok in Hf as (t & w2 & Ht & Hf). run_inv.
  destruct (String.eqb_spec (gt_Status t) RPCStatusSuccess) as [Es|]; [|done]. cbn [negb] in Hf.
  apply bind_ok in Hf as (i & w3 & Hi & Hf). run_inv. simplify_eq. by exists (w_io w), t, inv.
Qed.

Lemma keeps_fetch h : keeps (on_store eq) (fetchSettledInvocation h).
Proof using H H0 H4. unfold fetchSettledInvocation. keeps. Qed.
Lemma keeps_confirm_rule a k h : keeps (on_store eq) (ConfirmAddSignerRule a k h).
Proof using H H0 H4 H5. unfold ConfirmAddSignerRule. pose proof keeps_fetch. keeps. Qed.
Lemma keeps_confirm_signer a r k h : keeps (on_store eq) (ConfirmAddSigner a r k h).
Proof using H H0 H4 H5. unfold ConfirmAddSigner. pose proof keeps_fetch. keeps. Qed.
Lemma keeps_confirm_removal a r i h : keeps (on_store eq) (ConfirmRemoveSigner a r i h).
Proof using H H0 H4 H5. unfold ConfirmRemoveSigner. pose proof keeps_fetch. keeps. Qed.

Lemma or_fail_ok {S A} st c (m : M S A) a w w' : or_fail st c m w = (Ok a, w') <-> m w = (Ok a, w').
Proof using Type.
  unfold or_fail, bind, attempt. destruct (m w) as [[b|e] w1]; [done|]. split; [|done]. by intros Hf%throw_ok.
Qed.
Lemma chain_confirmed_ok {S A} api (m : M S A) a w w' : chain_confirmed api m w = (Ok a, w') <-> m w = (Ok a, w').
Proof using Type.
  unfold chain_confirmed, bind, attempt, failChainConfirm, fail. destruct (m w) as [[b|e] w1]; [done|].
  split; [|done]. by destruct (_ || _); intros Hf%throw_ok.
Qed.
Lemma named_network_ok {S} api raw n (w w' : S) : named_network api raw w = (Ok n, w') -> ParseNetwork raw = Ok n /\ w' = w.
Proof using Type.
  unfold named_network, fail. destruct (ParseNetwork raw) as [x|e]; [by intros [= -> ->]|].
  by destruct (errors_is _ _); intros Hf%throw_ok.
Qed.

(** The caller: a credential this session has proved, recorded as a signer of the
    account. *)
Definition proved_signer (sessionID cred address : string) (d : Store) : Prop :=
  exists sid account, uuid_parse sessionID = Some sid /\ is_Some (proved d !! (sid, cred)) /\
    GetSmartAccountByAddress address d = Ok account /\
    (cred = sa_CredentialID account \/
     exists k s, account_signers d !! k = Some s /\ as_SmartAccountAddress s = address /\ as_CredentialID s = Some cred).

Lemma signer_recorded address cred w (w' : W) :
  IsSignerOfAccount cred address w = (Ok true, w') ->
  w_store w' = w_store w /\ exists account, GetSmartAccountByAddress address (w_store w) = Ok account /\
    (cred = sa_CredentialID account \/ exists k s, account_signers (w_store w) !! k = Some s /\
       as_SmartAccountAddress s = address /\ as_CredentialID s = Some cred).
Proof using Type.
  unfold IsSignerOfAccount, signerCredentialIDs. intros Hr. svc_inv.
  match goal with H : GetSmartAccountByAddress _ _ = Ok ?a |- _ => split; [done|]; exists a; split; [exact H|] end.
  match goal with H : existsb _ _ = true |- _ => apply existsb_exists in H as (c & Hc & Heq) end.
  apply String.eqb_eq in Heq as <-. apply list_elem_of_In in Hc.
  apply elem_of_cons in Hc as [->|Hc]; [by left|right].
  apply list_elem_of_omap in Hc as (o & Ho & Hs). cbn in Hs. subst o.
  match goal with H : ListAccountSignerCredentialIDsForAddress _ _ = Ok _ |- _ => injection H as <- end.
  apply list_elem_of_fmap in Ho as (s & Es & Ho). apply elem_of_select in Ho as [[Ha _]%andb_prop [k Hk]].
  exists k, s. split; [exact Hk|]. split; [by apply String.eqb_eq|by symmetry].
Qed.

Lemma requireProvedSigner_ok sessionID cred address (w w' : W) :
  requireProvedSigner sessionID cred address w = (Ok tt, w') ->
  w_store w' = w_store w /\ proved_signer sessionID cred address (w_store w).
Proof using Type.
  unfold requireProvedSigner, fail. destruct (String.eqb cred "") eqn:Ec; [by intros Hr%throw_ok|]. intros Hr.
  apply bind_ok in Hr as (b & w1 & Hp%or_fail_ok & Hr). destruct b; cbn [negb] in Hr; [|by apply throw_ok in Hr].
  apply bind_ok in Hr as (r & w2 & Hs & Hr). apply attempt_ok in Hs.
  destruct r as [[]|e]; [|by apply throw_ok in Hr|by destruct (errors_is _ _); apply throw_ok in Hr].
  apply ret_ok in Hr as [_ <-]. unfold HasProvedCredential in Hp. rewrite Ec, orb_false_r in Hp.
  destruct (String.eqb sessionID ""); [by run_inv|]. destruct (uuid_parse sessionID) as [sid|] eqn:Es; [|by run_inv].
  svc_inv. apply signer_recorded in Hs as (Hst & account & Ha & Hor). cbn in Hst, Ha, Hor. split; [exact Hst|].
  exists sid, account. split; [done|]. split; [|done].
  match goal with H : SessionHasProvedCredential _ _ _ = Ok true |- _ =>
    unfold SessionHasProvedCredential in H; destruct (proved (w_store w) !! (sid, cred)); [done|discriminate H] end.
Qed.

(** The rows a confirmed addition changes. *)
Definition rule_recorded (address cred : string) (rid : Z) (d : Store) : Store :=
  set_account_signers (update_where (signer_of address cred) (with_context_rule (Some (int32 rid))) (account_signers d)) d.
Definition indexed (row : PasskeyCredentialRow) (d : Store) : Store :=
  set_passkey_index (<[pc_CredentialID row := row]> (passkey_index d)) d.
Definition index_row (cred k address label : string) (seq : Z) : PasskeyCredentialRow :=
  {| pc_CredentialID := cred; pc_KeyDataHex := k; pc_SmartAccountAddress := address; pc_Label := label; pc_Seq := seq |}.

Lemma Register_ok k address label seq (w w' : W) : Register k address label seq w = (Ok tt, w') ->
  exists cred, credentialIDFromKeyData k = Ok cred /\ index_row_ok cred (index_row cred k address label seq) /\
    w_store w' = indexed (index_row cred k address label seq) (w_store w).
Proof using Type.
  unfold Register. intros Hr. apply bind_ok in Hr as (cred & w1 & Hc & Hr). run_inv.
  destruct (hex_decode k) eqn:Eh; [|by apply throw_ok in Hr].
  destruct (IsContractAddress address) eqn:Ea; cbn [negb] in Hr; [|by apply throw_ok in Hr].
  exists cred. svc_inv. split; [done|]. split; [split_and!; cbn; rewrite ?Eh; done|].
  match goal with H : UpsertPasskeyCredential _ _ = Ok _ |- _ => by injection H as _ <- end.
Qed.
Lemma Mark_ok address cred rid (w w' : W) : MarkSignerContextRule address cred rid w = (Ok tt, w') ->
  w_store w' = rule_recorded address cred rid (w_store w).
Proof using Type.
  unfold MarkSignerContextRule. intros Hr. svc_inv.
  match goal with H : SetAccountSignerContextRuleID _ _ _ _ = Ok _ |- _ => by injection H as <- end.
Qed.

Lemma settled_then {A} h address fn args (k : string -> M W A) a (w w' : W) :
  bind (fetchSettledInvocation h) (fun '(inv, meta) =>
    bind (lift (verifyInvocation inv address fn args)) (fun _ => k meta)) w = (Ok a, w') ->
  exists meta w1, settled_call h address fn args meta /\ k meta w1 = (Ok a, w').
Proof using Type.
  intros Hr. apply bind_ok in Hr as ([inv meta] & w1 & Hf & Hr). apply bind_ok in Hr as ([] & w2 & [Hv ->]%lift_ok & Hr).
  exists meta, w2. split; [by eapply verified_call|done].
Qed.
Lemma ConfirmAddSignerRule_ok address k h (w w' : W) rid : ConfirmAddSignerRule address k h w = (Ok rid, w') ->
  exists signer meta, expected_signer k = Ok signer /\
    settled_call h address "add_context_rule" (add_rule_args signer) meta /\ extractReturnContextRuleID meta = Ok rid.
Proof using Type.
  intros Hr. apply bind_ok in Hr as (signer & w1 & [Hs ->]%lift_ok & Hr).
  apply settled_then in Hr as (meta & w2 & Hc & [Hr _]%wrap_ok%lift_ok). by exists signer, meta.
Qed.
Lemma ConfirmAddSigner_ok address rule k h (w w' : W) sid : ConfirmAddSigner address rule k h w = (Ok sid, w') ->
  exists signer meta, expected_signer k = Ok signer /\
    settled_call h address "add_signer" [scU32 rule; signer] meta /\ extractReturnU32 meta = Ok sid.
Proof using Type.
  intros Hr. apply bind_ok in Hr as (signer & w1 & [Hs ->]%lift_ok & Hr).
  apply settled_then in Hr as (meta & w2 & Hc & [Hr _]%wrap_ok%lift_ok). by exists signer, meta.
Qed.
Lemma ConfirmRemoveSigner_ok address rule sid h (w w' : W) : ConfirmRemoveSigner address rule sid h w = (Ok tt, w') ->
  exists meta, settled_call h address "remove_signer" [scU32 rule; scU32 sid] meta.
Proof using Type.
  intros Hr. apply bind_ok in Hr as ([inv meta] & w1 & Hf & [Hv _]%lift_ok). exists meta. by eapply verified_call.
Qed.

(** C27. The extension's confirmation of a backup signer is authentic: when it
    answers success, the calling credential was proved by this very session and is
    recorded as a signer of the account; the named transaction settled, and its one
    invocation is the account's [add_context_rule] with, encoding for encoding, a
    Default rule of the single external signer that the posted key stands for; the
    rule id answered is the one that call returned; and the store differs in that
    id, on the attached row of this account and credential, and in the one row of
    the recovery index under the key's own credential. *)
Theorem confirm_add_authentic sessionID req (w w' : W) rid :
  ConfirmAddSigner_handler sessionID req w = (Ok rid, w') ->
  proved_signer sessionID (ca_CallerCredentialID req) (ca_SmartAccountAddress req) (w_store w) /\
  (exists signer meta, expected_signer (ca_KeyDataHex req) = Ok signer /\
     settled_call (ca_TxHash req) (ca_SmartAccountAddress req) "add_context_rule" (add_rule_args signer) meta /\
     extractReturnContextRuleID meta = Ok rid) /\
  exists cred, credentialIDFromKeyData (ca_KeyDataHex req) = Ok cred /\
    w_store w' =
      indexed (index_row cred (ca_KeyDataHex req) (ca_SmartAccountAddress req) (ca_Label req) (ca_Seq req))
        (rule_recorded (ca_SmartAccountAddress req) (ca_CredentialID req) rid (w_store w)).
Proof using Type.
  unfold ConfirmAddSigner_handler. intros Hr.
  apply bind_ok in Hr as (n & w0 & [_ ->]%named_network_ok & Hr).
  apply bind_ok in Hr as ([] & w1 & [E1 Hp]%requireProvedSigner_ok & Hr).
  apply bind_ok in Hr as (id & w2 & Hc%chain_confirmed_ok & Hr).
  pose proof (keeps_run _ _ _ _ _ (keeps_confirm_rule _ _ _) Hc) as E2. unfold on_store in E2.
  apply bind_ok in Hr as ([] & w3 & E3%or_fail_ok%Mark_ok & Hr).
  apply bind_ok in Hr as ([] & w4 & (cred & Hk & _ & E4)%or_fail_ok%Register_ok & Hr). run_inv.
  split; [done|]. split; [by eapply ConfirmAddSignerRule_ok|]. exists cred. split; [done|].
  by rewrite E4, E3, <- E2, E1.
Qed.

Lemma uint32_int32 z : 0 <= z < 2 ^ 32 -> uint32 (int32 z) = z.
Proof using Type.
  intros Hz. unfold uint32, int32. rewrite (Z.mod_small z) by done.
  destruct (Z.ltb_spec z (2 ^ 31)); [by apply Z.mod_small|].
  by rewrite Zminus_mod, Z_mod_same_full, Z.sub_0_r, Zmod_mod, Z.mod_small.
Qed.
Lemma signer_of_marked address cred rid s : signer_of address cred (with_context_rule rid s) = signer_of address cred s.
Proof using Type. done. Qed.
Lemma get_marked address cred rid d :
  match GetAccountSignerByCredential address cred (rule_recorded address cred rid d) with
  | Ok s => existsb (signer_of address cred) (rows (account_signers d)) = true /\ as_ContextRuleID s = Some (int32 rid)
  | Err e => existsb (signer_of address cred) (rows (account_signers d)) = false /\ e = ErrNoRows
  end.
Proof using Type.
  unfold GetAccountSignerByCredential. destruct (select_one _ _) as [s|e] eqn:Es.
  - apply select_one_ok in Es as [Hs [k Hk]]. cbn in Hk. rewrite lookup_update_where in Hk.
    destruct (account_signers d !! k) as [s0|] eqn:Ek; [|done]. injection Hk as <-.
    destruct (signer_of address cred s0) eqn:E0; [|congruence]. split; [|done].
    apply existsb_exists. exists s0. split; [|done]. apply list_elem_of_In, elem_of_rows. by exists k.
  - assert (e = ErrNoRows) as -> by (unfold select_one in Es; destruct (select _ _); congruence).
    split; [|done]. apply not_true_iff_false. intros (s & Hin & Hs)%existsb_exists.
    apply list_elem_of_In, elem_of_rows in Hin as [k Hk].
    pose proof (select_one_none _ _ k (with_context_rule (Some (int32 rid)) s) Es) as Hn. cbn in Hn.
    rewrite lookup_update_where, Hk in Hn. cbn in Hn. rewrite Hs in Hn. specialize (Hn eq_refl).
    by rewrite signer_of_marked, Hs in Hn.
Qed.

(** The rule id survives its signed 32-bit column: after a successful
    [MarkSignerContextRule], every unsigned 32-bit id is read back by
    [GetSignerContextRuleID] as it was — unless the pair was never attached, in
    which case the mark succeeded on no row and the read reports the missing one. *)
Theorem mark_then_get address cred rid (w w1 w2 : W) r :
  0 <= rid < 2 ^ 32 -> MarkSignerContextRule address cred rid w = (Ok tt, w1) ->
  GetSignerContextRuleID address cred w1 = (r, w2) -> env_fault (w_io w1) = false ->
  r = (if existsb (signer_of address cred) (rows (account_signers (w_store w)))
       then Ok (Some rid) else Err ErrAccountSignerNotFound).
Proof using Type.
  intros Hrid Hm%Mark_ok Hg Hf. pose proof (get_marked address cred rid (w_store w)) as Hx. rewrite <- Hm in Hx.
  unfold GetSignerContextRuleID, bind, or_no_rows, bind, attempt, query, exec in Hg. rewrite Hf in Hg.
  destruct (GetAccountSignerByCredential _ _ _) as [s|e]; destruct Hx as [-> Hs]; cbn in Hg.
  - rewrite Hs in Hg. cbn in Hg. rewrite uint32_int32 in Hg by done. by injection Hg as <- _.
  - subst e. by injection Hg as <- _.
Qed.
End Confirmations.

(** ** The mobile routes and the recovery index *)
Section Mobile.
Context `{StellarSDK} `{SubmitNetwork} `{UuidLib} `{Unicode} `{Deployment} `{Env} `{ServiceConfig}.
Abbreviation W := (World Store).

Definition unindexed (cred : string) (d : Store) : Store := set_passkey_index (delete cred (passkey_index d)) d.

Lemma Deregister_run k (w w' : W) r : Deregister k w = (r, w') ->
  (exists cred, credentialIDFromKeyData k = Ok cred /\ w_store w' = unindexed cred (w_store w)) \/
  (w_store w' = w_store w /\ (is_ok (credentialIDFromKeyData k) = false \/ exists n, env_fault n = true)).
Proof using Type.
  unfold Deregister, bind, lift. destruct (credentialIDFromKeyData k) as [cred|e] eqn:Ek.
  - unfold wrap, exec, DeletePasskeyCredential. destruct (env_fault (w_io w)) eqn:Ef; intros [= <- <-].
    + right. split; [done|]. right. by exists (w_io w).
    + left. by exists cred.
  - intros [= <- <-]. right. split; [done|]. by left.
Qed.

(** What a signed-in mobile user can do to the recovery index. A confirmed
    addition stores one row, under the credential the posted key data ends in,
    replacing whatever row another wallet had there. A confirmed removal deletes
    the row under the credential of the posted key data — or nothing, when the
    database fails or the key data is too short — although the transaction it
    checked only removes a numbered signer of the posted account: neither the key
    nor the row's own account takes part in the check. *)
Theorem backup_index_effect :
  (forall req (w w' : W) sid, ConfirmAddBackupSigner req w = (Ok sid, w') ->
     exists signer meta cred, expected_signer (ba_KeyDataHex req) = Ok signer /\
       settled_call (ba_TxHash req) (ba_SmartAccountAddress req) "add_signer" [scU32 (ba_ContextRuleID req); signer] meta /\
       extractReturnU32 meta = Ok sid /\ credentialIDFromKeyData (ba_KeyDataHex req) = Ok cred /\
       w_store w' = indexed (index_row cred (ba_KeyDataHex req) (ba_SmartAccountAddress req) (ba_Label req) (ba_Seq req))
                      (w_store w)) /\
  (forall req (w w' : W), ConfirmRemoveBackupSigner req w = (Ok tt, w') ->
     (exists meta, settled_call (br_TxHash req) (br_SmartAccountAddress req) "remove_signer"
        [scU32 (br_ContextRuleID req); scU32 (br_SignerID req)] meta) /\
     ((exists cred, credentialIDFromKeyData (br_KeyDataHex req) = Ok cred /\ w_store w' = unindexed cred (w_store w)) \/
      (w_store w' = w_store w /\
       (is_ok (credentialIDFromKeyData (br_KeyDataHex req)) = false \/ exists n, env_fault n = true)))).
Proof using Type.
  split; intros req w w'.
  - intros sid Hr. apply bind_ok in Hr as (n & w0 & [_ ->]%named_network_ok & Hr).
    apply bind_ok in Hr as (id & w1 & Hc%chain_confirmed_ok & Hr).
    pose proof (keeps_run _ _ _ _ _ (keeps_confirm_signer _ _ _ _) Hc) as E1. unfold on_store in E1.
    apply bind_ok in Hr as ([] & w2 & (cred & Hk & _ & E2)%or_fail_ok%Register_ok & [-> <-]%ret_ok).
    apply ConfirmAddSigner_ok in Hc as (signer & meta & Hs & Hcall & Hx). exists signer, meta, cred.
    by rewrite E2, E1.
  - intros Hr. apply bind_ok in Hr as (n & w0 & [_ ->]%named_network_ok & Hr).
    apply bind_ok in Hr as ([] & w1 & Hc%chain_confirmed_ok & Hr).
    pose proof (keeps_run _ _ _ _ _ (keeps_confirm_removal _ _ _ _) Hc) as E1. unfold on_store in E1.
    apply bind_ok in Hr as (r & w2 & Hd & [_ <-]%ret_ok). apply (proj1 (attempt_ok _ _ _ _)), Deregister_run in Hd.
    rewrite <- E1 in Hd. split; [by eapply ConfirmRemoveSigner_ok|done].
Qed.
End Mobile.

Section Witnesses.
Import Demo DemoProposals DemoSubmit.
#[local] Instance demo_deployment : Deployment := {| Get := "testnet"; Get_valid := or_intror (or_introl eq_refl) |}.
#[local] Instance demo_keypair : KeypairLib := {| keypair_random n := Ok "GD" |}.
#[local] Instance demo_factory_config : FactoryConfig := {| factoryAddress := "CF" |}.

Definition mine : string := String "C" (str_repeat "A" 55).
Definition theirs : string := String "C" (str_repeat "B" 55).
Definition demo_key : string := str_repeat "0" 130 +:+ "bb".


(** Two settled transactions of the account [mine]. *)
Definition call_of (fn : string) (args : list ScVal) : string :=
  match tx_build (StellarSDK := demo_sdk) 0 (bundler_params 1 [InvokeContract (AddrContract (str_repeat "A" 55)) fn args] [] None) with
  | Ok b => b | Err _ => "" end.
Definition demo_signer : ScVal := match expected_signer demo_key with Ok v => v | Err _ => ScvVoid end.
Definition rule_of (id : Z) : string := encode_val (scMap [scMapEntry "id" (scU32 id)]).
#[local] Instance settled_rpc : SubmitNetwork := {|
  rpc_send envelope n := Err ErrDriver;
  rpc_get_transaction h n :=
    if String.eqb h "add" then
      Ok {| gt_Status := "SUCCESS"; gt_ResultMetaXdr := rule_of 4294967295;
            gt_EnvelopeXdr := call_of "add_context_rule" (add_rule_args demo_signer) |}
    else Ok {| gt_Status := "SUCCESS"; gt_ResultMetaXdr := rule_of 0;
               gt_EnvelopeXdr := call_of "remove_signer" [scU32 0; scU32 9] |};
  rpc_ledger_entries keys n := Ok O;
  ctx_err n := None;
|}.

Definition my_account : WebappSmartAccount :=
  {| sa_ID := 50%N; sa_UserID := 1%N; sa_CredentialID := "A"; sa_KeyDataHex := ""; sa_SaltHex := "";
     sa_SmartAccountAddress := mine; sa_Deployed := 1; sa_CreatedAt := 0 |}.
Definition proved_world : World Store :=
  MkWorld (set_proved {[(7%N, "A") := 0]} (set_credentials {[70%N := {| wc_ID := 70%N; wc_UserID := 1%N;
    wc_CredentialID := "A"; wc_CredentialIDBytes := "A"; wc_CosePublicKey := ""; wc_P256RawPublicKey := "P"; wc_SignCount := 0; wc_Transports := None; wc_BackedUp := 0; wc_CreatedAt := 0 |};
    71%N := {| wc_ID := 71%N; wc_UserID := 1%N;
    wc_CredentialID := "B"; wc_CredentialIDBytes := "B"; wc_CosePublicKey := ""; wc_P256RawPublicKey := "P"; wc_SignCount := 0; wc_Transports := None; wc_BackedUp := 0; wc_CreatedAt := 0 |}]} account_store)) 0.
Definition add_request : confirmAddSignerRequest :=
  {| ca_Network := ""; ca_SmartAccountAddress := mine; ca_KeyDataHex := demo_key; ca_CredentialID := "B";
     ca_Label := "l"; ca_Seq := 0; ca_TxHash := "add"; ca_CallerCredentialID := "A" |}.

Definition after (ops : list signer_op) : World Store :=
  fold_left (fun w op => run_signer_op (H0 := demo_n) (H6 := demo_e) op w) ops proved_world.
Definition attached : World Store := after [OpAdopt my_account; OpAttach mine "B" "l"].

Lemma confirm_add_authentic_witness :
  exists w', ConfirmAddSigner_handler (H4 := demo_e) "7" add_request attached = (Ok 4294967295, w') /\
    proved_signer "7" "A" mine (w_store attached) /\
    w_store w' = indexed (index_row "bb" demo_key mine "l" 0) (rule_recorded mine "B" 4294967295 (w_store attached)).
Proof.
  assert (exists w', ConfirmAddSigner_handler (H4 := demo_e) "7" add_request attached = (Ok 4294967295, w')) as (w' & Hr)
    by (apply answers; vm_compute; reflexivity).
  exists w'. split; [exact Hr|].
  destruct (confirm_add_authentic (H4 := demo_e) "7" add_request attached w' _ Hr) as (Hp & _ & cred & Hc & Hw).
  split; [exact Hp|]. rewrite Hw. assert (cred = "bb") as -> by (vm_compute in Hc; by injection Hc as <-). reflexivity.
Defined.

(** The largest rule id, and an unattached credential. *)
Lemma mark_then_get_witness :
  fst (GetSignerContextRuleID (H4 := demo_e) mine "B"
         (snd (MarkSignerContextRule (H4 := demo_e) mine "B" 4294967295 attached))) = Ok (Some 4294967295) /\
  fst (GetSignerContextRuleID (H4 := demo_e) mine "Z"
         (snd (MarkSignerContextRule (H4 := demo_e) mine "Z" 5 attached))) = Err ErrAccountSignerNotFound.
Proof.
  split.
  - assert (exists w1, MarkSignerContextRule (H4 := demo_e) mine "B" 4294967295 attached = (Ok tt, w1)) as (w1 & E1)
      by (apply answers; vm_compute; reflexivity).
    rewrite E1. cbn [snd]. destruct (GetSignerContextRuleID (H4 := demo_e) mine "B" w1) as [r w2] eqn:E2. cbn [fst snd].
    rewrite (mark_then_get (H4 := demo_e) mine "B" 4294967295 attached w1 w2 r) by first [lia|done].
    vm_compute. reflexivity.
  - assert (exists w1, MarkSignerContextRule (H4 := demo_e) mine "Z" 5 attached = (Ok tt, w1)) as (w1 & E1)
      by (apply answers; vm_compute; reflexivity).
    rewrite E1. cbn [snd]. destruct (GetSignerContextRuleID (H4 := demo_e) mine "Z" w1) as [r w2] eqn:E2. cbn [fst snd].
    rewrite (mark_then_get (H4 := demo_e) mine "Z" 5 attached w1 w2 r) by first [lia|done].
    vm_compute. reflexivity.
Defined.

(** Someone else's wallet in the index; a removal confirmed on [mine] deletes it. *)
Definition their_row : PasskeyCredentialRow := index_row "cc" (str_repeat "1" 130 +:+ "cc") theirs "t" 0.
Definition their_world : World Store := MkWorld (indexed their_row (w_store proved_world)) 0.
Definition removal : confirmRemoveBackupSignerRequest :=
  {| br_Network := ""; br_SmartAccountAddress := mine; br_ContextRuleID := 0; br_SignerID := 9;
     br_KeyDataHex := str_repeat "f" 130 +:+ "cc"; br_TxHash := "rm" |}.
Lemma backup_index_effect_witness :
  passkey_index (w_store their_world) !! "cc" = Some their_row /\
  exists w', ConfirmRemoveBackupSigner (H4 := demo_e) removal their_world = (Ok tt, w') /\
    passkey_index (w_store w') !! "cc" = None.
Proof.
  split; [vm_compute; reflexivity|].
  assert (exists w', ConfirmRemoveBackupSigner (H4 := demo_e) removal their_world = (Ok tt, w')) as (w' & Hr)
    by (apply answers; vm_compute; reflexivity).
  exists w'. split; [exact Hr|].
  destruct (proj2 (backup_index_effect (H4 := demo_e)) removal their_world w' Hr)
    as [_ [(cred & Hc & ->)|[_ [[=]|[n [=]]]]]].
  assert (cred = "cc") as -> by (vm_compute in Hc; by injection Hc as <-). vm_compute. reflexivity.
Defined.

Lemma run_signer_ops_steps ops (w : World Store) :
  rtc (signer_step (H0 := demo_n) (H6 := demo_e)) (w_store w)
    (w_store (fold_left (fun w op => run_signer_op (H0 := demo_n) (H6 := demo_e) op w) ops w)).
Proof.
  revert w. induction ops as [|op ops IH]; intros w; [done|]. eapply rtc_l; [apply signer_step_run|]. apply IH.
Qed.
Lemma signers_invariant_witness :
  signers_wf (w_store proved_world) /\
  let d := w_store (after [OpAdopt my_account; OpAttach mine "B" "l"; OpConfirmAdd "7" add_request; OpBackupRemove removal]) in
  signers_wf d /\ is_Some (passkey_index d !! "bb").
Proof.
  assert (signers_wf (w_store proved_world)) as Hwf.
  { split; intros k r; try (intros E; discriminate E); intros k' r' E; discriminate E. }
  split; [exact Hwf|]. split; [|vm_compute; eauto].
  exact (signers_invariant (H0 := demo_n) (H6 := demo_e) (w_store proved_world) _ Hwf
           (run_signer_ops_steps _ proved_world)).
Defined.
End Witnesses.
End SignerTheorems.
