(* ===== verification/RouteTheorems.v ===== *)
(** * What the extension's routes guarantee (theorems about CeremonyRoutes.v and Routes.v)

    A sign-in moves the session to the credential's owner and leaves exactly that
    credential proved; a backup passkey is attached for a signer of the account
    only; and every failure of a transaction route has one of its answers. *)

From S2P Require Export SignerTheorems CeremonyTheorems.
From S2P Require Import Instances DemoProposals DemoBuild.

#[local] Unset Default Proof Using.

Module RouteTheorems.
Import Rpid Ceremonies CeremonyRoutes CeremonyTheorems Routes Deploynet AccountSigners SignerTheorems SmartAccounts Sessions.
Import Submit Build SetupRules Assets ContextRules.

(** ** Passkey routes *)
Section Passkeys.
Context `{StellarSDK} `{Network} `{SubmitNetwork} `{Gasless} `{UuidLib} `{Unicode} `{Deployment} `{Env} `{ServiceConfig}.
Context `{KeypairLib} `{FactoryConfig} `{Cbor} `{WebAuthnLib} `{Json (list string)} `{WebAuthnHandlerConfig}.
Abbreviation W := (World Store).

(** The sessions, what they have proved, the signer rows and the chain are left alone. *)
Definition same_sessions (d d' : Store) : Prop :=
  sessions d' = sessions d /\ proved d' = proved d /\ chain d' = chain d /\ account_signers d' = account_signers d.
#[local] Instance same_sessions_refl : Reflexive same_sessions.
Proof. by intros d. Qed.
#[local] Instance same_sessions_trans : Transitive same_sessions.
Proof. intros d1 d2 d3 (? & ? & ? & ?) (? & ? & ? & ?). split_and!; congruence. Qed.

Lemma same_writes {A} (f : Store -> res (A * Store)) :
  (forall d a d', f d = Ok (a, d') -> same_sessions d d') -> keeps (on_store same_sessions) (exec f).
Proof. intros Hf. by apply keeps_exec; try apply _. Qed.
Lemma same_consume id : keeps (on_store same_sessions) (consumeChallenge id).
Proof. unfold consumeChallenge. keeps. apply same_writes. by intros d a d' [= _ <-]. Qed.
Lemma same_upsert row : keeps (on_store same_sessions) (exec (UpsertWebauthnCredential row)).
Proof.
  apply same_writes. intros d a d'. unfold UpsertWebauthnCredential.
  destruct (GetWebauthnCredentialByCredentialID _ d); [by intros [= _ <-]|].
  destruct (present _ _); [done|]. destruct (negb _); [done|]. by intros [= _ <-].
Qed.
Lemma same_relink uid cred : keeps (on_store same_sessions) (exec (RelinkMultisigMembersByCredential uid cred)).
Proof. apply same_writes. by intros d a d' [= _ <-]. Qed.
Lemma same_account row : keeps (on_store same_sessions) (exec (UpsertSmartAccount row)).
Proof.
  apply same_writes. intros d a d'. unfold UpsertSmartAccount.
  destruct (GetSmartAccountByCredentialID _ _); [by intros [= _ <-]|].
  destruct (present _ _); [done|]. destruct (exists_row _ _); [done|]. destruct (negb _); [done|]. by intros [= _ <-].
Qed.
Lemma same_user id t : keeps (on_store same_sessions) (exec (InsertWebappUser id t)).
Proof. apply same_writes. intros d a d'. unfold InsertWebappUser. destruct (present _ _); [done|]. by intros [= _ <-]. Qed.
Lemma same_count cred n : keeps (on_store same_sessions) (exec (UpdateWebauthnCredentialSignCount cred n)).
Proof. apply same_writes. by intros d a d' [= _ <-]. Qed.
Lemma same_unverified {A} ctx (r : res A) : keeps (on_store same_sessions) (or_unverified (S := W) ctx r).
Proof. unfold or_unverified. destruct r; keeps. Qed.
Lemma same_require ctx b : keeps (on_store same_sessions) (require (S := W) ctx b).
Proof. unfold require. destruct b; keeps. Qed.
Hint Resolve same_consume same_upsert same_relink same_account same_user same_count same_unverified same_require : keeps.

Lemma same_open u p t cdj b h cfg : keeps (on_store same_sessions) (open_response u p t cdj b h cfg).
Proof. unfold open_response, getActiveChallenge. keeps. Qed.
Hint Resolve same_open : keeps.
Lemma same_FinishAuthentication inp : keeps (on_store same_sessions) (FinishAuthentication inp).
Proof. unfold FinishAuthentication, adoptExternalPasskey, adopt_rows. keeps. Qed.
Lemma same_FinishRegistration inp : keeps (on_store same_sessions) (FinishRegistration inp).
Proof. unfold FinishRegistration. keeps. Qed.

Lemma decoded_ok x b (w w' : W) : decoded x w = (Ok b, w') -> Base64.RawURLEncoding_DecodeString x = Ok b /\ w' = w.
Proof. unfold decoded, bad_body, fail. destruct (Base64.RawURLEncoding_DecodeString x); [by intros [= -> ->]|by intros []%throw_ok]. Qed.
Lemma reads_or_fail {A} st c (m : M W A) : keeps (on_store eq) m -> keeps (on_store eq) (or_fail st c m).
Proof. intros Hm. unfold or_fail, fail. keeps. Qed.

(** The assertion a request carries. *)
Definition asserts (userID : string) (req : finishAuthenticationRequest) (inp : FinishAuthenticationInput) : Prop :=
  fa_UserID inp = userID /\ fa_Config inp = webAuthnConfig /\
  Base64.RawURLEncoding_DecodeString (pk_RawID (qa_Response req)) = Ok (fa_CredentialID inp) /\
  Base64.RawURLEncoding_DecodeString (pk_ClientDataJSON (qa_Response req)) = Ok (fa_ClientDataJSON inp) /\
  Base64.RawURLEncoding_DecodeString (pk_AuthenticatorData (qa_Response req)) = Ok (fa_AuthenticatorData inp) /\
  Base64.RawURLEncoding_DecodeString (pk_Sig (qa_Response req)) = Ok (fa_Signature inp).

Lemma authenticated_ok userID h req r (w w' : W) :
  authenticated userID h req w = (Ok r, w') ->
  exists inp, asserts userID req inp /\ signed_in inp r (w_store w) (w_store w') /\ same_sessions (w_store w) (w_store w').
Proof.
  unfold authenticated. intros (raw & w1 & [Hraw ->]%decoded_ok & Hr)%bind_ok.
  apply bind_ok in Hr as (cdj & w2 & [Hcdj ->]%decoded_ok & Hr). apply bind_ok in Hr as (ad & w3 & [Had ->]%decoded_ok & Hr).
  apply bind_ok in Hr as (sg & w4 & [Hsg ->]%decoded_ok & Hr). apply or_fail_ok in Hr.
  eexists. split; [|split; [by eapply FinishAuthentication_ok|]]; [by split_and!|].
  by apply (keeps_run _ _ _ _ _ (same_FinishAuthentication _) Hr).
Qed.

Lemma IssueForUser_ok owner s (w w' : W) : IssueForUser owner w = (Ok s, w') ->
  exists uid sid t, uuid_parse owner = Some uid /\ s_ID s = uuid_string sid /\ sessions (w_store w) !! sid = None /\
    w_store w' = set_sessions (<[sid := {| ss_ID := sid; ss_UserID := uid; ss_CreatedAt := t; ss_ExpiresAt := t + SessionTTL |}]>
      (sessions (w_store w))) (w_store w).
Proof.
  unfold IssueForUser. intros (uid & w1 & Hu & Hr)%bind_ok. apply (proj1 (wrap_ok _ _ _ _ _)) in Hu.
  apply lift_ok in Hu as [Hu%parse_uuid_ok <-]. apply bind_ok in Hr as (now & w2 & (-> & ->)%now_ok & Hr).
  apply bind_ok in Hr as (sid & w3 & (-> & ->)%new_uuid_ok & Hr). apply bind_ok in Hr as (x & w4 & Hi & Hr).
  apply (proj1 (wrap_ok _ _ _ _ _)) in Hi. apply exec_run in Hi. apply ret_ok in Hr as [<- <-].
  unfold InsertWebappSession, present in Hi. cbn in Hi. destruct (sessions (w_store w) !! _) eqn:E; [done|].
  destruct (negb _); [done|]. injection Hi as _ <-. eexists uid, _, _. by split_and!.
Qed.

Lemma session_of_owner_ok userID sessionID owner sid (w w' : W) :
  session_of_owner userID sessionID owner w = (Ok sid, w') ->
  owner = userID /\ sid = sessionID /\ w_store w' = w_store w \/
  owner <> userID /\ exists uid k t, uuid_parse owner = Some uid /\ sid = uuid_string k /\ sessions (w_store w) !! k = None /\
    w_store w' = set_sessions (<[k := {| ss_ID := k; ss_UserID := uid; ss_CreatedAt := t; ss_ExpiresAt := t + SessionTTL |}]>
      (sessions (w_store w))) (w_store w).
Proof.
  unfold session_of_owner. destruct (String.eqb_spec owner userID) as [->|Hne]; [intros [<- <-]%ret_ok; by left|].
  intros (s & w1 & Hi%or_fail_ok & Hr)%bind_ok. apply ret_ok in Hr as [<- <-].
  apply IssueForUser_ok in Hi as (uid & k & t & ? & ? & ? & ?). right. split; [done|]. by exists uid, k, t.
Qed.

Lemma reads_account_signed_for cred : keeps (on_store eq) (account_signed_for cred).
Proof.
  unfold account_signed_for, or_fail, fail, GetByCredentialID, ResolveByCredentialID, GetCredentialKeyDataHex, or_no_rows. keeps.
Qed.
Lemma reads_list_accounts seen ids : keeps (on_store eq) (list_accounts seen ids).
Proof.
  revert seen. induction ids as [|c ids IH]; intros seen; cbn; [keeps|]. unfold account_for_credential, optional. keeps; apply IH.
Qed.

Lemma AuthenticationFinish_ok userID sessionID h req sid j (w w' : W) :
  AuthenticationFinish userID sessionID h req w = (Ok (sid, j), w') ->
  exists r w1 w2 w3, authenticated userID h req w = (Ok r, w1) /\
    session_of_owner userID sessionID (au_UserID r) w1 = (Ok sid, w2) /\
    ReplaceProvedCredential sid (au_CredentialID r) w2 = (Ok tt, w3) /\ w_store w' = w_store w3.
Proof.
  unfold AuthenticationFinish. intros (r & w1 & Ha & Hr)%bind_ok. apply bind_ok in Hr as (sid' & w2 & Hs & Hr).
  apply bind_ok in Hr as ([] & w3 & Hp%or_fail_ok & Hr). apply bind_ok in Hr as ([[a k] dep] & w4 & Hq & Hr).
  apply bind_ok in Hr as (l & w5 & Hl%or_fail_ok & Hr). apply ret_ok in Hr as [[= <- _] <-].
  exists r, w1, w2, w3. split_and!; try done.
  pose proof (keeps_run _ _ _ _ _ (reads_account_signed_for _) Hq) as E4.
  assert (keeps (on_store eq) (ListAccountsForProvedCredentials [au_CredentialID r])) as Hk
    by apply reads_list_accounts.
  pose proof (keeps_run _ _ _ _ _ Hk Hl) as E5. unfold on_store in E4, E5. congruence.
Qed.

Lemma signed_in_owner inp r (d d' : Store) : signed_in inp r d d' -> exists uid, au_UserID r = uuid_string uid.
Proof.
  intros (_ & c & ad & _ & _ & _ & _ & [(cred & _ & _ & E & _)|(row & key & uid & _ & _ & _ & _ & E & _)]); eauto.
Qed.

(** C14. A sign-in makes the session the credential owner's. The assertion of the
    request was verified; the session the cookie names afterwards is the request's
    own when the credential belongs to its user, and otherwise a new session of the
    credential's owner; it has proved exactly that credential, and every other session has proved
    what it had. *)
Theorem login_moves_session userID sessionID h req sid j (w w' : W) s0 row0 :
  AuthenticationFinish userID sessionID h req w = (Ok (sid, j), w') ->
  uuid_parse sessionID = Some s0 -> sessions (w_store w) !! s0 = Some row0 -> uuid_string (ss_UserID row0) = userID ->
  exists inp r d1 s row, asserts userID req inp /\ signed_in inp r (w_store w) d1 /\
    uuid_parse sid = Some s /\ sessions (w_store w') !! s = Some row /\ uuid_string (ss_UserID row) = au_UserID r /\
    (au_UserID r = userID /\ sid = sessionID \/ au_UserID r <> userID /\ sessions (w_store w) !! s = None) /\
    (forall s', proved_set s' (w_store w') = if decide (s' = s) then {[au_CredentialID r]} else proved_set s' (w_store w)).
Proof.
  intros (r & w1 & w2 & w3 & Ha & Hs & Hp & E)%AuthenticationFinish_ok Hp0 Hr0 Hu0.
  apply authenticated_ok in Ha as (inp & Hi & Hin & Es & Ep & _). destruct (signed_in_owner _ _ _ _ Hin) as [uid Hown].
  exists inp, r, (w_store w1). rewrite E. apply session_of_owner_ok in Hs as [(Eo & -> & E2)|(Hne & uid' & k & t & Hu & -> & Hk & E2)].
  - exists s0, row0. apply (ReplaceProvedCredential_ok _ _ _ _ _ Hp0) in Hp as [Hps Hpp]. rewrite E2 in *.
    split_and!; try done; [congruence|by rewrite Eo|by left|].
    intros s'. rewrite Hpp. unfold proved_set. by rewrite Ep.
  - exists k. eexists. pose proof (uuid_parse_string k) as Hpk.
    apply (ReplaceProvedCredential_ok _ _ _ _ _ Hpk) in Hp as [Hps Hpp]. rewrite E2 in Hps, Hpp.
    rewrite Hown, uuid_parse_string in Hu. injection Hu as <-.
    split_and!; try done; [rewrite Hps; apply lookup_insert_eq|done|right; split; [done|by rewrite <- Es]|].
    intros s'. rewrite Hpp. unfold proved_set. cbn. by rewrite Ep.
Qed.

(** The registration response a request carries. *)
Definition registers (userID : string) (req : finishRegistrationRequest) (inp : FinishRegistrationInput) : Prop :=
  fr_UserID inp = userID /\ fr_Config inp = webAuthnConfig /\
  Base64.RawURLEncoding_DecodeString (pk_ClientDataJSON (qf_Response req)) = Ok (fr_ClientDataJSON inp) /\
  Base64.RawURLEncoding_DecodeString (pk_AttestationObject (qf_Response req)) = Ok (fr_AttestationObject inp).

Lemma registered_ok userID h req raw r (w w' : W) :
  registered userID h req w = (Ok (raw, r), w') ->
  exists inp, registers userID req inp /\ registers_as inp r (w_store w) (w_store w') /\ same_sessions (w_store w) (w_store w').
Proof.
  unfold registered. intros (raw' & w1 & [Hraw ->]%decoded_ok & Hr)%bind_ok.
  apply bind_ok in Hr as (cdj & w2 & [Hcdj ->]%decoded_ok & Hr). apply bind_ok in Hr as (att & w3 & [Hatt ->]%decoded_ok & Hr).
  apply bind_ok in Hr as (c & w4 & Hf%or_fail_ok & Hr). apply ret_ok in Hr as [[= -> ->] <-].
  eexists. split; [|split; [by eapply FinishRegistration_ok|]]; [by split_and!|].
  by apply (keeps_run _ _ _ _ _ (same_FinishRegistration _) Hf).
Qed.

(** The row of a signer that is not on the chain yet, new or with a new label. *)
Definition pending_row (address cred : string) (d d' : Store) : Prop :=
  exists k row, account_signers d' = <[k := row]> (account_signers d) /\ as_SmartAccountAddress row = address /\
    as_CredentialID row = Some cred /\ (forall old, account_signers d !! k = Some old -> as_ContextRuleID row = as_ContextRuleID old) /\
    (account_signers d !! k = None -> as_ContextRuleID row = None) /\ d' = set_account_signers (account_signers d') d.

Lemma AttachCredential_ok address cred label (w w' : W) :
  keyed as_ID (account_signers (w_store w)) ->
  AttachCredential address cred label w = (Ok tt, w') -> pending_row address cred (w_store w) (w_store w').
Proof.
  intros Hid. unfold AttachCredential. intros (a & w1 & Ha & Hr)%bind_ok.
  assert (w_store w1 = w_store w) as E.
  { assert (keeps (on_store eq) (or_no_rows ErrAccountSignerUnknownAccount "get smart account"
      (query (GetSmartAccountByAddress address)))) as Hk by (unfold or_no_rows; keeps).
    pose proof (keeps_run _ _ _ _ _ Hk Ha) as Hk'. unfold on_store in Hk'. congruence. }
  apply bind_ok in Hr as (id & w2 & (-> & ->)%new_uuid_ok & Hr). apply bind_ok in Hr as (now & w3 & (-> & ->)%now_ok & Hr).
  apply bind_ok in Hr as (row & w4 & Hu & Hr). apply (proj1 (wrap_ok _ _ _ _ _)) in Hu. apply exec_run in Hu.
  apply ret_ok in Hr as [_ <-]. cbn [tick w_store] in Hu. rewrite E in Hu. unfold UpsertPendingCredentialSigner in Hu.
  destruct (select_one (signer_of address cred) _) as [old|e] eqn:Es.
  - injection Hu as <- <-. apply select_one_ok in Es as [[Ha' Hc]%andb_prop [k Hk]]. pose proof (Hid _ _ Hk) as Hold.
    eexists (as_ID old), _. split; [reflexivity|]. cbn. split; [by apply String.eqb_eq|].
    split; [|split; [|split; [|done]]].
    + by apply bool_decide_eq_true in Hc.
    + intros o. rewrite Hold, Hk. by intros [= <-].
    + by rewrite Hold, Hk.
  - unfold present in Hu. destruct (account_signers (w_store w) !! _) eqn:Ek; [done|]. destruct (negb _); [done|].
    injection Hu as <- <-. eexists _, _. split; [reflexivity|]. split_and!; try done. cbn. intros o. by rewrite Ek.
Qed.

Lemma add_proved_best_effort sessionID sid cred r (w w' : W) :
  uuid_parse sessionID = Some sid -> attempt (AddProvedCredential sessionID cred) w = (Ok r, w') ->
  w_store w' = w_store w \/ exists t, w_store w' = set_proved (<[(sid, cred) := t]> (proved (w_store w))) (w_store w).
Proof.
  intros Hp Ha. apply (proj1 (attempt_ok _ _ _ _)) in Ha. destruct r as [[]|e]; [right; by eapply AddProvedCredential_ok|left].
  unfold AddProvedCredential in Ha. rewrite (proj2 (parse_uuid_ok _ _) Hp) in Ha.
  apply bind_err in Ha as [[=]|(? & ? & Hl & Ha)].
  apply (proj1 (wrap_ok _ _ _ _ _)) in Hl. apply lift_ok in Hl as [[= <-] <-].
  apply bind_err in Ha as [[=]|(now & w1 & (-> & ->)%now_ok & Ha)].
  unfold wrap in Ha. destruct (exec _ _) as [[u|e'] w2] eqn:Ex; [done|]. injection Ha as _ <-. by apply exec_err in Ex as [-> _].
Qed.

(** A backup passkey is attached for a signer of the account only: the session
    has proved a credential recorded as a signer of it. The new passkey's
    registration was verified; the account gets one pending signer row, whose
    context rule is left as it was, or absent; the session may have proved the new
    passkey, and nothing else changed beyond the registration — no transaction was
    sent to the chain. *)
Theorem attach_needs_signer userID sessionID address h req j (w w' : W) :
  AttachSignerFinish userID sessionID address h req w = (Ok j, w') -> keyed as_ID (account_signers (w_store w)) ->
  proved_signer sessionID (qf_CallerCredentialID req) address (w_store w) /\
  exists inp r d1 d2 sid, registers userID req inp /\ registers_as inp r (w_store w) d1 /\ same_sessions (w_store w) d1 /\
    pending_row address (rc_CredentialID r) d1 d2 /\ uuid_parse sessionID = Some sid /\
    (w_store w' = d2 \/ exists t, w_store w' = set_proved (<[(sid, rc_CredentialID r) := t]> (proved d2)) d2) /\
    chain (w_store w') = chain (w_store w).
Proof.
  unfold AttachSignerFinish. intros Hr Hk. apply bind_ok in Hr as ([] & w1 & [E1 Hp]%requireProvedSigner_ok & Hr). split; [done|].
  apply bind_ok in Hr as ([raw r] & w2 & (inp & Hi & Has & Hs)%registered_ok & Hr). rewrite E1 in *.
  apply bind_ok in Hr as (q & w3 & Ha & Hr). apply (proj1 (attempt_ok _ _ _ _)) in Ha. destruct q as [[]|e];
    [|by destruct (errors_is _ _); apply throw_ok in Hr].
  apply AttachCredential_ok in Ha; [|destruct Hs as (_ & _ & _ & ->); exact Hk].
  apply bind_ok in Hr as (q & w4 & Hadd & Hr). apply ret_ok in Hr as [_ <-]. pose proof Hp as (sid & _ & Hsid & _).
  apply (add_proved_best_effort _ _ _ _ _ _ Hsid) in Hadd. exists inp, r, (w_store w2), (w_store w3), sid.
  destruct Ha as (k & row & Hrow & ? & ? & ? & ? & E3). destruct Hs as (? & ? & Hchain & ?). split_and!; try done.
  - by exists k, row.
  - rewrite <- Hchain. rewrite E3 in Hadd. destruct Hadd as [-> |[t ->]]; done.
Qed.
End Passkeys.

(** ** Transaction routes *)
Section Transactions.
Context `{StellarSDK} `{Network} `{SubmitNetwork} `{Gasless} `{GaslessQuotes} `{Env} `{ServiceConfig} `{BuilderConfig}.
Context `{EnvelopeCodec} `{Json SimulationSummary} `{Json (list CatalogAsset)} `{UuidLib} `{Unicode} `{Deployment} `{HandlerConfig}.
Abbreviation W := (World Store).

Inductive tx_route :=
  | RtSend (req : buildSendRequest)
  | RtSubmitWebAuthn (req : submitWebAuthnRequest)
  | RtSubmitDelegated (req : submitDelegatedRequest)
  | RtPrepareSign (req : prepareSignRequest)
  | RtSetupSend (req : setupSendRulesRequest)
  | RtSetupSwap (req : setupSwapRulesRequest)
  | RtCounter (smartAccountAddress signerG : string)
  | RtDelegatedCounter (smartAccountAddress gAddress : string)
  | RtSwap (req : buildSwapRequest).
Definition serve_tx (rt : tx_route) : M W json :=
  match rt with
  | RtSend req => BuildSend_handler req
  | RtSubmitWebAuthn req => SubmitWebAuthn_handler req
  | RtSubmitDelegated req => SubmitDelegated_handler req
  | RtPrepareSign req => PrepareSign_handler req
  | RtSetupSend req => SetupSendRules_handler req
  | RtSetupSwap req => SetupSwapRules_handler req
  | RtCounter s g => BuildCounter_handler s g
  | RtDelegatedCounter s g => BuildDelegatedCounter_handler s g
  | RtSwap req => BuildSwap_handler req
  end.
(** The network the request names; the counter routes name none. *)
Definition named (rt : tx_route) : option string :=
  match rt with
  | RtSend req => Some (qs_Network req)
  | RtSubmitWebAuthn req => Some (qw_Network req)
  | RtSubmitDelegated req => Some (qd_Network req)
  | RtPrepareSign req => Some (qp_Network req)
  | RtSetupSend req => Some (qr_Network req)
  | RtSetupSwap req => Some (qu_Network req)
  | RtSwap req => Some (qx_Network req)
  | _ => None
  end.

(** The answers to a request that is not looked at further. *)
Definition refusals : list (string * string) :=
  [("400", "internal_error"); ("400", "network_mismatch"); ("400", "invalid_network")].
Definition gasless_answers : list (string * string) :=
  [("400", "insufficient_fee_balance"); ("409", "fee_quote_stale"); ("400", "fee_rule_not_found");
   ("429", "too_many_failed_transactions"); ("429", "sponsorship_limit_reached"); ("503", "service_unavailable")].
Definition no_rule : string * string := ("409", "signer_rule_not_found").
(** What each route can answer besides. *)
Definition route_table (rt : tx_route) : list (string * string) :=
  match rt with
  | RtSend _ => ("500", "internal_error") :: ("400", "asset_not_found") :: no_rule :: gasless_answers
  | RtSubmitWebAuthn _ | RtSubmitDelegated _ => ("400", "validation_error") :: gasless_answers
  | RtPrepareSign _ => [no_rule; ("409", "NO_CONTEXT_RULE"); ("409", "SIGNER_MISMATCH reconfigure_default_rule");
                        ("400", "validation_error"); ("500", "internal_error")]
  | RtSetupSend _ => [("500", "internal_error"); ("400", "asset_not_found"); no_rule]
  | RtSetupSwap _ => [no_rule]
  | RtCounter _ _ | RtDelegatedCounter _ _ => [("500", "internal_error")]
  | RtSwap _ => no_rule :: ("409", "SIGNER_MISMATCH reconfigure_swap_rule") :: ("400", "validation_error")
                :: ("500", "internal_error") :: gasless_answers
  end.
Definition answer_error (a : string * string) : error := Sentinel (fst a +:+ " " +:+ snd a).

(** Every failure is one of the answers [T]. *)
Definition fails_in (T : list (string * string)) {A} (m : M W A) : Prop :=
  forall w e w', m w = (Err e, w') -> exists a, a ∈ T /\ e = answer_error a.
Lemma fails_bind T {A B} (m : M W A) (k : A -> M W B) : fails_in T m -> (forall a, fails_in T (k a)) -> fails_in T (bind m k).
Proof. intros Hm Hk w e w' [He|(a & w1 & _ & He)]%bind_err; [by eapply Hm|by eapply Hk]. Qed.
Lemma fails_ret T {A} (a : A) : fails_in T (ret a).
Proof. by intros w e w'. Qed.
Lemma fails_fail T {A} st c : (st, c) ∈ T -> fails_in T (fail (A := A) st c).
Proof. intros Hin w e w' [= <- _]. by exists (st, c). Qed.
Lemma fails_bound T l : ("400", "internal_error") ∈ T -> fails_in T (bound l).
Proof. intros Hin. unfold bound. destruct (existsb _ _); [by apply fails_fail|apply fails_ret]. Qed.
Lemma fails_signer T t g : ("400", "internal_error") ∈ T -> fails_in T (named_signer t g).
Proof. intros Hin. unfold named_signer. destruct (_ && _); [by apply fails_fail|apply fails_ret]. Qed.
Lemma fails_network T raw : ("400", "network_mismatch") ∈ T -> ("400", "invalid_network") ∈ T ->
  fails_in T (named_network webappx raw).
Proof.
  intros Hm Hn. unfold named_network. destruct (ParseNetwork raw); [apply fails_ret|].
  destruct (errors_is _ _); by apply fails_fail.
Qed.
Lemma fails_catalog T : ("500", "internal_error") ∈ T -> fails_in T catalog.
Proof. intros Hin. unfold catalog. destruct (GetAssetCatalog _); [apply fails_ret|by apply fails_fail]. Qed.
Lemma fails_answered T {A} errs (m : M W A) : (forall e, errs e ∈ T) -> fails_in T (answered errs m).
Proof.
  intros Hin. unfold answered. apply fails_bind; [by intros w e w' []%attempt_no_err|].
  intros [a|e]; [apply fails_ret|apply fails_fail]. by rewrite <- surjective_pairing.
Qed.

(** Membership in a table that is written out. *)
Ltac in_table := repeat first [left | right].
Lemma gasless_in e a : failGasless e = Some a -> a ∈ gasless_answers.
Proof.
  unfold failGasless. repeat case_match; intros [= <-]; in_table.
Qed.
Lemma answer_of_in table otherwise (T : list (string * string)) e : (forall s a, (s, a) ∈ table -> a ∈ T) -> otherwise ∈ T -> answer_of table otherwise e ∈ T.
Proof.
  intros Ht Ho. induction table as [|[s a] table IH]; cbn; [done|]. destruct (errors_is e s); [by eapply Ht; left|].
  apply IH. intros s' a' Hin. by eapply Ht; right.
Qed.
(** An error mapping with a gasless case first. *)
Lemma gasless_first_in (T : list (string * string)) e rest : (forall a, a ∈ gasless_answers -> a ∈ T) -> rest ∈ T ->
  match failGasless e with Some a => a | None => rest end ∈ T.
Proof. intros Hg Hr. destruct (failGasless e) eqn:E; [by apply Hg, (gasless_in e)|done]. Qed.

Lemma errors_answered rt :
  let T := (refusals ++ route_table rt)%list in
  match rt with
  | RtSend _ => forall e, buildSend_errors e ∈ T
  | RtSubmitWebAuthn _ | RtSubmitDelegated _ => forall e, submit_errors e ∈ T
  | RtPrepareSign _ => forall e, prepareSignErrorResponse e ∈ T
  | RtSetupSend _ => forall e, setupSend_errors e ∈ T
  | RtSetupSwap _ => forall e, setupSwap_errors e ∈ T
  | RtCounter _ _ | RtDelegatedCounter _ _ => forall e, counter_errors e ∈ T
  | RtSwap _ => forall e, buildSwapErrorResponse e ∈ T
  end.
Proof.
  destruct rt; intros T e; unfold T, buildSend_errors, submit_errors, buildSwapErrorResponse, prepareSignErrorResponse,
    setupSend_errors, setupSwap_errors, counter_errors; try apply gasless_first_in.
  all: try (intros a Ha; cbn [route_table]; set_solver).
  all: try (apply answer_of_in; [intros target ans Hin;
    repeat (apply elem_of_cons in Hin as [[= -> ->]|Hin]; [in_table|]); by apply not_elem_of_nil in Hin|]).
  all: in_table.
Qed.

(** A step without effects. *)
Definition pure {A} (m : M W A) : Prop := forall w, snd (m w) = w.
Lemma pure_bound l : pure (bound l).
Proof. intros w. unfold bound. by destruct (existsb _ _). Qed.
Lemma pure_signer t g : pure (named_signer t g).
Proof. intros w. unfold named_signer. by destruct (_ && _). Qed.
Lemma stops_network {A} raw (k : string -> M W A) : is_ok (ParseNetwork raw) = false -> pure (bind (named_network webappx raw) k).
Proof.
  intros Hn w. unfold bind, named_network, fail. destruct (ParseNetwork raw); [done|]. by destruct (errors_is _ _).
Qed.
Lemma pure_bind {A B} (m : M W A) (k : A -> M W B) : pure m -> (forall a, pure (k a)) -> pure (bind m k).
Proof. intros Hm Hk w. unfold bind. specialize (Hm w). destruct (m w) as [[a|e] w1]; cbn in *; [subst; apply Hk|done]. Qed.
Lemma pure_bad {A} : pure (bad_body (A := A)).
Proof. by intros w. Qed.
Lemma refused_network rt raw : named rt = Some raw -> is_ok (ParseNetwork raw) = false -> pure (serve_tx rt).
Proof.
  intros Hn Hp. destruct rt; injection Hn as <- || discriminate Hn; cbn [serve_tx];
    unfold BuildSend_handler, SubmitWebAuthn_handler, SubmitDelegated_handler, PrepareSign_handler, SetupSendRules_handler,
      SetupSwapRules_handler, BuildSwap_handler; apply pure_bind; try apply pure_bound; intros _.
  all: try (destruct (_ && _); [apply pure_bad|]); try (destruct (negb _); [apply pure_bad|]).
  all: first [by apply stops_network | apply pure_bind; [apply pure_signer|intros _; by apply stops_network]].
Qed.

(** Every failure of a transaction route is one of the answers of its table, and
    nothing else: a refused request, the service's own errors, and, where a bundled
    or sponsored transaction is planned or sent, those of the gasless service. A
    request for a network the deployment does not serve is refused before anything
    is read, called or written. *)
Theorem route_answers rt (w w' : W) e :
  serve_tx rt w = (Err e, w') ->
  (exists a, a ∈ (refusals ++ route_table rt)%list /\ e = answer_error a) /\
  (forall raw, named rt = Some raw -> is_ok (ParseNetwork raw) = false -> w' = w).
Proof.
  intros Hr. split.
  - pose proof (errors_answered rt) as He. assert (fails_in (refusals ++ route_table rt)%list (serve_tx rt)) as Hf; [|by eapply Hf].
    destruct rt; cbn zeta in He; cbn [serve_tx];
      unfold BuildSend_handler, SubmitWebAuthn_handler, SubmitDelegated_handler, PrepareSign_handler, SetupSendRules_handler,
        SetupSwapRules_handler, BuildSwap_handler, BuildCounter_handler, BuildDelegatedCounter_handler, bad_body.
    all: repeat match goal with
      | |- forall _, fails_in _ _ => intros ?
      | |- fails_in _ (answered _ _) => apply fails_answered; exact He
      | |- fails_in _ (bind _ _) => apply fails_bind
      | |- fails_in _ (ret _) => apply fails_ret
      | |- fails_in _ (bound _) => apply fails_bound; in_table
      | |- fails_in _ (named_signer _ _) => apply fails_signer; in_table
      | |- fails_in _ (named_network _ _) => apply fails_network; in_table
      | |- fails_in _ catalog => apply fails_catalog; in_table
      | |- fails_in _ (fail _ _) => apply fails_fail; in_table
      | |- fails_in _ (if ?b then _ else _) => destruct b
      end.
  - intros raw Hn Hp. pose proof (refused_network rt raw Hn Hp w) as E. by rewrite Hr in E.
Qed.
End Transactions.

Section Witnesses.
Import WebAuthn Demo DemoServices DemoProposals DemoSubmit DemoBuild.
#[local] Existing Instance CeremonyTheorems.demo_cbor.
#[local] Existing Instance CeremonyTheorems.demo_webauthn.
#[local] Existing Instance CeremonyTheorems.demo_json.
#[local] Existing Instance ceremony_env.
#[local] Instance site_config : WebAuthnHandlerConfig := {| webAuthnConfig := demo_site |}.
#[local] Instance demo_deployment : Deployment := {| Get := "testnet"; Get_valid := or_intror (or_introl eq_refl) |}.
#[local] Instance demo_catalog : HandlerConfig :=
  {| assetCatalogConfig := {| acc_AllowlistJSON := ""; acc_NativeSAC := ""; acc_USDCSAC := "" |} |}.
#[local] Instance no_allowlist : Json (list CatalogAsset) := {|
  json_marshal l := Err (Errorf "json"); json_unmarshal s := Err (Errorf "json") |}.

Definition raw_url (s : string) : string := Base64.RawURLEncoding_EncodeToString s.
Definition no_headers : ceremonyHeaders :=
  {| hd_LatchChromeExtensionId := ""; hd_ChromeExtensionId := ""; hd_Origin := ""; hd_Referer := ""; hd_Host := "" |}.
Definition account_for (user : uuid) (cred : string) : WebappSmartAccount :=
  {| sa_ID := 60%N; sa_UserID := user; sa_CredentialID := cred; sa_KeyDataHex := "k"; sa_SaltHex := "";
     sa_SmartAccountAddress := "CS"; sa_Deployed := 1; sa_CreatedAt := 0 |}.
Definition session_7 : WebappSession := {| ss_ID := 7%N; ss_UserID := 2%N; ss_CreatedAt := 0; ss_ExpiresAt := 9000 |}.

(** User 1 signs in from the session 7 of user 2, which has proved another passkey. *)
Definition w_shared : World Store :=
  MkWorld (set_proved {[(7%N, "other") := 0]} (set_sessions {[7%N := session_7]}
    (set_smart_accounts {[60%N := account_for 1%N (wc_CredentialID victim_row)]} (w_store w_before)))) 0.
Definition opened := BeginAuthentication "2" "latch.app" "https://latch.app" w_shared.
Definition login_request : finishAuthenticationRequest :=
  let cdj := join ["webauthn.get"; challenge_of ao_Challenge (fst opened); "https://latch.app"] in
  let ad := head (ascii_of_nat 1) (ascii_of_nat 6) in
  {| qa_Response := {| pk_RawID := raw_url "cred-V"; pk_ClientDataJSON := raw_url cdj; pk_AttestationObject := "";
       pk_AuthenticatorData := raw_url ad;
       pk_Sig := raw_url (demo_sign (String uncompressed (point "v")) (signedDataDigest ad cdj)); pk_Transports := [] |};
     qa_ChromeExtensionID := "" |}.
Definition login_run := AuthenticationFinish "2" "7" no_headers login_request (snd opened).

Lemma login_moves_session_witness :
  exists sid j w' s, login_run = (Ok (sid, j), w') /\ uuid_parse sid = Some s /\ s <> 7%N /\
    proved_set s (w_store w') = {[wc_CredentialID victim_row]} /\ proved_set 7%N (w_store w') = proved_set 7%N (w_store (snd opened)).
Proof.
  destruct login_run as [r w'] eqn:E. pose proof (f_equal (fun x => match fst x with Ok (sid, _) => sid | Err _ => "" end) E) as Hv.
  vm_compute in Hv. destruct r as [[sid j]|e]; [|discriminate Hv]. subst sid.
  assert (sessions (w_store (snd opened)) !! 7%N = Some session_7) as Hrow by (vm_compute; reflexivity). unfold login_run in E.
  destruct (login_moves_session "2" "7" no_headers login_request _ j (snd opened) w' 7%N session_7 E eq_refl Hrow eq_refl)
    as (inp & r & d1 & s & row & (_ & _ & Hraw & _) & [Hid _] & Hs & _ & _ & _ & Hp).
  eexists _, j, w', s. split; [reflexivity|]. split; [exact Hs|]. vm_compute in Hs. injection Hs as <-.
  split; [done|]. rewrite (Hp 7%N), decide_False by done. split; [|reflexivity].
  rewrite (Hp _), decide_True, Hid by done. unfold credential_text.
  change (pk_RawID (qa_Response login_request)) with (raw_url "cred-V") in Hraw. unfold raw_url in Hraw.
  rewrite Base64.RawURL_round_trip in Hraw. injection Hraw as <-. reflexivity.
Defined.

(** User 2 has proved the passkey of its account, and attaches another. *)
Definition w_owner : World Store :=
  MkWorld (set_credentials ∅ (set_proved {[(7%N, "A") := 0]} (set_sessions {[7%N := session_7]}
    (set_smart_accounts {[60%N := account_for 2%N "A"]} (w_store w_before))))) 0.
Definition attaching := BeginRegistration "2" "latch.app" "https://latch.app" w_owner.
Definition attach_request : finishRegistrationRequest :=
  let inp := posted (challenge_of ro_Challenge (fst attaching)) in
  {| qf_Response := {| pk_RawID := raw_url "cred-V"; pk_ClientDataJSON := raw_url (fr_ClientDataJSON inp);
       pk_AttestationObject := raw_url (fr_AttestationObject inp); pk_AuthenticatorData := ""; pk_Sig := ""; pk_Transports := [] |};
     qf_ChromeExtensionID := ""; qf_DisplayName := " backup "; qf_Seq := 0; qf_CallerCredentialID := "A" |}.

Lemma attach_needs_signer_witness :
  exists j w', AttachSignerFinish "2" "7" "CS" no_headers attach_request (snd attaching) = (Ok j, w') /\
    proved_signer "7" "A" "CS" (w_store (snd attaching)) /\ chain (w_store w') = chain (w_store (snd attaching)).
Proof.
  destruct (succeeds (AttachSignerFinish "2" "7" "CS" no_headers attach_request) (snd attaching)) as (j & w' & Hr);
    [vm_compute; reflexivity|].
  assert (keyed as_ID (account_signers (w_store (snd attaching)))) as Hk.
  { assert (account_signers (w_store (snd attaching)) = ∅) as -> by (vm_compute; reflexivity). intros k s Hs. by rewrite lookup_empty in Hs. }
  destruct (attach_needs_signer "2" "7" "CS" no_headers attach_request j (snd attaching) w' Hr Hk)
    as (Hp & inp & r & d1 & d2 & sid & _ & _ & _ & _ & _ & _ & Hc).
  exists j, w'. split; [exact Hr|]. split; [exact Hp|exact Hc].
Defined.

(** A transfer for the main network, asked of a test deployment. *)
Definition elsewhere : tx_route := RtSend {|
  qs_Network := "mainnet"; qs_SmartAccountAddress := "CS"; qs_SignerType := "passkey"; qs_AssetID := "XLM"; qs_ContractID := "";
  qs_Recipient := "GR"; qs_Amount := "1"; qs_SignerG := ""; qs_KeyDataHex := "" |}.
Lemma route_answers_witness :
  exists e, serve_tx (H0 := wallet_n) elsewhere w_before = (Err e, w_before) /\
    exists a, a ∈ (refusals ++ route_table elsewhere)%list /\ e = answer_error a.
Proof.
  destruct (serve_tx (H0 := wallet_n) elsewhere w_before) as [r w'] eqn:E.
  pose proof (f_equal (fun x => is_ok (fst x)) E) as Hv. vm_compute in Hv. destruct r as [a|e]; [discriminate Hv|].
  destruct (route_answers (H0 := wallet_n) elsewhere w_before w' e E) as [Ha Hw].
  exists e. rewrite (Hw "mainnet" eq_refl) by (vm_compute; reflexivity). split; [reflexivity|exact Ha].
Defined.
End Witnesses.
End RouteTheorems.
