(* ===== verification/MobileStore.v ===== *)
(** * The tables behind the mobile API (internal/db/generated)

    Registered accounts, the cosign queue, push registrations, devices,
    notifications, bundles, memberships, backups and their keys, with the
    constraints of the migrations. Rows under their primary or unique key; the
    pushes handed to the notifier are recorded in the order they left. *)

From S2P Require Export Tokens Http.
From S2P Require Import Instances.

(** [VARCHAR(n)] counts characters: the bytes that do not continue one. *)
Definition continues (c : ascii) : bool := let n := N_of_ascii c in ((128 <=? n) && (n <? 192))%N.
Fixpoint characters (s : string) : nat :=
  match s with "" => 0 | String c s' => (if continues c then 0 else 1) + characters s' end.
Definition ErrTooLong : error := Errorf "pq: value too long for type character varying".
Definition ErrCheck : error := Errorf "pq: new row violates check constraint".

Record RegistrationRow := { rg_ID : uuid; rg_UserID : uuid; rg_CreatedAt : Z; rg_UpdatedAt : Z }.
Record CosignRow := {
  cs_ID : uuid; cs_QueueIndex : string; cs_UnsignedTxXdr : string; cs_Network : string; cs_Threshold : Z;
  cs_Status : string; cs_SubmittedTxHash : option string; cs_ExpiresAt : Z; cs_CreatedAt : Z; cs_UpdatedAt : Z }.
Record CosignSignatureRow := {
  cg_ID : uuid; cg_RequestID : uuid; cg_BlindSignerID : string; cg_AuthEntryXdr : string; cg_CreatedAt : Z }.
Record BundleRow := { bd_PickupKey : string; bd_Bundle : string; bd_CreatedAt : Z; bd_UpdatedAt : Z; bd_Uploader : string }.
Record MembershipRow := { mb_WalletRef : string; mb_Announcer : string; mb_CreatedAt : Z }.
(** A row belongs to a user or to a wallet: exactly one of the two columns is set. *)
Inductive Subject := SubjectUser (u : uuid) | SubjectWallet (address : string).
#[export] Instance subject_eq_dec : EqDecision Subject.
Proof. solve_decision. Defined.
Record DeviceRow := { dv_Subject : Subject; dv_PushToken : string; dv_Platform : string }.
Record NotificationRow := {
  nt_ID : uuid; nt_Subject : Subject; nt_Type : string; nt_Title : string; nt_Body : string;
  nt_Metadata : option string; nt_DedupeKey : option string; nt_ReadAt : option Z; nt_CreatedAt : Z }.
Record BackupRow := {
  bk_ID : uuid; bk_EncryptedBlob : option string; bk_Iv : option string; bk_AuthTag : option string;
  bk_ClientEncryptedBlob : option string; bk_EncryptionVersion : Z }.
Record Push := { pu_Tokens : list string; pu_Title : string; pu_Body : string; pu_Data : list (string * string) }.

Record MobileData := MkMobileData {
  d_tokens : TokenStore;
  d_registrations : gmap string RegistrationRow;
  d_cosign : gmap uuid CosignRow;
  d_signatures : gmap uuid CosignSignatureRow;
  d_queue_tokens : gset (string * string * string);
  d_bundles : gmap string BundleRow;
  d_memberships : gmap (string * string) MembershipRow;
  d_devices : gmap uuid DeviceRow;
  d_notifications : gmap uuid NotificationRow;
  d_backups : gmap uuid BackupRow;
  d_keys : gmap uuid string;
  d_pushes : list Push }.

Module MobileStore.
Implicit Types d : MobileData.

(** The table [users] is the token service's. *)
Definition d_users d : gmap uuid MobileUser := tk_users (d_tokens d).
Definition set_registrations t d := MkMobileData (d_tokens d) t (d_cosign d) (d_signatures d) (d_queue_tokens d) (d_bundles d)
  (d_memberships d) (d_devices d) (d_notifications d) (d_backups d) (d_keys d) (d_pushes d).
Definition set_cosign t d := MkMobileData (d_tokens d) (d_registrations d) t (d_signatures d) (d_queue_tokens d) (d_bundles d)
  (d_memberships d) (d_devices d) (d_notifications d) (d_backups d) (d_keys d) (d_pushes d).
Definition set_signatures t d := MkMobileData (d_tokens d) (d_registrations d) (d_cosign d) t (d_queue_tokens d) (d_bundles d)
  (d_memberships d) (d_devices d) (d_notifications d) (d_backups d) (d_keys d) (d_pushes d).
Definition set_queue_tokens t d := MkMobileData (d_tokens d) (d_registrations d) (d_cosign d) (d_signatures d) t (d_bundles d)
  (d_memberships d) (d_devices d) (d_notifications d) (d_backups d) (d_keys d) (d_pushes d).
Definition set_bundles t d := MkMobileData (d_tokens d) (d_registrations d) (d_cosign d) (d_signatures d) (d_queue_tokens d) t
  (d_memberships d) (d_devices d) (d_notifications d) (d_backups d) (d_keys d) (d_pushes d).
Definition set_memberships t d := MkMobileData (d_tokens d) (d_registrations d) (d_cosign d) (d_signatures d) (d_queue_tokens d)
  (d_bundles d) t (d_devices d) (d_notifications d) (d_backups d) (d_keys d) (d_pushes d).
Definition set_devices t d := MkMobileData (d_tokens d) (d_registrations d) (d_cosign d) (d_signatures d) (d_queue_tokens d)
  (d_bundles d) (d_memberships d) t (d_notifications d) (d_backups d) (d_keys d) (d_pushes d).
Definition set_notifications t d := MkMobileData (d_tokens d) (d_registrations d) (d_cosign d) (d_signatures d) (d_queue_tokens d)
  (d_bundles d) (d_memberships d) (d_devices d) t (d_backups d) (d_keys d) (d_pushes d).
Definition set_backups t d := MkMobileData (d_tokens d) (d_registrations d) (d_cosign d) (d_signatures d) (d_queue_tokens d)
  (d_bundles d) (d_memberships d) (d_devices d) (d_notifications d) t (d_keys d) (d_pushes d).
Definition set_keys t d := MkMobileData (d_tokens d) (d_registrations d) (d_cosign d) (d_signatures d) (d_queue_tokens d)
  (d_bundles d) (d_memberships d) (d_devices d) (d_notifications d) (d_backups d) t (d_pushes d).
Definition set_pushes t d := MkMobileData (d_tokens d) (d_registrations d) (d_cosign d) (d_signatures d) (d_queue_tokens d)
  (d_bundles d) (d_memberships d) (d_devices d) (d_notifications d) (d_backups d) (d_keys d) t.

Definition no_user (u : uuid) d : bool := bool_decide (d_users d !! u = None).
Definition too_long (n : nat) (s : string) : bool := (n <? characters s)%nat.

(** ** smart_account_registrations *)
Definition UpsertSmartAccountRegistration (id uid : uuid) (address : string) (now : Z) d : res (unit * MobileData) :=
  match d_registrations d !! address with
  | Some r => if bool_decide (rg_UserID r = uid)
              then Ok (tt, set_registrations (<[address := {| rg_ID := rg_ID r; rg_UserID := rg_UserID r;
                     rg_CreatedAt := rg_CreatedAt r; rg_UpdatedAt := now |}]> (d_registrations d)) d)
              else Err ErrNoRows
  | None => if too_long 56 address then Err ErrTooLong else
            if existsb (fun r => bool_decide (rg_ID (snd r) = id)) (map_to_list (d_registrations d)) then Err ErrUnique else
            if no_user uid d then Err ErrForeignKey else
            Ok (tt, set_registrations (<[address := {| rg_ID := id; rg_UserID := uid; rg_CreatedAt := now; rg_UpdatedAt := now |}]>
                      (d_registrations d)) d)
  end.
Definition ListSmartAccountsByUserID (uid : uuid) d : res (list string) :=
  Ok (fst <$> merge_sort (fun a b => rg_CreatedAt (snd a) <= rg_CreatedAt (snd b))
        (List.filter (fun r => bool_decide (rg_UserID (snd r) = uid)) (map_to_list (d_registrations d)))).
Definition GetSmartAccountRegistrationUserID (address : string) d : res uuid :=
  match d_registrations d !! address with Some r => Ok (rg_UserID r) | None => Err ErrNoRows end.

(** ** cosign_requests and cosign_signatures *)
Definition InsertCosignRequest (row : CosignRow) d : res (CosignRow * MobileData) :=
  if too_long 64 (cs_QueueIndex row) || too_long 32 (cs_Network row) then Err ErrTooLong else
  if cs_Threshold row <? 1 then Err ErrCheck else
  if present (d_cosign d) (cs_ID row) then Err ErrUnique else
  Ok (row, set_cosign (<[cs_ID row := row]> (d_cosign d)) d).
Definition GetCosignRequest (id : uuid) d : res CosignRow := get_by_id id (d_cosign d).
Definition ListPendingCosignRequests (queueIndex : string) (now : Z) d : res (list CosignRow) :=
  Ok (order_by_desc cs_CreatedAt (select (fun r => String.eqb (cs_QueueIndex r) queueIndex &&
        String.eqb (cs_Status r) "pending" && (now <? cs_ExpiresAt r)) (d_cosign d))).
Definition signed_by (request : uuid) (signer : string) (s : CosignSignatureRow) : bool :=
  bool_decide (cg_RequestID s = request) && String.eqb (cg_BlindSignerID s) signer.
(** A second signature of the same signer is dropped. *)
Definition InsertCosignSignature (row : CosignSignatureRow) d : res (unit * MobileData) :=
  if too_long 128 (cg_BlindSignerID row) then Err ErrTooLong else
  if is_ok (select_one (signed_by (cg_RequestID row) (cg_BlindSignerID row)) (d_signatures d)) then Ok (tt, d) else
  if present (d_signatures d) (cg_ID row) then Err ErrUnique else
  if negb (present (d_cosign d) (cg_RequestID row)) then Err ErrForeignKey else
  Ok (tt, set_signatures (<[cg_ID row := row]> (d_signatures d)) d).
Definition ListCosignSignatures (request : uuid) d : res (list CosignSignatureRow) :=
  Ok (order_by cg_CreatedAt (select (fun s => bool_decide (cg_RequestID s = request)) (d_signatures d))).
Definition cosign_with (status : string) (hash : option string) (now : Z) (r : CosignRow) : CosignRow :=
  {| cs_ID := cs_ID r; cs_QueueIndex := cs_QueueIndex r; cs_UnsignedTxXdr := cs_UnsignedTxXdr r; cs_Network := cs_Network r;
     cs_Threshold := cs_Threshold r; cs_Status := status; cs_SubmittedTxHash := hash; cs_ExpiresAt := cs_ExpiresAt r;
     cs_CreatedAt := cs_CreatedAt r; cs_UpdatedAt := now |}.
Definition pending_row (id : uuid) (r : CosignRow) : bool := bool_decide (cs_ID r = id) && String.eqb (cs_Status r) "pending".
Definition MarkCosignSubmitted (id : uuid) (hash : option string) (now : Z) d : res (unit * MobileData) :=
  if match hash with Some h => too_long 64 h && is_ok (select_one (pending_row id) (d_cosign d)) | None => false end
  then Err ErrTooLong else
  Ok (tt, set_cosign (update_where (pending_row id) (cosign_with "submitted" hash now) (d_cosign d)) d).
Definition CancelCosignRequest (id : uuid) (now : Z) d : res (unit * MobileData) :=
  Ok (tt, set_cosign (update_where (pending_row id) (fun r => cosign_with "cancelled" (cs_SubmittedTxHash r) now r) (d_cosign d)) d).
(** The signatures go with their request. *)
Definition DeleteExpiredCosignRequests (before : Z) d : res (Z * MobileData) :=
  let gone (r : CosignRow) := cs_ExpiresAt r <? before in
  Ok (Z.of_nat (length (select gone (d_cosign d))),
      set_signatures (filter (fun s => present (delete_where gone (d_cosign d)) (cg_RequestID (snd s)) = true) (d_signatures d))
        (set_cosign (delete_where gone (d_cosign d)) d)).

(** ** cosign_push_tokens *)
Definition ReplacePushTokenRegistrations (token : string) d : res (unit * MobileData) :=
  Ok (tt, set_queue_tokens (filter (fun r => fst (fst r) <> token) (d_queue_tokens d)) d).
Definition DeletePushTokenRegistrations (token : string) d : res (unit * MobileData) := ReplacePushTokenRegistrations token d.
Definition InsertPushTokenRegistration (token queueIndex signer : string) d : res (unit * MobileData) :=
  Ok (tt, set_queue_tokens ({[ (token, queueIndex, signer) ]} ∪ d_queue_tokens d) d).
Definition ListPushTokensForQueueExceptSigner (queueIndex signer : string) d : res (list string) :=
  Ok (sort_by (fun s => s) (remove_dups ((fun r : string * string * string => fst (fst r)) <$>
        List.filter (fun r => String.eqb (snd (fst r)) queueIndex && negb (String.eqb (snd r) signer)) (elements (d_queue_tokens d))))).

(** ** wck_bundles *)
Definition UpsertWCKBundle (pickupKey bundle uploader : string) (now : Z) d : res (BundleRow * MobileData) :=
  match d_bundles d !! pickupKey with
  | Some r =>
      if String.eqb (bd_Uploader r) uploader || String.eqb (bd_Uploader r) "" then
        let row := {| bd_PickupKey := pickupKey; bd_Bundle := bundle; bd_CreatedAt := bd_CreatedAt r; bd_UpdatedAt := now;
                      bd_Uploader := uploader |} in Ok (row, set_bundles (<[pickupKey := row]> (d_bundles d)) d)
      else Err ErrNoRows
  | None =>
      let row := {| bd_PickupKey := pickupKey; bd_Bundle := bundle; bd_CreatedAt := now; bd_UpdatedAt := now;
                    bd_Uploader := uploader |} in Ok (row, set_bundles (<[pickupKey := row]> (d_bundles d)) d)
  end.
Definition GetWCKBundle (pickupKey : string) d : res BundleRow :=
  match d_bundles d !! pickupKey with Some r => Ok r | None => Err ErrNoRows end.
Definition DeleteStaleWCKBundles (before : Z) d : res (Z * MobileData) :=
  let kept := filter (fun r => (bd_UpdatedAt (snd r) <? before) = false) (d_bundles d) in
  Ok (Z.of_nat (size (d_bundles d)) - Z.of_nat (size kept), set_bundles kept d).

(** ** wallet_memberships *)
Definition UpsertWalletMembership (member wallet announcer : string) (now : Z) d : res (unit * MobileData) :=
  let created := match d_memberships d !! (member, wallet) with Some r => mb_CreatedAt r | None => now end in
  Ok (tt, set_memberships (<[(member, wallet) := {| mb_WalletRef := wallet; mb_Announcer := announcer; mb_CreatedAt := created |}]>
            (d_memberships d)) d).
Definition ListWalletMembershipsForMember (member : string) d : res (list MembershipRow) :=
  Ok (order_by mb_CreatedAt (snd <$> List.filter (fun r => String.eqb (fst (fst r)) member) (map_to_list (d_memberships d)))).
Definition DeleteStaleWalletMemberships (before : Z) d : res (Z * MobileData) :=
  let kept := filter (fun r => (mb_CreatedAt (snd r) <? before) = false) (d_memberships d) in
  Ok (Z.of_nat (size (d_memberships d)) - Z.of_nat (size kept), set_memberships kept d).

(** ** push_devices: the statements for a user and those for a wallet *)
Definition owned_device (who : Subject) (token : string) (r : DeviceRow) : bool :=
  bool_decide (dv_Subject r = who) && String.eqb (dv_PushToken r) token.
Definition missing_subject (who : Subject) d : bool := match who with SubjectUser u => no_user u d | SubjectWallet _ => false end.
(** The id is the database's choice. *)
Definition upsert_device (id : uuid) (who : Subject) (token platform : string) d : res (unit * MobileData) :=
  if too_long 16 platform then Err ErrTooLong else
  if exists_row (owned_device who token) (d_devices d) then
    Ok (tt, set_devices (update_where (owned_device who token)
              (fun r => {| dv_Subject := who; dv_PushToken := token; dv_Platform := platform |}) (d_devices d)) d)
  else if missing_subject who d then Err ErrForeignKey else
  if present (d_devices d) id then Err ErrUnique else
  Ok (tt, set_devices (<[id := {| dv_Subject := who; dv_PushToken := token; dv_Platform := platform |}]> (d_devices d)) d).
Definition delete_device (who : Subject) (token : string) d : res (unit * MobileData) :=
  Ok (tt, set_devices (delete_where (owned_device who token) (d_devices d)) d).
Definition list_push_tokens (who : Subject) d : res (list string) :=
  Ok (dv_PushToken <$> select (fun r => bool_decide (dv_Subject r = who)) (d_devices d)).
Definition UpsertPushDevice (id uid : uuid) := upsert_device id (SubjectUser uid).
Definition UpsertPushDeviceForWallet (id : uuid) (wallet : string) := upsert_device id (SubjectWallet wallet).
Definition DeletePushDevice (uid : uuid) := delete_device (SubjectUser uid).
Definition DeletePushDeviceForWallet (wallet : string) := delete_device (SubjectWallet wallet).
Definition ListPushTokensForUser (uid : uuid) := list_push_tokens (SubjectUser uid).
Definition ListPushTokensForWallet (wallet : string) := list_push_tokens (SubjectWallet wallet).

(** ** notifications: likewise *)
Definition same_event (row r : NotificationRow) : bool :=
  bool_decide (nt_Subject r = nt_Subject row) && String.eqb (nt_Type r) (nt_Type row) &&
  match nt_DedupeKey row with Some _ => bool_decide (nt_DedupeKey r = nt_DedupeKey row) | None => false end.
(** No row comes back when the event is already recorded. *)
Definition insert_notification (row : NotificationRow) d : res (uuid * MobileData) :=
  if too_long 64 (nt_Type row) then Err ErrTooLong else
  if exists_row (same_event row) (d_notifications d) then Err ErrNoRows else
  if missing_subject (nt_Subject row) d then Err ErrForeignKey else
  if present (d_notifications d) (nt_ID row) then Err ErrUnique else
  Ok (nt_ID row, set_notifications (<[nt_ID row := row]> (d_notifications d)) d).
Definition belongs (who : Subject) (r : NotificationRow) : bool := bool_decide (nt_Subject r = who).
Definition unread (r : NotificationRow) : bool := match nt_ReadAt r with None => true | Some _ => false end.
Definition before_cursor (cursor : option Z) (r : NotificationRow) : bool :=
  match cursor with None => true | Some t => nt_CreatedAt r <? t end.
Definition list_notifications (who : Subject) (cursor : option Z) (limit : nat) d : res (list NotificationRow) :=
  Ok (take limit (order_by_desc nt_CreatedAt (select (fun r => belongs who r && before_cursor cursor r) (d_notifications d)))).
Definition count_unread (who : Subject) d : res Z :=
  Ok (Z.of_nat (length (select (fun r => belongs who r && unread r) (d_notifications d)))).
Definition read_at (now : Z) (r : NotificationRow) : NotificationRow :=
  {| nt_ID := nt_ID r; nt_Subject := nt_Subject r; nt_Type := nt_Type r; nt_Title := nt_Title r; nt_Body := nt_Body r;
     nt_Metadata := nt_Metadata r; nt_DedupeKey := nt_DedupeKey r; nt_ReadAt := Some now; nt_CreatedAt := nt_CreatedAt r |}.
Definition mark_all_read (who : Subject) (now : Z) d : res (unit * MobileData) :=
  Ok (tt, set_notifications (update_where (fun r => belongs who r && unread r) (read_at now) (d_notifications d)) d).
(** The rows affected *)
Definition mark_read (id : uuid) (who : Subject) (now : Z) d : res (Z * MobileData) :=
  let target (r : NotificationRow) := bool_decide (nt_ID r = id) && belongs who r && unread r in
  Ok (Z.of_nat (length (select target (d_notifications d))),
      set_notifications (update_where target (read_at now) (d_notifications d)) d).
Definition InsertNotification := insert_notification.
Definition InsertNotificationForWallet := insert_notification.
Definition ListNotificationsForUser (uid : uuid) := list_notifications (SubjectUser uid).
Definition ListNotificationsForWallet (wallet : string) := list_notifications (SubjectWallet wallet).
Definition CountUnreadNotifications (uid : uuid) := count_unread (SubjectUser uid).
Definition CountUnreadNotificationsForWallet (wallet : string) := count_unread (SubjectWallet wallet).
Definition MarkAllNotificationsRead (uid : uuid) := mark_all_read (SubjectUser uid).
Definition MarkAllNotificationsReadForWallet (wallet : string) := mark_all_read (SubjectWallet wallet).
Definition MarkNotificationRead (id uid : uuid) := mark_read id (SubjectUser uid).
Definition MarkNotificationReadForWallet (id : uuid) (wallet : string) := mark_read id (SubjectWallet wallet).

(** ** credential_backups, one row per user, and user_encryption_keys *)
Definition backup_id_taken (id : uuid) d : bool := existsb (fun r => bool_decide (bk_ID (snd r) = id)) (map_to_list (d_backups d)).
Definition upsert_backup (id uid : uuid) (fresh : BackupRow) (updated : BackupRow -> BackupRow) d : res (unit * MobileData) :=
  match d_backups d !! uid with
  | Some r => Ok (tt, set_backups (<[uid := updated r]> (d_backups d)) d)
  | None => if backup_id_taken id d then Err ErrUnique else if no_user uid d then Err ErrForeignKey else
            Ok (tt, set_backups (<[uid := fresh]> (d_backups d)) d)
  end.
Definition UpsertBackup (id uid : uuid) (blob iv tag : string) (version : Z) : MobileData -> res (unit * MobileData) :=
  upsert_backup id uid
    {| bk_ID := id; bk_EncryptedBlob := Some blob; bk_Iv := Some iv; bk_AuthTag := Some tag; bk_ClientEncryptedBlob := None;
       bk_EncryptionVersion := version |}
    (fun r => {| bk_ID := bk_ID r; bk_EncryptedBlob := Some blob; bk_Iv := Some iv; bk_AuthTag := Some tag;
                 bk_ClientEncryptedBlob := bk_ClientEncryptedBlob r; bk_EncryptionVersion := version |}).
Definition UpsertClientEncryptedBackup (id uid : uuid) (clientBlob : option string) : MobileData -> res (unit * MobileData) :=
  upsert_backup id uid
    {| bk_ID := id; bk_EncryptedBlob := None; bk_Iv := None; bk_AuthTag := None; bk_ClientEncryptedBlob := clientBlob;
       bk_EncryptionVersion := 3 |}
    (fun r => {| bk_ID := bk_ID r; bk_EncryptedBlob := None; bk_Iv := None; bk_AuthTag := None;
                 bk_ClientEncryptedBlob := clientBlob; bk_EncryptionVersion := 3 |}).
Definition BackupExists (uid : uuid) d : res bool := Ok (bool_decide (is_Some (d_backups d !! uid))).
Definition GetBackupByUserID (uid : uuid) d : res BackupRow :=
  match d_backups d !! uid with Some r => Ok r | None => Err ErrNoRows end.
Definition GetClientBlobByUserID (uid : uuid) d : res (option string) :=
  match d_backups d !! uid with Some r => Ok (bk_ClientEncryptedBlob r) | None => Err ErrNoRows end.
(** The key that is stored already wins. *)
Definition UpsertEncryptionKey (uid : uuid) (keyHex : string) d : res (string * MobileData) :=
  match d_keys d !! uid with
  | Some k => Ok (k, d)
  | None => if no_user uid d then Err ErrForeignKey else Ok (keyHex, set_keys (<[uid := keyHex]> (d_keys d)) d)
  end.
Definition GetUserEmailByID (uid : uuid) d : res string :=
  match d_users d !! uid with Some u => Ok (mu_Email u) | None => Err ErrNoRows end.
End MobileStore.
