(* ===== verification/Mobile.v ===== *)
(** * The mobile API: wallet sign-in, proofs of possession, sponsored deployment
    and passkey recovery (wallet_auth_service.go, deploy_proof.go,
    passkey_credential_service.go and the handlers of deployment)

    These flows read and write Redis, the token tables and the recovery index; a
    [Backend] has the three, and each service runs on its own part of it. A
    request arrives bound: its required fields are there. *)

From S2P Require Export WalletNonce WebAuthn Tokens AccountSigners.
From S2P Require Import Instances.

Record Backend := MkBackend { be_redis : RedisStore; be_tokens : TokenStore; be_db : Store }.

(** A service on a part of a larger store. *)
Definition zoom {D E A} (get : D -> E) (put : E -> D -> D) (m : M (World E) A) : M (World D) A := fun w =>
  let '(r, w') := m (MkWorld (get (w_store w)) (w_io w)) in (r, MkWorld (put (w_store w') (w_store w)) (w_io w')).
Definition on_redis {A} : M (World RedisStore) A -> M (World Backend) A :=
  zoom be_redis (fun x b => MkBackend x (be_tokens b) (be_db b)).
Definition on_tokens {A} : M (World TokenStore) A -> M (World Backend) A :=
  zoom be_tokens (fun x b => MkBackend (be_redis b) x (be_db b)).
Definition on_db {A} : M (World Store) A -> M (World Backend) A :=
  zoom be_db (fun x b => MkBackend (be_redis b) (be_tokens b) x).

Class MobileConfig := { webauthnAllowedOrigins : list string }.

Module Mobile.
Import WalletSig WalletNonce WebAuthn Tokens Deploynet Signers Submit SmartAccounts AccountSigners.

Definition ErrInvalidWallet : error := Sentinel "ErrInvalidWallet".
Definition ErrUnsupportedKeyType : error := Sentinel "ErrUnsupportedKeyType".
Definition ErrInvalidWalletNetwork : error := Sentinel "service.ErrInvalidNetwork".
Definition ErrCredentialNotFound : error := Sentinel "ErrCredentialNotFound".

Section Mobile.
Context `{StellarSDK} `{Network} `{SubmitNetwork} `{Gasless} `{UuidLib} `{Unicode} `{Deployment} `{Env} `{ServiceConfig}
  `{KeypairLib} `{FactoryConfig} `{Friendbot} `{WebAuthnLib} `{Jwt} `{AuthConfig} `{MobileConfig}.
Abbreviation W := (World Backend).

(** ** wallet_auth_service.go *)
Definition ParseWalletNetwork (raw : string) : res string :=
  match Resolve raw with
  | Ok network => Ok network
  | Err e => if errors_is e ErrInvalid then Err ErrInvalidWalletNetwork else Err e
  end.

(** The nonce in base64url, its lifetime in seconds and the network. *)
Definition WalletChallenge (wallet keyType network : string) : M W (string * Z * string) :=
  if negb (ValidWalletShape wallet keyType) then throw ErrInvalidWallet else
  let! network := lift (ParseWalletNetwork network) in
  let! ' (nonceHex, ttl) := on_redis (Issue wallet keyType network) in
  let! nonceBytes := lift (hex_decode nonceHex) in
  ret (Base64.RawURLEncoding_EncodeToString nonceBytes, ttl / 1000, network).

Record WalletSignInInput := {
  wi_Wallet : string; wi_KeyType : string; wi_Network : string; wi_NonceB64URL : string; wi_Signature : string;
  wi_AuthenticatorData : string; wi_ClientDataJSON : string; wi_PasskeySignature : string }.

Definition verifyPasskey (inp : WalletSignInInput) (network nonceBytes : string) : M W unit :=
  let! found := attempt (WebAuthnSignerKeys (wi_Wallet inp)) in
  match found with
  | Err e => if errors_is e ErrNoWebAuthnSigner then throw (Wrapf "no webauthn signer registered for wallet" ErrBadSignature)
             else throw e
  | Ok keys => lift (VerifyWebAuthnAssertion keys nonceBytes (wi_AuthenticatorData inp) (wi_ClientDataJSON inp)
                       (wi_PasskeySignature inp) webauthnAllowedOrigins)
  end.

Definition SignIn (inp : WalletSignInInput) : M W (string * string) :=
  if negb (ValidWalletShape (wi_Wallet inp) (wi_KeyType inp)) then throw ErrInvalidWallet else
  let! network := lift (ParseWalletNetwork (wi_Network inp)) in
  match Base64.RawURLEncoding_DecodeString (wi_NonceB64URL inp) with
  | Err _ | Ok "" => throw ErrNonceInvalid
  | Ok nonceBytes =>
      let! _ := on_redis (Consume (hex_encode nonceBytes) (wi_Wallet inp) (wi_KeyType inp) network) in
      let! _ := if String.eqb (wi_KeyType inp) KeyTypeEd25519
                then lift (VerifyEd25519 (wi_Wallet inp) nonceBytes (wi_Signature inp))
                else if String.eqb (wi_KeyType inp) KeyTypePasskey then verifyPasskey inp network nonceBytes
                else throw ErrUnsupportedKeyType in
      on_tokens (IssueWalletTokenPair (wi_Wallet inp) (wi_KeyType inp))
  end.

(** ** deploy_proof.go *)
Definition deployNonceScope (network : string) : string := "deploy:" +:+ network.

Definition validateKeyRef (keyRef keyType : string) : res unit :=
  if String.eqb keyType "ed25519" then
    if negb (String.length keyRef =? 64)%nat then Err (Wrapf "ed25519 key reference must be 64 hex characters" ErrInvalidWallet) else
    if is_ok (hex_decode keyRef) then Ok tt else Err (Wrapf "ed25519 key reference must be hex" ErrInvalidWallet)
  else if String.eqb keyType "webauthn" then
    if (String.length keyRef <=? webauthnPubKeyHexLen)%nat then Err (Wrapf "webauthn key reference" ErrInvalidWallet) else
    if is_ok (hex_decode keyRef) then Ok tt else Err (Wrapf "webauthn key reference must be hex" ErrInvalidWallet)
  else if String.eqb keyType "delegated" then
    if is_ok (strkey_decode_account keyRef) then Ok tt
    else Err (Wrapf "delegated key reference must be a G-address" ErrInvalidWallet)
  else Err ErrUnsupportedKeyType.

Definition gAddressFromEd25519PublicKeyHex (publicKeyHex : string) : res string :=
  match hex_decode publicKeyHex with
  | Err _ => Err (Wrapf "decode ed25519 public key" ErrInvalidWallet)
  | Ok raw => match strkey_encode_account raw with
              | Err _ => Err (Wrapf "encode ed25519 public key" ErrInvalidWallet)
              | Ok address => Ok address
              end
  end.

Definition DeployProofChallenge (keyRef keyType network : string) : M W (string * Z) :=
  let! _ := lift (validateKeyRef keyRef keyType) in
  on_redis (IssueWithTTL keyRef keyType (deployNonceScope network) DeployNonceTTL).

Record DeployProofInput := {
  dp_KeyRef : string; dp_KeyType : string; dp_Network : string; dp_NonceHex : string; dp_Signature : string;
  dp_AuthenticatorData : string; dp_ClientDataJSON : string }.

(** The public key in front of a passkey's key data. *)
Definition key_data_pubkey (keyDataHex : string) : res string :=
  hex_decode (String.substring 0 webauthnPubKeyHexLen keyDataHex).
Definition check_proof (inp : DeployProofInput) (nonceBytes : string) : res unit :=
  if String.eqb (dp_KeyType inp) "ed25519" then
    let? gAddress := gAddressFromEd25519PublicKeyHex (dp_KeyRef inp) in
    VerifyEd25519 gAddress nonceBytes (dp_Signature inp)
  else if String.eqb (dp_KeyType inp) "delegated" then VerifyEd25519 (dp_KeyRef inp) nonceBytes (dp_Signature inp)
  else if String.eqb (dp_KeyType inp) "webauthn" then
    match key_data_pubkey (dp_KeyRef inp) with
    | Err _ => Err (Wrapf "decode webauthn public key" ErrBadSignature)
    | Ok pubKey => VerifyWebAuthnAssertion [pubKey] nonceBytes (dp_AuthenticatorData inp) (dp_ClientDataJSON inp)
                     (dp_Signature inp) webauthnAllowedOrigins
    end
  else Err ErrUnsupportedKeyType.

Definition VerifyDeployProof (inp : DeployProofInput) : M W unit :=
  let! _ := lift (validateKeyRef (dp_KeyRef inp) (dp_KeyType inp)) in
  let! _ := on_redis (Consume (dp_NonceHex inp) (dp_KeyRef inp) (dp_KeyType inp) (deployNonceScope (dp_Network inp))) in
  match hex_decode (dp_NonceHex inp) with
  | Err _ => throw ErrNonceInvalid
  | Ok nonceBytes => lift (check_proof inp nonceBytes)
  end.

(** ** passkey_credential_service.go *)
Definition passkeyLookupNonceTTL : Z := 60 * 1000.
Definition passkeyLookupNonceKeyType : string := "webauthn-lookup".
Definition passkeyLookupNonceScope : string := "passkey-lookup".

Definition LookupChallenge : M W (string * Z) :=
  on_redis (IssueWithTTL "" passkeyLookupNonceKeyType passkeyLookupNonceScope passkeyLookupNonceTTL).

Record PasskeyCredential := { pk_SmartAccountAddress : string; pk_Label : string; pk_Seq : Z; pk_KeyDataHex : string }.
Definition credential_of (row : PasskeyCredentialRow) : PasskeyCredential :=
  {| pk_SmartAccountAddress := pc_SmartAccountAddress row; pk_Label := pc_Label row; pk_Seq := pc_Seq row;
     pk_KeyDataHex := pc_KeyDataHex row |}.

Definition Lookup (credentialID nonceHex authenticatorData clientDataJSON signature : string) : M W PasskeyCredential :=
  let! consumed := attempt (on_redis (Consume nonceHex "" passkeyLookupNonceKeyType passkeyLookupNonceScope)) in
  match consumed with
  | Err _ => throw ErrCredentialNotFound
  | Ok _ =>
      let! row := on_db (or_no_rows ErrCredentialNotFound "get passkey credential" (query (GetPasskeyCredential credentialID))) in
      if (String.length (pc_KeyDataHex row) <? webauthnPubKeyHexLen)%nat then throw (Errorf "stored key_data_hex too short") else
      let! pubKey := wrap "decode stored public key" (lift (key_data_pubkey (pc_KeyDataHex row))) in
      match hex_decode nonceHex with
      | Err _ => throw ErrCredentialNotFound
      | Ok nonceBytes =>
          match VerifyWebAuthnAssertion [pubKey] nonceBytes authenticatorData clientDataJSON signature webauthnAllowedOrigins with
          | Err _ => throw ErrCredentialNotFound
          | Ok _ => ret (credential_of row)
          end
      end
  end.

(** ** handler/gasless_errors.go *)
Definition failGasless (e : error) : option (string * string) :=
  if errors_is e ErrInsufficientFeeBalance then Some ("400", "INSUFFICIENT_FEE_BALANCE") else
  if errors_is e ErrFeeQuoteStale then Some ("409", "FEE_QUOTE_STALE") else
  if errors_is e ErrFeeRuleNotFound then Some ("400", "FEE_RULE_NOT_FOUND") else
  if errors_is e ErrGaslessTooManyFailures then Some ("429", "TOO_MANY_FAILED_TRANSACTIONS") else
  if errors_is e ErrGaslessLimited then Some ("429", "RATE_LIMITED") else
  if errors_is e ErrGaslessNotConfigured || errors_is e ErrGaslessUnavailable || errors_is e ErrGaslessPending
  then Some ("503", "BAD_GATEWAY") else None.
Definition gasless_answer {A} (m : M W A) : M W A :=
  let! r := attempt m in
  match r with
  | Ok a => ret a
  | Err e => match failGasless e with Some (status, code) => fail status code | None => fail "500" "INTERNAL_ERROR" end
  end.

(** ** handler/smart_account.go *)
Definition ed25519PublicKeyHexLen : nat := 64.
Definition minWebauthnKeyDataHexLen : nat := 132.
Definition saltHexLen : nat := 64.
Definition bad_request {A} : M W A := fail "400" "VALIDATION_ERROR".

(** Binary fields in base64. *)
Record deployProof := { pf_Nonce : string; pf_Signature : string; pf_AuthenticatorData : string; pf_ClientDataJSON : string }.
Definition proof_input (p : deployProof) (keyRef keyType network : string) : res DeployProofInput :=
  let? signature := Base64.StdEncoding_DecodeString (pf_Signature p) in
  let? ' (ad, cdj) :=
    if String.eqb keyType "webauthn" then
      let? ad := Base64.StdEncoding_DecodeString (pf_AuthenticatorData p) in
      let? cdj := Base64.StdEncoding_DecodeString (pf_ClientDataJSON p) in
      Ok (ad, cdj)
    else Ok ("", "") in
  Ok {| dp_KeyRef := keyRef; dp_KeyType := keyType; dp_Network := network; dp_NonceHex := pf_Nonce p;
        dp_Signature := signature; dp_AuthenticatorData := ad; dp_ClientDataJSON := cdj |}.
Definition verifyProof (p : deployProof) (keyRef keyType network : string) : M W unit :=
  match proof_input p keyRef keyType network with
  | Err _ => bad_request
  | Ok inp => or_fail "401" "UNAUTHORIZED" (VerifyDeployProof inp)
  end.

Definition DeployChallenge (keyRef keyType rawNetwork : string) : M W (string * Z) :=
  let! network := named_network httpx rawNetwork in
  let! r := attempt (DeployProofChallenge keyRef keyType network) in
  match r with
  | Ok (nonce, ttl) => ret (nonce, ttl / 1000)
  | Err e => if errors_is e ErrInvalidWallet || errors_is e ErrUnsupportedKeyType then bad_request else fail "500" "INTERNAL_ERROR"
  end.

Definition DeployEd25519 (publicKeyHex rawNetwork : string) (p : deployProof) : M W (string * bool) :=
  if negb (String.length publicKeyHex =? ed25519PublicKeyHexLen)%nat then bad_request else
  if negb (is_ok (hex_decode publicKeyHex)) then bad_request else
  let! network := named_network httpx rawNetwork in
  let! _ := verifyProof p publicKeyHex "ed25519" network in
  gasless_answer (on_db (DeployByPublicKey publicKeyHex)).

(** The recovery index is best effort. *)
Definition DeployWebauthn (keyDataHex rawNetwork : string) (p : deployProof) (label : string) (seq : Z)
    : M W (string * bool) :=
  if (String.length keyDataHex <? minWebauthnKeyDataHexLen)%nat then bad_request else
  if negb (is_ok (hex_decode keyDataHex)) then bad_request else
  let! network := named_network httpx rawNetwork in
  let! _ := verifyProof p keyDataHex "webauthn" network in
  let! ' (address, already) := gasless_answer (on_db (DeployByKeyData keyDataHex)) in
  let! _ := attempt (on_db (Register keyDataHex address label seq)) in
  ret (address, already).

Definition deploy_signer_ok (s : MultisigSignerInit) : bool :=
  if String.eqb (si_Type s) "ed25519" || String.eqb (si_Type s) "webauthn" then
    negb (String.eqb (si_KeyDataHex s) "") && is_ok (hex_decode (si_KeyDataHex s))
    && negb (String.eqb (si_Type s) "ed25519" && negb (String.length (si_KeyDataHex s) =? ed25519PublicKeyHexLen)%nat)
  else String.eqb (si_Type s) "delegated" && is_ok (strkey_decode_account (si_GAddress s)).
Definition signerSetContains (signers : list MultisigSignerInit) (keyType keyRef : string) : bool :=
  existsb (fun s => String.eqb (si_Type s) keyType
                    && if String.eqb keyType "delegated" then String.eqb (si_GAddress s) keyRef
                       else String.eqb (si_KeyDataHex s) keyRef) signers.
Definition DeployMultisigRoute (signers : list MultisigSignerInit) (threshold : Z)
    (saltHex rawNetwork proofKeyType proofKeyRef : string) (p : deployProof) : M W (string * bool) :=
  if (length signers <? 2)%nat then bad_request else
  if (threshold <? 1) || (Z.of_nat (length signers) <? threshold) then bad_request else
  if negb (String.length saltHex =? saltHexLen)%nat then bad_request else
  match hex_decode saltHex with
  | Err _ => bad_request
  | Ok salt =>
      if negb (forallb deploy_signer_ok signers) then bad_request else
      let! network := named_network httpx rawNetwork in
      if negb (signerSetContains signers proofKeyType proofKeyRef) then bad_request else
      let! _ := verifyProof p proofKeyRef proofKeyType network in
      gasless_answer (on_db (DeployMultisig signers threshold salt))
  end.

Definition DeployGAddress (gAddress rawNetwork : string) (p : deployProof) : M W (string * bool) :=
  if negb (is_ok (strkey_decode_account gAddress)) then bad_request else
  let! network := named_network httpx rawNetwork in
  if String.eqb network Mainnet then bad_request else
  let! _ := verifyProof p gAddress "delegated" network in
  gasless_answer (on_db (DeployDelegated gAddress)).
End Mobile.
End Mobile.
