(* ===== verification/MobileData.v ===== *)
(** * The services behind the mobile API

    The cosign queue, push registrations, devices, notifications, sealed bundles,
    memberships, encrypted backups and the periodic clean-up. What is handed to
    the push notifier is recorded; whether it arrives does not matter to the
    services. *)

From S2P Require Export MobileStore Mobile Relayer.

(** crypto/aes and crypto/cipher with a 32-byte key, a 12-byte nonce and a 16-byte tag. *)
Class Aead := {
  gcm_seal : string -> string -> string -> string;
  gcm_open : string -> string -> string -> res string;
  (** documented: [Open] undoes [Seal], which appends the tag *)
  gcm_open_seal : forall key iv plaintext, gcm_open key iv (gcm_seal key iv plaintext) = Ok plaintext;
  gcm_seal_length : forall key iv plaintext, String.length (gcm_seal key iv plaintext) = (String.length plaintext + 16)%nat }.
(** golang.org/x/crypto/pbkdf2 with SHA-256, 600000 rounds and 32 bytes, and the pepper of the deployment. *)
Class Pbkdf2 := { pbkdf2_key : string -> string -> string; serverPepper : string }.
(** [time.RFC3339Nano] *)
Class NanoTime := { rfc3339nano_format : Z -> string; rfc3339nano_parse : string -> res Z }.
(** [json.Unmarshal] into a map, and its [json.Marshal] *)
Class JsonDoc := { json_doc : string -> res json; json_doc_text : json -> res string }.

Record CosignSignature := { co_ID : string; co_BlindSignerID : string; co_AuthEntryXDR : string; co_CreatedAt : Z }.
Record CosignRequest := {
  cq_ID : string; cq_QueueIndex : string; cq_UnsignedTxXDR : string; cq_Network : string; cq_Threshold : Z;
  cq_Status : string; cq_SubmittedTxHash : string; cq_ExpiresAt : Z; cq_CreatedAt : Z; cq_UpdatedAt : Z;
  cq_Signatures : list CosignSignature; cq_SignatureCount : nat }.
Record CreateCosignInput := { ck_QueueIndex : string; ck_UnsignedTxXDR : string; ck_Network : string; ck_Threshold : Z }.
Record WalletMembership := { wm_WalletRef : string; wm_CreatedAt : Z }.
Record PushRegistration := { pr_QueueIndex : string; pr_BlindSignerID : string }.
Record NotificationRecord := {
  nr_Type : string; nr_Title : string; nr_Body : string; nr_Metadata : option json; nr_DedupeKey : string }.
Record Notification := {
  no_ID : string; no_Type : string; no_Title : string; no_Body : string; no_Metadata : option json; no_Read : bool;
  no_CreatedAt : Z }.
Record CleanupResult := { cu_CosignRequests : Z; cu_WCKBundles : Z; cu_WalletMemberships : Z }.
Record EncryptedBlob := { eb_Ciphertext : string; eb_IV : string; eb_AuthTag : string }.

Module MobileData.
Import MobileStore Tokens AccountSigners.

(** ** blind_ids.go *)
Definition is_lower_hex (c : ascii) : bool :=
  let n := nat_of_ascii c in (((48 <=? n) && (n <=? 57)) || ((97 <=? n) && (n <=? 102)))%nat.
(** ^[0-9a-f]{64}$ *)
Definition IsBlindID (s : string) : bool := (String.length s =? 64)%nat && str_forall is_lower_hex s.

Definition cosignRequestTTL : Z := 23 * 3600000.
Definition maxMembersPerAnnounce : nat := 32.
Definition maxWCKBundleBytes : nat := 65536.
Definition defaultNotificationPageSize : Z := 50.
Definition EncVersionBackendKey : Z := 1.
Definition EncVersionPBKDF2 : Z := 2.
Definition EncVersionClientSide : Z := 3.
Definition ErrCosignNotFound : error := Sentinel "ErrCosignNotFound".
Definition ErrCosignNotPending : error := Sentinel "ErrCosignNotPending".
Definition ErrWCKBundleNotFound : error := Sentinel "ErrWCKBundleNotFound".
Definition ErrWCKBundleConflict : error := Sentinel "ErrWCKBundleConflict".
Definition ErrNotificationNotFound : error := Sentinel "ErrNotificationNotFound".
Definition ErrNoBackup : error := Sentinel "ErrNoBackup".
(** A [sql.NullString] that is valid when not empty. *)
Definition null_string (s : string) : option string := if String.eqb s "" then None else Some s.
(** [parse user id] *)
Definition parse_user `{UuidLib} (userID : string) : res uuid := res_wrap "parse user id" (parse_uuid userID).

Section Services.
Context `{UuidLib} `{Env}.
Abbreviation W := (World MobileData).

(** ** cosign_service.go *)
Definition signature_of (sg : CosignSignatureRow) : CosignSignature :=
  {| co_ID := uuid_string (cg_ID sg); co_BlindSignerID := cg_BlindSignerID sg; co_AuthEntryXDR := cg_AuthEntryXdr sg;
     co_CreatedAt := cg_CreatedAt sg |}.
Definition assemble (row : CosignRow) : M W CosignRequest :=
  let! sigs := wrap "list cosign signatures" (query (ListCosignSignatures (cs_ID row))) in
  ret {| cq_ID := uuid_string (cs_ID row); cq_QueueIndex := cs_QueueIndex row; cq_UnsignedTxXDR := cs_UnsignedTxXdr row;
         cq_Network := cs_Network row; cq_Threshold := cs_Threshold row; cq_Status := cs_Status row;
         cq_SubmittedTxHash := default "" (cs_SubmittedTxHash row); cq_ExpiresAt := cs_ExpiresAt row;
         cq_CreatedAt := cs_CreatedAt row; cq_UpdatedAt := cs_UpdatedAt row; cq_Signatures := signature_of <$> sigs;
         cq_SignatureCount := length sigs |}.
Definition cosign_getByID (id : string) : M W CosignRow :=
  match uuid_parse id with
  | None => throw ErrCosignNotFound
  | Some rid => or_no_rows ErrCosignNotFound "get cosign request" (query (GetCosignRequest rid))
  end.
Definition cosign_Create (inp : CreateCosignInput) : M W CosignRequest :=
  let! id := new_uuid in
  let! start := now_ms in
  let! now := now_ms in
  let! row := wrap "insert cosign request" (exec (InsertCosignRequest
    {| cs_ID := id; cs_QueueIndex := ck_QueueIndex inp; cs_UnsignedTxXdr := ck_UnsignedTxXDR inp; cs_Network := ck_Network inp;
       cs_Threshold := int32 (ck_Threshold inp); cs_Status := "pending"; cs_SubmittedTxHash := None;
       cs_ExpiresAt := start + cosignRequestTTL; cs_CreatedAt := now; cs_UpdatedAt := now |})) in
  assemble row.
Definition cosign_List (queueIndex : string) : M W (list CosignRequest) :=
  let! now := now_ms in
  let! rows := wrap "list cosign requests" (query (ListPendingCosignRequests queueIndex now)) in
  mapM assemble rows.
Definition cosign_Get (id : string) : M W CosignRequest :=
  let! row := cosign_getByID id in assemble row.
Definition AddSignature (id blindSignerID authEntryXDR : string) : M W CosignRequest :=
  let! row := cosign_getByID id in
  if negb (String.eqb (cs_Status row) "pending") then throw ErrCosignNotPending else
  let! sid := new_uuid in
  let! now := now_ms in
  let! _ := wrap "insert cosign signature" (exec (InsertCosignSignature
    {| cg_ID := sid; cg_RequestID := cs_ID row; cg_BlindSignerID := blindSignerID; cg_AuthEntryXdr := authEntryXDR;
       cg_CreatedAt := now |})) in
  assemble row.
Definition MarkSubmitted (id txHash : string) : M W unit :=
  let! row := cosign_getByID id in
  let! now := now_ms in
  wrap "mark cosign submitted" (exec (MarkCosignSubmitted (cs_ID row) (null_string txHash) now)).
Definition cosign_Cancel (id : string) : M W unit :=
  let! row := cosign_getByID id in
  let! now := now_ms in
  wrap "cancel cosign request" (exec (CancelCosignRequest (cs_ID row) now)).

(** ** push_token_service.go *)
Definition insert_registration (token : string) (reg : PushRegistration) : M W unit :=
  if negb (IsBlindID (pr_QueueIndex reg)) || negb (IsBlindID (pr_BlindSignerID reg)) then throw ErrValidation else
  wrap "insert push token registration" (exec (InsertPushTokenRegistration token (pr_QueueIndex reg) (pr_BlindSignerID reg))).
Definition Replace (token : string) (regs : list PushRegistration) : M W unit :=
  if String.eqb token "" || (512 <? String.length token)%nat then throw ErrValidation else
  if (100 <? length regs)%nat then throw ErrValidation else
  let! _ := wrap "replace push token registrations" (exec (ReplacePushTokenRegistrations token)) in
  let! _ := mapM (insert_registration token) regs in
  ret tt.
Definition TokensForQueue (queueIndex excludeBlindSignerID : string) : M W (list string) :=
  if negb (IsBlindID queueIndex) || negb (IsBlindID excludeBlindSignerID) then throw ErrValidation else
  wrap "list push tokens for queue" (query (ListPushTokensForQueueExceptSigner queueIndex excludeBlindSignerID)).
Definition push_Delete (token : string) : M W unit :=
  if String.eqb token "" then throw ErrValidation else
  wrap "delete push token registrations" (exec (DeletePushTokenRegistrations token)).

(** ** push_device_service.go *)
Definition device_Register (userID scope token platform : string) : M W unit :=
  if String.eqb token "" || (512 <? String.length token)%nat then throw ErrValidation else
  let platform := if String.eqb platform "" then "expo" else platform in
  if String.eqb scope ScopeWallet then
    let! id := new_uuid in wrap "upsert push device" (exec (UpsertPushDeviceForWallet id userID token platform))
  else match uuid_parse userID with
       | None => throw ErrValidation
       | Some uid => let! id := new_uuid in wrap "upsert push device" (exec (UpsertPushDevice id uid token platform))
       end.
Definition device_Delete (userID scope token : string) : M W unit :=
  if String.eqb token "" then throw ErrValidation else
  if String.eqb scope ScopeWallet then wrap "delete push device" (exec (DeletePushDeviceForWallet userID token))
  else match uuid_parse userID with
       | None => throw ErrValidation
       | Some uid => wrap "delete push device" (exec (DeletePushDevice uid token))
       end.
Definition TokensForUser (userID scope : string) : M W (list string) :=
  if String.eqb scope ScopeWallet then wrap "list push tokens for user" (query (ListPushTokensForWallet userID))
  else match uuid_parse userID with
       | None => throw ErrValidation
       | Some uid => wrap "list push tokens for user" (query (ListPushTokensForUser uid))
       end.
End Services.

(** ** notification_service.go *)
Section Notifications.
Context `{UuidLib} `{Env} `{NanoTime} `{JsonDoc}.
Abbreviation W := (World MobileData).

(** The caller of a route: a wallet, or a user by id. *)
Definition subject (userID scope : string) : M W Subject :=
  if String.eqb scope ScopeWallet then ret (SubjectWallet userID)
  else match uuid_parse userID with Some uid => ret (SubjectUser uid) | None => throw ErrValidation end.
Definition send_push (p : Push) : M W unit := fun w =>
  (Ok tt, put_store (set_pushes (d_pushes (w_store w) ++ [p]) (w_store w)) w).
Definition dispatchPush (tokens : list string) (title body notifType notificationID : string) : M W unit :=
  match tokens with
  | [] => ret tt
  | _ => send_push {| pu_Tokens := tokens; pu_Title := title; pu_Body := body;
                      pu_Data := [("type", notifType); ("notificationId", notificationID)] |}
  end.
Definition notification_metadata (m : option json) : option string :=
  match m with Some m => match json_doc_text m with Ok b => Some b | Err _ => None end | None => None end.
Definition Notify (userID scope : string) (rec : NotificationRecord) : M W unit :=
  let! who := subject userID scope in
  let! id := new_uuid in
  let! now := now_ms in
  let! inserted := attempt (exec (insert_notification
    {| nt_ID := id; nt_Subject := who; nt_Type := nr_Type rec; nt_Title := nr_Title rec; nt_Body := nr_Body rec;
       nt_Metadata := notification_metadata (nr_Metadata rec); nt_DedupeKey := null_string (nr_DedupeKey rec);
       nt_ReadAt := None; nt_CreatedAt := now |})) in
  match inserted with
  | Err e => if errors_is e ErrNoRows then ret tt else throw (Wrapf "insert notification" e)
  | Ok id =>
      let! tokens := attempt (query (list_push_tokens who)) in
      match tokens with
      | Err _ => ret tt
      | Ok tokens => dispatchPush tokens (nr_Title rec) (nr_Body rec) (nr_Type rec) (uuid_string id)
      end
  end.

Definition notification_of (r : NotificationRow) : Notification :=
  {| no_ID := uuid_string (nt_ID r); no_Type := nt_Type r; no_Title := nt_Title r; no_Body := nt_Body r;
     no_Metadata := match nt_Metadata r with
                    | Some m => match json_doc m with Ok doc => Some doc | Err _ => None end
                    | None => None
                    end;
     no_Read := negb (unread r); no_CreatedAt := nt_CreatedAt r |}.
Definition next_cursor (limit : nat) (out : list Notification) : string :=
  if (length out =? limit)%nat then match last out with Some n => rfc3339nano_format (no_CreatedAt n) | None => "" end else "".
Definition notifications_List (userID scope cursor : string) (limit : Z) : M W (list Notification * string) :=
  let limit := Z.to_nat (if (limit <=? 0) || (defaultNotificationPageSize <? limit) then defaultNotificationPageSize else limit) in
  let! cursorTime := if String.eqb cursor "" then ret None
                     else match rfc3339nano_parse cursor with Ok t => ret (Some t) | Err _ => throw ErrValidation end in
  let! who := subject userID scope in
  let! rows := wrap "list notifications" (query (list_notifications who cursorTime limit)) in
  let out := notification_of <$> rows in
  ret (out, next_cursor limit out).
Definition UnreadCount (userID scope : string) : M W Z :=
  let! who := subject userID scope in
  wrap "count unread notifications" (query (count_unread who)).
Definition MarkRead (userID scope notificationID : string) : M W unit :=
  match uuid_parse notificationID with
  | None => throw ErrValidation
  | Some nid =>
      let! who := subject userID scope in
      let! now := now_ms in
      let! rows := wrap "mark notification read" (exec (mark_read nid who now)) in
      if rows =? 0 then throw ErrNotificationNotFound else ret tt
  end.
Definition MarkAllRead (userID scope : string) : M W unit :=
  let! who := subject userID scope in
  let! now := now_ms in
  wrap "mark all notifications read" (exec (mark_all_read who now)).
End Notifications.

Section Vault.
Context `{UuidLib} `{Env} `{Aead} `{Pbkdf2} `{JsonDoc}.
Abbreviation W := (World MobileData).

(** ** membership_service.go *)
Definition announce_member (walletRef announcer id : string) : M W unit :=
  let! now := now_ms in wrap "upsert wallet membership" (exec (UpsertWalletMembership id walletRef announcer now)).
Definition Announce (walletRef : string) (memberBlindIDs : list string) (announcer : string) : M W unit :=
  if negb (IsContractAddress walletRef) then throw ErrValidation else
  if String.eqb announcer "" then throw ErrValidation else
  if (length memberBlindIDs =? 0)%nat || (maxMembersPerAnnounce <? length memberBlindIDs)%nat then throw ErrValidation else
  if negb (forallb IsBlindID memberBlindIDs) then throw ErrValidation else
  let! _ := mapM (announce_member walletRef announcer) memberBlindIDs in
  ret tt.
Definition memberships_List (memberBlindID : string) : M W (list WalletMembership) :=
  if negb (IsBlindID memberBlindID) then throw ErrValidation else
  let! rows := wrap "list wallet memberships" (query (ListWalletMembershipsForMember memberBlindID)) in
  ret ((fun r => {| wm_WalletRef := mb_WalletRef r; wm_CreatedAt := mb_CreatedAt r |}) <$> rows).

(** ** wck_bundle_service.go; the row carries what [adaptWCKBundle] copies *)
Definition bundle_Store (pickupKey bundle uploader : string) : M W BundleRow :=
  if negb (IsBlindID pickupKey) then throw ErrValidation else
  if String.eqb bundle "" || (maxWCKBundleBytes <? String.length bundle)%nat then throw ErrValidation else
  if String.eqb uploader "" then throw ErrValidation else
  let! now := now_ms in
  or_no_rows ErrWCKBundleConflict "upsert wck bundle" (exec (UpsertWCKBundle pickupKey bundle uploader now)).
Definition bundle_Get (pickupKey : string) : M W BundleRow :=
  if negb (IsBlindID pickupKey) then throw ErrValidation else
  or_no_rows ErrWCKBundleNotFound "get wck bundle" (query (GetWCKBundle pickupKey)).

(** ** encryption.go and encryption_service.go *)
Definition Encrypt (plaintext key : string) : M W EncryptedBlob :=
  if negb (String.length key =? 32)%nat then throw (Errorf "key must be 32 bytes for AES-256") else
  let! iv := wrap "generate IV" (rand_bytes 12) in
  let sealed := gcm_seal key iv plaintext in
  let tagOffset := (String.length sealed - 16)%nat in
  ret {| eb_Ciphertext := String.substring 0 tagOffset sealed; eb_IV := iv; eb_AuthTag := str_drop tagOffset sealed |}.
(** [gcm.Open] panics on a nonce of another length, which the caller's recovery
    middleware answers with a 500; no row the services write has one. *)
Definition Decrypt (blob : EncryptedBlob) (key : string) : res string :=
  if negb (String.length key =? 32)%nat then Err (Errorf "key must be 32 bytes for AES-256") else
  if negb (String.length (eb_IV blob) =? 12)%nat then Err (Errorf "panic: incorrect nonce length given to GCM") else
  res_wrap "decrypt" (gcm_open key (eb_IV blob) (eb_Ciphertext blob +:+ eb_AuthTag blob)).
Definition GenerateKey : M W string := let! key := wrap "generate key" (rand_bytes 32) in ret (hex_encode key).
Definition KeyFromHex (hexKey : string) : res string :=
  let? key := res_wrap "decode key hex" (hex_decode hexKey) in
  if negb (String.length key =? 32)%nat then Err (Errorf "key must be 32 bytes") else Ok key.
Definition DeriveKeyPBKDF2 (email pepper salt : string) : string := pbkdf2_key (email +:+ pepper) salt.
(** [uid[:]] *)
Definition uuid_bytes (u : uuid) : string :=
  Sha256.of_bytes ((fun i => Z.of_N (u / 2 ^ (8 * N.of_nat (15 - i)) mod 256)) <$> seq 0 16).

Definition KeyForUser (userID : string) : M W string :=
  let! uid := lift (parse_user userID) in
  let! newKeyHex := wrap "generate encryption key" GenerateKey in
  let! storedKeyHex := wrap "upsert encryption key" (exec (UpsertEncryptionKey uid newKeyHex)) in
  lift (KeyFromHex storedKeyHex).
Definition EncryptBackup (userID plaintext : string) : M W (EncryptedBlob * Z) :=
  let! key := wrap "get user key" (KeyForUser userID) in
  let! blob := wrap "encrypt blob" (Encrypt plaintext key) in
  ret (blob, EncVersionBackendKey).
Definition DecryptBackup (userID : string) (blob : EncryptedBlob) (version : Z) : M W string :=
  if version =? EncVersionBackendKey then
    let! key := wrap "get user key" (KeyForUser userID) in lift (Decrypt blob key)
  else if version =? EncVersionPBKDF2 then
    if String.eqb serverPepper "" then throw (Errorf "server pepper not configured for PBKDF2 decryption") else
    let! uid := lift (parse_user userID) in
    let! email := wrap "get user email" (query (GetUserEmailByID uid)) in
    lift (Decrypt blob (DeriveKeyPBKDF2 email serverPepper (uuid_bytes uid)))
  else throw (Errorf "unknown encryption version").

(** ** backup_service.go *)
Definition backup_Store (userID plaintext : string) : M W unit :=
  let! uid := lift (parse_user userID) in
  let! ' (encBlob, encVersion) := wrap "encrypt backup" (EncryptBackup userID plaintext) in
  let! id := new_uuid in
  exec (UpsertBackup id uid (eb_Ciphertext encBlob) (eb_IV encBlob) (eb_AuthTag encBlob) (int32 encVersion)).
Definition Exists (userID : string) : M W bool :=
  let! uid := lift (parse_user userID) in
  wrap "check backup exists" (query (BackupExists uid)).
(** Any failure of the read counts as a missing backup. *)
Definition GetDecrypted (userID : string) : M W json :=
  let! uid := lift (parse_user userID) in
  let! found := attempt (query (GetBackupByUserID uid)) in
  match found with
  | Err _ => throw ErrNoBackup
  | Ok row =>
      let! plaintext := wrap "decrypt backup" (DecryptBackup userID
        {| eb_Ciphertext := default "" (bk_EncryptedBlob row); eb_IV := default "" (bk_Iv row);
           eb_AuthTag := default "" (bk_AuthTag row) |} (bk_EncryptionVersion row)) in
      wrap "unmarshal backup" (lift (json_doc plaintext))
  end.
Definition StoreClientEncrypted (userID clientBlob : string) : M W unit :=
  let! uid := lift (parse_user userID) in
  let! id := new_uuid in
  wrap "upsert client encrypted backup" (exec (UpsertClientEncryptedBackup id uid (Some clientBlob))).
Definition GetClientBlob (userID : string) : M W string :=
  let! uid := lift (parse_user userID) in
  let! row := attempt (query (GetClientBlobByUserID uid)) in
  match row with Ok (Some blob) => ret blob | _ => throw ErrNoBackup end.
End Vault.

(** ** cleanup_service.go; a retention in milliseconds *)
Class Retention := { cosignRetention : Z; wckBundleRetention : Z; membershipRetention : Z }.
Section Cleanup.
Context `{Env} `{Retention}.
Abbreviation W := (World MobileData).

(** One table: its count, or what went wrong. *)
Definition sweep (wanted : bool) (what : string) (statement : MobileData -> res (Z * MobileData)) : M W (Z * list error) :=
  if negb wanted then ret (0, []) else
  let! n := attempt (exec statement) in
  ret match n with Ok n => (n, []) | Err e => (0, [Wrapf what e]) end.
Definition Run : M W (CleanupResult * list error) :=
  let! now := now_ms in
  let! ' (cosign, e1) := sweep true "delete expired cosign requests" (DeleteExpiredCosignRequests (now - cosignRetention)) in
  let! ' (bundles, e2) := sweep (0 <? wckBundleRetention) "delete stale wck bundles" (DeleteStaleWCKBundles (now - wckBundleRetention)) in
  let! ' (members, e3) := sweep (0 <? membershipRetention) "delete stale wallet memberships"
                            (DeleteStaleWalletMemberships (now - membershipRetention)) in
  ret ({| cu_CosignRequests := cosign; cu_WCKBundles := bundles; cu_WalletMemberships := members |}, (e1 ++ e2 ++ e3)%list).
End Cleanup.
End MobileData.
