(* ===== verification/Funding.v ===== *)
(** * Registered accounts and funding intents (account_service.go, handler/account.go)

    A user registers smart accounts, a wallet speaks for itself. Intents are
    minted and deposits read through the interface the relayer's client
    implements; audit records are left out. *)

From S2P Require Export MobileData.

(** The other half of what the service holds of the relayer. *)
Class RelayerStatus := { relayer_deposit_status : string -> nat -> res DepositStatus }.
Record FundingIntentOptions := { fi_ExpiresIn : Z; fi_ExpectedAmt : string; fi_ExternalID : string }.

Module Funding.
Import MobileStore Mobile Tokens AccountSigners OnRamp Relayer MobileData Routes Deploynet.

(** Seconds *)
Definition MinFundingIntentTTL : Z := 5 * 60.
Definition MaxFundingIntentTTL : Z := 30 * 24 * 60 * 60.
(** An unset duration stays unset; any other is brought into the range. *)
Definition toInput (o : FundingIntentOptions) (cAddress : string) : CreateIntentInput :=
  {| ci_CAddress := cAddress; ci_ExpectedAmt := fi_ExpectedAmt o; ci_ExternalID := fi_ExternalID o;
     ci_ExpiresIn := if fi_ExpiresIn o <=? 0 then 0
                     else if fi_ExpiresIn o <? MinFundingIntentTTL then MinFundingIntentTTL
                     else if MaxFundingIntentTTL <? fi_ExpiresIn o then MaxFundingIntentTTL else fi_ExpiresIn o |}.

Section Funding.
Context `{UuidLib} `{Unicode} `{Deployment} `{Env} `{RelayerIntents} `{RelayerStatus} `{TimeFormat} `{NanoTime} `{JsonDoc}.
Abbreviation W := (World MobileData).

Definition account_Register (userID smartAccountAddress : string) : M W unit :=
  if negb (IsContractAddress smartAccountAddress) then throw ErrValidation else
  let! uid := lift (parse_user userID) in
  let! id := new_uuid in
  let! now := now_ms in
  or_no_rows ErrValidation "upsert smart account registration" (exec (UpsertSmartAccountRegistration id uid smartAccountAddress now)).
Definition account_List (userID : string) : M W (list string) :=
  let! uid := lift (parse_user userID) in
  wrap "list smart accounts" (query (ListSmartAccountsByUserID uid)).
(** The address is registered to the user. *)
Definition registered_to (uid : uuid) (smartAccountAddress : string) : M W unit :=
  let! owner := or_no_rows ErrValidation "get smart account registration" (query (GetSmartAccountRegistrationUserID smartAccountAddress)) in
  if bool_decide (owner = uid) then ret tt else throw ErrValidation.
Definition CreateFundingIntent (userID scope smartAccountAddress network : string) (opts : FundingIntentOptions) : M W Intent :=
  let! _ := lift (ParseWalletNetwork network) in
  let mint := call (relayer_create_intent (toInput opts smartAccountAddress)) in
  if String.eqb scope ScopeWallet then
    if negb (String.eqb userID smartAccountAddress) then throw ErrValidation else mint
  else
    let! uid := lift (parse_user userID) in
    let! _ := registered_to uid smartAccountAddress in mint.
Definition GetFundingStatus (userID scope memoID network : string) : M W DepositStatus :=
  let! _ := lift (ParseWalletNetwork network) in
  if String.eqb scope ScopeWallet then
    let! status := call (relayer_deposit_status memoID) in
    if negb (String.eqb (dt_CAddress status) userID) then throw ErrValidation else ret status
  else
    let! uid := lift (parse_user userID) in
    let! status := call (relayer_deposit_status memoID) in
    let! _ := registered_to uid (dt_CAddress status) in
    ret status.

(** ** handler/account.go, behind RequireAuth *)
Definition register_errors (e : error) : string * string :=
  if errors_is e ErrValidation then ("400", "VALIDATION_ERROR") else ("500", "INTERNAL_ERROR").
Definition Register_handler (userID smartAccountAddress : string) : M W unit :=
  answered register_errors (account_Register userID smartAccountAddress).
Definition List_handler (userID : string) : M W (list string) := or_fail "500" "INTERNAL_ERROR" (account_List userID).
Definition intent_errors (e : error) : string * string :=
  if errors_is e ErrValidation then ("400", "VALIDATION_ERROR") else
  if errors_is e ErrInvalidWalletNetwork then ("400", "VALIDATION_ERROR") else
  if errors_is e ErrMismatch then ("400", "NETWORK_MISMATCH") else
  if errors_is e ErrRelayerNotConfigured then ("503", "INTERNAL_ERROR") else
  if errors_is e ErrRelayerUnavailable then ("503", "BAD_GATEWAY") else ("500", "INTERNAL_ERROR").
Definition intent_json (i : Intent) : json :=
  JObj [("intent_id", JStr (in_IntentID i)); ("memo_id", JStr (in_MemoID i)); ("pool_address", JStr (in_PoolAddress i));
        ("expires_at", JStr (rfc3339_format (in_ExpiresAt i)))].
Definition CreateDepositIntent (userID scope smartAccountAddress network : string) (opts : FundingIntentOptions) : M W json :=
  let! intent := answered intent_errors (CreateFundingIntent userID scope smartAccountAddress network opts) in
  ret (intent_json intent).
Definition status_errors (e : error) : string * string :=
  if errors_is e ErrInvalidWalletNetwork then ("400", "VALIDATION_ERROR") else
  if errors_is e ErrMismatch then ("400", "NETWORK_MISMATCH") else
  if errors_is e ErrValidation then ("400", "VALIDATION_ERROR") else
  if errors_is e ErrIntentNotFound then ("404", "VALIDATION_ERROR") else
  if errors_is e ErrRelayerUnavailable then ("503", "BAD_GATEWAY") else ("500", "INTERNAL_ERROR").
Definition forward_json (f : Forward) : json :=
  JObj ([("tx_hash", JStr (fo_TxHash f)); ("amount", JStr (fo_Amount f)); ("asset", JStr (fo_Asset f)); ("status", JStr (fo_Status f));
         ("created_at", JStr (rfc3339_format (fo_CreatedAt f)))] ++
        match fo_ForwardTx f with Some t => [("forward_tx", JStr t)] | None => [] end)%list.
Definition status_json (s : DepositStatus) : json :=
  JObj [("intent_id", JStr (dt_IntentID s)); ("memo_id", JStr (dt_MemoID s)); ("c_address", JStr (dt_CAddress s));
        ("pool_address", JStr (dt_PoolAddress s)); ("status", JStr (dt_Status s));
        ("expires_at", JStr (rfc3339_format (dt_ExpiresAt s))); ("forwards", JArr (forward_json <$> dt_Forwards s))].
(** The poll is where a completed deposit is noticed. *)
Definition deposit_received (memoID : string) : NotificationRecord :=
  {| nr_Type := "funding_completed"; nr_Title := "Deposit received"; nr_Body := "Your deposit has been credited.";
     nr_Metadata := None; nr_DedupeKey := memoID |}.
Definition DepositStatus_handler (userID scope memoID network : string) : M W json :=
  let! status := answered status_errors (GetFundingStatus userID scope memoID network) in
  let! _ := if String.eqb (dt_Status status) "completed"
            then let! _ := attempt (Notify userID scope (deposit_received memoID)) in ret tt else ret tt in
  ret (status_json status).
End Funding.
End Funding.
