(* ===== verification/MobileRoutes.v ===== *)
(** * The routes of the mobile data (handler/cosign.go, membership.go,
    wck_bundle.go, push_token.go, push_device.go, notification.go, backup.go,
    recovery.go)

    Each handler runs behind RequireAuth, which supplies the user id and the
    scope, on a body with its required fields. A best-effort step is an attempt
    whose failure is dropped; audit records and mail are left out. *)

From S2P Require Export Funding Otp.

Module MobileRoutes.
Import MobileStore Mobile Tokens AccountSigners MobileData Funding Routes Deploynet.

Section Routes.
Context `{UuidLib} `{Unicode} `{Deployment} `{Env} `{NanoTime} `{JsonDoc} `{TimeFormat}.
Abbreviation W := (World MobileData).

Definition quietly {A} (m : M W A) : M W unit := let! _ := attempt m in ret tt.
(** An activity entry of the acting user, without a key. *)
Definition activity (notifType title body : string) : NotificationRecord :=
  {| nr_Type := notifType; nr_Title := title; nr_Body := body; nr_Metadata := None; nr_DedupeKey := "" |}.
Definition validation_errors (e : error) : string * string :=
  if errors_is e ErrValidation then ("400", "VALIDATION_ERROR") else ("500", "INTERNAL_ERROR").
Definition invalid {A} : M W A := fail "400" "VALIDATION_ERROR".

(** ** cosign.go *)
Definition cosign_errors (e : error) : string * string :=
  if errors_is e ErrCosignNotFound then ("404", "NOT_FOUND") else
  if errors_is e ErrCosignNotPending then ("400", "VALIDATION_ERROR") else ("500", "INTERNAL_ERROR").
Definition Create_handler (userID scope : string) (req : CreateCosignInput) : M W CosignRequest :=
  let! network := named_network httpx (ck_Network req) in
  let! out := or_fail "500" "INTERNAL_ERROR" (cosign_Create
    {| ck_QueueIndex := ck_QueueIndex req; ck_UnsignedTxXDR := ck_UnsignedTxXDR req; ck_Network := network;
       ck_Threshold := ck_Threshold req |}) in
  let! _ := quietly (Notify userID scope (activity "cosign_created" "New approval requested"
              "A shared wallet transaction needs your approval.")) in
  ret out.
Definition CosignList_handler (queueIndex : string) : M W (list CosignRequest) :=
  if String.eqb queueIndex "" then invalid else or_fail "500" "INTERNAL_ERROR" (cosign_List queueIndex).
Definition CosignGet_handler (id : string) : M W CosignRequest := answered cosign_errors (cosign_Get id).
(** The push to the other members of the queue; it runs on its own. *)
Definition queue_push (tokens : list string) (queueIndex : string) : M W unit :=
  match tokens with
  | [] => ret tt
  | _ => send_push {| pu_Tokens := tokens; pu_Title := "Approval updated"; pu_Body := "A shared wallet approval was updated.";
                      pu_Data := [("route", "pending-approval"); ("queueIndex", queueIndex)] |}
  end.
Definition notifyQueue (queueIndex actorBlindSignerID : string) : M W unit :=
  quietly (let! tokens := TokensForQueue queueIndex actorBlindSignerID in queue_push tokens queueIndex).
Definition AddSignature_handler (userID scope id blindSignerID authEntryXDR : string) : M W CosignRequest :=
  let! out := answered cosign_errors (AddSignature id blindSignerID authEntryXDR) in
  let! _ := notifyQueue (cq_QueueIndex out) blindSignerID in
  let! _ := quietly (Notify userID scope (activity "cosign_signed" "Approval submitted"
              "Your signature was recorded on a shared wallet transaction.")) in
  ret out.
Definition MarkSubmitted_handler (userID scope id txHash : string) : M W unit :=
  let! _ := answered cosign_errors (MarkSubmitted id txHash) in
  quietly (Notify userID scope (activity "cosign_submitted" "Transaction submitted"
    "A shared wallet transaction you approved was submitted on-chain.")).
Definition Cancel_handler (userID scope id : string) : M W unit :=
  let! _ := answered cosign_errors (cosign_Cancel id) in
  quietly (Notify userID scope (activity "cosign_cancelled" "Approval request cancelled"
    "A shared wallet approval request was cancelled.")).

(** ** membership.go, wck_bundle.go *)
Definition Announce_handler (userID walletRef : string) (memberBlindIDs : list string) : M W unit :=
  answered validation_errors (Announce walletRef memberBlindIDs userID).
Definition MembershipList_handler (memberBlindID : string) : M W (list WalletMembership) :=
  answered validation_errors (memberships_List memberBlindID).
Definition bundle_errors (e : error) : string * string :=
  if errors_is e ErrValidation then ("400", "VALIDATION_ERROR") else
  if errors_is e ErrWCKBundleConflict then ("409", "CONFLICT") else
  if errors_is e ErrWCKBundleNotFound then ("404", "NOT_FOUND") else ("500", "INTERNAL_ERROR").
Definition BundleStore_handler (userID pickupKey bundle : string) : M W Z :=
  let! out := answered bundle_errors (bundle_Store pickupKey bundle userID) in ret (bd_UpdatedAt out).
Definition BundleGet_handler (pickupKey : string) : M W string :=
  let! out := answered bundle_errors (bundle_Get pickupKey) in ret (bd_Bundle out).

(** ** push_token.go, push_device.go *)
Definition PushRegister_handler (token : string) (regs : list PushRegistration) : M W unit :=
  answered validation_errors (Replace token regs).
Definition PushDelete_handler (token : string) : M W unit := answered validation_errors (push_Delete token).
Definition DeviceRegister_handler (userID scope token platform : string) : M W unit :=
  answered validation_errors (device_Register userID scope token platform).
Definition DeviceDelete_handler (userID scope token : string) : M W unit :=
  answered validation_errors (device_Delete userID scope token).

(** ** notification.go *)
Definition maxNotificationPageSize : Z := 50.
(** [strconv.Atoi] *)
Definition Atoi (s : string) : option Z :=
  match big_set_string s with Some n => if (- 2 ^ 63 <=? n) && (n <? 2 ^ 63) then Some n else None | None => None end.
Definition page_limit (raw : string) : Z :=
  match Atoi raw with Some n => if 0 <? n then n else maxNotificationPageSize | None => maxNotificationPageSize end.
Definition notification_json (n : Notification) : json :=
  JObj [("id", JStr (no_ID n)); ("type", JStr (no_Type n)); ("title", JStr (no_Title n)); ("body", JStr (no_Body n));
        ("metadata", default JNull (no_Metadata n)); ("read", JBool (no_Read n));
        ("created_at", JStr (rfc3339nano_format (no_CreatedAt n)))].
Definition NotificationList_handler (userID scope cursor limit : string) : M W json :=
  let! ' (page, nextCursor) := answered validation_errors (notifications_List userID scope cursor (page_limit limit)) in
  let! count := answered validation_errors (UnreadCount userID scope) in
  ret (JObj [("notifications", JArr (notification_json <$> page)); ("next_cursor", JStr nextCursor); ("unread_count", JNum count)]).
Definition UnreadCount_handler (userID scope : string) : M W json :=
  let! count := answered validation_errors (UnreadCount userID scope) in ret (JObj [("unread_count", JNum count)]).
Definition read_errors (e : error) : string * string :=
  if errors_is e ErrNotificationNotFound then ("404", "NOT_FOUND") else validation_errors e.
Definition MarkRead_handler (userID scope id : string) : M W unit := answered read_errors (MarkRead userID scope id).
Definition MarkAllRead_handler (userID scope : string) : M W unit := answered validation_errors (MarkAllRead userID scope).

(** ** backup.go *)
Record clientEncryptedBlob := {
  ce_Version : string; ce_Salt : string; ce_IV : string; ce_AuthTag : string; ce_Ciphertext : string }.
Definition blob_complete (eb : clientEncryptedBlob) : bool :=
  negb (String.eqb (ce_Version eb) "" || String.eqb (ce_Salt eb) "" || String.eqb (ce_IV eb) "" ||
        String.eqb (ce_AuthTag eb) "" || String.eqb (ce_Ciphertext eb) "").
Definition BackupStore_handler `{Json clientEncryptedBlob} (userID scope method smartAccountAddress : string) (eb : clientEncryptedBlob)
    : M W unit :=
  if negb (blob_complete eb) then invalid else
  if negb (IsContractAddress smartAccountAddress) then invalid else
  let! blobJSON := or_fail "500" "INTERNAL_ERROR" (lift (json_marshal eb)) in
  let! _ := or_fail "500" "INTERNAL_ERROR" (StoreClientEncrypted userID blobJSON) in
  let! _ := quietly (account_Register userID smartAccountAddress) in
  quietly (Notify userID scope (activity "backup_stored" "Wallet backup saved"
    (if String.eqb method "PUT" then "Your wallet backup was updated." else "Your wallet backup was saved."))).
Definition BackupExists_handler (userID : string) : M W bool := or_fail "500" "INTERNAL_ERROR" (Exists userID).
End Routes.
End MobileRoutes.
