(* ===== verification/AuthRoutes.v ===== *)
(** * The routes of sign-in and recovery (handler/auth.go, recovery.go,
    wallet_auth.go, passkey_credential.go)

    One-time codes, users and tokens, backups and notifications meet here. What
    is mailed is recorded as sent; audit records and metrics are left out. *)

From S2P Require Export MobileRoutes.

(** Redis, the tables of the mobile API, and the mail handed over: to whom, which code, and for what. *)
Inductive Mail := SendOTP (email code : string) | SendRecoveryOTP (email code : string).
Record AppStore := MkApp { ap_redis : RedisStore; ap_data : MobileData; ap_mail : list Mail }.

Module AuthRoutes.
Import MobileStore Mobile Tokens AccountSigners MobileData MobileRoutes Routes Deploynet WalletNonce WalletSig WebAuthn.

Definition otp_part {A} : M (World RedisStore) A -> M (World AppStore) A :=
  zoom ap_redis (fun x a => MkApp x (ap_data a) (ap_mail a)).
Definition data_part {A} : M (World MobileData) A -> M (World AppStore) A :=
  zoom ap_data (fun x a => MkApp (ap_redis a) x (ap_mail a)).
Definition set_tokens (t : TokenStore) (d : MobileData) : MobileData := MkMobileData t (d_registrations d) (d_cosign d)
  (d_signatures d) (d_queue_tokens d) (d_bundles d) (d_memberships d) (d_devices d) (d_notifications d) (d_backups d) (d_keys d)
  (d_pushes d).
Definition token_part {A} (m : M (World TokenStore) A) : M (World AppStore) A := data_part (zoom d_tokens set_tokens m).
Definition send_mail (m : Mail) : M (World AppStore) unit := fun w =>
  (Ok tt, put_store (MkApp (ap_redis (w_store w)) (ap_data (w_store w)) (ap_mail (w_store w) ++ [m])%list) w).

Section Email.
Context `{UuidLib} `{Unicode} `{Deployment} `{Env} `{NanoTime} `{JsonDoc} `{TimeFormat} `{StellarSDK} `{Jwt} `{AuthConfig}.
(** [rand.Int], and how long a recovery token lives *)
Context (rand_Int : nat -> Z -> res Z) (recoveryTTL : Z).
Abbreviation W := (World AppStore).

Definition internal {A} (m : M W A) : M W A := or_fail "500" "INTERNAL_ERROR" m.
Definition unauthorized {A} : M W A := fail "401" "UNAUTHORIZED".

(** ** auth.go *)
Definition EmailRegister (email : string) : M W unit :=
  let! _ := internal (token_part (UpsertUser email)) in
  let! otp := internal (otp_part (Otp.Generate rand_Int email)) in
  send_mail (SendOTP email otp).
Definition EmailVerify (email otp : string) : M W (string * string * Z) :=
  let! ok := internal (otp_part (Otp.Verify email otp)) in
  if negb ok then unauthorized else
  let! userID := internal (token_part (VerifyEmail email)) in
  let! ' (accessToken, refreshToken) := internal (token_part (IssueTokenPair userID)) in
  ret (accessToken, refreshToken, accessTTL / 1000).
Definition Refresh (refreshToken : string) : M W (string * string * Z) :=
  let! ' (_, accessToken, refreshToken) := or_fail "401" "UNAUTHORIZED" (token_part (RotateRefreshToken refreshToken)) in
  ret (accessToken, refreshToken, accessTTL / 1000).
Definition Logout (refreshToken : string) : M W unit := internal (token_part (RevokeRefreshToken refreshToken)).

(** ** recovery.go *)
Definition started : NotificationRecord :=
  activity "recovery_initiated" "Wallet recovery started"
    "A recovery was started for your wallet. If this wasn't you, secure your account.".
Definition completed : NotificationRecord :=
  activity "recovery_completed" "Wallet recovery completed" "Your wallet backup was recovered.".
Definition or_nothing {A} (m : M W A) : M W unit := let! _ := attempt m in ret tt.
(** The same answer whether the address is known or not. *)
Definition RecoveryInitiate (email : string) : M W unit :=
  let! userID := token_part (GetVerifiedUserByEmail email) in
  let! otp := attempt (otp_part (Otp.Generate rand_Int ("recovery:" +:+ email))) in
  match otp with
  | Err _ => ret tt
  | Ok otp =>
      if String.eqb userID "" then ret tt else
      let! _ := send_mail (SendRecoveryOTP email otp) in
      or_nothing (data_part (Notify userID "" started))
  end.
Definition RecoveryVerify (email otp : string) : M W (string * Z) :=
  let! ok := internal (otp_part (Otp.Verify ("recovery:" +:+ email) otp)) in
  if negb ok then unauthorized else
  let! userID := token_part (GetVerifiedUserByEmail email) in
  if String.eqb userID "" then unauthorized else
  let! recoveryToken := internal (token_part (IssueRecoveryToken userID recoveryTTL)) in
  ret (recoveryToken, recoveryTTL / 1000).
(** The stored text is checked to be JSON and handed back as it is. *)
Definition GetBlob (authHeader : string) : M W json :=
  let! now := now_ms in
  match validateRecoveryToken authHeader now with
  | Err _ => unauthorized
  | Ok userID =>
      let! found := attempt (data_part (GetClientBlob userID)) in
      match found with
      | Err e => if errors_is e ErrNoBackup then fail "404" "NOT_FOUND" else fail "500" "INTERNAL_ERROR"
      | Ok blobJSON =>
          let! encBlob := internal (lift (json_doc blobJSON)) in
          let! _ := or_nothing (data_part (Notify userID "" completed)) in
          ret encBlob
      end
  end.
End Email.

(** ** wallet_auth.go and passkey_credential.go, on the stores of those services *)
Section Wallet.
Context `{StellarSDK} `{Network} `{SubmitNetwork} `{UuidLib} `{Unicode} `{Deployment} `{Env} `{ServiceConfig}
  `{WebAuthnLib} `{Jwt} `{AuthConfig} `{MobileConfig}.
Abbreviation W := (World Backend).

Definition challenge_errors (e : error) : string * string :=
  if errors_is e ErrInvalidWallet then ("400", "VALIDATION_ERROR") else
  if errors_is e ErrInvalidWalletNetwork then ("400", "VALIDATION_ERROR") else
  if errors_is e ErrMismatch then ("400", "NETWORK_MISMATCH") else ("500", "INTERNAL_ERROR").
Definition Challenge_handler (wallet keyType network : string) : M W (string * Z * string) :=
  answered challenge_errors (WalletChallenge wallet keyType network).
Definition ErrPasskeyNotEnabled : error := Sentinel "ErrPasskeyNotEnabled".
Definition signIn_errors (e : error) : string * string :=
  if errors_is e ErrInvalidWallet || errors_is e ErrUnsupportedKeyType then ("400", "VALIDATION_ERROR") else
  if errors_is e ErrInvalidWalletNetwork then ("400", "VALIDATION_ERROR") else
  if errors_is e ErrMismatch then ("400", "NETWORK_MISMATCH") else
  if errors_is e ErrPasskeyNotEnabled then ("400", "VALIDATION_ERROR") else
  if errors_is e ErrNonceInvalid then ("401", "UNAUTHORIZED") else
  if errors_is e ErrBadSignature || errors_is e ErrBadWalletAddress then ("401", "UNAUTHORIZED") else ("500", "INTERNAL_ERROR").
(** The request in base64; the nonce stays as it came. *)
Definition decoded_sign_in (req : WalletSignInInput) : res WalletSignInInput :=
  let? sig := Base64.StdEncoding_DecodeString (wi_Signature req) in
  let? authData := Base64.StdEncoding_DecodeString (wi_AuthenticatorData req) in
  let? clientData := Base64.StdEncoding_DecodeString (wi_ClientDataJSON req) in
  let? passkeySig := Base64.StdEncoding_DecodeString (wi_PasskeySignature req) in
  Ok {| wi_Wallet := wi_Wallet req; wi_KeyType := wi_KeyType req; wi_Network := wi_Network req; wi_NonceB64URL := wi_NonceB64URL req;
        wi_Signature := sig; wi_AuthenticatorData := authData; wi_ClientDataJSON := clientData; wi_PasskeySignature := passkeySig |}.
Definition SignIn_handler (req : WalletSignInInput) : M W (string * string * Z) :=
  let! inp := or_fail "400" "VALIDATION_ERROR" (lift (decoded_sign_in req)) in
  let! ' (accessToken, refreshToken) := answered signIn_errors (SignIn inp) in
  ret (accessToken, refreshToken, accessTTL / 1000).

Definition LookupChallenge_handler : M W (string * Z) :=
  let! ' (nonce, ttl) := or_fail "500" "INTERNAL_ERROR" LookupChallenge in ret (nonce, ttl / 1000).
Definition lookup_errors (e : error) : string * string :=
  if errors_is e ErrCredentialNotFound then ("401", "UNAUTHORIZED") else ("500", "INTERNAL_ERROR").
Definition Lookup_handler (nonce credentialID authenticatorData clientDataJSON signature : string) : M W PasskeyCredential :=
  let! ' (ad, cdj, sig) := or_fail "400" "VALIDATION_ERROR" (lift
    (let? ad := Base64.StdEncoding_DecodeString authenticatorData in
     let? cdj := Base64.StdEncoding_DecodeString clientDataJSON in
     let? sig := Base64.StdEncoding_DecodeString signature in Ok (ad, cdj, sig))) in
  answered lookup_errors (Lookup credentialID nonce ad cdj sig).
End Wallet.
End AuthRoutes.
