(* ===== verification/MobileDataTheorems.v ===== *)
(** * What holds of the mobile data, whatever is requested

    A run is any sequence of requests by any callers, with any failures of the
    database between the steps of each. *)

From S2P Require Import AuthRoutes Instances.

Module MobileDataTheorems.
Import Deploynet MobileStore Mobile Tokens AccountSigners MobileData Funding MobileRoutes.

Section Requests.
Context `{UuidLib} `{Unicode} `{Deployment} `{Env} `{RelayerIntents} `{RelayerStatus} `{TimeFormat} `{NanoTime} `{JsonDoc}
  `{Json clientEncryptedBlob} `{Retention}.
Abbreviation W := (World MobileData).

(** What a caller — a user id and a scope — may ask for, and the periodic sweep. *)
Inductive request :=
  | RqRegister (address : string)
  | RqAccounts
  | RqDepositIntent (address network : string) (opts : FundingIntentOptions)
  | RqDepositStatus (memoID network : string)
  | RqCosignCreate (req : CreateCosignInput)
  | RqCosignList (queueIndex : string)
  | RqCosignGet (id : string)
  | RqCosignSign (id signer xdr : string)
  | RqCosignSubmitted (id txHash : string)
  | RqCosignCancel (id : string)
  | RqAnnounce (walletRef : string) (members : list string)
  | RqMemberships (member : string)
  | RqBundleStore (pickupKey bundle : string)
  | RqBundleGet (pickupKey : string)
  | RqPushRegister (token : string) (regs : list PushRegistration)
  | RqPushDelete (token : string)
  | RqDeviceRegister (token platform : string)
  | RqDeviceDelete (token : string)
  | RqNotifications (cursor limit : string)
  | RqUnread
  | RqMarkRead (id : string)
  | RqMarkAllRead
  | RqBackupStore (method address : string) (eb : clientEncryptedBlob)
  | RqBackupExists
  | RqSweep.
Definition unit_of {A} (m : M W A) : M W unit := let! _ := m in ret tt.
Definition serve (userID scope : string) (r : request) : M W unit :=
  match r with
  | RqRegister address => Register_handler userID address
  | RqAccounts => unit_of (List_handler userID)
  | RqDepositIntent address network opts => unit_of (CreateDepositIntent userID scope address network opts)
  | RqDepositStatus memoID network => unit_of (DepositStatus_handler userID scope memoID network)
  | RqCosignCreate req => unit_of (Create_handler userID scope req)
  | RqCosignList queueIndex => unit_of (CosignList_handler queueIndex)
  | RqCosignGet id => unit_of (CosignGet_handler id)
  | RqCosignSign id signer xdr => unit_of (AddSignature_handler userID scope id signer xdr)
  | RqCosignSubmitted id txHash => MarkSubmitted_handler userID scope id txHash
  | RqCosignCancel id => Cancel_handler userID scope id
  | RqAnnounce walletRef members => Announce_handler userID walletRef members
  | RqMemberships member => unit_of (MembershipList_handler member)
  | RqBundleStore pickupKey bundle => unit_of (BundleStore_handler userID pickupKey bundle)
  | RqBundleGet pickupKey => unit_of (BundleGet_handler pickupKey)
  | RqPushRegister token regs => PushRegister_handler token regs
  | RqPushDelete token => PushDelete_handler token
  | RqDeviceRegister token platform => DeviceRegister_handler userID scope token platform
  | RqDeviceDelete token => DeviceDelete_handler userID scope token
  | RqNotifications cursor limit => unit_of (NotificationList_handler userID scope cursor limit)
  | RqUnread => unit_of (UnreadCount_handler userID scope)
  | RqMarkRead id => MarkRead_handler userID scope id
  | RqMarkAllRead => MarkAllRead_handler userID scope
  | RqBackupStore method address eb => BackupStore_handler userID scope method address eb
  | RqBackupExists => unit_of (BackupExists_handler userID)
  | RqSweep => unit_of Run
  end.
(** A sequence of requests, each with its caller. *)
Fixpoint served (l : list (string * string * request)) (w : W) : W :=
  match l with [] => w | (u, s, r) :: l' => served l' (snd (serve u s r w)) end.

End Requests.

(** ** Walking through a request *)
Lemma keeps_send_push (R : MobileData -> MobileData -> Prop) p : (forall d, R d (set_pushes (d_pushes d ++ [p])%list d)) -> keeps (on_store R) (send_push p).
Proof. intros HR w. apply HR. Qed.
Ltac open_routes := unfold serve, unit_of, Register_handler, List_handler, CreateDepositIntent, DepositStatus_handler, Create_handler,
  CosignList_handler, CosignGet_handler, AddSignature_handler, MarkSubmitted_handler, Cancel_handler, Announce_handler,
  MembershipList_handler, BundleStore_handler, BundleGet_handler, PushRegister_handler, PushDelete_handler, DeviceRegister_handler,
  DeviceDelete_handler, NotificationList_handler, UnreadCount_handler, MarkRead_handler, MarkAllRead_handler, BackupStore_handler,
  BackupExists_handler, Run, sweep, notifyQueue, quietly, queue_push, Routes.answered, or_fail, fail, invalid,
  account_Register, account_List, CreateFundingIntent, GetFundingStatus, registered_to, cosign_Create, cosign_List, cosign_Get,
  AddSignature, MarkSubmitted, cosign_Cancel, cosign_getByID, assemble, Announce, announce_member, memberships_List, bundle_Store,
  bundle_Get, Replace, insert_registration, TokensForQueue, push_Delete, device_Register, device_Delete, Notify, dispatchPush,
  notifications_List, UnreadCount, MarkRead, MarkAllRead, subject, StoreClientEncrypted, Exists, or_no_rows, named_network.

(** Walk through a request: each statement is a goal of its own. *)
Ltac statements := open_routes; keeps.

Ltac open_statement E := cbv beta delta [UpsertSmartAccountRegistration InsertCosignRequest InsertCosignSignature MarkCosignSubmitted
  CancelCosignRequest DeleteExpiredCosignRequests ReplacePushTokenRegistrations DeletePushTokenRegistrations
  InsertPushTokenRegistration UpsertWCKBundle DeleteStaleWCKBundles UpsertWalletMembership DeleteStaleWalletMemberships
  UpsertPushDevice UpsertPushDeviceForWallet upsert_device DeletePushDevice DeletePushDeviceForWallet delete_device
  insert_notification mark_all_read mark_read UpsertClientEncryptedBackup upsert_backup] zeta in E.
(** A statement on other tables: [lem] says the relation holds when its own are the same. *)
Ltac elsewhere lem :=
  try (apply keeps_send_push; intros ?; by apply lem);
  try (eapply keeps_exec; [apply _|apply _|]; let d := fresh in let a := fresh in let d' := fresh in let E := fresh in
       intros d a d' E; open_statement E;
       repeat match type of E with context [match ?x with _ => _ end] => destruct x; [..|try discriminate E] | (if ?x then _ else _) = _ => destruct x; try discriminate E end;
       try discriminate E; injection E as <- <-; by apply lem).


Section Invariants.
Context `{UuidLib} `{Unicode} `{Deployment} `{Env} `{RelayerIntents} `{RelayerStatus} `{TimeFormat} `{NanoTime} `{JsonDoc}
  `{Json clientEncryptedBlob} `{Retention}.
Abbreviation W := (World MobileData).

(** *** Accounts *)
Definition owners_kept (d d' : MobileData) : Prop :=
  forall address r, d_registrations d !! address = Some r ->
    exists r', d_registrations d' !! address = Some r' /\ rg_UserID r' = rg_UserID r.
#[local] Instance owners_kept_refl : Reflexive owners_kept.
Proof. intros d a r Hr. by exists r. Qed.
#[local] Instance owners_kept_trans : Transitive owners_kept.
Proof. intros d1 d2 d3 Ha Hb a r Hr. destruct (Ha a r Hr) as (r2 & Hr2 & <-). by apply Hb. Qed.
Lemma owners_same d d' : d_registrations d' = d_registrations d -> owners_kept d d'.
Proof. intros E a r Hr. exists r. by rewrite E. Qed.
Lemma owners_register id uid address now : keeps (on_store owners_kept) (exec (UpsertSmartAccountRegistration id uid address now)).
Proof.
  apply keeps_exec; [apply _..|]. intros d [] d' E a r Hr. revert E. unfold UpsertSmartAccountRegistration.
  destruct (d_registrations d !! address) as [r0|] eqn:E0.
  - case_bool_decide as Hu; [|done]. intros [= <-]. cbn. destruct (decide (a = address)) as [->|Hne].
    + rewrite lookup_insert_eq. eexists. split; [done|]. cbn. congruence.
    + rewrite lookup_insert_ne by done. eauto.
  - destruct (too_long _ _); [done|]. destruct (existsb _ _); [done|]. destruct (no_user _ _); [done|]. intros [= <-]. cbn.
    rewrite lookup_insert_ne by congruence. eauto.
Qed.
Hint Resolve owners_register : keeps.
Lemma owners_serve u s r : keeps (on_store owners_kept) (serve u s r).
Proof. destruct r. all: statements. all: elsewhere owners_same. Qed.

(** *** The cosign queue *)
Definition final_status (s : string) : Prop := s = "submitted" \/ s = "cancelled".
(** A row changes once: from pending to submitted or cancelled. *)
Definition evolves (r r' : CosignRow) : Prop :=
  r' = r \/ (cs_Status r = "pending" /\ exists status hash t, final_status status /\ r' = cosign_with status hash t r).
Record cosign_wf (d : MobileData) : Prop := {
  wf_request : forall id r, d_cosign d !! id = Some r ->
    cs_ID r = id /\ 1 <= cs_Threshold r /\ (cs_Status r = "pending" \/ final_status (cs_Status r));
  wf_signature : forall sid g, d_signatures d !! sid = Some g -> cg_ID g = sid /\ is_Some (d_cosign d !! cg_RequestID g);
  wf_once : forall sid g sid' g', d_signatures d !! sid = Some g -> d_signatures d !! sid' = Some g' ->
    cg_RequestID g = cg_RequestID g' -> cg_BlindSignerID g = cg_BlindSignerID g' -> sid = sid' }.
(** Nothing that expires at the horizon or later is lost. *)
Record cosign_kept (horizon : Z) (d d' : MobileData) : Prop := {
  kept_request : forall id r, d_cosign d !! id = Some r -> horizon <= cs_ExpiresAt r ->
    exists r', d_cosign d' !! id = Some r' /\ evolves r r';
  kept_signature : forall sid g r, d_signatures d !! sid = Some g -> d_cosign d !! cg_RequestID g = Some r ->
    horizon <= cs_ExpiresAt r -> d_signatures d' !! sid = Some g }.
Definition cosign_step (horizon : Z) (d d' : MobileData) : Prop := cosign_wf d -> cosign_wf d' /\ cosign_kept horizon d d'.

Lemma evolves_trans r1 r2 r3 : evolves r1 r2 -> evolves r2 r3 -> evolves r1 r3.
Proof.
  intros [->|(Hp & st & h & t & Hf & ->)]; [done|]. intros [->|(Hp' & _)]; [right; eauto 8|].
  cbn in Hp'. destruct Hf; congruence.
Qed.
Lemma evolves_expiry r r' : evolves r r' -> cs_ExpiresAt r' = cs_ExpiresAt r.
Proof. by intros [->|(_ & st & h & t & _ & ->)]. Qed.
#[local] Instance cosign_step_refl h : Reflexive (cosign_step h).
Proof. intros d Hd. split; [done|]. split; [|done]. intros id r Hr _. exists r. by split; [|left]. Qed.
#[local] Instance cosign_step_trans h : Transitive (cosign_step h).
Proof.
  intros d1 d2 d3 Ha Hb Hd. destruct (Ha Hd) as [Hd2 [Hr Hs]]. destruct (Hb Hd2) as [Hd3 [Hr' Hs']]. split; [done|]. split.
  - intros id r Hid He. destruct (Hr id r Hid He) as (r2 & Hid2 & E2). rewrite <- (evolves_expiry _ _ E2) in He.
    destruct (Hr' id r2 Hid2 He) as (r3 & Hid3 & E3). exists r3. split; [done|]. by eapply evolves_trans.
  - intros sid g r Hg Hid He. destruct (Hr _ r Hid He) as (r2 & Hid2 & E2). rewrite <- (evolves_expiry _ _ E2) in He.
    eapply Hs'; [by eapply Hs; rewrite ?(evolves_expiry _ _ E2) in He|exact Hid2|done].
Qed.
Lemma cosign_same h d d' : d_cosign d' = d_cosign d -> d_signatures d' = d_signatures d -> cosign_step h d d'.
Proof.
  intros E E' [Hr Hg Hu]. split; [by split; rewrite ?E, ?E'|]. split; rewrite ?E, ?E'; [|done].
  intros id r Hid _. exists r. by split; [|left].
Qed.

Lemma cosign_insert h row : cs_Status row = "pending" -> keeps (on_store (cosign_step h)) (exec (InsertCosignRequest row)).
Proof.
  intros Hp. apply keeps_exec; [apply _..|]. intros d x d'. unfold InsertCosignRequest.
  destruct (_ || _); [done|]. destruct (Z.ltb_spec (cs_Threshold row) 1); [done|].
  unfold present. destruct (d_cosign d !! cs_ID row) eqn:E; [done|]. intros [= <- <-] [Hr Hg Hu]. split; split; cbn.
  - intros id r. rewrite lookup_insert_Some. intros [[<- <-]|[_ Hid]]; [auto|by apply Hr].
  - intros sid g Hsid. destruct (Hg _ _ Hsid) as [? Hs]. split; [done|]. apply lookup_insert_is_Some'. by right.
  - exact Hu.
  - intros id r Hid _. exists r. split; [|by left]. by rewrite lookup_insert_ne by congruence.
  - intros sid g r Hsid _ _. exact Hsid.
Qed.
Lemma cosign_sign h row : keeps (on_store (cosign_step h)) (exec (InsertCosignSignature row)).
Proof.
  apply keeps_exec; [apply _..|]. intros d [] d'. unfold InsertCosignSignature. destruct (too_long _ _); [done|].
  destruct (select_one _ _) as [g0|e0] eqn:Esel; [intros [= <-]; reflexivity|]. cbn. unfold present.
  destruct (d_signatures d !! cg_ID row) eqn:E; [done|]. destruct (d_cosign d !! cg_RequestID row) eqn:Ereq; [|done].
  intros [= <-] [Hr Hg Hu].
  assert (forall k g, d_signatures d !! k = Some g -> cg_RequestID g = cg_RequestID row -> cg_BlindSignerID g = cg_BlindSignerID row -> False)
    as Hnew.
  { intros k g Hk Hq Hb. unfold select_one in Esel. destruct (select _ _) as [|x l] eqn:El; [|done].
    assert (g ∈ select (signed_by (cg_RequestID row) (cg_BlindSignerID row)) (d_signatures d)) as Hin.
    { apply elem_of_select. split; [|eauto]. unfold signed_by. rewrite Hq, Hb, String.eqb_refl. by rewrite bool_decide_eq_true_2. }
    rewrite El in Hin. by apply not_elem_of_nil in Hin. }
  split; split; cbn.
  - exact Hr.
  - intros sid g. rewrite lookup_insert_Some. intros [[<- <-]|[_ Hsid]]; [by rewrite Ereq|by apply Hg].
  - intros sid g sid' g'. rewrite !lookup_insert_Some.
    intros [[<- <-]|[_ Ha]] [[<- <-]|[_ Hb]] Eq Es; [done| | |by eapply Hu]; exfalso; by eapply Hnew.
  - intros id r Hid _. exists r. by split; [|left].
  - intros sid g r Hsid _ _. by rewrite lookup_insert_ne by congruence.
Qed.
Lemma cosign_close h id status hash now d : final_status status -> cosign_step h d
  (set_cosign (update_where (pending_row id) (fun r => cosign_with status (hash r) now r) (d_cosign d)) d).
Proof.
  intros Hf [Hr Hg Hu]. split; split; cbn.
  - intros k r. rewrite lookup_update_where, fmap_Some. intros (r0 & Hk & ->). destruct (Hr _ _ Hk) as (? & ? & ?).
    destruct (pending_row id r0); cbn; auto.
  - intros sid g Hsid. destruct (Hg _ _ Hsid) as [? [r Hs]]. split; [done|]. rewrite lookup_update_where, Hs. by eexists.
  - exact Hu.
  - intros k r Hk _. rewrite lookup_update_where, Hk. eexists. split; [done|].
    destruct (pending_row id r) eqn:Ep; [right|by left]. apply andb_prop in Ep as [_ Ep%String.eqb_eq]. eauto 8.
  - intros sid g r Hsid _ _. exact Hsid.
Qed.
Lemma cosign_submit h id hash now : keeps (on_store (cosign_step h)) (exec (MarkCosignSubmitted id hash now)).
Proof.
  apply keeps_exec; [apply _..|]. intros d [] d'. unfold MarkCosignSubmitted. destruct (match hash with Some _ => _ | None => _ end); [done|].
  intros [= <-]. apply (cosign_close h id "submitted" (fun _ => hash)). by left.
Qed.
Lemma cosign_cancel h id now : keeps (on_store (cosign_step h)) (exec (CancelCosignRequest id now)).
Proof.
  apply keeps_exec; [apply _..|]. intros d [] d' [= <-]. apply (cosign_close h id "cancelled" cs_SubmittedTxHash). by right.
Qed.
Lemma cosign_sweep h before : before <= h -> keeps (on_store (cosign_step h)) (exec (DeleteExpiredCosignRequests before)).
Proof.
  intros Hb. apply keeps_exec; [apply _..|]. intros d x d' [= _ <-] [Hr Hg Hu]. split; split; cbn.
  - intros id r [Hid _]%lookup_delete_where. by apply Hr.
  - intros sid g [Hsid Hp]%map_lookup_filter_Some. destruct (Hg _ _ Hsid) as [? _]. split; [done|]. cbn in Hp.
    unfold present in Hp. destruct (delete_where _ _ !! _); [by eexists|done].
  - intros sid g sid' g' [Ha _]%map_lookup_filter_Some [Hb' _]%map_lookup_filter_Some. by apply Hu.
  - intros id r Hid He. exists r. split; [|by left]. apply lookup_delete_where. split; [done|]. apply Z.ltb_ge. lia.
  - intros sid g r Hsid Hid He. apply map_lookup_filter_Some. split; [done|]. cbn. unfold present.
    rewrite (proj2 (lookup_delete_where _ _ _ r)); [done|]. split; [done|]. apply Z.ltb_ge. lia.
Qed.
Hint Resolve cosign_sign cosign_submit cosign_cancel : keeps.
Lemma keeps_from_now {D A} (R : D -> D -> Prop) `{!Reflexive R} `{!Transitive R} (k : Z -> M (World D) A) :
  (forall n, keeps (on_store R) (k (env_now n))) -> keeps (on_store R) (bind now_ms k).
Proof. intros Hk w. unfold bind, now_ms. exact (Hk (w_io w) (tick w)). Qed.
(** The clock stays below what the sweep's retention adds to the horizon. *)
Definition clock_below (h : Z) : Prop := forall n, env_now n - cosignRetention <= h.
Lemma cosign_serve h u s r : clock_below h -> keeps (on_store (cosign_step h)) (serve u s r).
Proof.
  intros Hc. assert (forall d d', d_cosign d' = d_cosign d /\ d_signatures d' = d_signatures d -> cosign_step h d d') as Hsame
    by (intros d d' [? ?]; by apply cosign_same).
  destruct r. 25: { unfold serve, unit_of, Run, sweep. eapply keeps_bind; [apply _..| |keeps].
    eapply keeps_from_now; [apply _..|]. intros n. pose proof (cosign_sweep h _ (Hc n)). keeps. all: elsewhere Hsame. }
  all: statements. all: try by apply cosign_insert. all: elsewhere Hsame.
Qed.

(** *** Sealed bundles *)
(** Whoever is not [who] may replace a bundle of [who] by nothing. *)
Definition bundles_kept (who : string) (d d' : MobileData) : Prop :=
  forall key b, d_bundles d !! key = Some b -> bd_Uploader b = who -> d_bundles d' !! key = Some b.
#[local] Instance bundles_kept_refl who : Reflexive (bundles_kept who).
Proof. by intros d key b. Qed.
#[local] Instance bundles_kept_trans who : Transitive (bundles_kept who).
Proof. intros d1 d2 d3 Ha Hb key b Hk Hw. apply Hb; [by apply Ha|done]. Qed.
Lemma bundles_same who d d' : d_bundles d' = d_bundles d -> bundles_kept who d d'.
Proof. intros E key b. by rewrite E. Qed.
Lemma bundles_upsert who key bundle uploader now : uploader <> who -> who <> "" ->
  keeps (on_store (bundles_kept who)) (exec (UpsertWCKBundle key bundle uploader now)).
Proof.
  intros Hu Hw. apply keeps_exec; [apply _..|]. intros d x d' E k b Hk <-. revert E. unfold UpsertWCKBundle.
  destruct (d_bundles d !! key) as [r|] eqn:Er.
  - destruct (String.eqb (bd_Uploader r) uploader || String.eqb (bd_Uploader r) "") eqn:Ec; [|done]. intros [= <- <-]. cbn.
    rewrite lookup_insert_ne; [done|]. intros ->. rewrite Er in Hk. injection Hk as ->.
    apply orb_prop in Ec as [Ec|Ec]; apply String.eqb_eq in Ec; congruence.
  - intros [= <- <-]. cbn. rewrite lookup_insert_ne; congruence.
Qed.
Definition not_sweep (r : request) : Prop := match r with RqSweep => False | _ => True end.
Lemma bundles_serve who u s r : not_sweep r -> u <> who -> who <> "" -> keeps (on_store (bundles_kept who)) (serve u s r).
Proof. intros Hr Hu Hw. destruct r; [..|done]. all: statements. all: try by apply bundles_upsert. all: elsewhere bundles_same. Qed.

(** ** What holds over a run *)
Lemma keeps_served (R : MobileData -> MobileData -> Prop) `{!Reflexive R} `{!Transitive R} (ok : string * string * request -> Prop) :
  (forall u s r, ok (u, s, r) -> keeps (on_store R) (serve u s r)) ->
  forall l w, Forall ok l -> R (w_store w) (w_store (served l w)).
Proof.
  intros Hk l. induction l as [|[[u s] r] l IH]; intros w Hl; [reflexivity|]. cbn [served].
  apply Forall_cons_1 in Hl as [Hr Hl]. transitivity (w_store (snd (serve u s r w))); [exact (Hk u s r Hr w)|by apply IH].
Qed.

(** C35. Over any run the cosign queue stays well formed: every request has a
    threshold of at least one and one of the statuses, every signature belongs to a
    request and no signer has two on one. A request changes at most once, from
    pending to submitted or cancelled, in nothing but its status, its hash and the
    time of the update; and as long as the clock keeps below its expiry plus the sweep's retention neither it
    nor any of its signatures is lost or altered. *)
Theorem cosign_queue_invariant h l w :
  clock_below h -> cosign_wf (w_store w) ->
  cosign_wf (w_store (served l w)) /\ cosign_kept h (w_store w) (w_store (served l w)).
Proof.
  intros Hc Hwf. refine (keeps_served (cosign_step h) (fun _ => True) _ l w _ Hwf).
  - intros u s r _. by apply cosign_serve.
  - by apply Forall_true.
Qed.

(** Over any run in which nobody but others act, a sealed bundle stays what its
    uploader stored: knowing the pickup key is not enough to replace it. *)
Theorem bundle_only_by_uploader l w key b :
  d_bundles (w_store w) !! key = Some b -> bd_Uploader b <> "" ->
  Forall (fun c => fst (fst c) <> bd_Uploader b /\ not_sweep (snd c)) l ->
  d_bundles (w_store (served l w)) !! key = Some b.
Proof.
  intros Hb Hne Hl. refine (keeps_served (bundles_kept (bd_Uploader b)) _ _ l w Hl key b Hb eq_refl).
  intros u s r [Hu Hr]. by apply bundles_serve.
Qed.

Lemma registered_to_ok uid address r (w w' : W) : registered_to uid address w = (Ok r, w') ->
  w_store w' = w_store w /\ exists row, d_registrations (w_store w) !! address = Some row /\ rg_UserID row = uid.
Proof.
  unfold registered_to. intros (owner & w1 & Ho & Hr)%bind_ok. apply (proj1 (or_no_rows_ok _ _ _ _ _ _)) in Ho.
  apply query_ok in Ho as (_ & Hq & ->). case_bool_decide as Hu; [|done]. apply ret_ok in Hr as [_ <-]. split; [done|].
  unfold GetSmartAccountRegistrationUserID in Hq. destruct (d_registrations _ !! address) as [row|] eqn:E; [|done].
  injection Hq as <-. by exists row.
Qed.
(** Who may ask for the deposits of an address. *)
Definition speaks_for (userID scope address : string) (d : MobileData) : Prop :=
  if String.eqb scope ScopeWallet then userID = address
  else exists uid row, uuid_parse userID = Some uid /\ d_registrations d !! address = Some row /\ rg_UserID row = uid.
Lemma parse_user_ok s u : parse_user s = Ok u -> uuid_parse s = Some u.
Proof. unfold parse_user, parse_uuid. destruct (uuid_parse s); [by intros [= <-]|done]. Qed.
Lemma create_intent_ok userID scope address network opts i (w w' : W) :
  CreateFundingIntent userID scope address network opts w = (Ok i, w') ->
  speaks_for userID scope address (w_store w) /\ exists n, relayer_create_intent (toInput opts address) n = Ok i.
Proof.
  unfold CreateFundingIntent, speaks_for. intros (x & w1 & Hn & Hr)%bind_ok. apply lift_ok in Hn as [_ <-].
  destruct (String.eqb scope ScopeWallet).
  - destruct (String.eqb userID address) eqn:E; [|done]. apply String.eqb_eq in E. apply call_ok in Hr as [Hr _]. eauto.
  - apply bind_ok in Hr as (uid & w2 & Hu & Hr). apply lift_ok in Hu as [Hu%parse_user_ok <-].
    apply bind_ok in Hr as (y & w3 & Hreg & Hr). apply registered_to_ok in Hreg as (_ & row & Hrow & Hown).
    apply call_ok in Hr as [Hr _]. split; [by exists uid, row|eauto].
Qed.
Lemma funding_status_ok userID scope memo network st (w w' : W) :
  GetFundingStatus userID scope memo network w = (Ok st, w') ->
  speaks_for userID scope (dt_CAddress st) (w_store w) /\ exists n, relayer_deposit_status memo n = Ok st.
Proof.
  unfold GetFundingStatus, speaks_for. intros (x & w1 & Hn & Hr)%bind_ok. apply lift_ok in Hn as [_ <-].
  destruct (String.eqb scope ScopeWallet).
  - apply bind_ok in Hr as (s0 & w2 & Hs & Hr). apply call_ok in Hs as [Hs ->].
    destruct (String.eqb (dt_CAddress s0) userID) eqn:E; [|done]. apply ret_ok in Hr as [<- _]. apply String.eqb_eq in E. eauto.
  - apply bind_ok in Hr as (uid & w2 & Hu & Hr). apply lift_ok in Hu as [Hu%parse_user_ok <-].
    apply bind_ok in Hr as (s0 & w3 & Hs & Hr). apply call_ok in Hs as [Hs ->].
    apply bind_ok in Hr as (y & w4 & Hreg & Hr). apply registered_to_ok in Hreg as (_ & row & Hrow & Hown).
    apply ret_ok in Hr as [<- _]. split; [by exists uid, row|eauto].
Qed.

(** An address registered to a user stays that user's whatever is requested
    afterwards; an intent is minted, and a deposit's status shown, only for an
    address that is the calling wallet itself or registered to the calling user. An
    intent asks for the address the caller named, and for no lifetime or one from
    five minutes to thirty days. *)
Theorem funding_of_owner l w address row userID scope network memo opts i st w1 w2 :
  d_registrations (w_store w) !! address = Some row ->
  CreateFundingIntent userID scope address network opts (served l w) = (Ok i, w1) ->
  GetFundingStatus userID scope memo network (served l w) = (Ok st, w2) ->
  (scope <> ScopeWallet -> uuid_parse userID = Some (rg_UserID row)) /\ (scope = ScopeWallet -> userID = address) /\
  speaks_for userID scope (dt_CAddress st) (w_store (served l w)) /\
  exists n, relayer_create_intent (toInput opts address) n = Ok i /\
    (ci_ExpiresIn (toInput opts address) = 0 \/
     MinFundingIntentTTL <= ci_ExpiresIn (toInput opts address) <= MaxFundingIntentTTL).
Proof.
  intros Hrow [Hs [n Hn]]%create_intent_ok [Hst _]%funding_status_ok.
  destruct (keeps_served owners_kept (fun _ => True) (fun u s r _ => owners_serve u s r) l w (Forall_true _ _ (fun _ => I)) address row Hrow)
    as (row' & Hrow' & Hown).
  assert (forall b, String.eqb scope ScopeWallet = b -> if b then userID = address else uuid_parse userID = Some (rg_UserID row)) as Hcase.
  { intros b Hb. revert Hs. unfold speaks_for. rewrite Hb. destruct b; [done|]. intros (uid & r2 & Hp & Hr2 & <-). congruence. }
  split_and!.
  - intros Hne. apply String.eqb_neq in Hne. exact (Hcase _ Hne).
  - intros ->. exact (Hcase _ (String.eqb_refl _)).
  - exact Hst.
  - exists n. split; [done|]. unfold toInput, MinFundingIntentTTL, MaxFundingIntentTTL. cbn [ci_ExpiresIn].
    repeat match goal with |- context [if ?a then _ else _] => destruct a eqn:? end; lia.
Qed.
End Invariants.

(** ** A user, a shared wallet and a relayer *)
Section Witnesses.
Import Demo.
#[local] Instance demo_deployment : Deployment := {| Get := "testnet"; Get_valid := or_intror (or_introl eq_refl) |}.
(** A clock that stops. *)
#[local] Instance demo_clock : Env := {|
  env_now n := Z.min (1000 + Z.of_nat n) 5000; env_uuid n := (100 + N.of_nat n)%N; env_rand n k := Ok (str_repeat "r" k);
  env_fault := no_fault |}.
#[local] Instance demo_intents : RelayerIntents := {| relayer_create_intent inp n :=
  Ok {| in_IntentID := "i"; in_MemoID := "7"; in_PoolAddress := "GPOOL"; in_ExpiresAt := ci_ExpiresIn inp |} |}.
Definition demo_address : string := "C" +:+ str_repeat "A" 55.
#[local] Instance demo_status : RelayerStatus := {| relayer_deposit_status memo n :=
  Ok {| dt_IntentID := "i"; dt_MemoID := memo; dt_CAddress := demo_address; dt_PoolAddress := "GPOOL"; dt_Status := "completed";
        dt_ExpiresAt := 0; dt_Forwards := [] |} |}.
#[local] Instance plain_time : TimeFormat := {| rfc3339_format t := pretty t; rfc3339_parse s := Ok 0 |}.
#[local] Instance plain_nano : NanoTime := {| rfc3339nano_format t := pretty t; rfc3339nano_parse s := Ok 0 |}.
#[local] Instance no_doc : JsonDoc := {| json_doc s := Err (Errorf "json"); json_doc_text j := Err (Errorf "json") |}.
#[local] Instance blob_text : Json clientEncryptedBlob := {| json_marshal b := Ok (ce_Ciphertext b); json_unmarshal s := Err (Errorf "json") |}.
#[local] Instance demo_retention : Retention := {| cosignRetention := 0; wckBundleRetention := 0; membershipRetention := 0 |}.

Definition no_data : MobileData := MkMobileData
  (MkTokens {[7%N := {| mu_Email := "a@b"; mu_EmailVerified := true |}]} ∅) ∅ ∅ ∅ ∅ ∅ ∅ ∅ ∅ ∅ ∅ [].
Definition demo_key : string := str_repeat "a" 64.
Definition w_data : World MobileData := MkWorld no_data 0.
Definition asked : list (string * string * request) :=
  [("7", "", RqCosignCreate {| ck_QueueIndex := demo_key; ck_UnsignedTxXDR := "tx"; ck_Network := "testnet"; ck_Threshold := 2 |});
   ("7", "", RqCosignSign "100" demo_key "sig"); ("7", "", RqCosignSubmitted "100" "hash"); ("8", "", RqCosignCancel "100");
   ("7", "", RqSweep)].
Lemma cosign_queue_invariant_witness :
  cosign_wf (w_store (served asked w_data)) /\ size (d_signatures (w_store (served asked w_data))) = 1%nat /\
  (cs_Status <$> d_cosign (w_store (served asked w_data)) !! 100%N) = Some "submitted".
Proof.
  assert (clock_below 5000) as Hc by (intros n; cbn; lia).
  assert (cosign_wf (w_store w_data)) as Hw by (split; intros until 0; cbn; rewrite lookup_empty; done).
  split; [exact (proj1 (cosign_queue_invariant 5000 asked w_data Hc Hw))|]. split; vm_compute; reflexivity.
Defined.

Definition with_bundle : World MobileData := snd (serve "7" "" (RqBundleStore demo_key "sealed") w_data).
Definition poisoned : list (string * string * request) := [("8", "", RqBundleStore demo_key "poison"); ("9", "", RqBundleGet demo_key)].
Lemma bundle_only_by_uploader_witness :
  bd_Bundle <$> d_bundles (w_store (served poisoned with_bundle)) !! demo_key = Some "sealed".
Proof.
  assert (exists b, d_bundles (w_store with_bundle) !! demo_key = Some b /\ bd_Uploader b = "7" /\ bd_Bundle b = "sealed")
    as (b & Hb & Hu & Hs) by (eexists; split; [vm_compute; reflexivity|by split]).
  rewrite (bundle_only_by_uploader poisoned with_bundle demo_key b Hb); [by cbn; rewrite Hs|by rewrite Hu|].
  rewrite Hu. by repeat constructor.
Defined.

Definition with_account : World MobileData := snd (serve "7" "" (RqRegister demo_address) w_data).
Definition a_day : FundingIntentOptions := {| fi_ExpiresIn := 86400; fi_ExpectedAmt := ""; fi_ExternalID := "" |}.
Definition squatting : list (string * string * request) := [("8", "", RqRegister demo_address)].
Lemma funding_of_owner_witness : exists i w1 st w2,
  CreateFundingIntent "7" "" demo_address "" a_day (served squatting with_account) = (Ok i, w1) /\
  GetFundingStatus "7" "" "7" "" (served squatting with_account) = (Ok st, w2) /\
  speaks_for "7" "" (dt_CAddress st) (w_store (served squatting with_account)).
Proof.
  destruct (succeeds (CreateFundingIntent "7" "" demo_address "" a_day) (served squatting with_account)) as (i & w1 & Hi); [by vm_compute|].
  destruct (succeeds (GetFundingStatus "7" "" "7" "") (served squatting with_account)) as (st & w2 & Hst); [by vm_compute|].
  exists i, w1, st, w2. split; [done|]. split; [done|].
  destruct (d_registrations (w_store with_account) !! demo_address) as [row|] eqn:E; [|vm_compute in E; discriminate].
  exact (proj1 (proj2 (proj2 (funding_of_owner squatting with_account demo_address row "7" "" "" "7" a_day i st w1 w2 E Hi Hst)))).
Defined.
End Witnesses.
End MobileDataTheorems.
