(* ===== verification/FeedTheorems.v ===== *)
(** * The notification feed and the encrypted backups

    Paging through the feed loses nothing, an event with a key is recorded and
    pushed once, and a backup that was stored is what comes back. *)

From S2P Require Import AuthRoutes MobileDataTheorems CeremonyTheorems Instances.

Module FeedTheorems.
Import Deploynet MobileStore Mobile Tokens AccountSigners MobileData Funding MobileRoutes MobileDataTheorems.

(** ** Pages *)
Section Sorted.
Context {R : Type} (key : R -> Z).

Lemma filter_fmap {A B} (P : B -> bool) (f : A -> B) l : List.filter P (f <$> l) = f <$> List.filter (fun x => P (f x)) l.
Proof. induction l as [|x l IH]; [done|]. cbn. rewrite IH. by destruct (P (f x)). Qed.
Lemma select_nodup (P : R -> bool) (t : gmap uuid R) :
  (forall k r k' r', t !! k = Some r -> t !! k' = Some r' -> P r = true -> P r' = true -> key r = key r' -> k = k') ->
  NoDup (key <$> select P t).
Proof.
  intros Hd. unfold select, rows. rewrite filter_fmap, <- list_fmap_compose. apply NoDup_fmap_2_strong.
  - intros [k r] [k' r'] Hx Hy E. apply list_elem_of_In, filter_In in Hx as [Hx HP], Hy as [Hy HP'].
    apply list_elem_of_In, elem_of_map_to_list in Hx, Hy. cbn in *. rewrite (Hd k r k' r') in * by done. congruence.
  - apply NoDup_ListNoDup, List.NoDup_filter, NoDup_ListNoDup, NoDup_map_to_list.
Qed.

#[export] Instance key_ge_total : Total (key_ge key).
Proof. intros x y. unfold key_ge. lia. Qed.
#[export] Instance key_ge_trans : Transitive (key_ge key).
Proof. intros x y z. unfold key_ge. lia. Qed.

(** In a list sorted downwards with distinct keys, what follows a prefix has the smaller keys. *)
Lemma sorted_drop l (x : R) n :
  StronglySorted (key_ge key) l -> NoDup (key <$> l) -> last (take n l) = Some x ->
  (forall r, r ∈ take n l -> key x <= key r) /\ (forall r, r ∈ drop n l -> key r < key x).
Proof.
  intros Hs Hn Hx. assert (x ∈ take n l) as Hin by (apply last_Some in Hx as [l0 ->]; set_solver).
  split.
  - apply last_Some in Hx as [l0 E]. rewrite E. intros r [Hr| ->%list_elem_of_singleton]%elem_of_app; [|lia].
    rewrite <- (take_drop n l), E in Hs. apply StronglySorted_app in Hs as (_ & Hs & _).
    apply StronglySorted_app in Hs as (Hb & _ & _). apply Hb; [done|by apply list_elem_of_singleton].
  - intros r Hr. rewrite <- (take_drop n l) in Hs, Hn. apply StronglySorted_app in Hs as (Hb & _ & _).
    specialize (Hb x r Hin Hr). unfold key_ge in Hb. rewrite fmap_app in Hn. apply NoDup_app in Hn as (_ & Hd & _).
    assert (key r <> key x); [|lia]. intros E. apply (Hd (key x)); [by apply list_elem_of_fmap_2|].
    rewrite <- E. by apply list_elem_of_fmap_2.
Qed.
End Sorted.

Section Feed.
Context `{UuidLib} `{Env} `{NanoTime} `{JsonDoc}.
Abbreviation W := (World MobileData).

(** The caller's notifications before a cursor, newest first. *)
Definition feed (who : Subject) (cursor : option Z) (d : MobileData) : list NotificationRow :=
  order_by_desc nt_CreatedAt (select (fun r => belongs who r && before_cursor cursor r) (d_notifications d)).
(** No two of them were recorded at the same instant. *)
Definition distinct_times (who : Subject) (d : MobileData) : Prop :=
  forall k r k' r', d_notifications d !! k = Some r -> d_notifications d !! k' = Some r' ->
    nt_Subject r = who -> nt_Subject r' = who -> nt_CreatedAt r = nt_CreatedAt r' -> k = k'.

Lemma elem_of_feed who c d r : r ∈ feed who c d <->
  nt_Subject r = who /\ before_cursor c r = true /\ exists k, d_notifications d !! k = Some r.
Proof.
  unfold feed, order_by_desc. rewrite merge_sort_Permutation, elem_of_select, andb_true_iff. unfold belongs.
  rewrite bool_decide_eq_true. tauto.
Qed.
Lemma feed_sorted who c d : StronglySorted (key_ge nt_CreatedAt) (feed who c d).
Proof. apply (StronglySorted_merge_sort (key_ge nt_CreatedAt)). Qed.
Lemma feed_nodup who c d : distinct_times who d -> NoDup (nt_CreatedAt <$> feed who c d).
Proof.
  intros Hd. unfold feed, order_by_desc. rewrite merge_sort_Permutation. apply select_nodup.
  intros k r k' r' Hk Hk' HP HP'. unfold belongs in *. apply andb_prop in HP as [HP _], HP' as [HP' _].
  apply bool_decide_eq_true in HP, HP'. by apply Hd.
Qed.
(** The next page starts where the last one ended. *)
Lemma feed_next who c d n x : distinct_times who d -> last (take n (feed who c d)) = Some x ->
  feed who (Some (nt_CreatedAt x)) d = drop n (feed who c d).
Proof.
  intros Hd Hx. destruct (sorted_drop nt_CreatedAt (feed who c d) x n (feed_sorted _ _ _) (feed_nodup _ _ _ Hd) Hx) as [Hge Hlt].
  assert (x ∈ feed who c d) as Hin by (rewrite <- (take_drop n (feed who c d)); apply elem_of_app; left; apply last_Some in Hx as [l0 ->]; set_solver).
  apply elem_of_feed in Hin as (_ & Hxc & _).
  apply (Sorted_unique_strong (key_ge nt_CreatedAt)).
  - intros a b (Ha & _ & k & Hk)%elem_of_feed Hb. assert (b ∈ feed who c d) as (Hb' & _ & k' & Hk')%elem_of_feed
      by (rewrite <- (take_drop n (feed who c d)); apply elem_of_app; by right).
    unfold key_ge. intros. assert (k = k') as -> by (eapply Hd; eauto; lia). congruence.
  - apply StronglySorted_Sorted, feed_sorted.
  - apply StronglySorted_Sorted. pose proof (feed_sorted who c d) as Hs. rewrite <- (take_drop n (feed who c d)) in Hs.
    by apply StronglySorted_app in Hs as (_ & _ & ?).
  - apply NoDup_Permutation.
    + eapply NoDup_fmap_1, feed_nodup, Hd.
    + pose proof (NoDup_fmap_1 _ _ (feed_nodup who c d Hd)) as Hn. rewrite <- (take_drop n (feed who c d)) in Hn.
      by apply NoDup_app in Hn as (_ & _ & ?).
    + intros r. split.
      * intros (Hr & Hb & Hk)%elem_of_feed. cbn in Hb. apply Z.ltb_lt in Hb.
        assert (r ∈ feed who c d) as Hin.
        { apply elem_of_feed. split; [done|]. split; [|done]. destruct c as [t|]; [|done]. cbn in *. apply Z.ltb_lt in Hxc. apply Z.ltb_lt. lia. }
        rewrite <- (take_drop n (feed who c d)) in Hin. apply elem_of_app in Hin as [Hin|]; [|done]. specialize (Hge r Hin). lia.
      * intros Hr. assert (r ∈ feed who c d) as (? & _ & ?)%elem_of_feed
          by (rewrite <- (take_drop n (feed who c d)); apply elem_of_app; by right).
        apply elem_of_feed. split; [done|]. split; [|done]. cbn. apply Z.ltb_lt. by apply Hlt.
Qed.

(** A client that follows [next_cursor] until it is empty. *)
Fixpoint pages (fuel : nat) (userID scope cursor : string) (limit : Z) : M W (list Notification) :=
  match fuel with
  | O => ret []
  | S fuel =>
      let! ' (page, next) := notifications_List userID scope cursor limit in
      if String.eqb next "" then ret page else
      let! rest := pages fuel userID scope next limit in
      ret (page ++ rest)%list
  end.
(** The subject the routes derive from the caller. *)
Definition subject_is (userID scope : string) (who : Subject) : Prop := forall w : W, subject userID scope w = (Ok who, w).

Hypothesis no_fault : forall n, env_fault n = false.
Hypothesis cursor_round_trip : forall t, rfc3339nano_parse (rfc3339nano_format t) = Ok t /\ rfc3339nano_format t <> "".

Lemma list_run userID scope who cursor c limit (w : W) :
  subject_is userID scope who -> 1 <= limit <= 50 ->
  (if String.eqb cursor "" then c = None else exists t, c = Some t /\ rfc3339nano_parse cursor = Ok t) ->
  notifications_List userID scope cursor limit w =
    (Ok (notification_of <$> take (Z.to_nat limit) (feed who c (w_store w)),
         next_cursor (Z.to_nat limit) (notification_of <$> take (Z.to_nat limit) (feed who c (w_store w)))), tick w).
Proof using no_fault.
  intros Hwho Hl Hc. unfold notifications_List, defaultNotificationPageSize.
  assert ((limit <=? 0) || (50 <? limit) = false) as -> by (apply orb_false_iff; split; [apply Z.leb_gt|apply Z.ltb_ge]; lia).
  assert ((if String.eqb cursor "" then ret None
    else match rfc3339nano_parse cursor with Ok t => ret (Some t) | Err _ => throw ErrValidation end) w = (Ok c, w)) as Hcur.
  { destruct (String.eqb cursor ""); [by subst c|]. destruct Hc as (t & -> & ->). done. }
  rewrite (bind_run _ _ _ _ _ Hcur), (bind_run _ _ _ _ _ (Hwho w)).
  assert (wrap "list notifications" (query (list_notifications who c (Z.to_nat limit))) w =
    (Ok (take (Z.to_nat limit) (feed who c (w_store w))), tick w)) as Hq.
  { unfold wrap, query, exec. rewrite no_fault. cbn. by destruct w. }
  by rewrite (bind_run _ _ _ _ _ Hq).
Qed.

Lemma pages_run userID scope who limit fuel : subject_is userID scope who -> 1 <= limit <= 50 ->
  forall cursor c (w : W), distinct_times who (w_store w) ->
  (if String.eqb cursor "" then c = None else exists t, c = Some t /\ rfc3339nano_parse cursor = Ok t) ->
  (length (feed who c (w_store w)) < fuel)%nat ->
  exists w', pages fuel userID scope cursor limit w = (Ok (notification_of <$> feed who c (w_store w)), w') /\ w_store w' = w_store w.
Proof using no_fault cursor_round_trip.
  intros Hwho Hl. induction fuel as [|fuel IH]; [lia|]. intros cursor c w Hd Hc Hf. cbn [pages].
  rewrite (bind_run _ _ _ _ _ (list_run userID scope who cursor c limit w Hwho Hl Hc)).
  set (n := Z.to_nat limit). set (page := take n (feed who c (w_store w))). unfold next_cursor.
  rewrite length_fmap. destruct (length page =? n)%nat eqn:En.
  - apply Nat.eqb_eq in En. rewrite fmap_last. destruct (last page) as [x|] eqn:Ex; cbn [fmap option_fmap option_map].
    2: { apply last_None in Ex. rewrite Ex in En. cbn in En. subst n. lia. }
    destruct (cursor_round_trip (no_CreatedAt (notification_of x))) as [Hp Hne]. apply String.eqb_neq in Hne as Hne'. rewrite Hne'.
    destruct (IH (rfc3339nano_format (nt_CreatedAt x)) (Some (nt_CreatedAt x)) (tick w)) as (w' & Hr & Hs).
    + done.
    + change (no_CreatedAt (notification_of x)) with (nt_CreatedAt x) in *. rewrite Hne'. by eexists.
    + cbn [w_store tick]. rewrite (feed_next who c (w_store w) n x Hd Ex), length_drop.
      assert (length page <= length (feed who c (w_store w)))%nat by (unfold page; rewrite length_take; lia). subst n. lia.
    + change (no_CreatedAt (notification_of x)) with (nt_CreatedAt x). rewrite (bind_run _ _ _ _ _ Hr). exists w'. split; [|done].
      cbn [w_store tick]. rewrite (feed_next who c (w_store w) n x Hd Ex), <- fmap_app. unfold page. by rewrite take_drop.
  - cbn. exists (tick w). split; [|done]. unfold page. rewrite firstn_all2; [done|].
    apply Nat.eqb_neq in En. unfold page in En. rewrite length_take in En. lia.
Qed.

(** C38. A client that follows the cursors sees every notification of the caller, newest
    first and each once, whatever the page size, when no two were recorded at the
    same instant; it needs no more pages than it has notifications, and one. *)
Theorem pages_complete userID scope who limit fuel (w : W) :
  subject_is userID scope who -> 1 <= limit <= 50 -> distinct_times who (w_store w) ->
  (length (feed who None (w_store w)) < fuel)%nat ->
  exists w', pages fuel userID scope "" limit w = (Ok (notification_of <$> feed who None (w_store w)), w') /\
    w_store w' = w_store w /\
    forall r, r ∈ feed who None (w_store w) <-> nt_Subject r = who /\ exists k, d_notifications (w_store w) !! k = Some r.
Proof using no_fault cursor_round_trip.
  intros Hwho Hl Hd Hf. destruct (pages_run userID scope who limit fuel Hwho Hl "" None w Hd eq_refl Hf) as (w' & Hr & Hs).
  exists w'. split; [done|]. split; [done|]. intros r. rewrite elem_of_feed. naive_solver.
Qed.
End Feed.

(** ** Events with a key *)
Section Events.
Context `{UuidLib} `{Unicode} `{Deployment} `{Env} `{RelayerIntents} `{RelayerStatus} `{TimeFormat} `{NanoTime} `{JsonDoc}
  `{Json clientEncryptedBlob} `{Retention}.
Abbreviation W := (World MobileData).

(** Only whether it was read ever changes of a notification. *)
Definition same_entry (r r' : NotificationRow) : Prop :=
  nt_ID r' = nt_ID r /\ nt_Subject r' = nt_Subject r /\ nt_Type r' = nt_Type r /\ nt_Title r' = nt_Title r /\
  nt_Body r' = nt_Body r /\ nt_Metadata r' = nt_Metadata r /\ nt_DedupeKey r' = nt_DedupeKey r /\ nt_CreatedAt r' = nt_CreatedAt r.
Definition entries_kept (d d' : MobileData) : Prop :=
  forall k r, d_notifications d !! k = Some r -> exists r', d_notifications d' !! k = Some r' /\ same_entry r r'.
#[local] Instance entries_kept_refl : Reflexive entries_kept.
Proof. intros d k r Hr. by exists r. Qed.
#[local] Instance entries_kept_trans : Transitive entries_kept.
Proof.
  intros d1 d2 d3 Ha Hb k r Hr. destruct (Ha k r Hr) as (r2 & Hr2 & E). destruct (Hb k r2 Hr2) as (r3 & Hr3 & E').
  exists r3. split; [done|]. unfold same_entry in *. intuition congruence.
Qed.
Lemma entries_same d d' : d_notifications d' = d_notifications d -> entries_kept d d'.
Proof. intros E k r Hr. exists r. by rewrite E. Qed.
Lemma entries_insert row : keeps (on_store entries_kept) (exec (insert_notification row)).
Proof.
  apply keeps_exec; [apply _..|]. intros d x d'. unfold insert_notification. destruct (too_long _ _); [done|].
  destruct (exists_row _ _); [done|]. destruct (missing_subject _ _); [done|]. unfold present.
  destruct (d_notifications d !! nt_ID row) eqn:E; [done|]. intros [= <- <-] k r Hr. exists r. cbn.
  by rewrite lookup_insert_ne by congruence.
Qed.
Lemma entries_update P now d d' : d_notifications d' = update_where P (read_at now) (d_notifications d) -> entries_kept d d'.
Proof. intros E k r Hr. rewrite E, lookup_update_where, Hr. eexists. split; [done|]. by destruct (P r). Qed.
Lemma entries_mark id who now : keeps (on_store entries_kept) (exec (mark_read id who now)).
Proof. apply keeps_exec; [apply _..|]. intros d x d' [= _ <-]. by eapply entries_update. Qed.
Lemma entries_mark_all who now : keeps (on_store entries_kept) (exec (mark_all_read who now)).
Proof. apply keeps_exec; [apply _..|]. intros d [] d' [= <-]. by eapply entries_update. Qed.
Hint Resolve entries_insert entries_mark entries_mark_all : keeps.
Lemma entries_serve u s r : keeps (on_store entries_kept) (serve u s r).
Proof. destruct r. all: statements. all: elsewhere entries_same. Qed.

(** The event of [rec] is on record for [who]. *)
Definition recorded (who : Subject) (rec : NotificationRecord) (d : MobileData) : Prop :=
  exists k r, d_notifications d !! k = Some r /\ nt_Subject r = who /\ nt_Type r = nr_Type rec /\
    nt_DedupeKey r = Some (nr_DedupeKey rec).
Lemma recorded_kept who rec d d' : entries_kept d d' -> recorded who rec d -> recorded who rec d'.
Proof.
  intros Hk (k & r & Hr & Hs & Ht & Hd). destruct (Hk k r Hr) as (r' & Hr' & _ & Es & Et & _ & _ & _ & Ed & _).
  exists k, r'. rewrite Es, Et, Ed. done.
Qed.
Lemma exists_same_event who rec row d : nr_DedupeKey rec <> "" -> nt_Subject row = who -> nt_Type row = nr_Type rec ->
  nt_DedupeKey row = null_string (nr_DedupeKey rec) ->
  (exists_row (same_event row) (d_notifications d) = true <-> recorded who rec d).
Proof.
  intros Hne Hs Ht Hd. unfold null_string in Hd. apply String.eqb_neq in Hne. rewrite Hne in Hd. unfold exists_row.
  rewrite existsb_exists. unfold same_event, recorded. rewrite Hs, Ht, Hd. split.
  - intros (r & Hin & HP). apply list_elem_of_In, elem_of_rows in Hin as [k Hk].
    apply andb_prop in HP as [[Ha%bool_decide_eq_true Hb%String.eqb_eq]%andb_prop Hc%bool_decide_eq_true]. eauto 8.
  - intros (k & r & Hk & Hr & Hty & Hkey). exists r. split; [apply list_elem_of_In, elem_of_rows; eauto|].
    by rewrite Hr, Hty, Hkey, !bool_decide_eq_true_2, String.eqb_refl.
Qed.

(** What [Notify] does, once it knows whom for. *)
Lemma notify_spec userID scope who rec r (w w' : W) : subject userID scope w = (Ok who, w) -> nr_DedupeKey rec <> "" ->
  Notify userID scope rec w = (r, w') ->
  (recorded who rec (w_store w) -> d_notifications (w_store w') = d_notifications (w_store w) /\ d_pushes (w_store w') = d_pushes (w_store w)) /\
  (r = Ok tt -> recorded who rec (w_store w')).
Proof.
  intros Hwho Hne. unfold Notify. rewrite (bind_run _ _ _ _ _ Hwho). unfold bind at 1, new_uuid. unfold bind at 1, now_ms.
  set (row := Build_NotificationRow _ _ _ _ _ _ _ _ _). set (w2 := tick (tick w)).
  assert (w_store w2 = w_store w) as Ew by done. clearbody w2. rewrite bind_attempt.
  pose proof (exists_same_event who rec row (w_store w2) Hne eq_refl eq_refl eq_refl) as Hex. rewrite Ew in Hex.
  unfold exec. rewrite Ew. destruct (env_fault (w_io w2)).
  { cbn. intros [= <- <-]. cbn. by rewrite Ew. }
  unfold insert_notification. destruct (too_long _ _); [cbn; intros [= <- <-]; cbn; by rewrite Ew|].
  destruct (exists_row (same_event row) (d_notifications (w_store w))) eqn:Eex.
  { cbn. intros [= <- <-]. cbn. rewrite Ew. split; [done|]. intros _. by apply Hex. }
  assert (recorded who rec (w_store w) -> False) as Hnot by (intros Hc; apply Hex in Hc; congruence).
  destruct (missing_subject _ _); [cbn; intros [= <- <-]; split; [by intros ?%Hnot|done]|].
  destruct (present _ _); [cbn; intros [= <- <-]; split; [by intros ?%Hnot|done]|].
  cbn [fst snd]. set (w3 := tick (put_store _ w2)).
  assert (recorded who rec (w_store w3)) as Hrec.
  { exists (nt_ID row), row. cbn. rewrite lookup_insert_eq. split; [done|]. split; [done|]. split; [done|].
    unfold null_string. apply String.eqb_neq in Hne. by rewrite Hne. }
  intros Hr. split; [by intros ?%Hnot|]. intros ->. clearbody w3. revert Hr. rewrite bind_attempt.
  unfold query, exec. destruct (env_fault (w_io w3)); [by intros [= <-]|]. cbn [list_push_tokens fst snd].
  unfold dispatchPush. destruct (dv_PushToken <$> _); intros [= <-]; exact Hrec.
Qed.

(** An event with a key is told once: when [Notify] has succeeded the event is on
    record for its subject, it stays there whatever is requested afterwards, and
    notifying it again writes nothing and pushes nothing. *)
Theorem notify_once userID scope who rec l r (w w1 w2 : W) :
  subject_is userID scope who -> nr_DedupeKey rec <> "" ->
  Notify userID scope rec w = (Ok tt, w1) -> Notify userID scope rec (served l w1) = (r, w2) ->
  recorded who rec (w_store w1) /\ recorded who rec (w_store (served l w1)) /\
  d_notifications (w_store w2) = d_notifications (w_store (served l w1)) /\
  d_pushes (w_store w2) = d_pushes (w_store (served l w1)).
Proof.
  intros Hwho Hne Ha Hb. destruct (notify_spec _ _ _ _ _ _ _ (Hwho w) Hne Ha) as [_ Hrec]. specialize (Hrec eq_refl).
  assert (recorded who rec (w_store (served l w1))) as Hrec'.
  { eapply recorded_kept; [|exact Hrec]. apply (keeps_served entries_kept (fun _ => True)); [|by apply Forall_true].
    intros u s q _. apply entries_serve. }
  destruct (notify_spec _ _ _ _ _ _ _ (Hwho (served l w1)) Hne Hb) as [Hsame _]. by destruct (Hsame Hrec').
Qed.
End Events.

(** ** Backups under the service's own key *)
Section Backups.
Context `{UuidLib} `{Env} `{Aead} `{Pbkdf2} `{JsonDoc}.
Abbreviation W := (World MobileData).

Lemma sealed_parts s n : (n <= String.length s)%nat -> String.substring 0 n s +:+ str_drop n s = s.
Proof.
  revert s. induction n as [|n IH]; intros s Hn; [by destruct s|]. destruct s as [|c s]; cbn in Hn; [lia|].
  cbn. f_equal. apply IH. lia.
Qed.
Lemma encrypt_ok pt key blob (w w' : W) : Encrypt pt key w = (Ok blob, w') ->
  w_store w' = w_store w /\ String.length key = 32%nat /\ env_rand (w_io w) 12 = Ok (eb_IV blob) /\
  eb_Ciphertext blob +:+ eb_AuthTag blob = gcm_seal key (eb_IV blob) pt.
Proof.
  unfold Encrypt. destruct (Nat.eqb_spec (String.length key) 32); [|done]. cbn [negb].
  intros (iv & w1 & Hiv & Hr)%bind_ok. apply (proj1 (wrap_ok _ _ _ _ _)) in Hiv. apply rand_ok in Hiv as [Hiv ->].
  apply ret_ok in Hr as [<- <-]. cbn. split; [done|]. split; [done|]. split; [done|]. apply sealed_parts. lia.
Qed.
Lemma decrypt_sealed blob key pt : String.length key = 32%nat -> String.length (eb_IV blob) = 12%nat ->
  eb_Ciphertext blob +:+ eb_AuthTag blob = gcm_seal key (eb_IV blob) pt -> Decrypt blob key = Ok pt.
Proof. intros Hk Hi Hs. unfold Decrypt. rewrite Hk, Hi, Hs, gcm_open_seal. done. Qed.
Lemma key_ok userID key (w w' : W) : KeyForUser userID w = (Ok key, w') ->
  exists uid hex, uuid_parse userID = Some uid /\ KeyFromHex hex = Ok key /\
    d_keys (w_store w') !! uid = Some hex /\ d_backups (w_store w') = d_backups (w_store w) /\
    (d_keys (w_store w) !! uid = None \/ d_keys (w_store w) !! uid = Some hex).
Proof.
  unfold KeyForUser. intros (uid & w1 & Hu & Hr)%bind_ok. apply lift_ok in Hu as [Hu%parse_user_ok <-].
  apply bind_ok in Hr as (new & w2 & Hn & Hr). apply (proj1 (wrap_ok _ _ _ _ _)) in Hn. unfold GenerateKey in Hn.
  apply bind_ok in Hn as (k & w3 & Hk & Hn). apply (proj1 (wrap_ok _ _ _ _ _)) in Hk. apply rand_ok in Hk as [_ ->].
  apply ret_ok in Hn as [<- <-]. apply bind_ok in Hr as (hex & w4 & Hx & Hr). apply (proj1 (wrap_ok _ _ _ _ _)) in Hx.
  apply exec_ok in Hx as (_ & d & Hx & ->). apply lift_ok in Hr as [Hr <-]. exists uid, hex. split; [done|]. split; [done|].
  unfold UpsertEncryptionKey in Hx. cbn in *. destruct (d_keys (w_store w) !! uid) as [old|] eqn:E.
  - injection Hx as <- <-. auto.
  - destruct (no_user _ _); [done|]. injection Hx as <- <-. cbn. rewrite lookup_insert_eq. auto.
Qed.

(** What was stored comes back: after [Store] succeeded, as long as the user's
    backup and key rows are as it left them, the database and the random source
    answer, [GetDecrypted] returns the document that was encrypted — under a new
    nonce and under the one key the user keeps. *)
Theorem backup_round_trip userID uid pt (w w1 v : W) :
  uuid_parse userID = Some uid -> backup_Store userID pt w = (Ok tt, w1) ->
  d_backups (w_store v) !! uid = d_backups (w_store w1) !! uid -> d_keys (w_store v) !! uid = d_keys (w_store w1) !! uid ->
  (forall n, env_fault n = false) -> (forall n k, exists b, env_rand n k = Ok b /\ String.length b = k) ->
  fst (GetDecrypted userID v) = res_wrap "unmarshal backup" (json_doc pt).
Proof.
  intros Hu Hs Hb Hk Hfault Hrand. unfold backup_Store in Hs.
  apply bind_ok in Hs as (uid' & w2 & Hp & Hs). apply lift_ok in Hp as [Hp%parse_user_ok <-].
  assert (uid' = uid) as -> by congruence. apply bind_ok in Hs as ([blob version] & w3 & He & Hs).
  apply (proj1 (wrap_ok _ _ _ _ _)) in He. unfold EncryptBackup in He.
  apply bind_ok in He as (key & w4 & Hkey & He). apply (proj1 (wrap_ok _ _ _ _ _)) in Hkey.
  apply key_ok in Hkey as (uid1 & hex & Hu1 & Hhex & Hkeys & _ & _). assert (uid1 = uid) as -> by congruence.
  apply bind_ok in He as (blob' & w5 & He & Hret). apply (proj1 (wrap_ok _ _ _ _ _)) in He.
  apply encrypt_ok in He as (Hw & Hlen & Hiv & Hsealed). apply ret_ok in Hret as [[= -> <-] <-].
  apply bind_ok in Hs as (id & w6 & (-> & ->)%new_uuid_ok & Hs). apply exec_ok in Hs as (_ & d & Hs & ->).
  assert (exists row, d_backups d !! uid = Some row /\ bk_EncryptedBlob row = Some (eb_Ciphertext blob) /\ bk_Iv row = Some (eb_IV blob) /\
    bk_AuthTag row = Some (eb_AuthTag blob) /\ bk_EncryptionVersion row = 1 /\ d_keys d = d_keys (w_store w5)) as (row & Hrow & R1 & R2 & R3 & R4 & Hkd).
  { revert Hs. unfold UpsertBackup, upsert_backup. cbn [w_store tick]. destruct (d_backups (w_store w5) !! uid) as [r|].
    - intros [= <-]. cbn. rewrite lookup_insert_eq. by eexists.
    - destruct (backup_id_taken _ _); [done|]. destruct (no_user _ _); [done|]. intros [= <-]. cbn. rewrite lookup_insert_eq. by eexists. }
  cbn in Hb, Hk. rewrite Hrow in Hb. rewrite Hkd, Hw, Hkeys in Hk.
  unfold GetDecrypted. assert (forall x : W, lift (parse_user userID) x = (Ok uid, x)) as Hparse
    by (intros x; unfold lift, parse_user, parse_uuid; by rewrite Hu).
  rewrite (bind_run _ _ _ _ _ (Hparse v)), bind_attempt. unfold query at 1 2, exec. rewrite Hfault. unfold GetBackupByUserID. rewrite Hb.
  cbn [fst snd]. rewrite R1, R2, R3, R4. cbn [default]. set (v1 := tick (put_store (w_store v) v)).
  assert (w_store v1 = w_store v) as Ev by done. clearbody v1.
  assert (exists v2, KeyForUser userID v1 = (Ok key, v2)) as [v2 Hv2].
  { unfold KeyForUser. rewrite (bind_run _ _ _ _ _ (Hparse v1)). destruct (Hrand (w_io v1) 32%nat) as (b & Hbb & _).
    unfold GenerateKey, rand_bytes, wrap, bind, exec, ret, lift. rewrite Hbb, Hfault. cbn [w_store tick].
    unfold UpsertEncryptionKey. rewrite Ev, Hk, Hhex. by eexists. }
  assert (String.length (eb_IV blob) = 12%nat) as Hiv12 by (destruct (Hrand (w_io w4) 12%nat) as (b & Hbb & ?); congruence).
  assert (Decrypt blob key = Ok pt) as Hdec by (by apply decrypt_sealed).
  destruct blob as [ct iv tag]. cbn [eb_IV eb_Ciphertext eb_AuthTag] in *. unfold DecryptBackup. cbn. unfold bind, wrap.
  rewrite Hv2. unfold lift. rewrite Hdec. by destruct (json_doc pt).
Qed.
End Backups.
(** ** The theorems at work *)
Section Witnesses.
Import Demo.
#[local] Existing Instances demo_deployment demo_clock demo_intents demo_status plain_time no_doc blob_text demo_retention.
(** Times in unary, with a sign. *)
Definition unary (t : Z) : string := (if t <? 0 then "-" else "+") +:+ str_repeat "x" (Z.to_nat (Z.abs t)).
Definition unary_value (s : string) : res Z :=
  match s with
  | String c rest => Ok (if Ascii.eqb c "-" then - Z.of_nat (String.length rest) else Z.of_nat (String.length rest))
  | _ => Err (Errorf "time")
  end.
#[local] Instance unary_nano : NanoTime := {| rfc3339nano_format := unary; rfc3339nano_parse := unary_value |}.
Lemma repeat_length c n : String.length (str_repeat c n) = (n * String.length c)%nat.
Proof. induction n as [|n IH]; [done|]. cbn. by rewrite str_length_app, IH. Qed.
Lemma unary_round_trip t : rfc3339nano_parse (rfc3339nano_format t) = Ok t /\ rfc3339nano_format t <> "".
Proof.
  cbn. unfold unary. destruct (Z.ltb_spec t 0); cbn; rewrite repeat_length; (split; [f_equal; cbn; lia|done]).
Qed.

Definition event (key : string) : NotificationRecord :=
  {| nr_Type := "t"; nr_Title := "title"; nr_Body := key; nr_Metadata := None; nr_DedupeKey := key |}.
Definition told : World MobileData :=
  snd (Notify "7" "" (event "k3") (snd (Notify "7" "" (event "k2") (snd (Notify "7" "" (event "k1") w_data))))).
Lemma seven (w : World MobileData) : subject "7" "" w = (Ok (SubjectUser 7%N), w).
Proof. reflexivity. Qed.
(** Three notifications in pages of two. *)
Lemma pages_complete_witness : exists l w', pages 4 "7" "" "" 2 told = (Ok l, w') /\ no_Body <$> l = ["k3"; "k2"; "k1"].
Proof.
  assert (distinct_times (SubjectUser 7%N) (w_store told)) as Hd.
  { intros k r k' r' Hk Hk' _ _ E.
    assert (forall k r, d_notifications (w_store told) !! k = Some r -> Z.of_N k = nt_CreatedAt r - 901) as Hall.
    { apply (map_Forall_lookup (fun k r => Z.of_N k = nt_CreatedAt r - 901)), (bool_decide_eq_true_1 _). vm_compute. reflexivity. }
    apply Hall in Hk. apply Hall in Hk'. lia. }
  assert (forall n, env_fault n = false) as Hok by done.
  destruct (pages_complete Hok unary_round_trip "7" "" (SubjectUser 7%N) 2 4 told seven) as (w' & Hp & _);
    [lia|exact Hd|vm_compute; lia|].
  eexists _, w'. split; [exact Hp|]. vm_compute. reflexivity.
Defined.

Definition opened : list (string * string * request) := [("7", "", RqMarkAllRead); ("8", "", RqUnread)].
Lemma notify_once_witness : exists w1 r w2,
  Notify "7" "" (event "k1") w_data = (Ok tt, w1) /\ Notify "7" "" (event "k1") (served opened w1) = (r, w2) /\
  d_pushes (w_store w2) = d_pushes (w_store (served opened w1)).
Proof.
  destruct (succeeds (Notify "7" "" (event "k1")) w_data) as ([] & w1 & Hn); [by vm_compute|].
  destruct (Notify "7" "" (event "k1") (served opened w1)) as [r w2] eqn:E. exists w1, r, w2. split; [done|]. split; [done|].
  apply (notify_once "7" "" (SubjectUser 7%N) (event "k1") opened r w_data w1 w2 seven); [done|exact Hn|exact E].
Defined.

(** A cipher that hides nothing. *)
Definition open_demo (s : string) : res string :=
  if (String.length s <? 16)%nat then Err (Errorf "open") else Ok (String.substring 0 (String.length s - 16) s).
Lemma open_seal_demo s : open_demo (s +:+ str_repeat "t" 16) = Ok s.
Proof.
  unfold open_demo. rewrite str_length_app. change (String.length (str_repeat "t" 16)) with 16%nat.
  assert ((String.length s + 16 <? 16)%nat = false) as -> by (apply Nat.ltb_ge; lia).
  rewrite CeremonyTheorems.substring_app by lia. done.
Qed.
#[local] Instance demo_aead : Aead.
Proof.
  refine {| gcm_seal _ _ s := s +:+ str_repeat "t" 16; gcm_open _ _ s := open_demo s |}.
  - intros _ _ s. apply open_seal_demo.
  - intros _ _ s. by rewrite str_length_app.
Defined.
#[local] Instance demo_kdf : Pbkdf2 := {| pbkdf2_key p s := p +:+ s; serverPepper := "" |}.
Lemma backup_round_trip_witness : exists w1,
  backup_Store "7" "secret" w_data = (Ok tt, w1) /\ fst (GetDecrypted "7" w1) = res_wrap "unmarshal backup" (json_doc "secret").
Proof.
  destruct (succeeds (backup_Store "7" "secret") w_data) as ([] & w1 & Hs); [by vm_compute|]. exists w1. split; [done|].
  apply (backup_round_trip "7" 7%N "secret" w_data w1 w1); [reflexivity|exact Hs|done|done|done|].
  intros n k. exists (str_repeat "r" k). split; [done|]. rewrite repeat_length. cbn. lia.
Defined.
End Witnesses.
End FeedTheorems.
