(* ===== verification/MobileSafety.v ===== *)
(** * What the mobile API guarantees

    Challenges of different flows are never exchangeable; a sign-in or a
    recovery is signed by the right key over a fresh nonce; and nothing is
    sponsored without a proof of possession of a key of the new account. *)

From S2P Require Export Mobile.
From S2P Require Import Instances DemoProposals SignerTheorems Submit.

Module MobileSafety.
Import WalletSig WalletNonce WebAuthn Tokens Deploynet Signers Submit SmartAccounts AccountSigners SignerTheorems Mobile.

Lemma bind_assoc {W A B C} (m : M W A) (k : A -> M W B) (f : B -> M W C) w :
  bind m (fun a => bind (k a) f) w = bind (bind m k) f w.
Proof. unfold bind. by destruct (m w) as [[a|e] w1]. Qed.

(** ** Running a service on its part *)
Lemma zoom_run {D E A} (get : D -> E) put (m : M (World E) A) w r w' : zoom get put m w = (r, w') ->
  exists d n, m (MkWorld (get (w_store w)) (w_io w)) = (r, MkWorld d n) /\ w' = MkWorld (put d (w_store w)) n.
Proof. unfold zoom. destruct (m _) as [r0 [d n]]. intros [= <- <-]. by exists d, n. Qed.

(** ** Challenges *)
Section Nonces.
Context `{StellarSDK} `{Unicode} `{Deployment} `{Env}.

(** What a challenge was issued for. *)
Inductive flow :=
  | FlowSignIn (wallet keyType network : string)
  | FlowDeploy (keyRef keyType network : string)
  | FlowLookup.
Definition flow_text (f : flow) : string :=
  match f with
  | FlowSignIn wallet keyType network => bind_nonce wallet keyType network
  | FlowDeploy keyRef keyType network => bind_nonce keyRef keyType (deployNonceScope network)
  | FlowLookup => bind_nonce "" passkeyLookupNonceKeyType passkeyLookupNonceScope
  end.
Definition consume_for (nonceHex : string) (f : flow) : M (World RedisStore) unit :=
  match f with
  | FlowSignIn wallet keyType network => Consume nonceHex wallet keyType network
  | FlowDeploy keyRef keyType network => Consume nonceHex keyRef keyType (deployNonceScope network)
  | FlowLookup => Consume nonceHex "" passkeyLookupNonceKeyType passkeyLookupNonceScope
  end.
(** What the routes check before they issue or consume. *)
Definition served (network : string) : Prop := exists raw, ParseWalletNetwork raw = Ok network \/ ParseNetwork raw = Ok network.
Definition flow_valid (f : flow) : Prop :=
  match f with
  | FlowSignIn wallet keyType network => ValidWalletShape wallet keyType = true /\ served network
  | FlowDeploy keyRef keyType network => validateKeyRef keyRef keyType = Ok tt /\ served network
  | FlowLookup => True
  end.

Definition bar_free (s : string) : bool := negb (contains_char "|" s).

Lemma last_part a b c c' : bar_free c = true -> bar_free c' = true -> a +:+ "|" +:+ c = b +:+ "|" +:+ c' -> a = b /\ c = c'.
Proof using Type.
  unfold bar_free. intros Hc%negb_true_iff Hc'%negb_true_iff. revert b. induction a as [|x a IH]; intros [|y b]; cbn.
  - by intros [= ->].
  - intros [= <- E]. subst c. rewrite contains_char_app in Hc. cbn in Hc. by rewrite orb_true_r in Hc.
  - intros [= -> E]. subst c'. rewrite contains_char_app in Hc'. cbn in Hc'. by rewrite orb_true_r in Hc'.
  - intros [= -> E]. by destruct (IH b E) as [-> ->].
Qed.
Lemma bind_parts_inj w k n w' k' n' : bar_free k = true -> bar_free k' = true -> bar_free n = true -> bar_free n' = true ->
  bind_nonce w k n = bind_nonce w' k' n' -> w = w' /\ k = k' /\ n = n'.
Proof using Type.
  unfold bind_nonce. intros Hk Hk' Hn Hn' E.
  rewrite <- !(str_app_assoc w), <- !(str_app_assoc w') in E.
  rewrite <- !str_app_assoc in E. rewrite (str_app_assoc _ "|" n), (str_app_assoc _ "|" n') in E.
  apply last_part in E as [E ->]; [|done..]. rewrite !str_app_assoc in E. by apply last_part in E as [-> ->].
Qed.

Lemma served_network network : served network -> network = Testnet \/ network = Mainnet.
Proof using Type.
  intros [raw [Hr|Hr]]; [|by eapply ParseNetwork_network]. unfold ParseWalletNetwork in Hr.
  destruct (Resolve raw) eqn:E; [injection Hr as ->; by eapply Resolve_network|]. by destruct (errors_is _ _).
Qed.
Lemma wallet_key_type w k : ValidWalletShape w k = true -> k = KeyTypeEd25519 \/ k = KeyTypePasskey.
Proof using Type.
  unfold ValidWalletShape. destruct (String.eqb_spec k KeyTypeEd25519); [by left|].
  destruct (String.eqb_spec k KeyTypePasskey); [by right|done].
Qed.
Lemma deploy_key_type r k : validateKeyRef r k = Ok tt -> k = "ed25519" \/ k = "webauthn" \/ k = "delegated".
Proof using Type.
  unfold validateKeyRef. destruct (String.eqb_spec k "ed25519"); [auto|]. destruct (String.eqb_spec k "webauthn"); [auto|].
  destruct (String.eqb_spec k "delegated"); [auto|done].
Qed.

Lemma bar_free_network network : served network -> bar_free network = true /\ bar_free (deployNonceScope network) = true.
Proof using Type. by intros [-> | ->]%served_network. Qed.
Lemma wallet_key_type_bar w k : ValidWalletShape w k = true -> bar_free k = true.
Proof using Type. by intros [-> | ->]%wallet_key_type. Qed.
Lemma deploy_key_type_bar r k : validateKeyRef r k = Ok tt -> bar_free k = true.
Proof using Type. by intros [-> | [-> | ->]]%deploy_key_type. Qed.

(** The last two parts of a valid flow's text. *)
Definition flow_key_type (f : flow) : string :=
  match f with FlowSignIn _ k _ | FlowDeploy _ k _ => k | FlowLookup => passkeyLookupNonceKeyType end.
Definition flow_scope (f : flow) : string :=
  match f with
  | FlowSignIn _ _ network => network
  | FlowDeploy _ _ network => deployNonceScope network
  | FlowLookup => passkeyLookupNonceScope
  end.
Definition flow_subject (f : flow) : string :=
  match f with FlowSignIn w _ _ | FlowDeploy w _ _ => w | FlowLookup => "" end.
Lemma flow_text_parts f : flow_text f = bind_nonce (flow_subject f) (flow_key_type f) (flow_scope f).
Proof using Type. by destruct f. Qed.
Lemma flow_valid_bar f : flow_valid f -> bar_free (flow_key_type f) = true /\ bar_free (flow_scope f) = true.
Proof using Type.
  destruct f; cbn; [intros [Hk Hn]|intros [Hk Hn]|done]; apply bar_free_network in Hn as [? ?]; split; try done.
  - by eapply wallet_key_type_bar.
  - by eapply deploy_key_type_bar.
Qed.

Lemma flow_text_inj f g : flow_valid f -> flow_valid g -> flow_text f = flow_text g -> f = g.
Proof using Type.
  intros Hf Hg. rewrite !flow_text_parts. intros (Es & Ek & En)%bind_parts_inj; try (by apply flow_valid_bar).
  assert (forall n n', served n -> served n' -> n <> deployNonceScope n' /\ n <> passkeyLookupNonceScope /\
    deployNonceScope n <> passkeyLookupNonceScope /\ (deployNonceScope n = deployNonceScope n' -> n = n')) as Hsc.
  { by intros ? ? [-> | ->]%served_network [-> | ->]%served_network. }
  destruct f as [w k n|w k n|], g as [w' k' n'|w' k' n'|]; cbn in *; subst; try done.
  - destruct Hf as [_ Hf], Hg as [_ Hg]. by destruct (Hsc _ _ Hf Hg).
  - destruct Hf as [_ Hf]. by destruct (Hsc _ _ Hf Hf) as (_ & ? & _).
  - destruct Hf as [_ Hf], Hg as [_ Hg]. by destruct (Hsc _ _ Hg Hf).
  - destruct Hf as [_ Hf], Hg as [_ Hg]. destruct (Hsc _ _ Hf Hg) as (_ & _ & _ & ->); done.
  - destruct Hg as [_ Hg]. by destruct (Hsc _ _ Hg Hg) as (_ & ? & _).
Qed.

Definition issue_for (f : flow) : M (World RedisStore) (string * Z) :=
  match f with
  | FlowSignIn wallet keyType network => Issue wallet keyType network
  | FlowDeploy keyRef keyType network => IssueWithTTL keyRef keyType (deployNonceScope network) DeployNonceTTL
  | FlowLookup => IssueWithTTL "" passkeyLookupNonceKeyType passkeyLookupNonceScope passkeyLookupNonceTTL
  end.
Definition flow_ttl (f : flow) : Z :=
  match f with FlowSignIn _ _ _ => walletNonceTTL | FlowDeploy _ _ _ => DeployNonceTTL | FlowLookup => passkeyLookupNonceTTL end.
Lemma issue_for_parts f : issue_for f = IssueWithTTL (flow_subject f) (flow_key_type f) (flow_scope f) (flow_ttl f).
Proof using Type. by destruct f. Qed.
Lemma consume_for_parts n f : consume_for n f = Consume n (flow_subject f) (flow_key_type f) (flow_scope f).
Proof using Type. by destruct f. Qed.

Lemma live_some now k (d : RedisStore) e : live now k d = Some e -> d !! k = Some e.
Proof using Type. unfold live. destruct (d !! k) as [e'|]; [|done]. by destruct (expired_at now e'). Qed.

(** If the nonce is stored at all, it is stored for this text. *)
Definition bound_to (n text : string) (d : RedisStore) : Prop :=
  forall e, d !! nonce_key n = Some e -> value_text (re_value e) = text.

Lemma Issue_stores a b c ttl (w w' : World RedisStore) n t : IssueWithTTL a b c ttl w = (Ok (n, t), w') ->
  t = ttl /\ w_store w' = <[nonce_key n := {| re_value := RText (bind_nonce a b c);
                                   re_deadline := Some (env_now (S (w_io w)) + ttl) |}]> (w_store w).
Proof using Type.
  unfold IssueWithTTL. intros Hi. run_inv. simplify_eq.
  match goal with H : redis _ _ = _ |- _ => apply redis_ok in H as (_ & d & Hd & ->) end.
  split; [done|]. by injection Hd as <-.
Qed.
Lemma bound_Consume n text m a b c (w : World RedisStore) :
  bound_to n text (w_store w) -> bound_to n text (w_store (snd (Consume m a b c w))).
Proof using Type.
  intros Hb. destruct (Consume_run m a b c w) as (r & -> & _). cbn.
  assert (bound_to n text (delete (nonce_key m) (w_store w))) as Hd by (intros e [_ He]%lookup_delete_Some; by apply Hb).
  destruct r; [done|]. case_bool_decide; [done|]. by destruct (live _ _ _).
Qed.
Lemma Issue_store_other a b c ttl r (w w' : World RedisStore) n : IssueWithTTL a b c ttl w = (r, w') ->
  (forall t, r <> Ok (n, t)) -> w_store w' !! nonce_key n = w_store w !! nonce_key n.
Proof using Type.
  intros Hi Hne. destruct r as [[m t]|e].
  - apply Issue_stores in Hi as [_ ->]. rewrite lookup_insert_ne; [done|]. intros ->%nonce_key_inj. by apply (Hne t).
  - unfold IssueWithTTL, bind, wrap, rand_bytes, redis, exec, SET, ret in Hi.
    destruct (env_rand (w_io w) walletNonceBytes); [|by injection Hi as _ <-].
    by destruct (env_fault (w_io (tick w))); injection Hi as ? <-.
Qed.
Lemma bound_run n text ops (w w' : World RedisStore) ns : run_ops ops w = (ns, w') -> n ∉ ns ->
  bound_to n text (w_store w) -> bound_to n text (w_store w').
Proof using Type.
  revert w ns. induction ops as [|[a b c ttl|m a b c] ops IH]; intros w ns; cbn; [by intros [= _ <-]| |].
  - destruct (IssueWithTTL a b c ttl w) as [r w1] eqn:E. destruct (run_ops ops w1) as [ns1 w2] eqn:E2.
    intros [= <- <-] Hn Hb. eapply IH; [exact E2|destruct r as [[]|]; set_solver|].
    intros e He. apply Hb. rewrite <- He. symmetry. eapply Issue_store_other; [exact E|]. intros t ->. apply Hn. left.
  - intros Hr Hn Hb. eapply IH; [exact Hr|done|]. by apply bound_Consume.
Qed.

(** A challenge serves only what it was issued for. The sign-in of a wallet,
    the deployment of a key and the recovery lookup share one nonce store; a
    challenge issued to one of them is accepted by no other, nor for another
    wallet, key, key type or network — whatever else is issued and consumed in
    between, while the nonce is not drawn again. Used at once for its own purpose,
    within its lifetime and with Redis answering, it is accepted. *)
Theorem nonce_flows_disjoint f g n t ops ns r (w w1 w2 w3 : World RedisStore) :
  flow_valid f -> flow_valid g -> issue_for f w = (Ok (n, t), w1) -> run_ops ops w1 = (ns, w2) -> n ∉ ns ->
  consume_for n g w2 = (r, w3) ->
  (r = Ok tt -> g = f) /\
  (ops = [] -> env_fault (w_io w1) = false -> env_now (w_io w1) < env_now (S (w_io w)) + flow_ttl f -> g = f -> r = Ok tt).
Proof.
  intros Hf Hg Hi Hops Hn Hc. rewrite issue_for_parts in Hi. rewrite consume_for_parts in Hc.
  apply Issue_stores in Hi as [-> Hw1]. rewrite <- flow_text_parts in Hw1. split.
  - intros ->. assert (bound_to n (flow_text f) (w_store w2)) as Hb.
    { eapply bound_run; [exact Hops|done|]. intros e. rewrite Hw1, lookup_insert_eq. by intros [= <-]. }
    destruct (Consume_run n (flow_subject g) (flow_key_type g) (flow_scope g) w2) as (r & E & Hr).
    rewrite Hc in E. injection E as <- _. destruct Hr as (e & He%live_some & Et). apply Hb in He.
    apply flow_text_inj; [done..|]. by rewrite flow_text_parts, <- Et, He.
  - intros -> Hfault Ht ->. injection Hops as <- <-.
    pose proof (f_equal fst Hc) as Hr. cbn in Hr. rewrite <- Hr.
    erewrite Consume_live; [|done|rewrite Hw1; by apply live_insert_at].
    cbn. by rewrite <- flow_text_parts, String.eqb_refl.
Qed.
End Nonces.

(** ** A challenge spent, a key proved *)
Section Proofs.
Context `{StellarSDK} `{Network} `{SubmitNetwork} `{Gasless} `{UuidLib} `{Unicode} `{Deployment} `{Env} `{ServiceConfig}
  `{KeypairLib} `{FactoryConfig} `{Friendbot} `{WebAuthnLib} `{Jwt} `{AuthConfig} `{MobileConfig}.
Abbreviation W := (World Backend).

(** The challenge was live for this text, and is gone. *)
Definition nonce_spent (nonceHex text : string) (d d' : RedisStore) : Prop :=
  (exists now e, live now (nonce_key nonceHex) d = Some e /\ value_text (re_value e) = text) /\
  d' = delete (nonce_key nonceHex) d.
(** The wallet's own key signed the bytes. *)
Definition ed25519_signed (address message signature : string) : Prop :=
  exists pub, strkey_decode_account address = Ok pub /\ String.length pub = WalletSig.PublicKeySize /\
    ed25519_verify pub message signature = true.
(** A key of this type and reference signed the nonce. *)
Definition possession (inp : DeployProofInput) (nonceBytes : string) : Prop :=
  (dp_KeyType inp = "ed25519" /\ exists raw address, hex_decode (dp_KeyRef inp) = Ok raw /\
     strkey_encode_account raw = Ok address /\ ed25519_signed address nonceBytes (dp_Signature inp)) \/
  (dp_KeyType inp = "delegated" /\ ed25519_signed (dp_KeyRef inp) nonceBytes (dp_Signature inp)) \/
  (dp_KeyType inp = "webauthn" /\ exists pubKey, key_data_pubkey (dp_KeyRef inp) = Ok pubKey /\
     asserted pubKey nonceBytes (dp_AuthenticatorData inp) (dp_ClientDataJSON inp) (dp_Signature inp) webauthnAllowedOrigins).
Definition proved (inp : DeployProofInput) (d d' : RedisStore) : Prop :=
  validateKeyRef (dp_KeyRef inp) (dp_KeyType inp) = Ok tt /\
  nonce_spent (dp_NonceHex inp) (bind_nonce (dp_KeyRef inp) (dp_KeyType inp) (deployNonceScope (dp_Network inp))) d d' /\
  exists nonceBytes, hex_decode (dp_NonceHex inp) = Ok nonceBytes /\ possession inp nonceBytes.

Lemma Consume_spent n a b c (w w' : World RedisStore) :
  Consume n a b c w = (Ok tt, w') -> nonce_spent n (bind_nonce a b c) (w_store w) (w_store w').
Proof using Type.
  intros Hc. destruct (Consume_run n a b c w) as (r & E & Hr). rewrite Hc in E. injection E as <- ->.
  split; [|done]. destruct Hr as (e & He & Et). by exists (env_now (w_io w)), e.
Qed.
Lemma on_redis_ok {A} (m : M (World RedisStore) A) (w w' : W) a : on_redis m w = (Ok a, w') ->
  exists v, m (MkWorld (be_redis (w_store w)) (w_io w)) = (Ok a, v) /\ be_redis (w_store w') = w_store v /\
    be_tokens (w_store w') = be_tokens (w_store w) /\ be_db (w_store w') = be_db (w_store w).
Proof using Type. intros (d & n & E & ->)%zoom_run. by exists (MkWorld d n). Qed.

(** ** Nothing but the challenge store moves before the answer *)
Definition redis_only (d d' : Backend) : Prop := be_tokens d' = be_tokens d /\ be_db d' = be_db d.
#[export] Instance redis_only_refl : Reflexive redis_only.
Proof. done. Qed.
#[export] Instance redis_only_trans : Transitive redis_only.
Proof. intros x y z [E1 E2] [E3 E4]. split; congruence. Qed.
Lemma keeps_on_redis {A} (m : M (World RedisStore) A) : keeps (on_store redis_only) (on_redis m).
Proof using Type. intros w. unfold on_redis, zoom. by destruct (m _). Qed.
Hint Resolve keeps_on_redis : keeps.

Lemma ed25519_signed_ok address msg sg : WalletSig.VerifyEd25519 address msg sg = Ok tt -> ed25519_signed address msg sg.
Proof using Type. intros (pub & ? & ? & ?)%WalletSig.VerifyEd25519_ok. by exists pub. Qed.

Lemma check_proof_ok inp nonceBytes : check_proof inp nonceBytes = Ok tt -> possession inp nonceBytes.
Proof using Type.
  unfold check_proof, possession. destruct (String.eqb_spec (dp_KeyType inp) "ed25519").
  - intros Hc. left. apply res_bind_ok in Hc as (address & Ha & Hv%ed25519_signed_ok). split; [done|].
    unfold gAddressFromEd25519PublicKeyHex in Ha. destruct (hex_decode (dp_KeyRef inp)) as [raw|]; [|done].
    exists raw. destruct (strkey_encode_account raw); [|done]. injection Ha as ->. eauto.
  - destruct (String.eqb_spec (dp_KeyType inp) "delegated"); [intros Hc%ed25519_signed_ok; by right; left|].
    destruct (String.eqb_spec (dp_KeyType inp) "webauthn"); [|done].
    destruct (key_data_pubkey (dp_KeyRef inp)) as [pub|]; [|done].
    intros (raw & ->%list_elem_of_singleton & Ha)%assertion_ok. right. right. eauto.
Qed.

Lemma VerifyDeployProof_ok inp (w w' : W) : VerifyDeployProof inp w = (Ok tt, w') ->
  proved inp (be_redis (w_store w)) (be_redis (w_store w')).
Proof using Type.
  unfold VerifyDeployProof, proved. intros Hr. apply bind_ok in Hr as (u & w1 & Hv & Hr). apply lift_ok in Hv as [Hv <-].
  destruct u. apply bind_ok in Hr as ([] & w2 & Hc & Hr). apply on_redis_ok in Hc as (v & Hc & E & _).
  apply Consume_spent in Hc. rewrite <- E in Hc.
  destruct (hex_decode (dp_NonceHex inp)) as [nonceBytes|]; [|by apply throw_ok in Hr].
  apply lift_ok in Hr as [Hp%check_proof_ok <-]. split; [done|]. split; [done|]. by exists nonceBytes.
Qed.
Lemma keeps_VerifyDeployProof inp : keeps (on_store redis_only) (VerifyDeployProof inp).
Proof using Type. unfold VerifyDeployProof. keeps. Qed.
Hint Resolve keeps_VerifyDeployProof : keeps.

Lemma keeps_verifyProof p keyRef keyType network : keeps (on_store redis_only) (verifyProof p keyRef keyType network).
Proof using Type. unfold verifyProof, bad_request, fail, or_fail. keeps. Qed.
Lemma verifyProof_ok p keyRef keyType network (w w' : W) : verifyProof p keyRef keyType network w = (Ok tt, w') ->
  exists inp, proof_input p keyRef keyType network = Ok inp /\ proved inp (be_redis (w_store w)) (be_redis (w_store w')).
Proof using Type.
  unfold verifyProof, or_fail. destruct (proof_input _ _ _ _) as [inp|]; [|done]. intros Hr. exists inp. split; [done|].
  apply bind_ok in Hr as (r & w1 & Ha & Hr). apply (proj1 (attempt_ok _ _ _ _)) in Ha.
  destruct r as [[]|]; [|done]. apply ret_ok in Hr as [_ <-]. by apply VerifyDeployProof_ok.
Qed.
Lemma proof_input_fields p keyRef keyType network inp : proof_input p keyRef keyType network = Ok inp ->
  dp_KeyRef inp = keyRef /\ dp_KeyType inp = keyType /\ dp_Network inp = network /\ dp_NonceHex inp = pf_Nonce p.
Proof using Type.
  unfold proof_input. intros Hr. apply res_bind_ok in Hr as (sg & _ & Hr). apply res_bind_ok in Hr as ([ad cdj] & _ & Hr).
  by injection Hr as <-.
Qed.
End Proofs.

(** ** Sponsored deployment *)
Section Routes.
Context `{StellarSDK} `{Network} `{SubmitNetwork} `{Gasless} `{UuidLib} `{Unicode} `{Deployment} `{Env} `{ServiceConfig}
  `{KeypairLib} `{FactoryConfig} `{Friendbot} `{WebAuthnLib} `{Jwt} `{AuthConfig} `{MobileConfig}.
Abbreviation W := (World Backend).

(** The public routes that deploy an account. *)
Inductive deploy_request :=
  | DrEd25519 (publicKeyHex : string)
  | DrWebauthn (keyDataHex label : string) (seq : Z)
  | DrMultisig (signers : list MultisigSignerInit) (threshold : Z) (saltHex proofKeyType proofKeyRef : string)
  | DrGAddress (gAddress : string).
Definition serve (x : deploy_request) (rawNetwork : string) (p : deployProof) : M W (string * bool) :=
  match x with
  | DrEd25519 publicKeyHex => DeployEd25519 publicKeyHex rawNetwork p
  | DrWebauthn keyDataHex label seq => DeployWebauthn keyDataHex rawNetwork p label seq
  | DrMultisig signers threshold saltHex keyType keyRef =>
      DeployMultisigRoute signers threshold saltHex rawNetwork keyType keyRef p
  | DrGAddress gAddress => DeployGAddress gAddress rawNetwork p
  end.
(** The key whose possession is proved, and its type. *)
Definition proved_key (x : deploy_request) : string * string :=
  match x with
  | DrEd25519 publicKeyHex => (publicKeyHex, "ed25519")
  | DrWebauthn keyDataHex _ _ => (keyDataHex, "webauthn")
  | DrMultisig _ _ _ keyType keyRef => (keyRef, keyType)
  | DrGAddress gAddress => (gAddress, "delegated")
  end.
(** The factory parameters of the account the request names. *)
Definition account_params (x : deploy_request) : res ScVal :=
  match x with
  | DrEd25519 publicKeyHex => res_wrap "build account init params"
      (buildEd25519AccountInitParams publicKeyHex (DeriveEd25519Salt publicKeyHex))
  | DrWebauthn keyDataHex _ _ => res_wrap "build account init params"
      (buildWebauthnAccountInitParams keyDataHex (DeriveWebauthnSalt keyDataHex))
  | DrMultisig signers threshold saltHex _ _ =>
      let? salt := hex_decode saltHex in
      res_wrap "build multisig account init params" (buildMultisigAccountInitParams threshold salt signers)
  | DrGAddress gAddress => buildDelegatedAccountInitParams gAddress (DeriveDelegatedSalt gAddress)
  end.
(** What a route asks for besides the proof. *)
Definition route_rule (x : deploy_request) (network : string) : Prop :=
  match x with
  | DrMultisig signers threshold _ keyType keyRef =>
      (2 <= length signers)%nat /\ 1 <= threshold <= Z.of_nat (length signers) /\
      signerSetContains signers keyType keyRef = true
  | DrGAddress _ => network <> Mainnet
  | _ => True
  end.

(** A proof for this key, then one account created with these parameters. *)
Definition sponsored (x : deploy_request) (rawNetwork : string) (p : deployProof) (d d' : Backend) : Prop :=
  exists network inp params address c,
    ParseNetwork rawNetwork = Ok network /\ route_rule x network /\
    proof_input p (fst (proved_key x)) (snd (proved_key x)) network = Ok inp /\ proved inp (be_redis d) (be_redis d') /\
    account_params x = Ok params /\ creation params address c /\ chain (be_db d') = (chain (be_db d) ++ [c])%list.

Definition same_chain (d d' : Backend) : Prop := chain (be_db d') = chain (be_db d).
#[export] Instance same_chain_refl : Reflexive same_chain.
Proof. done. Qed.
#[export] Instance same_chain_trans : Transitive same_chain.
Proof. intros x y z E1 E2. unfold same_chain in *. congruence. Qed.

Lemma gasless_answer_run {A} (m : M W A) (w w' : W) r : gasless_answer m w = (r, w') ->
  exists r0, m w = (r0, w') /\ (forall a, r = Ok a -> r0 = Ok a).
Proof using Type.
  unfold gasless_answer, bind, attempt. destruct (m w) as [r0 w0]. destruct r0 as [a|e]; intros Hr.
  - injection Hr as <- <-. exists (Ok a). eauto.
  - exists (Err e). destruct (failGasless e) as [[st cd]|]; injection Hr as <- <-; done.
Qed.

(** The end all routes share: nothing sent, or a sponsored creation. *)
Definition sends_account (params : res ScVal) (m : M (World Store) (string * bool)) : Prop := forall w r w', m w = (r, w') ->
  w_store w' = w_store w \/
  exists ps address c, params = Ok ps /\ creation ps address c /\ w_store w' = set_chain (chain (w_store w) ++ [c]) (w_store w).
Lemma deploy_account_sends params : sends_account params (deploy_account params).
Proof using All. intros w r w'. apply deploy_account_run. Qed.
Lemma sends_DeployMultisig signers threshold salt : sends_account
  (res_wrap "build multisig account init params" (buildMultisigAccountInitParams threshold salt signers))
  (DeployMultisig signers threshold salt).
Proof using All.
  unfold DeployMultisig. intros w r w'. destruct (_ <? 2)%nat; [intros [= _ <-]; by left|].
  destruct (_ || _); [intros [= _ <-]; by left|]. apply deploy_account_sends.
Qed.
Lemma sends_DeployDelegated g : sends_account (buildDelegatedAccountInitParams g (DeriveDelegatedSalt g)) (DeployDelegated g).
Proof using All.
  unfold DeployDelegated. intros w r w' Hr.
  assert (keeps (on_store eq) (wrap "fund account" (fundTestnetAccountIfNeeded g))) as Hk
    by (unfold fundTestnetAccountIfNeeded; keeps).
  unfold bind in Hr. specialize (Hk w). unfold on_store in Hk.
  destruct (wrap _ _ w) as [[u|e] w1]; cbn in Hk; [|injection Hr as _ <-; by left].
  apply deploy_account_sends in Hr. by rewrite Hk.
Qed.

Lemma proof_then_sends x raw network p params m (w w' : W) r :
  ParseNetwork raw = Ok network -> route_rule x network -> account_params x = params -> sends_account params m ->
  bind (verifyProof p (fst (proved_key x)) (snd (proved_key x)) network) (fun _ => gasless_answer (on_db m)) w = (r, w') ->
  same_chain (w_store w) (w_store w') \/ sponsored x raw p (w_store w) (w_store w').
Proof using All.
  intros Hn Hrule Hps Hm Hr. unfold bind in Hr.
  pose proof (keeps_verifyProof p (fst (proved_key x)) (snd (proved_key x)) network w) as [_ Hk].
  destruct (verifyProof _ _ _ _ w) as [[[]|e] w1] eqn:Ev; cbn in Hk.
  2: { injection Hr as _ <-. left. unfold same_chain. by rewrite Hk. }
  apply gasless_answer_run in Hr as (r0 & Hr & _). apply zoom_run in Hr as (d & n & Hr & ->).
  apply Hm in Hr as [E|(ps & a & c & Eps & Hc & E)]; cbn in E; rewrite Hk in E; subst d; [by left|right].
  apply verifyProof_ok in Ev as (inp & Hinp & Hp). exists network, inp, ps, a, c. cbn. by rewrite Hps.
Qed.

Lemma on_network {A} api raw (k : string -> M W A) (w w' : W) r : bind (named_network api raw) k w = (r, w') ->
  same_chain (w_store w) (w_store w') \/ exists network, ParseNetwork raw = Ok network /\ k network w = (r, w').
Proof using Type.
  unfold named_network, bind. destruct (ParseNetwork raw) as [network|e]; [cbn; eauto|].
  destruct (errors_is e ErrMismatch); intros [= _ <-]; by left.
Qed.
(** The recovery index is written aside of all this. *)
Definition aside (d d' : Backend) : Prop := be_redis d' = be_redis d /\ chain (be_db d') = chain (be_db d).
Lemma aside_index keyDataHex address label seq r (w w' : W) :
  attempt (on_db (Register keyDataHex address label seq)) w = (r, w') -> aside (w_store w) (w_store w').
Proof using Type.
  unfold attempt. destruct (on_db _ w) as [r0 w0] eqn:E. intros [= _ <-]. apply zoom_run in E as (d & n & E & ->).
  unfold aside. split; [done|]. cbn. unfold Register, bind, lift, wrap, exec, throw, ret in E.
  destruct (credentialIDFromKeyData keyDataHex); [|by injection E as _ <- _].
  destruct (hex_decode keyDataHex); [|by injection E as _ <- _].
  destruct (negb _); [by injection E as _ <- _|]. destruct (env_fault _); [by injection E as _ <- _|].
  by injection E as _ <- _.
Qed.
Lemma sponsored_aside x raw p d d1 d' : aside d1 d' ->
  same_chain d d1 \/ sponsored x raw p d d1 -> same_chain d d' \/ sponsored x raw p d d'.
Proof using Type.
  intros [Er Ec] [E|(network & inp & ps & a & c & ? & ? & ? & ? & ? & ? & E)]; [left; unfold same_chain in *; congruence|].
  right. exists network, inp, ps, a, c. rewrite Er. split_and!; try done. congruence.
Qed.

(** C11. Nothing is sponsored without a proof of possession. Whatever a deployment
    route does, either nothing is sent on chain, or: the network is this
    deployment's; the request's nonce was live, issued for deploying exactly this
    key on this network, and is now spent; the key signed it (as an ed25519 key, a
    G-address, or a passkey's assertion at an allowed origin); the route's own
    rules hold (a multisig's threshold is in range and the proved key is one of
    its signers; a G-address is not on mainnet); and exactly one account was
    created, with the parameters derived from this request alone. *)
Theorem sponsored_needs_proof x rawNetwork p r (w w' : W) :
  serve x rawNetwork p w = (r, w') ->
  chain (be_db (w_store w')) = chain (be_db (w_store w)) \/ sponsored x rawNetwork p (w_store w) (w_store w').
Proof using All.
  destruct x as [k|k label seq|signers t saltHex kt kr|g]; cbn [serve]; intros Hr.
  - unfold DeployEd25519 in Hr. repeat (destruct (negb _) in Hr; [injection Hr as _ <-; by left|]).
    apply on_network in Hr as [?|(network & Hn & Hr)]; [by left|].
    by eapply (proof_then_sends (DrEd25519 k)) in Hr; [|done..|apply deploy_account_sends].
  - unfold DeployWebauthn in Hr. destruct (_ <? _)%nat; [injection Hr as _ <-; by left|].
    destruct (negb _); [injection Hr as _ <-; by left|].
    apply on_network in Hr as [?|(network & Hn & Hr)]; [by left|]. rewrite bind_assoc in Hr. unfold bind at 1 in Hr.
    destruct (bind (verifyProof _ _ _ _) _ w) as [[[a al]|e] w1] eqn:E;
      eapply (proof_then_sends (DrWebauthn k label seq)) in E; try done; try apply deploy_account_sends.
    + unfold bind in Hr. destruct (attempt _ w1) as [[u|e] w2] eqn:E2; injection Hr as _ <-;
        apply aside_index in E2; by eapply sponsored_aside.
    + by injection Hr as _ <-.
  - unfold DeployMultisigRoute in Hr. destruct (Nat.ltb_spec (length signers) 2); [injection Hr as _ <-; by left|].
    destruct ((t <? 1) || _) eqn:Et; [injection Hr as _ <-; by left|]. destruct (negb _); [injection Hr as _ <-; by left|].
    destruct (hex_decode saltHex) as [salt|] eqn:Es; [|injection Hr as _ <-; by left].
    destruct (negb _); [injection Hr as _ <-; by left|].
    apply on_network in Hr as [?|(network & Hn & Hr)]; [by left|].
    destruct (signerSetContains signers kt kr) eqn:Ec; [|injection Hr as _ <-; by left].
    eapply (proof_then_sends (DrMultisig signers t saltHex kt kr)) in Hr; [done|done| | |apply sends_DeployMultisig].
    + apply orb_false_iff in Et as [Et1%Z.ltb_ge Et2%Z.ltb_ge]. cbn. split; [lia|done].
    + cbn. by rewrite Es.
  - unfold DeployGAddress in Hr. destruct (negb _); [injection Hr as _ <-; by left|].
    apply on_network in Hr as [?|(network & Hn & Hr)]; [by left|].
    destruct (String.eqb_spec network Mainnet); [injection Hr as _ <-; by left|].
    by eapply (proof_then_sends (DrGAddress g)) in Hr; [|done..|apply sends_DeployDelegated].
Qed.
End Routes.

(** ** Sign-in and recovery *)
Section SignIns.
Context `{StellarSDK} `{Network} `{SubmitNetwork} `{Gasless} `{UuidLib} `{Unicode} `{Deployment} `{Env} `{ServiceConfig}
  `{KeypairLib} `{FactoryConfig} `{Friendbot} `{WebAuthnLib} `{Jwt} `{AuthConfig} `{MobileConfig}.
Abbreviation W := (World Backend).

(** One new session of the wallet: a row under the digest of the refresh token,
    where there was none. *)
Definition session_opened (wallet refreshToken : string) (d d' : TokenStore) : Prop :=
  tk_refresh d !! HashToken refreshToken = None /\
  exists row, rt_WalletAddress row = Some wallet /\ rt_UserID row = None /\ rt_Revoked row = false /\
    d' = set_refresh (<[HashToken refreshToken := row]> (tk_refresh d)) d.
(** The wallet's key signed the nonce: its own address's key, or for a contract
    account a passkey some context rule of it registers. *)
Definition wallet_signed (inp : WalletSignInInput) (nonceBytes : string) : Prop :=
  (wi_KeyType inp = KeyTypeEd25519 /\ ed25519_signed (wi_Wallet inp) nonceBytes (wi_Signature inp)) \/
  (wi_KeyType inp = KeyTypePasskey /\ exists key, registered (D := Backend) (wi_Wallet inp) key /\
     asserted key nonceBytes (wi_AuthenticatorData inp) (wi_ClientDataJSON inp) (wi_PasskeySignature inp)
       webauthnAllowedOrigins).

Lemma signer_keys_registered wallet (w w' : W) keys key : WebAuthnSignerKeys wallet w = (Ok keys, w') ->
  key ∈ keys -> registered (D := Backend) wallet key.
Proof using Type.
  intros Hr Hk. by eapply signer_keys_run in Hr as (_ & _ & Hkeys); apply Hkeys in Hk as [_ ?].
Qed.
Lemma verifyPasskey_ok inp network nonceBytes (w w' : W) : verifyPasskey inp network nonceBytes w = (Ok tt, w') ->
  exists key, registered (D := Backend) (wi_Wallet inp) key /\
    asserted key nonceBytes (wi_AuthenticatorData inp) (wi_ClientDataJSON inp) (wi_PasskeySignature inp) webauthnAllowedOrigins.
Proof using Type.
  unfold verifyPasskey. intros Hr. apply bind_ok in Hr as (found & w1 & Hf & Hr). apply (proj1 (attempt_ok _ _ _ _)) in Hf.
  destruct found as [keys|e]; [|by destruct (errors_is e _)]. apply lift_ok in Hr as [(key & Hin & Ha)%assertion_ok _].
  exists key. split; [|done]. by eapply signer_keys_registered.
Qed.
Lemma keeps_verifyPasskey inp network nonceBytes : keeps (on_store (D := Backend) eq) (verifyPasskey inp network nonceBytes).
Proof using H H0 H6 H11 H14.
  unfold verifyPasskey, WebAuthnSignerKeys. assert (forall c fn args, keeps (on_store (D := Backend) eq) (simulateRead c fn args))
    by (intros; unfold simulateRead, simulateReadCall; keeps).
  assert (forall wallet count n id found keys, keeps (on_store (D := Backend) eq) (scan_keys wallet count n id found keys)).
  { intros wallet count n. induction n as [|n IH]; intros; cbn [scan_keys]; keeps. }
  keeps.
Qed.

Lemma wallet_tokens_ok wallet keyType access refresh (w w' : World TokenStore) :
  IssueWalletTokenPair wallet keyType w = (Ok (access, refresh), w') ->
  session_opened wallet refresh (w_store w) (w_store w').
Proof using Type.
  unfold IssueWalletTokenPair, issueWalletAccessToken, issueWalletRefreshToken. intros Hr.
  apply bind_ok in Hr as (a & w1 & Ha & Hr). rewrite wrap_ok in Ha. apply signed_claims_store in Ha. run_inv. simplify_eq.
  match goal with H : InsertWalletRefreshToken _ _ _ _ _ = Ok _ |- _ => apply insert_token_ok in H as [Hf E] end.
  unfold tick, put_store in *. cbn [w_store] in *. rewrite Ha in *. split; [done|].
  eexists. split; [|split; [|split; [|exact E]]]; done.
Qed.

(** C16. A wallet's session is the wallet's. A sign-in that succeeds was for a
    well-formed wallet on this deployment's network; its nonce was live, issued
    for this wallet, key type and network, and is spent; the wallet's own key
    signed it, an ed25519 account's key or a passkey that the network reports
    among the account's signers, at an allowed origin. One refresh token of this
    wallet was added, and no other table moved. *)
Theorem sign_in_authentic inp access refresh (w w' : W) :
  SignIn inp w = (Ok (access, refresh), w') ->
  ValidWalletShape (wi_Wallet inp) (wi_KeyType inp) = true /\
  exists network nonceBytes,
    ParseWalletNetwork (wi_Network inp) = Ok network /\
    Base64.RawURLEncoding_DecodeString (wi_NonceB64URL inp) = Ok nonceBytes /\ nonceBytes <> "" /\
    nonce_spent (hex_encode nonceBytes) (bind_nonce (wi_Wallet inp) (wi_KeyType inp) network)
      (be_redis (w_store w)) (be_redis (w_store w')) /\
    wallet_signed inp nonceBytes /\
    session_opened (wi_Wallet inp) refresh (be_tokens (w_store w)) (be_tokens (w_store w')) /\
    be_db (w_store w') = be_db (w_store w).
Proof using Type.
  unfold SignIn. destruct (ValidWalletShape _ _) eqn:Ev; [|done]. cbn [negb]. intros Hr. split; [done|].
  apply bind_ok in Hr as (network & w1 & Hn & Hr). apply lift_ok in Hn as [Hn <-].
  destruct (Base64.RawURLEncoding_DecodeString _) as [nonceBytes|] eqn:Eb; [|done].
  assert (nonceBytes <> "") as Hne by (by intros ->).
  assert (bind (on_redis (Consume (hex_encode nonceBytes) (wi_Wallet inp) (wi_KeyType inp) network)) (fun _ =>
    bind (if String.eqb (wi_KeyType inp) KeyTypeEd25519 then lift (WalletSig.VerifyEd25519 (wi_Wallet inp) nonceBytes (wi_Signature inp))
          else if String.eqb (wi_KeyType inp) KeyTypePasskey then verifyPasskey inp network nonceBytes
          else throw ErrUnsupportedKeyType)
      (fun _ => on_tokens (IssueWalletTokenPair (wi_Wallet inp) (wi_KeyType inp)))) w = (Ok (access, refresh), w')) as Hr'
    by (destruct nonceBytes; done). clear Hr.
  apply bind_ok in Hr' as ([] & w1 & Hc & Hr). apply on_redis_ok in Hc as (v & Hc%Consume_spent & Er & Et & Ed). rewrite <- Er in Hc.
  apply bind_ok in Hr as ([] & w2 & Hsig & Hr).
  assert (wallet_signed inp nonceBytes /\ w_store w2 = w_store w1) as [Hs E2].
  { unfold wallet_signed. destruct (String.eqb_spec (wi_KeyType inp) KeyTypeEd25519).
    { apply lift_ok in Hsig as [?%ed25519_signed_ok <-]. eauto. }
    destruct (String.eqb_spec (wi_KeyType inp) KeyTypePasskey); [|done].
    pose proof (keeps_verifyPasskey inp network nonceBytes w1) as Hk. rewrite Hsig in Hk. unfold on_store in Hk. cbn in Hk.
    apply verifyPasskey_ok in Hsig. eauto. }
  apply zoom_run in Hr as (d & n & Ht%wallet_tokens_ok & ->). cbn in *. rewrite E2, Et in Ht.
  exists network, nonceBytes. rewrite E2, Ed. by split_and!.
Qed.

Lemma hex_decode_prefix n s : is_ok (hex_decode s) = true -> is_ok (hex_decode (String.substring 0 (2 * n) s)) = true.
Proof using Type.
  revert s. induction n as [|n IH]; intros s Hs; [by destruct s|].
  replace (2 * S n)%nat with (S (S (2 * n))) by lia. destruct s as [|a [|b s]]; cbn in *; [done..|].
  destruct (hex_val a), (hex_val b); try done. specialize (IH s).
  destruct (hex_decode s); [|done]. by destruct (hex_decode (String.substring 0 _ s)); [|by apply IH].
Qed.
(** A row as [Register] writes it has a public key to check against. *)
Lemma index_row_key cred row : index_row_ok cred row ->
  (String.length (pc_KeyDataHex row) <? webauthnPubKeyHexLen)%nat = false /\
  is_ok (key_data_pubkey (pc_KeyDataHex row)) = true.
Proof using Type.
  intros (_ & Hc & Hx & _). split; [|by apply (hex_decode_prefix 65)]. unfold credentialIDFromKeyData in Hc.
  destruct (Nat.leb_spec (String.length (pc_KeyDataHex row)) webauthnPubKeyHexLen); [done|]. by apply Nat.ltb_ge, Nat.lt_le_incl.
Qed.

(** The credential's account, shown to the holder of its key. *)
Definition looked_up (credentialID nonceHex authenticatorData clientDataJSON signature : string) (cred : PasskeyCredential)
    (d d' : Backend) : Prop :=
  exists row pubKey nonceBytes,
    passkey_index (be_db d) !! credentialID = Some row /\ cred = credential_of row /\
    key_data_pubkey (pc_KeyDataHex row) = Ok pubKey /\ hex_decode nonceHex = Ok nonceBytes /\
    asserted pubKey nonceBytes authenticatorData clientDataJSON signature webauthnAllowedOrigins /\
    nonce_spent nonceHex (bind_nonce "" passkeyLookupNonceKeyType passkeyLookupNonceScope) (be_redis d) (be_redis d').

Lemma index_read credentialID r (w w' : W) :
  on_db (or_no_rows ErrCredentialNotFound "get passkey credential" (query (GetPasskeyCredential credentialID))) w = (r, w') ->
  w_store w' = w_store w /\
  match r with
  | Ok row => passkey_index (be_db (w_store w)) !! credentialID = Some row
  | Err e => e = ErrCredentialNotFound \/ e = Wrapf "get passkey credential" ErrDriver
  end.
Proof using Type.
  intros (d & n & Eq & ->)%zoom_run. assert (d = be_db (w_store w)) as ->.
  { by eapply (keeps_run _ _ _ _ _ (keeps_or_no_rows (on_store eq) _ _ _ (keeps_query eq _))) in Eq. }
  split; [by destruct w as [[]]|]. destruct r as [row|e].
  - apply or_no_rows_ok, query_ok in Eq as (_ & Eq & _). unfold GetPasskeyCredential in Eq. cbn in Eq.
    destruct (passkey_index _ !! credentialID); [by injection Eq as ->|done].
  - eapply or_no_rows_query_err; [|exact Eq]. cbn. intros x. unfold GetPasskeyCredential.
    destruct (passkey_index _ !! credentialID); [done|by intros [= <-]].
Qed.

(** Recovery shows an account only to its key, and hides the rest. A lookup
    that succeeds returns the index row of the credential, to a caller whose
    fresh lookup nonce was signed by the public key stored in that row, and the
    nonce is spent. Every other request — no such credential, a bad or used
    nonce, a wrong signature — gets one and the same answer, not found, unless
    the database failed; no table moves. *)
Theorem lookup_authentic credentialID nonceHex ad cdj sig r (w w' : W) :
  signers_wf (be_db (w_store w)) ->
  Lookup credentialID nonceHex ad cdj sig w = (r, w') ->
  be_tokens (w_store w') = be_tokens (w_store w) /\ be_db (w_store w') = be_db (w_store w) /\
  match r with
  | Ok cred => looked_up credentialID nonceHex ad cdj sig cred (w_store w) (w_store w')
  | Err e => e = ErrCredentialNotFound \/ e = Wrapf "get passkey credential" ErrDriver
  end.
Proof using Type.
  unfold Lookup, bind at 1, attempt. intros Hwf Hr.
  pose proof (keeps_on_redis (Consume nonceHex "" passkeyLookupNonceKeyType passkeyLookupNonceScope) w) as [Et Ed].
  destruct (on_redis _ w) as [[[]|e] w1] eqn:Ec; cbn in Et, Ed; [|injection Hr as <- <-; by auto].
  apply on_redis_ok in Ec as (v & Hc%Consume_spent & Er & _). rewrite <- Er in Hc.
  unfold bind at 1 in Hr. destruct (on_db _ w1) as [r2 w2] eqn:Eq.
  apply index_read in Eq as [E2 Eq]. rewrite Ed in Eq.
  destruct r2 as [row|e]; [|injection Hr as <- <-; rewrite E2; auto].
  destruct (index_row_key credentialID row) as [Hlen Hkey]; [by apply (sw_index _ Hwf)|].
  rewrite Hlen in Hr. unfold bind, wrap, lift in Hr. destruct (key_data_pubkey _) as [pub|] eqn:Ek; [|done].
  destruct (hex_decode nonceHex) as [nonceBytes|] eqn:En; [|injection Hr as <- <-; rewrite E2; auto].
  destruct (VerifyWebAuthnAssertion _ _ _ _ _ _) as [[]|] eqn:Ea; injection Hr as <- <-; rewrite E2; [|by auto].
  apply assertion_ok in Ea as (k & ->%list_elem_of_singleton & Ha).
  split; [done|]. split; [done|]. exists row, pub, nonceBytes. by split_and!.
Qed.
End SignIns.

Section Witnesses.
Import Demo DemoProposals DemoSubmit.
#[local] Instance demo_deployment : Deployment := {| Get := "testnet"; Get_valid := or_intror (or_introl eq_refl) |}.
#[local] Instance demo_keypair : KeypairLib := {| keypair_random n := Ok "GD" |}.
#[local] Instance demo_factory_config : FactoryConfig := {| factoryAddress := "CF" |}.
#[local] Instance demo_friendbot : Friendbot := {| horizon_account_ok a n := true; friendbot_status a n := Ok 200 |}.
#[local] Instance demo_webauthn : WebAuthnLib := {|
  client_data_unmarshal s := match split_all s with
                             | Some [t; c; o] => Ok {| cd_Type := t; cd_Challenge := c; cd_Origin := o |}
                             | _ => Err (Errorf "json") end;
  p256_on_curve p := true;
  ecdsa_verify key digest sg := String.eqb sg (demo_sign key digest) |}.
#[local] Instance demo_mobile : MobileConfig := {| webauthnAllowedOrigins := ["latch.app"] |}.
#[local] Instance demo_clock : Env := demo_env 1000 100%N no_fault.
Definition w_nonces : World RedisStore := MkWorld ∅ 0.
Definition nonce_bytes : string := str_repeat "r" 32.
Definition nonce_hex : string := hex_encode nonce_bytes.
Definition hex_key : string := str_repeat "a" 64.
Definition deploy_flow : flow := FlowDeploy hex_key "ed25519" "testnet".
Definition issued : World RedisStore := snd (issue_for deploy_flow w_nonces).

Lemma demo_issue : issue_for deploy_flow w_nonces = (Ok (nonce_hex, DeployNonceTTL), issued).
Proof. vm_cast_no_check (eq_refl (@Ok (string * Z) (nonce_hex, DeployNonceTTL), issued)). Qed.
Lemma demo_valid : flow_valid deploy_flow.
Proof. split; [vm_compute; reflexivity|]. exists "testnet". left. vm_compute. reflexivity. Qed.

Lemma nonce_flows_disjoint_witness :
  fst (consume_for nonce_hex FlowLookup issued) <> Ok tt /\ fst (consume_for nonce_hex deploy_flow issued) = Ok tt.
Proof.
  split.
  - destruct (consume_for nonce_hex FlowLookup issued) as [r w3] eqn:E. cbn [fst]. intros Hr.
    destruct (nonce_flows_disjoint deploy_flow FlowLookup nonce_hex DeployNonceTTL [] [] r w_nonces issued issued w3
      demo_valid I demo_issue eq_refl (not_elem_of_nil _) E) as [Hd _]. discriminate (Hd Hr).
  - destruct (consume_for nonce_hex deploy_flow issued) as [r w3] eqn:E. cbn [fst].
    destruct (nonce_flows_disjoint deploy_flow deploy_flow nonce_hex DeployNonceTTL [] [] r w_nonces issued issued w3
      demo_valid demo_valid demo_issue eq_refl (not_elem_of_nil _) E) as [_ Hd].
    apply Hd; [reflexivity|reflexivity|vm_compute; reflexivity|reflexivity].
Defined.

(** A store that holds one challenge. *)
Definition challenged (text : string) (tokens : TokenStore) (db : Store) : World Backend :=
  MkWorld (MkBackend {[nonce_key nonce_hex := {| re_value := RText text; re_deadline := None |}]} tokens db) 0.
Definition no_tokens : TokenStore := MkTokens ∅ ∅.

Definition wallet_key : string := str_repeat "k" 32.
Definition g_request : deploy_request := DrGAddress ("G" +:+ wallet_key).
Definition g_proof : deployProof :=
  {| pf_Nonce := nonce_hex; pf_Signature := b64 (demo_sign wallet_key nonce_bytes); pf_AuthenticatorData := ""; pf_ClientDataJSON := "" |}.
Definition g_world : World Backend :=
  challenged (bind_nonce ("G" +:+ wallet_key) "delegated" (deployNonceScope "testnet")) no_tokens account_store.
Definition g_run : M (World Backend) (string * bool) := serve (H := demo_sdk) (H0 := passkey_network) g_request "testnet" g_proof.

Lemma sponsored_needs_proof_witness :
  exists w', g_run g_world = (Ok ("CS", false), w') /\
    sponsored (H := demo_sdk) g_request "testnet" g_proof (w_store g_world) (w_store w').
Proof.
  destruct (g_run g_world) as [r w'] eqn:E.
  pose proof (f_equal (fun x => (fst x, length (chain (be_db (w_store (snd x)))))) E) as Hv. vm_compute in Hv.
  assert (r = Ok ("CS", false)) as -> by congruence. exists w'. split; [reflexivity|].
  destruct (sponsored_needs_proof (H := demo_sdk) (H0 := passkey_network) g_request "testnet" g_proof _ g_world w' E) as [Hc|Hs];
    [|exact Hs].
  exfalso. apply (f_equal length) in Hc. vm_compute in Hc. congruence.
Defined.

Definition demo_authdata : string := str_repeat "d" 37.
Definition demo_client_data : string :=
  join ["webauthn.get"; Base64.RawURLEncoding_EncodeToString nonce_bytes; "https://latch.app"].
Definition demo_assertion : string := demo_sign demo_point (assertion_digest demo_authdata demo_client_data).
Definition passkey_sign_in : WalletSignInInput :=
  {| wi_Wallet := "CS"; wi_KeyType := KeyTypePasskey; wi_Network := ""; 
     wi_NonceB64URL := Base64.RawURLEncoding_EncodeToString nonce_bytes; wi_Signature := "";
     wi_AuthenticatorData := demo_authdata; wi_ClientDataJSON := demo_client_data; wi_PasskeySignature := demo_assertion |}.
Definition sign_in_world : World Backend := challenged (bind_nonce "CS" KeyTypePasskey "testnet") no_tokens account_store.

Lemma sign_in_authentic_witness :
  exists access refresh w', SignIn (H := demo_sdk) (H0 := passkey_network) passkey_sign_in sign_in_world = (Ok (access, refresh), w') /\
    wallet_signed (H := demo_sdk) (H0 := passkey_network) passkey_sign_in nonce_bytes.
Proof.
  destruct (SignIn (H := demo_sdk) (H0 := passkey_network) passkey_sign_in sign_in_world) as [r w'] eqn:E.
  pose proof (f_equal (fun x => is_ok (fst x)) E) as Hok. vm_compute in Hok.
  destruct r as [[access refresh]|e]; [|discriminate Hok]. exists access, refresh, w'. split; [reflexivity|].
  destruct (sign_in_authentic (H := demo_sdk) (H0 := passkey_network) passkey_sign_in access refresh sign_in_world w' E)
    as (_ & network & nb & _ & Hb & _ & _ & Hs & _).
  assert (nb = nonce_bytes) as -> by (vm_compute in Hb; injection Hb as <-; reflexivity). exact Hs.
Defined.

Definition recovery_row : PasskeyCredentialRow :=
  index_row "bb" (hex_encode demo_point +:+ "bb") (String "C" (str_repeat "A" 55)) "label" 1.
Definition recovery_db : Store := set_passkey_index {["bb" := recovery_row]} account_store.
Definition recovery_world : World Backend :=
  challenged (bind_nonce "" passkeyLookupNonceKeyType passkeyLookupNonceScope) no_tokens recovery_db.

Lemma recovery_wf : signers_wf recovery_db.
Proof.
  split; intros k r; try (intros E; discriminate E); try (intros k' r' E; discriminate E).
  cbn. rewrite lookup_singleton_Some. intros [<- <-]. repeat split; vm_compute; reflexivity.
Qed.
Lemma lookup_authentic_witness :
  exists w', Lookup "bb" nonce_hex demo_authdata demo_client_data demo_assertion recovery_world
      = (Ok (credential_of recovery_row), w') /\
    looked_up "bb" nonce_hex demo_authdata demo_client_data demo_assertion (credential_of recovery_row)
      (w_store recovery_world) (w_store w').
Proof.
  destruct (answers (Lookup "bb" nonce_hex demo_authdata demo_client_data demo_assertion) recovery_world
    (Ok (credential_of recovery_row))) as (w' & Hr); [vm_compute; reflexivity|].
  exists w'. split; [exact Hr|].
  apply (lookup_authentic "bb" nonce_hex demo_authdata demo_client_data demo_assertion _ recovery_world w' recovery_wf Hr).
Defined.
End Witnesses.
End MobileSafety.
