(* ===== verification/ProposalSafety.v ===== *)
(** * Safety of multisig proposals

    Who may touch a proposal, what an execution sends, what a rebuild leaves,
    and the invariant every sequence of requests to
    multisig_proposal_service.go keeps. *)

From S2P Require Export Proposals DemoProposals.
From S2P Require Import Instances.

Module ProposalSafety.
Import Signers ExecuteAuth Assets Balances ContextRules Amount Proposals.

(** The creator of the account, or a linked member of it. *)
Definition has_access `{UuidLib} (d : Store) (a : MultisigAccount) (userID : string) : Prop :=
  uuid_string (ma_UserID a) = userID \/
  exists k m u, members d !! k = Some m /\ mm_MultisigAccountID m = ma_ID a /\
    mm_UserID m = Some u /\ uuid_string u = userID.

(** The proposal [proposalID] names, its account, and the caller's right to it. *)
Record owned `{UuidLib} (d : Store) (proposalID userID : string) (pid : uuid)
    (p : MultisigProposal) (a : MultisigAccount) : Prop := {
  ow_id : uuid_parse proposalID = Some pid;
  ow_proposal : proposals d !! pid = Some p;
  ow_account : accounts d !! mp_MultisigAccountID p = Some a;
  ow_access : has_access d a userID;
}.

(** Who may approve for a member: the member's own user, or the account's
    creator. *)
Definition may_approve `{UuidLib} (a : MultisigAccount) (m : MultisigMember) (userID : string) : Prop :=
  uuid_string (ma_UserID a) = userID \/ exists u, mm_UserID m = Some u /\ uuid_string u = userID.

Section Lookups.
Context `{StellarSDK} `{Network} `{Unicode} `{UuidLib} `{Env} `{!TransactionSubmitter} `{ServiceConfig}
  `{Json sacTransferOperationParams} `{Json (list string)} {J : Type} `{Json J}.
Abbreviation W := (World Store).

Lemma accountAccessGranted_ok a userID (w w' : W) b :
  accountAccessGranted a userID w = (Ok b, w') ->
  w_store w' = w_store w /\ (b = true <-> has_access (w_store w) a userID).
Proof.
  unfold accountAccessGranted, has_access.
  destruct (String.eqb_spec (uuid_string (ma_UserID a)) userID) as [E|E]; intros Hr.
  - svc_inv. split; [done|]. split; [by left|done].
  - svc_inv. unfold ListMultisigMembersForAccount in *. svc_inv. split; [done|].
    rewrite existsb_exists. split.
    + intros (m & Hin & Hu). right. apply list_elem_of_In in Hin.
      apply elem_of_order_by, elem_of_select in Hin as [Hm [k Hk]].
      apply bool_decide_eq_true in Hm. destruct (mm_UserID m) as [u|] eqn:Eu; [|done].
      apply String.eqb_eq in Hu. eauto 8.
    + intros [?|(k & m & u & Hk & Hm & Eu & Hu)]; [done|]. exists m. split.
      * apply list_elem_of_In, elem_of_order_by, elem_of_select. split; [by apply bool_decide_eq_true | eauto].
      * rewrite Eu. by apply String.eqb_eq.
Qed.

Lemma getOwnedAccountByID_ok id userID (w w' : W) a :
  getOwnedAccountByID id userID w = (Ok a, w') ->
  w_store w' = w_store w /\ accounts (w_store w) !! id = Some a /\ has_access (w_store w) a userID.
Proof.
  unfold getOwnedAccountByID. intros Hr. svc_inv.
  match goal with H : accountAccessGranted _ _ _ = _ |- _ => apply accountAccessGranted_ok in H as [S1 Hb] end.
  match goal with H : GetMultisigAccountByID _ _ = Ok _ |- _ => apply get_by_id_ok in H end.
  destruct x1; cbn in Hr; [|by run_inv]. run_inv. cbn in *. split; [done|]. split; [done|]. by apply Hb.
Qed.

Lemma keeps_accountAccessGranted a u : keeps (on_store eq) (accountAccessGranted a u).
Proof. unfold accountAccessGranted. keeps. Qed.
Hint Resolve keeps_accountAccessGranted : keeps.
Lemma keeps_getOwnedAccountByID id u : keeps (on_store eq) (getOwnedAccountByID id u).
Proof. unfold getOwnedAccountByID. keeps. Qed.
Lemma keeps_getOwnedAccountByAddress s u : keeps (on_store eq) (getOwnedAccountByAddress s u).
Proof. unfold getOwnedAccountByAddress. keeps. Qed.
Hint Resolve keeps_getOwnedAccountByID keeps_getOwnedAccountByAddress : keeps.
Lemma keeps_getOwnedProposal s u : keeps (on_store eq) (getOwnedProposal s u).
Proof. unfold getOwnedProposal. keeps. Qed.
Lemma keeps_getOwnedMember a u m t : keeps (on_store eq) (getOwnedMember a u m t).
Proof. unfold getOwnedMember. keeps. Qed.
Hint Resolve keeps_getOwnedProposal keeps_getOwnedMember : keeps.

Lemma getOwnedProposal_ok proposalID userID (w w' : W) p a :
  getOwnedProposal proposalID userID w = (Ok (p, a), w') ->
  w_store w' = w_store w /\ exists pid, owned (w_store w) proposalID userID pid p a.
Proof.
  intros Hr. pose proof (keeps_run _ _ _ _ _ (keeps_getOwnedProposal _ _) Hr) as S0. unfold on_store in S0.
  split; [done|]. unfold getOwnedProposal in Hr. destruct (uuid_parse proposalID) as [pid|] eqn:Ep; [|by run_inv].
  svc_inv. match goal with H : GetMultisigProposalByID _ _ = Ok _ |- _ => apply get_by_id_ok in H; rename H into Hp end.
  destruct x1 as [a'|e]; [|by run_inv]. run_inv.
  match goal with H : getOwnedAccountByID _ _ _ = _ |- _ => apply getOwnedAccountByID_ok in H as (S2 & Ha & Hacc) end.
  simplify_eq. cbn in *. exists pid. by split.
Qed.

(** What a caller without access is told, whether or not the proposal exists. *)
Definition hidden (e : error) : Prop :=
  e = ErrMultisigProposalNotFound \/ e = Wrapf "get multisig proposal" ErrDriver.

Lemma getOwnedProposal_denied proposalID userID (w : W) :
  (forall pid p a, ~ owned (w_store w) proposalID userID pid p a) ->
  exists e w', getOwnedProposal proposalID userID w = (Err e, w') /\ hidden e /\ w_store w' = w_store w.
Proof.
  intros Hno. destruct (getOwnedProposal proposalID userID w) as [[[p a]|e] w'] eqn:E.
  - apply getOwnedProposal_ok in E as [_ [pid Ho]]. by apply Hno in Ho.
  - exists e, w'. split; [done|]. split.
    + unfold getOwnedProposal in E. destruct (uuid_parse proposalID); [|injection E as <- _; by left].
      apply bind_err in E as [E|(p & w1 & E1 & E)].
      * apply or_no_rows_query_err in E; [destruct E as [->| ->]; [by left|by right]|].
        unfold GetMultisigProposalByID, get_by_id. intros x. destruct (_ !! _); congruence.
      * apply bind_err in E as [E|(r & w2 & _ & E)]; [by apply attempt_no_err in E|].
        destruct r; [discriminate E | injection E as <- _; by left].
    + pose proof (keeps_run _ _ _ _ _ (keeps_getOwnedProposal _ _) E) as S0. unfold on_store in S0. done.
Qed.

Lemma getOwnedMember_ok a userID memberID ty (w w' : W) m :
  getOwnedMember a userID memberID ty w = (Ok m, w') ->
  w_store w' = w_store w /\ exists mid, uuid_parse memberID = Some mid /\ members (w_store w) !! mid = Some m /\
    mm_MultisigAccountID m = ma_ID a /\ mm_MemberType m = ty /\ may_approve a m userID.
Proof.
  intros Hr. pose proof (keeps_run _ _ _ _ _ (keeps_getOwnedMember _ _ _ _) Hr) as S0. unfold on_store in S0.
  split; [done|]. unfold getOwnedMember in Hr. destruct (uuid_parse memberID) as [mid|] eqn:Em; [|by run_inv].
  svc_inv. match goal with H : GetMultisigMemberByID _ _ = Ok _ |- _ => apply get_by_id_ok in H; rename H into Hm end.
  case_bool_decide as Ea; cbn in Hr; [|by run_inv].
  destruct (String.eqb_spec (mm_MemberType x) ty) as [Et|]; cbn in Hr; [|by run_inv].
  unfold may_approve. exists mid. destruct (String.eqb_spec (uuid_string (ma_UserID a)) userID) as [Ec|_]; cbn in Hr.
  - run_inv. split_and!; auto.
  - destruct (mm_UserID x) as [u|] eqn:Eu; [|by run_inv].
    destruct (String.eqb_spec (uuid_string u) userID) as [Ec'|]; cbn in Hr; [|by run_inv].
    run_inv. split_and!; eauto.
Qed.
End Lookups.
#[export] Hint Resolve keeps_accountAccessGranted keeps_getOwnedAccountByID keeps_getOwnedAccountByAddress
  keeps_getOwnedProposal keeps_getOwnedMember : keeps.

(** ** The invariant of the proposal tables, and how requests may change them *)
Record proposals_wf (d : Store) : Prop := {
  pw_key : forall k p, proposals d !! k = Some p -> mp_ID p = k;
  pw_account_key : forall k a, accounts d !! k = Some a -> ma_ID a = k;
  pw_member_key : forall k m, members d !! k = Some m -> mm_ID m = k;
  pw_approval_key : forall k a, approvals d !! k = Some a -> mv_ID a = k;
  (** one approval per member and proposal *)
  pw_unique : forall k1 k2 a1 a2, approvals d !! k1 = Some a1 -> approvals d !! k2 = Some a2 ->
    mv_ProposalID a1 = mv_ProposalID a2 -> mv_MemberID a1 = mv_MemberID a2 -> k1 = k2;
  (** an approval is by a member of the account the proposal belongs to *)
  pw_member : forall k a, approvals d !! k = Some a -> exists p m,
    proposals d !! mv_ProposalID a = Some p /\ members d !! mv_MemberID a = Some m /\
    mm_MultisigAccountID m = mp_MultisigAccountID p;
}.

Definition pending (p : MultisigProposal) : Prop := mp_Status p = "pending".

Record proposal_keeps (p p' : MultisigProposal) : Prop := {
  pk_id : mp_ID p' = mp_ID p;
  pk_account : mp_MultisigAccountID p' = mp_MultisigAccountID p;
  pk_creator : mp_CreatedByUserID p' = mp_CreatedByUserID p;
  pk_operation : (mp_TargetContractID p', mp_OperationKind p', mp_OperationParamsJson p') =
                 (mp_TargetContractID p, mp_OperationKind p, mp_OperationParamsJson p);
  pk_status : mp_Status p' = mp_Status p \/ mp_Status p' = "executed";
  pk_settled : ~ pending p -> p' = p;
}.

Record proposals_evolve (d d' : Store) : Prop := {
  pe_wf : proposals_wf d';
  pe_tables : set_chain (chain d) (set_approvals (approvals d) (set_proposals (proposals d) d')) = d;
  pe_proposal : forall k p, proposals d !! k = Some p ->
    exists p', proposals d' !! k = Some p' /\ proposal_keeps p p';
  pe_settled : forall k p a, proposals d !! mv_ProposalID a = Some p -> ~ pending p ->
    approvals d' !! k = Some a <-> approvals d !! k = Some a;
  pe_chain : exists l, chain d' = chain d ++ l;
}.

Lemma proposal_keeps_refl p : proposal_keeps p p.
Proof. split; auto. Qed.
Lemma proposal_keeps_trans p1 p2 p3 : proposal_keeps p1 p2 -> proposal_keeps p2 p3 -> proposal_keeps p1 p3.
Proof.
  intros [] []. split; try congruence.
  - destruct pk_status1 as [->|]; auto.
  - intros Hn. pose proof (pk_settled0 Hn). subst. by apply pk_settled1.
Qed.

Lemma proposals_evolve_refl d : proposals_wf d -> proposals_evolve d d.
Proof.
  intros Hwf. split; [done|by destruct d| |done|exists []; by rewrite app_nil_r].
  intros k p E. exists p. split; [done|apply proposal_keeps_refl].
Qed.

Lemma proposals_evolve_trans d1 d2 d3 :
  proposals_evolve d1 d2 -> proposals_evolve d2 d3 -> proposals_evolve d1 d3.
Proof.
  intros [W2 T2 P2 A2 [l2 C2]] [W3 T3 P3 A3 [l3 C3]]. split; [done| | | |].
  - clear -T2 T3. destruct d1, d2, d3; unfold set_chain, set_approvals, set_proposals in *; cbn in *.
    injection T2; injection T3; intros; subst. reflexivity.
  - intros k p E. apply P2 in E as (p2 & E2 & K2). apply P3 in E2 as (p3 & E3 & K3).
    exists p3. split; [done|]. by eapply proposal_keeps_trans.
  - intros k p a E Hn. rewrite <- (A2 k p a E Hn). destruct (P2 _ _ E) as (p2 & E2 & K2).
    apply (A3 k p2); [done|]. by rewrite (pk_settled _ _ K2 Hn).
  - exists (l2 ++ l3). by rewrite C3, C2, app_assoc.
Qed.

(** A request outside the tables. *)
Lemma evolve_only_chain d d' : proposals_wf d -> only_chain d d' -> proposals_evolve d d'.
Proof.
  intros [] [l ->]. split; [by split | by destruct d | | done | by exists l].
  intros k p E. exists p. split; [done|apply proposal_keeps_refl].
Qed.

(** The row of a pending proposal rewritten. *)
Lemma evolve_proposal d id p f :
  proposals_wf d -> proposals d !! id = Some p -> pending p -> proposal_keeps p (f p) ->
  proposals_evolve d (set_proposals (alter f id (proposals d)) d).
Proof.
  intros [] E Hp K.
  assert (forall k q, proposals d !! k = Some q ->
    exists q', alter f id (proposals d) !! k = Some q' /\ proposal_keeps q q') as Halter.
  { intros k q Eq. destruct (decide (k = id)) as [->|].
    - assert (q = p) as -> by congruence. exists (f p). rewrite lookup_alter, E. by rewrite decide_True.
    - exists q. rewrite lookup_alter_ne by congruence. split; [done|apply proposal_keeps_refl]. }
  split; [split; cbn; try done | by destruct d | exact Halter | done | exists []; cbn; by rewrite app_nil_r].
  - intros k q. rewrite lookup_alter_Some. intros [(-> & q0 & Eq & ->)|[_ Eq]]; [|by eapply pw_key0].
    assert (q0 = p) as -> by congruence. rewrite (pk_id _ _ K). by apply pw_key0.
  - intros k a Ea. destruct (pw_member0 _ _ Ea) as (q & m & Eq & Em & Eacc).
    destruct (Halter _ _ Eq) as (q' & Eq' & K'). exists q', m. split_and!; auto.
    by rewrite (pk_account _ _ K').
Qed.

(** The approvals of a pending proposal changed. *)
Lemma evolve_approvals d id p t :
  proposals_wf d -> proposals d !! id = Some p -> pending p ->
  (forall k a, t !! k = Some a -> mv_ID a = k) ->
  (forall k1 k2 a1 a2, t !! k1 = Some a1 -> t !! k2 = Some a2 ->
     mv_ProposalID a1 = mv_ProposalID a2 -> mv_MemberID a1 = mv_MemberID a2 -> k1 = k2) ->
  (forall k a, t !! k = Some a -> mv_ProposalID a = id ->
     exists m, members d !! mv_MemberID a = Some m /\ mm_MultisigAccountID m = mp_MultisigAccountID p) ->
  (forall k a, mv_ProposalID a <> id -> t !! k = Some a <-> approvals d !! k = Some a) ->
  proposals_evolve d (set_approvals t d).
Proof.
  intros [] E Hp Hkey Huniq Hmem Hother.
  split; [split; cbn; try done | by destruct d | | | exists []; cbn; by rewrite app_nil_r].
  - intros k a Ea. destruct (decide (mv_ProposalID a = id)) as [Eid|Hne].
    + destruct (Hmem _ _ Ea Eid) as (m & Em & Eacc). exists p, m. rewrite Eid. auto.
    + apply (pw_member0 k). by apply Hother.
  - intros k q Eq. exists q. split; [done|apply proposal_keeps_refl].
  - intros k q a Eq Hn. cbn. apply Hother. intros Eid. rewrite Eid in Eq. congruence.
Qed.

(** Rows rewritten in place, with their identity. *)
Lemma evolve_approvals_update d id p (P : MultisigApprovalRow -> bool) f :
  proposals_wf d -> proposals d !! id = Some p -> pending p ->
  (forall a, P a = true -> mv_ProposalID a = id) ->
  (forall a, (mv_ID (f a), mv_ProposalID (f a), mv_MemberID (f a)) = (mv_ID a, mv_ProposalID a, mv_MemberID a)) ->
  proposals_evolve d (set_approvals (update_where P f (approvals d)) d).
Proof.
  intros Hwf E Hp HP Hf. pose proof Hwf as [].
  assert (forall k b, update_where P f (approvals d) !! k = Some b -> exists a, approvals d !! k = Some a /\
    mv_ID b = mv_ID a /\ mv_ProposalID b = mv_ProposalID a /\ mv_MemberID b = mv_MemberID a /\
    (mv_ProposalID b <> id -> b = a)) as Hb.
  { intros k b. rewrite lookup_update_where. intros (a & Ea & ->)%fmap_Some. exists a.
    specialize (Hf a). specialize (HP a). destruct (P a); [|by split_and!].
    injection Hf as -> -> ->. split_and!; auto. intros Hne. by rewrite HP in Hne. }
  eapply evolve_approvals; try done.
  - intros k b (a & Ea & -> & _)%Hb. by apply pw_approval_key0.
  - intros k1 k2 b1 b2 (a1 & Ea1 & _ & -> & -> & _)%Hb (a2 & Ea2 & _ & -> & -> & _)%Hb. by eapply pw_unique0.
  - intros k b (a & Ea & _ & -> & -> & _)%Hb <-. destruct (pw_member0 _ _ Ea) as (q & m & Eq & Em & ?).
    exists m. split; [done|]. congruence.
  - intros k b Hne. split.
    + intros (a & Ea & _ & _ & _ & Hba)%Hb. by rewrite Hba.
    + intros Ea. rewrite lookup_update_where, Ea. cbn. destruct (P b) eqn:EP; [|done]. by apply HP in EP.
Qed.

Lemma evolve_approvals_delete d id p :
  proposals_wf d -> proposals d !! id = Some p -> pending p ->
  proposals_evolve d (set_approvals (delete_where (for_proposal id) (approvals d)) d).
Proof.
  intros Hwf E Hp. pose proof Hwf as [].
  eapply evolve_approvals; try done.
  - intros k a [Ea _]%lookup_delete_where. by apply pw_approval_key0.
  - intros k1 k2 a1 a2 [E1 _]%lookup_delete_where [E2 _]%lookup_delete_where. by apply pw_unique0.
  - intros k a [_ Hn]%lookup_delete_where Eid. unfold for_proposal in Hn. by rewrite bool_decide_eq_false in Hn.
  - intros k a Hne. rewrite lookup_delete_where. unfold for_proposal. rewrite bool_decide_eq_false. tauto.
Qed.

Lemma evolve_upsert d id p merge row i d' m :
  proposals_wf d -> proposals d !! id = Some p -> pending p ->
  mv_ProposalID row = id -> members d !! mv_MemberID row = Some m ->
  mm_MultisigAccountID m = mp_MultisigAccountID p ->
  (forall o, (mv_ID (merge o), mv_ProposalID (merge o), mv_MemberID (merge o)) =
             (mv_ID o, mv_ProposalID o, mv_MemberID o)) ->
  upsert_approval merge row d = Ok (i, d') -> proposals_evolve d d'.
Proof.
  intros Hwf E Hp Hid Hm Hacc Hmerge. pose proof Hwf as []. unfold upsert_approval.
  destruct (select_one _ _) as [old|e] eqn:Es.
  - intros [= <- <-]. apply select_one_ok in Es as [Hs [k Ek]].
    assert (mv_ID old = k) as -> by (by apply pw_approval_key0).
    unfold for_proposal_member in Hs. apply andb_prop in Hs as [Hs1 Hs2].
    apply bool_decide_eq_true in Hs1, Hs2. specialize (Hmerge old). injection Hmerge as M1 M2 M3.
    assert (forall k' b, <[k:=merge old]> (approvals d) !! k' = Some b -> exists a, approvals d !! k' = Some a /\
      mv_ID b = mv_ID a /\ mv_ProposalID b = mv_ProposalID a /\ mv_MemberID b = mv_MemberID a /\
      (mv_ProposalID b <> id -> b = a)) as Hb.
    { intros k' b. rewrite lookup_insert_Some. intros [[-> <-]|[_ Eb]]; [|by exists b].
      exists old. split_and!; auto. intros Hne. by rewrite M2, Hs1, Hid in Hne. }
    eapply evolve_approvals; try done.
    + intros k' b (a & Ea & -> & _)%Hb. by apply pw_approval_key0.
    + intros k1 k2 b1 b2 (a1 & Ea1 & _ & -> & -> & _)%Hb (a2 & Ea2 & _ & -> & -> & _)%Hb. by eapply pw_unique0.
    + intros k' b (a & Ea & _ & -> & -> & _)%Hb Eid. destruct (pw_member0 _ _ Ea) as (q & m' & Eq & Em & ?).
      exists m'. split; [done|]. congruence.
    + intros k' b Hne. split.
      * intros (a & Ea & _ & _ & _ & Hba)%Hb. by rewrite Hba.
      * intros Ea. rewrite lookup_insert_ne; [done|]. intros <-. congruence.
  - unfold present. destruct (approvals d !! mv_ID row) eqn:Enew; [done|].
    destruct (approval_fks row d); [|done]. cbn. intros [= <- <-].
    assert (forall k a, approvals d !! k = Some a -> mv_ProposalID a = id -> mv_MemberID a <> mv_MemberID row) as Hfree.
    { intros k a Ea Eid Emid. unfold select_one in Es.
      destruct (select _ _) eqn:Esel; [|done].
      assert (a ∈ select (for_proposal_member (mv_ProposalID row) (mv_MemberID row)) (approvals d)) as Hin.
      { apply elem_of_select. split; [|eauto]. unfold for_proposal_member.
        rewrite Emid, Eid, Hid. by rewrite !bool_decide_eq_true_2. }
      rewrite Esel in Hin. by apply not_elem_of_nil in Hin. }
    eapply evolve_approvals; try done.
    + intros k a. rewrite lookup_insert_Some. intros [[<- <-]|[_ Ea]]; [done|]. by apply pw_approval_key0.
    + intros k1 k2 a1 a2. rewrite !lookup_insert_Some.
      intros [[<- <-]|[N1 E1]] [[<- <-]|[N2 E2]] P1 P2; [done| | |by eapply pw_unique0].
      * exfalso. eapply (Hfree k2 a2); [done|congruence|congruence].
      * exfalso. eapply (Hfree k1 a1); [done|congruence|congruence].
    + intros k a. rewrite lookup_insert_Some. intros [[<- <-]|[_ Ea]] Eid; [eauto|].
      destruct (pw_member0 _ _ Ea) as (q & m' & Eq & Em & ?). exists m'. split; [done|]. congruence.
    + intros k a Hne. rewrite lookup_insert_Some. split.
      * intros [[_ <-]|[_ ?]]; [by rewrite Hid in Hne | done].
      * intros Ea. right. split; [|done]. intros <-. congruence.
Qed.

(** ** What each request does to the tables *)
Section Ops.
Context `{StellarSDK} `{Network} `{Unicode} `{UuidLib} `{Env} `{!TransactionSubmitter} `{ServiceConfig}
  `{Json sacTransferOperationParams} `{Json (list string)} {J : Type} `{Json J}.
Abbreviation W := (World Store).

Lemma keeps_isAuthExpired v : keeps (on_store eq) (isAuthExpired v : M W bool).
Proof using H0 H3. unfold isAuthExpired. keeps. Qed.
Lemma keeps_simulateAndExtract s op : keeps (on_store eq) (simulateAndExtract s op).
Proof using H H0 H3 H5. unfold simulateAndExtract. keeps. Qed.
Lemma keeps_buildOperation inp catalog : keeps (on_store eq) (buildOperation inp catalog).
Proof using H H0 H1 H3 H5 H6. unfold buildOperation, buildSacTransferOperation. keeps. Qed.
Hint Resolve keeps_isAuthExpired keeps_simulateAndExtract keeps_buildOperation : keeps.

(** The proposal's authorization outlives the latest ledger by the margin. *)
Definition fresh (p : MultisigProposal) : Prop :=
  exists n latest, rpc_latest_ledger n = Ok latest /\
    uint32 latest + multisigExpirySafetyLedgers < uint32 (mp_ValidUntilLedger p).

Lemma uint32_range z : is_uint32 (uint32 z).
Proof using Type. apply Z.mod_pos_bound. lia. Qed.
Lemma uint32_id z : is_uint32 z -> uint32 z = z.
Proof using Type. apply Z.mod_small. Qed.

(** The network has reached the margin before the authorization's last ledger. *)
Definition expired (p : MultisigProposal) : Prop :=
  exists n latest, rpc_latest_ledger n = Ok latest /\
    uint32 (mp_ValidUntilLedger p) <= uint32 latest + multisigExpirySafetyLedgers.

Lemma isAuthExpired_run v latest (w : W) :
  is_uint32 v -> rpc_latest_ledger (w_io w) = Ok latest ->
  isAuthExpired v w = (Ok (v <=? uint32 latest + multisigExpirySafetyLedgers), tick w).
Proof.
  unfold isAuthExpired, multisigExpirySafetyLedgers, bind, wrap, call. intros Hv ->.
  pose proof (uint32_range latest) as Hx. unfold is_uint32 in *.
  destruct (Z.ltb_spec v 25); unfold ret; do 2 f_equal; symmetry.
  - apply Z.leb_le. lia.
  - rewrite (uint32_id (v - 25)) by (unfold is_uint32; lia).
    destruct (Z.leb_spec (v - 25) (uint32 latest)); [apply Z.leb_le|apply Z.leb_gt]; lia.
Qed.

Lemma isAuthExpired_ok v (w w' : W) b :
  is_uint32 v -> isAuthExpired v w = (Ok b, w') ->
  exists latest, rpc_latest_ledger (w_io w) = Ok latest /\
    b = (v <=? uint32 latest + multisigExpirySafetyLedgers).
Proof.
  intros Hv Hr. destruct (rpc_latest_ledger (w_io w)) as [latest|e] eqn:E.
  - rewrite (isAuthExpired_run v latest w Hv E) in Hr. injection Hr as <- _. eauto.
  - unfold isAuthExpired, bind, wrap, call in Hr. by rewrite E in Hr.
Qed.

Lemma ensureFresh_ok p a (w w' : W) p' :
  ensureFresh p a w = (Ok p', w') -> p' = p /\ w_store w' = w_store w /\ fresh p.
Proof.
  unfold ensureFresh. intros Hr. apply bind_ok in Hr as (b & w1 & Hb & Hr).
  pose proof (keeps_run _ _ _ _ _ (keeps_isAuthExpired _) Hb) as S1. unfold on_store in S1.
  apply isAuthExpired_ok in Hb as (latest & Hl & ->); [|apply uint32_range].
  destruct (Z.leb_spec (uint32 (mp_ValidUntilLedger p)) (uint32 latest + multisigExpirySafetyLedgers));
    cbn in Hr; run_inv.
  split; [done|]. split; [done|]. exists (w_io w), latest. done.
Qed.

Section From.
Context (d : Store) (Hwf : proposals_wf d).
Abbreviation ok := (proposals_evolve d).

Lemma evolve_refl : ok d.
Proof using Hwf. by apply proposals_evolve_refl. Qed.
Hint Resolve evolve_refl : core.

Lemma ends_request_reads {A} (m : M W A) : keeps (on_store eq) m -> ends d m ok.
Proof using Hwf. intros Hk. eapply ends_keeps; [exact Hk|]. by intros ? <-. Qed.

(** Every request on a proposal starts by reading it. *)
Lemma ends_owned {A} pid uid (k : MultisigProposal * MultisigAccount -> M W A) P : P d ->
  (forall id p a, owned d pid uid id p a -> mp_ID p = id -> ma_ID a = mp_MultisigAccountID p -> ends d (k (p, a)) P) ->
  ends d (bind (getOwnedProposal pid uid) k) P.
Proof using Hwf.
  intros HP Hk. apply ends_read; [keeps|done|]. intros [p a] w w' Hw Hr.
  apply getOwnedProposal_ok in Hr as [_ [id Ho]]. rewrite Hw in Ho. pose proof Ho as [].
  apply (Hk id); [done| |]; destruct Hwf; auto.
Qed.

Lemma keeps_ends {A} (m : M W A) d1 : ok d1 -> keeps (on_store eq) m -> ends d1 m ok.
Proof using Type. intros Hok Hk. eapply ends_keeps; [exact Hk|]. by intros ? <-. Qed.

Lemma ends_rebuildProposal id p a :
  proposals d !! id = Some p -> mp_ID p = id -> pending p -> ends d (rebuildProposal p a) ok.
Proof using Hwf.
  intros Ep Eid Hp. unfold rebuildProposal.
  apply ends_read; [keeps|done|]. intros op ? ? _ _.
  apply ends_read; [keeps|done|]. intros [artifacts disc] ? ? _ _.
  apply ends_read; [keeps|done|]. intros js ? ? _ _.
  apply ends_exec; [done|]. intros [] d1 [= <-].
  assert (ok (set_approvals (delete_where (for_proposal (mp_ID p)) (approvals d)) d)) as Ev1
    by (rewrite Eid; by eapply evolve_approvals_delete).
  apply ends_last; [done| |intros; keeps]. intros [] d2 [= <-]. rewrite Eid in *.
  eapply proposals_evolve_trans; [exact Ev1|].
  eapply (evolve_proposal (set_approvals _ d)); [exact (pe_wf _ _ Ev1)|exact Ep|done|]. split; cbn; auto. by intros Hn.
Qed.

Lemma ends_ensureFresh {A} id p a (k : MultisigProposal -> M W A) :
  proposals d !! id = Some p -> mp_ID p = id -> pending p ->
  (fresh p -> ends d (k p) ok) -> ends d (bind (ensureFresh p a) k) ok.
Proof using Hwf.
  intros Ep Eid Hp Hk. apply ends_bind.
  - intros w p' w' Hw Hr. apply ensureFresh_ok in Hr as (-> & -> & Hf). rewrite Hw. by apply Hk.
  - intros w e w' Hw Hr. revert Hw Hr. apply ends_run. unfold ensureFresh.
    apply ends_read; [keeps|done|]. intros [] ? ? _ _; cbn; [|by apply ends_ret].
    apply ends_bind; intros w1 ? w1' Hw Hr.
    + apply ends_throw. eapply ends_run; [by eapply ends_rebuildProposal|exact Hw|exact Hr].
    + eapply ends_run; [by eapply ends_rebuildProposal|exact Hw|exact Hr].
Qed.

Lemma ends_pending {A} (p : MultisigProposal) (m : M W A) (P : Store -> Prop) : P d ->
  (pending p -> ends d m P) ->
  ends d (if negb (String.eqb (mp_Status p) "pending") then throw ErrMultisigProposalNotPending else m) P.
Proof using Type.
  intros HP Hm. destruct (String.eqb_spec (mp_Status p) "pending"); cbn; [by apply Hm|by apply ends_throw].
Qed.

Lemma ends_member {A} a uid mid ty (k : MultisigMember -> M W A) (P : Store -> Prop) : P d ->
  (forall m, members d !! mm_ID m = Some m -> mm_MultisigAccountID m = ma_ID a -> may_approve a m uid ->
     uuid_parse mid = Some (mm_ID m) -> mm_MemberType m = ty -> ends d (k m) P) ->
  ends d (bind (getOwnedMember a uid mid ty) k) P.
Proof using Hwf.
  intros HP Hk. apply ends_read; [keeps|done|]. intros m w w' Hw Hr.
  apply getOwnedMember_ok in Hr as [_ (id & Hid & Hm & Hacc & Hty & Hmay)]. rewrite Hw in Hm.
  pose proof (pw_member_key _ Hwf _ _ Hm) as <-. by apply Hk.
Qed.

Lemma ends_RefreshProposal uid pid : ends d (RefreshProposal uid pid) ok.
Proof using Hwf.
  unfold RefreshProposal. apply ends_owned; [done|]. intros id p a [] Hid _.
  apply ends_pending; [done|]. intros Hp. by eapply ends_rebuildProposal.
Qed.

(** The last statement writes an approval of a pending proposal. *)
Lemma ends_upsert {A} id p a m c f row merge (k : uuid -> M W A) :
  (forall d, f d = upsert_approval merge row d) ->
  proposals d !! id = Some p -> mp_ID p = id -> ma_ID a = mp_MultisigAccountID p -> pending p ->
  members d !! mm_ID m = Some m -> mm_MultisigAccountID m = ma_ID a ->
  mv_ProposalID row = mp_ID p -> mv_MemberID row = mm_ID m ->
  (forall o, (mv_ID (merge o), mv_ProposalID (merge o), mv_MemberID (merge o)) =
             (mv_ID o, mv_ProposalID o, mv_MemberID o)) ->
  (forall i, keeps (on_store eq) (k i)) ->
  ends d (bind (wrap c (exec f)) k) ok.
Proof using Hwf.
  intros Hf Ep Eid Ea Hp Em Hacc Hr1 Hr2 Hmerge Hk. apply ends_last; [done| |done].
  intros i d' Hd. rewrite Hf in Hd. eapply evolve_upsert; try done.
  - by rewrite Hr1.
  - by rewrite Hr2.
  - congruence.
Qed.

Lemma ends_ApproveWebauthn uid pid mid s : ends d (ApproveWebauthn uid pid mid s) ok.
Proof using Hwf.
  unfold ApproveWebauthn. apply ends_owned; [done|]. intros id p a [] Hid Hacc.
  apply ends_pending; [done|]. intros Hp. apply ends_member; [done|]. intros m Hm Hma _ _ _.
  apply ends_read; [keeps|done|]. intros i ? ? _ _. apply ends_read; [keeps|done|]. intros now ? ? _ _.
  eapply ends_upsert; [reflexivity|done..|intros; keeps].
Qed.

Lemma ends_ApproveDelegatedBegin uid pid mid : ends d (ApproveDelegatedBegin uid pid mid) ok.
Proof using Hwf.
  unfold ApproveDelegatedBegin. apply ends_owned; [done|]. intros id p a [] Hid Hacc.
  apply ends_pending; [done|]. intros Hp. eapply ends_ensureFresh; [done..|]. intros _.
  apply ends_member; [done|]. intros m Hm Hma _ _ _. destruct (String.eqb _ ""); [by apply ends_throw|].
  apply ends_read; [keeps|done|]. intros b64s ? ? _ _. apply ends_read; [keeps|done|]. intros es ? ? _ _.
  destruct (if _ : bool then _ else _); [|by apply ends_throw].
  apply ends_read; [unfold buildDelegatedCheckAuthTemplate, buildUnsignedDelegatedGCheckAuthEntry; keeps|done|].
  intros tmpl ? ? _ _. apply ends_read; [keeps|done|]. intros i ? ? _ _.
  apply ends_read; [keeps|done|]. intros now ? ? _ _.
  eapply ends_upsert; [reflexivity|done..|intros; keeps].
Qed.

Lemma ends_ApproveDelegatedFinish uid pid mid s g : ends d (ApproveDelegatedFinish uid pid mid s g) ok.
Proof using Hwf.
  unfold ApproveDelegatedFinish. apply ends_owned; [done|]. intros id p a [] Hid Hacc.
  apply ends_pending; [done|]. intros Hp. apply ends_member; [done|]. intros m Hm Hma _ _ _.
  apply ends_read; [keeps|done|]. intros ex ? ? _ _. destruct (String.eqb _ ""); [by apply ends_throw|].
  apply ends_read; [keeps|done|]. intros [] ? ? _ _.
  apply ends_last; [done| |intros; keeps]. intros [] d' [= <-].
  eapply evolve_approvals_update; [done..| |done]. intros b Hb. unfold for_proposal_member in Hb.
  apply andb_prop in Hb as [Hb _]. apply bool_decide_eq_true in Hb. congruence.
Qed.

Lemma evolve_insert id row i d' :
  mp_ID row = id -> InsertMultisigProposal row d = Ok (i, d') -> ok d'.
Proof using Hwf.
  intros Hid. unfold InsertMultisigProposal, present. destruct (proposals d !! mp_ID row) as [q|] eqn:En; [done|].
  destruct (accounts d !! _); [|done]. destruct (users d !! _); [|done]. cbn. intros [= _ <-].
  destruct Hwf. split; [split; cbn; try done| by destruct d | | done | exists []; cbn; by rewrite app_nil_r].
  - intros k p. rewrite lookup_insert_Some. intros [[<- <-]|[_ E]]; [done|by apply pw_key0].
  - intros k a Ea. destruct (pw_member0 _ _ Ea) as (p & m' & Ep & Em & ?). exists p, m'.
    split_and!; [|done..]. rewrite lookup_insert_ne; [done|]. intros E. congruence.
  - intros k p E. exists p. split; [|apply proposal_keeps_refl]. cbn. rewrite lookup_insert_ne; [done|].
    intros E'. congruence.
Qed.

Lemma ends_CreateProposal uid inp catalog : ends d (CreateProposal uid inp catalog) ok.
Proof using H1 Hwf.
  unfold CreateProposal. apply ends_read; [keeps|done|]. intros a ? ? _ _.
  apply ends_read; [keeps|done|]. intros op ? ? _ _.
  apply ends_read; [keeps|done|]. intros [artifacts disc] ? ? _ _.
  destruct (_ && _); [by apply ends_throw|].
  do 4 (apply ends_read; [keeps|done|]; intros ? ? ? _ _).
  apply ends_last; [done| |intros; keeps]. intros i d' Hi. by eapply evolve_insert.
Qed.

Lemma keeps_SubmitAuthEntries tx es : keeps (on_store only_chain) (SubmitAuthEntries tx es).
Proof using Type. apply SubmitAuthEntries_store. Qed.

Lemma ends_ExecuteProposal uid pid : ends d (ExecuteProposal uid pid) ok.
Proof using Hwf.
  unfold ExecuteProposal. apply ends_owned; [done|]. intros id p a [] Hid Hacc.
  apply ends_pending; [done|]. intros Hp. eapply ends_ensureFresh; [done..|]. intros _.
  apply ends_read; [keeps|done|]. intros rows ? ? _ _. destruct (classify rows) as [ws ds].
  destruct (_ <? _); [by apply ends_throw|].
  destruct (pickApprovalsForThreshold _ _ _) as [[pw pd]|]; [|by apply ends_throw].
  do 3 (apply ends_read; [keeps|done|]; intros ? ? ? _ _).
  assert (forall d1, only_chain d d1 -> ok d1) as Hsent by (intros; by apply evolve_only_chain).
  eapply ends_step; [apply keeps_SubmitAuthEntries|done|].
  intros result d1 Hd1. apply ends_last; [by apply Hsent| |intros; keeps]. intros [] d2 [= <-].
  eapply proposals_evolve_trans; [by apply Hsent|]. destruct Hd1 as [l ->]. rewrite Hid.
  eapply (evolve_proposal (set_chain _ d)); [by eapply pe_wf, Hsent; exists l|exact ow_proposal0|done|].
  split; cbn; auto. by intros Hn.
Qed.
End From.
End Ops.
#[export] Hint Resolve keeps_isAuthExpired keeps_simulateAndExtract keeps_buildOperation : keeps.

(** ** The proposal state machine *)
Section Machine.
Context `{StellarSDK} `{Network} `{Unicode} `{UuidLib} `{Env} `{!TransactionSubmitter} `{ServiceConfig}
  `{Json sacTransferOperationParams} `{Json (list string)} {J : Type} `{Json J}.
Abbreviation W := (World Store).

Inductive proposal_op :=
  | OpCreate (userID : string) (inp : CreateProposalInput) (catalog : list CatalogAsset)
  | OpList (userID smartAccountAddress : string)
  | OpGet (userID proposalID : string)
  | OpRefresh (userID proposalID : string)
  | OpWebauthn (userID proposalID memberID sigDataXdrHex : string)
  | OpBegin (userID proposalID memberID : string)
  | OpFinish (userID proposalID memberID signedAuthEntryBase64 signerAddress : string)
  | OpExecute (userID proposalID : string).

(** One request, whatever its outcome: the world it leaves. *)
Definition run_op (op : proposal_op) (w : W) : W :=
  match op with
  | OpCreate u i c => snd (CreateProposal u i c w)
  | OpList u s => snd (ListProposals (J := J) u s w)
  | OpGet u p => snd (GetProposal (J := J) u p w)
  | OpRefresh u p => snd (RefreshProposal u p w)
  | OpWebauthn u p m s => snd (ApproveWebauthn u p m s w)
  | OpBegin u p m => snd (ApproveDelegatedBegin u p m w)
  | OpFinish u p m s g => snd (ApproveDelegatedFinish u p m s g w)
  | OpExecute u p => snd (ExecuteProposal u p w)
  end.
Inductive proposal_step : Store -> Store -> Prop :=
  | proposal_step_op op w : proposal_step (w_store w) (w_store (run_op op w)).
Definition run_ops (ops : list proposal_op) (w : W) : W := foldl (fun w op => run_op op w) w ops.

Lemma run_requests_steps ops w : rtc proposal_step (w_store w) (w_store (run_ops ops w)).
Proof using Type.
  revert w. induction ops as [|op ops IH]; intros w; cbn; [done|].
  eapply rtc_l; [apply (proposal_step_op op)|apply IH].
Qed.

Lemma keeps_ListProposals u s : keeps (on_store eq) (ListProposals (J := J) u s).
Proof using H2 H3 H8. unfold ListProposals. keeps. Qed.
Lemma keeps_GetProposal u p : keeps (on_store eq) (GetProposal (J := J) u p).
Proof using H2 H3 H7 H8. unfold GetProposal. keeps. Qed.

Lemma proposal_step_evolve d d' : proposals_wf d -> proposal_step d d' -> proposals_evolve d d'.
Proof using Type.
  intros Hwf Hs. revert Hwf. destruct Hs as [op w]. intros Hwf. destruct op; cbn.
  - by apply (ends_CreateProposal _ Hwf).
  - apply (ends_request_reads _ Hwf); [apply keeps_ListProposals|done].
  - apply (ends_request_reads _ Hwf); [apply keeps_GetProposal|done].
  - by apply (ends_RefreshProposal _ Hwf).
  - by apply (ends_ApproveWebauthn _ Hwf).
  - by apply (ends_ApproveDelegatedBegin _ Hwf).
  - by apply (ends_ApproveDelegatedFinish _ Hwf).
  - by apply (ends_ExecuteProposal _ Hwf).
Qed.

Lemma proposal_steps_evolve d d' : proposals_wf d -> rtc proposal_step d d' -> proposals_evolve d d'.
Proof using Type.
  intros Hwf Hs. revert Hwf. induction Hs as [d|d d1 d' Hstep _ IH]; intros Hwf.
  - by apply proposals_evolve_refl.
  - pose proof (proposal_step_evolve _ _ Hwf Hstep) as Hev.
    eapply proposals_evolve_trans; [exact Hev|]. apply IH, Hev.
Qed.

(** C3. Whatever sequence of requests the proposal service serves, failures
    included: each member has at most one approval per proposal, every approval
    is by a member of the proposal's account; accounts and members are left as
    they were; a proposal keeps its account, creator and operation, its status
    only moves to executed, and once it is no longer pending neither it nor its
    approvals change. *)
Theorem proposals_invariant d d' :
  proposals_wf d -> rtc proposal_step d d' ->
  proposals_wf d' /\ accounts d' = accounts d /\ members d' = members d /\
  (forall k p, proposals d !! k = Some p -> exists p', proposals d' !! k = Some p' /\ proposal_keeps p p') /\
  (forall k p a, proposals d !! mv_ProposalID a = Some p -> ~ pending p ->
     approvals d' !! k = Some a <-> approvals d !! k = Some a).
Proof.
  intros Hwf Hs. destruct (proposal_steps_evolve _ _ Hwf Hs) as [Hwf' HT HP HA _].
  assert (accounts d' = accounts d /\ members d' = members d) as [-> ->].
  { split; [exact (f_equal accounts HT)|exact (f_equal members HT)]. }
  split_and!; done.
Qed.

(** ** Access *)
Definition denied {A} (m : M W A) (w : W) : Prop :=
  exists e w', m w = (Err e, w') /\ hidden e /\ w_store w' = w_store w.

Lemma denied_bind {A B} (m : M W A) (k : A -> M W B) w : denied m w -> denied (bind m k) w.
Proof using Type. intros (e & w' & E & Hh & S0). exists e, w'. split; [|done]. unfold bind. by rewrite E. Qed.

(** A caller who is neither the creator nor a linked member of a proposal's
    account gets the same answer as for a proposal that does not exist, from
    every operation on it, and nothing is written or sent. *)
Theorem stranger_denied uid pid w :
  (forall id p a, ~ owned (w_store w) pid uid id p a) ->
  denied (GetProposal (J := J) uid pid) w /\ denied (RefreshProposal uid pid) w /\
  (forall mid s, denied (ApproveWebauthn uid pid mid s) w) /\
  (forall mid, denied (ApproveDelegatedBegin uid pid mid) w) /\
  (forall mid s g, denied (ApproveDelegatedFinish uid pid mid s g) w) /\
  denied (ExecuteProposal uid pid) w.
Proof.
  intros Hno. assert (denied (getOwnedProposal pid uid) w) as Hd by (by apply getOwnedProposal_denied).
  split_and!; intros; by apply denied_bind.
Qed.
End Machine.

(** ** Which approvals an execution uses *)
Section Picked.
Context `{UuidLib}.

(** A usable approval on record: by a member of the proposal's account. *)
Definition on_record (d : Store) (p : MultisigProposal)
    (usable : MultisigApprovalRow * MultisigMember -> bool) (a : MultisigApproval) : Prop :=
  exists k row m, approvals d !! k = Some row /\ mv_ProposalID row = mp_ID p /\
    members d !! mv_MemberID row = Some m /\ mm_MultisigAccountID m = mp_MultisigAccountID p /\
    usable (row, m) = true /\ a = approval_of_row (row, m).

Lemma classify_filter rows :
  classify rows = (approval_of_row <$> List.filter usable_webauthn rows,
                   approval_of_row <$> List.filter usable_delegated rows).
Proof.
  assert (forall r, usable_webauthn r = true -> usable_delegated r = false) as Hex.
  { intros r. unfold usable_webauthn, usable_delegated.
    by destruct (String.eqb_spec (mv_ApprovalType r.1) "webauthn") as [->|]. }
  induction rows as [|r rows IH]; [done|]. cbn. rewrite IH. specialize (Hex r).
  destruct (usable_webauthn r); [by rewrite Hex by done|]. by destruct (usable_delegated r).
Qed.

Lemma elem_of_approvals_with_member pid d r m :
  (r, m) ∈ approvals_with_member pid d ->
  mv_ProposalID r = pid /\ (exists k, approvals d !! k = Some r) /\ members d !! mv_MemberID r = Some m.
Proof.
  unfold approvals_with_member, join_member. intros (r' & Hr & Hm)%list_elem_of_omap.
  apply elem_of_order_by, elem_of_select in Hr as [Hp Hk]. apply bool_decide_eq_true in Hp.
  destruct (members d !! mv_MemberID r') eqn:E; [|done]. cbn in Hm. simplify_eq. done.
Qed.

Lemma NoDup_map_inj {A B} (f : A -> B) (l : list A) :
  NoDup l -> (forall x y, x ∈ l -> y ∈ l -> f x = f y -> x = y) -> NoDup (f <$> l).
Proof.
  induction 1 as [|x l Hx Hl IH]; intros Hf; cbn; constructor.
  - intros (y & E & Hy)%list_elem_of_fmap. apply Hf in E as ->; [done|left|by right].
  - apply IH. intros y z Hy Hz. apply Hf; by right.
Qed.

Lemma select_NoDup {R} (P : R -> bool) (t : gmap uuid R) (key : R -> uuid) :
  (forall k r, t !! k = Some r -> key r = k) -> NoDup (select P t).
Proof. intros Hk. by eapply NoDup_fmap_1, (NoDup_select_key key). Qed.

Lemma omap_NoDup {A B} (f : A -> option B) (g : B -> A) l :
  (forall a b, f a = Some b -> g b = a) -> NoDup l -> NoDup (omap f l).
Proof.
  intros Hg. induction 1 as [|x l Hx Hl IH]; cbn; [constructor|].
  destruct (f x) as [b|] eqn:E; [|done]. constructor; [|done].
  intros (y & Hy & Ey)%list_elem_of_omap. apply Hg in Ey, E. congruence.
Qed.

(** The members of the joined rows are pairwise distinct. *)
Lemma approvals_distinct d pid :
  proposals_wf d -> NoDup ((fun row => uuid_string (mv_MemberID row.1)) <$> approvals_with_member pid d).
Proof.
  intros Hwf. apply NoDup_map_inj.
  - apply (omap_NoDup _ fst).
    + unfold join_member. intros a b. destruct (members d !! _); cbn; by intros [= <-].
    + rewrite order_by_perm. apply (select_NoDup _ _ mv_ID), Hwf.
  - intros [r1 m1] [r2 m2] (P1 & [k1 E1] & M1)%elem_of_approvals_with_member
      (P2 & [k2 E2] & M2)%elem_of_approvals_with_member E. cbn in E. apply uuid_string_inj in E.
    assert (k1 = k2) as -> by (eapply (pw_unique _ Hwf); [done|done|congruence|done]).
    simplify_eq. congruence.
Qed.

Lemma NoDup_two_filters {A B} (f : A -> B) (p q : A -> bool) l :
  (forall a, p a = true -> q a = false) -> NoDup (f <$> l) ->
  NoDup ((f <$> List.filter p l) ++ (f <$> List.filter q l)).
Proof.
  intros Hpq. rewrite <- fmap_app. intros Hn.
  assert (List.filter p l ++ List.filter q l ⊆+ l) as Hs.
  { clear Hn. induction l as [|a l IH]; cbn; [done|]. specialize (Hpq a).
    destruct (p a); cbn.
    - rewrite Hpq by done. by apply submseteq_skip.
    - destruct (q a); [|by apply submseteq_cons]. rewrite <- Permutation_middle. by apply submseteq_skip. }
  apply submseteq_Permutation in Hs as [k Hk]. rewrite Hk, fmap_app in Hn. apply NoDup_app in Hn as [Hn _]. exact Hn.
Qed.

Lemma pick_eq threshold ws ds pw pd :
  pickApprovalsForThreshold threshold ws ds = Some (pw, pd) ->
  0 <= threshold /\ pw = firstn (Z.to_nat threshold) ws /\
  pd = firstn (Z.to_nat threshold - length pw) ds.
Proof.
  unfold pickApprovalsForThreshold. destruct (Z.ltb_spec threshold 0) as [Hneg|Hge].
  { unfold take_at_most. destruct (Z.ltb_spec threshold (Z.of_nat (length ws))); [|lia].
    by destruct (Z.ltb_spec threshold 0); [|lia]. }
  rewrite take_at_most_ok by done. set (pw0 := firstn _ ws).
  destruct (Z.ltb_spec 0 (threshold - Z.of_nat (length pw0))) as [Hr|Hr].
  - rewrite take_at_most_ok by lia. intros [= <- <-]. split_and!; [done..|]. f_equal. lia.
  - intros [= <- <-]. split_and!; [done..|]. by replace (_ - _)%nat with 0%nat by lia.
Qed.

(** Enough usable approvals were there and the pick succeeded: exactly
    [threshold] approvals on record, each by another member. *)
Lemma picked_on_record d p threshold ws ds pw pd :
  proposals_wf d -> proposals d !! mp_ID p = Some p ->
  classify (approvals_with_member (mp_ID p) d) = (ws, ds) ->
  threshold <= Z.of_nat (length ws + length ds) ->
  pickApprovalsForThreshold threshold ws ds = Some (pw, pd) ->
  Z.of_nat (length pw + length pd) = threshold /\
  Forall (on_record d p usable_webauthn) pw /\ Forall (on_record d p usable_delegated) pd /\
  NoDup (a_MemberID <$> pw ++ pd).
Proof.
  intros Hwf Ep Hc Hlen (Hge & Epw & Epd)%pick_eq. rewrite classify_filter in Hc.
  injection Hc as Hws Hds.
  assert (length pw = Nat.min (Z.to_nat threshold) (length ws)) as L1 by (subst pw; apply length_take).
  assert (length pd = Nat.min (Z.to_nat threshold - length pw) (length ds)) as L2
    by (rewrite Epd; apply length_take).
  split; [lia|].
  assert (forall f l n, l = approval_of_row <$> List.filter f (approvals_with_member (mp_ID p) d) ->
    Forall (on_record d p f) (firstn n l)) as Hon.
  { intros f l n ->. apply Forall_take, list.Forall_forall. intros a ([r m] & -> & Hin)%list_elem_of_fmap.
    apply list_elem_of_In, filter_In in Hin as [Hin Hf]. apply list_elem_of_In in Hin.
    apply elem_of_approvals_with_member in Hin as (Hp & [k Hk] & Hm).
    destruct (pw_member _ Hwf _ _ Hk) as (q & m' & Eq & Em & Hacc).
    exists k, r, m. split_and!; auto. rewrite Hp, Ep in Eq. congruence. }
  split; [subst pw; by apply Hon|]. split; [rewrite Epd; by apply Hon|].
  eapply sublist_NoDup; [|apply fmap_sublist, sublist_app; [rewrite Epw; apply sublist_take|rewrite Epd; apply sublist_take]].
  rewrite <- Hws, <- Hds, fmap_app, <- !list_fmap_compose.
  apply NoDup_two_filters; [|by apply approvals_distinct].
  intros r. unfold usable_webauthn, usable_delegated.
  by destruct (String.eqb_spec (mv_ApprovalType r.1) "webauthn") as [->|].
Qed.
End Picked.

(** ** Execution *)
Definition same_chain (d d' : Store) : Prop := chain d = chain d'.
#[export] Instance same_chain_refl : Reflexive same_chain.
Proof. done. Qed.
#[export] Instance same_chain_trans : Transitive same_chain.
Proof. intros ? ? ?. unfold same_chain. congruence. Qed.

Section Execution.
Context `{StellarSDK} `{Network} `{Unicode} `{UuidLib} `{Env} `{!TransactionSubmitter} `{ServiceConfig}
  `{Json sacTransferOperationParams} `{Json (list string)} {J : Type} `{Json J}.
Abbreviation W := (World Store).

(** What must hold of the tables for a transaction to leave: the caller may see
    the pending, fresh proposal, and [entries] are built from its stored entries
    and exactly threshold many usable approvals of distinct members. *)
Record execution (d : Store) (userID proposalID : string) (pid : uuid) (p : MultisigProposal)
    (a : MultisigAccount) (ws ds : list MultisigApproval) (entries : list AuthEntry) : Prop := {
  ex_owned : owned d proposalID userID pid p a;
  ex_pending : pending p;
  ex_fresh : fresh p;
  ex_count : Z.of_nat (length ws + length ds) = ma_Threshold a;
  ex_webauthn : Forall (on_record d p usable_webauthn) ws;
  ex_delegated : Forall (on_record d p usable_delegated) ds;
  ex_distinct : NoDup (a_MemberID <$> ws ++ ds);
  ex_entries : exists b64s stored,
    decodeAuthEntriesJSON (mp_AuthEntriesXdrJson p) = Ok b64s /\ normalizeAuthEntries b64s = Ok stored /\
    buildMultisigExecuteAuthEntries stored (mp_SmartAccountAuthEntryIndex p) (uint32 (mp_ContextRuleID p))
      networkPassphrase webauthnVerifierAddress ws ds = Ok entries;
}.

(** The two last steps of an execution. *)
Definition submit_and_persist (p : MultisigProposal) (entries : list AuthEntry) : M W SubmitResult :=
  let! result := SubmitAuthEntries (mp_TxXdr p) entries in
  let! _ := wrap "persist execution result"
    (exec (UpdateMultisigProposalExecuted (mp_ID p) (nullStr (sr_Hash result)))) in
  ret result.

Lemma keeps_chain_rebuild p a : keeps (on_store same_chain) (rebuildProposal p a).
Proof using Type.
  unfold rebuildProposal. keeps; [apply keeps_store_eq; [apply _|apply keeps_simulateAndExtract]| |];
    (apply keeps_exec; [apply _..|]); by intros ? ? ? [= _ <-].
Qed.
Lemma keeps_chain_ensureFresh p a : keeps (on_store same_chain) (ensureFresh p a).
Proof using Type.
  unfold ensureFresh. keeps; [apply keeps_store_eq; [apply _|apply keeps_isAuthExpired]|].
  apply keeps_chain_rebuild.
Qed.

Lemma ends_execution uid pid d (P : Store -> Prop) :
  proposals_wf d -> (forall d', same_chain d d' -> P d') ->
  (forall id p a ws ds es, execution d uid pid id p a ws ds es -> mp_ID p = id -> ends d (submit_and_persist p es) P) ->
  ends d (ExecuteProposal uid pid) P.
Proof using Type.
  intros Hwf HP Hk. assert (P d) as HPd by (by apply HP). unfold ExecuteProposal.
  apply (ends_owned _ Hwf); [done|]. intros id p a Ho Hid Hacc. pose proof Ho as [_ Ep _ _].
  apply ends_pending; [done|]. intros Hp. apply ends_bind.
  2: { intros w e w' Hw Hr. apply HP. rewrite <- Hw. exact (keeps_run _ _ _ _ _ (keeps_chain_ensureFresh _ _) Hr). }
  intros w p' w' Hw Hr. apply ensureFresh_ok in Hr as (-> & -> & Hf). rewrite Hw.
  apply ends_read; [keeps|done|]. intros rows w1 w2 Hw1 Hr1.
  assert (rows = approvals_with_member (mp_ID p) d) as -> 
    by (svc_inv; unfold ListMultisigApprovalsWithMemberForProposal in *; congruence).
  destruct (classify _) as [ws ds] eqn:Ec.
  destruct (Z.ltb_spec (Z.of_nat (length ws + length ds)) (ma_Threshold a)); [by apply ends_throw|].
  destruct (pickApprovalsForThreshold _ _ _) as [[pw pd]|] eqn:Epick; [|by apply ends_throw].
  rewrite <- Hid in Ep.
  destruct (picked_on_record d p (ma_Threshold a) ws ds pw pd Hwf Ep Ec ltac:(lia) Epick) as (? & ? & ? & ?).
  apply ends_read; [keeps|done|]. intros b64s ? ? _ Eb. apply lift_ok in Eb as [Eb _].
  apply ends_read; [keeps|done|]. intros stored ? ? _ Es.
  apply (proj1 (wrap_ok _ _ _ _ _)), lift_ok in Es as [Es _].
  apply ends_read; [keeps|done|]. intros es ? ? _ Ee. apply lift_ok in Ee as [Ee _].
  apply (Hk id p a pw pd es); [|done]. split; try done. exists b64s, stored. done.
Qed.

Lemma execution_sends uid pid w r w' :
  proposals_wf (w_store w) -> ExecuteProposal uid pid w = (r, w') ->
  chain (w_store w') = chain (w_store w) \/
  exists id p a ws ds entries c, execution (w_store w) uid pid id p a ws ds entries /\
    submission (mp_TxXdr p) entries c /\ chain (w_store w') = chain (w_store w) ++ [c].
Proof.
  intros Hwf Hr. revert Hr. apply (ends_run (w_store w)
    _ (fun d' => chain d' = chain (w_store w) \/ exists id p a ws ds es c,
         execution (w_store w) uid pid id p a ws ds es /\
         submission (mp_TxXdr p) es c /\ chain d' = chain (w_store w) ++ [c])); [|done].
  apply ends_execution; [done| |].
  { intros d' E. left. by symmetry. }
  intros id p a ws ds es Hex Hid. set (d := w_store w) in *. unfold submit_and_persist.
  assert (forall d', (d' = d \/ exists c, submission (mp_TxXdr p) es c /\ d' = set_chain (chain d ++ [c]) d) ->
    chain d' = chain d \/ exists id p a ws ds es c, execution d uid pid id p a ws ds es /\
         submission (mp_TxXdr p) es c /\ chain d' = chain d ++ [c]) as Hgo.
  { intros d' [->| (c & Hc & ->)]; [by left|]. right. cbn. eauto 12. }
  apply ends_bind; intros w1 x w1' Hw1 Hs; apply SubmitAuthEntries_chain in Hs; rewrite Hw1 in Hs.
  - apply ends_last; [by apply Hgo| |intros; keeps]. intros [] d' [= <-].
    exact (Hgo _ Hs).
  - by apply Hgo.
Qed.

(** C2. A transaction leaves the service only when the caller has access to the
    pending, unexpired proposal and exactly the account's threshold of usable
    approvals is on record for it, each by another member of that account: it is
    the proposal's own transaction, carrying the entries assembled from those
    approvals, and it is the only thing sent — whether or not recording the
    result then fails. *)
Theorem execute_authorised uid pid w r w' :
  proposals_wf (w_store w) -> ExecuteProposal uid pid w = (r, w') ->
  chain (w_store w') = chain (w_store w) \/
  exists id p a ws ds entries c, execution (w_store w) uid pid id p a ws ds entries /\
    submission (mp_TxXdr p) entries c /\ chain (w_store w') = chain (w_store w) ++ [c].
Proof. apply execution_sends. Qed.
End Execution.

Section ExecutionResult.
Context `{StellarSDK} `{Network} `{Unicode} `{UuidLib} `{Env} `{!TransactionSubmitter} `{ServiceConfig}
  `{Json sacTransferOperationParams} `{Json (list string)} {J : Type} `{Json J}.
Abbreviation W := (World Store).

Lemma ExecuteProposal_ok uid pid (w w' : W) result :
  proposals_wf (w_store w) -> ExecuteProposal uid pid w = (Ok result, w') ->
  exists id p a ws ds es w1, execution (w_store w) uid pid id p a ws ds es /\ mp_ID p = id /\
    w_store w1 = w_store w /\ submit_and_persist p es w1 = (Ok result, w').
Proof using Type.
  intros Hwf Hr. unfold ExecuteProposal in Hr.
  apply bind_ok in Hr as ([p a] & w1 & Ho & Hr). apply getOwnedProposal_ok in Ho as [S1 [id Ho]].
  destruct (String.eqb_spec (mp_Status p) "pending") as [Hp|]; cbn in Hr; [|by run_inv].
  apply bind_ok in Hr as (p' & w2 & Hf & Hr). apply ensureFresh_ok in Hf as (-> & S2 & Hf).
  apply bind_ok in Hr as (rows & w3 & Hl & Hr). pose proof Ho as [_ Ep _ _].
  assert (mp_ID p = id) as Hid by (by apply (pw_key _ Hwf)).
  assert (rows = approvals_with_member (mp_ID p) (w_store w) /\ w_store w3 = w_store w) as [-> S3].
  { svc_inv. unfold ListMultisigApprovalsWithMemberForProposal in *. cbn. split; congruence. }
  destruct (classify _) as [ws ds] eqn:Ec.
  destruct (Z.ltb_spec (Z.of_nat (length ws + length ds)) (ma_Threshold a)); [by run_inv|].
  destruct (pickApprovalsForThreshold _ _ _) as [[pw pd]|] eqn:Epick; [|by run_inv].
  rewrite <- Hid in Ep.
  destruct (picked_on_record _ p (ma_Threshold a) ws ds pw pd Hwf Ep Ec ltac:(lia) Epick) as (? & ? & ? & ?).
  apply bind_ok in Hr as (b64s & w4 & [Eb ->]%lift_ok & Hr).
  apply bind_ok in Hr as (stored & w5 & Es & Hr).
  apply (proj1 (wrap_ok _ _ _ _ _)), lift_ok in Es as [Es ->].
  apply bind_ok in Hr as (es & w6 & [Ee ->]%lift_ok & Hr).
  exists id, p, a, pw, pd, es, w6. split; [|done]. split; try done. exists b64s, stored. done.
Qed.

Lemma submit_and_persist_ok p es (w w' : W) result :
  submit_and_persist p es w = (Ok result, w') ->
  exists c, submission (mp_TxXdr p) es c /\
  w_store w' = set_proposals (alter (proposal_executed (nullStr (sr_Hash result))) (mp_ID p) (proposals (w_store w)))
                 (set_chain (chain (w_store w) ++ [c]) (w_store w)).
Proof using Type.
  unfold submit_and_persist. intros Hr. apply bind_ok in Hr as (r & w1 & Hs & Hr).
  apply SubmitAuthEntries_sent in Hs as (c & Hc & Hs). exists c. split; [done|]. svc_inv.
  match goal with H : UpdateMultisigProposalExecuted _ _ _ = _ |- _ => injection H as <- end.
  subst. cbn. by rewrite Hs.
Qed.

(** A successful execution submits the proposal's transaction once and
    records it: that proposal is executed with the returned hash, every other
    row of every table is as before. *)
Theorem execute_success uid pid w result w' :
  proposals_wf (w_store w) -> ExecuteProposal uid pid w = (Ok result, w') ->
  exists id p a ws ds entries c, execution (w_store w) uid pid id p a ws ds entries /\
    submission (mp_TxXdr p) entries c /\
    w_store w' = set_proposals (<[id := proposal_executed (nullStr (sr_Hash result)) p]> (proposals (w_store w)))
                   (set_chain (chain (w_store w) ++ [c]) (w_store w)).
Proof.
  intros Hwf Hr. destruct (ExecuteProposal_ok _ _ _ _ _ Hwf Hr) as (id & p & a & ws & ds & es & w1 & Hex & Hid & S1 & Hs).
  apply submit_and_persist_ok in Hs as (c & Hc & Hs).
  exists id, p, a, ws, ds, es, c. split; [done|]. split; [done|]. rewrite Hs, S1, Hid. f_equal.
  apply map_eq. intros k. destruct (decide (k = id)) as [->|].
  - by rewrite lookup_alter, decide_True, lookup_insert_eq, (ow_proposal _ _ _ _ _ _ (ex_owned _ _ _ _ _ _ _ _ _ Hex)).
  - by rewrite lookup_alter_ne, lookup_insert_ne.
Qed.

(** C6. At most one execution of a proposal succeeds: after it, and after any
    further requests, whoever asks to execute it again gets an error and nothing
    is sent. *)
Theorem execute_once uid pid w result w' w2 uid' pid' :
  proposals_wf (w_store w) -> ExecuteProposal uid pid w = (Ok result, w') ->
  rtc (proposal_step (J := J)) (w_store w') (w_store w2) -> uuid_parse pid' = uuid_parse pid ->
  exists e w3, ExecuteProposal uid' pid' w2 = (Err e, w3) /\ chain (w_store w3) = chain (w_store w2).
Proof.
  intros Hwf Hr Hs Hpid. pose proof (ends_ExecuteProposal _ Hwf uid pid w eq_refl) as Hev.
  rewrite Hr in Hev. cbn in Hev. pose proof (pe_wf _ _ Hev) as Hwf1.
  pose proof (proposal_steps_evolve _ _ Hwf1 Hs) as Hev2. pose proof (pe_wf _ _ Hev2) as Hwf2.
  destruct (ExecuteProposal_ok _ _ _ _ _ Hwf Hr) as (id & p & a & ws & ds & es & w1 & Hex & Hid & S1 & Hsub).
  assert (exists q, proposals (w_store w') !! id = Some q /\ ~ pending q) as (q & Eq & Hq).
  { exists (proposal_executed (nullStr (sr_Hash result)) p). split; [|unfold pending; cbn; discriminate].
    apply submit_and_persist_ok in Hsub as (c & _ & ->). rewrite S1, Hid. cbn.
    by rewrite lookup_alter, decide_True, (ow_proposal _ _ _ _ _ _ (ex_owned _ _ _ _ _ _ _ _ _ Hex)). }
  destruct (pe_proposal _ _ Hev2 _ _ Eq) as (q' & Eq' & K). rewrite (pk_settled _ _ K Hq) in Eq'.
  assert (forall p' a' ws' ds' es' id', ~ execution (w_store w2) uid' pid' id' p' a' ws' ds' es') as Hno.
  { intros p' a' ws' ds' es' id' [[Ep1 Ep2 _ _] Hp _ _ _ _ _ _].
    rewrite Hpid, (ow_id _ _ _ _ _ _ (ex_owned _ _ _ _ _ _ _ _ _ Hex)) in Ep1. simplify_eq. by apply Hq. }
  destruct (ExecuteProposal uid' pid' w2) as [[r|e] w3] eqn:E2.
  - destruct (ExecuteProposal_ok _ _ _ _ _ Hwf2 E2) as (? & ? & ? & ? & ? & ? & ? & Hx & _). by apply Hno in Hx.
  - exists e, w3. split; [done|]. symmetry. revert E2.
    apply (ends_run (w_store w2) _ (same_chain (w_store w2))); [|done].
    apply ends_execution; [done|done|]. intros ? ? ? ? ? ? Hx _. by apply Hno in Hx.
Qed.
End ExecutionResult.

(** ** Expiry, approval, refresh *)
Section Requests.
Context `{StellarSDK} `{Network} `{Unicode} `{UuidLib} `{Env} `{!TransactionSubmitter} `{ServiceConfig}
  `{Json sacTransferOperationParams} `{Json (list string)}.
Abbreviation W := (World Store).

(** The expiry check never wraps around: for every stored ledger and every
    ledger the network reports, an authorization counts as expired exactly when
    at most 25 ledgers are left, those valid for fewer than 25 ledgers in all
    included. *)
Theorem expiry_margin v latest (w : W) :
  is_uint32 v -> is_uint32 latest -> rpc_latest_ledger (w_io w) = Ok latest ->
  exists b, isAuthExpired v w = (Ok b, tick w) /\ (b = true <-> v - latest <= 25).
Proof.
  intros Hv Hl Hrpc. eexists. split; [by apply isAuthExpired_run|].
  rewrite uint32_id by done. rewrite Z.leb_le. unfold multisigExpirySafetyLedgers. lia.
Qed.

(** Only the approval of one member for one proposal differs. *)
Definition only_approval (id mid : uuid) (d d' : Store) : Prop :=
  set_approvals (approvals d) d' = d /\
  forall k row, ~ (mv_ProposalID row = id /\ mv_MemberID row = mid) ->
    approvals d' !! k = Some row <-> approvals d !! k = Some row.

(** The proposal's approvals are gone; no other row but its own differs. *)
Definition cleared (id : uuid) (d d' : Store) : Prop :=
  approvals d' = delete_where (for_proposal id) (approvals d) /\
  set_approvals (approvals d) (set_proposals (proposals d) d') = d /\
  forall k, k <> id -> proposals d' !! k = proposals d !! k.

(** A pending proposal the caller may see, and a member they may approve for. *)
Definition approver (d : Store) (uid pid memberID ty : string) (id mid : uuid) : Prop :=
  exists p a m, owned d pid uid id p a /\ pending p /\ uuid_parse memberID = Some mid /\
    members d !! mid = Some m /\ mm_MultisigAccountID m = ma_ID a /\ mm_MemberType m = ty /\
    may_approve a m uid.

Lemma only_approval_upsert merge row d i d' :
  proposals_wf d ->
  (forall o, (mv_ID (merge o), mv_ProposalID (merge o), mv_MemberID (merge o)) =
             (mv_ID o, mv_ProposalID o, mv_MemberID o)) ->
  upsert_approval merge row d = Ok (i, d') -> only_approval (mv_ProposalID row) (mv_MemberID row) d d'.
Proof using Type.
  intros Hwf Hmerge. unfold upsert_approval. destruct (select_one _ _) as [old|e] eqn:Es.
  - intros [= <- <-]. apply select_one_ok in Es as [Hs [k Ek]].
    assert (mv_ID old = k) as -> by (by apply (pw_approval_key _ Hwf)).
    unfold for_proposal_member in Hs. apply andb_prop in Hs as [Hs1 Hs2].
    apply bool_decide_eq_true in Hs1, Hs2. specialize (Hmerge old). injection Hmerge as M1 M2 M3.
    split; [by destruct d|]. intros k' r Hne. cbn. rewrite lookup_insert_Some. split.
    + intros [[_ <-]|[_ ?]]; [|done]. exfalso. apply Hne. split; congruence.
    + intros E. right. split; [|done]. intros <-. apply Hne. split; congruence.
  - unfold present. destruct (approvals d !! mv_ID row) eqn:Enew; [done|].
    destruct (approval_fks row d); [|done]. cbn. intros [= <- <-]. split; [by destruct d|].
    intros k' r Hne. cbn. rewrite lookup_insert_Some. split.
    + intros [[_ <-]|[_ ?]]; [by exfalso; apply Hne|done].
    + intros E. right. split; [|done]. intros <-. congruence.
Qed.

Lemma only_approval_finish id mid signed signer d :
  only_approval id mid d
    (set_approvals (update_where (for_proposal_member id mid) (approval_finished signed signer) (approvals d)) d).
Proof using Type.
  split; [by destruct d|]. intros k row Hne. cbn. rewrite lookup_update_where.
  assert (forall r, for_proposal_member id mid r = true -> mv_ProposalID r = id /\ mv_MemberID r = mid) as Hfor.
  { unfold for_proposal_member. by intros r [->%bool_decide_eq_true ->%bool_decide_eq_true]%andb_prop. }
  split.
  - intros (r & Er & ->)%fmap_Some. destruct (for_proposal_member id mid r) eqn:E; [|done].
    exfalso. apply Hne. by apply Hfor in E.
  - intros ->. cbn. destruct (for_proposal_member id mid row) eqn:E; [|done].
    exfalso. apply Hne. by apply Hfor in E.
Qed.

Lemma ends_rebuild_cleared p a d (P : Store -> Prop) :
  P d -> (forall d', cleared (mp_ID p) d d' -> P d') -> ends d (rebuildProposal p a) P.
Proof using Type.
  intros HP Hc. unfold rebuildProposal. apply ends_read; [keeps|done|]. intros op ? ? _ _.
  apply ends_read; [keeps|done|]. intros [artifacts disc] ? ? _ _. apply ends_read; [keeps|done|]. intros js ? ? _ _.
  apply ends_exec; [done|]. intros [] d1 [= <-].
  apply ends_last; [| |intros; keeps].
  - apply Hc. split; [done|]. split; [by destruct d|done].
  - intros [] d' [= <-]. apply Hc. split; [done|]. split; [by destruct d|].
    intros k Hk. cbn. by rewrite lookup_alter_ne.
Qed.
End Requests.

Section Approvals.
Context `{StellarSDK} `{Network} `{Unicode} `{UuidLib} `{Env} `{!TransactionSubmitter} `{ServiceConfig}
  `{Json sacTransferOperationParams} `{Json (list string)}.
Abbreviation W := (World Store).

(** The approval requests share their first steps. *)
Lemma ends_approver {A} uid pid mid ty d p a (k : MultisigMember -> M W A) (P : Store -> Prop) :
  proposals_wf d -> P d -> owned d pid uid (mp_ID p) p a -> pending p ->
  (forall m, approver d uid pid mid ty (mp_ID p) (mm_ID m) -> ends d (k m) P) ->
  ends d (bind (getOwnedMember a uid mid ty) k) P.
Proof using Type.
  intros Hwf HP Ho Hp Hk. apply (ends_member _ Hwf); [done|]. intros m Hm Hma Hmay Hmid Hty.
  apply Hk. exists p, a, m. done.
Qed.

Lemma ends_approval {A} d id mid c f row merge (k : uuid -> M W A) (P : Store -> Prop) :
  proposals_wf d -> P d -> (forall d', only_approval id mid d d' -> P d') ->
  (forall d, f d = upsert_approval merge row d) -> mv_ProposalID row = id -> mv_MemberID row = mid ->
  (forall o, (mv_ID (merge o), mv_ProposalID (merge o), mv_MemberID (merge o)) =
             (mv_ID o, mv_ProposalID o, mv_MemberID o)) ->
  (forall i, keeps (on_store eq) (k i)) ->
  ends d (bind (wrap c (exec f)) k) P.
Proof using Type.
  intros Hwf HP HPd Hf <- <- Hmerge Hk. apply ends_last; [done| |done].
  intros i d' Hd. apply HPd. rewrite Hf in Hd. by eapply only_approval_upsert.
Qed.

Section Of.
Context (uid pid mid : string) (d : Store) (Hwf : proposals_wf d).

Definition recorded (ty : string) (d' : Store) : Prop :=
  d' = d \/ exists id m, approver d uid pid mid ty id m /\ only_approval id m d d'.
Definition cleared_expired (d' : Store) : Prop :=
  exists p a, owned d pid uid (mp_ID p) p a /\ pending p /\ expired p /\ cleared (mp_ID p) d d'.

Lemma recorded_refl ty : recorded ty d.
Proof using Type. by left. Qed.
Hint Resolve recorded_refl : core.

Lemma recorded_ApproveWebauthn s : ends d (ApproveWebauthn uid pid mid s) (recorded "webauthn").
Proof using Hwf.
  unfold ApproveWebauthn. apply (ends_owned _ Hwf); [done|]. intros id p a Ho Hid _. subst id.
  apply ends_pending; [done|]. intros Hp. eapply ends_approver; [done..|]. intros m Hm.
  apply ends_read; [keeps|done|]. intros i ? ? _ _. apply ends_read; [keeps|done|]. intros now ? ? _ _.
  eapply ends_approval; [done|done| |reflexivity|done..|intros; keeps]. intros d' Hd. right. eauto.
Qed.

Lemma recorded_ApproveDelegatedFinish s g : ends d (ApproveDelegatedFinish uid pid mid s g) (recorded "delegated").
Proof using Hwf.
  unfold ApproveDelegatedFinish. apply (ends_owned _ Hwf); [done|]. intros id p a Ho Hid _. subst id.
  apply ends_pending; [done|]. intros Hp. eapply ends_approver; [done..|]. intros m Hm.
  apply ends_read; [keeps|done|]. intros ex ? ? _ _. destruct (String.eqb _ ""); [by apply ends_throw|].
  apply ends_read; [keeps|done|]. intros [] ? ? _ _. apply ends_last; [done| |intros; keeps].
  intros [] d' [= <-]. right. eexists _, _. split; [exact Hm|apply only_approval_finish].
Qed.

Lemma recorded_ApproveDelegatedBegin :
  ends d (ApproveDelegatedBegin uid pid mid) (fun d' => recorded "delegated" d' \/ cleared_expired d').
Proof using Hwf.
  unfold ApproveDelegatedBegin. apply (ends_owned _ Hwf); [by left|]. intros id p a Ho Hid _. subst id.
  apply ends_pending; [by left|]. intros Hp. apply ends_bind.
  2: { intros w e w' Hw Hr. refine (ends_run d (ensureFresh p a)
      (fun d' => recorded "delegated" d' \/ cleared_expired d') w (Err e) w' _ Hw Hr). unfold ensureFresh.
    apply ends_read; [keeps|by left|]. intros ex w1 w1' _ Hex.
    apply isAuthExpired_ok in Hex as (latest & Hl & ->); [|apply uint32_range].
    destruct (Z.leb_spec (uint32 (mp_ValidUntilLedger p)) (uint32 latest + multisigExpirySafetyLedgers));
      cbn [negb]; [|by apply ends_ret; left].
    assert (forall d', cleared (mp_ID p) d d' -> cleared_expired d') as Hc.
    { intros d' Hd. exists p, a. split_and!; [done..| |done]. exists (w_io w1), latest. done. }
    apply ends_bind.
    - intros w2 ? w2' Hw2 Hr2. apply ends_throw. refine (ends_run d _ (fun d' => recorded "delegated" d' \/ cleared_expired d') _ _ _
        (ends_rebuild_cleared p a d _ _ _) Hw2 Hr2).
      + by left.
      + intros. right. by apply Hc.
    - intros w2 ? w2' Hw2 Hr2. refine (ends_run d _ (fun d' => recorded "delegated" d' \/ cleared_expired d') _ _ _
        (ends_rebuild_cleared p a d _ _ _) Hw2 Hr2).
      + by left.
      + intros. right. by apply Hc. }
  intros w p' w' Hw Hr. apply ensureFresh_ok in Hr as (-> & -> & _). rewrite Hw.
  eapply ends_approver; [done|by left|done|done|]. intros m Hm.
  destruct (String.eqb _ ""); [by apply ends_throw; left|].
  apply ends_read; [keeps|by left|]. intros b64s ? ? _ _. apply ends_read; [keeps|by left|]. intros es ? ? _ _.
  destruct (if _ : bool then _ else _); [|by apply ends_throw; left].
  apply ends_read; [unfold buildDelegatedCheckAuthTemplate, buildUnsignedDelegatedGCheckAuthEntry; keeps|by left|].
  intros tmpl ? ? _ _. apply ends_read; [keeps|by left|]. intros i ? ? _ _.
  apply ends_read; [keeps|by left|]. intros now ? ? _ _.
  eapply ends_approval; [done|by left| |reflexivity|done..|intros; keeps]. intros d' Hd. left. right. eauto.
Qed.
End Of.

(** C5. An approval is recorded only for a pending proposal the caller may see,
    for a member of its account that is the caller's own — or any member, when
    the caller created the account — and of the kind the request is for; no
    other approval, and nothing else, changes. Starting a delegated approval of
    an expiring proposal clears its approvals instead. *)
Theorem approval_authorised uid pid mid (w : W) :
  proposals_wf (w_store w) ->
  (forall s, recorded uid pid mid (w_store w) "webauthn" (w_store (snd (ApproveWebauthn uid pid mid s w)))) /\
  (recorded uid pid mid (w_store w) "delegated" (w_store (snd (ApproveDelegatedBegin uid pid mid w))) \/
   cleared_expired uid pid (w_store w) (w_store (snd (ApproveDelegatedBegin uid pid mid w)))) /\
  (forall s g, recorded uid pid mid (w_store w) "delegated"
                 (w_store (snd (ApproveDelegatedFinish uid pid mid s g w)))).
Proof.
  intros Hwf. split_and!; intros.
  - by apply recorded_ApproveWebauthn.
  - by apply recorded_ApproveDelegatedBegin.
  - by apply recorded_ApproveDelegatedFinish.
Qed.
End Approvals.

Section Witnesses.
Import Demo DemoServices DemoProposals.

(** User 1 creates a proposal and approves it with the passkey, user 2 approves
    it with the Stellar key, user 1 executes it. *)
Definition run : list proposal_op -> World Store -> World Store := run_ops (J := string) (H0 := demo_n) (H3 := demo_e).
Definition execute (uid pid : string) : M (World Store) SubmitResult := ExecuteProposal (H0 := demo_n) (H3 := demo_e) uid pid.
Definition w_created : World Store := run [OpCreate "1" increment_input []] world0.
Definition w_begun : World Store := run [OpWebauthn "1" "109" "20" "aabb"; OpBegin "2" "109" "21"] w_created.
Definition signed64 : string :=
  match ApproveDelegatedBegin (H0 := demo_n) (H3 := demo_e) "2" "109" "21" w_created with
  | (Ok r, _) => match Base64.StdEncoding_DecodeString (dt_PreimageXdrBase64 (db_Template r)) with
                 | Ok m => b64 (demo_sign key32 m) | Err _ => "" end
  | _ => ""
  end.
Definition w_ready : World Store := run [OpFinish "2" "109" "21" signed64 ("G" +:+ key32)] w_begun.

Lemma demo_wf : proposals_wf (w_store world0).
Proof.
  split; cbn; try (intros *; by rewrite lookup_empty).
  - intros k a. by intros [<- <-]%lookup_singleton_Some.
  - intros k m. rewrite lookup_insert_Some. intros [[<- <-]|[_ [<- <-]%lookup_singleton_Some]]; done.
Qed.
Lemma run_wf ops w : proposals_wf (w_store w) -> proposals_wf (w_store (run ops w)).
Proof.
  intros Hwf. apply (proposal_steps_evolve (J := string) (H0 := demo_n) (H3 := demo_e) (w_store w)); [done|].
  apply (run_requests_steps (J := string) (H0 := demo_n) (H3 := demo_e)).
Qed.
Lemma created_wf : proposals_wf (w_store w_created).
Proof. exact (run_wf _ world0 demo_wf). Qed.
Lemma ready_wf : proposals_wf (w_store w_ready).
Proof. exact (run_wf _ w_begun (run_wf _ w_created created_wf)). Qed.

Lemma proposals_invariant_witness :
  proposals_wf (w_store w_begun) /\ members (w_store w_begun) = members (w_store w_created).
Proof.
  destruct (proposals_invariant (J := string) (H0 := demo_n) (H3 := demo_e) (w_store w_created) (w_store w_begun)
    created_wf (run_requests_steps (J := string) (H0 := demo_n) (H3 := demo_e) _ w_created)) as (H1 & _ & H2 & _).
  split; [exact H1|exact H2].
Defined.

(** User 3 is no member. *)
Lemma user3_stranger id p a : ~ owned (w_store w_created) "109" "3" id p a.
Proof.
  intros [_ _ Ea Hacc].
  assert (accounts (w_store w_created) = {[10%N := demo_account]}) as Eacc by (vm_compute; reflexivity).
  assert (members (w_store w_created) = {[20%N := passkey_member; 21%N := delegated_member]}) as Emem
    by (vm_compute; reflexivity).
  rewrite Eacc in Ea. apply lookup_singleton_Some in Ea as [_ <-]. unfold has_access in Hacc. rewrite Emem in Hacc.
  assert (forall u : N, pretty u = "3" -> u = 3%N) as Hthree.
  { intros u E. apply pretty_N_inj. rewrite E. vm_compute. reflexivity. }
  change uuid_string with (pretty : N -> string) in Hacc.
  destruct Hacc as [Hu%Hthree|(k & m & u & Hk & _ & Hu & Hs%Hthree)]; [discriminate Hu|]. subst u.
  clear Eacc Emem Hthree.
  apply lookup_insert_Some in Hk as [[_ <-]|[_ [_ <-]%lookup_singleton_Some]]; discriminate Hu.
Qed.

Lemma stranger_denied_witness :
  denied (execute "3" "109") w_created.
Proof.
  destruct (stranger_denied (J := string) (H0 := demo_n) (H3 := demo_e) "3" "109" w_created user3_stranger)
    as (_ & _ & _ & _ & _ & H). exact H.
Defined.

Lemma execute_authorised_witness :
  exists r w' id p a ws ds entries, execute "1" "109" w_ready = (r, w') /\
    execution (H0 := demo_n) (w_store w_ready) "1" "109" id p a ws ds entries.
Proof.
  assert (exists r w', execute "1" "109" w_ready = (r, w') /\
    length (chain (w_store w')) <> length (chain (w_store w_ready))) as (r & w' & Hr & Hn)
    by (eexists _, _; split; [vm_compute; reflexivity | vm_compute; discriminate]).
  exists r, w'. destruct (execute_authorised (H0 := demo_n) (H3 := demo_e) _ _ _ _ _ ready_wf Hr)
    as [E|(id & p & a & ws & ds & es & c & Hex & _)]; [rewrite E in Hn; by destruct Hn|].
  exists id, p, a, ws, ds, es. split; [exact Hr|exact Hex].
Defined.

Lemma execute_success_witness :
  exists result w' id p, execute "1" "109" w_ready = (Ok result, w') /\
    proposals (w_store w') !! id = Some (proposal_executed (nullStr (sr_Hash result)) p).
Proof.
  assert (exists r w', execute "1" "109" w_ready = (Ok r, w')) as (r & w' & Hr)
    by (eexists _, _; vm_compute; reflexivity).
  destruct (execute_success (H0 := demo_n) (H3 := demo_e) _ _ _ _ _ ready_wf Hr)
    as (id & p & a & ws & ds & es & c & _ & _ & E).
  exists r, w', id, p. split; [exact Hr|]. rewrite E. apply lookup_insert_eq.
Defined.

Lemma execute_once_witness :
  exists result w' e w3, execute "1" "109" w_ready = (Ok result, w') /\
    execute "2" "109" (run [OpRefresh "1" "109"; OpWebauthn "1" "109" "20" "cc"] w') = (Err e, w3).
Proof.
  assert (exists r w', execute "1" "109" w_ready = (Ok r, w')) as (r & w' & Hr)
    by (eexists _, _; vm_compute; reflexivity).
  destruct (execute_once (J := string) (H0 := demo_n) (H3 := demo_e) _ _ _ _ _
    (run [OpRefresh "1" "109"; OpWebauthn "1" "109" "20" "cc"] w') "2" "109" ready_wf Hr
    (run_requests_steps (J := string) (H0 := demo_n) (H3 := demo_e) _ w') eq_refl) as (e & w3 & H & _).
  exists r, w', e, w3. split; [exact Hr|exact H].
Defined.

Lemma expiry_margin_witness :
  exists b, isAuthExpired (H0 := demo_n) 124 world0 = (Ok b, tick world0) /\ (b = true <-> 124 - 100 <= 25).
Proof. apply (expiry_margin (H0 := demo_n) 124 100 world0); [split; lia|split; lia|reflexivity]. Defined.

Lemma approval_authorised_witness :
  recorded "1" "109" "20" (w_store w_created) "webauthn"
    (w_store (snd (ApproveWebauthn (H3 := demo_e) "1" "109" "20" "aabb" w_created))).
Proof.
  destruct (approval_authorised (H0 := demo_n) (H3 := demo_e) "1" "109" "20" w_created created_wf) as (H & _).
  apply H.
Defined.
End Witnesses.
End ProposalSafety.
