(* ===== verification/MultisigTheorems.v ===== *)
(** * What the multisig routes guarantee (theorems about MultisigRoutes.v)

    A route that names a draft, an invite or a proposal the caller has no right to
    answers with an error, says nothing about what exists, and does nothing. *)

From S2P Require Export MultisigRoutes ProposalSafety.
From S2P Require Import Instances DemoProposals SubmitSigned DemoBuild CeremonyTheorems.

#[local] Unset Default Proof Using.

Module MultisigTheorems.
Import Deploynet Signers ExecuteAuth Assets Submit Drafts Accounts Proposals ProposalSafety AccountSigners Routes Rpid Ceremonies
  CeremonyRoutes SmartAccounts MultisigRoutes.

(** The routes that name something of somebody's. *)
Inductive guarded_request :=
  | GDraftGet (draftID : string) (o : requestOrigin)
  | GDraftThreshold (draftID : string) (threshold : Z) (o : requestOrigin)
  | GDraftPredict (draftID : string)
  | GDraftDeploy (draftID : string)
  | GDraftAddMember (draftID : string) (req : draftMemberRequest)
  | GDraftDeleteMember (draftID memberID : string)
  | GDraftRegistrationBegin (draftID : string) (h : ceremonyHeaders) (req : beginCeremonyRequest)
  | GDraftRegistrationFinish (draftID : string) (h : ceremonyHeaders) (req : finishRegistrationRequest)
  | GDraftAuthenticationBegin (draftID : string) (h : ceremonyHeaders) (extensionFromBody : string)
  | GDraftAuthenticationFinish (draftID : string) (h : ceremonyHeaders) (req : finishAuthenticationRequest)
  | GJoinGet (token : string) (o : requestOrigin)
  | GJoinAddMember (token : string) (req : draftMemberRequest)
  | GJoinRegistrationBegin (token : string) (h : ceremonyHeaders) (req : beginCeremonyRequest)
  | GJoinRegistrationFinish (token : string) (h : ceremonyHeaders) (req : finishRegistrationRequest)
  | GJoinAuthenticationBegin (token : string) (h : ceremonyHeaders) (extensionFromBody : string)
  | GJoinAuthenticationFinish (token : string) (h : ceremonyHeaders) (req : finishAuthenticationRequest)
  | GProposalGet (proposalID : string)
  | GProposalRefresh (proposalID : string)
  | GProposalExecute (proposalID : string)
  | GApproveWebauthn (proposalID memberID sigDataXdrHex : string)
  | GApproveDelegatedBegin (proposalID memberID : string)
  | GApproveDelegatedFinish (proposalID memberID signedAuthEntryBase64 signerAddress : string).

(** What a request needs: a draft of the caller's — for a ceremony, one that still
    collects —, an invite, or a proposal of an account the caller may use. *)
Inductive door := DoorDraft (collecting : bool) (draftID : string) | DoorInvite (token : string) | DoorProposal (proposalID : string).
Definition door_of (r : guarded_request) : door :=
  match r with
  | GDraftGet d _ | GDraftThreshold d _ _ | GDraftPredict d | GDraftDeploy d | GDraftAddMember d _ | GDraftDeleteMember d _ =>
      DoorDraft false d
  | GDraftRegistrationBegin d _ _ | GDraftRegistrationFinish d _ _ | GDraftAuthenticationBegin d _ _
  | GDraftAuthenticationFinish d _ _ => DoorDraft true d
  | GJoinGet t _ | GJoinAddMember t _ | GJoinRegistrationBegin t _ _ | GJoinRegistrationFinish t _ _
  | GJoinAuthenticationBegin t _ _ | GJoinAuthenticationFinish t _ _ => DoorInvite t
  | GProposalGet p | GProposalRefresh p | GProposalExecute p | GApproveWebauthn p _ _ | GApproveDelegatedBegin p _
  | GApproveDelegatedFinish p _ _ _ => DoorProposal p
  end.

Section Doors.
Context `{StellarSDK} `{Network} `{SubmitNetwork} `{Gasless} `{UuidLib} `{Unicode} `{Deployment} `{Env} `{ServiceConfig}.
Context `{KeypairLib} `{FactoryConfig} `{Cbor} `{WebAuthnLib} `{Json (list string)} `{WebAuthnHandlerConfig}.
Context `{HandlerConfig} `{Json (list CatalogAsset)} `{Json sacTransferOperationParams} `{Json json}.
Context `{!SmartAccountFactory} `{!TransactionSubmitter}.
Abbreviation W := (World Store).

Definition serve (userID : string) (r : guarded_request) : M W json :=
  match r with
  | GDraftGet d o => DraftGet_handler userID d o
  | GDraftThreshold d t o => DraftUpdateThreshold_handler userID d t o
  | GDraftPredict d => DraftPredict_handler userID d
  | GDraftDeploy d => DraftDeploy_handler userID d
  | GDraftAddMember d req => DraftAddMember_handler userID d req
  | GDraftDeleteMember d m => DraftDeleteMember_handler userID d m
  | GDraftRegistrationBegin d h req => DraftRegistrationBegin userID d h req
  | GDraftRegistrationFinish d h req => DraftRegistrationFinish userID d h req
  | GDraftAuthenticationBegin d h x => DraftAuthenticationBegin userID d h x
  | GDraftAuthenticationFinish d h req => DraftAuthenticationFinish userID d h req
  | GJoinGet t o => JoinGetByToken t o
  | GJoinAddMember t req => JoinAddMember userID t req
  | GJoinRegistrationBegin t h req => JoinRegistrationBegin userID t h req
  | GJoinRegistrationFinish t h req => JoinRegistrationFinish userID t h req
  | GJoinAuthenticationBegin t h x => JoinAuthenticationBegin userID t h x
  | GJoinAuthenticationFinish t h req => JoinAuthenticationFinish userID t h req
  | GProposalGet p => ProposalGet_handler userID p
  | GProposalRefresh p => ProposalRefresh_handler userID p
  | GProposalExecute p => ProposalExecute_handler userID p
  | GApproveWebauthn p m s => ApproveWebauthn_handler userID p m s
  | GApproveDelegatedBegin p m => ApproveDelegatedBegin_handler userID p m
  | GApproveDelegatedFinish p m s a => ApproveDelegatedFinish_handler userID p m s a
  end.

Definition opens (userID : string) (w : W) (x : door) : Prop :=
  let d := w_store w in
  match x with
  | DoorDraft collecting draftID => exists id row, uuid_parse draftID = Some id /\ drafts d !! id = Some row /\
      uuid_parse userID = Some (md_CreatorUserID row) /\ (collecting = true -> md_Status row = "collecting")
  | DoorInvite token => exists id row, drafts d !! id = Some row /\ md_InviteToken row = token /\ md_Status row = "collecting" /\
      forall exp, md_ExpiresAt row = Some exp -> exists n, env_now n < exp
  | DoorProposal proposalID => exists id p a, owned d proposalID userID id p a
  end.

(** An answer without a word about what was asked for, and nothing done. *)
Definition turned_away {A} (m : M W A) (w : W) : Prop :=
  exists status w', m w = (Err (Sentinel (status +:+ " internal_error")), w') /\ status ∈ ["400"; "404"; "409"; "500"] /\
    w_store w' = w_store w.
Definition plain_answer (e : error) : Prop :=
  snd (multisigErrorResponse e) = "internal_error" /\ fst (multisigErrorResponse e) ∈ ["400"; "404"; "409"; "500"].
Definition fails_plainly {A} (m : M W A) (w : W) : Prop :=
  exists e w', m w = (Err e, w') /\ plain_answer e /\ w_store w' = w_store w.

Lemma fails_first {A B} (m : M W A) (k : A -> M W B) w : fails_plainly m w -> fails_plainly (bind m k) w.
Proof. intros (e & w' & E & Hp). exists e, w'. split; [|done]. unfold bind. by rewrite E. Qed.
Lemma away_first {A B} (m : M W A) (k : A -> M W B) w : turned_away m w -> turned_away (bind m k) w.
Proof. intros (s & w' & E & Hp). exists s, w'. split; [|done]. unfold bind. by rewrite E. Qed.
Lemma away_then {A B} (m : M W A) (k : A -> M W B) a w w1 :
  m w = (Ok a, w1) -> w_store w1 = w_store w -> turned_away (k a) w1 -> turned_away (bind m k) w.
Proof. intros E Hw (s & w' & Hk & Hs & Hw'). exists s, w'. split; [by rewrite (bind_run _ _ _ _ _ E)|]. split; [done|congruence]. Qed.
Lemma away_multisig {A} (m : M W A) w : fails_plainly m w -> turned_away (multisig m) w.
Proof.
  intros (e & w' & E & [Hs Hf] & Hw). exists (fst (multisigErrorResponse e)), w'. split; [|done].
  unfold multisig, answered, bind, attempt. rewrite E. unfold fail, throw. by rewrite Hs.
Qed.
Lemma away_bad_body {A} w : turned_away (bad_body : M W A) w.
Proof. exists "400", w. split; [done|]. split; [set_solver|done]. Qed.
Lemma away_bound {A} (l : list string) (k : unit -> M W A) w : turned_away (k tt) w -> turned_away (bind (bound l) k) w.
Proof. intros Hk. unfold bound. destruct (existsb _ _); [apply away_first, away_bad_body|exact Hk]. Qed.
Lemma away_nonzero {A} n (k : unit -> M W A) w : turned_away (k tt) w -> turned_away (bind (nonzero n) k) w.
Proof. intros Hk. unfold nonzero. destruct (n =? 0); [apply away_first, away_bad_body|exact Hk]. Qed.

Ltac plain := by (split; [reflexivity|vm_compute; set_solver]).
Lemma plain_hidden e : hidden e -> plain_answer e.
Proof. intros [->| ->]; plain. Qed.

Lemma reads_fail {A} (m : M W A) w e w' : keeps (on_store eq) m -> m w = (Err e, w') -> plain_answer e -> fails_plainly m w.
Proof. intros Hk E Hp. exists e, w'. split; [done|]. split; [done|]. by rewrite (keeps_run _ _ _ _ _ Hk E). Qed.
Lemma draft_err userID draftID (w w' : W) e : getDraftForCreator draftID userID w = (Err e, w') -> plain_answer e.
Proof.
  unfold getDraftForCreator. destruct (uuid_parse draftID) as [d|]; [|intros [= <- _]; plain]. intros E.
  apply bind_err in E as [E|(u & w1 & _ & E)].
  - unfold wrap, lift, parse_uuid in E. destruct (uuid_parse userID); [done|]. injection E as <- _. plain.
  - apply or_no_rows_query_err in E; [destruct E as [->| ->]; plain|].
    intros x. unfold GetMultisigDraftByIDForCreator. destruct (_ !! _); [case_bool_decide|]; congruence.
Qed.
Lemma draft_closed userID draftID w : ~ opens userID w (DoorDraft false draftID) -> fails_plainly (getDraftForCreator draftID userID) w.
Proof.
  intros Hno. destruct (getDraftForCreator draftID userID w) as [[r|e] w'] eqn:E.
  - apply getDraftForCreator_ok in E as (d & u & Hd & Hu & Hr & <-). exfalso. apply Hno. by exists d, r.
  - apply (reads_fail _ _ _ _ (keeps_getDraftForCreator _ _) E). by eapply draft_err.
Qed.
Lemma invite_closed userID token w : ~ opens userID w (DoorInvite token) -> fails_plainly (getDraftByInviteToken token) w.
Proof.
  intros Hno. destruct (getDraftByInviteToken token w) as [[r|e] w'] eqn:E.
  - apply getDraftByInviteToken_ok in E as ([k Hk] & Ht & Hs & Hx). exfalso. apply Hno. exists k, r.
    split; [done|]. split; [done|]. split; [done|]. intros exp He. exists (S (w_io w)). by apply Hx.
  - apply (reads_fail _ _ _ _ (keeps_getDraftByInviteToken _) E). unfold getDraftByInviteToken in E.
    apply bind_err in E as [E|(r & w1 & _ & E)].
    + apply or_no_rows_query_err in E; [destruct E as [->| ->]; plain|].
      intros x. unfold GetMultisigDraftByInviteToken, select_one. by destruct (select _ _); intros [= <-].
    + destruct (String.eqb (md_Status r) "collecting"); cbn [negb] in E; [|injection E as <- _; plain].
      destruct (nullInt64Ptr _) as [exp|]; [|done]. apply bind_err in E as [E|(t & w2 & _ & E)]; [done|].
      destruct (exp <=? t); [|done]. injection E as <- _. plain.
Qed.
Lemma proposal_closed userID proposalID w : ~ opens userID w (DoorProposal proposalID) -> fails_plainly (getOwnedProposal proposalID userID) w.
Proof.
  intros Hno. destruct (getOwnedProposal_denied proposalID userID w) as (e & w' & E & Hh & Hw).
  - intros id p a Ho. apply Hno. by exists id, p, a.
  - exists e, w'. split; [done|]. split; [by apply plain_hidden|done].
Qed.

(** The guard of a ceremony on a draft. *)
Lemma list_err id (w w' : W) e : list_draft_members id w = (Err e, w') -> plain_answer e.
Proof. unfold list_draft_members, wrap, query, exec. destruct (env_fault _); [|done]. intros [= <- _]. plain. Qed.
Lemma owned_draft_closed userID draftID w :
  ~ opens userID w (DoorDraft true draftID) -> turned_away (requireOwnedDraft userID draftID) w.
Proof.
  intros Hno. unfold requireOwnedDraft.
  assert (keeps (on_store eq) (GetDraftForCreator draftID userID)) as Hk.
  { unfold GetDraftForCreator. apply keeps_bind; try apply _; [apply keeps_getDraftForCreator|]. intros r. apply keeps_loadAndSerialize. }
  destruct (GetDraftForCreator draftID userID w) as [[v|e] w'] eqn:E.
  - pose proof (keeps_run _ _ _ _ _ Hk E) as Hw. unfold on_store in Hw.
    apply (away_then _ _ v _ w'); [by unfold multisig, answered, bind, attempt; rewrite E|done|].
    apply bind_ok in E as (r & w1 & Hr & E). apply getDraftForCreator_ok in Hr as (d & u & Hd & Hu & Hr & <-).
    apply bind_ok in E as (rows & w2 & _ & E). injection E as <- _. cbn [sd_Status serialize].
    destruct (String.eqb_spec (md_Status r) "collecting") as [Hs|_]; [exfalso; apply Hno; by exists d, r|].
    apply away_multisig. exists ErrMultisigDraftNotCollecting, w'. split; [done|]. split; [plain|done].
  - apply away_first, away_multisig, (reads_fail _ _ _ _ Hk E).
    apply bind_err in E as [E|(r & w1 & _ & E)]; [by eapply draft_err|].
    apply bind_err in E as [E|(rows & w2 & _ & E)]; [by eapply list_err|done].
Qed.

(** C7. Whoever names a draft that is not theirs (for a ceremony, one that no longer
    collects members), an invite that is unknown, closed or expired, or a proposal
    of an account they have no access to, gets a plain error and nothing happens:
    no row is written and nothing is sent, whichever of the twenty-two routes it is. *)
Theorem closed_doors userID r w : ~ opens userID w (door_of r) -> turned_away (serve userID r) w.
Proof.
  destruct r; cbn [door_of serve]; intros Hno;
    try (apply owned_draft_closed in Hno; by apply away_first);
    repeat first [apply away_bound | apply away_nonzero]; apply away_first.
  all: try (apply away_first, away_multisig, fails_first; by eapply invite_closed).
  all: try (apply away_multisig, fails_first; by first [eapply invite_closed | apply draft_closed | apply proposal_closed]).
Qed.
End Doors.

Section Witness.
Import WebAuthn Demo DemoServices DemoProposals DemoBuild.
#[local] Existing Instance CeremonyTheorems.demo_cbor.
#[local] Existing Instance CeremonyTheorems.demo_webauthn.
#[local] Existing Instance demo_e.
#[local] Existing Instance demo_n.
#[local] Instance site_config : WebAuthnHandlerConfig := {| webAuthnConfig := CeremonyTheorems.demo_site |}.
#[local] Instance demo_deployment : Deployment := {| Get := "testnet"; Get_valid := or_intror (or_introl eq_refl) |}.
#[local] Instance demo_catalog : HandlerConfig :=
  {| assetCatalogConfig := {| acc_AllowlistJSON := ""; acc_NativeSAC := ""; acc_USDCSAC := "" |} |}.
#[local] Instance no_allowlist : Json (list CatalogAsset) := {|
  json_marshal l := Err (Errorf "json"); json_unmarshal s := Err (Errorf "json") |}.
#[local] Instance no_json : Json json := {|
  json_marshal l := Err (Errorf "json"); json_unmarshal s := Err (Errorf "json") |}.
#[local] Instance demo_keypair : KeypairLib := {| keypair_random n := Ok "GD" |}.
#[local] Instance demo_factory_config : FactoryConfig := {| factoryAddress := "CF" |}.

(** User 3 executes the proposal of an account of user 1. *)
Lemma closed_doors_witness :
  turned_away (ProposalExecute_handler "3" "109") w_created.
Proof.
  apply (closed_doors "3" (GProposalExecute "109") w_created).
  intros (id & p & a & Ho). exact (user3_stranger id p a Ho).
Defined.
End Witness.
End MultisigTheorems.
