(* ===== verification/SignPayload.v ===== *)
(** * Payloads handed over for signing (signpayload_service.go, signpayload.go) and the demo counter (counter_service.go, counter.go)

    A client stores an unsigned transaction with the URL its signature is sent
    to; whoever holds the reference reads it once. The table is
    [webapp.sign_payloads]; instants and spans of this file are in nanoseconds,
    like [time.Duration]. *)

From S2P Require Export Build MobileData Rpid.

(** [jsonb]: what the column keeps of a text, or its refusal. *)
Class Jsonb := { jsonb : string -> res string }.
(** A host with a bracket in it, an IPv6 address and its port, as net/url reads it. *)
Class IpLiteral := { ip_literal : string -> option string }.

Record SignPayloadRow := {
  sy_ID : string; sy_Payload : string; sy_ExpiresAt : Z; sy_ConsumedAt : option Z; sy_CreatedAt : Z }.
Record SignPayload := { sl_ID : string; sl_Payload : string; sl_ExpiresAt : Z; sl_CreatedAt : Z }.
Record createSignPayloadRequest := {
  cp_Network : string; cp_SmartAccountAddress : string; cp_UnsignedTxXdr : string; cp_Callback : string;
  cp_RequestID : string; cp_Origin : string; cp_Submit : option bool; cp_TTLSeconds : option Z }.
Record URL := { u_Scheme : string; u_Host : string }.

(** ** [url.Parse] (net/url), as far as scheme and host *)
Module NetUrl.
Import Rpid.
Definition letter (c : ascii) : bool :=
  let n := nat_of_ascii c in (((65 <=? n) && (n <=? 90)) || ((97 <=? n) && (n <=? 122)))%nat.
(** [getScheme]: the scheme in front of a colon, and the rest. *)
Fixpoint scan_scheme (raw seen s : string) : option (string * string) :=
  match s with
  | "" => Some ("", raw)
  | String c s' =>
      if letter c then scan_scheme raw (seen +:+ String c "") s'
      else if is_digit c || existsb (Ascii.eqb c) (list_ascii_of_string "+-.") then
        if String.eqb seen "" then Some ("", raw) else scan_scheme raw (seen +:+ String c "") s'
      else if Ascii.eqb c ":" then if String.eqb seen "" then None else Some (seen, s')
      else Some ("", raw)
  end.
Definition getScheme (raw : string) : option (string * string) := scan_scheme raw "" raw.

Definition host_char (c : ascii) : bool :=
  (128 <=? N_of_ascii c)%N || Url.is_alnum c || existsb (Ascii.eqb c) (list_ascii_of_string "-_.~!$&'()*+,;=:[]<>")
  || Ascii.eqb c (ascii_of_nat 34).
(** [unescape] of a host: only bytes outside ASCII, and the percent sign, may be written as escapes. *)
Fixpoint unescape_host (s : string) : option string :=
  match s with
  | "" => Some ""
  | String "%" (String a (String b s')) =>
      match hex_val a, hex_val b with
      | Some x, Some y =>
          if (x <? 8)%N && negb (Ascii.eqb a "2" && Ascii.eqb b "5") then None
          else String (ascii_of_N (16 * x + y)) <$> unescape_host s'
      | _, _ => None
      end
  | String "%" _ => None
  | String c s' => if host_char c then String c <$> unescape_host s' else None
  end.
Definition validOptionalPort (port : string) : bool :=
  match port with "" => true | String c digits => Ascii.eqb c ":" && str_forall is_digit digits end.
Definition has_char (c : ascii) (s : string) : bool := negb (str_forall (fun d => negb (Ascii.eqb c d)) s).

Section Parse.
Context `{IpLiteral} `{Unicode}.
Definition parseHost (host : string) : option string :=
  if has_char "[" host then ip_literal host else
  let '(_, port, found) := cut_at ":" host in
  if found && negb (str_forall is_digit port) then None else unescape_host host.
Definition parseAuthority (authority : string) : option string :=
  let '(userinfo, hostport) := cut_last "@" authority in
  match parseHost hostport with
  | None => None
  | Some host =>
      match userinfo with
      | Some user => if str_forall user_char user && escapes_ok user then Some host else None
      | None => Some host
      end
  end.
(** Before and from the first slash on. *)
Definition split_path (s : string) : string * string :=
  let '(authority, path, found) := cut_at "/" s in (authority, if found then String "/" path else "").
Definition parse (rawURL : string) : option URL :=
  if negb (str_forall (fun c => negb (control c)) rawURL) then None else
  if String.eqb rawURL "*" then Some {| u_Scheme := ""; u_Host := "" |} else
  match getScheme rawURL with
  | None => None
  | Some (scheme, rest) =>
      let scheme := to_lower scheme in
      let '(rest, _, _) := cut_at "?" rest in
      if negb (String.prefix "/" rest) && negb (String.eqb scheme "") then Some {| u_Scheme := scheme; u_Host := "" |} else
      if negb (String.prefix "/" rest) && has_char ":" (fst (split_path rest)) then None else
      if (negb (String.eqb scheme "") || negb (String.prefix "///" rest)) && String.prefix "//" rest then
        let '(authority, path) := split_path (str_drop 2 rest) in
        match parseAuthority authority with
        | Some host => if escapes_ok path then Some {| u_Scheme := scheme; u_Host := host |} else None
        | None => None
        end
      else if escapes_ok rest then Some {| u_Scheme := scheme; u_Host := "" |} else None
  end.
Definition url_Parse (rawURL : string) : option URL :=
  let '(u, fragment, _) := cut_at "#" rawURL in
  match parse u with
  | Some url => if String.eqb fragment "" || escapes_ok fragment then Some url else None
  | None => None
  end.
(** [splitHostPort], without the brackets of an address *)
Definition Hostname (u : URL) : string :=
  let host := match cut_last ":" (u_Host u) with
              | (Some host, port) => if str_forall is_digit port then host else u_Host u
              | (None, _) => u_Host u
              end in
  let inner := str_drop 1 host in
  if String.prefix "[" host && String.prefix "]" (str_rev host) then str_rev (str_drop 1 (str_rev inner)) else host.
End Parse.
End NetUrl.

Module SignPayload.
Import NetUrl Rpid Assets Deploynet Routes AccountSigners Build.

Abbreviation PayloadStore := (gmap string SignPayloadRow).

Definition second : Z := 1000000000.
Definition signPayloadIDPrefix : string := "sp_".
Definition signPayloadMinTTL : Z := 60 * second.
Definition signPayloadMaxTTL : Z := 3600 * second.
Definition signPayloadDefTTL : Z := 600 * second.

Definition ErrSignPayloadNotFound : error := Sentinel "ErrSignPayloadNotFound".
Definition ErrSignPayloadConsumed : error := Sentinel "ErrSignPayloadConsumed".
Definition ErrSignPayloadExpired : error := Sentinel "ErrSignPayloadExpired".
Definition ErrSignPayloadCallbackInvalid : error := Sentinel "ErrSignPayloadCallbackInvalid".
Definition ErrSignPayloadCallbackScheme : error := Sentinel "ErrSignPayloadCallbackScheme".

(** ** webapp_sign_payloads.sql.go *)
Definition consumed_row (now : Z) (r : SignPayloadRow) : SignPayloadRow :=
  {| sy_ID := sy_ID r; sy_Payload := sy_Payload r; sy_ExpiresAt := sy_ExpiresAt r; sy_ConsumedAt := Some now;
     sy_CreatedAt := sy_CreatedAt r |}.
Definition ConsumeSignPayload (id : string) (now : Z) (d : PayloadStore) : res (SignPayloadRow * PayloadStore) :=
  match d !! id with
  | Some r => match sy_ConsumedAt r with
              | None => Ok (consumed_row now r, <[id := consumed_row now r]> d)
              | Some _ => Err ErrNoRows
              end
  | None => Err ErrNoRows
  end.
Definition GetSignPayload (id : string) (d : PayloadStore) : res SignPayloadRow :=
  match d !! id with Some r => Ok r | None => Err ErrNoRows end.
Definition InsertSignPayload `{Jsonb} (id payload : string) (expiresAt now : Z) (d : PayloadStore) : res (unit * PayloadStore) :=
  match jsonb payload with
  | Err e => Err e
  | Ok text =>
      match d !! id with
      | Some _ => Err ErrUnique
      | None => Ok (tt, <[id := {| sy_ID := id; sy_Payload := text; sy_ExpiresAt := expiresAt; sy_ConsumedAt := None;
                                   sy_CreatedAt := now |}]> d)
      end
  end.

Section Service.
Context `{IpLiteral} `{Unicode} `{Jsonb} `{Env}.
Abbreviation W := (World PayloadStore).

(** [time.Now()]; [NOW()] is read with the statement. *)
Definition now_time : M W Z := let! now := now_ms in ret (now * 1000000).
Definition at_now {A} (f : Z -> PayloadStore -> res (A * PayloadStore)) : M W A :=
  fun w => exec (f (env_now (w_io w) * 1000000)) w.

Definition clampSignPayloadTTL (ttl : Z) : Z :=
  if ttl <=? 0 then signPayloadDefTTL else
  if ttl <? signPayloadMinTTL then signPayloadMinTTL else
  if signPayloadMaxTTL <? ttl then signPayloadMaxTTL else ttl.
Definition generateSignPayloadID : M W string :=
  let! b := wrap "read random bytes" (rand_bytes 16) in ret (signPayloadIDPrefix +:+ hex_encode b).
Definition Create (payload : string) (ttl : Z) : M W (string * Z) :=
  let ttl := clampSignPayloadTTL ttl in
  let! id := wrap "generate sign payload id" generateSignPayloadID in
  let! now := now_time in
  let expiresAt := now + ttl in
  let! _ := wrap "insert sign payload" (at_now (InsertSignPayload id payload expiresAt)) in
  ret (id, expiresAt).

Definition ValidateCallbackURL (callback : string) : res unit :=
  match url_Parse callback with
  | None => Err ErrSignPayloadCallbackInvalid
  | Some u =>
      if String.eqb (u_Scheme u) "" || String.eqb (u_Host u) "" then Err ErrSignPayloadCallbackInvalid else
      let scheme := to_lower (u_Scheme u) in
      if String.eqb scheme "https" then Ok tt else
      if String.eqb scheme "http" then
        let host := to_lower (Hostname u) in
        if String.eqb host "localhost" || String.eqb host "127.0.0.1" then Ok tt else Err ErrSignPayloadCallbackScheme
      else Err ErrSignPayloadCallbackScheme
  end.

Definition Consume (id : string) : M W SignPayload :=
  let! r := attempt (at_now (ConsumeSignPayload id)) in
  match r with
  | Ok row =>
      let! now := now_time in
      if sy_ExpiresAt row <? now then throw ErrSignPayloadExpired else
      ret {| sl_ID := sy_ID row; sl_Payload := sy_Payload row; sl_ExpiresAt := sy_ExpiresAt row; sl_CreatedAt := sy_CreatedAt row |}
  | Err e =>
      if negb (errors_is e ErrNoRows) then throw (Wrapf "consume sign payload" e) else
      let! existing := or_no_rows ErrSignPayloadNotFound "get sign payload" (query (GetSignPayload id)) in
      let! now := now_time in
      if sy_ExpiresAt existing <? now then throw ErrSignPayloadExpired else throw ErrSignPayloadConsumed
  end.
End Service.

(** ** signpayload.go *)
Section Handlers.
Context `{IpLiteral} `{Unicode} `{Jsonb} `{Env} `{JsonDoc} `{TimeFormat} `{Deployment}.
Abbreviation W := (World PayloadStore).

Definition optional (name value : string) : list (string * json) := if String.eqb value "" then [] else [(name, JStr value)].
Definition payload_body (network : string) (req : createSignPayloadRequest) : json :=
  JObj ([("network", JStr network); ("smartAccountAddress", JStr (cp_SmartAccountAddress req));
         ("unsignedTxXdr", JStr (cp_UnsignedTxXdr req)); ("callback", JStr (cp_Callback req));
         ("submit", JBool (default true (cp_Submit req)))]
        ++ optional "requestId" (cp_RequestID req) ++ optional "origin" (cp_Origin req))%list.
(** [time.Duration(n) * time.Second], in 64 bits *)
Definition requested_ttl (ttlSeconds : option Z) : Z :=
  match ttlSeconds with Some n => Amount.big_int64 (n * second) | None => 0 end.
Definition Create_handler (req : createSignPayloadRequest) : M W json :=
  let! _ := bound [cp_Network req; cp_SmartAccountAddress req; cp_UnsignedTxXdr req; cp_Callback req] in
  let! network := named_network webappx (cp_Network req) in
  let! _ := or_fail "400" "internal_error" (lift (ValidateCallbackURL (cp_Callback req))) in
  let! payload := or_fail "500" "internal_error" (lift (json_doc_text (payload_body network req))) in
  let! ' (payloadRef, expiresAt) := or_fail "500" "internal_error" (Create payload (requested_ttl (cp_TTLSeconds req))) in
  ret (JObj [("payloadRef", JStr payloadRef); ("expiresAt", JStr (rfc3339_format (expiresAt / 1000000)))]).

Definition signPayloadErrorResponse (e : error) : string * string :=
  answer_of [(ErrSignPayloadNotFound, ("404", "internal_error")); (ErrSignPayloadConsumed, ("404", "internal_error"));
             (ErrSignPayloadExpired, ("410", "internal_error"))] ("500", "internal_error") e.
Definition Get_handler (payloadRef : string) : M W json :=
  if negb (String.prefix "sp_" payloadRef) then fail "404" "internal_error" else
  let! sp := answered signPayloadErrorResponse (Consume payloadRef) in
  or_fail "500" "internal_error" (lift (json_doc (sl_Payload sp))).
End Handlers.

(** ** The demo counter *)
Section Counter.
Context `{StellarSDK} `{Network} `{Env} `{BuilderConfig} {D : Type}.
(** What the simulation does not answer counts as zero. *)
Definition GetValue : M (World D) Z :=
  let! val := wrap "simulate counter get" (simulateReadCall counterContractAddress "get" []) in
  match val with Some (ScvU32 n) => ret n | _ => ret 0 end.
Definition CounterGet_handler : M (World D) json :=
  let! value := or_fail "500" "internal_error" GetValue in ret (JObj [("value", JNum value)]).
End Counter.
End SignPayload.
