(* ===== verification/SignPayloadTheorems.v ===== *)
(** * What becomes of a payload handed over for signing (theorems about SignPayload.v)

    It is read once, it is what was stored, it lives between a minute and an
    hour, and its signature goes to a secure or a local address. *)

From S2P Require Export SignPayload SignerTheorems.
From S2P Require Import Instances.

#[local] Unset Default Proof Using.

Module SignPayloadTheorems.
Import NetUrl Rpid Assets Deploynet Routes AccountSigners SignerTheorems SignPayload.

(** ** Rows stay *)
Definition row_kept (r r' : SignPayloadRow) : Prop :=
  sy_ID r' = sy_ID r /\ sy_Payload r' = sy_Payload r /\ sy_ExpiresAt r' = sy_ExpiresAt r /\
  (is_Some (sy_ConsumedAt r) -> r' = r).
Definition rows_kept (d d' : PayloadStore) : Prop :=
  forall id r, d !! id = Some r -> exists r', d' !! id = Some r' /\ row_kept r r'.
#[export] Instance rows_kept_refl : Reflexive rows_kept.
Proof. intros d id r Hr. exists r. done. Qed.
#[export] Instance rows_kept_trans : Transitive rows_kept.
Proof.
  intros a b c Hab Hbc id r Hr. apply Hab in Hr as (r1 & Hr & E1 & E2 & E3 & E4).
  apply Hbc in Hr as (r2 & Hr & F1 & F2 & F3 & F4). exists r2. split; [done|].
  split; [congruence|]. split; [congruence|]. split; [congruence|].
  intros Hs. rewrite <- (E4 Hs). apply F4. by rewrite (E4 Hs).
Qed.

Section Steps.
Context `{IpLiteral} `{Unicode} `{Jsonb} `{Env} `{JsonDoc} `{TimeFormat} `{Deployment}.
Abbreviation W := (World PayloadStore).

Lemma consume_kept id now d a d' : ConsumeSignPayload id now d = Ok (a, d') -> rows_kept d d'.
Proof.
  unfold ConsumeSignPayload. destruct (d !! id) as [r|] eqn:E; [|done].
  destruct (sy_ConsumedAt r) eqn:Ec; [done|]. intros [= _ <-] k r0 Hk.
  destruct (decide (k = id)) as [->|Hne].
  - rewrite lookup_insert_eq. exists (consumed_row now r). rewrite E in Hk. injection Hk as <-.
    split; [done|]. split; [done|]. split; [done|]. split; [done|]. rewrite Ec. intros [? [=]].
  - exists r0. rewrite lookup_insert_ne by done. done.
Qed.
Lemma insert_kept id p e now d a d' : InsertSignPayload id p e now d = Ok (a, d') -> rows_kept d d'.
Proof.
  unfold InsertSignPayload. destruct (jsonb p); [|done]. destruct (d !! id) as [r|] eqn:E; [done|].
  intros [= _ <-] k r0 Hk. exists r0. rewrite lookup_insert_ne by congruence. done.
Qed.
Lemma keeps_at_now (R : PayloadStore -> PayloadStore -> Prop) `{!Reflexive R} `{!Transitive R}
    {A} (f : Z -> PayloadStore -> res (A * PayloadStore)) :
  (forall now d a d', f now d = Ok (a, d') -> R d d') -> keeps (on_store R) (at_now f).
Proof. intros Hf w. unfold at_now. apply (keeps_exec R). intros d a d2 E. by eapply Hf. Qed.
Lemma keeps_create p ttl : keeps (on_store rows_kept) (Create p ttl).
Proof.
  unfold Create, generateSignPayloadID, now_time. cbv zeta. keeps; apply keeps_at_now; try apply _; intros; by eapply insert_kept.
Qed.
Lemma keeps_consume id : keeps (on_store rows_kept) (Consume id).
Proof.
  unfold Consume, now_time, or_no_rows. keeps; apply keeps_at_now; try apply _; intros; by eapply consume_kept.
Qed.
Hint Resolve keeps_create keeps_consume : keeps.

(** The two routes, answered or refused. *)
Inductive payload_step (held : string -> Prop) : W -> W -> Prop :=
  | step_create req w : payload_step held w (snd (Create_handler req w))
  | step_get ref w : ~ held ref -> payload_step held w (snd (Get_handler ref w)).

Lemma keeps_create_handler req : keeps (on_store rows_kept) (Create_handler req).
Proof. unfold Create_handler, bound, bad_body, named_network, or_fail, fail. keeps. Qed.
Lemma keeps_get_handler ref : keeps (on_store rows_kept) (Get_handler ref).
Proof. unfold Get_handler, answered, or_fail, fail. keeps. Qed.
Lemma steps_keep held (w w' : W) : rtc (payload_step held) w w' -> rows_kept (w_store w) (w_store w').
Proof.
  induction 1 as [|w1 w2 w3 Hs _ IH]; [reflexivity|]. etrans; [|exact IH].
  destruct Hs as [req w|ref w _]; [apply keeps_create_handler|apply keeps_get_handler].
Qed.

(** ** Reading *)
Definition taken (id : string) (r : SignPayloadRow) (w : W) (p : SignPayload) (w' : W) : Prop :=
  w_store w !! id = Some r /\ sy_ConsumedAt r = None /\
  p = {| sl_ID := sy_ID r; sl_Payload := sy_Payload r; sl_ExpiresAt := sy_ExpiresAt r; sl_CreatedAt := sy_CreatedAt r |} /\
  env_now (S (w_io w)) * 1000000 <= sy_ExpiresAt r /\ exists now, w_store w' = <[id := consumed_row now r]> (w_store w).
Lemma Consume_ok id w p w' : Consume id w = (Ok p, w') -> exists r, taken id r w p w'.
Proof.
  intros Hr. unfold Consume in Hr. apply bind_ok in Hr as (r & w1 & Ha & Hr). apply (proj1 (attempt_ok _ _ _ _)) in Ha.
  destruct r as [row|e].
  - unfold at_now in Ha. apply exec_ok in Ha as (_ & d & Hc & ->).
    unfold ConsumeSignPayload in Hc. destruct (w_store w !! id) as [r|] eqn:E; [|done].
    destruct (sy_ConsumedAt r) eqn:Ec; [done|]. injection Hc as <- <-.
    unfold now_time in Hr. run_inv. cbn [consumed_row sy_ExpiresAt] in Hr.
    destruct (Z.ltb_spec (sy_ExpiresAt r) (env_now (w_io (tick (put_store (<[id:=consumed_row (env_now (w_io w) * 1000000) r]> (w_store w)) w))) * 1000000));
      run_inv. exists r. split; [done|]. split; [done|]. split; [done|]. split; [done|by eexists].
  - destruct (errors_is e ErrNoRows); cbn [negb] in Hr; [|done].
    apply bind_ok in Hr as (ex & w2 & _ & Hr). unfold now_time in Hr. run_inv. by destruct (_ <? _).
Qed.
(** A row that was taken, or that the read found out of date, is not given again. *)
Definition spent (id : string) (d : PayloadStore) : Prop := exists r, d !! id = Some r /\ is_Some (sy_ConsumedAt r).
Lemma payload_spent_err id w p w' : spent id (w_store w) -> Consume id w <> (Ok p, w').
Proof. intros (r & Hr & Hs) E. apply Consume_ok in E as (r' & Hr' & Hn & _). rewrite Hr in Hr'. injection Hr' as <-. rewrite Hn in Hs. by apply is_Some_None in Hs. Qed.
Lemma spent_kept id d d' : rows_kept d d' -> spent id d -> spent id d'.
Proof.
  intros Hk (r & Hr & Hs). destruct (Hk _ _ Hr) as (r' & Hr' & _ & _ & _ & E). rewrite (E Hs) in Hr'. by exists r.
Qed.
Lemma Consume_answers id w r w' : Consume id w = (r, w') -> (exists p, r = Ok p) \/ r = Err ErrSignPayloadExpired -> spent id (w_store w').
Proof.
  intros Hr [[p ->]| ->].
  - apply Consume_ok in Hr as (row & _ & _ & _ & _ & now & ->). exists (consumed_row now row).
    rewrite lookup_insert_eq. split; [done|]. by eexists.
  - unfold Consume in Hr. apply bind_err in Hr as [Hr|(r & w1 & Ha & Hr)]; [unfold attempt in Hr; by destruct (at_now _ w)|]. apply (proj1 (attempt_ok _ _ _ _)) in Ha.
    destruct r as [row|e].
    + unfold at_now in Ha. apply exec_ok in Ha as (_ & d & Hc & ->).
      unfold ConsumeSignPayload in Hc. destruct (w_store w !! id) as [r|] eqn:E; [|done].
      destruct (sy_ConsumedAt r) eqn:Ec; [done|]. injection Hc as <- <-.
      unfold now_time, bind, now_ms, ret, throw in Hr. destruct (_ <? _); [|done]. injection Hr as <-.
      cbn. exists (consumed_row (env_now (w_io w) * 1000000) r). rewrite lookup_insert_eq. split; [done|by eexists].
    + destruct (errors_is e ErrNoRows) eqn:Ee; cbn [negb] in Hr; [|discriminate Hr].
      unfold at_now in Ha. apply exec_err in Ha as [Hw [->|Hc]]; [discriminate Ee|].
      apply bind_err in Hr as [Hr|(ex & w2 & Hq & Hr)].
      { apply or_no_rows_query_err in Hr; [by destruct Hr|].
        intros x. unfold GetSignPayload. destruct (_ !! _); [done|]. by intros [= <-]. }
      apply (proj1 (or_no_rows_ok _ _ _ _ _ _)) in Hq. apply query_ok in Hq as (_ & Hg & ->).
      unfold now_time, bind, now_ms, ret, throw in Hr. destruct (_ <? _); [|done]. injection Hr as <-.
      cbn. rewrite Hw in *. unfold GetSignPayload in Hg. unfold ConsumeSignPayload in Hc.
      destruct (w_store w !! id) as [r|] eqn:E; [|done]. exists r. split; [done|].
      destruct (sy_ConsumedAt r); [by eexists|done].
Qed.
End Steps.

(** ** What was stored *)
Section Stored.
Context `{IpLiteral} `{Unicode} `{Jsonb} `{Env} `{JsonDoc} `{TimeFormat} `{Deployment}.
Abbreviation W := (World PayloadStore).

Definition stored_row (id text : string) (exp created : Z) : SignPayloadRow :=
  {| sy_ID := id; sy_Payload := text; sy_ExpiresAt := exp; sy_ConsumedAt := None; sy_CreatedAt := created |}.
Lemma Create_ok payload ttl w id exp w' : Create payload ttl w = (Ok (id, exp), w') ->
  exists raw text created, id = signPayloadIDPrefix +:+ hex_encode raw /\ exp = env_now (S (w_io w)) * 1000000 + clampSignPayloadTTL ttl /\
    jsonb payload = Ok text /\ w_store w !! id = None /\ w_store w' = <[id := stored_row id text exp created]> (w_store w).
Proof.
  unfold Create, generateSignPayloadID, now_time. cbv zeta. intros Hr. run_inv.
  match goal with H : at_now _ _ = _ |- _ => unfold at_now in H; apply exec_ok in H as (_ & d & Hi & ->) end.
  unfold InsertSignPayload in Hi. destruct (jsonb payload) as [text|] eqn:Ej; [|done].
  match type of Hi with context [?d !! ?k] => destruct (d !! k) eqn:Ed; [done|] end. injection Hi; intros; subst.
  match goal with H : (_, _) = (id, exp) |- _ => injection H as <- <- end.
  do 3 eexists. split; [reflexivity|]. split; [reflexivity|]. split; [reflexivity|]. split; [exact Ed|reflexivity].
Qed.
Lemma Create_handler_ok req w j w' : Create_handler req w = (Ok j, w') ->
  exists network payload id exp, ParseNetwork (cp_Network req) = Ok network /\ ValidateCallbackURL (cp_Callback req) = Ok tt /\
    json_doc_text (payload_body network req) = Ok payload /\
    Create payload (requested_ttl (cp_TTLSeconds req)) w = (Ok (id, exp), w') /\
    j = JObj [("payloadRef", JStr id); ("expiresAt", JStr (rfc3339_format (exp / 1000000)))].
Proof.
  unfold Create_handler. intros Hr. apply bind_ok in Hr as (u & w1 & Hb & Hr).
  assert (w1 = w) as -> by (unfold bound, bad_body, fail in Hb; destruct (existsb _ _); [done|by injection Hb as _ <-]).
  apply bind_ok in Hr as (network & w1 & Hn & Hr). apply named_network_ok in Hn as [Hn ->].
  apply bind_ok in Hr as (v & w1 & Hv & Hr). apply or_fail_ok, lift_ok in Hv as [Hv <-].
  apply bind_ok in Hr as (payload & w1 & Hp & Hr). apply or_fail_ok, lift_ok in Hp as [Hp <-].
  apply bind_ok in Hr as ([id exp] & w1 & Hc & Hr). apply or_fail_ok in Hc.
  injection Hr as <- <-. destruct v. exists network, payload, id, exp. done.
Qed.

(** While a payload is held by its reference, other requests leave its row alone. *)
Definition held_kept (ref : string) (d d' : PayloadStore) : Prop := forall r, d !! ref = Some r -> d' !! ref = Some r.
#[local] Instance held_kept_refl ref : Reflexive (held_kept ref).
Proof. by intros d r. Qed.
#[local] Instance held_kept_trans ref : Transitive (held_kept ref).
Proof. intros a b c Hab Hbc r Hr. by apply Hbc, Hab. Qed.
Lemma held_create ref req : keeps (on_store (held_kept ref)) (Create_handler req).
Proof.
  unfold Create_handler, Create, generateSignPayloadID, now_time, bound, bad_body, named_network, or_fail, fail. cbv zeta. keeps.
  apply keeps_at_now; try apply _. intros now d v d' E r Hr. unfold InsertSignPayload in E.
  destruct (jsonb _); [|done]. destruct (d !! _) eqn:Ed; [done|]. injection E as _ <-. by rewrite lookup_insert_ne by congruence.
Qed.
Lemma held_get ref ref' : ref <> ref' -> keeps (on_store (held_kept ref)) (Get_handler ref').
Proof.
  intros Hne. unfold Get_handler, Consume, now_time, or_no_rows, answered, or_fail, fail. keeps.
  apply keeps_at_now; try apply _. intros now d v d' E r Hr. unfold ConsumeSignPayload in E.
  destruct (d !! ref'); [|done]. destruct (sy_ConsumedAt _); [done|]. injection E as _ <-. by rewrite lookup_insert_ne by congruence.
Qed.
Lemma steps_hold ref (w w' : W) : rtc (payload_step (eq ref)) w w' -> held_kept ref (w_store w) (w_store w').
Proof.
  induction 1 as [|w1 w2 w3 Hs _ IH]; [reflexivity|]. etrans; [|exact IH].
  destruct Hs as [req w|ref' w Hne]; [apply held_create|by apply held_get].
Qed.
End Stored.

(** ** Where the signature goes *)
Lemma cut_at_split c s a b found : cut_at c s = (a, b, found) ->
  str_forall (fun d => negb (Ascii.eqb c d)) a = true /\ s = a +:+ (if found then String c b else "") /\ (found = false -> b = "").
Proof.
  revert a b. induction s as [|d s IH]; intros a b; cbn; [by intros [= <- <- <-]|].
  destruct (Ascii.eqb_spec c d) as [->|Hne]; [by intros [= <- <- <-]|].
  destruct (cut_at c s) as [[a' b'] f] eqn:E. intros [= <- <- <-]. destruct (IH _ _ eq_refl) as (Hf & -> & Hb).
  cbn. split; [|by split]. apply andb_true_iff. split; [|done]. apply negb_true_iff. by apply Ascii.eqb_neq.
Qed.
Lemma scan_scheme_split raw seen s scheme rest : scan_scheme raw seen s = Some (scheme, rest) -> raw = seen +:+ s ->
  (scheme = "" /\ rest = raw) \/ raw = scheme +:+ ":" +:+ rest.
Proof.
  revert seen. induction s as [|c s IH]; intros seen; cbn [scan_scheme]; [intros [= <- <-] _; by left|].
  intros Hs Hr. assert (raw = (seen +:+ String c "") +:+ s) as Hr' by (rewrite Hr; by rewrite str_app_assoc).
  destruct (letter c); [by eapply IH|]. destruct (is_digit c || _).
  - destruct (String.eqb seen ""); [injection Hs as <- <-; by left|by eapply IH].
  - destruct (Ascii.eqb_spec c ":") as [->|_]; [|injection Hs as <- <-; by left].
    destruct (String.eqb seen ""); [done|]. injection Hs as <- <-. by right.
Qed.

(** The host a URL names, as the client that posts to it reads it: between the
    slashes, after the user. *)
Definition ends (tail : string) : Prop := tail = "" \/ exists c t, tail = String c t /\ c ∈ ["/"; "?"; "#"]%char.
Definition addressed (callback scheme host : string) : Prop :=
  exists authority tail, callback = scheme +:+ "://" +:+ authority +:+ tail /\ ends tail /\
    str_forall (fun c => negb (Ascii.eqb "/" c || Ascii.eqb "?" c || Ascii.eqb "#" c)) authority = true /\
    host = snd (cut_last "@" authority).
Definition this_computer `{Unicode} (host : string) : Prop := to_lower host = "localhost" \/ to_lower host = "127.0.0.1".

Section Address.
Context `{IpLiteral} `{Unicode}.
Lemma scan_scheme_ascii raw seen s scheme rest : scan_scheme raw seen s = Some (scheme, rest) -> is_ascii seen = true -> is_ascii scheme = true.
Proof.
  revert seen. induction s as [|c s IH]; intros seen; cbn [scan_scheme]; [by intros [= <- _]|].
  assert (letter c || (is_digit c || existsb (Ascii.eqb c) (list_ascii_of_string "+-.")) = true -> is_ascii seen = true ->
          is_ascii (seen +:+ String c "") = true) as Hc.
  { intros Hl Hs. unfold is_ascii. rewrite str_forall_app. unfold is_ascii in Hs. rewrite Hs. cbn. rewrite andb_true_r.
    destruct c as [[] [] [] [] [] [] [] []]; try reflexivity; vm_compute in Hl; discriminate. }
  destruct (letter c); [intros Hs Ha; eapply IH; [exact Hs|by apply Hc]|].
  destruct (is_digit c || _).
  - destruct (String.eqb seen ""); [by intros [= <- _]|]. intros Hs Ha. eapply IH; [exact Hs|by apply Hc].
  - destruct (Ascii.eqb c ":"); [|by intros [= <- _]]. destruct (String.eqb seen ""); [done|]. by intros [= <- _].
Qed.
Lemma forall_and p q s : str_forall p s = true -> str_forall q s = true -> str_forall (fun c => p c && q c) s = true.
Proof. induction s as [|c s IH]; cbn; [done|]. rewrite !andb_true_iff. intros [-> Hp] [-> Hq]. by rewrite IH. Qed.
Lemma prefix_char_inv c s : String.prefix (String c "") s = true -> exists s', s = String c s'.
Proof. intros Hp. apply prefix_inv in Hp as [s' ->]. by exists s'. Qed.
Lemma tail_ends (p q f : string) (fq ff : bool) : p = "" \/ (exists t, p = String "/" t) ->
  ends (p +:+ (if fq then String "?" q else "") +:+ (if ff then String "#" f else "")).
Proof.
  intros [->|[t ->]]; [|right; eexists _, _; split; [reflexivity|set_solver]]. cbn.
  destruct fq; [right; eexists _, _; split; [reflexivity|set_solver]|]. cbn.
  destruct ff; [right; eexists _, _; split; [reflexivity|set_solver]|by left].
Qed.
Lemma split_path_spec s authority path : split_path s = (authority, path) ->
  s = authority +:+ path /\ str_forall (fun d => negb (Ascii.eqb "/" d)) authority = true /\
  (path = "" \/ exists t, path = String "/" t).
Proof.
  unfold split_path. destruct (cut_at "/" s) as [[a b] found] eqn:E. intros [= <- <-].
  apply cut_at_split in E as (Hf & -> & _). split; [done|]. split; [done|]. destruct found; [right; by eexists|by left].
Qed.
Lemma Parse_addressed callback u : url_Parse callback = Some u -> u_Scheme u <> "" -> u_Host u <> "" ->
  exists scheme host, addressed callback scheme host /\ is_ascii scheme = true /\ u_Scheme u = to_lower scheme /\ parseHost host = Some (u_Host u).
Proof.
  unfold url_Parse. destruct (cut_at "#" callback) as [[v fragment] ff] eqn:Ef. intros Hu Hs Hh.
  apply cut_at_split in Ef as (Hnf & -> & _).
  destruct (parse v) as [u'|] eqn:Ep; [|done]. destruct (_ || _); [|done]. injection Hu as <-.
  unfold parse in Ep. destruct (negb (str_forall _ _)); [done|].
  destruct (String.eqb v "*"); [by injection Ep as <-|].
  destruct (getScheme v) as [[scheme rest]|] eqn:Es; [|done]. cbv zeta in Ep.
  destruct (cut_at "?" rest) as [[r query] fq] eqn:Eq. apply cut_at_split in Eq as (Hnq & -> & _).
  destruct (negb (String.prefix "/" r) && _); [by injection Ep as <-|].
  destruct (negb (String.prefix "/" r) && _); [done|].
  destruct (_ && _) eqn:Ec; [|destruct (escapes_ok r); [by injection Ep as <-|done]].
  destruct (split_path (str_drop 2 r)) as [authority path] eqn:Epa.
  apply andb_true_iff in Ec as [_ Hp]. apply prefix_inv in Hp as [r' ->]. rewrite (str_drop_app "//") in Epa.
  apply split_path_spec in Epa as (-> & Hna & Hpath).
  destruct (parseAuthority authority) as [host|] eqn:Eh; [|done].
  destruct (escapes_ok path); [|done]. injection Ep as <-. cbn [u_Scheme u_Host] in *.
  exists scheme, (snd (cut_last "@" authority)). split; [|split; [|split; [done|]]].
  - exists authority, (path +:+ (if fq then String "?" query else "") +:+ (if ff then String "#" fragment else "")).
    unfold getScheme in Es. pose proof (scan_scheme_split _ _ _ _ _ Es eq_refl) as [[-> _]| ->]; [done|].
    repeat split.
    + rewrite !str_app_assoc. reflexivity.
    + by apply tail_ends.
    + rewrite !str_app_assoc in Hnf. rewrite !str_forall_app in Hnq, Hnf. rewrite !andb_true_iff in Hnq, Hnf.
      destruct Hnf as (_ & _ & Hau). cbn in Hau. rewrite str_forall_app in Hau.
      apply andb_true_iff in Hau as [Hau _].
      pose proof (forall_and _ _ _ Hna (proj1 (proj2 Hnq))) as Hb.
      pose proof (forall_and _ _ _ Hb Hau) as Hb2.
      revert Hb2. apply str_forall_impl. intros c. rewrite !negb_orb. done.
  - by eapply (scan_scheme_ascii v "").
  - unfold parseAuthority in Eh. destruct (cut_last "@" authority) as [user hostport]. cbn [snd].
    destruct (parseHost hostport); [|done]. destruct user; [destruct (_ && _)|]; [|done|]; by injection Eh as ->.
Qed.
End Address.

(** ** The properties *)
Section Properties.
Context `{IpLiteral} `{Unicode} `{Jsonb} `{Env} `{JsonDoc} `{TimeFormat} `{Deployment}.
Abbreviation W := (World PayloadStore).

Definition confined (callback : string) : Prop := exists scheme host h,
  addressed callback scheme host /\ parseHost host = Some h /\ h <> "" /\
  (to_lower scheme = "https" \/
   to_lower scheme = "http" /\ this_computer (Hostname {| u_Scheme := to_lower scheme; u_Host := h |})).
Lemma callback_confined callback : ValidateCallbackURL callback = Ok tt -> confined callback.
Proof.
  unfold ValidateCallbackURL. destruct (url_Parse callback) as [u|] eqn:E; [|done].
  destruct (String.eqb_spec (u_Scheme u) ""); [done|]. destruct (String.eqb_spec (u_Host u) ""); [done|]. cbn [orb].
  apply Parse_addressed in E as (scheme & host & Ha & Hi & Hs & Hp); [|done..].
  intros Hv. exists scheme, host, (u_Host u). split; [done|]. split; [done|]. split; [done|].
  rewrite Hs, Signers.Signers.to_lower_ascii_idemp in Hv by done.
  destruct (String.eqb_spec (to_lower scheme) "https"); [by left|].
  destruct (String.eqb_spec (to_lower scheme) "http"); [|done]. right. split; [done|]. unfold this_computer.
  assert (Hostname u = Hostname {| u_Scheme := to_lower scheme; u_Host := u_Host u |}) as Hhu by done. rewrite <- Hhu.
  destruct (String.eqb_spec (to_lower (Hostname u)) "localhost"); [by left|].
  destruct (String.eqb_spec (to_lower (Hostname u)) "127.0.0.1"); [by right|done].
Qed.
Lemma clamp_between ttl : signPayloadMinTTL <= clampSignPayloadTTL ttl <= signPayloadMaxTTL.
Proof.
  unfold clampSignPayloadTTL, signPayloadMinTTL, signPayloadMaxTTL, signPayloadDefTTL, second.
  repeat case_match; lia.
Qed.
Lemma clamp_requested n : 60 <= n <= 3600 -> clampSignPayloadTTL (requested_ttl (Some n)) = n * second.
Proof.
  intros Hn. cbn. unfold Amount.Amount.big_int64.
  rewrite Z.mod_small by (unfold second, Amount.Amount.two64; lia).
  unfold clampSignPayloadTTL, signPayloadMinTTL, signPayloadMaxTTL, second, Amount.Amount.two63.
  repeat case_match; lia.
Qed.

Lemma payload_live_ok ref row (w : W) : env_fault (w_io w) = false -> w_store w !! ref = Some row -> sy_ConsumedAt row = None ->
  env_now (S (w_io w)) * 1000000 <= sy_ExpiresAt row ->
  exists w', Consume ref w = (Ok {| sl_ID := sy_ID row; sl_Payload := sy_Payload row; sl_ExpiresAt := sy_ExpiresAt row;
                                    sl_CreatedAt := sy_CreatedAt row |}, w').
Proof.
  intros Hf Hrow Hn Ht. unfold Consume, at_now, attempt, exec, bind. rewrite Hf. unfold ConsumeSignPayload. rewrite Hrow, Hn.
  cbn -[Z.mul]. destruct (Z.ltb_spec (sy_ExpiresAt row) (env_now (S (w_io w)) * 1000000)); [lia|]. by eexists.
Qed.
Lemma answered_run {A} errors (m : M W A) a w w' : m w = (Ok a, w') -> answered errors m w = (Ok a, w').
Proof. intros E. unfold answered, bind, attempt. by rewrite E. Qed.

(** A payload is accepted only with a callback that is an https URL, or an http
    URL whose host — what stands between the slashes and the path, after any user —
    is this computer. It is stored under a new reference, unread, for at least a
    minute and at most an hour, whatever number of seconds was asked for (64-bit
    overflow included): exactly that number when it is in the range. *)
Theorem payload_offered req w j w' : Create_handler req w = (Ok j, w') ->
  confined (cp_Callback req) /\
  exists ref row network text, j = JObj [("payloadRef", JStr ref); ("expiresAt", JStr (rfc3339_format (sy_ExpiresAt row / 1000000)))] /\
    String.prefix "sp_" ref = true /\ w_store w !! ref = None /\ w_store w' = <[ref := row]> (w_store w) /\
    sy_ConsumedAt row = None /\ ParseNetwork (cp_Network req) = Ok network /\
    json_doc_text (payload_body network req) = Ok text /\ jsonb text = Ok (sy_Payload row) /\
    60 * second <= sy_ExpiresAt row - env_now (S (w_io w)) * 1000000 <= 3600 * second /\
    (forall s, cp_TTLSeconds req = Some s -> 60 <= s <= 3600 -> sy_ExpiresAt row = env_now (S (w_io w)) * 1000000 + s * second) /\
    (cp_TTLSeconds req = None -> sy_ExpiresAt row = env_now (S (w_io w)) * 1000000 + 600 * second).
Proof.
  intros Hr. apply Create_handler_ok in Hr as (network & payload & id & exp & Hn & Hv & Hp & Hc & ->).
  split; [by apply callback_confined|]. apply Create_ok in Hc as (raw & text & created & -> & -> & Hj & Hnone & Hw).
  eexists _, _, network, payload. split; [|split; [|split; [exact Hnone|split; [exact Hw|]]]]; [reflexivity| |].
  - apply (GoStrings.prefix_app "sp_").
  - cbn [stored_row sy_ConsumedAt sy_Payload sy_ExpiresAt]. split; [done|]. split; [done|]. split; [done|]. split; [done|].
    pose proof (clamp_between (requested_ttl (cp_TTLSeconds req))) as Hb. unfold signPayloadMinTTL, signPayloadMaxTTL in Hb.
    split; [lia|]. split; [|by intros ->].
    intros s Hs Hr. rewrite Hs. rewrite (clamp_requested s Hr). done.
Qed.

(** C21. A reference is good for one reading: once its payload was handed out, or found
    out of date, no later request for it succeeds, whatever other requests come in
    between; and what was handed out was stored under it, unread and not expired. *)
Theorem payload_single_use ref w r w1 w2 j w3 :
  Consume ref w = (r, w1) -> (exists p, r = Ok p) \/ r = Err ErrSignPayloadExpired ->
  rtc (payload_step (fun _ => False)) w1 w2 ->
  (forall p, r = Ok p -> exists row, taken ref row w p w1) /\ Get_handler ref w2 <> (Ok j, w3).
Proof.
  intros Hr Ha Hs. split; [intros p ->; by apply Consume_ok|].
  apply Consume_answers in Hr; [|done]. apply (spent_kept _ _ _ (steps_keep _ _ _ Hs)) in Hr.
  unfold Get_handler. destruct (negb _); [done|]. intros Hg. apply bind_ok in Hg as (p & w4 & Hc & _).
  unfold answered in Hc. apply bind_ok in Hc as (x & w5 & Hc & Hx). apply (proj1 (attempt_ok _ _ _ _)) in Hc.
  destruct x as [q|e]; [|done]. by eapply payload_spent_err.
Qed.

(** C20. Whoever holds the reference reads what was stored: until someone asks for it,
    and while it has not expired, the request for it answers with the network, the
    account, the transaction, the callback and the options of the request that
    stored it. *)
Theorem payload_round_trip req w j w1 :
  Create_handler req w = (Ok j, w1) ->
  (forall network text kept, ParseNetwork (cp_Network req) = Ok network -> json_doc_text (payload_body network req) = Ok text -> jsonb text = Ok kept ->
     json_doc kept = Ok (payload_body network req)) ->
  exists ref exp network, ParseNetwork (cp_Network req) = Ok network /\
    j = JObj [("payloadRef", JStr ref); ("expiresAt", JStr (rfc3339_format (exp / 1000000)))] /\
    forall w2, rtc (payload_step (eq ref)) w1 w2 -> env_fault (w_io w2) = false -> env_now (S (w_io w2)) * 1000000 <= exp ->
      exists w3, Get_handler ref w2 = (Ok (payload_body network req), w3).
Proof.
  intros Hr Hjson. apply Create_handler_ok in Hr as (network & payload & id & exp & Hn & Hv & Hp & Hc & ->).
  exists id, exp, network. split; [done|]. split; [done|]. intros w2 Hs Hf Ht.
  apply Create_ok in Hc as (raw & text & created & -> & -> & Hj & Hnone & Hw).
  assert (w_store w2 !! (signPayloadIDPrefix +:+ hex_encode raw) =
    Some (stored_row (signPayloadIDPrefix +:+ hex_encode raw) text (env_now (S (w_io w)) * 1000000 + clampSignPayloadTTL (requested_ttl (cp_TTLSeconds req))) created)) as Hrow.
  { apply (steps_hold _ _ _ Hs). by rewrite Hw, lookup_insert_eq. }
  set (ref := signPayloadIDPrefix +:+ hex_encode raw) in *.
  unfold Get_handler. assert (String.prefix "sp_" ref = true) as -> by apply (GoStrings.prefix_app "sp_"). cbn [negb].
  destruct (payload_live_ok ref _ w2 Hf Hrow eq_refl Ht) as [w3 Hc]. exists w3.
  rewrite (bind_run _ _ _ _ _ (answered_run _ _ _ _ _ Hc)). unfold or_fail, lift, attempt, bind, ret. cbn [sl_Payload stored_row sy_Payload].
  by rewrite (Hjson _ _ _ Hn Hp Hj).
Qed.
End Properties.

Section Witnesses.
Import Demo.
#[local] Instance no_literals : IpLiteral := {| ip_literal h := None |}.
#[local] Instance text_column : Jsonb := {| jsonb s := Ok s |}.
#[local] Instance payload_env : Env := {|
  env_now n := 1000 + Z.of_nat n; env_uuid n := N.of_nat n; env_rand n k := Ok (pretty (N.of_nat n)); env_fault n := false |}.
#[local] Instance on_testnet : Deployment := {| Get := "testnet"; Get_valid := or_intror (or_introl eq_refl) |}.
#[local] Instance plain_times : TimeFormat := {| rfc3339_format z := pretty z; rfc3339_parse s := Err (Errorf "time") |}.
(** Objects of strings and booleans, as a list of names and marked values. *)
Fixpoint fields_of (l : list string) : res (list (string * json)) :=
  match l with
  | [] => Ok []
  | name :: value :: l' =>
      let? fields := fields_of l' in
      Ok ((name, match value with String "s" v => JStr v | "t" => JBool true | _ => JBool false end) :: fields)
  | _ => Err (Errorf "json")
  end.
#[local] Instance objects : JsonDoc := {|
  json_doc s := match split_all s with Some l => let? f := fields_of l in Ok (JObj f) | None => Err (Errorf "json") end;
  json_doc_text j := match j with
    | JObj f => Ok (join (concat ((fun x => [fst x; match snd x with JStr v => String "s" v | JBool true => "t" | _ => "f" end]) <$> f)))
    | _ => Err (Errorf "json") end |}.

Definition a_request : createSignPayloadRequest :=
  {| cp_Network := "testnet"; cp_SmartAccountAddress := "CA"; cp_UnsignedTxXdr := "AAAA"; cp_Callback := "http://me@LocalHost:3000/done?x=1";
     cp_RequestID := "r1"; cp_Origin := ""; cp_Submit := Some false; cp_TTLSeconds := Some 18446744074 |}.
Definition payloads0 : World PayloadStore := MkWorld ∅ 0.
Definition offered := Create_handler a_request payloads0.
Definition the_ref : string := "sp_" +:+ hex_encode "0".

Lemma payload_offered_witness : exists j w', offered = (Ok j, w') /\ confined (cp_Callback a_request) /\
  exists ref row, w_store w' = <[ref := row]> ∅ /\ 60 * second <= sy_ExpiresAt row - 1001 * 1000000 <= 3600 * second.
Proof.
  destruct (succeeds (Create_handler a_request) payloads0) as (j & w' & E); [vm_compute; reflexivity|]. exists j, w'. split; [exact E|].
  destruct (payload_offered a_request payloads0 j w' E) as (Hc & ref & row & network & text & _ & _ & _ & Hw & _ & _ & _ & _ & Ht & _).
  split; [exact Hc|]. exists ref, row. split; [exact Hw|exact Ht].
Defined.
Definition the_reading := Consume the_ref (snd offered).
Lemma payload_single_use_witness : exists p w1, the_reading = (Ok p, w1) /\ (exists row, taken the_ref row (snd offered) p w1) /\
  forall w2 j w3, rtc (payload_step (fun _ => False)) w1 w2 -> Get_handler the_ref w2 <> (Ok j, w3).
Proof.
  destruct (succeeds (Consume the_ref) (snd offered)) as (p & w1 & E); [vm_compute; reflexivity|]. exists p, w1. split; [exact E|]. split.
  - by apply (proj1 (payload_single_use the_ref _ _ w1 w1 JNull w1 E (or_introl (ex_intro _ p eq_refl)) (rtc_refl _ _)) p).
  - intros w2 j w3 Hs. exact (proj2 (payload_single_use the_ref _ _ w1 w2 j w3 E (or_introl (ex_intro _ p eq_refl)) Hs)).
Defined.
Lemma payload_round_trip_witness : exists j w1, offered = (Ok j, w1) /\
  exists w3, Get_handler the_ref w1 = (Ok (payload_body "testnet" a_request), w3).
Proof.
  destruct (succeeds (Create_handler a_request) payloads0) as (j & w1 & E); [vm_compute; reflexivity|]. exists j, w1. split; [exact E|].
  destruct (payload_round_trip a_request payloads0 j w1 E) as (ref & exp & network & Hn & Hj & Hall).
  - intros network text kept Hn Ht Hk. vm_compute in Hn. injection Hn as <-. vm_compute in Ht. injection Ht as <-.
    vm_compute in Hk. injection Hk as <-. vm_compute. reflexivity.
  - vm_compute in Hn. injection Hn as <-.
    pose proof (f_equal (fun x => (fst x, w_io (snd x))) E) as Ev. vm_compute in Ev. injection Ev as Ej Ew.
    rewrite <- Ej in Hj. injection Hj as Hr He. rewrite <- Hr in Hall.
    apply Hall; [apply rtc_refl|reflexivity|].
    assert (exp / 1000000 = 61001) as Hd by (apply (inj pretty); exact (eq_sym He)).
    assert (w_io w1 = 3%nat) as -> by exact (eq_sym Ew). cbn [env_now payload_env]. pose proof (Z.mul_div_le exp 1000000). lia.
Defined.
End Witnesses.
End SignPayloadTheorems.
