(* ===== verification/WebRoutes.v ===== *)
(** * The remaining routes of the web app (handler/webapp/accounts.go, smartaccount.go, recovery.go, notification.go) and its notifications (notification_service.go)

    Which accounts a session may list, addresses and deployments from key
    material, rules and balances of an account, the intent to add a backup
    passkey, and the feed of a user's notifications. *)

From S2P Require Export CeremonyRoutes MobileRoutes.
From S2P Require Import Instances.

Record WebNotificationRow := {
  wn_ID : uuid; wn_UserID : uuid; wn_Type : string; wn_Title : string; wn_Body : string; wn_Metadata : option string;
  wn_DedupeKey : option string; wn_ReadAt : option Z; wn_CreatedAt : Z }.
(** The users of the web app and their notifications. *)
Record WebFeed := MkFeed { wf_users : gmap uuid Z; wf_rows : gmap uuid WebNotificationRow }.
(** A cookie that is set: name, value, [SameSite=None; Secure] or [Lax], and whether scripts may not read it. *)
Record Cookie := { ck_Name : string; ck_Value : string; ck_CrossSite : bool; ck_HttpOnly : bool }.

Module WebRoutes.
Import Deploynet Submit Assets Balances ContextRules Sessions AccountSigners Routes SmartAccounts CeremonyRoutes MobileStore MobileData MobileRoutes.

Section Accounts.
Context `{StellarSDK} `{Network} `{SubmitNetwork} `{Gasless} `{UuidLib} `{Unicode} `{Deployment} `{Env} `{KeypairLib}.
Context `{FactoryConfig} `{HandlerConfig} `{Friendbot} `{Json (list CatalogAsset)}.
Abbreviation W := (World Store).

(** ** accounts.go *)
Definition account_json (a : Account) : json :=
  JObj [("smartAccountAddress", JStr (ac_SmartAccountAddress a)); ("credentialId", JStr (ac_CredentialID a));
        ("deployed", JBool (ac_Deployed a)); ("createdAt", JNum (ac_CreatedAt a))].
Definition internal {A} (m : M W A) : M W A := or_fail "500" "internal_error" m.
(** The credential asked for counts only when the session has proved it. *)
Definition listed_credentials (sessionID credentialID : string) : M W (list string) :=
  if negb (String.eqb credentialID "") then
    let! proved := internal (HasProvedCredential sessionID credentialID) in ret (if (proved : bool) then [credentialID] else [])
  else internal (ProvedCredentials sessionID).
Definition List_handler (sessionID credentialID : string) : M W (list Account) :=
  let! credentialIDs := listed_credentials sessionID credentialID in
  internal (ListAccountsForProvedCredentials credentialIDs).
Definition AccountList_handler (sessionID credentialID : string) : M W json :=
  let! accounts := List_handler sessionID credentialID in ret (JObj [("accounts", JArr (account_json <$> accounts))]).
Definition activeSmartAccountCookieName : string := "activeSmartAccountAddress".
Definition SetActive_handler (crossSiteCookies : bool) (smartAccountAddress : string) : M W (Cookie * json) :=
  let! _ := bound [smartAccountAddress] in
  ret ({| ck_Name := activeSmartAccountCookieName; ck_Value := smartAccountAddress; ck_CrossSite := crossSiteCookies; ck_HttpOnly := false |},
       JObj [("ok", JBool true)]).

(** ** smartaccount.go *)
Definition isValidGAddress (g : string) : bool := is_ok (strkey_decode_account g).
Definition minKeyDataHexLen : nat := 132.
Definition address_json (r : string * bool) : json := JObj [("deployed", JBool (snd r)); ("smartAccountAddress", JStr (fst r))].
Definition deployed_json (r : string * bool) : json := JObj [("smartAccountAddress", JStr (fst r)); ("alreadyDeployed", JBool (snd r))].
Definition deploy_errors (e : error) : string * string := match failGasless e with Some a => a | None => ("500", "internal_error") end.
Definition Query_handler (credentialID keyDataHex network : string) : M W json :=
  if String.eqb credentialID "" || String.eqb keyDataHex "" then bad_body else
  let! _ := named_network webappx network in
  let! r := internal (Query keyDataHex) in ret (address_json r).
Definition Deploy_handler (network keyDataHex credentialID : string) : M W json :=
  let! _ := bound [keyDataHex; credentialID] in
  if (String.length keyDataHex <? minKeyDataHexLen)%nat then bad_body else
  let! _ := named_network webappx network in
  let! r := answered deploy_errors (DeployByKeyData keyDataHex) in ret (deployed_json r).
Definition QueryDelegated_handler (gAddress network : string) : M W json :=
  if String.eqb gAddress "" || negb (isValidGAddress gAddress) then bad_body else
  let! _ := named_network webappx network in
  let! r := internal (QueryDelegated gAddress) in ret (address_json r).
(** Friendbot does not exist on mainnet. *)
Definition DeployDelegated_handler (network gAddress : string) : M W json :=
  let! _ := bound [gAddress] in
  if negb (isValidGAddress gAddress) then bad_body else
  let! network := named_network webappx network in
  if String.eqb network Mainnet then fail "400" "validation_error" else
  let! r := answered deploy_errors (DeployDelegated gAddress) in ret (deployed_json r).
Definition signer_json (s : ContextRuleSigner) : json :=
  JObj [("kind", JStr (sg_Kind s)); ("verifierAddress", JStr (sg_VerifierAddress s)); ("gAddress", JStr (sg_GAddress s));
        ("keyDataHex", JStr (sg_KeyDataHex s))].
Definition rule_json (r : ContextRuleSummary) : json :=
  JObj [("id", JNum (cr_ID r)); ("name", JStr (cr_Name r)); ("callContractAddress", JStr (cr_CallContractAddress r));
        ("signers", JArr (signer_json <$> cr_Signers r))].
Definition ContextRules_handler (address network : string) : M W json :=
  if String.eqb address "" then bad_body else
  let! network := named_network webappx network in
  let! rules := internal (ListContextRules address) in
  ret (JObj [("smartAccountAddress", JStr address); ("network", JStr network); ("ruleCount", JNum (Z.of_nat (length rules)));
             ("rules", JArr (rule_json <$> rules))]).
Definition balance_json (b : AssetBalance) : json :=
  JObj [("assetId", JStr (ab_AssetID b)); ("symbol", JStr (ab_Symbol b)); ("name", JStr (ab_Name b)); ("contractId", JStr (ab_ContractID b));
        ("decimals", JNum (ab_Decimals b)); ("balance", JStr (ab_Balance b)); ("balanceRaw", JStr (ab_BalanceRaw b))].
Definition Balances_handler (address all network : string) : M W json :=
  if String.eqb address "" then bad_body else
  let! _ := named_network webappx network in
  let! assets := catalog in
  let! balances := internal (FetchBalancesForCatalog address assets (String.eqb all "1")) in
  ret (JObj [("smartAccountAddress", JStr address); ("balances", JArr (balance_json <$> balances))]).

(** ** recovery.go *)
Definition backup_errors (e : error) : string * string :=
  if errors_is e ErrBackupPasskeySmartAccountNotFound then ("404", "internal_error") else ("500", "internal_error").
Definition BackupPasskey_handler (userID smartAccountAddress label : string) : M W json :=
  let! _ := bound [smartAccountAddress] in
  let! _ := answered backup_errors (RecordIntent userID smartAccountAddress label) in
  ret (JObj [("ok", JBool true);
    ("next", JStr "Call /api/webauthn/registration/* to register a second passkey, then attach it on-chain in a future step.")]).
End Accounts.

(** ** webapp_notifications.sql.go *)
Definition set_rows (t : gmap uuid WebNotificationRow) (d : WebFeed) : WebFeed := MkFeed (wf_users d) t.
Definition same_web_event (row r : WebNotificationRow) : bool :=
  bool_decide (wn_UserID r = wn_UserID row) && String.eqb (wn_Type r) (wn_Type row) &&
  match wn_DedupeKey row with Some _ => bool_decide (wn_DedupeKey r = wn_DedupeKey row) | None => false end.
(** No row comes back when the event is already recorded. *)
Definition InsertWebappNotification (row : WebNotificationRow) (d : WebFeed) : res (uuid * WebFeed) :=
  if too_long 64 (wn_Type row) then Err ErrTooLong else
  if exists_row (same_web_event row) (wf_rows d) then Err ErrNoRows else
  if negb (present (wf_users d) (wn_UserID row)) then Err ErrForeignKey else
  if present (wf_rows d) (wn_ID row) then Err ErrUnique else
  Ok (wn_ID row, set_rows (<[wn_ID row := row]> (wf_rows d)) d).
Definition of_user (uid : uuid) (r : WebNotificationRow) : bool := bool_decide (wn_UserID r = uid).
Definition web_unread (r : WebNotificationRow) : bool := match wn_ReadAt r with None => true | Some _ => false end.
Definition web_before (cursor : option Z) (r : WebNotificationRow) : bool :=
  match cursor with None => true | Some t => wn_CreatedAt r <? t end.
Definition ListWebappNotificationsForUser (uid : uuid) (cursor : option Z) (limit : nat) (d : WebFeed) : res (list WebNotificationRow) :=
  Ok (take limit (order_by_desc wn_CreatedAt (select (fun r => of_user uid r && web_before cursor r) (wf_rows d)))).
Definition CountUnreadWebappNotifications (uid : uuid) (d : WebFeed) : res Z :=
  Ok (Z.of_nat (length (select (fun r => of_user uid r && web_unread r) (wf_rows d)))).
Definition web_read_at (now : Z) (r : WebNotificationRow) : WebNotificationRow :=
  {| wn_ID := wn_ID r; wn_UserID := wn_UserID r; wn_Type := wn_Type r; wn_Title := wn_Title r; wn_Body := wn_Body r;
     wn_Metadata := wn_Metadata r; wn_DedupeKey := wn_DedupeKey r; wn_ReadAt := Some now; wn_CreatedAt := wn_CreatedAt r |}.
Definition MarkAllWebappNotificationsRead (uid : uuid) (now : Z) (d : WebFeed) : res (unit * WebFeed) :=
  Ok (tt, set_rows (update_where (fun r => of_user uid r && web_unread r) (web_read_at now) (wf_rows d)) d).
(** The rows affected *)
Definition MarkWebappNotificationRead (id uid : uuid) (now : Z) (d : WebFeed) : res (Z * WebFeed) :=
  let target (r : WebNotificationRow) := bool_decide (wn_ID r = id) && of_user uid r && web_unread r in
  Ok (Z.of_nat (length (select target (wf_rows d))), set_rows (update_where target (web_read_at now) (wf_rows d)) d).

(** ** notification_service.go and notification.go *)
Section Feed.
Context `{UuidLib} `{Env} `{NanoTime} `{JsonDoc}.
Abbreviation W := (World WebFeed).
Definition ErrNotificationValidation : error := Sentinel "ErrNotificationValidation".
Definition feed_user (userID : string) : M W uuid :=
  match uuid_parse userID with Some uid => ret uid | None => throw ErrNotificationValidation end.
Definition web_Notify (userID : string) (rec : NotificationRecord) : M W unit :=
  let! uid := feed_user userID in
  let! id := new_uuid in
  let! now := now_ms in
  let! inserted := attempt (exec (InsertWebappNotification
    {| wn_ID := id; wn_UserID := uid; wn_Type := nr_Type rec; wn_Title := nr_Title rec; wn_Body := nr_Body rec;
       wn_Metadata := notification_metadata (nr_Metadata rec); wn_DedupeKey := null_string (nr_DedupeKey rec);
       wn_ReadAt := None; wn_CreatedAt := now |})) in
  match inserted with
  | Ok _ => ret tt
  | Err e => if errors_is e ErrNoRows then ret tt else throw (Wrapf "insert notification" e)
  end.
Definition web_notification (r : WebNotificationRow) : Notification :=
  {| no_ID := uuid_string (wn_ID r); no_Type := wn_Type r; no_Title := wn_Title r; no_Body := wn_Body r;
     no_Metadata := match wn_Metadata r with
                    | Some m => match json_doc m with Ok doc => Some doc | Err _ => None end
                    | None => None
                    end;
     no_Read := negb (web_unread r); no_CreatedAt := wn_CreatedAt r |}.
Definition web_List (userID cursor : string) (limit : Z) : M W (list Notification * string) :=
  let! uid := feed_user userID in
  let limit := Z.to_nat (if (limit <=? 0) || (defaultNotificationPageSize <? limit) then defaultNotificationPageSize else limit) in
  let! cursorTime := if String.eqb cursor "" then ret None
                     else match rfc3339nano_parse cursor with Ok t => ret (Some t) | Err _ => throw ErrNotificationValidation end in
  let! rows := wrap "list notifications" (query (ListWebappNotificationsForUser uid cursorTime limit)) in
  let out := web_notification <$> rows in
  ret (out, next_cursor limit out).
Definition web_UnreadCount (userID : string) : M W Z :=
  let! uid := feed_user userID in wrap "count unread notifications" (query (CountUnreadWebappNotifications uid)).
Definition web_MarkRead (userID notificationID : string) : M W unit :=
  let! uid := feed_user userID in
  match uuid_parse notificationID with
  | None => throw ErrNotificationValidation
  | Some nid =>
      let! now := now_ms in
      let! rows := wrap "mark notification read" (exec (MarkWebappNotificationRead nid uid now)) in
      if rows =? 0 then throw ErrNotificationNotFound else ret tt
  end.
Definition web_MarkAllRead (userID : string) : M W unit :=
  let! uid := feed_user userID in
  let! now := now_ms in
  wrap "mark all notifications read" (exec (MarkAllWebappNotificationsRead uid now)).

Definition list_errors (e : error) : string * string :=
  if errors_is e ErrNotificationValidation then ("400", "validation_error") else ("500", "internal_error").
Definition web_read_errors (e : error) : string * string :=
  if errors_is e ErrNotificationNotFound then ("404", "notification_not_found") else list_errors e.
Definition web_notification_json (n : Notification) : json :=
  JObj [("id", JStr (no_ID n)); ("type", JStr (no_Type n)); ("title", JStr (no_Title n)); ("body", JStr (no_Body n));
        ("metadata", default JNull (no_Metadata n)); ("read", JBool (no_Read n)); ("createdAt", JStr (rfc3339nano_format (no_CreatedAt n)))].
Definition WebList_handler (userID cursor limit : string) : M W json :=
  let! ' (page, nextCursor) := answered list_errors (web_List userID cursor (page_limit limit)) in
  let! unread := or_fail "500" "internal_error" (web_UnreadCount userID) in
  ret (JObj [("notifications", JArr (web_notification_json <$> page)); ("nextCursor", JStr nextCursor); ("unreadCount", JNum unread)]).
Definition WebUnreadCount_handler (userID : string) : M W json :=
  let! unread := or_fail "500" "internal_error" (web_UnreadCount userID) in ret (JObj [("unreadCount", JNum unread)]).
Definition WebMarkRead_handler (userID id : string) : M W unit := answered web_read_errors (web_MarkRead userID id).
Definition WebMarkAllRead_handler (userID : string) : M W unit := or_fail "500" "internal_error" (web_MarkAllRead userID).
End Feed.
End WebRoutes.
