(* ===== verification/TxRoutes.v ===== *)
(** * Transactions of the mobile API (service/bundler_policy.go, handler/transaction_relay.go and transaction_build.go)

    The contracts the bundler pays for, the submission of a transaction the
    phone built, and the sends and swaps built for it. A request arrives behind
    RequireAuth, with its required fields. *)

From S2P Require Export CeremonyRoutes MobileRoutes.
From S2P Require Import Instances.

(** The wallets' side and the phones' data. *)
Record RelayStore := MkRelay { rl_db : Store; rl_data : MobileData }.
(** [BUNDLER_ALLOWED_CONTRACTS] *)
Class BundlerAllowlist := { allowedContracts : list string }.

Record submitTransactionRequest := { qt_TxXdr : string; qt_AuthEntries : list string; qt_Network : string }.
Record buildSendV1Request := {
  v1_Network : string; v1_SmartAccountAddress : string; v1_SignerType : string; v1_SignerG : string;
  v1_KeyDataHex : string; v1_AssetID : string; v1_ContractID : string; v1_Recipient : string; v1_Amount : string }.
Record buildSwapV1Request := {
  v2_Network : string; v2_SmartAccountAddress : string; v2_SignerType : string; v2_SignerG : string;
  v2_KeyDataHex : string; v2_RouterContractID : string; v2_SwapChainXdr : string; v2_TokenInContractID : string;
  v2_AmountInRaw : string; v2_AmountOutMinRaw : string }.

Module TxRoutes.
Import Deploynet Assets Balances ContextRules Submit Build BuildTx AccountSigners Routes Mobile MobileStore MobileData MobileRoutes.

Definition on_wallets {A} : M (World Store) A -> M (World RelayStore) A := zoom rl_db (fun x s => MkRelay x (rl_data s)).
Definition on_data {A} : M (World MobileData) A -> M (World RelayStore) A := zoom rl_data (fun x s => MkRelay (rl_db s) x).

(** The fields tagged [binding:"required"], with the code of /v1. *)
Definition v1_bound {S} (required : list string) : M S unit := or_fail "400" "VALIDATION_ERROR" (bound required).

Section Policy.
Context `{StellarSDK}.

(** ** bundler_policy.go *)
Definition ErrContractNotAllowed : error := Sentinel "ErrContractNotAllowed".
Definition contractSet (addresses : list string) : gset string :=
  list_to_set (List.filter (fun a => negb (String.eqb a "")) addresses).
Definition policy_Configured (allowed : gset string) : bool := negb (bool_decide (allowed = ∅)).

(** The loop over the operations; [target] is the contract of the first one. *)
Fixpoint invoked_from (target : option string) (ops : list Operation) : res string :=
  match ops with
  | [] => match target with Some t => Ok t | None => Err (Errorf "expected at least one operation in the transaction envelope") end
  | OtherOperation _ :: _ => Err (Errorf "operation is not an invoke host function")
  | InvokeHostFunctionOp (OtherHostFunction _) :: _ => Err (Errorf "operation is not a contract invocation")
  | InvokeHostFunctionOp (InvokeContract (AddrContract id) _ _) :: ops' =>
      let? contractID := strkey_encode_contract id in
      match target with
      | None => invoked_from (Some contractID) ops'
      | Some t => if String.eqb contractID t then invoked_from target ops'
                  else Err (Errorf "batched operations target different contracts")
      end
  | InvokeHostFunctionOp (InvokeContract _ _ _) :: _ => Err (Errorf "operation target is not a contract address")
  end.
Definition InvokedContractID (txXdrB64 : string) : res string :=
  let? envelope := res_wrap "decode tx envelope" (envelope_unmarshal_b64 txXdrB64) in
  match envelope with
  | None => Err (Errorf "expected at least one operation in the transaction envelope")
  | Some ops => invoked_from None ops
  end.
(** An empty allowlist allows everything. *)
Definition CheckEnvelope (allowed : gset string) (txXdrB64 : string) : res unit :=
  if negb (policy_Configured allowed) then Ok tt else
  let? contractID := InvokedContractID txXdrB64 in
  if bool_decide (contractID ∈ allowed) then Ok tt else Err (Wrapf contractID ErrContractNotAllowed).
End Policy.

(** ** transaction_relay.go *)
Section Relay.
Context `{StellarSDK} `{Network} `{SubmitNetwork} `{Gasless} `{UuidLib} `{Unicode} `{Deployment} `{Env} `{ServiceConfig} `{NanoTime} `{JsonDoc}.
Context `{BundlerAllowlist}.
Abbreviation W := (World RelayStore).

Definition maxAuthEntries : nat := 32.
Definition Bundler_handler (network : string) : M W json :=
  let! network := named_network httpx network in
  ret (JObj [("bundler_address", JStr BundlerAddress); ("network", JStr network)]).
(** Base64 first, then the entry. *)
Definition posted_entry (raw : string) : res AuthEntry :=
  let? _ := Base64.StdEncoding_DecodeString raw in entry_unmarshal_b64 raw.
(** A failure that is not the gasless service's is the caller's transaction being invalid. *)
Definition relay_errors (e : error) : string * string :=
  match Mobile.failGasless e with Some a => a | None => ("400", "VALIDATION_ERROR") end.
Definition relayed_json (r : SubmitResult) : json :=
  JObj [("hash", JStr (sr_Hash r)); ("status", JStr (sr_Status r)); ("result_meta_xdr", JStr (sr_ResultMetaXdr r))].
Definition Submit_handler (userID scope : string) (req : submitTransactionRequest) : M W json :=
  let! _ := v1_bound [qt_TxXdr req] in
  if (length (qt_AuthEntries req) =? 0)%nat then fail "400" "VALIDATION_ERROR" else
  if (maxAuthEntries <? length (qt_AuthEntries req))%nat then fail "400" "VALIDATION_ERROR" else
  let! entries := or_fail "400" "VALIDATION_ERROR" (lift (res_map posted_entry (qt_AuthEntries req))) in
  let! _ := named_network httpx (qt_Network req) in
  let! _ := or_fail "400" "VALIDATION_ERROR" (lift (CheckEnvelope (contractSet allowedContracts) (qt_TxXdr req))) in
  let! result := answered relay_errors (on_wallets (SubmitBatchAuthEntries (qt_TxXdr req) entries)) in
  let! _ := attempt (on_data (Notify userID scope
              (activity "transaction_relayed" "Transaction sent" "Your transaction was submitted."))) in
  ret (relayed_json result).
End Relay.

(** ** transaction_build.go *)
Section BuildRoutes.
Context `{StellarSDK} `{Network} `{SubmitNetwork} `{Gasless} `{GaslessQuotes} `{Env} `{ServiceConfig} `{BuilderConfig}.
Context `{EnvelopeCodec} `{Json SimulationSummary} `{Json (list CatalogAsset)} `{UuidLib} `{Unicode} `{Deployment} `{HandlerConfig}.
Abbreviation W := (World Store).

Definition mobileSignerType (t : string) : option string :=
  if String.eqb t "passkey" || String.eqb t "delegated" || String.eqb t "ed25519" then Some t else None.
(** The signer's type, and its name when it is a delegated account. *)
Definition mobile_signer (signerType signerG : string) : M W string :=
  match mobileSignerType signerType with
  | None => fail "400" "VALIDATION_ERROR"
  | Some t => if String.eqb t "delegated" && String.eqb signerG "" then fail "400" "VALIDATION_ERROR" else ret t
  end.
Definition buildAuthResponse (r : BuildAuthTransactionResult) (fee : NetworkFee) : list (string * json) :=
  [("tx_xdr", JStr (bt_TxXdr r)); ("auth_entries", JArr (JStr <$> bt_AuthEntriesXdr r));
   ("smart_account_auth_entry_index", JNum (Z.of_nat (bt_SmartAccountAuthEntryIndex r)));
   ("delegated_native_auth_entry_indices", indices_json (bt_DelegatedNativeAuthEntryIndices r));
   ("delegated_native_sign_blob_payloads_base64", JArr (JStr <$> bt_DelegatedNativeSignBlobPayloadsBase64 r));
   ("context_rule_ids", JArr (JNum <$> bt_ContextRuleIDs r)); ("auth_digest_hex", JStr (bt_AuthDigestHex r));
   ("signature_payload_hex", JStr (bt_SignaturePayloadHex r)); ("valid_until_ledger", JNum (bt_ValidUntilLedger r));
   ("network_fee", JObj [("token", JStr (nf_Token fee)); ("symbol", JStr (nf_Symbol fee));
                         ("max_amount_raw", JStr (nf_MaxAmountRaw fee)); ("max_amount", JStr (nf_MaxAmount fee))])].
Definition failBuild (e : error) : string * string :=
  match Mobile.failGasless e with
  | Some a => a
  | None =>
      if errors_is e ErrAssetNotFound then ("400", "VALIDATION_ERROR") else
      if errors_is e ErrSignerRuleNotFound || errors_is e ErrSwapSignerMismatch then ("409", "CONFLICT") else
      if errors_is e ErrInvalidSwapChainXdr then ("400", "VALIDATION_ERROR") else
      if errors_is e ErrSwapValidation then ("400", "VALIDATION_ERROR") else ("500", "INTERNAL_ERROR")
  end.
Definition v1_catalog : M W (list CatalogAsset) :=
  match GetAssetCatalog assetCatalogConfig with Ok c => ret c | Err _ => fail "500" "INTERNAL_ERROR" end.
Definition BuildSendV1_handler (req : buildSendV1Request) : M W json :=
  let! _ := v1_bound [v1_SmartAccountAddress req; v1_SignerType req; v1_Recipient req; v1_Amount req] in
  let! signerType := mobile_signer (v1_SignerType req) (v1_SignerG req) in
  let! _ := named_network httpx (v1_Network req) in
  let! assets := v1_catalog in
  let! result := answered failBuild (BuildSend
    {| bi_SmartAccountAddress := v1_SmartAccountAddress req; bi_SignerType := signerType; bi_SignerG := v1_SignerG req;
       bi_AssetID := v1_AssetID req; bi_ContractID := v1_ContractID req; bi_Recipient := v1_Recipient req;
       bi_Amount := v1_Amount req; bi_KeyDataHex := v1_KeyDataHex req |} assets) in
  ret (JObj (buildAuthResponse (bs_Build result) (bs_NetworkFee result) ++
    [("asset_id", JStr (ca_AssetID (bs_Asset result))); ("asset_contract_id", JStr (ca_ContractID (bs_Asset result)));
     ("amount_raw", JStr (bs_AmountRaw result))])).
Definition BuildSwapV1_handler (req : buildSwapV1Request) : M W json :=
  let! _ := v1_bound [v2_SmartAccountAddress req; v2_SignerType req; v2_SwapChainXdr req; v2_TokenInContractID req;
                   v2_AmountInRaw req; v2_AmountOutMinRaw req] in
  let! signerType := mobile_signer (v2_SignerType req) (v2_SignerG req) in
  let! _ := named_network httpx (v2_Network req) in
  let! result := answered failBuild (BuildSwap
    {| bw_SmartAccountAddress := v2_SmartAccountAddress req; bw_SignerType := signerType; bw_SignerG := v2_SignerG req;
       bw_RouterContractID := v2_RouterContractID req; bw_KeyDataHex := v2_KeyDataHex req;
       bw_SwapChainXdr := v2_SwapChainXdr req; bw_TokenInContractID := v2_TokenInContractID req;
       bw_AmountInRaw := v2_AmountInRaw req; bw_AmountOutMinRaw := v2_AmountOutMinRaw req |}) in
  ret (JObj (buildAuthResponse (bx_Build result) (bx_NetworkFee result) ++
    [("router_contract_id", JStr (bx_RouterContractID result)); ("amount_in_raw", JStr (bx_AmountInRaw result));
     ("amount_out_min_raw", JStr (bx_AmountOutMinRaw result))])).
End BuildRoutes.
End TxRoutes.
