(* ===== verification/RelayTheorems.v ===== *)
(** * What the mobile relay submits (TxRoutes)

    The allowlist holds for everything the relay sends, whatever the request
    carries. *)

From S2P Require Export TxRoutes SubmitBatch.
From S2P Require Import Instances SignerTheorems MobileSafety MobileDataTheorems DemoProposals.

Module RelayTheorems.
Import Deploynet ContextRules ExecuteAuth Submit SubmitBatch AccountSigners SignerTheorems Routes Mobile MobileSafety MobileData MobileRoutes TxRoutes.
#[local] Unset Default Proof Using.

Section Policy.
Context `{StellarSDK}.

(** A list of calls of one contract invokes that contract. *)
Lemma invoked_rest t ops fns : batch_from (Some t) ops = Ok fns -> invoked_from (Some t) ops = Ok t.
Proof.
  revert fns. induction ops as [|[fn|] ops IH]; intros fns; cbn [batch_from invoked_from]; [done| |done].
  intros Hr. run_inv. destruct (String.eqb_spec x t) as [->|]; [|done]. cbn in Hr. run_inv.
  destruct fn as [[|id|] name args|]; try done. cbn in *.
  match goal with E : strkey_encode_contract _ = _ |- _ => rewrite E; cbn end. rewrite String.eqb_refl. by eapply IH.
Qed.
Lemma invoked_batch tx fns : batch_functions tx = Ok fns -> exists id, InvokedContractID tx = Ok id /\ one_contract id fns.
Proof.
  unfold batch_functions, InvokedContractID. intros Hr. run_inv.
  match goal with E : envelope_unmarshal_b64 _ = _ |- _ => rewrite E; cbn end.
  destruct x as [ops|]; [|done]. destruct (_ || _) eqn:En; [done|].
  destruct ops as [|[fn|] ops]; [done| |done]. cbn in Hr. run_inv.
  match goal with E : batch_from _ _ = Ok _ |- _ => pose proof (invoked_rest _ _ _ E); apply batch_from_ok in E as [_ Hone] end.
  exists x. destruct fn as [[|id|] name args|]; try done. cbn in *.
  match goal with E : strkey_encode_contract _ = _ |- _ => rewrite E; cbn end. split; [done|]. by constructor.
Qed.
Lemma one_contract_inj id id' fns : fns <> [] -> one_contract id fns -> one_contract id' fns -> id = id'.
Proof.
  unfold one_contract. destruct fns as [|fn fns]; [done|]. intros _ [E _]%Forall_cons [E' _]%Forall_cons. congruence.
Qed.
Lemma policy_allows allowed tx id :
  CheckEnvelope allowed tx = Ok tt -> InvokedContractID tx = Ok id -> allowed <> ∅ -> id ∈ allowed.
Proof.
  unfold CheckEnvelope, policy_Configured. intros Hc Hi Ha. rewrite bool_decide_eq_false_2, Hi in Hc by done. cbn in Hc.
  by destruct (decide (id ∈ allowed)); [|rewrite bool_decide_eq_false_2 in Hc].
Qed.
Lemma elem_of_contractSet id l : id ∈ contractSet l <-> id ∈ l /\ id <> "".
Proof.
  unfold contractSet. rewrite elem_of_list_to_set, !list_elem_of_In, filter_In, negb_true_iff, String.eqb_neq. done.
Qed.
End Policy.

Section Relay.
Context `{StellarSDK} `{Network} `{SubmitNetwork} `{Gasless} `{UuidLib} `{Unicode} `{Deployment} `{Env} `{ServiceConfig} `{NanoTime} `{JsonDoc}.
Context `{BundlerAllowlist}.
Abbreviation W := (World RelayStore).

(** ** Sending, seen from the relay's store *)
Definition relays {A} (d : Store) (m : M W A) (P : ChainWrite -> Prop) : Prop :=
  forall w r w', rl_db (w_store w) = d -> m w = (r, w') ->
    (rl_db (w_store w') = d /\ is_ok r = false) \/
    exists c, P c /\ rl_db (w_store w') = set_chain (chain d ++ [c]) d.
Definition leaves_wallets {A} (m : M W A) : Prop := forall w r w', m w = (r, w') -> rl_db (w_store w') = rl_db (w_store w).

Lemma leaves_ret {A} (a : A) : leaves_wallets (ret a).
Proof. by intros w r w' [= _ <-]. Qed.
Lemma leaves_throw {A} e : leaves_wallets (throw (A := A) e).
Proof. by intros w r w' [= _ <-]. Qed.
Lemma leaves_lift {A} (x : res A) : leaves_wallets (lift x).
Proof. by intros w r w' [= _ <-]. Qed.
Lemma leaves_bind {A B} (m : M W A) (k : A -> M W B) : leaves_wallets m -> (forall a, leaves_wallets (k a)) -> leaves_wallets (bind m k).
Proof.
  intros Hm Hk w r w'. unfold bind. destruct (m w) as [[a|e] w1] eqn:E.
  - intros Hr. by rewrite (Hk _ _ _ _ Hr), (Hm _ _ _ E).
  - intros [= _ <-]. by apply Hm in E.
Qed.
Lemma leaves_attempt {A} (m : M W A) : leaves_wallets m -> leaves_wallets (attempt m).
Proof. intros Hm w r w'. unfold attempt. destruct (m w) as [r0 w1] eqn:E. intros [= _ <-]. by apply Hm in E. Qed.
Lemma leaves_or_fail {A} st c (m : M W A) : leaves_wallets m -> leaves_wallets (or_fail st c m).
Proof. intros Hm. apply leaves_bind; [by apply leaves_attempt|]. intros [a|e]; [apply leaves_ret|apply leaves_throw]. Qed.
Lemma leaves_data {A} (m : M (World MobileData) A) : leaves_wallets (on_data m).
Proof. by intros w r w' (d & n & _ & ->)%zoom_run. Qed.
Lemma leaves_bound required : leaves_wallets (v1_bound required).
Proof. apply leaves_or_fail. unfold bound. destruct (existsb _ _); [apply leaves_throw|apply leaves_ret]. Qed.
Lemma leaves_network api raw : leaves_wallets (named_network api raw).
Proof. unfold named_network. destruct (ParseNetwork raw) as [|e]; [apply leaves_ret|]. destruct (errors_is _ _); apply leaves_throw. Qed.

Lemma relays_fail {A} d st c P : relays (A := A) d (fail st c) P.
Proof. intros w r w' <- [= <- <-]. by left. Qed.
Lemma relays_step {A B} d (m : M W A) (k : A -> M W B) P :
  leaves_wallets m -> (forall a w w', m w = (Ok a, w') -> relays d (k a) P) -> relays d (bind m k) P.
Proof.
  intros Hm Hk w r w' Hd. unfold bind. destruct (m w) as [[a|e] w1] eqn:E.
  - intros Hr. eapply Hk; [exact E| |exact Hr]. by rewrite (Hm _ _ _ E).
  - intros [= <- <-]. left. by rewrite (Hm _ _ _ E).
Qed.
Lemma answered_inv {S A} errs (m : M S A) s r s' : answered errs m s = (r, s') ->
  exists r0, m s = (r0, s') /\ is_ok r = is_ok r0.
Proof. unfold answered, bind, attempt, fail, throw. destruct (m s) as [[a|e] s1]; intros [= <- <-]; eauto. Qed.
(** The one step that sends, and what follows it *)
Lemma relays_send {A B} d errs (m : M (World Store) A) (k : A -> M W B) P :
  sends d m P -> (forall a, leaves_wallets (k a)) -> relays d (bind (answered errs (on_wallets m)) k) P.
Proof.
  intros Hm Hk w r w' Hd . unfold bind. destruct (answered _ _ w) as [r0 w0] eqn:E.
  apply answered_inv in E as (r1 & (d1 & n1 & E & ->)%zoom_run & Hok). apply (Hm (MkWorld _ _)) in E; [|done]. cbn in E.
  destruct r0 as [a|e].
  - intros Hr%Hk. cbn in Hr. rewrite Hr. destruct r1; [|done]. destruct E as [[_ [=]]|E]. by right.
  - intros [= <- <-]. cbn. destruct E as [[-> _]|E]; [by left|by right].
Qed.

Lemma relays_submit userID scope req d :
  relays d (Submit_handler userID scope req) (fun c => exists entries id fns,
    Forall2 (fun raw e => posted_entry raw = Ok e) (qt_AuthEntries req) entries /\ (1 <= length entries <= 32)%nat /\
    batch_submission (qt_TxXdr req) entries c /\
    batch_functions (qt_TxXdr req) = Ok fns /\ one_contract id fns /\
    (contractSet allowedContracts <> ∅ -> id ∈ allowedContracts)).
Proof.
  unfold Submit_handler. apply relays_step; [apply leaves_bound|]. intros _ _ _ _.
  destruct (Nat.eqb_spec (length (qt_AuthEntries req)) 0) as [|Hlo]; [apply relays_fail|].
  destruct (Nat.ltb_spec maxAuthEntries (length (qt_AuthEntries req))) as [|Hhi]; [apply relays_fail|].
  apply relays_step; [apply leaves_or_fail, leaves_lift|]. intros entries w1 w1' He%or_fail_ok. apply lift_ok in He as [He _].
  apply res_map_ok in He. pose proof (Forall2_length _ _ _ He) as Hlen.
  apply relays_step; [apply leaves_network|]. intros _ _ _ _.
  apply relays_step; [apply leaves_or_fail, leaves_lift|]. intros [] w2 w2' Hp%or_fail_ok. apply lift_ok in Hp as [Hp _].
  apply relays_send; [|intros a; apply leaves_bind; [apply leaves_attempt, leaves_data|intros; apply leaves_ret]].
  eapply sends_mono; [|apply sends_SubmitBatch]. intros c Hc. pose proof Hc as (fns & id & Hf & [Hn _] & _ & _).
  destruct (invoked_batch _ _ Hf) as (id' & Hi & Hone). exists entries, id', fns.
  unfold maxAuthEntries in Hhi. split_and!; try done; [lia|lia|].
  intros Ha. by apply (elem_of_contractSet id' allowedContracts), (policy_allows _ _ _ Hp Hi).
Qed.

(** C18. The relay pays only for calls of the contracts of its allowlist. A submission sends at most one request, and
    answers with a failure when it sends none. What it sends is the batch of calls in the posted transaction, all of
    one contract, with the one to thirty-two entries posted; when an allowlist is configured that contract is in it.
    Nothing else of the wallets' tables changes, whether or not the activity entry could be written. *)
Theorem relay_allowlist userID scope req (w w' : W) r :
  Submit_handler userID scope req w = (r, w') ->
  (rl_db (w_store w') = rl_db (w_store w) /\ is_ok r = false) \/
  exists entries c id fns,
    Forall2 (fun raw e => posted_entry raw = Ok e) (qt_AuthEntries req) entries /\ (1 <= length entries <= 32)%nat /\
    batch_submission (qt_TxXdr req) entries c /\
    batch_functions (qt_TxXdr req) = Ok fns /\ one_contract id fns /\
    (contractSet allowedContracts <> ∅ -> id ∈ allowedContracts) /\
    rl_db (w_store w') = set_chain (chain (rl_db (w_store w)) ++ [c]) (rl_db (w_store w)).
Proof.
  intros Hr. set (d := rl_db (w_store w)). refine (_ (relays_submit userID scope req d w r w' eq_refl Hr)).
  intros [?|(c & (entries & id & fns & ?) & ?)]; [by left|]. right. exists entries, c, id, fns. naive_solver.
Qed.
End Relay.

Section Witness.
Import Tokens Demo DemoProposals DemoSubmit.
#[local] Instance relay_deployment : Deployment := {| Get := "testnet"; Get_valid := or_intror (or_introl eq_refl) |}.
#[local] Instance relay_nano : NanoTime := {| rfc3339nano_format t := pretty t; rfc3339nano_parse s := Ok 0 |}.
#[local] Instance relay_doc : JsonDoc := {| json_doc s := Err (Errorf "json"); json_doc_text j := Err (Errorf "json") |}.
#[local] Instance relay_allowed : BundlerAllowlist := {| allowedContracts := ["CT"] |}.
#[local] Existing Instances demo_n demo_e.

Definition relay_entry : AuthEntry :=
  {| ae_Credentials := SorobanAddress {| ac_Address := AddrContract "S"; ac_Nonce := 1; ac_SignatureExpirationLedger := 9; ac_Signature := ScvVoid |};
     ae_RootInvocation := MkInvocation (ContractFn (AddrContract "T") "increment" []) [] |}.
Definition relay_request : submitTransactionRequest :=
  {| qt_TxXdr := increment_tx; qt_AuthEntries := match entry_marshal_b64 relay_entry with Ok raw => [raw] | Err _ => [] end; qt_Network := "" |}.
Definition relay_world : World RelayStore := MkWorld (MkRelay (w_store world0) MobileDataTheorems.no_data) (w_io world0).
Definition relay_run : M (World RelayStore) json := Submit_handler "GA" ScopeWallet relay_request.

Lemma relay_allowlist_witness :
  exists w' c id, rl_db (w_store w') = set_chain [c] (rl_db (w_store relay_world)) /\ id ∈ ["CT"] /\
    forall fn, batch_functions increment_tx = Ok [fn] -> hostFunctionContractID fn = Ok id.
Proof.
  assert (is_ok (fst (relay_run relay_world)) = true) as Hs by (vm_compute; reflexivity).
  destruct (relay_run relay_world) as [r w'] eqn:Hr.
  destruct (relay_allowlist "GA" ScopeWallet relay_request relay_world w' r Hr)
    as [[_ Hf]|(es & c & id & fns & _ & _ & _ & Hb & Hone & Hid & Hc)]; [cbn in Hs; congruence|].
  exists w', c, id. split; [exact Hc|]. split; [apply Hid; vm_compute; discriminate|].
  intros fn Hfn. cbn [qt_TxXdr relay_request] in Hb. rewrite Hfn in Hb. injection Hb as <-. by apply Forall_cons in Hone as [? _].
Defined.
End Witness.
End RelayTheorems.
