(* ===== verification/Rpc.v ===== *)
(** * Soroban RPC and Horizon (service/soroban.go, horizon.go, stellar.go, handler/transaction.go)

    The JSON-RPC client every other service reads the network through, with the
    instances of [Network] and [SubmitNetwork] it provides; Horizon's operations;
    the values of events; and the two routes that relay what a phone signed. *)

From S2P Require Export TxRoutes GoFloat.

(** The members of a JSON-RPC answer: the raw result, empty when absent, and the error. *)
Record rpcError := { er_Code : Z; er_Message : string }.
Record rpcAnswer := { wr_Result : string; wr_Error : option rpcError }.

(** A nil slice is [None]. *)
Record SimResultEntry := { se_Auth : option (list string); se_XDR : string }.
Record RestorePreamble := { rp_MinResourceFee : string; rp_TransactionData : string }.
Record SimulateResult := {
  sm_MinResourceFee : string; sm_TransactionData : string; sm_Results : list SimResultEntry; sm_Events : list string;
  sm_LatestLedger : Z; sm_Error : string; sm_RestorePreamble : option RestorePreamble }.
Record latestLedgerResult := { ll_Sequence : Z }.
Record GetEventsParams := {
  ge_StartLedger : Z; ge_Type : string; ge_ContractIDs : list string; ge_Topics : list (list string); ge_Limit : Z }.
Record SorobanEvent := {
  ev_LedgerClosedAt : string; ev_ID : string; ev_TxHash : string; ev_InSuccessfulContractCall : bool;
  ev_Topic : list string; ev_Value : string }.
Record EventsResult := { es_Events : list SorobanEvent; es_LatestLedger : Z }.
Record RpcTransaction := {
  rt_Status : string; rt_ResultXdr : string; rt_ResultMetaXdr : string; rt_ErrorResultXdr : string; rt_EnvelopeXdr : string }.
Record LedgerEntry := { le_KeyXDR : string; le_DataXDR : string; le_LastModifiedLedger : Z; le_LiveUntilLedgerSeq : option Z }.
Record GetLedgerEntriesResult := { lr_LatestLedger : Z; lr_Entries : list LedgerEntry }.
Record HorizonOperation := {
  ho_ID : string; ho_TransactionHash : string; ho_TransactionSuccessful : bool; ho_Type : string; ho_CreatedAt : string;
  ho_From : string; ho_To : string; ho_Amount : string; ho_AssetType : string; ho_AssetCode : string; ho_AssetIssuer : string;
  ho_Account : string; ho_Funder : string; ho_StartingBalance : string }.

(** What the SDK makes of ledger keys and entries: the marshalled key of an
    account, and the sequence number of a decoded entry, when it is an account. *)
Class LedgerXdr := { account_key_b64 : string -> res string; entry_account_seq : string -> res (option Z) }.
(** [SOROBAN_RPC_URL] and [HORIZON_URL], the latter a scheme and a host *)
Class StellarEndpoints := { sorobanRPCURL : string; horizonURL : string }.

Module Rpc.
Import Submit Url Deploynet AccountSigners Routes TxRoutes GoFloat.

Definition RPCStatusDuplicate : string := "DUPLICATE".
Definition RPCStatusTryAgain : string := "TRY_AGAIN_LATER".
(** [http.Client]'s Timeout of the two services *)
Definition rpcTimeout : Z := 20000.
Definition horizonTimeout : Z := 15000.

Section Client.
Context `{Http} `{Elapses} `{JsonText} `{StellarEndpoints} `{JsonDecode rpcAnswer} {A : Type}.
Abbreviation W := (World (Timed A)).

(** [client.Do] under the request's context and the client's own timeout *)
Definition do_within (deadline timeout : Z) (req : http_request) : M W http_response :=
  let! now := clock in http_Do (Z.min deadline (now + timeout)) req.

(** ** soroban.go *)
Definition rpc_request (body : string) : http_request :=
  {| rq_Method := "POST"; rq_URL := sorobanRPCURL; rq_Header := [("Content-Type", "application/json")]; rq_Body := Some body |}.
(** The status of the response is not looked at. *)
Definition rpc_call {R} `{Json R} (deadline : Z) (method : string) (params : json) : M W R :=
  let! body := wrap "marshal request" (lift (json_text
    (JObj [("jsonrpc", JStr "2.0"); ("id", JNum 1); ("method", JStr method); ("params", params)]))) in
  let! resp := wrap "soroban rpc" (do_within deadline rpcTimeout (rpc_request body)) in
  let! answer := wrap "decode response" (lift (json_decode (rs_Body resp))) in
  match wr_Error answer with
  | Some _ => throw (Errorf "soroban rpc error")
  | None => wrap "unmarshal result" (lift (json_unmarshal (wr_Result answer)))
  end.

Definition omitempty (key s : string) : list (string * json) := if String.eqb s "" then [] else [(key, JStr s)].
Definition omitzero (key : string) (n : Z) : list (string * json) := if n =? 0 then [] else [(key, JNum n)].
Definition strings_json (l : list string) : json := JArr (JStr <$> l).

Definition SimulateTransaction `{Json SimulateResult} (deadline : Z) (txXDR : string) (instructionLeeway : Z) : M W SimulateResult :=
  rpc_call deadline "simulateTransaction"
    (JObj [("transaction", JStr txXDR); ("resourceConfig", JObj (omitzero "instructionLeeway" instructionLeeway))]).
Definition GetLatestLedger `{Json latestLedgerResult} (deadline : Z) : M W Z :=
  let! result := rpc_call deadline "getLatestLedger" (JObj []) in ret (ll_Sequence result).
Definition events_params (p : GetEventsParams) : json :=
  JObj [("startLedger", JNum (ge_StartLedger p));
        ("filters", JArr [JObj [("type", JStr (ge_Type p)); ("contractIds", strings_json (ge_ContractIDs p));
                                ("topics", JArr (strings_json <$> ge_Topics p))]]);
        ("pagination", JObj [("limit", JNum (ge_Limit p))])].
Definition GetEvents `{Json EventsResult} (deadline : Z) (p : GetEventsParams) : M W EventsResult :=
  rpc_call deadline "getEvents" (events_params p).
Definition SendTransaction `{Json SendTxResult} (deadline : Z) (txXDR : string) : M W SendTxResult :=
  rpc_call deadline "sendTransaction" (JObj [("transaction", JStr txXDR)]).
Definition GetTransaction `{Json RpcTransaction} (deadline : Z) (hash : string) : M W RpcTransaction :=
  rpc_call deadline "getTransaction" (JObj [("hash", JStr hash)]).
Definition GetLedgerEntries `{Json GetLedgerEntriesResult} (deadline : Z) (keys : list string) : M W GetLedgerEntriesResult :=
  rpc_call deadline "getLedgerEntries" (JObj [("keys", strings_json keys)]).
Definition GetAccountLedgerKey `{StellarSDK} `{LedgerXdr} (address : string) : res string :=
  let? raw := res_wrap "decode address" (strkey_decode_account address) in
  res_wrap "marshal ledger key" (account_key_b64 raw).
(** [MustAccount] panics on another entry. *)
Definition GetAccountLedgerSequence `{StellarSDK} `{LedgerXdr} `{Json GetLedgerEntriesResult} (deadline : Z) (address : string) : M W Z :=
  let! keyXDR := wrap "build ledger key" (lift (GetAccountLedgerKey address)) in
  let! result := wrap "get ledger entries" (GetLedgerEntries deadline [keyXDR]) in
  match lr_Entries result with
  | [] => throw (Errorf "account not found on ledger")
  | entry :: _ =>
      let! seq := wrap "decode ledger entry XDR" (lift (entry_account_seq (le_DataXDR entry))) in
      match seq with Some seq => ret seq | None => throw panic_union_arm end
  end.

(** ** horizon.go *)
Definition horizon_limit (limit : Z) : Z := if (limit <=? 0) || (200 <? limit) then 50 else limit.
(** The elements of a path, "." and ".." resolved as [path.Join] does. *)
Fixpoint segments (s : string) (seg : string) : list string :=
  match s with
  | "" => [seg]
  | String "/" s' => seg :: segments s' ""
  | String c s' => segments s' (seg +:+ String c "")
  end.
Definition clean_step (done : list string) (seg : string) : list string :=
  if String.eqb seg "" || String.eqb seg "." then done else
  if String.eqb seg ".." then match done with [] => [] | _ :: done => done end else seg :: done.
Definition clean_path (segs : list string) : string :=
  "/" +:+ String.concat "/" (reverse (fold_left clean_step segs [])).
(** The characters net/url leaves alone in a path that is escaped already. *)
Definition path_char (c : ascii) : bool := segment_char c || existsb (Ascii.eqb c) (list_ascii_of_string "/!'()*,;[]").
Definition path_kept (c : ascii) : bool := segment_char c || existsb (Ascii.eqb c) (list_ascii_of_string "/,;").
Fixpoint escape_path (s : string) : string :=
  match s with "" => "" | String c s' => (if path_kept c then String c "" else percent c) +:+ escape_path s' end.
Fixpoint unescape_path (s : string) : option string :=
  match s with
  | "" => Some ""
  | String "%" (String a (String b s')) =>
      match hex_val a, hex_val b with
      | Some x, Some y => String (ascii_of_N (16 * x + y)) <$> unescape_path s'
      | _, _ => None
      end
  | String "%" _ => None
  | String c s' => String c <$> unescape_path s'
  end.
(** [JoinPath] onto a base without a path; a bad escape leaves the base alone. *)
Definition joined_path (segs : list string) : string :=
  let p := clean_path segs in
  match unescape_path p with
  | None => ""
  | Some q => if str_forall (fun c => path_char c || Ascii.eqb c "%") p then p else escape_path q
  end.
Definition operations_url (address : string) (limit : Z) : string :=
  horizonURL +:+ joined_path ("accounts" :: segments address "" ++ ["operations"])
  +:+ "?include_failed=true&limit=" +:+ pretty limit +:+ "&order=desc".
Definition GetAccountOperations `{JsonDecode (list HorizonOperation)} (deadline : Z) (address : string) (limit : Z)
    : M W (list HorizonOperation) :=
  let! resp := wrap "horizon request" (do_within deadline horizonTimeout
    {| rq_Method := "GET"; rq_URL := operations_url address (horizon_limit limit);
       rq_Header := [("Accept", "application/json")]; rq_Body := None |}) in
  if rs_StatusCode resp =? StatusNotFound then ret [] else
  if negb (rs_StatusCode resp =? StatusOK) then throw (Errorf "horizon returned") else
  wrap "decode response" (lift (json_decode (rs_Body resp))).
End Client.
(** ** stellar.go: the values of events *)
Section Values.
Context `{StellarSDK}.

Definition addressToScAddress (address : string) : res ScAddress :=
  if String.prefix "G" address then
    let? aid := res_wrap "decode account address" (strkey_decode_account address) in Ok (AddrAccount aid)
  else if String.prefix "C" address then
    let? id := res_wrap "decode contract address" (strkey_decode_contract address) in Ok (AddrContract id)
  else Err (Errorf "unsupported address prefix").
Definition scAddressToString (addr : ScAddress) : res string :=
  match addr with
  | AddrAccount key => strkey_encode_account key
  | AddrContract id => strkey_encode_contract id
  | AddrOther _ => Err (Errorf "unsupported ScAddress type")
  end.
Definition AddressToScValXDR (address : string) : res string :=
  let? scAddr := res_wrap "build ScAddress" (addressToScAddress address) in
  res_wrap "marshal ScVal" (scval_marshal_b64 (ScvAddress scAddr)).
(** It panics where this fails. *)
Definition SymbolToScValXDR (sym : string) : res string := scval_marshal_b64 (ScvSymbol sym).
Definition DecodeScAddressTopic (xdrBase64 : string) : res string :=
  let? val := res_wrap "unmarshal ScVal" (scval_unmarshal_b64 xdrBase64) in
  match val with ScvAddress addr => scAddressToString addr | _ => Err (Errorf "expected SCV_ADDRESS") end.
Definition stroopsPerXLM : Z := 10000000.
(** The parts of an i128, printed. *)
Definition amount_text (hi lo : Z) : string :=
  if hi <? 0 then "0" else
  if hi =? 0 then FormatFloat7 (div (of_Z lo) (of_Z stroopsPerXLM)) else pretty hi +:+ pad_left 19 (pretty lo).
Definition DecodeI128Amount (xdrBase64 : string) : res string :=
  let? val := res_wrap "unmarshal ScVal" (scval_unmarshal_b64 xdrBase64) in
  match val with ScvI128 hi lo => Ok (amount_text hi lo) | _ => Err (Errorf "expected SCV_I128") end.
End Values.

(** ** The network of the other services: each call starts at the wall clock, in a request that ends at [deadline]. *)
Section Instances.
Context `{Http} `{Elapses} `{JsonText} `{StellarEndpoints} `{JsonDecode rpcAnswer} `{StellarSDK} `{LedgerXdr} `{Env}.
Context `{Json SimulateResult} `{Json latestLedgerResult} `{Json SendTxResult} `{Json RpcTransaction} `{Json GetLedgerEntriesResult}.
Variable deadline : Z.

Definition rpc_at (n : nat) : World (Timed unit) := MkWorld (MkTimed (env_now n) [] tt) n.
Definition at_rpc {B} (m : M (World (Timed unit)) B) (n : nat) : res B := fst (m (rpc_at n)).
Definition sim_of (r : SimulateResult) : SimResult :=
  {| sim_Error := sm_Error r; sim_Results := (fun e => (se_XDR e, default [] (se_Auth e))) <$> sm_Results r;
     sim_TransactionData := sm_TransactionData r; sim_MinResourceFee := sm_MinResourceFee r; sim_LatestLedger := sm_LatestLedger r |}.
Definition settled_of (r : RpcTransaction) : GetTxResult :=
  {| gt_Status := rt_Status r; gt_ResultMetaXdr := rt_ResultMetaXdr r; gt_EnvelopeXdr := rt_EnvelopeXdr r |}.
Definition then_pure {B C} (f : B -> C) (m : M (World (Timed unit)) B) : M (World (Timed unit)) C := let! b := m in ret (f b).
Definition rpc_network : Network := {|
  rpc_simulate tx := at_rpc (then_pure sim_of (SimulateTransaction deadline tx 0));
  rpc_latest_ledger := at_rpc (GetLatestLedger deadline);
  rpc_account_sequence address := at_rpc (GetAccountLedgerSequence deadline address) |}.
Definition rpc_submit_network : SubmitNetwork := {|
  rpc_send tx := at_rpc (SendTransaction deadline tx);
  rpc_get_transaction hash := at_rpc (then_pure settled_of (GetTransaction deadline hash));
  rpc_ledger_entries keys := at_rpc (then_pure (fun r => length (lr_Entries r)) (GetLedgerEntries deadline keys));
  ctx_err n := match fst (ctx_Err deadline (rpc_at n)) with Ok e => e | Err e => Some e end |}.
End Instances.

(** ** handler/transaction.go *)
Section Routes.
Context `{Http} `{Elapses} `{JsonText} `{StellarEndpoints} `{JsonDecode rpcAnswer} `{Unicode} `{Deployment}.
Context `{Json SimulateResult} `{Json SendTxResult} `{Json RpcTransaction}.
Abbreviation W := (World (Timed unit)).

Definition preamble_json (p : RestorePreamble) : json :=
  JObj [("minResourceFee", JStr (rp_MinResourceFee p)); ("transactionData", JStr (rp_TransactionData p))].
Definition entry_json (e : SimResultEntry) : json :=
  JObj [("auth", match se_Auth e with Some l => strings_json l | None => JNull end); ("xdr", JStr (se_XDR e))].
(** The fields tagged [omitempty] are left out when empty. *)
Definition simulated_json (r : SimulateResult) : json :=
  JObj ([("min_resource_fee", JStr (sm_MinResourceFee r)); ("transaction_data", JStr (sm_TransactionData r))] ++
        match sm_Results r with [] => [] | l => [("results", JArr (entry_json <$> l))] end ++
        match sm_Events r with [] => [] | l => [("events", strings_json l)] end ++
        match sm_RestorePreamble r with Some p => [("restore_preamble", preamble_json p)] | None => [] end ++
        omitzero "latest_ledger" (sm_LatestLedger r)).
Definition simulation_error_json (err : string) : json :=
  JObj [("min_resource_fee", JStr ""); ("transaction_data", JStr ""); ("error", JStr err)].
(** The status with the data: a failed simulation is data of a 422. *)
Definition Simulate_handler (deadline : Z) (xdr network : string) (instructionLeeway : Z) : M W (Z * json) :=
  let! _ := v1_bound [xdr] in
  let! _ := named_network httpx network in
  let! result := or_fail "502" "BAD_GATEWAY" (SimulateTransaction deadline xdr instructionLeeway) in
  if negb (String.eqb (sm_Error result) "") then ret (StatusUnprocessableEntity, simulation_error_json (sm_Error result))
  else ret (StatusOK, simulated_json result).

Record relayResponse := { ry_Hash : string; ry_Status : string; ry_Error : string }.
Definition relayPollAttempts : nat := 20.
(** [time.Sleep] does not look at the context. *)
Definition sleep (d : Z) : M W unit := fun w => (Ok tt, elapse (t_now (w_store w) + d) w).
Fixpoint relay_poll (attempts : nat) (deadline : Z) (hash : string) : M W relayResponse :=
  match attempts with
  | O => ret {| ry_Hash := hash; ry_Status := RPCStatusPending; ry_Error := "" |}
  | S attempts =>
      let! _ := sleep 1000 in
      let! poll := attempt (GetTransaction deadline hash) in
      match poll with
      | Err _ => relay_poll attempts deadline hash
      | Ok poll =>
          if String.eqb (rt_Status poll) RPCStatusSuccess
          then ret {| ry_Hash := hash; ry_Status := RPCStatusSuccess; ry_Error := "" |} else
          if String.eqb (rt_Status poll) RPCStatusFailed
          then ret {| ry_Hash := hash; ry_Status := RPCStatusFailed;
                      ry_Error := if String.eqb (rt_ErrorResultXdr poll) "" then rt_ResultXdr poll else rt_ErrorResultXdr poll |}
          else relay_poll attempts deadline hash
      end
  end.
Definition Relay_handler (deadline : Z) (xdr network : string) : M W relayResponse :=
  let! _ := v1_bound [xdr] in
  let! _ := named_network httpx network in
  let! sent := or_fail "502" "BAD_GATEWAY" (SendTransaction deadline xdr) in
  if String.eqb (st_Status sent) RPCStatusError
  then ret {| ry_Hash := st_Hash sent; ry_Status := RPCStatusError; ry_Error := st_ErrorResultXdr sent |} else
  if String.eqb (st_Status sent) RPCStatusTryAgain
  then ret {| ry_Hash := ""; ry_Status := RPCStatusTryAgain; ry_Error := "" |} else
  relay_poll relayPollAttempts deadline (st_Hash sent).
End Routes.
End Rpc.
