(* ===== verification/History.v ===== *)
(** * Transaction history (service/history.go, handler/history.go)

    Horizon's operations of a classic account and the native asset's transfer
    events of a smart account, as one list: each transaction once, newest first,
    kept in Redis for thirty seconds. *)

From S2P Require Export Rpc.

Record Transaction := {
  tx_ID : string; tx_Hash : string; tx_Type : string; tx_From : string; tx_To : string; tx_Amount : string;
  tx_Asset : string; tx_Status : string; tx_CreatedAt : Z }.
Record HistoryParams := {
  hp_GAddress : string; hp_CAddress : string; hp_Network : string; hp_NativeSACID : string; hp_Limit : Z }.
(** [sort.Slice] by descending instant: what it promises, which is nothing about equal ones. *)
Class SortNewest := {
  sort_newest : list Transaction -> list Transaction;
  sort_newest_perm : forall l, sort_newest l ≡ₚ l;
  sort_newest_sorted : forall l, StronglySorted (fun a b => tx_CreatedAt b <= tx_CreatedAt a) (sort_newest l) }.
Class NativeSac := { nativeSACID : string }.

Module History.
Import Url Deploynet AccountSigners Routes Mobile MobileRoutes Rpc.

Definition historyCacheTTL : Z := 30000.
Definition maxLedgerWindow : Z := 518400.
(** [time.Time{}], in milliseconds *)
Definition no_time : Z := -62135596800000.

Definition assetString (assetType code issuer : string) : string :=
  if String.eqb assetType "native" then "native" else if negb (String.eqb issuer "") then code +:+ ":" +:+ issuer else code.
Definition seen_hash (seen : list Transaction) (tx : Transaction) : bool :=
  existsb (fun t => String.eqb (tx_Hash t) (tx_Hash tx)) seen.
(** The loops with [seen]: a transaction whose hash is there already is dropped. *)
Definition add_unseen (txs new : list Transaction) : list Transaction :=
  fold_left (fun txs tx => if seen_hash txs tx then txs else (txs ++ [tx])%list) new txs.
(** [strings.ReplaceAll(s, "-", "")] *)
Fixpoint without_dashes (s : string) : string :=
  match s with "" => "" | String c s' => if Ascii.eqb c "-" then without_dashes s' else String c (without_dashes s') end.

Section History.
Context `{Http} `{Elapses} `{JsonText} `{StellarEndpoints} `{JsonDecode rpcAnswer} `{StellarSDK} `{Env} `{TimeFormat}.
Context `{Json latestLedgerResult} `{Json EventsResult} `{JsonDecode (list HorizonOperation)} `{Json (list Transaction)} `{SortNewest}.
Abbreviation W := (World (Timed RedisStore)).

Definition on_cache {A} : M (World RedisStore) A -> M W A := zoom t_own (fun x t => MkTimed (t_now t) (t_sent t) x).
(** [createdAt, _ := time.Parse(time.RFC3339, s)] *)
Definition parsed_time (s : string) : Z := match rfc3339_parse s with Ok t => t | Err _ => no_time end.

Definition horizonOpToTx (op : HorizonOperation) : Transaction :=
  let status := if ho_TransactionSuccessful op then "success" else "failed" in
  let tx from to amount asset :=
    {| tx_ID := ho_ID op; tx_Hash := ho_TransactionHash op; tx_Type := ho_Type op; tx_From := from; tx_To := to;
       tx_Amount := amount; tx_Asset := asset; tx_Status := status; tx_CreatedAt := parsed_time (ho_CreatedAt op) |} in
  if bool_decide (ho_Type op ∈ ["payment"; "path_payment_strict_receive"; "path_payment_strict_send"])
  then tx (ho_From op) (ho_To op) (ho_Amount op) (assetString (ho_AssetType op) (ho_AssetCode op) (ho_AssetIssuer op)) else
  if String.eqb (ho_Type op) "create_account" then tx (ho_Funder op) (ho_Account op) (ho_StartingBalance op) "native"
  else tx "" "" "" "".
Definition or_empty (r : res string) : string := match r with Ok s => s | Err _ => "" end.
Definition sacEventToTx (ev : SorobanEvent) : Transaction :=
  let '(from, to) := match ev_Topic ev with
                     | _ :: from :: to :: _ => (or_empty (DecodeScAddressTopic from), or_empty (DecodeScAddressTopic to))
                     | _ => ("", "")
                     end in
  {| tx_ID := ev_ID ev; tx_Hash := if String.eqb (ev_TxHash ev) "" then without_dashes (ev_ID ev) else ev_TxHash ev;
     tx_Type := "sac_transfer"; tx_From := from; tx_To := to;
     tx_Amount := if String.eqb (ev_Value ev) "" then "" else or_empty (DecodeI128Amount (ev_Value ev));
     tx_Asset := "native"; tx_Status := "success"; tx_CreatedAt := parsed_time (ev_LedgerClosedAt ev) |}.

Definition events_query (p : HistoryParams) (latestLedger : Z) (transferSymbol addrXDR : string) : GetEventsParams :=
  {| ge_StartLedger := Z.max 1 (latestLedger - maxLedgerWindow); ge_Type := "contract"; ge_ContractIDs := [hp_NativeSACID p];
     ge_Topics := [[transferSymbol; addrXDR; "*"; "*"]; [transferSymbol; "*"; addrXDR; "*"]]; ge_Limit := hp_Limit p |}.
Definition fetchSACEvents (deadline : Z) (p : HistoryParams) : M W (list Transaction) :=
  let! latestLedger := wrap "get latest ledger" (GetLatestLedger deadline) in
  let! transferSymbol := lift (SymbolToScValXDR "transfer") in  (* it panics rather than fail *)
  let! addrXDR := wrap "encode C-address" (lift (AddressToScValXDR (hp_CAddress p))) in
  let! result := wrap "get events" (GetEvents deadline (events_query p latestLedger transferSymbol addrXDR)) in
  ret (sacEventToTx <$> List.filter ev_InSuccessfulContractCall (es_Events result)).

Definition history_key (p : HistoryParams) : string :=
  "history:" +:+ hp_Network p +:+ ":" +:+ hp_GAddress p +:+ ":" +:+ hp_CAddress p.
Definition with_limit (limit : Z) (p : HistoryParams) : HistoryParams :=
  {| hp_GAddress := hp_GAddress p; hp_CAddress := hp_CAddress p; hp_Network := hp_Network p;
     hp_NativeSACID := hp_NativeSACID p; hp_Limit := limit |}.
Definition page_size (limit : Z) : Z := if (limit <=? 0) || (100 <? limit) then 50 else limit.
(** What the cache holds, when it is a list of transactions. *)
Definition cached_history (key : string) : M W (option (list Transaction)) :=
  let! cached := attempt (on_cache (redis (GET key))) in
  match cached with
  | Ok text => match json_unmarshal text with Ok txs => ret (Some txs) | Err _ => ret None end
  | Err _ => ret None
  end.
(** A source that fails counts as empty. *)
Definition or_none {S A} (m : M S (list A)) : M S (list A) :=
  let! r := attempt m in match r with Ok l => ret l | Err _ => ret [] end.
Definition horizon_part (deadline : Z) (p : HistoryParams) : M W (list Transaction) :=
  if String.eqb (hp_GAddress p) "" then ret [] else
  let! ops := or_none (GetAccountOperations deadline (hp_GAddress p) (hp_Limit p)) in
  ret (horizonOpToTx <$> ops).
Definition events_part (deadline : Z) (p : HistoryParams) : M W (list Transaction) :=
  if String.eqb (hp_CAddress p) "" || String.eqb (hp_NativeSACID p) "" then ret [] else or_none (fetchSACEvents deadline p).
Definition merged (p : HistoryParams) (ops events : list Transaction) : list Transaction :=
  take (Z.to_nat (hp_Limit p)) (sort_newest (add_unseen (add_unseen [] ops) events)).
Definition keep_history (key : string) (txs : list Transaction) : M W unit :=
  match json_marshal txs with
  | Ok b => let! _ := attempt (on_cache (redis (SET key b historyCacheTTL))) in ret tt
  | Err _ => ret tt
  end.
Definition GetHistory (deadline : Z) (p : HistoryParams) : M W (list Transaction) :=
  let p := with_limit (page_size (hp_Limit p)) p in
  let! cached := cached_history (history_key p) in
  match cached with
  | Some txs => ret txs
  | None =>
      let! ops := horizon_part deadline p in
      let! events := events_part deadline p in
      let txs := merged p ops events in
      let! _ := keep_history (history_key p) txs in
      ret txs
  end.

(** ** handler/history.go *)
Context `{Unicode} `{Deployment} `{NativeSac}.
Definition history_limit (raw : string) : Z :=
  match Atoi raw with Some n => if 0 <? n then Z.min n 100 else 50 | None => 50 end.
Definition GetHistory_handler (deadline : Z) (gAddress cAddress rawNetwork limit : string) : M W (list Transaction * string) :=
  if String.eqb gAddress "" && String.eqb cAddress "" then fail "400" "VALIDATION_ERROR" else
  let! network := named_network httpx rawNetwork in
  let! txs := or_fail "500" "INTERNAL_ERROR" (GetHistory deadline
    {| hp_GAddress := gAddress; hp_CAddress := cAddress; hp_Network := network; hp_NativeSACID := nativeSACID;
       hp_Limit := history_limit limit |}) in
  ret (txs, network).
End History.
End History.
