(* ===== verification/StartUp.v ===== *)
(** * Start-up (internal/config, internal/deployment, cmd/server/main.go)

    The configuration read from the environment and its checks, the stamps that
    tie a database and a Redis to one network, the check of the RPC, the order
    of these steps, and the periodic sweep. Durations are in nanoseconds, as in
    [time.Duration]; a refusal to start is an error. *)

From S2P Require Export Rpc.

Record Config := {
  cf_Port : string; cf_DatabaseURL : string; cf_RedisURL : string; cf_JWTSecret : string; cf_AccessTokenTTLMin : Z;
  cf_RefreshTokenTTLDay : Z; cf_RecoveryTokenTTLMin : Z; cf_ResendAPIKey : string; cf_EmailFromName : string;
  cf_EmailFromAddr : string; cf_ServerPepper : string; cf_EncryptionMasterKey : string; cf_AppEnv : string; cf_Network : string;
  cf_SorobanRPCURL : string; cf_HorizonURL : string; cf_NativeSACID : string; cf_CoinGeckoAPIKey : string;
  cf_WalletAuthSorobanURL : string; cf_WebAuthnAllowedOrigins : list string; cf_BundlerAllowedContracts : list string;
  cf_CORSAllowedOrigins : list string; cf_ExtensionIDs : list string; cf_BundlerSecret : string;
  cf_LegacyDelegatedSignerSecret : string; cf_FactoryAddress : string; cf_WebAuthnVerifierAddress : string;
  cf_Ed25519VerifierAddress : string; cf_NetworkPassphrase : string; cf_RPID : string; cf_WebAuthnOrigin : string;
  cf_DevTrustReqHost : bool; cf_AllowedDevOrigins : list string; cf_USDCSACAddress : string; cf_AssetAllowlistJSON : string;
  cf_CounterContractAddress : string; cf_MoonPaySecretKey : string; cf_MoonPayPublishableKey : string;
  cf_MoonPayIntegrationMode : string; cf_MoonPayAPIBase : string; cf_MoonPayWidgetBuyURL : string;
  cf_MoonPayPoolGAddress : string; cf_MoonPayDefaultFiatAmount : string; cf_MoonPayDefaultFiatCode : string;
  cf_TransakAPIKey : string; cf_TransakAPISecret : string; cf_TransakEnv : string; cf_TransakReferrerDomain : string;
  cf_TransakAPIBase : string; cf_OnRampIntentTTL : Z; cf_OnRampRelayerTimeout : Z; cf_CleanupEnabled : bool;
  cf_CleanupInterval : Z; cf_CosignRetention : Z; cf_WCKBundleRetention : Z; cf_WalletMembershipRetention : Z;
  cf_RelayerURL : string; cf_RelayerAPIKey : string; cf_RelayerTimeout : Z; cf_GaslessURL : string; cf_GaslessAPIKey : string;
  cf_GaslessTimeout : Z }.

(** A Postgres database, namely whether the table [deployment_network] is there and the network in its one row, and a
    Redis. Both may be shared by several servers. *)
Record Infra := MkInfra { in_table : bool; in_stamp : option string; in_redis : RedisStore }.
(** golang-migrate: the version reached and whether it is dirty, or a failure; and whether migration 32, which makes
    the table, is among those that ran. *)
Class Migrations := { migrate_up : nat -> res (Z * bool); migrate_32 : nat -> bool }.
(** The members of the RPC's answer to getNetwork. *)
Record networkAnswer := { na_Passphrase : string; na_Error : option string }.

(** The environment of the process, [.env] included. *)
Class Environment := { getenv : string -> string }.

Module StartUp.
Import Deploynet Amount Assets Mobile MobileStore MobileData MobileRoutes Rpc.

Definition time_second : Z := 10 ^ 9.
Definition time_minute : Z := 60 * time_second.
Definition time_hour : Z := 60 * time_minute.
(** [time.Duration(n) * unit] *)
Definition duration (n unit : Z) : Z := big_int64 (n * unit).

Section Config.
Context `{Unicode} `{Environment}.

Definition panic_unset (key : string) : error := Errorf ("panic: required environment variable is not set: " +:+ key).
Definition requireEnv (key : string) : res string :=
  if String.eqb (getenv key) "" then Err (panic_unset key) else Ok (getenv key).
Definition getEnv (key fallback : string) : string := if String.eqb (getenv key) "" then fallback else getenv key.
Definition getEnvInt (key : string) (fallback : Z) : Z := default fallback (Atoi (getenv key)).
(** [strconv.ParseBool] *)
Definition ParseBool (s : string) : option bool :=
  if bool_decide (s ∈ ["1"; "t"; "T"; "TRUE"; "true"; "True"]) then Some true else
  if bool_decide (s ∈ ["0"; "f"; "F"; "FALSE"; "false"; "False"]) then Some false else None.
Definition getEnvBool (key : string) (fallback : bool) : bool := default fallback (ParseBool (getenv key)).
Fixpoint split_commas (s part : string) : list string :=
  match s with
  | "" => [part]
  | String "," s' => part :: split_commas s' ""
  | String c s' => split_commas s' (part +:+ String c "")
  end.
Definition splitCSV (s : string) : list string :=
  List.filter (fun t => negb (String.eqb t "")) (trim_space <$> split_commas s "").

Definition configured_network : string := to_lower (trim_space (getenv "STELLAR_NETWORK")).
Definition testnetDefault (network fallback : string) : string := if String.eqb network Mainnet then "" else fallback.
(** [strconv.Atoi] of a setting that must be an integer *)
Definition integer_setting (key fallback : string) : res Z :=
  match Atoi (getEnv key fallback) with Some n => Ok n | None => Err (Errorf (key +:+ " must be an integer")) end.
Definition requiredMainnetVars : list string :=
  ["SOROBAN_RPC_URL"; "HORIZON_URL"; "NATIVE_SAC_ID"; "BUNDLER_SECRET"; "NEXT_PUBLIC_FACTORY_ADDRESS";
   "NEXT_PUBLIC_WEBAUTHN_VERIFIER_ADDRESS"; "NEXT_PUBLIC_VERIFIER_ADDRESS"; "NEXT_PUBLIC_USDC_SAC_ADDRESS"].
Definition validateNetwork (network appEnv : string) : res unit :=
  if negb (String.eqb network Testnet || String.eqb network Mainnet) then Err (Errorf "STELLAR_NETWORK must be testnet or mainnet") else
  if String.eqb network Mainnet && negb (String.eqb appEnv "production") then Err (Errorf "mainnet requires APP_ENV=production") else
  if String.eqb network Mainnet && existsb (fun key => String.eqb (getenv key) "") requiredMainnetVars
  then Err (Errorf "mainnet has no defaults") else Ok tt.
Definition long_enough (secret : string) : bool := (32 <=? String.length secret)%nat.
(** Empty, or of 32 bytes at least *)
Definition optional_secret (secret what : string) : res unit :=
  if negb (String.eqb secret "") && negb (long_enough secret) then Err (Errorf (what +:+ " must be at least 32 bytes when set")) else Ok tt.

(** The struct literal of [Load], then the three integers, then the checks. *)
Definition Load : res Config :=
  let network := configured_network in
  let default_url := testnetDefault network in
  let sorobanRPCURL := getEnv "SOROBAN_RPC_URL" (default_url "https://soroban-testnet.stellar.org") in
  let? databaseURL := requireEnv "DATABASE_URL" in
  let? redisURL := requireEnv "REDIS_URL" in
  let? jwtSecret := requireEnv "JWT_SECRET" in
  let? resendAPIKey := requireEnv "RESEND_API_KEY" in
  let? accessTTL := integer_setting "ACCESS_TOKEN_TTL_MIN" "15" in
  let? refreshTTL := integer_setting "REFRESH_TOKEN_TTL_DAY" "30" in
  let? recoveryTTL := integer_setting "RECOVERY_TOKEN_TTL_MIN" "15" in
  if negb (long_enough jwtSecret) then Err (Errorf "JWT_SECRET must be at least 32 bytes") else
  let? _ := optional_secret (getEnv "SERVER_PEPPER" "") "SERVER_PEPPER" in
  let? _ := optional_secret (getEnv "ENCRYPTION_MASTER_KEY" "") "ENCRYPTION_MASTER_KEY" in
  let? _ := validateNetwork network (getEnv "APP_ENV" "development") in
  Ok {| cf_Port := getEnv "PORT" "8080"; cf_DatabaseURL := databaseURL; cf_RedisURL := redisURL; cf_JWTSecret := jwtSecret;
        cf_AccessTokenTTLMin := accessTTL; cf_RefreshTokenTTLDay := refreshTTL; cf_RecoveryTokenTTLMin := recoveryTTL;
        cf_ResendAPIKey := resendAPIKey; cf_EmailFromName := getEnv "EMAIL_FROM_NAME" "Latch";
        cf_EmailFromAddr := getEnv "EMAIL_FROM_ADDR" "noreply@yourdomain.com"; cf_ServerPepper := getEnv "SERVER_PEPPER" "";
        cf_EncryptionMasterKey := getEnv "ENCRYPTION_MASTER_KEY" ""; cf_AppEnv := getEnv "APP_ENV" "development";
        cf_Network := network; cf_SorobanRPCURL := sorobanRPCURL;
        cf_HorizonURL := getEnv "HORIZON_URL" (default_url "https://horizon-testnet.stellar.org");
        cf_NativeSACID := getEnv "NATIVE_SAC_ID" (default_url "CDLZFC3SYJYDZT7K67VZ75HPJVIEUVNIXF47ZG2FB2RMQQVU2HHGCYSC");
        cf_CoinGeckoAPIKey := getEnv "COINGECKO_API_KEY" "";
        cf_WalletAuthSorobanURL := getEnv "WALLET_AUTH_SOROBAN_URL" sorobanRPCURL;
        cf_WebAuthnAllowedOrigins := splitCSV (getEnv "WEBAUTHN_ALLOWED_ORIGINS" "https://uselatch.app");
        cf_BundlerAllowedContracts := splitCSV (getEnv "BUNDLER_ALLOWED_CONTRACTS" "");
        cf_CORSAllowedOrigins := splitCSV (getEnv "API_CORS_ALLOWED_ORIGINS" "");
        cf_ExtensionIDs := splitCSV (getEnv "WEBAUTHN_EXTENSION_IDS" ""); cf_BundlerSecret := getEnv "BUNDLER_SECRET" "";
        cf_LegacyDelegatedSignerSecret := getEnv "LEGACY_DELEGATED_SIGNER_SECRET" (getEnv "LEGACY_BUNDLER_SECRET" "");
        cf_FactoryAddress := getEnv "NEXT_PUBLIC_FACTORY_ADDRESS" "";
        cf_WebAuthnVerifierAddress := getEnv "NEXT_PUBLIC_WEBAUTHN_VERIFIER_ADDRESS" "";
        cf_Ed25519VerifierAddress := getEnv "NEXT_PUBLIC_VERIFIER_ADDRESS" ""; cf_NetworkPassphrase := Passphrase network;
        cf_RPID := getEnv "WEBAUTHN_RP_ID" ""; cf_WebAuthnOrigin := getEnv "WEBAUTHN_ORIGIN" "";
        cf_DevTrustReqHost := negb (String.eqb (getEnv "WEBAUTHN_DEV_TRUST_REQUEST_HOST" "") "");
        cf_AllowedDevOrigins := splitCSV (getEnv "ALLOWED_DEV_ORIGINS" "");
        cf_USDCSACAddress := getEnv "NEXT_PUBLIC_USDC_SAC_ADDRESS" (default_url "CBIELTK6YBZJU5UP2WWQEUCYKLPU6AUNZ2BQ4WWFEIE3USCIHMXQDAMA");
        cf_AssetAllowlistJSON := getEnv "NEXT_PUBLIC_ASSET_ALLOWLIST_JSON" "";
        cf_CounterContractAddress := getEnv "NEXT_PUBLIC_COUNTER_ADDRESS" "";
        cf_MoonPaySecretKey := getEnv "MOONPAY_SECRET_KEY" ""; cf_MoonPayPublishableKey := getEnv "MOONPAY_PUBLISHABLE_KEY" "";
        cf_MoonPayIntegrationMode := getEnv "MOONPAY_INTEGRATION_MODE" "auto";
        cf_MoonPayAPIBase := getEnv "MOONPAY_API_BASE" "https://api.moonpay.com";
        cf_MoonPayWidgetBuyURL := getEnv "MOONPAY_WIDGET_BUY_URL" ""; cf_MoonPayPoolGAddress := getEnv "MOONPAY_POOL_G_ADDRESS" "";
        cf_MoonPayDefaultFiatAmount := getEnv "MOONPAY_DEFAULT_FIAT_AMOUNT" "25";
        cf_MoonPayDefaultFiatCode := getEnv "MOONPAY_DEFAULT_FIAT_CODE" "USD";
        cf_TransakAPIKey := getEnv "TRANSAK_API_KEY" ""; cf_TransakAPISecret := getEnv "TRANSAK_API_SECRET" "";
        cf_TransakEnv := getEnv "TRANSAK_ENV" "staging"; cf_TransakReferrerDomain := getEnv "TRANSAK_REFERRER_DOMAIN" "latch.finance";
        cf_TransakAPIBase := getEnv "TRANSAK_API_BASE" "";
        cf_OnRampIntentTTL := duration (getEnvInt "ONRAMP_INTENT_TTL_SEC" (7 * 24 * 60 * 60)) time_second;
        cf_OnRampRelayerTimeout := duration (getEnvInt "ONRAMP_RELAYER_TIMEOUT_SEC" 8) time_second;
        cf_CleanupEnabled := getEnvBool "CLEANUP_ENABLED" true;
        cf_CleanupInterval := duration (getEnvInt "CLEANUP_INTERVAL_MIN" 60) time_minute;
        cf_CosignRetention := duration (getEnvInt "COSIGN_RETENTION_HOURS" 24) time_hour;
        cf_WCKBundleRetention := big_int64 (duration (getEnvInt "WCK_BUNDLE_RETENTION_DAYS" 180) 24 * time_hour);
        cf_WalletMembershipRetention := big_int64 (duration (getEnvInt "WALLET_MEMBERSHIP_RETENTION_DAYS" 180) 24 * time_hour);
        cf_RelayerURL := getEnv "RELAYER_URL" ""; cf_RelayerAPIKey := getEnv "RELAYER_API_KEY" "";
        cf_RelayerTimeout := duration (getEnvInt "RELAYER_TIMEOUT_SEC" 25) time_second; cf_GaslessURL := getEnv "GASLESS_URL" "";
        cf_GaslessAPIKey := getEnv "GASLESS_API_KEY" ""; cf_GaslessTimeout := duration (getEnvInt "GASLESS_TIMEOUT_SEC" 25) time_second |}.
End Config.
(** ** deployment.go: the statements of the stamps *)
Definition RedisNetworkKey : string := "latch:deployment:network".
Definition set_stamp (stamp : option string) (d : Infra) : Infra := MkInfra (in_table d) stamp (in_redis d).
Definition set_redis (r : RedisStore) (d : Infra) : Infra := MkInfra (in_table d) (in_stamp d) r.
Definition ErrNoTable : error := Errorf "pq: relation does not exist".
(** [INSERT … ON CONFLICT (id) DO NOTHING]: the first row stays. *)
Definition insert_network (network : string) (d : Infra) : res (unit * Infra) :=
  if negb (in_table d) then Err ErrNoTable else
  match in_stamp d with
  | Some _ => Ok (tt, d)
  | None => if String.eqb network Testnet || String.eqb network Mainnet then Ok (tt, set_stamp (Some network) d)
            else Err (Errorf "pq: violates check constraint")
  end.
Definition select_network (d : Infra) : res string :=
  if negb (in_table d) then Err ErrNoTable else match in_stamp d with Some n => Ok n | None => Err ErrNoRows end.
(** [SET key value NX] without a deadline *)
Definition SETNX (key value : string) (now : Z) (d : RedisStore) : res (bool * RedisStore) :=
  match live now key d with
  | Some _ => Ok (false, d)
  | None => Ok (true, <[key := {| re_value := RText value; re_deadline := None |}]> d)
  end.

(** What any server does to a database and a Redis it shares: the statements of the stamps, migrations, and its own
    work, which leaves both stamps alone. *)
Inductive infra_step : Infra -> Infra -> Prop :=
  | step_insert network d d' : insert_network network d = Ok (tt, d') -> infra_step d d'
  | step_setnx network now d b r : SETNX RedisNetworkKey network now (in_redis d) = Ok (b, r) -> infra_step d (set_redis r d)
  | step_migrate d : infra_step d (MkInfra true (in_stamp d) (in_redis d))
  | step_work d r : r !! RedisNetworkKey = in_redis d !! RedisNetworkKey -> infra_step d (set_redis r d).
(** The other servers act before any statement of this one. *)
Class Others := { others : nat -> Infra -> Infra; others_step : forall n d, rtc infra_step d (others n d) }.

Section Deployment.
Context `{Env} `{Elapses} `{Http} `{JsonDecode networkAnswer} `{Migrations} `{Unicode} `{Environment} `{Others}.
Abbreviation W := (World (Timed Infra)).

(** One statement on the database, one command on Redis *)
Definition on_infra {A} (m : M (World Infra) A) : M W A := fun w =>
  zoom t_own (fun x t => MkTimed (t_now t) (t_sent t) x)
    (fun v => m (MkWorld (others (w_io v) (w_store v)) (w_io v))) w.
Definition ErrOtherNetwork : error := Errorf "belongs to the other network".
Definition same_network (stamped network : string) : M W unit :=
  if String.eqb stamped network then ret tt else throw ErrOtherNetwork.
Definition StampDatabase (network : string) : M W unit :=
  let! _ := wrap "stamp database network" (on_infra (exec (insert_network network))) in
  let! stamped := wrap "read database network" (on_infra (query select_network)) in
  same_network stamped network.
Definition CheckDatabase (network : string) : M W unit :=
  let! exists_ := wrap "read database network" (on_infra (query (fun d => Ok (in_table d)))) in
  if negb exists_ then ret tt else
  let! stamped := attempt (on_infra (query select_network)) in
  match stamped with
  | Ok stamped => same_network stamped network
  | Err e => if errors_is e ErrNoRows then ret tt else throw (Wrapf "read database network" e)
  end.
Definition on_server {A} (m : M (World RedisStore) A) : M W A := on_infra (zoom in_redis set_redis m).
Definition StampRedis (network : string) : M W unit :=
  let! _ := wrap "stamp redis network" (on_server (redis (SETNX RedisNetworkKey network))) in
  let! stamped := wrap "read redis network" (on_server (redis (GET RedisNetworkKey))) in
  same_network stamped network.

(** A clean run of every pending migration leaves the table there. *)
Definition run_migrations : M (World Infra) (Z * bool) := fun w =>
  let clean := match migrate_up (w_io w) with Ok (_, dirty) => negb dirty | Err _ => false end in
  let d := w_store w in
  (migrate_up (w_io w), tick (put_store (MkInfra (in_table d || clean || migrate_32 (w_io w)) (in_stamp d) (in_redis d)) w)).
Definition Migrate : M W Z :=
  let! ' (version, dirty) := wrap "migrate up" (on_infra run_migrations) in
  if (dirty : bool) then throw (Errorf "database is dirty") else ret version.
Definition ToPgx5URL (url : string) : string :=
  if String.prefix "postgres://" url then "pgx5://" +:+ str_drop 11 url else
  if String.prefix "postgresql://" url then "pgx5://" +:+ str_drop 13 url else url.

(** Requests and waits of a context without a deadline *)
Definition no_deadline (d : Z) : M W Z := let! now := clock in ret (now + d + 1).
(** The text with double quotes for single ones *)
Definition quoted (s : string) : string := str_map (fun c => if Ascii.eqb c "'" then ascii_of_nat 34 else c) s.
Definition rpcPassphrase (rpcURL : string) : M W string :=
  let! deadline := no_deadline 10000 in
  let! resp := http_Do deadline {| rq_Method := "POST"; rq_URL := rpcURL; rq_Header := [("Content-Type", "application/json")];
    rq_Body := Some (quoted "{'jsonrpc':'2.0','id':1,'method':'getNetwork'}") |} in
  if negb (rs_StatusCode resp =? StatusOK) then throw (Errorf "getNetwork: HTTP") else
  let! out := wrap "getNetwork: decode" (lift (json_decode (rs_Body resp))) in
  match na_Error out with Some msg => throw (Errorf msg) | None => ret (na_Passphrase out) end.
(** The attempts left after [attempt] ones, and the last failure. *)
Fixpoint check_rpc (attempts : nat) (attempt_ : Z) (rpcURL network : string) (lastErr : error) : M W unit :=
  match attempts with
  | O => throw (Wrapf "check Soroban RPC network" lastErr)
  | S attempts =>
      let! waited := if 0 <? attempt_ then let! deadline := no_deadline (attempt_ * 2000) in wait deadline (attempt_ * 2000) else ret None in
      match waited with
      | Some e => throw e
      | None =>
          let! got := attempt (rpcPassphrase rpcURL) in
          match got with
          | Err e => check_rpc attempts (attempt_ + 1) rpcURL network e
          | Ok got => if String.eqb got (Passphrase network) then ret tt else throw ErrOtherNetwork
          end
      end
  end.
Definition CheckRPC (rpcURL network : string) : M W unit := check_rpc 3 0 rpcURL network (Errorf "").

(** ** main.go, up to listening: the server that starts *)
Definition main : M W Config :=
  let! cfg := lift Load in
  let! _ := CheckDatabase (cf_Network cfg) in
  let! _ := Migrate in
  let! _ := StampDatabase (cf_Network cfg) in
  let! _ := StampRedis (cf_Network cfg) in
  let! _ := CheckRPC (cf_SorobanRPCURL cfg) (cf_Network cfg) in
  ret cfg.
End Deployment.

(** ** The periodic sweep *)
Section Cleanup.
Context `{Env} `{Elapses} `{Http} `{Retention}.
Abbreviation W := (World (Timed MobileData)).

Definition panic_ticker : error := Errorf "panic: non-positive interval for NewTicker".
Definition on_tables {A} (m : M (World MobileData) A) : M W A := zoom t_own (fun x t => MkTimed (t_now t) (t_sent t) x) m.
(** Until the context is cancelled, or for [ticks] ticks; a pass that fails is followed by the next. *)
Fixpoint sweep_every (ticks : nat) (interval : Z) : M W unit :=
  match ticks with
  | O => ret tt
  | S ticks =>
      let! now := clock in
      let! done := wait (now + interval + 1) interval in
      match done with
      | Some _ => ret tt
      | None => let! _ := attempt (on_tables Run) in sweep_every ticks interval
      end
  end.
(** [time.NewTicker] panics unless the interval, here in milliseconds, is positive. *)
Definition runCleanupScheduler (ticks : nat) (interval : Z) : M W unit :=
  if interval <=? 0 then throw panic_ticker else sweep_every ticks interval.
End Cleanup.
End StartUp.
