(* ===== verification/Prices.v ===== *)
(** * Prices (service/prices.go, stellar_prices.go, stellar_expert.go, stellar_sac.go and their handlers)

    Prices by token symbol, from CoinGecko; and prices by complete Stellar
    identity, from StellarExpert, where a contract is priced only as the Stellar
    Asset Contract it can be shown to be. Both keep answers in Redis for a
    minute. A Go map is ranged over in the order its keys were added, one of
    the orders Go may take; workers that run at once are run one after another. *)

From Stdlib Require Import Floats.SpecFloat.
From S2P Require Export History StartUp OnRamp.

Record PriceData := { pd_Price : string; pd_Change24h : float64 }.
Abbreviation CoinPrices := (list (string * list (string * float64))).
Class CoinGecko := { coinGeckoAPIKey : string }.

Record AssetIdentity := { ai_Kind : string; ai_Code : string; ai_Issuer : string; ai_ContractID : string }.
#[export] Instance AssetIdentity_eq_dec : EqDecision AssetIdentity.
Proof. solve_decision. Defined.
Record StellarPriceData := { sp_Price : string; sp_Change24h : option float64 }.
Record StellarPriceBatch := { sb_Prices : gmap string string; sb_Absent : gset string }.
Record stellarPriceCacheEntry := { sc_Found : bool; sc_Data : option StellarPriceData }.
Record stellarPriceTarget := { st_original : AssetIdentity; st_underlying : AssetIdentity }.
(** The raw records of a price answer, when [_embedded.records] is an array; a record's asset and raw price. *)
Record stellarExpertPriceResponse := { xr_Records : option (list string) }.
Record stellarExpertPriceRecord := { xp_Asset : string; xp_Price : string }.
Record stellarExpertContractResponse := { xc_Contract : string; xc_Asset : string; xc_Wasm : string }.
(** [json.Unmarshal] into [json.Number]: the text of the number *)
Class JsonNumber := { json_number : string -> res string }.
(** xdr's asset codes, and the contract id of an asset's Stellar Asset Contract: of the native asset, or of a code
    and an issuer. *)
Class StellarAssets := {
  valid_asset_code : string -> bool;
  asset_contract_id : option (string * string) -> string -> res string }.

Module Prices.
Import Url Deploynet AccountSigners Routes Mobile MobileRoutes Rpc GoFloat History StartUp OnRamp.

Definition join_with (sep : string) (l : list string) : string := String.concat sep l.
Definition lookup_key {B} (key : string) (l : list (string * B)) : option B :=
  snd <$> List.find (fun p => String.eqb (fst p) key) l.

(** ** prices.go *)
Definition pricesCacheTTL : Z := 60000.
Definition tokenToCoinGeckoID : list (string * string) :=
  [("native", "stellar"); ("xlm", "stellar"); ("stellar", "stellar"); ("yxlm", "stellar"); ("usdc", "usd-coin");
   ("yusdc", "usd-coin"); ("usdt", "tether"); ("pyusd", "paypal-usd"); ("usdy", "ondo-us-dollar-yield");
   ("usdm", "mountain-protocol-usdm"); ("eurc", "euro-coin"); ("btc", "bitcoin"); ("bitcoin", "bitcoin"); ("ybtc", "bitcoin");
   ("btcln", "bitcoin"); ("eth", "ethereum"); ("ethereum", "ethereum"); ("yeth", "ethereum"); ("sol", "solana");
   ("solana", "solana"); ("dot", "polkadot"); ("xrp", "ripple"); ("ripple", "ripple"); ("doge", "dogecoin"); ("ltc", "litecoin");
   ("bnb", "binancecoin"); ("ada", "cardano"); ("avax", "avalanche-2"); ("matic", "matic-network"); ("pol", "matic-network");
   ("aqua", "aquarius-2"); ("shx", "stronghold-token"); ("velo", "velo"); ("tft", "threefold-token")].
Definition priceCacheKey (cgID currency : string) : string := "prices:cg:" +:+ cgID +:+ ":" +:+ currency.

Section Symbols.
Context `{Http} `{Elapses} `{Env} `{Unicode} `{CoinGecko} `{Json PriceData} `{JsonDecode CoinPrices}.
Abbreviation W := (World (Timed RedisStore)).

Definition coin_of (tok : string) : option string := lookup_key (to_lower tok) tokenToCoinGeckoID.
(** The coins of the tokens, each once. *)
Definition coins_of (tokens : list string) : list string := remove_dups (omap coin_of tokens).
Definition cached_price (currency cgID : string) : M W (option PriceData) :=
  let! val := attempt (on_cache (redis (GET (priceCacheKey cgID currency)))) in
  match val with
  | Ok text => match json_unmarshal text with Ok pd => ret (Some pd) | Err _ => ret None end
  | Err _ => ret None
  end.
Definition coin_request (cgIDs : list string) (currency : string) : http_request :=
  {| rq_Method := "GET";
     rq_URL := "https://api.coingecko.com/api/v3/simple/price?ids=" +:+ join_with "," cgIDs +:+ "&vs_currencies=" +:+ currency
               +:+ "&include_24hr_change=true";
     rq_Header := (("Accept", "application/json") ::
                   if String.eqb coinGeckoAPIKey "" then [] else [("x-cg-demo-api-key", coinGeckoAPIKey)])%list;
     rq_Body := None |}.
(** A coin without a price in the currency is left out. *)
Definition quoted_price (currency : string) (coin : string * list (string * float64)) : option (string * PriceData) :=
  price ← lookup_key currency (snd coin);
  Some (fst coin, {| pd_Price := FormatFloat price;
                     pd_Change24h := default (S754_zero false) (lookup_key (currency +:+ "_24h_change") (snd coin)) |}).
Definition fetchFromCoinGecko (deadline : Z) (cgIDs : list string) (currency : string) : M W (list (string * PriceData)) :=
  let! resp := attempt (do_within deadline 10000 (coin_request cgIDs currency)) in
  match resp with
  | Err _ => ret []
  | Ok resp =>
      if negb (rs_StatusCode resp =? StatusOK) then ret [] else
      match json_decode (rs_Body resp) with
      | Err _ => ret []
      | Ok raw => ret (omap (quoted_price currency) raw)
      end
  end.
Definition keep_price (currency : string) (p : string * PriceData) : M W unit :=
  match json_marshal (snd p) with
  | Ok b => let! _ := attempt (on_cache (redis (SET (priceCacheKey (fst p) currency) b pricesCacheTTL))) in ret tt
  | Err _ => ret tt
  end.
Definition missing_coins (coins : list string) (found : list (option PriceData)) : list string :=
  omap (fun '(c, o) => match o with None => Some c | Some _ => None end) (zip coins found).
Definition cached_coins (coins : list string) (found : list (option PriceData)) : list (string * PriceData) :=
  omap (fun '(c, o) => pair c <$> o) (zip coins found).
(** A token that is not known, or has no price, is nil in the answer. *)
Definition GetPrices (deadline : Z) (tokens : list string) (currency : string) : M W (list (string * option PriceData)) :=
  let currency := to_lower currency in
  let coins := coins_of tokens in
  let! found := mapM (cached_price currency) coins in
  let missing := missing_coins coins found in
  let! fetched := match missing with
                  | [] => ret []
                  | _ => let! fetched := fetchFromCoinGecko deadline missing currency in
                         let! _ := mapM (keep_price currency) fetched in ret fetched
                  end in
  let price tok := cgID ← coin_of tok;
                   match lookup_key cgID (cached_coins coins found) with Some pd => Some pd | None => lookup_key cgID fetched end in
  ret ((fun tok => (tok, price tok)) <$> remove_dups tokens).

(** ** handler/prices.go *)
Definition supportedCurrencies : list string :=
  ["aed"; "ars"; "aud"; "brl"; "cad"; "chf"; "clp"; "cny"; "cop"; "czk"; "dkk"; "eur"; "gbp"; "hkd"; "idr"; "ils"; "inr";
   "jpy"; "krw"; "mxn"; "ngn"; "nok"; "nzd"; "php"; "pln"; "rub"; "sar"; "sek"; "sgd"; "thb"; "try"; "uah"; "usd"; "vnd"; "zar"].
Definition defaultCurrency : string := "usd".
Definition GetPrices_handler (deadline : Z) (raw rawCurrency : string) : M W (list (string * option PriceData) * string) :=
  let tokens := splitCSV (if String.eqb raw "" then "native" else raw) in
  match tokens with
  | [] => fail "400" "VALIDATION_ERROR"
  | _ =>
      let currency := to_lower (trim_space rawCurrency) in
      let currency := if String.eqb currency "" then defaultCurrency else currency in
      if negb (bool_decide (currency ∈ supportedCurrencies)) then fail "400" "VALIDATION_ERROR" else
      let! prices := GetPrices deadline tokens currency in
      ret (prices, currency)
  end.
End Symbols.
(** ** stellar_prices.go: identities *)
Definition AssetKindNative : string := "native".
Definition AssetKindClassic : string := "classic".
Definition AssetKindContract : string := "contract".
Definition stellarPricesCacheTTL : Z := 60000.
Definition CanonicalID (a : AssetIdentity) : string :=
  if String.eqb (ai_Kind a) AssetKindNative then "native" else
  if String.eqb (ai_Kind a) AssetKindClassic then "classic:" +:+ ai_Code a +:+ ":" +:+ ai_Issuer a else
  if String.eqb (ai_Kind a) AssetKindContract then "contract:" +:+ ai_ContractID a else "".
Definition stellarPriceCacheKey (canonicalID : string) : string := "prices:stellar:v1:public:usd:" +:+ canonicalID.
Definition set_empty (s : string) : bool := String.eqb s "".

Section Identities.
Context `{StellarSDK} `{StellarAssets} `{Unicode} `{UnicodeUpper}.

Definition validateStrKey (decoded : res string) : res unit :=
  let? raw := decoded in if (String.length raw =? 32)%nat then Ok tt else Err (Errorf "decoded value must be 32 bytes").
Definition CanonicalizeAssetIdentity (asset : AssetIdentity) : res AssetIdentity :=
  let a := {| ai_Kind := to_lower (trim_space (ai_Kind asset)); ai_Code := trim_space (ai_Code asset);
              ai_Issuer := to_upper (trim_space (ai_Issuer asset)); ai_ContractID := to_upper (trim_space (ai_ContractID asset)) |} in
  if String.eqb (ai_Kind a) AssetKindNative then
    if set_empty (ai_Code a) && set_empty (ai_Issuer a) && set_empty (ai_ContractID a) then Ok a
    else Err (Errorf "native asset cannot include code, issuer, or contract_id")
  else if String.eqb (ai_Kind a) AssetKindClassic then
    if negb (set_empty (ai_ContractID a)) then Err (Errorf "classic asset cannot include contract_id") else
    if negb (valid_asset_code (ai_Code a)) then Err (Errorf "classic asset code must be 1-12 alphanumeric characters") else
    let? _ := res_wrap "invalid classic asset issuer" (validateStrKey (strkey_decode_account (ai_Issuer a))) in Ok a
  else if String.eqb (ai_Kind a) AssetKindContract then
    if negb (set_empty (ai_Code a) && set_empty (ai_Issuer a)) then Err (Errorf "contract asset cannot include code or issuer") else
    let? _ := res_wrap "invalid contract_id" (validateStrKey (strkey_decode_contract (ai_ContractID a))) in Ok a
  else Err (Errorf "unsupported asset type").

(** ** stellar_sac.go *)
Definition stellarExpertAssetTypeCode (code : string) : option string :=
  if ((1 <=? String.length code) && (String.length code <=? 4))%nat then Some "1" else
  if ((5 <=? String.length code) && (String.length code <=? 12))%nat then Some "2" else None.
Fixpoint split_dashes (s part : string) : list string :=
  match s with
  | "" => [part]
  | String "-" s' => part :: split_dashes s' ""
  | String c s' => split_dashes s' (part +:+ String c "")
  end.
Definition native_asset : AssetIdentity := {| ai_Kind := AssetKindNative; ai_Code := ""; ai_Issuer := ""; ai_ContractID := "" |}.
Definition parseStellarExpertAssetID (descriptor : string) : option AssetIdentity :=
  let descriptor := trim_space descriptor in
  if String.eqb descriptor "XLM" then Some native_asset else
  match split_dashes descriptor "" with
  | [code; issuer; typeCode] =>
      match CanonicalizeAssetIdentity {| ai_Kind := AssetKindClassic; ai_Code := code; ai_Issuer := issuer; ai_ContractID := "" |} with
      | Ok asset => match stellarExpertAssetTypeCode (ai_Code asset) with
                    | Some t => if String.eqb typeCode t then Some asset else None
                    | None => None
                    end
      | Err _ => None
      end
  | _ => None
  end.
Definition deriveMainnetSACID (asset : AssetIdentity) : res string :=
  let? id := if String.eqb (ai_Kind asset) AssetKindNative then asset_contract_id None (Passphrase Mainnet) else
             if String.eqb (ai_Kind asset) AssetKindClassic
             then asset_contract_id (Some (ai_Code asset, ai_Issuer asset)) (Passphrase Mainnet)
             else Err (Errorf "cannot derive SAC") in
  strkey_encode_contract id.
End Identities.

(** ** stellar_expert.go *)
Section Provider.
Context `{Http} `{Elapses} `{StellarSDK} `{StellarAssets} `{Unicode} `{UnicodeUpper} `{JsonNumber}.
Context `{Json stellarExpertPriceResponse} `{Json stellarExpertPriceRecord} `{Json stellarExpertContractResponse}.
Context {A : Type}.
Abbreviation W := (World (Timed A)).

Definition stellarExpertBaseURL : string := "https://api.stellar.expert".
Definition stellarExpertTimeout : Z := 10000.
Definition providerResponseLimit : nat := 1048576.
(** A body over the limit is refused; so is one with more than one value. *)
Definition decodeProviderJSON {B} `{Json B} (body : res string) : res B :=
  let? encoded := res_wrap "read provider response" body in
  if (providerResponseLimit <? String.length encoded)%nat then Err (Errorf "provider response exceeds the limit")
  else json_unmarshal encoded.
Definition expert_request (target : string) : http_request :=
  {| rq_Method := "GET"; rq_URL := stellarExpertBaseURL +:+ target; rq_Header := [("Accept", "application/json")]; rq_Body := None |}.
Definition stellarExpertAssetID (asset : AssetIdentity) : res string :=
  if String.eqb (ai_Kind asset) AssetKindNative then Ok "XLM" else
  if String.eqb (ai_Kind asset) AssetKindClassic then
    match stellarExpertAssetTypeCode (ai_Code asset) with
    | Some typeCode => Ok (ai_Code asset +:+ "-" +:+ ai_Issuer asset +:+ "-" +:+ typeCode)
    | None => Err (Errorf "invalid classic asset code length")
    end
  else Err (Errorf "StellarExpert price lookup does not support this identity").
(** The provider's names of the assets, each once, with the identities they stand for. *)
Fixpoint requested_assets (seen : list (string * string)) (assets : list AssetIdentity) : res (list (string * string)) :=
  match assets with
  | [] => Ok seen
  | asset :: assets =>
      let? providerID := stellarExpertAssetID asset in
      match lookup_key providerID seen with
      | Some _ => requested_assets seen assets
      | None => requested_assets (seen ++ [(providerID, CanonicalID asset)]) assets
      end
  end.

(** The state of the loop over the records: prices, the records seen, the failures, and whether a record could not
    be told. *)
Record price_scan := { ps_prices : gmap string string; ps_seen : gset string; ps_errs : list error; ps_unknown : bool }.
Definition valid_price (raw : string) : option string :=
  match json_number raw with
  | Ok n => match ParseFloat n with Ok x => if positive_finite x then Some n else None | Err _ => None end
  | Err _ => None
  end.
Definition scan_record (requested : list (string * string)) (s : price_scan) (raw : string) : price_scan :=
  match json_unmarshal raw with
  | Err _ => {| ps_prices := ps_prices s; ps_seen := ps_seen s; ps_errs := ps_errs s ++ [Errorf "malformed identity"]; ps_unknown := true |}
  | Ok record =>
      if set_empty (xp_Asset record)
      then {| ps_prices := ps_prices s; ps_seen := ps_seen s; ps_errs := ps_errs s ++ [Errorf "malformed identity"]; ps_unknown := true |} else
      match lookup_key (xp_Asset record) requested with
      | None => s
      | Some canonicalID =>
          if bool_decide (xp_Asset record ∈ ps_seen s)
          then {| ps_prices := delete canonicalID (ps_prices s); ps_seen := ps_seen s;
                  ps_errs := ps_errs s ++ [Errorf "duplicate record"]; ps_unknown := ps_unknown s |}
          else let seen := {[xp_Asset record]} ∪ ps_seen s in
               match valid_price (xp_Price record) with
               | Some price => {| ps_prices := <[canonicalID := price]> (ps_prices s); ps_seen := seen; ps_errs := ps_errs s;
                                  ps_unknown := ps_unknown s |}
               | None => {| ps_prices := ps_prices s; ps_seen := seen; ps_errs := ps_errs s ++ [Errorf "invalid price"];
                            ps_unknown := ps_unknown s |}
               end
      end
  end.
Definition no_prices : StellarPriceBatch := {| sb_Prices := ∅; sb_Absent := ∅ |}.
Definition scanned_prices (requested : list (string * string)) (records : list string) : StellarPriceBatch * list error :=
  let s := fold_left (scan_record requested) records {| ps_prices := ∅; ps_seen := ∅; ps_errs := []; ps_unknown := false |} in
  ({| sb_Prices := ps_prices s;
      sb_Absent := if ps_unknown s then ∅
                   else list_to_set (snd <$> List.filter (fun p => negb (bool_decide (fst p ∈ ps_seen s))) requested) |}, ps_errs s).
Definition price_query (requested : list (string * string)) : string :=
  "/explorer/public/asset/price?" +:+ join_with "&" ((fun p => "asset=" +:+ QueryEscape (fst p)) <$> requested).
Definition fetch_records (deadline : Z) (requested : list (string * string)) : M W (list string) :=
  let! resp := wrap "fetch StellarExpert prices" (do_within deadline stellarExpertTimeout (expert_request (price_query requested))) in
  if negb (rs_StatusCode resp =? StatusOK) then throw (Errorf "fetch StellarExpert prices: unexpected status") else
  let! payload := wrap "decode StellarExpert prices" (lift (decodeProviderJSON (rs_Body resp))) in
  match xr_Records payload with
  | Some records => ret records
  | None => throw (Errorf "decode StellarExpert prices: missing _embedded.records array")
  end.
(** The batch comes with the failures: what could not be fetched at all is an empty batch. *)
Definition FetchUSDPrices (deadline : Z) (assets : list AssetIdentity) : M W (StellarPriceBatch * list error) :=
  match assets with
  | [] => ret (no_prices, [])
  | _ =>
      match requested_assets [] assets with
      | Err e => ret (no_prices, [e])
      | Ok requested =>
          let! records := attempt (fetch_records deadline requested) in
          match records with Ok records => ret (scanned_prices requested records) | Err e => ret (no_prices, [e]) end
      end
  end.
(** [None]: the contract is not a Stellar Asset Contract. *)
Definition described_asset (contractID : string) (payload : stellarExpertContractResponse) : res (option string) :=
  if negb (String.eqb (xc_Contract payload) contractID) then Err (Errorf "missing or mismatched contract identity") else
  let asset := trim_space (xc_Asset payload) in
  if set_empty asset then
    if negb (String.length (xc_Wasm payload) =? 64)%nat then Err (Errorf "missing asset or Wasm identity") else
    let? _ := res_wrap "invalid Wasm identity" (hex_decode (xc_Wasm payload)) in Ok None
  else match parseStellarExpertAssetID asset with Some _ => Ok (Some asset) | None => Err (Errorf "malformed asset descriptor") end.
(** The escaped id is a path, and is escaped again. *)
Definition contract_target (contractID : string) : string := "/explorer/public/contract/" +:+ escape_path (PathEscape contractID).
Definition FetchContractAsset (deadline : Z) (contractID : string) : M W (option string) :=
  let! resp := wrap "fetch StellarExpert contract" (do_within deadline stellarExpertTimeout (expert_request (contract_target contractID))) in
  if rs_StatusCode resp =? StatusNotFound then ret None else
  if negb (rs_StatusCode resp =? StatusOK) then throw (Errorf "fetch StellarExpert contract: unexpected status") else
  let! payload := wrap "decode StellarExpert contract" (lift (decodeProviderJSON (rs_Body resp))) in
  wrap "decode StellarExpert contract" (lift (described_asset contractID payload)).

(** [None] unless the asset's own contract is the one asked for. *)
Definition resolveSACIdentity (deadline : Z) (contractID : string) : M W (option AssetIdentity) :=
  let! descriptor := FetchContractAsset deadline contractID in
  match descriptor with
  | None => ret None
  | Some descriptor =>
      match parseStellarExpertAssetID descriptor with
      | None => ret None
      | Some asset =>
          let! expected := wrap "derive Mainnet SAC ID" (lift (deriveMainnetSACID asset)) in
          ret (if String.eqb expected contractID then Some asset else None)
      end
  end.
End Provider.
(** ** stellar_prices.go: the lookup *)
Section Lookup.
Context `{Http} `{Elapses} `{Env} `{StellarSDK} `{StellarAssets} `{Unicode} `{UnicodeUpper} `{JsonNumber}.
Context `{Json stellarExpertPriceResponse} `{Json stellarExpertPriceRecord} `{Json stellarExpertContractResponse}.
Context `{Json stellarPriceCacheEntry}.
Abbreviation W := (World (Timed RedisStore)).

Definition validStellarPriceCacheEntry (entry : stellarPriceCacheEntry) : bool :=
  if negb (sc_Found entry) then match sc_Data entry with None => true | Some _ => false end else
  match sc_Data entry with
  | None => false
  | Some data =>
      match sp_Change24h data with
      | Some _ => false
      | None => match ParseFloat (sp_Price data) with Ok x => positive_finite x | Err _ => false end
      end
  end.
(** [MGET]: the values of the keys that hold text, in order *)
Definition MGET (keys : list string) (now : Z) (d : RedisStore) : res (list (option string) * RedisStore) :=
  Ok ((fun key => value_text ∘ re_value <$> live now key d) <$> keys, d).
Definition cache_entry (value : option string) : option stellarPriceCacheEntry :=
  match value with
  | Some text => match json_unmarshal text with
                 | Ok entry => if validStellarPriceCacheEntry entry then Some entry else None
                 | Err _ => None
                 end
  | None => None
  end.
(** What is cached for each asset, and whether the cache answered. *)
Definition readStellarPriceCache (assets : list AssetIdentity) : M W (list (AssetIdentity * option stellarPriceCacheEntry) * bool) :=
  let! values := attempt (on_cache (redis (MGET (stellarPriceCacheKey ∘ CanonicalID <$> assets)))) in
  ret match values with
      | Ok values => (zip assets (cache_entry <$> values), true)
      | Err _ => ((fun a => (a, None)) <$> assets, false)
      end.
(** One pipeline; an entry that cannot be encoded drops them all. *)
Definition encoded_entry (p : string * stellarPriceCacheEntry) : res (string * string) :=
  let? text := json_marshal (snd p) in Ok (stellarPriceCacheKey (fst p), text).
Definition SET_all (entries : list (string * string)) (ttl now : Z) (d : RedisStore) : res (unit * RedisStore) :=
  Ok (tt, foldr (fun p d => <[fst p := {| re_value := RText (snd p); re_deadline := Some (now + ttl) |}]> d) d entries).
Definition writeStellarPriceCache (entries : list (string * stellarPriceCacheEntry)) : M W unit :=
  match entries with
  | [] => ret tt
  | _ => match res_map encoded_entry entries with
         | Ok texts => let! _ := attempt (on_cache (redis (SET_all texts stellarPricesCacheTTL))) in ret tt
         | Err _ => ret tt
         end
  end.

(** Five workers share the contracts; an answer belongs to its own contract whatever the order. *)
Definition resolve_contract (deadline : Z) (contract : AssetIdentity) : M W (AssetIdentity * res (option AssetIdentity)) :=
  let! r := attempt (resolveSACIdentity deadline (ai_ContractID contract)) in ret (contract, r).
Definition resolved_target (r : AssetIdentity * res (option AssetIdentity)) : option stellarPriceTarget :=
  match snd r with Ok (Some u) => Some {| st_original := fst r; st_underlying := u |} | _ => None end.
Definition unsupported_contract (r : AssetIdentity * res (option AssetIdentity)) : option AssetIdentity :=
  match snd r with Ok None => Some (fst r) | _ => None end.
Definition resolve_error (r : AssetIdentity * res (option AssetIdentity)) : option error :=
  match snd r with Err e => Some (Wrapf ("resolve " +:+ CanonicalID (fst r)) e) | Ok _ => None end.
Definition resolveContracts (deadline : Z) (contracts : list AssetIdentity)
    : M W (list stellarPriceTarget * list AssetIdentity * list error) :=
  let! results := mapM (resolve_contract deadline) contracts in
  ret (omap resolved_target results, omap unsupported_contract results, omap resolve_error results).

Definition is_contract (a : AssetIdentity) : bool := String.eqb (ai_Kind a) AssetKindContract.
Definition own_target (a : AssetIdentity) : stellarPriceTarget := {| st_original := a; st_underlying := a |}.
Definition no_entry : stellarPriceCacheEntry := {| sc_Found := false; sc_Data := None |}.
Definition found_entry (price : string) : stellarPriceCacheEntry :=
  {| sc_Found := true; sc_Data := Some {| sp_Price := price; sp_Change24h := None |} |}.
(** Each identity once, by its canonical id *)
Fixpoint each_once (assets : list AssetIdentity) : list AssetIdentity :=
  match assets with
  | [] => []
  | a :: assets => if existsb (fun b => String.eqb (CanonicalID b) (CanonicalID a)) assets then each_once assets else a :: each_once assets
  end.
(** A target's entry: its price, a definite absence, or nothing when the provider did not say. *)
Definition target_entry (batch : StellarPriceBatch) (t : stellarPriceTarget) : option (string * stellarPriceCacheEntry) :=
  let id := CanonicalID (st_underlying t) in
  match sb_Prices batch !! id with
  | Some price => Some (CanonicalID (st_original t), found_entry price)
  | None => if bool_decide (id ∈ sb_Absent batch) then Some (CanonicalID (st_original t), no_entry) else None
  end.
(** The entries of the assets that were missing, and the failures. *)
Definition lookup_missing (deadline : Z) (missing : list AssetIdentity) : M W (list (string * stellarPriceCacheEntry) * list error) :=
  let direct := own_target <$> List.filter (fun a => negb (is_contract a)) missing in
  let! ' (resolved, unsupported, errs) := resolveContracts deadline (List.filter is_contract missing) in
  let targets := (direct ++ resolved)%list in
  let negatives := (fun a => (CanonicalID a, no_entry)) <$> unsupported in
  match each_once (st_underlying <$> targets) with
  | [] => ret (negatives, errs)
  | priceAssets =>
      let! ' (batch, failures) := FetchUSDPrices deadline priceAssets in
      ret (negatives ++ omap (target_entry batch) targets, errs ++ failures)%list
  end.
Definition data_of (entry : option stellarPriceCacheEntry) : option StellarPriceData := entry ≫= sc_Data.
(** One answer for each identity; the failures next to it. *)
Definition LookupUSD (deadline : Z) (assets : list AssetIdentity) : M W (list (string * option StellarPriceData) * list error) :=
  let! canonical := wrap "canonicalize asset identity" (lift (res_map CanonicalizeAssetIdentity assets)) in
  let assets := each_once canonical in
  let! ' (cached, cacheAvailable) := readStellarPriceCache assets in
  let missing := fst <$> List.filter (fun p => match snd p with None => true | Some _ => false end) cached in
  match missing with
  | [] => ret ((fun p => (CanonicalID (fst p), data_of (snd p))) <$> cached, [])
  | _ =>
      let! ' (entries, errs) := lookup_missing deadline missing in
      let! _ := if (cacheAvailable : bool) then writeStellarPriceCache entries else ret tt in
      ret ((fun p => (CanonicalID (fst p),
                      match snd p with Some _ => data_of (snd p) | None => data_of (lookup_key (CanonicalID (fst p)) entries) end))
           <$> cached, errs)
  end.

(** ** handler/stellar_prices.go
    The body is decoded by a strict decoder; a lookup that is incomplete is answered all the same. *)
Definition stellarPricesLookupMaxAssets : nat := 25.
Definition LookupPrices_handler (deadline : Z) (assets : list AssetIdentity) : M W (list (string * option StellarPriceData)) :=
  if ((length assets <? 1) || (stellarPricesLookupMaxAssets <? length assets))%nat then fail "400" "VALIDATION_ERROR" else
  match res_map CanonicalizeAssetIdentity assets with
  | Err _ => fail "400" "VALIDATION_ERROR"
  | Ok canonical =>
      let! prices := attempt (LookupUSD deadline canonical) in
      ret match prices with Ok (prices, _) => prices | Err _ => [] end
  end.
End Lookup.
End Prices.
