(* ===== verification/StartTheorems.v ===== *)
(** * What a server that starts has checked (StartUp)

    The configuration it runs with, and that servers which share a database or
    a Redis serve one network, however their starts interleave. *)

From S2P Require Export StartUp.
From S2P Require Import Instances MobileSafety.

Module StartTheorems.
Import Deploynet Mobile MobileSafety Rpc StartUp.
#[local] Unset Default Proof Using.

(** ** Stamps stay *)
Definition own_infra (w : World (Timed Infra)) : Infra := t_own (w_store w).
(** The Redis stamp has no deadline: only servers set it. *)
Definition lasting (d : Infra) : Prop := forall e, in_redis d !! RedisNetworkKey = Some e -> re_deadline e = None.
Definition db_stamped (n : string) (d : Infra) : Prop := in_stamp d = Some n.
Definition redis_stamped (n : string) (d : Infra) : Prop :=
  exists e, in_redis d !! RedisNetworkKey = Some e /\ re_deadline e = None /\ value_text (re_value e) = n.

Lemma live_lasting now e r : r !! RedisNetworkKey = Some e -> re_deadline e = None -> live now RedisNetworkKey r = Some e.
Proof. intros E Ed. unfold live, expired_at. by rewrite E, Ed. Qed.
Lemma SETNX_spec n now d b r : SETNX RedisNetworkKey n now (in_redis d) = Ok (b, r) -> lasting d ->
  (r = in_redis d /\ is_Some (in_redis d !! RedisNetworkKey)) \/
  (in_redis d !! RedisNetworkKey = None /\ r = <[RedisNetworkKey := {| re_value := RText n; re_deadline := None |}]> (in_redis d)).
Proof.
  intros Hs Hl. unfold SETNX in Hs. destruct (in_redis d !! RedisNetworkKey) as [e|] eqn:E.
  - rewrite (live_lasting now e) in Hs by eauto. injection Hs as _ <-. left. eauto.
  - unfold live in Hs. rewrite E in Hs. injection Hs as _ <-. by right.
Qed.

Definition kept (d d' : Infra) : Prop :=
  (forall n, db_stamped n d -> db_stamped n d') /\ (in_table d = true -> in_table d' = true) /\
  (lasting d -> lasting d' /\ forall n, redis_stamped n d -> redis_stamped n d').
#[local] Instance kept_refl : Reflexive kept.
Proof. by repeat split. Qed.
#[local] Instance kept_trans : Transitive kept.
Proof.
  intros a b c (H1a & H1b & H1c) (H2a & H2b & H2c). split_and!; eauto. intros Hl. destruct (H1c Hl) as [Hl' H1d].
  destruct (H2c Hl') as [? ?]. eauto.
Qed.
Lemma kept_step d d' : infra_step d d' -> kept d d'.
Proof.
  intros [n ? ? Hi|n now ? b r Hs|?|? r Hr].
  - unfold insert_network in Hi. destruct (in_table d0) eqn:Et; [|done]. cbn in Hi.
    destruct (in_stamp d0) as [m|] eqn:Es; [by injection Hi as <-|]. destruct (_ || _); [|done]. injection Hi as <-.
    split_and!; [unfold db_stamped; cbn; congruence|done|]. intros Hl. split; [exact Hl|done].
  - split_and!; [done..|]. intros Hl. destruct (SETNX_spec _ _ _ _ _ Hs Hl) as [[-> _]|[E ->]].
    + split; [exact Hl|done].
    + split; [|intros m (e & He & _); congruence]. intros e. cbn. rewrite lookup_insert_eq. by intros [= <-].
  - by repeat split.
  - split_and!; [done..|]. intros Hl. split; [intros e; cbn; rewrite Hr; apply Hl|].
    intros m (e & He & ?). exists e. cbn. by rewrite Hr.
Qed.
Lemma kept_steps d d' : rtc infra_step d d' -> kept d d'.
Proof. induction 1 as [|? ? ? H ? IH]; [done|]. etrans; [by apply kept_step|done]. Qed.

Section Server.
Context `{Env} `{Elapses} `{Http} `{JsonDecode networkAnswer} `{Migrations} `{Unicode} `{Environment} `{Others}.
Abbreviation W := (World (Timed Infra)).

(** ** Programs that only do such steps *)
Definition own_kept (t t' : Timed Infra) : Prop := kept (t_own t) (t_own t').
#[local] Instance own_kept_refl : Reflexive own_kept.
Proof. intros t. unfold own_kept. reflexivity. Qed.
#[local] Instance own_kept_trans : Transitive own_kept.
Proof. intros a b c. unfold own_kept. by etrans. Qed.
Abbreviation evolves := (keeps (on_store own_kept)).

(** A statement of the server runs on what the others left. *)
Lemma on_infra_inv {A} (m : M (World Infra) A) (w w' : W) r : on_infra m w = (r, w') ->
  exists d, kept (own_infra w) d /\ m (MkWorld d (w_io w)) = (r, MkWorld (own_infra w') (w_io w')).
Proof.
  unfold on_infra. intros (d & n & E & ->)%zoom_run. cbn in E. eexists. split; [apply kept_steps, others_step|]. exact E.
Qed.
Lemma evolves_infra {A} (m : M (World Infra) A) : keeps (on_store kept) m -> evolves (on_infra m).
Proof.
  intros Hm w. destruct (on_infra m w) as [r w'] eqn:E. apply on_infra_inv in E as (d & Hk & E).
  unfold on_store, own_kept. cbn. etrans; [exact Hk|]. by apply (keeps_run _ _ _ _ _ Hm) in E.
Qed.
Lemma evolves_query {A} (f : Infra -> res A) : evolves (on_infra (query f)).
Proof. apply evolves_infra. apply keeps_query; apply _. Qed.
Lemma evolves_insert n : evolves (on_infra (exec (insert_network n))).
Proof. apply evolves_infra, keeps_exec; [apply _..|]. intros d [] d' E. by apply kept_step, (step_insert n). Qed.
Lemma evolves_migrations : evolves (on_infra run_migrations).
Proof. apply evolves_infra. intros v. split_and!; [done|by intros E; cbn; rewrite E|by intros]. Qed.
Lemma evolves_same s n : evolves (same_network s n).
Proof. unfold same_network. keeps. Qed.
Lemma evolves_clock : evolves clock.
Proof. intros w. by apply kept_steps. Qed.
Lemma evolves_do deadline req : evolves (http_Do deadline req).
Proof. intros w. by apply kept_steps. Qed.
Lemma evolves_wait deadline d : evolves (wait deadline d).
Proof. intros w. unfold wait. destruct (cancelled _); [by apply kept_steps|]. destruct (_ <=? _); by apply kept_steps. Qed.
Lemma same_network_ok s n u w w' : same_network s n w = (Ok u, w') -> s = n /\ w' = w.
Proof. unfold same_network. destruct (String.eqb_spec s n) as [->|]; [by intros [= _ <-]|by intros ?%throw_ok]. Qed.
Lemma query_infra {A} (f : Infra -> res A) a (w w' : W) : on_infra (query f) w = (Ok a, w') -> f (own_infra w') = Ok a.
Proof. intros (d & _ & E)%on_infra_inv. apply query_ok in E as (_ & Hf & [= ->]). exact Hf. Qed.
Lemma select_ok d n : select_network d = Ok n -> db_stamped n d.
Proof. unfold select_network, db_stamped. destruct (in_table d); [|done]. cbn. destruct (in_stamp d); [by intros [= ->]|done]. Qed.

(** ** The two stamps *)
Lemma StampDatabase_ok n u w w' : StampDatabase n w = (Ok u, w') -> db_stamped n (own_infra w').
Proof.
  unfold StampDatabase. intros (? & w1 & _ & Hr)%bind_ok. apply bind_ok in Hr as (s & w2 & Hq & Hs).
  apply (proj1 (wrap_ok _ _ _ _ _)), query_infra, select_ok in Hq. by apply same_network_ok in Hs as [-> ->].
Qed.
Lemma evolves_StampDatabase n : evolves (StampDatabase n).
Proof. pose proof evolves_insert. pose proof @evolves_query. pose proof evolves_same. unfold StampDatabase. keeps. Qed.
Lemma on_server_inv {A} (m : M (World RedisStore) A) (w w' : W) r : on_server m w = (r, w') ->
  exists d, kept (own_infra w) d /\
    m (MkWorld (in_redis d) (w_io w)) = (r, MkWorld (in_redis (own_infra w')) (w_io w')) /\
    own_infra w' = set_redis (in_redis (own_infra w')) d.
Proof.
  intros (d & Hk & E)%on_infra_inv. exists d. split; [done|]. apply zoom_run in E as (r0 & n & E & [= -> ->]). done.
Qed.
Lemma evolves_setnx n : evolves (on_server (redis (SETNX RedisNetworkKey n))).
Proof.
  intros w. destruct (on_server _ w) as [r w'] eqn:E. apply on_server_inv in E as (d & Hk & E & Ho).
  unfold on_store, own_kept. cbn [snd]. etrans; [exact Hk|]. change (t_own (w_store w')) with (own_infra w'). unfold redis, exec in E.
  rewrite Ho. destruct (env_fault _); [injection E as _ <- _; by destruct d|]. cbn [w_store w_io] in E.
  destruct (SETNX _ _ _ _) as [[b r0]|e] eqn:Es; [|injection E as _ <- _; by destruct d].
  injection E as _ <- _. by eapply kept_step, step_setnx.
Qed.
Lemma evolves_get : evolves (on_server (redis (GET RedisNetworkKey))).
Proof.
  intros w. destruct (on_server _ w) as [r w'] eqn:E. apply on_server_inv in E as (d & Hk & E & Ho).
  unfold on_store, own_kept. cbn [snd]. etrans; [exact Hk|]. change (t_own (w_store w')) with (own_infra w'). rewrite Ho.
  assert (in_redis (own_infra w') = in_redis d) as ->; [|by destruct d].
  unfold redis, exec in E. destruct (env_fault _); [by injection E as _ <- _|]. unfold GET in E. cbn [w_store w_io] in E.
  destruct (live _ _ _); by injection E as _ <- _.
Qed.
Lemma evolves_StampRedis n : evolves (StampRedis n).
Proof. pose proof evolves_setnx. pose proof evolves_get. pose proof evolves_same. unfold StampRedis. keeps. Qed.
Lemma StampRedis_ok n u w w' : StampRedis n w = (Ok u, w') -> lasting (own_infra w) -> redis_stamped n (own_infra w').
Proof.
  unfold StampRedis. intros (? & w1 & Hs & Hr)%bind_ok Hl. apply bind_ok in Hr as (s & w2 & Hg & He).
  apply same_network_ok in He as [-> ->].
  assert (lasting (own_infra w1)) as Hl1 
    by (apply (keeps_run _ _ _ _ _ (keeps_wrap _ _ _ (evolves_setnx n))) in Hs as (_ & _ & Hk); by apply Hk).
  apply (proj1 (wrap_ok _ _ _ _ _)), on_server_inv in Hg as (d & (_ & _ & Hk) & E & Ho). destruct (Hk Hl1) as [Hld _].
  apply redis_ok in E as (_ & r & Hget & [= Hd _]). unfold GET in Hget. cbn in Hget.
  destruct (live _ _ _) as [e|] eqn:El; [|done]. injection Hget as Ht Hr.
  unfold live in El. destruct (in_redis d !! RedisNetworkKey) as [e0|] eqn:Ed; [|done].
  destruct (expired_at _ e0); [done|]. injection El as ->. exists e. rewrite Hd, <- Hr. auto.
Qed.
Lemma evolves_CheckDatabase n : evolves (CheckDatabase n).
Proof. pose proof @evolves_query. pose proof evolves_same. unfold CheckDatabase. keeps. Qed.
Lemma evolves_Migrate : evolves Migrate.
Proof. pose proof evolves_migrations. unfold Migrate. keeps. Qed.

(** ** The RPC *)
(** The RPC said that it serves the network with this passphrase. *)
Definition rpc_serves (rpcURL passphrase : string) : Prop :=
  exists req n resp out, rq_URL req = rpcURL /\ http_do req n = Ok resp /\ rs_StatusCode resp = StatusOK /\
    json_decode (rs_Body resp) = Ok out /\ na_Error out = None /\ na_Passphrase out = passphrase.
Lemma rpcPassphrase_ok url p (w w' : W) : rpcPassphrase url w = (Ok p, w') -> rpc_serves url p.
Proof.
  unfold rpcPassphrase. intros (deadline & w1 & _ & Hr)%bind_ok. apply bind_ok in Hr as (resp & w2 & Hd & Hr).
  destruct (Z.eqb_spec (rs_StatusCode resp) StatusOK) as [Es|]; [|done]. cbn [negb] in Hr.
  apply bind_ok in Hr as (out & w3 & Ho & Hr). apply (proj1 (wrap_ok _ _ _ _ _)), lift_ok in Ho as [Ho _].
  destruct (na_Error out) eqn:En; [done|]. apply ret_ok in Hr as [<- _].
  unfold http_Do in Hd. destruct (cancelled _); [done|]. destruct (_ <=? _); [done|]. injection Hd as Hd _.
  eexists _, _, resp, out. by split_and!; [|exact Hd|..].
Qed.
Lemma evolves_rpcPassphrase url : evolves (rpcPassphrase url).
Proof.
  pose proof evolves_clock. pose proof evolves_do. unfold rpcPassphrase, no_deadline. keeps.
Qed.
Lemma evolves_check_rpc attempts i url n e : evolves (check_rpc attempts i url n e).
Proof.
  pose proof evolves_clock. pose proof evolves_wait. pose proof evolves_rpcPassphrase. revert i e.
  induction attempts as [|attempts IH]; intros i e; cbn [check_rpc]; unfold no_deadline; keeps.
Qed.
Lemma check_rpc_ok attempts i url n e u (w w' : W) : check_rpc attempts i url n e w = (Ok u, w') -> rpc_serves url (Passphrase n).
Proof.
  revert i e w. induction attempts as [|attempts IH]; intros i e w; cbn [check_rpc]; [done|].
  intros (waited & w1 & _ & Hr)%bind_ok. destruct waited; [done|].
  apply bind_ok in Hr as (got & w2 & Hg & Hr). apply (proj1 (attempt_ok _ _ _ _)) in Hg.
  destruct got as [got|err]; [|by eapply IH].
  destruct (String.eqb_spec got (Passphrase n)) as [->|]; [|done]. by eapply rpcPassphrase_ok.
Qed.

(** ** The start *)
Lemma main_ok cfg (w w' : W) : main w = (Ok cfg, w') ->
  Load = Ok cfg /\ db_stamped (cf_Network cfg) (own_infra w') /\ (lasting (own_infra w) ->
    lasting (own_infra w') /\ redis_stamped (cf_Network cfg) (own_infra w')) /\
  rpc_serves (cf_SorobanRPCURL cfg) (Passphrase (cf_Network cfg)).
Proof.
  unfold main. intros (c & w0 & Hl & Hr)%bind_ok. apply lift_ok in Hl as [Hl <-].
  apply bind_ok in Hr as (? & w1 & Hc & Hr). apply bind_ok in Hr as (? & w2 & Hm & Hr).
  apply bind_ok in Hr as (? & w3 & Hs & Hr). apply bind_ok in Hr as (? & w4 & Hd & Hr).
  apply bind_ok in Hr as (? & w5 & Hp & Hr). apply ret_ok in Hr as [<- <-].
  pose proof (StampDatabase_ok _ _ _ _ Hs) as Hdb. pose proof (check_rpc_ok _ _ _ _ _ _ _ _ Hp) as Hrpc.
  pose proof (fun l => StampRedis_ok _ _ _ _ Hd l) as Hre.
  apply (keeps_run _ _ _ _ _ (evolves_CheckDatabase _)) in Hc as (_ & _ & K1).
  apply (keeps_run _ _ _ _ _ evolves_Migrate) in Hm as (_ & _ & K2).
  apply (keeps_run _ _ _ _ _ (evolves_StampDatabase _)) in Hs as (_ & _ & K3).
  apply (keeps_run _ _ _ _ _ (evolves_StampRedis _)) in Hd as (S4 & _ & K4).
  apply (keeps_run _ _ _ _ _ (evolves_check_rpc _ _ _ _ _)) in Hp as (S5 & _ & K5).
  split_and!; [done|by apply S5, S4| |done]. intros L. apply K1 in L as [L _]. apply K2 in L as [L _].
  apply K3 in L as [L _]. specialize (Hre L). apply K4 in L as [L _]. apply K5 in L as [L K]. auto.
Qed.
(** ** The configuration *)
(** The eight settings that mainnet has no default for, and the fields of the configuration they fill *)
Definition mainnet_settings (cfg : Config) : list (string * string) :=
  [("SOROBAN_RPC_URL", cf_SorobanRPCURL cfg); ("HORIZON_URL", cf_HorizonURL cfg); ("NATIVE_SAC_ID", cf_NativeSACID cfg);
   ("BUNDLER_SECRET", cf_BundlerSecret cfg); ("NEXT_PUBLIC_FACTORY_ADDRESS", cf_FactoryAddress cfg);
   ("NEXT_PUBLIC_WEBAUTHN_VERIFIER_ADDRESS", cf_WebAuthnVerifierAddress cfg);
   ("NEXT_PUBLIC_VERIFIER_ADDRESS", cf_Ed25519VerifierAddress cfg); ("NEXT_PUBLIC_USDC_SAC_ADDRESS", cf_USDCSACAddress cfg)].
(** The field holds what the environment says, and the environment says something. *)
Definition chosen (setting : string * string) : Prop := getenv (fst setting) <> "" /\ snd setting = getenv (fst setting).
Definition network_checked (cfg : Config) : Prop :=
  cf_Network cfg = to_lower (trim_space (getenv "STELLAR_NETWORK")) /\
  (cf_Network cfg = "testnet" /\ cf_NetworkPassphrase cfg = "Test SDF Network ; September 2015" \/
   cf_Network cfg = "mainnet" /\ cf_NetworkPassphrase cfg = "Public Global Stellar Network ; September 2015" /\
   getenv "APP_ENV" = "production" /\ cf_AppEnv cfg = "production" /\
   Forall chosen (mainnet_settings cfg) /\ cf_WalletAuthSorobanURL cfg <> "").
Definition secrets_checked (cfg : Config) : Prop :=
  (32 <= String.length (cf_JWTSecret cfg))%nat /\
  (cf_ServerPepper cfg = "" \/ (32 <= String.length (cf_ServerPepper cfg))%nat) /\
  (cf_EncryptionMasterKey cfg = "" \/ (32 <= String.length (cf_EncryptionMasterKey cfg))%nat).
Lemma optional_secret_ok s what : optional_secret s what = Ok tt -> s = "" \/ (32 <= String.length s)%nat.
Proof.
  unfold optional_secret, long_enough. destruct (String.eqb_spec s ""); [by left|]. cbn [negb andb].
  destruct (Nat.leb_spec 32 (String.length s)); [by right|]. intros [=].
Qed.
Lemma getEnv_set key fallback : getenv key <> "" -> getEnv key fallback = getenv key.
Proof. unfold getEnv. by destruct (String.eqb_spec (getenv key) ""). Qed.
Lemma getEnv_production : getEnv "APP_ENV" "development" = "production" -> getenv "APP_ENV" = "production".
Proof. unfold getEnv. by destruct (String.eqb_spec (getenv "APP_ENV") ""). Qed.
Lemma validateNetwork_ok network appEnv : validateNetwork network appEnv = Ok tt ->
  (network = Testnet \/ network = Mainnet) /\
  (network = Mainnet -> appEnv = "production" /\ Forall (fun key => getenv key <> "") requiredMainnetVars).
Proof.
  unfold validateNetwork. destruct (String.eqb_spec network Testnet) as [->|Ht]; cbn [orb negb].
  { intros _. split; [by left|done]. }
  destruct (String.eqb_spec network Mainnet) as [->|]; [|done]. cbn [orb andb negb].
  destruct (String.eqb_spec appEnv "production") as [->|]; [|done]. cbn [negb andb].
  destruct (existsb _ _) eqn:E; [done|]. intros _. split; [by right|]. intros _. split; [done|].
  apply Forall_forall. intros key Hk Hz. apply not_true_iff_false in E. apply E, existsb_exists. exists key.
  split; [by apply list_elem_of_In|]. by rewrite Hz.
Qed.
Lemma getEnv_chosen key fallback : getenv key <> "" -> chosen (key, getEnv key fallback).
Proof. intros Hk. split; [exact Hk|by apply getEnv_set]. Qed.
Lemma getEnv_fallback key fallback : fallback <> "" -> getEnv key fallback <> "".
Proof. unfold getEnv. by destruct (String.eqb_spec (getenv key) ""). Qed.
Lemma Load_ok cfg : Load = Ok cfg -> network_checked cfg /\ secrets_checked cfg.
Proof.
  unfold Load. intros Hl. run_inv. destruct (long_enough _) eqn:Ej; [|done]. cbn [negb] in Hl. run_inv.
  repeat match goal with u : () |- _ => destruct u end.
  match goal with E : validateNetwork _ _ = _ |- _ => apply validateNetwork_ok in E as [Hn Hm] end.
  unfold network_checked, secrets_checked, mainnet_settings. cbn. split.
  - split; [done|]. destruct Hn as [En|En]; [left; by rewrite En|right].
    destruct (Hm En) as [Ha Hf]. apply getEnv_production in Ha as Hp. unfold requiredMainnetVars in Hf. rewrite !Forall_cons in Hf.
    destruct Hf as (? & ? & ? & ? & ? & ? & ? & ? & _).
    split_and!; [done|by rewrite En|done|done| |apply getEnv_fallback; by rewrite getEnv_set].
    by repeat (apply Forall_cons; split; [by apply getEnv_chosen|]).
  - split_and!; [by apply Nat.leb_le|by eapply optional_secret_ok..].
Qed.

(** C19. A server listens only when its configuration and everything it was given belong together: the network is the
    one STELLAR_NETWORK names, testnet or mainnet, with that network's passphrase; on mainnet the environment is
    production and the two Soroban and Horizon URLs, the native and USDC asset contracts, the bundler's secret, the
    factory and the two verifier contracts are each what the environment names, never a default (the other settings
    keep theirs); the secrets are long enough, the database and Redis are stamped with this network, and the RPC said
    that it serves it. *)
Theorem start_checked cfg (w w' : W) :
  main w = (Ok cfg, w') -> lasting (own_infra w) ->
  network_checked cfg /\ secrets_checked cfg /\
  db_stamped (cf_Network cfg) (own_infra w') /\ redis_stamped (cf_Network cfg) (own_infra w') /\
  rpc_serves (cf_SorobanRPCURL cfg) (Passphrase (cf_Network cfg)).
Proof. intros (Hl & Hdb & Hr & Hp)%main_ok L. apply Load_ok in Hl as [? ?]. by apply Hr in L as [_ ?]. Qed.

(** ** Two servers *)
Lemma redis_stamped_inj n n' d : redis_stamped n d -> redis_stamped n' d -> n = n'.
Proof. intros (e & E & _ & <-) (e' & E' & _ & <-). by simplify_eq. Qed.
End Server.

Section TwoServers.
Context `{Env} `{Elapses} `{Http} `{JsonDecode networkAnswer} `{Migrations} `{Unicode} `{Others}.

(** C12. Servers that share a database or a Redis serve one network, however their starts and their work interleave:
    once a server has started, another one that starts with the same database, or the same Redis, as it is then or
    after anything servers do, is configured for the same network. *)
Theorem one_network (env1 env2 : Environment) cfg1 cfg2 (w w' v v' : World (Timed Infra)) d :
  main (H5 := env1) w = (Ok cfg1, w') -> main (H5 := env2) v = (Ok cfg2, v') ->
  lasting (own_infra w) -> lasting (own_infra v) -> rtc infra_step (own_infra w') d ->
  in_stamp (own_infra v') = in_stamp d \/ in_redis (own_infra v') = in_redis d ->
  cf_Network cfg2 = cf_Network cfg1.
Proof.
  intros (_ & Hdb1 & Hr1 & _)%main_ok (_ & Hdb2 & Hr2 & _)%main_ok L1 L2 Hd%kept_steps Hs.
  apply Hr1 in L1 as [L1 Hre1]. apply Hr2 in L2 as [_ Hre2]. destruct Hd as (Hdb & _ & Hre). destruct (Hre L1) as [_ Hre'].
  destruct Hs as [Hs|Hs].
  - apply Hdb in Hdb1. unfold db_stamped in *. congruence.
  - apply Hre' in Hre1. eapply redis_stamped_inj; [|exact Hre1]. unfold redis_stamped in *. by rewrite <- Hs.
Qed.
End TwoServers.

Section Witnesses.
Import Demo.
#[local] Instance start_clock : Env := demo_env 1000 1 no_fault.
#[local] Instance start_elapses : Elapses := {| elapsed n := 5%N; gone_at := None |}.
#[local] Instance start_http : Http := {| http_do req n := Ok {| rs_StatusCode := 200;
  rs_Body := Ok (Passphrase (if String.eqb (rq_URL req) "https://rpc.mainnet" then Mainnet else Testnet)) |} |}.
#[local] Instance start_decode : JsonDecode networkAnswer := {| json_decode body :=
  let? text := body in Ok {| na_Passphrase := text; na_Error := None |} |}.
#[local] Instance start_migrations : Migrations := {| migrate_up n := Ok (45, false); migrate_32 n := true |}.
Definition others_idle (n : nat) (d : Infra) : rtc infra_step d d := rtc_refl infra_step d.
#[local] Instance start_alone : Others := {| others n d := d; others_step := others_idle |}.
#[local] Instance start_env : Environment := {| getenv key :=
  if String.eqb key "STELLAR_NETWORK" then " Testnet" else
  if String.eqb key "JWT_SECRET" then str_repeat "s" 32 else
  if bool_decide (key ∈ ["DATABASE_URL"; "REDIS_URL"; "RESEND_API_KEY"]) then "x" else "" |}.
Definition new_infra : World (Timed Infra) := MkWorld (MkTimed 0 [] (MkInfra false None ∅)) 0.
(** Decided on the answer, which is a value the rest of the proof never unfolds. *)
Definition starts_on_testnet (r : res Config) : bool := match r with Ok cfg => String.eqb (cf_Network cfg) Testnet | Err _ => false end.
Lemma started : exists cfg w', main new_infra = (Ok cfg, w') /\ cf_Network cfg = Testnet.
Proof.
  assert (starts_on_testnet (fst (main new_infra)) = true) as Hs by (vm_compute; reflexivity).
  destruct (main new_infra) as [[cfg|e] w'].
  - exists cfg, w'. split; [reflexivity|]. by apply String.eqb_eq.
  - discriminate Hs.
Qed.
Lemma new_lasting : lasting (own_infra new_infra).
Proof. intros e E. cbn in E. rewrite lookup_empty in E. done. Qed.

(** A mainnet server: the settings without a default are named, each after its variable. *)
Definition mainnet_env : Environment := {| getenv key :=
  if String.eqb key "STELLAR_NETWORK" then "Mainnet " else
  if String.eqb key "APP_ENV" then "production" else
  if String.eqb key "SOROBAN_RPC_URL" then "https://rpc.mainnet" else
  if String.eqb key "JWT_SECRET" then str_repeat "s" 32 else
  if bool_decide (key ∈ "DATABASE_URL" :: "REDIS_URL" :: "RESEND_API_KEY" :: requiredMainnetVars) then "my " +:+ key else "" |}.
Definition starts_on_mainnet (r : res Config) : bool := match r with Ok cfg => String.eqb (cf_Network cfg) Mainnet | Err _ => false end.
Lemma start_checked_witness : exists cfg w', main (H5 := mainnet_env) new_infra = (Ok cfg, w') /\
  cf_Network cfg = Mainnet /\ cf_NetworkPassphrase cfg = "Public Global Stellar Network ; September 2015" /\
  cf_Ed25519VerifierAddress cfg = "my NEXT_PUBLIC_VERIFIER_ADDRESS" /\
  cf_WebAuthnVerifierAddress cfg = "my NEXT_PUBLIC_WEBAUTHN_VERIFIER_ADDRESS" /\ secrets_checked cfg /\
  db_stamped Mainnet (own_infra w') /\ redis_stamped Mainnet (own_infra w') /\ rpc_serves "https://rpc.mainnet" (Passphrase Mainnet).
Proof.
  assert (starts_on_mainnet (fst (main (H5 := mainnet_env) new_infra)) = true) as Hs by (vm_compute; reflexivity).
  destruct (main (H5 := mainnet_env) new_infra) as [[cfg|e] w'] eqn:Hm; [|discriminate Hs]. apply String.eqb_eq in Hs.
  exists cfg, w'. destruct (start_checked (H5 := mainnet_env) cfg new_infra w' Hm new_lasting) as ((Hn & [[Ht _]|Hmain]) & Hsec & Hdb & Hr & Hp).
  { rewrite Hs in Ht. discriminate Ht. }
  destruct Hmain as (_ & Hpass & _ & _ & Hc & _). unfold mainnet_settings in Hc. rewrite !Forall_cons in Hc.
  destruct Hc as ([_ Hurl] & _ & _ & _ & _ & [_ Hweb] & [_ Hed] & _). cbn in Hurl, Hweb, Hed.
  rewrite Hs in Hdb, Hr, Hp. rewrite Hurl in Hp.
  split; [reflexivity|]. split; [exact Hs|]. split; [exact Hpass|]. split; [exact Hed|]. split; [exact Hweb|]. split; [exact Hsec|].
  split; [exact Hdb|]. split; [exact Hr|exact Hp].
Defined.
(** Another server, with its own settings, on what the first left. *)
Definition other_env : Environment := {| getenv key :=
  if String.eqb key "STELLAR_NETWORK" then "TESTNET" else
  if String.eqb key "JWT_SECRET" then str_repeat "t" 40 else
  if bool_decide (key ∈ ["DATABASE_URL"; "REDIS_URL"; "RESEND_API_KEY"]) then "y" else "" |}.
Definition joins (w' : World (Timed Infra)) : World (Timed Infra) := MkWorld (MkTimed 0 [] (own_infra w')) 0.
Definition both_start : bool :=
  let '(r, w') := main new_infra in
  let '(s, v') := main (H5 := other_env) (joins w') in
  is_ok r && is_ok s && bool_decide (in_stamp (own_infra v') = in_stamp (own_infra w')).
Lemma one_network_witness : exists cfg1 w' cfg2 v',
  main new_infra = (Ok cfg1, w') /\ main (H5 := other_env) (joins w') = (Ok cfg2, v') /\ cf_Network cfg2 = cf_Network cfg1.
Proof.
  assert (both_start = true) as Hb by (vm_compute; reflexivity). unfold both_start in Hb.
  destruct (main new_infra) as [[cfg1|e] w'] eqn:E1; [|destruct (main (H5 := other_env) (joins w')); discriminate Hb].
  destruct (main (H5 := other_env) (joins w')) as [[cfg2|e] v'] eqn:E2; [|discriminate Hb].
  apply bool_decide_eq_true in Hb. exists cfg1, w', cfg2, v'. split; [reflexivity|]. split; [exact E2|].
  assert (lasting (own_infra (joins w'))) as L2 by exact (proj1 (proj1 (proj2 (proj2 (main_ok _ _ _ E1))) new_lasting)).
  exact (one_network start_env other_env cfg1 cfg2 new_infra w' (joins w') v' (own_infra w') E1 E2 new_lasting L2 (rtc_refl _ _) (or_introl Hb)).
Defined.
End Witnesses.
End StartTheorems.
