(* ===== verification/ReadTheorems.v ===== *)
(** * Reads of the network: prices, history and relayed transactions

    What an answer of the read side says, related to what the outside reported:
    StellarExpert for prices by identity, with the cache in Redis between; and
    the RPC and Horizon for histories and relayed transactions. *)

From S2P Require Export Prices.
From S2P Require Import Instances MobileSafety ExecuteAuth.

Module ReadTheorems.
Import Url Deploynet Submit AccountSigners Routes Mobile MobileSafety MobileRoutes TxRoutes Rpc GoFloat History StartUp OnRamp Prices.
#[local] Unset Default Proof Using.

(** ** Programs that keep an invariant and ensure what they answer *)
Section Ensures.
Context {S : Type} (I : S -> Prop).
Definition ensures {A} (m : M S A) (Q : A -> Prop) : Prop :=
  forall s r s', I s -> m s = (r, s') -> I s' /\ forall a, r = Ok a -> Q a.

Lemma ensures_ret {A} (a : A) (Q : A -> Prop) : Q a -> ensures (ret a) Q.
Proof. intros Ha s r s' Hs [= <- <-]. split; [done|]. by intros b [= <-]. Qed.
Lemma ensures_throw {A} e (Q : A -> Prop) : ensures (throw e) Q.
Proof. by intros s r s' Hs [= <- <-]. Qed.
Lemma ensures_lift {A} (a : res A) : ensures (lift a) (fun b => a = Ok b).
Proof. intros s r s' Hs [= <- <-]. done. Qed.
Lemma ensures_bind {A B} (m : M S A) (k : A -> M S B) (P : A -> Prop) (Q : B -> Prop) :
  ensures m P -> (forall a, P a -> ensures (k a) Q) -> ensures (bind m k) Q.
Proof.
  intros Hm Hk s r s' Hs. unfold bind. destruct (m s) as [[a|e] s1] eqn:E; intros Hr.
  - destruct (Hm _ _ _ Hs E) as [I1 Ha]. by apply (Hk a (Ha a eq_refl) s1).
  - injection Hr as <- <-. split; [by apply (Hm _ _ _ Hs E)|done].
Qed.
Lemma ensures_wrap {A} c (m : M S A) Q : ensures m Q -> ensures (wrap c m) Q.
Proof.
  intros Hm s r s' Hs. unfold wrap. destruct (m s) as [[a|e] s1] eqn:E; intros [= <- <-]; destruct (Hm _ _ _ Hs E); [done|].
  split; [done|]. by intros a.
Qed.
Lemma ensures_attempt {A} (m : M S A) (Q : A -> Prop) :
  ensures m Q -> ensures (attempt m) (fun r => match r with Ok a => Q a | Err _ => True end).
Proof.
  intros Hm s r s' Hs. unfold attempt. destruct (m s) as [r0 s1] eqn:E. intros [= <- <-]. destruct (Hm _ _ _ Hs E) as [I1 Ha].
  split; [done|]. intros r [= <-]. destruct r0; auto.
Qed.
Lemma ensures_mono {A} (m : M S A) (P Q : A -> Prop) : ensures m P -> (forall a, P a -> Q a) -> ensures m Q.
Proof. intros Hm Hpq s r s' Hs E. destruct (Hm _ _ _ Hs E). eauto. Qed.
Lemma ensures_mapM {A B} (f : A -> M S B) (R : A -> B -> Prop) l :
  (forall a, ensures (f a) (R a)) -> ensures (mapM f l) (Forall2 R l).
Proof.
  intros Hf. induction l as [|a l IH]; cbn; [by apply ensures_ret|].
  eapply ensures_bind; [apply Hf|]. intros b Hb. eapply ensures_bind; [exact IH|]. intros bs Hbs. apply ensures_ret. by constructor.
Qed.
End Ensures.

Lemma lookup_key_elem {B} key (l : list (string * B)) b : lookup_key key l = Some b -> (key, b) ∈ l.
Proof.
  unfold lookup_key. destruct (List.find _ _) as [[k b']|] eqn:E; [|done]. intros [= <-]. apply find_some in E as [E Ek].
  apply String.eqb_eq in Ek as <-. by apply list_elem_of_In.
Qed.

(** ** Prices by identity *)
Section Prices.
Context `{Http} `{Elapses} `{Env} `{StellarSDK} `{StellarAssets} `{Unicode} `{UnicodeUpper} `{JsonNumber}.
Context `{Json stellarExpertPriceResponse} `{Json stellarExpertPriceRecord} `{Json stellarExpertContractResponse}.
Context `{Json stellarPriceCacheEntry}.
Abbreviation W := (World (Timed RedisStore)).

(** The record is the provider's price of that asset. *)
Definition named (pid raw : string) : bool :=
  match json_unmarshal raw with Ok record => String.eqb (xp_Asset record) pid | Err _ => false end.
(** Of the records, exactly one names the asset, and its price is a positive finite number. *)
Definition sole_price (records : list string) (pid price : string) : Prop :=
  exists raw record, List.filter (named pid) records = [raw] /\ json_unmarshal raw = Ok record /\
    valid_price (xp_Price record) = Some price.
Definition scan_start : price_scan := {| ps_prices := ∅; ps_seen := ∅; ps_errs := []; ps_unknown := false |}.

Definition scan_inv (requested : list (string * string)) (records : list string) (s : price_scan) : Prop :=
  (forall pid, pid <> "" -> is_Some (lookup_key pid requested) -> pid ∉ ps_seen s -> List.filter (named pid) records = []) /\
  (forall cid price, ps_prices s !! cid = Some price ->
    exists pid, pid <> "" /\ lookup_key pid requested = Some cid /\ sole_price records pid price).
Lemma filter_snoc {A} (f : A -> bool) l x : List.filter f (l ++ [x]) = (List.filter f l ++ if f x then [x] else [])%list.
Proof. rewrite List.filter_app. cbn. by destruct (f x). Qed.
Lemma sole_price_other records raw pid price : named pid raw = false -> sole_price records pid price -> sole_price (records ++ [raw]) pid price.
Proof. intros Hn (raw0 & record & Hf & ?). exists raw0, record. by rewrite filter_snoc, Hn, app_nil_r. Qed.
(** A record that names none of the assets changes nothing. *)
Lemma scan_inv_other requested records s s' raw :
  scan_inv requested records s -> ps_prices s' = ps_prices s -> ps_seen s' = ps_seen s ->
  (forall pid, pid <> "" -> is_Some (lookup_key pid requested) -> named pid raw = false) -> scan_inv requested (records ++ [raw]) s'.
Proof.
  intros [Hs Hp] Ep Es Hn. split.
  - intros pid Hz Hl Hn'. rewrite filter_snoc, Hn, Hs; try done. by rewrite <- Es.
  - intros cid price. rewrite Ep. intros (pid & Hz & Hl & Hpr)%Hp. exists pid. split_and!; [done..|].
    apply sole_price_other; [by apply Hn|done].
Qed.
Lemma scan_step requested records s raw : scan_inv requested records s -> scan_inv requested (records ++ [raw]) (scan_record requested s raw).
Proof.
  intros Hi. pose proof Hi as [Hs Hp]. unfold scan_record. destruct (json_unmarshal raw) as [record|e] eqn:Er.
  2:{ eapply scan_inv_other; try done. intros pid _ _. unfold named. by rewrite Er. }
  unfold set_empty. destruct (String.eqb_spec (xp_Asset record) "") as [Ez|Hz].
  { eapply scan_inv_other; try done. intros pid Hz _. unfold named. rewrite Er, Ez. by apply String.eqb_neq. }
  assert (Hnamed : forall pid, named pid raw = String.eqb (xp_Asset record) pid) by (intros; unfold named; by rewrite Er).
  destruct (lookup_key (xp_Asset record) requested) as [cid|] eqn:El.
  2:{ eapply scan_inv_other; try done. intros pid _ [? Hl]. rewrite Hnamed. apply String.eqb_neq. congruence. }
  assert (Hother : forall pid price cid', pid <> "" -> lookup_key pid requested = Some cid' -> sole_price records pid price ->
      xp_Asset record <> pid -> exists pid0, pid0 <> "" /\ lookup_key pid0 requested = Some cid' /\ sole_price (records ++ [raw]) pid0 price).
  { intros pid price cid' ? ? ? Hne. exists pid. split_and!; [done..|]. apply sole_price_other; [|done]. rewrite Hnamed. by apply String.eqb_neq. }
  case_bool_decide as Hseen.
  { split; cbn.
    - intros pid Hz' Hl Hn. rewrite filter_snoc, Hnamed, Hs by done.
      destruct (String.eqb_spec (xp_Asset record) pid) as [<-|]; [done|by rewrite app_nil_r].
    - intros cid' price [Hne (pid & ? & Hl & ?)%Hp]%lookup_delete_Some. eapply Hother; try done. congruence. }
  assert (List.filter (named (xp_Asset record)) records = []) as Hnone by (apply Hs; [done|by rewrite El|done]).
  assert (Hseen' : forall pid, pid <> "" -> is_Some (lookup_key pid requested) -> pid ∉ ({[xp_Asset record]} ∪ ps_seen s : gset string) ->
      List.filter (named pid) (records ++ [raw]) = []).
  { intros pid Hz' Hl Hn. rewrite filter_snoc, Hnamed, Hs by set_solver.
    destruct (String.eqb_spec (xp_Asset record) pid) as [<-|]; [set_solver|by rewrite app_nil_r]. }
  assert (Hold : forall pid price, sole_price records pid price -> xp_Asset record <> pid).
  { intros pid price (raw0 & ? & Hf & _) <-. congruence. }
  destruct (valid_price (xp_Price record)) as [price|] eqn:Ev; (split; [exact Hseen'|]); cbn.
  - intros cid' price'. destruct (decide (cid' = cid)) as [->|Hne].
    + rewrite lookup_insert_eq. intros [= <-]. exists (xp_Asset record). split_and!; [done..|]. exists raw, record.
      by rewrite filter_snoc, Hnamed, Hnone, String.eqb_refl.
    + rewrite lookup_insert_ne by done. intros (pid & ? & ? & ?)%Hp. by eapply Hother; eauto.
  - intros cid' price' (pid & ? & ? & ?)%Hp. by eapply Hother; eauto.
Qed.
Lemma scan_sound requested records : scan_inv requested records (fold_left (scan_record requested) records scan_start).
Proof.
  induction records as [|raw records IH] using rev_ind; [|rewrite fold_left_app; by apply scan_step].
  split; [done|]. intros cid price. cbn. by rewrite lookup_empty.
Qed.

(** ** What the provider reported *)
(** An answer to the request for these assets held these records. *)
Definition answered_records (requested : list (string * string)) (records : list string) : Prop :=
  exists n resp payload, http_do (expert_request (price_query requested)) n = Ok resp /\ rs_StatusCode resp = StatusOK /\
    decodeProviderJSON (rs_Body resp) = Ok payload /\ xr_Records payload = Some records.
Definition quoted_asset (u : AssetIdentity) (pid price : string) : Prop :=
  stellarExpertAssetID u = Ok pid /\ exists requested records,
    (pid, CanonicalID u) ∈ requested /\ answered_records requested records /\ sole_price records pid price.
(** What stands behind an asset's price: itself, or for a contract the asset whose Mainnet SAC it is. *)
Definition backs (a u : AssetIdentity) : Prop :=
  if is_contract a then deriveMainnetSACID u = Ok (ai_ContractID a) else u = a.
Definition priced (id price : string) : Prop :=
  exists a u v pid, CanonicalID a = id /\ backs a u /\ CanonicalID v = CanonicalID u /\ quoted_asset v pid price.
Definition entry_sound (id : string) (entry : stellarPriceCacheEntry) : Prop :=
  forall data, sc_Data entry = Some data -> priced id (sp_Price data).
(** Every entry the cache would serve was reported. *)
Definition cache_sound (d : RedisStore) : Prop :=
  forall id e entry, d !! stellarPriceCacheKey id = Some e -> cache_entry (Some (value_text (re_value e))) = Some entry ->
    entry_sound id entry.

Lemma requested_sound seen assets requested : requested_assets seen assets = Ok requested ->
  forall p, p ∈ requested -> p ∈ seen \/ exists a, stellarExpertAssetID a = Ok (fst p) /\ CanonicalID a = snd p.
Proof.
  revert seen. induction assets as [|a assets IH]; intros seen; cbn [requested_assets]; [intros [= <-]; by left|].
  intros (pid & Ep & Hr)%res_bind_ok p Hp. destruct (lookup_key pid seen); [by eapply IH|].
  destruct (IH _ Hr _ Hp) as [[?| ->%list_elem_of_singleton]%elem_of_app|?]; eauto.
Qed.

(** ** Requests leave the cache alone *)
Abbreviation sound := (fun w : W => cache_sound (t_own (w_store w))).
Lemma ensures_do deadline timeout req : ensures sound (do_within deadline timeout req) (fun resp => exists n, http_do req n = Ok resp).
Proof.
  unfold do_within. eapply (ensures_bind _ _ _ (fun _ => True)); [by intros w r w' Hw [= <- <-]|]. intros now _ w r w' Hw E.
  unfold http_Do in E. injection E as Er Ew. subst w'. split; [exact Hw|]. intros resp ->.
  destruct (cancelled _); [done|]. destruct (_ <=? _); [done|]. eauto.
Qed.
Lemma ensures_records deadline requested : ensures sound (fetch_records deadline requested) (answered_records requested).
Proof.
  unfold fetch_records. eapply ensures_bind; [apply ensures_wrap, ensures_do|]. intros resp (n & En).
  destruct (Z.eqb_spec (rs_StatusCode resp) StatusOK) as [Es|]; cbn [negb]; [|apply ensures_throw].
  eapply ensures_bind; [apply ensures_wrap, ensures_lift|]. cbn. intros payload Ep.
  destruct (xr_Records payload) as [records|] eqn:Er; [|apply ensures_throw]. apply ensures_ret. by exists n, resp, payload.
Qed.
Definition batch_sound (r : StellarPriceBatch * list error) : Prop :=
  forall u price, sb_Prices (fst r) !! CanonicalID u = Some price ->
    exists v pid, CanonicalID v = CanonicalID u /\ quoted_asset v pid price.
Lemma no_batch_sound e : batch_sound (no_prices, e).
Proof. intros u price. cbn. by rewrite lookup_empty. Qed.
Lemma ensures_fetch deadline assets : ensures sound (FetchUSDPrices deadline assets) batch_sound.
Proof.
  unfold FetchUSDPrices. destruct assets as [|a assets]; [apply ensures_ret, no_batch_sound|].
  destruct (requested_assets [] (a :: assets)) as [requested|e] eqn:Eq; [|apply ensures_ret, no_batch_sound].
  eapply ensures_bind; [apply ensures_attempt, ensures_records|]. intros [records|e] Hr; apply ensures_ret; [|apply no_batch_sound].
  intros u price Hp. destruct (scan_sound requested records) as [_ Hs].
  apply Hs in Hp as (pid & _ & Hl%lookup_key_elem & Hpr).
  destruct (requested_sound _ _ _ Eq _ Hl) as [[]%not_elem_of_nil|(v & Ev & Ec)]. exists v, pid. split; [done|].
  split; [done|]. exists requested, records. cbn in Ec. by rewrite Ec.
Qed.
Lemma ensures_asset deadline contractID : ensures sound (FetchContractAsset deadline contractID) (fun _ => True).
Proof.
  unfold FetchContractAsset. eapply ensures_bind; [apply ensures_wrap, ensures_do|]. intros resp _.
  destruct (_ =? StatusNotFound); [by apply ensures_ret|]. destruct (negb _); [apply ensures_throw|].
  eapply ensures_bind; [apply ensures_wrap, ensures_lift|]. intros payload _.
  eapply ensures_wrap, ensures_mono; [apply ensures_lift|done].
Qed.
(** Whatever the provider says of a contract, the asset taken for it is the one whose SAC it is. *)
Lemma ensures_resolve deadline contractID :
  ensures sound (resolveSACIdentity deadline contractID) (fun o => forall u, o = Some u -> deriveMainnetSACID u = Ok contractID).
Proof.
  unfold resolveSACIdentity. eapply ensures_bind; [apply ensures_asset|]. intros [descriptor|] _; [|by apply ensures_ret].
  destruct (parseStellarExpertAssetID descriptor) as [asset|]; [|by apply ensures_ret].
  eapply ensures_bind; [apply ensures_wrap, ensures_lift|]. cbn. intros expected Ee. apply ensures_ret. intros u.
  destruct (String.eqb_spec expected contractID) as [<-|]; [by intros [= <-]|done].
Qed.

(** ** The targets and their entries *)
Definition target_sound (t : stellarPriceTarget) : Prop := backs (st_original t) (st_underlying t).
Lemma ensures_contracts deadline contracts : Forall (fun a => is_contract a = true) contracts ->
  ensures sound (resolveContracts deadline contracts) (fun r => Forall target_sound (fst (fst r))).
Proof.
  intros Hc. unfold resolveContracts.
  eapply (ensures_bind _ _ _ (Forall2 (fun a r => fst r = a /\ forall u, snd r = Ok (Some u) -> deriveMainnetSACID u = Ok (ai_ContractID a)) contracts)).
  - apply ensures_mapM. intros a. unfold resolve_contract. eapply ensures_bind; [apply ensures_attempt, ensures_resolve|].
    intros r Hr. apply ensures_ret. split; [done|]. cbn. intros u ->. by apply Hr.
  - intros results Hr. apply ensures_ret. cbn. apply Forall_forall. intros t (r & Hin & Ht)%list_elem_of_omap.
    eapply Forall2_elem_of_r in Hr as (a & Ha & <- & Hs); [|exact Hin]. rewrite Forall_forall in Hc. apply Hc in Ha.
    unfold resolved_target in Ht. destruct (snd r) as [[u|]|] eqn:Er; try done. injection Ht as <-.
    unfold target_sound, backs. cbn. rewrite Ha. auto.
Qed.
Definition entries_sound (entries : list (string * stellarPriceCacheEntry)) : Prop :=
  Forall (fun p => entry_sound (fst p) (snd p)) entries.
Lemma targets_entries batch errs targets : batch_sound (batch, errs) -> Forall target_sound targets ->
  entries_sound (omap (target_entry batch) targets).
Proof.
  intros Hb Ht. apply Forall_forall. intros p (t & Hin & Hp)%list_elem_of_omap. rewrite Forall_forall in Ht. apply Ht in Hin.
  unfold target_entry in Hp. destruct (sb_Prices batch !! _) as [price|] eqn:E.
  - injection Hp as <-. intros data [= <-]. cbn. apply Hb in E as (v & pid & Ev & Hq). by exists (st_original t), (st_underlying t), v, pid.
  - case_bool_decide; [|done]. injection Hp as <-. by intros data.
Qed.
Lemma ensures_missing deadline missing : ensures sound (lookup_missing deadline missing) (fun r => entries_sound (fst r)).
Proof.
  unfold lookup_missing. eapply ensures_bind.
  { apply ensures_contracts, Forall_forall. by intros a [_ ?]%list_elem_of_In%filter_In. }
  intros [[resolved unsupported] errs] Hr. cbn in Hr.
  assert (Hneg : entries_sound ((fun a => (CanonicalID a, no_entry)) <$> unsupported)).
  { apply Forall_forall. intros p (a & -> & _)%list_elem_of_fmap. by intros data. }
  set (targets := (_ ++ resolved)%list). assert (Ht : Forall target_sound targets).
  { apply Forall_app. split; [|done]. apply Forall_forall. intros t (a & -> & [_ Ha%negb_true_iff]%list_elem_of_In%filter_In)%list_elem_of_fmap.
    unfold target_sound, backs. cbn. by rewrite Ha. }
  destruct (each_once _) as [|a l]; [by apply ensures_ret|]. eapply ensures_bind; [apply ensures_fetch|]. intros [batch failures] Hb.
  apply ensures_ret. cbn. apply Forall_app. split; [done|]. by eapply targets_entries.
Qed.

(** ** The cache *)
#[local] Arguments stellarPriceCacheKey : simpl never.
Definition cached_sound (assets : list AssetIdentity) (r : list (AssetIdentity * option stellarPriceCacheEntry) * bool) : Prop :=
  fst <$> fst r = assets /\ forall a entry, (a, Some entry) ∈ fst r -> entry_sound (CanonicalID a) entry.
Lemma on_cache_inv {A} (m : M (World RedisStore) A) (w w' : W) r : on_cache m w = (r, w') ->
  m (MkWorld (t_own (w_store w)) (w_io w)) = (r, MkWorld (t_own (w_store w')) (w_io w')).
Proof. by intros (d & n & E & ->)%zoom_run. Qed.
Lemma zip_values {B} (f : AssetIdentity -> option B) assets a entry :
  (a, Some entry) ∈ zip assets (f <$> assets) -> f a = Some entry.
Proof.
  induction assets as [|b assets IH]; cbn; [by intros ?%not_elem_of_nil|]. intros [[= -> <-]|]%elem_of_cons; auto.
Qed.
Lemma fst_zip_map {B} (f : AssetIdentity -> B) assets : fst <$> zip assets (f <$> assets) = assets.
Proof. induction assets; cbn; congruence. Qed.
Lemma fst_no_values (assets : list AssetIdentity) : fst <$> ((fun a : AssetIdentity => (a, None : option stellarPriceCacheEntry)) <$> assets) = assets.
Proof. induction assets as [|a assets IH]; [done|]. cbn. f_equal. exact IH. Qed.
Lemma ensures_read assets : ensures sound (readStellarPriceCache assets) (cached_sound assets).
Proof.
  intros w r w' Hw. unfold readStellarPriceCache. unfold bind, attempt, ret.
  destruct (on_cache _ w) as [values w1] eqn:E. apply on_cache_inv in E. intros [= <- <-].
  unfold redis, exec, MGET in E. cbn in E. destruct (env_fault (w_io w)).
  - injection E as <- Ew _. cbn. rewrite <- Ew. split; [done|]. intros a [= <-]. cbn. split.
    + apply fst_no_values.
    + intros b entry (b' & [=] & _)%list_elem_of_fmap.
  - injection E as <- Ew _. cbn. rewrite <- Ew. split; [done|]. intros a [= <-]. cbn. rewrite <- !list_fmap_compose. split; [apply fst_zip_map|].
    intros b entry Hz%(zip_values (cache_entry ∘ (fun key => value_text ∘ re_value <$> live _ key _) ∘ _)).
    unfold compose, live in Hz. destruct (t_own (w_store w) !! stellarPriceCacheKey (CanonicalID b)) as [e|] eqn:Ee; [|done]. destruct (expired_at _ e); [done|]. by eapply Hw.
Qed.

(** What is encoded decodes. *)
Hypothesis cache_round_trip : forall (entry : stellarPriceCacheEntry) s, json_marshal entry = Ok s -> json_unmarshal s = Ok entry.
Lemma cache_insert id text entry deadline d :
  json_marshal entry = Ok text -> entry_sound id entry -> cache_sound d ->
  cache_sound (<[stellarPriceCacheKey id := {| re_value := RText text; re_deadline := deadline |}]> d).
Proof.
  intros Hm He Hd id' e entry'. destruct (decide (stellarPriceCacheKey id' = stellarPriceCacheKey id)) as [Ek|Hne].
  - rewrite Ek, lookup_insert_eq. intros [= <-]. cbn. rewrite (cache_round_trip _ _ Hm).
    destruct (validStellarPriceCacheEntry _); [|done]. intros [= <-]. unfold stellarPriceCacheKey in Ek. by simplify_eq.
  - rewrite lookup_insert_ne by done. apply Hd.
Qed.
Lemma cache_SET_all entries texts ttl now d : res_map encoded_entry entries = Ok texts -> entries_sound entries -> cache_sound d ->
  forall d', SET_all texts ttl now d = Ok (tt, d') -> cache_sound d'.
Proof.
  intros Hf%ExecuteAuth.res_map_ok Hs Hd d' [= <-]. induction Hf as [|p q entries texts Hpq Hf IH]; [done|].
  apply Forall_cons in Hs as [Hp Hs]. unfold encoded_entry in Hpq. apply res_bind_ok in Hpq as (text & Hm & Hq). injection Hq as <-.
  cbn. by eapply cache_insert; [|exact Hp|apply IH].
Qed.
Lemma ensures_write entries : entries_sound entries -> ensures sound (writeStellarPriceCache entries) (fun _ => True).
Proof.
  intros Hs. unfold writeStellarPriceCache. destruct entries as [|p entries]; [by apply ensures_ret|].
  destruct (res_map encoded_entry (p :: entries)) as [texts|] eqn:Et; [|by apply ensures_ret].
  eapply ensures_bind; [|intros; by apply ensures_ret]. eapply ensures_mono; [apply (ensures_attempt _ _ (fun _ => True))|done].
  intros w r w' Hw E%on_cache_inv. split; [|done]. unfold redis, exec in E. destruct (env_fault _); [by injection E as _ <- _|].
  cbn [w_store w_io] in E. unfold SET_all in E at 1. cbn in E. injection E as _ <- _. by eapply cache_SET_all.
Qed.

(** ** The lookup *)
Lemma each_once_ids assets : NoDup (CanonicalID <$> each_once assets) /\
  forall a, a ∈ assets -> CanonicalID a ∈ CanonicalID <$> each_once assets.
Proof.
  induction assets as [|a assets [Hn Hi]]; cbn; [split; [constructor|by intros ? ?%not_elem_of_nil]|].
  assert (Hsub : forall b, b ∈ CanonicalID <$> each_once assets -> exists c, c ∈ assets /\ CanonicalID c = b).
  { clear. induction assets as [|a assets IH]; cbn; [by intros b ?%not_elem_of_nil|]. intros b Hb.
    destruct (existsb _ _); [|apply elem_of_cons in Hb as [->|Hb]; [exists a; split; [left|done]|]];
      (destruct (IH _ Hb) as (c & ? & ?); exists c; split; [by right|done]). }
  destruct (existsb _ assets) eqn:Ex.
  - split; [done|]. intros b [->|]%elem_of_cons; [|by apply Hi]. apply existsb_exists in Ex as (c & Hc & Ec%String.eqb_eq).
    rewrite <- Ec. by apply Hi, list_elem_of_In.
  - split; [|intros b [->|]%elem_of_cons; [left|right; by apply Hi]]. cbn. apply NoDup_cons. split; [|done].
    intros (c & Hc & Ec)%Hsub. apply not_true_iff_false in Ex. apply Ex, existsb_exists. exists c.
    split; [by apply list_elem_of_In|by apply String.eqb_eq].
Qed.
Definition answer_sound (canonical : list AssetIdentity) (r : list (string * option StellarPriceData) * list error) : Prop :=
  fst <$> fst r = CanonicalID <$> each_once canonical /\ forall id data, (id, Some data) ∈ fst r -> priced id (sp_Price data).
Lemma ensures_lookup deadline assets : ensures sound (LookupUSD deadline assets)
  (fun r => exists canonical, res_map CanonicalizeAssetIdentity assets = Ok canonical /\ answer_sound canonical r).
Proof.
  unfold LookupUSD. eapply ensures_bind; [apply ensures_wrap, ensures_lift|]. cbn. intros canonical Ec.
  eapply ensures_bind; [apply ensures_read|]. intros [cached available] [Hf Hc]. cbn in Hf, Hc.
  assert (Hids : forall (g : AssetIdentity * option stellarPriceCacheEntry -> option StellarPriceData),
      fst <$> ((fun p => (CanonicalID (fst p), g p)) <$> cached) = CanonicalID <$> each_once canonical).
  { intros g. rewrite <- Hf, <- !list_fmap_compose. done. }
  cbv zeta. match goal with |- ensures _ (match ?l with _ => _ end) _ => destruct l as [|a missing] end.
  - apply ensures_ret. exists canonical. split; [done|]. split; [cbn; apply (Hids (fun p => data_of (snd p)))|]. cbn.
    intros id data ([a o] & [= -> Hd] & Hp)%list_elem_of_fmap. cbn in Hd. destruct o as [entry|]; [|done]. by eapply Hc.
  - eapply ensures_bind; [apply ensures_missing|]. intros [entries errs] He. cbn in He.
    eapply (ensures_bind _ _ _ (fun _ => True)); [destruct available; [by apply ensures_write|by apply ensures_ret]|]. intros _ _.
    apply ensures_ret. exists canonical. split; [done|]. cbn. split.
    + apply (Hids (fun p => match snd p with Some _ => data_of (snd p) | None => data_of (lookup_key (CanonicalID (fst p)) entries) end)).
    + intros id data ([b o] & [= -> Hd] & Hp)%list_elem_of_fmap. cbn in Hd. destruct o as [entry|]; [by eapply Hc|].
      destruct (lookup_key (CanonicalID b) entries) as [entry|] eqn:El; [|done]. apply lookup_key_elem in El.
      unfold entries_sound in He. rewrite Forall_forall in He. by apply (He _ El).
Qed.

(** C24. A price by identity is what the provider reported for exactly that asset. Each identity asked for is answered
    once; a price it carries is the price, positive and finite, of the only record the provider gave for the asset —
    and for a contract, of the asset whose own Mainnet contract it is, whatever the provider claims about it. This
    holds for answers out of the cache too: a lookup leaves there only entries of which it is true. *)
Theorem prices_reported deadline assets (w w' : W) r :
  LookupUSD deadline assets w = (r, w') -> cache_sound (t_own (w_store w)) ->
  cache_sound (t_own (w_store w')) /\
  forall prices errs, r = Ok (prices, errs) ->
    exists canonical, res_map CanonicalizeAssetIdentity assets = Ok canonical /\ NoDup (fst <$> prices) /\
      (forall a, a ∈ canonical -> CanonicalID a ∈ fst <$> prices) /\
      forall id data, (id, Some data) ∈ prices -> priced id (sp_Price data).
Proof.
  intros Hr Hw. destruct (ensures_lookup deadline assets w r w' Hw Hr) as [Hw' Ha]. split; [done|].
  intros prices errs ->. destruct (Ha _ eq_refl) as (canonical & Hc & Hf & Hp). cbn in Hf, Hp.
  destruct (each_once_ids canonical) as [Hn Hi]. exists canonical. rewrite Hf. auto.
Qed.
End Prices.

Section PricesWitness.
Import Demo.
#[local] Existing Instance demo_sdk.
#[local] Instance read_clock : Env := demo_env 1000 1 no_fault.
#[local] Instance quick : Elapses := {| elapsed n := 5%N; gone_at := None |}.
Definition sac_key : string := str_repeat "S" 32.
Definition sac : string := "C" +:+ sac_key.
#[local] Instance expert : Http := {| http_do req n := Ok {| rs_StatusCode := 200;
  rs_Body := Ok (if String.prefix (stellarExpertBaseURL +:+ "/explorer/public/contract/") (rq_URL req) then sac else "0.1") |} |}.
#[local] Instance upper : UnicodeUpper := {| unicode_upper s := s |}.
#[local] Instance stellar_assets : StellarAssets := {| valid_asset_code c := true;
  asset_contract_id a p := match a with None => Ok sac_key | Some _ => Err (Errorf "other") end |}.
#[local] Instance plain_number : JsonNumber := {| json_number s := Ok s |}.
#[local] Instance json_payload : Json stellarExpertPriceResponse := {| json_marshal p := Err (Errorf "unused");
  json_unmarshal s := Ok {| xr_Records := Some [s] |} |}.
#[local] Instance json_record : Json stellarExpertPriceRecord := {| json_marshal p := Err (Errorf "unused");
  json_unmarshal s := Ok {| xp_Asset := "XLM"; xp_Price := s |} |}.
#[local] Instance json_contract : Json stellarExpertContractResponse := {| json_marshal p := Err (Errorf "unused");
  json_unmarshal s := Ok {| xc_Contract := s; xc_Asset := "XLM"; xc_Wasm := "" |} |}.
Definition write_entry (e : stellarPriceCacheEntry) : res string :=
  match e with
  | {| sc_Found := true; sc_Data := Some {| sp_Price := p; sp_Change24h := None |} |} => Ok (String "p" p)
  | {| sc_Found := false; sc_Data := None |} => Ok "n"
  | _ => Err (Errorf "unused")
  end.
Definition read_entry (s : string) : res stellarPriceCacheEntry :=
  match s with String "p" p => Ok (found_entry p) | String "n" "" => Ok no_entry | _ => Err (Errorf "json") end.
#[local] Instance json_entry : Json stellarPriceCacheEntry := {| json_marshal := write_entry; json_unmarshal := read_entry |}.
Lemma entry_round_trip (entry : stellarPriceCacheEntry) s : json_marshal entry = Ok s -> json_unmarshal s = Ok entry.
Proof. destruct entry as [[] [[p [|]]|]]; cbn; by intros [= <-]. Qed.

Definition asked : list AssetIdentity := [{| ai_Kind := "contract"; ai_Code := ""; ai_Issuer := ""; ai_ContractID := sac |}].
Definition no_cache : World (Timed RedisStore) := MkWorld (MkTimed 0 [] ∅) 0.
(** The contract's price, as looked up. *)
Definition price_found : option string :=
  match fst (LookupUSD 60000 asked no_cache) with Ok ([(id, Some data)], []) => Some (sp_Price data) | _ => None end.
Example sac_priced : price_found = Some "0.1".
Proof. vm_compute. reflexivity. Qed.
Lemma looked_up : exists id data errs w', LookupUSD 60000 asked no_cache = (Ok ([(id, Some data)], errs), w').
Proof.
  pose proof sac_priced as Hp. unfold price_found in Hp. destruct (LookupUSD 60000 asked no_cache) as [r w']. cbn [fst] in Hp.
  destruct r as [[[|[id [data|]] []] []]|]; try discriminate Hp. by exists id, data, [], w'.
Qed.
Lemma no_cache_sound : cache_sound (t_own (w_store no_cache)).
Proof. intros id e entry E. cbn in E. by rewrite lookup_empty in E. Qed.
Lemma prices_reported_witness : exists id data errs w',
  LookupUSD 60000 asked no_cache = (Ok ([(id, Some data)], errs), w') /\ priced id (sp_Price data).
Proof.
  destruct looked_up as (id & data & errs & w' & E). exists id, data, errs, w'. split; [exact E|].
  destruct (prices_reported entry_round_trip 60000 asked no_cache w' _ E no_cache_sound) as [_ Ha].
  destruct (Ha _ _ eq_refl) as (canonical & _ & _ & _ & Hp). apply Hp. left.
Defined.
End PricesWitness.

(** ** Steps that only decide *)
Definition silent {S A} (m : M S A) : Prop := forall w, snd (m w) = w.
Lemma bind_silent {S A B} (m : M S A) (k : A -> M S B) w r w' : bind m k w = (r, w') -> silent m ->
  (exists e, r = Err e /\ w' = w) \/ exists a, k a w = (r, w').
Proof.
  unfold bind. intros Hr Hm. specialize (Hm w). destruct (m w) as [[a|e] w1]; cbn in Hm; subst w1; [by right; eauto|].
  injection Hr as <- <-. left. eauto.
Qed.
Lemma silent_bound {S} required : silent (v1_bound (S := S) required).
Proof. intros w. unfold v1_bound, or_fail, bound. by destruct (existsb _ _). Qed.
Lemma silent_network `{Unicode} `{Deployment} {S} api raw : silent (named_network (S := S) api raw).
Proof. intros w. unfold named_network. destruct (ParseNetwork raw); [done|]. by destruct (errors_is _ _). Qed.

(** ** Relayed transactions *)
Section Relay.
Context `{Http} `{Elapses} `{JsonText} `{StellarEndpoints} `{JsonDecode rpcAnswer}.

(** The request of a call, and a result the RPC gave for one. *)
Definition is_call (method : string) (params : json) (req : http_request) : Prop :=
  exists body, json_text (JObj [("jsonrpc", JStr "2.0"); ("id", JNum 1); ("method", JStr method); ("params", params)]) = Ok body /\
    req = rpc_request body.
Definition rpc_reported {R} `{Json R} (method : string) (params : json) (result : R) : Prop :=
  exists req n resp answer, is_call method params req /\ http_do req n = Ok resp /\ json_decode (rs_Body resp) = Ok answer /\
    wr_Error answer = None /\ json_unmarshal (wr_Result answer) = Ok result.
Definition sent_more {A} (w w' : World (Timed A)) (reqs : list http_request) : Prop :=
  t_sent (w_store w') = (t_sent (w_store w) ++ reqs)%list.
Lemma sent_nothing {A} (w : World (Timed A)) : sent_more w w [].
Proof. unfold sent_more. by rewrite app_nil_r. Qed.
Lemma sent_trans {A} (w w1 w2 : World (Timed A)) l1 l2 : sent_more w w1 l1 -> sent_more w1 w2 l2 -> sent_more w w2 (l1 ++ l2).
Proof. unfold sent_more. intros E1 E2. by rewrite E2, E1, app_assoc. Qed.

Lemma do_within_spec {A} deadline timeout req (w w' : World (Timed A)) r : do_within deadline timeout req w = (r, w') ->
  t_own (w_store w') = t_own (w_store w) /\ sent_more w w' [req] /\ forall resp, r = Ok resp -> exists n, http_do req n = Ok resp.
Proof.
  unfold do_within, bind, clock, http_Do. intros E. injection E as Er Ew. subst w'. split_and!; [done..|]. intros resp ->.
  destruct (cancelled _); [done|]. destruct (_ <=? _); [done|]. eauto.
Qed.
Lemma rpc_call_spec {A R} `{Json R} deadline method params (w w' : World (Timed A)) (r : res R) :
  rpc_call deadline method params w = (r, w') ->
  t_own (w_store w') = t_own (w_store w) /\
  (exists l, sent_more w w' l /\ (length l <= 1)%nat /\ Forall (is_call method params) l) /\
  forall x, r = Ok x -> rpc_reported method params x.
Proof.
  unfold rpc_call. unfold bind at 1. unfold wrap at 1, lift at 1.
  destruct (json_text _) as [body|e] eqn:Eb.
  2:{ intros [= <- <-]. split; [done|]. split; [exists []; split_and!; [apply sent_nothing|cbn; lia|done]|done]. }
  unfold bind at 1, wrap at 1. destruct (do_within deadline rpcTimeout (rpc_request body) w) as [resp w1] eqn:Ed.
  apply do_within_spec in Ed as (Ho & Hs & Hd).
  assert (Hl : exists l, sent_more w w1 l /\ (length l <= 1)%nat /\ Forall (is_call method params) l).
  { exists [rpc_request body]. split_and!; [done|cbn; lia|]. constructor; [by exists body|done]. }
  destruct resp as [resp|e]; [|by intros [= <- <-]]. destruct (Hd _ eq_refl) as [n Hn].
  intros Hr. assert (w' = w1) as ->.
  { unfold bind, wrap, lift, throw in Hr. destruct (json_decode _) as [a|]; [|by injection Hr]. destruct (wr_Error a); [by injection Hr|].
    destruct (json_unmarshal _); by injection Hr. }
  split_and!; [done..|]. intros x ->. apply bind_ok in Hr as (answer & w2 & Ha & Hr).
  apply (proj1 (wrap_ok _ _ _ _ _)), lift_ok in Ha as [Ha _]. destruct (wr_Error answer) eqn:Ee; [done|].
  apply (proj1 (wrap_ok _ _ _ _ _)), lift_ok in Hr as [Hr _]. exists (rpc_request body), n, resp, answer.
  split_and!; [by exists body|done..].
Qed.

Context `{Unicode} `{Deployment} `{Json SimulateResult} `{Json SendTxResult} `{Json RpcTransaction}.
Abbreviation W := (World (Timed unit)).
Definition send_params (xdr : string) : json := JObj [("transaction", JStr xdr)].
Definition poll_params (hash : string) : json := JObj [("hash", JStr hash)].
Definition failure_text (t : RpcTransaction) : string :=
  if String.eqb (rt_ErrorResultXdr t) "" then rt_ResultXdr t else rt_ErrorResultXdr t.
(** The polls of a run, in order: a second passes, then the RPC is asked. *)
Inductive polled (deadline : Z) (hash : string) : W -> list (res RpcTransaction) -> W -> Prop :=
  | polled_none w : polled deadline hash w [] w
  | polled_once w r w1 rs w' : Rpc.GetTransaction deadline hash (elapse (t_now (w_store w) + 1000) w) = (r, w1) ->
      polled deadline hash w1 rs w' -> polled deadline hash w (r :: rs) w'.
(** A poll that settles nothing: it failed, or it reports another status, NOT_FOUND among them. *)
Definition undecided (poll : res RpcTransaction) : Prop :=
  forall t, poll = Ok t -> rt_Status t <> "SUCCESS" /\ rt_Status t <> "FAILED".
(** What the polls come to: the first that settles the transaction ends them, and without one there are twenty. *)
Inductive poll_outcome (attempts : nat) (hash : string) : list (res RpcTransaction) -> relayResponse -> Prop :=
  | outcome_success before t : Forall undecided before -> (length before < attempts)%nat -> rt_Status t = "SUCCESS" ->
      poll_outcome attempts hash (before ++ [Ok t]) {| ry_Hash := hash; ry_Status := "SUCCESS"; ry_Error := "" |}
  | outcome_failed before t : Forall undecided before -> (length before < attempts)%nat -> rt_Status t = "FAILED" ->
      poll_outcome attempts hash (before ++ [Ok t]) {| ry_Hash := hash; ry_Status := "FAILED"; ry_Error := failure_text t |}
  | outcome_pending polls : Forall undecided polls -> length polls = attempts ->
      poll_outcome attempts hash polls {| ry_Hash := hash; ry_Status := "PENDING"; ry_Error := "" |}.
Inductive relay_outcome (sent : SendTxResult) : list (res RpcTransaction) -> relayResponse -> Prop :=
  | relay_refused : st_Status sent = "ERROR" ->
      relay_outcome sent [] {| ry_Hash := st_Hash sent; ry_Status := "ERROR"; ry_Error := st_ErrorResultXdr sent |}
  | relay_again : st_Status sent = "TRY_AGAIN_LATER" ->
      relay_outcome sent [] {| ry_Hash := ""; ry_Status := "TRY_AGAIN_LATER"; ry_Error := "" |}
  | relay_polled polls a : st_Status sent <> "ERROR" -> st_Status sent <> "TRY_AGAIN_LATER" ->
      poll_outcome 20 (st_Hash sent) polls a -> relay_outcome sent polls a.

Lemma poll_outcome_later attempts hash r rs a : undecided r -> poll_outcome attempts hash rs a -> poll_outcome (S attempts) hash (r :: rs) a.
Proof.
  intros Hr [before t Hb Hn Ht|before t Hb Hn Ht|polls Hb Hn].
  - apply (outcome_success _ _ (r :: before)); [by constructor|cbn; lia|done].
  - apply (outcome_failed _ _ (r :: before)); [by constructor|cbn; lia|done].
  - apply outcome_pending; [by constructor|cbn; lia].
Qed.
Lemma relay_poll_spec attempts deadline hash (w w' : W) r : relay_poll attempts deadline hash w = (r, w') ->
  exists polls a, r = Ok a /\ polled deadline hash w polls w' /\ poll_outcome attempts hash polls a.
Proof.
  revert w. induction attempts as [|attempts IH]; intros w; cbn [relay_poll].
  { intros [= <- <-]. exists [], {| ry_Hash := hash; ry_Status := "PENDING"; ry_Error := "" |}. by split_and!; constructor. }
  unfold bind at 1, sleep at 1. unfold bind, attempt. set (w0 := elapse _ w).
  destruct (Rpc.GetTransaction deadline hash w0) as [poll w1] eqn:Ep.
  assert (Hnext : undecided poll -> relay_poll attempts deadline hash w1 = (r, w') -> exists polls a, r = Ok a /\
      polled deadline hash w polls w' /\ poll_outcome (S attempts) hash polls a).
  { intros Hu (polls & a & -> & Hp & Ho)%IH. exists (poll :: polls), a. split_and!; [done|by eapply polled_once|by apply poll_outcome_later]. }
  assert (Hend : polled deadline hash w [poll] w1) by (eapply polled_once; [exact Ep|constructor]).
  destruct poll as [t|e]; [|by apply Hnext; intros t].
  destruct (String.eqb_spec (rt_Status t) RPCStatusSuccess) as [|Hs]; [|destruct (String.eqb_spec (rt_Status t) RPCStatusFailed) as [|Hf]].
  - intros [= <- <-]. eexists _, _. split_and!; [done|exact Hend|]. apply (outcome_success _ _ []); [done|cbn; lia|done].
  - intros [= <- <-]. eexists _, _. split_and!; [done|exact Hend|]. apply (outcome_failed _ _ []); [done|cbn; lia|done].
  - apply Hnext. by intros ? [= <-].
Qed.
Definition reported_poll (hash : string) (poll : res RpcTransaction) : Prop :=
  forall t, poll = Ok t -> rpc_reported "getTransaction" (poll_params hash) t.
(** A poll is one request at most, and what it says is what the RPC reported. *)
Lemma polled_spec deadline hash w polls w' : polled deadline hash w polls w' ->
  Forall (reported_poll hash) polls /\ exists reqs, sent_more w w' reqs /\ (length reqs <= length polls)%nat /\
    Forall (is_call "getTransaction" (poll_params hash)) reqs.
Proof.
  induction 1 as [w|w r w1 rs w' Ep _ (Hr & reqs & Hs & Hn & Hc)].
  { split; [constructor|]. exists []. split_and!; [apply sent_nothing|done|constructor]. }
  apply rpc_call_spec in Ep as (_ & (l & Hl & Hln & Hlc) & Hp). split; [by constructor|]. exists (l ++ reqs)%list. split_and!.
  - by eapply sent_trans; [exact Hl|].
  - rewrite length_app. cbn. lia.
  - by apply Forall_app.
Qed.
Lemma outcome_polls attempts hash polls a : poll_outcome attempts hash polls a -> (length polls <= attempts)%nat.
Proof. intros [before ? ? ? ?|before ? ? ? ?|? ? ?]; rewrite ?length_app; cbn; lia. Qed.

(** The handler without its binding: it refuses what names no transaction or another network, and sends the rest. *)
Definition relay_binds (xdr network : string) : bool := negb (String.eqb xdr "") && is_ok (ParseNetwork network).
Lemma relay_refuses deadline xdr network (w : W) : relay_binds xdr network = false ->
  exists e, Relay_handler deadline xdr network w = (Err e, w).
Proof.
  unfold relay_binds, Relay_handler, v1_bound, bound, named_network, or_fail, bind, attempt, fail, throw, bad_body, ret. cbn [existsb].
  destruct (String.eqb_spec "" xdr) as [<-|Hx]; [intros _; by eexists|]. rewrite (proj2 (String.eqb_neq xdr "")) by congruence.
  cbn [negb andb orb]. destruct (ParseNetwork network) as [n|e]; [done|]. intros _. destruct (errors_is e ErrMismatch); by eexists.
Qed.
Lemma relay_sends deadline xdr network (w : W) : relay_binds xdr network = true ->
  Relay_handler deadline xdr network w =
    (let '(answer, w1) := Rpc.SendTransaction deadline xdr w in
     match answer with
     | Err _ => (Err (Sentinel "502 BAD_GATEWAY"), w1)
     | Ok sent =>
         if String.eqb (st_Status sent) RPCStatusError
         then (Ok {| ry_Hash := st_Hash sent; ry_Status := RPCStatusError; ry_Error := st_ErrorResultXdr sent |}, w1) else
         if String.eqb (st_Status sent) RPCStatusTryAgain
         then (Ok {| ry_Hash := ""; ry_Status := RPCStatusTryAgain; ry_Error := "" |}, w1)
         else relay_poll relayPollAttempts deadline (st_Hash sent) w1
     end).
Proof.
  unfold relay_binds. intros [Hx%negb_true_iff Hn]%andb_true_iff.
  unfold Relay_handler, v1_bound, bound, named_network, or_fail, bind, attempt, fail, throw, ret. cbn [existsb].
  rewrite String.eqb_sym, Hx. cbn [orb]. destruct (ParseNetwork network); [|discriminate Hn].
  destruct (Rpc.SendTransaction deadline xdr w) as [[sent|e] w1]; [|reflexivity].
  destruct (String.eqb _ RPCStatusError); [reflexivity|]. destruct (String.eqb _ RPCStatusTryAgain); reflexivity.
Qed.

(** C32. What the relay says is what became of the transaction. A request without one, or for another network, is refused
    with nothing sent; any other sends the phone's transaction in one call at most, and when that call gives no answer the
    phone is told 502 and nothing is polled. From the network's answer on, no failure comes between: ERROR and
    TRY_AGAIN_LATER are that answer itself, and otherwise the RPC is asked for the hash it gave out, once a second, a
    failed poll being passed over. The first poll to report SUCCESS or FAILED is the answer given, with its error; PENDING
    is given after exactly twenty that reported neither. *)
Theorem relay_truthful deadline xdr network (w w' : W) r :
  Relay_handler deadline xdr network w = (r, w') ->
  if relay_binds xdr network then
    exists answer w1 first, Rpc.SendTransaction deadline xdr w = (answer, w1) /\
      sent_more w w1 first /\ (length first <= 1)%nat /\ Forall (is_call "sendTransaction" (send_params xdr)) first /\
      match answer with
      | Err _ => r = Err (Sentinel "502 BAD_GATEWAY") /\ w' = w1
      | Ok sent => rpc_reported "sendTransaction" (send_params xdr) sent /\
          exists polls a reqs, r = Ok a /\ polled deadline (st_Hash sent) w1 polls w' /\ relay_outcome sent polls a /\
            Forall (reported_poll (st_Hash sent)) polls /\ sent_more w1 w' reqs /\ (length reqs <= length polls <= 20)%nat /\
            Forall (is_call "getTransaction" (poll_params (st_Hash sent))) reqs
      end
  else (exists e, r = Err e) /\ w' = w.
Proof.
  destruct (relay_binds xdr network) eqn:Eb.
  2: { destruct (relay_refuses deadline _ _ w Eb) as [e ->]. intros [= <- <-]. eauto. }
  rewrite relay_sends by done. destruct (Rpc.SendTransaction deadline xdr w) as [answer w1] eqn:Es.
  pose proof Es as (_ & (first & Hl & Hn & Hc) & Hp)%rpc_call_spec. intros Hr. exists answer, w1, first.
  split_and!; [done..|]. destruct answer as [sent|e]; [|by injection Hr as <- <-]. split; [by apply Hp|].
  enough (exists polls a, r = Ok a /\ polled deadline (st_Hash sent) w1 polls w' /\ relay_outcome sent polls a /\ (length polls <= 20)%nat)
    as (polls & a & -> & Hpd & Ho & Hlen).
  { destruct (polled_spec _ _ _ _ _ Hpd) as (Hrep & reqs & ? & ? & ?). exists polls, a, reqs. by split_and!. }
  destruct (String.eqb_spec (st_Status sent) RPCStatusError) as [|He]; [|destruct (String.eqb_spec (st_Status sent) RPCStatusTryAgain) as [|Ht]].
  - injection Hr as <- <-. eexists [], _. split_and!; [done|constructor|by apply relay_refused|cbn; lia].
  - injection Hr as <- <-. eexists [], _. split_and!; [done|constructor|by apply relay_again|cbn; lia].
  - apply relay_poll_spec in Hr as (polls & a & -> & Hpd & Ho). exists polls, a. split_and!; [done..| |by eapply outcome_polls].
    by apply relay_polled.
Qed.
End Relay.

(** ** Histories *)
Section Page.
Context `{SortNewest}.
Lemma seen_hash_spec txs t : seen_hash txs t = true <-> tx_Hash t ∈ tx_Hash <$> txs.
Proof.
  unfold seen_hash. rewrite existsb_exists, list_elem_of_fmap. split.
  - intros (u & Hu%list_elem_of_In & E%String.eqb_eq). by exists u.
  - intros (u & -> & Hu). exists u. split; [by apply list_elem_of_In|apply String.eqb_refl].
Qed.
Lemma add_unseen_spec txs new : NoDup (tx_Hash <$> txs) ->
  NoDup (tx_Hash <$> add_unseen txs new) /\ (forall t, t ∈ add_unseen txs new -> t ∈ txs \/ t ∈ new) /\
  (forall t, t ∈ txs -> t ∈ add_unseen txs new) /\ forall t, t ∈ new -> tx_Hash t ∈ tx_Hash <$> add_unseen txs new.
Proof.
  unfold add_unseen. revert txs. induction new as [|t new IH]; intros txs Hn; cbn [fold_left].
  { split_and!; auto. by intros t ?%not_elem_of_nil. }
  destruct (seen_hash txs t) eqn:Es; cbn.
  - apply seen_hash_spec in Es. destruct (IH txs Hn) as (? & Ht & Hk & ?). split_and!; [done| |done|].
    + intros u [?|?]%Ht; [by left|right; by right].
    + intros u [->|]%elem_of_cons; [|auto]. apply list_elem_of_fmap in Es as (v & -> & Hv). apply list_elem_of_fmap. eauto.
  - assert (Hn' : NoDup (tx_Hash <$> txs ++ [t])).
    { rewrite fmap_app. apply NoDup_app. split_and!; [done| |apply NoDup_singleton].
      intros h Hh ->%list_elem_of_singleton. apply seen_hash_spec in Hh. congruence. }
    destruct (IH _ Hn') as (? & Ht & Hk & ?). split_and!; [done| |intros u ?; apply Hk, elem_of_app; by left|].
    + intros u [[?| ->%list_elem_of_singleton]%elem_of_app|?]%Ht; [by left|right; left|right; by right].
    + intros u [->|]%elem_of_cons; [|auto]. apply list_elem_of_fmap. exists t. split; [done|]. apply Hk, elem_of_app. right. left.
Qed.

(** The newest [n] of what the sources had, each transaction once. *)
Definition page (n : nat) (sources txs : list Transaction) : Prop :=
  NoDup (tx_Hash <$> txs) /\ StronglySorted (fun a b => tx_CreatedAt b <= tx_CreatedAt a) txs /\ (length txs <= n)%nat /\
  (forall t, t ∈ txs -> t ∈ sources) /\
  forall t, t ∈ sources -> exists u, u ∈ sources /\ tx_Hash u = tx_Hash t /\
    (u ∈ txs \/ length txs = n /\ forall v, v ∈ txs -> tx_CreatedAt u <= tx_CreatedAt v).
Lemma merged_page p ops events : page (Z.to_nat (hp_Limit p)) (ops ++ events) (merged p ops events).
Proof.
  unfold merged. set (n := Z.to_nat _). destruct (add_unseen_spec [] ops) as (Hn1 & Ht1 & _ & Hc1); [constructor|].
  destruct (add_unseen_spec _ events Hn1) as (Hn & Ht & Hk & Hc). set (l := add_unseen _ events) in *.
  pose proof (sort_newest_perm l) as Hp. pose proof (sort_newest_sorted l) as Hs. set (s := sort_newest l) in *.
  assert (Hl : forall t, t ∈ l -> t ∈ (ops ++ events)%list).
  { intros t [[?%not_elem_of_nil|]%Ht1|]%Ht; [done| |]; apply elem_of_app; auto. }
  pose proof Hs as Hs'. rewrite <- (take_drop n s) in Hs'. split_and!.
  - rewrite fmap_take. apply (sublist_NoDup _ (tx_Hash <$> s)); [|apply sublist_take]. by rewrite Hp.
  - by apply StronglySorted_app in Hs' as (_ & ? & _).
  - rewrite length_take. lia.
  - intros t Hin%(subseteq_take n s). apply Hl. by rewrite <- Hp.
  - intros t Hin. assert (tx_Hash t ∈ tx_Hash <$> l) as (u & Eu & Hu)%list_elem_of_fmap.
    { apply elem_of_app in Hin as [(v & -> & ?)%Hc1%list_elem_of_fmap|?]; [|by apply Hc]. apply list_elem_of_fmap. eauto. }
    exists u. split_and!; [auto|done|]. rewrite <- Hp, <- (take_drop n s) in Hu. apply elem_of_app in Hu as [Hu|Hu]; [by left|right].
    split; [|intros v Hv; by apply (StronglySorted_app_1_elem_of _ _ _ _ _ Hs' Hv Hu)].
    rewrite length_take. apply Nat.min_l. destruct (decide (n <= length s)%nat); [done|]. rewrite drop_ge in Hu by lia. by apply not_elem_of_nil in Hu.
Qed.
End Page.

Section History.
Context `{Http} `{Elapses} `{JsonText} `{StellarEndpoints} `{JsonDecode rpcAnswer} `{StellarSDK} `{Env} `{TimeFormat}.
Context `{Json latestLedgerResult} `{Json EventsResult} `{JsonDecode (list HorizonOperation)} `{Json (list Transaction)} `{SortNewest}.
Abbreviation W := (World (Timed RedisStore)).

(** What an answer of Horizon, or none, lists. *)
Definition horizon_lists (answer : res http_response) : list Transaction :=
  match answer with
  | Ok resp => if rs_StatusCode resp =? 200
               then match json_decode (rs_Body resp) with Ok ops => horizonOpToTx <$> ops | Err _ => [] end else []
  | Err _ => []
  end.
(** Horizon's part of a page: nothing without a classic account, else what its answer to one request lists. *)
Definition from_horizon (deadline : Z) (p : HistoryParams) (w : W) (txs : list Transaction) (w' : W) : Prop :=
  if String.eqb (hp_GAddress p) "" then txs = [] /\ w' = w else
  exists req answer, rq_Method req = "GET" /\ rq_URL req = operations_url (hp_GAddress p) (horizon_limit (hp_Limit p)) /\
    do_within deadline horizonTimeout req w = (answer, w') /\ txs = horizon_lists answer.
(** The transfers of the native asset from or to the account, in the last 518400 ledgers *)
Definition transfers_query (p : HistoryParams) (latest : Z) (transfer address : string) : GetEventsParams :=
  {| ge_StartLedger := Z.max 1 (latest - 518400); ge_Type := "contract"; ge_ContractIDs := [hp_NativeSACID p];
     ge_Topics := [[transfer; address; "*"; "*"]; [transfer; "*"; address; "*"]]; ge_Limit := hp_Limit p |}.
(** What an answer of the RPC, or none, lists: the events of calls that succeeded. *)
Definition rpc_lists (answer : res EventsResult) : list Transaction :=
  match answer with
  | Ok result => sacEventToTx <$> List.filter ev_InSuccessfulContractCall (es_Events result)
  | Err _ => []
  end.
(** The RPC's part: nothing without a smart account or the asset, else what its answer to the query lists. *)
Definition from_rpc (deadline : Z) (p : HistoryParams) (w : W) (txs : list Transaction) (w' : W) : Prop :=
  if String.eqb (hp_CAddress p) "" || String.eqb (hp_NativeSACID p) "" then txs = [] /\ w' = w else
  exists ledger w1, GetLatestLedger deadline w = (ledger, w1) /\
    match ledger, scval_marshal_b64 (ScvSymbol "transfer"), AddressToScValXDR (hp_CAddress p) with
    | Ok latest, Ok transfer, Ok address =>
        exists answer, GetEvents deadline (transfers_query p latest transfer address) w1 = (answer, w') /\ txs = rpc_lists answer
    | _, _, _ => txs = [] /\ w' = w1
    end.
Definition served_from_cache (key : string) (txs : list Transaction) (w : W) : Prop :=
  exists e, t_own (w_store w) !! key = Some e /\ json_unmarshal (value_text (re_value e)) = Ok txs.

Lemma horizon_part_spec deadline p (w w' : W) r : horizon_part deadline p w = (r, w') ->
  exists txs, r = Ok txs /\ from_horizon deadline p w txs w'.
Proof.
  unfold horizon_part, from_horizon. destruct (String.eqb _ _); [intros [= <- <-]; eauto|].
  unfold GetAccountOperations, or_none, bind, attempt, wrap. set (req := {| rq_Method := _ |}).
  destruct (do_within deadline horizonTimeout req w) as [answer w1] eqn:Ed.
  assert (Hall : (Ok (horizon_lists answer), w1) = (r, w') -> exists txs, r = Ok txs /\ exists req answer, rq_Method req = "GET" /\
      rq_URL req = operations_url (hp_GAddress p) (horizon_limit (hp_Limit p)) /\ do_within deadline horizonTimeout req w = (answer, w') /\
      txs = horizon_lists answer).
  { intros [= <- <-]. eexists. split; [done|]. exists req, answer. done. }
  intros Hr. apply Hall. rewrite <- Hr. unfold horizon_lists. destruct answer as [resp|e]; [|done]. unfold StatusNotFound, StatusOK.
  destruct (Z.eqb_spec (rs_StatusCode resp) 404) as [->|]; [done|]. destruct (rs_StatusCode resp =? 200); [|done].
  unfold lift. cbn. by destruct (json_decode _).
Qed.
Lemma events_part_spec deadline p (w w' : W) r : events_part deadline p w = (r, w') ->
  exists txs, r = Ok txs /\ from_rpc deadline p w txs w'.
Proof.
  unfold events_part, from_rpc. destruct (_ || _); [intros [= <- <-]; eauto|].
  unfold fetchSACEvents, or_none, SymbolToScValXDR. unfold bind, attempt, wrap, lift.
  destruct (GetLatestLedger deadline w) as [ledger w1]. destruct ledger as [latest|e].
  2: { intros [= <- <-]. eexists. split; [done|]. eexists _, _. by split. }
  destruct (scval_marshal_b64 _) as [symbol|e]; [|intros [= <- <-]; eexists; split; [done|]; eexists _, _; by split].
  destruct (AddressToScValXDR _) as [addr|e]; [|intros [= <- <-]; eexists; split; [done|]; eexists _, _; by split].
  change (events_query p latest symbol addr) with (transfers_query p latest symbol addr).
  destruct (GetEvents deadline _ w1) as [answer w2] eqn:Ee. intros Hr. exists (rpc_lists answer).
  assert (w' = w2 /\ r = Ok (rpc_lists answer)) as [-> ->] by (destruct answer; injection Hr as <- <-; done).
  split; [done|]. eexists _, _. split; [done|]. cbn. rewrite Ee. by eexists.
Qed.
Lemma on_cache_got (f : Z -> RedisStore -> res (string * RedisStore)) text (w w' : W) : on_cache (redis f) w = (Ok text, w') ->
  exists now, f now (t_own (w_store w)) = Ok (text, t_own (w_store w')).
Proof. intros (_ & d & Hf & [= -> _])%on_cache_inv%redis_ok. by eexists. Qed.
Lemma cached_history_spec key w r w' : cached_history key w = (r, w') ->
  exists o, r = Ok o /\ forall txs, o = Some txs -> served_from_cache key txs w.
Proof.
  unfold cached_history, bind, attempt. destruct (on_cache _ w) as [[text|e] w1] eqn:E.
  2:{ intros [= <- <-]. by exists None. }
  apply on_cache_got in E as (now & Hg). unfold GET, live in Hg.
  destruct (t_own (w_store w) !! key) as [e|] eqn:Ee; [|done]. destruct (expired_at _ e); [done|]. injection Hg as <- _.
  destruct (json_unmarshal _) as [txs|] eqn:Ej; intros [= <- <-]; [|by exists None]. exists (Some txs). split; [done|].
  intros ? [= <-]. by exists e.
Qed.
Lemma keep_history_answers key txs (w : W) : exists w', keep_history key txs w = (Ok tt, w').
Proof.
  unfold keep_history. destruct (json_marshal txs); [|by eexists]. unfold bind, attempt. destruct (on_cache _ w). by eexists.
Qed.

(** C36. A history is always answered. It is the one the cache holds for these addresses on this network; where the cache
    gives none, Horizon is asked for the classic account and then the RPC for the smart account's transfers of the native
    asset, a source that fails counting as empty, and the answer is the newest of everything the two answers list, at most
    as many as were asked for (50 of an unusable limit): every transaction listed is there once — under its hash, whichever
    source named it —, newest first, or the page is full of ones at least as new. *)
Theorem history_page deadline p w r w' :
  GetHistory deadline p w = (r, w') ->
  let p' := with_limit (if bool_decide (1 <= hp_Limit p <= 100) then hp_Limit p else 50) p in
  exists txs found w1, r = Ok txs /\ cached_history (history_key p') w = (Ok found, w1) /\
    match found with
    | Some cached => txs = cached /\ served_from_cache (history_key p') txs w
    | None => exists ops w2 events w3, from_horizon deadline p' w1 ops w2 /\ from_rpc deadline p' w2 events w3 /\
        page (Z.to_nat (hp_Limit p')) (ops ++ events) txs
    end.
Proof.
  cbv zeta. unfold GetHistory. replace (page_size (hp_Limit p)) with (if bool_decide (1 <= hp_Limit p <= 100) then hp_Limit p else 50)
    by (unfold page_size; case_bool_decide; destruct (Z.leb_spec (hp_Limit p) 0), (Z.ltb_spec 100 (hp_Limit p)); cbn; lia).
  set (p' := with_limit _ _). unfold bind at 1.
  destruct (cached_history _ w) as [r1 w1] eqn:E. pose proof E as (o & -> & Hc)%cached_history_spec. destruct o as [txs|].
  { intros [= <- <-]. exists txs, (Some txs), w1. split_and!; auto. }
  unfold bind at 1. destruct (horizon_part deadline p' w1) as [r2 w2] eqn:E2. apply horizon_part_spec in E2 as (ops & -> & Ho).
  unfold bind at 1. destruct (events_part deadline p' w2) as [r3 w3] eqn:E3. apply events_part_spec in E3 as (events & -> & He).
  unfold bind. destruct (keep_history_answers (history_key p') (merged p' ops events) w3) as [w4 ->]. intros [= <- <-].
  exists (merged p' ops events), None, w1. split_and!; [done..|]. exists ops, w2, events, w3. split_and!; [done..|]. apply merged_page.
Qed.
End History.

Section HistoryWitness.
Import Demo.
#[local] Existing Instance demo_sdk.
#[local] Instance rpc_clock : Env := demo_env 1000 1 no_fault.
#[local] Instance prompt : Elapses := {| elapsed n := 5%N; gone_at := None |}.
#[local] Instance on_testnet : Deployment := {| Get := "testnet"; Get_valid := or_intror (or_introl eq_refl) |}.
#[local] Instance endpoints : StellarEndpoints := Build_StellarEndpoints "https://rpc" "https://horizon".
(** A request names its method, and its answer repeats it. *)
#[local] Instance method_text : JsonText := {| json_text j :=
  match j with JObj [_; _; (_, JStr m); _] => Ok m | _ => Err (Errorf "json") end |}.
#[local] Instance echo : Http := {| http_do req n := Ok {| rs_StatusCode := 200;
  rs_Body := match rq_Body req with Some m => Ok m | None => Ok "operations" end |} |}.
#[local] Instance echoed : JsonDecode rpcAnswer := {| json_decode body :=
  let? m := body in Ok {| wr_Result := m; wr_Error := None |} |}.
#[local] Instance ledger_json : Json latestLedgerResult := {| json_marshal p := Err (Errorf "unused");
  json_unmarshal s := if String.eqb s "getLatestLedger" then Ok {| ll_Sequence := 7 |} else Err (Errorf "json") |}.
Definition demo_event (id hash closed : string) (ok : bool) : SorobanEvent :=
  {| ev_LedgerClosedAt := closed; ev_ID := id; ev_TxHash := hash; ev_InSuccessfulContractCall := ok; ev_Topic := []; ev_Value := "" |}.
#[local] Instance events_json : Json EventsResult := {| json_marshal p := Err (Errorf "unused");
  json_unmarshal s := if String.eqb s "getEvents"
    then Ok {| es_Events := [demo_event "1" "h1" "1" true; demo_event "2" "h2" "3" true; demo_event "3" "h3" "2" false]; es_LatestLedger := 7 |}
    else Err (Errorf "json") |}.
Definition demo_op : HorizonOperation :=
  {| ho_ID := "9"; ho_TransactionHash := "h1"; ho_TransactionSuccessful := true; ho_Type := "payment"; ho_CreatedAt := "1";
     ho_From := "GA"; ho_To := "GB"; ho_Amount := "5"; ho_AssetType := "native"; ho_AssetCode := ""; ho_AssetIssuer := "";
     ho_Account := ""; ho_Funder := ""; ho_StartingBalance := "" |}.
#[local] Instance operations_json : JsonDecode (list HorizonOperation) := {| json_decode body := Ok [demo_op] |}.
#[local] Instance history_json : Json (list Transaction) := {| json_marshal l := Err (Errorf "unused"); json_unmarshal s := Err (Errorf "unused") |}.
#[local] Instance day_time : TimeFormat := {| rfc3339_format t := pretty t;
  rfc3339_parse s := match dec_nat s with Some t => Ok t | None => Err (Errorf "time") end |}.
Definition newer (a b : Transaction) : Prop := tx_CreatedAt b <= tx_CreatedAt a.
#[local] Instance newer_dec : RelDecision newer := fun a b => Z_le_dec (tx_CreatedAt b) (tx_CreatedAt a).
#[local] Instance newer_trans : Transitive newer.
Proof. intros a b c ? ?. unfold newer in *. lia. Qed.
#[local] Instance newer_total : Total newer.
Proof. intros a b. unfold newer. lia. Qed.
#[local] Instance merge_newest : SortNewest := {| sort_newest := merge_sort newer;
  sort_newest_perm := merge_sort_Permutation newer; sort_newest_sorted := StronglySorted_merge_sort newer |}.

Definition both : HistoryParams :=
  {| hp_GAddress := "GA"; hp_CAddress := "CS"; hp_Network := "testnet"; hp_NativeSACID := "CN"; hp_Limit := 2 |}.
Example history_found : (fmap (M := list) tx_Hash) <$> match fst (GetHistory 60000 both no_cache) with Ok l => Some l | Err _ => None end
  = Some ["h2"; "h1"].
Proof. vm_compute. reflexivity. Qed.
(** Horizon names h1, the RPC h1 and h2: the page has each of them once. *)
Lemma history_page_witness : exists txs ops events,
  fst (GetHistory 60000 both no_cache) = Ok txs /\ tx_Hash <$> txs = ["h2"; "h1"] /\
  tx_Hash <$> ops = ["h1"] /\ tx_Hash <$> events = ["h1"; "h2"] /\ page 2 (ops ++ events) txs.
Proof.
  pose proof history_found as Hf.
  destruct (GetHistory 60000 both no_cache) as [r w'] eqn:E. destruct (history_page 60000 both no_cache r w' E) as (txs & found & w1 & -> & Hc & Hp).
  vm_compute in Hc. injection Hc as <- <-. destruct Hp as (ops & w2 & events & w3 & Ho & He & Hpage).
  destruct Ho as (req & answer & _ & _ & Hd & ->). vm_compute in Hd. injection Hd as <- <-.
  destruct He as (ledger & w4 & Hl & He). vm_compute in Hl. injection Hl as <- <-.
  destruct He as (events_answer & He & ->). vm_compute in He. injection He as <- <-.
  exists txs. eexists _, _. split; [reflexivity|]. injection Hf as Hf. split; [exact Hf|].
  split; [|split; [|exact Hpage]]; vm_compute; reflexivity.
Defined.

#[local] Instance simulate_json : Json SimulateResult := {| json_marshal p := Err (Errorf "unused"); json_unmarshal s := Err (Errorf "unused") |}.
#[local] Instance send_json : Json SendTxResult := {| json_marshal p := Err (Errorf "unused");
  json_unmarshal s := if String.eqb s "sendTransaction" then Ok {| st_Status := "PENDING"; st_Hash := "h"; st_ErrorResultXdr := "" |} else Err (Errorf "json") |}.
#[local] Instance poll_json : Json RpcTransaction := {| json_marshal p := Err (Errorf "unused");
  json_unmarshal s := Ok {| rt_Status := s; rt_ResultXdr := ""; rt_ResultMetaXdr := ""; rt_ErrorResultXdr := ""; rt_EnvelopeXdr := "" |} |}.
(** The first poll fails, the second finds nothing yet. *)
Definition flaky : Http := {| http_do req n := if (n =? 2)%nat then Err (Errorf "connection reset") else
  Ok {| rs_StatusCode := 200; rs_Body := match rq_Body req with
    | Some "getTransaction" => Ok (if (n =? 4)%nat then "NOT_FOUND" else "SUCCESS") | Some m => Ok m | None => Ok "" end |} |}.
(** An amount of 2^64 + 5 stroops is printed as its two halves. *)
Example amount_halves : amount_text 1 5 = "10000000000000000005".
Proof. vm_compute. reflexivity. Qed.
Definition phone : World (Timed unit) := MkWorld (MkTimed 0 [] tt) 0.
Definition relay_run : M (World (Timed unit)) relayResponse := Relay_handler (H := flaky) 60000 "AAAA" "testnet".
Example relayed : fst (relay_run phone) = Ok {| ry_Hash := "h"; ry_Status := "SUCCESS"; ry_Error := "" |}.
Proof. vm_compute. reflexivity. Qed.
Lemma relay_truthful_witness : exists w' w1 polls reqs,
  relay_run phone = (Ok {| ry_Hash := "h"; ry_Status := "SUCCESS"; ry_Error := "" |}, w') /\
  polled (H := flaky) 60000 "h" w1 polls w' /\ Forall (reported_poll (H := flaky) "h") polls /\
  relay_outcome {| st_Status := "PENDING"; st_Hash := "h"; st_ErrorResultXdr := "" |} polls {| ry_Hash := "h"; ry_Status := "SUCCESS"; ry_Error := "" |} /\
  sent_more w1 w' reqs /\ (length reqs <= length polls <= 20)%nat.
Proof.
  pose proof relayed as Ha. unfold relay_run in *. destruct (Relay_handler (H := flaky) 60000 "AAAA" "testnet" phone) as [r w'] eqn:E. cbn [fst] in Ha.
  pose proof (relay_truthful (H := flaky) 60000 "AAAA" "testnet" phone w' r E) as Ht.
  change (relay_binds "AAAA" "testnet") with true in Ht. destruct Ht as (answer & w1 & first & Hs & _ & _ & _ & Ht).
  vm_compute in Hs. injection Hs as <- <-. destruct Ht as (_ & polls & a & reqs & Hr & Hp & Ho & Hf & Hm & Hn & _).
  assert (a = {| ry_Hash := "h"; ry_Status := "SUCCESS"; ry_Error := "" |}) as -> by congruence.
  eexists w', _, polls, reqs. split; [by rewrite Ha|]. split; [exact Hp|]. split; [exact Hf|]. split; [exact Ho|]. split; [exact Hm|exact Hn].
Defined.
End HistoryWitness.
End ReadTheorems.
