(* ===== verification/WebTheorems.v ===== *)
(** * Whose accounts and notifications the web app answers (theorems about WebRoutes.v)

    The list of accounts is exactly that of the credentials the session has
    proved; the feed of a user is read and changed for that user alone. *)

From S2P Require Export WebRoutes RouteTheorems.
From S2P Require Import Instances FeedTheorems.

#[local] Unset Default Proof Using.

Module WebTheorems.
Import Deploynet Submit Assets Balances ContextRules Sessions AccountSigners SignerTheorems Routes SmartAccounts CeremonyRoutes RouteTheorems.
Import MobileStore MobileData MobileRoutes WebRoutes FeedTheorems.

Section Accounts.
Context `{StellarSDK} `{SubmitNetwork} `{UuidLib} `{Env} `{ServiceConfig}.
Abbreviation W := (World Store).

(** The account of a credential: its own, or else that of the newest row it is a signer by. *)
Definition account_found (d : Store) (cred : string) : option WebappSmartAccount :=
  match GetSmartAccountByCredentialID cred d with
  | Ok row => Some row
  | Err _ => match GetAccountSignerByCredentialID cred d with
             | Ok s => match GetSmartAccountByAddress (as_SmartAccountAddress s) d with Ok row => Some row | Err _ => None end
             | Err _ => None
             end
  end.
(** The account is there, and is the credential's own or the one of its newest signer row. *)
Definition signs_for (d : Store) (cred : string) (row : WebappSmartAccount) : Prop :=
  (exists i, smart_accounts d !! i = Some row) /\
  (sa_CredentialID row = cred \/
   exists j s, account_signers d !! j = Some s /\ as_CredentialID s = Some cred /\ as_SmartAccountAddress s = sa_SmartAccountAddress row /\
     forall k s', account_signers d !! k = Some s' -> as_CredentialID s' = Some cred -> as_CreatedAt s' <= as_CreatedAt s).
Lemma newest_signer cred d s : GetAccountSignerByCredentialID cred d = Ok s ->
  (exists j, account_signers d !! j = Some s) /\ as_CredentialID s = Some cred /\
  forall k s', account_signers d !! k = Some s' -> as_CredentialID s' = Some cred -> as_CreatedAt s' <= as_CreatedAt s.
Proof.
  unfold GetAccountSignerByCredentialID. destruct (order_by_desc _ _) as [|x l] eqn:E; [done|]. intros [= ->].
  apply order_by_desc_head in E as [[Hx%bool_decide_eq_true Hk]%elem_of_select Hm].
  split_and!; [done..|]. intros k s' Ek Ec. apply Hm, elem_of_select. split; [by apply bool_decide_eq_true|eauto].
Qed.
Lemma account_found_signs d cred row : account_found d cred = Some row -> signs_for d cred row.
Proof.
  unfold account_found, signs_for. destruct (GetSmartAccountByCredentialID cred d) as [own|e] eqn:Eo.
  - intros [= <-]. apply select_one_ok in Eo as [Hc%String.eqb_eq Hk]. auto.
  - destruct (GetAccountSignerByCredentialID cred d) as [s|] eqn:Es; [|done]. destruct (GetSmartAccountByAddress _ d) as [r|] eqn:Er; [|done].
    intros [= <-]. apply select_one_ok in Er as [Ha%String.eqb_eq Hk]. apply newest_signer in Es as ([j Hj] & Hc & Hn).
    split; [done|]. right. by exists j, s.
Qed.
Lemma optional_ok {A} ctx (f : Store -> res A) o (w w' : W) : AccountSigners.optional ctx (query f) w = (Ok o, w') ->
  w_store w' = w_store w /\ o = match f (w_store w) with Ok a => Some a | Err _ => None end.
Proof.
  unfold AccountSigners.optional. intros (r & w1 & Hq & Hr)%bind_ok. apply (proj1 (attempt_ok _ _ _ _)) in Hq. pose proof (query_store _ _ _ _ Hq) as Hs.
  destruct r as [a|e].
  - apply ret_ok in Hr as [<- <-]. apply query_ok in Hq as (_ & Hf & _). by rewrite Hf.
  - destruct (errors_is e ErrNoRows) eqn:Ee; [|done]. apply ret_ok in Hr as [<- <-]. split; [done|].
    apply query_err in Hq as [->|Hf]; [done|]. by rewrite Hf.
Qed.
Lemma seen_elem x (seen : list string) : existsb (String.eqb x) seen = true <-> x ∈ seen.
Proof.
  rewrite existsb_exists. split; [intros (y & Hy%list_elem_of_In & ->%String.eqb_eq); done|].
  intros Hx. exists x. split; [by apply list_elem_of_In|apply String.eqb_refl].
Qed.
Lemma account_for_credential_ok seen cred o (w w' : W) : account_for_credential seen cred w = (Ok o, w') ->
  w_store w' = w_store w /\ (o = account_found (w_store w) cred \/
    o = None /\ forall row, account_found (w_store w) cred = Some row -> sa_SmartAccountAddress row ∈ seen).
Proof.
  unfold account_for_credential, account_found. intros (own & w1 & [Es ->]%optional_ok & Hr)%bind_ok.
  destruct (GetSmartAccountByCredentialID cred (w_store w)) as [row|e]; [apply ret_ok in Hr as [<- <-]; auto|].
  apply bind_ok in Hr as (s & w2 & [Es2 ->]%optional_ok & Hr). rewrite Es in *.
  destruct (GetAccountSignerByCredentialID cred (w_store w)) as [s|e']; [|apply ret_ok in Hr as [<- <-]; auto].
  destruct (existsb _ seen) eqn:Ex.
  - apply ret_ok in Hr as [<- <-]. split; [congruence|]. right. split; [done|]. apply seen_elem in Ex. intros row.
    unfold GetSmartAccountByAddress. destruct (select_one _ _) as [row'|] eqn:Eg; [|done]. intros [= <-].
    by apply select_one_ok in Eg as [->%String.eqb_eq _].
  - apply optional_ok in Hr as [Es3 ->]. rewrite Es2 in *. split; [congruence|]. by left.
Qed.

Definition addresses (l : list Account) : list string := ac_SmartAccountAddress <$> l.
Lemma list_accounts_ok seen ids l (w w' : W) : list_accounts seen ids w = (Ok l, w') ->
  w_store w' = w_store w /\ NoDup (addresses l) /\
  (forall a, a ∈ l -> ac_SmartAccountAddress a ∉ seen /\ exists cred row, cred ∈ ids /\ account_found (w_store w) cred = Some row /\ a = account_of row) /\
  forall cred row, cred ∈ ids -> account_found (w_store w) cred = Some row -> sa_SmartAccountAddress row ∈ addresses l \/ sa_SmartAccountAddress row ∈ seen.
Proof.
  revert seen l w w'. induction ids as [|cred ids IH]; intros seen l w w'; cbn [list_accounts].
  { intros [<- <-]%ret_ok. split_and!; [done|constructor|by intros a ?%not_elem_of_nil|by intros ?? ?%not_elem_of_nil]. }
  intros (o & w1 & [Es Ho]%account_for_credential_ok & Hr)%bind_ok.
  assert (Hskip : (forall row, account_found (w_store w) cred = Some row -> sa_SmartAccountAddress row ∈ seen) ->
      list_accounts seen ids w1 = (Ok l, w') -> w_store w' = w_store w /\ NoDup (addresses l) /\
      (forall a, a ∈ l -> ac_SmartAccountAddress a ∉ seen /\
        exists c row, c ∈ cred :: ids /\ account_found (w_store w) c = Some row /\ a = account_of row) /\
      forall c row, c ∈ cred :: ids -> account_found (w_store w) c = Some row -> sa_SmartAccountAddress row ∈ addresses l \/ sa_SmartAccountAddress row ∈ seen).
  { intros Hseen (Es' & Hn & Ha & Hc)%IH. rewrite Es in *. split_and!; [done|done| |].
    - intros a Hin. destruct (Ha _ Hin) as (? & c & row & ? & ? & ?). split; [done|]. exists c, row. split; [by right|done].
    - intros c row [->|Hin]%elem_of_cons Hf; [right; auto|eauto]. }
  destruct o as [row|].
  2:{ apply Hskip; [|done]. destruct Ho as [<-|[_ ?]]; [done|done]. }
  destruct Ho as [Ho|[[=] _]]. destruct (existsb _ seen) eqn:Ex.
  { apply Hskip; [|done]. intros row' Hf. rewrite Hf in Ho. injection Ho as ->. by apply seen_elem. }
  apply bind_ok in Hr as (out & w2 & (Es' & Hn & Ha & Hc)%IH & [<- <-]%ret_ok). rewrite Es in *.
  assert (Hx : sa_SmartAccountAddress row ∉ seen) by (intros Hx%seen_elem; congruence). split_and!; [done| | |].
  - cbn. apply NoDup_cons. split; [|done]. intros (a & Ea & Hin)%list_elem_of_fmap. apply Ha in Hin as [Hin _]. rewrite <- Ea in Hin. set_solver.
  - intros a [->|Hin]%elem_of_cons; [split; [done|]; exists cred, row; split; [by left|done]|].
    destruct (Ha _ Hin) as (Hs & c & r & ? & ? & ?). split; [set_solver|]. exists c, r. split; [by right|done].
  - intros c r [->|Hin]%elem_of_cons Hf; [rewrite Hf in Ho; injection Ho as <-; left; by left|].
    destruct (Hc _ _ Hin Hf) as [?|[->|?]%elem_of_cons]; [left; by right|left; by left|by right].
Qed.

(** C31. The accounts a session is shown are exactly those of the credentials it has proved — of the one it names, when
    it has proved that one, and of none otherwise —, each account once; being shown them changes nothing. A credential
    stands for one account at most: the one created with it, or else the one of its newest signer row. *)
Theorem listed_accounts sessionID credentialID sid l (w w' : W) :
  WebRoutes.List_handler sessionID credentialID w = (Ok l, w') ->
  sessionID <> "" -> uuid_parse sessionID = Some sid ->
  let shown cred := is_Some (proved (w_store w) !! (sid, cred)) /\ (credentialID = "" \/ cred = credentialID) in
  w_store w' = w_store w /\ NoDup (addresses l) /\
  (forall a, a ∈ l -> exists cred row, shown cred /\ account_found (w_store w) cred = Some row /\ a = account_of row /\
     signs_for (w_store w) cred row) /\
  forall cred row, shown cred -> account_found (w_store w) cred = Some row -> sa_SmartAccountAddress row ∈ addresses l.
Proof.
  intros Hr Hs0 Hsid. cbv zeta. unfold WebRoutes.List_handler in Hr. apply bind_ok in Hr as (ids & w1 & Hi & Hr).
  apply or_fail_ok, list_accounts_ok in Hr as (Es & Hn & Ha & Hc).
  enough (w_store w1 = w_store w /\ forall cred, cred ∈ ids <->
      is_Some (proved (w_store w) !! (sid, cred)) /\ (credentialID = "" \/ cred = credentialID)) as [E1 Hids].
  { rewrite E1 in *. split_and!; [done|done| |].
    - intros a (_ & cred & row & Hin%Hids & ? & ?)%Ha. exists cred, row. auto using account_found_signs.
    - intros cred row Hin%Hids Hf. by destruct (Hc _ _ Hin Hf) as [?|?%not_elem_of_nil]. }
  clear Ha Hc Es Hn. unfold listed_credentials in Hi.
  destruct (String.eqb_spec credentialID "") as [->|Hne]; cbn [negb] in Hi.
  - apply or_fail_ok in Hi. unfold ProvedCredentials in Hi. run_inv. unfold parse_uuid in *. rewrite Hsid in *.
    match goal with E : Ok sid = Ok _ |- _ => injection E as <- end. split; [done|]. intros cred.
    match goal with E : ListSessionProvedCredentials _ _ = Ok _ |- _ => injection E as <- end.
    rewrite list_elem_of_fmap. split.
    + intros ([[s c] t] & -> & [Hk%list_elem_of_In%elem_of_map_to_list E%bool_decide_eq_true]%list_elem_of_In%filter_In). cbn in *. subst.
      split; [by eexists|by left].
    + intros [[t Hk] _]. exists ((sid, cred), t). split; [done|]. apply list_elem_of_In, filter_In.
      split; [by apply list_elem_of_In, elem_of_map_to_list|by apply bool_decide_eq_true].
  - apply bind_ok in Hi as (b & w2 & Hb%or_fail_ok & Hi). apply ret_ok in Hi as [<- <-]. unfold HasProvedCredential in Hb.
    apply String.eqb_neq in Hs0, Hne. rewrite Hs0, Hne, Hsid in Hb. cbn [orb] in Hb. run_inv. split; [done|]. intros cred.
    match goal with E : SessionHasProvedCredential _ _ _ = Ok b |- _ => injection E as <- end. apply String.eqb_neq in Hne.
    destruct (proved (w_store w) !! (sid, credentialID)) as [t|] eqn:Ep.
    + rewrite list_elem_of_singleton. split; [intros ->; split; [rewrite Ep; by eexists|by right]|intros [_ [E|E]]; congruence].
    + split; [by intros ?%not_elem_of_nil|]. intros [[t Hk] [E| ->]]; congruence.
Qed.
End Accounts.

(** ** The feed *)
Section Feed.
Context `{UuidLib} `{Env} `{NanoTime} `{JsonDoc}.
Abbreviation W := (World WebFeed).

(** A request about a user's notifications, and what it shows. *)
Inductive feed_request :=
  | FeedNotify (rec : NotificationRecord)
  | FeedList (cursor : string) (limit : Z)
  | FeedUnread
  | FeedRead (notificationID : string)
  | FeedReadAll.
Definition feed_serve (userID : string) (req : feed_request) : M W (list Notification) :=
  match req with
  | FeedNotify rec => let! _ := web_Notify userID rec in ret []
  | FeedList cursor limit => let! r := web_List userID cursor limit in ret (fst r)
  | FeedUnread => let! _ := web_UnreadCount userID in ret []
  | FeedRead id => let! _ := web_MarkRead userID id in ret []
  | FeedReadAll => let! _ := web_MarkAllRead userID in ret []
  end.
(** An event with a key is there once. *)
Definition events_once (d : WebFeed) : Prop := forall i j r s k, wf_rows d !! i = Some r -> wf_rows d !! j = Some s ->
  wn_UserID r = wn_UserID s -> wn_Type r = wn_Type s -> wn_DedupeKey r = Some k -> wn_DedupeKey s = Some k -> i = j.
Definition same_text (r s : WebNotificationRow) : Prop :=
  wn_ID s = wn_ID r /\ wn_UserID s = wn_UserID r /\ wn_Type s = wn_Type r /\ wn_Title s = wn_Title r /\ wn_Body s = wn_Body r /\
  wn_Metadata s = wn_Metadata r /\ wn_DedupeKey s = wn_DedupeKey r /\ wn_CreatedAt s = wn_CreatedAt r.
(** From one feed to the next, for a request of [uid]: other users' rows are what they were; the user's own keep what
    they say, and stay read once read; and every row that is new is the user's. *)
Definition feed_kept (uid : uuid) (d d' : WebFeed) : Prop :=
  (events_once d -> events_once d') /\
  (forall i r, wf_rows d !! i = Some r -> exists s, wf_rows d' !! i = Some s /\ same_text r s /\
     (wn_UserID r <> uid -> s = r) /\ (web_unread r = false -> s = r)) /\
  forall i s, wf_rows d' !! i = Some s -> wn_UserID s <> uid -> wf_rows d !! i = Some s.
#[local] Instance feed_kept_refl uid : Reflexive (feed_kept uid).
Proof. intros d. split_and!; [done| |done]. intros i r Hr. exists r. by split_and!. Qed.
#[local] Instance feed_kept_trans uid : Transitive (feed_kept uid).
Proof.
  intros a b c (Ha1 & Ha2 & Ha3) (Hb1 & Hb2 & Hb3). split_and!; [auto| |eauto].
  intros i r (s & Hs & Ht & Ho & Hu)%Ha2. destruct (Hb2 _ _ Hs) as (t & Hk & Ht' & Ho' & Hu'). exists t. split_and!; [done| | |].
  - unfold same_text in *. destruct_and!. split_and!; congruence.
  - intros Hne. rewrite Ho' by (destruct Ht as (_ & -> & _); done). auto.
  - intros Hr. rewrite Hu'; [auto|]. by rewrite (Hu Hr).
Qed.
Lemma kept_insert uid row : wn_UserID row = uid -> keeps (on_store (feed_kept uid)) (exec (InsertWebappNotification row)).
Proof.
  intros Hu. apply keeps_exec; [apply _..|]. intros d id d'. unfold InsertWebappNotification.
  destruct (too_long _ _); [done|]. destruct (exists_row _ _) eqn:Ex; [done|]. destruct (negb _); [done|].
  destruct (present (wf_rows d) (wn_ID row)) eqn:Ep; [done|]. intros [= <- <-].
  assert (Hfree : wf_rows d !! wn_ID row = None) by (unfold present in Ep; by destruct (wf_rows d !! wn_ID row)).
  assert (Hnew : forall i s k, wf_rows d !! i = Some s -> wn_UserID s = wn_UserID row -> wn_Type s = wn_Type row ->
      wn_DedupeKey row = Some k -> wn_DedupeKey s = Some k -> False).
  { intros i s k Hs Eu Et Ek Es. apply not_true_iff_false in Ex. apply Ex. unfold exists_row. apply existsb_exists. exists s.
    split; [apply list_elem_of_In, elem_of_rows; by exists i|]. unfold same_web_event. rewrite Ek, Es, Eu, Et, String.eqb_refl. by rewrite !bool_decide_eq_true_2. }
  split_and!; cbn.
  - intros Ho i j r s k. cbn. rewrite !lookup_insert_Some. intros [[<- <-]|[_ Hr]] [[<- <-]|[_ Hs]] Eu Et Er Es; [done| | |by eapply Ho].
    + by destruct (Hnew _ _ _ Hs (eq_sym Eu) (eq_sym Et) Er Es).
    + by destruct (Hnew _ _ _ Hr Eu Et Es Er).
  - intros i r Hr. exists r. split; [|by split_and!]. rewrite lookup_insert_ne; [done|]. congruence.
  - intros i s [[<- <-]|[_ Hs]]%lookup_insert_Some Hne; [done|exact Hs].
Qed.
Lemma kept_read uid P now d d' : wf_rows d' = update_where (fun r => P r && of_user uid r && web_unread r) (web_read_at now) (wf_rows d) ->
  feed_kept uid d d'.
Proof.
  intros E. assert (Hrow : forall i r, wf_rows d !! i = Some r -> exists s, wf_rows d' !! i = Some s /\ same_text r s /\
     (wn_UserID r <> uid -> s = r) /\ (web_unread r = false -> s = r)).
  { intros i r Hr. rewrite E. unfold update_where. rewrite lookup_fmap, Hr. cbn. eexists. split; [done|].
    destruct (P r && of_user uid r && web_unread r) eqn:Ew; [|by split_and!].
    apply andb_prop in Ew as [[_ Eu%bool_decide_eq_true]%andb_prop Ew]. split_and!; [by split_and!|done|congruence]. }
  assert (Hback : forall i s, wf_rows d' !! i = Some s -> exists r, wf_rows d !! i = Some r /\ same_text r s /\ (wn_UserID r <> uid -> s = r)).
  { intros i s Hs. pose proof Hs as Hs'. rewrite E in Hs'. unfold update_where in Hs'. apply lookup_fmap_Some in Hs' as (r & _ & Hr).
    destruct (Hrow _ _ Hr) as (s' & Hs' & Ht & Ho & _). simplify_eq. eauto. }
  split_and!; [|exact Hrow|].
  - intros Ho i j r s k Hr Hs Eu Et Er Es. apply Hback in Hr as (r0 & Hr & Tr & _). apply Hback in Hs as (s0 & Hs & Ts & _).
    unfold same_text in *. destruct_and!. eapply (Ho i j r0 s0 k); congruence.
  - intros i s Hs Hne. apply Hback in Hs as (r & Hr & Ht & Ho). rewrite Ho; [done|]. destruct Ht as (_ & <- & _). done.
Qed.
Lemma kept_serve userID uid req : uuid_parse userID = Some uid -> keeps (on_store (feed_kept uid)) (feed_serve userID req).
Proof.
  intros Hu. assert (Hins : forall row, wn_UserID row = uid -> keeps (on_store (feed_kept uid)) (exec (InsertWebappNotification row)))
    by apply kept_insert.
  assert (Hall : forall now, keeps (on_store (feed_kept uid)) (exec (MarkAllWebappNotificationsRead uid now))).
  { intros now. apply keeps_exec; [apply _..|]. intros d u d' [= <- <-]. by apply (kept_read uid (fun _ => true) now). }
  assert (Hone : forall id now, keeps (on_store (feed_kept uid)) (exec (MarkWebappNotificationRead id uid now))).
  { intros id now. apply keeps_exec; [apply _..|]. intros d u d' [= <- <-]. by apply (kept_read uid (fun r => bool_decide (wn_ID r = id)) now). }
  assert (Hf : forall B (k : uuid -> M W B), keeps (on_store (feed_kept uid)) (k uid) -> keeps (on_store (feed_kept uid)) (bind (feed_user userID) k)).
  { intros B k Hk w. unfold feed_user, bind. rewrite Hu. apply Hk. }
  destruct req; cbn [feed_serve]; (eapply keeps_bind; [apply _..| |intros; apply keeps_ret; apply _]);
    unfold web_Notify, web_List, web_UnreadCount, web_MarkRead, web_MarkAllRead; apply Hf; keeps; by apply Hins.
Qed.

(** C37. Notifications of the web app are private and last. Whatever a user asks for, other users' rows are untouched
    and none of theirs is shown; the user's own rows keep their text, stay read once read, and a listing shows them
    newest first, at most fifty; an event that carries a key is never there twice. *)
Theorem web_feed_private userID uid req r (w w' : W) :
  feed_serve userID req w = (r, w') -> uuid_parse userID = Some uid ->
  feed_kept uid (w_store w) (w_store w') /\
  forall l, r = Ok l -> exists rows, l = web_notification <$> rows /\ (length rows <= 50)%nat /\
    StronglySorted (key_ge wn_CreatedAt) rows /\
    Forall (fun row => wn_UserID row = uid /\ exists i, wf_rows (w_store w) !! i = Some row) rows.
Proof.
  intros Hr Hu. split; [by apply (keeps_run _ _ _ _ _ (kept_serve userID uid req Hu)) in Hr|]. intros l ->.
  destruct req; cbn [feed_serve] in Hr; try (apply bind_ok in Hr as (? & ? & _ & [<- _]%ret_ok); exists []; split_and!; [done|cbn; lia|constructor..]).
  unfold web_List, feed_user in Hr. rewrite Hu in Hr. apply bind_ok in Hr as ([out next] & w1 & Hr & [<- <-]%ret_ok).
  apply bind_ok in Hr as (? & w2 & [<- <-]%ret_ok & Hr). cbv zeta in Hr. apply bind_ok in Hr as (c & w2 & Hc & Hr).
  assert (w2 = w) as -> by (destruct (String.eqb cursor ""); [by apply ret_ok in Hc as [_ <-]|];
    destruct (rfc3339nano_parse cursor); [by apply ret_ok in Hc as [_ <-]|done]).
  set (n := Z.to_nat _) in Hr. run_inv. exists (take n (order_by_desc wn_CreatedAt
    (select (fun r => of_user uid r && web_before c r) (wf_rows (w_store w))))).
  match goal with E : ListWebappNotificationsForUser _ _ _ _ = Ok _ |- _ => injection E as <- end.
  set (feed := order_by_desc _ _) in *. assert (Hs : StronglySorted (key_ge wn_CreatedAt) feed) by apply (StronglySorted_merge_sort (key_ge wn_CreatedAt)).
  split_and!; [match goal with E : (_, _) = (out, next) |- _ => by injection E as <- _ end| | |].
  - rewrite length_take. enough (n <= 50)%nat by lia. subst n. unfold defaultNotificationPageSize.
    destruct (Z.leb_spec limit 0); cbn [orb]; [lia|]. destruct (Z.ltb_spec 50 limit); lia.
  - rewrite <- (take_drop n feed) in Hs. by apply StronglySorted_app in Hs as (_ & ? & _).
  - apply Forall_forall. intros row Hin%(subseteq_take n feed). subst feed. unfold order_by_desc in Hin.
    rewrite merge_sort_Permutation, elem_of_select in Hin. destruct Hin as [[Ho%bool_decide_eq_true _]%andb_prop Hk]. eauto.
Qed.
End Feed.

Section Witnesses.
Import Demo.
#[local] Instance web_clock : Env := demo_env 1000 100%N no_fault.
#[local] Instance no_submission : SubmitNetwork := {|
  rpc_send tx n := Err (Errorf "rpc"); rpc_get_transaction h n := Err (Errorf "rpc"); rpc_ledger_entries k n := Err (Errorf "rpc"); ctx_err n := None |}.
Definition own_account : WebappSmartAccount := {|
  sa_ID := 5%N; sa_UserID := 1%N; sa_CredentialID := "pk1"; sa_KeyDataHex := "04"; sa_SaltHex := "aa";
  sa_SmartAccountAddress := "CONE"; sa_Deployed := 1; sa_CreatedAt := 10 |}.
Definition shared_account : WebappSmartAccount := {|
  sa_ID := 6%N; sa_UserID := 2%N; sa_CredentialID := "pk9"; sa_KeyDataHex := "04"; sa_SaltHex := "bb";
  sa_SmartAccountAddress := "CTWO"; sa_Deployed := 0; sa_CreatedAt := 20 |}.
(** Session 7 has proved [pk1]; nobody has proved [pk9]. *)
Definition proved_one : World Store :=
  MkWorld (MkStore ∅ ∅ {[(7%N, "pk1") := 30]} ∅ ∅ ∅ ∅ ∅ ∅ ∅ ∅ {[5%N := own_account; 6%N := shared_account]} ∅ ∅ []) 0.
Definition shown_addresses (r : res (list Account)) : list string := match r with Ok l => addresses l | Err _ => [] end.
Example own_account_shown : shown_addresses (fst (WebRoutes.List_handler "7" "" proved_one)) = ["CONE"].
Proof. vm_compute. reflexivity. Qed.
(** A backup credential of two accounts, newer on the second one: of its two accounts the session is shown that one. *)
Definition backup_of (id : N) (address : string) (at_ : Z) : WebappAccountSigner :=
  {| as_ID := id; as_SmartAccountAddress := address; as_SignerType := "passkey"; as_CredentialID := Some "pk2"; as_Label := None;
     as_SignerID := None; as_ContextRuleID := None; as_CreatedAt := at_ |}.
Definition proved_backup : World Store := put_store (set_account_signers {[1%N := backup_of 1 "CONE" 40; 2%N := backup_of 2 "CTWO" 50]}
  (set_proved {[(7%N, "pk2") := 30]} (w_store proved_one))) proved_one.
Example newest_account_shown : shown_addresses (fst (WebRoutes.List_handler "7" "" proved_backup)) = ["CTWO"].
Proof. vm_compute. reflexivity. Qed.
Lemma listed_accounts_witness : exists l w', WebRoutes.List_handler "7" "" proved_one = (Ok l, w') /\
  w_store w' = w_store proved_one /\ NoDup (addresses l) /\ addresses l = ["CONE"].
Proof.
  pose proof own_account_shown as Hs. destruct (WebRoutes.List_handler "7" "" proved_one) as [[l|e] w'] eqn:E; [|discriminate Hs].
  exists l, w'. split; [reflexivity|].
  destruct (listed_accounts "7" "" 7%N l proved_one w' E) as (Es & Hn & _ & _); [discriminate|reflexivity|]. auto.
Defined.

#[local] Instance unary_time : NanoTime := {| rfc3339nano_format := unary; rfc3339nano_parse := unary_value |}.
#[local] Instance no_documents : JsonDoc := {| json_doc s := Err (Errorf "json"); json_doc_text j := Err (Errorf "json") |}.
Definition note (id user : N) (key : string) (read : option Z) (at_ : Z) : WebNotificationRow :=
  {| wn_ID := id; wn_UserID := user; wn_Type := "transfer"; wn_Title := "t"; wn_Body := key; wn_Metadata := None;
     wn_DedupeKey := Some key; wn_ReadAt := read; wn_CreatedAt := at_ |}.
Definition two_users : World WebFeed :=
  MkWorld (MkFeed {[1%N := 0; 2%N := 0]} {[11%N := note 11 1 "a" None 5; 12%N := note 12 2 "b" None 6; 13%N := note 13 1 "c" None 7]}) 0.
Lemma web_feed_private_witness : exists w', feed_serve "1" FeedReadAll two_users = (Ok [], w') /\
  wf_rows (w_store w') !! 12%N = Some (note 12 2 "b" None 6).
Proof.
  destruct (feed_serve "1" FeedReadAll two_users) as [r w'] eqn:E.
  destruct (web_feed_private "1" 1%N FeedReadAll r two_users w' E) as [(_ & Hk & _) _]; [reflexivity|].
  exists w'. split.
  - f_equal. change r with (fst (r, w')). rewrite <- E. vm_compute. reflexivity.
  - destruct (Hk 12%N (note 12 2 "b" None 6) eq_refl) as (s & Hs & _ & Ho & _). etransitivity; [exact Hs|]. f_equal. apply Ho. discriminate.
Defined.
End Witnesses.
End WebTheorems.
