(* ===== verification/Router.v ===== *)
(** * The router (cmd/server/router.go, main.go, internal/middleware)

    Which routes exist under which configuration, what runs before each handler,
    and what those middlewares do to a request: they answer it, or let it go on
    with what they found out about the caller. Metrics, logging, panic recovery
    and the deadline let every request go on and are named in the chain only. *)

From S2P Require Export Tokens RateLimit Sessions Mobile.
From S2P Require Import Instances.

(** A request, as far as the middlewares look at it. A cookie or header that is
    absent is empty; a length that is not known is negative. *)
Record Incoming := {
  ir_Method : string; ir_Path : string; ir_Origin : string; ir_Authorization : string; ir_SID : string;
  ir_ClientIP : string; ir_ContentLength : Z; ir_Body : string }.
(** [json.Unmarshal] into a struct with the field [email]; [None] when it fails. *)
Class JsonEmail := { json_email : string -> option string }.

(** What a request has gathered on its way: the context of the request, the
    headers and the cookie of the answer, and the limit on its body. *)
Record GinContext := {
  cx_UserID : string; cx_Scope : string; cx_SessionUserID : string; cx_SessionID : string;
  cx_Headers : list (string * string); cx_Cookie : option (string * bool); cx_BodyLimit : option Z }.

Inductive LimitKey := ByIP | ByEmail | BySubject | BySubjectAction (action : string) | BySessionAction (action : string).
Inductive Middleware :=
  | CORSWithAllowlist (allowedOrigins : list string)
  | Metrics
  | Logger
  | Recovery
  | Timeout (seconds : Z)
  | MaxBodySize (n : Z)
  | Limiter (key : LimitKey) (rl : RateLimit.RateLimiter)
  | RequireAuth
  | EnsureSession (crossSiteCookies : bool).
Record Route := { ro_Method : string; ro_Path : string; ro_Chain : list Middleware; ro_Handler : string }.

(** What the router is built from: production or not, the allowed origins and
    extension ids, and whether a bundler and a WebAuthn site are configured. *)
Record RouterConfig := {
  rc_Production : bool; rc_CORSAllowedOrigins : list string; rc_ExtensionIDs : list string;
  rc_Bundler : bool; rc_WebAuthnSite : bool }.

(** Redis and the tables of the web app. *)
Record ServerStore := MkServer { sv_redis : RedisStore; sv_web : Store }.

Module Router.
Import RateLimit Sessions Mobile.

(** ** The middlewares *)
Definition no_context : GinContext :=
  {| cx_UserID := ""; cx_Scope := ""; cx_SessionUserID := ""; cx_SessionID := ""; cx_Headers := []; cx_Cookie := None;
     cx_BodyLimit := None |}.
Definition with_headers (h : list (string * string)) (c : GinContext) : GinContext :=
  {| cx_UserID := cx_UserID c; cx_Scope := cx_Scope c; cx_SessionUserID := cx_SessionUserID c; cx_SessionID := cx_SessionID c;
     cx_Headers := cx_Headers c ++ h; cx_Cookie := cx_Cookie c; cx_BodyLimit := cx_BodyLimit c |}.
Definition with_subject (userID scope : string) (c : GinContext) : GinContext :=
  {| cx_UserID := userID; cx_Scope := scope; cx_SessionUserID := cx_SessionUserID c; cx_SessionID := cx_SessionID c;
     cx_Headers := cx_Headers c; cx_Cookie := cx_Cookie c; cx_BodyLimit := cx_BodyLimit c |}.
Definition with_session (s : Session) (crossSite : bool) (c : GinContext) : GinContext :=
  {| cx_UserID := cx_UserID c; cx_Scope := cx_Scope c; cx_SessionUserID := s_UserID s; cx_SessionID := s_ID s;
     cx_Headers := cx_Headers c; cx_Cookie := Some (s_ID s, crossSite); cx_BodyLimit := cx_BodyLimit c |}.
Definition with_limit (n : Z) (c : GinContext) : GinContext :=
  {| cx_UserID := cx_UserID c; cx_Scope := cx_Scope c; cx_SessionUserID := cx_SessionUserID c; cx_SessionID := cx_SessionID c;
     cx_Headers := cx_Headers c; cx_Cookie := cx_Cookie c; cx_BodyLimit := Some n |}.

(** Answered by a middleware, with the headers set so far, or passed on. *)
Inductive Step := Aborted (status code : string) (headers : list (string * string)) | Passed (c : GinContext).

(** cors.go *)
Definition CORS_headers : list (string * string) :=
  [("Access-Control-Allow-Origin", "*"); ("Access-Control-Allow-Methods", "GET, POST, PUT, DELETE, OPTIONS");
   ("Access-Control-Allow-Headers", "Authorization, Content-Type, X-Request-ID"); ("Access-Control-Max-Age", "86400");
   ("Vary", "Origin")].
Definition allowed_headers (origin : string) : list (string * string) :=
  [("Access-Control-Allow-Origin", origin); ("Access-Control-Allow-Credentials", "true");
   ("Access-Control-Allow-Methods", "GET, POST, PUT, PATCH, DELETE, OPTIONS");
   ("Access-Control-Allow-Headers", "Authorization, Content-Type, X-Request-ID"); ("Access-Control-Max-Age", "86400");
   ("Vary", "Origin")].
Definition cors (allowedOrigins : list string) (req : Incoming) (c : GinContext) : Step :=
  let origin := ir_Origin req in
  let headers := if String.eqb origin "" || negb (existsb (String.eqb origin) allowedOrigins) then CORS_headers
                 else allowed_headers origin in
  if String.eqb (ir_Method req) "OPTIONS" then Aborted "204" "" (cx_Headers c ++ headers) else Passed (with_headers headers c).

(** maxbody.go *)
Definition max_body (n : Z) (req : Incoming) (c : GinContext) : Step :=
  if n <? ir_ContentLength req then Aborted "413" "VALIDATION_ERROR" (cx_Headers c) else Passed (with_limit n c).

Section Middlewares.
Context `{UuidLib} `{Unicode} `{Env} `{Jwt} `{AuthConfig} `{JsonEmail}.
Abbreviation W := (World ServerStore).

(** ratelimit.go: the bucket of a request; the body is read up to 4096 bytes. *)
Definition email_key (body clientIP : string) : string :=
  match json_email (String.substring 0 4096 body) with
  | Some email => if String.eqb email "" then "rl:ip:" +:+ clientIP else "rl:email:" +:+ to_lower email
  | None => "rl:ip:" +:+ clientIP
  end.
Definition limit_key (k : LimitKey) (req : Incoming) (c : GinContext) : string :=
  match k with
  | ByIP => "rl:ip:" +:+ ir_ClientIP req
  | ByEmail => email_key (ir_Body req) (ir_ClientIP req)
  | BySubject => subjectRateLimitKey (cx_UserID c) (ir_ClientIP req)
  | BySubjectAction a => subjectActionRateLimitKey a (cx_UserID c) (ir_ClientIP req)
  | BySessionAction a => sessionActionRateLimitKey a (cx_SessionUserID c) (ir_ClientIP req)
  end.
Definition limited (rl : RateLimiter) (key : string) (c : GinContext) (w : W) : Step * W :=
  let '(ok, w') := admits rl key (MkWorld (sv_redis (w_store w)) (w_io w)) in
  (if ok then Passed c else Aborted "429" "RATE_LIMITED" (cx_Headers c), MkWorld (MkServer (w_store w') (sv_web (w_store w))) (w_io w')).
(** auth.go; the token is read at one instant. *)
Definition require_auth (req : Incoming) (c : GinContext) (w : W) : Step * W :=
  (match Tokens.Tokens.RequireAuth (ir_Authorization req) (env_now (w_io w)) with
   | Ok (userID, scope) => Passed (with_subject userID scope c)
   | Err _ => Aborted "401" "UNAUTHORIZED" (cx_Headers c)
   end, tick w).
(** session.go *)
Definition ensure_session (crossSite : bool) (req : Incoming) (c : GinContext) (w : W) : Step * W :=
  let '(r, w') := GetOrCreate (ir_SID req) (MkWorld (sv_web (w_store w)) (w_io w)) in
  (match r with
   | Ok sess => Passed (with_session sess crossSite c)
   | Err _ => Aborted "500" "internal_error" (cx_Headers c)
   end, MkWorld (MkServer (sv_redis (w_store w)) (w_store w')) (w_io w')).

Definition run_middleware (m : Middleware) (req : Incoming) (c : GinContext) (w : W) : Step * W :=
  match m with
  | CORSWithAllowlist allowed => (cors allowed req c, w)
  | Metrics | Logger | Recovery | Timeout _ => (Passed c, w)
  | MaxBodySize n => (max_body n req c, w)
  | Limiter k rl => limited rl (limit_key k req c) c w
  | RequireAuth => require_auth req c w
  | EnsureSession crossSite => ensure_session crossSite req c w
  end.
Fixpoint run_chain (ms : list Middleware) (req : Incoming) (c : GinContext) (w : W) : Step * W :=
  match ms with
  | [] => (Passed c, w)
  | m :: ms' => match run_middleware m req c w with
                | (Passed c', w') => run_chain ms' req c' w'
                | aborted => aborted
                end
  end.
End Middlewares.

(** ** The table (router.go) *)
Definition minute : Z := 60 * 1000.
Definition generalLimiter := Limiter ByIP {| limit := 300; window := minute |}.
Definition authedLimiter := Limiter BySubject {| limit := 100; window := minute |}.
Definition fundingIntentLimiter := Limiter (BySubjectAction "funding-intent") {| limit := 5; window := minute |}.
Definition smartAccountDeployLimiter := Limiter (BySubjectAction "smart-account-deploy") {| limit := 10; window := minute |}.
Definition smartAccountChallengeLimiter := Limiter (BySubjectAction "smart-account-challenge") {| limit := 60; window := minute |}.
Definition passkeyCredentialChallengeLimiter :=
  Limiter (BySubjectAction "passkey-credential-challenge") {| limit := 60; window := minute |}.
Definition passkeyCredentialLookupLimiter := Limiter (BySubjectAction "passkey-credential-lookup") {| limit := 30; window := minute |}.
Definition transactionRelayLimiter := Limiter (BySubjectAction "transaction-relay") {| limit := 30; window := minute |}.
Definition otpLimiter := Limiter ByEmail {| limit := 3; window := 60 * minute |}.
Definition recoveryLimiter := Limiter ByEmail {| limit := 3; window := 24 * 60 * minute |}.
Definition onRampSessionLimiter := Limiter (BySessionAction "onramp_session") {| limit := 20; window := 60 * minute |}.

(** main.go *)
Definition hasChromeExtensionOrigin (origins : list string) : bool := existsb (String.prefix "chrome-extension://") origins.
Definition crossSiteWebAppCookies (cfg : RouterConfig) : bool :=
  rc_Production cfg || negb (bool_decide (rc_ExtensionIDs cfg = [])) || hasChromeExtensionOrigin (rc_CORSAllowedOrigins cfg).

(** [Group] and [Use]: a prefix and what runs before every route of the group. *)
Definition Group (prefix : string) (uses : list Middleware) (routes : list Route) : list Route :=
  (fun r => {| ro_Method := ro_Method r; ro_Path := prefix +:+ ro_Path r; ro_Chain := (uses ++ ro_Chain r)%list;
               ro_Handler := ro_Handler r |}) <$> routes.
Definition route (method path : string) (chain : list Middleware) (handler : string) : Route :=
  {| ro_Method := method; ro_Path := path; ro_Chain := chain; ro_Handler := handler |}.
Definition GET := route "GET".
Definition POST := route "POST".
Definition PUT := route "PUT".
Definition PATCH := route "PATCH".
Definition DELETE := route "DELETE".

Definition global_chain (cfg : RouterConfig) : list Middleware :=
  [CORSWithAllowlist (rc_CORSAllowedOrigins cfg); Metrics; Logger; Recovery; Timeout 30; MaxBodySize (256 * 1024); generalLimiter].
Definition open_routes (cfg : RouterConfig) : list Route :=
  ((if rc_Production cfg then [] else [GET "/swagger/*any" [] "swagger"]) ++ [GET "/health" [] "health"; GET "/metrics" [] "metrics"])%list.

Definition auth_routes : list Route := Group "/auth" [] [
  POST "/register" [otpLimiter] "auth.Register"; POST "/verify" [] "auth.Verify"; POST "/challenge" [] "walletAuth.Challenge";
  POST "/sign-in" [] "walletAuth.SignIn"; POST "/refresh" [] "auth.Refresh"; POST "/logout" [RequireAuth] "auth.Logout"].
Definition authed : list Middleware := [RequireAuth; authedLimiter].
Definition v1_routes : list Route :=
  (auth_routes ++
   Group "/backup" authed [POST "" [] "backup.Store"; PUT "" [] "backup.Store"; GET "" [] "backup.Exists"] ++
   Group "/recovery" [] [POST "/initiate" [recoveryLimiter] "recovery.Initiate"; POST "/verify" [] "recovery.Verify";
                         GET "/blob" [] "recovery.GetBlob"] ++
   [GET "/prices" [] "prices.GetPrices"; POST "/prices/lookup" [] "stellarPrices.LookupPrices";
    GET "/history" authed "history.GetHistory"] ++
   Group "/cosign/requests" authed [POST "" [] "cosign.Create"; GET "" [] "cosign.List"; GET "/:id" [] "cosign.Get";
     POST "/:id/signatures" [] "cosign.AddSignature"; POST "/:id/submission" [] "cosign.MarkSubmitted";
     DELETE "/:id" [] "cosign.Cancel"] ++
   Group "/wck-bundles" authed [PUT "/:pickup_key" [] "wckBundle.Store"; GET "/:pickup_key" [] "wckBundle.Get"] ++
   Group "/push-tokens" authed [POST "" [] "pushToken.Register"; DELETE "/:token" [] "pushToken.Delete"] ++
   Group "/devices" authed [POST "" [] "pushDevice.Register"; DELETE "/:token" [] "pushDevice.Delete"] ++
   Group "/notifications" authed [GET "" [] "notification.List"; GET "/unread-count" [] "notification.UnreadCount";
     POST "/read-all" [] "notification.MarkAllRead"; POST "/:id/read" [] "notification.MarkRead"] ++
   Group "/memberships" authed [POST "" [] "membership.Announce"; GET "" [] "membership.List"] ++
   Group "/accounts" authed [POST "/register" [] "account.Register"; GET "" [] "account.List";
     POST "/deposit-intent" [fundingIntentLimiter] "account.CreateDepositIntent";
     GET "/deposit/status/:memo_id" [] "account.DepositStatus"])%list.
(** With a bundler configured. *)
Definition v1_bundler_routes : list Route :=
  (Group "/transaction" authed [GET "/bundler" [] "transactionRelay.Bundler";
     POST "/submit" [transactionRelayLimiter] "transactionRelay.Submit"; POST "/build-send" [] "transactionBuild.BuildSend";
     POST "/build-swap" [] "transactionBuild.BuildSwap"] ++
   Group "/smart-account/backup-signer" authed [POST "/confirm-add" [] "backupSigner.ConfirmAddSigner";
     POST "/confirm-remove" [] "backupSigner.ConfirmRemoveSigner"] ++
   Group "/smart-account" [] [POST "/challenge" [smartAccountChallengeLimiter] "smartAccount.DeployChallenge";
     POST "/ed25519" [smartAccountDeployLimiter] "smartAccount.DeployEd25519";
     POST "/webauthn" [smartAccountDeployLimiter] "smartAccount.DeployWebauthn";
     POST "/g-address" [smartAccountDeployLimiter] "smartAccount.DeployGAddress";
     POST "/multisig" [smartAccountDeployLimiter] "smartAccount.DeployMultisig"] ++
   Group "/passkey-credentials" [] [POST "/challenge" [passkeyCredentialChallengeLimiter] "passkeyCredential.Challenge";
     POST "/lookup" [passkeyCredentialLookupLimiter] "passkeyCredential.Lookup"])%list.
Definition simulate_routes : list Route :=
  Group "/api/transaction" [] [POST "/simulate" [] "transaction.Simulate"; POST "/relay" [] "transaction.Relay"].

Definition webapp_bundler_routes (cfg : RouterConfig) : list Route :=
  ((if rc_WebAuthnSite cfg then
      Group "/webauthn" [] [POST "/registration/begin" [] "webappWebauthn.RegistrationBegin";
        POST "/registration/finish" [] "webappWebauthn.RegistrationFinish";
        POST "/authentication/begin" [] "webappWebauthn.AuthenticationBegin";
        POST "/authentication/finish" [] "webappWebauthn.AuthenticationFinish"; GET "/credentials" [] "webappWebauthn.Credentials"] ++
      Group "/accounts" [] [POST "/:smartAccountAddress/signers/passkey/register" [] "webappWebauthn.AttachSignerFinish"]
    else []) ++
   Group "/smart-account" [] [GET "/webauthn" [] "webappSmartAccount.Query"; POST "/webauthn" [] "webappSmartAccount.Deploy";
     GET "/delegated" [] "webappSmartAccount.QueryDelegated"; POST "/delegated" [] "webappSmartAccount.DeployDelegated"] ++
   Group "/transaction" [] [POST "/build-send" [] "webappTransaction.BuildSend";
     POST "/submit-webauthn" [] "webappTransaction.SubmitWebAuthn"; POST "/submit-delegated" [] "webappTransaction.SubmitDelegated";
     POST "/prepare-sign" [] "webappTransaction.PrepareSign"; POST "/build" [] "webappTransaction.BuildCounter";
     POST "/build-delegated" [] "webappTransaction.BuildDelegatedCounter"; POST "/build-swap" [] "webappTransaction.BuildSwap"] ++
   Group "/smart-account" [] [POST "/setup-send-rules" [] "webappTransaction.SetupSendRules";
     POST "/setup-swap-rules" [] "webappTransaction.SetupSwapRules"; POST "/add-signer" [] "webappAccountSigner.AddSigner";
     POST "/add-signer/confirm" [] "webappAccountSigner.ConfirmAddSigner"; POST "/remove-signer" [] "webappAccountSigner.RemoveSigner";
     POST "/remove-signer/confirm" [] "webappAccountSigner.ConfirmRemoveSigner"])%list.
Definition ceremony_routes (prefix handler : string) : list Route :=
  Group prefix [] [POST "/webauthn/register/begin" [] (handler +:+ ".RegistrationBegin");
    POST "/webauthn/register/finish" [] (handler +:+ ".RegistrationFinish");
    POST "/webauthn/authenticate/begin" [] (handler +:+ ".AuthenticationBegin");
    POST "/webauthn/authenticate/finish" [] (handler +:+ ".AuthenticationFinish")].
Definition multisig_routes : list Route := Group "/multisig" []
  (Group "/accounts" [] [GET "" [] "multisigAccounts.List"; POST "/draft" [] "multisigAccounts.Draft";
     POST "/deploy" [] "multisigAccounts.Deploy"; POST "/register" [] "multisigAccounts.Register"] ++
   Group "/drafts" [] ([POST "" [] "multisigDrafts.Create"; GET "" [] "multisigDrafts.GetActive"; GET "/:id" [] "multisigDrafts.Get";
     PATCH "/:id" [] "multisigDrafts.UpdateThreshold"; POST "/:id/predict" [] "multisigDrafts.Predict";
     POST "/:id/deploy" [] "multisigDrafts.Deploy"; POST "/:id/members" [] "multisigDrafts.AddMember";
     DELETE "/:id/members/:memberId" [] "multisigDrafts.DeleteMember"] ++ ceremony_routes "/:id" "multisigDraftWebAuthn") ++
   Group "/join" [] ([GET "/:token" [] "multisigJoin.GetByToken"; POST "/:token/members" [] "multisigJoin.AddMember"] ++
     ceremony_routes "/:token" "multisigJoin") ++
   Group "/proposals" [] [POST "" [] "multisigProposals.Create"; GET "" [] "multisigProposals.List";
     GET "/:id" [] "multisigProposals.Get"; POST "/:id/refresh" [] "multisigProposals.Refresh";
     POST "/:id/execute" [] "multisigProposals.Execute"; POST "/:id/approve/webauthn" [] "multisigProposals.ApproveWebauthn";
     POST "/:id/approve/delegated/begin" [] "multisigProposals.ApproveDelegatedBegin";
     POST "/:id/approve/delegated/finish" [] "multisigProposals.ApproveDelegatedFinish"])%list.
Definition webapp_routes (cfg : RouterConfig) : list Route := Group "/api" [EnsureSession (crossSiteWebAppCookies cfg)]
  (Group "/accounts" [] [GET "" [] "webappAccounts.List"; POST "/set-active" [] "webappAccounts.SetActive"] ++
   Group "/smart-account" [] [GET "/context-rules" [] "webappSmartAccount.ContextRules";
     GET "/balances" [] "webappSmartAccount.Balances"] ++
   (if rc_Bundler cfg then webapp_bundler_routes cfg ++ multisig_routes else []) ++
   [POST "/sign-payload" [] "webappSignPayload.Create"; GET "/sign-payload/:payloadRef" [] "webappSignPayload.Get"] ++
   Group "/on-ramp" [] [POST "/session" [onRampSessionLimiter] "webappOnRamp.Session"; GET "/intent/:id" [] "webappOnRamp.GetIntent";
     PATCH "/intent/:id" [] "webappOnRamp.UpdateIntent"; GET "/pool" [] "webappOnRamp.Pool"] ++
   [POST "/recovery/backup-passkey" [] "webappRecovery.BackupPasskey"; GET "/counter" [] "webappCounter.Get"] ++
   Group "/notifications" [] [GET "" [] "webappNotification.List"; GET "/unread-count" [] "webappNotification.UnreadCount";
     POST "/read-all" [] "webappNotification.MarkAllRead"; POST "/:id/read" [] "webappNotification.MarkRead"])%list.
Definition newRouter (cfg : RouterConfig) : list Route :=
  (open_routes cfg ++ Group "/v1" [] (v1_routes ++ if rc_Bundler cfg then v1_bundler_routes else []) ++ simulate_routes ++
   webapp_routes cfg)%list.

(** ** Finding the route (gin) *)
Fixpoint segments_from (current s : string) : list string :=
  match s with
  | "" => [current]
  | String c s' => if Ascii.eqb c "/" then current :: segments_from "" s' else segments_from (current +:+ String c "") s'
  end.
Definition segments (s : string) : list string := segments_from "" s.
(** A segment [:name] takes any non-empty segment, [*name] the rest. *)
Definition is_param (pattern : string) : bool := String.prefix ":" pattern.
Definition is_rest (pattern : string) : bool := String.prefix "*" pattern.
Fixpoint match_segments (pattern path : list string) : option (list (string * string)) :=
  match pattern, path with
  | [], [] => Some []
  | p :: pattern', s :: path' =>
      if is_rest p then Some [(str_drop 1 p, "/" +:+ String.concat "/" (s :: path'))] else
      if is_param p then
        if String.eqb s "" then None else cons (str_drop 1 p, s) <$> match_segments pattern' path'
      else if String.eqb p s then match_segments pattern' path' else None
  | _, _ => None
  end.
(** What gin documents of its routes: the one that runs was registered with the
    request's method and its pattern takes the path, and there is one when some
    pattern does. *)
Class Gin := {
  gin_lookup : list Route -> string -> string -> option (Route * list (string * string));
  gin_lookup_sound : forall routes method path r params, gin_lookup routes method path = Some (r, params) ->
    r ∈ routes /\ ro_Method r = method /\ match_segments (segments (ro_Path r)) (segments path) = Some params;
  gin_lookup_complete : forall routes method path r params, r ∈ routes -> ro_Method r = method ->
    match_segments (segments (ro_Path r)) (segments path) = Some params -> is_Some (gin_lookup routes method path);
}.

(** ** A request *)
Inductive Outcome :=
  | Answered (status code : string) (headers : list (string * string))
  | Reaches (handler : string) (params : list (string * string)) (c : GinContext).
Section Serve.
Context `{Gin} `{UuidLib} `{Unicode} `{Env} `{Jwt} `{AuthConfig} `{JsonEmail}.
(** What runs for every request runs for an unknown path too. *)
Definition serve (cfg : RouterConfig) (req : Incoming) (w : World ServerStore) : Outcome * World ServerStore :=
  let found := gin_lookup (newRouter cfg) (ir_Method req) (ir_Path req) in
  let chain := match found with Some (r, _) => ro_Chain r | None => [] end in
  match run_chain (global_chain cfg ++ chain)%list req no_context w with
  | (Aborted status code headers, w') => (Answered status code headers, w')
  | (Passed c, w') =>
      match found with
      | Some (r, params) => (Reaches (ro_Handler r) params c, w')
      | None => (Answered "404" "" (cx_Headers c), w')
      end
  end.
End Serve.
End Router.
