(* ===== verification/RouterTheorems.v ===== *)
(** * Who a handler is run for (theorems about Router.v)

    A handler of the mobile API that uses the caller's subject runs only with a
    valid token, one of the web app only with a session, and a request without
    them changes nothing but the counter of its address. *)

From S2P Require Export Router.
From S2P Require Import Instances.

#[local] Unset Default Proof Using.

Module RouterTheorems.
Import RateLimit Sessions Mobile Router.

(** The handlers that read the subject of the token ([UserIDFromContext]). *)
Definition subject_handlers : list string :=
  ["auth.Logout"; "backup.Store"; "backup.Exists"; "cosign.Create"; "cosign.AddSignature"; "cosign.MarkSubmitted"; "cosign.Cancel";
   "wckBundle.Store"; "pushToken.Register"; "pushToken.Delete"; "pushDevice.Register"; "pushDevice.Delete"; "notification.List";
   "notification.UnreadCount"; "notification.MarkAllRead"; "notification.MarkRead"; "membership.Announce"; "account.Register";
   "account.List"; "account.CreateDepositIntent"; "account.DepositStatus"; "transactionRelay.Submit";
   "backupSigner.ConfirmAddSigner"; "backupSigner.ConfirmRemoveSigner"].
(** Those that read the session ([SessionUserIDFromContext], [SessionIDFromContext]). *)
Definition session_handlers : list string :=
  ["webappAccounts.List"; "webappAccountSigner.AddSigner"; "webappAccountSigner.ConfirmAddSigner"; "webappAccountSigner.ConfirmRemoveSigner";
   "webappAccountSigner.RemoveSigner"; "webappWebauthn.RegistrationBegin"; "webappWebauthn.RegistrationFinish";
   "webappWebauthn.AuthenticationBegin"; "webappWebauthn.AuthenticationFinish"; "webappWebauthn.Credentials";
   "webappWebauthn.AttachSignerFinish"; "webappOnRamp.Session"; "webappOnRamp.UpdateIntent"; "webappRecovery.BackupPasskey";
   "webappNotification.List"; "webappNotification.UnreadCount"; "webappNotification.MarkAllRead"; "webappNotification.MarkRead";
   "multisigAccounts.List"; "multisigAccounts.Register"; "multisigDrafts.Create"; "multisigDrafts.GetActive"; "multisigDrafts.Get";
   "multisigDrafts.UpdateThreshold"; "multisigDrafts.Predict"; "multisigDrafts.Deploy"; "multisigDrafts.AddMember";
   "multisigDrafts.DeleteMember"; "multisigDraftWebAuthn.RegistrationBegin"; "multisigDraftWebAuthn.RegistrationFinish";
   "multisigDraftWebAuthn.AuthenticationBegin"; "multisigDraftWebAuthn.AuthenticationFinish"; "multisigJoin.AddMember";
   "multisigJoin.RegistrationBegin"; "multisigJoin.RegistrationFinish"; "multisigJoin.AuthenticationBegin";
   "multisigJoin.AuthenticationFinish"; "multisigProposals.Create"; "multisigProposals.List"; "multisigProposals.Get";
   "multisigProposals.Refresh"; "multisigProposals.Execute"; "multisigProposals.ApproveWebauthn";
   "multisigProposals.ApproveDelegatedBegin"; "multisigProposals.ApproveDelegatedFinish"].

(** ** What the table says *)
Definition requires_auth (m : Middleware) : bool := match m with RequireAuth => true | _ => false end.
Definition ensures_session (m : Middleware) : bool := match m with EnsureSession _ => true | _ => false end.
Definition member (h : string) (l : list string) : bool := existsb (String.eqb h) l.
(** What identifies the caller comes first, and there is one way of doing it. *)
Definition identified_first (r : Route) : bool :=
  let head := match ro_Chain r with m :: _ => (requires_auth m, ensures_session m) | [] => (false, false) end in
  let rest := match ro_Chain r with _ :: ms => existsb (fun m => requires_auth m || ensures_session m) ms | [] => false end in
  negb rest && (negb (member (ro_Handler r) subject_handlers) || fst head) && (negb (member (ro_Handler r) session_handlers) || snd head)
  && negb (String.eqb (ro_Method r) "OPTIONS").
Lemma table_identified cfg : forallb identified_first (newRouter cfg) = true.
Proof. destruct cfg as [[] o e [] []]; vm_compute; reflexivity. Qed.

(** Whether some path is taken by both patterns. *)
Fixpoint overlap (p q : list string) : bool :=
  match p, q with
  | [], [] => true
  | a :: p', b :: q' =>
      if is_rest a || is_rest b then true else
      if is_param a || is_param b then overlap p' q' else String.eqb a b && overlap p' q'
  | _, _ => false
  end.
Lemma overlap_spec p q s x y : match_segments p s = Some x -> match_segments q s = Some y -> overlap p q = true.
Proof.
  revert q s x y. induction p as [|a p IH]; intros [|b q] [|c s] x y; cbn; try done.
  destruct (is_rest a); [done|]. destruct (is_rest b); [by rewrite orb_true_r|]. cbn.
  destruct (is_param a) eqn:Ea, (is_param b) eqn:Eb; cbn.
  - destruct (String.eqb c ""); [done|]. intros Hx Hy. destruct (match_segments p s) eqn:E1; [|done].
    destruct (match_segments q s) eqn:E2; [|done]. by eapply IH.
  - destruct (String.eqb c ""); [done|]. destruct (String.eqb_spec b c); [|done]. intros Hx Hy.
    destruct (match_segments p s) eqn:E1; [|done]. by eapply IH.
  - destruct (String.eqb_spec a c); [|done]. destruct (String.eqb c ""); [done|]. intros Hx Hy.
    destruct (match_segments q s) eqn:E2; [|done]. by eapply IH.
  - destruct (String.eqb_spec a c) as [->|]; [|done]. destruct (String.eqb_spec b c) as [->|]; [|done]. intros Hx Hy.
    rewrite String.eqb_refl. by eapply IH.
Qed.
Definition clash (r s : Route) : bool :=
  String.eqb (ro_Method r) (ro_Method s) && overlap (segments (ro_Path r)) (segments (ro_Path s)).
Fixpoint clashes (l : list Route) : bool :=
  match l with [] => false | r :: l' => existsb (clash r) l' || clashes l' end.
Lemma table_unambiguous cfg : clashes (newRouter cfg) = false.
Proof. destruct cfg as [[] o e [] []]; vm_compute; reflexivity. Qed.

(** ** What a chain finds out *)
Section Chains.
Context `{UuidLib} `{Unicode} `{Env} `{Jwt} `{AuthConfig} `{JsonEmail}.
Abbreviation W := (World ServerStore).

Definition by_token (req : Incoming) (userID scope : string) : Prop :=
  exists n, Tokens.Tokens.RequireAuth (ir_Authorization req) (env_now n) = Ok (userID, scope).
Definition by_session (crossSite : bool) (req : Incoming) (c : GinContext) : Prop :=
  exists w1 sess w2, GetOrCreate (ir_SID req) w1 = (Ok sess, w2) /\ cx_SessionUserID c = s_UserID sess /\
    cx_SessionID c = s_ID sess /\ cx_Cookie c = Some (s_ID sess, crossSite).
Definition anonymous (c : GinContext) : Prop := cx_UserID c = "" /\ cx_SessionUserID c = "" /\ cx_SessionID c = "" /\ cx_Cookie c = None.
(** Nothing about the caller changes. *)
Definition same_caller (c c' : GinContext) : Prop :=
  cx_UserID c' = cx_UserID c /\ cx_Scope c' = cx_Scope c /\ cx_SessionUserID c' = cx_SessionUserID c /\
  cx_SessionID c' = cx_SessionID c /\ cx_Cookie c' = cx_Cookie c.
Definition plain (m : Middleware) : bool := negb (requires_auth m || ensures_session m).

Lemma run_plain m req c w c' w' : plain m = true -> run_middleware m req c w = (Passed c', w') -> same_caller c c'.
Proof.
  destruct m; cbn; try done; intros _.
  - unfold cors. destruct (String.eqb _ "OPTIONS"); by intros [= <- _].
  - by intros [= <- _].
  - by intros [= <- _].
  - by intros [= <- _].
  - by intros [= <- _].
  - unfold max_body. destruct (_ <? _); by intros [= <- _].
  - unfold limited. destruct (admits _ _ _) as [[] ?]; by intros [= <- _].
Qed.
Lemma same_caller_trans a b c : same_caller a b -> same_caller b c -> same_caller a c.
Proof. unfold same_caller. intuition congruence. Qed.
Lemma chain_plain ms req c w c' w' : forallb plain ms = true -> run_chain ms req c w = (Passed c', w') -> same_caller c c'.
Proof.
  revert c w. induction ms as [|m ms IH]; intros c w; cbn; [by intros _ [= <- _]|].
  rewrite andb_true_iff. intros [Hm Hms]. destruct (run_middleware m req c w) as [[|c1] w1] eqn:E; [done|]. intros Hr.
  eapply same_caller_trans; [by eapply run_plain|by eapply IH].
Qed.
Lemma chain_app ms ms' req c w : run_chain (ms ++ ms')%list req c w =
  match run_chain ms req c w with (Passed c', w') => run_chain ms' req c' w' | aborted => aborted end.
Proof.
  revert c w. induction ms as [|m ms IH]; intros c w; cbn; [done|]. destruct (run_middleware m req c w) as [[|c1] w1]; [done|apply IH].
Qed.
Lemma globals_plain cfg : forallb plain (global_chain cfg) = true.
Proof. reflexivity. Qed.
Lemma member_in h l : h ∈ l -> member h l = true.
Proof. intros Hh. apply existsb_exists. exists h. split; [by apply list_elem_of_In|by apply String.eqb_refl]. Qed.
Lemma identified r cfg : r ∈ newRouter cfg -> identified_first r = true.
Proof. intros Hr. exact (proj1 (forallb_forall _ _) (table_identified cfg) _ (proj1 (list_elem_of_In _ _) Hr)). Qed.
Lemma rest_plain ms : existsb (fun m => requires_auth m || ensures_session m) ms = false -> forallb plain ms = true.
Proof. induction ms as [|m ms IH]; cbn; [done|]. rewrite orb_false_iff. intros [Hm Hms]. unfold plain at 1. by rewrite Hm, IH. Qed.

(** A route of the table leaves the caller anonymous, or finds a subject, or a session. *)
Lemma route_identifies r req c w c' w' :
  identified_first r = true -> anonymous c -> run_chain (ro_Chain r) req c w = (Passed c', w') ->
  (cx_UserID c' = "" \/ cx_SessionUserID c' = "" /\ cx_Cookie c' = None) /\
  (ro_Handler r ∈ subject_handlers -> by_token req (cx_UserID c') (cx_Scope c')) /\
  (ro_Handler r ∈ session_handlers -> exists cross, by_session cross req c' /\ EnsureSession cross ∈ ro_Chain r).
Proof.
  unfold identified_first. intros Hi (A1 & A2 & A3 & A4) Hr.
  apply andb_true_iff in Hi as [Hi _]. apply andb_true_iff in Hi as [Hi Hses]. apply andb_true_iff in Hi as [Hrest Hsub].
  assert (ro_Handler r ∈ subject_handlers -> match ro_Chain r with m :: _ => requires_auth m | [] => false end = true) as Hsub'.
  { intros Hh. rewrite (member_in _ _ Hh) in Hsub. by destruct (ro_Chain r). }
  assert (ro_Handler r ∈ session_handlers -> match ro_Chain r with m :: _ => ensures_session m | [] => false end = true) as Hses'.
  { intros Hh. rewrite (member_in _ _ Hh) in Hses. by destruct (ro_Chain r). }
  clear Hsub Hses. destruct (ro_Chain r) as [|m ms] eqn:Ec.
  - injection Hr as <- _. split; [by left|]. split; intros Hh; [by apply Hsub' in Hh|by apply Hses' in Hh].
  - apply negb_true_iff, rest_plain in Hrest. cbn [run_chain] in Hr.
    destruct (run_middleware m req c w) as [[|c1] w1] eqn:Em; [done|].
    apply (chain_plain _ _ _ _ _ _ Hrest) in Hr as (B1 & B2 & B3 & B4 & B5).
    destruct (plain m) eqn:Ep.
    + apply (run_plain _ _ _ _ _ _ Ep) in Em as (C1 & C2 & C3 & C4 & C5). split; [left; congruence|].
      apply negb_true_iff, orb_false_iff in Ep as [Ea Es].
      split; intros Hh; [apply Hsub' in Hh|apply Hses' in Hh]; congruence.
    + destruct m; try done; cbn in Em.
      * unfold require_auth in Em. destruct (Tokens.Tokens.RequireAuth _ _) as [[u sc]|] eqn:Et; [|done].
        injection Em as <- _. cbn in *. split; [right; split; congruence|]. split; [|intros Hh; by apply Hses' in Hh].
        intros _. exists (w_io w). by rewrite B1, B2.
      * unfold ensure_session in Em. destruct (GetOrCreate _ _) as [[sess|] w2] eqn:Eg; [|done].
        injection Em as <- _. cbn in *. split; [left; congruence|]. split; [intros Hh; by apply Hsub' in Hh|].
        intros _. eexists. split; [|by left]. eexists _, _, _. split; [exact Eg|]. done.
Qed.
End Chains.

(** ** The properties *)
Section Properties.
Context `{Gin} `{UuidLib} `{Unicode} `{Env} `{Jwt} `{AuthConfig} `{JsonEmail}.
Abbreviation W := (World ServerStore).

(** The table depends on four booleans. *)
Definition plain_config (p b s cross : bool) : RouterConfig :=
  {| rc_Production := p; rc_CORSAllowedOrigins := []; rc_ExtensionIDs := if cross then ["id"] else []; rc_Bundler := b;
     rc_WebAuthnSite := s |}.
Lemma newRouter_plain cfg :
  let cfg' := plain_config (rc_Production cfg) (rc_Bundler cfg) (rc_WebAuthnSite cfg) (crossSiteWebAppCookies cfg) in
  newRouter cfg = newRouter cfg' /\ crossSiteWebAppCookies cfg = crossSiteWebAppCookies cfg'.
Proof.
  cbv zeta.
  assert (crossSiteWebAppCookies cfg = crossSiteWebAppCookies (plain_config (rc_Production cfg) (rc_Bundler cfg) (rc_WebAuthnSite cfg)
            (crossSiteWebAppCookies cfg))) as E.
  { unfold crossSiteWebAppCookies at 2. cbn [rc_Production plain_config rc_ExtensionIDs rc_CORSAllowedOrigins].
    unfold crossSiteWebAppCookies. destruct (rc_Production cfg); [done|]. cbn.
    destruct (negb _ || hasChromeExtensionOrigin (rc_CORSAllowedOrigins cfg)); reflexivity. }
  split; [|exact E]. unfold newRouter, webapp_routes at 1. rewrite E at 1. reflexivity.
Qed.
Definition crosses (cross : bool) (r : Route) : bool :=
  forallb (fun m => match m with EnsureSession c => Bool.eqb c cross | _ => true end) (ro_Chain r).
Lemma webapp_cross cfg r cross : r ∈ newRouter cfg -> EnsureSession cross ∈ ro_Chain r -> cross = crossSiteWebAppCookies cfg.
Proof.
  destruct (newRouter_plain cfg) as [Et Ex]. rewrite Et. intros Hr Hc. etrans; [|symmetry; exact Ex]. revert Hr Hc. clear Et Ex. generalize (crossSiteWebAppCookies cfg) (rc_Production cfg) (rc_Bundler cfg) (rc_WebAuthnSite cfg).
  intros x p b s Hr Hc.
  assert (forallb (crosses (crossSiteWebAppCookies (plain_config p b s x))) (newRouter (plain_config p b s x)) = true) as Hf
    by (destruct p, b, s, x; vm_compute; reflexivity).
  pose proof (proj1 (forallb_forall _ _) Hf _ (proj1 (list_elem_of_In _ _) Hr)) as He. unfold crosses in He.
  pose proof (proj1 (forallb_forall _ _) He _ (proj1 (list_elem_of_In _ _) Hc)) as Hx. cbn in Hx. by apply Bool.eqb_prop.
Qed.

(** C10. A handler of the mobile API that uses the caller's subject runs only when the
    request's bearer token was valid, with that token's subject and scope; a handler
    of the web app that uses the session runs only with the session the cookie was
    resolved to, or the new one, and the answer sets the cookie to it, cross-site
    exactly when the deployment says so. No handler runs with both a subject and a
    session, whatever the configuration. *)
Theorem handlers_identified cfg req w h params c w' : serve cfg req w = (Reaches h params c, w') ->
  (h ∈ subject_handlers -> by_token req (cx_UserID c) (cx_Scope c)) /\
  (h ∈ session_handlers -> by_session (crossSiteWebAppCookies cfg) req c) /\
  (cx_UserID c = "" \/ cx_SessionUserID c = "").
Proof.
  unfold serve. rewrite chain_app. destruct (run_chain (global_chain cfg) req no_context w) as [[|c0] w0] eqn:Eg; [done|].
  apply (chain_plain _ _ _ _ _ _ (globals_plain cfg)) in Eg as (A1 & A2 & A3 & A4 & A5).
  destruct (gin_lookup _ _ _) as [[r ps]|] eqn:Ef; [|done]. apply gin_lookup_sound in Ef as (Hr & _).
  destruct (run_chain (ro_Chain r) req c0 w0) as [[|c1] w1] eqn:Ec; [done|]. intros [= <- _ <- _].
  apply (route_identifies _ _ _ _ _ _ (identified _ _ Hr)) in Ec as (Hone & Hs & Hw); [|done].
  split; [exact Hs|]. split; [|by intuition]. intros Hh. destruct (Hw Hh) as (cross & Hc & Hin).
  by rewrite (webapp_cross _ _ _ Hr Hin) in Hc.
Qed.

Lemma route_unambiguous cfg r s path x y : r ∈ newRouter cfg -> s ∈ newRouter cfg -> ro_Method r = ro_Method s ->
  match_segments (segments (ro_Path r)) (segments path) = Some x ->
  match_segments (segments (ro_Path s)) (segments path) = Some y -> r = s.
Proof.
  intros Hr Hs Hm Hx Hy. pose proof (table_unambiguous cfg) as Hc. revert Hr Hs Hc. generalize (newRouter cfg) as l.
  assert (clash r s = true) as Hrs by (unfold clash; rewrite Hm, String.eqb_refl; by eapply overlap_spec).
  assert (clash s r = true) as Hsr by (unfold clash; rewrite Hm, String.eqb_refl; by eapply overlap_spec).
  induction l as [|a l IH]; cbn; [by intros []%not_elem_of_nil|]. rewrite orb_false_iff. intros Hr Hs [Ha Hl].
  assert (forall t, t ∈ l -> clash a t = true -> False) as Hno.
  { intros t Ht Hat. apply not_true_iff_false in Ha. apply Ha, existsb_exists. exists t. split; [by apply list_elem_of_In|done]. }
  apply elem_of_cons in Hr as [->|Hr], Hs as [->|Hs]; [done| | |by apply IH].
  - exfalso. by apply (Hno s).
  - exfalso. by apply (Hno r).
Qed.

(** Every route of the table is reached by the requests its pattern takes, with the
    parameters it names, under every configuration: no other route of the table
    takes such a request, so the order of registration does not matter and none
    shadows another. *)
Theorem route_reached cfg r path params : r ∈ newRouter cfg ->
  match_segments (segments (ro_Path r)) (segments path) = Some params ->
  gin_lookup (newRouter cfg) (ro_Method r) path = Some (r, params).
Proof.
  intros Hr Hp. destruct (gin_lookup_complete _ _ _ _ _ Hr eq_refl Hp) as [[s ps] Hl]. rewrite Hl.
  apply gin_lookup_sound in Hl as (Hs & Hm & Hps).
  assert (s = r) as -> by (symmetry; by eapply route_unambiguous). congruence.
Qed.

(** Only the counter of the caller's address may have changed. *)
Definition only_address_counter (req : Incoming) (w w' : W) : Prop :=
  sv_web (w_store w') = sv_web (w_store w) /\
  forall k, k <> "rl:ip:" +:+ ir_ClientIP req -> sv_redis (w_store w') !! k = sv_redis (w_store w) !! k.
Lemma check_other rl key k (w : World RedisStore) b w' : admits rl key w = (b, w') -> k <> key -> w_store w' !! k = w_store w !! k.
Proof.
  intros Ha Hk. unfold admits in Ha. destruct (check rl key w) as [r w1] eqn:Ec.
  assert (w1 = w') as -> by (by injection Ha). clear Ha.
  assert (keeps (on_store (fun d d' : RedisStore => d' !! k = d !! k)) (check rl key)) as Hc.
  { assert (Reflexive (fun d d' : RedisStore => d' !! k = d !! k)) by by intros ?.
    assert (Transitive (fun d d' : RedisStore => d' !! k = d !! k)) by by intros ? ? ? E1 E2; rewrite E2, E1.
    assert (forall A (f : Z -> RedisStore -> res (A * RedisStore)),
      (forall now d a d', f now d = Ok (a, d') -> d' !! k = d !! k) -> keeps (on_store (fun d d' : RedisStore => d' !! k = d !! k)) (redis f)) as Hr.
    { intros A f Hf u. unfold redis. apply (keeps_exec (fun d d' : RedisStore => d' !! k = d !! k)). intros d v d' E. by eapply Hf. }
    unfold check. keeps; apply Hr; intros now d v d' E; [unfold INCR in E|unfold EXPIRE in E]; repeat case_match; simplify_eq; try done;
      by rewrite lookup_insert_ne. }
  exact (keeps_run _ _ _ _ _ Hc Ec).
Qed.
Lemma globals_run cfg req (w : W) : ir_Method req <> "OPTIONS" ->
  (exists st code hs, run_chain (global_chain cfg) req no_context w = (Aborted st code hs, w) /\ st = "413") \/
  exists w', only_address_counter req w w' /\
    ((exists code hs, run_chain (global_chain cfg) req no_context w = (Aborted "429" code hs, w')) \/
     exists c, run_chain (global_chain cfg) req no_context w = (Passed c, w') /\ anonymous c).
Proof.
  intros Ho. cbn [global_chain run_chain run_middleware]. unfold cors. destruct (String.eqb_spec (ir_Method req) "OPTIONS"); [done|].
  cbv zeta. unfold max_body. destruct (_ <? _); [left; eexists _, _, _; split; reflexivity|]. right.
  unfold generalLimiter. cbn [run_middleware limit_key]. unfold limited. match goal with |- context [admits ?rl ?k ?u] => destruct (admits rl k u) as [ok w'] eqn:Ea end. eexists. split; [|destruct ok; [right|left]].
  2: by eexists. 2: by eexists _, _. split; [done|]. intros k Hk. cbn. by rewrite (check_other _ _ k _ _ _ Ea Hk).
Qed.

Definition refusals : list string := ["401"; "413"; "429"].
Lemma refusals_in : "401" ∈ refusals /\ "413" ∈ refusals /\ "429" ∈ refusals.
Proof. unfold refusals. set_solver. Qed.

(** A request for a handler that uses the subject, whose bearer token is missing,
    forged or expired whenever it is looked at, is answered 401 (or 413 for its
    size, 429 for its address's rate), and leaves nothing behind but the counter of
    the address it came from: no handler runs and no session is made. *)
Theorem protected_refused cfg req w r params :
  gin_lookup (newRouter cfg) (ir_Method req) (ir_Path req) = Some (r, params) -> ro_Handler r ∈ subject_handlers ->
  (forall now, is_ok (Tokens.Tokens.RequireAuth (ir_Authorization req) now) = false) ->
  exists status code headers w', serve cfg req w = (Answered status code headers, w') /\ status ∈ refusals /\
    only_address_counter req w w'.
Proof.
  intros Hf Hh Hno. destruct (gin_lookup_sound _ _ _ _ _ Hf) as (Hr & Hm & _). pose proof (identified _ _ Hr) as Hi.
  assert (ir_Method req <> "OPTIONS") as Ho.
  { intros E. unfold identified_first in Hi. rewrite Hm, E in Hi. cbn in Hi. by rewrite andb_false_r in Hi. }
  assert (exists ms, ro_Chain r = RequireAuth :: ms) as [ms Hc].
  { unfold identified_first in Hi. rewrite (member_in _ _ Hh) in Hi. destruct (ro_Chain r) as [|[] ?]; try (eexists; reflexivity);
      cbn in Hi; rewrite ?andb_false_r in Hi; discriminate Hi. }
  unfold serve. rewrite Hf, chain_app. destruct (globals_run cfg req w Ho) as [(st & code & hs & E & ->)|(w' & Hw & [(code & hs & E)|(c & E & _)])];
    rewrite E.
  - eexists _, _, _, _. split; [reflexivity|]. split; [apply refusals_in|done].
  - eexists _, _, _, _. split; [reflexivity|]. split; [apply refusals_in|done].
  - rewrite Hc. cbn [run_chain run_middleware]. unfold require_auth. specialize (Hno (env_now (w_io w'))).
    destruct (Tokens.Tokens.RequireAuth _ _); [done|]. eexists _, _, _, _. split; [reflexivity|]. split; [apply refusals_in|exact Hw].
Qed.

(** The headers of an answer, and those a handler starts from. *)
Definition headers_of (o : Outcome) : list (string * string) :=
  match o with Answered _ _ h => h | Reaches _ _ c => cx_Headers c end.
Definition step_headers (s : Step) : list (string * string) :=
  match s with Aborted _ _ h => h | Passed c => cx_Headers c end.
Lemma middleware_headers m req c (w : W) : (forall l, m <> CORSWithAllowlist l) -> step_headers (fst (run_middleware m req c w)) = cx_Headers c.
Proof.
  intros Hm. destruct m; cbn; try done.
  - by destruct (Hm allowedOrigins).
  - unfold max_body. by destruct (_ <? _).
  - unfold limited. by destruct (admits _ _ _) as [[] ?].
  - unfold require_auth. by destruct (Tokens.Tokens.RequireAuth _ _) as [[]|].
  - unfold ensure_session. by destruct (GetOrCreate _ _) as [[]].
Qed.
Definition no_cors (m : Middleware) : bool := match m with CORSWithAllowlist _ => false | _ => true end.
Lemma chain_headers ms req c (w : W) : forallb no_cors ms = true -> step_headers (fst (run_chain ms req c w)) = cx_Headers c.
Proof.
  revert c w. induction ms as [|m ms IH]; intros c w; cbn; [done|]. rewrite andb_true_iff. intros [Hm Hms].
  pose proof (middleware_headers m req c w) as Hs. destruct (run_middleware m req c w) as [[st code h|c1] w1]; cbn in *.
  - apply Hs. by intros l ->.
  - rewrite IH by done. apply Hs. by intros l ->.
Qed.
Lemma table_no_cors cfg : forallb (fun r => forallb no_cors (ro_Chain r)) (newRouter cfg) = true.
Proof. destruct cfg as [[] o e [] []]; vm_compute; reflexivity. Qed.

(** A browser is told to send credentials along (and to show the answer) only for an
    origin of the allow list, and then that origin is named, never the wildcard. *)
Theorem credentials_for_allowed cfg req w o w' : serve cfg req w = (o, w') ->
  ("Access-Control-Allow-Credentials", "true") ∈ headers_of o ->
  ir_Origin req <> "" /\ ir_Origin req ∈ rc_CORSAllowedOrigins cfg /\
  forall v, ("Access-Control-Allow-Origin", v) ∈ headers_of o <-> v = ir_Origin req.
Proof.
  unfold serve. set (chain := match gin_lookup _ _ _ with Some (r, _) => ro_Chain r | None => [] end).
  assert (forallb no_cors chain = true) as Hnc.
  { subst chain. destruct (gin_lookup _ _ _) as [[r ps]|] eqn:Ef; [|done]. apply gin_lookup_sound in Ef as (Hr & _).
    exact (proj1 (forallb_forall _ _) (table_no_cors cfg) _ (proj1 (list_elem_of_In _ _) Hr)). }
  assert (forall m ms, (m :: ms) = (global_chain cfg ++ chain)%list -> m = CORSWithAllowlist (rc_CORSAllowedOrigins cfg) /\ forallb no_cors ms = true) as Hg.
  { intros m ms [= -> ->]. split; [done|]. cbn. exact Hnc. }
  destruct (global_chain cfg ++ chain)%list as [|m ms] eqn:E; [done|]. destruct (Hg m ms eq_refl) as [-> Hms].
  intros Hs Hin.
  assert (headers_of o = if String.eqb (ir_Origin req) "" || negb (existsb (String.eqb (ir_Origin req)) (rc_CORSAllowedOrigins cfg))
                         then CORS_headers else allowed_headers (ir_Origin req)) as Hh.
  { cbn [run_chain run_middleware] in Hs. unfold cors in Hs. destruct (String.eqb (ir_Method req) "OPTIONS"); [by injection Hs as <- _|].
    match type of Hs with context [run_chain ms req ?c w] => pose proof (chain_headers ms req c w Hms) as Hc end.
    destruct (run_chain ms req _ w) as [[st code h|c1] w1]; cbn [fst step_headers] in Hc.
    - injection Hs as <- _. cbn. by rewrite Hc.
    - destruct (gin_lookup _ _ _) as [[r ps]|]; injection Hs as <- _; cbn; by rewrite Hc. }
  rewrite Hh in Hin |- *. destruct (String.eqb_spec (ir_Origin req) ""); [cbn in Hin; set_solver|]. cbn [orb] in *.
  destruct (existsb _ _) eqn:Ex; cbn [negb] in *; [|unfold CORS_headers in Hin; set_solver].
  apply existsb_exists in Ex as (x & Hx & Heq%String.eqb_eq). subst x.
  split; [done|]. split; [by apply list_elem_of_In|]. intros v. unfold allowed_headers. split; [|intros ->; set_solver].
  intros Hb. apply elem_of_cons in Hb as [[= E1]|Hb]; [done|].
  repeat (apply elem_of_cons in Hb as [Hb|Hb]; [discriminate Hb|]). by apply not_elem_of_nil in Hb.
Qed.
End Properties.

Section Witnesses.
Import Demo.
(** The first route that takes the request. *)
Fixpoint find_route (routes : list Route) (method path : string) : option (Route * list (string * string)) :=
  match routes with
  | [] => None
  | r :: routes' =>
      if negb (String.eqb (ro_Method r) method) then find_route routes' method path else
      match match_segments (segments (ro_Path r)) (segments path) with
      | Some params => Some (r, params)
      | None => find_route routes' method path
      end
  end.
Lemma find_route_in routes method path r params : find_route routes method path = Some (r, params) ->
  r ∈ routes /\ ro_Method r = method /\ match_segments (segments (ro_Path r)) (segments path) = Some params.
Proof.
  induction routes as [|x routes IH]; cbn; [done|]. destruct (String.eqb_spec (ro_Method x) method) as [Hm|Hm]; cbn [negb].
  - destruct (match_segments (segments (ro_Path x)) (segments path)) eqn:E; [intros [= <- <-]; split; [by left|done]|].
    intros Hr. destruct (IH Hr) as (? & ? & ?). split; [by right|done].
  - intros Hr. destruct (IH Hr) as (? & ? & ?). split; [by right|done].
Qed.
Lemma find_route_some routes method path r params : r ∈ routes -> ro_Method r = method ->
  match_segments (segments (ro_Path r)) (segments path) = Some params -> is_Some (find_route routes method path).
Proof.
  intros Hr Hm Hp. induction routes as [|x routes IH]; [by apply not_elem_of_nil in Hr|]. cbn.
  destruct (String.eqb_spec (ro_Method x) method) as [Hx|Hx]; cbn [negb].
  - destruct (match_segments (segments (ro_Path x)) (segments path)) eqn:E; [by eexists|].
    apply elem_of_cons in Hr as [->|Hr]; [congruence|by apply IH].
  - apply elem_of_cons in Hr as [->|Hr]; [congruence|by apply IH].
Qed.
#[local] Instance first_match : Gin :=
  {| gin_lookup := find_route; gin_lookup_sound := find_route_in; gin_lookup_complete := find_route_some |}.
#[local] Existing Instance Tokens.Tokens.demo_jwt.
#[local] Existing Instance Tokens.Tokens.demo_auth.
#[local] Existing Instance Tokens.Tokens.fresh_env.
#[local] Instance no_email : JsonEmail := {| json_email s := None |}.
Definition site_config : RouterConfig :=
  {| rc_Production := true; rc_CORSAllowedOrigins := ["https://latch.app"]; rc_ExtensionIDs := []; rc_Bundler := true;
     rc_WebAuthnSite := true |}.
Definition token : string := match jwt_sign {| cl_sub := Some "u1"; cl_scope := None; cl_kty := None; cl_exp := 100; cl_iat := 1 |} "k"
  with Ok t => t | Err _ => "" end.
Definition backup_request (authorization : string) : Incoming :=
  {| ir_Method := "GET"; ir_Path := "/v1/backup"; ir_Origin := "https://latch.app"; ir_Authorization := authorization; ir_SID := "";
     ir_ClientIP := "10.0.0.1"; ir_ContentLength := 0; ir_Body := "" |}.
Definition server0 : World ServerStore := MkWorld (MkServer ∅ empty_store) 0.
Definition answer (authorization : string) := serve site_config (backup_request authorization) server0.

Lemma backup_reads_subject : "backup.Exists" ∈ subject_handlers.
Proof. unfold subject_handlers. apply list_elem_of_In. cbn. tauto. Qed.
Lemma handlers_identified_witness : exists params c w', answer ("Bearer " +:+ token) = (Reaches "backup.Exists" params c, w') /\
  by_token (backup_request ("Bearer " +:+ token)) (cx_UserID c) (cx_Scope c).
Proof.
  destruct (answer ("Bearer " +:+ token)) as [o w'] eqn:E. pose proof (f_equal fst E) as Eo. vm_compute in Eo. cbn in Eo. subst o.
  eexists _, _, w'. split; [reflexivity|].
  exact (proj1 (handlers_identified site_config _ server0 _ _ _ w' E) backup_reads_subject).
Defined.
Definition signatures_route : Route := {| ro_Method := "POST"; ro_Path := "/v1/cosign/requests/:id/signatures"; ro_Chain := [RequireAuth; authedLimiter];
  ro_Handler := "cosign.AddSignature" |}.
Lemma route_reached_witness : signatures_route ∈ newRouter site_config /\
  gin_lookup (newRouter site_config) "POST" "/v1/cosign/requests/7/signatures" = Some (signatures_route, [("id", "7")]).
Proof.
  assert (signatures_route ∈ newRouter site_config) as Hr.
  { destruct (find_route (newRouter site_config) "POST" "/v1/cosign/requests/7/signatures") as [[r ps]|] eqn:E.
    - pose proof (find_route_in _ _ _ _ _ E) as (Hr & _). vm_compute in E. injection E as <- _. exact Hr.
    - vm_compute in E. discriminate E. }
  split; [exact Hr|]. apply (route_reached site_config signatures_route "/v1/cosign/requests/7/signatures" [("id", "7")] Hr). reflexivity.
Defined.
Lemma protected_refused_witness : exists status code headers w', answer "" = (Answered status code headers, w') /\
  status ∈ refusals /\ only_address_counter (backup_request "") server0 w'.
Proof.
  destruct (gin_lookup (newRouter site_config) "GET" "/v1/backup") as [[r ps]|] eqn:E; [|vm_compute in E; discriminate E].
  apply (protected_refused site_config (backup_request "") server0 r ps E).
  - vm_compute in E. injection E as <- _. vm_compute. set_solver.
  - intros now. reflexivity.
Defined.
Lemma credentials_for_allowed_witness : exists o w', answer "" = (o, w') /\
  forall v, ("Access-Control-Allow-Origin", v) ∈ headers_of o <-> v = "https://latch.app".
Proof.
  destruct (answer "") as [o w'] eqn:E. exists o, w'. split; [reflexivity|].
  apply (credentials_for_allowed site_config (backup_request "") server0 o w' E).
  pose proof (f_equal fst E) as Eo. vm_compute in Eo. cbn in Eo. subst o. vm_compute. set_solver.
Defined.
End Witnesses.
End RouterTheorems.
