(* ===== verification/ProposalDigest.v ===== *)
(** * The digest a proposal is signed for

    A proposal stores the digest its members sign next to the authorization
    entries it is computed from, and a delegated approval stores the template
    its signer signed. This file shows that they never come apart: the stored
    digest is the digest of the stored entries, and every stored template asks
    for it, whatever requests were served. *)

From S2P Require Export ProposalSafety.
From S2P Require Import Instances.

Module ProposalDigest.
Import Signers ExecuteAuth Assets Balances ContextRules Amount Proposals ProposalSafety.

Lemma int32_uint32 z : is_uint32 z -> uint32 (int32 z) = z.
Proof.
  unfold is_uint32, uint32, int32. intros Hz. rewrite (Z.mod_small z) by lia.
  destruct (Z.ltb_spec z (2 ^ 31)); [apply Z.mod_small; lia|].
  rewrite <- (Z.mod_add _ 1) by lia. rewrite Z.mod_small; lia.
Qed.

Lemma int32_small z : 0 <= z < 2 ^ 31 -> int32 z = z.
Proof.
  unfold int32. intros Hz. rewrite Z.mod_small by lia. by destruct (Z.ltb_spec z (2 ^ 31)); [|lia].
Qed.

(** The address credentials of an entry expire at [ledger]. *)
Definition expires_at (ledger : Z) (e : AuthEntry) : Prop :=
  match ae_Credentials e with
  | SorobanAddress c => ac_SignatureExpirationLedger c = ledger
  | SourceAccountCredentials => True
  end.

Section Artifacts.
Context `{StellarSDK} `{Network} `{Unicode} `{UuidLib} `{Env} `{!TransactionSubmitter} `{ServiceConfig}
  `{Json sacTransferOperationParams} `{Json (list string)} {J : Type} `{Json J}.
Abbreviation W := (World Store).

(** What the libraries document: decoding undoes encoding. *)
Definition json_round_trip : Prop :=
  forall (l : list string) s, json_marshal l = Ok s -> json_unmarshal s = Ok l.
Definition entry_round_trip : Prop :=
  (forall e s, entry_marshal_b64 e = Ok s -> entry_unmarshal_b64 s = Ok e) /\
  (forall e raw, entry_marshal e = Ok raw ->
     entry_unmarshal_b64 (Base64.StdEncoding_EncodeToString raw) = Ok e).
(** A simulation names fewer than 2^31 authorization entries. *)
Definition simulation_small : Prop :=
  forall tx n sim x auth, rpc_simulate tx n = Ok sim -> (x, auth) ∈ sim_Results sim ->
    Z.of_nat (length auth) < 2 ^ 31.

(** The rule a scan settles on is one of the scanned ids. *)
Lemma discover_from_range s t n id dflt (w w' : W) r disc :
  0 <= id -> (forall k, dflt = Some k -> 0 <= k < id) ->
  discover_from s t n id dflt w = (Ok (r, disc), w') -> 0 <= r < Z.max 1 (id + Z.of_nat n).
Proof using Type.
  revert id dflt w. induction n as [|n IH]; intros id dflt w Hid Hd; cbn.
  - destruct dflt as [k|]; intros [= <- _ _]; [specialize (Hd k eq_refl)|]; lia.
  - intros Hr. apply bind_ok in Hr as ([rule|] & w1 & _ & Hr).
    + destruct (String.eqb _ _).
      * apply ret_ok in Hr as [[= <- _] _]. lia.
      * apply IH in Hr; [lia|lia|]. intros k Hk. destruct dflt as [k0|].
        -- injection Hk as <-. specialize (Hd k0 eq_refl). lia.
        -- destruct (cr_IsDefault rule); [|done]. injection Hk as <-. lia.
    + apply IH in Hr; [lia|lia|]. intros k Hk. specialize (Hd k Hk). lia.
Qed.

Lemma DiscoverContextRule_range s t (w w' : W) r disc :
  DiscoverContextRule s t w = (Ok (r, disc), w') -> is_uint32 r.
Proof using Type.
  unfold DiscoverContextRule. intros Hr. apply bind_ok in Hr as (count & w1 & _ & Hr).
  apply discover_from_range in Hr; [|lia|done]. unfold is_uint32, maxContextRuleScan in *. lia.
Qed.

Lemma with_expiration_expires v e : expires_at v (with_expiration v e).
Proof using Type. unfold expires_at, with_expiration. destruct (ae_Credentials e) eqn:E; cbn; by rewrite ?E. Qed.

Lemma smart_entry_index_ok i entries s :
  0 <= i -> smart_entry_index i entries s <> -1 ->
  exists e, entries !! Z.to_nat (smart_entry_index i entries s - i) = Some e /\
    i <= smart_entry_index i entries s < i + Z.of_nat (length entries) /\
    classifyAuthEntryRole e s "" = RoleSmartAccountCustom.
Proof using Type.
  revert i. induction entries as [|e entries IH]; intros i Hi; cbn; [lia|].
  case_bool_decide as Hc.
  - intros _. exists e. rewrite Z.sub_diag. cbn. split_and!; [done|lia|lia|done].
  - intros Hne. destruct (IH (i + 1) ltac:(lia) Hne) as (e' & He & Hr & Hc'). exists e'. split_and!; [|lia|lia|done].
    rewrite <- He. replace (Z.to_nat (smart_entry_index (i + 1) entries s - i))
      with (S (Z.to_nat (smart_entry_index (i + 1) entries s - (i + 1)))) by lia. done.
Qed.

Lemma normalize_marshalled entries b64s :
  entry_round_trip -> res_map entry_marshal_b64 entries = Ok b64s -> normalizeAuthEntries b64s = Ok entries.
Proof using Type.
  intros [Hrt _] Hm. apply res_map_ok in Hm. unfold normalizeAuthEntries. generalize 0%nat.
  induction Hm as [|e s entries b64s He _ IH]; intros i; cbn; [done|].
  rewrite (Hrt _ _ He). cbn. by rewrite IH.
Qed.

Lemma normalize_length i raw es : normalizeAuthEntries_from i raw = Ok es -> length es = length raw.
Proof using Type.
  revert i es. induction raw as [|s raw IH]; intros i es; cbn; [by intros [= <-]|].
  intros ?. run_inv. cbn. f_equal. by eapply IH.
Qed.
End Artifacts.

Section Coherence.
Context `{StellarSDK} `{Network} `{Unicode} `{UuidLib} `{Env} `{!TransactionSubmitter} `{ServiceConfig}
  `{Json sacTransferOperationParams} `{Json (list string)} {J : Type} `{Json J}.
Abbreviation W := (World Store).

(** Stored entries, the smart account's own among them at the stored index, all
    expiring at the stored ledger, and the stored digest that of the entry. *)
Record signed_for (entriesJSON : string) (idx rule valid : Z) (digest : string) : Prop := {
  sf_entries : exists b64s entries e,
    decodeAuthEntriesJSON entriesJSON = Ok b64s /\ normalizeAuthEntries b64s = Ok entries /\
    0 <= idx /\ entries !! Z.to_nat idx = Some e /\
    computeAuthDigestHex e networkPassphrase (contextRuleIDsForEntry e rule) = Ok digest /\
    Forall (expires_at valid) entries;
}.
Definition coherent (p : MultisigProposal) : Prop :=
  signed_for (mp_AuthEntriesXdrJson p) (mp_SmartAccountAuthEntryIndex p) (uint32 (mp_ContextRuleID p))
    (uint32 (mp_ValidUntilLedger p)) (mp_AuthDigestHex p).

Section Round_trips.
Context (Hjson : json_round_trip) (Hxdr : entry_round_trip) (Hsmall : simulation_small).

Lemma simulate_signed sa op (w w' : W) artifacts disc js :
  simulateAndExtract sa op w = (Ok (artifacts, disc), w') ->
  json_marshal (ba_AuthEntriesB64 artifacts) = Ok js ->
  signed_for js (int32 (ba_SmartAccountAuthEntryIndex artifacts))
    (uint32 (int32 (ba_ContextRuleID artifacts))) (uint32 (int32 (ba_ValidUntilLedger artifacts)))
    (ba_AuthDigestHex artifacts).
Proof using Hjson Hxdr Hsmall.
  unfold simulateAndExtract. intros Hr Hjs.
  apply bind_ok in Hr as ([rule disc'] & w1 & Hrule & Hr).
  apply (proj1 (wrap_ok _ _ _ _ _)), DiscoverContextRule_range in Hrule.
  apply bind_ok in Hr as (seq & w2 & _ & Hr). apply bind_ok in Hr as (stx & w3 & _ & Hr).
  apply bind_ok in Hr as (sim & w4 & Hsim & Hr). apply (proj1 (wrap_ok _ _ _ _ _)), call_ok in Hsim as [Hsim _].
  destruct (negb _); [by run_inv|]. destruct (sim_Results sim) as [|[x auth] rest] eqn:Eres; [by run_inv|].
  apply bind_ok in Hr as (raw & w5 & Hn & Hr). apply (proj1 (wrap_ok _ _ _ _ _)), lift_ok in Hn as [Hn ->].
  cbn [setAddressCredentialExpiration] in Hr.
  set (valid := uint32 (uint32 (sim_LatestLedger sim) + multisigAuthLedgerTTL)) in *.
  set (entries := map (with_expiration valid) raw) in *.
  assert (length entries = length auth) as Hlen.
  { unfold entries. rewrite length_map. by eapply normalize_length. }
  assert (Z.of_nat (length auth) < 2 ^ 31) as Hbound.
  { eapply Hsmall; [exact Hsim|]. rewrite Eres. left. }
  destruct (Z.ltb_spec (smart_entry_index 0 entries sa) 0) as [|Hge]; [by run_inv|].
  destruct (smart_entry_index_ok 0 entries sa) as (e & He & Hrange & _); [lia|lia|].
  rewrite Z.sub_0_r in He. rewrite He in Hr.
  run_inv.
  match goal with H : computeAuthDigest _ _ _ = Ok ?dg |- _ => rename H into Hdg end.
  match goal with H : res_map entry_marshal_b64 _ = Ok _ |- _ => rename H into Hm end.
  simplify_eq. cbn in *. rewrite !int32_uint32 by (done || apply uint32_range). rewrite int32_small by lia.
  split. eexists _, entries, e. split_and!; [|by apply normalize_marshalled|lia|done| |].
  - unfold decodeAuthEntriesJSON. by rewrite (Hjson _ _ Hjs).
  - unfold computeAuthDigestHex. by rewrite Hdg.
  - apply list.Forall_forall. intros k Hk. unfold entries in Hk.
    apply list_elem_of_In, in_map_iff in Hk as (k0 & <- & _). apply with_expiration_expires.
Qed.
End Round_trips.
End Coherence.

(** ** The invariant *)
Section Live.
Context `{StellarSDK} `{Network} `{Unicode} `{UuidLib} `{Env} `{!TransactionSubmitter} `{ServiceConfig}
  `{Json sacTransferOperationParams} `{Json (list string)} {J : Type} `{Json J}.
Abbreviation W := (World Store).

(** A stored template is an entry whose check_auth argument is the digest. *)
Definition template_live (digest : string) (t : string) : Prop :=
  exists e, entry_unmarshal_b64 t = Ok e /\ delegatedCheckAuthArgHex e = Some digest.

Record digests_live (d : Store) : Prop := {
  dl_coherent : forall k p, proposals d !! k = Some p -> coherent p;
  dl_template : forall k row p t, approvals d !! k = Some row -> proposals d !! mv_ProposalID row = Some p ->
    mv_DelegatedEntryTemplateXdr row = Some t -> template_live (mp_AuthDigestHex p) t;
}.

Lemma live_chain d l : digests_live d -> digests_live (set_chain l d).
Proof using Type. by intros []. Qed.

(** Approvals may change as long as every template is an old one of the same
    proposal, or asks for the digest. *)
Lemma live_approvals d t :
  digests_live d ->
  (forall k row p x, t !! k = Some row -> proposals d !! mv_ProposalID row = Some p ->
     mv_DelegatedEntryTemplateXdr row = Some x -> template_live (mp_AuthDigestHex p) x) ->
  digests_live (set_approvals t d).
Proof using Type. intros [] Ht. split; [done|]. intros k row p x E Ep Ex. cbn in *. eauto. Qed.

Lemma live_upsert merge row d i d' p :
  digests_live d -> upsert_approval merge row d = Ok (i, d') ->
  proposals d !! mv_ProposalID row = Some p ->
  (forall o, mv_ProposalID (merge o) = mv_ProposalID o) ->
  (forall x, mv_DelegatedEntryTemplateXdr row = Some x -> template_live (mp_AuthDigestHex p) x) ->
  (forall o x, mv_DelegatedEntryTemplateXdr (merge o) = Some x ->
     mv_DelegatedEntryTemplateXdr o = Some x \/ template_live (mp_AuthDigestHex p) x) ->
  digests_live d'.
Proof using Type.
  intros Hl Hu Ep Hid Hrow Hmerge. unfold upsert_approval in Hu. pose proof Hl as [_ Ht].
  destruct (select_one _ _) as [old|e] eqn:Es.
  - injection Hu as <- <-. apply select_one_ok in Es as [Hs [k Ek]].
    unfold for_proposal_member in Hs. apply andb_prop in Hs as [Hs _]. apply bool_decide_eq_true in Hs.
    apply live_approvals; [done|]. intros k' r q x. rewrite lookup_insert_Some.
    intros [[_ <-]|[_ E]] Eq Ex; [|by eapply Ht]. rewrite Hid, Hs, Ep in Eq. injection Eq as <-.
    apply Hmerge in Ex as [Ex|]; [|done]. eapply Ht; [exact Ek|by rewrite Hs|done].
  - destruct (present _ _); [done|]. destruct (approval_fks _ _); [|done]. injection Hu as <- <-.
    apply live_approvals; [done|]. intros k' r q x. rewrite lookup_insert_Some.
    intros [[_ <-]|[_ E]] Eq Ex; [|by eapply Ht]. rewrite Ep in Eq. injection Eq as <-. auto.
Qed.

Lemma live_finish id mid signed signer d :
  digests_live d ->
  digests_live (set_approvals (update_where (for_proposal_member id mid) (approval_finished signed signer)
                                 (approvals d)) d).
Proof using Type.
  intros Hl. apply live_approvals; [done|]. intros k row p x. rewrite lookup_update_where.
  intros (r & Er & ->)%fmap_Some Ep Ex. destruct Hl as [_ Ht].
  destruct (for_proposal_member id mid r); by eapply Ht.
Qed.

Lemma templates_live_delete id d :
  digests_live d -> digests_live (set_approvals (delete_where (for_proposal id) (approvals d)) d).
Proof using Type.
  intros Hl. apply live_approvals; [done|]. intros k row p x [Er _]%lookup_delete_where. by apply (dl_template _ Hl k).
Qed.

(** A proposal without approvals may be rebuilt. *)
Lemma live_rebuilt id f d :
  digests_live d -> (forall k row, approvals d !! k = Some row -> mv_ProposalID row <> id) ->
  (forall p, proposals d !! id = Some p -> coherent (f p)) ->
  digests_live (set_proposals (alter f id (proposals d)) d).
Proof using Type.
  intros [Hc Ht] Hno Hf. split; cbn.
  - intros k p. rewrite lookup_alter_Some. intros [(<- & q & Eq & ->)|[_ E]]; [by apply Hf|by eapply Hc].
  - intros k row p x Er. rewrite lookup_alter_ne by (intros E; by eapply Hno). by apply (Ht k).
Qed.

(** An execution leaves the digest alone. *)
Lemma live_executed id hash d :
  digests_live d -> digests_live (set_proposals (alter (proposal_executed hash) id (proposals d)) d).
Proof using Type.
  intros [Hc Ht]. split; cbn.
  - intros k p. rewrite lookup_alter_Some. intros [(<- & q & Eq & ->)|[_ E]]; [|by eapply Hc].
    by destruct (Hc _ _ Eq).
  - intros k row p x Er. rewrite lookup_alter_Some. intros [(-> & q & Eq & ->)|[_ E]]; [|exact (Ht _ _ _ _ Er E)].
    exact (Ht _ _ _ _ Er Eq).
Qed.

Lemma templates_live_insert row d i d' :
  proposals_wf d -> digests_live d -> coherent row ->
  InsertMultisigProposal row d = Ok (i, d') -> digests_live d'.
Proof using Type.
  intros Hwf [Hc Ht] Hrow. unfold InsertMultisigProposal, present.
  destruct (proposals d !! mp_ID row) as [q|] eqn:En; [done|].
  destruct (accounts d !! _); [|done]. destruct (users d !! _); [|done]. cbn. intros [= _ <-]. split; cbn.
  - intros k p. rewrite lookup_insert_Some. intros [[_ <-]|[_ E]]; [done|by eapply Hc].
  - intros k r p x Er. rewrite lookup_insert_Some. intros [[E _]|[_ E]]; [|by eapply Ht].
    destruct (pw_member _ Hwf _ _ Er) as (q & mem & Eq & _). rewrite <- E, En in Eq. done.
Qed.

(** The template of a delegated approval asks for the digest it was built from. *)
Lemma template_asks_digest np sa g entry ids valid (w w' : W) tmpl :
  entry_round_trip -> buildDelegatedCheckAuthTemplate np sa g entry ids valid w = (Ok tmpl, w') ->
  exists digest, computeAuthDigestHex entry np ids = Ok digest /\
    template_live digest (dt_EntryTemplateXdrBase64 tmpl).
Proof using Type.
  intros [_ Hrt]. unfold buildDelegatedCheckAuthTemplate, buildUnsignedDelegatedGCheckAuthEntry. intros Hr.
  run_inv. unfold computeAuthDigestHex.
  match goal with H : computeAuthDigest _ _ _ = Ok _ |- _ => rewrite H end. cbn.
  eexists. split; [done|]. eexists. split; [by eapply Hrt|done].
Qed.
End Live.

Section Requests.
Context `{StellarSDK} `{Network} `{Unicode} `{UuidLib} `{Env} `{!TransactionSubmitter} `{ServiceConfig}
  `{Json sacTransferOperationParams} `{Json (list string)} {J : Type} `{Json J}.
Abbreviation W := (World Store).
Context (Hjson : json_round_trip) (Hxdr : entry_round_trip) (Hsmall : simulation_small).

Section From.
Context (d : Store) (Hwf : proposals_wf d) (Hl : digests_live d).
Abbreviation live := digests_live.
Hint Resolve Hl : core.

Lemma live_rebuildProposal id p a :
  proposals d !! id = Some p -> mp_ID p = id -> ends d (rebuildProposal p a) live.
Proof using Hjson Hxdr Hsmall Hl.
  intros Ep Eid. unfold rebuildProposal.
  apply ends_read; [keeps|done|]. intros op ? ? _ _.
  apply ends_read; [keeps|done|]. intros [artifacts disc] w1 w2 _ Hsim.
  apply ends_read; [keeps|done|]. intros js w3 w4 _ Hjs.
  apply (proj1 (wrap_ok _ _ _ _ _)), lift_ok in Hjs as [Hjs _].
  apply ends_exec; [done|]. intros [] d1 [= <-].
  apply ends_last; [by apply templates_live_delete| |intros; keeps]. intros [] d2 [= <-].
  apply (live_rebuilt _ _ (set_approvals _ d)); [by apply templates_live_delete| |].
  - intros k row [_ Hn]%lookup_delete_where Eq. unfold for_proposal in Hn. by rewrite bool_decide_eq_false in Hn.
  - intros q _. unfold coherent. cbn. exact (simulate_signed Hjson Hxdr Hsmall _ _ _ _ _ _ _ Hsim Hjs).
Qed.

Lemma live_ensureFresh {A} id p a (k : MultisigProposal -> M W A) :
  proposals d !! id = Some p -> mp_ID p = id -> ends d (k p) live -> ends d (bind (ensureFresh p a) k) live.
Proof using Hjson Hxdr Hsmall Hl.
  intros Ep Eid Hk. apply ends_bind.
  - intros w p' w' Hw Hr. apply ensureFresh_ok in Hr as (-> & -> & Hf). by rewrite Hw.
  - intros w e w' Hw Hr. refine (ends_run d (ensureFresh p a) live w (Err e) w' _ Hw Hr). unfold ensureFresh.
    apply ends_read; [keeps|done|]. intros [] ? ? _ _; cbn; [|by apply ends_ret].
    apply ends_bind; intros w1 ? w1' Hw1 Hr1.
    + apply ends_throw. exact (ends_run d _ live _ _ _ (live_rebuildProposal id p a Ep Eid) Hw1 Hr1).
    + exact (ends_run d _ live _ _ _ (live_rebuildProposal id p a Ep Eid) Hw1 Hr1).
Qed.

Lemma live_CreateProposal uid inp catalog : ends d (CreateProposal uid inp catalog) live.
Proof using H1 Hjson Hxdr Hsmall Hwf Hl.
  unfold CreateProposal. apply ends_read; [keeps|done|]. intros a ? ? _ _.
  apply ends_read; [keeps|done|]. intros op ? ? _ _.
  apply ends_read; [keeps|done|]. intros [artifacts disc] w1 w2 _ Hsim.
  destruct (_ && _); [by apply ends_throw|].
  apply ends_read; [keeps|done|]. intros js w3 w4 _ Hjs.
  apply (proj1 (wrap_ok _ _ _ _ _)), lift_ok in Hjs as [Hjs _].
  do 3 (apply ends_read; [keeps|done|]; intros ? ? ? _ _).
  apply ends_last; [done| |intros; keeps]. intros i d' Hi. eapply templates_live_insert; [done|done| |exact Hi].
  unfold coherent. cbn. exact (simulate_signed Hjson Hxdr Hsmall _ _ _ _ _ _ _ Hsim Hjs).
Qed.

Lemma live_RefreshProposal uid pid : ends d (RefreshProposal uid pid) live.
Proof using Hjson Hxdr Hsmall Hwf Hl.
  unfold RefreshProposal. apply (ends_owned _ Hwf); [done|]. intros id p a [] Hid _.
  apply ends_pending; [done|]. intros _. by eapply live_rebuildProposal.
Qed.

Lemma live_ApproveWebauthn uid pid mid s : ends d (ApproveWebauthn uid pid mid s) live.
Proof using Hwf Hl.
  unfold ApproveWebauthn. apply (ends_owned _ Hwf); [done|]. intros id p a [] Hid _.
  apply ends_pending; [done|]. intros _. apply (ends_member _ Hwf); [done|]. intros m Hm _ _ _ _.
  apply ends_read; [keeps|done|]. intros i ? ? _ _. apply ends_read; [keeps|done|]. intros now ? ? _ _.
  apply ends_last; [done| |intros; keeps]. intros j d' Hu. rewrite <- Hid in ow_proposal0.
  eapply live_upsert; [done|exact Hu|exact ow_proposal0|done|by intros ?|]. intros o x Hx. by left.
Qed.

Lemma live_ApproveDelegatedBegin uid pid mid : ends d (ApproveDelegatedBegin uid pid mid) live.
Proof using Hjson Hxdr Hsmall Hwf Hl.
  unfold ApproveDelegatedBegin. apply (ends_owned _ Hwf); [done|]. intros id p a [] Hid _.
  apply ends_pending; [done|]. intros _. eapply live_ensureFresh; [done..|].
  apply (ends_member _ Hwf); [done|]. intros m Hm _ _ _ _. destruct (String.eqb _ ""); [by apply ends_throw|].
  apply ends_read; [keeps|done|]. intros b64s w1 w2 _ [Hb _]%lift_ok.
  apply ends_read; [keeps|done|]. intros es w3 w4 _ He. apply (proj1 (wrap_ok _ _ _ _ _)), lift_ok in He as [He _].
  destruct (if _ : bool then _ else _) as [entry|] eqn:Ei; [|by apply ends_throw].
  apply ends_read; [unfold buildDelegatedCheckAuthTemplate, buildUnsignedDelegatedGCheckAuthEntry; keeps|done|].
  intros tmpl w5 w6 _ Ht. apply (proj1 (wrap_ok _ _ _ _ _)), (template_asks_digest _ _ _ _ _ _ _ _ _ Hxdr) in Ht as (dg & Hdg & Ht).
  assert (dg = mp_AuthDigestHex p) as ->.
  { destruct (dl_coherent _ Hl _ _ ow_proposal0) as [(b64s' & es' & e' & Hb' & He' & Hi' & Ei' & Hdg' & _)].
    rewrite Hb' in Hb. injection Hb as ->. rewrite He' in He. injection He as ->.
    destruct (_ || _); [done|]. rewrite Ei' in Ei. injection Ei as ->. congruence. }
  assert (forall x, nullStr (dt_EntryTemplateXdrBase64 tmpl) = Some x -> template_live (mp_AuthDigestHex p) x) as Hlive.
  { unfold nullStr. intros x. destruct (String.eqb _ ""); [done|]. by intros [= <-]. }
  apply ends_read; [keeps|done|]. intros i ? ? _ _. apply ends_read; [keeps|done|]. intros now ? ? _ _.
  apply ends_last; [done| |intros; keeps]. intros j d' Hu. rewrite <- Hid in ow_proposal0.
  eapply live_upsert; [done|exact Hu|exact ow_proposal0|done|exact Hlive|]. intros o x Hx. right. by apply Hlive.
Qed.

Lemma live_ApproveDelegatedFinish uid pid mid s g : ends d (ApproveDelegatedFinish uid pid mid s g) live.
Proof using Hwf Hl.
  unfold ApproveDelegatedFinish. apply (ends_owned _ Hwf); [done|]. intros id p a [] Hid _.
  apply ends_pending; [done|]. intros _. apply (ends_member _ Hwf); [done|]. intros m Hm _ _ _ _.
  apply ends_read; [keeps|done|]. intros ex ? ? _ _. destruct (String.eqb _ ""); [by apply ends_throw|].
  apply ends_read; [keeps|done|]. intros [] ? ? _ _.
  apply ends_last; [done| |intros; keeps]. intros [] d' [= <-]. by apply live_finish.
Qed.

Lemma live_ExecuteProposal uid pid : ends d (ExecuteProposal uid pid) live.
Proof using Hjson Hxdr Hsmall Hwf Hl.
  unfold ExecuteProposal. apply (ends_owned _ Hwf); [done|]. intros id p a [] Hid _.
  apply ends_pending; [done|]. intros _. eapply live_ensureFresh; [done..|].
  apply ends_read; [keeps|done|]. intros rows ? ? _ _. destruct (classify rows) as [ws ds].
  destruct (_ <? _); [by apply ends_throw|].
  destruct (pickApprovalsForThreshold _ _ _) as [[pw pd]|]; [|by apply ends_throw].
  do 3 (apply ends_read; [keeps|done|]; intros ? ? ? _ _).
  assert (forall d1, only_chain d d1 -> live d1) as Hsent by (intros d1 [l ->]; by apply live_chain).
  eapply ends_step; [apply keeps_SubmitAuthEntries|done|].
  intros result d1 Hd1. apply ends_last; [by apply Hsent| |intros; keeps]. intros [] d2 [= <-].
  apply live_executed. by apply Hsent.
Qed.
End From.

Lemma step_live d d' : proposals_wf d -> digests_live d -> proposal_step (J := J) d d' -> digests_live d'.
Proof using Hjson Hxdr Hsmall.
  intros Hwf Hl Hs. revert Hwf Hl. destruct Hs as [op w]. intros Hwf Hl. destruct op; cbn.
  - by apply (live_CreateProposal _ Hwf Hl).
  - rewrite <- (keeps_ListProposals (J := J) userID smartAccountAddress w). done.
  - rewrite <- (keeps_GetProposal (J := J) userID proposalID w). done.
  - by apply (live_RefreshProposal _ Hwf Hl).
  - by apply (live_ApproveWebauthn _ Hwf Hl).
  - by apply (live_ApproveDelegatedBegin _ Hwf Hl).
  - by apply (live_ApproveDelegatedFinish _ Hwf Hl).
  - by apply (live_ExecuteProposal _ Hwf Hl).
Qed.

Lemma steps_live d d' : proposals_wf d -> digests_live d -> rtc (proposal_step (J := J)) d d' -> digests_live d'.
Proof using Hjson Hxdr Hsmall.
  intros Hwf Hl Hs. revert Hwf Hl. induction Hs as [d|d d1 d' Hstep _ IH]; intros Hwf Hl; [done|].
  apply IH; [exact (pe_wf _ _ (proposal_step_evolve _ _ Hwf Hstep))|by eapply step_live].
Qed.

(** C4. Whatever requests were served, the digest shown to a proposal's signers
    is the digest of the authorization entry stored with it, every entry expires
    at the stored ledger, and each delegated approval kept for the proposal is a
    template that asks for that same digest: a rebuild never leaves an approval
    of the old digest behind. *)
Theorem digest_coherence d d' k p :
  proposals_wf d -> digests_live d -> rtc (proposal_step (J := J)) d d' ->
  proposals d' !! k = Some p ->
  coherent p /\
  forall i row t, approvals d' !! i = Some row -> mv_ProposalID row = k ->
    mv_DelegatedEntryTemplateXdr row = Some t -> template_live (mp_AuthDigestHex p) t.
Proof using Hjson Hxdr Hsmall.
  intros Hwf Hl Hs Ep. destruct (steps_live _ _ Hwf Hl Hs) as [Hc Ht]. split; [by eapply Hc|].
  intros i row t Er Eid. eapply Ht; [exact Er|by rewrite Eid].
Qed.

Lemma live_check_template d p ds digest :
  digests_live d -> proposals d !! mp_ID p = Some p -> mp_AuthDigestHex p = digest ->
  Forall (on_record d p usable_delegated) ds -> Forall (fun a => check_template digest a = Ok tt) ds.
Proof using Type.
  intros Hl Ep <- Hds. eapply Forall_impl; [exact Hds|]. intros a (k & row & m & Er & Eid & _ & _ & Hu & ->).
  unfold usable_delegated in Hu. cbn in Hu. unfold check_template. cbn.
  destruct (mv_DelegatedEntryTemplateXdr row) as [t|] eqn:Et.
  - destruct (dl_template _ Hl _ _ _ _ Er ltac:(by rewrite Eid) Et) as (e & He & Harg). cbn. rewrite He. cbn.
    by rewrite Harg, String.eqb_refl.
  - by destruct (String.eqb (mv_ApprovalType row) "delegated").
Qed.

(** The digest check an execution makes on its delegated approvals never
    fails for a stored approval: in every state requests can reach, each usable
    delegated approval of a proposal passes the check against the digest
    recomputed from the stored entries. *)
Theorem stored_templates_accepted d d' p ds :
  proposals_wf d -> digests_live d -> rtc (proposal_step (J := J)) d d' ->
  proposals d' !! mp_ID p = Some p -> Forall (on_record d' p usable_delegated) ds ->
  exists b64s entries e digest,
    decodeAuthEntriesJSON (mp_AuthEntriesXdrJson p) = Ok b64s /\ normalizeAuthEntries b64s = Ok entries /\
    entries !! Z.to_nat (mp_SmartAccountAuthEntryIndex p) = Some e /\
    computeAuthDigestHex e networkPassphrase (contextRuleIDsForEntry e (uint32 (mp_ContextRuleID p))) = Ok digest /\
    Forall (fun a => check_template digest a = Ok tt) ds.
Proof using Hjson Hxdr Hsmall.
  intros Hwf Hl Hs Ep Hds. pose proof (steps_live _ _ Hwf Hl Hs) as Hl'.
  destruct (dl_coherent _ Hl' _ _ Ep) as [(b64s & es & e & Hb & He & _ & Ei & Hdg & _)].
  exists b64s, es, e, (mp_AuthDigestHex p). do 4 (split; [done|]). by eapply live_check_template.
Qed.
End Requests.

Section Witnesses.
Import Demo DemoServices DemoProposals.

Lemma demo_json_round_trip : json_round_trip.
Proof.
  intros l s. cbn. case_bool_decide as E; [|done]. intros [= <-]. by rewrite E.
Qed.
Lemma demo_entries_round_trip : entry_round_trip.
Proof.
  split; intros e s; cbn.
  - destruct (safe_encode e) as [raw|] eqn:E; [|done]. cbn. intros [= <-].
    unfold decode_b64. rewrite Base64.std_decode_encode. cbn. by apply safe_encode_ok.
  - intros E. unfold decode_b64. rewrite Base64.std_decode_encode. cbn. by apply safe_encode_ok.
Qed.
Lemma demo_simulation_small (N := demo_n) : simulation_small.
Proof.
  intros tx n sim x auth. cbn. intros [= <-]. unfold demo_simulate.
  destruct (split_all tx) as [[|c [|f [|? [|? [|args ?]]]]]|]; cbn; try (by intros ?%not_elem_of_nil).
  destruct (decode_val args) as [[| | | | | | |[vs|]| | |]|]; cbn; try (by intros ?%not_elem_of_nil).
  unfold counter_read. repeat destruct (String.eqb f _); cbn; intros [= _ ->]%list_elem_of_singleton; cbn; lia.
Qed.
Lemma demo_live : digests_live (w_store world0).
Proof. split; cbn; intros *; by rewrite lookup_empty. Qed.

Lemma all_steps ops ops' :
  rtc (proposal_step (J := string) (H0 := demo_n) (H3 := demo_e)) (w_store world0) (w_store (run ops' (run ops world0))).
Proof.
  etrans; [exact (run_requests_steps (J := string) (H0 := demo_n) (H3 := demo_e) ops world0)|].
  exact (run_requests_steps (J := string) (H0 := demo_n) (H3 := demo_e) ops' (run ops world0)).
Qed.

Definition proposal_of (w : World Store) : option MultisigProposal := proposals (w_store w) !! 109%N.

Lemma digest_coherence_witness :
  exists p, proposal_of w_begun = Some p /\ coherent p.
Proof.
  assert (exists p, proposal_of w_begun = Some p) as [p Ep] by (eexists; vm_compute; reflexivity).
  exists p. split; [exact Ep|].
  exact (proj1 (digest_coherence (J := string) (H0 := demo_n) (H3 := demo_e) demo_json_round_trip
    demo_entries_round_trip demo_simulation_small (w_store world0) (w_store w_begun) 109%N p
    demo_wf demo_live (all_steps _ _) Ep)).
Defined.

(** The delegated approval user 2 started. *)
Definition begun_rows : list (MultisigApprovalRow * MultisigMember) :=
  List.filter usable_delegated (approvals_with_member 109%N (w_store w_ready)).

Lemma usable_on_record d id p usable :
  proposals_wf d -> proposals d !! id = Some p -> mp_ID p = id ->
  Forall (on_record d p usable) (approval_of_row <$> List.filter usable (approvals_with_member id d)).
Proof.
  intros Hwf Ep Eid. apply list.Forall_forall. intros a ([r m] & -> & Hin)%list_elem_of_fmap.
  apply list_elem_of_In, filter_In in Hin as [Hin Hf]. apply list_elem_of_In in Hin.
  apply elem_of_approvals_with_member in Hin as (Hp & [k Hk] & Hm).
  destruct (pw_member _ Hwf _ _ Hk) as (q & m' & Eq & Em & Hacc).
  exists k, r, m. split_and!; try done; congruence.
Qed.

Lemma stored_templates_accepted_witness :
  exists p digest, proposal_of w_ready = Some p /\ length (approval_of_row <$> begun_rows) = 1%nat /\
    Forall (fun a => check_template digest a = Ok tt) (approval_of_row <$> begun_rows).
Proof.
  assert (exists p, proposal_of w_ready = Some p /\ mp_ID p = 109%N) as (p & Ep & Eid)
    by (eexists; split; vm_compute; reflexivity).
  assert (Forall (on_record (w_store w_ready) p usable_delegated) (approval_of_row <$> begun_rows)) as Hds
    by exact (usable_on_record _ 109%N p usable_delegated ready_wf Ep Eid).
  destruct (stored_templates_accepted (J := string) (H0 := demo_n) (H3 := demo_e) demo_json_round_trip
    demo_entries_round_trip demo_simulation_small (w_store world0) (w_store w_ready) p
    (approval_of_row <$> begun_rows) demo_wf demo_live) as (b64s & es & e & digest & _ & _ & _ & _ & H).
  - etrans; [apply all_steps|]. exact (run_requests_steps (J := string) (H0 := demo_n) (H3 := demo_e) _ w_begun).
  - rewrite Eid. exact Ep.
  - exact Hds.
  - exists p, digest. split; [exact Ep|]. split; [vm_compute; reflexivity|exact H].
Defined.
End Witnesses.
End ProposalDigest.

(** ** Rebuilding a proposal

    A refreshed proposal is re-simulated from the operation it stores: what a
    refresh leaves in the tables, and that the rebuilt operation is the one the
    proposal was created with. *)
Module ProposalRefresh.
Import Signers ExecuteAuth Assets Balances ContextRules Amount Proposals ProposalSafety.

Section Refresh.
Context `{StellarSDK} `{Network} `{Unicode} `{UuidLib} `{Env} `{!TransactionSubmitter} `{ServiceConfig}
  `{Json sacTransferOperationParams} `{Json (list string)}.
Abbreviation W := (World Store).

(** The tables after a completed rebuild: the proposal has the new artifacts and
    no approvals, nothing else differs. *)
Definition rebuilt_store (id : uuid) (p : MultisigProposal) (artifacts : builtProposalArtifacts)
    (js : string) (d : Store) : Store :=
  set_proposals (<[id := proposal_rebuilt (rebuild_params artifacts js) p]> (proposals d))
    (set_approvals (delete_where (for_proposal id) (approvals d)) d).

(** A successful refresh of a pending proposal: its stored operation was
    simulated again, every approval of the old digest is gone, the proposal
    holds the new artifacts and is still pending, and the caller is told the
    digest and ledger now stored; no other row changed. *)
Theorem refresh_spec uid pid (w w' : W) result :
  proposals_wf (w_store w) -> RefreshProposal uid pid w = (Ok result, w') ->
  exists id p a op artifacts disc js w1 w2,
    owned (w_store w) pid uid id p a /\ pending p /\
    reconstructOperation (ma_SmartAccountAddress a) (mp_OperationKind p) (mp_TargetContractID p)
      (mp_OperationParamsJson p) = Ok op /\
    w_store w1 = w_store w /\
    simulateAndExtract (ma_SmartAccountAddress a) op w1 = (Ok (artifacts, disc), w2) /\
    json_marshal (ba_AuthEntriesB64 artifacts) = Ok js /\
    w_store w' = rebuilt_store id p artifacts js (w_store w) /\
    pending (proposal_rebuilt (rebuild_params artifacts js) p) /\
    result = {| rr_Refreshed := true; rr_ValidUntilLedger := ba_ValidUntilLedger artifacts;
                rr_AuthDigestHex := ba_AuthDigestHex artifacts |}.
Proof.
  intros Hwf Hr. unfold RefreshProposal in Hr.
  apply bind_ok in Hr as ([p a] & w1 & Ho & Hr). apply getOwnedProposal_ok in Ho as [S1 [id Ho]].
  destruct (String.eqb_spec (mp_Status p) "pending") as [Hp|]; cbn [negb] in Hr; [|by run_inv].
  unfold rebuildProposal in Hr. apply bind_ok in Hr as (op & w2 & [Hop ->]%lift_ok & Hr).
  apply bind_ok in Hr as ([artifacts disc] & w3 & Hsim & Hr).
  pose proof (keeps_run _ _ _ _ _ (keeps_simulateAndExtract _ _) Hsim) as S3. unfold on_store in S3.
  apply bind_ok in Hr as (js & w4 & Hjs & Hr). apply (proj1 (wrap_ok _ _ _ _ _)), lift_ok in Hjs as [Hjs ->].
  exists id, p, a, op, artifacts, disc, js, w2, w4. do 6 (split; [done|]).
  assert (mp_ID p = id) as Hid by (apply (pw_key _ Hwf), Ho). pose proof (ow_proposal _ _ _ _ _ _ Ho) as Ep.
  svc_inv. split; [|done].
  match goal with H : DeleteMultisigApprovalsForProposal _ _ = _ |- _ => injection H as <- end.
  match goal with H : UpdateMultisigProposalRebuild _ _ _ = _ |- _ => injection H as <- end.
  subst x2 x3. cbn. rewrite <- S3, S1. unfold rebuilt_store. f_equal. apply map_eq. intros k.
  destruct (decide (k = mp_ID p)) as [->|].
  - by rewrite lookup_alter, decide_True, lookup_insert_eq, Ep.
  - by rewrite lookup_alter_ne, lookup_insert_ne.
Qed.

(** The stored operation parameters are read back as they were written. *)
Definition params_round_trip : Prop :=
  forall (p : sacTransferOperationParams) s, json_marshal p = Ok s -> json_unmarshal s = Ok p.

Lemma reconstruct_built inp catalog (w w' : W) op :
  params_round_trip -> buildOperation inp catalog w = (Ok op, w') ->
  reconstructOperation (ci_SmartAccountAddress inp) (ci_OperationKind inp) (op_TargetContractID op)
    (op_ParamsJSON op) = Ok op.
Proof.
  intros Hrt. unfold buildOperation, reconstructOperation.
  destruct (String.eqb (ci_OperationKind inp) "counter_increment").
  { intros [Hb _]%lift_ok. pose proof Hb as Hb'. unfold buildCounterIncrementOperation in Hb.
    destruct (String.eqb _ ""); [done|]. run_inv. exact Hb'. }
  destruct (String.eqb (ci_OperationKind inp) "sac_transfer"); [|by intros ?; run_inv].
  unfold buildSacTransferOperation. destruct (String.eqb _ ""); [by intros ?; run_inv|]. intros Hr.
  apply bind_ok in Hr as (asset & w1 & _ & Hr). apply bind_ok in Hr as ([hi lo] & w2 & Hamt & Hr).
  apply (proj1 (wrap_ok _ _ _ _ _)), lift_ok in Hamt as [(Hhi & Hlo & _)%parse_inv _].
  apply bind_ok in Hr as ([bh bl] & w3 & _ & Hr). destruct (i128LessThan _ _ _ _); [by run_inv|].
  run_inv. cbn. match goal with H : json_marshal _ = Ok _ |- _ => rewrite (Hrt _ _ H) end. cbn.
  unfold formatI128Raw. rewrite parse_formatted by done. cbn.
  repeat match goal with H : ?m = Ok _ |- _ => rewrite H; clear H; cbn end. done.
Qed.

(** Rebuilding uses the operation the members approved: reconstructing a
    proposal's operation from what its creation stored — a counter call, or a
    transfer with its amount written as text — gives the same host function and
    target again. *)
Theorem operation_reconstructed inp catalog (w w' : W) op :
  params_round_trip -> buildOperation inp catalog w = (Ok op, w') ->
  reconstructOperation (ci_SmartAccountAddress inp) (ci_OperationKind inp) (op_TargetContractID op)
    (op_ParamsJSON op) = Ok op.
Proof. apply reconstruct_built. Qed.
End Refresh.

Section Witnesses.
Import Demo DemoServices DemoProposals.

Lemma demo_params_round_trip : params_round_trip.
Proof.
  intros [t r a i y m] s. unfold json_marshal, json_unmarshal, json_params.
  cbn [json_marshal json_strings sp_TokenContractID sp_Recipient sp_AmountI128 sp_AssetID sp_Symbol sp_Amount].
  case_bool_decide as E; [|done]. intros Hs. assert (s = join [t; r; a; i; y; m]) as -> by (by inversion Hs).
  by rewrite E.
Qed.

Lemma refresh_spec_witness :
  exists result w' id p artifacts js,
    RefreshProposal (H0 := demo_n) (H3 := demo_e) "1" "109" w_begun = (Ok result, w') /\
    w_store w' = rebuilt_store id p artifacts js (w_store w_begun).
Proof.
  assert (exists result w', RefreshProposal (H0 := demo_n) (H3 := demo_e) "1" "109" w_begun = (Ok result, w'))
    as (result & w' & Hr) by (eexists _, _; vm_compute; reflexivity).
  destruct (refresh_spec (H0 := demo_n) (H3 := demo_e) _ _ _ _ _ (run_wf _ w_created created_wf) Hr)
    as (id & p & a & op & artifacts & disc & js & w1 & w2 & _ & _ & _ & _ & _ & _ & E & _).
  exists result, w', id, p, artifacts, js. split; [exact Hr|exact E].
Defined.

Lemma operation_reconstructed_witness :
  exists op w', buildOperation (H0 := demo_n) transfer_input [demo_asset] world0 = (Ok op, w') /\
    reconstructOperation "CS" "sac_transfer" "CL" (op_ParamsJSON op) = Ok op.
Proof.
  assert (exists op w', buildOperation (H0 := demo_n) transfer_input [demo_asset] world0 = (Ok op, w')
    /\ op_TargetContractID op = "CL") as (op & w' & Hr & Ht) by (eexists _, _; split; vm_compute; reflexivity).
  exists op, w'. split; [exact Hr|]. rewrite <- Ht.
  exact (operation_reconstructed (H0 := demo_n) transfer_input [demo_asset] world0 w' op
    demo_params_round_trip Hr).
Defined.
End Witnesses.
End ProposalRefresh.
