(* ===== verification/BuildTheorems.v ===== *)
(** * What the built transactions are worth (theorems about Build.v, BuildTx.v
    and SetupRules.v)

    Building reads and never writes; the digest a client signs is the one the
    submitted entry stands for; the fee plan is one the wallet can pay; a change
    of rules never touches the rule that authorizes it. *)

From S2P Require Import Instances DemoProposals SetupRules DemoBuild ProposalDigest.

#[local] Unset Default Proof Using.

Module BuildTheorems.
Import Deploynet Assets Amount Balances ContextRules Signers ExecuteAuth Submit SubmitSigned Build BuildTx AccountSigners SetupRules ProposalDigest.

Section Contexts.
Context `{StellarSDK}.

(** ** One rule id per context, in the order the contract numbers them *)

(** The contract each context of the call authorizes, "" for a deployment. *)
Fixpoint context_contracts (inv : Invocation) : list (res string) :=
  match inv with
  | MkInvocation fn subs =>
      match fn with ContractFn address _ _ => scaddress_string address | CreateContractFn _ => Ok "" end
        :: flat_map context_contracts subs
  end.

Lemma count_contexts inv : countAuthContexts inv = length (context_contracts inv).
Proof.
  revert inv. fix IH 1. intros [fn subs]. cbn. f_equal. induction subs as [|sub subs IHs]; cbn; [done|].
  by rewrite length_app, IH, IHs.
Qed.

Context `{Env} {C : Type} (ruleFor : string -> C -> M (World Store) (Z * C)) (I : C -> Prop) (good : string -> Z -> Prop).
Context (Hrule : forall c st w id st' w', I st -> ruleFor c st w = (Ok (id, st'), w') -> good c id /\ I st').

Lemma walk_ok inv st w ids st' w' :
  I st -> rule_ids_walk ruleFor inv st w = (Ok (ids, st'), w') ->
  Forall2 (fun c id => exists contract, c = Ok contract /\ good contract id) (context_contracts inv) ids /\ I st'.
Proof using Hrule.
  revert inv st w ids st' w'. fix IH 1. intros [fn subs] st w ids st' w' Hst. cbn.
  intros (contract & w1 & Hc & Hr)%bind_ok. apply bind_ok in Hr as ([id st1] & w2 & Hid & Hr).
  apply bind_ok in Hr as ([ids' st2] & w3 & Hs & Hr). apply ret_ok in Hr as [[= <- <-] ->].
  assert (match fn with ContractFn address _ _ => scaddress_string address | CreateContractFn _ => Ok "" end = Ok contract) as Hc'.
  { destruct fn; run_inv; done. }
  apply Hrule in Hid as [Hg Hst1]; [|done]. clear Hc Hst.
  enough (Forall2 (fun c id => exists contract, c = Ok contract /\ good contract id) (flat_map context_contracts subs) ids' /\ I st2)
    as [Hf ?] by (split; [constructor; eauto|done]).
  clear Hg Hc' w1. revert st1 w2 ids' st2 w' Hst1 Hs. induction subs as [|sub subs IHs]; intros st1 w2 ids' st2 w' Hst Hr; cbn in Hr.
  { apply ret_ok in Hr as [[= <- <-] _]. by split; [constructor|]. }
  apply bind_ok in Hr as ([a st3] & w3 & Ha & Hr). apply bind_ok in Hr as ([b st4] & w4 & Hb & Hr).
  apply ret_ok in Hr as [[= <- <-] _]. apply IH in Ha as [Ha Hst3]; [|done].
  apply IHs in Hb as [Hb ?]; [|done]. cbn. split; [by apply Forall2_app|done].
Qed.
End Contexts.

(** ** Building only reads *)
Section ReadOnly.
Context `{StellarSDK} `{Network} `{SubmitNetwork} `{Gasless} `{GaslessQuotes} `{Env} `{ServiceConfig} `{BuilderConfig}.
Context `{EnvelopeCodec} `{Json SimulationSummary} `{UuidLib} `{Unicode} `{Deployment}.
Abbreviation W := (World Store).
Abbreviation reads m := (keeps (on_store (D := Store) eq) m).

Lemma reads_getRule s id : reads (getRule s id).
Proof. unfold getRule. keeps. Qed.
Lemma reads_DiscoverDefault s : reads (DiscoverDefaultContextRule s).
Proof.
  unfold DiscoverDefaultContextRule, rulesCount. keeps. generalize 0. generalize (Z.to_nat (Z.min a maxContextRuleScan)).
  intros n. induction n as [|n IH]; intros id; cbn; [keeps|]. unfold getRule. keeps; apply IH.
Qed.
Lemma reads_FindRuleForSigner s v k t : reads (FindRuleForSigner s v k t).
Proof.
  unfold FindRuleForSigner, rulesCount. keeps. generalize 0, (None : option Z).
  generalize (Z.to_nat (Z.min a maxContextRuleScan)). intros n. induction n as [|n IH]; intros id dflt; cbn; [keeps|].
  unfold getRule. keeps; apply IH.
Qed.
Lemma reads_ListContextRules s : reads (ListContextRules s).
Proof.
  unfold ListContextRules, rulesCount. keeps. generalize 0.
  generalize (Z.to_nat (Z.min a maxContextRuleScan)). intros n. induction n as [|n IH]; intros id; cbn; [keeps|].
  unfold getRule. keeps; apply IH.
Qed.
Lemma reads_balanceOf t h : reads (balanceOf t h).
Proof. unfold balanceOf, simulateReadCall. keeps. Qed.
#[local] Hint Resolve reads_getRule reads_DiscoverDefault reads_FindRuleForSigner reads_ListContextRules reads_balanceOf : keeps.

Lemma reads_choose_token wallet fee token amount tokens e : reads (choose_token wallet fee token amount tokens e).
Proof. revert e. induction tokens as [|t tokens IH]; intros e; cbn; keeps; apply IH. Qed.
#[local] Hint Resolve reads_choose_token : keeps.
Lemma reads_planForward wallet target token amount : reads (planForward wallet target token amount).
Proof. unfold planForward, simulateResourceFee. keeps. Qed.
Lemma reads_resolveSignerRule s ty g k c : reads (resolveSignerRule s ty g k c).
Proof. unfold resolveSignerRule, RuleAtID. keeps. Qed.
Lemma reads_walk {C} (ruleFor : string -> C -> M W (Z * C)) inv st :
  (forall c st, reads (ruleFor c st)) -> reads (rule_ids_walk ruleFor inv st).
Proof.
  intros Hr. revert inv st. fix IH 1. intros [fn subs] st. cbn. keeps; try apply Hr.
  all: match goal with |- keeps _ (_ ?s) => generalize s end; induction subs as [|sub subs IHs]; intros ?; keeps; first [apply IH | apply IHs].
Qed.
Lemma reads_add_entry s g d v st : reads (add_entry s g d v st).
Proof. unfold add_entry, buildUnsignedDelegatedGCheckAuthEntry, randomNonce48. keeps. Qed.
#[local] Hint Resolve reads_planForward reads_resolveSignerRule reads_add_entry : keeps.
Lemma reads_templates s g d v : reads (buildDelegatedSigningTemplates s g d v).
Proof. unfold buildDelegatedSigningTemplates, buildUnsignedDelegatedGCheckAuthEntry, randomNonce48. keeps. Qed.
#[local] Hint Resolve reads_templates : keeps.
Lemma reads_core inp buildTx : (forall es d, reads (buildTx es d)) -> reads (buildAuthTransactionCore inp buildTx).
Proof. intros Hb. unfold buildAuthTransactionCore, finish_core, synthesizeDelegatedGEntry. keeps; apply Hb. Qed.
Lemma reads_setup fn inp : reads (buildSetupAuthTransaction fn inp).
Proof. unfold buildSetupAuthTransaction. keeps. apply reads_core. intros. unfold bundler_tx. keeps. Qed.
#[local] Hint Resolve reads_setup : keeps.
Lemma reads_prepared tx op es d : reads (prepared_tx tx op es d).
Proof. unfold prepared_tx. keeps. Qed.
Lemma reads_BuildSend inp catalog : reads (BuildSend inp catalog).
Proof.
  unfold BuildSend, send_rule, contextRuleIDsPerContext, sign_digest, finish_build, bundler_tx. keeps.
  apply reads_walk. intros. unfold send_ruleFor. keeps.
Qed.
Lemma reads_PrepareSign inp : reads (PrepareSign inp).
Proof. unfold PrepareSign, prepare_rule, RuleAtID, sign_digest, finish_build. keeps. apply reads_prepared. Qed.
Lemma reads_BuildSwap inp : reads (BuildSwap inp).
Proof. unfold BuildSwap, swap_rule, RuleAtID. keeps. apply reads_core. intros. unfold bundler_tx. keeps. Qed.
Lemma reads_BuildCounter s g : reads (BuildCounter s g).
Proof. unfold BuildCounter, counter_call. keeps. apply reads_core. intros. unfold bundler_tx. keeps. Qed.
Lemma reads_BuildDelegatedCounter s g : reads (BuildDelegatedCounter s g).
Proof. unfold BuildDelegatedCounter, counter_call, bundler_tx. keeps. Qed.
Lemma reads_missing inp v assets : reads (missing_assets inp v assets).
Proof. induction assets as [|a assets IH]; cbn; unfold RuleAtID; keeps; apply IH. Qed.
#[local] Hint Resolve reads_missing : keeps.
Lemma reads_SetupSendRules inp catalog : reads (SetupSendRules inp catalog).
Proof. unfold SetupSendRules, resolveAdminBundlerDelegatedAuth, RuleAtID. keeps. Qed.
Lemma reads_SetupSwapRules inp : reads (SetupSwapRules inp).
Proof. unfold SetupSwapRules, RuleAtID. keeps. Qed.
Lemma reads_AddSigner s k : reads (AddSigner s k).
Proof. unfold AddSigner. keeps. Qed.
Lemma reads_RemoveSigner s id : reads (RemoveSigner s id).
Proof. unfold RemoveSigner, RuleAtID. keeps. Qed.

(** Building a transaction never sends one and writes no table: whatever the
    request and whatever fails, the store is the one the route started from. *)
Theorem builders_read_only :
  (forall inp catalog (w : W), w_store (snd (BuildSend inp catalog w)) = w_store w) /\
  (forall inp (w : W), w_store (snd (PrepareSign inp w)) = w_store w) /\
  (forall inp (w : W), w_store (snd (BuildSwap inp w)) = w_store w) /\
  (forall s g (w : W), w_store (snd (BuildCounter s g w)) = w_store w) /\
  (forall s g (w : W), w_store (snd (BuildDelegatedCounter s g w)) = w_store w) /\
  (forall inp catalog (w : W), w_store (snd (SetupSendRules inp catalog w)) = w_store w) /\
  (forall inp (w : W), w_store (snd (SetupSwapRules inp w)) = w_store w) /\
  (forall s k (w : W), w_store (snd (AddSigner s k w)) = w_store w) /\
  (forall s id (w : W), w_store (snd (RemoveSigner s id w)) = w_store w).
Proof.
  split_and!; intros; symmetry;
    [apply reads_BuildSend | apply reads_PrepareSign | apply reads_BuildSwap | apply reads_BuildCounter
    | apply reads_BuildDelegatedCounter | apply reads_SetupSendRules | apply reads_SetupSwapRules
    | apply reads_AddSigner | apply reads_RemoveSigner].
Qed.
End ReadOnly.

(** ** The digest and the entry it stands for *)
Section Agreement.
Context `{StellarSDK} `{Network} `{SubmitNetwork} `{Gasless} `{GaslessQuotes} `{Env} `{ServiceConfig} `{BuilderConfig}.
Context `{EnvelopeCodec} `{Json SimulationSummary}.
Abbreviation W := (World Store).

Lemma classify_ok i s g entries k native :
  classify_entries i s g entries = (Some k, native) ->
  (i <= k)%nat /\ exists e, entries !! (k - i)%nat = Some e /\ classifyAuthEntryRole e s g = RoleSmartAccountCustom.
Proof.
  revert i k native. induction entries as [|e es IH]; intros i k native; cbn; [done|].
  destruct (classify_entries (S i) s g es) as [smart nat'] eqn:E.
  destruct (classifyAuthEntryRole e s g) eqn:Er; intros [= -> <-].
  2: { split; [lia|]. exists e. by rewrite Nat.sub_diag. }
  all: destruct (IH _ _ _ E) as (Hle & x & Hx & Hrole); split; [lia|]; exists x; split; [|done];
    replace (k - i)%nat with (S (k - S i)) by lia; done.
Qed.

Lemma role_custom e s g : classifyAuthEntryRole e s g = RoleSmartAccountCustom ->
  addressStringFromCredentials e = Some s /\ exists c, ae_Credentials e = SorobanAddress c.
Proof.
  unfold classifyAuthEntryRole. destruct (addressStringFromCredentials e) as [a|] eqn:Ea; [|done].
  destruct (String.eqb_spec a s) as [->|]; [|by destruct (_ && _)]. intros _. split; [done|].
  unfold addressStringFromCredentials in Ea. destruct (ae_Credentials e); [done|eauto].
Qed.

Lemma digest_with_signature v e c p ids :
  ae_Credentials e = SorobanAddress c -> computeAuthDigest (with_signature v e c) p ids = computeAuthDigest e p ids.
Proof. intros Hc. unfold computeAuthDigest, hashSorobanAuthPayload. by rewrite Hc. Qed.

(** An AuthPayload's rule ids are read back from the entry that carries it. *)
Lemma ids_read_back ids signers e c : ids <> [] ->
  contextRuleIDsFromSmartAccountAuthEntry
    (with_signature (scMap [scMapEntry "context_rule_ids" (scVec (scU32 <$> ids)); signers]) e c) = ids.
Proof. intros Hne. cbn. by rewrite u32_ids_map. Qed.

Lemma resolve_read_back ids signers e c body : ids <> [] ->
  resolveContextRuleIDs
    (with_signature (scMap [scMapEntry "context_rule_ids" (scVec (scU32 <$> ids)); signers]) e c) body = Ok ids.
Proof. intros Hne. unfold resolveContextRuleIDs. rewrite ids_read_back by done. by destruct ids. Qed.

Lemma add_entry_ok s g d v st w st' w' :
  add_entry s g d v st w = (Ok st', w') -> exists e, sy_entries st' = sy_entries st ++ [e].
Proof. unfold add_entry. intros ?. run_inv. eauto. Qed.

(** What the client is given at the smart account's index: the entry [e], whose
    digest over [ids] is the one to sign. *)
Definition offers (s : string) (ids : list Z) (b : BuildAuthTransactionResult) (e : AuthEntry) : Prop :=
  exists entries digest,
    encode_entries entries = Ok (bt_AuthEntriesXdr b) /\ entries !! bt_SmartAccountAuthEntryIndex b = Some e /\
    addressStringFromCredentials e = Some s /\ bt_ContextRuleIDs b = ids /\
    computeAuthDigest e networkPassphrase ids = Ok digest /\ bt_AuthDigestHex b = hex_encode digest.

(** Whether a rule lets this signer sign, and a rule read from the chain that does. *)
Definition rule_signs (signerType signerG keyDataHex : string) (rule : ContextRuleSummary) : bool :=
  if String.eqb signerType "passkey" && negb (String.eqb keyDataHex "")
  then ruleHasExactExternalSigner rule webauthnVerifierAddress keyDataHex
  else if String.eqb signerType "delegated" then negb (String.eqb signerG "") && ruleAuthorizesSigner rule signerType "" signerG
  else ruleAuthorizesSigner rule signerType
         (if String.eqb signerType "ed25519" then ed25519VerifierAddress else webauthnVerifierAddress) "".
Definition chain_rule (s : string) (id : Z) (P : ContextRuleSummary -> bool) : Prop :=
  exists (w w' : W) rule, RuleAtID s id w = (Ok (Some rule), w') /\ P rule = true.

(** A rule that covers calls on [contract]. *)
Definition covers (contract : string) (rule : ContextRuleSummary) : bool :=
  cr_IsDefault rule || String.eqb (cr_CallContractAddress rule) contract.

Lemma chain_rule_impl s id (P Q : ContextRuleSummary -> bool) :
  (forall rule, P rule = true -> Q rule = true) -> chain_rule s id P -> chain_rule s id Q.
Proof. intros HPQ (w & w' & rule & Hr & HP). exists w, w', rule. auto. Qed.

Lemma find_signer_chain s v k t n i dflt (w w' : W) id d :
  (forall x, dflt = Some x -> chain_rule s x (fun rule => ruleHasExactExternalSigner rule v k && covers t rule)) ->
  find_signer_from s v k t n i dflt w = (Ok (Some (id, d)), w') ->
  chain_rule s id (fun rule => ruleHasExactExternalSigner rule v k && covers t rule).
Proof.
  revert i dflt w. induction n as [|n IH]; intros i dflt w Hd; cbn.
  - destruct dflt as [x|]; [|done]. intros [[= <- _] _]%ret_ok. by apply Hd.
  - intros (r & w1 & Hg & Hr)%bind_ok. destruct r as [rule|]; [|by eapply IH in Hr].
    destruct (ruleHasExactExternalSigner rule v k) eqn:Er; cbn [negb] in Hr; [|by eapply IH in Hr].
    destruct (_ && _) eqn:Et.
    + apply ret_ok in Hr as [[= <- _] _]. exists w, w1, rule. split; [done|]. unfold covers.
      apply andb_prop in Et as [_ ->]. by rewrite Er, orb_true_r.
    + eapply IH in Hr; [done|]. intros x Hx. destruct dflt as [x0|]; [by apply Hd|].
      destruct (cr_IsDefault rule) eqn:Edf; [|done]. injection Hx as <-. exists w, w1, rule. split; [done|].
      unfold covers. by rewrite Er, Edf.
Qed.

Lemma FindRuleForSigner_covers s v k t (w w' : W) id d :
  FindRuleForSigner s v k t w = (Ok (Some (id, d)), w') ->
  chain_rule s id (fun rule => ruleHasExactExternalSigner rule v k && covers t rule).
Proof. unfold FindRuleForSigner. intros (count & w1 & _ & Hr)%bind_ok. eapply find_signer_chain; [|exact Hr]. done. Qed.
Lemma FindRuleForSigner_chain s v k t (w w' : W) id d :
  FindRuleForSigner s v k t w = (Ok (Some (id, d)), w') ->
  chain_rule s id (fun rule => ruleHasExactExternalSigner rule v k).
Proof. intros Hr%FindRuleForSigner_covers. eapply chain_rule_impl; [|exact Hr]. intros rule [? _]%andb_prop. done. Qed.

Lemma DiscoverContextRule_matched s t (w w' : W) id :
  DiscoverContextRule s t w = (Ok (id, ContextRuleDiscoveryMatched), w') -> chain_rule s id (covers t).
Proof.
  unfold DiscoverContextRule. intros (count & w1 & _ & Hr)%bind_ok. revert w1 Hr. generalize 0, (None : option Z).
  generalize (Z.to_nat (Z.min count maxContextRuleScan)). intros n. induction n as [|n IH]; intros i dflt w1; cbn.
  - by destruct dflt; intros [[=] _]%ret_ok.
  - intros (r & w2 & Hg & Hr)%bind_ok. destruct r as [rule|]; [|by eapply IH].
    destruct (String.eqb _ t) eqn:Et; [|by eapply IH]. apply ret_ok in Hr as [[= <-] _].
    exists w1, w2, rule. split; [done|]. unfold covers. by rewrite Et, orb_true_r.
Qed.

Lemma resolveSignerRule_chain s ty g k c (w w' : W) id :
  resolveSignerRule s ty g k c w = (Ok (Some id), w') -> chain_rule s id (rule_signs ty g k).
Proof.
  unfold resolveSignerRule, rule_signs. destruct (_ && _) eqn:Ep.
  - intros Hr. run_inv. match goal with H : _ <$> ?found = Some _ |- _ => destruct found as [[x d]|]; [injection H as <-|done] end.
    by eapply FindRuleForSigner_chain.
  - intros (x & w1 & _ & Hr)%bind_ok. destruct x as [x d]. case_bool_decide; [by apply ret_ok in Hr as [[=] _]|].
    apply bind_ok in Hr as (found & w2 & Hg & Hr). destruct found as [rule|]; [|by apply ret_ok in Hr as [[=] _]].
    apply ret_ok in Hr as [Hr _]. exists w1, w2, rule.
    destruct (String.eqb ty "delegated"); [|destruct (String.eqb ty "ed25519")];
      match type of Hr with (if ?b then _ else _) = _ => destruct b eqn:Eb; [injection Hr as ->|done] end;
      split; (exact Hg || exact Eb || done).
Qed.
(** The rule a call of a send is signed against: for the fee forwarder, and for a
    fee token other than the asset, one read from the chain that lets the signer
    sign; for every other call the asset's rule. *)
Definition send_rule_for (inp : BuildSendInput) (asset feeForwarder feeToken : string) (assetRule : Z)
    (contract : string) (id : Z) : Prop :=
  if bool_decide (contract <> asset /\ (contract = feeForwarder \/ contract = feeToken))
  then chain_rule (bi_SmartAccountAddress inp) id (rule_signs (bi_SignerType inp) (bi_SignerG inp) (bi_KeyDataHex inp))
  else id = assetRule.

Lemma send_ruleFor_ok inp asset plan assetRule c rules (w : W) id rules' w' :
  (forall c id, rules !! c = Some id -> send_rule_for inp asset (fw_feeForwarder plan) (nf_Token (fw_fee plan)) assetRule c id) /\
    rules !! asset = Some assetRule ->
  send_ruleFor inp assetRule plan c rules w = (Ok (id, rules'), w') ->
  send_rule_for inp asset (fw_feeForwarder plan) (nf_Token (fw_fee plan)) assetRule c id /\
  (forall c id, rules' !! c = Some id -> send_rule_for inp asset (fw_feeForwarder plan) (nf_Token (fw_fee plan)) assetRule c id) /\
    rules' !! asset = Some assetRule.
Proof.
  intros [Hall Hasset]. unfold send_ruleFor. destruct (rules !! c) as [id0|] eqn:Ec.
  { intros [[= <- <-] _]%ret_ok. eauto. }
  assert (c <> asset) as Hc by congruence.
  destruct (String.eqb_spec c (fw_feeForwarder plan)), (String.eqb_spec c (nf_Token (fw_fee plan))); cbn [negb andb].
  4: { intros [[= <- <-] _]%ret_ok. split; [|done]. unfold send_rule_for. rewrite bool_decide_false; [done|tauto]. }
  all: intros (found & w1 & Hf & Hr)%bind_ok; apply (proj1 (wrap_ok _ _ _ _ _)) in Hf; destruct found as [id1|]; [|done];
    apply ret_ok in Hr as [[= <- <-] _]; apply resolveSignerRule_chain in Hf;
    assert (send_rule_for inp asset (fw_feeForwarder plan) (nf_Token (fw_fee plan)) assetRule c id1)
      by (unfold send_rule_for; rewrite bool_decide_true; [done|tauto]);
    split_and!; [done| |by rewrite lookup_insert_ne];
    intros c' id'; destruct (decide (c = c')) as [<-|]; [rewrite lookup_insert_eq; by intros [= <-]|rewrite lookup_insert_ne by done; apply Hall].
Qed.

Lemma send_rule_chain s ty k c (w w' : W) id d :
  send_rule s ty k c w = (Ok (id, d), w') -> ty = "passkey" -> k <> "" ->
  chain_rule s id (fun rule => ruleHasExactExternalSigner rule webauthnVerifierAddress k).
Proof.
  unfold send_rule. intros Hr -> Hk. rewrite (proj2 (String.eqb_neq k "") Hk) in Hr. cbn in Hr.
  apply bind_ok in Hr as (found & w1 & Hf & Hr). apply (proj1 (wrap_ok _ _ _ _ _)) in Hf.
  destruct found as [[id0 d0]|]; [|done]. apply ret_ok in Hr as [[= <- _] _]. by eapply FindRuleForSigner_chain.
Qed.

(** What [BuildSend] returns. *)
Lemma BuildSend_offers inp catalog (w w' : W) r :
  BuildSend inp catalog w = (Ok r, w') ->
  exists e0 c feeForwarder ids, ae_Credentials e0 = SorobanAddress c /\
    let e := embedContextRuleIDs e0 ids in
    offers (bi_SmartAccountAddress inp) ids (bs_Build r) e /\ ids <> [] /\
    Forall2 (fun ct id => exists contract, ct = Ok contract /\
      send_rule_for inp (ca_ContractID (bs_Asset r)) feeForwarder (nf_Token (bs_NetworkFee r))
        (bt_ContextRuleID (bs_Build r)) contract id)
      (context_contracts (ae_RootInvocation e)) ids /\
    (bi_SignerType inp = "passkey" -> bi_KeyDataHex inp <> "" ->
       chain_rule (bi_SmartAccountAddress inp) (bt_ContextRuleID (bs_Build r))
         (fun rule => ruleHasExactExternalSigner rule webauthnVerifierAddress (bi_KeyDataHex inp))).
Proof.
  unfold BuildSend. intros Hr.
  apply bind_ok in Hr as (asset & w1 & Ha & Hr). apply bind_ok in Hr as ([hi lo] & w2 & _ & Hr).
  apply bind_ok in Hr as ([ruleID disc] & w3 & Hrule & Hr). apply bind_ok in Hr as (transfer & w4 & _ & Hr).
  apply bind_ok in Hr as (plan & w5 & _ & Hr). apply bind_ok in Hr as (seq & w6 & _ & Hr).
  apply bind_ok in Hr as (tx & w7 & _ & Hr). apply bind_ok in Hr as (sim & w8 & _ & Hr).
  apply bind_ok in Hr as (entries0 & w9 & _ & Hr).
  destruct (setAddressCredentialExpiration _ _ _) as [entries valid].
  destruct (classify_entries _ _ _ _) as [[idx|] native] eqn:Ecl; [|done].
  apply classify_ok in Ecl as (_ & e0 & He0 & Hrole). rewrite Nat.sub_0_r in He0.
  apply bind_ok in Hr as (e1 & w10 & He1 & Hr). apply lift_ok in He1 as [[_ He1]%entry_at_ok ->].
  rewrite Nat2Z.id, He0 in He1. injection He1 as <-.
  apply role_custom in Hrole as [Haddr [c Hc]].
  apply bind_ok in Hr as (ids & w11 & Hids & Hr).
  apply bind_ok in Hr as ([[payload digest] st] & w12 & Hsign & Hr). apply bind_ok in Hr as (built & w13 & Hb & Hr).
  apply ret_ok in Hr as [<- _].
  unfold sign_digest in Hsign. apply bind_ok in Hsign as (p & w14 & _ & Hsign).
  apply bind_ok in Hsign as (dg & w15 & Hdg & Hsign). apply bind_ok in Hsign as (st' & w16 & Hst & Hsign).
  apply ret_ok in Hsign as [[= -> -> ->] _]. apply (proj1 (wrap_ok _ _ _ _ _)), lift_ok in Hdg as [Hdg _].
  assert (exists more, sy_entries st = (<[idx := embedContextRuleIDs e0 ids]> entries ++ more)%list) as [more Hmore].
  { destruct (_ && _); [apply add_entry_ok in Hst as [e' ->]; by exists [e']|].
    apply ret_ok in Hst as [<- _]. exists []. by rewrite app_nil_r. }
  unfold finish_build in Hb. run_inv. cbn [bs_Build bs_Asset bs_NetworkFee bt_ContextRuleID].
  unfold contextRuleIDsPerContext in Hids. apply bind_ok in Hids as ([ids' rules] & w20 & Hwalk & Hids).
  apply ret_ok in Hids as [-> _].
  eapply (walk_ok _ (fun rules : gmap string Z => (forall c id, rules !! c = Some id ->
      send_rule_for inp (ca_ContractID asset) (fw_feeForwarder plan) (nf_Token (fw_fee plan)) ruleID c id)
      /\ rules !! ca_ContractID asset = Some ruleID)
    (send_rule_for inp (ca_ContractID asset) (fw_feeForwarder plan) (nf_Token (fw_fee plan)) ruleID)) in Hwalk
    as [Hwalk _]; cycle 1.
  { intros. by eapply send_ruleFor_ok. }
  { split; [|apply lookup_singleton_eq]. intros ct id. destruct (decide (ca_ContractID asset = ct)) as [<-|];
      [rewrite lookup_singleton_eq; intros [= <-]|by rewrite lookup_singleton_ne].
    unfold send_rule_for. rewrite bool_decide_false; [done|tauto]. }
  assert (ids <> []) as Hne.
  { intros ->. apply Forall2_length in Hwalk. destruct (ae_RootInvocation e0). done. }
  exists e0, c, (fw_feeForwarder plan), ids. split; [done|]. cbn zeta. split_and!; [| done | |].
  - match goal with H : encode_entries _ = Ok _ |- _ => rewrite Hmore in H; eexists _, _; split; [exact H|] end. cbn.
    split_and!; [| |done|exact Hdg|done].
    + rewrite lookup_app_l; [|rewrite length_insert; by eapply lookup_lt_Some].
      apply list_lookup_insert_eq. by eapply lookup_lt_Some.
    + revert Haddr. unfold addressStringFromCredentials, embedContextRuleIDs. rewrite Hc. done.
  - unfold embedContextRuleIDs. rewrite Hc. exact Hwalk.
  - intros Hty Hk. eapply send_rule_chain; eauto.
Qed.
(** ** The shared builder *)
Definition rewrites (inp : authTransactionCoreInput) : bool :=
  ai_bundlerDelegatedAuthMode inp || String.eqb (ai_signerType inp) "delegated" && negb (String.eqb (ai_signerG inp) "").

Lemma synthesize_ok s g d v st w st' w' :
  synthesizeDelegatedGEntry s g d v st w = (Ok st', w') -> exists more, sy_entries st' = (sy_entries st ++ more)%list.
Proof.
  unfold synthesizeDelegatedGEntry. destruct (existsb _ _).
  - intros [<- _]%ret_ok. exists []. by rewrite app_nil_r.
  - intros [e ->]%add_entry_ok. by exists [e].
Qed.

Lemma rewrite_ok entries idx g ids out e c :
  rewriteSmartAccountEntrySignature entries idx g ids = Ok out -> entries !! idx = Some e -> ae_Credentials e = SorobanAddress c ->
  exists v, buildDelegatedAuthPayload g ids = Ok v /\ out = <[idx := with_signature v e c]> entries.
Proof.
  unfold rewriteSmartAccountEntrySignature, attach_payload. intros Hr He Hc. run_inv.
  match goal with H : entry_at _ _ = Ok _ |- _ => apply entry_at_ok in H as [_ He1]; rewrite Nat2Z.id, He in He1; injection He1 as <- end.
  match goal with H : context [ae_Credentials e] |- _ => rewrite Hc, Nat2Z.id in H end. run_inv. eauto.
Qed.

Lemma payload_resolves g ids v e c body :
  buildDelegatedAuthPayload g ids = Ok v -> ids <> [] -> resolveContextRuleIDs (with_signature v e c) body = Ok ids.
Proof. unfold buildDelegatedAuthPayload. intros Hv Hne. run_inv. by apply resolve_read_back. Qed.

Lemma for_entry_not_nil e id : contextRuleIDsForEntry e id <> [].
Proof. unfold contextRuleIDsForEntry. by destruct (ae_RootInvocation e). Qed.

(** The three ways the core ends leave the same shape: entries that extend those it
    started from, the account's one either as it was or with the payload put in. *)
Definition ends_as (inp : authTransactionCoreInput) (idx : nat) (ids : list Z) (entries : list AuthEntry)
    (e : AuthEntry) (c : AddressCredentials) (result r : BuildAuthTransactionResult) : Prop :=
  exists final e', encode_entries final = Ok (bt_AuthEntriesXdr r) /\ final !! idx = Some e' /\
    (e' = e /\ rewrites inp = false \/ exists g v, buildDelegatedAuthPayload g ids = Ok v /\ e' = with_signature v e c) /\
    bt_SmartAccountAuthEntryIndex r = idx /\ bt_TxXdr r = bt_TxXdr result /\
    bt_ContextRuleIDs r = bt_ContextRuleIDs result /\ bt_ContextRuleID r = bt_ContextRuleID result /\
    bt_AuthDigestHex r = bt_AuthDigestHex result /\ bt_ValidUntilLedger r = bt_ValidUntilLedger result.

Local Ltac run_pairs := repeat (run_inv; match goal with H : (match ?x with (_, _) => _ end) _ = (Ok _, _) |- _ => destruct x end); run_inv.

Lemma finish_core_ok inp digest idx ids valid st result e c (w w' : W) r :
  sy_entries st !! idx = Some e -> ae_Credentials e = SorobanAddress c ->
  encode_entries (sy_entries st) = Ok (bt_AuthEntriesXdr result) ->
  finish_core inp (delegated_signer (ai_signerType inp) (ai_signerG inp)) digest idx ids valid st result w = (Ok r, w') ->
  ends_as inp idx ids (sy_entries st) e c result r.
Proof.
  intros He Hc Henc. unfold finish_core, ends_as, rewrites, delegated_signer.
  destruct (ai_bundlerDelegatedAuthMode inp) eqn:Eb; cbn [orb].
  - match goal with |- (if ?b then throw _ else _) _ = _ -> _ => destruct b; [done|] end. intros Hr. run_inv.
    match goal with H : rewriteSmartAccountEntrySignature _ _ _ _ = Ok _ |- _ =>
      destruct (rewrite_ok _ _ _ _ _ _ _ H He Hc) as (v & Hv & ->) end.
    match goal with H : synthesizeDelegatedGEntry _ _ _ _ _ _ = (Ok _, _) |- _ => apply synthesize_ok in H as [more Hmore] end.
    cbn in Hmore. destruct (ResolveSignerKeypairForG _); run_pairs;
      match goal with H : encode_entries _ = Ok _ |- context [with_signature] =>
        rewrite Hmore in H; eexists _, _; split; [exact H|] end;
      (split; [rewrite lookup_app_l by (rewrite length_insert; by eapply lookup_lt_Some);
               apply list_lookup_insert_eq; by eapply lookup_lt_Some|]);
      (split; [right; eauto|done]).
  - destruct (String.eqb (ai_signerType inp) "delegated") eqn:Ed; cbn [andb].
    + destruct (String.eqb (ai_signerG inp) "") eqn:Eg; cbn [negb].
      * rewrite (proj1 (String.eqb_eq _ _) Ed). cbn. intros [<- _]%ret_ok. exists (sy_entries st), e. split_and!; try done. by left.
      * intros Hr. run_pairs.
        match goal with H : rewriteSmartAccountEntrySignature _ _ _ _ = Ok _ |- _ =>
          destruct (rewrite_ok _ _ _ _ _ _ _ H He Hc) as (v & Hv & ->) end.
        eexists _, _. split; [eassumption|]. split; [apply list_lookup_insert_eq; by eapply lookup_lt_Some|].
        split; [right; eauto|done].
    + destruct (String.eqb (ai_signerType inp) "ed25519"); intros [<- _]%ret_ok;
        exists (sy_entries st), e; (split_and!; try done; by left).
Qed.

Lemma core_ok inp buildTx (w w' : W) r :
  buildAuthTransactionCore inp buildTx w = (Ok r, w') ->
  exists e es data v v',
    offers (ai_smartAccountAddress inp) (contextRuleIDsForEntry e (ai_contextRuleID inp)) r e /\
    buildTx es (Some data) v = (Ok (bt_TxXdr r), v') /\ bt_ContextRuleID r = ai_contextRuleID inp /\
    (rewrites inp = true -> forall body,
       resolveContextRuleIDs e body = Ok (contextRuleIDsForEntry e (ai_contextRuleID inp))).
Proof.
  unfold buildAuthTransactionCore. intros Hr.
  apply bind_ok in Hr as (tx & w1 & _ & Hr). apply bind_ok in Hr as (sim & w2 & _ & Hr).
  apply bind_ok in Hr as (entries0 & w3 & _ & Hr). cbn zeta in Hr.
  generalize dependent (if String.eqb (ai_dropAuthAddress inp) "" then entries0 else dropAuthFor entries0 (ai_dropAuthAddress inp)).
  intros entries1 Hr. destruct (length entries1 =? 0)%nat; [done|].
  destruct (setAddressCredentialExpiration _ _ _) as [entries valid].
  destruct (classify_entries _ _ _ _) as [[idx|] native] eqn:Ecl; [|done].
  apply classify_ok in Ecl as (_ & e & He & [Haddr [c Hc]]%role_custom). rewrite Nat.sub_0_r in He.
  apply bind_ok in Hr as (e1 & w10 & He1 & Hr). apply lift_ok in He1 as [[_ He1]%entry_at_ok ->].
  rewrite Nat2Z.id, He in He1. injection He1 as <-.
  apply bind_ok in Hr as (payload & w11 & _ & Hr). apply bind_ok in Hr as (digest & w12 & Hdg & Hr).
  apply (proj1 (wrap_ok _ _ _ _ _)), lift_ok in Hdg as [Hdg _].
  apply bind_ok in Hr as (st1 & w13 & Hst1 & Hr). apply bind_ok in Hr as (st & w14 & Hst2 & Hr).
  assert (exists more, sy_entries st = (entries ++ more)%list) as [more Hmore].
  { assert (exists more, sy_entries st1 = (entries ++ more)%list) as [more1 Hm1].
    { destruct (_ && _); [by apply synthesize_ok in Hst1|]. apply ret_ok in Hst1 as [<- _]. exists []. by rewrite app_nil_r. }
    destruct (_ && _ && _).
    - apply synthesize_ok in Hst2 as [more2 Hm2]. exists (more1 ++ more2)%list. by rewrite Hm2, Hm1, app_assoc.
    - apply ret_ok in Hst2 as [<- _]. by exists more1. }
  apply bind_ok in Hr as (blobs & w15 & _ & Hr). apply bind_ok in Hr as (data & w16 & _ & Hr).
  apply bind_ok in Hr as (finalTx & w17 & Hfin & Hr). apply (proj1 (wrap_ok _ _ _ _ _)) in Hfin.
  apply bind_ok in Hr as (b64s & w18 & Henc & Hr). apply lift_ok in Henc as [Henc ->].
  apply bind_ok in Hr as (js & w19 & _ & Hr).
  assert (sy_entries st !! idx = Some e) as Hst by (rewrite Hmore, lookup_app_l; [done|by eapply lookup_lt_Some]).
  eapply finish_core_ok in Hr as (final & e' & Hfe & Hidx & Hor & Hi & Htx & Hids & Hid & Hdig & _); [|done..].
  cbn in Htx, Hids, Hid, Hdig. set (ids := contextRuleIDsForEntry e (ai_contextRuleID inp)) in *.
  assert (contextRuleIDsForEntry e' (ai_contextRuleID inp) = ids /\ computeAuthDigest e' networkPassphrase ids = Ok digest /\
          addressStringFromCredentials e' = Some (ai_smartAccountAddress inp)) as (Hids' & Hdg' & Ha').
  { destruct Hor as [[-> _]|(g & v & _ & ->)]; [done|]. split_and!; [done|by rewrite digest_with_signature|].
    revert Haddr. unfold addressStringFromCredentials. by rewrite Hc. }
  eexists e', (sy_entries st), data, w16, _. rewrite Hids', Htx, Hid. split_and!; [|done|done|].
  - exists final, digest. rewrite Hi, Hids, Hdig. done.
  - intros Hrw body. destruct Hor as [[_ ?]|(g & v & Hv & ->)]; [congruence|].
    eapply payload_resolves; [exact Hv|]. apply for_entry_not_nil.
Qed.
End Agreement.

(** ** Properties: building *)
Section Building.
Context `{StellarSDK} `{Network} `{SubmitNetwork} `{Gasless} `{GaslessQuotes} `{Env} `{ServiceConfig} `{BuilderConfig}.
Context `{EnvelopeCodec} `{Json SimulationSummary}.
Abbreviation W := (World Store).

(** C8. A send submitted with a passkey is the send whose digest was shown. When
    the client posts the entries [BuildSend] gave it, [SubmitWebAuthn] sends at most
    one request, in which the smart account's entry carries the passkey's payload
    over exactly the rule ids the digest was computed with — whatever rule id the
    request names — and the digest of that very entry is the one that was shown. *)
Theorem send_binds_digest inp catalog (w w' : W) r sub (v v' : W) out :
  entry_round_trip ->
  BuildSend inp catalog w = (Ok r, w') ->
  sw_AuthEntriesXdr sub = bt_AuthEntriesXdr (bs_Build r) ->
  sw_SmartAccountAuthEntryIndex sub = Z.of_nat (bt_SmartAccountAuthEntryIndex (bs_Build r)) ->
  SubmitWebAuthn sub v = (out, v') ->
  submits_once (sw_TxXdr sub) v out v' (fun es =>
    exists e c keyData sig verifier digest,
      hex_decode (sw_KeyDataHex sub) = Ok keyData /\ hex_decode (sw_SigDataXdr sub) = Ok sig /\
      scAddress webauthnVerifierAddress = Ok verifier /\
      let signed := with_signature (one_signer_payload (scVec [scSymbol "External"; verifier; scBytes keyData])
                                      (scBytes sig) (bt_ContextRuleIDs (bs_Build r))) e c in
      es !! bt_SmartAccountAuthEntryIndex (bs_Build r) = Some signed /\
      addressStringFromCredentials signed = Some (bi_SmartAccountAddress inp) /\
      computeAuthDigest signed networkPassphrase (bt_ContextRuleIDs (bs_Build r)) = Ok digest /\
      bt_AuthDigestHex (bs_Build r) = hex_encode digest).
Proof.
  intros Hrt Hb Hes Hidx Hs.
  apply BuildSend_offers in Hb as (e0 & c & ff & ids & Hc & (entries & digest & Henc & He & Ha & Hids & Hdg & Hhex) & Hne & _).
  revert Hs. apply submit_lifted. intros es Hsub. apply webauthn_entries_ok in Hsub as
    (given & entry & keyData & sig & ids' & verifier & Hg & Hent & Hk & Hsig & Hres & Hv & e1 & c1 & He1 & Hc1 & Hout & _).
  assert (given = entries) as ->.
  { rewrite Hes in Hg. assert (normalizeAuthEntries (bt_AuthEntriesXdr (bs_Build r)) = Ok entries) as Hn.
    { eapply normalize_marshalled; [done|]. unfold encode_entries in Henc. by apply res_wrap_ok in Henc. }
    destruct (bt_AuthEntriesXdr (bs_Build r)) as [|s0 l]; [|congruence].
    injection Hn as <-. by rewrite lookup_nil in He. }
  rewrite Hidx, Nat2Z.id in *. rewrite He in Hent, He1. injection Hent as <-. injection He1 as <-.
  unfold embedContextRuleIDs in *. rewrite Hc in *.
  rewrite resolve_read_back in Hres by done. injection Hres as <-. rewrite Hids.
  eexists _, c1, keyData, sig, verifier, digest. split_and!; [done|done|done|exact Hout| |by rewrite digest_with_signature|done].
  revert Ha. cbn in Hc1. injection Hc1 as <-. done.
Qed.

(** [BuildSend] signs each call of a send against a rule of its own: one id per
    context, in the order the contract numbers them; the transfer, and whatever is
    not the fee's, against the asset's rule; the fee forwarder's call, and one on a
    fee token other than the asset, against a rule read from the chain that lets
    this signer sign. The asset's rule of a passkey that names its key lists
    exactly that key. *)
Theorem send_rule_per_context inp catalog (w w' : W) r :
  BuildSend inp catalog w = (Ok r, w') ->
  exists entries e feeForwarder,
    encode_entries entries = Ok (bt_AuthEntriesXdr (bs_Build r)) /\
    entries !! bt_SmartAccountAuthEntryIndex (bs_Build r) = Some e /\
    length (bt_ContextRuleIDs (bs_Build r)) = countAuthContexts (ae_RootInvocation e) /\
    Forall2 (fun ct id => exists contract, ct = Ok contract /\
      send_rule_for inp (ca_ContractID (bs_Asset r)) feeForwarder (nf_Token (bs_NetworkFee r))
        (bt_ContextRuleID (bs_Build r)) contract id)
      (context_contracts (ae_RootInvocation e)) (bt_ContextRuleIDs (bs_Build r)) /\
    (bi_SignerType inp = "passkey" -> bi_KeyDataHex inp <> "" ->
       chain_rule (bi_SmartAccountAddress inp) (bt_ContextRuleID (bs_Build r))
         (fun rule => ruleHasExactExternalSigner rule webauthnVerifierAddress (bi_KeyDataHex inp))).
Proof.
  intros Hb. apply BuildSend_offers in Hb as (e0 & c & ff & ids & Hc & (entries & digest & Henc & He & _ & Hids & _) & _ & Hf & Hp).
  exists entries, (embedContextRuleIDs e0 ids), ff. rewrite Hids. split_and!; [done|done| |done|done].
  rewrite count_contexts. symmetry. by eapply Forall2_length.
Qed.

(** The shared builder hands out a digest that belongs to the entry it hands
    out: the entry at the index it names is the smart account's, it carries one id
    of the given rule per context, and the digest is that entry's over those ids.
    Where the builder puts a G-address's payload on the entry, submission reads the
    same ids back from it, whatever rule id the request names. *)
Theorem core_agreement inp buildTx (w w' : W) r :
  buildAuthTransactionCore inp buildTx w = (Ok r, w') ->
  exists entries e digest,
    encode_entries entries = Ok (bt_AuthEntriesXdr r) /\ entries !! bt_SmartAccountAuthEntryIndex r = Some e /\
    addressStringFromCredentials e = Some (ai_smartAccountAddress inp) /\
    bt_ContextRuleIDs r = contextRuleIDsForEntry e (ai_contextRuleID inp) /\
    computeAuthDigest e networkPassphrase (bt_ContextRuleIDs r) = Ok digest /\ bt_AuthDigestHex r = hex_encode digest /\
    (ai_bundlerDelegatedAuthMode inp || String.eqb (ai_signerType inp) "delegated" && negb (String.eqb (ai_signerG inp) "") = true ->
       forall body, resolveContextRuleIDs e body = Ok (bt_ContextRuleIDs r)).
Proof.
  intros (e & es & data & v & v' & (entries & digest & Henc & He & Ha & Hids & Hdg & Hhex) & _ & _ & Hr)%core_ok.
  exists entries, e, digest. rewrite Hids. done.
Qed.
End Building.

(** ** Properties: the fee plan *)
Section Plan.
Context `{StellarSDK} `{Network} `{SubmitNetwork} `{Gasless} `{GaslessQuotes} `{Env} `{ServiceConfig} `{BuilderConfig}.
Abbreviation W := (World Store).

(** What the wallet must hold of [t] to pay [q] on top of what the call spends. *)
Definition fee_need (spendToken : string) (spendAmount : Z) (t : GaslessFeeToken) (q : GaslessQuote) : Z :=
  gq_MaxFeeAmount q + (if String.eqb spendToken (ft_Contract t) then spendAmount else 0).
(** The action alone, simulated: what it would cost, and the ledger it was simulated at. *)
Definition simulated (action : InvokeContractArgs) (fee latest : Z) : Prop :=
  exists n m tx sim,
    tx_build n (gasless_params (InvokeContract (ica_ContractAddress action) (ica_FunctionName action) (ica_Args action)) []) = Ok tx /\
    rpc_simulate tx m = Ok sim /\ sim_Error sim = "" /\ ParseInt64 (sim_MinResourceFee sim) = Ok fee /\ sim_LatestLedger sim = latest.
Lemma simulateResourceFee_ok action fee latest (w w' : W) : simulateResourceFee action w = (Ok (fee, latest), w') -> simulated action fee latest.
Proof.
  unfold simulateResourceFee. intros (tx & w1 & Ht & Hr)%bind_ok. apply (proj1 (wrap_ok _ _ _ _ _)), call_ok in Ht as [Ht _].
  apply bind_ok in Hr as (sim & w2 & Hs & Hr). apply (proj1 (wrap_ok _ _ _ _ _)), call_ok in Hs as [Hs _].
  destruct (String.eqb_spec (sim_Error sim) "") as [He|]; [|done]. apply bind_ok in Hr as (f & w3 & Hf & Hr).
  apply (proj1 (wrap_ok _ _ _ _ _)), lift_ok in Hf as [Hf _]. apply ret_ok in Hr as [[= <- <-] _]. by exists (w_io w), (w_io w1), tx, sim.
Qed.
(** [t] was quoted for twice that at [q], and the wallet's balance of it was then [balance]. *)
Definition quoted (wallet : string) (fee : Z) (t : GaslessFeeToken) (q : GaslessQuote) (balance : Z) : Prop :=
  exists n (v v' : W) hi lo, gasless_quote (ft_Contract t) (big_int64 (2 * fee)) n = Ok q /\
    balanceOf (ft_Contract t) wallet v = (Ok (hi, lo), v') /\ balance = i128ToBigInt hi lo.
Definition passed_over (wallet : string) (fee : Z) (spendToken : string) (spendAmount : Z) (t : GaslessFeeToken) : Prop :=
  (exists n e, gasless_quote (ft_Contract t) (big_int64 (2 * fee)) n = Err e) \/
  exists q balance, quoted wallet fee t q balance /\ balance < fee_need spendToken spendAmount t q.

Lemma choose_token_ok wallet fee tok amt tokens e0 (w w' : W) q e :
  choose_token wallet fee tok amt tokens e0 w = (Ok (Some q, e), w') ->
  exists pre t post balance, tokens = (pre ++ t :: post)%list /\ quoted wallet fee t q balance /\ fee_need tok amt t q <= balance /\
    Forall (passed_over wallet fee tok amt) pre.
Proof.
  revert e0 w. induction tokens as [|t tokens IH]; intros e0 w; cbn [choose_token]; [by intros [[=] _]%ret_ok|].
  intros (quote & w1 & Hq & Hr)%bind_ok. apply (proj1 (attempt_ok _ _ _ _)) in Hq.
  destruct quote as [q1|e1].
  - apply call_ok in Hq as [Hq _]. apply bind_ok in Hr as ([hi lo] & w2 & Hb & Hr). apply (proj1 (wrap_ok _ _ _ _ _)) in Hb.
    assert (quoted wallet fee t q1 (i128ToBigInt hi lo)) as Hqd by (exists (w_io w), w1, w2, hi, lo; done).
    replace (if String.eqb tok (ft_Contract t) then gq_MaxFeeAmount q1 + amt else gq_MaxFeeAmount q1)
      with (fee_need tok amt t q1) in Hr by (unfold fee_need; destruct (String.eqb _ _); lia).
    destruct (Z.leb_spec (fee_need tok amt t q1) (i128ToBigInt hi lo)).
    + apply ret_ok in Hr as [[= <- _] _]. exists [], t, tokens, (i128ToBigInt hi lo). split_and!; done.
    + apply IH in Hr as (pre & t' & post & b & -> & Hqt & Hle & Hpre). exists (t :: pre), t', post, b.
      split_and!; [done|done|done|]. constructor; [|done]. right. eauto.
  - apply IH in Hr as (pre & t' & post & b & -> & Hqt & Hle & Hpre). exists (t :: pre), t', post, b.
    split_and!; [done|done|done|]. constructor; [|done]. left. unfold call in Hq. injection Hq as Hq _. eauto.
Qed.

(** Putting [t] first and the first one in its place. *)
Lemma swap_first_permutation {A} (t0 t : A) ts i : (t0 :: ts)%list !! S i = Some t ->
  <[0%nat := t]> (<[S i := t0]> (t0 :: ts)) ≡ₚ (t0 :: ts)%list.
Proof.
  intros Hi. change (t :: <[i := t0]> ts ≡ₚ t0 :: ts). change (ts !! i = Some t) in Hi.
  rewrite insert_take_drop by (by eapply lookup_lt_Some). rewrite <- (take_drop_middle _ _ _ Hi) at 3.
  rewrite <- !Permutation_middle. apply perm_swap.
Qed.

Definition native_swap (ts : list GaslessFeeToken) (i : nat) : list GaslessFeeToken :=
  match ts !! i, ts !! 0%nat with
  | Some t, Some t0 => if ft_Native t && negb (i =? 0)%nat then <[0%nat := t]> (<[i := t0]> ts) else ts
  | _, _ => ts
  end.
Definition native_head (ts : list GaslessFeeToken) : Prop := exists t, head ts = Some t /\ ft_Native t = true.

(** One turn of the loop: a native token found past the first place comes first, and the places to come are as they were. *)
Lemma native_swap_step ts i : native_swap ts i ≡ₚ ts /\ (forall j, (i < j)%nat -> native_swap ts i !! j = ts !! j) /\
  (native_head ts -> native_head (native_swap ts i)) /\
  (forall t, ts !! i = Some t -> ft_Native t = true -> native_head (native_swap ts i)).
Proof.
  unfold native_swap, native_head. destruct ts as [|t0 ts]; [destruct i; cbn; by split_and!|]. cbn [lookup list_lookup].
  destruct ((t0 :: ts)%list !! i) as [t|] eqn:Ei; [|by split_and!]. destruct (ft_Native t) eqn:Ht; cbn [andb].
  2: { split_and!; try done. intros ? [= <-]. congruence. }
  destruct i as [|i]; cbn [Nat.eqb negb].
  { injection Ei as ->. split_and!; try done. intros ? [= <-] _. by exists t. }
  split_and!.
  - by apply swap_first_permutation.
  - intros j Hj. cbn. destruct j as [|j]; [lia|]. cbn. apply list_lookup_insert_ne. lia.
  - intros _. exists t. by split.
  - intros x _ _. exists t. by split.
Qed.
Lemma native_loop tokens k ts i : (i + k = length tokens)%nat -> ts ≡ₚ tokens ->
  (forall j, (i <= j)%nat -> ts !! j = tokens !! j) -> (Exists (fun t => ft_Native t = true) (take i tokens) -> native_head ts) ->
  fold_left native_swap (seq i k) ts ≡ₚ tokens /\
  (Exists (fun t => ft_Native t = true) tokens -> native_head (fold_left native_swap (seq i k) ts)).
Proof.
  revert ts i. induction k as [|k IH]; intros ts i Hk Hp Hl Hn; cbn.
  - split; [done|]. rewrite take_ge in Hn by lia. exact Hn.
  - destruct (native_swap_step ts i) as (Sp & Sl & Sn & Si). apply IH; [lia|by rewrite Sp| |].
    + intros j Hj. rewrite Sl by lia. apply Hl. lia.
    + destruct (lookup_lt_is_Some_2 tokens i) as [t Ht]; [lia|]. rewrite (take_S_r _ _ _ Ht), Exists_app, Exists_cons, Exists_nil.
      intros [?|[?|[]]]; [by apply Sn, Hn|]. eapply Si; [rewrite Hl by lia; exact Ht|done].
Qed.
(** The order tokens are tried in: all of them, a native one first when there is one. *)
Lemma native_first_spec tokens : native_first tokens ≡ₚ tokens /\
  (Exists (fun t => ft_Native t = true) tokens -> native_head (native_first tokens)).
Proof. apply (native_loop tokens (length tokens) tokens 0); [done..|]. by intros ?%Exists_nil. Qed.

(** [forward(token, 1, max, expiry, contract, function, arguments, payer, executor)] on the fee forwarder, argument
    by argument: a fee of one unit stands where the relayer puts the real one. *)
Definition forwards (feeForwarder feeToken : string) (maxFee expiry : Z) (action : InvokeContractArgs) (user relayer : string)
    (fn : HostFunction) : Prop :=
  exists c token payer executor,
    strkey_decode_contract feeForwarder = Ok c /\ scAddressFromString feeToken = Ok token /\
    scAddressFromString user = Ok payer /\ scAddressFromString relayer = Ok executor /\
    fn = InvokeContract (AddrContract c) "forward"
      [ScvAddress token; ScvI128 0 1; ScvI128 0 maxFee; ScvU32 expiry; ScvAddress (ica_ContractAddress action);
       ScvSymbol (ica_FunctionName action); ScvVec (Some (ica_Args action)); ScvAddress payer; ScvAddress executor].
Lemma scAddress_ok a v : scAddress a = Ok v -> exists sa, scAddressFromString a = Ok sa /\ v = ScvAddress sa.
Proof. unfold scAddress. intros ?. run_inv. eauto. Qed.
Lemma contractID_ok a c : contractIDFromAddress a = Ok c -> strkey_decode_contract a = Ok c.
Proof. apply res_wrap_ok. Qed.
Lemma forwardHostFunction_ok ff tok maxFee expiry action user relayer fn :
  forwardHostFunction ff tok maxFee expiry action user relayer = Ok fn ->
  forwards ff tok (maxFee mod 2 ^ 64) expiry action user relayer fn.
Proof.
  unfold forwardHostFunction. intros (c & Hc%res_wrap_ok & Hr)%res_bind_ok.
  apply res_bind_ok in Hr as (tv & (token & Ht & ->)%res_wrap_ok%scAddress_ok & Hr).
  apply res_bind_ok in Hr as (uv & (payer & Hu & ->)%res_wrap_ok%scAddress_ok & Hr).
  apply res_bind_ok in Hr as (rv & (executor & Hx & ->)%res_wrap_ok%scAddress_ok & [= <-]).
  exists c, token, payer, executor. split_and!; [by apply contractID_ok|done..].
Qed.

(** What a caller of [planForward] wraps its action in: the fee it shows is the one signed for. *)
Lemma planForward_forwards wallet target spendToken spendAmount (w w' : W) plan :
  planForward wallet target spendToken spendAmount w = (Ok plan, w') ->
  exists feeForwarder maxFee expiry relayer, nf_MaxAmountRaw (fw_fee plan) = big_string maxFee /\
    forwards feeForwarder (nf_Token (fw_fee plan)) (maxFee mod 2 ^ 64) expiry target wallet relayer (fw_hostFunction plan).
Proof.
  unfold planForward. destruct (negb gasless_set); [done|]. intros (cfg & w1 & _ & Hr)%bind_ok.
  apply bind_ok in Hr as ([fee latest] & w2 & _ & Hr). apply bind_ok in Hr as ([chosen e] & w3 & _ & Hr).
  destruct chosen as [q|]; [|destruct e as [e|]; [destruct (errors_is e _)|]; done].
  apply bind_ok in Hr as (hf & w4 & Hhf & Hr). apply lift_ok in Hhf as [Hhf%forwardHostFunction_ok _]. apply ret_ok in Hr as [<- _].
  exists (fc_FeeForwarder cfg), (gq_MaxFeeAmount q), (uint32 (uint32 latest + forwardExpiryLedgers)), (fc_Relayer cfg). done.
Qed.

(** Documented of the gasless service (docs/gasless-integration-plan.md): a quote for a token names that token. *)
Definition quotes_name_token : Prop := forall token fee n q, gasless_quote token fee n = Ok q -> gq_FeeToken q = token.

(** C22. The fee plan is one the wallet can pay. The action is simulated alone, and the tokens the gasless service
    accepts are tried one by one, each of them once, quoted for twice its resource fee, a native one first when
    there is one; the fee is paid by the first whose quoted maximum the wallet's balance of it covers on top of
    what the action itself spends of it, and each one before it could not be quoted or not be paid. The fee shown
    is that quote's, and the call to sign is, argument by argument, [forward()] on the service's fee forwarder of
    this action — its contract, function and arguments — for this wallet and the service's relayer, at that
    maximum, until 120 ledgers past the simulation. The token charged is the one the quote names; it is the one
    whose balance was read when quotes name the token they were asked for, which the code does not check. *)
Theorem plan_affordable wallet target spendToken spendAmount (w w' : W) plan :
  planForward wallet target spendToken spendAmount w = (Ok plan, w') ->
  exists n cfg fee latest pre t post q balance,
    gasless_fee_tokens n = Ok cfg /\ simulated target fee latest /\
    pre ++ t :: post ≡ₚ fc_FeeTokens cfg /\
    (Exists (fun x => ft_Native x = true) (fc_FeeTokens cfg) -> native_head (pre ++ t :: post)) /\
    quoted wallet fee t q balance /\ fee_need spendToken spendAmount t q <= balance /\
    Forall (passed_over wallet fee spendToken spendAmount) pre /\
    (quotes_name_token -> gq_FeeToken q = ft_Contract t) /\
    fw_fee plan = {| nf_Token := gq_FeeToken q; nf_Symbol := gq_Symbol q; nf_MaxAmountRaw := big_string (gq_MaxFeeAmount q);
                     nf_MaxAmount := formatSevenDecimals (gq_MaxFeeAmount q) |} /\
    fw_executor plan = fc_Relayer cfg /\ fw_feeForwarder plan = fc_FeeForwarder cfg /\
    forwards (fc_FeeForwarder cfg) (gq_FeeToken q) (gq_MaxFeeAmount q mod 2 ^ 64) ((latest + 120) mod 2 ^ 32)
      target wallet (fc_Relayer cfg) (fw_hostFunction plan).
Proof.
  unfold planForward. destruct (negb gasless_set); [done|]. intros (cfg & w1 & Hcfg & Hr)%bind_ok.
  apply (proj1 (wrap_ok _ _ _ _ _)), call_ok in Hcfg as [Hcfg _].
  apply bind_ok in Hr as ([fee latest] & w2 & Hsim & Hr). apply bind_ok in Hr as ([chosen e] & w3 & Hch & Hr).
  destruct chosen as [q|]; [|destruct e as [e|]; [destruct (errors_is e _)|]; done].
  apply bind_ok in Hr as (hf & w4 & Hhf & Hr). apply lift_ok in Hhf as [Hhf%forwardHostFunction_ok _]. apply ret_ok in Hr as [<- _].
  apply choose_token_ok in Hch as (pre & t & post & b & Hl & Hq & Hle & Hpre).
  destruct (native_first_spec (fc_FeeTokens cfg)) as [Hperm Hnat]. rewrite Hl in Hperm, Hnat.
  exists (w_io w), cfg, fee, latest, pre, t, post, q, b. split_and!; try done.
  - by eapply simulateResourceFee_ok.
  - intros Hn. destruct Hq as (m & ? & ? & ? & ? & Hq & _). exact (Hn _ _ _ _ Hq).
  - unfold uint32, forwardExpiryLedgers in Hhf. by rewrite Zplus_mod_idemp_l in Hhf.
Qed.

(** Documented: the text form of an address is the one it was read from. *)
Definition address_round_trip : Prop :=
  (forall a k, strkey_decode_account a = Ok k -> strkey_encode_account k = Ok a) /\
  (forall a c, strkey_decode_contract a = Ok c -> strkey_encode_contract c = Ok a /\ scaddress_string (AddrContract c) = Ok a).

Lemma scAddress_round a v : address_round_trip -> scAddress a = Ok v -> scValToAddressString v = Ok a.
Proof.
  intros [Hg Hc]. unfold scAddress, scAddressFromString, contractIDFromAddress.
  destruct (String.prefix "G" a); [|destruct (String.prefix "C" a)]; intros ?; run_inv; cbn; [by apply Hg|by apply Hc].
Qed.

Lemma forward_parts ff tok maxFee exp target user relayer fn :
  address_round_trip -> forwardHostFunction ff tok maxFee exp target user relayer = Ok fn ->
  exists c args, fn = InvokeContract (AddrContract c) forwardFn args /\ forwardCallWallet fn ff = Some user /\
    args !! 4%nat = Some (ScvAddress (ica_ContractAddress target)) /\ args !! 5%nat = Some (ScvSymbol (ica_FunctionName target)) /\
    args !! 6%nat = Some (ScvVec (Some (ica_Args target))) /\
    (exists v, scAddress tok = Ok v /\ args !! 0%nat = Some v) /\ args !! 2%nat = Some (scI128 0 (big_uint64 maxFee)).
Proof.
  intros Hrt. unfold forwardHostFunction. intros ?. run_inv.
  match goal with H : contractIDFromAddress ff = Ok ?c |- _ => unfold contractIDFromAddress in H; apply res_wrap_ok in H; rename H into Hc; exists c end.
  match goal with H : scAddress user = Ok ?u |- _ => pose proof (scAddress_round _ _ Hrt H) as Hu end.
  eexists. split; [reflexivity|]. cbn. rewrite (proj2 (proj2 Hrt _ _ Hc)), Hu, String.eqb_refl.
  split_and!; try done. eauto.
Qed.

Lemma parseU128Raw_range raw fieldName v : parseU128Raw raw fieldName = Ok v -> 0 <= v < 2 ^ 128.
Proof.
  unfold parseU128Raw. destruct (_ || _) eqn:Ed; [done|]. destruct (big_set_string _) as [x|] eqn:Ex; [|done].
  destruct (Z.ltb_spec x (2 ^ 128)); [|done]. intros [= <-]. split; [|done].
  apply orb_false_iff in Ed as [Ene%String.eqb_neq Ed%negb_false_iff]. rewrite big_set_string_digits in Ex by done.
  by apply dec_val_nonneg in Ex.
Qed.
(** The two words a 128-bit argument is passed as *)
Definition u128_split (v hi lo : Z) : Prop := 0 <= hi < 2 ^ 64 /\ 0 <= lo < 2 ^ 64 /\ v = hi * 2 ^ 64 + lo.
Lemma bigIntToU128_split v : 0 <= v < 2 ^ 128 -> u128_split v (fst (bigIntToU128 v)) (snd (bigIntToU128 v)).
Proof.
  intros Hv. unfold u128_split, bigIntToU128, big_uint64, two64. cbn [fst snd]. rewrite Z.land_ones, Zmod_mod, Z.shiftr_div_pow2 by lia.
  pose proof (Z.mod_pos_bound v (2 ^ 64)). pose proof (Z.div_mod v (2 ^ 64)).
  assert (0 <= v / 2 ^ 64 < 2 ^ 64) by (split; [apply Z.div_pos; lia|apply Z.div_lt_upper_bound; lia]).
  rewrite (Z.mod_small (v / 2 ^ 64)) by done. split_and!; lia.
Qed.
Lemma u128_words v : 0 <= v < 2 ^ 128 ->
  Z.lor (Z.shiftl (fst (bigIntToU128 v)) 64) (snd (bigIntToU128 v)) = v.
Proof.
  intros Hv. unfold bigIntToU128, big_uint64, two64. cbn [fst snd].
  rewrite Z.land_ones by lia. rewrite Zmod_mod.
  assert (0 <= Z.shiftr v 64 < 2 ^ 64) as Hh.
  { rewrite Z.shiftr_div_pow2 by lia. split; [apply Z.div_pos; lia|]. apply Z.div_lt_upper_bound; lia. }
  rewrite (Z.mod_small (Z.shiftr v 64)) by done. apply Z.bits_inj'. intros i Hi.
  rewrite Z.lor_spec, Z.shiftl_spec by done. destruct (Z.lt_ge_cases i 64).
  - rewrite Z.testbit_neg_r by lia. cbn. by rewrite Z.mod_pow2_bits_low.
  - rewrite Z.mod_pow2_bits_high, orb_false_r by lia. rewrite Z.shiftr_spec by lia. f_equal. lia.
Qed.

(** What is planned is what is recognised when it comes back signed: the
    [forward()] call planned for a wallet is read at submission as one this wallet
    pays for; of a transfer, as spending the amount of the asset that was sent, and
    of a swap, as spending the amount put in of the token put in. *)
Theorem forward_recognised ff tok maxFee exp user relayer :
  address_round_trip ->
  (forall asset hi lo to target fn, transfer_call asset hi lo user to = Ok target ->
     forwardHostFunction ff tok maxFee exp target user relayer = Ok fn ->
     forwardCallWallet fn ff = Some user /\
     exists c args, fn = InvokeContract c forwardFn args /\
       forwardSpend args = Some (ca_ContractID asset, i128ToBigInt hi lo)) /\
  (forall inp router amountIn amountOutMin target fn, user = bw_SmartAccountAddress inp ->
     parseU128Raw (bw_AmountInRaw inp) "amountInRaw" = Ok amountIn ->
     swap_call inp router amountIn amountOutMin = Ok target ->
     forwardHostFunction ff tok maxFee exp target user relayer = Ok fn ->
     forwardCallWallet fn ff = Some user /\
     exists c args, fn = InvokeContract c forwardFn args /\
       forwardSpend args = Some (bw_TokenInContractID inp, amountIn)).
Proof.
  intros Hrt. split.
  - intros asset hi lo to target fn Ht Hf. destruct (forward_parts _ _ _ _ _ _ _ _ Hrt Hf) as (c & args & -> & Hw & H4' & H5' & H6' & _).
    split; [done|]. eexists _, _. split; [done|]. unfold transfer_call in Ht. run_inv. cbn in *.
    unfold forwardSpend. rewrite H4', H5', H6'.
    match goal with H : contractIDFromAddress _ = Ok _ |- _ => unfold contractIDFromAddress in H; apply res_wrap_ok in H;
      cbn; by rewrite (proj1 (proj2 Hrt _ _ H)) end.
  - intros inp router a o target fn -> Ha Ht Hf. destruct (forward_parts _ _ _ _ _ _ _ _ Hrt Hf) as (c & args & -> & Hw & H4' & H5' & H6' & _).
    split; [done|]. eexists _, _. split; [done|]. unfold swap_call in Ht. apply res_bind_ok in Ht as (rid & Hrid & Ht).
    apply res_wrap_ok in Hrid. unfold contractIDFromAddress in Hrid. apply res_wrap_ok in Hrid.
    apply res_bind_ok in Ht as (chain & _ & Ht). apply res_bind_ok in Ht as (sa & _ & Ht). apply res_bind_ok in Ht as (ti & Hti & Ht).
    apply res_wrap_ok in Hti. pose proof (u128_words a) as Hu. destruct (bigIntToU128 a) as [ahi alo], (bigIntToU128 o) as [ohi olo].
    injection Ht as <-. cbn in *. unfold forwardSpend. rewrite H4', H5', H6'. cbn. rewrite (proj1 (proj2 Hrt _ _ Hrid)).
    rewrite (scAddress_round _ _ Hrt Hti), Hu; [done|]. by apply parseU128Raw_range in Ha.
Qed.
End Plan.

Section Witnesses.
Import Demo DemoServices DemoProposals DemoSubmit DemoBuild.

Lemma send_runs : exists r w', send_run world0 = (Ok r, w').
Proof.
  apply succeeds. vm_compute. reflexivity.
Qed.

(** The forwarder's call is signed against the Default rule, the approval and the
    transfer against the asset's. *)
Lemma send_rule_per_context_witness :
  exists r w', send_run world0 = (Ok r, w') /\ bt_ContextRuleIDs (bs_Build r) = [1; 0; 0] /\
    exists (entries : list AuthEntry) e, entries !! bt_SmartAccountAuthEntryIndex (bs_Build r) = Some e /\
      countAuthContexts (ae_RootInvocation e) = 3%nat.
Proof.
  destruct send_runs as (r & w' & Hr). exists r, w'. split; [exact Hr|].
  assert (bt_ContextRuleIDs (bs_Build r) = [1; 0; 0]) as Hids.
  { assert (option_map (fun x => snd (fst (fst x))) sent = Some [1; 0; 0]) as Hs by (vm_compute; reflexivity).
    unfold sent in Hs. rewrite Hr in Hs. cbn in Hs. by injection Hs as ->. }
  split; [exact Hids|].
  destruct (send_rule_per_context (H0 := wallet_n) (H4 := demo_e) send_input [demo_asset] world0 w' r Hr)
    as (entries & e & ff & _ & He & Hlen & _).
  exists entries, e. split; [exact He|]. by rewrite <- Hlen, Hids.
Defined.

Definition posted (r : BuildSendResult) : SubmitWebAuthnInput :=
  {| sw_TxXdr := bt_TxXdr (bs_Build r); sw_AuthEntryXdr := ""; sw_SigDataXdr := "aabb"; sw_KeyDataHex := "04aa";
     sw_ContextRuleID := Some 9; sw_AuthEntriesXdr := bt_AuthEntriesXdr (bs_Build r);
     sw_SmartAccountAuthEntryIndex := Z.of_nat (bt_SmartAccountAuthEntryIndex (bs_Build r));
     sw_DelegatedGAuthEntrySynthesized := false |}.
Definition send_and_submit : M (World Store) SubmitResult :=
  let! r := send_run in SubmitWebAuthn (H0 := wallet_n) (H3 := demo_e) (posted r).

(** Built, signed and posted with another rule id: one request leaves, over the ids
    the digest was computed with. *)
Lemma send_binds_digest_witness :
  exists r w' out v', send_run world0 = (Ok r, w') /\
    SubmitWebAuthn (H0 := wallet_n) (H3 := demo_e) (posted r) w' = (Ok out, v') /\
    exists c, chain (w_store v') = (chain (w_store w') ++ [c])%list.
Proof.
  assert (is_ok (fst (send_and_submit world0)) = true) as Hok by (vm_compute; reflexivity).
  apply bind_succeeds in Hok as (r & w' & out & v' & Hr & Hs). exists r, w', out, v'. split; [exact Hr|]. split; [exact Hs|].
  destruct (send_binds_digest (H0 := wallet_n) (H4 := demo_e) send_input [demo_asset] world0 w' r (posted r) w' v' (Ok out)
    demo_entries_round_trip Hr eq_refl eq_refl Hs) as [[_ [=]]|(es & c & _ & _ & ->)].
  exists c. reflexivity.
Defined.

Definition core_input : authTransactionCoreInput :=
  {| ai_smartAccountAddress := "CS"; ai_contextRuleID := 1; ai_signerType := "delegated"; ai_signerG := "G" +:+ key32;
     ai_feePayerG := "GX"; ai_bundlerDelegatedAuthMode := false; ai_delegatedAuthG := ""; ai_dropAuthAddress := "" |}.
Definition core_run : M (World Store) BuildAuthTransactionResult :=
  buildAuthTransactionCore (H0 := wallet_n) (H1 := demo_e) core_input (bundler_tx 1 (InvokeContract (AddrContract "S") "add_signer" [])).
Lemma core_agreement_witness :
  exists r w', core_run world0 = (Ok r, w') /\
    exists e, addressStringFromCredentials e = Some "CS" /\ resolveContextRuleIDs e None = Ok (bt_ContextRuleIDs r).
Proof.
  assert (is_ok (fst (core_run world0)) = true) as (r & w' & Hr)%succeeds by (vm_compute; reflexivity).
  exists r, w'. split; [exact Hr|].
  destruct (core_agreement (H0 := wallet_n) (H4 := demo_e) core_input _ world0 w' r Hr)
    as (entries & e & digest & _ & _ & Ha & _ & _ & _ & Hres).
  exists e. split; [exact Ha|]. apply Hres. reflexivity.
Defined.

Definition demo_transfer : InvokeContractArgs :=
  {| ica_ContractAddress := AddrContract "L"; ica_FunctionName := "transfer"; ica_Args := [] |}.
(** All but a millionth of the balance is spent: the stablecoin pays. *)
Definition plan_run (spend : Z) : M (World Store) forwardWrap :=
  planForward (H0 := wallet_n) "CS" demo_transfer "CL" spend.
Lemma demo_quotes_name_token : quotes_name_token.
Proof. intros token fee n q [= <-]. reflexivity. Qed.
(** XLM was tried first and could not pay; the wallet signs a [forward()] of its transfer. *)
Lemma plan_affordable_witness :
  exists plan w', plan_run 999999000 world0 = (Ok plan, w') /\ nf_MaxAmount (fw_fee plan) = "0.12345" /\
    exists tried t rest, tried ++ t :: rest ≡ₚ fc_FeeTokens {| fc_FeeForwarder := "CF"; fc_Relayer := "GY";
        fc_FeeTokens := [{| ft_Contract := "CU"; ft_Symbol := "USDC"; ft_Native := false |};
                         {| ft_Contract := "CL"; ft_Symbol := "XLM"; ft_Native := true |}] |} /\
      native_head (tried ++ t :: rest) /\ ft_Contract t = "CU" /\
      exists expiry, forwards "CF" "CU" 1234500 expiry demo_transfer "CS" "GY" (fw_hostFunction plan).
Proof.
  assert (match plan_run 999999000 world0 with (Ok p, _) => nf_Token (fw_fee p) | (Err _, _) => "" end = "CU" /\
          match plan_run 999999000 world0 with (Ok p, _) => nf_MaxAmount (fw_fee p) | (Err _, _) => "" end = "0.12345") as [Hp Hm]
    by (split; vm_compute; reflexivity).
  destruct (plan_run 999999000 world0) as [[plan|e] w'] eqn:Hr; [|discriminate Hp]. exists plan, w'. split; [reflexivity|]. split; [exact Hm|].
  destruct (plan_affordable (H0 := wallet_n) "CS" demo_transfer "CL" 999999000 world0 w' plan Hr)
    as (n & cfg & fee & latest & pre & t & post & q & b & Hc & _ & Hperm & Hnat & (m & _ & _ & _ & _ & Hq & _) & _ & _ & Htok & Hfee & _ & _ & Hf).
  injection Hc as <-. injection Hq as <-. rewrite Hfee in Hp. cbn in Hp, Hf.
  assert (ft_Contract t = "CU") as Hcu by (rewrite <- (Htok demo_quotes_name_token); exact Hp).
  exists pre, t, post. split; [exact Hperm|]. split; [apply Hnat; right; left; reflexivity|]. split; [exact Hcu|].
  eexists. rewrite Hp in Hf. exact Hf.
Defined.

Lemma decode_key_ok c a k : decode_key (String c "") a = Ok k -> String c k = a.
Proof.
  unfold decode_key, trim_prefix. destruct (String.prefix _ _) eqn:Ep; [|done]. intros [= <-].
  destruct a as [|c' a]; [done|]. cbn in Ep. destruct (ascii_dec c c') as [<-|]; [|done]. done.
Qed.
Lemma demo_address_round_trip : address_round_trip.
Proof. split; cbn; intros a k Hk; apply decode_key_ok in Hk as <-; done. Qed.

Lemma forward_recognised_witness :
  exists target fn, transfer_call demo_asset 0 5 "CS" "GR" = Ok target /\
    forwardHostFunction "CF" "CL" 100 220 target "CS" "GY" = Ok fn /\ forwardCallWallet fn "CF" = Some "CS".
Proof.
  destruct (transfer_call demo_asset 0 5 "CS" "GR") as [target|e] eqn:Et; [|discriminate Et].
  destruct (forwardHostFunction "CF" "CL" 100 220 target "CS" "GY") as [fn|e] eqn:Ef.
  - exists target, fn. split; [reflexivity|]. split; [exact Ef|].
    exact (proj1 (proj1 (forward_recognised "CF" "CL" 100 220 "CS" "GY" demo_address_round_trip) demo_asset 0 5 "GR" target fn Et Ef)).
  - vm_compute in Ef. discriminate Ef.
Defined.
End Witnesses.
End BuildTheorems.
