(* ===== verification/RuleTheorems.v ===== *)
(** * Changing rules safely (theorems about SetupRules.v)

    The transaction a build route returns is the very call its confirmation route
    checks for, it is authorized by a Default rule of the account, and that rule is
    never the one it removes. Then swaps and the demo counter (theorems about
    BuildTx.v). *)

From S2P Require Import SignerTheorems.
From S2P Require Import Instances DemoProposals SetupRules DemoBuild BuildTheorems.

#[local] Unset Default Proof Using.

Module RuleTheorems.
Import Deploynet Assets Amount Balances ContextRules Signers ExecuteAuth Submit SubmitSigned Build BuildTx AccountSigners SetupRules
  SignerTheorems BuildTheorems.

Section RuleTheorems.
Context `{StellarSDK} `{Network} `{SubmitNetwork} `{Gasless} `{GaslessQuotes} `{Env} `{ServiceConfig} `{BuilderConfig}.
Context `{Json SimulationSummary} `{UuidLib} `{Unicode} `{Deployment}.
Abbreviation W := (World Store).

(** The one invocation of an envelope: this function of this account. *)
Definition calls_account (txXdr address fn : string) (args : list ScVal) : Prop :=
  exists inv, decodeSingleInvocation txXdr = Ok inv /\ contractIDFromAddress address = Ok (di_ContractID inv) /\
    di_FunctionName inv = fn /\ di_Args inv = args.

Lemma setup_ok address fn args hf inp (w w' : W) b :
  tx_round_trip -> account_call address fn args = Ok hf -> buildSetupAuthTransaction hf inp w = (Ok b, w') ->
  calls_account (bt_TxXdr b) address fn args /\ Forall (eq (ai_contextRuleID inp)) (bt_ContextRuleIDs b).
Proof.
  intros Hrt Hc Hr. unfold account_call in Hc. apply res_bind_ok in Hc as (id & Hid & [= <-]). apply res_wrap_ok in Hid.
  unfold buildSetupAuthTransaction in Hr. apply bind_ok in Hr as (seq & w1 & _ & Hr).
  apply core_ok in Hr as (e & es & data & v & v' & (entries & digest & _ & _ & _ & Hids & _) & Htx & _ & _).
  unfold bundler_tx in Htx. apply call_ok in Htx as [Htx _]. apply Hrt in Htx. split.
  - eexists. unfold decodeSingleInvocation. rewrite Htx. cbn. split; [reflexivity|]. done.
  - rewrite Hids. unfold contextRuleIDsForEntry. apply Forall_forall. intros x Hx%list_elem_of_In. by apply repeat_spec in Hx.
Qed.

Lemma signer_rules_ok k rules n m : signer_rules k rules n = inr m ->
  Forall (fun rule => ruleHasExactExternalSigner rule webauthnVerifierAddress k = false) rules /\
  (n + length (filter (fun rule => cr_Signers rule <> []) rules) = m)%nat.
Proof.
  revert n. induction rules as [|rule rules IH]; intros n; cbn [signer_rules]; [intros [= <-]; by rewrite Nat.add_0_r|].
  rewrite filter_cons. destruct (cr_Signers rule) as [|sg sgs] eqn:Es; cbn [length Nat.eqb].
  - rewrite decide_False by naive_solver. intros [Hf Hn]%IH. split; [|done]. constructor; [|done].
    unfold ruleHasExactExternalSigner. by rewrite Es.
  - rewrite decide_True by done. destruct (ruleHasExactExternalSigner rule _ k) eqn:Er; [done|].
    intros [Hf Hn]%IH. split; [by constructor|]. cbn. lia.
Qed.

Lemma AddSigner_ok address k (w w' : W) b id :
  tx_round_trip -> AddSigner address k w = (Ok (SetupBuilt b id), w') ->
  (exists signer, expected_signer k = Ok signer /\ calls_account (bt_TxXdr b) address "add_context_rule" (add_rule_args signer)) /\
  Forall (eq id) (bt_ContextRuleIDs b) /\
  exists (v v' : W) rules dr, ListContextRules address v = (Ok rules, v') /\ dr ∈ rules /\ cr_IsDefault dr = true /\
    cr_ID dr = id /\ Forall (fun rule => ruleHasExactExternalSigner rule webauthnVerifierAddress k = false) rules /\
    (length (filter (fun rule => cr_Signers rule <> []) rules) <= 1)%nat.
Proof.
  intros Hrt. unfold AddSigner. destruct (String.eqb_spec k ""); [done|].
  destruct (String.eqb webauthnVerifierAddress "") eqn:Ev; [done|]. intros (rules & w1 & Hl & Hr)%bind_ok.
  apply (proj1 (wrap_ok _ _ _ _ _)) in Hl. destruct (signer_rules k rules 0) as [x|n1] eqn:Es; [by run_inv|].
  destruct (Nat.leb_spec 2 n1); [done|]. destruct (List.find cr_IsDefault rules) as [dr|] eqn:Ed; [|done].
  apply bind_ok in Hr as (key & w2 & Hk & Hr). apply (proj1 (wrap_ok _ _ _ _ _)), lift_ok in Hk as [Hk ->].
  apply bind_ok in Hr as (signer & w3 & Hs & Hr). apply lift_ok in Hs as [Hs ->].
  apply bind_ok in Hr as (hf & w4 & Hc & Hr). apply lift_ok in Hc as [Hc ->].
  apply bind_ok in Hr as (b1 & w5 & Hb & Hr). apply ret_ok in Hr as [[= -> <-] ->].
  eapply setup_ok in Hb as [Hcall Hids]; [|done..]. apply find_some in Ed as [Hin Hdef].
  apply signer_rules_ok in Es as [Hf Hn]. split; [|split; [exact Hids|]].
  - exists signer. split; [|done]. unfold expected_signer. by rewrite Ev, Hk.
  - exists w, w4, rules, dr. split_and!; try done; [by apply list_elem_of_In|lia].
Qed.

Lemma discover_default_chain s n i (w w' : W) id :
  discover_default_from s n i w = (Ok (id, ContextRuleDiscoveryDefault), w') -> chain_rule s id cr_IsDefault.
Proof.
  revert i w. induction n as [|n IH]; intros i w; cbn; [done|]. intros (r & w1 & Hg & Hr)%bind_ok.
  destruct r as [rule|]; [|by eapply IH]. destruct (cr_IsDefault rule) eqn:Ed; [|by eapply IH].
  apply ret_ok in Hr as [[= <-] _]. by exists w, w1, rule.
Qed.

Lemma RemoveSigner_ok address rid (w w' : W) b auth :
  tx_round_trip -> RemoveSigner address rid w = (Ok (b, auth), w') ->
  calls_account (bt_TxXdr b) address "remove_context_rule" [scU32 rid] /\ rid <> auth /\
  chain_rule address auth cr_IsDefault /\ Forall (eq auth) (bt_ContextRuleIDs b).
Proof.
  intros Hrt. unfold RemoveSigner. intros ([id disc] & w1 & Hd & Hr)%bind_ok. apply (proj1 (wrap_ok _ _ _ _ _)) in Hd.
  case_bool_decide as Hdisc; cbn [negb] in Hr; [subst disc|done]. destruct (Z.eqb_spec rid id) as [|Hne]; [done|].
  apply bind_ok in Hr as (rule & w2 & _ & Hr). apply bind_ok in Hr as (hf & w3 & Hc & Hr). apply lift_ok in Hc as [Hc ->].
  apply bind_ok in Hr as (b1 & w4 & Hb & Hr). apply ret_ok in Hr as [[= -> <-] _].
  eapply setup_ok in Hb as [Hcall Hids]; [|done..]. split_and!; try done.
  unfold DiscoverDefaultContextRule in Hd. apply bind_ok in Hd as (count & w5 & _ & Hd). by eapply discover_default_chain.
Qed.

Lemma built_or_fail_ok {A} (m : M W A) a w w' : built_or_fail m w = (Ok a, w') -> m w = (Ok a, w').
Proof.
  unfold built_or_fail, failAccountSignerBuild, fail, bind, attempt. destruct (m w) as [[x|e] w1]; [done|].
  repeat (match goal with |- context [if ?b then _ else _] => destruct b end); by intros Hf%throw_ok.
Qed.

(** The backup-signer route adds a rule and changes none. When it answers with a
    transaction, the calling credential was proved by this very session and is
    recorded as a signer of the account; the transaction's one invocation is the
    account's [add_context_rule] with exactly the arguments the confirmation route
    verifies — a Default rule of the posted key alone, so never a second signer on
    an existing rule; it is authorized, in every context, by a Default rule of the
    account; and no rule listed the key yet, nor did two rules have signers. *)
Theorem backup_rule_route sessionID req (w w' : W) b id :
  tx_round_trip -> AddSigner_handler sessionID req w = (Ok (SetupBuilt b id), w') ->
  proved_signer sessionID (ar_CallerCredentialID req) (ar_SmartAccountAddress req) (w_store w) /\
  (exists signer, expected_signer (ar_KeyDataHex req) = Ok signer /\
     calls_account (bt_TxXdr b) (ar_SmartAccountAddress req) "add_context_rule" (add_rule_args signer)) /\
  Forall (eq id) (bt_ContextRuleIDs b) /\
  exists (v v' : W) rules dr, ListContextRules (ar_SmartAccountAddress req) v = (Ok rules, v') /\ dr ∈ rules /\
    cr_IsDefault dr = true /\ cr_ID dr = id /\
    Forall (fun rule => ruleHasExactExternalSigner rule webauthnVerifierAddress (ar_KeyDataHex req) = false) rules /\
    (length (filter (fun rule => cr_Signers rule <> []) rules) <= 1)%nat.
Proof.
  intros Hrt Hr. unfold AddSigner_handler in Hr. apply bind_ok in Hr as (n & w1 & [_ ->]%named_network_ok & Hr).
  apply bind_ok in Hr as ([] & w2 & [_ Hp]%requireProvedSigner_ok & Hr). split; [exact Hp|].
  apply built_or_fail_ok in Hr. by eapply AddSigner_ok.
Qed.

(** C9. The removal route never removes the rule that authorizes it. When it answers
    with a transaction, the calling credential was proved by this session and is a
    signer of the account, a signer other than the removed credential is recorded,
    and the transaction's one invocation removes the rule recorded for that
    credential — never the rule that authorizes the call, which is a Default rule
    read from the account itself — so the account keeps a rule it can act under. *)
Theorem removal_keeps_authorizing_rule sessionID req (w w' : W) b auth rid :
  tx_round_trip -> RemoveSigner_handler sessionID req w = (Ok (b, auth, rid), w') ->
  proved_signer sessionID (rr_CallerCredentialID req) (rr_SmartAccountAddress req) (w_store w) /\
  calls_account (bt_TxXdr b) (rr_SmartAccountAddress req) "remove_context_rule" [scU32 rid] /\ rid <> auth /\
  chain_rule (rr_SmartAccountAddress req) auth cr_IsDefault /\ Forall (eq auth) (bt_ContextRuleIDs b) /\
  (exists row k, GetAccountSignerByCredential (rr_SmartAccountAddress req) (rr_CredentialID req) (w_store w) = Ok row /\
     as_ContextRuleID row = Some k /\ rid = uint32 k) /\
  exists (v v' : W) ids other, w_store v = w_store w /\ signerCredentialIDs (rr_SmartAccountAddress req) v = (Ok ids, v') /\
    other ∈ ids /\ other <> rr_CredentialID req.
Proof.
  intros Hrt Hr. unfold RemoveSigner_handler in Hr. apply bind_ok in Hr as (n & w1 & [_ ->]%named_network_ok & Hr).
  apply bind_ok in Hr as ([] & w2 & [E2 Hp]%requireProvedSigner_ok & Hr). split; [exact Hp|].
  apply bind_ok in Hr as (hasOther & w3 & Ho%or_fail_ok & Hr). destruct hasOther; cbn [negb] in Hr; [|done].
  apply bind_ok in Hr as (found & w4 & Hg%or_fail_ok & Hr). destruct found as [rule|]; [|done].
  apply bind_ok in Hr as ([b1 auth1] & w5 & Hb%built_or_fail_ok & Hr). apply ret_ok in Hr as [[= -> -> ->] _].
  apply RemoveSigner_ok in Hb as (Hcall & Hne & Hdef & Hids); [|done]. split_and!; try done.
  - pose proof Ho as Hst. apply (keeps_run (on_store eq)) in Hst; [|unfold HasOtherSignerCredential, signerCredentialIDs, or_no_rows; keeps].
    unfold on_store in Hst. unfold GetSignerContextRuleID in Hg. svc_inv.
    match goal with H : GetAccountSignerByCredential _ _ _ = Ok ?row |- _ => exists row; rewrite <- E2, Hst; cbn in H end.
    match goal with H : uint32 <$> as_ContextRuleID ?row = Some _ |- _ => destruct (as_ContextRuleID row) as [k|]; [|done]; exists k;
      injection H as <- end. done.
  - unfold HasOtherSignerCredential in Ho. apply bind_ok in Ho as (ids & w6 & Hids' & Ho). apply ret_ok in Ho as [Ho _].
    apply existsb_exists in Ho as (other & Hin%list_elem_of_In & Hx%negb_true_iff%String.eqb_neq).
    by exists w2, w6, ids, other.
Qed.

(** Whether a rule already lets the signer of a setup request sign. *)
Definition setup_signs (inp : SetupSendRulesInput) (rule : ContextRuleSummary) : bool :=
  if String.eqb (sr_SignerType inp) "passkey" && negb (String.eqb (sr_KeyDataHex inp) "")
  then ruleHasExactExternalSigner rule webauthnVerifierAddress (sr_KeyDataHex inp)
  else ruleAuthorizesSigner rule (sr_SignerType inp) (setup_verifier (sr_SignerType inp)) (sr_GAddress inp).

(** A rule of the account covers the asset, and lets this signer sign. *)
Definition set_up (inp : SetupSendRulesInput) (asset : CatalogAsset) : Prop :=
  exists id, chain_rule (sr_SmartAccountAddress inp) id (covers (ca_ContractID asset)) /\
    chain_rule (sr_SmartAccountAddress inp) id (setup_signs inp).

Lemma missing_assets_ok inp assets (w w' : W) missing :
  missing_assets inp (setup_verifier (sr_SignerType inp)) assets w = (Ok missing, w') ->
  missing ⊆+ assets /\ Forall (fun a => a ∈ missing \/ set_up inp a) assets /\
  (sr_SignerType inp = "passkey" -> sr_KeyDataHex inp <> "" -> missing = []).
Proof.
  revert w w' missing. induction assets as [|asset assets IH]; intros w w' missing; cbn [missing_assets].
  { intros [<- _]%ret_ok. done. }
  intros (m & w1 & Hm & Hr)%bind_ok. apply bind_ok in Hr as (rest & w2 & Hrest & Hr). apply ret_ok in Hr as [<- _].
  apply IH in Hrest as (Hsub & Hf & Hp).
  assert ((m = false -> set_up inp asset) /\
          (sr_SignerType inp = "passkey" -> sr_KeyDataHex inp <> "" -> m = false)) as [Hm1 Hm2].
  { destruct (_ && _) eqn:Ek.
    - unfold setup_verifier in Hm. pose proof Ek as [Ety _]%andb_prop. rewrite Ety in Hm. apply bind_ok in Hm as (found & w3 & Hf' & Hm).
      apply (proj1 (wrap_ok _ _ _ _ _)) in Hf'. destruct found as [[id d]|]; [|done]. apply ret_ok in Hm as [<- _].
      split; [|done]. intros _. apply FindRuleForSigner_covers in Hf'. unfold set_up, setup_signs. exists id. rewrite Ek.
      split; (eapply chain_rule_impl; [|exact Hf']; intros rule [? ?]%andb_prop; done).
    - split; cycle 1. { intros Hty Hk. rewrite Hty in Ek. apply String.eqb_neq in Hk. by rewrite Hk in Ek. }
      intros ->. apply bind_ok in Hm as ([id disc] & w3 & Hd & Hm). apply (proj1 (wrap_ok _ _ _ _ _)) in Hd.
      case_bool_decide as Hdisc; cbn [negb] in Hm; [subst disc|by run_inv].
      apply bind_ok in Hm as (rule & w4 & Hg & Hm). apply (proj1 (wrap_ok _ _ _ _ _)) in Hg. apply ret_ok in Hm as [Hm _].
      destruct rule as [rule|]; [|done]. exists id. split; [by eapply DiscoverContextRule_matched|].
      exists w3, w4, rule. split; [done|]. unfold setup_signs. rewrite Ek. by apply negb_false_iff in Hm. }
  split_and!.
  - destruct m; [by apply submseteq_skip|by apply submseteq_cons].
  - constructor.
    + destruct m; [left; left|right; by apply Hm1].
    + eapply Forall_impl; [exact Hf|]. intros a [Ha|?]; [left; destruct m; [by right|done]|by right].
  - intros Hty Hk. rewrite Hm2 by done. by apply Hp.
Qed.

(** What setting up sends leaves to do. "Already configured" is answered only
    when every requested asset has a rule, read from the chain, that lets this
    signer sign. Otherwise the one transaction adds a [CallContract] rule for a
    requested asset, under a name the contract accepts, authorized by the account's
    Default rule; and none is ever built for a passkey: one that names its key is
    either configured for every asset or refused. *)
Theorem setup_send_spec inp catalog (w w' : W) res :
  tx_round_trip -> SetupSendRules inp catalog w = (Ok res, w') ->
  exists assets, resolveAssetsToConfigure catalog (sr_AssetID inp) (sr_AssetIDs inp) = Ok assets /\
    match res with
    | SendAlreadyConfigured =>
        Forall (set_up inp) assets
    | SendSetup b asset remaining =>
        sr_SignerType inp <> "passkey" /\ asset ∈ assets /\ (remaining < length assets)%nat /\
        exists target name signers id, scAddress (ca_ContractID asset) = Ok target /\ (String.length name <= 20)%nat /\
          calls_account (bt_TxXdr b) (sr_SmartAccountAddress inp) "add_context_rule"
            [scVec [scSymbol "CallContract"; target]; scString name; scVoid; scVec [signers]; scMap []] /\
          Forall (eq id) (bt_ContextRuleIDs b)
    end.
Proof.
  intros Hrt. unfold SetupSendRules. intros (assets & w1 & Ha & Hr)%bind_ok. apply lift_ok in Ha as [Ha ->].
  exists assets. split; [done|]. cbn zeta in Hr. destruct (_ && _); [done|].
  apply bind_ok in Hr as (missing & w2 & Hm & Hr). apply missing_assets_ok in Hm as (Hsub & Hf & Hp).
  destruct missing as [|asset rest].
  { apply ret_ok in Hr as [<- _]. eapply Forall_impl; [exact Hf|]. by intros a [Hin%not_elem_of_nil|]. }
  apply bind_ok in Hr as (signers & w3 & Hs & Hr). apply lift_ok in Hs as [Hs ->].
  apply bind_ok in Hr as (name & w4 & Hn & Hr). apply lift_ok in Hn as [Hn ->].
  apply bind_ok in Hr as (ct & w5 & Hc & Hr). apply lift_ok in Hc as [Hc ->].
  apply bind_ok in Hr as (hf & w6 & Hcall & Hr). apply lift_ok in Hcall as [Hcall ->].
  apply bind_ok in Hr as ([id disc] & w7 & _ & Hr). apply bind_ok in Hr as (admin & w8 & _ & Hr).
  apply bind_ok in Hr as (b & w9 & Hb & Hr). apply ret_ok in Hr as [<- _].
  eapply setup_ok in Hb as [Hca Hids]; [|done..]. split_and!.
  - intros Hty. rewrite Hty in Hs. unfold buildSignersVecForSetup in Hs. cbn in Hs.
    destruct (String.eqb_spec (sr_KeyDataHex inp) "") as [|Hk]; [by rewrite orb_true_r in Hs|]. by discriminate Hp.
  - eapply elem_of_submseteq; [|exact Hsub]. left.
  - apply submseteq_length in Hsub. cbn in Hsub. lia.
  - unfold buildCallContractContextType in Hc. apply res_bind_ok in Hc as (target & Ht%res_wrap_ok & [= <-]).
    assert (exists sg, signers = scVec [sg]) as [sg ->].
    { unfold buildSignersVecForSetup in Hs. repeat (match type of Hs with context [if ?c then _ else _] => destruct c; [try done|try done] end); run_inv; eauto. }
    unfold buildContextRuleName, contextRuleNameMaxLen in Hn. destruct (Nat.ltb_spec 20 (String.length ("send" +:+ "-" +:+ ca_AssetID asset))); [done|].
    injection Hn as <-. exists target, ("send" +:+ "-" +:+ ca_AssetID asset), sg, id. done.
Qed.
End RuleTheorems.

Section Witnesses.
Import Demo DemoServices DemoProposals DemoSubmit DemoBuild.
#[local] Instance demo_deployment : Deployment := {| Get := "testnet"; Get_valid := or_intror (or_introl eq_refl) |}.

Lemma wallet_tx_round_trip : tx_round_trip.
Proof. intros n tp b. apply safe_tx_build_ok. Qed.

(** The account of user 1, whose credential A session 7 has proved, with the backup
    credential B under rule 0. *)
Definition wallet_account : WebappSmartAccount :=
  {| sa_ID := 50%N; sa_UserID := 1%N; sa_CredentialID := "A"; sa_KeyDataHex := ""; sa_SaltHex := "";
     sa_SmartAccountAddress := "CS"; sa_Deployed := 1; sa_CreatedAt := 0 |}.
Definition wallet_world : World Store := after [OpAdopt wallet_account; OpAttach "CS" "B" "l"; OpMark "CS" "B" 0].

Definition add_run : M (World Store) SetupResult :=
  AddSigner_handler (H0 := solo_n) (H4 := demo_e) "7"
    {| ar_Network := ""; ar_SmartAccountAddress := "CS"; ar_KeyDataHex := "04bb"; ar_CallerCredentialID := "A" |}.
Lemma backup_rule_route_witness :
  exists b w', add_run wallet_world = (Ok (SetupBuilt b 0), w') /\
    exists signer, expected_signer "04bb" = Ok signer /\ calls_account (bt_TxXdr b) "CS" "add_context_rule" (add_rule_args signer).
Proof.
  assert (match fst (add_run wallet_world) with Ok (SetupBuilt _ id) => Some id | _ => None end = Some 0) as Hok
    by (vm_compute; reflexivity).
  destruct (add_run wallet_world) as [[[id|b id]|e] w'] eqn:Hr; [discriminate Hok| |discriminate Hok]. injection Hok as ->.
  exists b, w'. split; [reflexivity|].
  exact (proj1 (proj2 (backup_rule_route (H0 := solo_n) (H4 := demo_e) "7" _ wallet_world w' b 0 wallet_tx_round_trip Hr))).
Defined.

Definition remove_run : M (World Store) (BuildAuthTransactionResult * Z * Z) :=
  RemoveSigner_handler (H0 := wallet_n) (H4 := demo_e) "7"
    {| rr_Network := ""; rr_SmartAccountAddress := "CS"; rr_CredentialID := "B"; rr_CallerCredentialID := "A" |}.
Lemma removal_keeps_authorizing_rule_witness :
  exists b auth rid w', remove_run wallet_world = (Ok (b, auth, rid), w') /\ rid <> auth /\
    calls_account (bt_TxXdr b) "CS" "remove_context_rule" [scU32 rid].
Proof.
  assert (is_ok (fst (remove_run wallet_world)) = true) as ([[b auth] rid] & w' & Hr)%succeeds by (vm_compute; reflexivity).
  exists b, auth, rid, w'. split; [exact Hr|].
  destruct (removal_keeps_authorizing_rule (H0 := wallet_n) (H4 := demo_e) "7" _ wallet_world w' b auth rid wallet_tx_round_trip Hr)
    as (_ & Hc & Hne & _). split; [exact Hne|exact Hc].
Defined.

Definition setup_run (signerType g : string) : M (World Store) SetupSendRulesResult :=
  SetupSendRules (H0 := solo_n) (H4 := demo_e)
    {| sr_SmartAccountAddress := "CS"; sr_SignerType := signerType; sr_AssetID := ""; sr_AssetIDs := [];
       sr_PublicKeyHex := ""; sr_KeyDataHex := "04aa"; sr_GAddress := g |} [demo_asset].
(** A G-address gets a rule for the asset; the passkey of the Default rule has one. *)
Lemma setup_send_spec_witness :
  (exists b asset n w', setup_run "delegated" ("G" +:+ key32) world0 = (Ok (SendSetup b asset n), w') /\ asset = demo_asset) /\
  exists w', setup_run "passkey" "" world0 = (Ok SendAlreadyConfigured, w').
Proof.
  split.
  - assert (match fst (setup_run "delegated" ("G" +:+ key32) world0) with Ok (SendSetup _ _ _) => true | _ => false end = true) as Hok
      by (vm_compute; reflexivity).
    destruct (setup_run "delegated" ("G" +:+ key32) world0) as [[[|b asset n]|e] w'] eqn:Hr; [discriminate Hok| |discriminate Hok].
    exists b, asset, n, w'. split; [reflexivity|].
    destruct (setup_send_spec (H0 := solo_n) (H4 := demo_e) _ [demo_asset] world0 w' _ wallet_tx_round_trip Hr)
      as (assets & Ha & _ & Hin & _).
    injection Ha as <-. apply list_elem_of_singleton in Hin. exact Hin.
  - apply answers. vm_compute. reflexivity.
Defined.
End Witnesses.
End RuleTheorems.

(** ** Swaps and the demo counter *)
Module SwapTheorems.
Import Amount Balances ContextRules Signers ExecuteAuth Submit SubmitSigned Build BuildTx BuildTheorems.

Section Swaps.
Context `{StellarSDK} `{Network} `{SubmitNetwork} `{Gasless} `{GaslessQuotes} `{Env} `{ServiceConfig} `{BuilderConfig}.
Context `{Json SimulationSummary}.
Abbreviation W := (World Store).

(** Who may swap under a rule: a passkey or an Ed25519 key where the rule has an
    external signer at all; a G-address the rule lists next to one, or alone. *)
Definition swap_ready (signerType signerG : string) (rule : ContextRuleSummary) : Prop :=
  (signerType = "passkey" \/ signerType = "ed25519" -> ruleHasExternalSigner rule = true) /\
  (signerType = "delegated" ->
     ruleHasExternalSigner rule = true /\ ruleHasDelegatedSignerG rule signerG = true /\ signerG <> bundlerG \/
     ruleIsDelegatedOnly rule = true /\ signerG = delegatedGFromContextRule rule /\ signerG <> "").

Lemma delegated_only_no_external rule : ruleIsDelegatedOnly rule = true -> ruleHasExternalSigner rule = false.
Proof.
  unfold ruleIsDelegatedOnly, ruleHasExternalSigner. destruct (cr_Signers rule) as [|sg sgs]; [done|]. intros Hall.
  apply not_true_is_false. intros (x & Hin & Hx)%existsb_exists. apply forallb_forall with (x := x) in Hall; [|done].
  unfold is_delegated in Hall. apply String.eqb_eq in Hall. rewrite Hall in Hx. done.
Qed.

Lemma validated_ready rule ty g :
  (ty = "delegated" -> g <> bundlerG) ->
  (if sa_needsPasskeySetup (resolveSwapAuthMode (Some rule) ty g) then assertSwapRuleReadyForSign (Some rule) else Ok tt) = Ok tt ->
  (if sa_useDelegatedAuth (resolveSwapAuthMode (Some rule) ty g) then Ok tt
   else validateContextRuleForSignerType (Some rule) ty g bundlerG) = Ok tt ->
  swap_ready ty g rule.
Proof.
  intros Hb _. unfold resolveSwapAuthMode, swap_ready.
  assert (validateContextRuleForSignerType (Some rule) ty g bundlerG = Ok tt -> (ty = "passkey" \/ ty = "ed25519" -> ruleHasExternalSigner rule = true) /\
    (ty = "delegated" -> ruleHasExternalSigner rule = true /\ ruleHasDelegatedSignerG rule g = true)) as Hv.
  { unfold validateContextRuleForSignerType. destruct (_ && _); [done|].
    destruct (String.eqb_spec ty "passkey") as [E1|], (String.eqb_spec ty "ed25519") as [E2|], (String.eqb_spec ty "delegated") as [E3|];
      cbn [orb]; destruct (ruleHasExternalSigner rule); cbn;
      repeat (match goal with |- context [if ?b then Err _ else _] => destruct b eqn:?; cbn end); (try done);
      intros Hx; split; intros; repeat match goal with H : negb _ = false |- _ => apply negb_false_iff in H end; naive_solver. }
  destruct (ruleIsDelegatedOnly rule) eqn:Ed; cbn [negb]; [|cbn; intros Hx; destruct (Hv Hx); split; [done|]; intros Hty; left; naive_solver].
  destruct (String.eqb_spec (delegatedGFromContextRule rule) "") as [|Hg]; [cbn; intros Hx; destruct (Hv Hx); split; [done|]; intros; left; naive_solver|].
  destruct (String.eqb_spec ty "delegated") as [E3|Hty], (String.eqb_spec g (delegatedGFromContextRule rule)) as [Eg|]; cbn.
  1: { intros _. split; [intros [?|?]; congruence|]. intros _. right. rewrite Eg. done. }
  all: try (destruct (_ || _); cbn); (intros Hx; destruct (Hv Hx); split; [done|intros; left; naive_solver]).
Qed.

(** The call a swap stands for: [swap_chained] on the router, from the account, along the chain given, of [amountIn] of
    the token in for at least [amountOutMin], both amounts as two 64-bit words. *)
Definition swap_action (inp : BuildSwapInput) (router : string) (amountIn amountOutMin : Z) (action : InvokeContractArgs) : Prop :=
  exists c account chain tokenIn inHi inLo outHi outLo,
    strkey_decode_contract router = Ok c /\ scAddressFromString (bw_SmartAccountAddress inp) = Ok account /\
    scval_unmarshal_b64 (bw_SwapChainXdr inp) = Ok chain /\ scAddressFromString (bw_TokenInContractID inp) = Ok tokenIn /\
    u128_split amountIn inHi inLo /\ u128_split amountOutMin outHi outLo /\
    action = {| ica_ContractAddress := AddrContract c; ica_FunctionName := "swap_chained";
                ica_Args := [ScvAddress account; chain; ScvAddress tokenIn; ScvU128 inHi inLo; ScvU128 outHi outLo] |}.
Lemma swap_call_ok inp router amountIn amountOutMin action :
  0 <= amountIn < 2 ^ 128 -> 0 <= amountOutMin < 2 ^ 128 -> swap_call inp router amountIn amountOutMin = Ok action ->
  swap_action inp router amountIn amountOutMin action.
Proof.
  unfold swap_call. intros Hi%bigIntToU128_split Ho%bigIntToU128_split (c & Hc%res_wrap_ok%contractID_ok & Hr)%res_bind_ok.
  apply res_bind_ok in Hr as (chain & Hch & Hr). destruct (scval_unmarshal_b64 _) as [ch|] eqn:Ech; [|done]. injection Hch as ->.
  apply res_bind_ok in Hr as (av & (account & Ha & ->)%res_wrap_ok%scAddress_ok & Hr).
  apply res_bind_ok in Hr as (tv & (tokenIn & Ht & ->)%res_wrap_ok%scAddress_ok & Hr).
  destruct (bigIntToU128 amountIn) as [ih il], (bigIntToU128 amountOutMin) as [oh ol]. injection Hr as <-.
  exists c, account, chain, tokenIn, ih, il, oh, ol. by split_and!.
Qed.
(** The transaction of [tx] makes one call, [fn], from the bundler's account. *)
Definition calls_only (tx : string) (fn : HostFunction) : Prop :=
  exists n p op, tx_build n p = Ok tx /\ tp_SourceAccount p = bundlerG /\ tp_Operations p = [op] /\ op_Function op = fn.

Lemma bundler_tx_calls seq fn es data tx (w w' : W) : bundler_tx seq fn es data w = (Ok tx, w') -> calls_only tx fn.
Proof. intros [E _]%call_ok. do 3 eexists. split; [exact E|done]. Qed.

(** C23. A swap is only built under a rule that lets its signer act and covers
    everything it calls: the rule is a Default rule read from the account, a passkey
    or Ed25519 key needs an external signer on it, a G-address must be listed there
    next to an external signer or be the only kind of signer, and is never the
    bundler's own; a passkey that names its key was found on the rule; the amount in
    is an unsigned 128-bit integer the wallet's balance covered. The transaction
    handed out makes one call: the fee forwarder's, for the fee shown, of
    [swap_chained] on the named router (Aquarius' when none is named), from this
    account, of exactly the two amounts parsed from the request. *)
Theorem swap_spec inp (w w' : W) r :
  BuildSwap inp w = (Ok r, w') ->
  (bw_SignerType inp = "delegated" -> bw_SignerG inp <> bundlerG) /\
  (exists (v v' : W) rule, RuleAtID (bw_SmartAccountAddress inp) (bt_ContextRuleID (bx_Build r)) v = (Ok (Some rule), v') /\
     cr_IsDefault rule = true /\ swap_ready (bw_SignerType inp) (bw_SignerG inp) rule) /\
  (bw_SignerType inp = "passkey" -> bw_KeyDataHex inp <> "" ->
     chain_rule (bw_SmartAccountAddress inp) (bt_ContextRuleID (bx_Build r))
       (fun rule => ruleHasExactExternalSigner rule webauthnVerifierAddress (bw_KeyDataHex inp))) /\
  Forall (eq (bt_ContextRuleID (bx_Build r))) (bt_ContextRuleIDs (bx_Build r)) /\
  (exists amountIn (v v' : W) hi lo, parseU128Raw (bw_AmountInRaw inp) "amountInRaw" = Ok amountIn /\ 0 <= amountIn < 2 ^ 128 /\
    balanceOf (bw_TokenInContractID inp) (bw_SmartAccountAddress inp) v = (Ok (hi, lo), v') /\ amountIn <= i128ToBigInt hi lo) /\
  exists amountIn amountOutMin action feeForwarder maxFee expiry relayer fn,
    parseU128Raw (bw_AmountInRaw inp) "amountInRaw" = Ok amountIn /\
    parseU128Raw (bw_AmountOutMinRaw inp) "amountOutMinRaw" = Ok amountOutMin /\
    bx_AmountInRaw r = big_string amountIn /\ bx_AmountOutMinRaw r = big_string amountOutMin /\
    (bw_RouterContractID inp <> "" -> bx_RouterContractID r = bw_RouterContractID inp) /\
    (bw_RouterContractID inp = "" -> bx_RouterContractID r = aquariusRouterTestnet) /\
    swap_action inp (bx_RouterContractID r) amountIn amountOutMin action /\
    nf_MaxAmountRaw (bx_NetworkFee r) = big_string maxFee /\
    forwards feeForwarder (nf_Token (bx_NetworkFee r)) (maxFee mod 2 ^ 64) expiry action (bw_SmartAccountAddress inp) relayer fn /\
    calls_only (bt_TxXdr (bx_Build r)) fn.
Proof.
  unfold BuildSwap. destruct (_ && _) eqn:Eb; [done|]. intros (a & w1 & Ha & Hr)%bind_ok. apply lift_ok in Ha as [Ha ->].
  apply bind_ok in Hr as (o & w2 & Ho & Hr). apply lift_ok in Ho as [Ho _]. apply bind_ok in Hr as (id & w3 & Hid & Hr).
  apply bind_ok in Hr as (rule & w4 & Hrule & Hr). apply (proj1 (wrap_ok _ _ _ _ _)) in Hrule. cbn zeta in Hr.
  apply bind_ok in Hr as ([] & w5 & H1' & Hr). apply bind_ok in Hr as ([] & w6 & H2' & Hr).
  apply bind_ok in Hr as ([hi lo] & w7 & Hbal & Hr). apply (proj1 (wrap_ok _ _ _ _ _)) in Hbal.
  destruct (Z.ltb_spec (i128ToBigInt hi lo) a) as [|Hle]; [done|]. apply bind_ok in Hr as (act & w8 & Hact & Hr). apply lift_ok in Hact as [Hact _].
  destruct rule as [rule|]; [|done]. destruct (cr_IsDefault rule) eqn:Edf; cbn [negb] in Hr; [|done].
  apply bind_ok in Hr as (plan & w9 & Hplan & Hr). apply bind_ok in Hr as (seq & w10 & _ & Hr).
  apply bind_ok in Hr as (core & w11 & Hcore & Hr). apply ret_ok in Hr as [<- _]. cbn [bx_Build].
  apply core_ok in Hcore as (e & es & data & v & v' & (entries & digest & _ & _ & _ & Hids & _) & Htx & Hcid & _). cbn in Hids, Hcid.
  assert (bw_SignerType inp = "delegated" -> bw_SignerG inp <> bundlerG) as Hb.
  { intros Hty Hg. rewrite Hty, Hg, !String.eqb_refl in Eb. done. }
  pose proof (parseU128Raw_range _ _ _ Ha) as Hra. pose proof (parseU128Raw_range _ _ _ Ho) as Hro.
  split; [exact Hb|]. rewrite Hcid, Hids. split_and!.
  - exists w3, w4, rule. split_and!; [done|done|]. apply validated_ready; [done| |].
    + destruct (sa_needsPasskeySetup _); [|done]. by apply lift_ok in H1' as [? _].
    + destruct (sa_useDelegatedAuth _); [done|]. by apply lift_ok in H2' as [? _].
  - intros Hty Hk. unfold swap_rule in Hid. rewrite Hty, (proj2 (String.eqb_neq _ _) Hk) in Hid. cbn in Hid.
    apply bind_ok in Hid as (found & w12 & Hf & Hid). apply (proj1 (wrap_ok _ _ _ _ _)) in Hf.
    destruct found as [[id0 d]|]; [|done]. apply ret_ok in Hid as [<- _]. by eapply FindRuleForSigner_chain.
  - unfold contextRuleIDsForEntry. apply Forall_forall. intros x Hx%list_elem_of_In. by apply repeat_spec in Hx.
  - exists a, w6, w7, hi, lo. split_and!; (done || apply Hra).
  - apply planForward_forwards in Hplan as (ff & maxFee & expiry & relayer & Hmax & Hfw).
    exists a, o, act, ff, maxFee, expiry, relayer, (fw_hostFunction plan). cbn. apply bundler_tx_calls in Htx.
    split_and!; try done; [..|by apply swap_call_ok]; unfold resolveRouterContractID; by destruct (String.eqb_spec (bw_RouterContractID inp) "").
Qed.

(** The demo's delegated route hands out an entry it never signed: the smart
    account's entry it returns is the simulated one with its expiration set and its
    signature as the simulation left it — the payload it builds for the G-address
    goes into a copy that is dropped. *)
Theorem delegated_counter_unsigned s g (w w' : W) r :
  BuildDelegatedCounter s g w = (Ok r, w') ->
  exists tx n sim x auth e es,
    rpc_simulate tx n = Ok sim /\ head (sim_Results sim) = Some (x, auth) /\ normalizeAuthEntries auth = Ok (e :: es) /\
    bd_ValidUntilLedger r = uint32 (uint32 (sim_LatestLedger sim) + 60) /\
    entry_marshal_b64 (with_expiration (bd_ValidUntilLedger r) e) = Ok (bd_SmartAccountAuthEntryXdr r).
Proof.
  unfold BuildDelegatedCounter. intros ([[[id disc] fn] seq] & w1 & _ & Hr)%bind_ok.
  apply bind_ok in Hr as (tx & w2 & _ & Hr). apply bind_ok in Hr as (sim & w3 & Hsim & Hr).
  apply (proj1 (wrap_ok _ _ _ _ _)), call_ok in Hsim as [Hsim _].
  apply bind_ok in Hr as (entries & w4 & He & Hr). apply lift_ok in He as [He ->].
  unfold simulated_entries in He. destruct (negb _); [done|]. destruct (sim_Results sim) as [|[x auth] rest] eqn:Es; [done|].
  apply res_wrap_ok in He. destruct entries as [|e es]; [done|]. cbn [take setAddressCredentialExpiration map] in Hr.
  unfold setAddressCredentialExpiration in Hr. cbn [map] in Hr.
  apply bind_ok in Hr as (data & w5 & _ & Hr). apply bind_ok in Hr as (final & w6 & _ & Hr).
  apply bind_ok in Hr as (digest & w7 & _ & Hr). apply bind_ok in Hr as (dropped & w8 & _ & Hr).
  apply bind_ok in Hr as (b64 & w9 & Hb & Hr). apply (proj1 (wrap_ok _ _ _ _ _)), lift_ok in Hb as [Hb _].
  apply bind_ok in Hr as ([p t] & w10 & _ & Hr). apply ret_ok in Hr as [<- _]. cbn.
  exists tx, (w_io w2), sim, x, auth, e, es. rewrite Es. done.
Qed.
End Swaps.

Section Witnesses.
Import Demo DemoServices DemoProposals DemoSubmit DemoBuild.

Definition swap_chain_xdr : string := match scval_marshal_b64 (scVec []) with Ok s => s | Err _ => "" end.
Definition swap_input : BuildSwapInput :=
  {| bw_SmartAccountAddress := "CS"; bw_SignerType := "passkey"; bw_SignerG := ""; bw_RouterContractID := "CR";
     bw_KeyDataHex := "04aa"; bw_SwapChainXdr := swap_chain_xdr; bw_TokenInContractID := "CL";
     bw_AmountInRaw := "0005"; bw_AmountOutMinRaw := "1" |}.
Definition swap_run : M (World Store) BuildSwapResult := BuildSwap (H0 := solo_n) (H4 := demo_e) swap_input.
Lemma swap_spec_witness :
  exists r w', swap_run world0 = (Ok r, w') /\ bx_AmountInRaw r = "5" /\
    (exists (v v' : World Store) rule, RuleAtID (H0 := solo_n) "CS" (bt_ContextRuleID (bx_Build r)) v = (Ok (Some rule), v') /\ cr_IsDefault rule = true) /\
    exists action feeForwarder token maxFee expiry relayer fn, swap_action swap_input "CR" 5 1 action /\
      forwards feeForwarder token maxFee expiry action "CS" relayer fn /\ calls_only (bt_TxXdr (bx_Build r)) fn.
Proof.
  assert (match fst (swap_run world0) with Ok r => bx_AmountInRaw r | Err _ => "" end = "5") as Hok by (vm_compute; reflexivity).
  destruct (swap_run world0) as [[r|e] w'] eqn:Hr; [|discriminate Hok]. exists r, w'. split; [reflexivity|]. split; [exact Hok|].
  destruct (swap_spec (H0 := solo_n) (H4 := demo_e) swap_input world0 w' r Hr)
    as (_ & (v & v' & rule & Hg & Hd & _) & _ & _ & _ & a & o & act & ff & mx & ex & rel & fn & Ha & Ho & _ & _ & Hrt & _ & Hact & _ & Hfw & Hc).
  split; [exists v, v', rule; split; [exact Hg|exact Hd]|].
  assert (parseU128Raw (bw_AmountInRaw swap_input) "amountInRaw" = Ok 5) as Ea by (vm_compute; reflexivity).
  assert (parseU128Raw (bw_AmountOutMinRaw swap_input) "amountOutMinRaw" = Ok 1) as Eo by (vm_compute; reflexivity).
  rewrite Ea in Ha. rewrite Eo in Ho. injection Ha as <-. injection Ho as <-. rewrite Hrt in Hact by discriminate.
  exists act, ff, (nf_Token (bx_NetworkFee r)), (mx mod 2 ^ 64), ex, rel, fn. split; [exact Hact|]. split; [exact Hfw|exact Hc].
Defined.

Definition counter_run : M (World Store) BuildDelegatedCounterResult :=
  BuildDelegatedCounter (H0 := demo_n) (H4 := demo_e) "CS" ("G" +:+ key32).
Lemma delegated_counter_unsigned_witness :
  exists r w' e, counter_run world0 = (Ok r, w') /\
    entry_marshal_b64 (with_expiration (bd_ValidUntilLedger r) e) = Ok (bd_SmartAccountAuthEntryXdr r).
Proof.
  assert (is_ok (fst (counter_run world0)) = true) as (r & w' & Hr)%succeeds by (vm_compute; reflexivity).
  destruct (delegated_counter_unsigned (H0 := demo_n) (H4 := demo_e) "CS" ("G" +:+ key32) world0 w' r Hr)
    as (tx & n & sim & x & auth & e & es & _ & _ & _ & _ & He).
  exists r, w', e. split; [exact Hr|exact He].
Defined.
End Witnesses.
End SwapTheorems.
