(* ===== verification/Execution.v ===== *)
(** * From a proposal to the transaction that leaves

    The proposal service and the bundler pipeline composed: the transaction a
    proposal stores is, in every state requests can reach, the operation it
    shows to its members; and an execution through [TransactionService] sends
    exactly that operation, on the bundler's account, with the entries
    assembled from the approvals. *)

From S2P Require Export ProposalDigest Submit.
From S2P Require Import Instances.

Module Execution.
Import Signers ExecuteAuth Assets Balances ContextRules Amount Proposals ProposalSafety ProposalRefresh Submit.

Section Coherent.
Context `{StellarSDK} `{Network} `{Unicode} `{UuidLib} `{Env} `{!TransactionSubmitter} `{ServiceConfig}
  `{Json sacTransferOperationParams} `{Json (list string)} {J : Type} `{Json J}.
Abbreviation W := (World Store).

(** The stored transaction invokes the operation the proposal stores. *)
Definition tx_coherent (d : Store) (p : MultisigProposal) : Prop :=
  exists a op, accounts d !! mp_MultisigAccountID p = Some a /\
    reconstructOperation (ma_SmartAccountAddress a) (mp_OperationKind p) (mp_TargetContractID p)
      (mp_OperationParamsJson p) = Ok op /\
    single_invoke (mp_TxXdr p) = Ok (op_HostFunction op).
Definition transactions_live (d : Store) : Prop :=
  forall k p, proposals d !! k = Some p -> tx_coherent d p.

Definition same_tx (p p' : MultisigProposal) : Prop :=
  (mp_MultisigAccountID p', mp_OperationKind p', mp_TargetContractID p', mp_OperationParamsJson p', mp_TxXdr p') =
  (mp_MultisigAccountID p, mp_OperationKind p, mp_TargetContractID p, mp_OperationParamsJson p, mp_TxXdr p).

(** Steps that touch no transaction. *)
Definition same_txs (d d' : Store) : Prop :=
  accounts d' = accounts d /\
  forall k p', proposals d' !! k = Some p' -> exists p, proposals d !! k = Some p /\ same_tx p p'.
(** Steps that may write coherent ones. *)
Definition tx_keeps (d d' : Store) : Prop :=
  accounts d' = accounts d /\
  forall k p', proposals d' !! k = Some p' ->
    tx_coherent d p' \/ exists p, proposals d !! k = Some p /\ same_tx p p'.

#[local] Instance same_txs_refl : Reflexive same_txs.
Proof. intros d. split; [done|]. intros k p E. by exists p. Qed.
#[local] Instance same_txs_trans : Transitive same_txs.
Proof.
  intros d1 d2 d3 [A1 P1] [A2 P2]. split; [congruence|]. intros k p3 E3.
  destruct (P2 _ _ E3) as (p2 & E2 & S2). destruct (P1 _ _ E2) as (p1 & E1 & S1). exists p1. split; [done|].
  unfold same_tx in *. congruence.
Qed.
Lemma same_txs_keeps d d' : same_txs d d' -> tx_keeps d d'.
Proof. intros [A P]. split; [done|]. intros k p' E. right. by apply P. Qed.
Lemma tx_keeps_refl d : tx_keeps d d.
Proof. by apply same_txs_keeps. Qed.
Hint Resolve tx_keeps_refl : core.

Lemma tx_keeps_live d d' : transactions_live d -> tx_keeps d d' -> transactions_live d'.
Proof.
  intros Hl [A P] k p' E. unfold tx_coherent. rewrite A.
  destruct (P _ _ E) as [Hc|(p & Ep & S)]; [exact Hc|].
  destruct (Hl _ _ Ep) as (a & op & ? & ? & ?). unfold same_tx in S. injection S as -> -> -> -> ->. by exists a, op.
Qed.

Lemma simulate_tx sa op (w w' : W) artifacts disc :
  tx_round_trip -> simulateAndExtract sa op w = (Ok (artifacts, disc), w') ->
  single_invoke (ba_TxXdrB64 artifacts) = Ok (op_HostFunction op).
Proof using Type.
  intros Hrt Hr. unfold simulateAndExtract in Hr.
  apply bind_ok in Hr as ([rule disc'] & w1 & _ & Hr).
  apply bind_ok in Hr as (seq & w2 & _ & Hr). apply bind_ok in Hr as (stx & w3 & _ & Hr).
  apply bind_ok in Hr as (sim & w4 & _ & Hr).
  destruct (negb _); [by run_inv|]. destruct (sim_Results sim) as [|[x auth] rest]; [by run_inv|].
  apply bind_ok in Hr as (raw & w5 & _ & Hr). cbn [setAddressCredentialExpiration] in Hr.
  destruct (if _ : bool then _ else _); [|by run_inv]. run_inv. simplify_eq. cbn.
  unfold single_invoke. match goal with H : tx_build _ _ = Ok _ |- _ => rewrite (Hrt _ _ _ H) end. done.
Qed.

Lemma same_txs_proposals d t :
  (forall k p', t !! k = Some p' -> exists p, proposals d !! k = Some p /\ same_tx p p') ->
  same_txs d (set_proposals t d).
Proof. intros Ht. split; [done|exact Ht]. Qed.

Lemma same_txs_approvals d t : same_txs d (set_approvals t d).
Proof. split; [done|]. intros k p E. by exists p. Qed.
Lemma same_txs_chain d l : same_txs d (set_chain l d).
Proof. split; [done|]. intros k p E. by exists p. Qed.
Hint Resolve same_txs_approvals same_txs_chain : core.

Lemma keeps_tx_upsert m row : keeps (on_store same_txs) (exec (upsert_approval m row)).
Proof using Type.
  apply keeps_exec; [apply _..|]. intros d i d'. unfold upsert_approval.
  destruct (select_one _ _); [intros [= _ <-]; auto|]. destruct (present _ _); [done|].
  destruct (approval_fks _ _); [|done]. intros [= _ <-]. auto.
Qed.
Lemma keeps_tx_finish id mid s g : keeps (on_store same_txs) (exec (UpdateMultisigApprovalDelegatedFinish id mid s g)).
Proof using Type. apply keeps_exec; [apply _..|]. intros d [] d' [= <-]. auto. Qed.
Lemma keeps_tx_executed id hash : keeps (on_store same_txs) (exec (UpdateMultisigProposalExecuted id hash)).
Proof using Type.
  apply keeps_exec; [apply _..|]. intros d [] d' [= <-]. apply same_txs_proposals. intros k p'.
  rewrite lookup_alter_Some. intros [(<- & q & Eq & ->)|[_ E]]; [by exists q|by exists p'].
Qed.
Lemma keeps_tx_submit tx es : keeps (on_store same_txs) (Service.SubmitAuthEntries tx es).
Proof using Type. apply keeps_only_chain; [auto|apply SubmitAuthEntries_store]. Qed.
Lemma keeps_tx_owned s u : keeps (on_store same_txs) (getOwnedProposal s u).
Proof using Type. apply keeps_store_eq; [apply _|apply keeps_getOwnedProposal]. Qed.
Lemma keeps_tx_member a u m t : keeps (on_store same_txs) (getOwnedMember a u m t).
Proof using Type. apply keeps_store_eq; [apply _|apply keeps_getOwnedMember]. Qed.
Hint Resolve keeps_tx_owned keeps_tx_member keeps_tx_upsert keeps_tx_finish keeps_tx_executed keeps_tx_submit : keeps.

Section From.
Context (Hrt : tx_round_trip) (Hparams : params_round_trip).
Context (d : Store) (Hwf : proposals_wf d).
Abbreviation kept := (tx_keeps d).

Lemma getOwnedAccountByAddress_ok address uid (w w' : W) a :
  getOwnedAccountByAddress address uid w = (Ok a, w') ->
  w_store w' = w_store w /\ ma_SmartAccountAddress a = address /\ exists k, accounts (w_store w) !! k = Some a.
Proof using Type.
  unfold getOwnedAccountByAddress. intros Hr. apply bind_ok in Hr as (a0 & w1 & Ha & Hr).
  apply (proj1 (or_no_rows_ok _ _ _ _ _ _)), query_ok in Ha as (_ & Ha & ->). apply select_one_ok in Ha as [Heq Hk].
  apply bind_ok in Hr as (b & w2 & Hb & Hr). apply accountAccessGranted_ok in Hb as [S1 _].
  destruct (negb b); [by run_inv|]. apply ret_ok in Hr as [-> <-]. apply String.eqb_eq in Heq. done.
Qed.

Lemma kept_rest {A} (m : M W A) : keeps (on_store same_txs) m -> ends d m kept.
Proof using Type. intros Hk. eapply ends_keeps; [exact Hk|]. apply same_txs_keeps. Qed.

Lemma kept_rebuildProposal id p a :
  proposals d !! id = Some p -> mp_ID p = id -> accounts d !! mp_MultisigAccountID p = Some a ->
  ends d (rebuildProposal p a) kept.
Proof using Hrt.
  intros Ep Hid Ea. unfold rebuildProposal. apply ends_read; [keeps|done|]. intros op ? ? _ [Hop _]%lift_ok.
  apply ends_read; [keeps|done|]. intros [artifacts disc] w1 w2 _ Hsim.
  apply ends_read; [keeps|done|]. intros js w3 w4 _ _.
  apply ends_exec; [done|]. intros [] d1 [= <-]. apply ends_last; [by apply same_txs_keeps| |intros; keeps].
  intros [] d2 [= <-]. split; [done|]. cbn. intros k p'. rewrite lookup_alter_Some, Hid.
  intros [(<- & q & Eq & ->)|[_ E]]; [left|right; by exists p']. rewrite Ep in Eq. injection Eq as <-.
  exists a, op. cbn. split_and!; [done|done|]. exact (simulate_tx _ _ _ _ _ _ Hrt Hsim).
Qed.

Lemma kept_ensureFresh {A} id p a (k : MultisigProposal -> M W A) :
  proposals d !! id = Some p -> mp_ID p = id -> accounts d !! mp_MultisigAccountID p = Some a ->
  ends d (k p) kept -> ends d (bind (ensureFresh p a) k) kept.
Proof using Hrt.
  intros Ep Eid Ea Hk. apply ends_bind.
  - intros w p' w' Hw Hr. apply ensureFresh_ok in Hr as (-> & -> & Hf). by rewrite Hw.
  - intros w e w' Hw Hr. refine (ends_run d (ensureFresh p a) kept w (Err e) w' _ Hw Hr). unfold ensureFresh.
    pose proof (kept_rebuildProposal id p a Ep Eid Ea) as Hb.
    apply ends_read; [keeps|done|]. intros [] ? ? _ _; cbn; [|by apply ends_ret].
    apply ends_bind; intros w1 ? w1' Hw1 Hr1; [apply ends_throw|]; exact (ends_run d _ kept _ _ _ Hb Hw1 Hr1).
Qed.

Lemma kept_CreateProposal uid inp catalog : ends d (CreateProposal uid inp catalog) kept.
Proof using H1 Hrt Hparams Hwf.
  unfold CreateProposal. apply ends_read; [keeps|done|]. intros a wa wa' Hwa Ha.
  apply ends_read; [keeps|done|]. intros op ? ? _ Hop.
  apply ends_read; [keeps|done|]. intros [artifacts disc] w1 w2 _ Hsim.
  destruct (_ && _); [by apply ends_throw|].
  apply ends_read; [keeps|done|]. intros js w3 w4 _ _.
  do 3 (apply ends_read; [keeps|done|]; intros ? ? ? _ _).
  apply ends_last; [done| |intros; keeps]. intros i d' Hi. unfold InsertMultisigProposal in Hi.
  destruct (present (proposals d) _); [done|]. destruct (present (accounts d) _); [|done].
  destruct (present (users d) _); [|done]. cbn in Hi. injection Hi as _ <-. split; [done|]. cbn. intros k p'.
  rewrite lookup_insert_Some. intros [[_ <-]|[_ E]]; [left|right; by exists p'].
  destruct (getOwnedAccountByAddress_ok _ _ _ _ _ Ha) as (Hst & Haddr & [ka Hka]). rewrite Hwa in Hka.
  pose proof (pw_account_key _ Hwf _ _ Hka) as <-.
  exists a, op. cbn. split_and!; [done| |exact (simulate_tx _ _ _ _ _ _ Hrt Hsim)].
  rewrite Haddr. exact (reconstruct_built _ _ _ _ _ Hparams Hop).
Qed.

Lemma kept_RefreshProposal uid pid : ends d (RefreshProposal uid pid) kept.
Proof using Hrt Hwf.
  unfold RefreshProposal. apply (ends_owned _ Hwf); [done|]. intros id p a [] Hid _.
  apply ends_pending; [done|]. intros _. by eapply kept_rebuildProposal.
Qed.

Lemma kept_ApproveWebauthn uid pid mid s : ends d (ApproveWebauthn uid pid mid s) kept.
Proof using Type. apply kept_rest. unfold ApproveWebauthn. keeps. Qed.

Lemma kept_ApproveDelegatedBegin uid pid mid : ends d (ApproveDelegatedBegin uid pid mid) kept.
Proof using Hrt Hwf.
  unfold ApproveDelegatedBegin. apply (ends_owned _ Hwf); [done|]. intros id p a [] Hid _.
  apply ends_pending; [done|]. intros _. eapply kept_ensureFresh; [done..|]. apply kept_rest.
  unfold buildDelegatedCheckAuthTemplate. keeps.
Qed.

Lemma kept_ApproveDelegatedFinish uid pid mid s g : ends d (ApproveDelegatedFinish uid pid mid s g) kept.
Proof using Type. apply kept_rest. unfold ApproveDelegatedFinish. keeps. Qed.

Lemma kept_ExecuteProposal uid pid : ends d (ExecuteProposal uid pid) kept.
Proof using Hrt Hwf.
  unfold ExecuteProposal. apply (ends_owned _ Hwf); [done|]. intros id p a [] Hid _.
  apply ends_pending; [done|]. intros _. eapply kept_ensureFresh; [done..|]. apply kept_rest. keeps.
Qed.
End From.

Section Reach.
Context (Hrt : tx_round_trip) (Hparams : params_round_trip).

Lemma step_tx_live d d' :
  proposals_wf d -> transactions_live d -> proposal_step (J := J) d d' -> transactions_live d'.
Proof using Hrt Hparams.
  intros Hwf Hl Hs. revert Hwf Hl. destruct Hs as [op w]. intros Hwf Hl. eapply tx_keeps_live; [exact Hl|].
  destruct op; cbn.
  - by apply (kept_CreateProposal Hrt Hparams _ Hwf).
  - rewrite <- (keeps_ListProposals (J := J) userID smartAccountAddress w). done.
  - rewrite <- (keeps_GetProposal (J := J) userID proposalID w). done.
  - by apply (kept_RefreshProposal Hrt _ Hwf).
  - by apply kept_ApproveWebauthn.
  - by apply (kept_ApproveDelegatedBegin Hrt _ Hwf).
  - by apply kept_ApproveDelegatedFinish.
  - by apply (kept_ExecuteProposal Hrt _ Hwf).
Qed.

Lemma steps_tx_live d d' :
  proposals_wf d -> transactions_live d -> rtc (proposal_step (J := J)) d d' -> transactions_live d'.
Proof using Hrt Hparams.
  intros Hwf Hl Hs. revert Hwf Hl. induction Hs as [d|d d1 d' Hstep _ IH]; intros Hwf Hl; [done|].
  apply IH; [exact (pe_wf _ _ (proposal_step_evolve _ _ Hwf Hstep))|by eapply step_tx_live].
Qed.
End Reach.

(** The operations the service builds are neither sponsored nor user-paid. *)
Lemma reconstruct_function sa kind target params op :
  reconstructOperation sa kind target params = Ok op ->
  sponsoredWallet (op_HostFunction op) = None /\ isForwardShaped (op_HostFunction op) = false.
Proof using Type.
  unfold reconstructOperation. destruct (String.eqb kind "counter_increment").
  { unfold buildCounterIncrementOperation. destruct (String.eqb _ ""); [done|]. intros ?. run_inv. done. }
  destruct (String.eqb kind "sac_transfer"); [|done]. intros ?. run_inv.
  match goal with x : Z * Z |- _ => destruct x end. run_inv. done.
Qed.
End Coherent.

(** ** The two components together *)
Section Composed.
Context `{StellarSDK} `{Network} `{SubmitNetwork} `{Gasless} `{Unicode} `{UuidLib} `{Env} `{ServiceConfig}
  `{Json sacTransferOperationParams} `{Json (list string)} {J : Type} `{Json J}.
Abbreviation W := (World Store).
#[local] Existing Instance bundler_submitter.

(** C1. In every state requests can reach, an execution through
    [TransactionService] sends at most one thing: a transaction of the bundler
    that invokes the operation the proposal stores and shows — reconstructed from
    its kind, target and parameters — carrying the entries assembled from the
    account's threshold of approvals on record, after the network accepted that
    same call with those same entries in simulation. *)
Theorem executed_operation d uid pid (w w' : W) r :
  tx_round_trip -> params_round_trip ->
  proposals_wf d -> transactions_live d -> rtc (proposal_step (J := J)) d (w_store w) ->
  ExecuteProposal uid pid w = (r, w') ->
  chain (w_store w') = chain (w_store w) \/
  exists id p a ws ds entries op c, execution (w_store w) uid pid id p a ws ds entries /\
    reconstructOperation (ma_SmartAccountAddress a) (mp_OperationKind p) (mp_TargetContractID p)
      (mp_OperationParamsJson p) = Ok op /\
    bundler_sends [op_HostFunction op] entries c /\ chain (w_store w') = chain (w_store w) ++ [c].
Proof.
  intros Hrt Hparams Hwf Hl Hs Hr. pose proof (steps_tx_live Hrt Hparams _ _ Hwf Hl Hs) as Hl'.
  pose proof (pe_wf _ _ (proposal_steps_evolve _ _ Hwf Hs)) as Hwf'.
  destruct (execution_sends _ _ _ _ _ Hwf' Hr) as [E|(id & p & a & ws & ds & es & c & Hex & Hsub & E)]; [by left|].
  right. pose proof Hex as [[_ Ep Ea _] _ _ _ _ _ _ _].
  destruct (Hl' _ _ Ep) as (a' & op & Ea' & Hop & Hinv). rewrite Ea in Ea'. injection Ea' as <-.
  destruct Hsub as (fn & Hfn & Hc). rewrite Hinv in Hfn. injection Hfn as <-.
  destruct (reconstruct_function _ _ _ _ _ Hop) as [Hsp Hfw].
  exists id, p, a, ws, ds, es, op, c. split_and!; [done|done| |done]. inversion Hc as [_ Hb|wl Hw|wl n cfg _ Hw].
  - done.
  - congruence.
  - unfold forwardCallWallet in Hw. unfold isForwardShaped in Hfw. destruct (op_HostFunction op); [|done].
    by rewrite Hfw in Hw.
Qed.
End Composed.

Section Witnesses.
Import Demo DemoProposals DemoSubmit.

#[local] Instance demo_bundler : TransactionSubmitter :=
  bundler_submitter (H0 := demo_n) (H3 := demo_e).

Definition brun : list proposal_op -> World Store -> World Store :=
  run_ops (J := string) (H4 := demo_bundler) (H0 := demo_n) (H3 := demo_e).
Definition bundle_ready : World Store :=
  brun [OpCreate "1" increment_input []; OpWebauthn "1" "109" "20" "aabb"; OpBegin "2" "109" "21";
        OpFinish "2" "109" "21" signed64 ("G" +:+ key32)] world0.
Definition bexecute : M (World Store) SubmitResult :=
  ExecuteProposal (H4 := demo_bundler) (H0 := demo_n) (H3 := demo_e) "1" "109".

Lemma demo_tx_round_trip : tx_round_trip.
Proof. intros n tp b. apply safe_tx_build_ok. Qed.
Lemma demo_transactions_live : transactions_live (w_store world0).
Proof. intros k p. cbn. by rewrite lookup_empty. Qed.
Lemma bundle_steps :
  rtc (proposal_step (J := string) (H4 := demo_bundler) (H0 := demo_n) (H3 := demo_e))
    (w_store world0) (w_store bundle_ready).
Proof.
  exact (run_requests_steps (J := string) (H4 := demo_bundler) (H0 := demo_n) (H3 := demo_e) _ world0).
Qed.

Lemma executed_operation_witness :
  exists r w' op entries c, bexecute bundle_ready = (Ok r, w') /\
    bundler_sends (H0 := demo_n) [op_HostFunction op] entries c /\
    chain (w_store w') = chain (w_store bundle_ready) ++ [c].
Proof.
  assert (exists r w', bexecute bundle_ready = (Ok r, w') /\
    length (chain (w_store w')) <> length (chain (w_store bundle_ready))) as (r & w' & Hr & Hn)
    by (eexists _, _; split; [vm_compute; reflexivity | vm_compute; discriminate]).
  destruct (executed_operation (J := string) (H0 := demo_n) (H5 := demo_e) (w_store world0) "1" "109" bundle_ready w' (Ok r)
    demo_tx_round_trip demo_params_round_trip demo_wf demo_transactions_live bundle_steps Hr)
    as [E|(id & p & a & ws & ds & es & op & c & _ & _ & Hb & E)]; [rewrite E in Hn; by destruct Hn|].
  exists r, w', op, es, c. split; [exact Hr|]. split; [exact Hb|exact E].
Defined.
End Witnesses.
End Execution.
